(* ===== verification/_CoqProject ===== *)
-Q . S2P
Prelude.v
GoStrings.v
Programs.v
GoTime.v
TimeParse.v
GoFloat.v
Json.v
JsonOut.v
Url.v
Model.v
Payload.v
Schema.v
Store.v
Recurrence.v
Duration.v
Overlap.v
Scheduler.v
SchedulerSpec.v
Completion.v
Summary.v
RawSummary.v
Aggregator.v
SummarySpec.v
Ramping.v
Orchestrator.v
Startup.v
Requests.v
Results.v
MetricsV2.v
K6Config.v
K6ConfigSpec.v
EnvFileSpec.v
LoadTests.v
Enrichment.v
TestHandler.v
TestCompletion.v
TestApi.v
ReportSpec.v
TestSpec.v
CompletionSpec.v
ArtifactSpec.v
LostRuns.v
TestRuns.v
ScheduleHandler.v
ResultApi.v
Templates.v
TemplateSpec.v
TemplateExport.v
Sha256.v
JsonText.v
ScriptTexts.v
ScriptInject.v
ScriptFlow.v
ScriptPayload.v
ScriptAuth.v
Base64.v
AesGcm.v
Secrets.v
Environment.v
Dummy.v
DummyToken.v
DummyServe.v
DummySpec.v
DummyFlow.v
ScriptToken.v
WorkerClient.v
Dashboard.v
Settings.v
ScriptFiles.v
Users.v
Accounts.v
AccountsSpec.v
AccountsFlow.v
AccountsRuns.v
ScheduleApi.v
ApiEffects.v
Router.v
