(* ===== verification/Prelude.v ===== *)
(** * Shiva platform: a verification library for the controller

    ** The program

    The platform runs distributed k6 load tests.  The controller (a Go server
    under [src/controller/]) takes requests over HTTP, writes the script, the
    options and the environment of a test for a fixed set of k6 workers,
    restarts and resumes them, polls their REST interfaces while the test runs,
    drives the number of virtual users (VUs) where the controller is in charge
    of them, and at the end collects the summaries the workers upload, merges
    them with the live metrics and stores one result.  A scheduler starts
    stored tests at their time, once or repeatedly, through the same function
    the HTTP handler uses.

    ** The parts and the files

    Foundations (no code of the repository; the parts of Go's standard library
    that the source uses, and the shape of the model):
    - [Prelude]: 64-bit integers, record updates, the state monad [ST], lists;
      [MapOrder], the order in which a loop visits a Go map, is a parameter of
      whatever depends on it;
    - [Programs]: handlers as trees of atomic actions, alone ([run]) or in any
      interleaving ([sched]), and the rule that a relation kept by every action
      holds over all of them;
    - [GoStrings], [GoTime], [TimeParse], [GoFloat], [Json], [JsonOut],
      [JsonText], [Url]: strings and strconv, time, float64 at the bit level,
      encoding/json, net/url;
    - [Sha256], [Base64], [AesGcm]: the hash, the encoding and the cipher the
      source uses, written out.

    Tests and schedules (the names of the definitions are those of the source):
    - [Model]: the structs of model/model.go and their methods;
    - [Schema]: the tables of store/store.go and their migration at startup;
    - [Store], [LoadTests]: the statements of store/store.go on schedules and
      executions, and on test runs, as functions on tables;
    - [Recurrence], [Duration], [Overlap], [Scheduler]: package scheduler;
      [SchedulerSpec] has its specifications;
    - [Completion]: completion/registry.go, the uploads of running tests;
    - [Summary], [RawSummary], [SummarySpec]: scriptgen/summary.go;
    - [Aggregator], [Ramping], [Orchestrator], [Startup], [WorkerClient]:
      package orchestrator, the client of the workers' REST interface included;
    - [Requests], [Results], [MetricsV2], [Enrichment]: the pure parts of the
      handlers (validation, metadata, second metrics format, late uploads);
    - [TestHandler], [TestCompletion], [TestApi]: handler/test.go and
      handler/artifacts.go as programs on one shared world, with [ReportSpec]
      (what telling the scheduler of an end changes), [TestSpec],
      [CompletionSpec], [ArtifactSpec], [LostRuns] (runs that nothing ends any
      more) and the concrete runs of [TestRuns];
    - [ScheduleHandler]: handler/schedule.go, with [ScheduleApi] and
      [ApiEffects];
    - [ResultApi]: handler/result.go.

    Scripts (the rest of package scriptgen):
    - [Payload], [K6Config]: bodies, options, numbers of a script, environment
      file, with [K6ConfigSpec] and [EnvFileSpec];
    - [ScriptTexts], [ScriptInject], [ScriptFlow]: the texts of the templates
      and their rendering, what is added to a script and taken out of it, and
      the file the workers are given for a builder test;
    - [ScriptPayload], [ScriptAuth], [ScriptToken]: the JavaScript of a builder
      test, its preparation of the body, the tokens, iterations and metrics of a
      virtual user, and what the target service reads from its requests.

    The rest of the controller:
    - [Templates]: handler/template.go and its tables, with [TemplateSpec] and
      [TemplateExport];
    - [Users], [Accounts]: the tables of users and reset tokens, handler/auth.go
      and middleware/auth.go, with [AccountsSpec], [AccountsFlow] and the runs
      of [AccountsRuns];
    - [Secrets], [Environment], [Settings]: crypto, the variables and defaults
      of config/config.go, and what the server is started with;
    - [Dashboard], [ScriptFiles]: the proxy of the workers' dashboards, and the
      files served to the workers;
    - [Router]: the table of routes, the middleware in front of them and what a
      request meets on its way to its handler.

    The target service (src/dummy-service/main.go):
    - [Dummy], [DummyToken], [DummyServe]: its configuration, its tokens and its
      endpoints, with [DummySpec] and [DummyFlow].

    The interfaces between them are classes: [TestExecutor] (Scheduler) is what
    the scheduler needs of the test handler, and [handler_executor] (TestSpec)
    is the implementation, proved to be one; [ScriptText] is what the test
    handler needs of the script generator, and [controller_texts] (ScriptFlow)
    the implementation; [TzDatabase], [RowOrder], [PageOrder], [UuidSource],
    [JsonErrors], [DecodeErrors], [ErrGroup] and [TestConfig] are what the
    outside decides.

    ** The state

    [World] is what the scheduler and the schedule API act on: the two tables,
    the clocks, the source of IDs, the faults the database will have, and the
    active test.  [TestWorld] adds the table of runs, the orchestrator with its
    poll loops, the ramping manager, the upload registry, the pending metadata,
    the two shared directories and the scheduler's callbacks, which are absent
    when no scheduler is connected.  A method that holds a lock is one action; a
    handler is a sequence of them, because other handlers run in between.

    Two parts of the source hold no lock and are one step here all the same.  A
    tick of the scheduler, the start of its test included, is one step of
    [sched_step]: what other components do happens before or after it, in the
    steps [sched_outside].  In the test handlers a report of the end of a test
    ([OnTestComplete]) is one action: it writes two tables and takes a callback
    without anything in between.  Theorems about a tick or a report therefore
    say nothing of what happens when another component acts in the middle of
    one.

    ** What the theorems show

    - invariants over all interleavings: executions and callbacks of the
      scheduler, runs of the orchestrator with the polls of cancelled loops that
      still come in, the upload registry, and the rows of test runs and of the
      schedule tables ([handlers_safety]);
    - the migration of the schema takes nothing away, changes nothing when run
      again, and leaves every column the insertions write ([Migrate_spec]);
    - access control: who reaches which route ([router_guard]), what each
      caller sees and changes of schedules, templates, results and accounts
      ([api_safety], [templates_safety], [results_private], [accounts_safety]),
      and a reset token that is good for one password;
    - the effect of each entry point on every branch, errors included: a tick,
      a completion, startup recovery, a request to run a test, its completion,
      uploads, creations, deletions, updates;
    - progress: the collection of summaries returns within its window, and the
      completion of a test within 90 seconds and the time its calls take; the
      poll loop ends when it should;
    - correctness of the computations against their definitions in words:
      occurrences, overlap, sums of metrics, thresholds, the metrics of a
      result and where they come from, payload sizes, VUs over time, shares of
      the workers;
    - agreement of two implementations: the body a script makes on a worker is
      the one the controller reports ([payload_as_reported]); what the workers
      run for a builder test is one fixed text ([builder_script_written]);
    - the tokens of a virtual user: bounded requests, no token used after its
      end, state and metrics that count the same ([script_invariant]);
    - round trips: summaries through the stored text, templates through export
      and import, secrets through the cipher, sign-in tokens through the
      middleware, RFC 3339 times, durations, environment variables through the
      worker's shell, base64;
    - behaviours that are likely not intended, as theorems on a concrete state
      or on every state: occurrences beyond the horizon, monthly drift, the
      completion that closes another execution, a second test that the check
      for an active one lets through and a row that stays running, a late tick
      that writes into the next run, lost rates, stale ramps, a refused pause
      that counts.

    ** Bounds and fuel

    Loops the source bounds are bounded the same way: 100 occurrences
    ([ExpandOccurrences], [NextIncludedOccurrence]), 1000 moves of an overdue
    schedule, three start attempts and five resume tries, eight rounds of
    payload sizing.  The collection of summaries has 100 attempts: a theorem
    shows that it returns before they are used up when the deadline is at most
    90 seconds away, and another that it never is further.  The shortest
    decimal of a float64 is searched over 17 digits, as many as binary64 ever
    needs.  The removal of the options block of a script and the shell reader
    take the length of the text.  Recursion on texts and JSON values is
    structural.

    ** Assumptions

    - instants are unbounded integers (Go keeps 64-bit seconds), the local zone
      is UTC, the contents of the time-zone database are a parameter;
    - the database executes a statement atomically and as its text says, or
      fails; DATETIME rounding, [updated_at], the foreign key to users and
      collations are left out, row order among equal keys is a parameter and
      may be another one for every page of a listing ([PageOrder]), a
      JSON column gives back what was stored, and a stored result is kept
      decoded ([marshal_result] is what encoding does to it);
    - texts are valid UTF-8; integers in JSON options are below 2^53;
    - float64 arithmetic as on amd64: conversion of out-of-range values to int
      gives the smallest int, and no fused multiply-add; Go 1.21 for JSON;
    - what workers, the file system, the token endpoint and the target of a
      test answer is an argument; the resume of all workers and the wait until
      they are ready are one action each; how long the calls to the workers and
      the statements of a completion take is an argument of it ([end_env]);
    - [o_latestMetrics] is a value: the code keeps a pointer that nobody
      writes through after it is stored;
    - handlers get their bodies decoded into structs; logging and locks are not
      modelled; a method under a lock is atomic;
    - the JavaScript of a script runs as its language says; the two engines
      read numbers alike, and times in it are whole milliseconds.

    ** Not modelled

    Logging, timeouts of the server and its shutdown; the HTTP server, the
    controller's router library, the libraries for bcrypt and JWT and the database driver,
    which are parameters where their answers matter; the JavaScript that turns
    k6's metrics into the upload at the end of a run (its text is modelled, and
    the controller's reading of its output); the streaming of dashboards byte by
    byte.  The component list of the manifest says the same part by part. *)

From Stdlib Require Export ZArith Lia.
From stdpp Require Export base tactics numbers list list_numbers sorting option strings gmap.

(** ** Notations *)

Declare Scope go_scope.
Delimit Scope go_scope with go.
Open Scope Z_scope.

(** ** Machine integers

    Go's [int], [int64] and [time.Duration] are 64-bit two's complement on the
    platforms the controller is built for.  A value is a [Z]; every operation
    that the source performs on such a value is followed by [i64], the
    reduction to the representable range. *)

Definition i64_min : Z := - 2 ^ 63.
Definition i64_max : Z := 2 ^ 63 - 1.

Definition in_i64 (z : Z) : Prop := i64_min <= z <= i64_max.

Definition in_i64b (z : Z) : bool := (i64_min <=? z) && (z <=? i64_max).

Definition i64 (z : Z) : Z := (z + 2 ^ 63) mod 2 ^ 64 - 2 ^ 63.

Notation "a ⊞ b" := (i64 (a + b)) (at level 50, left associativity) : go_scope.
Notation "a ⊟ b" := (i64 (a - b)) (at level 50, left associativity) : go_scope.
Notation "a ⊠ b" := (i64 (a * b)) (at level 40, left associativity) : go_scope.
Open Scope go_scope.

(** [uint64] arithmetic, used by the hash of the dummy service. *)
Definition u64 (z : Z) : Z := z mod 2 ^ 64.

(** ** Automation shared by all components *)

Create HintDb shiva.
Create Rewrite HintDb shiva.

(** Unfolds the integer bounds to the literals [lia] can use. *)
Ltac i64_lia := unfold in_i64, i64_min, i64_max in *; lia.

(** Case analysis on the first test of the goal or of a hypothesis, remembering
    the outcome. *)
Ltac break_test :=
  match goal with
  | |- context [if ?b then _ else _] => destruct b eqn:?
  | H : context [if ?b then _ else _] |- _ => destruct b eqn:?
  end.

Ltac break_match_goal :=
  match goal with
  | |- context [match ?x with _ => _ end] => destruct x eqn:?
  end.

(** Boolean tests turned into propositions. *)
Ltac bool_prop :=
  repeat match goal with
  | H : _ && _ = true |- _ => apply andb_true_iff in H as [? ?]
  | H : _ && _ = false |- _ => apply andb_false_iff in H
  | H : _ || _ = false |- _ => apply orb_false_iff in H as [? ?]
  | H : _ || _ = true |- _ => apply orb_true_iff in H
  | H : negb _ = true |- _ => apply negb_true_iff in H
  | H : negb _ = false |- _ => apply negb_false_iff in H
  | H : (_ <? _) = true |- _ => apply Z.ltb_lt in H
  | H : (_ <? _) = false |- _ => apply Z.ltb_ge in H
  | H : (_ <=? _) = true |- _ => apply Z.leb_le in H
  | H : (_ <=? _) = false |- _ => apply Z.leb_gt in H
  | H : (_ =? _) = true |- _ => apply Z.eqb_eq in H
  | H : (_ =? _) = false |- _ => apply Z.eqb_neq in H
  | H : String.eqb _ _ = true |- _ => apply String.eqb_eq in H
  | H : String.eqb _ _ = false |- _ => apply String.eqb_neq in H
  | H : bool_decide _ = true |- _ => apply bool_decide_eq_true in H
  | H : bool_decide _ = false |- _ => apply bool_decide_eq_false in H
  end.

(** ** Lemmas on machine integers *)

Lemma i64_id (z : Z) : in_i64 z -> i64 z = z.
Proof.
  intros H. unfold i64. rewrite Z.mod_small; [lia|]. i64_lia.
Qed.

Lemma i64_range (z : Z) : in_i64 (i64 z).
Proof.
  unfold in_i64, i64, i64_min, i64_max.
  pose proof (Z.mod_pos_bound (z + 2 ^ 63) (2 ^ 64) ltac:(lia)). lia.
Qed.

Lemma i64_idemp (z : Z) : i64 (i64 z) = i64 z.
Proof. apply i64_id, i64_range. Qed.

Lemma in_i64b_spec (z : Z) : in_i64b z = true <-> in_i64 z.
Proof.
  unfold in_i64b, in_i64. rewrite andb_true_iff, !Z.leb_le. done.
Qed.

(** Two's complement arithmetic only depends on the operands modulo 2^64. *)
Lemma i64_eqm (a b : Z) : a mod 2 ^ 64 = b mod 2 ^ 64 -> i64 a = i64 b.
Proof.
  intros H. unfold i64. f_equal.
  rewrite <- Z.add_mod_idemp_l, H, Z.add_mod_idemp_l by lia. done.
Qed.

Lemma i64_mod (z : Z) : i64 z mod 2 ^ 64 = z mod 2 ^ 64.
Proof.
  unfold i64. rewrite Zminus_mod, Zmod_mod, <- Zminus_mod. f_equal. lia.
Qed.

Lemma i64_add_l (a b : Z) : (i64 a ⊞ b) = (a ⊞ b).
Proof.
  apply i64_eqm. rewrite <- Z.add_mod_idemp_l, i64_mod, Z.add_mod_idemp_l by lia. done.
Qed.

Lemma i64_add_r (a b : Z) : (a ⊞ i64 b) = (a ⊞ b).
Proof. rewrite Z.add_comm, i64_add_l, Z.add_comm. done. Qed.

#[export] Hint Resolve i64_range : shiva.
#[export] Hint Rewrite i64_idemp i64_add_l i64_add_r : shiva.

(** ** State monad

    Stateful code is a function from the state to the result and the next
    state; the [do]-notation of stdpp ([x ← m; k]) sequences it. *)

Definition ST (S A : Type) : Type := S -> A * S.

#[export] Instance ST_ret {S} : MRet (ST S) := fun A a s => (a, s).
#[export] Instance ST_bind {S} : MBind (ST S) :=
  fun A B (f : A -> ST S B) m s => let '(a, s') := m s in f a s'.

Definition st_get {S} : ST S S := fun s => (s, s).
Definition st_put {S} (s : S) : ST S unit := fun _ => (tt, s).
Definition st_modify {S} (f : S -> S) : ST S unit := fun s => (tt, f s).

(** Final state and result of a computation. *)
Definition st_exec {S A} (m : ST S A) (s : S) : S := (m s).2.
Definition st_eval {S A} (m : ST S A) (s : S) : A := (m s).1.

Lemma st_exec_bind {S A B} (m : ST S A) (f : A -> ST S B) (s : S) :
  st_exec (m ≫= f) s = st_exec (f (st_eval m s)) (st_exec m s).
Proof. unfold st_exec, st_eval, mbind, ST_bind. destruct (m s); done. Qed.

(** A predicate on states kept by a computation; invariants of components are
    stated with it. *)
Definition preserves {S A} (P : S -> Prop) (m : ST S A) : Prop :=
  forall s, P s -> P (st_exec m s).

Lemma preserves_ret {S A} (P : S -> Prop) (a : A) : preserves P (mret a : ST S A).
Proof. intros s Hs. exact Hs. Qed.

Lemma preserves_bind {S A B} (P : S -> Prop) (m : ST S A) (f : A -> ST S B) :
  preserves P m -> (forall a, preserves P (f a)) -> preserves P (m ≫= f).
Proof.
  intros Hm Hf s Hs. rewrite st_exec_bind. apply Hf, Hm, Hs.
Qed.

Lemma preserves_modify {S} (P : S -> Prop) (f : S -> S) :
  (forall s, P s -> P (f s)) -> preserves P (st_modify f).
Proof. intros H s Hs. apply H, Hs. Qed.

#[export] Hint Resolve preserves_ret : shiva.

(** ** Results: Go's pair of a value and an error *)

Inductive res (A : Type) : Type :=
  | Ok (a : A)
  | Err (msg : string).
Arguments Ok {A} a.
Arguments Err {A} msg.

Definition is_ok {A} (r : res A) : bool := match r with Ok _ => true | Err _ => false end.

(** ** Transition systems

    Reachability of a step relation, with the induction principle used for
    the invariants of the concurrent components. *)
Section transition_system.
Context {S E : Type} (init : S -> Prop) (step : S -> E -> S -> Prop).

Inductive reachable : S -> Prop :=
  | reach_init s : init s -> reachable s
  | reach_step s e s' : reachable s -> step s e s' -> reachable s'.

Lemma reachable_invariant (I : S -> Prop) :
  (forall s, init s -> I s) ->
  (forall s e s', reachable s -> I s -> step s e s' -> I s') ->
  forall s, reachable s -> I s.
Proof.
  intros Hinit Hstep s Hs. induction Hs as [s Hs | s e s' Hs IH Hst].
  - auto.
  - eapply Hstep; eauto.
Qed.
End transition_system.

(** ** Lists *)

(** Longest prefix on which [f] holds: the [for ... { if !f { break } }] loop. *)
Fixpoint take_while {A} (f : A -> bool) (l : list A) : list A :=
  match l with
  | [] => []
  | x :: l => if f x then x :: take_while f l else []
  end.

Lemma take_while_length {A} (f : A -> bool) (l : list A) :
  (length (take_while f l) <= length l)%nat.
Proof. induction l as [|x l IH]; simpl; [lia|]. destruct (f x); simpl; lia. Qed.

Lemma take_while_all {A} (f : A -> bool) (l : list A) x :
  x ∈ take_while f l -> f x = true.
Proof.
  induction l as [|y l IH]; simpl; [set_solver|].
  destruct (f y) eqn:E; set_solver.
Qed.

(** Sum of a list of integers. *)
Definition zsum (l : list Z) : Z := foldr Z.add 0 l.

Lemma zsum_app (l k : list Z) : zsum (l ++ k) = zsum l + zsum k.
Proof. unfold zsum. induction l as [|x l IH]; simpl; lia. Qed.

Lemma foldl_zsum (l : list Z) (a : Z) : foldl Z.add a l = a + zsum l.
Proof.
  revert a. unfold zsum. induction l as [|x l IH]; intros a; simpl; [lia|].
  rewrite IH. lia.
Qed.

(** Maximum of a list of integers with a starting value: the running maximum
    of a [for] loop. *)
Definition zmax (a : Z) (l : list Z) : Z := foldl Z.max a l.

Lemma zmax_ge_init (l : list Z) (a : Z) : a <= zmax a l.
Proof.
  unfold zmax. revert a. induction l as [|x l IH]; intros a; simpl; [lia|].
  specialize (IH (Z.max a x)). lia.
Qed.

Lemma zmax_ge (l : list Z) (a x : Z) : x ∈ l -> x <= zmax a l.
Proof.
  unfold zmax. revert a. induction l as [|y l IH]; intros a Hx; simpl; [set_solver|].
  apply elem_of_cons in Hx as [-> | Hx]; [|auto].
  pose proof (zmax_ge_init l (Z.max a y)) as H. unfold zmax in H. lia.
Qed.

Lemma zmax_cases (l : list Z) (a : Z) : zmax a l = a \/ zmax a l ∈ l.
Proof.
  unfold zmax. revert a. induction l as [|y l IH]; intros a; simpl; [auto|].
  destruct (IH (Z.max a y)) as [H|H]; [|rewrite elem_of_cons; auto].
  destruct (Z.max_spec a y) as [[_ E]|[_ E]]; rewrite H, E, ?elem_of_cons; auto.
Qed.

Lemma zmax_perm (l k : list Z) (a : Z) : l ≡ₚ k -> zmax a l = zmax a k.
Proof.
  intros Hp. unfold zmax. revert a.
  induction Hp as [| |x y l| l1 l2 l3 _ IH1 _ IH2]; intros a; simpl.
  - done.
  - auto.
  - f_equal. lia.
  - rewrite IH1. auto.
Qed.

Lemma filter_perm {A} (p : A -> bool) (l k : list A) : l ≡ₚ k -> List.filter p l ≡ₚ List.filter p k.
Proof.
  induction 1 as [|x l k _ IH|x y l|l k j _ IH1 _ IH2]; simpl; [done| | |by etrans].
  - destruct (p x); by rewrite IH.
  - destruct (p x), (p y); try done. apply Permutation_swap.
Qed.

(** ** Record update

    [r <| p := v |>] is [r] with field [p] set to [v].  A record type gives its
    eta-expansion as an instance of [Eta]; the setter of a field is computed
    from it by abstracting the projection. *)
Class Eta (R : Type) : Type := eta_expand : R -> R.

Class Setter {R T : Type} (p : R -> T) : Type := update_field : (T -> T) -> R -> R.
Arguments update_field {R T} p {_} _ _ /.

Ltac derive_setter :=
  match goal with
  | |- @Setter ?R ?T ?p =>
    let e := constr:(_ : Eta R) in
    let e := eval hnf in e in
    match eval pattern p in e with
    | ?g _ => exact (fun f : T -> T => g (fun r : R => f (p r)))
    end
  end.

#[export] Hint Extern 0 (Setter _) => derive_setter : typeclass_instances.

Notation "r <| p := v |>" := (update_field p (fun _ => v) r)
  (at level 1, left associativity, p global, v at level 99, format "r  <| p  :=  v |>") : go_scope.

(** The first answer of a search over a list: the [for ... { return }] loop. *)
Fixpoint first_some {A B} (f : A -> option B) (l : list A) : option B :=
  match l with
  | [] => None
  | x :: l' => match f x with Some y => Some y | None => first_some f l' end
  end.

Lemma first_some_None {A B} (f : A -> option B) (l : list A) :
  first_some f l = None <-> forall x, x ∈ l -> f x = None.
Proof.
  induction l as [|x l IH]; simpl.
  - split; [intros _ x Hx; by apply not_elem_of_nil in Hx | done].
  - destruct (f x) eqn:E.
    + split; [done|]. intros H. rewrite H in E; [done|]. apply elem_of_cons. auto.
    + rewrite IH. split.
      * intros H y Hy. apply elem_of_cons in Hy as [-> | Hy]; auto.
      * intros H y Hy. apply H, elem_of_cons. auto.
Qed.

Lemma first_some_Some {A B} (f : A -> option B) (l : list A) (y : B) :
  first_some f l = Some y -> exists x, x ∈ l /\ f x = Some y.
Proof.
  induction l as [|x l IH]; simpl; [done|].
  destruct (f x) eqn:E.
  - intros [= <-]. exists x. split; [apply elem_of_cons; auto|done].
  - intros H. destruct (IH H) as (z & Hz & Hf). exists z. split; [apply elem_of_cons; auto|done].
Qed.

(** ** The iteration order of Go maps

    [range] over a map visits every entry once, in an unspecified order. *)
Class MapOrder := {
  range_over : forall {A : Type}, list (string * A) -> list (string * A);
  range_over_perm : forall {A : Type} (l : list (string * A)), range_over l ≡ₚ l
}.

Definition id_map_order : MapOrder := {|
  range_over := fun A l => l;
  range_over_perm := fun A l => reflexivity l
|}.

Definition rev_map_order : MapOrder := {|
  range_over := fun A l => reverse l;
  range_over_perm := fun A l => reverse_Permutation l
|}.

(** A running maximum whose values are computed from the entries of a map does
    not depend on the order. *)
Lemma zmax_range {A} (o1 o2 : MapOrder) (f : string * A -> Z) (a : Z) (l : list (string * A)) :
  zmax a (map f (range_over (MapOrder := o1) l)) = zmax a (map f (range_over (MapOrder := o2) l)).
Proof. apply zmax_perm, fmap_Permutation. rewrite !range_over_perm. done. Qed.
