(* ===== verification/GoStrings.v ===== *)
(** * The functions of Go's [strings] and [strconv] that the controller uses

    A Go string is a sequence of bytes, here Rocq's [string].  Only the
    functions the source calls are modelled, with the behaviour of the Go
    standard library: [strings.TrimSpace] removes every Unicode white-space
    rune (recognised by its UTF-8 encoding), [strconv.Atoi] accepts an optional
    sign and decimal digits and reports values outside [int64]. *)

From stdpp Require Import pretty.
From S2P Require Export Prelude.

Definition byte_of (c : Ascii.ascii) : Z := Z.of_N (Ascii.N_of_ascii c).

(** ** White space *)

(** The one-byte white-space runes: tab, line feed, vertical tab, form feed,
    carriage return and space. *)
Definition is_ascii_space (c : Ascii.ascii) : bool :=
  let b := byte_of c in ((9 <=? b) && (b <=? 13)) || (b =? 32).

(** UTF-8 encodings of U+0085 and U+00A0. *)
Definition is_space2 (a b : Ascii.ascii) : bool :=
  (byte_of a =? 194) && ((byte_of b =? 133) || (byte_of b =? 160)).

(** UTF-8 encodings of U+1680, U+2000 to U+200A, U+2028, U+2029, U+202F,
    U+205F and U+3000. *)
Definition is_space3 (a b c : Ascii.ascii) : bool :=
  let x := byte_of a in let y := byte_of b in let z := byte_of c in
  ((x =? 225) && (y =? 154) && (z =? 128)) ||
  ((x =? 226) && (y =? 128) &&
     (((128 <=? z) && (z <=? 138)) || (z =? 168) || (z =? 169) || (z =? 175))) ||
  ((x =? 226) && (y =? 129) && (z =? 159)) ||
  ((x =? 227) && (y =? 128) && (z =? 128)).

(** [strings.TrimLeftFunc(s, unicode.IsSpace)]. *)
Fixpoint trim_left (s : string) : string :=
  match s with
  | EmptyString => EmptyString
  | String a s1 =>
    if is_ascii_space a then trim_left s1 else
    match s1 with
    | EmptyString => s
    | String b s2 =>
      if is_space2 a b then trim_left s2 else
      match s2 with
      | EmptyString => s
      | String c s3 => if is_space3 a b c then trim_left s3 else s
      end
    end
  end.

(** The same scan from the right end, on the reversed string. *)
Fixpoint trim_left_rev (s : string) : string :=
  match s with
  | EmptyString => EmptyString
  | String a s1 =>
    if is_ascii_space a then trim_left_rev s1 else
    match s1 with
    | EmptyString => s
    | String b s2 =>
      if is_space2 b a then trim_left_rev s2 else
      match s2 with
      | EmptyString => s
      | String c s3 => if is_space3 c b a then trim_left_rev s3 else s
      end
    end
  end.

Definition string_rev (s : string) : string :=
  String.string_of_list_ascii (reverse (String.list_ascii_of_string s)).

Definition trim_space (s : string) : string :=
  string_rev (trim_left_rev (string_rev (trim_left s))).

(** [strings.TrimSpace(s) == ""]. *)
Definition blank (s : string) : bool := String.eqb (trim_space s) "".

(** ** Last byte and the string without it: [d[len(d)-1]] and [d[:len(d)-1]] *)

Fixpoint split_last (s : string) : option (string * Ascii.ascii) :=
  match s with
  | EmptyString => None
  | String c EmptyString => Some (EmptyString, c)
  | String c s' =>
    match split_last s' with
    | Some (init, l) => Some (String c init, l)
    | None => None
    end
  end.

(** ** [strconv.Atoi] and [strconv.Itoa] *)

Definition digit_val (c : Ascii.ascii) : option Z :=
  let b := byte_of c in
  if (48 <=? b) && (b <=? 57) then Some (b - 48) else None.

Fixpoint parse_digits (acc : Z) (s : string) : option Z :=
  match s with
  | EmptyString => Some acc
  | String c s' =>
    match digit_val c with
    | Some d => parse_digits (10 * acc + d) s'
    | None => None
    end
  end.

(** A non-empty run of digits. *)
Definition parse_uint (s : string) : option Z :=
  match s with EmptyString => None | _ => parse_digits 0 s end.

Definition parse_int (s : string) : option Z :=
  match s with
  | String c s' =>
    if byte_of c =? 43 then parse_uint s'
    else if byte_of c =? 45 then (fun z => - z) <$> parse_uint s'
    else parse_uint s
  | EmptyString => None
  end.

(** [strconv.Atoi]: [None] stands for a non-nil error (syntax or range). *)
Definition atoi (s : string) : option Z :=
  z ← parse_int s; if in_i64b z then Some z else None.

Definition itoa (z : Z) : string := pretty z.

(** ** Searching and splitting *)

Definition has_prefix (s p : string) : bool := String.prefix p s.

(** [strings.HasSuffix]. *)
Definition has_suffix (s p : string) : bool := String.prefix (string_rev p) (string_rev s).

Definition contains (s sub : string) : bool :=
  match String.index 0 sub s with Some _ => true | None => false end.

(** [strings.Split(s, sep)] for a one-byte separator. *)
Fixpoint split_on (sep : Ascii.ascii) (s : string) : list string :=
  match s with
  | EmptyString => [EmptyString]
  | String c s' =>
    if Ascii.eqb c sep then EmptyString :: split_on sep s'
    else match split_on sep s' with
         | w :: ws => String c w :: ws
         | [] => [String c EmptyString]
         end
  end.

(** [strings.SplitN(s, sep, 2)] for a one-byte separator: [Some] of the two
    parts when the separator occurs. *)
Fixpoint split_first (sep : Ascii.ascii) (s : string) : option (string * string) :=
  match s with
  | EmptyString => None
  | String c s' =>
    if Ascii.eqb c sep then Some (EmptyString, s')
    else '(a, b) ← split_first sep s'; Some (String c a, b)
  end.

Definition join (sep : string) (l : list string) : string := String.concat sep l.

(** The byte-wise order of Go's string comparison, used by [sort.Strings]. *)
Fixpoint string_leb (s t : string) : bool :=
  match s, t with
  | EmptyString, _ => true
  | String _ _, EmptyString => false
  | String a s', String b t' =>
    (byte_of a <? byte_of b) || ((byte_of a =? byte_of b) && string_leb s' t')
  end.

Definition string_le (s t : string) : Prop := string_leb s t = true.

#[export] Instance string_le_dec : RelDecision string_le.
Proof. intros s t. unfold string_le. apply _. Defined.

(** ** Lemmas *)

Lemma byte_of_inj (a b : Ascii.ascii) : byte_of a = byte_of b -> a = b.
Proof.
  unfold byte_of. intros H. apply N2Z.inj in H.
  rewrite <- (Ascii.ascii_N_embedding a), H. apply Ascii.ascii_N_embedding.
Qed.

Lemma string_le_refl (s : string) : string_le s s.
Proof.
  unfold string_le. induction s as [|a s IH]; simpl; [done|].
  rewrite Z.eqb_refl, IH. apply orb_true_r.
Qed.

#[export] Instance string_le_total : Total string_le.
Proof.
  unfold string_le. intros s. induction s as [|a s IH]; intros [|b t]; simpl; auto.
  destruct (IH t) as [H|H]; rewrite H;
    destruct (Z.lt_trichotomy (byte_of a) (byte_of b)) as [L|[L|L]];
    rewrite ?(proj2 (Z.ltb_lt _ _) L), ?L, ?Z.eqb_refl, ?orb_true_r; auto.
Qed.

#[export] Instance string_le_trans : Transitive string_le.
Proof.
  unfold string_le. intros s. induction s as [|a s IH]; intros [|b t] [|c u]; simpl; try done.
  rewrite !orb_true_iff, !andb_true_iff, !Z.ltb_lt, !Z.eqb_eq.
  intros [H1|[H1 K1]] [H2|[H2 K2]]; try (left; lia).
  right. split; [lia|]. eauto.
Qed.

#[export] Instance string_le_antisymm : AntiSymm (=) string_le.
Proof.
  unfold string_le. intros s. induction s as [|a s IH]; intros [|b t]; simpl; try done.
  rewrite !orb_true_iff, !andb_true_iff, !Z.ltb_lt, !Z.eqb_eq.
  intros [H1|[H1 K1]] [H2|[H2 K2]]; try lia.
  f_equal; [by apply byte_of_inj | auto].
Qed.

Lemma atoi_range (s : string) (z : Z) : atoi s = Some z -> in_i64 z.
Proof.
  unfold atoi. destruct (parse_int s) as [w|]; simpl; [|done].
  destruct (in_i64b w) eqn:E; [|done]. intros [= ->]. by apply in_i64b_spec.
Qed.

Lemma split_last_spec (s : string) :
  match split_last s with
  | None => s = ""
  | Some (init, c) => s = (init +:+ String c "")%string
  end.
Proof.
  induction s as [|a s IH]; simpl; [done|].
  destruct s as [|b s]; [done|].
  destruct (split_last (String b s)) as [[i l]|]; [|by simplify_eq IH].
  rewrite IH. done.
Qed.

Lemma split_last_snoc (s : string) (c : Ascii.ascii) :
  split_last (s +:+ String c "") = Some (s, c).
Proof.
  induction s as [|a s IH]; simpl; [done|].
  destruct s as [|b s]; simpl in *; [done|]. by rewrite IH.
Qed.

(** ** Decimal texts *)

Lemma digit_val_char (d : N) : (d < 10)%N -> digit_val (pretty_N_char d) = Some (Z.of_N d).
Proof.
  intros Hd. assert (d = 0 \/ d = 1 \/ d = 2 \/ d = 3 \/ d = 4 \/ d = 5 \/ d = 6 \/ d = 7 \/ d = 8 \/ d = 9)%N
    as H by lia.
  repeat (destruct H as [->|H]; [reflexivity|]). subst. reflexivity.
Qed.

Lemma parse_digits_go (x : N) (s : string) :
  parse_digits 0 (pretty_N_go x s) = parse_digits (Z.of_N x) s.
Proof.
  revert s. induction (N.lt_wf_0 x) as [x _ IH]; intros s.
  assert (x = 0 \/ 0 < x)%N as [->|Hx] by lia; [done|].
  rewrite pretty_N_go_step by done. rewrite IH by (by apply N.div_lt). simpl.
  rewrite digit_val_char by (by apply N.mod_lt). f_equal.
  rewrite N2Z.inj_div, N2Z.inj_mod. change (Z.of_N 10) with 10. Z.div_mod_to_equations. lia.
Qed.

(** Bytes that no white-space rune starts or ends with. *)
Definition visible (c : Ascii.ascii) : bool := (33 <=? byte_of c) && (byte_of c <=? 126).

Definition starts_with (p : Ascii.ascii -> bool) (s : string) : bool :=
  match s with String c _ => p c | EmptyString => false end.

Definition decimal (c : Ascii.ascii) : bool :=
  match digit_val c with Some _ => true | None => false end.

Lemma decimal_visible (c : Ascii.ascii) : decimal c = true -> visible c = true.
Proof.
  unfold decimal, digit_val, visible.
  destruct ((48 <=? byte_of c) && (byte_of c <=? 57)) eqn:E; [|done]. bool_prop. intros _.
  apply andb_true_iff. rewrite !Z.leb_le. lia.
Qed.

Lemma starts_decimal_go (x : N) (s : string) :
  starts_with decimal s = true -> starts_with decimal (pretty_N_go x s) = true.
Proof.
  revert s. induction (N.lt_wf_0 x) as [x _ IH]; intros s Hs.
  assert (x = 0 \/ 0 < x)%N as [->|Hx] by lia; [done|].
  rewrite pretty_N_go_step by done. apply IH; [by apply N.div_lt|]. simpl.
  unfold decimal. by rewrite digit_val_char by (by apply N.mod_lt).
Qed.

(** A printed non-negative number is a non-empty run of digits. *)
Lemma itoa_decimal (n : Z) :
  0 <= n -> starts_with decimal (itoa n) = true /\ parse_digits 0 (itoa n) = Some n.
Proof.
  intros Hn. unfold itoa. destruct n as [|p|p]; [done| |lia].
  change (pretty (Zpos p)) with (pretty_N_go (Npos p) "").
  rewrite parse_digits_go. split; [|done].
  rewrite pretty_N_go_step by done. apply starts_decimal_go. simpl.
  unfold decimal. by rewrite digit_val_char by (by apply N.mod_lt).
Qed.

Lemma itoa_inj (m n : Z) : itoa m = itoa n -> m = n.
Proof. unfold itoa. apply (inj pretty). Qed.

(** Printing and reading a non-negative number. *)
Lemma parse_int_itoa (n : Z) : 0 <= n -> parse_int (itoa n) = Some n.
Proof.
  intros Hn. destruct (itoa_decimal n Hn) as [Hs Hp]. unfold parse_int, parse_uint. destruct (itoa n) as [|c s]; [done|].
  unfold starts_with, decimal, digit_val in Hs.
  destruct ((48 <=? byte_of c) && (byte_of c <=? 57)) eqn:E; [bool_prop|done].
  rewrite (proj2 (Z.eqb_neq _ _)), (proj2 (Z.eqb_neq (byte_of c) 45)) by lia. done.
Qed.

Lemma atoi_itoa (n : Z) : 0 <= n <= i64_max -> atoi (itoa n) = Some n.
Proof.
  intros Hn. unfold atoi. rewrite parse_int_itoa by lia.
  simpl. rewrite (proj2 (in_i64b_spec n)); [done|]. i64_lia.
Qed.

Lemma visible_not_space (c : Ascii.ascii) :
  visible c = true ->
  is_ascii_space c = false /\ (forall b, is_space2 c b = false /\ is_space2 b c = false) /\
  (forall a b, is_space3 c a b = false /\ is_space3 a b c = false).
Proof.
  unfold visible, is_ascii_space, is_space2, is_space3. intros H. bool_prop.
  split_and!; intros; try split; lia.
Qed.

Lemma trim_left_visible (c : Ascii.ascii) (s : string) :
  visible c = true ->
  trim_left (String c s) = String c s /\ trim_left_rev (String c s) = String c s.
Proof.
  intros Hc. apply visible_not_space in Hc as (H1 & H2 & H3). simpl. rewrite H1.
  destruct s as [|b [|d s]]; [done| |].
  - destruct (H2 b) as [-> ->]. done.
  - destruct (H2 b) as [-> ->]. destruct (H3 b d) as [-> _]. destruct (H3 d b) as [_ ->]. done.
Qed.

Lemma list_ascii_app (s t : string) :
  String.list_ascii_of_string (s +:+ t) = String.list_ascii_of_string s ++ String.list_ascii_of_string t.
Proof.
  induction s as [|c s IH]; [done|]. change (String c s +:+ t) with (String c (s +:+ t)).
  cbn [String.list_ascii_of_string app]. by rewrite IH.
Qed.

Lemma append_inj_head (a b c : string) : (a +:+ b = a +:+ c)%string -> b = c.
Proof. induction a as [|x a IH]; cbn; [done|]. intros He. apply IH. by simplify_eq. Qed.

Lemma append_inj_tail (a b c : string) : (a +:+ c = b +:+ c)%string -> a = b.
Proof.
  intros He. apply (f_equal String.list_ascii_of_string) in He.
  rewrite !list_ascii_app in He. apply app_inv_tail in He.
  rewrite <- (String.string_of_list_ascii_of_string a), He. apply String.string_of_list_ascii_of_string.
Qed.

Lemma string_rev_snoc (s : string) (c : Ascii.ascii) :
  string_rev (s +:+ String c "") = String c (string_rev s).
Proof.
  unfold string_rev. rewrite list_ascii_app. change (String.list_ascii_of_string (String c "")) with [c]. by rewrite reverse_snoc.
Qed.

Lemma string_rev_cons (s : string) (c : Ascii.ascii) :
  string_rev (String c s) = string_rev s +:+ String c "".
Proof.
  unfold string_rev. simpl. rewrite reverse_cons.
  generalize (reverse (String.list_ascii_of_string s)) as l.
  induction l as [|a l IH]; simpl; [done|]. by rewrite IH.
Qed.

Lemma string_rev_involutive (s : string) : string_rev (string_rev s) = s.
Proof.
  unfold string_rev. rewrite String.list_ascii_of_string_of_list_ascii, reverse_involutive.
  apply String.string_of_list_ascii_of_string.
Qed.

(** Trimming leaves a text alone that starts and ends with a visible byte. *)
Lemma trim_space_visible (s : string) (u : Ascii.ascii) :
  starts_with visible (s +:+ String u "") = true -> visible u = true ->
  trim_space (s +:+ String u "") = s +:+ String u "".
Proof.
  intros Hs Hu. unfold trim_space.
  assert (trim_left (s +:+ String u "") = s +:+ String u "") as ->.
  { destruct (s +:+ String u "") as [|c t]; [done|]. by apply trim_left_visible. }
  rewrite string_rev_snoc. rewrite (proj2 (trim_left_visible u (string_rev s) Hu)).
  rewrite string_rev_cons, string_rev_involutive. done.
Qed.

Lemma starts_with_app (p : Ascii.ascii -> bool) (s t : string) :
  starts_with p s = true -> starts_with p (s +:+ t) = true.
Proof. by destruct s. Qed.

Lemma starts_with_impl (p q : Ascii.ascii -> bool) (s : string) :
  (forall c, p c = true -> q c = true) -> starts_with p s = true -> starts_with q s = true.
Proof. destruct s as [|c s]; simpl; auto. Qed.

Example trim_space_ex : trim_space " 	30s 
" = "30s".
Proof. reflexivity. Qed.

Example atoi_ex : (atoi "-042", atoi "9223372036854775808", atoi "1_0", atoi "+") =
  (Some (-42), None, None, None).
Proof. reflexivity. Qed.

(** ** Trimming twice *)

(** The text starts with a white-space rune; the second reads it backwards. *)
Definition lead_space (s : string) : bool :=
  match s with
  | String a (String b (String c _)) => is_ascii_space a || is_space2 a b || is_space3 a b c
  | String a (String b EmptyString) => is_ascii_space a || is_space2 a b
  | String a EmptyString => is_ascii_space a
  | EmptyString => false
  end.

Definition lead_space_rev (s : string) : bool :=
  match s with
  | String a (String b (String c _)) => is_ascii_space a || is_space2 b a || is_space3 c b a
  | String a (String b EmptyString) => is_ascii_space a || is_space2 b a
  | String a EmptyString => is_ascii_space a
  | EmptyString => false
  end.

Ltac string_cases s :=
  let a := fresh "a" in let b := fresh "b" in let c := fresh "c" in let t := fresh "t" in
  destruct s as [|a [|b [|c t]]].

(** Induction over all shorter texts. *)
Lemma string_len_ind (P : string -> Prop) :
  (forall s, (forall t, (String.length t < String.length s)%nat -> P t) -> P s) -> forall s, P s.
Proof. intros H. exact (well_founded_ind (well_founded_ltof _ String.length) P H). Qed.

Lemma trim_left_eq (s : string) :
  trim_left s =
  match s with
  | String a s1 =>
    if is_ascii_space a then trim_left s1 else
    match s1 with
    | String b s2 =>
      if is_space2 a b then trim_left s2 else
      match s2 with
      | String c s3 => if is_space3 a b c then trim_left s3 else s
      | EmptyString => s
      end
    | EmptyString => s
    end
  | EmptyString => EmptyString
  end.
Proof. by string_cases s. Qed.

Lemma trim_left_rev_eq (s : string) :
  trim_left_rev s =
  match s with
  | String a s1 =>
    if is_ascii_space a then trim_left_rev s1 else
    match s1 with
    | String b s2 =>
      if is_space2 b a then trim_left_rev s2 else
      match s2 with
      | String c s3 => if is_space3 c b a then trim_left_rev s3 else s
      | EmptyString => s
      end
    | EmptyString => s
    end
  | EmptyString => EmptyString
  end.
Proof. by string_cases s. Qed.

Lemma trim_left_lead (s : string) : lead_space (trim_left s) = false.
Proof.
  induction s as [s IH] using string_len_ind. string_cases s; rewrite trim_left_eq; cbv match; [done|..];
    repeat (match goal with |- lead_space (if ?x then _ else _) = _ => destruct x eqn:? end);
    try (apply IH; simpl; lia); simpl; by repeat (match goal with E : _ = false |- _ => rewrite E; clear E end).
Qed.

Lemma trim_left_rev_lead (s : string) : lead_space_rev (trim_left_rev s) = false.
Proof.
  induction s as [s IH] using string_len_ind. string_cases s; rewrite trim_left_rev_eq; cbv match; [done|..];
    repeat (match goal with |- lead_space_rev (if ?x then _ else _) = _ => destruct x eqn:? end);
    try (apply IH; simpl; lia); simpl; by repeat (match goal with E : _ = false |- _ => rewrite E; clear E end).
Qed.

Lemma trim_left_fixed (s : string) : lead_space s = false -> trim_left s = s.
Proof.
  string_cases s; simpl; [done|..]; intros H;
    rewrite ?orb_false_iff in H; destruct_and?;
    by repeat (match goal with E : _ = false |- _ => rewrite E; clear E end).
Qed.

Lemma trim_left_rev_fixed (s : string) : lead_space_rev s = false -> trim_left_rev s = s.
Proof.
  string_cases s; simpl; [done|..]; intros H;
    rewrite ?orb_false_iff in H; destruct_and?;
    by repeat (match goal with E : _ = false |- _ => rewrite E; clear E end).
Qed.

Lemma trim_left_rev_suffix (s : string) : exists p, s = p +:+ trim_left_rev s.
Proof.
  induction s as [s IH] using string_len_ind. string_cases s; rewrite trim_left_rev_eq; cbv match; [by exists ""|..];
    repeat (match goal with |- exists _, _ = _ +:+ (if ?x then _ else _) => destruct x end);
    try (by exists "");
    match goal with |- exists _, _ = _ +:+ trim_left_rev ?u => destruct (IH u ltac:(simpl; lia)) as [p E] end.
  - exists (String a p). exact (f_equal (String a) E).
  - exists (String a p). exact (f_equal (String a) E).
  - exists (String a (String b p)). exact (f_equal (fun x => String a (String b x)) E).
  - exists (String a p). exact (f_equal (String a) E).
  - exists (String a (String b p)). exact (f_equal (fun x => String a (String b x)) E).
  - exists (String a (String b (String c p))). exact (f_equal (fun x => String a (String b (String c x))) E).
Qed.

Lemma string_app_assoc (s t u : string) : (s +:+ t) +:+ u = s +:+ (t +:+ u).
Proof.
  induction s as [|c s IH]; [done|].
  change (String c ((s +:+ t) +:+ u) = String c (s +:+ (t +:+ u))). by rewrite IH.
Qed.

Lemma string_app_nil_r (s : string) : s +:+ "" = s.
Proof. induction s as [|c s IH]; [done|]. change (String c (s +:+ "") = String c s). by rewrite IH. Qed.

Lemma string_length_app (s t : string) :
  String.length (s +:+ t) = (String.length s + String.length t)%nat.
Proof.
  induction s as [|c s IH]; [done|].
  change (S (String.length (s +:+ t)) = S (String.length s + String.length t)). by rewrite IH.
Qed.

Lemma string_rev_app (s t : string) : string_rev (s +:+ t) = string_rev t +:+ string_rev s.
Proof.
  induction s as [|a s IH].
  - change (string_rev "") with "". change ("" +:+ t) with t. induction (string_rev t) as [|b u Hu]; [done|].
    change (String b u = String b (u +:+ "")). by rewrite <- Hu.
  - change (String a s +:+ t) with (String a (s +:+ t)). rewrite !string_rev_cons, IH. clear IH.
    apply string_app_assoc.
Qed.

Lemma lead_space_app (s t : string) : lead_space s = true -> lead_space (s +:+ t) = true.
Proof.
  string_cases s; simpl; [done|..]; [string_cases t|destruct t|]; simpl;
    rewrite ?orb_true_iff; tauto.
Qed.

Lemma trim_space_fixed (s : string) :
  lead_space s = false -> lead_space_rev (string_rev s) = false -> trim_space s = s.
Proof.
  intros H1 H2. unfold trim_space. by rewrite trim_left_fixed, trim_left_rev_fixed, string_rev_involutive.
Qed.

(** What is trimmed neither starts nor ends with white space. *)
Lemma trim_space_ends (s : string) :
  lead_space (trim_space s) = false /\ lead_space_rev (string_rev (trim_space s)) = false.
Proof.
  unfold trim_space. rewrite string_rev_involutive. split; [|apply trim_left_rev_lead].
  destruct (trim_left_rev_suffix (string_rev (trim_left s))) as [p E].
  apply (f_equal string_rev) in E. rewrite string_rev_involutive, string_rev_app in E.
  destruct (lead_space (string_rev (trim_left_rev (string_rev (trim_left s))))) eqn:Hl; [|done].
  pose proof (trim_left_lead s) as H. rewrite E, lead_space_app in H; done.
Qed.

Lemma trim_space_idem (s : string) : trim_space (trim_space s) = trim_space s.
Proof. apply trim_space_fixed; apply trim_space_ends. Qed.

(** ** Texts without a byte *)

Definition lacks (c : Ascii.ascii) (s : string) : Prop := Forall (fun d => d <> c) (String.list_ascii_of_string s).

Lemma lacks_cons c d s : lacks c (String d s) <-> d <> c /\ lacks c s.
Proof. unfold lacks. cbn [String.list_ascii_of_string]. split; [by inversion 1|intros [? ?]; by constructor]. Qed.

Lemma lacks_app c s t : lacks c (s +:+ t) <-> lacks c s /\ lacks c t.
Proof.
  induction s as [|d s IH]; [split; [by split; [constructor|]|by intros [_ ?]]|].
  change (String d s +:+ t) with (String d (s +:+ t)). rewrite !lacks_cons, IH. tauto.
Qed.

Lemma split_first_lacks c a b : lacks c a -> split_first c (a +:+ String c b) = Some (a, b).
Proof.
  induction a as [|d a IH]; intros Ha.
  - change ("" +:+ String c b) with (String c b). cbn [split_first]. by rewrite Ascii.eqb_refl.
  - apply lacks_cons in Ha as [Hd Ha]. change (String d a +:+ String c b) with (String d (a +:+ String c b)).
    cbn [split_first]. rewrite (proj2 (Ascii.eqb_neq _ _) Hd), IH by done. reflexivity.
Qed.

Lemma split_on_lacks c a b : lacks c a -> split_on c (a +:+ String c b) = a :: split_on c b.
Proof.
  induction a as [|d a IH]; intros Ha.
  - change ("" +:+ String c b) with (String c b). cbn [split_on]. by rewrite Ascii.eqb_refl.
  - apply lacks_cons in Ha as [Hd Ha]. change (String d a +:+ String c b) with (String d (a +:+ String c b)).
    cbn [split_on]. by rewrite (proj2 (Ascii.eqb_neq _ _) Hd), IH.
Qed.

Lemma split_on_alone c a : lacks c a -> split_on c a = [a].
Proof.
  induction a as [|d a IH]; intros Ha; [done|]. apply lacks_cons in Ha as [Hd Ha].
  cbn [split_on]. by rewrite (proj2 (Ascii.eqb_neq _ _) Hd), IH.
Qed.

Lemma contains_lacks c s : lacks c s -> contains s (String c "") = false.
Proof.
  unfold contains. induction s as [|d s IH]; intros Hs; [done|]. apply lacks_cons in Hs as [Hd Hs].
  cbn [String.index]. destruct (String.prefix (String c "") (String d s)) eqn:E.
  - cbn [String.prefix] in E. destruct (Ascii.ascii_dec c d) as [->|]; done.
  - specialize (IH Hs). by destruct (String.index 0 (String c "") s).
Qed.

(** ** Texts of visible characters *)

Definition all_visible (s : string) : Prop := Forall (fun c => visible c = true) (String.list_ascii_of_string s).

Lemma lead_visible s : all_visible s -> lead_space s = false /\ lead_space_rev s = false.
Proof.
  unfold all_visible. string_cases s; cbn [String.list_ascii_of_string]; intros Hv; [done|..];
    inversion Hv as [|? ? Ha Hv']; subst; destruct (visible_not_space _ Ha) as (E1 & E2 & E3);
    cbn [lead_space lead_space_rev]; rewrite E1; [done|..]; rewrite (proj1 (E2 _)), (proj2 (E2 _)); [done|].
  by rewrite (proj1 (E3 _ _)), (proj2 (E3 _ _)).
Qed.

Lemma trim_all_visible s : all_visible s -> trim_space s = s.
Proof.
  intros Hv. apply trim_space_fixed; [by apply lead_visible|]. apply lead_visible. unfold all_visible, string_rev in *.
  by rewrite String.list_ascii_of_string_of_list_ascii, Forall_reverse.
Qed.

Lemma all_visible_app s t : all_visible s -> all_visible t -> all_visible (s +:+ t).
Proof. unfold all_visible. rewrite list_ascii_app, Forall_app. done. Qed.
