(* ===== verification/Programs.v ===== *)
(** * Programs that other programs interrupt

    A handler runs in a goroutine of its own: between two of its actions the
    others may act on the same state.  A program is a tree of atomic actions;
    [run] executes it alone, [sched] executes a choice of interleaving, and a
    property every action of every program keeps holds throughout.  This is the
    interface between the handlers of the tests and the claims about them. *)

From S2P Require Export Prelude.

Inductive prog (S A : Type) : Type :=
  | Ret (a : A)
  | Act (f : S -> S) (k : S -> prog S A).
Arguments Ret {S A} a.
Arguments Act {S A} f k.

Fixpoint prog_bind {S A B} (p : prog S A) (g : A -> prog S B) : prog S B :=
  match p with
  | Ret a => g a
  | Act f k => Act f (fun s => prog_bind (k s) g)
  end.

#[export] Instance prog_ret {S} : MRet (prog S) := fun A a => Ret a.
#[export] Instance prog_mbind {S} : MBind (prog S) := fun A B g p => prog_bind p g.

(** One atomic action: a computation of the state monad. *)
Definition act {S A} (m : ST S A) : prog S A := Act (fun s => (m s).2) (fun s => Ret (m s).1).

(** The program alone. *)
Fixpoint run {S A} (p : prog S A) (s : S) : A * S :=
  match p with
  | Ret a => (a, s)
  | Act f k => run (k s) (f s)
  end.

Lemma run_ret {S A} (a : A) (s : S) : run (mret a) s = (a, s).
Proof. done. Qed.

Lemma run_act {S A} (m : ST S A) (s : S) : run (act m) s = m s.
Proof. simpl. by destruct (m s). Qed.

Lemma run_bind {S A B} (p : prog S A) (g : A -> prog S B) (s : S) :
  run (p ≫= g) s = let '(a, s') := run p s in run (g a) s'.
Proof.
  unfold mbind, prog_mbind. revert s. induction p as [a|f k IH]; intros s; simpl; [done|]. by rewrite IH.
Qed.

#[export] Hint Rewrite @run_ret @run_act @run_bind : shiva.

(** ** Interleavings *)

(** One action of a program. *)
Definition step_prog {S A} (p : prog S A) (s : S) : prog S A * S :=
  match p with
  | Ret a => (Ret a, s)
  | Act f k => (k s, f s)
  end.

(** The programs that run at the same time, by number. *)
Definition threads (S : Type) : Type := list (prog S unit).

Definition step_thread {S} (i : nat) (c : threads S * S) : threads S * S :=
  match c.1 !! i with
  | Some p => let '(p', s') := step_prog p c.2 in (<[i := p']> c.1, s')
  | None => c
  end.

(** The threads in the order of [choice], one action each time. *)
Definition sched {S} (choice : list nat) (c : threads S * S) : threads S * S :=
  foldl (fun c i => step_thread i c) c choice.

(** Every action of the program, in whatever state it finds, is a step of [R]. *)
Inductive follows {S A} (R : S -> S -> Prop) : prog S A -> Prop :=
  | follows_ret (a : A) : follows R (Ret a)
  | follows_step (f : S -> S) (k : S -> prog S A) :
      (forall s, R s (f s)) -> (forall s, follows R (k s)) -> follows R (Act f k).

Lemma follows_act {S A} (R : S -> S -> Prop) (m : ST S A) : (forall s, R s (m s).2) -> follows R (act m).
Proof. intros Hm. constructor; [exact Hm|]. intros. constructor. Qed.

Lemma follows_bind {S A B} (R : S -> S -> Prop) (p : prog S A) (g : A -> prog S B) :
  follows R p -> (forall a, follows R (g a)) -> follows R (p ≫= g).
Proof.
  intros Hp Hg. unfold mbind, prog_mbind. induction Hp as [a|f k Hf _ IH]; simpl; [apply Hg|].
  constructor; [exact Hf|]. intros s. by apply IH.
Qed.

Lemma follows_mret {S A} (R : S -> S -> Prop) (a : A) : follows R (mret a : prog S A).
Proof. constructor. Qed.

(** Alone, the program goes from a state to one it is related to. *)
Lemma follows_run {S A} (R : S -> S -> Prop) `{!PreOrder R} (p : prog S A) (s : S) :
  follows R p -> R s (run p s).2.
Proof.
  intros Hp. revert s. induction Hp as [a|f k Hf _ IH]; intros s; simpl; [reflexivity|].
  etrans; [apply Hf|apply IH].
Qed.

(** So does every interleaving of such programs. *)
Lemma sched_follows {S} (R : S -> S -> Prop) `{!PreOrder R} (choice : list nat) (ts : threads S) (s : S) :
  Forall (follows R) ts -> R s (sched choice (ts, s)).2.
Proof.
  unfold sched. revert ts s. induction choice as [|i choice IH]; intros ts s Ht; simpl; [reflexivity|].
  unfold step_thread. cbn [fst snd]. destruct (ts !! i) as [p|] eqn:E; [|by apply IH].
  pose proof (Forall_lookup_1 _ _ _ _ Ht E) as Hp. destruct p as [a|f k]; cbn [step_prog].
  - apply IH. by apply Forall_insert.
  - inversion Hp; subst. etrans; [|apply IH; apply Forall_insert; auto]. auto.
Qed.

(** An invariant is the relation of the steps that keep it. *)
Definition keeps {S} (P : S -> Prop) (s s' : S) : Prop := P s -> P s'.

#[export] Instance keeps_preorder {S} (P : S -> Prop) : PreOrder (keeps P).
Proof. split; unfold keeps; [intros s; auto|intros s1 s2 s3; auto]. Qed.

#[export] Hint Resolve follows_act follows_mret : shiva.

(** Walks through a program: a goal is left for every action.  The programs a
    lemma of the database covers are not entered. *)
Create HintDb follows.
Ltac follow :=
  repeat first
    [ solve [auto 2 with follows nocore]
    | apply follows_mret
    | apply follows_bind; [|intros]
    | apply follows_act; intros
    | match goal with
      | |- follows _ (match ?x with _ => _ end) => destruct x
      end ].

(** ** What a program adds to a quantity *)

(** However the program runs, it adds [d] to the 64-bit quantity [m] from its
    beginning to its end. *)
Inductive nets {S A} (m : S -> Z) : Z -> prog S A -> Prop :=
  | nets_ret (a : A) : nets m 0 (Ret a)
  | nets_act (d d' : Z) (f : S -> S) (k : S -> prog S A) :
      (forall s, i64 (m (f s)) = i64 (m s + d)) -> (forall s, nets m d' (k s)) -> nets m (d + d') (Act f k).

Lemma nets_mret {S A} (m : S -> Z) (a : A) : nets m 0 (mret a : prog S A).
Proof. constructor. Qed.

(** One action. *)
Lemma nets_one {S A} (m : S -> Z) (d : Z) (a : ST S A) :
  (forall s, i64 (m (a s).2) = i64 (m s + d)) -> nets m d (act a).
Proof. intros Ha. rewrite <- (Z.add_0_r d). constructor; [exact Ha|]. intros. constructor. Qed.

Lemma nets_bind {S A B} (m : S -> Z) (d d' : Z) (p : prog S A) (g : A -> prog S B) :
  nets m d p -> (forall a, nets m d' (g a)) -> nets m (d + d') (p ≫= g).
Proof.
  intros Hp Hg. unfold mbind, prog_mbind. induction Hp as [a|d1 d2 f k Hf _ IH]; simpl; [apply Hg|].
  rewrite <- Z.add_assoc. constructor; [exact Hf|exact IH].
Qed.

(** A quantity no action touches. *)
Lemma nets_untouched {S A} (m : S -> Z) (p : prog S A) : follows (fun s s' => m s' = m s) p -> nets m 0 p.
Proof.
  induction 1 as [a|f k Hf _ IH]; [constructor|]. change 0 with (0 + 0). constructor; [|exact IH].
  intros s. by rewrite Hf, Z.add_0_r.
Qed.

Lemma zsum_insert (ds : list Z) (i : nat) (d d' : Z) : ds !! i = Some d -> zsum (<[i := d']> ds) = zsum ds - d + d'.
Proof.
  revert i. induction ds as [|e ds IH]; intros [|i]; simpl; intros E; simplify_eq; [lia|]. rewrite (IH i) by done. lia.
Qed.

(** What the threads still add and the quantity make up the same sum at every
    point of every interleaving. *)
Lemma sched_nets {S} (m : S -> Z) (choice : list nat) (ts : threads S) (ds : list Z) (s : S) :
  Forall2 (nets m) ds ts ->
  exists ds', Forall2 (nets m) ds' (sched choice (ts, s)).1 /\
    i64 (m (sched choice (ts, s)).2 + zsum ds') = i64 (m s + zsum ds).
Proof.
  unfold sched. revert ts ds s. induction choice as [|i choice IH]; intros ts ds s Ht; simpl; [by exists ds|].
  unfold step_thread. cbn [fst snd]. destruct (ts !! i) as [p|] eqn:Ep; [|by apply IH].
  destruct (Forall2_lookup_r _ _ _ _ _ Ht Ep) as (d & Ed & Hp). destruct p as [a|f k]; cbn [step_prog].
  - destruct (IH (<[i := Ret a]> ts) ds s) as (ds' & H1 & H2); [|by exists ds'].
    rewrite <- (list_insert_id ds i d Ed). by apply Forall2_insert.
  - inversion Hp as [|d1 d2 ? ? Hf Hk]; subst.
    destruct (IH (<[i := k s]> ts) (<[i := d2]> ds) (f s)) as (ds' & H1 & H2); [by apply Forall2_insert|].
    exists ds'. split; [exact H1|]. etrans; [exact H2|]. rewrite (zsum_insert _ _ _ d2 Ed), <- i64_add_l, Hf, i64_add_l. f_equal. lia.
Qed.

(** Once all threads have ended, what they were to add has been added. *)
Lemma sched_nets_end {S} (m : S -> Z) (choice : list nat) (ts : threads S) (ds : list Z) (s : S) :
  Forall2 (nets m) ds ts -> Forall (fun p => exists a, p = Ret a) (sched choice (ts, s)).1 ->
  i64 (m (sched choice (ts, s)).2) = i64 (m s + zsum ds).
Proof.
  intros Ht He. destruct (sched_nets m choice ts ds s Ht) as (ds' & H1 & <-). f_equal.
  assert (zsum ds' = 0) as ->; [|lia]. clear Ht. revert He. induction H1 as [|d p ds' ts' Hp _ IH]; intros He; [done|].
  inversion He as [|? ? [a ->] He']; subst. inversion Hp; subst. simpl. rewrite IH by done. lia.
Qed.

(** ** What a program can answer *)

(** Every answer of the program, whatever the others do between its actions,
    satisfies [Q]. *)
Inductive yields {S A} (Q : A -> Prop) : prog S A -> Prop :=
  | yields_ret (a : A) : Q a -> yields Q (Ret a)
  | yields_act (f : S -> S) (k : S -> prog S A) : (forall s, yields Q (k s)) -> yields Q (Act f k).

Lemma yields_mret {S A} (Q : A -> Prop) (a : A) : Q a -> yields Q (mret a : prog S A).
Proof. by constructor. Qed.

Lemma yields_bind {S A B} (P : A -> Prop) (Q : B -> Prop) (p : prog S A) (g : A -> prog S B) :
  yields P p -> (forall a, P a -> yields Q (g a)) -> yields Q (p ≫= g).
Proof.
  intros Hp Hg. unfold mbind, prog_mbind. induction Hp as [a Ha|f k _ IH]; simpl; [by apply Hg|].
  constructor. exact IH.
Qed.

Lemma yields_any {S A} (p : prog S A) : yields (fun _ => True) p.
Proof. induction p; constructor; auto. Qed.

Lemma yields_then {S A B} (Q : B -> Prop) (p : prog S A) (g : A -> prog S B) :
  (forall a, yields Q (g a)) -> yields Q (p ≫= g).
Proof. intros Hg. eapply yields_bind; [apply yields_any|auto]. Qed.

Lemma yields_impl {S A} (P Q : A -> Prop) (p : prog S A) : yields P p -> (forall a, P a -> Q a) -> yields Q p.
Proof. induction 1; constructor; auto. Qed.

Lemma yields_run {S A} (Q : A -> Prop) (p : prog S A) (s : S) : yields Q p -> Q (run p s).1.
Proof. intros Hp. revert s. induction Hp as [a Ha|f k _ IH]; intros s; simpl; [done|]. apply IH. Qed.

(** ** Invariants that the answers of actions depend on *)

(** Every action keeps [I] in the states where [I] holds, and what the program
    answers there satisfies [Q]. *)
Inductive secures {S A} (I : S -> Prop) (Q : A -> Prop) : prog S A -> Prop :=
  | secures_ret (a : A) : Q a -> secures I Q (Ret a)
  | secures_step (f : S -> S) (k : S -> prog S A) :
      (forall s, I s -> I (f s)) -> (forall s, I s -> secures I Q (k s)) -> secures I Q (Act f k).

Lemma secures_mret {S A} (I : S -> Prop) (Q : A -> Prop) (a : A) : Q a -> secures I Q (mret a : prog S A).
Proof. by constructor. Qed.

Lemma secures_act {S A} (I : S -> Prop) (Q : A -> Prop) (m : ST S A) :
  (forall s, I s -> I (m s).2 /\ Q (m s).1) -> secures I Q (act m).
Proof. intros Hm. constructor; [intros s Hs; by apply Hm|]. intros s Hs. constructor. by apply Hm. Qed.

Lemma secures_bind {S A B} (I : S -> Prop) (P : A -> Prop) (Q : B -> Prop) (p : prog S A) (g : A -> prog S B) :
  secures I P p -> (forall a, P a -> secures I Q (g a)) -> secures I Q (p ≫= g).
Proof.
  intros Hp Hg. unfold mbind, prog_mbind. induction Hp as [a Ha|f k Hf _ IH]; simpl; [by apply Hg|].
  by constructor.
Qed.

Lemma secures_impl {S A} (I : S -> Prop) (P Q : A -> Prop) (p : prog S A) :
  secures I P p -> (forall a, P a -> Q a) -> secures I Q p.
Proof. induction 1; constructor; auto. Qed.

(** A program whose actions keep [I] in every state secures it. *)
Lemma follows_secures {S A} (I : S -> Prop) (p : prog S A) : follows (keeps I) p -> secures I (fun _ => True) p.
Proof. induction 1 as [a|f k Hf _ IH]; constructor; auto. Qed.

(** Every interleaving of such programs keeps [I]. *)
Lemma sched_secures {S} (I : S -> Prop) (choice : list nat) (ts : threads S) (s : S) :
  Forall (secures I (fun _ => True)) ts -> I s -> I (sched choice (ts, s)).2.
Proof.
  unfold sched. revert ts s. induction choice as [|i choice IH]; intros ts s Ht Hs; simpl; [done|].
  unfold step_thread. cbn [fst snd]. destruct (ts !! i) as [p|] eqn:E; [|by apply IH].
  pose proof (Forall_lookup_1 _ _ _ _ Ht E) as Hp. destruct p as [a|f k]; cbn [step_prog].
  - apply IH; [|done]. by apply Forall_insert.
  - inversion Hp as [|? ? Hf Hk]; subst. apply IH; [|by apply Hf]. apply Forall_insert; [done|by apply Hk].
Qed.
