(* ===== verification/GoTime.v ===== *)
(** * Go's [time] package, as far as the controller uses it

    - [Duration]: nanoseconds in an [int64] (the [⊠] of durations wraps);
    - [Time]: an instant, in nanoseconds since the Unix epoch, with the
      location its calendar fields are computed in.  The instant is an
      unbounded [Z]: Go keeps 64-bit seconds and separate nanoseconds, whose
      range the controller never leaves;
    - [Location]: the zone lookup of Go's [Location.lookup]: for an instant,
      the UTC offset in force and the bounds of the interval it is in force
      for.  The contents of the time-zone database are a parameter;
    - the proleptic Gregorian calendar, [AddDate] and the RFC 3339 format. *)

From S2P Require Export Prelude GoStrings.

(** ** Durations *)

Definition Nanosecond : Z := 1.
Definition Millisecond : Z := 1000000.
Definition Second : Z := 1000000000.
Definition Minute : Z := 60 * Second.
Definition Hour : Z := 60 * Minute.

(** [time.Duration(n) * time.Second]: the product is taken in [int64]. *)
Definition seconds (n : Z) : Z := n ⊠ Second.

(** ** Locations and instants *)

Record Zone := mkZone { zoffset : Z; zstart : Z; zend : Z }.

Record Location := mkLocation { loc_name : string; lookup : Z -> Zone }.

Definition offset_at (l : Location) (sec : Z) : Z := zoffset (lookup l sec).

(** UTC: offset zero on the whole range of instants. *)
Definition UTC : Location :=
  mkLocation "UTC" (fun _ => mkZone 0 i64_min i64_max).

Record Time := mkTime { unix_ns : Z; t_loc : Location }.

Definition unix_sec (t : Time) : Z := unix_ns t / Second.
Definition nsec (t : Time) : Z := unix_ns t mod Second.

(** January 1, year 1, 00:00:00 UTC: the zero [Time]. *)
Definition zero_ns : Z := - 62135596800 * Second.
Definition zero_time : Time := mkTime zero_ns UTC.

Definition is_zero (t : Time) : bool := unix_ns t =? zero_ns.
Definition before (t u : Time) : bool := unix_ns t <? unix_ns u.
Definition after (t u : Time) : bool := unix_ns u <? unix_ns t.
Definition time_equal (t u : Time) : bool := unix_ns t =? unix_ns u.

Definition in_loc (l : Location) (t : Time) : Time := mkTime (unix_ns t) l.
Definition to_utc (t : Time) : Time := in_loc UTC t.

(** [t.Add(d)]. *)
Definition add (t : Time) (d : Z) : Time := mkTime (unix_ns t + d) (t_loc t).

(** [t.Truncate(d)] for a [d] that divides one second times a power of ten or
    a day; the zero time is a whole number of days before the epoch, so both
    counts of whole [d] agree. *)
Definition truncate (t : Time) (d : Z) : Time :=
  mkTime (unix_ns t - (unix_ns t - zero_ns) mod d) (t_loc t).

(** [t.Sub(u)]: the difference, saturated to the range of a [Duration]. *)
Definition sub (t u : Time) : Z :=
  Z.max i64_min (Z.min i64_max (unix_ns t - unix_ns u)).

(** ** The calendar *)

Definition is_leap (y : Z) : bool :=
  ((y mod 4 =? 0) && negb (y mod 100 =? 0)) || (y mod 400 =? 0).

Definition days_in_month (y m : Z) : Z :=
  if m =? 2 then (if is_leap y then 29 else 28)
  else if (m =? 4) || (m =? 6) || (m =? 9) || (m =? 11) then 30 else 31.

(** Days from 1 March of year 0 to 1 March of year [y]; the leap day is then
    the last day of the year that starts in March. *)
Definition march_year_start (y : Z) : Z := 365 * y + y / 4 - y / 100 + y / 400.

(** Days from 1 March to the first of the [mp]-th month after March. *)
Definition month_start (mp : Z) : Z := (153 * mp + 2) / 5.

(** Days from the epoch to a date. *)
Definition days_of_civil (y m d : Z) : Z :=
  let y' := if m <=? 2 then y - 1 else y in
  let mp := if m <=? 2 then m + 9 else m - 3 in
  march_year_start y' + month_start mp + d - 1 - 719468.

(** Year (from March) and day of that year. *)
Definition march_of_days (z : Z) : Z * Z :=
  let z' := z + 719468 in
  let era := z' / 146097 in
  let doe := z' mod 146097 in
  let yoe := (doe - doe / 1460 + doe / 36524 - doe / 146096) / 365 in
  (yoe + era * 400, doe - (365 * yoe + yoe / 4 - yoe / 100)).

Definition civil_of_days (z : Z) : Z * Z * Z :=
  let '(y', doy) := march_of_days z in
  let mp := (5 * doy + 2) / 153 in
  let m := if mp <? 10 then mp + 3 else mp - 9 in
  (y' + (if m <=? 2 then 1 else 0), m, doy - month_start mp + 1).

Definition valid_date (y m d : Z) : Prop :=
  1 <= m <= 12 /\ 1 <= d <= days_in_month y m.

(** Calendar fields of an instant in its location. *)
Definition local_sec (t : Time) : Z := unix_sec t + offset_at (t_loc t) (unix_sec t).
Definition date_of (t : Time) : Z * Z * Z := civil_of_days (local_sec t / 86400).
Definition clock_of (t : Time) : Z * Z * Z :=
  let s := local_sec t mod 86400 in (s / 3600, (s mod 3600) / 60, s mod 60).

(** The step of Go's [time.Date] that turns a local clock reading into UTC. *)
Definition local_to_unix (l : Location) (u : Z) : Z :=
  let z := lookup l u in
  if zoffset z =? 0 then u
  else
    let utc := u - zoffset z in
    if (utc <? zstart z) || (zend z <=? utc) then u - offset_at l utc else utc.

(** [time.Date(year, month, day, hour, min, sec, nsec, loc)], with the
    normalisation of the month; the day may be any integer. *)
Definition go_date (year month day hour min sec ns : Z) (l : Location) : Time :=
  let m0 := month - 1 in
  let y := year + m0 / 12 in
  let m := m0 mod 12 + 1 in
  let u := (days_of_civil y m 1 + (day - 1)) * 86400 + hour * 3600 + min * 60 + sec in
  mkTime (local_to_unix l u * Second + ns) l.

(** [t.AddDate(years, months, days)]. *)
Definition add_date (t : Time) (years months days : Z) : Time :=
  let '(y, m, d) := date_of t in
  let '(hh, mm, ss) := clock_of t in
  go_date (y + years) (m + months) (d + days) hh mm ss (nsec t) (t_loc t).

(** ** RFC 3339 *)

Definition pad2 (z : Z) : string :=
  if z <? 10 then "0" +:+ itoa z else itoa z.

Definition pad4 (z : Z) : string :=
  if z <? 0 then "-" +:+ itoa (- z)
  else if z <? 10 then "000" +:+ itoa z
  else if z <? 100 then "00" +:+ itoa z
  else if z <? 1000 then "0" +:+ itoa z
  else itoa z.

Definition format_offset (off : Z) : string :=
  if off =? 0 then "Z"
  else
    let m := Z.abs (Z.quot off 60) in
    (if Z.quot off 60 <? 0 then "-" else "+") +:+ pad2 (m / 60) +:+ ":" +:+ pad2 (m mod 60).

(** [t.Format(time.RFC3339)]. *)
Definition format_rfc3339 (t : Time) : string :=
  let '(y, m, d) := date_of t in
  let '(hh, mm, ss) := clock_of t in
  pad4 y +:+ "-" +:+ pad2 m +:+ "-" +:+ pad2 d +:+ "T" +:+ pad2 hh +:+ ":" +:+ pad2 mm +:+ ":" +:+
  pad2 ss +:+ format_offset (offset_at (t_loc t) (unix_sec t)).

(** ** The time-zone database: a parameter *)

(** A lookup function is well formed when it returns an interval that holds the
    instant and is the answer for every instant of that interval. *)
Definition location_wf (l : Location) : Prop :=
  forall s, zstart (lookup l s) <= s < zend (lookup l s) /\
            forall s', zstart (lookup l s) <= s' < zend (lookup l s) ->
                       lookup l s' = lookup l s.

(** No two offsets of the location are a day or more apart (true of every zone
    that never crossed the date line). *)
Definition steady (l : Location) : Prop :=
  forall s s', offset_at l s - offset_at l s' < 86400.

Class TzDatabase := tzdb : string -> option Location.

(** [time.LoadLocation(name)]; [None] stands for a non-nil error. *)
Definition load_location `{TzDatabase} (name : string) : option Location :=
  if String.eqb name "" || String.eqb name "UTC" then Some UTC else tzdb name.

(** ** Lemmas *)

Lemma UTC_steady : steady UTC.
Proof. intros s s'. unfold offset_at; simpl. lia. Qed.

Lemma Second_pos : 0 < Second.
Proof. reflexivity. Qed.

#[export] Hint Resolve UTC_steady Second_pos : shiva.

Lemma unix_ns_split (t : Time) : unix_ns t = unix_sec t * Second + nsec t.
Proof. unfold unix_sec, nsec. rewrite (Z.div_mod (unix_ns t) Second) at 1; [lia | done]. Qed.

Lemma nsec_bound (t : Time) : 0 <= nsec t < Second.
Proof. apply Z.mod_pos_bound, Second_pos. Qed.

Lemma seconds_exact (n : Z) : 0 <= n <= 9223372036 -> seconds n = n * Second.
Proof. intros H. unfold seconds. apply i64_id. unfold Second. i64_lia. Qed.

(** *** The calendar *)

Lemma march_year_start_mono (y y' : Z) :
  y <= y' -> march_year_start y + 365 * (y' - y) <= march_year_start y'.
Proof. unfold march_year_start. intros H. Z.div_mod_to_equations. lia. Qed.

Lemma march_of_days_spec (z y doy : Z) :
  march_of_days z = (y, doy) ->
  z + 719468 = march_year_start y + doy /\ 0 <= doy /\
  march_year_start y + doy < march_year_start (y + 1).
Proof.
  unfold march_of_days, march_year_start.
  pose proof (Z.div_mod (z + 719468) 146097 ltac:(lia)) as E.
  pose proof (Z.mod_pos_bound (z + 719468) 146097 ltac:(lia)) as B.
  set (era := (z + 719468) / 146097) in *. set (doe := (z + 719468) mod 146097) in *.
  clearbody era doe.
  set (yoe := (doe - doe / 1460 + doe / 36524 - doe / 146096) / 365).
  assert (0 <= yoe < 400 /\ 0 <= doe - (365 * yoe + yoe / 4 - yoe / 100) /\
    doe < 365 * (yoe + 1) + (yoe + 1) / 4 - (yoe + 1) / 100 + (yoe + 1) / 400) as (Hy & H0 & H1).
  { subst yoe. clear E. Z.div_mod_to_equations. lia. }
  clearbody yoe. intros [= <- <-]. split_and!.
  - Z.div_mod_to_equations. lia.
  - lia.
  - Z.div_mod_to_equations. lia.
Qed.

(** A day in the year that starts on 1 March of [y] is found there. *)
Lemma march_of_days_unique (z y doy : Z) :
  z + 719468 = march_year_start y + doy -> 0 <= doy ->
  march_year_start y + doy < march_year_start (y + 1) ->
  march_of_days z = (y, doy).
Proof.
  intros E H0 H1. destruct (march_of_days z) as [y1 d1] eqn:M.
  apply march_of_days_spec in M as (E1 & K0 & K1).
  assert (y1 = y) as ->.
  { destruct (Z.lt_trichotomy y1 y) as [L|[L|L]]; [|done|].
    - pose proof (march_year_start_mono (y1 + 1) y ltac:(lia)). lia.
    - pose proof (march_year_start_mono (y + 1) y1 ltac:(lia)). lia. }
  f_equal. lia.
Qed.

Lemma march_year_length (y : Z) :
  march_year_start (y + 1) - march_year_start y = if is_leap (y + 1) then 366 else 365.
Proof.
  unfold march_year_start, is_leap.
  destruct ((y + 1) mod 4 =? 0) eqn:E4, ((y + 1) mod 100 =? 0) eqn:E100,
    ((y + 1) mod 400 =? 0) eqn:E400; simpl; bool_prop; Z.div_mod_to_equations; lia.
Qed.

(** Day numbers and dates are in bijection. *)
Lemma days_of_civil_of_days (z : Z) :
  let '(y, m, d) := civil_of_days z in days_of_civil y m d = z.
Proof.
  unfold civil_of_days. destruct (march_of_days z) as [y doy] eqn:M.
  apply march_of_days_spec in M as (E & H0 & H1).
  pose proof (march_year_length y) as L.
  assert (doy < 366) by (destruct (is_leap (y + 1)); lia).
  unfold days_of_civil, month_start.
  destruct ((5 * doy + 2) / 153 <? 10) eqn:Hm; bool_prop.
  - replace ((5 * doy + 2) / 153 + 3 <=? 2) with false by (Z.div_mod_to_equations; lia).
    replace (y + 0) with y by lia. Z.div_mod_to_equations. lia.
  - replace ((5 * doy + 2) / 153 - 9 <=? 2) with true by (Z.div_mod_to_equations; lia).
    replace (y + 1 - 1) with y by lia. Z.div_mod_to_equations. lia.
Qed.

Lemma civil_of_days_valid (z : Z) :
  let '(y, m, d) := civil_of_days z in valid_date y m d.
Proof.
  unfold civil_of_days. destruct (march_of_days z) as [y doy] eqn:M.
  apply march_of_days_spec in M as (E & H0 & H1).
  pose proof (march_year_length y) as L.
  assert (H2 : doy < if is_leap (y + 1) then 366 else 365) by (destruct (is_leap (y + 1)); lia).
  clear L E H1. unfold valid_date, days_in_month, month_start.
  assert (doy < 366) by (destruct (is_leap (y + 1)); lia).
  destruct ((5 * doy + 2) / 153 <? 10) eqn:Hm; bool_prop.
  - replace ((5 * doy + 2) / 153 + 3 <=? 2) with false by (Z.div_mod_to_equations; lia).
    replace ((5 * doy + 2) / 153 + 3 =? 2) with false by (Z.div_mod_to_equations; lia).
    split; [Z.div_mod_to_equations; lia|].
    destruct (_ || _) eqn:D; bool_prop; Z.div_mod_to_equations; lia.
  - replace ((5 * doy + 2) / 153 - 9 <=? 2) with true by (Z.div_mod_to_equations; lia).
    split; [Z.div_mod_to_equations; lia|].
    destruct (_ =? 2) eqn:D; bool_prop.
    + destruct (is_leap (y + 1)); Z.div_mod_to_equations; lia.
    + destruct (_ || _) eqn:D'; bool_prop; Z.div_mod_to_equations; lia.
Qed.

Lemma civil_of_days_of_civil (y m d : Z) :
  valid_date y m d -> civil_of_days (days_of_civil y m d) = (y, m, d).
Proof.
  intros [Hm Hd]. unfold civil_of_days, days_of_civil.
  set (y' := if m <=? 2 then y - 1 else y). set (mp := if m <=? 2 then m + 9 else m - 3).
  assert (Hmp : 0 <= mp <= 11) by (subst mp; destruct (m <=? 2) eqn:?; bool_prop; lia).
  assert (Hdoy : 0 <= month_start mp + d - 1 /\
    (5 * (month_start mp + d - 1) + 2) / 153 = mp /\
    month_start mp + d - 1 < if is_leap (y' + 1) then 366 else 365).
  { revert Hd. subst y' mp. unfold days_in_month, month_start.
    destruct (m <=? 2) eqn:E2; bool_prop.
    - replace (y - 1 + 1) with y by lia.
      assert (m = 1 \/ m = 2) as [-> | ->] by lia; simpl.
      + intros. destruct (is_leap y); Z.div_mod_to_equations; lia.
      + destruct (is_leap y); intros; Z.div_mod_to_equations; lia.
    - assert (m = 3 \/ m = 4 \/ m = 5 \/ m = 6 \/ m = 7 \/ m = 8 \/ m = 9 \/ m = 10 \/ m = 11 \/ m = 12)
        as HM by lia.
      destruct HM as [->|[->|[->|[->|[->|[->|[->|[->|[->| ->]]]]]]]]]; simpl;
        intros; destruct (is_leap (y + 1)); Z.div_mod_to_equations; lia. }
  destruct Hdoy as (D0 & D1 & D2).
  rewrite (march_of_days_unique _ y' (month_start mp + d - 1));
    [| lia | lia | pose proof (march_year_length y'); destruct (is_leap (y' + 1)); lia ].
  rewrite D1. clear D1. subst y' mp.
  destruct (m <=? 2) eqn:E2; bool_prop.
  - replace (m + 9 <? 10) with (m <? 1) by (destruct (m <? 1) eqn:?; bool_prop; symmetry; [apply Z.ltb_lt|apply Z.ltb_ge]; lia).
    replace (m <? 1) with false by (symmetry; apply Z.ltb_ge; lia).
    replace (m + 9 - 9) with m by lia.
    rewrite (proj2 (Z.leb_le m 2)) by lia. f_equal; [f_equal|]; lia.
  - replace (m - 3 <? 10) with true by (symmetry; apply Z.ltb_lt; lia).
    replace (m - 3 + 3) with m by lia.
    rewrite (proj2 (Z.leb_gt m 2)) by lia. f_equal; [f_equal|]; lia.
Qed.

(** Moving a date one month forward, day number kept, moves it by the length of
    the month. *)
Lemma days_next_month (y m d : Z) :
  1 <= m <= 12 ->
  days_of_civil (y + m / 12) (m mod 12 + 1) d = days_of_civil y m d + days_in_month y m.
Proof.
  intros Hm.
  assert (m = 1 \/ m = 2 \/ 3 <= m <= 11 \/ m = 12) as [-> | [-> | [H | ->]]] by lia.
  - unfold days_of_civil, days_in_month, month_start; simpl.
    replace (y + 1 / 12) with y by (change (1 / 12) with 0; lia). Z.div_mod_to_equations. lia.
  - unfold days_of_civil, days_in_month, month_start; simpl.
    replace (y + 2 / 12) with y by (change (2 / 12) with 0; lia).
    pose proof (march_year_length (y - 1)) as L. replace (y - 1 + 1) with y in L by lia.
    destruct (is_leap y); Z.div_mod_to_equations; lia.
  - rewrite Z.div_small, Z.mod_small by lia. replace (y + 0) with y by lia.
    unfold days_of_civil, days_in_month, month_start.
    replace (m + 1 <=? 2) with false by (symmetry; apply Z.leb_gt; lia).
    replace (m <=? 2) with false by (symmetry; apply Z.leb_gt; lia).
    replace (m =? 2) with false by (symmetry; apply Z.eqb_neq; lia).
    assert (m = 3 \/ m = 4 \/ m = 5 \/ m = 6 \/ m = 7 \/ m = 8 \/ m = 9 \/ m = 10 \/ m = 11)
        as HM by lia.
    destruct HM as [->|[->|[->|[->|[->|[->|[->|[->| ->]]]]]]]]; simpl; Z.div_mod_to_equations; lia.
  - unfold days_of_civil, days_in_month, month_start; simpl.
    change (12 / 12) with 1. replace (y + 1 - 1) with y by lia. Z.div_mod_to_equations. lia.
Qed.

(** *** [AddDate] *)

Lemma go_date_u (y m d hh mm ss n : Z) (l : Location) :
  1 <= m <= 12 ->
  go_date y m d hh mm ss n l =
  mkTime (local_to_unix l (days_of_civil y m d * 86400 + hh * 3600 + mm * 60 + ss) * Second + n) l.
Proof.
  intros Hm. unfold go_date.
  rewrite Z.div_small, Z.mod_small by lia.
  replace (m - 1 + 1) with m by lia. replace (y + 0) with y by lia.
  do 3 f_equal. f_equal. unfold days_of_civil. lia.
Qed.

(** The clock fields reassemble to the second of the day. *)
Lemma clock_of_spec (t : Time) :
  let '(hh, mm, ss) := clock_of t in hh * 3600 + mm * 60 + ss = local_sec t mod 86400.
Proof. unfold clock_of. Z.div_mod_to_equations. lia. Qed.

Lemma add_date_days (t : Time) (n : Z) :
  add_date t 0 0 n =
  mkTime (local_to_unix (t_loc t) (local_sec t + n * 86400) * Second + nsec t) (t_loc t).
Proof.
  unfold add_date. unfold date_of.
  pose proof (days_of_civil_of_days (local_sec t / 86400)) as Hd.
  pose proof (civil_of_days_valid (local_sec t / 86400)) as Hv.
  destruct (civil_of_days (local_sec t / 86400)) as [[y m] d].
  pose proof (clock_of_spec t) as Hc. destruct (clock_of t) as [[hh mm] ss].
  rewrite Z.add_0_r, Z.add_0_r, go_date_u by (destruct Hv; lia).
  do 3 f_equal. f_equal.
  assert (days_of_civil y m (d + n) = local_sec t / 86400 + n) as ->
    by (rewrite <- Hd; unfold days_of_civil; lia).
  pose proof (Z.div_mod (local_sec t) 86400 ltac:(lia)). lia.
Qed.

Lemma add_date_month (t : Time) :
  let '(y, m, _) := date_of t in
  add_date t 0 1 0 =
  mkTime (local_to_unix (t_loc t) (local_sec t + days_in_month y m * 86400) * Second + nsec t)
         (t_loc t).
Proof.
  unfold add_date, date_of.
  pose proof (days_of_civil_of_days (local_sec t / 86400)) as Hd.
  pose proof (civil_of_days_valid (local_sec t / 86400)) as Hm.
  destruct (civil_of_days (local_sec t / 86400)) as [[y m] d]. destruct Hm as [Hm _].
  pose proof (clock_of_spec t) as Hc. destruct (clock_of t) as [[hh mm] ss].
  unfold go_date. do 3 f_equal. f_equal.
  replace (m + 1 - 1) with m by lia. rewrite !Z.add_0_r.
  assert (days_of_civil (y + m / 12) (m mod 12 + 1) 1 + (d - 1) =
          local_sec t / 86400 + days_in_month y m) as ->.
  { rewrite <- Hd.
    pose proof (days_next_month y m d Hm) as H. unfold days_of_civil in *. lia. }
  pose proof (Z.div_mod (local_sec t) 86400 ltac:(lia)). lia.
Qed.

Lemma days_in_month_bounds (y m : Z) : 28 <= days_in_month y m <= 31.
Proof. unfold days_in_month. repeat break_test; lia. Qed.

(** The instant Go picks for a local reading uses one of the location's
    offsets. *)
Lemma local_to_unix_offset (l : Location) (u : Z) :
  exists s, local_to_unix l u = u - offset_at l s.
Proof.
  unfold local_to_unix, offset_at.
  destruct (zoffset (lookup l u) =? 0) eqn:E; bool_prop.
  - exists u. lia.
  - destruct (_ || _); [exists (u - zoffset (lookup l u)) | exists u]; done.
Qed.

(** A day or more added to the local reading moves the instant forward. *)
Lemma local_advance (l : Location) (s k : Z) :
  steady l -> 86400 <= k -> s < local_to_unix l (s + offset_at l s + k).
Proof.
  intros Hl Hk. destruct (local_to_unix_offset l (s + offset_at l s + k)) as [s' ->].
  specialize (Hl s' s). lia.
Qed.

Lemma local_to_unix_UTC (u : Z) : local_to_unix UTC u = u.
Proof. reflexivity. Qed.

Lemma local_sec_UTC (n : Z) : local_sec (mkTime n UTC) = n / Second.
Proof. unfold local_sec, unix_sec, offset_at; simpl. lia. Qed.

(** In UTC a day is 24 hours. *)
Lemma add_date_days_UTC (n k : Z) :
  add_date (mkTime n UTC) 0 0 k = mkTime (n + k * 86400 * Second) UTC.
Proof.
  rewrite add_date_days, local_sec_UTC. simpl t_loc. rewrite local_to_unix_UTC.
  f_equal. pose proof (unix_ns_split (mkTime n UTC)) as H. unfold unix_sec in H; simpl in H. lia.
Qed.

Lemma add_date_advance (t : Time) (k : Z) :
  steady (t_loc t) -> 1 <= k -> unix_ns t < unix_ns (add_date t 0 0 k).
Proof.
  intros Hl Hk. rewrite add_date_days. simpl unix_ns at 2.
  pose proof (local_advance (t_loc t) (unix_sec t) (k * 86400) Hl ltac:(lia)) as H.
  unfold local_sec. pose proof (unix_ns_split t). unfold Second in *. lia.
Qed.

Lemma add_month_advance (t : Time) :
  steady (t_loc t) -> unix_ns t < unix_ns (add_date t 0 1 0).
Proof.
  intros Hl. pose proof (add_date_month t) as H.
  destruct (date_of t) as [[y m] d]. rewrite H. simpl unix_ns at 2.
  pose proof (days_in_month_bounds y m).
  pose proof (local_advance (t_loc t) (unix_sec t) (days_in_month y m * 86400) Hl ltac:(lia)).
  unfold local_sec. pose proof (unix_ns_split t). unfold Second in *. lia.
Qed.

(** ** A location with a single transition *)

(** Offset [a] before the instant [T], offset [b] from [T] on: the shape of a
    location around one daylight-saving change. *)
Definition one_change (name : string) (T a b : Z) : Location :=
  mkLocation name (fun s => if s <? T then mkZone a i64_min T else mkZone b T i64_max).

(** The instant picked for a local reading that exists shows that reading. *)
Lemma local_to_unix_reading (name : string) (T a b u s : Z) :
  i64_min + 172800 <= u <= i64_max - 172800 -> Z.abs a < 86400 -> Z.abs b < 86400 ->
  s + offset_at (one_change name T a b) s = u ->
  let r := local_to_unix (one_change name T a b) u in
  r + offset_at (one_change name T a b) r = u.
Proof.
  intros Hu Ha Hb Hs. unfold local_to_unix, offset_at in *.
  unfold one_change, lookup, zoffset, zstart, zend in *.
  destruct (s <? T) eqn:Es; bool_prop; destruct (u <? T) eqn:Eu; bool_prop;
    repeat (break_test; bool_prop); unfold i64_min, i64_max in *; simpl in *; lia.
Qed.

Lemma one_change_steady (name : string) (T a b : Z) :
  Z.abs (a - b) < 86400 -> steady (one_change name T a b).
Proof.
  intros H s s'. unfold offset_at, one_change; simpl. repeat break_test; simpl; lia.
Qed.

(** Central European Time around the change of 29 March 2026, 01:00 UTC. *)
Definition Berlin2026 : Location := one_change "Europe/Berlin" 1774746000 3600 7200.

Example format_ex :
  format_rfc3339 (mkTime (1774000805 * Second) UTC) = "2026-03-20T10:00:05Z" /\
  format_rfc3339 (mkTime (1774746000 * Second) Berlin2026) = "2026-03-29T03:00:00+02:00".
Proof. split; vm_compute; reflexivity. Qed.
