(* ===== verification/TimeParse.v ===== *)
(** * [time.Parse(time.RFC3339, s)]

    Go's parser for this layout: the hour may have one digit, a fraction of a
    second may follow with a point or a comma, and an offset of 24 hours or 60
    minutes is accepted.  The local zone of the controller is UTC. *)

From Stdlib Require Import (notations) Strings.Ascii.
From S2P Require Export Prelude GoStrings GoTime.

Open Scope Z_scope.
Open Scope go_scope.

(** A parser: the value and the rest of the text. *)
Definition parser (A : Type) : Type := string -> option (A * string).

#[export] Instance parser_ret : MRet parser := fun A a s => Some (a, s).
#[export] Instance parser_bind : MBind parser :=
  fun A B (f : A -> parser B) p s => match p s with Some (a, s') => f a s' | None => None end.

Definition digit : parser Z := fun s =>
  match s with
  | String c s' => match digit_val c with Some d => Some (d, s') | None => None end
  | EmptyString => None
  end.

Definition literal (c : Ascii.ascii) : parser unit := fun s =>
  match s with String d s' => if Ascii.eqb d c then Some (tt, s') else None | EmptyString => None end.

(** A value, or a failure. *)
Definition give {A} (x : option A) : parser A := fun s => (fun a => (a, s)) <$> x.

(** [getnum(s, true)]. *)
Definition two_digits : parser Z := a ← digit; b ← digit; mret (10 * a + b).

(** [getnum(s, false)]: one digit is enough. *)
Definition one_or_two_digits : parser Z := fun s =>
  match two_digits s with Some r => Some r | None => digit s end.

Definition four_digits : parser Z := a ← two_digits; b ← two_digits; mret (100 * a + b).

Definition in_range (lo hi : Z) (p : parser Z) : parser Z :=
  x ← p; give (if (lo <=? x) && (x <=? hi) then Some x else None).

(** The digits of a fraction: the first nine count, and the rest is skipped. *)
Fixpoint fraction (n : nat) (acc : Z) (s : string) : Z * string :=
  match s with
  | String c s' =>
    match digit_val c with
    | Some d => match n with
                | O => fraction 0 acc s'
                | S n' => fraction n' (10 * acc + d) s'
                end
    | None => (acc * 10 ^ Z.of_nat n, s)
    end
  | EmptyString => (acc * 10 ^ Z.of_nat n, s)
  end.

Definition optional_fraction : parser Z := fun s =>
  match s with
  | String c (String d rest) =>
    if (Ascii.eqb c "."%char || Ascii.eqb c ","%char) && match digit_val d with Some _ => true | None => false end
    then Some (fraction 9 0 (String d rest))
    else Some (0, s)
  | _ => Some (0, s)
  end.

Definition zone_offset : parser Z := fun s =>
  match s with
  | String c s' =>
    if Ascii.eqb c "Z"%char then Some (0, s')
    else
      (hh ← in_range 0 24 two_digits; _ ← literal ":"%char; mm ← in_range 0 60 two_digits;
       let off := (hh * 60 + mm) * 60 in
       give (if Ascii.eqb c "+"%char then Some off
             else if Ascii.eqb c "-"%char then Some (- off) else None)) s'
  | EmptyString => None
  end.

(** A zone with a fixed offset; UTC is the local zone. *)
Definition fixed_zone (off : Z) : Location :=
  if off =? 0 then UTC else mkLocation "" (fun _ => mkZone off i64_min i64_max).

Definition rfc3339 : parser Time :=
  y ← four_digits; _ ← literal "-"%char;
  m ← in_range 1 12 two_digits; _ ← literal "-"%char;
  d ← two_digits; _ ← literal "T"%char;
  hh ← in_range 0 23 one_or_two_digits; _ ← literal ":"%char;
  mm ← in_range 0 59 two_digits; _ ← literal ":"%char;
  ss ← in_range 0 59 two_digits;
  ns ← optional_fraction;
  off ← zone_offset;
  give (if (1 <=? d) && (d <=? days_in_month y m) then
          Some (mkTime ((days_of_civil y m d * 86400 + hh * 3600 + mm * 60 + ss - off) * Second + ns)
                  (fixed_zone off))
        else None).

(** [None] stands for a non-nil error. *)
Definition parse_rfc3339 (s : string) : option Time :=
  match rfc3339 s with Some (t, EmptyString) => Some t | _ => None end.

(** ** Round trip *)

Lemma parser_bind_some {A B} (p : parser A) (f : A -> parser B) (s s' : string) (a : A) :
  p s = Some (a, s') -> (p ≫= f) s = f a s'.
Proof. unfold mbind, parser_bind. intros ->. done. Qed.

(** The digits of a two-digit number, checked for each of them. *)
Definition pad2_ok (z : Z) : bool :=
  match pad2 z with
  | String a (String b EmptyString) =>
    match digit_val a, digit_val b with
    | Some x, Some y => 10 * x + y =? z
    | _, _ => false
    end
  | _ => false
  end.

Lemma pad2_all : forallb pad2_ok (seqZ 0 100) = true.
Proof. vm_compute. reflexivity. Qed.

Lemma pad2_digits (z : Z) :
  0 <= z < 100 -> exists a b x y, pad2 z = String a (String b "") /\
    digit_val a = Some x /\ digit_val b = Some y /\ 10 * x + y = z.
Proof.
  intros Hz. pose proof pad2_all as H. rewrite forallb_forall in H.
  specialize (H z ltac:(apply list_elem_of_In, elem_of_seqZ; lia)).
  unfold pad2_ok in H. destruct (pad2 z) as [|a [|b [|? ?]]]; try done.
  destruct (digit_val a) as [x|] eqn:Ea; [|done]. destruct (digit_val b) as [y|] eqn:Eb; [|done].
  bool_prop. exists a, b, x, y. auto.
Qed.

Lemma two_digits_pad2 (z : Z) (s : string) : 0 <= z < 100 -> two_digits (pad2 z +:+ s) = Some (z, s).
Proof.
  intros Hz. destruct (pad2_digits z Hz) as (a & b & x & y & -> & Ha & Hb & <-).
  change (String a (String b "") +:+ s) with (String a (String b s)).
  unfold two_digits, digit, mbind, parser_bind. rewrite Ha, Hb. done.
Qed.

Lemma literal_app (c : Ascii.ascii) (s : string) : String c EmptyString +:+ s = String c s.
Proof. done. Qed.

Lemma literal_ok (c : Ascii.ascii) (s : string) : literal c (String c s) = Some (tt, s).
Proof. unfold literal. by rewrite Ascii.eqb_refl. Qed.

Lemma in_range_ok (lo hi z : Z) (p : parser Z) (s s' : string) :
  p s = Some (z, s') -> lo <= z <= hi -> in_range lo hi p s = Some (z, s').
Proof.
  intros Hp Hz. unfold in_range. rewrite (parser_bind_some _ _ _ _ _ Hp).
  rewrite !(proj2 (Z.leb_le _ _)) by lia. done.
Qed.

Lemma one_or_two_pad2 (z : Z) (s : string) :
  0 <= z < 100 -> one_or_two_digits (pad2 z +:+ s) = Some (z, s).
Proof. intros Hz. unfold one_or_two_digits. by rewrite two_digits_pad2. Qed.

(** Four digits are two times two. *)
Definition pad4_ok (z : Z) : bool := String.eqb (pad4 z) (pad2 (z / 100) +:+ pad2 (z mod 100)).

Lemma pad4_all : forallb pad4_ok (seqZ 0 10000) = true.
Proof. vm_compute. reflexivity. Qed.

Lemma four_digits_pad4 (z : Z) (s : string) : 0 <= z < 10000 -> four_digits (pad4 z +:+ s) = Some (z, s).
Proof.
  intros Hz. pose proof pad4_all as H. rewrite forallb_forall in H.
  specialize (H z ltac:(apply list_elem_of_In, elem_of_seqZ; lia)).
  unfold pad4_ok in H. bool_prop. rewrite H.
  assert (Hd : 0 <= z / 100 < 100 /\ 0 <= z mod 100 < 100) by (Z.div_mod_to_equations; lia).
  destruct (pad2_digits (z / 100)) as (a & b & x & y & E1 & Ha & Hb & Ez); [lia|].
  assert ((pad2 (z / 100) +:+ pad2 (z mod 100)) +:+ s = pad2 (z / 100) +:+ (pad2 (z mod 100) +:+ s)) as ->
    by (rewrite E1; done).
  unfold four_digits. rewrite (parser_bind_some _ _ _ _ _ (two_digits_pad2 (z / 100) _ (proj1 Hd))).
  rewrite (parser_bind_some _ _ _ _ _ (two_digits_pad2 (z mod 100) _ (proj2 Hd))).
  unfold mret, parser_ret. do 2 f_equal. Z.div_mod_to_equations. lia.
Qed.

(** The offset of a location that RFC 3339 can express: whole minutes, less than
    25 hours. *)
Definition plain_offset (off : Z) : Prop := off mod 60 = 0 /\ Z.abs off < 90000.

Lemma string_app_cons (c : Ascii.ascii) (s t : string) : String c s +:+ t = String c (s +:+ t).
Proof. done. Qed.

Lemma zone_offset_format (off : Z) :
  plain_offset off -> zone_offset (format_offset off) = Some (off, "").
Proof.
  intros [Hm Hb]. unfold format_offset. destruct (off =? 0) eqn:E0; bool_prop; [by subst|].
  assert (Hq : Z.quot off 60 = off / 60) by (rewrite Z.quot_div_exact; [done|lia|apply Z.mod_divide; lia]).
  rewrite Hq. set (k := Z.abs (off / 60)).
  assert (Hk : k = Z.abs off / 60).
  { unfold k. pose proof (Z.div_mod off 60 ltac:(lia)) as Hd. rewrite Hm, Z.add_0_r in Hd.
    rewrite Hd at 2. rewrite Z.abs_mul, Z.mul_comm, Z.div_mul; done. }
  assert (Hoff : k * 60 = Z.abs off).
  { unfold k. pose proof (Z.div_mod off 60 ltac:(lia)) as Hd. rewrite Hm, Z.add_0_r in Hd.
    rewrite Hd at 2. rewrite Z.abs_mul. lia. }
  assert (Hkr : 0 <= k < 1500) by lia.
  clearbody k.
  assert (Hk0 : 0 <= k / 60 <= 24 /\ 0 <= k mod 60 < 60) by (Z.div_mod_to_equations; lia).
  assert (Hgo : forall c, c <> "Z"%char -> zone_offset (String c "" +:+ pad2 (k / 60) +:+ ":" +:+ pad2 (k mod 60)) =
    (fun x => (x, "")) <$>
      (if Ascii.eqb c "+"%char then Some (k * 60) else if Ascii.eqb c "-"%char then Some (- (k * 60)) else None)).
  { intros c Hc. rewrite !literal_app. unfold zone_offset.
    apply Ascii.eqb_neq in Hc. rewrite Hc.
    rewrite (parser_bind_some _ _ _ _ _ (in_range_ok 0 24 _ _ _ _ (two_digits_pad2 (k / 60) _ ltac:(lia)) ltac:(lia))).
    rewrite (parser_bind_some _ _ _ _ _ (literal_ok ":"%char _)).
    assert (Hp : two_digits (pad2 (k mod 60)) = Some (k mod 60, "")).
    { pose proof (two_digits_pad2 (k mod 60) "" ltac:(lia)) as Hp.
      destruct (pad2_digits (k mod 60)) as (a & b & x & y & E & _); [lia|]. rewrite E in *. exact Hp. }
    rewrite (parser_bind_some _ _ _ _ _ (in_range_ok 0 60 _ _ _ _ Hp ltac:(lia))).
    unfold give. replace ((k / 60 * 60 + k mod 60) * 60) with (k * 60); [done|].
    rewrite (Z.div_mod k 60) at 1 by lia. lia. }
  destruct (off / 60 <? 0) eqn:Es; bool_prop.
  - change "-" with (String "-"%char ""). rewrite Hgo by done. simpl. do 2 f_equal.
    Z.div_mod_to_equations. lia.
  - change "+" with (String "+"%char ""). rewrite Hgo by done. simpl. do 2 f_equal.
    Z.div_mod_to_equations. lia.
Qed.

(** What [Format(time.RFC3339)] writes, [time.Parse] reads back: the instant
    to the second, in a zone with the offset of the original (UTC when it is
    zero), for years of four digits and offsets of whole minutes. *)
Theorem parse_format_rfc3339 (t : Time) :
  let '(y, _, _) := date_of t in
  let off := offset_at (t_loc t) (unix_sec t) in
  0 <= y < 10000 -> plain_offset off ->
  parse_rfc3339 (format_rfc3339 t) = Some (mkTime (unix_sec t * Second) (fixed_zone off)).
Proof.
  pose proof (days_of_civil_of_days (local_sec t / 86400)) as Hd.
  pose proof (civil_of_days_valid (local_sec t / 86400)) as Hv.
  pose proof (clock_of_spec t) as Hc.
  assert (Hr : let '(hh, mm, ss) := clock_of t in 0 <= hh < 24 /\ 0 <= mm < 60 /\ 0 <= ss < 60).
  { unfold clock_of. Z.div_mod_to_equations. lia. }
  unfold format_rfc3339, date_of in *. destruct (civil_of_days (local_sec t / 86400)) as [[y m] d].
  destruct (clock_of t) as [[hh mm] ss]. cbv zeta. intros Hy Ho. destruct Hv as [Hm Hdm].
  pose proof (days_in_month_bounds y m) as Hdb.
  unfold parse_rfc3339, rfc3339. rewrite !literal_app.
  rewrite (parser_bind_some _ _ _ _ _ (four_digits_pad4 y _ Hy)).
  rewrite (parser_bind_some _ _ _ _ _ (literal_ok "-"%char _)).
  rewrite (parser_bind_some _ _ _ _ _ (in_range_ok 1 12 _ _ _ _ (two_digits_pad2 m _ ltac:(lia)) ltac:(lia))).
  rewrite (parser_bind_some _ _ _ _ _ (literal_ok "-"%char _)).
  rewrite (parser_bind_some _ _ _ _ _ (two_digits_pad2 d _ ltac:(lia))).
  rewrite (parser_bind_some _ _ _ _ _ (literal_ok "T"%char _)).
  rewrite (parser_bind_some _ _ _ _ _ (in_range_ok 0 23 _ _ _ _ (one_or_two_pad2 hh _ ltac:(lia)) ltac:(lia))).
  rewrite (parser_bind_some _ _ _ _ _ (literal_ok ":"%char _)).
  rewrite (parser_bind_some _ _ _ _ _ (in_range_ok 0 59 _ _ _ _ (two_digits_pad2 mm _ ltac:(lia)) ltac:(lia))).
  rewrite (parser_bind_some _ _ _ _ _ (literal_ok ":"%char _)).
  rewrite (parser_bind_some _ _ _ _ _ (in_range_ok 0 59 _ _ _ _ (two_digits_pad2 ss _ ltac:(lia)) ltac:(lia))).
  pose proof (zone_offset_format _ Ho) as Hz. unfold local_sec in *.
  set (off := offset_at (t_loc t) (unix_sec t)) in *.
  assert (Hf : optional_fraction (format_offset off) = Some (0, format_offset off)).
  { unfold format_offset. destruct (off =? 0); [done|]. destruct (_ <? 0); [|].
    - change "-" with (String "-"%char ""). simpl. by destruct (pad2 _ +:+ _).
    - change "+" with (String "+"%char ""). simpl. by destruct (pad2 _ +:+ _). }
  rewrite (parser_bind_some _ _ _ _ _ Hf), (parser_bind_some _ _ _ _ _ Hz).
  unfold give. rewrite !(proj2 (Z.leb_le _ _)) by lia. simpl. do 2 f_equal.
  pose proof (Z.div_mod (unix_sec t + off) 86400 ltac:(lia)). rewrite Z.add_0_r. f_equal. lia.
Qed.

Lemma parse_format_rfc3339_witness :
  parse_rfc3339 (format_rfc3339 (mkTime 1500000000 (fixed_zone (-19800)))) =
  Some (mkTime (1 * Second) (fixed_zone (-19800))).
Proof.
  refine (parse_format_rfc3339 (mkTime 1500000000 (fixed_zone (-19800))) _ _).
  - vm_compute. split; [discriminate|reflexivity].
  - vm_compute. auto.
Defined.
