(* ===== verification/GoFloat.v ===== *)
(** * Go's [float64]

    IEEE 754 binary64 with round to nearest, ties to even: the executable
    specification of the standard library ([SpecFloat]) at precision 53 and
    maximal exponent 1024.  No property of real numbers is assumed; the lemmas
    are about the bit-level definition. *)

From Corelib Require Export SpecFloat.
From S2P Require Export Prelude.

Open Scope Z_scope.
Open Scope go_scope.

Abbreviation float64 := spec_float.

Definition prec : Z := 53.
Definition emax : Z := 1024.

Definition f_add (x y : float64) : float64 := SFadd prec emax x y.
Definition f_sub (x y : float64) : float64 := SFsub prec emax x y.
Definition f_mul (x y : float64) : float64 := SFmul prec emax x y.
Definition f_div (x y : float64) : float64 := SFdiv prec emax x y.

(** Comparisons; each is false when an operand is NaN. *)
Definition f_lt (x y : float64) : bool := SFltb x y.
Definition f_le (x y : float64) : bool := SFleb x y.
Definition f_eq (x y : float64) : bool := SFeqb x y.

Definition f_zero : float64 := S754_zero false.

(** [float64(z)] for an integer [z]. *)
Definition f_of_Z (z : Z) : float64 := binary_normalize prec emax z 0 false.

Definition f_one : float64 := f_of_Z 1.

Definition is_nan (x : float64) : bool :=
  match x with S754_nan => true | _ => false end.

Definition is_inf (x : float64) : bool :=
  match x with S754_infinity _ => true | _ => false end.

(** Integer part, towards zero, of the magnitude [m * 2^e]. *)
Definition int_part (m : positive) (e : Z) : Z :=
  if 0 <=? e then Z.shiftl (Zpos m) e else Z.shiftr (Zpos m) (- e).

(** [int(x)]: truncation towards zero.  Outside the range of [int] the result
    is implementation specific; the value here is that of amd64. *)
Definition f_to_int (x : float64) : Z :=
  match x with
  | S754_zero _ => 0
  | S754_finite s m e =>
    let z := if s then - int_part m e else int_part m e in
    if in_i64b z then z else i64_min
  | S754_infinity _ | S754_nan => i64_min
  end.

(** [math.Round]: to the nearest integer, halves away from zero. *)
Definition f_round (x : float64) : float64 :=
  match x with
  | S754_finite s m e =>
    if 0 <=? e then x
    else
      let q := Z.shiftr (Zpos m + Z.shiftl 1 (- e - 1)) (- e) in
      binary_normalize prec emax (if s then - q else q) 0 s
  | _ => x
  end.

(** [math.Ceil]. *)
Definition f_ceil (x : float64) : float64 :=
  match x with
  | S754_finite s m e =>
    if 0 <=? e then x
    else
      let q := Z.shiftr (Zpos m) (- e) in
      let exact := Z.shiftl q (- e) =? Zpos m in
      if s then binary_normalize prec emax (- q) 0 true
      else binary_normalize prec emax (if exact then q else q + 1) 0 false
  | _ => x
  end.

(** ** Exactness of small integers *)

Lemma digits2_xO_iter (m : positive) (k : positive) :
  Zpos (digits2_pos (Pos.iter xO m k)) = Zpos (digits2_pos m) + Zpos k.
Proof.
  induction k as [|k IH] using Pos.peano_ind; simpl; [lia|].
  rewrite Pos.iter_succ. simpl. lia.
Qed.

Lemma iter_xO_shiftl (m k : positive) : Zpos (Pos.iter xO m k) = Zpos m * 2 ^ Zpos k.
Proof.
  induction k as [|k IH] using Pos.peano_ind; [simpl; lia|].
  rewrite Pos.iter_succ, Pos2Z.inj_succ, Z.pow_succ_r by lia.
  rewrite Pos2Z.inj_xO, IH. lia.
Qed.

Lemma digits2_pos_bounds (m : positive) :
  2 ^ (Zpos (digits2_pos m) - 1) <= Zpos m < 2 ^ Zpos (digits2_pos m).
Proof.
  induction m as [m IH|m IH|]; simpl digits2_pos; rewrite ?Pos2Z.inj_succ; [| |simpl; lia];
    replace (Z.succ (Zpos (digits2_pos m)) - 1) with (Z.succ (Zpos (digits2_pos m) - 1)) by lia;
    rewrite !Z.pow_succ_r by lia; lia.
Qed.

Lemma digits2_pos_le (m : positive) (d : Z) :
  0 <= d -> Zpos m < 2 ^ d -> Zpos (digits2_pos m) <= d.
Proof.
  intros Hd Hm. pose proof (digits2_pos_bounds m) as [H _].
  destruct (Z.le_gt_cases (Zpos (digits2_pos m)) d) as [|G]; [done|].
  assert (2 ^ d <= 2 ^ (Zpos (digits2_pos m) - 1)) by (apply Z.pow_le_mono_r; lia). lia.
Qed.

(** The normal form of a small positive integer. *)
Definition norm_mant (m : positive) : positive :=
  match (53 - Zpos (digits2_pos m))%Z with Zpos k => Pos.iter xO m k | _ => m end.

Lemma norm_mant_val (m : positive) :
  Zpos (digits2_pos m) <= 53 ->
  Zpos (norm_mant m) = Zpos m * 2 ^ (53 - Zpos (digits2_pos m)) /\
  Zpos (digits2_pos (norm_mant m)) = 53.
Proof.
  intros H. unfold norm_mant. destruct (53 - Zpos (digits2_pos m)) as [|k|k] eqn:E.
  - simpl. lia.
  - rewrite iter_xO_shiftl, digits2_xO_iter. lia.
  - lia.
Qed.

Lemma binary_round_small (s : bool) (m : positive) :
  Zpos m < 2 ^ 53 ->
  binary_round prec emax s m 0 = S754_finite s (norm_mant m) (Zpos (digits2_pos m) - 53).
Proof.
  intros Hm. pose proof (digits2_pos_le m 53 ltac:(lia) Hm) as Hd.
  pose proof (norm_mant_val m Hd) as [_ Hn].
  assert (Hf : fexp prec emax (Zpos (digits2_pos m) + 0) = Zpos (digits2_pos m) - 53).
  { unfold fexp, emin, prec, emax. lia. }
  assert (Ha : shl_align m 0 (Zpos (digits2_pos m) - 53) =
               (norm_mant m, Zpos (digits2_pos m) - 53)).
  { unfold shl_align, norm_mant. rewrite Z.sub_0_r.
    destruct (Zpos (digits2_pos m) - 53) as [|k|k] eqn:E.
    - replace (53 - Zpos (digits2_pos m)) with 0 by lia. done.
    - lia.
    - replace (53 - Zpos (digits2_pos m)) with (Zpos k) by lia. done. }
  unfold binary_round. rewrite Hf, Ha. unfold binary_round_aux, shr_fexp.
  assert (Hs : fexp prec emax (Zdigits2 (Zpos (norm_mant m)) + (Zpos (digits2_pos m) - 53)) -
               (Zpos (digits2_pos m) - 53) = 0).
  { simpl Zdigits2. rewrite Hn. unfold fexp, emin, prec, emax. lia. }
  rewrite Hs. cbn [shr shr_record_of_loc shr_m loc_of_shr_record round_nearest_even].
  rewrite Hs. cbn [shr shr_record_of_loc shr_m].
  rewrite (proj2 (Z.leb_le _ _)); [done|]. unfold prec, emax. lia.
Qed.

(** Integers of magnitude below 2^53 survive the round trip through [float64]. *)
Lemma f_to_int_of_Z (z : Z) : Z.abs z < 2 ^ 53 -> f_to_int (f_of_Z z) = z.
Proof.
  intros Hz. unfold f_of_Z, binary_normalize.
  assert (Hp : forall m, Zpos m < 2 ^ 53 -> int_part (norm_mant m) (Zpos (digits2_pos m) - 53) = Zpos m).
  { intros m Hm. pose proof (digits2_pos_le m 53 ltac:(lia) Hm) as Hd.
    pose proof (norm_mant_val m Hd) as [Hv _]. unfold int_part.
    destruct (0 <=? Zpos (digits2_pos m) - 53) eqn:E; bool_prop; rewrite Hv.
    - replace (Zpos (digits2_pos m) - 53) with 0 by lia.
      replace (53 - Zpos (digits2_pos m)) with 0 by lia. rewrite Z.shiftl_0_r. simpl; lia.
    - replace (- (Zpos (digits2_pos m) - 53)) with (53 - Zpos (digits2_pos m)) by lia.
      rewrite Z.shiftr_div_pow2 by lia. apply Z.div_mul, Z.pow_nonzero; lia. }
  destruct z as [|p|p]; [done| |]; rewrite binary_round_small by lia; simpl f_to_int;
    rewrite Hp by lia.
  - replace (in_i64b (Zpos p)) with true; [done|]. symmetry. apply in_i64b_spec. i64_lia.
  - change (- Zpos p) with (Zneg p).
    replace (in_i64b (Zneg p)) with true; [done|]. symmetry. apply in_i64b_spec. i64_lia.
Qed.

(** Zero is neutral for the addition of a number that is not the negative zero. *)
Lemma f_add_zero_r (x : float64) : x <> S754_zero true -> f_add x f_zero = x.
Proof. destruct x as [[]|[]| |]; intros H; try done. Qed.

Lemma f_of_Z_neq_negzero (z : Z) : Z.abs z < 2 ^ 53 -> f_of_Z z <> S754_zero true.
Proof.
  intros Hz. unfold f_of_Z, binary_normalize.
  destruct z; [done | |]; rewrite binary_round_small by lia; done.
Qed.

(** *** Exact addition of integers *)

(** [m * 2^k]. *)
Definition scale (m : positive) (k : Z) : positive :=
  match k with Zpos p => Pos.iter xO m p | _ => m end.

Lemma scale_val (m : positive) (k : Z) : 0 <= k -> Zpos (scale m k) = Zpos m * 2 ^ k.
Proof. intros Hk. destruct k as [|p|p]; simpl; [lia|apply iter_xO_shiftl|lia]. Qed.

Lemma scale_digits (m : positive) (k : Z) :
  0 <= k -> Zpos (digits2_pos (scale m k)) = Zpos (digits2_pos m) + k.
Proof. intros Hk. destruct k as [|p|p]; simpl; [lia|apply digits2_xO_iter|lia]. Qed.

Lemma scale_scale (m : positive) (a b : Z) : 0 <= a -> 0 <= b -> scale (scale m a) b = scale m (a + b).
Proof.
  intros Ha Hb. assert (Zpos (scale (scale m a) b) = Zpos (scale m (a + b))) as E; [|by injection E].
  rewrite !scale_val by lia. rewrite Z.pow_add_r by lia. lia.
Qed.

Lemma shl_align_scale (m : positive) (e e' : Z) :
  e' <= e -> shl_align m e e' = (scale m (e - e'), e').
Proof.
  intros H. unfold shl_align, scale. destruct (e' - e) as [|p|p] eqn:E; [|lia|].
  - replace (e - e') with 0 by lia. f_equal. lia.
  - replace (e - e') with (Zpos p) by lia. done.
Qed.

Lemma iter_pos_iter {A} (f : A -> A) (p : positive) (x : A) : SpecFloat.iter_pos f p x = Pos.iter f x p.
Proof.
  revert x. induction p as [p IH|p IH|]; intros x; simpl; [| |done]; rewrite !IH; [|done].
  rewrite !Pos.iter_swap. done.
Qed.

Lemma shr_scale (q : positive) (e k : Z) :
  0 <= k ->
  shr (Build_shr_record (Zpos (scale q k)) false false) e k =
  (Build_shr_record (Zpos q) false false, e + k).
Proof.
  intros Hk. destruct k as [|p|p]; simpl; [by rewrite Z.add_0_r| |lia].
  clear Hk. rewrite iter_pos_iter. f_equal. induction p as [|p IH] using Pos.peano_ind; [done|].
  rewrite Pos.iter_succ_r, Pos.iter_succ. simpl. exact IH.
Qed.

(** Rounding depends on the value only: a small integer, however scaled, rounds
    to its normal form. *)
Lemma binary_round_scaled (s : bool) (m : positive) (k : Z) :
  Zpos m < 2 ^ 53 -> 0 <= k ->
  binary_round prec emax s (scale m k) (- k) =
  S754_finite s (norm_mant m) (Zpos (digits2_pos m) - 53).
Proof.
  intros Hm Hk. rewrite <- (binary_round_small s m Hm).
  pose proof (digits2_pos_le m 53 ltac:(lia) Hm) as Hd.
  set (n := Zpos (digits2_pos m)) in *.
  assert (Hf : fexp prec emax n = n - 53) by (unfold fexp, emin, prec, emax; lia).
  unfold binary_round. rewrite scale_digits by done. fold n.
  replace (n + k + - k) with n by lia. rewrite Z.add_0_r, Hf.
  rewrite (shl_align_scale m 0) by lia.
  destruct (Z.le_gt_cases (n - 53) (- k)) as [Hle|Hgt].
  - rewrite shl_align_scale, scale_scale by lia. do 3 f_equal. lia.
  - assert (shl_align (scale m k) (- k) (n - 53) = (scale m k, - k)) as ->.
    { unfold shl_align. destruct (n - 53 - - k) eqn:E; [done|done|lia]. }
    unfold binary_round_aux. f_equal.
    assert (shr_fexp prec emax (Zpos (scale m k)) (- k) loc_Exact =
                  shr_fexp prec emax (Zpos (scale m (0 - (n - 53)))) (n - 53) loc_Exact) as ->; [|done].
    unfold shr_fexp, shr_record_of_loc.
    change (Zdigits2 (Zpos ?x)) with (Zpos (digits2_pos x)). rewrite !scale_digits by lia. fold n.
    replace (n + k + - k) with n by lia. replace (n + (0 - (n - 53)) + (n - 53)) with n by lia.
    rewrite Hf. replace (n - 53 - (n - 53)) with 0 by lia.
    replace k with (0 - (n - 53) + (n - 53 - - k)) at 1 by lia.
    rewrite <- scale_scale by lia. rewrite shr_scale by lia. simpl. f_equal. lia.
Qed.

Lemma binary_normalize_scaled (z : Z) (k : Z) :
  Z.abs z < 2 ^ 53 -> 0 <= k -> binary_normalize prec emax (z * 2 ^ k) (- k) false = f_of_Z z.
Proof.
  intros Hz Hk. unfold f_of_Z. destruct z as [|p|p]; [done| |].
  - rewrite <- scale_val by done. simpl binary_normalize.
    rewrite binary_round_scaled, binary_round_small by (done || lia). done.
  - replace (Zneg p * 2 ^ k) with (- (Zpos p * 2 ^ k)) by lia. rewrite <- scale_val by done.
    simpl binary_normalize. rewrite binary_round_scaled, binary_round_small by (done || lia). done.
Qed.

(** The signed mantissa of an integer at a smaller exponent. *)
Lemma f_of_Z_at (z : Z) :
  Z.abs z < 2 ^ 53 -> z <> 0 ->
  exists s m e, f_of_Z z = S754_finite s m e /\ e <= 0 /\
    forall k, - k <= e -> cond_Zopp s (Zpos (fst (shl_align m e (- k)))) = z * 2 ^ k.
Proof.
  intros Hz Hnz. unfold f_of_Z, binary_normalize.
  assert (Hp : forall p k, Zpos p < 2 ^ 53 -> - k <= Zpos (digits2_pos p) - 53 ->
    Zpos (fst (shl_align (norm_mant p) (Zpos (digits2_pos p) - 53) (- k))) = Zpos p * 2 ^ k).
  { intros p k Hp Hk. pose proof (digits2_pos_le p 53 ltac:(lia) Hp) as Hd.
    rewrite shl_align_scale by lia. simpl fst. rewrite scale_val by lia.
    rewrite (proj1 (norm_mant_val p Hd)), <- Z.mul_assoc, <- Z.pow_add_r by lia. do 2 f_equal. lia. }
  destruct z as [|p|p]; [done| |]; rewrite binary_round_small by lia; do 3 eexists;
    (split; [reflexivity|]);
    (split; [pose proof (digits2_pos_le p 53 ltac:(lia) ltac:(lia)); lia|]);
    intros k Hk; simpl; rewrite Hp by lia; lia.
Qed.

(** Sums of integers are exact below 2^53. *)
Lemma f_add_of_Z (a b : Z) :
  Z.abs a < 2 ^ 53 -> Z.abs b < 2 ^ 53 -> Z.abs (a + b) < 2 ^ 53 ->
  f_add (f_of_Z a) (f_of_Z b) = f_of_Z (a + b).
Proof.
  intros Ha Hb Hab.
  destruct (Z.eq_dec b 0) as [->|Hb0].
  { rewrite Z.add_0_r. apply f_add_zero_r, f_of_Z_neq_negzero, Ha. }
  destruct (Z.eq_dec a 0) as [->|Ha0].
  { rewrite Z.add_0_l. destruct (f_of_Z_at b Hb Hb0) as (s & m & e & -> & _). done. }
  destruct (f_of_Z_at a Ha Ha0) as (sa & ma & ea & -> & Hea & Hva).
  destruct (f_of_Z_at b Hb Hb0) as (sb & mb & eb & -> & Heb & Hvb).
  unfold f_add, SFadd. set (ez := Z.min ea eb).
  replace ez with (- (- ez)) by lia. rewrite Hva, Hvb by lia.
  rewrite <- Z.mul_add_distr_r. apply binary_normalize_scaled; [done|lia].
Qed.

(** *** Quotients and products of positive integers *)

Lemma shr_1_nonneg (r : shr_record) : 0 <= shr_m r -> 0 <= shr_m (shr_1 r).
Proof. destruct r as [[|[p|p|]|[p|p|]] b c]; simpl; lia. Qed.

Lemma shr_nonneg (r : shr_record) (e n : Z) : 0 <= shr_m r -> 0 <= shr_m (shr r e n).1.
Proof.
  intros Hr. destruct n as [|p|p]; simpl; [done| |done]. rewrite iter_pos_iter.
  induction p as [|p IH] using Pos.peano_ind; [by apply shr_1_nonneg|].
  rewrite Pos.iter_succ. by apply shr_1_nonneg.
Qed.

(** Rounding a non-negative mantissa gives a number. *)
Lemma binary_round_aux_not_nan (s : bool) (m e : Z) (l : location) :
  0 <= m -> is_nan (binary_round_aux prec emax s m e l) = false.
Proof.
  intros Hm. unfold binary_round_aux, shr_fexp.
  assert (H0 : forall m l, 0 <= m -> 0 <= shr_m (shr_record_of_loc m l)).
  { intros m' l' Hm'. destruct l' as [|[]]; done. }
  pose proof (shr_nonneg (shr_record_of_loc m l) e (fexp prec emax (Zdigits2 m + e) - e) (H0 _ _ Hm)) as H1.
  destruct (shr (shr_record_of_loc m l) e _) as [r1 e1]. simpl in H1.
  set (m2 := round_nearest_even (shr_m r1) (loc_of_shr_record r1)).
  assert (H2 : 0 <= m2).
  { unfold m2, round_nearest_even. destruct (loc_of_shr_record r1) as [|[]]; [| destruct (Z.even _) | |]; lia. }
  pose proof (shr_nonneg (shr_record_of_loc m2 loc_Exact) e1 (fexp prec emax (Zdigits2 m2 + e1) - e1)
    (H0 _ _ H2)) as H3.
  destruct (shr (shr_record_of_loc m2 loc_Exact) e1 _) as [r3 e3]. simpl in H3.
  destruct (shr_m r3); [done|by destruct (e3 <=? emax - prec)|lia].
Qed.

Lemma f_div_not_nan (s1 s2 : bool) (m1 m2 : positive) (e1 e2 : Z) :
  is_nan (f_div (S754_finite s1 m1 e1) (S754_finite s2 m2 e2)) = false.
Proof.
  unfold f_div, SFdiv, SFdiv_core_binary.
  set (e' := Z.min _ _). set (m' := match e1 - e2 - e' with Z0 => _ | _ => _ end).
  assert (Hm : 0 <= m').
  { unfold m'. destruct (e1 - e2 - e'); [lia|apply Z.shiftl_nonneg; lia|lia]. }
  pose proof (Z_div_mod m' (Zpos m2) ltac:(lia)) as Hd.
  destruct (Z.div_eucl m' (Zpos m2)) as [q r]. apply binary_round_aux_not_nan. nia.
Qed.

Lemma f_of_Z_pos (z : Z) : 0 < z < 2 ^ 53 -> exists m e, f_of_Z z = S754_finite false m e.
Proof.
  intros Hz. destruct z as [|p|p]; [lia| |lia]. unfold f_of_Z, binary_normalize.
  rewrite binary_round_small by lia. eauto.
Qed.

(** The fraction of a stage: a number between zero and one. *)
Definition clamp01 (x : float64) : float64 :=
  let x := if f_lt x f_zero then f_zero else x in
  if f_lt f_one x then f_one else x.

Lemma clamp01_times_zero (x : float64) :
  is_nan x = false -> exists s, f_mul (clamp01 x) f_zero = S754_zero s.
Proof.
  intros Hx. unfold clamp01. destruct (f_lt x f_zero) eqn:E1; cbv zeta.
  - exists false. reflexivity.
  - destruct (f_lt f_one x) eqn:E2; [by exists false|].
    destruct x as [s|s| |s m e]; [by exists (xorb s false)| |done|by exists (xorb s false)].
    destruct s; done.
Qed.

Lemma f_add_zero_any (z : Z) (s : bool) :
  Z.abs z < 2 ^ 53 -> f_add (f_of_Z z) (S754_zero s) = f_of_Z z.
Proof.
  intros Hz. pose proof (f_of_Z_neq_negzero z Hz) as Hn.
  by destruct (f_of_Z z) as [[]|[]| |], s.
Qed.

Example f_round_half : f_round (f_div (f_of_Z 5) (f_of_Z 2)) = f_of_Z 3.
Proof. reflexivity. Qed.

Example f_third : f_to_int (f_mul (f_div f_one (f_of_Z 3)) (f_of_Z 100)) = 33.
Proof. reflexivity. Qed.
