(* ===== verification/Json.v ===== *)
(** * Go's [encoding/json], as far as the controller uses it

    A JSON text is read one byte at a time by a pushdown automaton (the shape
    of Go's own scanner), so that reading is structural in the text and needs
    no fuel.  Numbers keep their literal; they become a [float64] or an [int]
    when a field of that type is decoded.  Objects keep their members in the
    order of the text, duplicates included: in a Go map, and in a struct, the
    last member with a key decides. *)

From S2P Require Export Prelude GoStrings GoFloat.

Open Scope Z_scope.
#[local] Set Warnings "-register-all".

Inductive json : Type :=
  | JNull
  | JBool (b : bool)
  | JNum (lit : string)
  | JStr (s : string)
  | JArr (items : list json)
  | JObj (members : list (string * json)).

(** ** Strings: bytes, escapes and UTF-8 *)

(** A string body is a sequence of bytes and [\u] code units. *)
Inductive sunit : Type :=
  | UByte (b : Ascii.ascii)
  | UHex (code : Z).

Definition chr (z : Z) : Ascii.ascii := Ascii.ascii_of_N (Z.to_N z).

Lemma byte_chr (z : Z) : 0 <= z < 256 -> byte_of (chr z) = z.
Proof. intros H. unfold byte_of, chr. rewrite Ascii.N_ascii_embedding by lia. lia. Qed.

Definition bytes (l : list Z) : list Ascii.ascii := map chr l.

(** UTF-8 encoding of a code point. *)
Definition utf8_encode (r : Z) : list Ascii.ascii :=
  if r <? 128 then bytes [r]
  else if r <? 2048 then bytes [192 + r / 64; 128 + r mod 64]
  else if r <? 65536 then bytes [224 + r / 4096; 128 + (r / 64) mod 64; 128 + r mod 64]
  else bytes [240 + r / 262144; 128 + (r / 4096) mod 64; 128 + (r / 64) mod 64; 128 + r mod 64].

(** U+FFFD, which replaces what is not valid UTF-8. *)
Definition replacement : list Ascii.ascii := bytes [239; 191; 189].

Definition between (lo hi : Z) (c : Ascii.ascii) : bool := (lo <=? byte_of c) && (byte_of c <=? hi).
Definition is_cont : Ascii.ascii -> bool := between 128 191.

Definition is_high (h : Z) : bool := (55296 <=? h) && (h <=? 56319).
Definition is_low (h : Z) : bool := (56320 <=? h) && (h <=? 57343).

(** The two-byte, three-byte and four-byte sequences that are valid UTF-8. *)
Definition seq2 (a b : Ascii.ascii) : bool := between 194 223 a && is_cont b.
Definition seq3 (a b c : Ascii.ascii) : bool :=
  ((between 224 224 a && between 160 191 b) ||
   ((between 225 236 a || between 238 239 a) && is_cont b) ||
   (between 237 237 a && between 128 159 b)) && is_cont c.
Definition seq4 (a b c d : Ascii.ascii) : bool :=
  ((between 240 240 a && between 144 191 b) ||
   (between 241 243 a && is_cont b) ||
   (between 244 244 a && between 128 143 b)) && is_cont c && is_cont d.

(** [unquote]: invalid bytes and unpaired surrogates become U+FFFD. *)
Fixpoint decode_units (l : list sunit) : list Ascii.ascii :=
  match l with
  | [] => []
  | UHex h :: l1 =>
    if is_high h || is_low h then
      match l1 with
      | UHex h' :: l2 =>
        if is_high h && is_low h'
        then utf8_encode (65536 + (h - 55296) * 1024 + (h' - 56320)) ++ decode_units l2
        else replacement ++ decode_units l1
      | _ => replacement ++ decode_units l1
      end
    else utf8_encode h ++ decode_units l1
  | UByte a :: l1 =>
    if byte_of a <? 128 then a :: decode_units l1 else
    match l1 with
    | UByte b :: l2 =>
      if seq2 a b then a :: b :: decode_units l2 else
      match l2 with
      | UByte c :: l3 =>
        if seq3 a b c then a :: b :: c :: decode_units l3 else
        match l3 with
        | UByte d :: l4 =>
          if seq4 a b c d then a :: b :: c :: d :: decode_units l4
          else replacement ++ decode_units l1
        | _ => replacement ++ decode_units l1
        end
      | _ => replacement ++ decode_units l1
      end
    | _ => replacement ++ decode_units l1
    end
  end.

Definition hex_val (c : Ascii.ascii) : option Z :=
  let b := byte_of c in
  if (48 <=? b) && (b <=? 57) then Some (b - 48)
  else if (97 <=? b) && (b <=? 102) then Some (b - 87)
  else if (65 <=? b) && (b <=? 70) then Some (b - 55)
  else None.

(** ** The scanner *)

(** How much of a number has been read. *)
Inductive num_state : Type :=
  | NSign | NZero | NInt | NDot | NFrac | NExp | NExpSign | NExpDigits.

Inductive mode : Type :=
  | MValue                                   (* a value must start *)
  | MFirstItem                               (* after an opening bracket *)
  | MFirstKey                                (* after an opening brace *)
  | MKey                                     (* after a comma in an object *)
  | MColon (key : string)                    (* a colon must follow *)
  | MStr (is_key : bool) (acc : list sunit)
  | MEscape (is_key : bool) (acc : list sunit)
  | MHex (is_key : bool) (acc : list sunit) (n : nat) (code : Z)
  | MNum (acc : string) (st : num_state)
  | MLit (rest : string) (v : json)
  | MDone (v : json).                        (* a value has been read *)

Inductive frame : Type :=
  | FArr (items : list json)
  | FObj (members : list (string * json)) (key : string).

Definition max_nesting_depth : Z := 10000.

Definition is_ws (c : Ascii.ascii) : bool :=
  let b := byte_of c in (b =? 32) || (b =? 9) || (b =? 10) || (b =? 13).

Definition num_final (st : num_state) : bool :=
  match st with NZero | NInt | NFrac | NExpDigits => true | _ => false end.

Definition is_digit (c : Ascii.ascii) : bool := between 48 57 c.

(** The next state of a number, if the byte belongs to it. *)
Definition num_step (st : num_state) (c : Ascii.ascii) : option num_state :=
  let b := byte_of c in
  let dot := b =? 46 in
  let ex := (b =? 101) || (b =? 69) in
  match st with
  | NSign => if b =? 48 then Some NZero else if is_digit c then Some NInt else None
  | NZero => if dot then Some NDot else if ex then Some NExp else None
  | NInt => if is_digit c then Some NInt else if dot then Some NDot else if ex then Some NExp else None
  | NDot => if is_digit c then Some NFrac else None
  | NFrac => if is_digit c then Some NFrac else if ex then Some NExp else None
  | NExp => if (b =? 43) || (b =? 45) then Some NExpSign
            else if is_digit c then Some NExpDigits else None
  | NExpSign | NExpDigits => if is_digit c then Some NExpDigits else None
  end.

Definition push (f : frame) (m : mode) (stack : list frame) : option (mode * list frame) :=
  if Z.of_nat (length stack) <? max_nesting_depth then Some (m, f :: stack) else None.

(** The first byte of a value. *)
Definition start_value (c : Ascii.ascii) (stack : list frame) : option (mode * list frame) :=
  let b := byte_of c in
  if b =? 34 then Some (MStr false [], stack)
  else if b =? 91 then push (FArr []) MFirstItem stack
  else if b =? 123 then push (FObj [] "") MFirstKey stack
  else if b =? 45 then Some (MNum (String c "") NSign, stack)
  else if b =? 48 then Some (MNum (String c "") NZero, stack)
  else if is_digit c then Some (MNum (String c "") NInt, stack)
  else if b =? 116 then Some (MLit "rue" (JBool true), stack)
  else if b =? 102 then Some (MLit "alse" (JBool false), stack)
  else if b =? 110 then Some (MLit "ull" JNull, stack)
  else None.

(** A byte after a complete value. *)
Definition after_value (v : json) (c : Ascii.ascii) (stack : list frame)
  : option (mode * list frame) :=
  if is_ws c then Some (MDone v, stack) else
  let b := byte_of c in
  match stack with
  | [] => None
  | FArr items :: stack' =>
    if b =? 44 then Some (MValue, FArr (items ++ [v]) :: stack')
    else if b =? 93 then Some (MDone (JArr (items ++ [v])), stack')
    else None
  | FObj members key :: stack' =>
    if b =? 44 then Some (MKey, FObj (members ++ [(key, v)]) "" :: stack')
    else if b =? 125 then Some (MDone (JObj (members ++ [(key, v)])), stack')
    else None
  end.

Definition unit_string (acc : list sunit) : string :=
  String.string_of_list_ascii (decode_units acc).

Definition end_string (is_key : bool) (acc : list sunit) : mode :=
  if is_key then MColon (unit_string acc) else MDone (JStr (unit_string acc)).

(** The byte a one-letter escape stands for. *)
Definition escape_val (c : Ascii.ascii) : option Z :=
  let b := byte_of c in
  if (b =? 34) || (b =? 92) || (b =? 47) then Some b
  else if b =? 98 then Some 8
  else if b =? 102 then Some 12
  else if b =? 110 then Some 10
  else if b =? 114 then Some 13
  else if b =? 116 then Some 9
  else None.

Definition scan_step (m : mode) (stack : list frame) (c : Ascii.ascii)
  : option (mode * list frame) :=
  let b := byte_of c in
  match m with
  | MValue => if is_ws c then Some (m, stack) else start_value c stack
  | MFirstItem =>
    if is_ws c then Some (m, stack)
    else if b =? 93 then Some (MDone (JArr []), tail stack)
    else start_value c stack
  | MFirstKey =>
    if is_ws c then Some (m, stack)
    else if b =? 125 then Some (MDone (JObj []), tail stack)
    else if b =? 34 then Some (MStr true [], stack) else None
  | MKey =>
    if is_ws c then Some (m, stack)
    else if b =? 34 then Some (MStr true [], stack) else None
  | MColon key =>
    if is_ws c then Some (m, stack)
    else if b =? 58 then
      match stack with
      | FObj members _ :: stack' => Some (MValue, FObj members key :: stack')
      | _ => None
      end
    else None
  | MStr k acc =>
    if b =? 34 then Some (end_string k acc, stack)
    else if b =? 92 then Some (MEscape k acc, stack)
    else if b <? 32 then None
    else Some (MStr k (acc ++ [UByte c]), stack)
  | MEscape k acc =>
    if b =? 117 then Some (MHex k acc 3 0, stack)
    else v ← escape_val c; Some (MStr k (acc ++ [UByte (chr v)]), stack)
  | MHex k acc n code =>
    d ← hex_val c;
    match n with
    | O => Some (MStr k (acc ++ [UHex (16 * code + d)]), stack)
    | S n' => Some (MHex k acc n' (16 * code + d), stack)
    end
  | MNum acc st =>
    match num_step st c with
    | Some st' => Some (MNum (acc +:+ String c "") st', stack)
    | None => if num_final st then after_value (JNum acc) c stack else None
    end
  | MLit rest v =>
    match rest with
    | String d EmptyString => if Ascii.eqb c d then Some (MDone v, stack) else None
    | String d rest' => if Ascii.eqb c d then Some (MLit rest' v, stack) else None
    | EmptyString => None
    end
  | MDone v => after_value v c stack
  end.

Fixpoint scan (m : mode) (stack : list frame) (s : string) : option (mode * list frame) :=
  match s with
  | EmptyString => Some (m, stack)
  | String c s' => '(m', stack') ← scan_step m stack c; scan m' stack' s'
  end.

(** The value of a complete JSON text. *)
Definition parse_json (s : string) : option json :=
  match scan MValue [] s with
  | Some (MDone v, []) => Some v
  | Some (MNum acc st, []) => if num_final st then Some (JNum acc) else None
  | _ => None
  end.

(** ** Numbers *)

(** Digits before the exponent, number of digits after the point, exponent. *)
Fixpoint split_number (s : string) (mant : Z) (scale : Z) (frac : bool) : Z * Z * string :=
  match s with
  | EmptyString => (mant, scale, EmptyString)
  | String c s' =>
    match digit_val c with
    | Some d => split_number s' (10 * mant + d) (if frac then scale + 1 else scale) frac
    | None => if byte_of c =? 46 then split_number s' mant scale true
              else (mant, scale, s')
    end
  end.

(** Correctly rounded decimal to binary conversion of [mant * 10 ^ ex]. *)
Definition f_of_decimal (neg : bool) (mant ex : Z) : float64 :=
  match mant with
  | Zpos m =>
    if 400 <? ex + Z.log2 mant / 3 then S754_infinity neg
    else if ex + Z.log2 mant <? -400 then S754_zero neg
    else if 0 <=? ex then
      binary_round prec emax neg (m * Z.to_pos (10 ^ ex)) 0
    else
      let '(q, e, l) := SFdiv_core_binary prec emax mant 0 (10 ^ (- ex)) 0 in
      binary_round_aux prec emax neg q e l
  | _ => S754_zero neg
  end.

(** [strconv.ParseFloat] of a JSON number; [None] when it is out of range. *)
Definition num_float (lit : string) : option float64 :=
  let '(neg, body) := match lit with
                      | String c s => if byte_of c =? 45 then (true, s) else (false, lit)
                      | EmptyString => (false, lit)
                      end in
  let '(mant, scale, ex) := split_number body 0 0 false in
  let e := default 0 (parse_int ex) in
  let x := f_of_decimal neg mant (e - scale) in
  if is_inf x then None else Some x.

(** ** Decoding into Go values *)

(** Every number fits a [float64]: what [json.Unmarshal] into [any] requires. *)
Fixpoint numbers_ok (j : json) : bool :=
  match j with
  | JNum lit => match num_float lit with Some _ => true | None => false end
  | JArr l => forallb numbers_ok l
  | JObj l => forallb (fun kv => numbers_ok kv.2) l
  | _ => true
  end.

(** [json.Unmarshal(data, &x)] for [var x any]. *)
Definition unmarshal_any (s : string) : option json :=
  j ← parse_json s; if numbers_ok j then Some j else None.

(** [json.Unmarshal(data, &m)] for [var m map[string]any]: [null] leaves the
    nil map. *)
Definition unmarshal_map (s : string) : option (list (string * json)) :=
  match unmarshal_any s with
  | Some (JObj l) => Some l
  | Some JNull => Some []
  | _ => None
  end.

(** [v, ok := m[key]]: the last member with the key. *)
Fixpoint jget (key : string) (l : list (string * json)) : option json :=
  match l with
  | [] => None
  | (k, v) :: l' =>
    match jget key l' with
    | Some w => Some w
    | None => if String.eqb k key then Some v else None
    end
  end.

(** The entries of the Go map, in the order of the text. *)
Fixpoint jentries (l : list (string * json)) : list (string * json) :=
  match l with
  | [] => []
  | (k, v) :: l' =>
    match jget k l' with
    | Some _ => jentries l'
    | None => (k, v) :: jentries l'
    end
  end.

(** Type assertions [x.(string)], [x.([]any)], [x.(map[string]any)] and
    [x.(float64)] on the result of a lookup. *)
Definition as_string (x : option json) : option string :=
  match x with Some (JStr s) => Some s | _ => None end.
Definition as_array (x : option json) : option (list json) :=
  match x with Some (JArr l) => Some l | _ => None end.
Definition as_object (x : option json) : option (list (string * json)) :=
  match x with Some (JObj l) => Some l | _ => None end.
Definition as_float (x : option json) : option float64 :=
  match x with Some (JNum lit) => num_float lit | _ => None end.

(** [json.Unmarshal] into an [int]: an integer literal in range, or [null]
    which leaves the variable as it is. *)
Definition decode_int (dflt : Z) (j : json) : option Z :=
  match j with
  | JNull => Some dflt
  | JNum lit => atoi lit
  | _ => None
  end.

Definition decode_string (dflt : string) (j : json) : option string :=
  match j with JNull => Some dflt | JStr s => Some s | _ => None end.

Definition decode_bool (dflt : bool) (j : json) : option bool :=
  match j with JNull => Some dflt | JBool b => Some b | _ => None end.

Definition decode_float (dflt : float64) (j : json) : option float64 :=
  match j with JNull => Some dflt | JNum lit => num_float lit | _ => None end.

(** Struct fields match member names without regard to case. *)
Definition lower (c : Ascii.ascii) : Ascii.ascii :=
  if between 65 90 c then chr (byte_of c + 32) else c.

(** ASCII letters, and the two other runes whose case folds to an ASCII
    letter: the long s and the Kelvin sign. *)
Fixpoint fold_name (s : string) : string :=
  match s with
  | EmptyString => EmptyString
  | String a s1 =>
    match s1 with
    | String b s2 =>
      if (byte_of a =? 197) && (byte_of b =? 191) then String (chr 115) (fold_name s2) else
      match s2 with
      | String c s3 =>
        if (byte_of a =? 226) && (byte_of b =? 132) && (byte_of c =? 170)
        then String (chr 107) (fold_name s3)
        else String (lower a) (fold_name s1)
      | EmptyString => String (lower a) (fold_name s1)
      end
    | EmptyString => String (lower a) EmptyString
    end
  end.

Definition field_match (name key : string) : bool := String.eqb (fold_name key) (fold_name name).

(** Decodes the members that match a field into it, in the order of the text;
    a member of the wrong type is an error. *)
Fixpoint decode_field {A} (dec : A -> json -> option A) (name : string) (a : A)
    (l : list (string * json)) : option A :=
  match l with
  | [] => Some a
  | (k, v) :: l' =>
    if field_match name k then a' ← dec a v; decode_field dec name a' l'
    else decode_field dec name a l'
  end.

(** JSON texts for examples: single quotes stand for double quotes. *)
Fixpoint quoted (s : string) : string :=
  match s with
  | EmptyString => EmptyString
  | String c s' => String (if byte_of c =? 39 then chr 34 else c) (quoted s')
  end.

Example parse_ex :
  parse_json (quoted " {'a' : [1, -2.5e3 , true], 'b\u0041':null} ") =
  Some (JObj [("a", JArr [JNum "1"; JNum "-2.5e3"; JBool true]); ("bA", JNull)]).
Proof. vm_compute. reflexivity. Qed.

Example num_ex : num_float "0.1" = Some (S754_finite false 7205759403792794 (-56)).
Proof. vm_compute. reflexivity. Qed.

Example num_ex2 : num_float "-25e-1" = Some (f_div (f_of_Z (-5)) (f_of_Z 2)).
Proof. vm_compute. reflexivity. Qed.
