(* ===== verification/JsonOut.v ===== *)
(** * [json.Marshal]

    The encoder of Go 1.21 on values that came out of [json.Unmarshal] into
    [any]: keys of a map in byte order, strings with HTML characters escaped,
    numbers in the shortest decimal form that reads back as the same
    [float64].  The laws are about lengths: how many bytes a change of an object adds. *)

From S2P Require Export Prelude GoStrings GoFloat Json.

Open Scope Z_scope.
Open Scope go_scope.

Definition str_len (s : string) : Z := Z.of_nat (String.length s).

(** ** Strings *)

Definition hex_digit (z : Z) : Ascii.ascii := if z <? 10 then chr (48 + z) else chr (87 + z).

Definition quote : string := String (chr 34) "".
Definition backslash : string := String (chr 92) "".

(** A byte below 128. *)
Definition escape_byte (c : Ascii.ascii) : string :=
  let b := byte_of c in
  if (b =? 34) || (b =? 92) then backslash +:+ String c ""
  else if b =? 10 then backslash +:+ "n"
  else if b =? 13 then backslash +:+ "r"
  else if b =? 9 then backslash +:+ "t"
  else if (b <? 32) || (b =? 60) || (b =? 62) || (b =? 38)
  then backslash +:+ "u00" +:+ String (hex_digit (b / 16)) (String (hex_digit (b mod 16)) "")
  else String c "".

(** U+2028 and U+2029. *)
Definition line_separator (a b c : Ascii.ascii) : option string :=
  if (byte_of a =? 226) && (byte_of b =? 128)
  then if byte_of c =? 168 then Some (backslash +:+ "u2028")
       else if byte_of c =? 169 then Some (backslash +:+ "u2029") else None
  else None.

Definition bad_byte : string := backslash +:+ "ufffd".

(** [appendString] without the quotes; each invalid byte is replaced. *)
Fixpoint escape (l : string) : string :=
  match l with
  | EmptyString => ""
  | String a l1 =>
    if byte_of a <? 128 then escape_byte a +:+ escape l1 else
    match l1 with
    | String b l2 =>
      if seq2 a b then String a (String b (escape l2)) else
      match l2 with
      | String c l3 =>
        if seq3 a b c then
          match line_separator a b c with
          | Some e => e +:+ escape l3
          | None => String a (String b (String c (escape l3)))
          end
        else
        match l3 with
        | String d l4 =>
          if seq4 a b c d then String a (String b (String c (String d (escape l4))))
          else bad_byte +:+ escape l1
        | EmptyString => bad_byte +:+ escape l1
        end
      | EmptyString => bad_byte +:+ escape l1
      end
    | EmptyString => bad_byte +:+ escape l1
    end
  end.

Definition marshal_string (s : string) : string := quote +:+ escape s +:+ quote.

(** ** Numbers *)

Fixpoint zeros (n : nat) : string := match n with O => "" | S n => String (chr 48) (zeros n) end.

(** Number of decimal digits of a positive integer. *)
Definition digits10 (z : Z) : Z := str_len (itoa z).

(** Zeros between the point and the first digit of a fraction [num / den < 1]. *)
Fixpoint leading_zeros (fuel : nat) (num den : Z) : Z :=
  match fuel with
  | O => 0
  | S fuel => if den <=? 10 * num then 0 else 1 + leading_zeros fuel (10 * num) den
  end.

(** The position of the first digit: [num / den] lies in [10^(k-1), 10^k). *)
Definition magnitude (num den : Z) : Z :=
  if den <=? num then digits10 (num / den) else - leading_zeros 400 num den.

(** [mant * 10^ex] with [ex] as large as possible. *)
Fixpoint strip_zeros (fuel : nat) (mant ex : Z) : Z * Z :=
  match fuel with
  | O => (mant, ex)
  | S fuel => if mant mod 10 =? 0 then strip_zeros fuel (mant / 10) (ex + 1) else (mant, ex)
  end.

(** The [n]-digit decimals next to [num / den] that read back as [x]; the
    closest one. *)
Definition digits_of_size (x : float64) (num den k n : Z) : option (Z * Z) :=
  let ex := k - n in
  let num' := num * 10 ^ Z.max 0 (- ex) in
  let den' := den * 10 ^ Z.max 0 ex in
  let q := num' / den' in
  let r := num' mod den' in
  let ok q := f_eq (f_of_decimal false q ex) x in
  let below := if ok q then Some (q, ex) else None in
  let above := if ok (q + 1) then Some (q + 1, ex) else None in
  if 2 * r <? den' then match below with Some d => Some d | None => above end
  else if den' <? 2 * r then match above with Some d => Some d | None => below end
  else if Z.even q then match below with Some d => Some d | None => above end
  else match above with Some d => Some d | None => below end.

(** The shortest decimal, as mantissa and exponent; 17 digits are enough. *)
Definition shortest (x : float64) (num den : Z) : Z * Z :=
  let k := magnitude num den in
  let '(m, e) := default (0, 0)
    (first_some (fun n => digits_of_size x num den k (Z.of_nat n)) (seq 1 17)) in
  strip_zeros 20 m e.

(** Digits with a point [k] digits from their left end. *)
Definition place_point (digits : string) (k : Z) : string :=
  let n := str_len digits in
  if k <=? 0 then "0." +:+ zeros (Z.to_nat (- k)) +:+ digits
  else if n <=? k then digits +:+ zeros (Z.to_nat (k - n))
  else String.substring 0 (Z.to_nat k) digits +:+ "." +:+
       String.substring (Z.to_nat k) (Z.to_nat (n - k)) digits.

(** Format 'e', with the exponent cleaned up as encoding/json does. *)
Definition scientific (digits : string) (k : Z) : string :=
  let e := k - 1 in
  let mant := match digits with
              | String d EmptyString => String d ""
              | String d rest => String d ("." +:+ rest)
              | EmptyString => ""
              end in
  mant +:+ "e" +:+ (if e <? 0 then "-" else "+") +:+ itoa (Z.abs e).

Definition format_positive (x : float64) (m : positive) (e : Z) : string :=
  let num := Zpos m * 2 ^ Z.max 0 e in
  let den := 2 ^ Z.max 0 (- e) in
  let '(mant, ex) := shortest x num den in
  let digits := itoa mant in
  let k := str_len digits + ex in
  if f_lt x (f_of_decimal false 1 (-6)) || f_le (f_of_decimal false 1 21) x then scientific digits k
  else place_point digits k.

(** A finite [float64]; NaN and the infinities make [Marshal] fail and cannot
    come from a JSON text. *)
Definition marshal_float (x : float64) : string :=
  match x with
  | S754_zero s => if s then "-0" else "0"
  | S754_finite s m e =>
    (if s then "-" else "") +:+ format_positive (S754_finite false m e) m e
  | _ => ""
  end.

(** ** Values *)

(** The last value of each key: the entries of a Go map. *)
Fixpoint has_key {A} (k : string) (l : list (string * A)) : bool :=
  match l with
  | [] => false
  | (k', _) :: l' => String.eqb k' k || has_key k l'
  end.

Fixpoint dedupe {A} (l : list (string * A)) : list (string * A) :=
  match l with
  | [] => []
  | (k, v) :: l' => if has_key k l' then dedupe l' else (k, v) :: dedupe l'
  end.

Definition key_le {A} (p q : string * A) : Prop := string_le p.1 q.1.
#[export] Instance key_le_dec {A} : RelDecision (@key_le A).
Proof. intros p q. unfold key_le. apply _. Defined.

Definition sort_keys {A} (l : list (string * A)) : list (string * A) := merge_sort key_le l.

Definition marshal_member (p : string * string) : string :=
  marshal_string p.1 +:+ ":" +:+ p.2.

Definition comma_list (l : list string) : string := String.concat "," l.

Definition marshal_object (l : list (string * string)) : string :=
  "{" +:+ comma_list (map marshal_member (sort_keys (dedupe l))) +:+ "}".

Fixpoint marshal (j : json) : string :=
  match j with
  | JNull => "null"
  | JBool b => if b then "true" else "false"
  | JNum lit => match num_float lit with Some x => marshal_float x | None => "" end
  | JStr s => marshal_string s
  | JArr l => "[" +:+ comma_list (map marshal l) +:+ "]"
  | JObj l => marshal_object (map (fun kv => (kv.1, marshal kv.2)) l)
  end.

Definition rewrite_json (s : string) : option string := marshal <$> unmarshal_any (quoted s).

Example marshal_ex :
  rewrite_json "{'b':[1,2.50,-0,1e3,1e-7,1e21,0.1,123456789.125],'a':'<x>','b ':null,'a':true}" =
  Some (quoted "{'a':true,'b':[1,2.5,-0,1000,1e-7,1e+21,0.1,123456789.125],'b ':null}").
Proof. vm_compute. reflexivity. Qed.

Example marshal_float_ex :
  rewrite_json "[5e-324,1.7976931348623157e308,0.000001,9007199254740993,5.684341886080802e-14,0.30000000000000004]" =
  Some "[5e-324,1.7976931348623157e+308,0.000001,9007199254740992,5.684341886080802e-14,0.30000000000000004]".
Proof. vm_compute. reflexivity. Qed.

Example marshal_string_ex :
  rewrite_json "'<a>&\u0007\u2028\ud800 \n'" =
  Some (quoted "'\u003ca\u003e\u0026\u0007\u2028" +:+ String (chr 239) (String (chr 191) (String (chr 189) (quoted " \n'")))).
Proof. vm_compute. reflexivity. Qed.

(** ** Lengths *)

Lemma str_len_app (s t : string) : str_len (s +:+ t) = str_len s + str_len t.
Proof.
  unfold str_len. rewrite <- Nat2Z.inj_add. f_equal.
  induction s as [|c s IH]; [done|]. simpl. f_equal. exact IH.
Qed.

Lemma str_len_nonneg (s : string) : 0 <= str_len s.
Proof. unfold str_len. lia. Qed.

Lemma comma_list_len (l : list string) :
  str_len (comma_list l) = zsum (map str_len l) + Z.max 0 (Z.of_nat (length l) - 1).
Proof.
  unfold comma_list. induction l as [|s l IH]; [done|]. destruct l as [|t l].
  - simpl. lia.
  - change (String.concat "," (s :: t :: l)) with (s +:+ "," +:+ String.concat "," (t :: l)).
    rewrite !str_len_app, IH. change (str_len ",") with 1. simpl. lia.
Qed.

Lemma zsum_perm (l k : list Z) : l ≡ₚ k -> zsum l = zsum k.
Proof. intros H. unfold zsum. induction H; simpl; lia. Qed.

(** Bytes of one member: the quoted key, the colon and the value. *)
Definition member_len (p : string * string) : Z := str_len (marshal_string p.1) + 1 + str_len p.2.

Lemma marshal_object_len (l : list (string * string)) :
  str_len (marshal_object l) =
  2 + zsum (map member_len (dedupe l)) + Z.max 0 (Z.of_nat (length (dedupe l)) - 1).
Proof.
  unfold marshal_object. rewrite !str_len_app, comma_list_len.
  change (str_len "{") with 1. change (str_len "}") with 1.
  assert (Hp : sort_keys (dedupe l) ≡ₚ dedupe l) by apply merge_sort_Permutation.
  rewrite length_map, (Permutation_length Hp), map_map.
  assert (zsum (map (fun p => str_len (marshal_member p)) (sort_keys (dedupe l))) =
          zsum (map member_len (dedupe l))) as ->; [|lia].
  transitivity (zsum (map member_len (sort_keys (dedupe l)))).
  - f_equal. apply map_ext. intros p. unfold marshal_member, member_len.
    rewrite !str_len_app. change (str_len ":") with 1. lia.
  - apply zsum_perm, Permutation_map, Hp.
Qed.

(** *** The entries of an object *)

Lemma has_key_map {A B} (g : string * A -> string * B) (k : string) (l : list (string * A)) :
  (forall p, (g p).1 = p.1) -> has_key k (map g l) = has_key k l.
Proof.
  intros Hg. induction l as [|[k' v] l IH]; [done|]. simpl. rewrite IH.
  pose proof (Hg (k', v)) as Hk. destruct (g (k', v)). simpl in Hk. subst. done.
Qed.

Lemma dedupe_map {A B} (g : string * A -> string * B) (l : list (string * A)) :
  (forall p, (g p).1 = p.1) -> dedupe (map g l) = map g (dedupe l).
Proof.
  intros Hg. induction l as [|[k v] l IH]; [done|]. simpl.
  pose proof (Hg (k, v)) as Hk. destruct (g (k, v)) as [k' w] eqn:E. simpl in Hk. subst k'.
  rewrite (has_key_map g) by done. destruct (has_key k l); simpl; rewrite ?E, IH; done.
Qed.

(** [m[k] = v]. *)
Definition other_key {A} (k : string) (p : string * A) : bool := negb (String.eqb p.1 k).
Definition jset {A} (k : string) (v : A) (l : list (string * A)) : list (string * A) :=
  List.filter (other_key k) l ++ [(k, v)].

Lemma filter_other_cons {A} (k k0 : string) (v : A) (l : list (string * A)) :
  List.filter (other_key k) ((k0, v) :: l) =
  if String.eqb k0 k then List.filter (other_key k) l else (k0, v) :: List.filter (other_key k) l.
Proof. simpl. change (other_key k (k0, v)) with (negb (String.eqb k0 k)). by destruct (String.eqb k0 k). Qed.

Lemma has_key_filter {A} (k k' : string) (l : list (string * A)) :
  has_key k (List.filter (other_key k') l) = has_key k l && negb (String.eqb k k').
Proof.
  induction l as [|[k0 v] l IH]; [done|]. rewrite filter_other_cons.
  destruct (String.eqb k0 k') eqn:E1; simpl; rewrite IH; bool_prop.
  - subst k0. destruct (String.eqb k' k) eqn:E2; bool_prop; [subst|done].
    rewrite String.eqb_refl. simpl. by rewrite andb_false_r.
  - destruct (String.eqb k0 k) eqn:E2; simpl; bool_prop; [subst|done].
    apply String.eqb_neq in E1. by rewrite E1.
Qed.

Lemma dedupe_filter {A} (k : string) (l : list (string * A)) :
  dedupe (List.filter (other_key k) l) = List.filter (other_key k) (dedupe l).
Proof.
  induction l as [|[k0 v] l IH]; [done|]. rewrite filter_other_cons. simpl dedupe at 2.
  destruct (String.eqb k0 k) eqn:E1; simpl dedupe; rewrite ?has_key_filter, ?E1, ?andb_true_r, IH;
    destruct (has_key k0 l); rewrite ?filter_other_cons, ?E1; done.
Qed.

Lemma dedupe_snoc {A} (k : string) (v : A) (l : list (string * A)) :
  has_key k l = false -> dedupe (l ++ [(k, v)]) = dedupe l ++ [(k, v)].
Proof.
  induction l as [|[k0 w] l IH]; simpl; [done|]. intros H. apply orb_false_iff in H as [H1 H2].
  assert (has_key k0 (l ++ [(k, v)]) = has_key k0 l) as ->.
  { clear IH H2. induction l as [|[k1 u] l IH]; simpl; [|by rewrite IH].
    rewrite String.eqb_sym, H1. done. }
  rewrite IH by done. destruct (has_key k0 l); done.
Qed.

Lemma dedupe_jset {A} (k : string) (v : A) (l : list (string * A)) :
  dedupe (jset k v l) = List.filter (other_key k) (dedupe l) ++ [(k, v)].
Proof.
  unfold jset. rewrite dedupe_snoc; [by rewrite dedupe_filter|].
  rewrite has_key_filter, String.eqb_refl. apply andb_false_r.
Qed.

Lemma filter_no_key {A} (k : string) (l : list (string * A)) :
  has_key k l = false -> List.filter (other_key k) (dedupe l) = dedupe l.
Proof.
  intros H. rewrite <- dedupe_filter. f_equal.
  induction l as [|[k0 v] l IH]; [done|]. simpl in H. apply orb_false_iff in H as [H1 H2].
  rewrite filter_other_cons, H1, IH; done.
Qed.

Lemma jget_has_key (k : string) (l : list (string * json)) :
  has_key k l = match jget k l with Some _ => true | None => false end.
Proof.
  induction l as [|[k0 v] l IH]; [done|]. simpl. rewrite IH.
  destruct (jget k l); [apply orb_true_r|]. destruct (String.eqb k0 k); done.
Qed.

(** Writing back the value of a key changes only the order of the entries. *)
Lemma dedupe_jset_same (k : string) (v : json) (l : list (string * json)) :
  jget k l = Some v -> dedupe l ≡ₚ dedupe (jset k v l).
Proof.
  rewrite dedupe_jset. induction l as [|[k0 w] l IH]; simpl jget; [done|]. simpl dedupe.
  pose proof (jget_has_key k l) as Hk.
  destruct (jget k l) as [u|] eqn:E.
  - intros [= ->]. specialize (IH eq_refl). destruct (has_key k0 l) eqn:E0; [done|].
    rewrite filter_other_cons. destruct (String.eqb k0 k) eqn:E1; bool_prop; [congruence|].
    simpl. by apply perm_skip.
  - destruct (String.eqb k0 k) eqn:E1; [|done]. bool_prop. subst k0. intros [= ->].
    rewrite Hk, filter_other_cons, String.eqb_refl, (filter_no_key k l) by done.
    apply Permutation_cons_append.
Qed.

(** *** The effect of one member on the size *)

Definition object_len (l : list (string * json)) : Z := str_len (marshal (JObj l)).

Definition json_member_len (kv : string * json) : Z := member_len (kv.1, marshal kv.2).

Lemma object_len_eq (l : list (string * json)) :
  object_len l =
  2 + zsum (map json_member_len (dedupe l)) + Z.max 0 (Z.of_nat (length (dedupe l)) - 1).
Proof.
  unfold object_len. simpl marshal. rewrite marshal_object_len, dedupe_map by done.
  rewrite map_map, length_map. done.
Qed.

Lemma object_len_perm (l k : list (string * json)) :
  dedupe l ≡ₚ dedupe k -> object_len l = object_len k.
Proof.
  intros H. rewrite !object_len_eq, (Permutation_length H).
  rewrite (zsum_perm _ _ (Permutation_map json_member_len H)). done.
Qed.

Lemma object_len_jset (k : string) (v w : json) (l : list (string * json)) :
  object_len (jset k v l) - str_len (marshal v) = object_len (jset k w l) - str_len (marshal w).
Proof.
  rewrite !object_len_eq, !dedupe_jset, !map_app, !zsum_app, !length_app.
  unfold json_member_len, member_len. simpl. lia.
Qed.

Lemma object_len_new (k : string) (v : json) (l : list (string * json)) :
  jget k l = None ->
  object_len (jset k v l) =
  object_len l + str_len (marshal_string k) + 1 + str_len (marshal v) + (if decide (l = []) then 0 else 1).
Proof.
  intros Hk. pose proof (jget_has_key k l) as H. rewrite Hk in H.
  rewrite !object_len_eq, !dedupe_jset, filter_no_key, !map_app, !zsum_app, !length_app by done.
  unfold json_member_len at 2, member_len. simpl.
  assert (length (dedupe l) = 0%nat <-> l = []) as Hl.
  { split; [|by intros ->]. clear. induction l as [|[k v] l IH]; [done|]. simpl.
    destruct (has_key k l) eqn:E; [|done]. intros H. rewrite IH in E by done. done. }
  destruct (decide (l = [])) as [-> | Hne]; simpl; [lia|].
  assert (length (dedupe l) <> 0%nat) by (intros ?; apply Hne, Hl; done). lia.
Qed.

(** *** Appending plain bytes to a string *)

Definition ascii_start (t : string) : Prop :=
  match t with EmptyString => True | String x _ => byte_of x < 128 end.

Lemma not_cont (x : Ascii.ascii) : byte_of x < 128 -> is_cont x = false.
Proof. intros H. unfold is_cont, between. apply andb_false_iff. left. apply Z.leb_gt. lia. Qed.

Lemma no_seq (a b c d x : Ascii.ascii) :
  byte_of x < 128 ->
  seq2 a x = false /\ seq3 a x c = false /\ seq3 a b x = false /\
  seq4 a x c d = false /\ seq4 a b x d = false /\ seq4 a b c x = false.
Proof.
  intros H. pose proof (not_cont x H) as Hc. unfold seq2, seq3, seq4.
  assert (Hb : forall lo hi, 128 <= lo -> between lo hi x = false).
  { intros lo hi Hlo. unfold between. apply andb_false_iff. left. apply Z.leb_gt. lia. }
  rewrite !Hc, !Hb by lia. rewrite !andb_false_r. done.
Qed.

(** One byte or one character more of the body of a string. *)
Lemma escape_step (a : Ascii.ascii) (s : string) :
  escape (String a s) =
  if byte_of a <? 128 then escape_byte a +:+ escape s else
  match s with
  | String b s2 =>
    if seq2 a b then String a (String b (escape s2)) else
    match s2 with
    | String c s3 =>
      if seq3 a b c then
        match line_separator a b c with
        | Some e => e +:+ escape s3
        | None => String a (String b (String c (escape s3)))
        end
      else
      match s3 with
      | String d s4 =>
        if seq4 a b c d then String a (String b (String c (String d (escape s4))))
        else bad_byte +:+ escape s
      | EmptyString => bad_byte +:+ escape s
      end
    | EmptyString => bad_byte +:+ escape s
    end
  | EmptyString => bad_byte +:+ escape s
  end.
Proof. destruct s as [|b [|c [|d s]]]; reflexivity. Qed.

(** Before plain bytes, a byte that starts no character is replaced. *)
Lemma escape_bad (a : Ascii.ascii) (t : string) :
  ascii_start t -> 128 <= byte_of a -> escape (String a t) = bad_byte +:+ escape t.
Proof.
  intros Ht Ha. rewrite escape_step. rewrite (proj2 (Z.ltb_ge _ _)) by done.
  destruct t as [|x t]; [done|]. destruct (no_seq a a a a x Ht) as (-> & _).
  destruct t as [|c t]; [done|]. destruct (no_seq a a c a x Ht) as (_ & -> & _).
  destruct t as [|d t]; [done|]. destruct (no_seq a a c d x Ht) as (_ & _ & _ & -> & _). done.
Qed.

Lemma escape_app (s t : string) : ascii_start t -> escape (s +:+ t) = escape s +:+ escape t.
Proof.
  intros Ht. remember (String.length s) as n eqn:En.
  assert (Hn : (String.length s <= n)%nat) by lia. clear En. revert s Hn.
  induction n as [|n IH]; intros [|a s] Hn; [done|simpl in Hn; lia|done|].
  simpl in Hn. change (String a s +:+ t) with (String a (s +:+ t)).
  assert (Hs : escape (s +:+ t) = escape s +:+ escape t) by (apply IH; lia).
  destruct (byte_of a <? 128) eqn:Ea.
  { rewrite !escape_step, Ea, Hs. by rewrite string_app_assoc. }
  bool_prop. destruct s as [|b s2].
  { rewrite (escape_bad a "") by done. rewrite escape_bad by done. done. }
  assert (Hbad : bad_byte +:+ escape (String b s2 +:+ t) = (bad_byte +:+ escape (String b s2)) +:+ escape t)
    by (rewrite string_app_assoc, Hs; done).
  change (String b s2 +:+ t) with (String b (s2 +:+ t)) in *.
  rewrite (escape_step a (String b (s2 +:+ t))), (escape_step a (String b s2)),
    (proj2 (Z.ltb_ge _ _)) by done.
  simpl in Hn. destruct (seq2 a b) eqn:E2; [rewrite IH by lia; done|].
  destruct s2 as [|c s3].
  { change ("" +:+ t) with t in *.
    destruct t as [|x t]; [exact Hbad|]. destruct (no_seq a b a a x Ht) as (_ & _ & -> & _).
    destruct t as [|d t]; [exact Hbad|]. destruct (no_seq a b a d x Ht) as (_ & _ & _ & _ & -> & _).
    exact Hbad. }
  change (String c s3 +:+ t) with (String c (s3 +:+ t)) in *. cbn beta iota.
  simpl in Hn. destruct (seq3 a b c) eqn:E3.
  { destruct (line_separator a b c); rewrite IH by lia; [by rewrite string_app_assoc|done]. }
  destruct s3 as [|d s4].
  { change (EmptyString +:+ t) with t in *.
    destruct t as [|x t]; [exact Hbad|]. destruct (no_seq a b c a x Ht) as (_ & _ & _ & _ & _ & ->).
    exact Hbad. }
  change (String d s4 +:+ t) with (String d (s4 +:+ t)) in *. cbn beta iota.
  simpl in Hn. destruct (seq4 a b c d) eqn:E4; [rewrite IH by lia; done|exact Hbad].
Qed.

(** [strings.Repeat("x", n)]. *)
Fixpoint xs (n : nat) : string := match n with O => "" | S n => "x" +:+ xs n end.

Lemma xs_len (n : nat) : str_len (xs n) = Z.of_nat n.
Proof. induction n as [|n IH]; [done|]. change (xs (S n)) with ("x" +:+ xs n). rewrite str_len_app, IH. change (str_len "x") with 1. lia. Qed.

Lemma escape_xs (n : nat) : escape (xs n) = xs n.
Proof.
  induction n as [|n IH]; [done|]. change (xs (S n)) with (String (chr 120) (xs n)).
  rewrite escape_step, IH. done.
Qed.

Lemma marshal_pad (s : string) (n : nat) :
  str_len (marshal (JStr (s +:+ xs n))) = str_len (marshal (JStr s)) + Z.of_nat n.
Proof.
  simpl marshal. unfold marshal_string. rewrite escape_app by (by destruct n).
  rewrite escape_xs, !str_len_app, xs_len. lia.
Qed.
