(* ===== verification/Url.v ===== *)
(** * [net/url]: the parts of [url.Parse] the controller looks at

    Whether a text is a URL, its scheme and its host, as Go 1.21 parses it. *)

From Stdlib Require Import (notations) Strings.Ascii.
From S2P Require Export Prelude GoStrings Json.

Open Scope Z_scope.
Open Scope go_scope.

(** ** Cutting strings *)

(** [strings.Cut]: before and after the first separator; the whole string and
    nothing without one. *)
Definition cut (sep : Ascii.ascii) (s : string) : string * string :=
  default (s, "") (split_first sep s).

(** Before and after the last separator. *)
Fixpoint split_at_last (sep : Ascii.ascii) (s : string) : option (string * string) :=
  match s with
  | EmptyString => None
  | String c s' =>
    match split_at_last sep s' with
    | Some (a, b) => Some (String c a, b)
    | None => if Ascii.eqb c sep then Some ("", s') else None
    end
  end.

Fixpoint all_bytes (p : Ascii.ascii -> bool) (s : string) : bool :=
  match s with EmptyString => true | String c s' => p c && all_bytes p s' end.

Definition in_string (c : Ascii.ascii) (l : string) : bool := negb (all_bytes (fun d => negb (Ascii.eqb c d)) l).

(** ** Characters *)

Definition is_letter (c : Ascii.ascii) : bool := between 97 122 c || between 65 90 c.
Definition is_alnum (c : Ascii.ascii) : bool := is_letter c || is_digit c.

Definition is_ctl (c : Ascii.ascii) : bool := (byte_of c <? 32) || (byte_of c =? 127).

Inductive encoding := EncodeHost | EncodeZone | EncodeOther.

(** [!shouldEscape(c, mode)] for the host and the zone. *)
Definition host_char (c : Ascii.ascii) : bool :=
  is_alnum c || in_string c ("!$&'()*+,;=:[]<>-_.~" +:+ String (chr 34) "").

(** [unescape]: malformed escapes are errors, and so are characters a host must
    not contain, plain or escaped. *)
Fixpoint unescape (mode : encoding) (s : string) : option string :=
  match s with
  | EmptyString => Some ""
  | String c s1 =>
    if byte_of c =? 37 then
      match s1 with
      | String h1 (String h2 s3) =>
        match hex_val h1, hex_val h2 with
        | Some a, Some b =>
          let percent := (a =? 2) && (b =? 5) in
          let v := chr (16 * a + b) in
          let bad := match mode with
                     | EncodeHost => (a <? 8) && negb percent
                     | EncodeZone => negb percent && negb (byte_of v =? 32) && negb (host_char v)
                     | EncodeOther => false
                     end in
          if bad then None else String v <$> unescape mode s3
        | _, _ => None
        end
      | _ => None
      end
    else
      let bad := match mode with
                 | EncodeOther => false
                 | _ => (byte_of c <? 128) && negb (host_char c)
                 end in
      if bad then None else String c <$> unescape mode s1
  end.

(** ** The authority *)

Definition validOptionalPort (port : string) : bool :=
  match port with
  | EmptyString => true
  | String c rest => (byte_of c =? 58) && all_bytes is_digit rest
  end.

Definition validUserinfo (s : string) : bool :=
  all_bytes (fun c => is_alnum c || in_string c "-._:~!$&'()*+,;=%@") s.

Definition parseHost (host : string) : option string :=
  if has_prefix host "[" then
    '(inside, colonPort) ← split_at_last "]"%char host;
    if negb (validOptionalPort colonPort) then None
    else
      match String.index 0 "%25" inside with
      | Some zone =>
        let n := String.length host in
        let i := String.length inside in
        host1 ← unescape EncodeHost (String.substring 0 zone host);
        host2 ← unescape EncodeZone (String.substring zone (i - zone) host);
        host3 ← unescape EncodeHost (String.substring i (n - i) host);
        Some (host1 +:+ host2 +:+ host3)
      | None => unescape EncodeHost host
      end
  else
    match split_at_last ":"%char host with
    | Some (_, port) =>
      if validOptionalPort (String (chr 58) port) then unescape EncodeHost host else None
    | None => unescape EncodeHost host
    end.

Definition parseAuthority (authority : string) : option string :=
  match split_at_last "@"%char authority with
  | None => parseHost authority
  | Some (userinfo, host) =>
    host ← parseHost host;
    if negb (validUserinfo userinfo) then None
    else
      (* the user and the password are unescaped apart; an escape holds no colon *)
      let '(user, password) := cut ":"%char userinfo in
      _ ← unescape EncodeOther user;
      _ ← unescape EncodeOther password;
      Some host
  end.

(** ** The URL *)

(** [getScheme]: an error, no scheme, or the scheme and the rest. *)
Fixpoint get_scheme (first : bool) (s : string) : option (option (string * string)) :=
  match s with
  | EmptyString => Some None
  | String c s' =>
    if is_letter c || (negb first && (is_digit c || in_string c "+-.")) then
      r ← get_scheme false s';
      Some ('(scheme, rest) ← r; Some (String c scheme, rest))
    else if Ascii.eqb c ":"%char then if first then None else Some (Some ("", s'))
    else Some None
  end.

Fixpoint to_lower_ascii (s : string) : string :=
  match s with EmptyString => "" | String c s' => String (lower c) (to_lower_ascii s') end.

(** [url_PathText] is the path as it is written, which [setPath] keeps in [Path]
    and [RawPath]; the query and the fragment are not kept. *)
Record url := mkUrl {
  url_Scheme : string; url_Host : string; url_Opaque : string; url_HasUser : bool;
  url_PathText : string; url_OmitHost : bool; url_ForceQuery : bool
}.

#[export] Instance eta_url : Eta url := fun u =>
  mkUrl (url_Scheme u) (url_Host u) (url_Opaque u) (url_HasUser u) (url_PathText u) (url_OmitHost u)
    (url_ForceQuery u).

(** [parse] with [viaRequest] false. *)
Definition parse_url (rawURL : string) : option url :=
  if negb (all_bytes (fun c => negb (is_ctl c)) rawURL) then None
  else if String.eqb rawURL "*" then Some (mkUrl "" "" "" false "*" false false)
  else
    r ← get_scheme true rawURL;
    let '(scheme, rest) := match r with
                           | Some (scheme, rest) => (to_lower_ascii scheme, rest)
                           | None => ("", rawURL)
                           end in
    let '(before, query) := cut "?"%char rest in
    let force := negb (String.eqb before rest) && String.eqb query "" in
    let rest := before in
    let hasScheme := negb (String.eqb scheme "") in
    if negb (has_prefix rest "/") && hasScheme then Some (mkUrl scheme "" rest false "" false force)
    else if negb (has_prefix rest "/") && in_string ":"%char (cut "/"%char rest).1 then None
    else if (hasScheme || negb (has_prefix rest "///")) && has_prefix rest "//" then
      let authority := String.substring 2 (String.length rest) rest in
      let '(a, path) := match split_first "/"%char authority with
                        | Some (a, path) => (a, "/" +:+ path)
                        | None => (authority, "")
                        end in
      host ← parseAuthority a;
      _ ← unescape EncodeOther path;
      Some (mkUrl scheme host "" (in_string "@"%char a) path false force)
    else
      _ ← unescape EncodeOther rest;
      Some (mkUrl scheme "" "" false rest (hasScheme && has_prefix rest "/") force).

(** [url.Parse]. *)
Definition Parse (rawURL : string) : option url :=
  let '(u, frag) := cut "#"%char rawURL in
  parsed ← parse_url u;
  _ ← unescape EncodeOther frag;
  Some parsed.

Definition IsAbs (u : url) : bool := negb (String.eqb (url_Scheme u) "").

(** ** Back to text *)

(** [!shouldEscape(c, encodePath)]. *)
Definition path_char (c : Ascii.ascii) : bool := is_alnum c || in_string c "-_.~$&+,/:;=@".

Definition hex_digit (n : Z) : Ascii.ascii := chr (if n <? 10 then 48 + n else 55 + n).

(** [escape], for the characters that stay as they are. *)
Fixpoint escape_url (keep : Ascii.ascii -> bool) (s : string) : string :=
  match s with
  | EmptyString => ""
  | String c s' =>
    if keep c then String c (escape_url keep s')
    else String "%"%char (String (hex_digit (byte_of c / 16)) (String (hex_digit (byte_of c mod 16))
           (escape_url keep s')))
  end.

Definition validEncoded (s : string) : bool :=
  all_bytes (fun c => in_string c "!$&'()*+,;=:@[]%" || path_char c) s.

(** [u.EscapedPath()]: the written path, unless it has characters that a path
    must escape. *)
Definition EscapedPath (u : url) : string :=
  let p := url_PathText u in
  if validEncoded p || String.eqb p "*" then p
  else escape_url path_char (default p (unescape EncodeOther p)).

(** [u.String()] after [u.User = nil; u.RawQuery = ""; u.Fragment = ""]. *)
Definition stripped_String (u : url) : string :=
  let scheme := if String.eqb (url_Scheme u) "" then "" else url_Scheme u +:+ ":" in
  let text :=
    if negb (String.eqb (url_Opaque u) "") then scheme +:+ url_Opaque u
    else
      let host := url_Host u in
      let path := EscapedPath u in
      let authority :=
        if (negb (String.eqb scheme "") || negb (String.eqb host "")) &&
           negb (url_OmitHost u && String.eqb host "")
        then (if negb (String.eqb host "") || negb (String.eqb (url_PathText u) "") then "//" else "")
             +:+ escape_url host_char host
        else "" in
      let slash := if negb (String.eqb path "") && negb (has_prefix path "/") && negb (String.eqb host "")
                   then "/" else "" in
      let front := scheme +:+ authority +:+ slash in
      let dot := if String.eqb front "" && in_string ":"%char (cut "/"%char path).1 then "./" else "" in
      front +:+ dot +:+ path in
  if url_ForceQuery u then text +:+ "?" else text.

Example parse_url_ex :
  map (fun s => (fun u => (url_Scheme u, url_Host u)) <$> Parse s)
    ["https://idp.example.com:8443/token?x=1#f"; "HTTP://u:p%20w@[fe80::1%25en0]:80/"; "//h/p";
     "http:/x"; "mailto:a@b"; "http://a b/"; "http://h:8x/"; "1http://h"; "http://h/%zz"; "http://%C2%A0/"] =
  [Some ("https", "idp.example.com:8443"); Some ("http", "[fe80::1%en0]:80"); Some ("", "h");
   Some ("http", ""); Some ("mailto", ""); None; None; None; None;
   Some ("http", String (chr 194) (String (chr 160) ""))].
Proof. vm_compute. reflexivity. Qed.

Example stripped_ex :
  map (fun s => stripped_String <$> Parse s)
    ["https://user:pw@idp.example.com:8443/a%2Fb/to ken?x=1#f"; "http://h"; "http:///p"; "file:/x"; "http:/x?";
     "mailto:a@b?c"; "a/b:c"; "http://%C3%A4/%c3%a4 "] =
  [Some "https://idp.example.com:8443/a/b/to%20ken"; Some "http://h"; Some "http:///p"; Some "file:/x";
   Some "http:/x?"; Some "mailto:a@b"; Some "a/b:c"; Some "http://%C3%A4/%C3%A4%20"].
Proof. vm_compute. reflexivity. Qed.
