(* ===== verification/Model.v ===== *)
(** * The data model shared by the controller's packages

    [controller/internal/model/model.go]: the structs as records, field by
    field, with the methods defined on them.  A pointer is an [option], a slice
    a [list] (an [option] of a list where the code tells a nil slice from an
    empty one), a map a [gmap], [json.RawMessage] the raw text. *)

From S2P Require Export Prelude GoStrings GoFloat GoTime Json.

Open Scope Z_scope.
Open Scope go_scope.

Record AuthConfig : Type := mkAuthConfig {
  ac_Enabled : bool;
  ac_Mode : string;
  ac_TokenURL : string;
  ac_ClientID : string;
  ac_ClientAuthMethod : string;
  ac_RefreshSkewSeconds : Z;
  ac_SecretSource : string;
  ac_SecretConfigured : bool;
  ac_ClientSecretEncrypted : string
}.

#[export] Instance eta_AuthConfig : Eta AuthConfig := fun r =>
  mkAuthConfig
    (ac_Enabled r) (ac_Mode r) (ac_TokenURL r) (ac_ClientID r) (ac_ClientAuthMethod r)
    (ac_RefreshSkewSeconds r) (ac_SecretSource r) (ac_SecretConfigured r)
    (ac_ClientSecretEncrypted r).

Record AuthInput : Type := mkAuthInput {
  ai_Enabled : bool;
  ai_Mode : string;
  ai_TokenURL : string;
  ai_ClientID : string;
  ai_ClientSecret : string;
  ai_ClientAuthMethod : string;
  ai_RefreshSkewSeconds : Z;
  ai_PersistSecret : bool;
  ai_ClearSecret : bool
}.

#[export] Instance eta_AuthInput : Eta AuthInput := fun r =>
  mkAuthInput
    (ai_Enabled r) (ai_Mode r) (ai_TokenURL r) (ai_ClientID r) (ai_ClientSecret r)
    (ai_ClientAuthMethod r) (ai_RefreshSkewSeconds r) (ai_PersistSecret r)
    (ai_ClearSecret r).

Record Stage : Type := mkStage {
  stg_Duration : string;
  stg_Target : Z
}.

#[export] Instance eta_Stage : Eta Stage := fun r =>
  mkStage
    (stg_Duration r) (stg_Target r).

Record TestRequest : Type := mkTestRequest {
  tr_ProjectName : string;
  tr_URL : string;
  tr_Executor : string;
  tr_Stages : list Stage;
  tr_VUs : Z;
  tr_Duration : string;
  tr_Rate : Z;
  tr_TimeUnit : string;
  tr_PreAllocatedVUs : Z;
  tr_MaxVUs : Z;
  tr_SleepSeconds : option float64;
  tr_ScriptContent : string;
  tr_ConfigContent : string;
  tr_HTTPMethod : string;
  tr_ContentType : string;
  tr_PayloadJSON : string;
  tr_PayloadTargetKiB : Z;
  tr_Auth : AuthInput
}.

#[export] Instance eta_TestRequest : Eta TestRequest := fun r =>
  mkTestRequest
    (tr_ProjectName r) (tr_URL r) (tr_Executor r) (tr_Stages r) (tr_VUs r) (tr_Duration r)
    (tr_Rate r) (tr_TimeUnit r) (tr_PreAllocatedVUs r) (tr_MaxVUs r) (tr_SleepSeconds r)
    (tr_ScriptContent r) (tr_ConfigContent r) (tr_HTTPMethod r) (tr_ContentType r)
    (tr_PayloadJSON r) (tr_PayloadTargetKiB r) (tr_Auth r).

Record ScheduledTest : Type := mkScheduledTest {
  sch_ID : string;
  sch_Name : string;
  sch_ProjectName : string;
  sch_URL : string;
  sch_Mode : string;
  sch_Executor : string;
  sch_Stages : list Stage;
  sch_VUs : Z;
  sch_Duration : string;
  sch_Rate : Z;
  sch_TimeUnit : string;
  sch_PreAllocatedVUs : Z;
  sch_MaxVUs : Z;
  sch_SleepSeconds : option float64;
  sch_ScriptContent : string;
  sch_ConfigContent : string;
  sch_HTTPMethod : string;
  sch_ContentType : string;
  sch_PayloadJSON : string;
  sch_PayloadTargetKiB : Z;
  sch_AuthConfig : AuthConfig;
  sch_ScheduledAt : Time;
  sch_EstimatedDurationS : Z;
  sch_Timezone : string;
  sch_RecurrenceType : string;
  sch_RecurrenceRule : string;
  sch_RecurrenceEnd : option Time;
  sch_SkippedOccurrences : list Time;
  sch_Status : string;
  sch_Paused : bool;
  sch_UserID : Z;
  sch_Username : string;
  sch_CreatedAt : Time;
  sch_UpdatedAt : Time
}.

#[export] Instance eta_ScheduledTest : Eta ScheduledTest := fun r =>
  mkScheduledTest
    (sch_ID r) (sch_Name r) (sch_ProjectName r) (sch_URL r) (sch_Mode r) (sch_Executor r)
    (sch_Stages r) (sch_VUs r) (sch_Duration r) (sch_Rate r) (sch_TimeUnit r)
    (sch_PreAllocatedVUs r) (sch_MaxVUs r) (sch_SleepSeconds r) (sch_ScriptContent r)
    (sch_ConfigContent r) (sch_HTTPMethod r) (sch_ContentType r) (sch_PayloadJSON r)
    (sch_PayloadTargetKiB r) (sch_AuthConfig r) (sch_ScheduledAt r)
    (sch_EstimatedDurationS r) (sch_Timezone r) (sch_RecurrenceType r)
    (sch_RecurrenceRule r) (sch_RecurrenceEnd r) (sch_SkippedOccurrences r) (sch_Status r)
    (sch_Paused r) (sch_UserID r) (sch_Username r) (sch_CreatedAt r) (sch_UpdatedAt r).

Record ScheduleExecution : Type := mkScheduleExecution {
  exe_ID : string;
  exe_ScheduleID : string;
  exe_LoadTestID : option string;
  exe_Status : string;
  exe_ScheduledAt : Time;
  exe_StartedAt : option Time;
  exe_EndedAt : option Time;
  exe_ErrorMessage : option string;
  exe_ErrorDetail : option string;
  exe_CreatedAt : Time
}.

#[export] Instance eta_ScheduleExecution : Eta ScheduleExecution := fun r =>
  mkScheduleExecution
    (exe_ID r) (exe_ScheduleID r) (exe_LoadTestID r) (exe_Status r) (exe_ScheduledAt r)
    (exe_StartedAt r) (exe_EndedAt r) (exe_ErrorMessage r) (exe_ErrorDetail r)
    (exe_CreatedAt r).

Record CreateScheduleRequest : Type := mkCreateScheduleRequest {
  csr_Name : string;
  csr_ProjectName : string;
  csr_URL : string;
  csr_Mode : string;
  csr_Executor : string;
  csr_Stages : option (list Stage);
  csr_VUs : Z;
  csr_Duration : string;
  csr_Rate : Z;
  csr_TimeUnit : string;
  csr_PreAllocatedVUs : Z;
  csr_MaxVUs : Z;
  csr_SleepSeconds : option float64;
  csr_ScriptContent : string;
  csr_ConfigContent : string;
  csr_HTTPMethod : string;
  csr_ContentType : string;
  csr_PayloadJSON : string;
  csr_PayloadTargetKiB : Z;
  csr_Auth : AuthInput;
  csr_ScheduledAt : string;
  csr_EstimatedDurationS : Z;
  csr_Timezone : string;
  csr_RecurrenceType : string;
  csr_RecurrenceRule : string;
  csr_RecurrenceEnd : option string
}.

#[export] Instance eta_CreateScheduleRequest : Eta CreateScheduleRequest := fun r =>
  mkCreateScheduleRequest
    (csr_Name r) (csr_ProjectName r) (csr_URL r) (csr_Mode r) (csr_Executor r)
    (csr_Stages r) (csr_VUs r) (csr_Duration r) (csr_Rate r) (csr_TimeUnit r)
    (csr_PreAllocatedVUs r) (csr_MaxVUs r) (csr_SleepSeconds r) (csr_ScriptContent r)
    (csr_ConfigContent r) (csr_HTTPMethod r) (csr_ContentType r) (csr_PayloadJSON r)
    (csr_PayloadTargetKiB r) (csr_Auth r) (csr_ScheduledAt r) (csr_EstimatedDurationS r)
    (csr_Timezone r) (csr_RecurrenceType r) (csr_RecurrenceRule r) (csr_RecurrenceEnd r).

Record CalendarEvent : Type := mkCalendarEvent {
  cev_ID : string;
  cev_Name : string;
  cev_ProjectName : string;
  cev_Start : string;
  cev_End : string;
  cev_OccurrenceStart : string;
  cev_Status : string;
  cev_RecurrenceType : string;
  cev_Username : string;
  cev_UserID : Z
}.

#[export] Instance eta_CalendarEvent : Eta CalendarEvent := fun r =>
  mkCalendarEvent
    (cev_ID r) (cev_Name r) (cev_ProjectName r) (cev_Start r) (cev_End r)
    (cev_OccurrenceStart r) (cev_Status r) (cev_RecurrenceType r) (cev_Username r)
    (cev_UserID r).

Record ScheduleConflict : Type := mkScheduleConflict {
  cfl_ScheduleID : string;
  cfl_ScheduleName : string;
  cfl_Start : string;
  cfl_End : string;
  cfl_Type : string
}.

#[export] Instance eta_ScheduleConflict : Eta ScheduleConflict := fun r =>
  mkScheduleConflict
    (cfl_ScheduleID r) (cfl_ScheduleName r) (cfl_Start r) (cfl_End r) (cfl_Type r).

Record ConflictWarning : Type := mkConflictWarning {
  cw_Type : string;
  cw_Message : string
}.

#[export] Instance eta_ConflictWarning : Eta ConflictWarning := fun r =>
  mkConflictWarning
    (cw_Type r) (cw_Message r).

Record K6Status : Type := mkK6Status {
  k6s_Status : string;
  k6s_Paused : bool;
  k6s_VUs : Z;
  k6s_VUsMax : Z;
  k6s_Stopped : bool;
  k6s_Running : bool;
  k6s_Tainted : bool
}.

#[export] Instance eta_K6Status : Eta K6Status := fun r =>
  mkK6Status
    (k6s_Status r) (k6s_Paused r) (k6s_VUs r) (k6s_VUsMax r) (k6s_Stopped r)
    (k6s_Running r) (k6s_Tainted r).

Record K6StatusPatch : Type := mkK6StatusPatch {
  k6p_Paused : option bool;
  k6p_Stopped : option bool;
  k6p_VUs : option Z;
  k6p_VUsMax : option Z
}.

#[export] Instance eta_K6StatusPatch : Eta K6StatusPatch := fun r =>
  mkK6StatusPatch
    (k6p_Paused r) (k6p_Stopped r) (k6p_VUs r) (k6p_VUsMax r).

Record K6Metric : Type := mkK6Metric {
  k6m_Type : string;
  k6m_Contains : string;
  k6m_Tainted : option bool;
  k6m_Sample : gmap string float64;
  k6m_Values : gmap string float64
}.

#[export] Instance eta_K6Metric : Eta K6Metric := fun r =>
  mkK6Metric
    (k6m_Type r) (k6m_Contains r) (k6m_Tainted r) (k6m_Sample r) (k6m_Values r).

Record ThresholdResult : Type := mkThresholdResult {
  thr_Metric : string;
  thr_Passed : bool
}.

#[export] Instance eta_ThresholdResult : Eta ThresholdResult := fun r =>
  mkThresholdResult
    (thr_Metric r) (thr_Passed r).

Record WorkerMetrics : Type := mkWorkerMetrics {
  wm_Name : string;
  wm_Address : string;
  wm_VUs : Z;
  wm_Requests : float64;
  wm_AvgLatency : float64;
  wm_Status : string;
  wm_Error : string;
  wm_DashboardEnabled : bool;
  wm_DashboardURL : string
}.

#[export] Instance eta_WorkerMetrics : Eta WorkerMetrics := fun r =>
  mkWorkerMetrics
    (wm_Name r) (wm_Address r) (wm_VUs r) (wm_Requests r) (wm_AvgLatency r) (wm_Status r)
    (wm_Error r) (wm_DashboardEnabled r) (wm_DashboardURL r).

Record AggregatedMetrics : Type := mkAggregatedMetrics {
  agg_TotalVUs : Z;
  agg_TotalRequests : float64;
  agg_BusinessRequests : float64;
  agg_AvgLatency : float64;
  agg_MedLatency : float64;
  agg_P90Latency : float64;
  agg_P95Latency : float64;
  agg_P99Latency : float64;
  agg_MinLatency : float64;
  agg_MaxLatency : float64;
  agg_ErrorRate : float64;
  agg_SuccessRate : float64;
  agg_RPS : float64;
  agg_Iterations : float64;
  agg_DataReceived : float64;
  agg_DataSent : float64;
  agg_HTTPFailures : float64;
  agg_HTTPSuccesses : float64;
  agg_Status4xx : float64;
  agg_Status5xx : float64;
  agg_Workers : list WorkerMetrics;
  agg_Thresholds : list ThresholdResult
}.

#[export] Instance eta_AggregatedMetrics : Eta AggregatedMetrics := fun r =>
  mkAggregatedMetrics
    (agg_TotalVUs r) (agg_TotalRequests r) (agg_BusinessRequests r) (agg_AvgLatency r)
    (agg_MedLatency r) (agg_P90Latency r) (agg_P95Latency r) (agg_P99Latency r)
    (agg_MinLatency r) (agg_MaxLatency r) (agg_ErrorRate r) (agg_SuccessRate r)
    (agg_RPS r) (agg_Iterations r) (agg_DataReceived r) (agg_DataSent r)
    (agg_HTTPFailures r) (agg_HTTPSuccesses r) (agg_Status4xx r) (agg_Status5xx r)
    (agg_Workers r) (agg_Thresholds r).

Record TimePoint : Type := mkTimePoint {
  tp_ElapsedSec : float64;
  tp_TotalVUs : Z;
  tp_RPS : float64;
  tp_AvgLatency : float64;
  tp_P95Latency : float64;
  tp_TotalRequests : float64;
  tp_BusinessRequests : float64;
  tp_ErrorRate : float64;
  tp_Status4xx : float64;
  tp_Status5xx : float64
}.

#[export] Instance eta_TimePoint : Eta TimePoint := fun r =>
  mkTimePoint
    (tp_ElapsedSec r) (tp_TotalVUs r) (tp_RPS r) (tp_AvgLatency r) (tp_P95Latency r)
    (tp_TotalRequests r) (tp_BusinessRequests r) (tp_ErrorRate r) (tp_Status4xx r)
    (tp_Status5xx r).
(** ** Methods *)

(** [json.Unmarshal(raw, &n)] for an [int] and for a [string] variable. *)
Definition unmarshal_int (raw : string) : option Z := j ← parse_json raw; decode_int 0 j.
Definition unmarshal_string (raw : string) : option string := j ← parse_json raw; decode_string "" j.

(** [K6Status.IsRunning]. *)
Definition IsRunning (s : K6Status) : bool :=
  match unmarshal_int (k6s_Status s) with
  | Some n => (3 <=? n) && (n <=? 5)
  | None =>
    match unmarshal_string (k6s_Status s) with
    | Some str => String.eqb str "running" || String.eqb str "setup" || String.eqb str "tearing_down"
    | None => k6s_Running s && negb (k6s_Paused s) && negb (k6s_Stopped s)
    end
  end.

(** [K6Status.IsFinished]. *)
Definition IsFinished (s : K6Status) : bool :=
  match unmarshal_int (k6s_Status s) with
  | Some n => 6 <=? n
  | None =>
    match unmarshal_string (k6s_Status s) with
    | Some str => String.eqb str "finished" || String.eqb str "teared_down"
    | None => false
    end
  end.

(** [K6Status.IsReadyForStart]. *)
Definition IsReadyForStart (s : K6Status) : bool :=
  k6s_Paused s && negb (k6s_Stopped s) && negb (IsFinished s).

(** [K6Metric.Val]: the value and whether it was found. *)
Definition Val (m : K6Metric) (key : string) : option float64 :=
  match k6m_Sample m !! key with
  | Some v => Some v
  | None => k6m_Values m !! key
  end.

(** [ScheduledTest.ToTestRequest]: the secret is not part of the request; the
    scheduler adds it after decryption. *)
Definition ToTestRequest (s : ScheduledTest) : TestRequest := {|
  tr_ProjectName := sch_ProjectName s;
  tr_URL := sch_URL s;
  tr_Executor := sch_Executor s;
  tr_Stages := sch_Stages s;
  tr_VUs := sch_VUs s;
  tr_Duration := sch_Duration s;
  tr_Rate := sch_Rate s;
  tr_TimeUnit := sch_TimeUnit s;
  tr_PreAllocatedVUs := sch_PreAllocatedVUs s;
  tr_MaxVUs := sch_MaxVUs s;
  tr_SleepSeconds := sch_SleepSeconds s;
  tr_ScriptContent := sch_ScriptContent s;
  tr_ConfigContent := sch_ConfigContent s;
  tr_HTTPMethod := sch_HTTPMethod s;
  tr_ContentType := sch_ContentType s;
  tr_PayloadJSON := sch_PayloadJSON s;
  tr_PayloadTargetKiB := sch_PayloadTargetKiB s;
  tr_Auth := {|
    ai_Enabled := ac_Enabled (sch_AuthConfig s);
    ai_Mode := ac_Mode (sch_AuthConfig s);
    ai_TokenURL := ac_TokenURL (sch_AuthConfig s);
    ai_ClientID := ac_ClientID (sch_AuthConfig s);
    ai_ClientSecret := "";
    ai_ClientAuthMethod := ac_ClientAuthMethod (sch_AuthConfig s);
    ai_RefreshSkewSeconds := ac_RefreshSkewSeconds (sch_AuthConfig s);
    ai_PersistSecret := false;
    ai_ClearSecret := false
  |}
|}.

(** ** Zero values: what Go's [T{}] denotes *)

Definition zero_AuthConfig : AuthConfig := mkAuthConfig false "" "" "" "" 0 "" false "".

Definition zero_AuthInput : AuthInput := mkAuthInput false "" "" "" "" "" 0 false false.

Definition zero_TestRequest : TestRequest :=
  mkTestRequest "" "" "" [] 0 "" 0 "" 0 0 None "" "" "" "" "" 0 zero_AuthInput.

Definition zero_ScheduledTest : ScheduledTest :=
  mkScheduledTest "" "" "" "" "" "" [] 0 "" 0 "" 0 0 None "" "" "" "" "" 0 zero_AuthConfig
    zero_time 0 "" "" "" None [] "" false 0 "" zero_time zero_time.

Definition zero_CreateScheduleRequest : CreateScheduleRequest :=
  mkCreateScheduleRequest "" "" "" "" "" None 0 "" 0 "" 0 0 None "" "" "" "" "" 0 zero_AuthInput
    "" 0 "" "" "" None.

Definition zero_WorkerMetrics : WorkerMetrics :=
  mkWorkerMetrics "" "" 0 f_zero f_zero "" "" false "".

Definition zero_AggregatedMetrics : AggregatedMetrics :=
  mkAggregatedMetrics 0 f_zero f_zero f_zero f_zero f_zero f_zero f_zero f_zero f_zero f_zero f_zero
    f_zero f_zero f_zero f_zero f_zero f_zero f_zero f_zero [] [].

(** ** Properties of the status tests *)

(** Whatever the status field holds (a code, a name, or something that is
    neither), a worker is never reported both running and finished, and a
    worker that is ready to be started is not finished. *)
Theorem status_exclusive (s : K6Status) :
  (IsRunning s = true -> IsFinished s = false) /\
  (IsReadyForStart s = true -> IsFinished s = false /\ k6s_Paused s = true /\ k6s_Stopped s = false).
Proof.
  split.
  - unfold IsRunning, IsFinished. destruct (unmarshal_int _) as [n|].
    + intros H. bool_prop. lia.
    + destruct (unmarshal_string _) as [str|]; [|done].
      intros H. bool_prop. destruct H as [H|H]; bool_prop; [destruct H as [H|H]; bool_prop|];
        subst str; reflexivity.
  - unfold IsReadyForStart. intros H. bool_prop. auto.
Qed.
