(* ===== verification/Payload.v ===== *)
(** * Request bodies of the builder: [controller/internal/scriptgen/scriptgen.go]

    The body a generated test sends: the JSON source, serialised in canonical
    form and padded to an exact number of bytes.  A computation that can panic
    returns an [option]: nothing is the panic (of a slice expression with a
    negative bound), as opposed to an error value. *)

From S2P Require Export Prelude GoStrings GoFloat Json JsonOut Model.

Open Scope Z_scope.
Open Scope go_scope.

Definition DefaultHTTPMethod : string := "GET".
Definition DefaultContentType : string := "application/json".
Definition payloadPaddingField : string := "_shiva_padding".

(** [strings.ToUpper] on ASCII letters and on the two other letters whose upper
    case is ASCII (dotless i and long s).  The other letters outside ASCII keep
    their bytes, where Go may change them to other bytes outside ASCII. *)
Fixpoint to_upper (s : string) : string :=
  match s with
  | EmptyString => ""
  | String a s1 =>
    if between 97 122 a then String (chr (byte_of a - 32)) (to_upper s1) else
    match s1 with
    | String b s2 =>
      if (byte_of a =? 196) && (byte_of b =? 177) then String (chr 73) (to_upper s2)
      else if (byte_of a =? 197) && (byte_of b =? 191) then String (chr 83) (to_upper s2)
      else String a (to_upper s1)
    | EmptyString => String a ""
    end
  end.

Definition NormalizeHTTPMethod (method : string) : string :=
  let method := to_upper (trim_space method) in
  if String.eqb method "" then DefaultHTTPMethod else method.

Definition NormalizeContentType (contentType : string) : string :=
  let contentType := trim_space contentType in
  if String.eqb contentType "" then DefaultContentType else contentType.

Definition one_of_strings (s : string) (l : list string) : bool := existsb (String.eqb s) l.

Definition MethodAllowsBody (method : string) : bool :=
  one_of_strings (NormalizeHTTPMethod method) ["POST"; "PUT"; "PATCH"; "DELETE"].

Definition validateBuilderHTTPMethod (method : string) : option string :=
  if one_of_strings (NormalizeHTTPMethod method) ["GET"; "POST"; "PUT"; "PATCH"; "DELETE"]
  then None else Some "http_method must be one of GET, POST, PUT, PATCH, DELETE".

Definition HasPayloadConfiguration (method contentType payloadJSON : string) (targetKiB : Z) : bool :=
  if negb (blank payloadJSON) || (0 <? targetKiB) then true
  else if negb (String.eqb (NormalizeHTTPMethod method) DefaultHTTPMethod) then true
  else negb (String.eqb (NormalizeContentType contentType) DefaultContentType).

Definition payloadTargetBytes (targetKiB : Z) : Z := if targetKiB <=? 0 then 0 else targetKiB ⊠ 1024.

Definition kibFromBytes (bytes : Z) : float64 := f_div (f_of_Z bytes) (f_of_Z 1024).
Definition kbFromBytes (bytes : Z) : float64 := f_div (f_of_Z bytes) (f_of_Z 1000).

(** ** Padding to a size *)

Definition too_small : string :=
  "payload_target_kib is smaller than the minimum serialized JSON payload size".

(** The members of an object, as [payload] after an assignment. *)
Definition padding_of (payload : list (string * json)) : string :=
  default "" (as_string (jget payloadPaddingField payload)).

Definition set_padding (s : string) (payload : list (string * json)) : list (string * json) :=
  jset payloadPaddingField (JStr s) payload.

(** The correcting loop, [guard] rounds left. *)
Fixpoint size_loop (guard : nat) (payload : list (string * json)) (content : string) (targetBytes : Z)
  : option (res string) :=
  let actualBytes := str_len content in
  if actualBytes =? targetBytes then Some (Ok content)
  else
    match guard with
    | O => Some (Err "failed to size JSON payload to the exact target byte length")
    | S guard =>
      let diff := targetBytes - actualBytes in
      let currentPadding := padding_of payload in
      if 0 <? diff then
        let payload := set_padding (currentPadding +:+ xs (Z.to_nat diff)) payload in
        size_loop guard payload (marshal (JObj payload)) targetBytes
      else if str_len currentPadding + diff <? 0 then None
      else
        let payload :=
          set_padding (String.substring 0 (Z.to_nat (str_len currentPadding + diff)) currentPadding)
            payload in
        size_loop guard payload (marshal (JObj payload)) targetBytes
    end.

Definition sizeObjectPayload (payload : list (string * json)) (targetBytes : Z) : option (res string) :=
  match jget payloadPaddingField payload with
  | Some (JNull | JBool _ | JNum _ | JArr _ | JObj _) =>
    Some (Err "reserved payload padding field must be a string when present")
  | _ =>
    let content := marshal (JObj payload) in
    let actualBytes := str_len content in
    if actualBytes =? targetBytes then Some (Ok content)
    else if targetBytes <? actualBytes then Some (Err too_small)
    else
      let payload :=
        set_padding (padding_of payload +:+ xs (Z.to_nat (targetBytes - actualBytes))) payload in
      size_loop 8 payload (marshal (JObj payload)) targetBytes
  end.

Definition buildExactPayloadContent (parsed : json) (targetBytes : Z) : option (res string) :=
  let content := marshal parsed in
  let actualBytes := str_len content in
  if targetBytes =? 0 then Some (Ok content)
  else if actualBytes =? targetBytes then Some (Ok content)
  else if targetBytes <? actualBytes then Some (Err too_small)
  else
    match parsed with
    | JObj members => sizeObjectPayload members targetBytes
    | JNull | JBool _ | JNum _ | JStr _ | JArr _ =>
      Some (Err "payload_target_kib requires an object payload unless the serialized JSON already matches the exact target size")
    end.

(** ** The artifacts of a request *)

Record BuilderPayloadArtifacts := mkPayload {
  pa_SourceJSON : string;
  pa_Content : string;
  pa_HTTPMethod : string;
  pa_ContentType : string;
  pa_TargetBytes : Z;
  pa_TargetKiB : float64;
  pa_TargetKB : float64;
  pa_ActualBytes : Z;
  pa_ActualKiB : float64;
  pa_ActualKB : float64
}.

#[export] Instance eta_BuilderPayloadArtifacts : Eta BuilderPayloadArtifacts := fun p =>
  mkPayload (pa_SourceJSON p) (pa_Content p) (pa_HTTPMethod p) (pa_ContentType p) (pa_TargetBytes p)
    (pa_TargetKiB p) (pa_TargetKB p) (pa_ActualBytes p) (pa_ActualKiB p) (pa_ActualKB p).

(** The text of a decoding error of encoding/json, by the JSON text. *)
Class JsonErrors := json_error : string -> string.

Section artifacts.
Context `{JsonErrors}.

Definition BuildBuilderPayloadArtifacts (req : TestRequest) : option (res BuilderPayloadArtifacts) :=
  let method := NormalizeHTTPMethod (tr_HTTPMethod req) in
  let contentType := NormalizeContentType (tr_ContentType req) in
  let sourceJSON := trim_space (tr_PayloadJSON req) in
  let targetBytes := payloadTargetBytes (tr_PayloadTargetKiB req) in
  match validateBuilderHTTPMethod method with
  | Some e => Some (Err e)
  | None =>
    let artifacts :=
      mkPayload sourceJSON "" method contentType targetBytes (kibFromBytes targetBytes)
        (kbFromBytes targetBytes) 0 f_zero f_zero in
    if negb (MethodAllowsBody method) then
      if negb (String.eqb sourceJSON "") || (0 <? targetBytes)
      then Some (Err (method +:+ " does not support a JSON request body in builder mode"))
      else Some (Ok artifacts)
    else if String.eqb sourceJSON "" && (targetBytes =? 0) then Some (Ok artifacts)
    else
      let parsedSource := if String.eqb sourceJSON "" then "{}" else sourceJSON in
      match unmarshal_any parsedSource with
      | None => Some (Err ("payload_json must be valid JSON: " +:+ json_error parsedSource))
      | Some parsed =>
        match buildExactPayloadContent parsed targetBytes with
        | None => None
        | Some (Err e) => Some (Err e)
        | Some (Ok content) =>
          let actual := str_len content in
          Some (Ok (artifacts <| pa_Content := content |> <| pa_ActualBytes := actual |>
                      <| pa_ActualKiB := kibFromBytes actual |> <| pa_ActualKB := kbFromBytes actual |>))
        end
      end
  end.
End artifacts.

(** ** Sizes *)

Lemma jget_snoc (k : string) (v : json) (l : list (string * json)) : jget k (l ++ [(k, v)]) = Some v.
Proof.
  induction l as [|[k0 w] l IH]; simpl; [by rewrite String.eqb_refl|]. by rewrite IH.
Qed.

Lemma padding_of_set (s : string) (l : list (string * json)) : padding_of (set_padding s l) = s.
Proof. unfold padding_of, set_padding, jset. by rewrite jget_snoc. Qed.

Lemma set_padding_set (s s' : string) (l : list (string * json)) :
  set_padding s (set_padding s' l) = set_padding s l.
Proof.
  unfold set_padding, jset. f_equal. rewrite List.filter_app.
  rewrite filter_other_cons, String.eqb_refl. simpl. rewrite app_nil_r.
  induction l as [|[k v] l IH]; [done|]. rewrite filter_other_cons.
  destruct (String.eqb k payloadPaddingField) eqn:E; [done|].
  rewrite filter_other_cons, E, IH. done.
Qed.

Lemma set_padding_len (s : string) (n : nat) (l : list (string * json)) :
  object_len (set_padding (s +:+ xs n) l) = object_len (set_padding s l) + Z.of_nat n.
Proof.
  unfold set_padding.
  pose proof (object_len_jset payloadPaddingField (JStr (s +:+ xs n)) (JStr s) l) as H.
  rewrite marshal_pad in H. lia.
Qed.

(** What the padding member costs when the object has none. *)
Definition padding_overhead (l : list (string * json)) : Z :=
  match jget payloadPaddingField l with
  | Some _ => 0
  | None => if decide (l = []) then 19 else 20
  end.

Lemma padding_overhead_spec (l : list (string * json)) :
  (forall v, jget payloadPaddingField l = Some v -> exists s, v = JStr s) ->
  object_len (set_padding (padding_of l) l) = object_len l + padding_overhead l.
Proof.
  intros Hs. unfold set_padding, padding_of, padding_overhead.
  destruct (jget payloadPaddingField l) as [v|] eqn:E.
  - destruct (Hs v eq_refl) as [s ->]. simpl. rewrite Z.add_0_r. symmetry.
    apply object_len_perm, dedupe_jset_same, E.
  - simpl. rewrite object_len_new by done.
    change (str_len (marshal_string payloadPaddingField)) with 16.
    change (str_len (marshal (JStr ""))) with 2. destruct (decide (l = [])); lia.
Qed.

Lemma substring_xs (n k : nat) : (k <= n)%nat -> String.substring 0 k (xs n) = xs k.
Proof.
  revert n. induction k as [|k IH]; intros [|n] H; try lia; try done.
  change (xs (S n)) with (String (chr 120) (xs n)). simpl.
  rewrite IH by lia. done.
Qed.

Lemma size_loop_done (guard : nat) payload content targetBytes :
  str_len content = targetBytes -> size_loop guard payload content targetBytes = Some (Ok content).
Proof. intros H. destruct guard; simpl; rewrite (proj2 (Z.eqb_eq _ _)) by done; done. Qed.

Lemma size_loop_padded (s : string) (l : list (string * json)) (t : Z) :
  object_len (set_padding s l) = t ->
  size_loop 8 (set_padding s l) (marshal (JObj (set_padding s l))) t =
  Some (Ok (marshal (JObj (set_padding s l)))).
Proof. intros H. apply size_loop_done, H. Qed.

(** The object has a padding string: one addition of filler is enough. *)
Lemma pad_existing (l : list (string * json)) (n : nat) :
  padding_overhead l = 0 -> (forall v, jget payloadPaddingField l = Some v -> exists s, v = JStr s) ->
  let l' := set_padding (padding_of l +:+ xs n) l in
  size_loop 8 l' (marshal (JObj l')) (object_len l + Z.of_nat n) = Some (Ok (marshal (JObj l'))) /\
  str_len (marshal (JObj l')) = object_len l + Z.of_nat n.
Proof.
  intros H0 Hs l'. pose proof (padding_overhead_spec l Hs) as Ho.
  assert (object_len l' = object_len l + Z.of_nat n) as Hl by (unfold l'; rewrite set_padding_len; lia).
  split; [|exact Hl]. apply size_loop_padded, Hl.
Qed.

(** A round of the loop on a body that is too large. *)
Lemma size_loop_shrink (guard : nat) payload content (targetBytes : Z) :
  targetBytes < str_len content ->
  let keep := str_len (padding_of payload) + (targetBytes - str_len content) in
  let payload' := set_padding (String.substring 0 (Z.to_nat keep) (padding_of payload)) payload in
  size_loop (S guard) payload content targetBytes =
  if keep <? 0 then None else size_loop guard payload' (marshal (JObj payload')) targetBytes.
Proof.
  intros H keep payload'. cbn [size_loop].
  rewrite (proj2 (Z.eqb_neq _ _)), (proj2 (Z.ltb_ge 0 _)) by lia. done.
Qed.

(** The object has none: the first addition makes it too large by the overhead,
    which the loop takes off again, or cannot. *)
Lemma pad_new (l : list (string * json)) (n : nat) :
  jget payloadPaddingField l = None -> (0 < n)%nat ->
  let o := Z.to_nat (padding_overhead l) in
  let l' := set_padding (xs n) l in
  let l'' := set_padding (xs (n - o)) l in
  size_loop 8 l' (marshal (JObj l')) (object_len l + Z.of_nat n) =
    (if (n <? o)%nat then None else Some (Ok (marshal (JObj l'')))) /\
  ((o <= n)%nat -> str_len (marshal (JObj l'')) = object_len l + Z.of_nat n).
Proof.
  intros Hk Hn o l' l''.
  pose proof (padding_overhead_spec l ltac:(rewrite Hk; discriminate)) as Ho.
  assert (Hp : padding_of l = "") by (unfold padding_of; rewrite Hk; done). rewrite Hp in Ho.
  assert (Hov : 0 < padding_overhead l) by (unfold padding_overhead; rewrite Hk; destruct (decide _); lia).
  assert (Hlen : forall k, object_len (set_padding (xs k) l) = object_len l + padding_overhead l + Z.of_nat k).
  { intros k. rewrite (set_padding_len "" k l : object_len (set_padding (xs k) l) = _), Ho. done. }
  assert (Hl'' : (o <= n)%nat -> object_len l'' = object_len l + Z.of_nat n).
  { intros Hle. unfold l''. rewrite Hlen. unfold o in *. lia. }
  split; [|exact Hl'']. pose proof (Hlen n) as Hn'. fold l' in Hn'. unfold object_len in Hn'.
  assert (Hpo : padding_of l' = xs n) by apply padding_of_set.
  rewrite size_loop_shrink by (unfold object_len in *; lia). rewrite Hpo, xs_len, Hn'.
  fold (object_len l).
  replace (Z.of_nat n + _) with (Z.of_nat n - padding_overhead l) by lia.
  destruct (n <? o)%nat eqn:E.
  - apply Nat.ltb_lt in E. rewrite (proj2 (Z.ltb_lt _ _)) by (unfold o in E; lia). done.
  - apply Nat.ltb_ge in E. rewrite (proj2 (Z.ltb_ge _ _)) by (unfold o in E; lia).
    replace (Z.to_nat (Z.of_nat n - padding_overhead l)) with (n - o)%nat by (unfold o; lia).
    rewrite substring_xs by lia. unfold l'. rewrite set_padding_set. fold l''.
    apply size_loop_done. apply Hl''. done.
Qed.

(** Padding an object to a size, on every branch.  Let the overhead be the
    bytes of an empty padding member (none when the object has one).  A padding
    field that is not a string is an error; an object that has the size is
    returned as it is; one that is larger is an error; one that leaves room for
    the member gets exactly the filler that makes its serialisation [targetBytes]
    long; and one that misses the size by less than the overhead makes the
    correcting loop slice with a negative bound: the program panics. *)
Theorem sizeObjectPayload_spec (l : list (string * json)) (targetBytes : Z) :
  let size := object_len l in
  let base := size + padding_overhead l in
  match sizeObjectPayload l targetBytes with
  | None => size < targetBytes < base
  | Some (Err e) =>
    (exists v, jget payloadPaddingField l = Some v /\ forall s, v <> JStr s) \/ targetBytes < size
  | Some (Ok content) =>
    str_len content = targetBytes /\
    (content = marshal (JObj l) \/
     base <= targetBytes /\
     content = marshal (JObj (set_padding (padding_of l +:+ xs (Z.to_nat (targetBytes - base))) l)))
  end.
Proof.
  intros size base. unfold sizeObjectPayload, base.
  assert (Hgo : (forall v, jget payloadPaddingField l = Some v -> exists s, v = JStr s) ->
    size < targetBytes ->
    match size_loop 8 (set_padding (padding_of l +:+ xs (Z.to_nat (targetBytes - size))) l)
            (marshal (JObj (set_padding (padding_of l +:+ xs (Z.to_nat (targetBytes - size))) l))) targetBytes with
    | None => size < targetBytes < size + padding_overhead l
    | Some (Err e) => False
    | Some (Ok content) =>
      str_len content = targetBytes /\ size + padding_overhead l <= targetBytes /\
      content = marshal (JObj (set_padding
        (padding_of l +:+ xs (Z.to_nat (targetBytes - (size + padding_overhead l)))) l))
    end).
  { intros Hs Hlt. set (n := Z.to_nat (targetBytes - size)).
    assert (Ht : targetBytes = object_len l + Z.of_nat n) by (unfold n, size in *; lia).
    destruct (jget payloadPaddingField l) as [v|] eqn:E.
    - assert (H0 : padding_overhead l = 0) by (unfold padding_overhead; rewrite E; done).
      destruct (pad_existing l n H0) as [H1 H2]; [rewrite E; done|].
      rewrite <- Ht in H1, H2. rewrite H1, H2, H0.
      replace (Z.to_nat (targetBytes - (size + 0))) with n by lia. split_and!; [lia|lia|done].
    - assert (Hp : padding_of l = "") by (unfold padding_of; rewrite E; done).
      destruct (pad_new l n E) as [H1 H2]; [unfold n; lia|]. rewrite Hp.
      change ("" +:+ ?s) with s. rewrite <- Ht in H1, H2. rewrite H1. fold size in Ht.
      assert (0 <= padding_overhead l) by (unfold padding_overhead; rewrite E; destruct (decide _); lia).
      destruct (n <? Z.to_nat (padding_overhead l))%nat eqn:En.
      + apply Nat.ltb_lt in En. lia.
      + apply Nat.ltb_ge in En. specialize (H2 En).
        replace (Z.to_nat (targetBytes - (size + padding_overhead l)))
          with (n - Z.to_nat (padding_overhead l))%nat by lia.
        split_and!; [exact H2|lia|done]. }
  change (str_len (marshal (JObj l))) with size.
  destruct (jget payloadPaddingField l) as [[| | |s0| |]|] eqn:E;
    try (left; eexists; split; [reflexivity|discriminate]).
  all: destruct (size =? targetBytes) eqn:E1; bool_prop; [split; [done|by left]|].
  all: destruct (targetBytes <? size) eqn:E2; bool_prop; [by right|].
  all: assert (Hs : size < targetBytes) by lia.
  1: specialize (Hgo ltac:(intros v [= <-]; eauto) Hs).
  2: specialize (Hgo ltac:(discriminate) Hs).
  all: destruct (size_loop _ _ _ _) as [[content|e]|]; [|destruct Hgo|exact Hgo].
  all: destruct Hgo as (H1 & H2 & H3); split; [exact H1|right; split; [exact H2|exact H3]].
Qed.

(** A body of 1010 bytes cannot be padded to one KiB. *)
Example pad_panics :
  let l := [("a", JStr (xs 1002))] in
  object_len l = 1010 /\ sizeObjectPayload l 1024 = None.
Proof. vm_compute. split; reflexivity. Qed.

(** ** Normal forms *)

Definition upper_letter (c : Ascii.ascii) : bool := between 65 90 c.

(** The bytes that [to_upper] takes together with the next one. *)
Definition special_pair (a : Ascii.ascii) (s : string) : bool :=
  match s with
  | String b _ => ((byte_of a =? 196) && (byte_of b =? 177)) || ((byte_of a =? 197) && (byte_of b =? 191))
  | EmptyString => false
  end.

(** The first byte of the result, which is an upper-case letter or the byte that
    was there. *)
Lemma to_upper_step (a : Ascii.ascii) (s : string) :
  (exists a' pre r, upper_letter a' = true /\ String a s = pre +:+ r /\ pre <> "" /\
     to_upper (String a s) = String a' (to_upper r)) \/
  (between 97 122 a = false /\ special_pair a s = false /\ to_upper (String a s) = String a (to_upper s)).
Proof.
  simpl. destruct (between 97 122 a) eqn:El.
  - left. exists (chr (byte_of a - 32)), (String a ""), s. split_and!; try done.
    unfold upper_letter, between in *. bool_prop. rewrite byte_chr by lia. lia.
  - destruct s as [|b s]; [right; done|].
    destruct ((byte_of a =? 196) && (byte_of b =? 177)) eqn:E1;
      [left; exists (chr 73), (String a (String b "")), s; done|].
    destruct ((byte_of a =? 197) && (byte_of b =? 191)) eqn:E2;
      [left; exists (chr 83), (String a (String b "")), s; done|].
    right. split_and!; [done| |done]. simpl. by rewrite E1, E2.
Qed.

Fixpoint no_upper (w : string) : bool :=
  match w with String c w' => negb (upper_letter c) && no_upper w' | EmptyString => true end.

(** Bytes of the result that are not upper-case letters were there before. *)
Lemma to_upper_prefix (w q t : string) :
  no_upper w = true -> to_upper t = w +:+ q -> exists q', t = w +:+ q' /\ to_upper q' = q.
Proof.
  revert t. induction w as [|c w IH]; intros t Hw E; [eauto|].
  simpl in Hw. bool_prop. destruct t as [|a s]; [done|].
  destruct (to_upper_step a s) as [(a' & pre & r & Hu & _ & _ & Hs) | (_ & _ & Hs)];
    rewrite Hs in E; injection E as -> E; [congruence|].
  destruct (IH s ltac:(done) E) as (q' & -> & Hq). eauto.
Qed.

Lemma to_upper_nil (t : string) : to_upper t = "" -> t = "".
Proof.
  destruct t as [|a s]; [done|].
  destruct (to_upper_step a s) as [(a' & pre & r & _ & _ & _ & ->) | (_ & _ & ->)]; done.
Qed.

Lemma to_upper_suffix (w q t : string) :
  no_upper w = true -> to_upper t = q +:+ w -> exists q', t = q' +:+ w.
Proof.
  intros Hw. revert t. induction q as [|c q IH]; intros t E.
  - destruct (to_upper_prefix w "" t Hw) as (q' & -> & Hq).
    { rewrite E. symmetry. apply string_app_nil_r. }
    apply to_upper_nil in Hq as ->. exists "". apply string_app_nil_r.
  - destruct t as [|a s]; [done|].
    destruct (to_upper_step a s) as [(a' & pre & r & _ & Hp & _ & Hs) | (_ & _ & Hs)];
      rewrite Hs in E; injection E as _ E; destruct (IH _ E) as [q' ->].
    + exists (pre +:+ q'). by rewrite Hp, string_app_assoc.
    + by exists (String a q').
Qed.

Lemma to_upper_stable (a : Ascii.ascii) (s : string) :
  between 97 122 a = false -> special_pair a s = false -> to_upper (String a s) = String a (to_upper s).
Proof.
  intros Hl Hs. simpl. rewrite Hl. destruct s as [|b s]; [done|]. simpl in Hs.
  apply orb_false_iff in Hs as [-> ->]. done.
Qed.

Lemma to_upper_idem (t : string) : to_upper (to_upper t) = to_upper t.
Proof.
  induction t as [t IH] using string_len_ind. destruct t as [|a s]; [done|].
  destruct (to_upper_step a s) as [(a' & pre & r & Hu & Hp & Hne & Hs) | (Hl & Hsp & Hs)]; rewrite Hs.
  - rewrite to_upper_stable.
    + f_equal. apply IH. rewrite Hp. destruct pre; [done|]. simpl. rewrite string_length_app. lia.
    + unfold upper_letter, between in *. bool_prop. lia.
    + unfold upper_letter, between, special_pair in *. destruct (to_upper r); bool_prop; [done|].
      rewrite (proj2 (Z.eqb_neq (byte_of a') 196)), (proj2 (Z.eqb_neq (byte_of a') 197)) by lia. done.
  - rewrite to_upper_stable; [|done|].
    + f_equal. apply IH. simpl. lia.
    + apply not_true_is_false. intros Hx. destruct (to_upper s) as [|b X] eqn:E; [done|].
      simpl in Hx. assert (Hb : upper_letter b = false).
      { unfold upper_letter, between. apply andb_false_iff. rewrite !Z.leb_gt.
        apply orb_true_iff in Hx as [Hx | Hx]; bool_prop; lia. }
      destruct (to_upper_prefix (String b "") X s) as (q & -> & _); [by simpl; rewrite Hb|exact E|].
      simpl in Hsp. congruence.
Qed.

(** White space, which has no letters. *)
Lemma space_no_upper (a b c : Ascii.ascii) :
  (is_ascii_space a = true -> upper_letter a = false) /\
  (is_space2 a b = true -> upper_letter a = false /\ upper_letter b = false) /\
  (is_space3 a b c = true -> upper_letter a = false /\ upper_letter b = false /\ upper_letter c = false).
Proof.
  unfold is_ascii_space, is_space2, is_space3, upper_letter, between. rewrite !andb_false_iff, !Z.leb_gt.
  rewrite !orb_true_iff, !andb_true_iff, !orb_true_iff, !andb_true_iff, !Z.leb_le, !Z.eqb_eq. lia.
Qed.

Lemma lead_space_bytes (s : string) :
  lead_space s = true ->
  exists w q, s = w +:+ q /\ no_upper w = true /\ forall q', lead_space (w +:+ q') = true.
Proof.
  intros H. assert (Hc : (exists a t, s = String a t /\ is_ascii_space a = true) \/
    (exists a b t, s = String a (String b t) /\ is_space2 a b = true) \/
    (exists a b c t, s = String a (String b (String c t)) /\ is_space3 a b c = true)).
  { string_cases s; simpl in H; [done|..]; rewrite ?orb_true_iff in H; naive_solver. }
  destruct Hc as [(a & t & -> & E) | [(a & b & t & -> & E) | (a & b & c & t & -> & E)]].
  - exists (String a ""), t. split_and!; [done| |].
    + simpl. by rewrite (proj1 (space_no_upper a a a) E).
    + intros q'. string_cases q'; simpl; by rewrite E.
  - destruct (proj1 (proj2 (space_no_upper a b a)) E) as [E1 E2].
    exists (String a (String b "")), t. split_and!; [done|by simpl; rewrite E1, E2|].
    intros q'. destruct q'; simpl; by rewrite E, ?orb_true_r.
  - destruct (proj2 (proj2 (space_no_upper a b c)) E) as (E1 & E2 & E3).
    exists (String a (String b (String c ""))), t. split_and!; [done|by simpl; rewrite E1, E2, E3|].
    intros q'. simpl. by rewrite E, ?orb_true_r.
Qed.

Lemma lead_space_rev_bytes (s : string) :
  lead_space_rev s = true ->
  exists w q, s = w +:+ q /\ no_upper w = true /\ forall q', lead_space_rev (w +:+ q') = true.
Proof.
  intros H. assert (Hc : (exists a t, s = String a t /\ is_ascii_space a = true) \/
    (exists a b t, s = String a (String b t) /\ is_space2 b a = true) \/
    (exists a b c t, s = String a (String b (String c t)) /\ is_space3 c b a = true)).
  { string_cases s; simpl in H; [done|..]; rewrite ?orb_true_iff in H; naive_solver. }
  destruct Hc as [(a & t & -> & E) | [(a & b & t & -> & E) | (a & b & c & t & -> & E)]].
  - exists (String a ""), t. split_and!; [done| |].
    + simpl. by rewrite (proj1 (space_no_upper a a a) E).
    + intros q'. string_cases q'; simpl; by rewrite E.
  - destruct (proj1 (proj2 (space_no_upper b a a)) E) as [E1 E2].
    exists (String a (String b "")), t. split_and!; [done|by simpl; rewrite E1, E2|].
    intros q'. destruct q'; simpl; by rewrite E, ?orb_true_r.
  - destruct (proj2 (proj2 (space_no_upper c b a)) E) as (E1 & E2 & E3).
    exists (String a (String b (String c ""))), t. split_and!; [done|by simpl; rewrite E1, E2, E3|].
    intros q'. simpl. by rewrite E, ?orb_true_r.
Qed.

Lemma no_upper_rev (s : string) : no_upper (string_rev s) = no_upper s.
Proof.
  assert (Ha : forall t u, no_upper (t +:+ u) = no_upper t && no_upper u).
  { induction t as [|c t IH]; intros u; [done|].
    change (negb (upper_letter c) && no_upper (t +:+ u) = negb (upper_letter c) && no_upper t && no_upper u).
    by rewrite IH, andb_assoc. }
  induction s as [|c s IH]; [done|]. rewrite string_rev_cons, Ha, IH. simpl. by rewrite andb_true_r, andb_comm.
Qed.

(** The upper case of a trimmed text is trimmed. *)
Lemma trim_upper (s : string) : trim_space (to_upper (trim_space s)) = to_upper (trim_space s).
Proof.
  destruct (trim_space_ends s) as [H1 H2]. generalize dependent (trim_space s). intros t H1 H2.
  apply trim_space_fixed; apply not_true_is_false; intros H.
  - apply lead_space_bytes in H as (w & q & E & Hw & Hl).
    destruct (to_upper_prefix w q t Hw E) as (q' & -> & _). rewrite Hl in H1. done.
  - apply lead_space_rev_bytes in H as (w & q & E & Hw & Hl).
    apply (f_equal string_rev) in E. rewrite string_rev_involutive, string_rev_app in E.
    rewrite <- no_upper_rev in Hw. destruct (to_upper_suffix _ _ _ Hw E) as [q' ->].
    rewrite string_rev_app, string_rev_involutive, Hl in H2. done.
Qed.

Lemma NormalizeHTTPMethod_idem (method : string) :
  NormalizeHTTPMethod (NormalizeHTTPMethod method) = NormalizeHTTPMethod method.
Proof.
  unfold NormalizeHTTPMethod at 2 3. destruct (String.eqb _ "") eqn:E; [done|].
  unfold NormalizeHTTPMethod. by rewrite trim_upper, to_upper_idem, E.
Qed.

Lemma NormalizeContentType_idem (contentType : string) :
  NormalizeContentType (NormalizeContentType contentType) = NormalizeContentType contentType.
Proof.
  unfold NormalizeContentType at 2 3. destruct (String.eqb _ "") eqn:E; [done|].
  unfold NormalizeContentType. by rewrite trim_space_idem, E.
Qed.
