(* ===== verification/Schema.v ===== *)
(** * The schema of the database: [Migrate] of [controller/internal/store/store.go]

    The tables and columns the other statements work on, the statements that
    create them at startup, and the columns that are added to a database of an
    earlier version.  A definition of a column is kept as its text.  Every
    statement may fail, as the list of faults says; MySQL refuses a foreign key
    to a table that is not there and a column that is. *)

From S2P Require Export Prelude GoStrings.

Open Scope Z_scope.
Open Scope go_scope.

(** ** Tables *)

Inductive constraint :=
  | ForeignKey (col ref refcol : string)
  | UniqueKey (name col : string)
  | Index (name col : string).

Record Table := mkTable { tb_columns : list (string * string); tb_constraints : list constraint }.

Definition has_column (t : Table) (col : string) : bool := existsb (fun c => String.eqb c.1 col) (tb_columns t).

Definition users_table : Table := mkTable
  [("id", "BIGINT AUTO_INCREMENT PRIMARY KEY");
   ("username", "VARCHAR(255) NOT NULL UNIQUE");
   ("email", "VARCHAR(255) NOT NULL UNIQUE");
   ("hashed_password", "VARCHAR(255) NOT NULL");
   ("role", "VARCHAR(50) NOT NULL DEFAULT 'user'");
   ("must_change_password", "BOOLEAN NOT NULL DEFAULT FALSE");
   ("created_at", "TIMESTAMP NOT NULL DEFAULT CURRENT_TIMESTAMP");
   ("updated_at", "TIMESTAMP NOT NULL DEFAULT CURRENT_TIMESTAMP ON UPDATE CURRENT_TIMESTAMP")]
  [].

Definition load_tests_table : Table := mkTable
  [("id", "VARCHAR(36) PRIMARY KEY");
   ("project_name", "VARCHAR(255) NOT NULL");
   ("url", "TEXT NOT NULL");
   ("status", "VARCHAR(50) NOT NULL DEFAULT 'pending'");
   ("result_json", "JSON");
   ("executor", "VARCHAR(50) NOT NULL DEFAULT 'ramping-vus'");
   ("stages", "JSON");
   ("vus", "INT DEFAULT 0");
   ("duration", "VARCHAR(50) DEFAULT ''");
   ("rate", "INT DEFAULT 0");
   ("time_unit", "VARCHAR(10) DEFAULT '1s'");
   ("pre_allocated_vus", "INT DEFAULT 0");
   ("max_vus", "INT DEFAULT 0");
   ("sleep_seconds", "DOUBLE DEFAULT 0.5");
   ("script_content", "MEDIUMTEXT");
   ("config_content", "MEDIUMTEXT");
   ("payload_source_json", "MEDIUMTEXT");
   ("payload_content", "MEDIUMTEXT");
   ("http_method", "VARCHAR(16) NOT NULL DEFAULT 'GET'");
   ("content_type", "VARCHAR(255) NOT NULL DEFAULT 'application/json'");
   ("auth_enabled", "BOOLEAN NOT NULL DEFAULT FALSE");
   ("auth_mode", "VARCHAR(64) DEFAULT ''");
   ("auth_token_url", "TEXT");
   ("auth_client_id", "VARCHAR(255) DEFAULT ''");
   ("auth_client_auth_method", "VARCHAR(32) NOT NULL DEFAULT 'basic'");
   ("auth_refresh_skew_seconds", "INT NOT NULL DEFAULT 30");
   ("auth_secret_source", "VARCHAR(32) DEFAULT ''");
   ("auth_secret_configured", "BOOLEAN NOT NULL DEFAULT FALSE");
   ("user_id", "BIGINT NOT NULL");
   ("username", "VARCHAR(255) NOT NULL");
   ("created_at", "TIMESTAMP NOT NULL DEFAULT CURRENT_TIMESTAMP")]
  [ForeignKey "user_id" "users" "id"].

Definition test_templates_table : Table := mkTable
  [("id", "VARCHAR(36) PRIMARY KEY");
   ("name", "VARCHAR(255) NOT NULL");
   ("description", "TEXT");
   ("mode", "VARCHAR(20) NOT NULL DEFAULT 'builder'");
   ("url", "TEXT");
   ("stages", "JSON");
   ("script_content", "MEDIUMTEXT");
   ("config_content", "MEDIUMTEXT");
   ("http_method", "VARCHAR(16) NOT NULL DEFAULT 'GET'");
   ("content_type", "VARCHAR(255) NOT NULL DEFAULT 'application/json'");
   ("payload_json", "MEDIUMTEXT");
   ("payload_target_kib", "INT NOT NULL DEFAULT 0");
   ("auth_enabled", "BOOLEAN NOT NULL DEFAULT FALSE");
   ("auth_mode", "VARCHAR(64) DEFAULT ''");
   ("auth_token_url", "TEXT");
   ("auth_client_id", "VARCHAR(255) DEFAULT ''");
   ("auth_client_secret_encrypted", "MEDIUMTEXT");
   ("auth_client_auth_method", "VARCHAR(32) NOT NULL DEFAULT 'basic'");
   ("auth_refresh_skew_seconds", "INT NOT NULL DEFAULT 30");
   ("auth_secret_source", "VARCHAR(32) DEFAULT ''");
   ("auth_secret_configured", "BOOLEAN NOT NULL DEFAULT FALSE");
   ("is_system", "BOOLEAN NOT NULL DEFAULT FALSE");
   ("user_id", "BIGINT NOT NULL");
   ("username", "VARCHAR(255) NOT NULL");
   ("created_at", "TIMESTAMP NOT NULL DEFAULT CURRENT_TIMESTAMP");
   ("updated_at", "TIMESTAMP NOT NULL DEFAULT CURRENT_TIMESTAMP ON UPDATE CURRENT_TIMESTAMP")]
  [ForeignKey "user_id" "users" "id"].

Definition scheduled_tests_table : Table := mkTable
  [("id", "VARCHAR(36) PRIMARY KEY");
   ("name", "VARCHAR(255) NOT NULL");
   ("project_name", "VARCHAR(255) NOT NULL");
   ("url", "TEXT NOT NULL");
   ("mode", "VARCHAR(20) NOT NULL DEFAULT 'builder'");
   ("executor", "VARCHAR(50) NOT NULL DEFAULT 'ramping-vus'");
   ("stages", "JSON");
   ("vus", "INT DEFAULT 0");
   ("duration", "VARCHAR(50) DEFAULT ''");
   ("rate", "INT DEFAULT 0");
   ("time_unit", "VARCHAR(10) DEFAULT '1s'");
   ("pre_allocated_vus", "INT DEFAULT 0");
   ("max_vus", "INT DEFAULT 0");
   ("sleep_seconds", "DOUBLE DEFAULT 0.5");
   ("script_content", "MEDIUMTEXT");
   ("config_content", "MEDIUMTEXT");
   ("http_method", "VARCHAR(16) NOT NULL DEFAULT 'GET'");
   ("content_type", "VARCHAR(255) NOT NULL DEFAULT 'application/json'");
   ("payload_json", "MEDIUMTEXT");
   ("payload_target_kib", "INT NOT NULL DEFAULT 0");
   ("auth_enabled", "BOOLEAN NOT NULL DEFAULT FALSE");
   ("auth_mode", "VARCHAR(64) DEFAULT ''");
   ("auth_token_url", "TEXT");
   ("auth_client_id", "VARCHAR(255) DEFAULT ''");
   ("auth_client_secret_encrypted", "MEDIUMTEXT");
   ("auth_client_auth_method", "VARCHAR(32) NOT NULL DEFAULT 'basic'");
   ("auth_refresh_skew_seconds", "INT NOT NULL DEFAULT 30");
   ("auth_secret_source", "VARCHAR(32) DEFAULT ''");
   ("auth_secret_configured", "BOOLEAN NOT NULL DEFAULT FALSE");
   ("scheduled_at", "DATETIME NOT NULL");
   ("estimated_duration_s", "INT NOT NULL");
   ("timezone", "VARCHAR(64) NOT NULL DEFAULT 'UTC'");
   ("recurrence_type", "VARCHAR(20) DEFAULT 'once'");
   ("recurrence_rule", "VARCHAR(255) DEFAULT ''");
   ("recurrence_end", "DATETIME DEFAULT NULL");
   ("skipped_occurrences", "JSON DEFAULT NULL");
   ("status", "VARCHAR(30) NOT NULL DEFAULT 'scheduled'");
   ("paused", "BOOLEAN NOT NULL DEFAULT FALSE");
   ("user_id", "BIGINT NOT NULL");
   ("username", "VARCHAR(255) NOT NULL");
   ("created_at", "TIMESTAMP NOT NULL DEFAULT CURRENT_TIMESTAMP");
   ("updated_at", "TIMESTAMP NOT NULL DEFAULT CURRENT_TIMESTAMP ON UPDATE CURRENT_TIMESTAMP")]
  [ForeignKey "user_id" "users" "id"; Index "idx_sched_at" "scheduled_at"; Index "idx_sched_status" "status"].

Definition schedule_executions_table : Table := mkTable
  [("id", "VARCHAR(36) PRIMARY KEY");
   ("schedule_id", "VARCHAR(36) NOT NULL");
   ("load_test_id", "VARCHAR(36) DEFAULT NULL");
   ("status", "VARCHAR(30) NOT NULL DEFAULT 'pending'");
   ("scheduled_at", "DATETIME NOT NULL");
   ("started_at", "DATETIME DEFAULT NULL");
   ("ended_at", "DATETIME DEFAULT NULL");
   ("error_message", "TEXT DEFAULT NULL");
   ("error_detail", "JSON DEFAULT NULL");
   ("created_at", "TIMESTAMP NOT NULL DEFAULT CURRENT_TIMESTAMP")]
  [ForeignKey "schedule_id" "scheduled_tests" "id"; Index "idx_exec_schedule" "schedule_id"].

Definition password_reset_tokens_table : Table := mkTable
  [("id", "BIGINT AUTO_INCREMENT PRIMARY KEY");
   ("user_id", "BIGINT NOT NULL");
   ("token_hash", "VARCHAR(255) NOT NULL");
   ("expires_at", "DATETIME NOT NULL");
   ("used_at", "DATETIME DEFAULT NULL");
   ("created_at", "TIMESTAMP NOT NULL DEFAULT CURRENT_TIMESTAMP")]
  [ForeignKey "user_id" "users" "id"; UniqueKey "uniq_password_reset_token_hash" "token_hash"; Index "idx_password_reset_user" "user_id"; Index "idx_password_reset_expires_at" "expires_at"].

Definition queries : list (string * Table) :=
  [("users", users_table); ("load_tests", load_tests_table); ("test_templates", test_templates_table); ("scheduled_tests", scheduled_tests_table); ("schedule_executions", schedule_executions_table); ("password_reset_tokens", password_reset_tokens_table)].

Definition addColumnIfMissing : list (string * string * string) :=
  [("load_tests", "script_content", "MEDIUMTEXT");
   ("load_tests", "config_content", "MEDIUMTEXT");
   ("load_tests", "payload_source_json", "MEDIUMTEXT");
   ("load_tests", "payload_content", "MEDIUMTEXT");
   ("load_tests", "executor", "VARCHAR(50) NOT NULL DEFAULT 'ramping-vus'");
   ("load_tests", "stages", "JSON");
   ("load_tests", "vus", "INT DEFAULT 0");
   ("load_tests", "duration", "VARCHAR(50) DEFAULT ''");
   ("load_tests", "rate", "INT DEFAULT 0");
   ("load_tests", "time_unit", "VARCHAR(10) DEFAULT '1s'");
   ("load_tests", "pre_allocated_vus", "INT DEFAULT 0");
   ("load_tests", "max_vus", "INT DEFAULT 0");
   ("load_tests", "sleep_seconds", "DOUBLE DEFAULT 0.5");
   ("load_tests", "http_method", "VARCHAR(16) NOT NULL DEFAULT 'GET'");
   ("load_tests", "content_type", "VARCHAR(255) NOT NULL DEFAULT 'application/json'");
   ("load_tests", "auth_enabled", "BOOLEAN NOT NULL DEFAULT FALSE");
   ("load_tests", "auth_mode", "VARCHAR(64) DEFAULT ''");
   ("load_tests", "auth_token_url", "TEXT");
   ("load_tests", "auth_client_id", "VARCHAR(255) DEFAULT ''");
   ("load_tests", "auth_client_auth_method", "VARCHAR(32) NOT NULL DEFAULT 'basic'");
   ("load_tests", "auth_refresh_skew_seconds", "INT NOT NULL DEFAULT 30");
   ("load_tests", "auth_secret_source", "VARCHAR(32) DEFAULT ''");
   ("load_tests", "auth_secret_configured", "BOOLEAN NOT NULL DEFAULT FALSE");
   ("test_templates", "http_method", "VARCHAR(16) NOT NULL DEFAULT 'GET'");
   ("test_templates", "content_type", "VARCHAR(255) NOT NULL DEFAULT 'application/json'");
   ("test_templates", "payload_json", "MEDIUMTEXT");
   ("test_templates", "payload_target_kib", "INT NOT NULL DEFAULT 0");
   ("test_templates", "auth_enabled", "BOOLEAN NOT NULL DEFAULT FALSE");
   ("test_templates", "auth_mode", "VARCHAR(64) DEFAULT ''");
   ("test_templates", "auth_token_url", "TEXT");
   ("test_templates", "auth_client_id", "VARCHAR(255) DEFAULT ''");
   ("test_templates", "auth_client_secret_encrypted", "MEDIUMTEXT");
   ("test_templates", "auth_client_auth_method", "VARCHAR(32) NOT NULL DEFAULT 'basic'");
   ("test_templates", "auth_refresh_skew_seconds", "INT NOT NULL DEFAULT 30");
   ("test_templates", "auth_secret_source", "VARCHAR(32) DEFAULT ''");
   ("test_templates", "auth_secret_configured", "BOOLEAN NOT NULL DEFAULT FALSE");
   ("test_templates", "is_system", "BOOLEAN NOT NULL DEFAULT FALSE");
   ("scheduled_tests", "http_method", "VARCHAR(16) NOT NULL DEFAULT 'GET'");
   ("scheduled_tests", "content_type", "VARCHAR(255) NOT NULL DEFAULT 'application/json'");
   ("scheduled_tests", "payload_json", "MEDIUMTEXT");
   ("scheduled_tests", "payload_target_kib", "INT NOT NULL DEFAULT 0");
   ("scheduled_tests", "auth_enabled", "BOOLEAN NOT NULL DEFAULT FALSE");
   ("scheduled_tests", "auth_mode", "VARCHAR(64) DEFAULT ''");
   ("scheduled_tests", "auth_token_url", "TEXT");
   ("scheduled_tests", "auth_client_id", "VARCHAR(255) DEFAULT ''");
   ("scheduled_tests", "auth_client_secret_encrypted", "MEDIUMTEXT");
   ("scheduled_tests", "auth_client_auth_method", "VARCHAR(32) NOT NULL DEFAULT 'basic'");
   ("scheduled_tests", "auth_refresh_skew_seconds", "INT NOT NULL DEFAULT 30");
   ("scheduled_tests", "auth_secret_source", "VARCHAR(32) DEFAULT ''");
   ("scheduled_tests", "auth_secret_configured", "BOOLEAN NOT NULL DEFAULT FALSE");
   ("scheduled_tests", "skipped_occurrences", "JSON DEFAULT NULL");
   ("users", "must_change_password", "BOOLEAN NOT NULL DEFAULT FALSE")].

(** The columns the insertions write. *)
Definition users_inserted : list string :=
  ["username"; "email"; "hashed_password"; "role"; "must_change_password"].

Definition password_reset_tokens_inserted : list string :=
  ["user_id"; "token_hash"; "expires_at"].

Definition load_tests_inserted : list string :=
  ["id"; "project_name"; "url"; "status"; "executor"; "stages"; "vus"; "duration"; "rate"; "time_unit";
   "pre_allocated_vus"; "max_vus"; "sleep_seconds"; "script_content"; "config_content";
   "payload_source_json"; "payload_content"; "http_method"; "content_type"; "auth_enabled"; "auth_mode";
   "auth_token_url"; "auth_client_id"; "auth_client_auth_method"; "auth_refresh_skew_seconds";
   "auth_secret_source"; "auth_secret_configured"; "user_id"; "username"].

Definition test_templates_inserted : list string :=
  ["id"; "name"; "description"; "mode"; "url"; "stages"; "script_content"; "config_content"; "http_method";
   "content_type"; "payload_json"; "payload_target_kib"; "auth_enabled"; "auth_mode"; "auth_token_url";
   "auth_client_id"; "auth_client_secret_encrypted"; "auth_client_auth_method"; "auth_refresh_skew_seconds";
   "auth_secret_source"; "auth_secret_configured"; "is_system"; "user_id"; "username"].

Definition scheduled_tests_inserted : list string :=
  ["id"; "name"; "project_name"; "url"; "mode"; "executor"; "stages"; "vus"; "duration"; "rate"; "time_unit";
   "pre_allocated_vus"; "max_vus"; "sleep_seconds"; "script_content"; "config_content"; "http_method";
   "content_type"; "payload_json"; "payload_target_kib"; "auth_enabled"; "auth_mode"; "auth_token_url";
   "auth_client_id"; "auth_client_secret_encrypted"; "auth_client_auth_method"; "auth_refresh_skew_seconds";
   "auth_secret_source"; "auth_secret_configured"; "scheduled_at"; "estimated_duration_s"; "timezone";
   "recurrence_type"; "recurrence_rule"; "recurrence_end"; "skipped_occurrences"; "status"; "paused";
   "user_id"; "username"].

Definition schedule_executions_inserted : list string :=
  ["id"; "schedule_id"; "load_test_id"; "status"; "scheduled_at"; "started_at"; "ended_at"; "error_message";
   "error_detail"].

Definition inserted_columns : list (string * list string) :=
  [("users", users_inserted); ("password_reset_tokens", password_reset_tokens_inserted); ("load_tests", load_tests_inserted); ("test_templates", test_templates_inserted); ("scheduled_tests", scheduled_tests_inserted); ("schedule_executions", schedule_executions_inserted)].

(** ** The database *)

Record Database := mkDatabase { db_tables : gmap string Table; db_faults : list (option string) }.

(** A statement: the next fault, or its effect. *)
Definition statement {A} (f : gmap string Table -> res (A * gmap string Table)) : ST Database (res A) := fun db =>
  let rest := tail (db_faults db) in
  match head (db_faults db) with
  | Some (Some e) => (Err e, mkDatabase (db_tables db) rest)
  | _ => match f (db_tables db) with
         | Ok (a, tables) => (Ok a, mkDatabase tables rest)
         | Err e => (Err e, mkDatabase (db_tables db) rest)
         end
  end.

(** The table a foreign key names is there, with the column. *)
Definition refers (tables : gmap string Table) (c : constraint) : bool :=
  match c with
  | ForeignKey _ ref refcol => match tables !! ref with Some t => has_column t refcol | None => false end
  | UniqueKey _ _ | Index _ _ => true
  end.

Definition create_table (name : string) (t : Table) (tables : gmap string Table) : res (unit * gmap string Table) :=
  match tables !! name with
  | Some _ => Ok (tt, tables)
  | None => if forallb (refers tables) (tb_constraints t) then Ok (tt, <[name := t]> tables)
            else Err "Failed to open the referenced table"
  end.

Definition column_count (table col : string) (tables : gmap string Table) : res (Z * gmap string Table) :=
  Ok (match tables !! table with Some t => if has_column t col then 1 else 0 | None => 0 end, tables).

Definition add_column (table col def : string) (tables : gmap string Table) : res (unit * gmap string Table) :=
  match tables !! table with
  | None => Err "Table does not exist"
  | Some t => if has_column t col then Err "Duplicate column name"
              else Ok (tt, <[table := mkTable (tb_columns t ++ [(col, def)]) (tb_constraints t)]> tables)
  end.

Fixpoint create_tables (qs : list (string * Table)) : ST Database (option string) :=
  match qs with
  | [] => mret None
  | (name, t) :: qs =>
    r ← statement (create_table name t);
    match r with Err e => mret (Some ("migrate: " +:+ e)) | Ok _ => create_tables qs end
  end.

Fixpoint add_columns (cs : list (string * string * string)) : ST Database (option string) :=
  match cs with
  | [] => mret None
  | (table, col, def) :: cs =>
    count ← statement (column_count table col);
    match count with
    | Err e => mret (Some ("migrate check column " +:+ col +:+ ": " +:+ e))
    | Ok count =>
      if count =? 0 then
        r ← statement (add_column table col def);
        match r with Err e => mret (Some ("migrate add column " +:+ col +:+ ": " +:+ e)) | Ok _ => add_columns cs end
      else add_columns cs
    end
  end.

Definition Migrate : ST Database (option string) :=
  e ← create_tables queries;
  match e with Some e => mret (Some e) | None => add_columns addColumnIfMissing end.

(** [WaitForDB]: one entry per round, whether the context has ended (with its
    error) and whether the database answers; nothing when the rounds run out. *)
Fixpoint WaitForDB (rounds : list (option string * bool)) : option (option string) :=
  match rounds with
  | [] => None
  | (Some e, _) :: _ => Some (Some e)
  | (None, true) :: _ => Some None
  | (None, false) :: rounds => WaitForDB rounds
  end.

(** ** Laws *)

(** Nothing that was there is gone or another. *)
Definition extends (tables tables' : gmap string Table) : Prop :=
  forall name t, tables !! name = Some t ->
    exists t', tables' !! name = Some t' /\ tb_constraints t' = tb_constraints t /\
      exists more, tb_columns t' = tb_columns t ++ more.

#[export] Instance extends_refl : Reflexive extends.
Proof. intros tables name t Ht. exists t. split_and!; [done..|]. exists []. by rewrite app_nil_r. Qed.

#[export] Instance extends_trans : Transitive extends.
Proof.
  intros a b c Hab Hbc name t Ht. destruct (Hab name t Ht) as (t1 & H1 & E1 & more1 & M1).
  destruct (Hbc name t1 H1) as (t2 & H2 & E2 & more2 & M2). exists t2. split_and!; [done|congruence|].
  exists (more1 ++ more2). by rewrite M2, M1, app_assoc.
Qed.

Lemma has_column_app l k cs col : has_column (mkTable (l ++ k) cs) col = has_column (mkTable l cs) col || has_column (mkTable k cs) col.
Proof. apply existsb_app. Qed.

(** A column that is there stays there. *)
Definition column_in (tables : gmap string Table) (table col : string) : Prop :=
  exists t, tables !! table = Some t /\ has_column t col = true.

Lemma column_extends tables tables' table col : extends tables tables' -> column_in tables table col -> column_in tables' table col.
Proof.
  intros He (t & Ht & Hc). destruct (He table t Ht) as (t' & Ht' & Ec & more & E). exists t'. split; [done|].
  destruct t' as [cols cons]. cbn in E, Ec. subst. rewrite has_column_app. destruct t as [cols' cons']. cbn in *.
  unfold has_column in *. cbn in *. by rewrite Hc.
Qed.

Lemma create_creates name t tables r : create_table name t tables = Ok r ->
  extends tables r.2 /\ is_Some (r.2 !! name) /\ (tables !! name = None -> r.2 !! name = Some t) /\
  forall n, n <> name -> r.2 !! n = tables !! n.
Proof.
  unfold create_table. destruct (tables !! name) eqn:E; [intros [= <-]; split_and!; [done|by eexists|done|done]|].
  destruct (forallb _ _); [|done]. intros [= <-]. cbn. rewrite lookup_insert_eq. split_and!; [|by eexists|done|].
  - intros n t' Ht'. exists t'. rewrite lookup_insert_ne by congruence. split_and!; [done..|]. exists []. by rewrite app_nil_r.
  - intros n Hn. by rewrite lookup_insert_ne.
Qed.

Lemma add_extends table col def tables r : add_column table col def tables = Ok r -> extends tables r.2 /\ column_in r.2 table col.
Proof.
  unfold add_column. destruct (tables !! table) as [t|] eqn:E; [|done]. destruct (has_column t col); [done|]. intros [= <-]. cbn. split.
  - intros n t' Ht'. destruct (decide (n = table)) as [->|].
    + rewrite lookup_insert_eq. eexists. split; [done|]. rewrite E in Ht'. injection Ht' as <-. split; [done|]. by eexists.
    + exists t'. rewrite lookup_insert_ne by done. split_and!; [done..|]. exists []. by rewrite app_nil_r.
  - eexists. rewrite lookup_insert_eq. split; [done|]. rewrite has_column_app. unfold has_column at 2. cbn.
    by rewrite String.eqb_refl, orb_true_r.
Qed.

(** A statement that is met by no fault does what it says. *)
Lemma statement_cases {A} (f : gmap string Table -> res (A * gmap string Table)) db :
  match statement f db with
  | (Ok a, db') => f (db_tables db) = Ok (a, db_tables db')
  | (Err e, db') => db_tables db' = db_tables db
  end.
Proof.
  unfold statement. destruct (head (db_faults db)) as [[e|]|]; [done|..]; destruct (f (db_tables db)) as [[a tables]|e]; done.
Qed.

Lemma create_tables_spec qs db : NoDup qs.*1 ->
  let '(e, db') := create_tables qs db in
  extends (db_tables db) (db_tables db') /\
  (e = None -> Forall (fun q => is_Some (db_tables db' !! q.1) /\
    (db_tables db !! q.1 = None -> forall col, has_column q.2 col = true -> column_in (db_tables db') q.1 col)) qs).
Proof.
  revert db. induction qs as [|[name t] qs IH]; intros db Hn; cbn [create_tables]; [by split|].
  cbn in Hn. apply NoDup_cons in Hn as [Hnew Hn].
  unfold mbind, ST_bind. pose proof (statement_cases (create_table name t) db) as Hs.
  destruct (statement (create_table name t) db) as [[u|e] db1]; [|cbn; rewrite Hs; split; [reflexivity|discriminate]].
  pose proof (create_creates _ _ _ _ Hs) as (He & Hin & Hcols & Hother). cbn in He, Hin, Hcols, Hother.
  specialize (IH db1 Hn). destruct (create_tables qs db1) as [e db'].
  destruct IH as [He' Hq]. split; [by etrans|]. intros Hnone. constructor.
  - cbn. split; [destruct Hin as [t' Ht']; destruct (He' name t' Ht') as (t'' & H & _); by exists t''|].
    intros Habs col Hc. eapply column_extends; [exact He'|]. exists t. by rewrite Hcols.
  - apply Forall_forall. intros q Hin'. destruct (proj1 (Forall_forall _ _) (Hq Hnone) q Hin') as [H1 H2]. split; [done|]. intros Habs. apply H2.
    rewrite Hother; [done|]. intros <-. apply Hnew. by apply list_elem_of_fmap_2.
Qed.

Lemma add_columns_spec cs db :
  let '(e, db') := add_columns cs db in
  extends (db_tables db) (db_tables db') /\
  (e = None -> Forall (fun c => column_in (db_tables db') c.1.1 c.1.2) cs).
Proof.
  revert db. induction cs as [|[[table col] def] cs IH]; intros db; cbn [add_columns]; [by split|].
  unfold mbind, ST_bind. pose proof (statement_cases (column_count table col) db) as Hs.
  destruct (statement (column_count table col) db) as [[n|e] db1]; [|cbn; rewrite Hs; split; [reflexivity|discriminate]].
  unfold column_count in Hs. injection Hs as Hn Ht. destruct (n =? 0) eqn:E.
  - pose proof (statement_cases (add_column table col def) db1) as Ha.
    destruct (statement (add_column table col def) db1) as [[u|e] db2]; [|cbn; rewrite Ha, <- Ht; split; [reflexivity|discriminate]].
    apply add_extends in Ha as [He Hc]. cbn in He, Hc. rewrite <- Ht in He. specialize (IH db2). destruct (add_columns cs db2) as [e db'].
    destruct IH as [He' Hq]. split; [by etrans|]. intros Hnone. constructor; [by eapply column_extends|by apply Hq].
  - specialize (IH db1). destruct (add_columns cs db1) as [e db']. destruct IH as [He' Hq]. rewrite Ht. split; [done|].
    intros Hnone. constructor; [|by apply Hq]. apply (column_extends (db_tables db1)); [done|]. cbn. rewrite <- Ht.
    destruct (db_tables db !! table) as [t|] eqn:Et; [|by subst]. destruct (has_column t col) eqn:Eh; [|by subst]. by exists t.
Qed.

(** ** What a migration leaves *)

(** Every table is there, and every column that was added to it over time. *)
Definition complete (tables : gmap string Table) : Prop :=
  Forall (fun q => is_Some (tables !! q.1)) queries /\ Forall (fun c => column_in tables c.1.1 c.1.2) addColumnIfMissing.

Definition added (name col : string) : bool :=
  existsb (fun c => String.eqb c.1.1 name && String.eqb c.1.2 col) addColumnIfMissing.

(** The tables an earlier version left: of the columns of today they lack only
    some that are added. *)
Definition earlier_version (tables : gmap string Table) : Prop :=
  Forall (fun q => forall t, tables !! q.1 = Some t ->
    forall col, has_column q.2 col = true -> added q.1 col = false -> has_column t col = true) queries.

Lemma create_tables_complete qs db : Forall (fun q => is_Some (db_tables db !! q.1)) qs ->
  db_tables (create_tables qs db).2 = db_tables db.
Proof.
  revert db. induction qs as [|[name t] qs IH]; intros db H; [done|]. inversion H as [|? ? [t' Ht'] H']; subst. cbn in Ht'.
  cbn [create_tables]. unfold mbind, ST_bind. pose proof (statement_cases (create_table name t) db) as Hs.
  destruct (statement (create_table name t) db) as [[u|e] db1]; [|done].
  unfold create_table in Hs. rewrite Ht' in Hs. injection Hs as _ Hs. rewrite Hs. apply IH. by rewrite <- Hs.
Qed.

Lemma add_columns_complete cs db : Forall (fun c => column_in (db_tables db) c.1.1 c.1.2) cs ->
  db_tables (add_columns cs db).2 = db_tables db.
Proof.
  revert db. induction cs as [|[[table col] def] cs IH]; intros db H; [done|]. inversion H as [|? ? (t & Ht & Hc) H']; subst. cbn in Ht, Hc.
  cbn [add_columns]. unfold mbind, ST_bind. pose proof (statement_cases (column_count table col) db) as Hs.
  destruct (statement (column_count table col) db) as [[n|e] db1]; [|done].
  unfold column_count in Hs. rewrite Ht, Hc in Hs. injection Hs as <- Hs. cbn [Z.eqb]. rewrite Hs. apply IH. by rewrite <- Hs.
Qed.

(** The columns the insertions write belong to the tables of today. *)
Lemma inserted_declared : Forall (fun i => Forall (fun c => exists t, (i.1, t) ∈ queries /\ has_column t c = true) i.2) inserted_columns.
Proof.
  assert (H : forallb (fun i => forallb (fun c => existsb (fun q => String.eqb q.1 i.1 && has_column q.2 c) queries) i.2) inserted_columns = true)
    by (vm_compute; reflexivity).
  apply Forall_forall. intros i Hi. apply Forall_forall. intros c Hc. apply list_elem_of_In in Hi, Hc.
  pose proof (proj1 (forallb_forall _ _) (proj1 (forallb_forall _ _) H i Hi) c Hc) as Hq.
  apply existsb_exists in Hq as ([name t] & Hin & Ht). apply andb_true_iff in Ht as [Hn Ht]. apply String.eqb_eq in Hn. cbn in *. subst.
  exists t. split; [by apply list_elem_of_In|done].
Qed.

Lemma queries_distinct : NoDup queries.*1.
Proof. apply (bool_decide_unpack _). vm_compute. exact I. Qed.

(** Whatever database a server is started on and whichever statement fails, the
    migration takes nothing away; on a database that is up to date it changes
    nothing; and when it succeeds on what an earlier version left, or on an
    empty database, every column that the insertions write is there. *)
Theorem Migrate_spec db :
  let '(e, db') := Migrate db in
  extends (db_tables db) (db_tables db') /\
  (complete (db_tables db) -> db_tables db' = db_tables db) /\
  (e = None -> complete (db_tables db')) /\
  (e = None -> earlier_version (db_tables db) ->
    Forall (fun i => Forall (fun c => column_in (db_tables db') i.1 c) i.2) inserted_columns).
Proof.
  unfold Migrate, mbind, ST_bind. pose proof (create_tables_spec queries db queries_distinct) as Hc.
  pose proof (create_tables_complete queries db) as Hcc.
  destruct (create_tables queries db) as [[e|] db1]; destruct Hc as [He1 Hc].
  { cbn. split_and!; [done| |discriminate|discriminate]. intros [H _]. by apply Hcc. }
  pose proof (add_columns_spec addColumnIfMissing db1) as Ha. pose proof (add_columns_complete addColumnIfMissing db1) as Hac.
  destruct (add_columns addColumnIfMissing db1) as [e db']. destruct Ha as [He2 Ha]. cbn [snd] in *.
  specialize (Hc eq_refl). split_and!.
  - by etrans.
  - intros [H1 H2]. specialize (Hcc H1). rewrite Hac; [done|]. by rewrite Hcc.
  - intros E. split; [|by apply Ha]. eapply Forall_impl; [exact Hc|]. intros q [[t Ht] _].
    destruct (He2 _ _ Ht) as (t' & Ht' & _). by exists t'.
  - intros E Hold. eapply Forall_impl; [exact inserted_declared|]. intros [name cs]. cbn. intros Hcs.
    eapply Forall_impl; [exact Hcs|]. intros col (t & Hq & Hcol).
    destruct (proj1 (Forall_forall _ _) Hc _ Hq) as [[t1 Ht1] Hnew]. cbn in Ht1, Hnew.
    destruct (db_tables db !! name) as [t0|] eqn:E0; [|eapply column_extends; [exact He2|]; by apply Hnew].
    destruct (added name col) eqn:Eadd.
    + apply existsb_exists in Eadd as ([[n c] d] & Hin & Heq). cbn in Heq. apply andb_true_iff in Heq as [H1 H2].
      apply String.eqb_eq in H1, H2. subst. apply list_elem_of_In in Hin. exact (proj1 (Forall_forall _ _) (Ha eq_refl) _ Hin).
    + apply (column_extends (db_tables db)); [by etrans|]. exists t0. split; [done|].
      exact (proj1 (Forall_forall _ _) Hold _ Hq t0 E0 col Hcol Eadd).
Qed.

(** An empty database gets the tables as they are written, in an order in which
    every foreign key finds its table. *)
Example migrate_fresh : Migrate (mkDatabase ∅ []) = (None, mkDatabase (list_to_map queries) []).
Proof. vm_compute. reflexivity. Qed.
