(* ===== verification/Store.v ===== *)
(** * The schedule tables

    The part of [controller/internal/store/store.go] that keeps schedules and
    their executions.  MySQL runs the statements: a statement is here the
    function on tables that its SQL text denotes.  What the server decides is
    a parameter: the order of rows with equal sort keys ([RowOrder]), whether a
    statement fails and with which message ([w_faults]), the value of [NOW()]
    ([w_db_now]).  Not modelled: rounding of DATETIME columns to seconds, the
    [updated_at] column, the [users] foreign key. *)

From S2P Require Export Prelude GoTime Model.

Open Scope Z_scope.
Open Scope go_scope.

(** ** The world a controller component acts on *)

Record DB := mkDB {
  scheduled_tests : gmap string ScheduledTest;       (* key: column id *)
  schedule_executions : gmap string ScheduleExecution
}.

#[export] Instance eta_DB : Eta DB := fun r => mkDB (scheduled_tests r) (schedule_executions r).

Record World := mkWorld {
  w_db : DB;
  w_faults : list (option string);  (* outcome of the next statements: the error, if any *)
  w_db_now : Z;                     (* clock of the database server, in ns *)
  w_now : Z;                        (* clock of the controller, in ns *)
  w_uuids : nat;                    (* UUIDs drawn so far *)
  w_active : string                 (* ID of the active test; empty: none *)
}.

#[export] Instance eta_World : Eta World := fun r =>
  mkWorld (w_db r) (w_faults r) (w_db_now r) (w_now r) (w_uuids r) (w_active r).

(** [time.Now()] on the controller. *)
Definition now (w : World) : Time := mkTime (w_now w) UTC.

(** [NOW()] in SQL: whole seconds. *)
Definition sql_now (db_now : Z) : Z := db_now / Second * Second.

(** ** Row order *)

Class RowOrder := {
  order_by : forall {A : Type}, (A -> Z) -> list A -> list A;
  order_by_perm : forall {A : Type} (key : A -> Z) (l : list A), order_by key l ≡ₚ l;
  order_by_sorted : forall {A : Type} (key : A -> Z) (l : list A),
    Sorted (fun x y => key x <= key y) (order_by key l)
}.

(** One server: rows with equal keys in the order a merge sort gives them. *)
Section merge_order.
Context {A : Type} (key : A -> Z).
Definition key_le (x y : A) : Prop := key x <= key y.
#[local] Instance key_le_dec : RelDecision key_le.
Proof. intros x y. unfold key_le. apply _. Defined.
#[local] Instance key_le_total : Total key_le.
Proof. intros x y. unfold key_le. lia. Qed.
Definition merge_order (l : list A) : list A := merge_sort key_le l.
Lemma merge_order_perm (l : list A) : merge_order l ≡ₚ l.
Proof. apply merge_sort_Permutation. Qed.
Lemma merge_order_sorted (l : list A) : Sorted key_le (merge_order l).
Proof. apply (Sorted_merge_sort _). Qed.
End merge_order.

Definition merge_row_order : RowOrder := {|
  order_by := @merge_order;
  order_by_perm := @merge_order_perm;
  order_by_sorted := @merge_order_sorted
|}.

(** ** Statements *)

(** Runs a statement: it fails when the world says so, and then has no effect;
    [context] is what the caller puts in front of the server's message. *)
Definition run_sql {A} (context : string) (stmt : DB -> res A * DB) : ST World (res A) := fun w =>
  match w_faults w with
  | Some msg :: fs => (Err (context +:+ msg), w <| w_faults := fs |>)
  | None :: fs =>
    let '(r, db) := stmt (w_db w) in (r, w <| w_db := db |> <| w_faults := fs |>)
  | [] => let '(r, db) := stmt (w_db w) in (r, w <| w_db := db |>)
  end.

Definition rows_where {A} (p : A -> bool) (table : gmap string A) : list A :=
  List.filter p (map_to_list table).*2.

(** ** Column values *)

Definition defaultHTTPMethod (method : string) : string :=
  if String.eqb method "" then "GET" else method.

Definition defaultContentType (contentType : string) : string :=
  if String.eqb contentType "" then "application/json" else contentType.

Definition defaultAuthClientAuthMethod (method : string) : string :=
  if String.eqb method "" then "basic" else method.

Definition defaultAuthRefreshSkewSeconds (skew : Z) : Z := if skew <=? 0 then 30 else skew.

Definition authConfigured (cfg : AuthConfig) : bool :=
  ac_SecretConfigured cfg || negb (String.eqb (ac_ClientSecretEncrypted cfg) "").

(** The auth columns as [CreateSchedule] and [UpdateSchedule] write them and
    [applyAuthConfig] reads them back; NULL and the empty string both read
    back as the empty string. *)
Definition stored_auth (cfg : AuthConfig) : AuthConfig :=
  cfg <| ac_ClientAuthMethod := defaultAuthClientAuthMethod (ac_ClientAuthMethod cfg) |>
      <| ac_RefreshSkewSeconds := defaultAuthRefreshSkewSeconds (ac_RefreshSkewSeconds cfg) |>
      <| ac_SecretConfigured := authConfigured cfg |>.

(** The row a schedule becomes, as [scanScheduledTest] reads it back. *)
Definition stored_schedule (st : ScheduledTest) : ScheduledTest :=
  st <| sch_HTTPMethod := defaultHTTPMethod (sch_HTTPMethod st) |>
     <| sch_ContentType := defaultContentType (sch_ContentType st) |>
     <| sch_AuthConfig := stored_auth (sch_AuthConfig st) |>.

(** ** Schedules *)

Definition CreateSchedule (st : ScheduledTest) : ST World (res unit) := fun w =>
  run_sql "" (fun db =>
    match scheduled_tests db !! sch_ID st with
    | Some _ => (Err "Duplicate entry", db)
    | None =>
      let at_ := mkTime (sql_now (w_db_now w)) UTC in
      let row := stored_schedule st <| sch_CreatedAt := at_ |> <| sch_UpdatedAt := at_ |> in
      (Ok tt, db <| scheduled_tests := <[sch_ID st := row]> (scheduled_tests db) |>)
    end) w.

Definition GetSchedule (id : string) : ST World (res (option ScheduledTest)) :=
  run_sql "get schedule: " (fun db => (Ok (scheduled_tests db !! id), db)).

Definition scheduled_ns (st : ScheduledTest) : Z := unix_ns (sch_ScheduledAt st).

Definition ListSchedules `{RowOrder} : ST World (res (list ScheduledTest)) :=
  run_sql "list schedules: " (fun db => (Ok (order_by scheduled_ns (rows_where (fun _ => true) (scheduled_tests db))), db)).

(** UPDATE of every column but the key, the owner and the creation time. *)
Definition UpdateSchedule (st : ScheduledTest) : ST World (res unit) :=
  run_sql "" (fun db =>
    (Ok tt,
     db <| scheduled_tests :=
       alter (fun row =>
         stored_schedule st <| sch_UserID := sch_UserID row |> <| sch_Username := sch_Username row |>
           <| sch_CreatedAt := sch_CreatedAt row |> <| sch_UpdatedAt := sch_UpdatedAt row |>)
         (sch_ID st) (scheduled_tests db) |>)).

(** UPDATE of some columns of the row with a given id; no row, no effect. *)
Definition update_row (f : ScheduledTest -> ScheduledTest) (id : string) (db : DB) : DB :=
  db <| scheduled_tests := alter f id (scheduled_tests db) |>.

Definition UpdateScheduleStatus (id status : string) : ST World (res unit) :=
  run_sql "" (fun db => (Ok tt, update_row (fun r => r <| sch_Status := status |>) id db)).

Definition UpdateScheduleNextRun (id : string) (nextAt : Time) (status : string)
  : ST World (res unit) :=
  run_sql "" (fun db =>
    (Ok tt, update_row (fun r => r <| sch_ScheduledAt := nextAt |> <| sch_Status := status |>) id db)).

Definition PauseSchedule (id : string) (paused : bool) : ST World (res unit) :=
  run_sql "" (fun db => (Ok tt, update_row (fun r => r <| sch_Paused := paused |>) id db)).

(** The executions of a deleted schedule go with it (ON DELETE CASCADE). *)
Definition DeleteSchedule (id : string) : ST World (res unit) :=
  run_sql "" (fun db =>
    (Ok tt,
     mkDB (delete id (scheduled_tests db))
          (filter (fun kv => exe_ScheduleID kv.2 <> id) (schedule_executions db)))).

(** The WHERE clause of [GetDueSchedule]: a look-ahead of 15 seconds. *)
Definition due (db_now : Z) (st : ScheduledTest) : bool :=
  String.eqb (sch_Status st) "scheduled" && negb (sch_Paused st) &&
  (scheduled_ns st <=? sql_now db_now + 15 * Second).

Definition GetDueSchedule `{RowOrder} : ST World (res (option ScheduledTest)) := fun w =>
  run_sql "get due schedule: " (fun db =>
    (Ok (head (order_by scheduled_ns (rows_where (due (w_db_now w)) (scheduled_tests db)))), db)) w.

(** End of the window of a row, as SQL's DATE_ADD computes it. *)
Definition row_end (st : ScheduledTest) : Z := scheduled_ns st + sch_EstimatedDurationS st * Second.

Definition overlapping (start end_ : Time) (excludeID : string) (st : ScheduledTest) : bool :=
  (String.eqb (sch_Status st) "scheduled" || String.eqb (sch_Status st) "running") &&
  negb (sch_Paused st) && negb (String.eqb (sch_ID st) excludeID) &&
  (scheduled_ns st <? unix_ns end_) && (unix_ns start <? row_end st).

(** The columns the overlap query selects. *)
Definition overlap_columns (st : ScheduledTest) : ScheduledTest :=
  zero_ScheduledTest <| sch_ID := sch_ID st |> <| sch_Name := sch_Name st |>
    <| sch_ProjectName := sch_ProjectName st |> <| sch_ScheduledAt := sch_ScheduledAt st |>
    <| sch_EstimatedDurationS := sch_EstimatedDurationS st |>
    <| sch_RecurrenceType := sch_RecurrenceType st |> <| sch_Status := sch_Status st |>
    <| sch_Username := sch_Username st |> <| sch_UserID := sch_UserID st |>.

Definition GetOverlappingSchedules `{RowOrder} (start end_ : Time) (excludeID : string)
  : ST World (res (list ScheduledTest)) :=
  run_sql "get overlapping: " (fun db =>
    (Ok (map overlap_columns
           (order_by scheduled_ns (rows_where (overlapping start end_ excludeID) (scheduled_tests db)))),
     db)).

Definition recurring (st : ScheduledTest) : bool :=
  String.eqb (sch_Status st) "scheduled" && negb (sch_Paused st) &&
  negb (String.eqb (sch_RecurrenceType st) "once").

(** The columns [scanRecurringSchedule] reads. *)
Definition recurring_columns (st : ScheduledTest) : ScheduledTest :=
  zero_ScheduledTest <| sch_ID := sch_ID st |> <| sch_Name := sch_Name st |>
    <| sch_ProjectName := sch_ProjectName st |> <| sch_ScheduledAt := sch_ScheduledAt st |>
    <| sch_EstimatedDurationS := sch_EstimatedDurationS st |> <| sch_Timezone := sch_Timezone st |>
    <| sch_RecurrenceType := sch_RecurrenceType st |> <| sch_RecurrenceRule := sch_RecurrenceRule st |>
    <| sch_RecurrenceEnd := sch_RecurrenceEnd st |>
    <| sch_SkippedOccurrences := sch_SkippedOccurrences st |> <| sch_Status := sch_Status st |>
    <| sch_Username := sch_Username st |> <| sch_UserID := sch_UserID st |>.

Definition GetRecurringSchedules `{RowOrder} : ST World (res (list ScheduledTest)) :=
  run_sql "get recurring: " (fun db =>
    (Ok (map recurring_columns (order_by scheduled_ns (rows_where recurring (scheduled_tests db)))), db)).

(** ** Executions *)

Definition CreateExecution (ex : ScheduleExecution) : ST World (res unit) := fun w =>
  run_sql "" (fun db =>
    match schedule_executions db !! exe_ID ex, scheduled_tests db !! exe_ScheduleID ex with
    | Some _, _ => (Err "Duplicate entry", db)
    | None, None => (Err "Cannot add or update a child row: a foreign key constraint fails", db)
    | None, Some _ =>
      let row := ex <| exe_CreatedAt := mkTime (sql_now (w_db_now w)) UTC |> in
      (Ok tt, db <| schedule_executions := <[exe_ID ex := row]> (schedule_executions db) |>)
    end) w.

(** Every column of the SET list is written, with NULL for a nil argument. *)
Definition UpdateExecution (id status : string) (loadTestID : option string)
    (startedAt endedAt : option Time) (errMsg errDetail : option string) : ST World (res unit) :=
  run_sql "" (fun db =>
    (Ok tt,
     db <| schedule_executions :=
       alter (fun r =>
         r <| exe_Status := status |> <| exe_LoadTestID := loadTestID |>
           <| exe_StartedAt := startedAt |> <| exe_EndedAt := endedAt |>
           <| exe_ErrorMessage := errMsg |> <| exe_ErrorDetail := errDetail |>)
         id (schedule_executions db) |>)).

Definition of_schedule (scheduleID : string) (ex : ScheduleExecution) : bool :=
  String.eqb (exe_ScheduleID ex) scheduleID.

(** Newest first. *)
Definition executions_of `{RowOrder} (scheduleID : string) (db : DB) : list ScheduleExecution :=
  order_by (fun ex => - unix_ns (exe_CreatedAt ex))
           (rows_where (of_schedule scheduleID) (schedule_executions db)).

Definition ListExecutions `{RowOrder} (scheduleID : string) : ST World (res (list ScheduleExecution)) :=
  run_sql "list executions: " (fun db => (Ok (take 50 (executions_of scheduleID db)), db)).

Definition CountScheduleExecutions (scheduleID : string) : ST World (res Z) :=
  run_sql "" (fun db =>
    (Ok (Z.of_nat (length (rows_where (of_schedule scheduleID) (schedule_executions db)))), db)).

(** Failures at the head of the ten newest executions. *)
Definition consecutive_failures (l : list ScheduleExecution) : Z :=
  Z.of_nat (length (take_while (fun ex => String.eqb (exe_Status ex) "failed") l)).

Definition CountConsecutiveFailures `{RowOrder} (scheduleID : string) : ST World (res Z) :=
  run_sql "" (fun db => (Ok (consecutive_failures (take 10 (executions_of scheduleID db))), db)).

Definition restart_message : string := "controller restart — execution interrupted".

Definition stale_execution (ex : ScheduleExecution) : bool :=
  String.eqb (exe_Status ex) "running" || String.eqb (exe_Status ex) "pending".

Definition mark_stale (ex : ScheduleExecution) : ScheduleExecution :=
  if stale_execution ex
  then ex <| exe_Status := "failed" |> <| exe_ErrorMessage := Some restart_message |>
  else ex.

(** The result is the number of rows changed. *)
Definition MarkStaleScheduleExecutions : ST World (res Z) :=
  run_sql "mark stale executions: " (fun db =>
    (Ok (Z.of_nat (length (rows_where stale_execution (schedule_executions db)))),
     db <| schedule_executions := mark_stale <$> schedule_executions db |>)).

Definition stale_schedule (st : ScheduledTest) : bool := String.eqb (sch_Status st) "running".

Definition reset_stale (st : ScheduledTest) : ScheduledTest :=
  if stale_schedule st then st <| sch_Status := "scheduled" |> else st.

Definition ResetStaleRunningSchedules : ST World (res Z) :=
  run_sql "reset stale schedules: " (fun db =>
    (Ok (Z.of_nat (length (rows_where stale_schedule (scheduled_tests db)))),
     db <| scheduled_tests := reset_stale <$> scheduled_tests db |>)).

(** ** Lemmas on queries *)

Lemma elem_of_rows {A} (p : A -> bool) (t : gmap string A) (x : A) :
  x ∈ rows_where p t <-> p x = true /\ exists k, t !! k = Some x.
Proof.
  unfold rows_where. rewrite list_elem_of_In, List.filter_In, <- list_elem_of_In.
  rewrite list_elem_of_fmap. split.
  - intros [([k y] & -> & H) Hp]. apply elem_of_map_to_list in H. eauto.
  - intros [Hp [k H]]. split; [|done]. exists (k, x). split; [done|].
    by apply elem_of_map_to_list.
Qed.

Lemma elem_of_order `{RowOrder} {A} (key : A -> Z) (l : list A) (x : A) :
  x ∈ order_by key l <-> x ∈ l.
Proof. rewrite (order_by_perm key l). done. Qed.

(** The first row of an ordered answer has the least key. *)
Lemma order_by_head `{RowOrder} {A} (key : A -> Z) (l : list A) (x : A) :
  head (order_by key l) = Some x -> x ∈ l /\ forall y, y ∈ l -> key x <= key y.
Proof.
  intros Hx. destruct (order_by key l) as [|z k] eqn:E; [done|].
  injection Hx as ->. split.
  - apply (elem_of_order key). rewrite E. apply elem_of_cons. auto.
  - intros y Hy. apply (elem_of_order key) in Hy. rewrite E in Hy.
    pose proof (order_by_sorted key l) as S. rewrite E in S.
    apply Sorted_StronglySorted in S; [|intros a b c; lia].
    apply StronglySorted_inv in S as [_ S]. rewrite List.Forall_forall in S.
    apply elem_of_cons in Hy as [-> | Hy]; [lia|]. apply S. by apply list_elem_of_In.
Qed.

Lemma order_by_head_None `{RowOrder} {A} (key : A -> Z) (l : list A) :
  head (order_by key l) = None -> l = [].
Proof.
  intros Hx. destruct (order_by key l) eqn:E; [|done].
  apply Permutation_nil. rewrite <- E. apply order_by_perm.
Qed.

(** A statement that does not fail is the function on tables it denotes. *)
Lemma run_sql_ok {A} (context : string) (stmt : DB -> res A * DB) (w : World) :
  w_faults w = [] -> run_sql context stmt w = ((stmt (w_db w)).1, w <| w_db := (stmt (w_db w)).2 |>).
Proof. intros H. unfold run_sql. rewrite H. by destruct (stmt (w_db w)). Qed.

(** A statement changes nothing of the world but the tables (and only if it
    does not fail) and the list of faults. *)
Lemma run_sql_frame {A} (context : string) (stmt : DB -> res A * DB) (w : World) :
  let w' := st_exec (run_sql context stmt) w in
  (w_db w' = w_db w \/ w_db w' = (stmt (w_db w)).2) /\
  w_db_now w' = w_db_now w /\ w_now w' = w_now w /\ w_uuids w' = w_uuids w /\
  w_active w' = w_active w /\
  (w_faults w = [] -> w_faults w' = []).
Proof.
  unfold st_exec, run_sql.
  destruct (w_faults w) as [|[msg|] fs] eqn:F; destruct (stmt (w_db w)) as [r db]; simpl;
    split_and!; auto; rewrite ?F; try discriminate; intros; done.
Qed.

Lemma preserves_sql {A} (P : DB -> Prop) (context : string) (stmt : DB -> res A * DB) :
  (forall db, P db -> P (stmt db).2) -> preserves (fun w => P (w_db w)) (run_sql context stmt).
Proof.
  intros HP w Hw. destruct (run_sql_frame context stmt w) as [[E|E] _]; rewrite E; auto.
Qed.

(** ** Well-formed tables *)

(** Rows are stored under their own id, and every execution belongs to a
    schedule of the table. *)
Definition db_wf (db : DB) : Prop :=
  (forall k st, scheduled_tests db !! k = Some st -> sch_ID st = k) /\
  (forall k ex, schedule_executions db !! k = Some ex ->
     exe_ID ex = k /\ is_Some (scheduled_tests db !! exe_ScheduleID ex)).

Lemma db_wf_update_row (f : ScheduledTest -> ScheduledTest) (id : string) (db : DB) :
  (forall st, sch_ID (f st) = sch_ID st) -> db_wf db -> db_wf (update_row f id db).
Proof.
  intros Hf [H1 H2]. split; simpl.
  - intros k st. rewrite lookup_alter. destruct (decide (id = k)) as [->|].
    + destruct (scheduled_tests db !! k) as [r|] eqn:E; simpl; [|done].
      intros [= <-]. rewrite Hf. eauto.
    + eauto.
  - intros k ex Hk. destruct (H2 k ex Hk) as [E S]. split; [done|].
    rewrite lookup_alter. case_decide as D; [|done]. rewrite D. destruct S as [st ->]. simpl. eauto.
Qed.

Lemma db_wf_map_schedules (f : ScheduledTest -> ScheduledTest) (db : DB) :
  (forall st, sch_ID (f st) = sch_ID st) -> db_wf db ->
  db_wf (db <| scheduled_tests := f <$> scheduled_tests db |>).
Proof.
  intros Hf [H1 H2]. split; simpl.
  - intros k st. rewrite lookup_fmap. destruct (scheduled_tests db !! k) eqn:E; simpl; [|done].
    intros [= <-]. rewrite Hf. eauto.
  - intros k ex Hk. destruct (H2 k ex Hk) as [E [st S]]. split; [done|].
    rewrite lookup_fmap, S. simpl. eauto.
Qed.

Lemma db_wf_map_executions (f : ScheduleExecution -> ScheduleExecution) (db : DB) :
  (forall ex, exe_ID (f ex) = exe_ID ex /\ exe_ScheduleID (f ex) = exe_ScheduleID ex) ->
  db_wf db -> db_wf (db <| schedule_executions := f <$> schedule_executions db |>).
Proof.
  intros Hf [H1 H2]. split; simpl; [done|].
  intros k ex. rewrite lookup_fmap. destruct (schedule_executions db !! k) as [r|] eqn:E; simpl; [|done].
  intros [= <-]. destruct (Hf r) as [-> ->]. eauto.
Qed.

Lemma db_wf_alter_execution (f : ScheduleExecution -> ScheduleExecution) (id : string) (db : DB) :
  (forall ex, exe_ID (f ex) = exe_ID ex /\ exe_ScheduleID (f ex) = exe_ScheduleID ex) ->
  db_wf db -> db_wf (db <| schedule_executions := alter f id (schedule_executions db) |>).
Proof.
  intros Hf [H1 H2]. split; simpl; [done|].
  intros k ex. rewrite lookup_alter. destruct (decide (id = k)) as [->|]; [|eauto].
  destruct (schedule_executions db !! k) as [r|] eqn:E; simpl; [|done].
  intros [= <-]. destruct (Hf r) as [-> ->]. eauto.
Qed.

Definition keeps_wf {A} (m : ST World A) : Prop := preserves (fun w => db_wf (w_db w)) m.

Lemma CreateSchedule_wf st : keeps_wf (CreateSchedule st).
Proof.
  intros w. apply preserves_sql. intros db [H1 H2].
  destruct (scheduled_tests db !! sch_ID st) eqn:E; [done|]. split; simpl.
  - intros k r. rewrite lookup_insert. case_decide as D; [|eauto]. intros [= <-]. done.
  - intros k ex Hk. destruct (H2 k ex Hk) as [Ei S]. split; [done|].
    rewrite lookup_insert. case_decide; [eauto|done].
Qed.

Lemma UpdateSchedule_wf st : keeps_wf (UpdateSchedule st).
Proof.
  apply preserves_sql. intros db [H1 H2]. split; simpl.
  - intros k r. rewrite lookup_alter. destruct (decide (sch_ID st = k)) as [<-|]; [|eauto].
    destruct (scheduled_tests db !! sch_ID st) eqn:E; simpl; [|done]. intros [= <-]. done.
  - intros k ex Hk. destruct (H2 k ex Hk) as [Ei S]. split; [done|].
    rewrite lookup_alter. case_decide as D; [|done]. rewrite D. destruct S as [r ->]. simpl. eauto.
Qed.

Lemma DeleteSchedule_wf id : keeps_wf (DeleteSchedule id).
Proof.
  apply preserves_sql. intros db [H1 H2]. split; simpl.
  - intros k st. rewrite lookup_delete_Some. intros [_ H]. eauto.
  - intros k ex. rewrite map_lookup_filter_Some. simpl. intros [Hk Hne].
    destruct (H2 k ex Hk) as [Ei S]. split; [done|]. rewrite lookup_delete_ne; done.
Qed.

Lemma CreateExecution_wf ex : keeps_wf (CreateExecution ex).
Proof.
  intros w. apply preserves_sql. intros db [H1 H2].
  destruct (schedule_executions db !! exe_ID ex) eqn:E; [done|].
  destruct (scheduled_tests db !! exe_ScheduleID ex) eqn:S; [|done]. split; simpl; [done|].
  intros k r. rewrite lookup_insert. case_decide as D; [|eauto].
  intros [= <-]. simpl. rewrite S. eauto.
Qed.

Lemma update_row_sql_wf context (f : ScheduledTest -> ScheduledTest) id :
  (forall st, sch_ID (f st) = sch_ID st) ->
  keeps_wf (run_sql context (fun db => (Ok tt, update_row f id db))).
Proof. intros Hf. apply preserves_sql. intros db Hdb. by apply db_wf_update_row. Qed.

Lemma UpdateExecution_wf id s l a b m d : keeps_wf (UpdateExecution id s l a b m d).
Proof. apply preserves_sql. intros db Hdb. by apply db_wf_alter_execution. Qed.

Lemma query_wf {A} context (q : DB -> res A) : keeps_wf (run_sql context (fun db => (q db, db))).
Proof. by apply preserves_sql. Qed.

Lemma MarkStale_wf : keeps_wf MarkStaleScheduleExecutions.
Proof.
  apply preserves_sql. intros db Hdb. apply db_wf_map_executions; [|done].
  intros ex. unfold mark_stale. destruct (stale_execution ex); done.
Qed.

Lemma ResetStale_wf : keeps_wf ResetStaleRunningSchedules.
Proof.
  apply preserves_sql. intros db Hdb. apply db_wf_map_schedules; [|done].
  intros st. unfold reset_stale. destruct (stale_schedule st); done.
Qed.

#[export] Hint Resolve CreateSchedule_wf UpdateSchedule_wf DeleteSchedule_wf CreateExecution_wf
  UpdateExecution_wf MarkStale_wf ResetStale_wf : shiva.
#[export] Hint Extern 1 (keeps_wf (UpdateScheduleStatus _ _)) => by apply update_row_sql_wf : shiva.
#[export] Hint Extern 1 (keeps_wf (UpdateScheduleNextRun _ _ _)) => by apply update_row_sql_wf : shiva.
#[export] Hint Extern 1 (keeps_wf (PauseSchedule _ _)) => by apply update_row_sql_wf : shiva.
#[export] Hint Extern 1 (keeps_wf (GetSchedule _)) => apply query_wf : shiva.
#[export] Hint Extern 1 (keeps_wf ListSchedules) => apply query_wf : shiva.
#[export] Hint Extern 1 (keeps_wf (CountConsecutiveFailures _)) => apply query_wf : shiva.

(** ** What the due query promises *)

(** [GetDueSchedule] picks a schedule that is scheduled, not paused and due
    within the look-ahead, and among those the one with the earliest time; when
    it answers that there is none, no schedule is due. *)
Theorem GetDueSchedule_spec `{RowOrder} (w : World) (r : option ScheduledTest) :
  st_eval GetDueSchedule w = Ok r ->
  match r with
  | Some st =>
    (exists id, scheduled_tests (w_db w) !! id = Some st) /\
    sch_Status st = "scheduled" /\ sch_Paused st = false /\
    scheduled_ns st <= sql_now (w_db_now w) + 15 * Second /\
    forall id st', scheduled_tests (w_db w) !! id = Some st' ->
      due (w_db_now w) st' = true -> scheduled_ns st <= scheduled_ns st'
  | None => forall id st', scheduled_tests (w_db w) !! id = Some st' -> due (w_db_now w) st' = false
  end.
Proof.
  unfold st_eval, GetDueSchedule, run_sql.
  set (rows := rows_where (due (w_db_now w)) (scheduled_tests (w_db w))).
  assert (Hr : Ok (head (order_by scheduled_ns rows)) = Ok r ->
    match r with
    | Some st => (exists id, scheduled_tests (w_db w) !! id = Some st) /\
        due (w_db_now w) st = true /\
        forall id st', scheduled_tests (w_db w) !! id = Some st' ->
          due (w_db_now w) st' = true -> scheduled_ns st <= scheduled_ns st'
    | None => forall id st', scheduled_tests (w_db w) !! id = Some st' -> due (w_db_now w) st' = false
    end).
  { intros [= Hh]. destruct r as [st|].
    - apply order_by_head in Hh as [Hin Hmin]. apply elem_of_rows in Hin as [Hd Hk].
      split_and!; [done|done|]. intros id st' Hid Hd'. apply Hmin, elem_of_rows. eauto.
    - apply order_by_head_None in Hh. intros id st' Hid.
      destruct (due (w_db_now w) st') eqn:D; [|done].
      assert (st' ∈ rows) as Hin by (apply elem_of_rows; eauto). rewrite Hh in Hin. set_solver. }
  assert (Hw : match w_faults w with Some _ :: _ => True | _ => True end) by (by repeat break_match_goal).
  destruct (w_faults w) as [|[msg|] fs]; simpl; [| done |]; intros E; specialize (Hr E);
    destruct r as [st|]; try done;
    destruct Hr as (Hk & Hd & Hmin); unfold due in Hd; bool_prop; auto.
Qed.

Lemma GetDueSchedule_row `{RowOrder} (w : World) (st : ScheduledTest) :
  st_eval GetDueSchedule w = Ok (Some st) -> exists id, scheduled_tests (w_db w) !! id = Some st.
Proof.
  unfold st_eval, GetDueSchedule, run_sql. destruct (w_faults w) as [|[msg|] fs]; simpl; [|done|];
    intros [= Hh]; apply order_by_head in Hh as [Hin _]; apply elem_of_rows in Hin as [_ Hk]; exact Hk.
Qed.

Lemma GetDueSchedule_exec `{RowOrder} (w : World) : w_faults w = [] -> st_exec GetDueSchedule w = w.
Proof. intros Hf. unfold st_exec, GetDueSchedule. rewrite run_sql_ok by done. by destruct w. Qed.

(** ** A concrete world *)

Definition due_schedule : ScheduledTest :=
  zero_ScheduledTest <| sch_ID := "a" |> <| sch_Status := "scheduled" |>
    <| sch_ScheduledAt := mkTime 0 UTC |>.

Definition small_world : World := {|
  w_db := mkDB {[ "a" := due_schedule ]} ∅;
  w_faults := []; w_db_now := Hour; w_now := Hour; w_uuids := 0; w_active := "" |}.

Lemma GetDueSchedule_spec_witness :
  sch_Status due_schedule = "scheduled" /\ sch_Paused due_schedule = false.
Proof.
  destruct (@GetDueSchedule_spec merge_row_order small_world (Some due_schedule) eq_refl)
    as (_ & Hs & Hp & _). split; assumption.
Defined.
