(* ===== verification/Recurrence.v ===== *)
(** * Recurring schedules: [controller/internal/scheduler/recurrence.go]

    The next occurrence of a schedule, the next one that is not skipped, and
    the expansion of a schedule into time slots, with the lemmas that relate
    them to one sequence of occurrences. *)

From S2P Require Export Prelude GoStrings GoTime.

Open Scope Z_scope.
Open Scope go_scope.

(** [TimeSlot] of overlap.go. *)
Record TimeSlot := mkTimeSlot { slot_Start : Time; slot_End : Time }.

Definition normalizeOccurrenceTime (t : Time) : Time := truncate (to_utc t) Second.

Definition isSkippedOccurrence (target : Time) (skipped : list Time) : bool :=
  existsb (fun candidate =>
    time_equal (normalizeOccurrenceTime candidate) (normalizeOccurrenceTime target)) skipped.

(** The [switch] over the recurrence types, on the time in the schedule's
    location. *)
Definition advance (recurrenceType : string) (localCurrent : Time) : option Time :=
  if String.eqb recurrenceType "hourly" then Some (add localCurrent (1 * Hour))
  else if String.eqb recurrenceType "daily" then Some (add_date localCurrent 0 0 1)
  else if String.eqb recurrenceType "weekly" then Some (add_date localCurrent 0 0 7)
  else if String.eqb recurrenceType "monthly" then Some (add_date localCurrent 0 1 0)
  else None.

(** [t.After] of the end a pointer may hold. *)
Definition past_end (t : Time) (recurrenceEnd : option Time) : bool :=
  match recurrenceEnd with Some e => after t e | None => false end.

Section recurrence.
Context `{TzDatabase}.

(** The location of a schedule; an unknown name falls back to UTC. *)
Definition schedule_location (timezone : string) : Location :=
  default UTC (load_location timezone).

Definition NextOccurrence (current : Time) (recurrenceType timezone : string)
    (recurrenceEnd : option Time) : res Time :=
  if String.eqb recurrenceType "once" then Ok zero_time
  else
    match advance recurrenceType (in_loc (schedule_location timezone) current) with
    | None => Err ("unknown recurrence type: " +:+ recurrenceType)
    | Some next =>
      let nextUTC := to_utc next in
      if past_end nextUTC recurrenceEnd then Ok zero_time else Ok nextUTC
    end.

(** The loop of [NextIncludedOccurrence], [n] iterations left. *)
Fixpoint next_included_loop (n : nat) (nextBase : Time) (recurrenceType timezone : string)
    (recurrenceEnd : option Time) (skipped : list Time) : res Time :=
  match n with
  | O => Err "too many skipped occurrences while resolving next recurrence"
  | S n' =>
    match NextOccurrence nextBase recurrenceType timezone recurrenceEnd with
    | Err e => Err e
    | Ok next =>
      if is_zero next then Ok next
      else if negb (isSkippedOccurrence next skipped) then Ok next
      else next_included_loop n' next recurrenceType timezone recurrenceEnd skipped
    end
  end.

Definition NextIncludedOccurrence (current : Time) (recurrenceType timezone : string)
    (recurrenceEnd : option Time) (skipped : list Time) : res Time :=
  next_included_loop 100 current recurrenceType timezone recurrenceEnd skipped.

(** The loop of [ExpandOccurrences], [n] iterations left. *)
Fixpoint expand_loop (n : nat) (current : Time) (durationS : Z) (recurrenceType : string)
    (loc : Location) (recurrenceEnd : option Time) (skipped : list Time)
    (rangeStart rangeEnd : Time) : list TimeSlot :=
  match n with
  | O => []
  | S n' =>
    if after current rangeEnd then []
    else if past_end current recurrenceEnd then []
    else
      let end_ := add current (seconds durationS) in
      let here :=
        if negb (isSkippedOccurrence current skipped) && after end_ rangeStart &&
           before current rangeEnd
        then [mkTimeSlot current end_] else [] in
      here ++
      match advance recurrenceType (in_loc loc current) with
      | Some next =>
        expand_loop n' (to_utc next) durationS recurrenceType loc recurrenceEnd skipped
          rangeStart rangeEnd
      | None => []
      end
  end.

Definition ExpandOccurrences (baseTime : Time) (durationS : Z) (recurrenceType timezone : string)
    (recurrenceEnd : option Time) (skipped : list Time) (rangeStart rangeEnd : Time)
  : list TimeSlot :=
  if String.eqb recurrenceType "once" then
    let end_ := add baseTime (seconds durationS) in
    if negb (isSkippedOccurrence baseTime skipped) && before baseTime rangeEnd &&
       after end_ rangeStart
    then [mkTimeSlot baseTime end_] else []
  else
    expand_loop 100 baseTime durationS recurrenceType (schedule_location timezone) recurrenceEnd
      skipped rangeStart rangeEnd.
End recurrence.

(** ** The sequence of occurrences *)

(** The recurrence types the API accepts beside "once". *)
Definition recurring_type (r : string) : Prop :=
  r = "hourly" \/ r = "daily" \/ r = "weekly" \/ r = "monthly".

(** One step of the recurrence, in UTC as the code stores it. *)
Definition occ_next (r : string) (loc : Location) (t : Time) : Time :=
  match advance r (in_loc loc t) with Some n => to_utc n | None => t end.

Fixpoint occurrence (r : string) (loc : Location) (t : Time) (k : nat) : Time :=
  match k with
  | O => t
  | S k' => occurrence r loc (occ_next r loc t) k'
  end.

Lemma occurrence_S (r : string) (loc : Location) (t : Time) (k : nat) :
  occurrence r loc t (S k) = occ_next r loc (occurrence r loc t k).
Proof. revert t. induction k as [|k IH]; intros t; [done|]. simpl in *. apply IH. Qed.

Lemma advance_recurring (r : string) (t : Time) :
  recurring_type r -> exists n, advance r t = Some n.
Proof. intros [->|[->|[->| ->]]]; eexists; reflexivity. Qed.

Lemma advance_some (r : string) (t n : Time) : advance r t = Some n -> recurring_type r.
Proof.
  unfold advance, recurring_type.
  repeat (break_test; bool_prop; [auto|]). done.
Qed.

Lemma recurring_not_once (r : string) : recurring_type r -> String.eqb r "once" = false.
Proof. intros [->|[->|[->| ->]]]; reflexivity. Qed.

Lemma occ_next_advance (r : string) (loc : Location) (t n : Time) :
  advance r (in_loc loc t) = Some n -> to_utc n = occ_next r loc t.
Proof. intros E. unfold occ_next. by rewrite E. Qed.

(** Every step moves forward in time. *)
Lemma occ_next_later (r : string) (loc : Location) (t : Time) :
  recurring_type r -> steady loc -> unix_ns t < unix_ns (occ_next r loc t).
Proof.
  intros Hr Hl. unfold occ_next.
  assert (Hd : forall k, 1 <= k -> unix_ns t < unix_ns (add_date (in_loc loc t) 0 0 k)).
  { intros k Hk. exact (add_date_advance (in_loc loc t) k Hl Hk). }
  destruct Hr as [->|[->|[->| ->]]]; unfold advance; simpl.
  - unfold Hour, Minute, Second. lia.
  - apply Hd. lia.
  - apply Hd. lia.
  - exact (add_month_advance (in_loc loc t) Hl).
Qed.

Lemma occurrence_mono (r : string) (loc : Location) (t : Time) (i j : nat) :
  recurring_type r -> steady loc -> (i < j)%nat ->
  unix_ns (occurrence r loc t i) < unix_ns (occurrence r loc t j).
Proof.
  intros Hr Hl Hij. induction Hij as [|j _ IH].
  - rewrite occurrence_S. by apply occ_next_later.
  - rewrite occurrence_S. pose proof (occ_next_later r loc (occurrence r loc t j) Hr Hl). lia.
Qed.

Lemma occurrence_mono_le (r : string) (loc : Location) (t : Time) (i j : nat) :
  recurring_type r -> steady loc -> (i <= j)%nat ->
  unix_ns (occurrence r loc t i) <= unix_ns (occurrence r loc t j).
Proof.
  intros Hr Hl Hij. apply Nat.lt_eq_cases in Hij as [Hij| ->]; [|lia].
  apply Z.lt_le_incl, occurrence_mono; done.
Qed.

#[export] Hint Resolve recurring_not_once occ_next_later : shiva.

Section facts.
Context `{TzDatabase}.

(** [NextOccurrence] in terms of the step. *)
Lemma NextOccurrence_eq (t : Time) (r tz : string) (e : option Time) :
  recurring_type r ->
  NextOccurrence t r tz e =
  Ok (let n := occ_next r (schedule_location tz) t in if past_end n e then zero_time else n).
Proof.
  intros Hr. unfold NextOccurrence. rewrite recurring_not_once by done.
  destruct (advance_recurring r (in_loc (schedule_location tz) t) Hr) as [n E].
  rewrite E, (occ_next_advance _ _ _ _ E). simpl. by destruct (past_end _ _).
Qed.

Lemma NextOccurrence_ok (t n : Time) (r tz : string) (e : option Time) :
  NextOccurrence t r tz e = Ok n -> is_zero n = false ->
  recurring_type r /\ n = occ_next r (schedule_location tz) t /\ past_end n e = false.
Proof.
  unfold NextOccurrence. destruct (String.eqb r "once"); [intros [= <-]; done|].
  destruct (advance r _) as [m|] eqn:E; [|done].
  destruct (past_end (to_utc m) e) eqn:P; intros [= <-] Z; [done|].
  split_and!; [by eapply advance_some | by apply occ_next_advance | done].
Qed.

(** The next occurrence of a recurring schedule is later than the current
    one and not past the recurrence end, in every location that never jumps by
    a whole day. *)
Theorem NextOccurrence_advances (t n : Time) (r tz : string) (e : option Time) :
  steady (schedule_location tz) ->
  NextOccurrence t r tz e = Ok n -> is_zero n = false ->
  before t n = true /\ (forall e', e = Some e' -> after n e' = false) /\ t_loc n = UTC.
Proof.
  intros Hl Hn Hz. apply NextOccurrence_ok in Hn as (Hr & -> & He); [|done]. split_and!.
  - unfold before. apply Z.ltb_lt. auto with shiva.
  - intros e' ->. done.
  - unfold occ_next. destruct (advance_recurring r (in_loc (schedule_location tz) t) Hr) as [m ->].
    done.
Qed.
End facts.

(** ** The next included occurrence *)

(** Occurrences of a time after the zero time are after it too. *)
Lemma occurrence_nonzero (r : string) (loc : Location) (t : Time) (k : nat) :
  recurring_type r -> steady loc -> zero_ns <= unix_ns t ->
  is_zero (occurrence r loc t (S k)) = false.
Proof.
  intros Hr Hl Ht. unfold is_zero. apply Z.eqb_neq.
  pose proof (occurrence_mono r loc t 0 (S k) Hr Hl ltac:(lia)) as Hm.
  change (occurrence r loc t 0) with t in Hm. lia.
Qed.

Section included.
Context `{TzDatabase} (r tz : string) (e : option Time) (skipped : list Time).
Let loc := schedule_location tz.

(** What the search over [n] candidates returns, in terms of the sequence. *)
Definition included_outcome (n : nat) (t : Time) (result : res Time) : Prop :=
  (exists k, (k < n)%nat /\
     (forall j, (j < k)%nat -> past_end (occurrence r loc t (S j)) e = false /\
                               isSkippedOccurrence (occurrence r loc t (S j)) skipped = true) /\
     ((past_end (occurrence r loc t (S k)) e = true /\ result = Ok zero_time) \/
      (past_end (occurrence r loc t (S k)) e = false /\
       isSkippedOccurrence (occurrence r loc t (S k)) skipped = false /\
       result = Ok (occurrence r loc t (S k))))) \/
  ((forall j, (j < n)%nat -> past_end (occurrence r loc t (S j)) e = false /\
                             isSkippedOccurrence (occurrence r loc t (S j)) skipped = true) /\
   exists msg, result = Err msg).

Lemma included_loop_outcome (n : nat) (t : Time) :
  recurring_type r -> steady loc -> zero_ns <= unix_ns t ->
  included_outcome n t (next_included_loop n t r tz e skipped).
Proof.
  intros Hr Hl. revert t. induction n as [|n IH]; intros t Ht; simpl.
  - right. split; [lia|]. eauto.
  - rewrite NextOccurrence_eq by done. cbv zeta. fold loc.
    pose proof (occurrence_nonzero r loc t 0 Hr Hl Ht) as Hz.
    change (occurrence r loc t 1) with (occ_next r loc t) in Hz.
    destruct (past_end (occ_next r loc t) e) eqn:P; simpl.
    + left. exists 0%nat. split; [lia|]. split; [lia|]. left. split; [exact P|]. done.
    + rewrite Hz. destruct (isSkippedOccurrence (occ_next r loc t) skipped) eqn:K; simpl.
      2:{ left. exists 0%nat. split; [lia|]. split; [lia|]. right. split_and!; [exact P|exact K|done]. }
      assert (Ht' : zero_ns <= unix_ns (occ_next r loc t))
        by (pose proof (occ_next_later r loc t Hr Hl); lia).
      assert (Hcons : forall m, (forall j, (j < m)%nat ->
          past_end (occurrence r loc (occ_next r loc t) (S j)) e = false /\
          isSkippedOccurrence (occurrence r loc (occ_next r loc t) (S j)) skipped = true) ->
        forall j, (j < S m)%nat -> past_end (occurrence r loc t (S j)) e = false /\
          isSkippedOccurrence (occurrence r loc t (S j)) skipped = true).
      { intros m Hm [|j] Hj; [by split | apply (Hm j); lia]. }
      destruct (IH _ Ht') as [(k & Hk & Hb & Hres)|[Hall Herr]].
      * left. exists (S k). split; [lia|]. split; [exact (Hcons k Hb)|]. exact Hres.
      * right. split; [exact (Hcons n Hall)|done].
Qed.

(** [NextIncludedOccurrence] returns the first occurrence that is not
    skipped, the zero time when the recurrence end comes first, and an error
    exactly when the next hundred occurrences are all skipped. *)
Theorem NextIncludedOccurrence_spec (t : Time) :
  recurring_type r -> steady (schedule_location tz) -> zero_ns <= unix_ns t ->
  included_outcome 100 t (NextIncludedOccurrence t r tz e skipped).
Proof. apply included_loop_outcome. Qed.

Lemma NextIncluded_some (t n : Time) :
  recurring_type r -> steady loc -> zero_ns <= unix_ns t ->
  NextIncludedOccurrence t r tz e skipped = Ok n -> is_zero n = false ->
  unix_ns t < unix_ns n /\ past_end n e = false /\ isSkippedOccurrence n skipped = false.
Proof.
  intros Hr Hl Ht Hn Hz.
  destruct (included_loop_outcome 100 t Hr Hl Ht) as [(k & _ & _ & [[_ E]|(P & K & E)])|[_ [m E]]];
    unfold NextIncludedOccurrence in Hn; rewrite E in Hn; simplify_eq Hn.
  - intros <-. done.
  - intros <-. split_and!; [|done|done].
    exact (occurrence_mono r loc t 0 (S k) Hr Hl ltac:(lia)).
Qed.
End included.

(** ** The expansion *)

Section expansion.
Context `{TzDatabase} (durationS : Z) (r tz : string) (e : option Time) (skipped : list Time)
  (rangeStart rangeEnd : Time).
Let loc := schedule_location tz.

Definition slot_of (t : Time) : TimeSlot := mkTimeSlot t (add t (seconds durationS)).

(** An occurrence the calendar must show. *)
Definition in_window (t : Time) : Prop :=
  past_end t e = false /\ isSkippedOccurrence t skipped = false /\
  unix_ns rangeStart < unix_ns t + seconds durationS /\ unix_ns t < unix_ns rangeEnd.

Definition in_windowb (t : Time) : bool :=
  negb (isSkippedOccurrence t skipped) && after (add t (seconds durationS)) rangeStart &&
  before t rangeEnd.

Lemma in_windowb_spec (t : Time) : in_window t <-> past_end t e = false /\ in_windowb t = true.
Proof.
  unfold in_window, in_windowb, after, before, add; simpl.
  rewrite !andb_true_iff, negb_true_iff, !Z.ltb_lt. tauto.
Qed.

Lemma expand_loop_spec (n : nat) (t : Time) (s : TimeSlot) :
  recurring_type r -> steady loc ->
  s ∈ expand_loop n t durationS r loc e skipped rangeStart rangeEnd <->
  exists k, (k < n)%nat /\ s = slot_of (occurrence r loc t k) /\ in_window (occurrence r loc t k).
Proof.
  intros Hr Hl. revert t. induction n as [|n IH]; intros t; cbn [expand_loop].
  { split; [set_solver|]. intros (k & Hk & _). lia. }
  assert (Hout : (after t rangeEnd = true \/ past_end t e = true) ->
    ~ exists k, (k < S n)%nat /\ s = slot_of (occurrence r loc t k) /\ in_window (occurrence r loc t k)).
  { intros Ho (k & _ & _ & (He & _ & _ & Hw)).
    pose proof (occurrence_mono_le r loc t 0 k Hr Hl ltac:(lia)) as Hm. simpl in Hm.
    destruct Ho as [Ho|Ho].
    - unfold after in Ho. bool_prop. lia.
    - unfold past_end, after in *. destruct e as [e'|]; [|done]. bool_prop. lia. }
  destruct (after t rangeEnd) eqn:A; [split; [set_solver | intros Hx; by destruct (Hout (or_introl eq_refl))]|].
  destruct (past_end t e) eqn:P; [split; [set_solver | intros Hx; by destruct (Hout (or_intror eq_refl))]|].
  clear Hout A. destruct (advance_recurring r (in_loc loc t) Hr) as [m E].
  rewrite E, (occ_next_advance _ _ _ _ E), elem_of_app, IH. clear IH m E.
  pose proof (in_windowb_spec t) as Hw. unfold in_windowb in Hw. split.
  - intros [Hs|(k & Hk & Hs & Hin)].
    + destruct (negb _ && _ && _); [|set_solver]. apply list_elem_of_singleton in Hs as ->.
      exists 0%nat. split; [lia|]. split; [done|]. apply Hw. done.
    + exists (S k). split; [lia|]. done.
  - intros ([|k] & Hk & -> & Hin).
    + left. simpl in Hin. apply Hw in Hin as [_ Hb]. rewrite Hb. apply list_elem_of_singleton. done.
    + right. exists k. split; [lia|]. done.
Qed.

(** The expansion of a recurring schedule holds exactly the slots of its
    first hundred occurrences that are not past the end, not skipped, end
    after the start of the range and start before its end. *)
Theorem ExpandOccurrences_spec (base : Time) (s : TimeSlot) :
  recurring_type r -> steady (schedule_location tz) ->
  s ∈ ExpandOccurrences base durationS r tz e skipped rangeStart rangeEnd <->
  exists k, (k < 100)%nat /\
    s = slot_of (occurrence r (schedule_location tz) base k) /\
    in_window (occurrence r (schedule_location tz) base k).
Proof.
  intros Hr Hl. unfold ExpandOccurrences. rewrite recurring_not_once by done.
  apply expand_loop_spec; done.
Qed.

Definition starts_before (s s' : TimeSlot) : Prop :=
  unix_ns (slot_Start s) < unix_ns (slot_Start s').

Lemma expand_loop_sorted (n : nat) (t : Time) :
  recurring_type r -> steady loc ->
  StronglySorted starts_before (expand_loop n t durationS r loc e skipped rangeStart rangeEnd) /\
  (length (expand_loop n t durationS r loc e skipped rangeStart rangeEnd) <= n)%nat.
Proof.
  intros Hr Hl. revert t. induction n as [|n IH]; intros t; cbn [expand_loop].
  { split; [constructor|simpl; lia]. }
  destruct (after t rangeEnd); [split; [constructor|simpl; lia]|].
  destruct (past_end t e); [split; [constructor|simpl; lia]|].
  destruct (advance_recurring r (in_loc loc t) Hr) as [m E].
  rewrite E, (occ_next_advance _ _ _ _ E).
  destruct (IH (occ_next r loc t)) as [Hsorted L].
  destruct (negb _ && _ && _); simpl; [|split; [done|lia]].
  split; [|lia]. constructor; [done|]. apply List.Forall_forall. intros s Hs.
  apply list_elem_of_In, expand_loop_spec in Hs as (k & _ & -> & _); [|done|done].
  unfold starts_before; simpl.
  exact (occurrence_mono r loc t 0 (S k) Hr Hl ltac:(lia)).
Qed.
End expansion.

(** The expansion is in strictly increasing order of start time and never
    holds more than a hundred slots. *)
Theorem ExpandOccurrences_sorted `{TzDatabase} (base : Time) (durationS : Z) (r tz : string)
    (e : option Time) (skipped : list Time) (rangeStart rangeEnd : Time) :
  r = "once" \/ recurring_type r -> steady (schedule_location tz) ->
  let slots := ExpandOccurrences base durationS r tz e skipped rangeStart rangeEnd in
  StronglySorted starts_before slots /\ (length slots <= 100)%nat.
Proof.
  intros [-> | Hr] Hl; cbv zeta; unfold ExpandOccurrences.
  - simpl. destruct (negb _ && _ && _); simpl; (split; [|lia]); repeat constructor.
  - rewrite recurring_not_once by done. by apply expand_loop_sorted.
Qed.

(** ** Hourly schedules: the hundred-slot bound as a horizon *)

Lemma occurrence_hourly (loc : Location) (t : Time) (k : nat) :
  unix_ns (occurrence "hourly" loc t k) = unix_ns t + Z.of_nat k * Hour.
Proof.
  induction k as [|k IH]; [simpl; lia|]. rewrite occurrence_S.
  change (unix_ns (occ_next "hourly" loc (occurrence "hourly" loc t k)))
    with (unix_ns (occurrence "hourly" loc t k) + 1 * Hour).
  rewrite IH. lia.
Qed.

(** The expansion of an hourly schedule stops 99 hours after its base time:
    a range that starts when the hundredth run has ended is shown empty, although the
    schedule has an occurrence in every later hour. *)
Theorem hourly_horizon `{TzDatabase} (base : Time) (d : Z) (tz : string) (skipped : list Time)
    (rangeStart rangeEnd : Time) :
  steady (schedule_location tz) -> 0 <= d <= 9223372036 ->
  unix_ns base + 99 * Hour + d * Second <= unix_ns rangeStart ->
  ExpandOccurrences base d "hourly" tz None skipped rangeStart rangeEnd = [] /\
  forall k, unix_ns (occurrence "hourly" (schedule_location tz) base k) =
            unix_ns base + Z.of_nat k * Hour.
Proof.
  intros Hl Hd Hs. split; [|intros k; apply occurrence_hourly].
  destruct (ExpandOccurrences _ _ _ _ _ _ _ _) as [|s l] eqn:E; [done|exfalso].
  assert (s ∈ ExpandOccurrences base d "hourly" tz None skipped rangeStart rangeEnd) as Hin
    by (rewrite E; apply elem_of_cons; auto).
  apply ExpandOccurrences_spec in Hin as (k & Hk & _ & (_ & _ & Hend & _));
    [|unfold recurring_type; auto|done].
  rewrite occurrence_hourly, seconds_exact in Hend by done.
  assert (Z.of_nat k <= 99) by lia. unfold Hour, Minute, Second in *. nia.
Qed.

(** ** Daylight saving time *)

(** The local clock reading of an instant. *)
Definition reading (loc : Location) (t : Time) : Z := local_sec (in_loc loc t).

(** Around a daylight-saving change, a daily schedule keeps its local clock
    reading: the next occurrence reads one day later, to the nanosecond,
    whenever that reading exists on the next day. *)
Theorem daily_keeps_wall_clock (name : string) (T a b : Z) (t : Time) (s : Z) :
  let loc := one_change name T a b in
  Z.abs a < 86400 -> Z.abs b < 86400 ->
  i64_min + 172800 <= reading loc t + 86400 <= i64_max - 172800 ->
  s + offset_at loc s = reading loc t + 86400 ->
  reading loc (occ_next "daily" loc t) = reading loc t + 86400 /\
  nsec (occ_next "daily" loc t) = nsec t.
Proof.
  intros loc Ha Hb Hr Hs. unfold occ_next. change (advance "daily" (in_loc loc t))
    with (Some (add_date (in_loc loc t) 0 0 1)). cbv iota beta.
  rewrite add_date_days. unfold reading at 1, local_sec at 1, unix_sec, nsec. simpl unix_ns.
  change (t_loc (in_loc loc _)) with loc.
  pose proof (nsec_bound (in_loc loc t)) as Hn.
  change (local_sec (in_loc loc t)) with (reading loc t). rewrite Z.mul_1_l.
  set (u := reading loc t + 86400) in *.
  rewrite Z.div_add_l, Z.div_small by (done || lia). rewrite Z.add_0_r. split.
  - exact (local_to_unix_reading name T a b u s Hr Ha Hb Hs).
  - rewrite Z.add_comm, Z.mod_add by done. rewrite Z.mod_small; done.
Qed.

(** ** Monthly schedules *)

(** The date one month later on the calendar, which may not exist. *)
Definition month_after (y m : Z) : Z * Z := (y + m / 12, m mod 12 + 1).

Lemma month_after_valid (y m : Z) : 1 <= m <= 12 -> 1 <= (month_after y m).2 <= 12.
Proof. intros Hm. simpl. Z.div_mod_to_equations. lia. Qed.

Lemma date_of_UTC (n : Z) : date_of (mkTime n UTC) = civil_of_days (n / Second / 86400).
Proof. unfold date_of. by rewrite local_sec_UTC. Qed.

Lemma monthly_UTC_days (t : Time) (y m d : Z) :
  date_of (in_loc UTC t) = (y, m, d) ->
  date_of (occ_next "monthly" UTC t) =
    civil_of_days (days_of_civil (month_after y m).1 (month_after y m).2 d) /\
  clock_of (occ_next "monthly" UTC t) = clock_of (in_loc UTC t).
Proof.
  intros Hd. unfold occ_next. change (advance "monthly" (in_loc UTC t))
    with (Some (add_date (in_loc UTC t) 0 1 0)). cbv iota beta.
  pose proof (add_date_month (in_loc UTC t)) as Hm. rewrite Hd in Hm. rewrite Hm. clear Hm.
  change (in_loc UTC t) with (mkTime (unix_ns t) UTC) in *. simpl t_loc.
  rewrite local_to_unix_UTC, local_sec_UTC. unfold to_utc, in_loc; simpl unix_ns.
  pose proof (civil_of_days_valid (unix_ns t / Second / 86400)) as Hv.
  pose proof (days_of_civil_of_days (unix_ns t / Second / 86400)) as Hdays.
  rewrite date_of_UTC in Hd. rewrite Hd in Hv, Hdays. destruct Hv as [Hm _].
  assert (Hdiv : ((unix_ns t / Second + days_in_month y m * 86400) * Second + nsec (mkTime (unix_ns t) UTC))
                 / Second = unix_ns t / Second + days_in_month y m * 86400).
  { rewrite Z.div_add_l by done. rewrite (Z.div_small (nsec _)) by apply nsec_bound. lia. }
  split.
  - rewrite date_of_UTC, Hdiv, Z.div_add by done. f_equal. unfold month_after; simpl.
    rewrite days_next_month by done. lia.
  - unfold clock_of. rewrite !local_sec_UTC, Hdiv, Z.mod_add by done. done.
Qed.

(** In UTC a monthly schedule keeps its clock time; it keeps its day of the
    month when the next month has that day, and otherwise moves on into the
    month after that. *)
Theorem monthly_UTC (t : Time) (y m d y' m' : Z) :
  date_of (in_loc UTC t) = (y, m, d) -> month_after y m = (y', m') ->
  clock_of (occ_next "monthly" UTC t) = clock_of (in_loc UTC t) /\
  (d <= days_in_month y' m' -> date_of (occ_next "monthly" UTC t) = (y', m', d)) /\
  (days_in_month y' m' < d ->
   date_of (occ_next "monthly" UTC t) =
     ((month_after y' m').1, (month_after y' m').2, d - days_in_month y' m')).
Proof.
  intros Hd Hma. destruct (monthly_UTC_days t y m d Hd) as [Hdate Hclock].
  change (in_loc UTC t) with (mkTime (unix_ns t) UTC) in Hd. rewrite date_of_UTC in Hd.
  pose proof (civil_of_days_valid (unix_ns t / Second / 86400)) as Hv. rewrite Hd in Hv.
  destruct Hv as [Hm Hdv].
  pose proof (month_after_valid y m Hm) as Hm'. rewrite Hma in Hm', Hdate. simpl in Hm', Hdate.
  split; [done|]. rewrite Hdate. split; intros Hlen.
  - apply civil_of_days_of_civil. split; [done|lia].
  - pose proof (days_in_month_bounds y m). pose proof (days_in_month_bounds y' m').
    pose proof (month_after_valid y' m' Hm') as Hm''.
    pose proof (days_next_month y' m' (d - days_in_month y' m') Hm') as Hn.
    change (days_of_civil (month_after y' m').1 (month_after y' m').2 (d - days_in_month y' m') =
      days_of_civil y' m' (d - days_in_month y' m') + days_in_month y' m') in Hn.
    assert (days_of_civil y' m' (d - days_in_month y' m') + days_in_month y' m' =
            days_of_civil y' m' d) as E by (unfold days_of_civil; lia).
    rewrite <- E, <- Hn. apply civil_of_days_of_civil. split; [done|].
    pose proof (days_in_month_bounds (month_after y' m').1 (month_after y' m').2). lia.
Qed.

(** A monthly schedule that starts on 31 January leaves the end of the
    month: it skips February, and stays on the 3rd from March on. *)
Theorem monthly_drift :
  map (fun k => format_rfc3339 (occurrence "monthly" UTC (mkTime (1769824800 * Second) UTC) k))
      [0; 1; 2; 3]%nat =
  ["2026-01-31T02:00:00Z"; "2026-03-03T02:00:00Z"; "2026-04-03T02:00:00Z"; "2026-05-03T02:00:00Z"].
Proof. vm_compute. reflexivity. Qed.

(** ** Concrete inputs *)

(** A database with one zone, with the daylight-saving change of March 2026. *)
Definition one_zone : TzDatabase :=
  fun name => if String.eqb name "Europe/Berlin" then Some Berlin2026 else None.

Lemma Berlin2026_steady : steady Berlin2026.
Proof. apply one_change_steady. reflexivity. Qed.

(** Saturday 28 March 2026, 11:00 in Berlin, the day before the change. *)
Definition saturday : Time := mkTime (1774692000 * Second) UTC.

Lemma NextOccurrence_advances_witness :
  let n := mkTime (1774774800 * Second) UTC in
  @NextOccurrence one_zone saturday "daily" "Europe/Berlin" None = Ok n /\ before saturday n = true.
Proof.
  split; [vm_compute; reflexivity|].
  refine (proj1 (@NextOccurrence_advances one_zone saturday _ "daily" "Europe/Berlin" None _ _ _)).
  - exact Berlin2026_steady.
  - vm_compute. reflexivity.
  - vm_compute. reflexivity.
Defined.

Lemma NextIncludedOccurrence_spec_witness :
  @included_outcome one_zone "weekly" "Europe/Berlin" None [saturday] 100 saturday
    (@NextIncludedOccurrence one_zone saturday "weekly" "Europe/Berlin" None [saturday]).
Proof.
  apply NextIncludedOccurrence_spec.
  - unfold recurring_type. auto.
  - exact Berlin2026_steady.
  - unfold zero_ns, saturday, Second. simpl. lia.
Defined.

Lemma ExpandOccurrences_spec_witness :
  mkTimeSlot saturday (add saturday (seconds 60)) ∈
    @ExpandOccurrences one_zone saturday 60 "daily" "Europe/Berlin" None [] saturday
      (add saturday (24 * Hour)).
Proof.
  apply ExpandOccurrences_spec.
  - unfold recurring_type. auto.
  - exact Berlin2026_steady.
  - exists 0%nat. split_and!; [lia|reflexivity|]. split_and!; vm_compute; reflexivity.
Defined.

Lemma ExpandOccurrences_sorted_witness :
  (length (@ExpandOccurrences one_zone saturday 60 "hourly" "Europe/Berlin" None [] saturday
    (add saturday (720 * Hour))) <= 100)%nat.
Proof.
  refine (proj2 (@ExpandOccurrences_sorted one_zone saturday 60 "hourly" "Europe/Berlin" None []
    saturday (add saturday (720 * Hour)) _ _)).
  - right. unfold recurring_type. auto.
  - exact Berlin2026_steady.
Defined.

Lemma hourly_horizon_witness :
  @ExpandOccurrences one_zone saturday 600 "hourly" "Europe/Berlin" None []
    (add saturday (120 * Hour)) (add saturday (144 * Hour)) = [].
Proof.
  refine (proj1 (@hourly_horizon one_zone saturday 600 "Europe/Berlin" [] _ _ _ _ _)).
  - exact Berlin2026_steady.
  - lia.
  - vm_compute. discriminate.
Defined.

Lemma daily_keeps_wall_clock_witness :
  reading Berlin2026 (occ_next "daily" Berlin2026 saturday) = reading Berlin2026 saturday + 86400.
Proof.
  refine (proj1 (daily_keeps_wall_clock "Europe/Berlin" 1774746000 3600 7200 saturday 1774774800
    _ _ _ _)).
  - lia.
  - lia.
  - vm_compute. split; discriminate.
  - vm_compute. reflexivity.
Defined.

Lemma monthly_UTC_witness :
  date_of (occ_next "monthly" UTC (mkTime (1769824800 * Second) UTC)) = (2026, 3, 3).
Proof.
  refine (proj2 (proj2 (monthly_UTC (mkTime (1769824800 * Second) UTC) 2026 1 31 2026 2 _ _)) _).
  - vm_compute. reflexivity.
  - vm_compute. reflexivity.
  - vm_compute. reflexivity.
Defined.
