(* ===== verification/Duration.v ===== *)
(** * How long a test takes: [controller/internal/scheduler/duration.go]

    The estimate a schedule is stored with, from the builder's parameters, the
    k6 options or the text of the script, and [parseDuration] of scriptgen.go
    that reads k6 durations. *)

From Stdlib Require Import (notations) Strings.Ascii.
From S2P Require Export Prelude GoStrings Json Model.

Open Scope Z_scope.
Open Scope go_scope.

(** ** k6 durations in seconds *)

Definition parseDuration (d : string) : Z :=
  match split_last (trim_space d) with
  | None => 0
  | Some (digits, unit) =>
    match atoi digits with
    | None => 0
    | Some val =>
      if Ascii.eqb unit "s"%char then val
      else if Ascii.eqb unit "m"%char then val ⊠ 60
      else if Ascii.eqb unit "h"%char then val ⊠ 3600
      else val
    end
  end.

Definition ParseK6Duration (d : string) : Z := parseDuration d.

(** ** The script: [durationRE], and [FindAllStringSubmatch] with it *)

(** White space of [\s]. *)
Definition re_space (c : Ascii.ascii) : bool :=
  let b := byte_of c in (b =? 9) || (b =? 10) || (b =? 12) || (b =? 13) || (b =? 32).

Definition re_quote (c : Ascii.ascii) : bool := (byte_of c =? 39) || (byte_of c =? 34).

Definition re_digit (c : Ascii.ascii) : bool := (48 <=? byte_of c) && (byte_of c <=? 57).

Definition re_unit (c : Ascii.ascii) : bool :=
  Ascii.eqb c "s"%char || Ascii.eqb c "m"%char || Ascii.eqb c "h"%char.

(** Longest prefix of characters of a class, and the rest. *)
Fixpoint span (p : Ascii.ascii -> bool) (s : string) : string * string :=
  match s with
  | EmptyString => (EmptyString, EmptyString)
  | String c s' => if p c then let '(a, b) := span p s' in (String c a, b) else (EmptyString, s)
  end.

(** A character of a class, then the rest. *)
Definition one_of (p : Ascii.ascii -> bool) (s : string) : option (Ascii.ascii * string) :=
  match s with
  | String c s' => if p c then Some (c, s') else None
  | EmptyString => None
  end.

(** The rest of a string after a prefix. *)
Fixpoint strip_prefix (p s : string) : option string :=
  match p, s with
  | EmptyString, _ => Some s
  | String a p', String b s' => if Ascii.eqb a b then strip_prefix p' s' else None
  | String _ _, EmptyString => None
  end.

(** A match at the start of the string: the group, and what follows the match.
    No two neighbouring parts of the pattern share a character, so the greedy
    match is the only one. *)
Definition match_duration (s : string) : option (string * string) :=
  s1 ← strip_prefix "duration:" s;
  let '(_, s2) := span re_space s1 in
  '(_, s3) ← one_of re_quote s2;
  let '(digits, s4) := span re_digit s3 in
  '(unit, s5) ← one_of re_unit s4;
  '(_, s6) ← one_of re_quote s5;
  if String.eqb digits "" then None else Some (digits +:+ String unit EmptyString, s6).

(** All matches from left to right; [skip] characters belong to the last one. *)
Fixpoint find_durations (skip : nat) (s : string) : list string :=
  match s with
  | EmptyString => []
  | String _ s' =>
    match skip with
    | S k => find_durations k s'
    | O =>
      match match_duration s with
      | Some (group, rest) => group :: find_durations (String.length s - String.length rest - 1) s'
      | None => find_durations 0 s'
      end
    end
  end.

Definition estimateFromScript (script : string) : Z :=
  zmax 0 (map ParseK6Duration (find_durations 0 script)).

(** ** The builder *)

(** [total += ParseK6Duration(...)] over a list. *)
Definition sum_durations (l : list string) : Z :=
  foldl (fun total d => total ⊞ ParseK6Duration d) 0 l.

Definition estimateFromBuilder (req : CreateScheduleRequest) : Z :=
  let executor := if String.eqb (csr_Executor req) "" then "ramping-vus" else csr_Executor req in
  if String.eqb executor "ramping-vus" || String.eqb executor "ramping-arrival-rate" then
    sum_durations (map stg_Duration (default [] (csr_Stages req)))
  else if String.eqb executor "constant-vus" || String.eqb executor "constant-arrival-rate" then
    if negb (String.eqb (csr_Duration req) "") then ParseK6Duration (csr_Duration req) else 0
  else 0.

(** ** The k6 options *)

(** The stages that are objects with a duration of type string. *)
Definition stage_durations (stages : list json) : list string :=
  omap (fun stage => stageMap ← as_object (Some stage); as_string (jget "duration" stageMap)) stages.

(** The body of the loop over the scenarios. *)
Definition scenario_duration (sc : json) : Z :=
  match as_object (Some sc) with
  | None => 0
  | Some scMap =>
    let d := match as_string (jget "duration" scMap) with
             | Some dur => ParseK6Duration dur
             | None => 0
             end in
    match as_array (jget "stages" scMap) with
    | None => d
    | Some stages =>
      let stageTotal := sum_durations (stage_durations stages) in
      if d <? stageTotal then stageTotal else d
    end
  end.

Section options.
Context `{MapOrder}.

Definition estimateFromConfig (configContent : string) : Z :=
  match unmarshal_map configContent with
  | None => 0
  | Some parsed =>
    match jget "scenarios" parsed with
    | None =>
      match as_string (jget "duration" parsed) with
      | Some dur => ParseK6Duration dur
      | None => 0
      end
    | Some scenarios =>
      match as_object (Some scenarios) with
      | None => 0
      | Some scenarioMap =>
        zmax 0 (map (fun kv => scenario_duration kv.2) (range_over (jentries scenarioMap)))
      end
    end
  end.

Definition testBufferSeconds : Z := 30.

Definition EstimateDurationSeconds (req : CreateScheduleRequest) : res Z :=
  if 0 <? csr_EstimatedDurationS req then Ok (csr_EstimatedDurationS req ⊞ testBufferSeconds)
  else
    let d0 :=
      if String.eqb (csr_Mode req) "builder" ||
         (String.eqb (csr_Mode req) "" && negb (String.eqb (csr_URL req) ""))
      then estimateFromBuilder req else 0 in
    let d1 :=
      if (d0 =? 0) && negb (String.eqb (csr_ConfigContent req) "")
      then estimateFromConfig (csr_ConfigContent req) else d0 in
    let d2 :=
      if (d1 =? 0) && negb (String.eqb (csr_ScriptContent req) "")
      then estimateFromScript (csr_ScriptContent req) else d1 in
    if d2 <=? 0
    then Err "cannot determine test duration: provide estimated_duration_s or ensure config/script has a duration"
    else Ok (d2 ⊞ testBufferSeconds).
End options.

Example find_ex :
  find_durations 0 (quoted "duration: '30s', x, duration:  '5m'; duration: 'x', duration:'7h'") =
  ["30s"; "5m"; "7h"].
Proof. vm_compute. reflexivity. Qed.

(** ** Durations in range *)

(** A duration the code reads is a 64-bit integer. *)
Lemma parseDuration_range (d : string) : in_i64 (parseDuration d).
Proof.
  assert (Hz : in_i64 0) by i64_lia.
  unfold parseDuration. destruct (split_last _) as [[digits unit]|]; [|done].
  destruct (atoi digits) as [v|] eqn:E; [|done]. apply atoi_range in E.
  repeat break_test; auto with shiva.
Qed.

Lemma zmax_range_i64 (a : Z) (l : list Z) :
  in_i64 a -> (forall x, x ∈ l -> in_i64 x) -> in_i64 (zmax a l).
Proof. intros Ha Hl. destruct (zmax_cases l a) as [->|Hx]; auto. Qed.

Lemma sum_durations_range (l : list string) : in_i64 (sum_durations l).
Proof.
  unfold sum_durations. assert (H : in_i64 0) by i64_lia. revert H. generalize 0.
  induction l as [|d l IH]; intros a Ha; simpl; [done|]. apply IH, i64_range.
Qed.

Lemma scenario_duration_range (sc : json) : in_i64 (scenario_duration sc).
Proof.
  assert (Hz : in_i64 0) by i64_lia. unfold scenario_duration.
  destruct (as_object (Some sc)) as [scMap|]; [|done].
  assert (in_i64 match as_string (jget "duration" scMap) with
                 | Some dur => ParseK6Duration dur | None => 0 end) as Hd.
  { destruct (as_string _); [apply parseDuration_range|done]. }
  destruct (as_array _); [|done]. break_test; [apply sum_durations_range|done].
Qed.

Lemma estimateFromConfig_range `{MapOrder} (configContent : string) :
  in_i64 (estimateFromConfig configContent).
Proof.
  assert (Hz : in_i64 0) by i64_lia. unfold estimateFromConfig.
  destruct (unmarshal_map configContent) as [l|]; [|done].
  destruct (jget "scenarios" l) as [sc|].
  - destruct (as_object (Some sc)) as [m|]; [|done]. apply zmax_range_i64; [done|].
    intros x Hx. apply list_elem_of_fmap in Hx as (kv & -> & _). apply scenario_duration_range.
  - destruct (as_string _); [apply parseDuration_range|done].
Qed.

Lemma estimateFromScript_range (script : string) : in_i64 (estimateFromScript script).
Proof.
  apply zmax_range_i64; [i64_lia|].
  intros x Hx. apply list_elem_of_fmap in Hx as (s & -> & _). apply parseDuration_range.
Qed.

Lemma if_range (c : bool) (a b : Z) : in_i64 a -> in_i64 b -> in_i64 (if c then a else b).
Proof. by destruct c. Qed.

Lemma estimateFromBuilder_range (req : CreateScheduleRequest) : in_i64 (estimateFromBuilder req).
Proof.
  assert (Hz : in_i64 0) by i64_lia. unfold estimateFromBuilder. cbv zeta.
  destruct (_ || _); [apply sum_durations_range|].
  destruct (_ || _); [|done]. destruct (negb _); [apply parseDuration_range|done].
Qed.

#[export] Hint Resolve estimateFromScript_range estimateFromBuilder_range estimateFromConfig_range parseDuration_range sum_durations_range : shiva.

(** The value of a unit letter, in seconds. *)
Definition unit_seconds (u : Ascii.ascii) : Z :=
  if Ascii.eqb u "m"%char then 60 else if Ascii.eqb u "h"%char then 3600 else 1.

(** Reading back a printed duration gives its value in seconds, for every
    number and unit whose product fits an [int]. *)
Theorem parseDuration_itoa (n : Z) (u : Ascii.ascii) :
  re_unit u = true -> 0 <= n <= i64_max -> n * unit_seconds u <= i64_max ->
  parseDuration (itoa n +:+ String u "") = n * unit_seconds u.
Proof.
  intros Hu Hn Hm. unfold parseDuration. pose proof (itoa_decimal n ltac:(lia)) as [Hs _].
  rewrite trim_space_visible.
  - rewrite split_last_snoc, atoi_itoa by done.
    unfold re_unit in Hu. unfold unit_seconds in *.
    apply orb_true_iff in Hu as [Hu|Hu]; [apply orb_true_iff in Hu as [Hu|Hu]|];
      apply Ascii.eqb_eq in Hu as ->; simpl in *; rewrite ?i64_id by i64_lia; lia.
  - apply starts_with_app. exact (starts_with_impl _ _ _ decimal_visible Hs).
  - unfold re_unit in Hu.
    apply orb_true_iff in Hu as [Hu|Hu]; [apply orb_true_iff in Hu as [Hu|Hu]|];
      apply Ascii.eqb_eq in Hu as ->; done.
Qed.

(** The estimate of a k6 options text does not depend on the order in
    which Go visits the scenarios; it bounds the duration of every scenario and
    is the duration of one of them unless none has a positive one. *)
Theorem estimateFromConfig_spec (o1 o2 : MapOrder) (configContent : string) :
  let est := @estimateFromConfig o1 configContent in
  est = @estimateFromConfig o2 configContent /\
  forall parsed m, unmarshal_map configContent = Some parsed ->
    jget "scenarios" parsed = Some (JObj m) ->
    (forall k sc, (k, sc) ∈ jentries m -> scenario_duration sc <= est) /\
    (est = 0 \/ exists k sc, (k, sc) ∈ jentries m /\ est = scenario_duration sc).
Proof.
  cbv zeta. split.
  - unfold estimateFromConfig. destruct (unmarshal_map configContent) as [l|]; [|done].
    destruct (jget "scenarios" l) as [sc|]; [|done].
    destruct (as_object (Some sc)); [|done]. apply zmax_range.
  - intros parsed m Hp Hsc. unfold estimateFromConfig. rewrite Hp, Hsc. simpl.
    set (l := map _ _).
    assert (Hl : forall x, x ∈ l <-> exists k sc, (k, sc) ∈ jentries m /\ x = scenario_duration sc).
    { intros x. unfold l. rewrite list_elem_of_fmap. setoid_rewrite range_over_perm. split.
      - intros ([k sc] & -> & Hin). eauto.
      - intros (k & sc & Hin & ->). exists (k, sc). auto. }
    split.
    + intros k sc Hin. apply zmax_ge, Hl. eauto.
    + destruct (zmax_cases l 0) as [E|E]; [by left|right]. by apply Hl.
Qed.

(** An estimate is a positive number of seconds plus the buffer of 30
    seconds, added in 64-bit arithmetic: it is more than 30 unless the number
    lies within 30 of the largest [int], and negative there. *)
Theorem EstimateDurationSeconds_buffer `{MapOrder} (req : CreateScheduleRequest) (d : Z) :
  in_i64 (csr_EstimatedDurationS req) -> EstimateDurationSeconds req = Ok d ->
  exists n, 0 < n <= i64_max /\ (0 < csr_EstimatedDurationS req -> n = csr_EstimatedDurationS req) /\
    (n <= i64_max - 30 -> d = n + 30) /\ (i64_max - 30 < n -> d < 0).
Proof.
  intros He Hd.
  assert (Hn : exists n, 0 < n <= i64_max /\ d = (n ⊞ 30) /\
    (0 < csr_EstimatedDurationS req -> n = csr_EstimatedDurationS req)).
  { unfold EstimateDurationSeconds, testBufferSeconds in Hd.
    destruct (0 <? csr_EstimatedDurationS req) eqn:E; bool_prop.
    { injection Hd as <-. exists (csr_EstimatedDurationS req). split; [i64_lia|]. done. }
    set (d0 := if String.eqb _ "builder" || _ then _ else _) in Hd.
    set (d1 := if (d0 =? 0) && _ then _ else _) in Hd.
    set (d2 := if (d1 =? 0) && _ then _ else _) in Hd.
    destruct (d2 <=? 0) eqn:P; [done|]. bool_prop. injection Hd as <-. exists d2.
    assert (Hz : in_i64 0) by i64_lia.
    assert (in_i64 d2) as Hr; [|split; [i64_lia|split; [done|lia]]].
    apply if_range; [auto with shiva|]. apply if_range; [auto with shiva|].
    apply if_range; auto with shiva. }
  destruct Hn as (n & Hn & -> & Hexp). exists n. split; [done|]. split; [done|]. split; intros Hb.
  - apply i64_id. i64_lia.
  - unfold i64, i64_max in *. change (2 ^ 64) with 18446744073709551616. change (2 ^ 63) with 9223372036854775808 in *.
    Z.div_mod_to_equations. lia.
Qed.

(** ** Concrete inputs *)

Lemma parseDuration_itoa_witness : parseDuration "90m" = 5400.
Proof. apply (parseDuration_itoa 90 "m"%char); [reflexivity|i64_lia|vm_compute; discriminate]. Defined.

Definition two_scenarios : string :=
  quoted "{'scenarios': {'a': {'duration': '45s'}, 'b': {'stages': [{'duration': '1m'}, {'duration': '30s'}]}}}".

Lemma estimateFromConfig_spec_witness :
  scenario_duration (JObj [("duration", JStr "45s")]) <= @estimateFromConfig rev_map_order two_scenarios.
Proof.
  refine (proj1 (proj2 (estimateFromConfig_spec rev_map_order id_map_order two_scenarios) _ _ _ _) "a" _ _).
  - vm_compute. reflexivity.
  - vm_compute. reflexivity.
  - apply elem_of_cons. left. reflexivity.
Defined.

Definition explicit_request (seconds : Z) : CreateScheduleRequest :=
  zero_CreateScheduleRequest <| csr_EstimatedDurationS := seconds |>.

Lemma EstimateDurationSeconds_buffer_witness :
  exists n, 0 < n <= i64_max /\ (n <= i64_max - 30 -> 630 = n + 30).
Proof.
  destruct (@EstimateDurationSeconds_buffer id_map_order (explicit_request 600) 630)
    as (n & Hn & _ & Hd & _).
  - vm_compute. split; discriminate.
  - vm_compute. reflexivity.
  - exists n. split; assumption.
Defined.
