(* ===== verification/Overlap.v ===== *)
(** * Conflicts between time slots: [controller/internal/scheduler/overlap.go]

    A proposed slot is checked against the running test, the stored windows of
    the active schedules, and the expanded recurring schedules. *)

From S2P Require Export Prelude GoTime Model Store Recurrence.

Open Scope Z_scope.
Open Scope go_scope.

(** [RunningTestInfo]; a duration of zero means unknown. *)
Record RunningTestInfo := mkRunningTestInfo {
  rti_TestID : string;
  rti_StartTime : Time;
  rti_EstimatedDurationS : Z
}.

Definition runningTimeSlot (running : RunningTestInfo) : TimeSlot :=
  mkTimeSlot (rti_StartTime running)
    (if 0 <? rti_EstimatedDurationS running
     then add (rti_StartTime running) (seconds (rti_EstimatedDurationS running))
     else add (rti_StartTime running) (2 * Hour)).

Definition timeSlotsOverlap (a b : TimeSlot) : bool :=
  before (slot_Start a) (slot_End b) && before (slot_Start b) (slot_End a).

Definition runningTestConflict (proposed : TimeSlot) (running : option RunningTestInfo)
  : option ScheduleConflict :=
  match running with
  | None => None
  | Some info =>
    if String.eqb (rti_TestID info) "" then None
    else
      let slot := runningTimeSlot info in
      if negb (timeSlotsOverlap proposed slot) then None
      else Some {| cfl_ScheduleID := ""; cfl_ScheduleName := "";
                   cfl_Start := format_rfc3339 (slot_Start slot);
                   cfl_End := format_rfc3339 (slot_End slot);
                   cfl_Type := "running" |}
  end.

Definition scheduledConflict (s : ScheduledTest) : ScheduleConflict :=
  let end_ := add (sch_ScheduledAt s) (seconds (sch_EstimatedDurationS s)) in
  {| cfl_ScheduleID := sch_ID s; cfl_ScheduleName := sch_Name s;
     cfl_Start := format_rfc3339 (sch_ScheduledAt s);
     cfl_End := format_rfc3339 end_;
     cfl_Type := "scheduled" |}.

Section overlap.
Context `{TzDatabase} `{RowOrder}.

(** The slots of a recurring schedule around the proposed one, a day on
    either side. *)
Definition nearby_slots (proposed : TimeSlot) (rec : ScheduledTest) : list TimeSlot :=
  ExpandOccurrences (sch_ScheduledAt rec) (sch_EstimatedDurationS rec) (sch_RecurrenceType rec)
    (sch_Timezone rec) (sch_RecurrenceEnd rec) (sch_SkippedOccurrences rec)
    (add (slot_Start proposed) (- 24 * Hour)) (add (slot_End proposed) (24 * Hour)).

Definition slot_conflict (proposed : TimeSlot) (rec : ScheduledTest) (slot : TimeSlot)
  : option ScheduleConflict :=
  if timeSlotsOverlap proposed slot
  then Some {| cfl_ScheduleID := sch_ID rec; cfl_ScheduleName := sch_Name rec;
               cfl_Start := format_rfc3339 (slot_Start slot);
               cfl_End := format_rfc3339 (slot_End slot);
               cfl_Type := "scheduled" |}
  else None.

Definition recurringScheduleConflict (proposed : TimeSlot) (recurring : list ScheduledTest)
    (excludeID : string) : option ScheduleConflict :=
  first_some (fun rec =>
    if String.eqb (sch_ID rec) excludeID then None
    else first_some (slot_conflict proposed rec) (nearby_slots proposed rec)) recurring.

Definition CheckOverlap (proposed : TimeSlot) (excludeID : string)
    (running : option RunningTestInfo) : ST World (res (option ScheduleConflict)) :=
  match runningTestConflict proposed running with
  | Some conflict => mret (Ok (Some conflict))
  | None =>
    overlapping ← GetOverlappingSchedules (slot_Start proposed) (slot_End proposed) excludeID;
    match overlapping with
    | Err e => mret (Err e)
    | Ok (s :: _) => mret (Ok (Some (scheduledConflict s)))
    | Ok [] =>
      recurring ← GetRecurringSchedules;
      match recurring with
      | Err e => mret (Err e)
      | Ok rs => mret (Ok (recurringScheduleConflict proposed rs excludeID))
      end
    end
  end.
End overlap.

(** ** The overlap test *)

(** Two non-empty slots overlap exactly when some instant lies in both;
    the test does not depend on the order of its arguments. *)
Theorem timeSlotsOverlap_spec (a b : TimeSlot) :
  timeSlotsOverlap a b = timeSlotsOverlap b a /\
  (unix_ns (slot_Start a) < unix_ns (slot_End a) ->
   unix_ns (slot_Start b) < unix_ns (slot_End b) ->
   timeSlotsOverlap a b = true <->
   exists x, unix_ns (slot_Start a) <= x < unix_ns (slot_End a) /\
             unix_ns (slot_Start b) <= x < unix_ns (slot_End b)).
Proof.
  unfold timeSlotsOverlap, before. split; [apply andb_comm|].
  intros Ha Hb. rewrite andb_true_iff, !Z.ltb_lt. split.
  - intros [H1 H2]. exists (Z.max (unix_ns (slot_Start a)) (unix_ns (slot_Start b))). lia.
  - intros (x & H1 & H2). lia.
Qed.

Lemma runningTestConflict_None (proposed : TimeSlot) (running : option RunningTestInfo) :
  runningTestConflict proposed running = None <->
  forall info, running = Some info -> rti_TestID info <> "" ->
    timeSlotsOverlap proposed (runningTimeSlot info) = false.
Proof.
  unfold runningTestConflict. destruct running as [info|]; [|split; [intros _ ? [=]|done]].
  destruct (String.eqb (rti_TestID info) "") eqn:E; bool_prop.
  - split; [intros _ ? [= <-]; done|done].
  - destruct (timeSlotsOverlap proposed (runningTimeSlot info)) eqn:O; simpl.
    + split; [done|]. intros Hf. rewrite (Hf info) in O; done.
    + split; [|done]. intros _ ? [= <-] _. done.
Qed.

(** ** What a check promises *)

Section promise.
Context `{TzDatabase} `{RowOrder}.

(** An occurrence of a stored recurring schedule within the first hundred
    that the schedule still has to run. *)
Definition pending_occurrence (st : ScheduledTest) (t : Time) : Prop :=
  exists k, (k < 100)%nat /\
    t = occurrence (sch_RecurrenceType st) (schedule_location (sch_Timezone st))
          (sch_ScheduledAt st) k /\
    past_end t (sch_RecurrenceEnd st) = false /\
    isSkippedOccurrence t (sch_SkippedOccurrences st) = false.

(** The proposed slot meets something the platform has to run. *)
Definition conflict (db : DB) (proposed : TimeSlot) (excludeID : string)
    (running : option RunningTestInfo) : Prop :=
  (exists info, running = Some info /\ rti_TestID info <> "" /\
     timeSlotsOverlap proposed (runningTimeSlot info) = true) \/
  (exists id st, scheduled_tests db !! id = Some st /\
     overlapping (slot_Start proposed) (slot_End proposed) excludeID st = true) \/
  (exists id st t, scheduled_tests db !! id = Some st /\ recurring st = true /\
     sch_ID st <> excludeID /\ pending_occurrence st t /\
     timeSlotsOverlap proposed (slot_of (sch_EstimatedDurationS st) t) = true).

(** Stored recurring schedules have one of the four recurrence types, and
    every location is steady. *)
Definition rows_ok (db : DB) : Prop :=
  forall id st, scheduled_tests db !! id = Some st -> recurring st = true ->
    recurring_type (sch_RecurrenceType st) /\ steady (schedule_location (sch_Timezone st)).

Lemma nearby_slots_overlap (proposed : TimeSlot) (st : ScheduledTest) :
  recurring_type (sch_RecurrenceType st) -> steady (schedule_location (sch_Timezone st)) ->
  first_some (slot_conflict proposed st) (nearby_slots proposed st) = None <->
  forall t, pending_occurrence st t ->
    timeSlotsOverlap proposed (slot_of (sch_EstimatedDurationS st) t) = false.
Proof.
  intros Hr Hl. rewrite first_some_None. unfold slot_conflict, nearby_slots. split.
  - intros Hn t (k & Hk & Ht & He & Hs).
    destruct (timeSlotsOverlap _ _) eqn:O; [|done].
    assert (Hin : slot_of (sch_EstimatedDurationS st) t ∈ nearby_slots proposed st).
    { unfold nearby_slots. apply ExpandOccurrences_spec; [done|done|].
      exists k. rewrite <- Ht. split_and!; [done|done|].
      unfold timeSlotsOverlap, before, slot_of, add in O; simpl in O. bool_prop.
      unfold in_window, Hour, Minute, Second; simpl. split_and!; [done|done|lia|lia]. }
    specialize (Hn _ Hin). simpl in Hn. rewrite O in Hn. done.
  - intros Hn s Hs. apply ExpandOccurrences_spec in Hs as (k & Hk & -> & He & Hsk & _); [|done|done].
    rewrite Hn; [done|]. exists k. done.
Qed.

Lemma recurringScheduleConflict_None (db : DB) (proposed : TimeSlot) (excludeID : string) :
  rows_ok db ->
  recurringScheduleConflict proposed
    (map recurring_columns (order_by scheduled_ns (rows_where recurring (scheduled_tests db))))
    excludeID = None <->
  forall id st t, scheduled_tests db !! id = Some st -> recurring st = true ->
    sch_ID st <> excludeID -> pending_occurrence st t ->
    timeSlotsOverlap proposed (slot_of (sch_EstimatedDurationS st) t) = false.
Proof.
  intros Hok. unfold recurringScheduleConflict. rewrite first_some_None. split.
  - intros Hn id st t Hid Hrec Hne Hp.
    destruct (Hok id st Hid Hrec) as [Hr Hl].
    specialize (Hn (recurring_columns st)). simpl in Hn.
    rewrite (proj2 (String.eqb_neq _ _) Hne) in Hn.
    assert (Hin : recurring_columns st ∈ map recurring_columns
      (order_by scheduled_ns (rows_where recurring (scheduled_tests db)))).
    { apply list_elem_of_fmap_2, elem_of_order, elem_of_rows. eauto. }
    apply Hn in Hin.
    exact (proj1 (nearby_slots_overlap proposed (recurring_columns st) Hr Hl) Hin t Hp).
  - intros Hn row Hrow. apply list_elem_of_fmap in Hrow as (st & -> & Hst).
    apply elem_of_order, elem_of_rows in Hst as [Hrec [id Hid]].
    destruct (Hok id st Hid Hrec) as [Hr Hl]. simpl.
    destruct (String.eqb (sch_ID st) excludeID) eqn:E; [done|]. bool_prop.
    apply (proj2 (nearby_slots_overlap proposed (recurring_columns st) Hr Hl)).
    intros t Hp. exact (Hn id st t Hid Hrec E Hp).
Qed.

Lemma overlapping_None (db : DB) (proposed : TimeSlot) (excludeID : string) :
  map overlap_columns (order_by scheduled_ns
    (rows_where (overlapping (slot_Start proposed) (slot_End proposed) excludeID)
       (scheduled_tests db))) = [] <->
  forall id st, scheduled_tests db !! id = Some st ->
    overlapping (slot_Start proposed) (slot_End proposed) excludeID st = false.
Proof.
  split.
  - intros E id st Hid. destruct (overlapping _ _ _ st) eqn:O; [|done]. exfalso.
    assert (overlap_columns st ∈ ([] : list ScheduledTest)) as Hin; [|by apply not_elem_of_nil in Hin].
    rewrite <- E. apply list_elem_of_fmap_2, elem_of_order, elem_of_rows. eauto.
  - intros Hn. destruct (map _ _) as [|row l] eqn:E; [done|exfalso].
    assert (row ∈ map overlap_columns (order_by scheduled_ns
      (rows_where (overlapping (slot_Start proposed) (slot_End proposed) excludeID)
        (scheduled_tests db)))) as Hin by (rewrite E; apply elem_of_cons; auto).
    apply list_elem_of_fmap in Hin as (st & _ & Hst).
    apply elem_of_order, elem_of_rows in Hst as [O [id Hid]].
    rewrite (Hn id st Hid) in O. done.
Qed.

(** C33: when the database answers, the check finds no conflict exactly when
    there is none: the slot meets neither the running test, nor the stored
    window of an active schedule, nor one of the first hundred occurrences of
    an active recurring schedule.  The stored schedules have known recurrence
    types and time zones whose offsets are less than a day apart ([rows_ok]). *)
Theorem CheckOverlap_spec (w : World) (proposed : TimeSlot) (excludeID : string)
    (running : option RunningTestInfo) :
  w_faults w = [] -> rows_ok (w_db w) ->
  (exists r, st_eval (CheckOverlap proposed excludeID running) w = Ok r) /\
  (st_eval (CheckOverlap proposed excludeID running) w = Ok None <->
   ~ conflict (w_db w) proposed excludeID running).
Proof.
  intros Hf Hok. unfold CheckOverlap, conflict.
  destruct (runningTestConflict proposed running) as [c|] eqn:R.
  { split; [eexists; reflexivity|]. split; [done|]. intros Hn. exfalso.
    assert (runningTestConflict proposed running = None) as R'; [|by rewrite R' in R].
    apply runningTestConflict_None. intros info -> Hid.
    destruct (timeSlotsOverlap _ _) eqn:O; [|done]. exfalso. apply Hn. left. eauto. }
  pose proof (proj1 (runningTestConflict_None _ _) R) as Hrun.
  unfold st_eval, mbind, ST_bind, GetOverlappingSchedules. rewrite (run_sql_ok _ _ w Hf). simpl.
  destruct (map overlap_columns _) as [|row l] eqn:O.
  - unfold GetRecurringSchedules. rewrite run_sql_ok by done. simpl.
    pose proof (proj1 (overlapping_None _ _ _) O) as Hov.
    pose proof (recurringScheduleConflict_None (w_db w) proposed excludeID Hok) as Hrec.
    split; [eauto|]. split.
    + intros [= E] [(info & -> & Hid & Hc)|[(id & st & Hid & Hc)|(id & st & t & Hid & Hr & Hne & Hp & Hc)]].
      * rewrite (Hrun info) in Hc; done.
      * rewrite (Hov id st Hid) in Hc. done.
      * rewrite (proj1 Hrec E id st t Hid Hr Hne Hp) in Hc. done.
    + intros Hn. f_equal. apply Hrec. intros id st t Hid Hr Hne Hp.
      destruct (timeSlotsOverlap _ _) eqn:Hc; [|done]. exfalso. apply Hn. right. right. eauto 10.
  - split; [eexists; reflexivity|]. split; [done|]. intros Hn. exfalso.
    assert (row :: l = []) as E; [|done]. rewrite <- O. apply overlapping_None.
    intros id st Hid. destruct (overlapping _ _ _ st) eqn:Hc; [|done].
    exfalso. apply Hn. right. left. eauto.
Qed.
End promise.

(** ** Concrete inputs *)

Definition an_hourly_schedule : ScheduledTest :=
  zero_ScheduledTest <| sch_ID := "h" |> <| sch_Status := "scheduled" |>
    <| sch_RecurrenceType := "hourly" |> <| sch_Timezone := "UTC" |>
    <| sch_ScheduledAt := saturday |> <| sch_EstimatedDurationS := 1800 |>.

Definition hourly_world : World := {|
  w_db := mkDB {[ "h" := an_hourly_schedule ]} ∅;
  w_faults := []; w_db_now := unix_ns saturday; w_now := unix_ns saturday;
  w_uuids := 0; w_active := "" |}.

Definition half_hour (start : Time) : TimeSlot := mkTimeSlot start (add start (30 * Minute)).

(** The check misses conflicts beyond the first hundred occurrences: a
    slot at the very time of the 150th run of an hourly schedule is reported
    free, while the same slot at its 50th run is reported taken. *)
Theorem hourly_overlap_missed :
  let run k := occurrence "hourly" UTC saturday k in
  let slot k := half_hour (run k) in
  let ask k := st_eval (@CheckOverlap one_zone merge_row_order (slot k) "" None) hourly_world in
  timeSlotsOverlap (slot 150%nat) (slot_of 1800 (run 150%nat)) = true /\
  ask 150%nat = Ok None /\
  match ask 50%nat with Ok (Some c) => cfl_ScheduleID c = "h" | _ => False end.
Proof. vm_compute. auto. Qed.

Lemma timeSlotsOverlap_spec_witness :
  timeSlotsOverlap (half_hour saturday) (half_hour (add saturday (10 * Minute))) = true.
Proof.
  apply (proj2 (timeSlotsOverlap_spec (half_hour saturday) (half_hour (add saturday (10 * Minute))))).
  - vm_compute. reflexivity.
  - vm_compute. reflexivity.
  - exists (unix_ns saturday + 15 * Minute). vm_compute. repeat split; discriminate.
Defined.

Lemma CheckOverlap_spec_witness :
  exists r, st_eval (@CheckOverlap one_zone merge_row_order (half_hour saturday) "" None)
              hourly_world = Ok r.
Proof.
  refine (proj1 (@CheckOverlap_spec one_zone merge_row_order hourly_world (half_hour saturday) "" None _ _)).
  - reflexivity.
  - intros id st Hid _. simpl in Hid. apply lookup_singleton_Some in Hid as [<- <-].
    split; [unfold recurring_type; auto | exact UTC_steady].
Defined.
