(* ===== verification/Scheduler.v ===== *)
(** * The scheduler: [controller/internal/scheduler/scheduler.go]

    The background component that starts due schedules, records their
    executions, moves recurring schedules on, and cleans up after a restart.
    Its state is the world (tables, clocks, active test), the registry of
    callbacks of the executions it has started, and whether its loop runs.
    Log output is not modelled.  [TestExecutor] is the interface the scheduler
    is given.  [tick] is one step, the call of the executor included, although
    the source holds no lock across it: other components act before or after a
    tick, not in the middle.  The secret service is the function [secretSvc.Decrypt], or
    nothing when no encryption key is configured. *)

From S2P Require Export Prelude GoTime Model Store Recurrence.

Open Scope Z_scope.
Open Scope go_scope.

(** ** The interfaces the scheduler is given *)

(** Drawing a UUID: the n-th one drawn; no two are equal. *)
Class UuidSource := {
  uuid : nat -> string;
  uuid_inj : forall m n, uuid m = uuid n -> m = n;
  uuid_nonempty : forall n, uuid n <> ""
}.

Definition new_uuid `{UuidSource} : ST World string := fun w =>
  (uuid (w_uuids w), w <| w_uuids := S (w_uuids w) |>).

(** [TestExecutor]: starting a test returns its ID or an error.  It draws
    UUIDs and may change the active test, and leaves the schedules alone. *)
Class TestExecutor := {
  ExecuteTest : TestRequest -> Z -> string -> ST World (res string);
  ExecuteTest_frame : forall req userID username w,
    w_db (st_exec (ExecuteTest req userID username) w) = w_db w /\
    (w_uuids w <= w_uuids (st_exec (ExecuteTest req userID username) w))%nat /\
    (w_faults w = [] -> w_faults (st_exec (ExecuteTest req userID username) w) = [])
}.

(** ** State *)

Record Scheduler := mkScheduler {
  s_world : World;
  callbacks : gmap string string;     (* executionID -> scheduleID *)
  s_running : bool                    (* stopCh is not nil *)
}.

#[export] Instance eta_Scheduler : Eta Scheduler := fun s =>
  mkScheduler (s_world s) (callbacks s) (s_running s).

(** An operation on the world, as an operation of the scheduler. *)
Definition on_world {A} (m : ST World A) : ST Scheduler A := fun s =>
  let '(a, w) := m (s_world s) in (a, s <| s_world := w |>).

Record scheduledExecutionStart := mkStart {
  start_execID : string; start_scheduleID : string; start_startedAt : Time
}.

Record scheduledExecutionCompletion := mkCompletion {
  cpl_execID : string; cpl_scheduleID : string; cpl_testID : string;
  cpl_status : string; cpl_errMsg : string; cpl_finishedAt : Time
}.

Definition tickInterval : Z := 10 * Second.
Definition consecutiveFailLimit : Z := 3.
Definition maxRecoveryAdvances : nat := 1000.

(** A statement whose error is only logged or dropped. *)
Definition discard {S A} (m : ST S A) : ST S unit := _ ← m; mret tt.

Section scheduler.
Context `{TzDatabase} `{RowOrder} `{MapOrder} `{UuidSource} `{TestExecutor}
        (secretSvc : option (string -> res string)).

(** ** Callbacks *)

Definition registerCallback (execID scheduleID : string) : ST Scheduler unit :=
  st_modify (fun s => s <| callbacks := <[execID := scheduleID]> (callbacks s) |>).

Definition clearCallback (execID : string) : ST Scheduler unit :=
  st_modify (fun s => s <| callbacks := delete execID (callbacks s) |>).

(** The first entry of the iteration over the map, removed. *)
Definition takeNextCallback : ST Scheduler (string * string) := fun s =>
  match range_over (map_to_list (callbacks s)) with
  | [] => (("", ""), s)
  | (execID, scheduleID) :: _ =>
    ((execID, scheduleID), s <| callbacks := delete execID (callbacks s) |>)
  end.

(** ** Executions *)

Definition hasActiveTest : ST Scheduler bool := fun s =>
  (negb (String.eqb (w_active (s_world s)) ""), s).

Definition nextDueSchedule : ST Scheduler (res (option ScheduledTest)) := on_world GetDueSchedule.

Definition markScheduleRunning (scheduleID : string) : ST Scheduler (res unit) :=
  on_world (UpdateScheduleStatus scheduleID "running").

Definition createRunningExecution (schedule : ScheduledTest) : ST Scheduler (res (string * Time)) :=
  execID ← on_world new_uuid;
  s ← st_get;
  let startedAt := now (s_world s) in
  created ← on_world (CreateExecution {|
    exe_ID := execID; exe_ScheduleID := sch_ID schedule; exe_LoadTestID := None;
    exe_Status := "running"; exe_ScheduledAt := sch_ScheduledAt schedule;
    exe_StartedAt := Some startedAt; exe_EndedAt := None; exe_ErrorMessage := None;
    exe_ErrorDetail := None; exe_CreatedAt := zero_time |});
  mret (match created with Err e => Err e | Ok _ => Ok (execID, startedAt) end).

Definition failExecution (execID : string) (startedAt endedAt : option Time) (errMsg : option string)
  : ST Scheduler (res unit) :=
  on_world (UpdateExecution execID "failed" None startedAt endedAt errMsg None).

Definition markExecutionRunning (execID testID : string) (startedAt : Time) : ST Scheduler (res unit) :=
  on_world (UpdateExecution execID "running" (Some testID) (Some startedAt) None None None).

Definition completeExecution (execID testID status errMsg : string) (finishedAt : Time)
  : ST Scheduler (res unit) :=
  let '(execStatus, errMsgPtr) :=
    if negb (String.eqb status "completed") then ("failed", Some errMsg) else ("completed", None) in
  on_world (UpdateExecution execID execStatus (Some testID) None (Some finishedAt) errMsgPtr None).

Definition resetScheduleToScheduled (scheduleID : string) : ST Scheduler unit :=
  discard (on_world (UpdateScheduleStatus scheduleID "scheduled")).

Definition beginScheduledExecution (schedule : ScheduledTest)
  : ST Scheduler (res scheduledExecutionStart) :=
  marked ← markScheduleRunning (sch_ID schedule);
  match marked with
  | Err e => mret (Err e)
  | Ok _ =>
    created ← createRunningExecution schedule;
    match created with
    | Err e => _ ← resetScheduleToScheduled (sch_ID schedule); mret (Err e)
    | Ok (execID, startedAt) =>
      _ ← registerCallback execID (sch_ID schedule);
      mret (Ok (mkStart execID (sch_ID schedule) startedAt))
    end
  end.

(** ** Moving a schedule on *)

Definition advanceSchedule (scheduleID : string) (failed : bool) : ST Scheduler unit :=
  got ← on_world (GetSchedule scheduleID);
  match got with
  | Err _ => mret tt
  | Ok None => mret tt
  | Ok (Some schedule) =>
    if String.eqb (sch_RecurrenceType schedule) "once" then
      discard (on_world (UpdateScheduleStatus scheduleID (if failed then "failed" else "completed")))
    else
      pause ← (if failed then
                 failCount ← on_world (CountConsecutiveFailures scheduleID);
                 mret (match failCount with
                       | Ok n => consecutiveFailLimit <=? n
                       | Err _ => false
                       end)
               else mret false);
      if (pause : bool) then
        _ ← on_world (PauseSchedule scheduleID true);
        discard (on_world (UpdateScheduleStatus scheduleID "scheduled"))
      else
        match NextIncludedOccurrence (sch_ScheduledAt schedule) (sch_RecurrenceType schedule)
                (sch_Timezone schedule) (sch_RecurrenceEnd schedule)
                (sch_SkippedOccurrences schedule) with
        | Err _ => discard (on_world (UpdateScheduleStatus scheduleID "failed"))
        | Ok nextAt =>
          if is_zero nextAt then discard (on_world (UpdateScheduleStatus scheduleID "completed"))
          else discard (on_world (UpdateScheduleNextRun scheduleID nextAt "scheduled"))
        end
  end.

Definition failScheduledExecution (start : scheduledExecutionStart) (err : string)
  : ST Scheduler unit :=
  _ ← clearCallback (start_execID start);
  _ ← failExecution (start_execID start) (Some (start_startedAt start))
        (Some (start_startedAt start)) (Some err);
  advanceSchedule (start_scheduleID start) true.

(** ** Completion *)

Definition nextCompletion (testID status errMsg : string)
  : ST Scheduler (option scheduledExecutionCompletion) :=
  taken ← takeNextCallback;
  s ← st_get;
  let '(execID, schedID) := taken in
  mret (if String.eqb execID "" then None
        else Some (mkCompletion execID schedID testID status errMsg (now (s_world s)))).

Definition applyCompletion (completion : scheduledExecutionCompletion) : ST Scheduler unit :=
  _ ← completeExecution (cpl_execID completion) (cpl_testID completion) (cpl_status completion)
        (cpl_errMsg completion) (cpl_finishedAt completion);
  advanceSchedule (cpl_scheduleID completion) (negb (String.eqb (cpl_status completion) "completed")).

Definition OnTestComplete (testID status errMsg : string) : ST Scheduler unit :=
  completion ← nextCompletion testID status errMsg;
  match completion with
  | None => mret tt
  | Some c => applyCompletion c
  end.

(** ** The tick *)

Definition scheduleTestRequest (schedule : ScheduledTest) : res TestRequest :=
  let req := ToTestRequest schedule in
  if negb (ac_Enabled (sch_AuthConfig schedule)) then Ok req
  else if String.eqb (ac_ClientSecretEncrypted (sch_AuthConfig schedule)) ""
  then Err "scheduled auth secret is missing"
  else
    match secretSvc with
    | None => Err "scheduler auth secret is configured but encryption service is unavailable"
    | Some decrypt =>
      match decrypt (ac_ClientSecretEncrypted (sch_AuthConfig schedule)) with
      | Err e => Err ("failed to decrypt scheduled auth secret: " +:+ e)
      | Ok clientSecret => Ok (req <| tr_Auth := (tr_Auth req) <| ai_ClientSecret := clientSecret |> |>)
      end
    end.

Definition executeSchedule (schedule : ScheduledTest) : ST Scheduler unit :=
  begun ← beginScheduledExecution schedule;
  match begun with
  | Err _ => mret tt
  | Ok start =>
    match scheduleTestRequest schedule with
    | Err e => failScheduledExecution start e
    | Ok req =>
      executed ← on_world (ExecuteTest req (sch_UserID schedule) (sch_Username schedule));
      match executed with
      | Err e => failScheduledExecution start e
      | Ok testID =>
        discard (markExecutionRunning (start_execID start) testID (start_startedAt start))
      end
    end
  end.

Definition tick : ST Scheduler unit :=
  busy ← hasActiveTest;
  if (busy : bool) then mret tt
  else
    due ← nextDueSchedule;
    match due with
    | Err _ => mret tt
    | Ok None => mret tt
    | Ok (Some schedule) => executeSchedule schedule
    end.

(** ** Recovery at startup *)

Definition recoverStaleExecutions : ST Scheduler unit := discard (on_world MarkStaleScheduleExecutions).

Definition recoverStaleSchedules : ST Scheduler unit := discard (on_world ResetStaleRunningSchedules).

Definition shouldNormalizeOverdueSchedule (schedule : ScheduledTest) (recoveryAt : Time) : bool :=
  String.eqb (sch_Status schedule) "scheduled" && negb (sch_Paused schedule) &&
  before (sch_ScheduledAt schedule) recoveryAt.

(** The loop of [nextFutureOccurrence]; the flag says that the schedule is
    exhausted. *)
Fixpoint future_loop (n : nat) (current : Time) (schedule : ScheduledTest) (recoveryAt : Time)
  : res (Time * bool) :=
  match n with
  | O => Err ("schedule " +:+ sch_ID schedule +:+ " exceeded recovery advancement limit")
  | S n' =>
    match NextIncludedOccurrence current (sch_RecurrenceType schedule) (sch_Timezone schedule)
            (sch_RecurrenceEnd schedule) (sch_SkippedOccurrences schedule) with
    | Err e => Err e
    | Ok nextAt =>
      if is_zero nextAt then Ok (zero_time, true)
      else if negb (before nextAt recoveryAt) then Ok (nextAt, false)
      else future_loop n' nextAt schedule recoveryAt
    end
  end.

Definition nextFutureOccurrence (schedule : ScheduledTest) (recoveryAt : Time) : res (Time * bool) :=
  future_loop maxRecoveryAdvances (sch_ScheduledAt schedule) schedule recoveryAt.

Definition normalizeOverdueSchedule (schedule : ScheduledTest) (recoveryAt : Time)
  : ST Scheduler bool :=
  if String.eqb (sch_RecurrenceType schedule) "once" then
    r ← on_world (UpdateScheduleStatus (sch_ID schedule) "failed"); mret (is_ok r)
  else
    match nextFutureOccurrence schedule recoveryAt with
    | Err _ => _ ← on_world (UpdateScheduleStatus (sch_ID schedule) "failed"); mret false
    | Ok (_, true) =>
      r ← on_world (UpdateScheduleStatus (sch_ID schedule) "completed"); mret (is_ok r)
    | Ok (nextAt, false) =>
      r ← on_world (UpdateScheduleNextRun (sch_ID schedule) nextAt "scheduled"); mret (is_ok r)
    end.

(** The loop over the listed schedules; the result counts the normalized ones. *)
Fixpoint normalize_all (schedules : list ScheduledTest) (recoveryAt : Time) : ST Scheduler nat :=
  match schedules with
  | [] => mret 0%nat
  | schedule :: rest =>
    if negb (shouldNormalizeOverdueSchedule schedule recoveryAt) then normalize_all rest recoveryAt
    else
      done ← normalizeOverdueSchedule schedule recoveryAt;
      n ← normalize_all rest recoveryAt;
      mret (if (done : bool) then S n else n)
  end.

Definition recoverOverdueSchedules : ST Scheduler unit :=
  listed ← on_world ListSchedules;
  match listed with
  | Err _ => mret tt
  | Ok schedules =>
    s ← st_get;
    discard (normalize_all schedules (to_utc (now (s_world s))))
  end.

Definition recover : ST Scheduler unit :=
  _ ← recoverStaleExecutions;
  _ ← recoverStaleSchedules;
  recoverOverdueSchedules.

Definition Start : ST Scheduler unit := fun s =>
  if s_running s then (tt, s) else recover (s <| s_running := true |>).

Definition Stop : ST Scheduler unit := st_modify (fun s => s <| s_running := false |>).

End scheduler.

(** ** Lemmas on operations of the world *)

Lemma on_world_run {A} (m : ST World A) (s : Scheduler) :
  on_world m s = (st_eval m (s_world s), s <| s_world := st_exec m (s_world s) |>).
Proof. unfold on_world, st_eval, st_exec. destruct (m (s_world s)); done. Qed.

(** What one component may do to the tables without another's consent: keep
    them well formed, and not move an execution to another schedule or add one. *)
Definition db_step (db db' : DB) : Prop :=
  (db_wf db -> db_wf db') /\
  forall k ex', schedule_executions db' !! k = Some ex' ->
    exists ex, schedule_executions db !! k = Some ex /\ exe_ScheduleID ex = exe_ScheduleID ex'.

#[export] Instance db_step_refl : Reflexive db_step.
Proof. intros db. split; eauto. Qed.

#[export] Instance db_step_trans : Transitive db_step.
Proof.
  intros a b c [H1 H2] [H3 H4]. split; [auto|]. intros k ex Hk.
  destruct (H4 k ex Hk) as (ex1 & Hk1 & <-). apply H2. done.
Qed.

Definition tame {A} (m : ST World A) : Prop := forall w,
  db_step (w_db w) (w_db (st_exec m w)) /\ (w_uuids w <= w_uuids (st_exec m w))%nat.

Lemma tame_sql {A} (context : string) (stmt : DB -> res A * DB) :
  (forall db, db_step db (stmt db).2) -> tame (run_sql context stmt).
Proof.
  intros Hs w. destruct (run_sql_frame context stmt w) as (Hdb & _ & _ & -> & _).
  split; [|done]. destruct Hdb as [-> | ->]; [done|apply Hs].
Qed.

Lemma tame_query {A} (context : string) (q : DB -> res A) : tame (run_sql context (fun db => (q db, db))).
Proof. by apply tame_sql. Qed.

Lemma tame_update_row (context : string) (f : ScheduledTest -> ScheduledTest) (id : string) :
  (forall st, sch_ID (f st) = sch_ID st) ->
  tame (run_sql context (fun db => (Ok tt, update_row f id db))).
Proof. intros Hf. apply tame_sql. intros db. split; [by apply db_wf_update_row|simpl; eauto]. Qed.

Lemma tame_UpdateExecution id st l a b m d : tame (UpdateExecution id st l a b m d).
Proof.
  apply tame_sql. intros db. split; [by apply db_wf_alter_execution|]. intros k ex'. simpl.
  rewrite lookup_alter. destruct (decide (id = k)) as [->|]; [|eauto].
  destruct (schedule_executions db !! k); simpl; [|done]. intros [= <-]. eauto.
Qed.

Lemma tame_MarkStale : tame MarkStaleScheduleExecutions.
Proof.
  assert (Hf : forall ex, exe_ID (mark_stale ex) = exe_ID ex /\
    exe_ScheduleID (mark_stale ex) = exe_ScheduleID ex)
    by (intros ex; unfold mark_stale; by destruct (stale_execution ex)).
  apply tame_sql. intros db. split; [by apply db_wf_map_executions|]. intros k ex'. simpl.
  rewrite lookup_fmap. destruct (schedule_executions db !! k) as [ex|]; simpl; [|done].
  intros [= <-]. exists ex. split; [done|]. symmetry. apply Hf.
Qed.

Lemma tame_ResetStale : tame ResetStaleRunningSchedules.
Proof.
  apply tame_sql. intros db. split; [|simpl; eauto]. apply db_wf_map_schedules.
  intros st. unfold reset_stale. by destruct (stale_schedule st).
Qed.

Create HintDb sched.
#[export] Hint Resolve tame_query tame_UpdateExecution tame_MarkStale tame_ResetStale : sched.
#[export] Hint Extern 1 (tame (UpdateScheduleStatus _ _)) => by apply tame_update_row : sched.
#[export] Hint Extern 1 (tame (UpdateScheduleNextRun _ _ _)) => by apply tame_update_row : sched.
#[export] Hint Extern 1 (tame (PauseSchedule _ _)) => by apply tame_update_row : sched.
#[export] Hint Extern 1 (tame (GetSchedule _)) => apply tame_query : sched.
#[export] Hint Extern 1 (tame ListSchedules) => apply tame_query : sched.
#[export] Hint Extern 1 (tame (CountConsecutiveFailures _)) => apply tame_query : sched.
#[export] Hint Extern 1 (tame GetDueSchedule) => intros w; apply tame_query : sched.

(** ** The invariant *)

Section invariant.
Context `{TzDatabase} `{RowOrder} `{MapOrder} `{UuidSource} `{TestExecutor}
        (secretSvc : option (string -> res string)).

Definition drawn (w : World) (id : string) : Prop := exists n, id = uuid n /\ (n < w_uuids w)%nat.

(** The tables are well formed, every execution and every callback has an ID
    drawn before, and the callback of an execution names its schedule. *)
Definition sched_inv (s : Scheduler) : Prop :=
  let w := s_world s in
  db_wf (w_db w) /\
  (forall k, is_Some (schedule_executions (w_db w) !! k) -> drawn w k) /\
  (forall e sid, callbacks s !! e = Some sid -> drawn w e /\
     forall ex, schedule_executions (w_db w) !! e = Some ex -> exe_ScheduleID ex = sid).

Lemma drawn_mono (w w' : World) (id : string) :
  (w_uuids w <= w_uuids w')%nat -> drawn w id -> drawn w' id.
Proof. intros Hle (n & -> & Hn). exists n. split; [done|lia]. Qed.

Lemma sched_inv_step (s : Scheduler) (w' : World) :
  db_step (w_db (s_world s)) (w_db w') -> (w_uuids (s_world s) <= w_uuids w')%nat ->
  sched_inv s -> sched_inv (s <| s_world := w' |>).
Proof.
  intros [Hwf Hex] Hu (I1 & I2 & I3). split_and!; simpl.
  - auto.
  - intros k [ex Hk]. destruct (Hex k ex Hk) as (ex0 & Hk0 & _).
    eapply drawn_mono; [exact Hu|]. apply I2. eauto.
  - intros e sid He. destruct (I3 e sid He) as [Hd Hs].
    split; [eapply drawn_mono; [exact Hu|exact Hd]|]. intros ex Hk.
    destruct (Hex e ex Hk) as (ex0 & Hk0 & <-). auto.
Qed.

Lemma sched_inv_running (s : Scheduler) (b : bool) :
  sched_inv s -> sched_inv (s <| s_running := b |>).
Proof. done. Qed.

Lemma preserves_on_world {A} (m : ST World A) : tame m -> preserves sched_inv (on_world m).
Proof.
  intros Hm s Hs. unfold st_exec. rewrite on_world_run. simpl.
  destruct (Hm (s_world s)) as [Hdb Hu]. by apply sched_inv_step.
Qed.

Lemma tame_execute (req : TestRequest) (userID : Z) (username : string) :
  tame (ExecuteTest req userID username).
Proof. intros w. destruct (ExecuteTest_frame req userID username w) as (-> & Hu & _). done. Qed.

Lemma preserves_discard {A} (m : ST Scheduler A) :
  preserves sched_inv m -> preserves sched_inv (discard m).
Proof. intros Hm. apply preserves_bind; [done|]. intros _. apply preserves_ret. Qed.

Lemma preserves_get : preserves sched_inv (st_get : ST Scheduler Scheduler).
Proof. intros s Hs. exact Hs. Qed.

End invariant.

#[export] Hint Resolve tame_execute preserves_on_world preserves_discard preserves_ret preserves_get
  : sched.

(** Walks through the statements of an operation. *)
Ltac walk :=
  repeat first
    [ solve [eauto 3 with sched]
    | progress intros
    | apply preserves_bind
    | match goal with
      | |- preserves _ (match ?x with _ => _ end) => destruct x
      | |- preserves _ (if ?b then _ else _) => destruct b
      end ].

Section preservation.
Context `{TzDatabase} `{RowOrder} `{MapOrder} `{UuidSource} `{TestExecutor}
        (secretSvc : option (string -> res string)).

Lemma sched_inv_delete (s : Scheduler) (e : string) :
  sched_inv s -> sched_inv (s <| callbacks := delete e (callbacks s) |>).
Proof.
  intros (I1 & I2 & I3). split_and!; [done|done|]. simpl. intros e' sid.
  rewrite lookup_delete_Some. intros [_ He]. auto.
Qed.

Lemma clearCallback_inv (e : string) : preserves sched_inv (clearCallback e).
Proof. apply preserves_modify. intros s. apply sched_inv_delete. Qed.

Lemma takeNextCallback_inv : preserves sched_inv takeNextCallback.
Proof.
  intros s Hs. unfold st_exec, takeNextCallback.
  destruct (range_over _) as [|[e sid] l]; [done|]. by apply sched_inv_delete.
Qed.

Lemma advanceSchedule_inv (id : string) (failed : bool) : preserves sched_inv (advanceSchedule id failed).
Proof. unfold advanceSchedule. walk. Qed.

Hint Resolve clearCallback_inv takeNextCallback_inv advanceSchedule_inv : sched.

Lemma failScheduledExecution_inv (start : scheduledExecutionStart) (err : string) :
  preserves sched_inv (failScheduledExecution start err).
Proof. unfold failScheduledExecution, failExecution. walk. Qed.

(** What inserting an execution changes. *)
Lemma CreateExecution_frame (ex : ScheduleExecution) (w : World) :
  let w' := st_exec (CreateExecution ex) w in
  w_uuids w' = w_uuids w /\
  forall k ex', schedule_executions (w_db w') !! k = Some ex' ->
    schedule_executions (w_db w) !! k = Some ex' \/
    (k = exe_ID ex /\ exe_ScheduleID ex' = exe_ScheduleID ex).
Proof.
  unfold CreateExecution, st_exec. cbv beta.
  match goal with |- context [run_sql "" ?f w] => set (stmt := f) end.
  change ((run_sql "" stmt w).2) with (st_exec (run_sql "" stmt) w).
  destruct (run_sql_frame "" stmt w) as (Hdb & _ & _ & Hu & _). split; [done|].
  intros k ex' Hk. destruct Hdb as [Hdb|Hdb]; rewrite Hdb in Hk; [by left|].
  unfold stmt in Hk.
  destruct (schedule_executions (w_db w) !! exe_ID ex); [by left|].
  destruct (scheduled_tests (w_db w) !! exe_ScheduleID ex); [|by left]. simpl in Hk.
  rewrite lookup_insert in Hk. case_decide as D; [|by left].
  injection Hk as <-. right. done.
Qed.

(** Drawing an ID and creating an execution under it keeps the invariant, and
    the new execution is the only one under that ID. *)
Lemma createRunningExecution_spec (schedule : ScheduledTest) (s : Scheduler) :
  sched_inv s ->
  let r := st_eval (createRunningExecution schedule) s in
  let s' := st_exec (createRunningExecution schedule) s in
  sched_inv s' /\
  forall e t, r = Ok (e, t) -> drawn (s_world s') e /\ t = now (s_world s) /\
    forall ex, schedule_executions (w_db (s_world s')) !! e = Some ex ->
      exe_ScheduleID ex = sch_ID schedule.
Proof.
  intros (I1 & I2 & I3). unfold createRunningExecution, st_eval, st_exec, mbind, ST_bind.
  rewrite !on_world_run. simpl. set (w := s_world s) in *.
  set (w1 := st_exec new_uuid w). set (e := st_eval new_uuid w).
  set (row := {| exe_ID := e |}). rewrite !on_world_run. simpl.
  destruct (CreateExecution_frame row w1) as [Hu Hex].
  assert (He : forall x, drawn w x -> x <> e).
  { intros x (n & -> & Hn) Heq. apply uuid_inj in Heq. lia. }
  assert (Hd : drawn (st_exec (CreateExecution row) w1) e).
  { exists (w_uuids w). split; [done|]. rewrite Hu. simpl. lia. }
  assert (Hm : forall x, drawn w x -> drawn (st_exec (CreateExecution row) w1) x).
  { intros x. apply drawn_mono. rewrite Hu. simpl. lia. }
  assert (Hfresh : forall ex, schedule_executions (w_db (st_exec (CreateExecution row) w1)) !! e = Some ex ->
    exe_ScheduleID ex = sch_ID schedule).
  { intros ex Hk. destruct (Hex e ex Hk) as [Hk'|[_ E]]; [|done].
    exfalso. refine (He e _ eq_refl). apply I2. eauto. }
  split.
  - split_and!; simpl.
    + apply (CreateExecution_wf row w1). exact I1.
    + intros k [ex Hk]. destruct (Hex k ex Hk) as [Hk'|[-> _]]; [apply Hm, I2; eauto|done].
    + intros k sid Hk. destruct (I3 k sid Hk) as [Hdk Hs]. split; [by apply Hm|].
      intros ex Hx. destruct (Hex k ex Hx) as [Hx'|[-> _]]; [by apply Hs|].
      by destruct (He _ Hdk).
  - intros e' t. destruct (st_eval (CreateExecution row) w1); [|done]. intros [= <- <-]. done.
Qed.

Lemma beginScheduledExecution_inv (schedule : ScheduledTest) :
  preserves sched_inv (beginScheduledExecution schedule).
Proof.
  unfold beginScheduledExecution, markScheduleRunning.
  apply preserves_bind; [auto with sched|]. intros [u|e]; [|apply preserves_ret].
  intros s Hs. rewrite st_exec_bind.
  destruct (createRunningExecution_spec schedule s Hs) as [Hs' Hr].
  destruct (st_eval (createRunningExecution schedule) s) as [[e t]|err].
  - destruct (Hr e t eq_refl) as (Hd & _ & Hex). destruct Hs' as (I1 & I2 & I3).
    split_and!; [done|done|]. intros e' sid. simpl. rewrite lookup_insert.
    case_decide as D; [|auto]. intros [= <-]. subst e'. auto.
  - revert Hs'. generalize (st_exec (createRunningExecution schedule) s).
    change (preserves sched_inv (resetScheduleToScheduled (sch_ID schedule) ≫= fun _ => mret (Err err : res scheduledExecutionStart))).
    unfold resetScheduleToScheduled. walk.
Qed.

Hint Resolve failScheduledExecution_inv beginScheduledExecution_inv : sched.

Lemma tick_inv : preserves sched_inv (tick secretSvc).
Proof.
  unfold tick, hasActiveTest, nextDueSchedule, executeSchedule, markExecutionRunning.
  apply preserves_bind; [intros s Hs; exact Hs|]. walk.
Qed.

Lemma OnTestComplete_inv (testID status errMsg : string) :
  preserves sched_inv (OnTestComplete testID status errMsg).
Proof.
  unfold OnTestComplete, nextCompletion, applyCompletion, completeExecution. walk.
Qed.

Lemma normalize_all_inv (l : list ScheduledTest) (t : Time) : preserves sched_inv (normalize_all l t).
Proof.
  induction l as [|st l IH]; simpl; [apply preserves_ret|].
  unfold normalizeOverdueSchedule. walk.
Qed.

Lemma Start_inv : preserves sched_inv Start.
Proof.
  assert (Hr : preserves sched_inv recover).
  { unfold recover, recoverStaleExecutions, recoverStaleSchedules, recoverOverdueSchedules.
    pose proof normalize_all_inv. walk. }
  intros s Hs. unfold st_exec, Start. destruct (s_running s); [done|].
  exact (Hr _ (sched_inv_running s true Hs)).
Qed.

(** The scheduler and what runs beside it. *)
Inductive sched_event :=
  | Tick
  | TestCompleted (testID status errMsg : string)
  | Started
  | Stopped
  | Outside.          (* another component acts on the world, or time passes *)

Inductive sched_step : Scheduler -> sched_event -> Scheduler -> Prop :=
  | sched_tick s : s_running s = true -> sched_step s Tick (st_exec (tick secretSvc) s)
  | sched_complete s testID status errMsg :
      sched_step s (TestCompleted testID status errMsg)
        (st_exec (OnTestComplete testID status errMsg) s)
  | sched_start s : sched_step s Started (st_exec Start s)
  | sched_stop s : sched_step s Stopped (st_exec Stop s)
  | sched_outside s w' :
      db_step (w_db (s_world s)) (w_db w') -> (w_uuids (s_world s) <= w_uuids w')%nat ->
      sched_step s Outside (s <| s_world := w' |>).

(** The state a process starts in: tables left by earlier runs, no callbacks. *)
Definition sched_init (s : Scheduler) : Prop :=
  db_wf (w_db (s_world s)) /\ callbacks s = ∅ /\ s_running s = false /\
  forall k, is_Some (schedule_executions (w_db (s_world s)) !! k) -> drawn (s_world s) k.

(** C1: in every reachable state of the scheduler, whatever the other
    components do between its steps, the tables are well formed (every
    execution belongs to an existing schedule) and the callback of an execution
    names the schedule that execution belongs to. *)
Theorem scheduler_invariant (s : Scheduler) :
  reachable sched_init sched_step s ->
  db_wf (w_db (s_world s)) /\
  forall e sid ex, callbacks s !! e = Some sid ->
    schedule_executions (w_db (s_world s)) !! e = Some ex -> exe_ScheduleID ex = sid.
Proof.
  intros Hr. assert (sched_inv s) as (I1 & _ & I3).
  { revert s Hr. apply reachable_invariant.
    - intros s (Hwf & Hc & _ & Hk). split_and!; [done|done|]. intros e sid. rewrite Hc.
      rewrite lookup_empty. done.
    - intros s ev s' _ Hs Hst. destruct Hst.
      + by apply tick_inv.
      + by apply OnTestComplete_inv.
      + by apply Start_inv.
      + done.
      + by apply sched_inv_step. }
  split; [done|]. intros e sid ex He. apply I3, He.
Qed.
End preservation.
