(* ===== verification/SchedulerSpec.v ===== *)
(** * What the scheduler promises

    Functional specifications of the operations of [Scheduler], for a database
    that answers: startup recovery as a function on rows, the move of a schedule
    to its next run, and the outcomes of a tick and of a completion. *)

From S2P Require Export Prelude GoTime Model Store Recurrence Scheduler.

Open Scope Z_scope.
Open Scope go_scope.

(** ** Updating rows one after the other *)

(** Rows updated one by one, each under its own key, are the table updated row
    by row. *)
Lemma foldl_alter {A} (key : A -> string) (f : A -> A -> A) (l : list A) (t : gmap string A) (k : string) :
  NoDup (map key l) ->
  foldl (fun m x => alter (f x) (key x) m) t l !! k =
  match List.find (fun x => String.eqb (key x) k) l with
  | Some x => f x <$> t !! k
  | None => t !! k
  end.
Proof.
  revert t. induction l as [|x l IH]; intros t Hnd; simpl; [done|].
  apply NoDup_cons in Hnd as [Hx Hnd]. rewrite IH by done. rewrite lookup_alter.
  destruct (String.eqb (key x) k) eqn:E; bool_prop.
  - subst k. rewrite decide_True by done.
    destruct (List.find _ l) as [y|] eqn:F; [|done].
    apply List.find_some in F as [Hy E]. bool_prop. exfalso. apply Hx. rewrite <- E.
    apply list_elem_of_fmap_2, list_elem_of_In, Hy.
  - rewrite decide_False by done. done.
Qed.

(** A table whose rows are stored under their own key. *)
Lemma NoDup_row_keys {A} (key : A -> string) (t : gmap string A) :
  (forall k x, t !! k = Some x -> key x = k) -> NoDup (map key (map_to_list t).*2).
Proof.
  intros Hk. assert (map key (map_to_list t).*2 = (map_to_list t).*1) as ->; [|apply NoDup_fst_map_to_list].
  rewrite <- list_fmap_compose. apply list_fmap_ext. intros i [k x] Hi. simpl. apply Hk.
  apply elem_of_map_to_list. by eapply list_elem_of_lookup_2.
Qed.

Lemma find_row {A} (key : A -> string) (l : list A) (x : A) :
  NoDup (map key l) -> x ∈ l -> List.find (fun y => String.eqb (key y) (key x)) l = Some x.
Proof.
  induction l as [|y l IH]; intros Hnd Hx; [by apply not_elem_of_nil in Hx|].
  apply NoDup_cons in Hnd as [Hy Hnd]. simpl. apply elem_of_cons in Hx as [-> | Hx].
  - by rewrite String.eqb_refl.
  - destruct (String.eqb (key y) (key x)) eqn:E; [|auto]. bool_prop. exfalso. apply Hy.
    rewrite E. by apply list_elem_of_fmap_2.
Qed.

(** The fold over any listing of the rows of a table is the pointwise map. *)
Lemma foldl_alter_rows {A} (key : A -> string) (f : A -> A -> A) (l : list A) (t : gmap string A) :
  (forall k x, t !! k = Some x -> key x = k) -> l ≡ₚ (map_to_list t).*2 ->
  foldl (fun m x => alter (f x) (key x) m) t l = (fun x => f x x) <$> t.
Proof.
  intros Hk Hl. assert (Hnd : NoDup (map key l)).
  { assert (map key l ≡ₚ map key (map_to_list t).*2) as E by (by apply fmap_Permutation).
    rewrite E. by apply NoDup_row_keys. }
  apply map_eq. intros k. rewrite foldl_alter, lookup_fmap by done.
  destruct (t !! k) as [x|] eqn:E.
  - assert (Hx : x ∈ l).
    { rewrite Hl. apply list_elem_of_fmap. exists (k, x). split; [done|]. by apply elem_of_map_to_list. }
    rewrite <- (Hk k x E). rewrite (find_row key l x Hnd Hx). done.
  - by destruct (List.find _ _).
Qed.

Section spec.
Context `{TzDatabase} `{RowOrder} `{MapOrder} `{UuidSource} `{TestExecutor}
        (secretSvc : option (string -> res string)).

(** ** Startup recovery *)

(** What recovery makes of the row of an overdue schedule. *)
Definition normalized_row (schedule : ScheduledTest) (recoveryAt : Time) (row : ScheduledTest)
  : ScheduledTest :=
  if String.eqb (sch_RecurrenceType schedule) "once" then row <| sch_Status := "failed" |>
  else
    match nextFutureOccurrence schedule recoveryAt with
    | Err _ => row <| sch_Status := "failed" |>
    | Ok (_, true) => row <| sch_Status := "completed" |>
    | Ok (nextAt, false) => row <| sch_ScheduledAt := nextAt |> <| sch_Status := "scheduled" |>
    end.

(** The row of any schedule after recovery. *)
Definition recovered_row (recoveryAt : Time) (row : ScheduledTest) : ScheduledTest :=
  if shouldNormalizeOverdueSchedule row recoveryAt then normalized_row row recoveryAt row else row.

Definition with_schedules (s : Scheduler) (t : gmap string ScheduledTest) : Scheduler :=
  s <| s_world := (s_world s) <| w_db := (w_db (s_world s)) <| scheduled_tests := t |> |> |>.

Lemma with_schedules_id (s : Scheduler) : with_schedules s (scheduled_tests (w_db (s_world s))) = s.
Proof. by destruct s as [[[]] ]. Qed.

Lemma on_world_sql {A} (context : string) (stmt : DB -> res A * DB) (s : Scheduler) :
  w_faults (s_world s) = [] ->
  on_world (run_sql context stmt) s =
  ((stmt (w_db (s_world s))).1,
   s <| s_world := (s_world s) <| w_db := (stmt (w_db (s_world s))).2 |> |>).
Proof. intros Hf. rewrite on_world_run. unfold st_eval, st_exec. by rewrite run_sql_ok by done. Qed.

Lemma exec_sql {A} (context : string) (stmt : DB -> res A * DB) (s : Scheduler) :
  w_faults (s_world s) = [] ->
  st_exec (on_world (run_sql context stmt)) s =
  s <| s_world := (s_world s) <| w_db := (stmt (w_db (s_world s))).2 |> |>.
Proof. intros Hf. unfold st_exec. by rewrite on_world_sql. Qed.

Lemma eval_sql {A} (context : string) (stmt : DB -> res A * DB) (s : Scheduler) :
  w_faults (s_world s) = [] ->
  st_eval (on_world (run_sql context stmt)) s = (stmt (w_db (s_world s))).1.
Proof. intros Hf. unfold st_eval. by rewrite on_world_sql. Qed.

Lemma exec_discard {A} (m : ST Scheduler A) (s : Scheduler) : st_exec (discard m) s = st_exec m s.
Proof. unfold discard. by rewrite st_exec_bind. Qed.

Lemma normalize_one (schedule : ScheduledTest) (recoveryAt : Time) (s : Scheduler) :
  w_faults (s_world s) = [] ->
  st_exec (normalizeOverdueSchedule schedule recoveryAt) s =
  with_schedules s (alter (normalized_row schedule recoveryAt) (sch_ID schedule)
                      (scheduled_tests (w_db (s_world s)))).
Proof.
  intros Hf. unfold normalizeOverdueSchedule, normalized_row.
  destruct (String.eqb (sch_RecurrenceType schedule) "once").
  { rewrite st_exec_bind. unfold st_exec, UpdateScheduleStatus. by rewrite on_world_sql. }
  destruct (nextFutureOccurrence schedule recoveryAt) as [[t [|]]|e];
    rewrite st_exec_bind; unfold st_exec, UpdateScheduleStatus, UpdateScheduleNextRun;
    by rewrite on_world_sql.
Qed.

Lemma normalize_all_fold (l : list ScheduledTest) (recoveryAt : Time) (s : Scheduler) :
  w_faults (s_world s) = [] ->
  st_exec (normalize_all l recoveryAt) s =
  with_schedules s
    (foldl (fun m st => alter (fun row =>
              if shouldNormalizeOverdueSchedule st recoveryAt
              then normalized_row st recoveryAt row else row) (sch_ID st) m)
       (scheduled_tests (w_db (s_world s))) l).
Proof.
  revert s. induction l as [|st l IH]; intros s Hf; simpl.
  { symmetry. apply with_schedules_id. }
  destruct (shouldNormalizeOverdueSchedule st recoveryAt) eqn:N; simpl.
  - rewrite !st_exec_bind, normalize_one by done.
    change (st_exec (mret _) ?x) with x. rewrite IH by done. done.
  - rewrite IH by done. do 2 f_equal. symmetry. apply map_eq. intros k. rewrite lookup_alter.
    case_decide as D; [|done]. rewrite D. by destruct (_ !! k).
Qed.

(** The tables after recovery at a given time, as a function on rows. *)
Definition recovered_db (recoveryAt : Time) (db : DB) : DB :=
  mkDB ((fun row => recovered_row recoveryAt (reset_stale row)) <$> scheduled_tests db)
       (mark_stale <$> schedule_executions db).

Lemma recovered_row_id (recoveryAt : Time) (row : ScheduledTest) :
  sch_ID (recovered_row recoveryAt row) = sch_ID row.
Proof.
  unfold recovered_row, normalized_row. destruct (shouldNormalizeOverdueSchedule row recoveryAt); [|done].
  destruct (String.eqb _ "once"); [done|]. by destruct (nextFutureOccurrence row recoveryAt) as [[t []]|].
Qed.

Lemma recover_eq (s : Scheduler) :
  w_faults (s_world s) = [] -> db_wf (w_db (s_world s)) ->
  st_exec recover s =
  s <| s_world := (s_world s) <| w_db := recovered_db (to_utc (now (s_world s))) (w_db (s_world s)) |> |>.
Proof.
  intros Hf [Hwf _]. unfold recover, recoverStaleExecutions, recoverStaleSchedules.
  rewrite !st_exec_bind, !exec_discard.
  unfold MarkStaleScheduleExecutions, ResetStaleRunningSchedules. rewrite (exec_sql _ _ s), exec_sql by exact Hf. simpl.
  unfold recoverOverdueSchedules, ListSchedules. rewrite st_exec_bind, eval_sql, exec_sql by exact Hf. simpl.
  rewrite st_exec_bind, exec_discard.
  change (st_exec st_get ?x) with x. change (st_eval st_get ?x) with x.
  rewrite normalize_all_fold by exact Hf. simpl.
  set (t := reset_stale <$> scheduled_tests (w_db (s_world s))).
  assert (Ht : forall k x, t !! k = Some x -> sch_ID x = k).
  { intros k x. unfold t. rewrite lookup_fmap. destruct (scheduled_tests _ !! k) as [r|] eqn:E; [|done].
    intros [= <-]. rewrite <- (Hwf k r E). unfold reset_stale. by destruct (stale_schedule r). }
  rewrite (foldl_alter_rows sch_ID (fun st row =>
    if shouldNormalizeOverdueSchedule st (to_utc (now (s_world s)))
    then normalized_row st (to_utc (now (s_world s))) row else row)); [|exact Ht|].
  - unfold with_schedules, recovered_db, t. simpl. rewrite <- map_fmap_compose. done.
  - unfold rows_where. rewrite order_by_perm. clear. induction (map_to_list t).*2; simpl; [done|].
    by f_equiv.
Qed.

(** C24: when the database answers, startup recovery is a function on rows:
    executions that were running or pending become failed, schedules that were
    running become scheduled again, and then every schedule that is overdue and
    not paused is failed (one-time), completed (past its end) or moved to its
    next occurrence; nothing else changes. *)
Theorem recover_refines (s : Scheduler) :
  w_faults (s_world s) = [] -> db_wf (w_db (s_world s)) ->
  st_exec recover s =
  s <| s_world := (s_world s) <| w_db := recovered_db (to_utc (now (s_world s))) (w_db (s_world s)) |> |>.
Proof. apply recover_eq. Qed.

Lemma future_loop_not_before (n : nat) (c t : Time) (st : ScheduledTest) (recoveryAt : Time) :
  future_loop n c st recoveryAt = Ok (t, false) -> before t recoveryAt = false.
Proof.
  revert c. induction n as [|n IH]; intros c; simpl; [done|].
  destruct (NextIncludedOccurrence c _ _ _ _) as [next|e]; [|done].
  destruct (is_zero next); [done|]. destruct (before next recoveryAt) eqn:B; simpl; [apply IH|].
  intros [= <-]. done.
Qed.

(** After a recovery during which the database answers, no execution is
    running or pending, no schedule is running, and no schedule that the tick
    may start is overdue. *)
Theorem recovered_clean (s : Scheduler) :
  w_faults (s_world s) = [] -> db_wf (w_db (s_world s)) ->
  let db := w_db (s_world (st_exec recover s)) in
  (forall k ex, schedule_executions db !! k = Some ex ->
     exe_Status ex <> "running" /\ exe_Status ex <> "pending") /\
  (forall k st, scheduled_tests db !! k = Some st ->
     sch_Status st <> "running" /\
     (sch_Status st = "scheduled" -> sch_Paused st = false ->
      before (sch_ScheduledAt st) (now (s_world s)) = false)).
Proof.
  intros Hf Hwf db. subst db. rewrite recover_eq by done. simpl. split.
  - intros k ex. rewrite lookup_fmap. destruct (schedule_executions _ !! k) as [e|]; [|done].
    intros [= <-]. unfold mark_stale, stale_execution.
    destruct (String.eqb (exe_Status e) "running") eqn:E1; [done|].
    destruct (String.eqb (exe_Status e) "pending") eqn:E2; [done|]. simpl. bool_prop. done.
  - intros k st. rewrite lookup_fmap. destruct (scheduled_tests _ !! k) as [r0|]; [|done].
    intros [= <-]. set (r := reset_stale r0).
    assert (Hr : sch_Status r <> "running").
    { unfold r, reset_stale, stale_schedule. destruct (String.eqb (sch_Status r0) "running") eqn:E; [done|].
      by bool_prop. }
    clearbody r. unfold recovered_row.
    destruct (shouldNormalizeOverdueSchedule r (to_utc (now (s_world s)))) eqn:N.
    + unfold normalized_row. destruct (String.eqb _ "once"); [done|].
      pose proof (fun t => future_loop_not_before maxRecoveryAdvances (sch_ScheduledAt r) t r
        (to_utc (now (s_world s)))) as Hn.
      fold (nextFutureOccurrence r (to_utc (now (s_world s)))) in Hn. revert Hn.
      generalize (nextFutureOccurrence r (to_utc (now (s_world s)))). intros o Hn.
      destruct o as [[t [|]]|e]; split; try done. intros _ _. by apply Hn.
    + split; [done|]. intros Hs Hp. unfold shouldNormalizeOverdueSchedule in N.
      rewrite Hs, Hp in N. exact N.
Qed.

(** ** The occurrence recovery moves to *)

Definition occ (st : ScheduledTest) (k : nat) : Time :=
  occurrence (sch_RecurrenceType st) (schedule_location (sch_Timezone st)) (sch_ScheduledAt st) k.

Definition skips (st : ScheduledTest) (t : Time) : bool :=
  isSkippedOccurrence t (sch_SkippedOccurrences st).

Lemma occurrence_add (r : string) (loc : Location) (t : Time) (i j : nat) :
  occurrence r loc (occurrence r loc t i) j = occurrence r loc t (i + j).
Proof.
  revert t. induction i as [|i IH]; intros t; simpl; [done|]. apply IH.
Qed.

(** The occurrence an overdue schedule is moved to is the first one that
    is neither before the recovery time nor skipped, and lies within the
    recurrence end. *)
Theorem nextFutureOccurrence_spec (st : ScheduledTest) (recoveryAt t : Time) :
  recurring_type (sch_RecurrenceType st) -> steady (schedule_location (sch_Timezone st)) ->
  zero_ns <= scheduled_ns st -> before (sch_ScheduledAt st) recoveryAt = true ->
  nextFutureOccurrence st recoveryAt = Ok (t, false) ->
  exists k, t = occ st k /\ (0 < k)%nat /\
    before t recoveryAt = false /\ skips st t = false /\ past_end t (sch_RecurrenceEnd st) = false /\
    forall j, (0 < j < k)%nat -> before (occ st j) recoveryAt = true \/ skips st (occ st j) = true.
Proof.
  intros Hr Hl Hz Hb. unfold nextFutureOccurrence.
  assert (Hgen : forall n i, before (occ st i) recoveryAt = true ->
    (forall j, (0 < j <= i)%nat -> before (occ st j) recoveryAt = true \/ skips st (occ st j) = true) ->
    future_loop n (occ st i) st recoveryAt = Ok (t, false) ->
    exists k, t = occ st k /\ (0 < k)%nat /\ before t recoveryAt = false /\ skips st t = false /\
      past_end t (sch_RecurrenceEnd st) = false /\
      forall j, (0 < j < k)%nat -> before (occ st j) recoveryAt = true \/ skips st (occ st j) = true).
  { induction n as [|n IH]; intros i Hi Hall; simpl; [done|].
    assert (Hzi : zero_ns <= unix_ns (occ st i)).
    { pose proof (occurrence_mono_le _ (schedule_location (sch_Timezone st)) (sch_ScheduledAt st) 0 i Hr Hl
        ltac:(lia)) as Hm. change (unix_ns (occurrence _ _ _ 0)) with (scheduled_ns st) in Hm. unfold occ. lia. }
    destruct (included_loop_outcome (sch_RecurrenceType st) (sch_Timezone st) (sch_RecurrenceEnd st)
      (sch_SkippedOccurrences st) 100 (occ st i) Hr Hl Hzi) as [(k & _ & Hbef & [[_ E]|(P & K & E)])|[_ [m E]]];
      unfold NextIncludedOccurrence; rewrite E; [done| |done].
    assert (Hocc : forall j, occurrence (sch_RecurrenceType st) (schedule_location (sch_Timezone st))
      (occ st i) j = occ st (i + j)) by (intros j; apply occurrence_add).
    rewrite Hocc in *.
    assert (Hall' : forall j, (0 < j < i + S k)%nat ->
      before (occ st j) recoveryAt = true \/ skips st (occ st j) = true).
    { intros j Hj. destruct (decide (j <= i)%nat); [apply Hall; lia|right].
      destruct (Hbef (j - S i)%nat ltac:(lia)) as [_ Hs]. rewrite Hocc in Hs.
      replace (i + S (j - S i))%nat with j in Hs by lia. exact Hs. }
    assert (is_zero (occ st (i + S k)) = false) as ->.
    { rewrite <- Hocc. by apply occurrence_nonzero. }
    destruct (before (occ st (i + S k)) recoveryAt) eqn:B; simpl.
    - apply IH; [done|]. intros j Hj. destruct (decide (j = i + S k)%nat) as [->|]; [by left|].
      apply Hall'. lia.
    - intros [= <-]. exists (i + S k)%nat. split_and!; [done|lia|done|done|done|exact Hall']. }
  apply (Hgen maxRecoveryAdvances 0%nat); [exact Hb|lia].
Qed.

(** ** Moving a schedule on *)

(** The row of a schedule after [advanceSchedule]; [failures] is the number of
    failed executions at the head of its history. *)
Definition advanced_row (failures : Z) (failed : bool) (row : ScheduledTest) : ScheduledTest :=
  if String.eqb (sch_RecurrenceType row) "once" then
    row <| sch_Status := if failed then "failed" else "completed" |>
  else if failed && (3 <=? failures) then row <| sch_Paused := true |> <| sch_Status := "scheduled" |>
  else
    match NextIncludedOccurrence (sch_ScheduledAt row) (sch_RecurrenceType row) (sch_Timezone row)
            (sch_RecurrenceEnd row) (sch_SkippedOccurrences row) with
    | Err _ => row <| sch_Status := "failed" |>
    | Ok nextAt =>
      if is_zero nextAt then row <| sch_Status := "completed" |>
      else row <| sch_ScheduledAt := nextAt |> <| sch_Status := "scheduled" |>
    end.

Lemma alter_row {A} (f : A -> A) (k : string) (m : gmap string A) (x : A) :
  m !! k = Some x -> alter f k m = <[k := f x]> m.
Proof.
  intros Hk. apply map_eq. intros j. rewrite lookup_alter, lookup_insert.
  case_decide as D; [|done]. subst j. by rewrite Hk.
Qed.

Definition failures_of (id : string) (db : DB) : Z := consecutive_failures (take 10 (executions_of id db)).

Lemma advance_eq (id : string) (failed : bool) (s : Scheduler) (row : ScheduledTest) :
  w_faults (s_world s) = [] -> scheduled_tests (w_db (s_world s)) !! id = Some row ->
  st_exec (advanceSchedule id failed) s =
  with_schedules s (<[id := advanced_row (failures_of id (w_db (s_world s))) failed row]>
                      (scheduled_tests (w_db (s_world s)))).
Proof.
  intros Hf Hrow. unfold advanceSchedule, GetSchedule. rewrite st_exec_bind, eval_sql by done.
  assert (st_exec (on_world (run_sql "get schedule: " (fun db => (Ok (scheduled_tests db !! id), db)))) s = s)
    as -> by (rewrite exec_sql by done; by destruct s as [[]]).
  cbn [fst]. rewrite Hrow. unfold advanced_row.
  assert (Hup : forall (ctx : string) f, st_exec (on_world (run_sql ctx (fun db => (Ok tt, update_row f id db)))) s =
    with_schedules s (<[id := f row]> (scheduled_tests (w_db (s_world s))))).
  { intros ctx f. rewrite exec_sql by done. unfold update_row, with_schedules. simpl.
    by rewrite (alter_row f id _ row). }
  destruct (String.eqb (sch_RecurrenceType row) "once").
  { rewrite exec_discard. apply Hup. }
  rewrite st_exec_bind.
  set (q := if failed then _ else _).
  assert (Hq : st_exec q s = s /\ st_eval q s = failed && (3 <=? failures_of id (w_db (s_world s)))).
  { subst q. destruct failed; [|done]. unfold CountConsecutiveFailures.
    unfold st_exec, st_eval, mbind, ST_bind. rewrite on_world_sql by done.
    split; [by destruct s as [[]] | done]. }
  destruct Hq as [-> ->].
  destruct (failed && _).
  { rewrite st_exec_bind, exec_discard. unfold PauseSchedule. rewrite Hup.
    unfold UpdateScheduleStatus. rewrite exec_sql by done. unfold with_schedules, update_row. simpl.
    rewrite (alter_row _ id _ (row <| sch_Paused := true |>)) by apply lookup_insert_eq.
    by rewrite insert_insert_eq. }
  destruct (NextIncludedOccurrence _ _ _ _ _) as [t|e]; [|rewrite exec_discard; apply Hup].
  destruct (is_zero t); rewrite exec_discard; apply Hup.
Qed.

(** When the database answers, [advanceSchedule] changes one row: a
    one-time schedule becomes completed or failed; a recurring one is paused
    after a failure that makes three in a row, and otherwise is moved to its
    next occurrence, or completed or failed when it has none.  No row is left
    in the state "running", and a schedule that is neither paused nor ended
    moves forward in time. *)
Theorem advanceSchedule_spec (id : string) (failed : bool) (s : Scheduler) (row : ScheduledTest) :
  w_faults (s_world s) = [] -> scheduled_tests (w_db (s_world s)) !! id = Some row ->
  let row' := advanced_row (failures_of id (w_db (s_world s))) failed row in
  st_exec (advanceSchedule id failed) s =
    with_schedules s (<[id := row']> (scheduled_tests (w_db (s_world s)))) /\
  (sch_Status row' = "scheduled" \/ sch_Status row' = "completed" \/ sch_Status row' = "failed") /\
  (sch_Status row' = "scheduled" -> sch_Paused row' = false ->
   recurring_type (sch_RecurrenceType row) -> steady (schedule_location (sch_Timezone row)) ->
   zero_ns <= scheduled_ns row -> scheduled_ns row < scheduled_ns row').
Proof.
  intros Hf Hrow row'. split; [by apply advance_eq|]. subst row'. unfold advanced_row.
  destruct (String.eqb (sch_RecurrenceType row) "once") eqn:O.
  { destruct failed; split; auto; done. }
  destruct (failed && _); [split; [auto|done]|].
  destruct (NextIncludedOccurrence _ _ _ _ _) as [t|e] eqn:E; [|split; [auto|done]].
  destruct (is_zero t) eqn:Z; [split; [auto|done]|]. split; [auto|]. intros _ _ Hr Hl Hz.
  by apply (NextIncluded_some _ _ _ _ (sch_ScheduledAt row) t Hr Hl Hz E Z).
Qed.

(** ** A tick *)

Definition fresh_id (s : Scheduler) : string := uuid (w_uuids (s_world s)).

(** The execution a tick records when it starts a schedule. *)
Definition running_execution (st : ScheduledTest) (s : Scheduler) : ScheduleExecution := {|
  exe_ID := fresh_id s; exe_ScheduleID := sch_ID st; exe_LoadTestID := None;
  exe_Status := "running"; exe_ScheduledAt := sch_ScheduledAt st;
  exe_StartedAt := Some (now (s_world s)); exe_EndedAt := None; exe_ErrorMessage := None;
  exe_ErrorDetail := None; exe_CreatedAt := mkTime (sql_now (w_db_now (s_world s))) UTC |}.

(** The state once the execution is recorded and before the test is started. *)
Definition begun (st : ScheduledTest) (s : Scheduler) : Scheduler :=
  let w := s_world s in
  mkScheduler
    (w <| w_uuids := S (w_uuids w) |>
       <| w_db := mkDB (<[sch_ID st := st <| sch_Status := "running" |>]> (scheduled_tests (w_db w)))
                       (<[fresh_id s := running_execution st s]> (schedule_executions (w_db w))) |>)
    (<[fresh_id s := sch_ID st]> (callbacks s)) (s_running s).

Lemma begin_eq (st : ScheduledTest) (s : Scheduler) :
  sched_inv s -> w_faults (s_world s) = [] ->
  scheduled_tests (w_db (s_world s)) !! sch_ID st = Some st ->
  beginScheduledExecution st s =
  (Ok (mkStart (fresh_id s) (sch_ID st) (now (s_world s))), begun st s).
Proof.
  intros (_ & Hdrawn & _) Hf Hrow.
  assert (Hfresh : schedule_executions (w_db (s_world s)) !! fresh_id s = None).
  { apply eq_None_not_Some. intros Hs. destruct (Hdrawn _ Hs) as (n & Hn & Hlt).
    apply uuid_inj in Hn. lia. }
  unfold beginScheduledExecution, markScheduleRunning, UpdateScheduleStatus.
  unfold mbind at 1, ST_bind. rewrite on_world_sql by done. cbn [fst snd].
  unfold mbind at 1, ST_bind, createRunningExecution.
  unfold mbind, ST_bind. rewrite on_world_run. cbn [st_eval st_exec new_uuid fst snd].
  unfold st_get. rewrite on_world_run. unfold CreateExecution, st_eval, st_exec.
  rewrite run_sql_ok by done. simpl. fold (fresh_id s). rewrite Hfresh.
  rewrite (alter_row _ _ _ st Hrow), lookup_insert_eq. simpl. unfold registerCallback, st_modify, begun.
  reflexivity.
Qed.

(** What starting the test of a schedule answers. *)
Definition test_outcome (st : ScheduledTest) (s : Scheduler) : res string :=
  match scheduleTestRequest secretSvc st with
  | Err e => Err e
  | Ok req => st_eval (ExecuteTest req (sch_UserID st) (sch_Username st)) (s_world (begun st s))
  end.

(** The state after the test is asked for. *)
Definition asked (st : ScheduledTest) (s : Scheduler) : Scheduler :=
  match scheduleTestRequest secretSvc st with
  | Err _ => begun st s
  | Ok req =>
    (begun st s) <| s_world :=
      st_exec (ExecuteTest req (sch_UserID st) (sch_Username st)) (s_world (begun st s)) |>
  end.

Lemma asked_facts (st : ScheduledTest) (s : Scheduler) :
  w_faults (s_world s) = [] ->
  w_db (s_world (asked st s)) = w_db (s_world (begun st s)) /\
  callbacks (asked st s) = callbacks (begun st s) /\ w_faults (s_world (asked st s)) = [].
Proof.
  intros Hf. unfold asked. destruct (scheduleTestRequest secretSvc st) as [req|e]; [|done].
  destruct (ExecuteTest_frame req (sch_UserID st) (sch_Username st) (s_world (begun st s)))
    as (Hdb & _ & Hfs). simpl. split_and!; [exact Hdb|done|apply Hfs, Hf].
Qed.

Lemma execute_eq (st : ScheduledTest) (s : Scheduler) :
  sched_inv s -> w_faults (s_world s) = [] ->
  scheduled_tests (w_db (s_world s)) !! sch_ID st = Some st ->
  st_exec (executeSchedule secretSvc st) s =
  match test_outcome st s with
  | Ok testID => st_exec (markExecutionRunning (fresh_id s) testID (now (s_world s))) (asked st s)
  | Err e =>
    st_exec (failScheduledExecution (mkStart (fresh_id s) (sch_ID st) (now (s_world s))) e) (asked st s)
  end.
Proof.
  intros Hi Hf Hrow. unfold executeSchedule. rewrite st_exec_bind.
  unfold st_eval, st_exec at 2. rewrite begin_eq by done. cbn [fst snd].
  unfold test_outcome, asked. destruct (scheduleTestRequest secretSvc st) as [req|e]; [|done].
  rewrite st_exec_bind. unfold st_eval at 1, st_exec at 2. rewrite on_world_run. cbn [fst snd].
  destruct (st_eval (ExecuteTest _ _ _) _); [|done]. by rewrite exec_discard.
Qed.

Lemma tick_eq (s : Scheduler) (st : ScheduledTest) :
  sched_inv s -> w_faults (s_world s) = [] ->
  st_eval GetDueSchedule (s_world s) = Ok (Some st) ->
  scheduled_tests (w_db (s_world s)) !! sch_ID st = Some st /\
  st_exec (tick secretSvc) s =
  if String.eqb (w_active (s_world s)) "" then st_exec (executeSchedule secretSvc st) s else s.
Proof.
  intros Hi Hf Hdue. pose proof (GetDueSchedule_row (s_world s) st Hdue) as [id Hid].
  assert (sch_ID st = id) as <- by (destruct Hi as [[Hk _] _]; eauto). split; [done|].
  unfold tick, hasActiveTest. rewrite st_exec_bind. cbn [st_exec st_eval fst snd].
  destruct (String.eqb (w_active (s_world s)) ""); [|done].
  simpl. unfold nextDueSchedule. rewrite st_exec_bind.
  unfold st_eval, st_exec at 2. rewrite on_world_run. cbn [fst snd]. rewrite Hdue.
  rewrite GetDueSchedule_exec by done. by destruct s.
Qed.


(** ** A completion *)

(** The execution after its test completed.  The start time is written as
    NULL. *)
Definition completed_execution (ex : ScheduleExecution) (testID status errMsg : string) (at_ : Time)
  : ScheduleExecution :=
  let ok := String.eqb status "completed" in
  ex <| exe_Status := if ok then "completed" else "failed" |> <| exe_LoadTestID := Some testID |>
     <| exe_StartedAt := None |> <| exe_EndedAt := Some at_ |>
     <| exe_ErrorMessage := if ok then None else Some errMsg |> <| exe_ErrorDetail := None |>.

Lemma take_single (s : Scheduler) (e sid : string) :
  callbacks s = {[ e := sid ]} ->
  takeNextCallback s = ((e, sid), s <| callbacks := ∅ |>).
Proof.
  intros Hc. unfold takeNextCallback. rewrite Hc, map_to_list_singleton.
  assert (range_over [(e, sid)] = [(e, sid)]) as ->.
  { apply Permutation_singleton_r, range_over_perm. }
  assert (delete e ({[ e := sid ]} : gmap string string) = ∅) as ->; [|done].
  apply map_eq. intros k. rewrite lookup_delete, lookup_empty. case_decide; [done|].
  by rewrite lookup_singleton_ne.
Qed.

Lemma completeExecution_eq (e testID status errMsg : string) (at_ : Time) (ex : ScheduleExecution)
    (s : Scheduler) :
  w_faults (s_world s) = [] -> schedule_executions (w_db (s_world s)) !! e = Some ex ->
  st_exec (completeExecution e testID status errMsg at_) s =
  s <| s_world := (s_world s) <| w_db := (w_db (s_world s)) <| schedule_executions :=
    <[e := completed_execution ex testID status errMsg at_]> (schedule_executions (w_db (s_world s)))
    |> |> |>.
Proof.
  intros Hf Hex. unfold completeExecution, completed_execution, UpdateExecution.
  destruct (String.eqb status "completed"); simpl; rewrite exec_sql by done; simpl;
    by rewrite (alter_row _ _ _ ex Hex).
Qed.

(** When one callback is registered and the database answers, the
    completion of a test takes the callback, closes its execution (completed, or
    failed with the message), erases the execution's start time, and moves its
    schedule on. *)
Theorem OnTestComplete_spec (s : Scheduler) (e sid testID status errMsg : string)
    (ex : ScheduleExecution) (row : ScheduledTest) :
  w_faults (s_world s) = [] -> callbacks s = {[ e := sid ]} -> e <> "" ->
  schedule_executions (w_db (s_world s)) !! e = Some ex ->
  scheduled_tests (w_db (s_world s)) !! sid = Some row ->
  let s' := st_exec (OnTestComplete testID status errMsg) s in
  let execs := <[e := completed_execution ex testID status errMsg (now (s_world s))]>
                 (schedule_executions (w_db (s_world s))) in
  let failures := failures_of sid (mkDB (scheduled_tests (w_db (s_world s))) execs) in
  callbacks s' = ∅ /\
  schedule_executions (w_db (s_world s')) = execs /\
  exe_StartedAt (completed_execution ex testID status errMsg (now (s_world s))) = None /\
  scheduled_tests (w_db (s_world s')) =
    <[sid := advanced_row failures (negb (String.eqb status "completed")) row]>
      (scheduled_tests (w_db (s_world s))).
Proof.
  intros Hf Hc He Hex Hrow s' execs failures.
  assert (Hs' : s' = st_exec (applyCompletion (mkCompletion e sid testID status errMsg (now (s_world s))))
    (s <| callbacks := ∅ |>)).
  { unfold s', OnTestComplete, nextCompletion, st_exec, mbind, ST_bind.
    rewrite (take_single s e sid Hc). simpl. by rewrite (proj2 (String.eqb_neq _ _) He). }
  clearbody s'. unfold applyCompletion in Hs'. rewrite st_exec_bind in Hs'. simpl in Hs'.
  rewrite (completeExecution_eq _ _ _ _ _ ex) in Hs' by done.
  rewrite (advance_eq sid _ _ row) in Hs' by done. subst s'. done.
Qed.
End spec.

(** ** Concrete runs *)

Definition test_uuid (n : nat) : string := "u" +:+ itoa (Z.of_nat n).

Definition test_uuids : UuidSource.
Proof.
  refine {| uuid := test_uuid |}.
  - intros m n E. unfold test_uuid in E. simpl in E. injection E as E. apply itoa_inj in E. lia.
  - done.
Defined.

(** An executor that starts every test. *)
Definition start_test `{UuidSource} (req : TestRequest) (userID : Z) (username : string)
  : ST World (res string) := fun w =>
  (Ok (uuid (w_uuids w)), w <| w_uuids := S (w_uuids w) |> <| w_active := uuid (w_uuids w) |>).

Definition test_executor `{UuidSource} : TestExecutor.
Proof.
  refine {| ExecuteTest := start_test |}.
  intros req userID username w. simpl. split_and!; [done|lia|done].
Defined.

Definition once_at (id : string) (at_ : Z) : ScheduledTest :=
  zero_ScheduledTest <| sch_ID := id |> <| sch_Status := "scheduled" |>
    <| sch_RecurrenceType := "once" |> <| sch_ScheduledAt := mkTime at_ UTC |>.

(** Two one-time schedules, due five and six seconds after the start. *)
Definition two_schedules : Scheduler := {|
  s_world := {|
    w_db := mkDB {[ "a" := once_at "a" (5 * Second); "b" := once_at "b" (6 * Second) ]} ∅;
    w_faults := []; w_db_now := 0; w_now := 0; w_uuids := 0; w_active := "" |};
  callbacks := ∅; s_running := false |}.

(** What a tick does with the default choices. *)
Definition run_tick : Scheduler -> Scheduler :=
  st_exec (@tick one_zone merge_row_order test_uuids (@test_executor test_uuids) None).

Definition run_start : Scheduler -> Scheduler := st_exec (@Start one_zone merge_row_order).

(** Another component clears the active test, as the orchestrator does when it
    stops polling at the end of a test. *)
Definition clear_active (s : Scheduler) : Scheduler := s <| s_world := (s_world s) <| w_active := "" |> |>.

Definition run_complete (testID status errMsg : string) : Scheduler -> Scheduler :=
  st_exec (@OnTestComplete one_zone merge_row_order id_map_order testID status errMsg).

Definition two_running : Scheduler := run_tick (clear_active (run_tick (run_start two_schedules))).

(** Status and test of an execution. *)
Definition execution_of (s : Scheduler) (id : string) : option (string * string * option string) :=
  ex ← schedule_executions (w_db (s_world s)) !! id;
  Some (exe_ScheduleID ex, exe_Status ex, exe_LoadTestID ex).

Definition test_step : Scheduler -> sched_event -> Scheduler -> Prop :=
  @sched_step one_zone merge_row_order id_map_order test_uuids (@test_executor test_uuids) None.

Lemma run_tick_step (s : Scheduler) : s_running s = true -> test_step s Tick (run_tick s).
Proof.
  intros Hs. unfold run_tick.
  exact (@sched_tick one_zone merge_row_order id_map_order test_uuids (@test_executor test_uuids) None s Hs).
Qed.

Lemma run_start_step (s : Scheduler) : test_step s Started (run_start s).
Proof.
  unfold run_start.
  exact (@sched_start one_zone merge_row_order id_map_order test_uuids (@test_executor test_uuids) None s).
Qed.

Lemma clear_active_step (s : Scheduler) : test_step s Outside (clear_active s).
Proof. apply sched_outside; [reflexivity|apply Nat.le_refl]. Qed.

Lemma two_schedules_init : @sched_init test_uuids two_schedules.
Proof.
  split_and!; [|done|done|].
  - split; [|done]. intros k st. simpl. rewrite lookup_insert. case_decide as D.
    + by intros [= <-].
    + rewrite lookup_singleton_Some. by intros [<- <-].
  - intros k [ex Hk]. simpl in Hk. rewrite lookup_empty in Hk. done.
Qed.

Lemma two_running_reachable : reachable (@sched_init test_uuids) test_step two_running.
Proof.
  apply (reach_step _ _ _ _ _) with (2 := run_tick_step (clear_active (run_tick (run_start two_schedules)))
    ltac:(vm_compute; reflexivity)).
  apply (reach_step _ _ _ _ _) with (2 := clear_active_step (run_tick (run_start two_schedules))).
  apply (reach_step _ _ _ _ _) with (2 := run_tick_step (run_start two_schedules)
    ltac:(vm_compute; reflexivity)).
  apply (reach_step _ _ _ _ _) with (2 := run_start_step two_schedules).
  apply reach_init, two_schedules_init.
Qed.

(** C39: [OnTestComplete] takes some registered callback, not the one of the
    test that completed.  The orchestrator clears the active test before the
    completion is reported; when a tick starts the next schedule in between,
    the report of the first test (u1, schedule a) can close the execution of
    the second (u2, schedule b) while the second test (u3) is running, and the
    first execution stays open. *)
Theorem completion_misattributed :
  reachable (@sched_init test_uuids) test_step two_running /\
  execution_of two_running "u0" = Some ("a", "running", Some "u1") /\
  execution_of two_running "u2" = Some ("b", "running", Some "u3") /\
  w_active (s_world two_running) = "u3" /\
  let s' := run_complete "u1" "completed" "" two_running in
  execution_of s' "u0" = Some ("a", "running", Some "u1") /\
  execution_of s' "u2" = Some ("b", "completed", Some "u1").
Proof. split; [exact two_running_reachable|vm_compute; auto]. Qed.

Lemma scheduler_invariant_witness : db_wf (w_db (s_world two_running)).
Proof.
  exact (proj1 (@scheduler_invariant one_zone merge_row_order id_map_order test_uuids
    (@test_executor test_uuids) None two_running two_running_reachable)).
Defined.

(** The same tables an hour later. *)
Definition an_hour_later : Scheduler :=
  two_schedules <| s_world := (s_world two_schedules) <| w_now := Hour |> |>.

Lemma recover_refines_witness :
  st_exec (@recover one_zone merge_row_order) an_hour_later =
  an_hour_later <| s_world := (s_world an_hour_later) <| w_db :=
    @recovered_db one_zone (to_utc (now (s_world an_hour_later))) (w_db (s_world an_hour_later)) |> |>.
Proof.
  refine (@recover_refines one_zone merge_row_order an_hour_later _ _).
  - reflexivity.
  - exact (proj1 two_schedules_init).
Defined.

Lemma recovered_clean_witness :
  match scheduled_tests (w_db (s_world (st_exec (@recover one_zone merge_row_order) an_hour_later))) !! "a" with
  | Some st => sch_Status st <> "running"
  | None => True
  end.
Proof.
  destruct (_ !! "a") as [st|] eqn:Hk; [|exact I].
  refine (proj1 (proj2 (@recovered_clean one_zone merge_row_order an_hour_later _ _) "a" st Hk)).
  - reflexivity.
  - exact (proj1 two_schedules_init).
Defined.

Definition a_daily_schedule : ScheduledTest :=
  zero_ScheduledTest <| sch_ID := "d" |> <| sch_Status := "scheduled" |>
    <| sch_RecurrenceType := "daily" |> <| sch_ScheduledAt := saturday |>
    <| sch_Timezone := "Europe/Berlin" |>.

Lemma nextFutureOccurrence_spec_witness :
  exists k, mkTime (1774861200 * Second) UTC = @occ one_zone a_daily_schedule k /\ (0 < k)%nat.
Proof.
  destruct (@nextFutureOccurrence_spec one_zone a_daily_schedule (add saturday (30 * Hour))
    (mkTime (1774861200 * Second) UTC)) as (k & Hk & Hpos & _).
  - unfold recurring_type. auto.
  - exact Berlin2026_steady.
  - vm_compute. discriminate.
  - vm_compute. reflexivity.
  - vm_compute. reflexivity.
  - exists k. split; assumption.
Defined.

Lemma advanceSchedule_spec_witness :
  sch_Status (@advanced_row one_zone 0 false (once_at "a" (5 * Second))) = "scheduled" \/
  sch_Status (@advanced_row one_zone 0 false (once_at "a" (5 * Second))) = "completed" \/
  sch_Status (@advanced_row one_zone 0 false (once_at "a" (5 * Second))) = "failed".
Proof.
  refine (proj1 (proj2 (@advanceSchedule_spec one_zone merge_row_order "a" false two_schedules
    (once_at "a" (5 * Second)) _ _))).
  - reflexivity.
  - reflexivity.
Defined.


Definition one_running : Scheduler := run_tick two_schedules.

Lemma OnTestComplete_spec_witness :
  callbacks (run_complete "u1" "completed" "" one_running) = ∅.
Proof.
  refine (proj1 (@OnTestComplete_spec one_zone merge_row_order id_map_order one_running "u0" "a" "u1"
    "completed" "" _ ((once_at "a" (5 * Second)) <| sch_Status := "running" |>) _ _ _ _ _)).
  - vm_compute. reflexivity.
  - vm_compute. reflexivity.
  - discriminate.
  - vm_compute. reflexivity.
  - vm_compute. reflexivity.
Defined.
