(* ===== verification/Completion.v ===== *)
(** * The registry of test runs: [controller/internal/completion/registry.go]

    Workers upload artifacts for the runs registered here; the controller reads
    them when a test completes.  Every method holds the registry's lock, so an
    operation is a function on the whole state; [time.Now()] is an argument.
    Values are copied where the code copies them, and the maps of a snapshot
    are the copies. *)

From S2P Require Export Prelude GoStrings GoTime GoFloat Json.

Open Scope Z_scope.
Open Scope go_scope.

Definition ArtifactSummary : string := "summary".
Definition ArtifactAuthSummary : string := "auth-summary".
Definition ArtifactPayload : string := "payload".

Inductive UploadError :=
  | ErrUnknownRun
  | ErrUnauthorized
  | ErrUnknownWorker (workerID : string)
  | ErrUnknownArtifact (artifactType : string).

Record Artifact := mkArtifact {
  art_WorkerID : string; art_Content : string; art_ContentType : string; art_ReceivedAt : Time
}.

Record runState := mkRunState {
  run_testID : string;
  run_expectedWorkers : list string;
  run_expectedSet : gset string;
  run_uploadToken : string;
  run_artifacts : gmap string (gmap string Artifact);   (* type -> worker -> artifact *)
  run_createdAt : Time;
  run_closedAt : Time;
  run_expiresAt : Time
}.

#[export] Instance eta_runState : Eta runState := fun r =>
  mkRunState (run_testID r) (run_expectedWorkers r) (run_expectedSet r) (run_uploadToken r)
    (run_artifacts r) (run_createdAt r) (run_closedAt r) (run_expiresAt r).

Record Registry := mkRegistry { runs : gmap string runState; lateUploadTTL : Z }.

#[export] Instance eta_Registry : Eta Registry := fun r => mkRegistry (runs r) (lateUploadTTL r).

Record Snapshot := mkSnapshot {
  snap_TestID : string;
  snap_ExpectedWorkers : list string;
  snap_UploadToken : string;
  snap_Artifacts : gmap string (gmap string Artifact);
  snap_CreatedAt : Time
}.

Definition newRegistryWithTTL (ttl : Z) : Registry :=
  mkRegistry ∅ (if ttl <=? 0 then 5 * Minute else ttl).

Definition NewRegistry : Registry := newRegistryWithTTL (5 * Minute).

(** ** Runs *)

(** A run is dropped once its expiry is set and has passed. *)
Definition expired (t : Time) (run : runState) : bool :=
  negb (is_zero (run_expiresAt run)) && after t (run_expiresAt run).

Definition cleanupExpiredLocked (t : Time) (r : Registry) : Registry :=
  r <| runs := filter (fun kv => expired t kv.2 = false) (runs r) |>.

(** The loop of [RegisterRun]: trimmed names, without blanks and duplicates,
    in their order; [seen] is [expectedSet] so far. *)
Fixpoint normalize_workers (seen : gset string) (l : list string) : gset string * list string :=
  match l with
  | [] => (seen, [])
  | w :: l' =>
    let worker := trim_space w in
    if String.eqb worker "" then normalize_workers seen l'
    else if bool_decide (worker ∈ seen) then normalize_workers seen l'
    else let '(set, ws) := normalize_workers ({[ worker ]} ∪ seen) l' in (set, worker :: ws)
  end.

Definition no_artifacts : gmap string (gmap string Artifact) :=
  {[ ArtifactSummary := ∅; ArtifactAuthSummary := ∅; ArtifactPayload := ∅ ]}.

(** [t1] and [t2] are the two readings of the clock. *)
Definition RegisterRun (t1 t2 : Time) (testID : string) (expectedWorkers : list string)
    (uploadToken : string) (r : Registry) : Registry :=
  let '(expectedSet, normalizedWorkers) := normalize_workers ∅ expectedWorkers in
  let r := cleanupExpiredLocked t1 r in
  r <| runs := <[testID := {|
    run_testID := testID; run_expectedWorkers := normalizedWorkers;
    run_expectedSet := expectedSet; run_uploadToken := uploadToken;
    run_artifacts := no_artifacts; run_createdAt := t2;
    run_closedAt := zero_time; run_expiresAt := zero_time |}]> (runs r) |>.

Definition RemoveRun (t1 t2 : Time) (testID : string) (r : Registry) : Registry :=
  let r := cleanupExpiredLocked t1 r in
  match runs r !! testID with
  | None => r
  | Some run =>
    r <| runs := <[testID := run <| run_closedAt := t2 |>
                                 <| run_expiresAt := add t2 (lateUploadTTL r) |>]> (runs r) |>
  end.

(** ** The signal of an auth summary *)

Record auth_metrics := mkAuthMetrics {
  am_TokenRequestsTotal : float64;
  am_TokenFailureTotal : float64;
  am_ResponseStatusCodes : list (Z * float64);
  am_AbortTriggered : bool;
  am_AbortCause : string;
  am_AbortReason : string
}.

Record authSummarySnapshot := mkAuthSummarySnapshot {
  as_Status : string; as_Metrics : auth_metrics
}.

Definition decode_status_code (j : json) : option (Z * float64) :=
  match j with
  | JNull => Some (0, f_zero)
  | JObj l =>
    code ← decode_field decode_int "code" 0 l;
    count ← decode_field decode_float "count" f_zero l;
    Some (code, count)
  | _ => None
  end.

Definition decode_status_codes (old : list (Z * float64)) (j : json) : option (list (Z * float64)) :=
  match j with
  | JNull => Some []
  | JArr l => mapM decode_status_code l
  | _ => None
  end.

Definition decode_auth_metrics (m : auth_metrics) (j : json) : option auth_metrics :=
  match j with
  | JNull => Some m
  | JObj l =>
    requests ← decode_field decode_float "token_requests_total" (am_TokenRequestsTotal m) l;
    failures ← decode_field decode_float "token_failure_total" (am_TokenFailureTotal m) l;
    codes ← decode_field decode_status_codes "response_status_codes" (am_ResponseStatusCodes m) l;
    triggered ← decode_field decode_bool "abort_triggered" (am_AbortTriggered m) l;
    cause ← decode_field decode_string "abort_cause" (am_AbortCause m) l;
    reason ← decode_field decode_string "abort_reason" (am_AbortReason m) l;
    Some (mkAuthMetrics requests failures codes triggered cause reason)
  | _ => None
  end.

Definition zero_auth_metrics : auth_metrics := mkAuthMetrics f_zero f_zero [] false "" "".

(** [json.Unmarshal] into an [authSummarySnapshot]. *)
Definition unmarshal_auth_summary (s : string) : option authSummarySnapshot :=
  j ← parse_json s;
  match j with
  | JNull => Some (mkAuthSummarySnapshot "" zero_auth_metrics)
  | JObj l =>
    status ← decode_field decode_string "status" "" l;
    metrics ← decode_field decode_auth_metrics "metrics" zero_auth_metrics l;
    Some (mkAuthSummarySnapshot status metrics)
  | _ => None
  end.

Definition authSummarySignal (content : string) : Z :=
  let trimmed := trim_space content in
  if String.eqb trimmed "" then 0
  else
    match unmarshal_auth_summary trimmed with
    | None => 1
    | Some snapshot =>
      let m := as_Metrics snapshot in
      1 + (if negb (blank (as_Status snapshot)) then 1 else 0)
        + (if f_lt f_zero (am_TokenRequestsTotal m) then 10 else 0)
        + (if f_lt f_zero (am_TokenFailureTotal m) then 10 else 0)
        + (if (0 <? Z.of_nat (length (am_ResponseStatusCodes m))) then 5 else 0)
        + (if am_AbortTriggered m then 100 else 0)
        + (if negb (blank (am_AbortCause m)) then 5 else 0)
        + (if negb (blank (am_AbortReason m)) then 5 else 0)
    end.

(** ** Uploads *)

Definition put_artifact (run : runState) (artifactType workerID : string) (a : Artifact) : runState :=
  run <| run_artifacts := alter (fun m => <[workerID := a]> m) artifactType (run_artifacts run) |>.

Definition StoreArtifact (t1 t2 : Time) (testID workerID uploadToken artifactType contentType content : string)
    (r : Registry) : option UploadError * Registry :=
  let r := cleanupExpiredLocked t1 r in
  match runs r !! testID with
  | None => (Some ErrUnknownRun, r)
  | Some run =>
    if String.eqb (run_uploadToken run) "" || negb (String.eqb uploadToken (run_uploadToken run))
    then (Some ErrUnauthorized, r)
    else if negb (bool_decide (workerID ∈ run_expectedSet run))
    then (Some (ErrUnknownWorker workerID), r)
    else
      match run_artifacts run !! artifactType with
      | None => (Some (ErrUnknownArtifact artifactType), r)
      | Some byWorker =>
        let weaker :=
          String.eqb artifactType ArtifactAuthSummary &&
          match byWorker !! workerID with
          | Some existing => authSummarySignal content <=? authSummarySignal (art_Content existing)
          | None => false
          end in
        if weaker then (None, r)
        else
          (None, r <| runs := <[testID := put_artifact run artifactType workerID
                                  (mkArtifact workerID content contentType t2)]> (runs r) |>)
      end
  end.

(** ** Reading a run *)

Definition Registry_Snapshot (t : Time) (testID : string) (r : Registry) : option Snapshot * Registry :=
  match runs r !! testID with
  | None => (None, r)
  | Some _ =>
    let r := cleanupExpiredLocked t r in
    match runs r !! testID with
    | None => (None, r)
    | Some run =>
      (Some (mkSnapshot (run_testID run) (run_expectedWorkers run) (run_uploadToken run)
               (run_artifacts run) (run_createdAt run)), r)
    end
  end.

Section reading.
Context `{MapOrder}.

(** (An empty map gives the empty text in both readers below, as the early
    return does.)  The expected workers that sent an artifact, in the expected order, then the
    others in byte order. *)
Definition orderedArtifactWorkers (expectedWorkers : list string) (artifacts : gmap string Artifact)
  : list string :=
  let ordered := List.filter (fun w => bool_decide (is_Some (artifacts !! w))) expectedWorkers in
  let seen : gset string := list_to_set ordered in
  let extras := List.filter (fun w => negb (bool_decide (w ∈ seen)))
                  (map fst (range_over (map_to_list artifacts))) in
  ordered ++ merge_sort string_le extras.

Definition newline : string := String (chr 10) "".

Definition summary_part (workerID content : string) : string :=
  "--- " +:+ workerID +:+ " ---" +:+ newline +:+ content.

Definition BuildRawSummary (snapshot : Snapshot) (artifactType : string) : string :=
  match snap_Artifacts snapshot !! artifactType with
  | None => ""
  | Some artifacts =>
    GoStrings.join (newline +:+ newline)
      (omap (fun workerID =>
         artifact ← artifacts !! workerID;
         if blank (art_Content artifact) then None
         else Some (summary_part workerID (art_Content artifact)))
       (orderedArtifactWorkers (snap_ExpectedWorkers snapshot) artifacts))
  end.

Definition FirstArtifactContent (snapshot : Snapshot) (artifactType : string) : string :=
  match snap_Artifacts snapshot !! artifactType with
  | None => ""
  | Some artifacts =>
    default ""
      (first_some (fun workerID =>
         artifact ← artifacts !! workerID;
         if blank (art_Content artifact) then None else Some (art_Content artifact))
       (orderedArtifactWorkers (snap_ExpectedWorkers snapshot) artifacts))
  end.
End reading.

(** ** The expected workers *)

Definition run_wf (key : string) (run : runState) : Prop :=
  run_testID run = key /\
  NoDup (run_expectedWorkers run) /\
  (forall w, w ∈ run_expectedWorkers run -> w <> "") /\
  (forall w, w ∈ run_expectedSet run <-> w ∈ run_expectedWorkers run) /\
  (forall ty, is_Some (run_artifacts run !! ty) <->
     ty = ArtifactSummary \/ ty = ArtifactAuthSummary \/ ty = ArtifactPayload) /\
  (forall ty m w a, run_artifacts run !! ty = Some m -> m !! w = Some a ->
     art_WorkerID a = w /\ w ∈ run_expectedSet run).

Definition registry_wf (r : Registry) : Prop :=
  forall k run, runs r !! k = Some run -> run_wf k run.

Lemma normalize_workers_spec (seen : gset string) (l : list string) :
  let '(set, ws) := normalize_workers seen l in
  NoDup ws /\ (forall w, w ∈ ws -> w ∉ seen /\ w <> "") /\ (forall w, w ∈ set <-> w ∈ seen \/ w ∈ ws).
Proof.
  revert seen. induction l as [|w0 l IH]; intros seen; simpl.
  { split_and!; [constructor|set_solver|set_solver]. }
  destruct (String.eqb (trim_space w0) "") eqn:E; [apply IH|].
  case_bool_decide as D; [apply IH|]. bool_prop.
  specialize (IH ({[trim_space w0]} ∪ seen)). destruct (normalize_workers _ l) as [set ws].
  destruct IH as (Hnd & Hws & Hset). split_and!.
  - constructor; [|done]. intros Hin. destruct (Hws _ Hin). set_solver.
  - intros w Hw. apply elem_of_cons in Hw as [-> | Hw]; [done|].
    destruct (Hws w Hw). set_solver.
  - intros w. rewrite Hset. set_solver.
Qed.

Lemma cleanup_lookup (t : Time) (r : Registry) (k : string) (run : runState) :
  runs (cleanupExpiredLocked t r) !! k = Some run <-> runs r !! k = Some run /\ expired t run = false.
Proof. unfold cleanupExpiredLocked; simpl. rewrite map_lookup_filter_Some. done. Qed.

Lemma cleanup_wf (t : Time) (r : Registry) : registry_wf r -> registry_wf (cleanupExpiredLocked t r).
Proof. intros Hr k run Hk. apply cleanup_lookup in Hk as [Hk _]. auto. Qed.

Lemma insert_wf (r : Registry) (k : string) (run : runState) :
  registry_wf r -> run_wf k run -> registry_wf (r <| runs := <[k := run]> (runs r) |>).
Proof.
  intros Hr Hrun k' run'. simpl. rewrite lookup_insert. case_decide as D; [|apply Hr].
  intros [= <-]. by subst.
Qed.

Lemma put_artifact_wf (k : string) (run : runState) (ty w : string) (a : Artifact) :
  run_wf k run -> w ∈ run_expectedSet run -> art_WorkerID a = w -> run_wf k (put_artifact run ty w a).
Proof.
  intros (H1 & H2 & H3 & H4 & H5 & H6) Hw Ha. unfold run_wf, put_artifact; simpl.
  split_and!; [done..| |].
  - intros ty'. rewrite <- H5, lookup_alter. case_decide as D; [|done]. subst ty'.
    by rewrite fmap_is_Some.
  - intros ty' m w' a'. rewrite lookup_alter. case_decide as D; [|apply H6]. subst ty'.
    destruct (run_artifacts run !! ty) as [m0|] eqn:E; [|done]. intros [= <-].
    rewrite lookup_insert. case_decide as D; [|by apply (H6 ty)]. intros [= <-]. by subst.
Qed.

(** The operations of the registry as steps. *)
Inductive registry_op :=
  | OpRegister (t1 t2 : Time) (testID : string) (expectedWorkers : list string) (uploadToken : string)
  | OpRemove (t1 t2 : Time) (testID : string)
  | OpStore (t1 t2 : Time) (testID workerID uploadToken artifactType contentType content : string)
  | OpSnapshot (t : Time) (testID : string).

Definition apply_op (op : registry_op) (r : Registry) : Registry :=
  match op with
  | OpRegister t1 t2 testID ws tok => RegisterRun t1 t2 testID ws tok r
  | OpRemove t1 t2 testID => RemoveRun t1 t2 testID r
  | OpStore t1 t2 testID w tok ty ct c => (StoreArtifact t1 t2 testID w tok ty ct c r).2
  | OpSnapshot t testID => (Registry_Snapshot t testID r).2
  end.

Lemma apply_op_wf (op : registry_op) (r : Registry) : registry_wf r -> registry_wf (apply_op op r).
Proof.
  intros Hr. destruct op as [t1 t2 testID ws tok|t1 t2 testID|t1 t2 testID w tok ty ct c|t testID]; simpl.
  - unfold RegisterRun. pose proof (normalize_workers_spec ∅ ws) as Hn.
    destruct (normalize_workers ∅ ws) as [set l]. destruct Hn as (Hnd & Hl & Hset).
    apply insert_wf; [by apply cleanup_wf|]. unfold run_wf; simpl. split_and!; [done|done| | | |].
    + intros w Hw. by apply Hl.
    + intros w. rewrite Hset. set_solver.
    + intros ty. unfold no_artifacts. rewrite <- elem_of_dom, !dom_insert_L, dom_singleton_L. set_solver.
    + intros ty m w a Hm Ha. exfalso. unfold no_artifacts in Hm.
      rewrite !lookup_insert in Hm. repeat case_decide; [by simplify_eq..|].
      apply lookup_singleton_Some in Hm as [_ <-]. done.
  - unfold RemoveRun. pose proof (cleanup_wf t1 r Hr) as Hc.
    destruct (runs (cleanupExpiredLocked t1 r) !! testID) as [run|] eqn:E; [|done].
    apply insert_wf; [done|]. by apply Hc in E.
  - unfold StoreArtifact. pose proof (cleanup_wf t1 r Hr) as Hc.
    destruct (runs (cleanupExpiredLocked t1 r) !! testID) as [run|] eqn:E; [|done].
    destruct (_ || _); [done|]. case_bool_decide as D; [|done]. cbn [negb].
    destruct (run_artifacts run !! ty) as [m|]; [|done]. destruct (_ && _); [done|]. cbn [snd].
    apply (insert_wf _ _ _ Hc). apply put_artifact_wf; [by apply Hc|done|done].
  - unfold Registry_Snapshot. destruct (runs r !! testID); [|done].
    pose proof (cleanup_wf t r Hr) as Hc.
    destruct (runs (cleanupExpiredLocked t r) !! testID); done.
Qed.

(** C38: after any sequence of operations on a new registry, every run has its
    expected workers without blanks and duplicates, holds artifacts of the
    three known types only, and each artifact under the name of the expected
    worker that sent it. *)
Theorem registry_invariant (ttl : Z) (ops : list registry_op) :
  registry_wf (foldl (fun r op => apply_op op r) (newRegistryWithTTL ttl) ops).
Proof.
  assert (Hi : registry_wf (newRegistryWithTTL ttl)) by done. revert Hi.
  generalize (newRegistryWithTTL ttl). induction ops as [|op ops IH]; intros r Hr; simpl; [done|].
  by apply IH, apply_op_wf.
Qed.

(** ** Uploads *)

Definition artifact_of (r : Registry) (testID ty w : string) : option Artifact :=
  run ← runs r !! testID; m ← run_artifacts run !! ty; m !! w.

(** The artifact kept when a new one arrives: of two auth summaries the one with
    the stronger signal, the old one when they are equal. *)
Definition kept (ty : string) (old : option Artifact) (new : Artifact) : Artifact :=
  match old with
  | Some a =>
    if String.eqb ty ArtifactAuthSummary &&
       (authSummarySignal (art_Content new) <=? authSummarySignal (art_Content a)) then a else new
  | None => new
  end.

(** An upload the registry accepts. *)
Definition accepted (r : Registry) (testID w tok ty : string) : Prop :=
  exists run, runs r !! testID = Some run /\ run_uploadToken run <> "" /\ tok = run_uploadToken run /\
    w ∈ run_expectedSet run /\ is_Some (run_artifacts run !! ty).

Lemma put_artifact_lookup (r : Registry) (testID ty w : string) (run : runState)
    (m : gmap string Artifact) (a : Artifact) (testID' ty' w' : string) :
  runs r !! testID = Some run -> run_artifacts run !! ty = Some m ->
  artifact_of (r <| runs := <[testID := put_artifact run ty w a]> (runs r) |>) testID' ty' w' =
  if decide ((testID', ty', w') = (testID, ty, w)) then Some a else artifact_of r testID' ty' w'.
Proof.
  intros Hrun Hm. unfold artifact_of; simpl. rewrite lookup_insert.
  destruct (decide (testID = testID')) as [<-|Hne]; simpl.
  - rewrite lookup_alter, Hrun. simpl. destruct (decide (ty = ty')) as [<-|Hne]; simpl.
    + rewrite Hm. simpl. rewrite lookup_insert.
      destruct (decide (w = w')) as [<-|Hne]; simpl; [by rewrite decide_True|].
      rewrite decide_False; [done|congruence].
    + rewrite decide_False; [done|congruence].
  - rewrite decide_False; [done|congruence].
Qed.

(** C22: an upload succeeds exactly when the run is known and not expired, has
    a token and the upload carries it, the worker is expected and the type is
    known.  A refused upload changes nothing (beside dropping expired runs); an
    accepted one changes one artifact, and an auth summary is never replaced by
    one with a weaker or equal signal. *)
Theorem StoreArtifact_spec (t1 t2 : Time) (testID w tok ty ct content : string) (r : Registry) :
  let live := cleanupExpiredLocked t1 r in
  let '(err, r') := StoreArtifact t1 t2 testID w tok ty ct content r in
  (err = None <-> accepted live testID w tok ty) /\
  (err <> None -> r' = live) /\
  (err = None -> forall testID' ty' w',
     artifact_of r' testID' ty' w' =
     if decide ((testID', ty', w') = (testID, ty, w))
     then Some (kept ty (artifact_of live testID ty w) (mkArtifact w content ct t2))
     else artifact_of live testID' ty' w').
Proof.
  intros live. unfold StoreArtifact. fold live. unfold accepted.
  destruct (runs live !! testID) as [run|] eqn:Hrun.
  2:{ split_and!; [split; [done|]|done|done]. intros (run & Hr & _). done. }
  destruct (String.eqb (run_uploadToken run) "" || negb (String.eqb tok (run_uploadToken run))) eqn:Ht.
  { split_and!; [split; [done|]|done|done]. intros (run' & [= <-] & He & -> & _).
    rewrite String.eqb_refl, (proj2 (String.eqb_neq _ _) He) in Ht. done. }
  apply orb_false_iff in Ht as [Ht1 Ht2]. bool_prop.
  case_bool_decide as Hw; cbn [negb].
  2:{ split_and!; [split; [done|]|done|done]. intros (run' & [= <-] & _ & _ & Hin & _). done. }
  destruct (run_artifacts run !! ty) as [m|] eqn:Hm.
  2:{ split_and!; [split; [done|]|done|done]. intros (run' & [= <-] & _ & _ & _ & [x Hx]). congruence. }
  assert (Hacc : exists run0, Some run = Some run0 /\ run_uploadToken run0 <> "" /\
    tok = run_uploadToken run0 /\ w ∈ run_expectedSet run0 /\ is_Some (run_artifacts run0 !! ty))
    by (exists run; rewrite Hm; eauto).
  assert (Hold : artifact_of live testID ty w = m !! w)
    by (unfold artifact_of; rewrite Hrun; simpl; rewrite Hm; done).
  rewrite Hold. set (new := mkArtifact w content ct t2).
  set (weaker := String.eqb ty ArtifactAuthSummary && _).
  assert (Hk : kept ty (m !! w) new = if weaker then default new (m !! w) else new).
  { unfold kept, weaker. destruct (m !! w) as [a|]; [done|]. by rewrite andb_false_r. }
  destruct weaker eqn:Hweak; (split_and!; [split; [done|]|done|]; [done|]); intros _ testID' ty' w'.
  - case_decide as D; [|done]. injection D as -> -> ->. rewrite Hold, Hk.
    unfold weaker in Hweak. destruct (m !! w); [done|]. by rewrite andb_false_r in Hweak.
  - rewrite (put_artifact_lookup live testID ty w run m) by done. by rewrite Hk.
Qed.

(** ** The life of a run *)

(** A run stays until it is removed; a removed run still accepts late
    uploads for the registry's grace time and is unknown afterwards. *)
Theorem run_lifetime (t1 t2 t : Time) (testID : string) (r : Registry) (run : runState) :
  runs (cleanupExpiredLocked t1 r) !! testID = Some run ->
  (is_zero (run_expiresAt run) = true ->
   runs (cleanupExpiredLocked t (cleanupExpiredLocked t1 r)) !! testID = Some run) /\
  (unix_ns t2 + lateUploadTTL r <> zero_ns ->
   is_Some (runs (cleanupExpiredLocked t (RemoveRun t1 t2 testID r)) !! testID) <->
   unix_ns t <= unix_ns t2 + lateUploadTTL r).
Proof.
  intros Hrun. split.
  - intros Hz. apply cleanup_lookup. split; [done|]. unfold expired. by rewrite Hz.
  - intros Hz. unfold RemoveRun. rewrite Hrun.
    set (run' := run <| run_closedAt := t2 |> <| run_expiresAt := _ |>).
    assert (He : expired t run' = false <-> unix_ns t <= unix_ns t2 + lateUploadTTL r).
    { unfold expired, is_zero, after, add, run'; simpl.
      rewrite (proj2 (Z.eqb_neq _ _) Hz). simpl. apply Z.ltb_ge. }
    rewrite <- He. clearbody run'. unfold is_Some. setoid_rewrite cleanup_lookup. simpl.
    rewrite lookup_insert_eq. split; [by intros (x & [= <-] & Hx)|eauto].
Qed.

(** ** The text of the artifacts *)

Lemma merge_sort_perm_eq (l k : list string) :
  l ≡ₚ k -> merge_sort string_le l = merge_sort string_le k.
Proof.
  intros Hp. apply (Sorted_unique string_le).
  - apply (Sorted_merge_sort _).
  - apply (Sorted_merge_sort _).
  - by rewrite !merge_sort_Permutation.
Qed.

(** The workers whose artifacts are merged are the ones that sent one, each
    once: first the expected ones in the expected order, then the others in
    byte order; neither the list nor the merged text depends on the order in
    which Go visits the map. *)
Theorem orderedArtifactWorkers_spec (o1 o2 : MapOrder) (expected : list string)
    (artifacts : gmap string Artifact) (snapshot : Snapshot) (ty : string) :
  NoDup expected ->
  (NoDup (@orderedArtifactWorkers o1 expected artifacts) /\
   (forall w, w ∈ @orderedArtifactWorkers o1 expected artifacts <-> is_Some (artifacts !! w))) /\
  @orderedArtifactWorkers o1 expected artifacts = @orderedArtifactWorkers o2 expected artifacts /\
  @BuildRawSummary o1 snapshot ty = @BuildRawSummary o2 snapshot ty.
Proof.
  intros Hnd.
  assert (Heq : forall e a, @orderedArtifactWorkers o1 e a = @orderedArtifactWorkers o2 e a).
  { intros e a. unfold orderedArtifactWorkers. f_equal. apply merge_sort_perm_eq, filter_perm.
    apply fmap_Permutation. by rewrite !range_over_perm. }
  split_and!; [| |apply Heq|unfold BuildRawSummary; destruct (_ !! ty); [by rewrite Heq|done]].
  - unfold orderedArtifactWorkers. apply NoDup_app. split_and!.
    + apply NoDup_ListNoDup, List.NoDup_filter, NoDup_ListNoDup, Hnd.
    + intros w Hw. rewrite merge_sort_Permutation, list_elem_of_In, List.filter_In.
      intros [_ Hb]. bool_prop. apply Hb, elem_of_list_to_set, Hw.
    + rewrite merge_sort_Permutation. apply NoDup_ListNoDup, List.NoDup_filter, NoDup_ListNoDup.
      assert (map fst (@range_over o1 _ (map_to_list artifacts)) ≡ₚ (map_to_list artifacts).*1) as ->
        by (apply fmap_Permutation, range_over_perm).
      apply NoDup_fst_map_to_list.
  - intros w. unfold orderedArtifactWorkers.
    rewrite elem_of_app, merge_sort_Permutation, !list_elem_of_In, !List.filter_In, <- !list_elem_of_In.
    assert (Hdom : w ∈ map fst (@range_over o1 _ (map_to_list artifacts)) <-> is_Some (artifacts !! w)).
    { rewrite list_elem_of_fmap. setoid_rewrite range_over_perm. split.
      - intros ([k a] & -> & Hk). apply elem_of_map_to_list in Hk. eauto.
      - intros [a Ha]. exists (w, a). by rewrite elem_of_map_to_list. }
    rewrite Hdom, negb_true_iff, bool_decide_eq_false, bool_decide_eq_true, elem_of_list_to_set.
    assert (forall (p : string -> bool) l, w ∈ List.filter p l <-> w ∈ l /\ p w = true) as Hfi
      by (intros p l; rewrite !list_elem_of_In; apply List.filter_In).
    rewrite Hfi, bool_decide_eq_true.
    destruct (decide (w ∈ expected)); tauto.
Qed.

(** ** Concrete inputs *)

Definition start : Time := mkTime Hour UTC.

Definition one_run : Registry :=
  RegisterRun start start "t" [" w1 "; "w2"; "w1"; ""] "secret" NewRegistry.

Definition the_run : runState := {|
  run_testID := "t"; run_expectedWorkers := ["w1"; "w2"]; run_expectedSet := {[ "w1"; "w2" ]};
  run_uploadToken := "secret"; run_artifacts := no_artifacts; run_createdAt := start;
  run_closedAt := zero_time; run_expiresAt := zero_time |}.

Lemma run_lifetime_witness :
  is_Some (runs (cleanupExpiredLocked (add start Minute) (RemoveRun start start "t" one_run)) !! "t").
Proof.
  refine (proj2 (proj2 (run_lifetime start start (add start Minute) "t" one_run the_run _) _) _).
  - vm_compute. reflexivity.
  - vm_compute. discriminate.
  - vm_compute. discriminate.
Defined.

Definition an_artifact (w content : string) : Artifact := mkArtifact w content "application/json" start.

Lemma orderedArtifactWorkers_spec_witness :
  NoDup (@orderedArtifactWorkers rev_map_order ["w2"; "w1"]
    {[ "w1" := an_artifact "w1" "{}"; "w3" := an_artifact "w3" "{}" ]}).
Proof.
  refine (proj1 (proj1 (orderedArtifactWorkers_spec rev_map_order id_map_order ["w2"; "w1"]
    {[ "w1" := an_artifact "w1" "{}"; "w3" := an_artifact "w3" "{}" ]}
    (mkSnapshot "t" [] "" ∅ start) ArtifactSummary _))).
  apply NoDup_cons. split; [|apply NoDup_cons; split; [apply not_elem_of_nil|constructor]].
  intros Hin. apply list_elem_of_singleton in Hin. discriminate.
Defined.

Example auth_signal_ex :
  authSummarySignal (quoted "{'status':'ok','metrics':{'token_requests_total':2,'abort_triggered':true}}") = 112 /\
  authSummarySignal "{" = 1 /\ authSummarySignal "  " = 0.
Proof. vm_compute. auto. Qed.
