(* ===== verification/Summary.v ===== *)
(** * Summaries of the workers: [controller/internal/scriptgen/summary.go]

    At the end of a run k6 writes one summary per worker, as a file in the
    output directory or as an upload.  This file reads them, from the directory
    or from the stored text, and merges them: counters are summed, latencies
    are averaged with the request counts as weights. *)

From S2P Require Export Prelude GoStrings GoFloat Json Model Completion.

Open Scope Z_scope.
Open Scope go_scope.

(** ** Data *)

Record K6SummaryMetric := mkSummaryMetric {
  ksm_Type : string;
  ksm_Contains : string;
  ksm_Values : gmap string float64;
  ksm_Thresholds : gmap string bool     (* a threshold is its [ok] *)
}.

Record K6SummaryData := mkSummaryData {
  ksd_Metrics : gmap string K6SummaryMetric;
  ksd_TestRunDurationMs : float64
}.

Record SummaryPercentiles := mkPercentiles { sp_P90 : float64; sp_P95 : float64; sp_P99 : float64 }.

Record SummaryLatencyStats := mkLatency {
  sl_Avg : float64; sl_Med : float64; sl_P90 : float64; sl_P95 : float64; sl_P99 : float64;
  sl_Min : float64; sl_Max : float64
}.

#[export] Instance eta_SummaryLatencyStats : Eta SummaryLatencyStats := fun s =>
  mkLatency (sl_Avg s) (sl_Med s) (sl_P90 s) (sl_P95 s) (sl_P99 s) (sl_Min s) (sl_Max s).

Record SummaryBreakdownStats := mkBreakdown {
  sb_Blocked : SummaryLatencyStats; sb_Waiting : SummaryLatencyStats;
  sb_Sending : SummaryLatencyStats; sb_Receiving : SummaryLatencyStats;
  sb_Connecting : SummaryLatencyStats; sb_TLSHandshaking : SummaryLatencyStats
}.

Record WorkerSummaryMetrics := mkWorkerSummary {
  ws_Name : string;
  ws_Requests : float64;
  ws_BusinessRequests : float64;
  ws_BusinessSuccesses : float64;
  ws_BusinessFailures : float64;
  ws_BusinessStatus2xx : float64;
  ws_BusinessStatus4xx : float64;
  ws_BusinessStatus5xx : float64;
  ws_BusinessTransportFailures : float64;
  ws_AuthRequests : float64;
  ws_ErrorRate : float64;
  ws_Latency : SummaryLatencyStats;
  ws_BusinessLatency : SummaryLatencyStats;
  ws_DurationMs : float64
}.

Record MergedSummaryMetrics := mkMerged {
  ms_RawWorkerCount : Z;
  ms_HasBusinessMetrics : bool;
  ms_TotalRequests : float64;
  ms_TotalSuccesses : float64;
  ms_TotalFailures : float64;
  ms_TotalStatus4xx : float64;
  ms_TotalStatus5xx : float64;
  ms_Iterations : float64;
  ms_ChecksPasses : float64;
  ms_ChecksFails : float64;
  ms_TotalLatency : SummaryLatencyStats;
  ms_BusinessRequests : float64;
  ms_BusinessSuccesses : float64;
  ms_BusinessFailures : float64;
  ms_BusinessStatus2xx : float64;
  ms_BusinessStatus4xx : float64;
  ms_BusinessStatus5xx : float64;
  ms_BusinessTransportFailures : float64;
  ms_BusinessLatency : SummaryLatencyStats;
  ms_BusinessBreakdown : option SummaryBreakdownStats;
  ms_Workers : list WorkerSummaryMetrics;
  ms_Thresholds : list ThresholdResult
}.

#[export] Instance eta_MergedSummaryMetrics : Eta MergedSummaryMetrics := fun m =>
  mkMerged (ms_RawWorkerCount m) (ms_HasBusinessMetrics m) (ms_TotalRequests m) (ms_TotalSuccesses m)
    (ms_TotalFailures m) (ms_TotalStatus4xx m) (ms_TotalStatus5xx m) (ms_Iterations m)
    (ms_ChecksPasses m) (ms_ChecksFails m) (ms_TotalLatency m) (ms_BusinessRequests m)
    (ms_BusinessSuccesses m) (ms_BusinessFailures m) (ms_BusinessStatus2xx m) (ms_BusinessStatus4xx m)
    (ms_BusinessStatus5xx m) (ms_BusinessTransportFailures m) (ms_BusinessLatency m)
    (ms_BusinessBreakdown m) (ms_Workers m) (ms_Thresholds m).

Record AuthRuntimeMetrics := mkAuthRuntime {
  ar_TokenRequestsTotal : float64;
  ar_TokenSuccessTotal : float64;
  ar_TokenFailureTotal : float64;
  ar_TokenSuccessRate : float64;
  ar_TokenRequestAvgMs : float64;
  ar_TokenRequestP95Ms : float64;
  ar_TokenRequestP99Ms : float64;
  ar_TokenRequestMaxMs : float64;
  ar_TokenRefreshTotal : float64;
  ar_TokenReuseHitsTotal : float64;
  ar_ResponseStatusCodes : list (Z * float64);   (* code and count *)
  ar_AbortTriggered : bool;
  ar_AbortCause : string;
  ar_AbortReason : string;
  ar_AbortHTTPStatusCodes : list Z;
  ar_AbortRetryable : bool
}.

#[export] Instance eta_AuthRuntimeMetrics : Eta AuthRuntimeMetrics := fun m =>
  mkAuthRuntime (ar_TokenRequestsTotal m) (ar_TokenSuccessTotal m) (ar_TokenFailureTotal m)
    (ar_TokenSuccessRate m) (ar_TokenRequestAvgMs m) (ar_TokenRequestP95Ms m) (ar_TokenRequestP99Ms m)
    (ar_TokenRequestMaxMs m) (ar_TokenRefreshTotal m) (ar_TokenReuseHitsTotal m)
    (ar_ResponseStatusCodes m) (ar_AbortTriggered m) (ar_AbortCause m) (ar_AbortReason m)
    (ar_AbortHTTPStatusCodes m) (ar_AbortRetryable m).

Record AuthSummaryData := mkAuthSummary {
  au_Status : string; au_Message : string; au_Mode : string; au_TokenURL : string;
  au_ClientAuthMethod : string; au_RefreshSkewSeconds : Z; au_Metrics : AuthRuntimeMetrics
}.

#[export] Instance eta_AuthSummaryData : Eta AuthSummaryData := fun a =>
  mkAuthSummary (au_Status a) (au_Message a) (au_Mode a) (au_TokenURL a) (au_ClientAuthMethod a)
    (au_RefreshSkewSeconds a) (au_Metrics a).

Record namedSummary := mkNamed { ns_Name : string; ns_Summary : K6SummaryData }.
Record namedAuthSummary := mkNamedAuth { nas_Name : string; nas_Summary : AuthSummaryData }.

Definition zero_latency : SummaryLatencyStats :=
  mkLatency f_zero f_zero f_zero f_zero f_zero f_zero f_zero.

Definition zero_AuthRuntimeMetrics : AuthRuntimeMetrics :=
  mkAuthRuntime f_zero f_zero f_zero f_zero f_zero f_zero f_zero f_zero f_zero f_zero [] false "" "" [] false.

(** ** Decoding *)

(** A Go map: [null] is the nil map, a member is decoded into a zero value, and
    the last of several members with one name stays. *)
Definition decode_map {A} (dec : json -> option A) (old : gmap string A) (j : json)
  : option (gmap string A) :=
  match j with
  | JNull => Some ∅
  | JObj l => foldl (fun m kv => m ← m; v ← dec kv.2; Some (<[kv.1 := v]> m)) (Some old) l
  | _ => None
  end.

Definition decode_threshold (j : json) : option bool :=
  match j with
  | JNull => Some false
  | JObj l => decode_field decode_bool "ok" false l
  | _ => None
  end.

Definition decode_metric (j : json) : option K6SummaryMetric :=
  match j with
  | JNull => Some (mkSummaryMetric "" "" ∅ ∅)
  | JObj l =>
    type ← decode_field decode_string "type" "" l;
    contains ← decode_field decode_string "contains" "" l;
    values ← decode_field (decode_map (decode_float f_zero)) "values" ∅ l;
    thresholds ← decode_field (decode_map decode_threshold) "thresholds" ∅ l;
    Some (mkSummaryMetric type contains values thresholds)
  | _ => None
  end.

Definition decode_state (duration : float64) (j : json) : option float64 :=
  match j with
  | JNull => Some duration
  | JObj l => decode_field decode_float "testRunDurationMs" duration l
  | _ => None
  end.

(** [json.Unmarshal] into a [K6SummaryData]. *)
Definition unmarshal_summary (s : string) : option K6SummaryData :=
  j ← parse_json s;
  match j with
  | JNull => Some (mkSummaryData ∅ f_zero)
  | JObj l =>
    metrics ← decode_field (decode_map decode_metric) "metrics" ∅ l;
    duration ← decode_field decode_state "state" f_zero l;
    Some (mkSummaryData metrics duration)
  | _ => None
  end.

Definition decode_ints (old : list Z) (j : json) : option (list Z) :=
  match j with
  | JNull => Some []
  | JArr l => mapM (decode_int 0) l
  | _ => None
  end.

Definition decode_runtime_metrics (m : AuthRuntimeMetrics) (j : json) : option AuthRuntimeMetrics :=
  match j with
  | JNull => Some m
  | JObj l =>
    let num name old := decode_field decode_float name old l in
    requests ← num "token_requests_total" (ar_TokenRequestsTotal m);
    successes ← num "token_success_total" (ar_TokenSuccessTotal m);
    failures ← num "token_failure_total" (ar_TokenFailureTotal m);
    rate ← num "token_success_rate" (ar_TokenSuccessRate m);
    avg ← num "token_request_avg_ms" (ar_TokenRequestAvgMs m);
    p95 ← num "token_request_p95_ms" (ar_TokenRequestP95Ms m);
    p99 ← num "token_request_p99_ms" (ar_TokenRequestP99Ms m);
    mx ← num "token_request_max_ms" (ar_TokenRequestMaxMs m);
    refreshes ← num "token_refresh_total" (ar_TokenRefreshTotal m);
    reuses ← num "token_reuse_hits_total" (ar_TokenReuseHitsTotal m);
    codes ← decode_field decode_status_codes "response_status_codes" (ar_ResponseStatusCodes m) l;
    triggered ← decode_field decode_bool "abort_triggered" (ar_AbortTriggered m) l;
    cause ← decode_field decode_string "abort_cause" (ar_AbortCause m) l;
    reason ← decode_field decode_string "abort_reason" (ar_AbortReason m) l;
    aborts ← decode_field decode_ints "abort_http_status_codes" (ar_AbortHTTPStatusCodes m) l;
    retryable ← decode_field decode_bool "abort_retryable" (ar_AbortRetryable m) l;
    Some (mkAuthRuntime requests successes failures rate avg p95 p99 mx refreshes reuses codes triggered
            cause reason aborts retryable)
  | _ => None
  end.

(** [json.Unmarshal] into an [AuthSummaryData]. *)
Definition unmarshal_auth_data (s : string) : option AuthSummaryData :=
  j ← parse_json s;
  match j with
  | JNull => Some (mkAuthSummary "" "" "" "" "" 0 zero_AuthRuntimeMetrics)
  | JObj l =>
    status ← decode_field decode_string "status" "" l;
    message ← decode_field decode_string "message" "" l;
    mode ← decode_field decode_string "mode" "" l;
    url ← decode_field decode_string "token_url" "" l;
    method ← decode_field decode_string "client_auth_method" "" l;
    skew ← decode_field decode_int "refresh_skew_seconds" 0 l;
    metrics ← decode_field decode_runtime_metrics "metrics" zero_AuthRuntimeMetrics l;
    Some (mkAuthSummary status message mode url method skew metrics)
  | _ => None
  end.

(** ** Counters and codes *)

(** [metric.Values[key]], zero when the metric or the key is absent. *)
Definition metricValue (metric : option K6SummaryMetric) (key : string) : float64 :=
  default f_zero (m ← metric; ksm_Values m !! key).

Definition appendUniqueStatusCodes (target values : list Z) : list Z :=
  match values with
  | [] => target
  | _ => merge_sort Z.le
      (foldl (fun target code =>
         if (code <=? 0) || bool_decide (code ∈ target) then target else target ++ [code])
       target values)
  end.

Definition max0 (value : float64) : float64 := if f_lt value f_zero then f_zero else value.

Definition normalizeRoundedCount (value : float64) : float64 :=
  if f_le value f_zero then f_zero else f_round value.

(** [merged[entry.Code] += entry.Count] for the positive entries. *)
Definition count_code (merged : gmap Z float64) (entry : Z * float64) : gmap Z float64 :=
  if (entry.1 <=? 0) || f_le entry.2 f_zero then merged
  else <[entry.1 := f_add (default f_zero (merged !! entry.1)) entry.2]> merged.

Definition code_le (a b : Z * float64) : Prop := a.1 <= b.1.
#[export] Instance code_le_dec : RelDecision code_le := fun a b => Z_le_dec a.1 b.1.

(** The keys of a map are distinct, so sorting the entries by their code gives
    one list whatever the order of the iteration. *)
Definition mergeStatusCodeCounts (target values : list (Z * float64)) : list (Z * float64) :=
  match values with
  | [] => target
  | _ => merge_sort code_le (map_to_list (foldl count_code (foldl count_code ∅ target) values))
  end.

(** ** Latencies *)

Definition shouldUseLatencyMin (metricName : string) (mn : float64) : bool :=
  if f_lt mn f_zero then false
  else if String.eqb metricName "http_req_duration" || String.eqb metricName "business_http_duration_ms"
  then f_lt f_zero mn
  else true.

Definition weightedLatency (stats : SummaryLatencyStats) (metric : K6SummaryMetric) (weight : float64)
  : SummaryLatencyStats :=
  let value key := f_mul (metricValue (Some metric) key) weight in
  stats <| sl_Avg := f_add (sl_Avg stats) (value "avg") |>
        <| sl_Med := f_add (sl_Med stats) (value "med") |>
        <| sl_P90 := f_add (sl_P90 stats) (value "p(90)") |>
        <| sl_P95 := f_add (sl_P95 stats) (value "p(95)") |>
        <| sl_P99 := f_add (sl_P99 stats) (value "p(99)") |>.

Definition finalizeWeightedLatency (stats : SummaryLatencyStats) (weight mn mx : float64) (minSet : bool)
  : SummaryLatencyStats :=
  let stats :=
    if f_lt f_zero weight then
      stats <| sl_Avg := f_div (sl_Avg stats) weight |> <| sl_Med := f_div (sl_Med stats) weight |>
            <| sl_P90 := f_div (sl_P90 stats) weight |> <| sl_P95 := f_div (sl_P95 stats) weight |>
            <| sl_P99 := f_div (sl_P99 stats) weight |>
    else stats in
  (if minSet then stats <| sl_Min := mn |> else stats) <| sl_Max := mx |>.

(** The variables of the loop of [aggregateLatencyMetric]. *)
Record latency_acc := mkLatencyAcc {
  la_weighted : SummaryLatencyStats; la_totalW : float64; la_minV : float64; la_maxV : float64;
  la_minSet : bool; la_foundAny : bool
}.

Definition summary_metric (summary : namedSummary) (name : string) : option K6SummaryMetric :=
  ksd_Metrics (ns_Summary summary) !! name.

Definition summary_weight (summary : namedSummary) (weightMetricName : string) : float64 :=
  let weight := metricValue (summary_metric summary weightMetricName) "count" in
  let weight := if f_le weight f_zero then metricValue (summary_metric summary "http_reqs") "count"
                else weight in
  if f_le weight f_zero then f_one else weight.

Definition summary_latency_step (metricName weightMetricName : string) (a : latency_acc)
    (summary : namedSummary) : latency_acc :=
  match summary_metric summary metricName with
  | None => a
  | Some metric =>
    let weight := summary_weight summary weightMetricName in
    let mn := metricValue (Some metric) "min" in
    let mx := metricValue (Some metric) "max" in
    let use := shouldUseLatencyMin metricName mn && (negb (la_minSet a) || f_lt mn (la_minV a)) in
    {| la_weighted := weightedLatency (la_weighted a) metric weight;
       la_totalW := f_add (la_totalW a) weight;
       la_minV := if use then mn else la_minV a;
       la_maxV := if f_lt (la_maxV a) mx then mx else la_maxV a;
       la_minSet := use || la_minSet a;
       la_foundAny := true |}
  end.

Definition zero_latency_acc : latency_acc := mkLatencyAcc zero_latency f_zero f_zero f_zero false false.

Definition aggregateLatencyMetric (summaries : list namedSummary) (metricName weightMetricName : string)
  : option SummaryLatencyStats :=
  let a := foldl (summary_latency_step metricName weightMetricName) zero_latency_acc summaries in
  if negb (la_foundAny a) then None
  else Some (finalizeWeightedLatency (la_weighted a) (la_totalW a) (la_minV a) (la_maxV a) (la_minSet a)).

(** ** Merging *)

Definition summaryHasBusinessMetrics (summary : K6SummaryData) : bool :=
  existsb (fun key => bool_decide (is_Some (ksd_Metrics summary !! key)))
    ["business_http_requests_total"; "business_http_success_total"; "business_http_failure_total";
     "business_status_2xx"; "business_status_4xx"; "business_status_5xx";
     "business_transport_failures_total"; "business_http_duration_ms"].

Definition buildWorkerSummaryMetrics (summary : namedSummary) : WorkerSummaryMetrics :=
  let count name := metricValue (summary_metric summary name) "count" in
  {| ws_Name := ns_Name summary;
     ws_Requests := count "http_reqs";
     ws_BusinessRequests := count "business_http_requests_total";
     ws_BusinessSuccesses := count "business_http_success_total";
     ws_BusinessFailures := count "business_http_failure_total";
     ws_BusinessStatus2xx := count "business_status_2xx";
     ws_BusinessStatus4xx := count "business_status_4xx";
     ws_BusinessStatus5xx := count "business_status_5xx";
     ws_BusinessTransportFailures := count "business_transport_failures_total";
     ws_AuthRequests := count "auth_token_requests_total";
     ws_ErrorRate := metricValue (summary_metric summary "http_req_failed") "rate";
     ws_Latency := default zero_latency (aggregateLatencyMetric [summary] "http_req_duration" "http_reqs");
     ws_BusinessLatency := default zero_latency
       (aggregateLatencyMetric [summary] "business_http_duration_ms" "business_http_requests_total");
     ws_DurationMs := ksd_TestRunDurationMs (ns_Summary summary) |}.

(** The body of the loop over the summaries. *)
Definition merge_step (merged : MergedSummaryMetrics) (summary : namedSummary) : MergedSummaryMetrics :=
  let count name := metricValue (summary_metric summary name) "count" in
  let httpReqs := count "http_reqs" in
  let failedRate := metricValue (summary_metric summary "http_req_failed") "rate" in
  let httpFailures := normalizeRoundedCount (f_mul httpReqs failedRate) in
  let httpSuccesses := max0 (f_sub httpReqs httpFailures) in
  merged
    <| ms_HasBusinessMetrics := ms_HasBusinessMetrics merged || summaryHasBusinessMetrics (ns_Summary summary) |>
    <| ms_TotalRequests := f_add (ms_TotalRequests merged) httpReqs |>
    <| ms_TotalFailures := f_add (ms_TotalFailures merged) httpFailures |>
    <| ms_TotalSuccesses := f_add (ms_TotalSuccesses merged) httpSuccesses |>
    <| ms_TotalStatus4xx := f_add (ms_TotalStatus4xx merged) (count "status_4xx") |>
    <| ms_TotalStatus5xx := f_add (ms_TotalStatus5xx merged) (count "status_5xx") |>
    <| ms_Iterations := f_add (ms_Iterations merged) (count "iterations") |>
    <| ms_ChecksPasses := f_add (ms_ChecksPasses merged) (metricValue (summary_metric summary "checks") "passes") |>
    <| ms_ChecksFails := f_add (ms_ChecksFails merged) (metricValue (summary_metric summary "checks") "fails") |>
    <| ms_BusinessRequests := f_add (ms_BusinessRequests merged) (count "business_http_requests_total") |>
    <| ms_BusinessSuccesses := f_add (ms_BusinessSuccesses merged) (count "business_http_success_total") |>
    <| ms_BusinessFailures := f_add (ms_BusinessFailures merged) (count "business_http_failure_total") |>
    <| ms_BusinessStatus2xx := f_add (ms_BusinessStatus2xx merged) (count "business_status_2xx") |>
    <| ms_BusinessStatus4xx := f_add (ms_BusinessStatus4xx merged) (count "business_status_4xx") |>
    <| ms_BusinessStatus5xx := f_add (ms_BusinessStatus5xx merged) (count "business_status_5xx") |>
    <| ms_BusinessTransportFailures :=
         f_add (ms_BusinessTransportFailures merged) (count "business_transport_failures_total") |>
    <| ms_Workers := ms_Workers merged ++ [buildWorkerSummaryMetrics summary] |>.

Definition zero_merged : MergedSummaryMetrics :=
  mkMerged 0 false f_zero f_zero f_zero f_zero f_zero f_zero f_zero f_zero zero_latency f_zero f_zero
    f_zero f_zero f_zero f_zero f_zero zero_latency None [] [].

Section merging.
Context `{MapOrder}.

Definition merge_threshold (metricName : string) (merged : gmap string bool) (ok : bool) : gmap string bool :=
  <[metricName := match merged !! metricName with Some existing => existing && ok | None => ok end]> merged.

Definition merge_metric_thresholds (merged : gmap string bool) (entry : string * K6SummaryMetric)
  : gmap string bool :=
  foldl (merge_threshold entry.1) merged (map snd (range_over (map_to_list (ksm_Thresholds entry.2)))).

Definition merged_thresholds (summaries : list namedSummary) : gmap string bool :=
  foldl (fun merged summary =>
    foldl merge_metric_thresholds merged (range_over (map_to_list (ksd_Metrics (ns_Summary summary)))))
  ∅ summaries.

Definition mergeThresholds (summaries : list namedSummary) : list ThresholdResult :=
  map (fun kv => mkThresholdResult kv.1 kv.2) (range_over (map_to_list (merged_thresholds summaries))).

Definition business_breakdown (summaries : list namedSummary) : SummaryBreakdownStats :=
  let part name :=
    default zero_latency (aggregateLatencyMetric summaries name "business_http_requests_total") in
  mkBreakdown (part "business_http_blocked_ms") (part "business_http_waiting_ms")
    (part "business_http_sending_ms") (part "business_http_receiving_ms")
    (part "business_http_connecting_ms") (part "business_http_tls_handshaking_ms").

Definition mergeSummaryMetrics (summaries : list namedSummary) : res MergedSummaryMetrics :=
  match summaries with
  | [] => Err "no summaries to merge"
  | _ =>
    let merged := zero_merged <| ms_RawWorkerCount := Z.of_nat (length summaries) |>
                              <| ms_Thresholds := mergeThresholds summaries |> in
    let merged := foldl merge_step merged summaries in
    let merged := merged <| ms_TotalLatency :=
      default zero_latency (aggregateLatencyMetric summaries "http_req_duration" "http_reqs") |> in
    Ok match aggregateLatencyMetric summaries "business_http_duration_ms" "business_http_requests_total" with
       | None => merged
       | Some businessLatency =>
         merged <| ms_BusinessLatency := businessLatency |>
                <| ms_BusinessBreakdown := Some (business_breakdown summaries) |>
       end
  end.
End merging.

(** ** Texts *)

(** [strings.Split(s, sep)] for a separator that is not empty: [acc] is the
    piece so far, and [skip] counts the bytes of a separator still to pass. *)
Fixpoint split_text (sep : string) (skip : nat) (acc s : string) : list string :=
  match s with
  | EmptyString => [acc]
  | String c s' =>
    match skip with
    | S k => split_text sep k acc s'
    | O => if String.prefix sep s then acc :: split_text sep (String.length sep - 1) "" s'
           else split_text sep 0 (acc +:+ String c "") s'
    end
  end.

Definition strings_Split (s sep : string) : list string := split_text sep 0 "" s.

Definition trim_prefix (s p : string) : string :=
  if String.prefix p s then String.substring (String.length p) (String.length s - String.length p) s else s.

Definition trim_suffix (s p : string) : string :=
  if has_suffix s p then String.substring 0 (String.length s - String.length p) s else s.

Definition line_feed : Ascii.ascii := chr 10.
Definition block_separator : string := String line_feed "--- ".

(** The name and the body of a block, [None] when it has no second line or one
    of them is empty. *)
Definition block_parts (unwrap : string -> string) (block : string) : option (string * string) :=
  '(first, rest) ← split_first line_feed block;
  let header := trim_space first in
  let body := trim_space rest in
  let name := trim_suffix (unwrap header) " ---" in
  if String.eqb name "" || String.eqb body "" then None else Some (name, body).

Definition parse_summary_block (block : string) : option namedSummary :=
  '(name, body) ← block_parts id (trim_prefix block "--- ");
  summary ← unmarshal_summary body;
  Some (mkNamed name summary).

(** The first block is taken as it is, the others get back the start that the
    separator took. *)
Definition rewrap (blocks : list string) : list string :=
  match blocks with
  | [] => []
  | b :: bs => b :: map (fun b => "--- " +:+ b) bs
  end.

Section texts.
Context `{MapOrder}.

Definition ParseRawSummaryContent (content : string) : res MergedSummaryMetrics :=
  let trimmed := trim_space content in
  if String.eqb trimmed "" then Err "empty raw summary content"
  else
    match omap parse_summary_block (rewrap (strings_Split trimmed block_separator)) with
    | [] => Err "no valid summaries in artifact"
    | summaries => mergeSummaryMetrics summaries
    end.
End texts.

(** ** The output directory *)

(** Files by name: the content, or nothing for one that cannot be read. *)
Definition directory : Type := gmap string (option string).

(** [filepath.Glob(outputDir/<prefix>*.json)]: sorted names. *)
Definition glob (prefix : string) (dir : directory) : list (string * option string) :=
  omap (fun name =>
    content ← dir !! name;
    if String.prefix prefix name && has_suffix name ".json" &&
       (String.length prefix + 5 <=? String.length name)%nat
    then Some (name, content) else None)
  (merge_sort string_le (map fst (map_to_list dir))).

Definition artifact_name (prefix name : string) : string := trim_prefix (trim_suffix name ".json") prefix.

(** The readable files with what [parse] makes of them. *)
Definition read_files {A} (parse : string -> option A) (prefix : string) (dir : directory)
  : list (string * A) :=
  omap (fun f => data ← f.2; a ← parse data; Some (artifact_name prefix f.1, a)) (glob prefix dir).

Definition readSummaryFiles (outputDir : string) (dir : directory) : res (list namedSummary) :=
  match glob "summary-" dir with
  | [] => Err ("no summary files found in " +:+ outputDir)
  | _ =>
    match read_files unmarshal_summary "summary-" dir with
    | [] => Err ("no valid summary files found in " +:+ outputDir)
    | l => Ok (map (fun ns => mkNamed ns.1 ns.2) l)
    end
  end.

(** [json.Unmarshal] into a [json.RawMessage] accepts every valid text. *)
Definition raw_part (data : string) : option string := _ ← parse_json data; Some data.

Definition read_raw (prefix : string) (dir : directory) : string :=
  GoStrings.join (newline +:+ newline)
    (map (fun nd => summary_part nd.1 nd.2) (read_files raw_part prefix dir)).

Definition ReadRawSummaries (dir : directory) : string := read_raw "summary-" dir.
Definition ReadRawAuthSummaries (dir : directory) : string := read_raw "auth-summary-" dir.

Definition ReadPayloadArtifact (dir : directory) : string :=
  default "" (first_some (fun f => data ← f.2; if blank data then None else Some data) (glob "payload-" dir)).

(** [os.Remove] of every matching file; a file that stays is a fault of the
    file system that the code ignores, given by [kept]. *)
Definition cleanup (kept : gset string) (prefix : string) (dir : directory) : directory :=
  foldl (fun dir f => if bool_decide (f.1 ∈ kept) then dir else delete f.1 dir) dir (glob prefix dir).

Definition CleanupSummaries (kept : gset string) : directory -> directory := cleanup kept "summary-".
Definition CleanupPayloadArtifacts (kept : gset string) : directory -> directory := cleanup kept "payload-".
Definition CleanupAuthSummaries (kept : gset string) : directory -> directory := cleanup kept "auth-summary-".

Section files.
Context `{MapOrder}.

Definition ReadMergedSummaryMetrics (outputDir : string) (dir : directory) : res MergedSummaryMetrics :=
  match readSummaryFiles outputDir dir with
  | Err e => Err ("glob summaries: " +:+ e)
  | Ok summaries => mergeSummaryMetrics summaries
  end.

Definition ReadAndMergeSummaries (outputDir : string) (dir : directory) : res SummaryPercentiles :=
  match ReadMergedSummaryMetrics outputDir dir with
  | Err e => Err e
  | Ok merged =>
    let l := ms_TotalLatency merged in Ok (mkPercentiles (sl_P90 l) (sl_P95 l) (sl_P99 l))
  end.
End files.

(** ** Authentication summaries *)

(** The variables of the loop of [mergeAuthSummaries]. *)
Record auth_acc := mkAuthAcc {
  aa_merged : AuthSummaryData; aa_weight : float64; aa_avg : float64; aa_p95 : float64; aa_p99 : float64
}.

Definition first_given (old new : string) : string := if String.eqb old "" then new else old.

Definition merge_auth_metrics (m s : AuthRuntimeMetrics) : AuthRuntimeMetrics :=
  m <| ar_TokenRequestsTotal := f_add (ar_TokenRequestsTotal m) (ar_TokenRequestsTotal s) |>
    <| ar_TokenSuccessTotal := f_add (ar_TokenSuccessTotal m) (ar_TokenSuccessTotal s) |>
    <| ar_TokenFailureTotal := f_add (ar_TokenFailureTotal m) (ar_TokenFailureTotal s) |>
    <| ar_TokenRefreshTotal := f_add (ar_TokenRefreshTotal m) (ar_TokenRefreshTotal s) |>
    <| ar_TokenReuseHitsTotal := f_add (ar_TokenReuseHitsTotal m) (ar_TokenReuseHitsTotal s) |>
    <| ar_ResponseStatusCodes := mergeStatusCodeCounts (ar_ResponseStatusCodes m) (ar_ResponseStatusCodes s) |>
    <| ar_AbortTriggered := ar_AbortTriggered m || ar_AbortTriggered s |>
    <| ar_AbortCause := first_given (ar_AbortCause m) (ar_AbortCause s) |>
    <| ar_AbortReason := first_given (ar_AbortReason m) (ar_AbortReason s) |>
    <| ar_AbortRetryable := ar_AbortRetryable m || ar_AbortRetryable s |>
    <| ar_AbortHTTPStatusCodes :=
         appendUniqueStatusCodes (ar_AbortHTTPStatusCodes m) (ar_AbortHTTPStatusCodes s) |>
    <| ar_TokenRequestMaxMs :=
         if f_lt (ar_TokenRequestMaxMs m) (ar_TokenRequestMaxMs s) then ar_TokenRequestMaxMs s
         else ar_TokenRequestMaxMs m |>.

Definition merge_auth_step (a : auth_acc) (named : namedAuthSummary) : auth_acc :=
  let summary := nas_Summary named in
  let merged := aa_merged a in
  let merged := merged
    <| au_Mode := first_given (au_Mode merged) (au_Mode summary) |>
    <| au_TokenURL := first_given (au_TokenURL merged) (au_TokenURL summary) |>
    <| au_ClientAuthMethod := first_given (au_ClientAuthMethod merged) (au_ClientAuthMethod summary) |>
    <| au_RefreshSkewSeconds := if au_RefreshSkewSeconds merged =? 0 then au_RefreshSkewSeconds summary
                                else au_RefreshSkewSeconds merged |>
    <| au_Message := first_given (au_Message merged) (au_Message summary) |>
    <| au_Status := if String.eqb (au_Status summary) "aborted" then "aborted" else au_Status merged |>
    <| au_Metrics := merge_auth_metrics (au_Metrics merged) (au_Metrics summary) |> in
  let m := au_Metrics summary in
  let weight := ar_TokenRequestsTotal m in
  if f_le weight f_zero then mkAuthAcc merged (aa_weight a) (aa_avg a) (aa_p95 a) (aa_p99 a)
  else mkAuthAcc merged (f_add (aa_weight a) weight)
         (f_add (aa_avg a) (f_mul (ar_TokenRequestAvgMs m) weight))
         (f_add (aa_p95 a) (f_mul (ar_TokenRequestP95Ms m) weight))
         (f_add (aa_p99 a) (f_mul (ar_TokenRequestP99Ms m) weight)).

Definition zero_auth_acc : auth_acc :=
  mkAuthAcc (mkAuthSummary "complete" "" "" "" "" 0 zero_AuthRuntimeMetrics) f_zero f_zero f_zero f_zero.

(** The rates and averages, once all summaries are read. *)
Definition finish_auth (a : auth_acc) : AuthSummaryData :=
  let merged := aa_merged a in
  let m := au_Metrics merged in
  let m := if f_lt f_zero (ar_TokenRequestsTotal m)
           then m <| ar_TokenSuccessRate := f_div (ar_TokenSuccessTotal m) (ar_TokenRequestsTotal m) |>
           else m in
  let merged :=
    if String.eqb (au_Status merged) "aborted" && String.eqb (au_Message merged) "" &&
       negb (String.eqb (ar_AbortReason m) "")
    then merged <| au_Message := ar_AbortReason m |> else merged in
  let m := if f_lt f_zero (aa_weight a)
           then m <| ar_TokenRequestAvgMs := f_div (aa_avg a) (aa_weight a) |>
                  <| ar_TokenRequestP95Ms := f_div (aa_p95 a) (aa_weight a) |>
                  <| ar_TokenRequestP99Ms := f_div (aa_p99 a) (aa_weight a) |>
           else m in
  merged <| au_Metrics := m |>.

Definition mergeAuthSummaries (summaries : list namedAuthSummary) : res AuthSummaryData :=
  match summaries with
  | [] => Err "no valid auth summary data found"
  | _ =>
    let merged := finish_auth (foldl merge_auth_step zero_auth_acc summaries) in
    if String.eqb (au_Mode merged) "" && f_eq (ar_TokenRequestsTotal (au_Metrics merged)) f_zero &&
       f_eq (ar_TokenFailureTotal (au_Metrics merged)) f_zero
    then Err "no valid auth summary data found" else Ok merged
  end.

Definition ReadAndMergeAuthSummaries (outputDir : string) (dir : directory) : res AuthSummaryData :=
  match glob "auth-summary-" dir with
  | [] => Err ("no auth summary files found in " +:+ outputDir)
  | _ => mergeAuthSummaries
           (map (fun ns => mkNamedAuth ns.1 ns.2) (read_files unmarshal_auth_data "auth-summary-" dir))
  end.

Definition parse_auth_block (block : string) : option namedAuthSummary :=
  '(name, body) ← block_parts (fun header => trim_prefix header "--- ") block;
  summary ← unmarshal_auth_data body;
  Some (mkNamedAuth name summary).

(** As written, a first block that starts with the marker gets a second one. *)
Definition rewrap_auth (blocks : list string) : list string :=
  match blocks with
  | [] => []
  | b :: bs =>
    (if String.prefix "--- " b then "--- " +:+ b else trim_prefix b "--- ")
    :: map (fun b => "--- " +:+ b) bs
  end.

Definition ParseRawAuthSummaryContent (content : string) : res AuthSummaryData :=
  let trimmed := trim_space content in
  if String.eqb trimmed "" then Err "empty raw auth summary content"
  else mergeAuthSummaries (omap parse_auth_block (rewrap_auth (strings_Split trimmed block_separator))).
