(* ===== verification/RawSummary.v ===== *)
(** * The stored text of the summaries is read back

    The registry writes the uploads of a run as one text, a block per worker
    ([BuildRawSummary]); the result pages parse that text again
    ([ParseRawSummaryContent]).  Nothing is lost in between, because valid JSON
    cannot contain the line that separates two blocks. *)

From S2P Require Export Summary.

Open Scope Z_scope.
Open Scope go_scope.

(** ** Valid JSON has no separator *)

Lemma scan_app (m : mode) (stack : list frame) (s t : string) :
  scan m stack (s +:+ t) = '(m', stack') ← scan m stack s; scan m' stack' t.
Proof.
  revert m stack. induction s as [|c s IH]; intros m stack; [done|].
  change (String c s +:+ t) with (String c (s +:+ t)). simpl.
  destruct (scan_step m stack c) as [[m' stack']|]; [apply IH|done].
Qed.

(** The rest of a literal ([true], [false], [null]) is made of letters. *)
Fixpoint letters (s : string) : bool :=
  match s with String c s' => between 97 122 c && letters s' | EmptyString => true end.

Definition mode_ok (m : mode) : bool := match m with MLit rest _ => letters rest | _ => true end.

Definition mode_of (r : option (mode * list frame)) : bool :=
  match r with Some (m, _) => mode_ok m | None => true end.

Lemma push_ok (f : frame) (m : mode) (stack : list frame) : mode_ok m = true -> mode_of (push f m stack) = true.
Proof. intros Hm. unfold push. by destruct (_ <? _). Qed.

Lemma start_value_ok (c : Ascii.ascii) (stack : list frame) : mode_of (start_value c stack) = true.
Proof. unfold start_value. repeat case_match; try done; by apply push_ok. Qed.

Lemma after_value_ok (v : json) (c : Ascii.ascii) (stack : list frame) : mode_of (after_value v c stack) = true.
Proof. unfold after_value. repeat case_match; done. Qed.

Lemma scan_step_ok (m : mode) (stack : list frame) (c : Ascii.ascii) :
  mode_ok m = true -> mode_of (scan_step m stack c) = true.
Proof.
  intros Hm. destruct m as [| | | |k|k acc|k acc|k acc n code|acc st|rest v|v]; simpl.
  - case_match; [done|apply start_value_ok].
  - repeat case_match; try done. apply start_value_ok.
  - repeat case_match; done.
  - repeat case_match; done.
  - repeat case_match; done.
  - unfold end_string. repeat case_match; done.
  - case_match; [done|]. by destruct (escape_val c).
  - destruct (hex_val c); [|done]. by destruct n.
  - destruct (num_step st c); [done|]. destruct (num_final st); [apply after_value_ok|done].
  - destruct rest as [|d [|e rest]]; [done| |]; destruct (Ascii.eqb c d); try done.
    change (mode_ok (MLit (String d (String e rest)) v)) with (between 97 122 d && letters (String e rest)) in Hm.
    by apply andb_true_iff in Hm as [_ Hm].
  - apply after_value_ok.
Qed.

(** After a line feed, two dashes are an error. *)
Lemma scan_dashes (m : mode) (stack : list frame) (t : string) :
  mode_ok m = true -> scan m stack (String line_feed ("--" +:+ t)) = None.
Proof.
  intros Hm. change (String line_feed ("--" +:+ t)) with (String line_feed "--" +:+ t). rewrite scan_app.
  assert (scan m stack (String line_feed "--") = None) as ->; [|done].
  destruct m as [| | | |k|k acc|k acc|k acc n code|acc st|rest v|v]; try done.
  - destruct st; try done; destruct stack as [|[items|members key] stack]; done.
  - destruct rest as [|d rest]; [done|]. simpl in Hm. apply andb_true_iff in Hm as [Hd _].
    cbn [scan scan_step]. destruct (Ascii.eqb_spec line_feed d) as [<-|]; [done|by destruct rest].
  - destruct stack as [|[items|members key] stack]; done.
Qed.

Lemma scan_no_dashes (p q : string) (m : mode) (stack : list frame) :
  mode_ok m = true -> scan m stack (p +:+ String line_feed ("--" +:+ q)) = None.
Proof.
  revert m stack. induction p as [|c p IH]; intros m stack Hm; [by apply scan_dashes|].
  change (String c p +:+ ?x) with (String c (p +:+ x)). cbn [scan].
  pose proof (scan_step_ok m stack c Hm) as Hs. destruct (scan_step m stack c) as [[m' stack']|]; [|done].
  by apply IH.
Qed.

(** No separator occurs in the text. *)
Definition no_separator (s : string) : Prop := forall p q, s <> p +:+ block_separator +:+ q.

Lemma valid_no_separator (s : string) : is_Some (parse_json s) -> no_separator s.
Proof.
  intros [j Hj] p q ->. unfold parse_json in Hj.
  change (block_separator +:+ q) with (String line_feed ("--" +:+ ("- " +:+ q))) in Hj.
  by rewrite scan_no_dashes in Hj.
Qed.

(** ** Splitting *)

Lemma prefix_app (s t : string) : String.prefix s (s +:+ t) = true.
Proof.
  induction s as [|c s IH]; [by destruct t|]. change (String c s +:+ t) with (String c (s +:+ t)). simpl.
  destruct (Ascii.ascii_dec c c); [exact IH|done].
Qed.

Lemma prefix_split (s t : string) : String.prefix s t = true -> exists u, t = s +:+ u.
Proof.
  revert t. induction s as [|c s IH]; intros t H; [by exists t|]. destruct t as [|d t]; [done|]. simpl in H.
  destruct (Ascii.ascii_dec c d) as [->|]; [|done]. destruct (IH t H) as [u ->]. by exists u.
Qed.

Lemma split_skip (sep acc x t : string) :
  split_text sep (String.length x) acc (x +:+ t) = split_text sep 0 acc t.
Proof.
  induction x as [|c x IH]; [done|]. change (String c x +:+ t) with (String c (x +:+ t)). exact IH.
Qed.

(** The separator does not overlap itself. *)
Lemma no_early_separator (x t : string) :
  x <> "" -> no_separator x -> String.prefix block_separator (x +:+ block_separator +:+ t) = false.
Proof.
  intros Hx Hn. apply not_true_is_false. intros H. apply prefix_split in H as [u Hu].
  unfold block_separator in Hu. cbn in Hu.
  destruct x as [|c0 [|c1 [|c2 [|c3 [|c4 x]]]]]; [done|..]; cbn in Hu; try discriminate Hu.
  injection Hu as -> -> -> -> -> _. apply (Hn "" x). done.
Qed.

Lemma no_separator_tail (c : Ascii.ascii) (x : string) : no_separator (String c x) -> no_separator x.
Proof. intros H p q ->. by apply (H (String c p) q). Qed.

Lemma split_piece (x acc t : string) :
  no_separator x ->
  split_text block_separator 0 acc (x +:+ block_separator +:+ t) =
  (acc +:+ x) :: split_text block_separator 0 "" t.
Proof.
  revert acc. induction x as [|c x IH]; intros acc Hn.
  - rewrite string_app_nil_r. change ("" +:+ ?y) with y. unfold block_separator at 2.
    change (String line_feed "--- " +:+ t) with (String line_feed ("--- " +:+ t)). cbn [split_text].
    change (String line_feed ("--- " +:+ t)) with (block_separator +:+ t). rewrite prefix_app.
    change (String.length block_separator - 1)%nat with (String.length "--- "). by rewrite split_skip.
  - pose proof (no_early_separator (String c x) t ltac:(done) Hn) as Hp.
    change (String c x +:+ ?y) with (String c (x +:+ y)) in *. cbn [split_text]. rewrite Hp.
    rewrite IH by (by apply no_separator_tail in Hn). by rewrite string_app_assoc.
Qed.

Lemma split_last_piece (x acc : string) :
  no_separator x -> split_text block_separator 0 acc x = [acc +:+ x].
Proof.
  revert acc. induction x as [|c x IH]; intros acc Hn; cbn [split_text]; [by rewrite string_app_nil_r|].
  destruct (String.prefix block_separator (String c x)) eqn:E.
  - apply prefix_split in E as [u Hu]. exfalso. by apply (Hn "" u).
  - rewrite IH by (by apply no_separator_tail in Hn). by rewrite string_app_assoc.
Qed.

(** Splitting undoes joining. *)
Lemma split_join (xs : list string) :
  xs <> [] -> (forall x, x ∈ xs -> no_separator x) ->
  strings_Split (GoStrings.join block_separator xs) block_separator = xs.
Proof.
  unfold strings_Split, GoStrings.join. induction xs as [|x xs IH]; intros Hne Hs; [done|].
  destruct xs as [|y ys].
  - cbn [String.concat]. rewrite split_last_piece; [done|apply Hs, elem_of_cons; auto].
  - change (String.concat block_separator (x :: y :: ys))
      with (x +:+ block_separator +:+ String.concat block_separator (y :: ys)).
    rewrite split_piece by (apply Hs, elem_of_cons; auto). f_equal.
    apply IH; [done|]. intros z Hz. apply Hs, elem_of_cons. auto.
Qed.

(** ** One block *)

Fixpoint no_line_feed (s : string) : bool :=
  match s with String c s' => negb (Ascii.eqb c line_feed) && no_line_feed s' | EmptyString => true end.

Lemma split_first_line (x t : string) :
  no_line_feed x = true -> split_first line_feed (x +:+ String line_feed t) = Some (x, t).
Proof.
  induction x as [|c x IH]; intros Hx; [done|]. simpl in Hx. apply andb_true_iff in Hx as [Hc Hx].
  change (String c x +:+ ?y) with (String c (x +:+ y)). cbn [split_first].
  destruct (Ascii.eqb c line_feed); [done|]. rewrite IH by done. done.
Qed.

Lemma no_line_feed_app (x y : string) : no_line_feed (x +:+ y) = no_line_feed x && no_line_feed y.
Proof.
  induction x as [|c x IH]; [done|]. change (String c x +:+ y) with (String c (x +:+ y)). simpl.
  by rewrite IH, andb_assoc.
Qed.

(** A byte that is no part of a longer white-space rune. *)
Lemma ascii_no_space (d : Ascii.ascii) :
  byte_of d < 128 -> forall a b, is_space2 d a = false /\ is_space2 a d = false /\
  is_space3 d a b = false /\ is_space3 a d b = false /\ is_space3 a b d = false.
Proof.
  intros Hd a b. unfold is_space2, is_space3.
  rewrite !orb_false_iff, !andb_false_iff, !orb_false_iff, !andb_false_iff, !Z.eqb_neq, !Z.leb_gt. lia.
Qed.

Lemma lead_space_app_ascii (s : string) (d : Ascii.ascii) (t : string) :
  s <> "" -> lead_space s = false -> byte_of d < 128 -> lead_space (s +:+ String d t) = false.
Proof.
  intros Hs Hl Hd. string_cases s; [done|..]; simpl in Hl |- *.
  - destruct (ascii_no_space d Hd a a) as (_ & -> & _ & _ & _). rewrite orb_false_r, Hl.
    destruct t as [|e t]; [done|]. destruct (ascii_no_space d Hd a e) as (_ & _ & _ & -> & _). done.
  - destruct (ascii_no_space d Hd a b) as (_ & _ & _ & _ & ->). by rewrite Hl.
  - done.
Qed.

Lemma trim_left_rev_app (s t : string) (d : Ascii.ascii) :
  trim_left_rev s <> "" -> byte_of d < 128 ->
  trim_left_rev (s +:+ String d t) = trim_left_rev s +:+ String d t.
Proof.
  intros Hs Hd. induction s as [s IH] using string_len_ind. rewrite trim_left_rev_eq in Hs. revert Hs.
  string_cases s; cbv match; [done|..].
  - destruct (is_ascii_space a) eqn:Ea; [done|]. intros _.
    change (String a "" +:+ String d t) with (String a (String d t)).
    rewrite !(trim_left_rev_eq (String a _)), Ea. destruct (ascii_no_space d Hd a a) as (-> & _ & _ & _ & _).
    destruct t as [|e t]; [done|]. destruct (ascii_no_space d Hd e a) as (_ & _ & _ & -> & _). done.
  - change (String a (String b "") +:+ String d t) with (String a (String b (String d t))).
    rewrite !(trim_left_rev_eq (String a _)).
    destruct (is_ascii_space a) eqn:Ea.
    { intros Hs. apply (IH (String b "")); [simpl; lia|done]. }
    destruct (is_space2 b a) eqn:Eb; [done|]. intros _.
    destruct (ascii_no_space d Hd b a) as (_ & _ & -> & _ & _). done.
  - change (String a (String b (String c t0)) +:+ String d t) with (String a (String b (String c (t0 +:+ String d t)))).
    rewrite !(trim_left_rev_eq (String a _)).
    destruct (is_ascii_space a); [intros Hs; apply (IH (String b (String c t0))); [simpl; lia|done]|].
    destruct (is_space2 b a); [intros Hs; apply (IH (String c t0)); [simpl; lia|done]|].
    destruct (is_space3 c b a); [intros Hs; apply (IH t0); [simpl; lia|done]|]. done.
Qed.

(** [strings.TrimRightFunc(s, unicode.IsSpace)]. *)
Definition rtrim (s : string) : string := string_rev (trim_left_rev (string_rev s)).

Lemma rtrim_app (s t : string) (d : Ascii.ascii) :
  byte_of d < 128 -> rtrim t <> "" -> rtrim (s +:+ String d t) = s +:+ String d (rtrim t).
Proof.
  intros Hd Ht. unfold rtrim in *. rewrite string_rev_app, string_rev_cons, string_app_assoc.
  change (String d "" +:+ string_rev s) with (String d (string_rev s)).
  rewrite trim_left_rev_app; [|intros E; apply Ht; by rewrite E|done].
  rewrite string_rev_app, string_rev_cons, string_rev_involutive, string_app_assoc. done.
Qed.

Lemma rtrim_prefix (s : string) : exists u, s = rtrim s +:+ u.
Proof.
  unfold rtrim. destruct (trim_left_rev_suffix (string_rev s)) as [p E].
  apply (f_equal string_rev) in E. rewrite string_rev_involutive, string_rev_app in E. eauto.
Qed.

Lemma rtrim_line_feed (s : string) : rtrim (s +:+ String line_feed "") = rtrim s.
Proof. unfold rtrim. rewrite string_rev_snoc. by rewrite (trim_left_rev_eq (String line_feed _)). Qed.

(** ** White space around valid JSON *)

(** The value of a text that ends in this state. *)
Definition final (r : option (mode * list frame)) : option json :=
  match r with
  | Some (MDone v, []) => Some v
  | Some (MNum acc st, []) => if num_final st then Some (JNum acc) else None
  | _ => None
  end.

Lemma parse_json_final (s : string) : parse_json s = final (scan MValue [] s).
Proof. done. Qed.

Lemma final_after_value (v j : json) (stack : list frame) (d : Ascii.ascii) :
  final (after_value v d stack) = Some j ->
  byte_of d < 128 /\ (is_ascii_space d = true -> final (Some (MDone v, stack)) = Some j).
Proof.
  unfold after_value, is_ws, is_ascii_space.
  destruct (_ || _) eqn:E; [intros Hf; split; [bool_prop; lia|by intros _]|].
  destruct stack as [|[items|members key] stack]; [done|..];
    (destruct (byte_of d =? 44) eqn:E1; [done|]); intros Hf.
  - destruct (byte_of d =? 93) eqn:E2; [|done]. bool_prop. split; [lia|]. intros Hs. bool_prop. lia.
  - destruct (byte_of d =? 125) eqn:E2; [|done]. bool_prop. split; [lia|]. intros Hs. bool_prop. lia.
Qed.

Lemma visible_byte (d : Ascii.ascii) (P : Prop) :
  33 <= byte_of d <= 126 -> byte_of d < 128 /\ (is_ascii_space d = true -> P).
Proof. intros Hd. split; [lia|]. unfold is_ascii_space. intros Hs. bool_prop. lia. Qed.

Lemma final_start (d : Ascii.ascii) (stack : list frame) (j : json) :
  final (start_value d stack) = Some j -> 33 <= byte_of d <= 126.
Proof.
  unfold start_value, push, is_digit, between.
  repeat case_match; simpl; intros; bool_prop; try done; lia.
Qed.

Lemma num_step_visible (st st' : num_state) (d : Ascii.ascii) :
  num_step st d = Some st' -> 33 <= byte_of d <= 126.
Proof.
  unfold num_step, is_digit, between. destruct st; repeat case_match; intros; bool_prop; try done; lia.
Qed.

Lemma final_step (m : mode) (stack : list frame) (d : Ascii.ascii) (j : json) :
  mode_ok m = true -> final (scan_step m stack d) = Some j ->
  byte_of d < 128 /\ (is_ascii_space d = true -> final (Some (m, stack)) = Some j).
Proof.
  intros Hm HF. destruct m as [| | | |k|k acc|k acc|k acc n code|acc st|rest v|v]; cbn [scan_step] in HF.
  - destruct (is_ws d); [done|]. by apply visible_byte, (final_start d stack j).
  - destruct (is_ws d); [done|]. destruct (byte_of d =? 93) eqn:E.
    + apply visible_byte. bool_prop. lia.
    + by apply visible_byte, (final_start d stack j).
  - destruct (is_ws d); [done|]. destruct (byte_of d =? 125) eqn:E; [|by destruct (byte_of d =? 34)].
    apply visible_byte. bool_prop. lia.
  - destruct (is_ws d); [done|]. by destruct (byte_of d =? 34).
  - destruct (is_ws d); [done|]. destruct (byte_of d =? 58); [|done]. by destruct stack as [|[]].
  - destruct (byte_of d =? 34) eqn:E; [apply visible_byte; bool_prop; lia|].
    destruct (byte_of d =? 92); [done|]. by destruct (byte_of d <? 32).
  - destruct (byte_of d =? 117); [done|]. by destruct (escape_val d).
  - destruct (hex_val d); [|done]. by destruct n.
  - destruct (num_step st d) as [st'|] eqn:E; [by apply visible_byte, (num_step_visible st st')|].
    destruct (num_final st) eqn:Ef; [|done]. apply final_after_value in HF. simpl in HF |- *.
    by rewrite Ef.
  - destruct rest as [|a [|b rest]]; [done| |]; destruct (Ascii.eqb_spec d a) as [->|]; try done.
    simpl in Hm. unfold between in Hm. apply visible_byte. bool_prop. lia.
  - by apply final_after_value.
Qed.

Lemma scan_ok (s : string) (m : mode) (stack : list frame) :
  mode_ok m = true -> mode_of (scan m stack s) = true.
Proof.
  revert m stack. induction s as [|c s IH]; intros m stack Hm; [exact Hm|]. cbn [scan].
  pose proof (scan_step_ok m stack c Hm) as Hs. destruct (scan_step m stack c) as [[m' stack']|]; [|done].
  by apply IH.
Qed.

(** The last byte of a valid text is ASCII, and white space that can go. *)
Lemma parse_json_snoc (s : string) (d : Ascii.ascii) (j : json) :
  parse_json (s +:+ String d "") = Some j ->
  byte_of d < 128 /\ (is_ascii_space d = true -> parse_json s = Some j).
Proof.
  rewrite !parse_json_final, scan_app. pose proof (scan_ok s MValue [] eq_refl) as Hm.
  destruct (scan MValue [] s) as [[m stack]|]; [|done]. cbn [scan]. intros HF.
  apply final_step; [exact Hm|]. simpl in HF. by destruct (scan_step m stack d) as [[]|].
Qed.

Lemma parse_rtrim (s : string) (j : json) : parse_json s = Some j -> parse_json (rtrim s) = Some j.
Proof.
  rewrite <- (string_rev_involutive s) at 1. unfold rtrim. generalize (string_rev s) as r. clear s. intros r.
  induction r as [|d r IH]; [done|]. rewrite string_rev_cons. intros Hj.
  destruct (parse_json_snoc _ _ _ Hj) as [Hd Hs]. rewrite trim_left_rev_eq.
  destruct (is_ascii_space d); [apply IH; by apply Hs|]. rewrite <- string_rev_cons in Hj.
  destruct r as [|b r]; [exact Hj|]. destruct (ascii_no_space d Hd b b) as (_ & -> & _ & _ & _).
  destruct r as [|c r]; [exact Hj|]. destruct (ascii_no_space d Hd c b) as (_ & _ & _ & _ & ->). exact Hj.
Qed.

Lemma start_value_byte (c : Ascii.ascii) (stack : list frame) :
  is_Some (start_value c stack) -> is_ascii_space c = false /\ byte_of c < 128.
Proof.
  intros [r Hr]. revert Hr. unfold start_value, is_digit, between, is_ascii_space.
  rewrite orb_false_iff, andb_false_iff, !Z.leb_gt, Z.eqb_neq.
  repeat case_match; intros; bool_prop; try done; lia.
Qed.

Lemma parse_ltrim (s : string) (j : json) : parse_json s = Some j -> parse_json (trim_left s) = Some j.
Proof.
  induction s as [|a s IH]; [done|]. intros Hj. rewrite trim_left_eq.
  destruct (is_ws a) eqn:Ew.
  - assert (parse_json s = Some j) as Hs.
    { rewrite parse_json_final in Hj |- *. cbn [scan scan_step] in Hj. rewrite Ew in Hj. exact Hj. }
    assert (is_ascii_space a = true) as ->; [|by apply IH].
    unfold is_ws, is_ascii_space in *. bool_prop. rewrite orb_true_iff, andb_true_iff, !Z.leb_le, Z.eqb_eq. lia.
  - assert (is_Some (start_value a [])) as Hs.
    { rewrite parse_json_final in Hj. cbn [scan scan_step] in Hj. rewrite Ew in Hj.
      destruct (start_value a []); [eauto|done]. }
    apply start_value_byte in Hs as [-> Ha].
    destruct s as [|b s]; [exact Hj|]. destruct (ascii_no_space a Ha b b) as (-> & _ & _ & _ & _).
    destruct s as [|c s]; [exact Hj|]. destruct (ascii_no_space a Ha b c) as (_ & _ & -> & _ & _). exact Hj.
Qed.

Lemma parse_trim (s : string) (j : json) : parse_json s = Some j -> parse_json (trim_space s) = Some j.
Proof. intros Hj. by apply parse_ltrim, parse_rtrim in Hj. Qed.

Lemma parse_line_feed (s : string) (j : json) :
  parse_json s = Some j -> parse_json (s +:+ String line_feed "") = Some j.
Proof.
  rewrite !parse_json_final, scan_app. destruct (scan MValue [] s) as [[m stack]|]; [|done].
  destruct m as [| | | |k|k acc|k acc|k acc n code|acc st|rest v|v]; try done; destruct stack; try done.
  simpl. by destruct st.
Qed.

Lemma parse_lead_line_feed (s : string) : parse_json (String line_feed s) = parse_json s.
Proof. done. Qed.

Lemma unmarshal_trim (s : string) : is_Some (parse_json s) -> unmarshal_summary (trim_space s) = unmarshal_summary s.
Proof. intros [j Hj]. unfold unmarshal_summary. by rewrite (parse_trim s j Hj), Hj. Qed.

(** ** The round trip *)

Definition block (name content : string) : string := name +:+ " ---" +:+ String line_feed content.

Definition name_ok (w : string) : Prop := w <> "" /\ trim_space w = w /\ no_line_feed w = true.

Lemma header_trimmed (w : string) : name_ok w -> trim_space (w +:+ " ---") = w +:+ " ---".
Proof.
  intros (Hw & Ht & _). apply trim_space_fixed.
  - change (" ---") with (String (chr 32) "---"). apply lead_space_app_ascii; [done| |by vm_compute].
    rewrite <- Ht. apply trim_space_ends.
  - rewrite string_rev_app. change (string_rev " ---") with "--- ". by destruct (string_rev w).
Qed.

Lemma substring_app (s t : string) : String.substring 0 (String.length s) (s +:+ t) = s.
Proof.
  induction s as [|c s IH]; [by destruct t|].
  change (String c s +:+ t) with (String c (s +:+ t)). simpl. by rewrite IH.
Qed.

Lemma trim_suffix_app (s p : string) : trim_suffix (s +:+ p) p = s.
Proof.
  unfold trim_suffix, has_suffix. rewrite string_rev_app, prefix_app, string_length_app.
  replace (String.length s + String.length p - String.length p)%nat with (String.length s) by lia.
  apply substring_app.
Qed.

Lemma trim_prefix_app (p s : string) : trim_prefix (p +:+ s) p = s.
Proof.
  unfold trim_prefix. rewrite prefix_app, string_length_app.
  replace (String.length p + String.length s - String.length p)%nat with (String.length s) by lia.
  induction p as [|c p IH].
  - change ("" +:+ s) with s. cbn [String.length]. rewrite <- (string_app_nil_r s) at 2. apply substring_app.
  - change (String c p +:+ s) with (String c (p +:+ s)). exact IH.
Qed.

(** A block gives back its name and the value of its content. *)
Lemma parse_block (w content : string) :
  name_ok w -> is_Some (parse_json content) ->
  parse_summary_block ("--- " +:+ block w content) =
  (s ← unmarshal_summary content; Some (mkNamed w s)).
Proof.
  intros Hw Hc. unfold parse_summary_block. rewrite trim_prefix_app. unfold block_parts, block.
  assert (w +:+ " ---" +:+ String line_feed content = (w +:+ " ---") +:+ String line_feed content) as ->
    by (by rewrite string_app_assoc).
  rewrite split_first_line.
  2:{ rewrite no_line_feed_app. destruct Hw as (_ & _ & ->). done. }
  simpl. rewrite header_trimmed by done. rewrite trim_suffix_app.
  destruct Hw as (Hw & _). apply String.eqb_neq in Hw. rewrite Hw. simpl.
  assert (String.eqb (trim_space content) "" = false) as ->.
  { apply String.eqb_neq. intros E. destruct Hc as [j Hj]. apply parse_trim in Hj. by rewrite E in Hj. }
  simpl. by rewrite unmarshal_trim.
Qed.

Lemma no_separator_app (x t : string) : no_line_feed x = true -> no_separator t -> no_separator (x +:+ t).
Proof.
  intros Hx Ht. induction x as [|c x IH]; [exact Ht|]. simpl in Hx. apply andb_true_iff in Hx as [Hc Hx].
  change (String c x +:+ t) with (String c (x +:+ t)). intros p q E.
  destruct p as [|d p]; [|change (String d p +:+ ?y) with (String d (p +:+ y)) in E; injection E as _ E; by eapply IH].
  change ("" +:+ block_separator +:+ q) with (String line_feed ("--- " +:+ q)) in E. injection E as -> _. done.
Qed.

Lemma block_no_separator (w content : string) :
  name_ok w -> is_Some (parse_json content) -> no_separator (block w content).
Proof.
  intros (_ & _ & Hw) Hc. unfold block. apply no_separator_app; [done|]. apply no_separator_app; [done|].
  apply valid_no_separator. by rewrite parse_lead_line_feed.
Qed.

(** The blocks as the separator leaves them: all but the last end in the line
    feed that was before it. *)
Fixpoint pieces (l : list (string * string)) : list string :=
  match l with
  | [] => []
  | [wc] => [block wc.1 (rtrim wc.2)]
  | wc :: l' => block wc.1 (wc.2 +:+ String line_feed "") :: pieces l'
  end.

Definition block_ok (wc : string * string) : Prop := name_ok wc.1 /\ is_Some (parse_json wc.2).

Lemma pieces_no_separator (l : list (string * string)) :
  Forall block_ok l -> forall x, x ∈ pieces l -> no_separator x.
Proof.
  induction l as [|[w c] l IH]; intros Hl x Hx; [by apply not_elem_of_nil in Hx|].
  apply Forall_cons in Hl as [[Hw [j Hj]] Hl]. destruct l as [|b l].
  - apply list_elem_of_singleton in Hx as ->. apply block_no_separator; [done|]. exists j. by apply parse_rtrim.
  - change (pieces ((w, c) :: b :: l)) with (block w (c +:+ String line_feed "") :: pieces (b :: l)) in Hx.
    apply elem_of_cons in Hx as [-> | Hx]; [|by apply IH].
    apply block_no_separator; [done|]. exists j. by apply parse_line_feed.
Qed.

Lemma pieces_nonempty (l : list (string * string)) : l <> [] -> pieces l <> [].
Proof. by destruct l as [|a [|b l]]. Qed.

(** What [parse_summary_block] finds in the pieces. *)
Lemma pieces_parsed (l : list (string * string)) :
  Forall block_ok l ->
  omap parse_summary_block (map (fun b => "--- " +:+ b) (pieces l)) =
  omap (fun wc => s ← unmarshal_summary wc.2; Some (mkNamed wc.1 s)) l.
Proof.
  induction l as [|[w c] l IH]; intros Hl; [done|].
  apply Forall_cons in Hl as [[Hw [j Hj]] Hl]. simpl in Hw, Hj. destruct l as [|b l].
  - cbn [pieces map omap list_omap fst snd]. rewrite parse_block by (eauto using parse_rtrim).
    unfold unmarshal_summary. by rewrite Hj, (parse_rtrim c j Hj).
  - change (pieces ((w, c) :: b :: l)) with (block w (c +:+ String line_feed "") :: pieces (b :: l)).
    cbn [map omap list_omap fst snd] in IH |- *. rewrite parse_block by (eauto using parse_line_feed).
    rewrite IH by done. unfold unmarshal_summary. by rewrite Hj, (parse_line_feed c j Hj).
Qed.

Definition nn : string := newline +:+ newline.

Lemma part_block (w c : string) : summary_part w c = "--- " +:+ block w c.
Proof. done. Qed.

Lemma rtrim_join (l : list (string * string)) :
  l <> [] -> Forall block_ok l ->
  rtrim (GoStrings.join nn (map (fun wc => summary_part wc.1 wc.2) l)) =
  "--- " +:+ GoStrings.join block_separator (pieces l).
Proof.
  unfold GoStrings.join. induction l as [|[w c] l IH]; intros Hne Hl; [done|].
  apply Forall_cons in Hl as [[Hw [j Hj]] Hl]. simpl in Hj. destruct l as [|b l].
  - cbn [map String.concat pieces fst snd]. rewrite part_block. unfold block at 1.
    rewrite <- !string_app_assoc, rtrim_app.
    + unfold block. by rewrite <- !string_app_assoc.
    + by vm_compute.
    + intros E. apply parse_rtrim in Hj. by rewrite E in Hj.
  - specialize (IH ltac:(done) Hl).
    change (String.concat nn (map (fun wc => summary_part wc.1 wc.2) ((w, c) :: b :: l))) with
      (summary_part w c +:+ nn +:+ String.concat nn (map (fun wc => summary_part wc.1 wc.2) (b :: l))).
    set (rest := String.concat nn (map _ (b :: l))) in *.
    change (nn +:+ rest) with (String line_feed (String line_feed rest)).
    assert (summary_part w c +:+ String line_feed (String line_feed rest) =
      ("--- " +:+ block w (c +:+ String line_feed "")) +:+ String line_feed rest) as ->.
    { rewrite part_block. unfold block. rewrite !string_app_assoc. do 3 f_equal.
      change (String line_feed c +:+ ?y) with (String line_feed (c +:+ y)). f_equal.
      change (String line_feed (c +:+ String line_feed "") +:+ ?y)
        with (String line_feed ((c +:+ String line_feed "") +:+ y)). by rewrite string_app_assoc. }
    rewrite rtrim_app; [|by vm_compute|by rewrite IH]. rewrite IH.
    change (pieces ((w, c) :: b :: l)) with (block w (c +:+ String line_feed "") :: pieces (b :: l)).
    rewrite string_app_assoc. f_equal.
    change (String line_feed ("--- " +:+ ?y)) with (block_separator +:+ y).
    pose proof (pieces_nonempty (b :: l) ltac:(done)) as Hp. by destruct (pieces (b :: l)).
Qed.

Lemma valid_not_blank (content : string) : is_Some (parse_json content) -> blank content = false.
Proof.
  intros [j Hj]. unfold blank. apply String.eqb_neq. intros E. apply parse_trim in Hj. by rewrite E in Hj.
Qed.

Section roundtrip.
Context `{MapOrder}.

(** The uploads of a kind, by worker, in the order of the text. *)
Definition uploads (expected : list string) (artifacts : gmap string Artifact) : list (string * string) :=
  omap (fun w => a ← artifacts !! w; Some (w, art_Content a)) (orderedArtifactWorkers expected artifacts).

Lemma BuildRawSummary_uploads (snapshot : Snapshot) (ty : string) (artifacts : gmap string Artifact) :
  snap_Artifacts snapshot !! ty = Some artifacts ->
  (forall w a, artifacts !! w = Some a -> is_Some (parse_json (art_Content a))) ->
  BuildRawSummary snapshot ty =
  GoStrings.join nn (map (fun wc => summary_part wc.1 wc.2) (uploads (snap_ExpectedWorkers snapshot) artifacts)).
Proof.
  intros Ha Hv. unfold BuildRawSummary, uploads. rewrite Ha. f_equal.
  induction (orderedArtifactWorkers _ artifacts) as [|w ws IH]; [done|].
  cbn [omap list_omap]. destruct (artifacts !! w) as [a|] eqn:E; [|exact IH].
  simpl. rewrite (valid_not_blank _ (Hv w a E)). simpl. by rewrite IH.
Qed.

Lemma parse_uploads (l : list (string * string)) :
  l <> [] -> Forall block_ok l ->
  let read := omap (fun wc => s ← unmarshal_summary wc.2; Some (mkNamed wc.1 s)) l in
  ParseRawSummaryContent (GoStrings.join nn (map (fun wc => summary_part wc.1 wc.2) l)) =
  match read with [] => Err "no valid summaries in artifact" | _ => mergeSummaryMetrics read end.
Proof.
  intros Hne Hl read. unfold ParseRawSummaryContent.
  assert (trim_space (GoStrings.join nn (map (fun wc => summary_part wc.1 wc.2) l)) =
    "--- " +:+ GoStrings.join block_separator (pieces l)) as ->.
  { rewrite <- rtrim_join by done. unfold trim_space, rtrim. do 3 f_equal. apply trim_left_fixed.
    destruct l as [|[w c] [|b l]]; [done|reflexivity|reflexivity]. }
  change (String.eqb ("--- " +:+ ?y) "") with false. cbv iota.
  pose proof (pieces_no_separator l Hl) as Hs. pose proof (pieces_nonempty l Hne) as Hp.
  pose proof (pieces_parsed l Hl) as Hr. fold read in Hr.
  destruct (pieces l) as [|p ps] eqn:Ep; [done|].
  assert ("--- " +:+ GoStrings.join block_separator (p :: ps) =
    GoStrings.join block_separator (("--- " +:+ p) :: ps)) as ->.
  { unfold GoStrings.join. destruct ps as [|q ps]; [done|]. cbn [String.concat]. by rewrite string_app_assoc. }
  rewrite split_join; [|done|].
  - cbn [rewrap]. change (("--- " +:+ p) :: map (fun b => "--- " +:+ b) ps)
      with (map (fun b => "--- " +:+ b) (p :: ps)). rewrite Hr. by destruct read.
  - intros x Hx. apply elem_of_cons in Hx as [-> | Hx].
    + apply no_separator_app; [done|]. apply Hs, elem_of_cons. auto.
    + apply Hs, elem_of_cons. auto.
Qed.

(** The text the registry stores for the summaries of a run gives back, when
    the result pages parse it, exactly the uploaded summaries: each under the
    name of its worker, in the order of the text, and none that was not
    uploaded.  The names are those a registry accepts (trimmed, not empty) and
    have no line feed; the uploads are JSON.  A text without a readable summary
    is an error. *)
Theorem raw_summary_roundtrip (snapshot : Snapshot) (artifacts : gmap string Artifact) :
  snap_Artifacts snapshot !! ArtifactSummary = Some artifacts ->
  (forall w a, artifacts !! w = Some a -> name_ok w /\ is_Some (parse_json (art_Content a))) ->
  let read := omap (fun w => a ← artifacts !! w; s ← unmarshal_summary (art_Content a); Some (mkNamed w s))
    (orderedArtifactWorkers (snap_ExpectedWorkers snapshot) artifacts) in
  match read with
  | [] => exists e, ParseRawSummaryContent (BuildRawSummary snapshot ArtifactSummary) = Err e
  | _ => ParseRawSummaryContent (BuildRawSummary snapshot ArtifactSummary) = mergeSummaryMetrics read
  end.
Proof.
  intros Ha Hv read.
  rewrite (BuildRawSummary_uploads snapshot ArtifactSummary artifacts Ha) by (intros w a E; by apply (Hv w a)).
  set (l := uploads (snap_ExpectedWorkers snapshot) artifacts).
  assert (Hr : read = omap (fun wc => s ← unmarshal_summary wc.2; Some (mkNamed wc.1 s)) l).
  { unfold read, l, uploads. induction (orderedArtifactWorkers _ artifacts) as [|w ws IH]; [done|].
    cbn [omap list_omap]. destruct (artifacts !! w) as [a|]; simpl; [|exact IH].
    destruct (unmarshal_summary (art_Content a)); simpl; by rewrite IH. }
  assert (Hl : Forall block_ok l).
  { apply Forall_forall. intros [w c] Hin. apply list_elem_of_omap in Hin as (w' & _ & Hw').
    destruct (artifacts !! w') as [a|] eqn:E; [|done]. simpl in Hw'. injection Hw' as <- <-. exact (Hv w' a E). }
  destruct (decide (l = [])) as [E|Hne]; [rewrite Hr, E; by eexists|].
  pose proof (parse_uploads l Hne Hl) as Hp. cbv zeta in Hp. rewrite <- Hr in Hp.
  destruct read; [by eexists|exact Hp].
Qed.
End roundtrip.

(** ** Two uploads *)

#[local] Instance witness_map_order : MapOrder := rev_map_order.

Definition an_upload (w : string) : Artifact :=
  mkArtifact w (quoted "{'metrics':{'http_reqs':{'values':{'count':3}}}}") "application/json" zero_time.

Definition two_uploads : gmap string Artifact := {[ "a" := an_upload "a"; "b" := an_upload "b" ]}.

Definition two_snapshot : Snapshot :=
  mkSnapshot "t" ["b"] "token" {[ ArtifactSummary := two_uploads ]} zero_time.

Lemma raw_summary_roundtrip_witness :
  exists merged, ParseRawSummaryContent (BuildRawSummary two_snapshot ArtifactSummary) = Ok merged /\
    map ws_Name (ms_Workers merged) = ["b"; "a"] /\ ms_TotalRequests merged = f_of_Z 6.
Proof.
  pose proof (raw_summary_roundtrip two_snapshot two_uploads) as H. cbv zeta in H.
  specialize (H ltac:(reflexivity)).
  assert (Hok : forall w a, two_uploads !! w = Some a -> name_ok w /\ is_Some (parse_json (art_Content a))).
  { intros w a Ha. unfold two_uploads in Ha. apply lookup_insert_Some in Ha as [[<- <-]|[_ Ha]];
      [|apply lookup_singleton_Some in Ha as [<- <-]];
      (split; [split; [discriminate|split; reflexivity]|eexists; vm_compute; reflexivity]). }
  specialize (H Hok). revert H.
  match goal with |- context [match ?r with [] => _ | _ :: _ => _ end] => destruct r as [|x l] eqn:E end.
  { vm_compute in E. discriminate. }
  rewrite <- E. clear E x l. intros ->. eexists. split; [vm_compute; reflexivity|]. split; reflexivity.
Defined.
