(* ===== verification/Aggregator.v ===== *)
(** * Merging the workers' metrics: [controller/internal/orchestrator/aggregator.go]

    One pass over the workers' results, then the averages, the rates and the
    thresholds.  The pass is a fold of [worker_step] over the accumulators of
    the Go function.  Arithmetic is binary64, operation by operation, without
    fused multiply-add (as on amd64). *)

From S2P Require Export Prelude GoFloat Model.

Open Scope Z_scope.
Open Scope go_scope.

(** [WorkerResult] of orchestrator.go. *)
Record WorkerResult := mkWorkerResult {
  wr_Address : string;
  wr_Metrics : gmap string K6Metric;
  wr_Error : option string
}.

Definition validLatencyValue (v : float64) : bool :=
  negb (is_nan v) && negb (is_inf v) && f_le f_zero v.

(** The local variables of [Aggregate]. *)
Record accumulators := mkAcc {
  acc_agg : AggregatedMetrics;
  acc_totalWeight : float64;
  acc_weightedAvg : float64;
  acc_weightedMed : float64;
  acc_weightedP90 : float64;
  acc_weightedP95 : float64;
  acc_weightedP99 : float64;
  acc_globalMin : float64;
  acc_globalMax : float64;
  acc_minSet : bool;
  acc_thresholds : gmap string bool    (* metric name -> tainted *)
}.

#[export] Instance eta_accumulators : Eta accumulators := fun a =>
  mkAcc (acc_agg a) (acc_totalWeight a) (acc_weightedAvg a) (acc_weightedMed a) (acc_weightedP90 a)
    (acc_weightedP95 a) (acc_weightedP99 a) (acc_globalMin a) (acc_globalMax a) (acc_minSet a)
    (acc_thresholds a).

Definition zero_acc : accumulators :=
  mkAcc zero_AggregatedMetrics f_zero f_zero f_zero f_zero f_zero f_zero f_zero f_zero false ∅.

(** [if m, ok := metrics[name]; ok { if v, found := m.Val(key); found ... } }]. *)
Definition metric_val (metrics : gmap string K6Metric) (name key : string) : option float64 :=
  m ← metrics !! name; Val m key.

(** [x += v] when the value was found. *)
Definition plus_found (x : float64) (v : option float64) : float64 :=
  match v with Some v => f_add x v | None => x end.

(** ** Thresholds *)

Definition taint_entry (thresholds : gmap string bool) (entry : string * K6Metric) : gmap string bool :=
  match k6m_Tainted entry.2 with
  | None => thresholds
  | Some tainted =>
    match thresholds !! entry.1 with
    | Some existing => <[entry.1 := existing || tainted]> thresholds
    | None => <[entry.1 := tainted]> thresholds
    end
  end.

(** ** Latency *)

(** A latency value that is found and valid. *)
Definition valid_val (dur : K6Metric) (key : string) : option float64 :=
  v ← Val dur key; if validLatencyValue v then Some v else None.

(** [weighted += v * weight]. *)
Definition plus_weighted (x : float64) (v : option float64) (weight : float64) : float64 :=
  match v with Some v => f_add x (f_mul v weight) | None => x end.

Definition found (v : option float64) : bool := match v with Some _ => true | None => false end.

Definition latency_step (dur : K6Metric) (reqCount : float64) (a : accumulators) : accumulators :=
  let weight := if f_le reqCount f_zero then f_one else reqCount in
  let avg := valid_val dur "avg" in
  let med := valid_val dur "med" in
  let p90 := valid_val dur "p(90)" in
  let p95 := valid_val dur "p(95)" in
  let p99 := valid_val dur "p(99)" in
  let hasWeightedLatency := found avg || found med || found p90 || found p95 || found p99 in
  let a := a <| acc_weightedAvg := plus_weighted (acc_weightedAvg a) avg weight |>
             <| acc_weightedMed := plus_weighted (acc_weightedMed a) med weight |>
             <| acc_weightedP90 := plus_weighted (acc_weightedP90 a) p90 weight |>
             <| acc_weightedP95 := plus_weighted (acc_weightedP95 a) p95 weight |>
             <| acc_weightedP99 := plus_weighted (acc_weightedP99 a) p99 weight |>
             <| acc_totalWeight :=
                  if hasWeightedLatency then f_add (acc_totalWeight a) weight else acc_totalWeight a |> in
  let a := match valid_val dur "min" with
           | Some mn =>
             if negb (acc_minSet a) || f_lt mn (acc_globalMin a)
             then a <| acc_globalMin := mn |> <| acc_minSet := true |> else a
           | None => a
           end in
  match valid_val dur "max" with
  | Some mx => if f_lt (acc_globalMax a) mx then a <| acc_globalMax := mx |> else a
  | None => a
  end.

(** ** Counts *)

(** Failures and successes; the live API has only a rate, used when the totals
    so far are zero. *)
Definition failures_step (hf : K6Metric) (reqCount : float64) (agg : AggregatedMetrics)
  : AggregatedMetrics :=
  let agg := agg <| agg_HTTPFailures := plus_found (agg_HTTPFailures agg) (Val hf "passes") |>
                 <| agg_HTTPSuccesses := plus_found (agg_HTTPSuccesses agg) (Val hf "fails") |> in
  if f_eq (agg_HTTPFailures agg) f_zero && f_eq (agg_HTTPSuccesses agg) f_zero &&
     f_lt f_zero reqCount
  then
    match Val hf "rate" with
    | Some rate =>
      agg <| agg_HTTPFailures := f_add (agg_HTTPFailures agg) (f_round (f_mul reqCount rate)) |>
          <| agg_HTTPSuccesses :=
               f_add (agg_HTTPSuccesses agg) (f_round (f_mul reqCount (f_sub f_one rate))) |>
    | None => agg
    end
  else agg.

Definition counts_step (metrics : gmap string K6Metric) (agg : AggregatedMetrics) : AggregatedMetrics :=
  agg <| agg_TotalVUs :=
           match metric_val metrics "vus" "value" with
           | Some v => agg_TotalVUs agg ⊞ f_to_int v
           | None => agg_TotalVUs agg
           end |>
      <| agg_TotalRequests := plus_found (agg_TotalRequests agg) (metric_val metrics "http_reqs" "count") |>
      <| agg_RPS := plus_found (agg_RPS agg) (metric_val metrics "http_reqs" "rate") |>
      <| agg_BusinessRequests :=
           plus_found (agg_BusinessRequests agg) (metric_val metrics "business_http_requests_total" "count") |>
      <| agg_Iterations := plus_found (agg_Iterations agg) (metric_val metrics "iterations" "count") |>
      <| agg_DataReceived := plus_found (agg_DataReceived agg) (metric_val metrics "data_received" "count") |>
      <| agg_DataSent := plus_found (agg_DataSent agg) (metric_val metrics "data_sent" "count") |>
      <| agg_Status4xx := plus_found (agg_Status4xx agg) (metric_val metrics "status_4xx" "count") |>
      <| agg_Status5xx := plus_found (agg_Status5xx agg) (metric_val metrics "status_5xx" "count") |>.

Definition reqCount (metrics : gmap string K6Metric) : float64 :=
  default f_zero (metric_val metrics "http_reqs" "count").

(** The row of one worker. *)
Definition worker_row (wr : WorkerResult) : WorkerMetrics :=
  match wr_Error wr with
  | Some e => zero_WorkerMetrics <| wm_Address := wr_Address wr |> <| wm_Status := "error" |> <| wm_Error := e |>
  | None =>
    zero_WorkerMetrics <| wm_Address := wr_Address wr |> <| wm_Status := "ok" |>
      <| wm_VUs := match metric_val (wr_Metrics wr) "vus" "value" with Some v => f_to_int v | None => 0 end |>
      <| wm_Requests := reqCount (wr_Metrics wr) |>
      <| wm_AvgLatency :=
           default f_zero (dur ← wr_Metrics wr !! "http_req_duration"; valid_val dur "avg") |>
  end.

(** ** Rates and averages *)

Definition weighted_averages (a : accumulators) : AggregatedMetrics :=
  let agg := acc_agg a in
  let w := acc_totalWeight a in
  let agg :=
    if f_lt f_zero w then
      agg <| agg_AvgLatency := f_div (acc_weightedAvg a) w |> <| agg_MedLatency := f_div (acc_weightedMed a) w |>
          <| agg_P90Latency := f_div (acc_weightedP90 a) w |> <| agg_P95Latency := f_div (acc_weightedP95 a) w |>
          <| agg_P99Latency := f_div (acc_weightedP99 a) w |>
    else agg in
  agg <| agg_MinLatency := acc_globalMin a |> <| agg_MaxLatency := acc_globalMax a |>.

(** [totalPasses], [totalFails], [checksRateSum] and [checksRateCount]. *)
Definition checks_step (t : float64 * float64 * float64 * Z) (wr : WorkerResult)
  : float64 * float64 * float64 * Z :=
  match wr_Error wr, wr_Metrics wr !! "checks" with
  | None, Some checks =>
    let '(passes, fails, rateSum, rateCount) := t in
    (plus_found passes (Val checks "passes"), plus_found fails (Val checks "fails"),
     plus_found rateSum (Val checks "rate"),
     if found (Val checks "rate") then rateCount ⊞ 1 else rateCount)
  | _, _ => t
  end.

Definition rates (workerResults : list WorkerResult) (agg : AggregatedMetrics) : AggregatedMetrics :=
  let totalHTTP := f_add (agg_HTTPSuccesses agg) (agg_HTTPFailures agg) in
  if f_lt f_zero totalHTTP then
    agg <| agg_ErrorRate := f_div (agg_HTTPFailures agg) totalHTTP |>
        <| agg_SuccessRate := f_div (agg_HTTPSuccesses agg) totalHTTP |>
  else
    let '(totalPasses, totalFails, checksRateSum, checksRateCount) :=
      foldl checks_step (f_zero, f_zero, f_zero, 0) workerResults in
    let totalChecks := f_add totalPasses totalFails in
    if f_lt f_zero totalChecks then
      agg <| agg_SuccessRate := f_div totalPasses totalChecks |>
          <| agg_ErrorRate := f_div totalFails totalChecks |>
    else if 0 <? checksRateCount then
      let success := f_div checksRateSum (f_of_Z checksRateCount) in
      agg <| agg_SuccessRate := success |> <| agg_ErrorRate := f_sub f_one success |>
    else if f_lt f_zero (agg_TotalRequests agg) then
      agg <| agg_SuccessRate := f_zero |> <| agg_ErrorRate := f_one |>
    else agg.

(** Counts from the total and the error rate, when the API gave none. *)
Definition derive_counts (agg : AggregatedMetrics) : AggregatedMetrics :=
  if f_eq (agg_HTTPSuccesses agg) f_zero && f_eq (agg_HTTPFailures agg) f_zero &&
     f_lt f_zero (agg_TotalRequests agg)
  then
    let failures := f_round (f_mul (agg_TotalRequests agg) (agg_ErrorRate agg)) in
    agg <| agg_HTTPFailures := failures |>
        <| agg_HTTPSuccesses := f_sub (agg_TotalRequests agg) failures |>
  else agg.

(** ** The pass over the workers *)

Section aggregate.
Context `{MapOrder}.

Definition collect_thresholds (metrics : gmap string K6Metric) (thresholds : gmap string bool)
  : gmap string bool :=
  foldl taint_entry thresholds (range_over (map_to_list metrics)).

(** The body of the loop over the worker results. *)
Definition worker_step (a : accumulators) (wr : WorkerResult) : accumulators :=
  let append_row (agg : AggregatedMetrics) :=
    agg <| agg_Workers := agg_Workers agg ++ [worker_row wr] |> in
  match wr_Error wr with
  | Some _ => a <| acc_agg := append_row (acc_agg a) |>
  | None =>
    let metrics := wr_Metrics wr in
    let agg := counts_step metrics (acc_agg a) in
    let agg := match metrics !! "http_req_failed" with
               | Some hf => failures_step hf (reqCount metrics) agg
               | None => agg
               end in
    let a := a <| acc_thresholds := collect_thresholds metrics (acc_thresholds a) |>
               <| acc_agg := agg |> in
    let a := match metrics !! "http_req_duration" with
             | Some dur => latency_step dur (reqCount metrics) a
             | None => a
             end in
    a <| acc_agg := append_row (acc_agg a) |>
  end.

Definition threshold_rows (thresholds : gmap string bool) : list ThresholdResult :=
  map (fun kv => mkThresholdResult kv.1 (negb kv.2)) (range_over (map_to_list thresholds)).

Definition Aggregate (workerResults : list WorkerResult) : AggregatedMetrics :=
  let a := foldl worker_step zero_acc workerResults in
  let agg := derive_counts (rates workerResults (weighted_averages a)) in
  agg <| agg_Thresholds := agg_Thresholds agg ++ threshold_rows (acc_thresholds a) |>.
End aggregate.

(** ** What the pass leaves alone *)

(** The counters that are plain sums over the workers. *)
Inductive counter :=
  | Requests | BusinessRequests | Iterations | DataReceived | DataSent | Status4xx | Status5xx.

Definition counter_metric (c : counter) : string :=
  match c with
  | Requests => "http_reqs"
  | BusinessRequests => "business_http_requests_total"
  | Iterations => "iterations"
  | DataReceived => "data_received"
  | DataSent => "data_sent"
  | Status4xx => "status_4xx"
  | Status5xx => "status_5xx"
  end.

Definition counter_total (c : counter) (agg : AggregatedMetrics) : float64 :=
  match c with
  | Requests => agg_TotalRequests agg
  | BusinessRequests => agg_BusinessRequests agg
  | Iterations => agg_Iterations agg
  | DataReceived => agg_DataReceived agg
  | DataSent => agg_DataSent agg
  | Status4xx => agg_Status4xx agg
  | Status5xx => agg_Status5xx agg
  end.

(** The count a worker contributes; [None] for a worker that could not be read
    or has no such metric. *)
Definition worker_count (c : counter) (wr : WorkerResult) : option float64 :=
  match wr_Error wr with
  | Some _ => None
  | None => metric_val (wr_Metrics wr) (counter_metric c) "count"
  end.

Lemma latency_step_agg (dur : K6Metric) (n : float64) (a : accumulators) :
  acc_agg (latency_step dur n a) = acc_agg a /\ acc_thresholds (latency_step dur n a) = acc_thresholds a.
Proof.
  unfold latency_step. destruct (valid_val dur "min") as [mn|]; [destruct (negb _ || _)|];
    (destruct (valid_val dur "max") as [mx|]; [destruct (f_lt _ mx)|]); done.
Qed.

Lemma failures_step_frame (hf : K6Metric) (n : float64) (agg : AggregatedMetrics) :
  (forall c, counter_total c (failures_step hf n agg) = counter_total c agg) /\
  agg_TotalVUs (failures_step hf n agg) = agg_TotalVUs agg /\
  agg_Workers (failures_step hf n agg) = agg_Workers agg /\
  agg_Thresholds (failures_step hf n agg) = agg_Thresholds agg.
Proof.
  unfold failures_step. cbv zeta. destruct (_ && _ && _); [destruct (Val hf "rate")|];
    split_and!; try done; by intros [].
Qed.

Lemma finish_frame (l : list WorkerResult) (a : accumulators) :
  let agg := derive_counts (rates l (weighted_averages a)) in
  (forall c, counter_total c agg = counter_total c (acc_agg a)) /\
  agg_TotalVUs agg = agg_TotalVUs (acc_agg a) /\ agg_Workers agg = agg_Workers (acc_agg a) /\
  agg_Thresholds agg = agg_Thresholds (acc_agg a).
Proof.
  assert (Hd : forall x, (forall c, counter_total c (derive_counts x) = counter_total c x) /\
    agg_TotalVUs (derive_counts x) = agg_TotalVUs x /\ agg_Workers (derive_counts x) = agg_Workers x /\
    agg_Thresholds (derive_counts x) = agg_Thresholds x).
  { intros x. unfold derive_counts. destruct (_ && _ && _); split_and!; try done; by intros []. }
  assert (Hr : forall x, (forall c, counter_total c (rates l x) = counter_total c x) /\
    agg_TotalVUs (rates l x) = agg_TotalVUs x /\ agg_Workers (rates l x) = agg_Workers x /\
    agg_Thresholds (rates l x) = agg_Thresholds x).
  { intros x. unfold rates. destruct (f_lt f_zero (f_add _ _)); [split_and!; try done; by intros []|].
    destruct (foldl checks_step _ l) as [[[p f] rs] rc].
    destruct (f_lt f_zero (f_add p f)); [split_and!; try done; by intros []|].
    destruct (0 <? rc); [split_and!; try done; by intros []|].
    destruct (f_lt f_zero _); split_and!; try done; by intros []. }
  assert (Hw : (forall c, counter_total c (weighted_averages a) = counter_total c (acc_agg a)) /\
    agg_TotalVUs (weighted_averages a) = agg_TotalVUs (acc_agg a) /\
    agg_Workers (weighted_averages a) = agg_Workers (acc_agg a) /\
    agg_Thresholds (weighted_averages a) = agg_Thresholds (acc_agg a)).
  { unfold weighted_averages. destruct (f_lt _ _); split_and!; try done; by intros []. }
  cbv zeta. destruct (Hd (rates l (weighted_averages a))) as (D1 & -> & -> & ->).
  destruct (Hr (weighted_averages a)) as (R1 & -> & -> & ->). destruct Hw as (W1 & -> & -> & ->).
  split_and!; try done. intros c. by rewrite D1, R1, W1.
Qed.

Section sums.
Context `{MapOrder}.

(** What the body of the loop does to the counters, the rows, the VUs and the
    thresholds. *)
Lemma worker_step_frame (a : accumulators) (wr : WorkerResult) :
  let a' := worker_step a wr in
  (forall c, counter_total c (acc_agg a') = plus_found (counter_total c (acc_agg a)) (worker_count c wr)) /\
  agg_Workers (acc_agg a') = agg_Workers (acc_agg a) ++ [worker_row wr] /\
  (agg_TotalVUs (acc_agg a') = agg_TotalVUs (acc_agg a) ⊞ wm_VUs (worker_row wr) \/
   agg_TotalVUs (acc_agg a') = agg_TotalVUs (acc_agg a) /\ wm_VUs (worker_row wr) = 0) /\
  agg_Thresholds (acc_agg a') = agg_Thresholds (acc_agg a) /\
  acc_thresholds a' = match wr_Error wr with
                      | Some _ => acc_thresholds a
                      | None => collect_thresholds (wr_Metrics wr) (acc_thresholds a)
                      end.
Proof.
  unfold worker_step, worker_count, worker_row. destruct (wr_Error wr) as [e|]; cbv zeta.
  { split_and!; try done; first [by intros []|by right]. }
  set (metrics := wr_Metrics wr).
  set (agg1 := counts_step metrics (acc_agg a)).
  set (agg2 := match metrics !! "http_req_failed" with Some hf => _ | None => agg1 end).
  assert (H2 : (forall c, counter_total c agg2 = counter_total c agg1) /\
    agg_TotalVUs agg2 = agg_TotalVUs agg1 /\ agg_Workers agg2 = agg_Workers agg1 /\
    agg_Thresholds agg2 = agg_Thresholds agg1).
  { unfold agg2. destruct (metrics !! "http_req_failed"); [apply failures_step_frame|done]. }
  destruct H2 as (C2 & V2 & W2 & T2). clearbody agg2.
  set (a1 := update_field acc_agg (fun _ => agg2) _).
  set (a2 := match metrics !! "http_req_duration" with Some dur => _ | None => a1 end).
  assert (H3 : acc_agg a2 = agg2 /\ acc_thresholds a2 = collect_thresholds metrics (acc_thresholds a)).
  { unfold a2. destruct (metrics !! "http_req_duration"); [|done].
    destruct (latency_step_agg k (reqCount metrics) a1) as [-> ->]. done. }
  destruct H3 as [A3 T3]. clearbody a2 a1. simpl. rewrite A3, T3. split_and!.
  - intros c. transitivity (counter_total c agg1); [rewrite <- C2; by destruct c|by destruct c].
  - by rewrite W2.
  - rewrite V2. unfold agg1, counts_step; simpl. destruct (metric_val metrics "vus" "value"); auto.
  - by rewrite T2.
  - done.
Qed.

(** The accumulators after the pass. *)
Lemma fold_frame (l : list WorkerResult) (a : accumulators) :
  let a' := foldl worker_step a l in
  (forall c, counter_total c (acc_agg a') =
     foldl plus_found (counter_total c (acc_agg a)) (map (worker_count c) l)) /\
  agg_Workers (acc_agg a') = agg_Workers (acc_agg a) ++ map worker_row l /\
  (in_i64 (agg_TotalVUs (acc_agg a)) ->
   agg_TotalVUs (acc_agg a') = agg_TotalVUs (acc_agg a) ⊞ zsum (map (fun wr => wm_VUs (worker_row wr)) l)) /\
  agg_Thresholds (acc_agg a') = agg_Thresholds (acc_agg a).
Proof.
  revert a. induction l as [|wr l IH]; intros a; simpl.
  { split_and!; [done|by rewrite app_nil_r| |done]. intros Hr. by rewrite Z.add_0_r, i64_id. }
  destruct (worker_step_frame a wr) as (C & W & V & T & _).
  destruct (IH (worker_step a wr)) as (C' & W' & V' & T'). split_and!.
  - intros c. by rewrite C', C.
  - by rewrite W', W, <- app_assoc.
  - intros Hr. fold (zsum (map (fun wr => wm_VUs (worker_row wr)) l)). destruct V as [V|[V V0]].
    + rewrite V', V by (rewrite V; apply i64_range). rewrite i64_add_l. f_equal. lia.
    + rewrite V', V by (by rewrite V). rewrite V0. f_equal.
  - by rewrite T', T.
Qed.

Lemma counter_thresholds (c : counter) (x : AggregatedMetrics) (t : list ThresholdResult) :
  counter_total c (x <| agg_Thresholds := t |>) = counter_total c x.
Proof. by destruct c. Qed.

Lemma counter_zero (c : counter) : counter_total c zero_AggregatedMetrics = f_zero.
Proof. by destruct c. Qed.

Lemma zsum_found_nonneg (ns : list (option Z)) :
  (forall n, Some n ∈ ns -> 0 <= n) -> 0 <= zsum (omap id ns).
Proof.
  induction ns as [|[n|] ns IH]; intros Hns; simpl; [done| |].
  - change (0 <= n + zsum (omap id ns)).
    assert (0 <= n) by (apply Hns, elem_of_cons; auto).
    specialize (IH ltac:(intros k Hk; apply Hns, elem_of_cons; auto)). lia.
  - apply IH. intros k Hk. apply Hns, elem_of_cons. auto.
Qed.

Lemma plus_found_exact (ns : list (option Z)) (s : Z) :
  0 <= s -> (forall n, Some n ∈ ns -> 0 <= n) -> s + zsum (omap id ns) < 2 ^ 53 ->
  foldl plus_found (f_of_Z s) (map (fmap f_of_Z) ns) = f_of_Z (s + zsum (omap id ns)).
Proof.
  revert s. induction ns as [|n ns IH]; intros s Hs Hns Hb.
  - simpl. by rewrite Z.add_0_r.
  - assert (Hns' : forall m, Some m ∈ ns -> 0 <= m) by (intros m Hm; apply Hns, elem_of_cons; auto).
    pose proof (zsum_found_nonneg ns Hns') as Hz. destruct n as [n|]; [|by apply IH].
    change (zsum (omap id (Some n :: ns))) with (n + zsum (omap id ns)) in *.
    assert (0 <= n) by (apply Hns, elem_of_cons; auto).
    cbn [map foldl fmap option_fmap option_map plus_found]. rewrite f_add_of_Z by lia.
    rewrite IH by (done || lia). f_equal. lia.
Qed.

Lemma Aggregate_eq (l : list WorkerResult) :
  exists x t, Aggregate l = x <| agg_Thresholds := t |> /\
    (forall c, counter_total c x = foldl plus_found f_zero (map (worker_count c) l)) /\
    agg_Workers x = map worker_row l /\
    agg_TotalVUs x = i64 (zsum (map (fun wr => wm_VUs (worker_row wr)) l)).
Proof.
  destruct (finish_frame l (foldl worker_step zero_acc l)) as (C & V & W & _).
  destruct (fold_frame l zero_acc) as (C' & W' & V' & _).
  assert (H0 : in_i64 0) by i64_lia. eexists _, _. split; [reflexivity|]. split_and!.
  - intros c. by rewrite C, C', counter_zero.
  - by rewrite W, W'.
  - by rewrite V, (V' H0).
Qed.

(** Whatever the workers report, the result has one row per worker, in
    order, and the total number of VUs is the 64-bit sum of the rows'.  When the
    counts of a counter are integers whose sum is below 2^53, its total is the
    exact sum over the workers that could be read; so it does not depend on the
    order of the workers. *)
Theorem Aggregate_totals (l : list WorkerResult) :
  let agg := Aggregate l in
  agg_Workers agg = map worker_row l /\
  agg_TotalVUs agg = i64 (zsum (map wm_VUs (agg_Workers agg))) /\
  forall c ns, map (worker_count c) l = map (fmap f_of_Z) ns ->
    (forall n, Some n ∈ ns -> 0 <= n) -> zsum (omap id ns) < 2 ^ 53 ->
    counter_total c agg = f_of_Z (zsum (omap id ns)).
Proof.
  cbv zeta. destruct (Aggregate_eq l) as (x & t & -> & C & W & V).
  change (agg_Workers (x <| agg_Thresholds := t |>)) with (agg_Workers x).
  change (agg_TotalVUs (x <| agg_Thresholds := t |>)) with (agg_TotalVUs x).
  split_and!.
  - exact W.
  - rewrite V, W, map_map. done.
  - intros c ns Hns Hpos Hb. rewrite counter_thresholds, C, Hns. change f_zero with (f_of_Z 0).
    rewrite plus_found_exact by (done || lia). done.
Qed.
End sums.

(** ** Thresholds *)

(** The verdict of a worker on a metric. *)
Definition verdict (name : string) (wr : WorkerResult) : option bool :=
  match wr_Error wr with
  | Some _ => None
  | None => m ← wr_Metrics wr !! name; k6m_Tainted m
  end.

Definition combine (old new : option bool) : option bool :=
  match old, new with
  | Some a, Some b => Some (a || b)
  | None, _ => new
  | Some _, None => old
  end.

Lemma combine_None_r (o : option bool) : combine o None = o.
Proof. by destruct o. Qed.

Lemma taint_entry_lookup (t : gmap string bool) (k name : string) (m : K6Metric) :
  taint_entry t (k, m) !! name = if String.eqb k name then combine (t !! name) (k6m_Tainted m) else t !! name.
Proof.
  unfold taint_entry. simpl. destruct (String.eqb k name) eqn:E; bool_prop.
  - subst k. destruct (k6m_Tainted m) as [b|]; [|by destruct (t !! name)].
    destruct (t !! name) eqn:T; by rewrite lookup_insert_eq.
  - destruct (k6m_Tainted m); [|done]. by destruct (t !! k); rewrite lookup_insert_ne.
Qed.

Lemma taint_fold_lookup (l : list (string * K6Metric)) (t : gmap string bool) (name : string) :
  NoDup l.*1 ->
  foldl taint_entry t l !! name =
  combine (t !! name) (kv ← List.find (fun kv => String.eqb kv.1 name) l; k6m_Tainted kv.2).
Proof.
  revert t. induction l as [|[k m] l IH]; intros t Hnd; simpl.
  { by destruct (t !! name). }
  apply NoDup_cons in Hnd as [Hk Hnd]. rewrite IH, taint_entry_lookup by done. simpl.
  destruct (String.eqb k name) eqn:E; [|done]. bool_prop. subst k. simpl.
  assert (List.find (fun kv : string * K6Metric => String.eqb kv.1 name) l = None) as ->.
  { destruct (List.find _ l) as [[k' m']|] eqn:F; [|done]. apply List.find_some in F as [Hin He].
    simpl in He. bool_prop. subst k'. exfalso. apply Hk. apply list_elem_of_fmap.
    exists (name, m'). split; [done|]. by apply list_elem_of_In. }
  simpl. by rewrite combine_None_r.
Qed.

Section thresholds.
Context `{MapOrder}.

Lemma collect_lookup (metrics : gmap string K6Metric) (t : gmap string bool) (name : string) :
  collect_thresholds metrics t !! name = combine (t !! name) (m ← metrics !! name; k6m_Tainted m).
Proof.
  unfold collect_thresholds. set (l := range_over (map_to_list metrics)).
  assert (Hp : l ≡ₚ map_to_list metrics) by apply range_over_perm.
  assert (Hnd : NoDup l.*1) by (rewrite Hp; apply NoDup_fst_map_to_list).
  rewrite taint_fold_lookup by done. f_equal.
  destruct (metrics !! name) as [m|] eqn:E; simpl.
  - apply elem_of_map_to_list in E. rewrite <- Hp in E.
    destruct (List.find _ l) as [[k m']|] eqn:F; simpl.
    + apply List.find_some in F as [Hin He]. simpl in He. bool_prop. subst k.
      apply list_elem_of_In in Hin. rewrite Hp in Hin, E. apply elem_of_map_to_list in Hin, E. congruence.
    + apply list_elem_of_In in E. apply (List.find_none _ _ F) in E. simpl in E.
      by rewrite String.eqb_refl in E.
  - destruct (List.find _ l) as [[k m']|] eqn:F; [|done]. exfalso.
    apply List.find_some in F as [Hin He]. simpl in He. bool_prop. subst k.
    apply list_elem_of_In in Hin. rewrite Hp in Hin. apply elem_of_map_to_list in Hin. congruence.
Qed.

Lemma thresholds_lookup (l : list WorkerResult) (a : accumulators) (name : string) :
  acc_thresholds (foldl worker_step a l) !! name =
  foldl combine (acc_thresholds a !! name) (map (verdict name) l).
Proof.
  revert a. induction l as [|wr l IH]; intros a; simpl; [done|].
  rewrite IH. f_equal. destruct (worker_step_frame a wr) as (_ & _ & _ & _ & ->).
  unfold verdict. destruct (wr_Error wr); [by destruct (acc_thresholds a !! name)|].
  apply collect_lookup.
Qed.

Definition reported (o : option bool) : bool := match o with Some _ => true | None => false end.
Definition breached (o : option bool) : bool := match o with Some b => b | None => false end.

Lemma combine_fold_eq (os : list (option bool)) (o : option bool) :
  foldl combine o os =
  if existsb reported (o :: os) then Some (existsb breached (o :: os)) else None.
Proof.
  revert o. induction os as [|n os IH]; intros o; simpl; [by destruct o as [[]|]|].
  rewrite IH. by destruct o as [[]|], n as [[]|].
Qed.

Lemma combine_fold (os : list (option bool)) (b : bool) :
  foldl combine None os = Some b <->
  (exists x, x ∈ os /\ x <> None) /\ (b = true <-> Some true ∈ os).
Proof.
  rewrite combine_fold_eq. simpl.
  assert (Hr : existsb reported os = true <-> exists x, x ∈ os /\ x <> None).
  { rewrite existsb_exists. split; intros (x & Hx & Hn); exists x;
      (split; [by apply list_elem_of_In|by destruct x]). }
  assert (Hb : existsb breached os = true <-> Some true ∈ os).
  { rewrite existsb_exists. split.
    - intros ([[|]|] & Hx & Hn); try done. by apply list_elem_of_In.
    - intros Hx. exists (Some true). split; [by apply list_elem_of_In|done]. }
  rewrite <- Hr, <- Hb. destruct (existsb reported os); [|split; [done|by intros [? _]]].
  split.
  - intros [= <-]. done.
  - intros [_ Hiff]. f_equal. destruct b, (existsb breached os); try done; [by apply Hiff|].
    symmetry. by apply Hiff.
Qed.

(** The thresholds of the result are those some readable worker reports,
    each once, and one has passed exactly when no readable worker reports it as
    breached. *)
Theorem Aggregate_thresholds (l : list WorkerResult) :
  NoDup (map thr_Metric (agg_Thresholds (Aggregate l))) /\
  forall name passed, mkThresholdResult name passed ∈ agg_Thresholds (Aggregate l) <->
    (exists wr, wr ∈ l /\ verdict name wr <> None) /\
    (passed = false <-> exists wr, wr ∈ l /\ verdict name wr = Some true).
Proof.
  assert (E : agg_Thresholds (Aggregate l) = threshold_rows (acc_thresholds (foldl worker_step zero_acc l))).
  { unfold Aggregate. destruct (finish_frame l (foldl worker_step zero_acc l)) as (_ & _ & _ & T).
    destruct (fold_frame l zero_acc) as (_ & _ & _ & T'). cbv zeta in *. simpl. rewrite T, T'. done. }
  rewrite E. clear E. unfold threshold_rows. split.
  - rewrite map_map. simpl. change (map (fun x => x.1) ?y) with (y.*1).
    rewrite range_over_perm. apply NoDup_fst_map_to_list.
  - intros name passed. rewrite list_elem_of_fmap. setoid_rewrite range_over_perm.
    assert (Hv : forall o, o <> None -> (exists wr, wr ∈ l /\ verdict name wr = o) <->
      o ∈ map (verdict name) l).
    { intros o Ho. rewrite list_elem_of_fmap. split; intros (wr & ? & ?); eauto. }
    transitivity (acc_thresholds (foldl worker_step zero_acc l) !! name = Some (negb passed)).
    { split.
      - intros ([k b] & [= -> ->] & Hin). apply elem_of_map_to_list in Hin.
        by rewrite negb_involutive.
      - intros Hin. exists (name, negb passed). simpl. rewrite negb_involutive.
        split; [done|]. by apply elem_of_map_to_list. }
    rewrite thresholds_lookup. simpl. rewrite lookup_empty, combine_fold.
    rewrite <- Hv by done. rewrite negb_true_iff. f_equiv. split.
    + intros (x & Hx & Hn). apply Hv in Hx as (wr & Hwr & <-); [eauto|done].
    + intros (wr & Hwr & Hn). exists (verdict name wr). split; [|done]. apply Hv; eauto.
Qed.
End thresholds.

(** ** The rate of failed requests *)

Definition counter_of (n : Z) : K6Metric := mkK6Metric "counter" "" None {[ "count" := f_of_Z n ]} ∅.
Definition rate_of (x : float64) : K6Metric := mkK6Metric "rate" "" None {[ "rate" := x ]} ∅.

(** A worker as the live API shows it: 100 requests and the rate of failed ones. *)
Definition live_worker (address : string) (rate : float64) : WorkerResult := {|
  wr_Address := address;
  wr_Metrics := {[ "http_reqs" := counter_of 100; "http_req_failed" := rate_of rate ]};
  wr_Error := None |}.

(** While the API reports only rates, the failures of the second worker
    are lost: the totals are no longer zero after the first one.  All of the
    second worker's requests fail; alone it is counted as failing, together
    with a healthy worker in front the error rate is zero. *)
Theorem Aggregate_rate_lost :
  let healthy := live_worker "w1:6565" f_zero in
  let failing := live_worker "w2:6565" f_one in
  let error_rate l := agg_ErrorRate (@Aggregate id_map_order l) in
  error_rate [failing] = f_one /\
  agg_TotalRequests (@Aggregate id_map_order [healthy; failing]) = f_of_Z 200 /\
  error_rate [healthy; failing] = f_zero /\ error_rate [failing; healthy] = f_one.
Proof. vm_compute. auto. Qed.
