(* ===== verification/SummarySpec.v ===== *)
(** * What the merge of the summaries keeps

    Counters, rows and thresholds of [mergeSummaryMetrics], and the status of a
    merged authentication summary. *)

From S2P Require Export Summary Aggregator.

Open Scope Z_scope.
Open Scope go_scope.

(** ** Totals *)

(** The totals that are plain sums of a value of a metric. *)
Inductive total :=
  | TRequests | TStatus4xx | TStatus5xx | TIterations | TChecksPasses | TChecksFails
  | TBusinessRequests | TBusinessSuccesses | TBusinessFailures | TBusiness2xx | TBusiness4xx
  | TBusiness5xx | TBusinessTransport.

Definition total_of (t : total) (m : MergedSummaryMetrics) : float64 :=
  match t with
  | TRequests => ms_TotalRequests m
  | TStatus4xx => ms_TotalStatus4xx m
  | TStatus5xx => ms_TotalStatus5xx m
  | TIterations => ms_Iterations m
  | TChecksPasses => ms_ChecksPasses m
  | TChecksFails => ms_ChecksFails m
  | TBusinessRequests => ms_BusinessRequests m
  | TBusinessSuccesses => ms_BusinessSuccesses m
  | TBusinessFailures => ms_BusinessFailures m
  | TBusiness2xx => ms_BusinessStatus2xx m
  | TBusiness4xx => ms_BusinessStatus4xx m
  | TBusiness5xx => ms_BusinessStatus5xx m
  | TBusinessTransport => ms_BusinessTransportFailures m
  end.

(** The metric and the value it is summed from. *)
Definition total_source (t : total) : string * string :=
  match t with
  | TRequests => ("http_reqs", "count")
  | TStatus4xx => ("status_4xx", "count")
  | TStatus5xx => ("status_5xx", "count")
  | TIterations => ("iterations", "count")
  | TChecksPasses => ("checks", "passes")
  | TChecksFails => ("checks", "fails")
  | TBusinessRequests => ("business_http_requests_total", "count")
  | TBusinessSuccesses => ("business_http_success_total", "count")
  | TBusinessFailures => ("business_http_failure_total", "count")
  | TBusiness2xx => ("business_status_2xx", "count")
  | TBusiness4xx => ("business_status_4xx", "count")
  | TBusiness5xx => ("business_status_5xx", "count")
  | TBusinessTransport => ("business_transport_failures_total", "count")
  end.

Definition reported_value (t : total) (s : namedSummary) : float64 :=
  metricValue (summary_metric s (total_source t).1) (total_source t).2.

Lemma merge_step_total (t : total) (m : MergedSummaryMetrics) (s : namedSummary) :
  total_of t (merge_step m s) = f_add (total_of t m) (reported_value t s).
Proof. by destruct t. Qed.

Lemma merge_fold_total (t : total) (m : MergedSummaryMetrics) (l : list namedSummary) :
  total_of t (foldl merge_step m l) = foldl f_add (total_of t m) (map (reported_value t) l).
Proof. revert m. induction l as [|s l IH]; intros m; [done|]. simpl. by rewrite IH, merge_step_total. Qed.

Lemma foldl_add_exact (ns : list Z) (a : Z) :
  0 <= a -> Forall (fun n => 0 <= n) ns -> a + zsum ns < 2 ^ 53 ->
  foldl f_add (f_of_Z a) (map f_of_Z ns) = f_of_Z (a + zsum ns).
Proof.
  revert a. induction ns as [|n ns IH]; intros a Ha Hn Hb; simpl; [by rewrite Z.add_0_r|].
  apply Forall_cons in Hn as [Hn Hns]. simpl in Hb.
  assert (0 <= zsum ns) by (clear -Hns; induction Hns; simpl; lia).
  rewrite f_add_of_Z by lia. rewrite IH by (done || lia). f_equal. lia.
Qed.

Lemma merge_fold_rows (m : MergedSummaryMetrics) (l : list namedSummary) :
  ms_Workers (foldl merge_step m l) = ms_Workers m ++ map buildWorkerSummaryMetrics l.
Proof.
  revert m. induction l as [|s l IH]; intros m; simpl; [by rewrite app_nil_r|]. rewrite IH. simpl.
  by rewrite <- app_assoc.
Qed.

Lemma merge_fold_frame (m : MergedSummaryMetrics) (l : list namedSummary) :
  ms_RawWorkerCount (foldl merge_step m l) = ms_RawWorkerCount m /\
  ms_Thresholds (foldl merge_step m l) = ms_Thresholds m /\
  ms_HasBusinessMetrics (foldl merge_step m l) =
    ms_HasBusinessMetrics m || existsb (fun s => summaryHasBusinessMetrics (ns_Summary s)) l.
Proof.
  revert m. induction l as [|s l IH]; intros m; simpl; [by rewrite orb_false_r|].
  destruct (IH (merge_step m s)) as (-> & -> & ->). split_and!; [done|done|]. simpl. by rewrite orb_assoc.
Qed.

(** ** Thresholds *)

Section thresholds.
Context `{MapOrder}.

(** A verdict so far, after more of them. *)
Definition and_all (old : option bool) (oks : list bool) : option bool :=
  match oks with [] => old | _ => Some (default true old && forallb id oks) end.

Lemma and_all_app (o : option bool) (xs ys : list bool) : and_all o (xs ++ ys) = and_all (and_all o xs) ys.
Proof.
  destruct xs as [|x xs]; [done|]. destruct ys as [|y ys]; [by rewrite app_nil_r|].
  unfold and_all. change ((x :: xs) ++ y :: ys) with (x :: (xs ++ y :: ys)). cbn [default].
  change (x :: xs ++ y :: ys) with ((x :: xs) ++ y :: ys). by rewrite forallb_app, andb_assoc.
Qed.

Lemma merge_threshold_lookup (k name : string) (t : gmap string bool) (oks : list bool) :
  foldl (merge_threshold k) t oks !! name = if String.eqb k name then and_all (t !! name) oks else t !! name.
Proof.
  revert t. induction oks as [|ok oks IH]; intros t; simpl; [by destruct (String.eqb k name)|].
  rewrite IH. unfold merge_threshold. destruct (String.eqb_spec k name) as [->|Hne].
  - rewrite lookup_insert_eq. destruct oks as [|x oks]; simpl; [|].
    + f_equal. destruct (t !! name); simpl; by rewrite andb_true_r.
    + f_equal. destruct (t !! name); simpl; by rewrite !andb_assoc.
  - by rewrite lookup_insert_ne.
Qed.

(** The verdicts on a metric in some entries. *)
Definition entry_oks (name : string) (e : string * K6SummaryMetric) : list bool :=
  if String.eqb e.1 name then map snd (range_over (map_to_list (ksm_Thresholds e.2))) else [].

Lemma merge_metrics_lookup (name : string) (t : gmap string bool) (l : list (string * K6SummaryMetric)) :
  foldl merge_metric_thresholds t l !! name = and_all (t !! name) (flat_map (entry_oks name) l).
Proof.
  revert t. induction l as [|e l IH]; intros t; simpl; [done|].
  rewrite IH, and_all_app. f_equal. unfold merge_metric_thresholds, entry_oks.
  rewrite merge_threshold_lookup. by destruct (String.eqb e.1 name).
Qed.

Definition summary_oks (name : string) (s : namedSummary) : list bool :=
  flat_map (entry_oks name) (range_over (map_to_list (ksd_Metrics (ns_Summary s)))).

Lemma merged_thresholds_lookup (name : string) (l : list namedSummary) :
  merged_thresholds l !! name = and_all None (flat_map (summary_oks name) l).
Proof.
  unfold merged_thresholds. change (@None bool) with ((∅ : gmap string bool) !! name). generalize (∅ : gmap string bool).
  induction l as [|s l IH]; intros t; simpl; [done|].
  rewrite IH, and_all_app. f_equal. apply merge_metrics_lookup.
Qed.

(** The summary [s] has the verdict [ok] on the metric. *)
Definition says (s : namedSummary) (name : string) (ok : bool) : Prop :=
  exists m rule, summary_metric s name = Some m /\ ksm_Thresholds m !! rule = Some ok.

Lemma summary_oks_says (s : namedSummary) (name : string) (ok : bool) :
  ok ∈ summary_oks name s <-> says s name ok.
Proof.
  unfold summary_oks, says. rewrite list_elem_of_In, in_flat_map.
  assert (Hr : forall {A} (m : gmap string A) kv, In kv (range_over (map_to_list m)) <-> m !! kv.1 = Some kv.2).
  { intros A m [k v]. rewrite <- list_elem_of_In, range_over_perm. apply elem_of_map_to_list. }
  split.
  - intros ([k m] & Hin & Hok). apply Hr in Hin. simpl in Hin. unfold entry_oks in Hok. simpl in Hok.
    destruct (String.eqb_spec k name) as [->|]; [|done]. apply in_map_iff in Hok as ([rule b] & <- & Hb).
    apply Hr in Hb. eauto.
  - intros (m & rule & Hm & Hok). exists (name, m). split; [by apply Hr|]. unfold entry_oks. simpl.
    rewrite String.eqb_refl. apply in_map_iff. exists (rule, ok). split; [done|]. by apply Hr.
Qed.

Lemma and_all_Some (oks : list bool) (p : bool) :
  and_all None oks = Some p <-> oks <> [] /\ (p = true <-> forall ok, ok ∈ oks -> ok = true).
Proof.
  assert (Hf : forallb id oks = true <-> forall ok, ok ∈ oks -> ok = true).
  { rewrite forallb_forall. by setoid_rewrite list_elem_of_In. }
  destruct oks as [|ok oks]; [split; [done|by intros [? _]]|]. unfold and_all. cbn [default andb]. rewrite <- Hf.
  split.
  - intros [= <-]. done.
  - intros [_ Hp]. f_equal. destruct p, (forallb id (ok :: oks)); try done; [by apply Hp|symmetry; by apply Hp].
Qed.

Lemma mergeThresholds_spec (l : list namedSummary) :
  NoDup (map thr_Metric (mergeThresholds l)) /\
  forall name passed, mkThresholdResult name passed ∈ mergeThresholds l <->
    (exists s ok, s ∈ l /\ says s name ok) /\
    (passed = true <-> forall s ok, s ∈ l -> says s name ok -> ok = true).
Proof.
  unfold mergeThresholds. split.
  - rewrite map_map. simpl. change (map (fun x => x.1) ?y) with (y.*1).
    rewrite range_over_perm. apply NoDup_fst_map_to_list.
  - intros name passed. rewrite list_elem_of_fmap. setoid_rewrite range_over_perm.
    transitivity (merged_thresholds l !! name = Some passed).
    { split.
      - intros ([k b] & [= -> ->] & Hin). by apply elem_of_map_to_list in Hin.
      - intros Hin. exists (name, passed). split; [done|]. by apply elem_of_map_to_list. }
    rewrite merged_thresholds_lookup, and_all_Some.
    assert (Hs : forall ok, ok ∈ flat_map (summary_oks name) l <-> exists s, s ∈ l /\ says s name ok).
    { intros ok. rewrite list_elem_of_In, in_flat_map. setoid_rewrite <- list_elem_of_In.
      by setoid_rewrite summary_oks_says. }
    assert (Hne : flat_map (summary_oks name) l <> [] <-> exists s ok, s ∈ l /\ says s name ok).
    { split.
      - intros Hn. destruct (flat_map (summary_oks name) l) as [|ok oks] eqn:E; [done|].
        destruct (proj1 (Hs ok) ltac:(apply elem_of_cons; auto)) as (s & ? & ?). eauto.
      - intros (s & ok & Hin & Hsay) E. assert (ok ∈ flat_map (summary_oks name) l) as Hx by (apply Hs; eauto).
        rewrite E in Hx. by apply not_elem_of_nil in Hx. }
    rewrite Hne. setoid_rewrite Hs. f_equiv. naive_solver.
Qed.

(** ** The merge *)

Lemma merged_eq (l : list namedSummary) :
  l <> [] ->
  exists lat blat brk,
    mergeSummaryMetrics l =
    Ok ((foldl merge_step (zero_merged <| ms_RawWorkerCount := Z.of_nat (length l) |>
                                       <| ms_Thresholds := mergeThresholds l |>) l)
        <| ms_TotalLatency := lat |> <| ms_BusinessLatency := blat |> <| ms_BusinessBreakdown := brk |>).
Proof.
  intros Hl. unfold mergeSummaryMetrics. destruct l as [|s l]; [done|].
  cbv zeta. set (m := foldl merge_step _ (s :: l)). clearbody m.
  destruct (aggregateLatencyMetric (s :: l) "business_http_duration_ms" _) as [b|];
    [eexists _, b, _; reflexivity|].
  exists (default zero_latency (aggregateLatencyMetric (s :: l) "http_req_duration" "http_reqs")),
    (ms_BusinessLatency m), (ms_BusinessBreakdown m). by destruct m.
Qed.

(** Merging fails only for no summaries.  Otherwise the result has one row
    per summary, in order and under its name; the totals of integer counts whose
    sum is below 2^53 are exact sums over the summaries; business metrics are
    reported when some summary has them; and a threshold is listed once, for
    each metric that some summary judges, and has passed when every verdict of
    every summary on it was positive. *)
Theorem mergeSummaryMetrics_spec (l : list namedSummary) :
  match mergeSummaryMetrics l with
  | Err _ => l = []
  | Ok m =>
    l <> [] /\ ms_RawWorkerCount m = Z.of_nat (length l) /\
    ms_Workers m = map buildWorkerSummaryMetrics l /\
    map ws_Name (ms_Workers m) = map ns_Name l /\
    (ms_HasBusinessMetrics m = true <-> exists s, s ∈ l /\ summaryHasBusinessMetrics (ns_Summary s) = true) /\
    (forall t ns, map (reported_value t) l = map f_of_Z ns -> Forall (fun n => 0 <= n) ns ->
       zsum ns < 2 ^ 53 -> total_of t m = f_of_Z (zsum ns)) /\
    NoDup (map thr_Metric (ms_Thresholds m)) /\
    (forall name passed, mkThresholdResult name passed ∈ ms_Thresholds m <->
      (exists s ok, s ∈ l /\ says s name ok) /\
      (passed = true <-> forall s ok, s ∈ l -> says s name ok -> ok = true))
  end.
Proof.
  destruct (decide (l = [])) as [->|Hl]; [done|].
  destruct (merged_eq l Hl) as (lat & blat & brk & ->).
  set (z := zero_merged <| ms_RawWorkerCount := _ |> <| ms_Thresholds := _ |>).
  destruct (merge_fold_frame z l) as (F1 & F2 & F3). pose proof (merge_fold_rows z l) as F4.
  pose proof (fun t => merge_fold_total t z l) as F5.
  generalize dependent (foldl merge_step z l). intros m F1 F2 F3 F4 F5.
  destruct (mergeThresholds_spec l) as [T1 T2].
  assert (Hw : ms_Workers m = map buildWorkerSummaryMetrics l) by exact F4.
  simpl. rewrite F1, F2, F3, Hw. split_and!; [done|done|done| | | |exact T1|exact T2].
  - by rewrite map_map.
  - change (ms_HasBusinessMetrics z) with false. rewrite orb_false_l, existsb_exists.
    by setoid_rewrite list_elem_of_In.
  - intros t ns Hns Hpos Hb. transitivity (total_of t m); [by destruct t|].
    rewrite F5, Hns. replace (total_of t z) with (f_of_Z 0) by (by destruct t).
    by rewrite foldl_add_exact by (done || lia).
Qed.
End thresholds.
