(* ===== verification/Ramping.v ===== *)
(** * Controller-side ramping: [controller/internal/orchestrator/ramping.go]

    The number of VUs at a point of the stage schedule, and the manager that
    walks through the schedule and can be paused, resumed and overridden.  The
    methods hold the manager's lock, so each is a function on its state;
    [time.Now()] is an argument, and the commands a method sends to the workers
    are part of its result.  [resolveBuilderRamping] of handler/test.go, which
    makes the stages, is here as well. *)

From Stdlib Require Import (notations) Strings.Ascii.
From S2P Require Export Prelude GoStrings GoTime GoFloat Model.

Open Scope Z_scope.
Open Scope go_scope.

(** ** The stage schedule *)

Definition parseStageDuration (d : string) : Z :=
  match split_last (trim_space d) with
  | None => 0
  | Some (digits, unit) =>
    match atoi digits with
    | None => 0
    | Some val =>
      if Ascii.eqb unit "s"%char then val ⊠ Second
      else if Ascii.eqb unit "m"%char then val ⊠ Minute
      else if Ascii.eqb unit "h"%char then val ⊠ Hour
      else val ⊠ Second
    end
  end.

(** The VUs [intoStage] nanoseconds into a stage of [stageDur], from
    [prevTarget] to [target]. *)
Definition interpolate (prevTarget target intoStage stageDur : Z) : Z :=
  let progress := f_div (f_of_Z intoStage) (f_of_Z stageDur) in
  let progress := if f_lt progress f_zero then f_zero else progress in
  let progress := if f_lt f_one progress then f_one else progress in
  f_to_int (f_add (f_of_Z prevTarget) (f_mul progress (f_of_Z (target ⊟ prevTarget)))).

(** The loop of [calculateVUs] from stage [i] on. *)
Fixpoint stage_loop (stages : list Stage) (i : Z) (cumulative prevTarget elapsed : Z) : Z * bool * Z :=
  match stages with
  | [] => (prevTarget, true, i - 1)
  | stage :: rest =>
    let stageDur := parseStageDuration (stg_Duration stage) in
    let stageEnd := cumulative ⊞ stageDur in
    if elapsed <? stageEnd
    then (interpolate prevTarget (stg_Target stage) (elapsed ⊟ cumulative) stageDur, false, i)
    else stage_loop rest (i + 1) stageEnd (stg_Target stage) elapsed
  end.

(** Target VUs, whether all stages are done, and the index of the stage. *)
Definition calculateVUs (stages : list Stage) (elapsed : Z) : Z * bool * Z :=
  match stages with
  | [] => (0, true, -1)
  | _ => stage_loop stages 0 0 0 elapsed
  end.

(** [resolveBuilderRamping] of handler/test.go. *)
Definition resolveBuilderRamping (req : TestRequest) : list Stage * bool :=
  if String.eqb (tr_Executor req) "ramping-vus" then
    if 0 <? Z.of_nat (length (tr_Stages req)) then (tr_Stages req, true) else ([], false)
  else if String.eqb (tr_Executor req) "constant-vus" then
    if tr_VUs req <=? 0 then ([], false)
    else
      let dur := if String.eqb (tr_Duration req) "" then "1m" else tr_Duration req in
      ([mkStage "0s" (tr_VUs req); mkStage dur (tr_VUs req)], true)
  else ([], false).

(** [resolveUploadRamping] of handler/test.go. *)
Definition resolveUploadRamping (configStages : list Stage) : list Stage * bool :=
  if 0 <? Z.of_nat (length configStages) then (configStages, true) else ([], false).

(** ** The manager *)

Record RampingManager := mkRampingManager {
  rm_stages : list Stage;
  rm_loop : option nat;         (* the loop [cancel] stops; None when cancel is nil *)
  rm_loops : nat;               (* loops started so far *)
  rm_paused : bool;
  rm_elapsed : Z;               (* how far the run was at [startTime] *)
  rm_startTime : Time;
  rm_manualVUs : Z;             (* 0: no override *)
  rm_overrideStageIdx : Z
}.

#[export] Instance eta_RampingManager : Eta RampingManager := fun rm =>
  mkRampingManager (rm_stages rm) (rm_loop rm) (rm_loops rm) (rm_paused rm) (rm_elapsed rm)
    (rm_startTime rm) (rm_manualVUs rm) (rm_overrideStageIdx rm).

Definition NewRampingManager : RampingManager :=
  mkRampingManager [] None 0 false 0 zero_time 0 (-1).

(** A new loop under a new context; [rm.cancel] stops it. *)
Definition start_loop (t : Time) (rm : RampingManager) : RampingManager :=
  rm <| rm_loop := Some (rm_loops rm) |> <| rm_loops := S (rm_loops rm) |> <| rm_startTime := t |>.

Definition RM_Start (t : Time) (stages : list Stage) (rm : RampingManager) : RampingManager :=
  start_loop t
    (rm <| rm_stages := stages |> <| rm_elapsed := 0 |> <| rm_paused := false |>
        <| rm_manualVUs := 0 |> <| rm_overrideStageIdx := -1 |>).

(** The time into the run, as [SetManualOverride] and the loop compute it. *)
Definition elapsed_at (t : Time) (rm : RampingManager) : Z :=
  rm_elapsed rm ⊞ sub t (rm_startTime rm).

Definition SetManualOverride (t : Time) (vus : Z) (rm : RampingManager) : RampingManager :=
  match rm_stages rm with
  | [] => rm
  | stages =>
    let elapsed := if rm_paused rm then rm_elapsed rm else elapsed_at t rm in
    let '(_, _, stageIdx) := calculateVUs stages elapsed in
    rm <| rm_manualVUs := vus |> <| rm_overrideStageIdx := stageIdx |>
  end.

(** What a method sends to the workers. *)
Inductive command := SendPauseAll | SendResumeAll | SendScale (totalVUs : Z).

(** [Pause]: the cancelled context is still stored in [cancel], so [rm_loop]
    is not reset. *)
Definition RM_Pause (t : Time) (rm : RampingManager) : list command * RampingManager :=
  if rm_paused rm then ([], rm)
  else
    let rm := match rm_stages rm with
              | [] => rm
              | _ => rm <| rm_elapsed := elapsed_at t rm |>
              end in
    ([SendPauseAll], rm <| rm_paused := true |>).

(** [Resume]: [resumed] is the outcome of [ResumeAll]. *)
Definition RM_Resume (t : Time) (resumed : res unit) (rm : RampingManager)
  : list command * RampingManager :=
  match resumed with
  | Err _ => ([SendResumeAll], rm)
  | Ok _ =>
    if negb (rm_paused rm) then ([SendResumeAll], rm)
    else
      let rm := rm <| rm_paused := false |> in
      ([SendResumeAll], match rm_stages rm with [] => rm | _ => start_loop t rm end)
  end.

Definition RM_Stop (rm : RampingManager) : RampingManager := rm <| rm_loop := None |>.

Definition IsPaused (rm : RampingManager) : bool := rm_paused rm.

(** What one tick of the loop does: the ramp is over, or VUs are set. *)
Inductive ramp_action := RampDone | ScaleTo (vus : Z).

(** One tick of [run]. *)
Definition ramp_tick (t : Time) (rm : RampingManager) : ramp_action * RampingManager :=
  let '(targetVUs, allDone, stageIdx) := calculateVUs (rm_stages rm) (elapsed_at t rm) in
  if allDone then (RampDone, rm)
  else if (0 <? rm_manualVUs rm) && (stageIdx =? rm_overrideStageIdx rm)
  then (ScaleTo (rm_manualVUs rm), rm)
  else if (0 <? rm_manualVUs rm) && negb (stageIdx =? rm_overrideStageIdx rm)
  then (ScaleTo targetVUs, rm <| rm_manualVUs := 0 |> <| rm_overrideStageIdx := -1 |>)
  else (ScaleTo targetVUs, rm).

(** ** The value within a stage *)

Lemma interpolate_clamp (prevTarget target into dur : Z) :
  interpolate prevTarget target into dur =
  f_to_int (f_add (f_of_Z prevTarget)
    (f_mul (clamp01 (f_div (f_of_Z into) (f_of_Z dur))) (f_of_Z (target ⊟ prevTarget)))).
Proof. reflexivity. Qed.

(** At its start a stage has the target of the stage before. *)
Lemma interpolate_start (prevTarget target dur : Z) :
  Z.abs prevTarget < 2 ^ 53 -> Z.abs (target ⊟ prevTarget) < 2 ^ 53 -> 0 < dur < 2 ^ 53 ->
  interpolate prevTarget target 0 dur = prevTarget.
Proof.
  intros Hp Ht Hd. rewrite interpolate_clamp.
  destruct (f_of_Z_pos dur Hd) as (m & e & ->). change (f_of_Z 0) with (S754_zero false).
  assert (Hm : exists s, f_mul (clamp01 (f_div (S754_zero false) (S754_finite false m e)))
    (f_of_Z (target ⊟ prevTarget)) = S754_zero s).
  { change (f_div _ _) with (S754_zero false). change (clamp01 _) with (S754_zero false).
    unfold f_of_Z, binary_normalize. destruct (target ⊟ prevTarget) as [|p|p]; [by eexists| |];
      rewrite binary_round_small by lia; by eexists. }
  destruct Hm as [s ->]. rewrite f_add_zero_any, f_to_int_of_Z by done. done.
Qed.

(** A stage from a target to itself holds it. *)
Lemma interpolate_hold (target into dur : Z) :
  Z.abs target < 2 ^ 53 -> 0 <= into -> into < dur < 2 ^ 53 ->
  interpolate target target into dur = target.
Proof.
  intros Ht Hi Hd. destruct (Z.eq_dec into 0) as [->|Hne].
  { apply interpolate_start; [done|rewrite Z.sub_diag; done|lia]. }
  rewrite interpolate_clamp, Z.sub_diag. change (f_of_Z (i64 0)) with f_zero.
  destruct (f_of_Z_pos dur ltac:(lia)) as (m & e & ->).
  destruct (f_of_Z_pos into ltac:(lia)) as (m' & e' & ->).
  destruct (clamp01_times_zero _ (f_div_not_nan false false m' m e' e)) as [s ->].
  rewrite f_add_zero_any, f_to_int_of_Z by done. done.
Qed.

(** ** The stages *)

Definition durations (stages : list Stage) : list Z := map (fun s => parseStageDuration (stg_Duration s)) stages.

(** The target the stage after [stages] starts from. *)
Definition target_before (prev : Z) (stages : list Stage) : Z :=
  match last stages with Some s => stg_Target s | None => prev end.

Lemma target_before_cons (prev : Z) (s : Stage) (l : list Stage) :
  target_before prev (s :: l) = target_before (stg_Target s) l.
Proof. unfold target_before. rewrite last_cons. by destruct (last l). Qed.

(** The outcome of the walk, in terms of a split of the stages. *)
Definition walk_outcome (stages : list Stage) (i cumulative prev elapsed : Z) (r : Z * bool * Z) : Prop :=
  (cumulative + zsum (durations stages) <= elapsed /\
   r = (target_before prev stages, true, i + Z.of_nat (length stages) - 1)) \/
  (exists pre s post, stages = pre ++ s :: post /\
   let c := cumulative + zsum (durations pre) in
   c <= elapsed < c + parseStageDuration (stg_Duration s) /\
   r = (interpolate (target_before prev pre) (stg_Target s) (elapsed - c)
          (parseStageDuration (stg_Duration s)), false, i + Z.of_nat (length pre))).

Lemma zsum_nonneg (l : list Z) : (forall x, x ∈ l -> 0 <= x) -> 0 <= zsum l.
Proof.
  induction l as [|x l IH]; intros Hl; simpl; [done|]. change (0 <= x + zsum l).
  assert (0 <= x) by (apply Hl, elem_of_cons; auto).
  specialize (IH ltac:(intros y Hy; apply Hl, elem_of_cons; auto)). lia.
Qed.

Lemma stage_loop_spec (stages : list Stage) (i cumulative prev elapsed : Z) :
  (forall d, d ∈ durations stages -> 0 <= d) -> 0 <= cumulative <= elapsed ->
  cumulative + zsum (durations stages) <= i64_max -> elapsed <= i64_max ->
  walk_outcome stages i cumulative prev elapsed (stage_loop stages i cumulative prev elapsed).
Proof.
  revert i cumulative prev. induction stages as [|s stages IH]; intros i c prev Hd Hc Hsum He; simpl.
  - left. simpl. split; [lia|]. do 2 f_equal. lia.
  - change (zsum (durations (s :: stages))) with
      (parseStageDuration (stg_Duration s) + zsum (durations stages)) in Hsum.
    set (d := parseStageDuration (stg_Duration s)) in *.
    assert (Hd0 : 0 <= d) by (apply Hd, elem_of_cons; auto).
    assert (Hd' : forall x, x ∈ durations stages -> 0 <= x) by (intros x Hx; apply Hd, elem_of_cons; auto).
    pose proof (zsum_nonneg _ Hd') as Hs.
    rewrite (i64_id (c + d)), (i64_id (elapsed - c)) by i64_lia.
    destruct (elapsed <? c + d) eqn:E; bool_prop.
    + right. exists [], s, stages. split; [done|]. simpl. rewrite !Z.add_0_r. split; [fold d; lia|done].
    + destruct (IH (i + 1) (c + d) (stg_Target s) Hd' ltac:(lia) ltac:(lia) He)
        as [[Hle ->]|(pre & s' & post & -> & Hin & ->)].
      * left. rewrite target_before_cons. split.
        { change (zsum (durations (s :: stages))) with (d + zsum (durations stages)). lia. }
        simpl length. do 2 f_equal. lia.
      * right. exists (s :: pre), s', post. split; [done|]. rewrite target_before_cons.
        change (zsum (durations (s :: pre))) with (d + zsum (durations pre)).
        simpl in Hin. split; [lia|]. simpl length.
        replace (c + (d + zsum (durations pre))) with (c + d + zsum (durations pre)) by lia.
        f_equal. lia.
Qed.

(** With non-negative durations whose sum fits, the ramp is done exactly
    when the whole schedule has elapsed, and then stays at the last target;
    before that the stage is the one that holds the elapsed time.  At the very
    start of a stage the value is the target of the stage before, and a stage
    between equal targets holds it throughout. *)
Theorem calculateVUs_spec (stages : list Stage) (elapsed : Z) :
  stages <> [] -> (forall d, d ∈ durations stages -> 0 <= d) ->
  zsum (durations stages) < 2 ^ 53 -> 0 <= elapsed <= i64_max ->
  (forall s, s ∈ stages -> 0 <= stg_Target s < 2 ^ 52) ->
  let '(vus, allDone, idx) := calculateVUs stages elapsed in
  (allDone = true <-> zsum (durations stages) <= elapsed) /\
  (allDone = true -> vus = target_before 0 stages /\ idx = Z.of_nat (length stages) - 1) /\
  (allDone = false -> exists pre s post, stages = pre ++ s :: post /\ idx = Z.of_nat (length pre) /\
     let c := zsum (durations pre) in
     c <= elapsed < c + parseStageDuration (stg_Duration s) /\
     (elapsed = c -> vus = target_before 0 pre) /\
     (target_before 0 pre = stg_Target s -> vus = stg_Target s)).
Proof.
  intros Hne Hd Hsum He Ht.
  assert (Hcalc : calculateVUs stages elapsed = stage_loop stages 0 0 0 elapsed) by (by destruct stages).
  rewrite Hcalc. clear Hcalc.
  destruct (stage_loop_spec stages 0 0 0 elapsed Hd ltac:(lia) ltac:(i64_lia) ltac:(lia))
    as [[Hle ->]|(pre & s & post & -> & Hin & ->)].
  - split; [split; [lia|done]|]. split; [intros _; split; [done|lia]|done].
  - cbv zeta in Hin.
    assert (Hpost : 0 <= zsum (durations post)).
    { apply zsum_nonneg. intros x Hx. apply Hd. unfold durations. rewrite map_app. simpl. set_solver. }
    assert (Hpre : 0 <= zsum (durations pre)).
    { apply zsum_nonneg. intros x Hx. apply Hd. unfold durations. rewrite map_app. set_solver. }
    assert (Htot : zsum (durations (pre ++ s :: post)) =
      zsum (durations pre) + (parseStageDuration (stg_Duration s) + zsum (durations post))).
    { unfold durations. rewrite map_app, zsum_app. done. }
    rewrite Htot in *. split; [split; [done|lia]|]. split; [done|]. intros _.
    exists pre, s, post. split; [done|]. split; [lia|]. rewrite !Z.add_0_l in *. split; [done|].
    assert (Hb : 0 <= target_before 0 pre < 2 ^ 52).
    { unfold target_before. destruct (last pre) as [s'|] eqn:L; [|lia]. apply Ht, elem_of_app. left.
      by eapply last_Some_elem_of. }
    assert (Hs : 0 <= stg_Target s < 2 ^ 52) by (apply Ht; set_solver). split.
    + intros ->. rewrite Z.sub_diag. apply interpolate_start; [lia| |lia].
      rewrite i64_id by i64_lia. lia.
    + intros ->. apply interpolate_hold; lia.
Qed.

(** A builder test with the constant-vus executor runs at exactly its
    number of VUs from the first instant to the end of its duration, and the
    ramp is done from then on. *)
Theorem constant_vus_holds (req : TestRequest) (elapsed : Z) :
  tr_Executor req = "constant-vus" -> 0 < tr_VUs req < 2 ^ 52 -> 0 <= elapsed <= i64_max ->
  let d := parseStageDuration (if String.eqb (tr_Duration req) "" then "1m" else tr_Duration req) in
  0 < d < 2 ^ 53 ->
  let '(stages, managed) := resolveBuilderRamping req in
  managed = true /\
  calculateVUs stages elapsed = (tr_VUs req, d <=? elapsed, 1).
Proof.
  intros He Hv Hel d Hd. unfold resolveBuilderRamping. rewrite He. simpl.
  rewrite (proj2 (Z.leb_gt _ _)) by lia. split; [done|]. simpl. fold d.
  change (parseStageDuration "0s") with 0. change (0 ⊞ 0) with 0.
  rewrite (proj2 (Z.ltb_ge elapsed 0)) by lia. rewrite Z.add_0_l, (i64_id d), Z.sub_0_r, i64_id by i64_lia.
  destruct (elapsed <? d) eqn:E; bool_prop.
  - rewrite (proj2 (Z.leb_gt _ _)) by lia. rewrite interpolate_hold by lia. done.
  - rewrite (proj2 (Z.leb_le _ _)) by lia. done.
Qed.

(** ** The manager's clock *)

Inductive rm_event :=
  | EvOverride (t : Time) (vus : Z)
  | EvPause (t : Time)
  | EvResume (t : Time) (resumed : res unit)
  | EvTick (t : Time).

Definition event_time (e : rm_event) : Z :=
  match e with EvOverride t _ | EvPause t | EvResume t _ | EvTick t => unix_ns t end.

Definition rm_apply (e : rm_event) (rm : RampingManager) : RampingManager :=
  match e with
  | EvOverride t vus => SetManualOverride t vus rm
  | EvPause t => (RM_Pause t rm).2
  | EvResume t resumed => (RM_Resume t resumed rm).2
  | EvTick t => (ramp_tick t rm).2
  end.

(** How far the run is at a time. *)
Definition ramp_clock (t : Time) (rm : RampingManager) : Z :=
  if rm_paused rm then rm_elapsed rm else elapsed_at t rm.

Definition paused_after (e : rm_event) (paused : bool) : bool :=
  match e with
  | EvPause _ => true
  | EvResume _ (Ok _) => false
  | _ => paused
  end.

(** The time from [last] to [end_] during which the run is not paused. *)
Fixpoint unpaused_time (paused : bool) (last : Z) (events : list rm_event) (end_ : Z) : Z :=
  match events with
  | [] => if paused then 0 else end_ - last
  | e :: rest =>
    (if paused then 0 else event_time e - last) +
    unpaused_time (paused_after e paused) (event_time e) rest end_
  end.

Fixpoint in_order (last : Z) (events : list rm_event) (end_ : Z) : Prop :=
  match events with
  | [] => last <= end_
  | e :: rest => last <= event_time e /\ in_order (event_time e) rest end_
  end.

Lemma in_order_le (events : list rm_event) (last end_ : Z) : in_order last events end_ -> last <= end_.
Proof.
  revert last. induction events as [|e l IH]; intros last; simpl; [done|].
  intros [H1 H2]. apply IH in H2. lia.
Qed.

(** The state of the clock: [acc] nanoseconds into the run at [last]. *)
Definition clock_at (rm : RampingManager) (acc last : Z) : Prop :=
  rm_stages rm <> [] /\ 0 <= acc /\
  if rm_paused rm then rm_elapsed rm = acc
  else rm_elapsed rm + (last - unix_ns (rm_startTime rm)) = acc /\ unix_ns (rm_startTime rm) <= last /\
       0 <= rm_elapsed rm.

Lemma elapsed_at_eq (t : Time) (rm : RampingManager) (acc last : Z) :
  rm_paused rm = false -> clock_at rm acc last -> last <= unix_ns t ->
  acc + (unix_ns t - last) <= i64_max -> elapsed_at t rm = acc + (unix_ns t - last).
Proof.
  intros Hp (_ & Hacc & Hc) Ht Hm. rewrite Hp in Hc. destruct Hc as (Hc & Hs & He).
  unfold elapsed_at, sub. rewrite i64_id by i64_lia. i64_lia.
Qed.

Lemma clock_step (e : rm_event) (rm : RampingManager) (acc last : Z) :
  clock_at rm acc last -> last <= event_time e -> acc + (event_time e - last) <= i64_max ->
  clock_at (rm_apply e rm) (acc + if rm_paused rm then 0 else event_time e - last) (event_time e) /\
  rm_paused (rm_apply e rm) = paused_after e (rm_paused rm).
Proof.
  intros Hc Ht Hm. assert (Hkeep : forall rm', rm_stages rm' = rm_stages rm -> rm_paused rm' = rm_paused rm ->
    rm_elapsed rm' = rm_elapsed rm -> rm_startTime rm' = rm_startTime rm ->
    clock_at rm' (acc + if rm_paused rm then 0 else event_time e - last) (event_time e)).
  { destruct Hc as (Hst & Hacc & Hc). intros rm' E1 E2 E3 E4. unfold clock_at. rewrite E1, E2, E3, E4.
    split; [done|]. destruct (rm_paused rm); lia. }
  destruct e as [t vus|t|t [u|err]|t]; simpl in *.
  - unfold SetManualOverride. destruct (rm_stages rm) as [|s l] eqn:S; [split; [by apply Hkeep|done]|].
    destruct (calculateVUs _ _) as [[v b] i]. split; [by apply Hkeep|done].
  - unfold RM_Pause. destruct (rm_paused rm) eqn:P; [split; [by apply Hkeep|done]|].
    pose proof (elapsed_at_eq t rm acc last P Hc Ht Hm) as He.
    destruct Hc as (Hst & Hacc & Hc). destruct (rm_stages rm) as [|s l] eqn:S; [done|].
    split; [|done]. unfold clock_at; simpl. rewrite ?S, ?He. split; [done|]. lia.
  - unfold RM_Resume. destruct (rm_paused rm) eqn:P; simpl.
    + destruct Hc as (Hst & Hacc & Hc). rewrite P in Hc. destruct (rm_stages rm) as [|s l] eqn:S; [done|].
      split; [|done]. unfold clock_at, start_loop; simpl. rewrite ?S. split; [done|]. lia.
    + split; [by apply Hkeep|done].
  - split; [by apply Hkeep|done].
  - unfold ramp_tick. destruct (calculateVUs _ _) as [[v b] i].
    destruct b; [split; [by apply Hkeep|done]|]. destruct (_ && _); [split; [by apply Hkeep|done]|].
    destruct (_ && _); split; by try apply Hkeep.
Qed.

(** From the start of a ramp on, whatever sequence of pauses, resumes,
    failed resumes, overrides and ticks follows, the manager's clock shows
    exactly the time during which the run was not paused. *)
Theorem ramp_clock_counts_unpaused (stages : list Stage) (t0 t : Time) (events : list rm_event)
    (rm : RampingManager) :
  stages <> [] -> in_order (unix_ns t0) events (unix_ns t) -> unix_ns t - unix_ns t0 <= i64_max ->
  ramp_clock t (foldl (fun rm e => rm_apply e rm) (RM_Start t0 stages rm) events) =
  unpaused_time false (unix_ns t0) events (unix_ns t).
Proof.
  intros Hs Ho Hm.
  assert (Hc : clock_at (RM_Start t0 stages rm) 0 (unix_ns t0)) by (split; [done|simpl; lia]).
  assert (Hp : rm_paused (RM_Start t0 stages rm) = false) by done.
  revert Hc Hp. generalize (RM_Start t0 stages rm). clear rm. intros rm Hc <-.
  rewrite <- (Z.add_0_l (unpaused_time _ _ _ _)).
  assert (Hb : 0 + (unix_ns t - unix_ns t0) <= i64_max) by lia. clear Hm. revert Hc Hb.
  generalize 0 as acc. revert Ho. generalize (unix_ns t0) as last. revert rm.
  induction events as [|e events IH]; intros rm last Ho acc Hc Hb; simpl in *.
  - unfold ramp_clock. destruct (rm_paused rm) eqn:P.
    + destruct Hc as (_ & _ & Hc). rewrite P in Hc. lia.
    + by rewrite (elapsed_at_eq t rm acc last P Hc Ho Hb).
  - destruct Ho as [Ho1 Ho2]. pose proof (in_order_le _ _ _ Ho2) as Hle.
    destruct (clock_step e rm acc last Hc Ho1 ltac:(lia)) as [Hc' Hp'].
    rewrite (IH (rm_apply e rm) (event_time e) Ho2 _ Hc'); [|destruct (rm_paused rm); lia].
    rewrite Hp'. destruct (rm_paused rm); lia.
Qed.

(** ** A manager that is not started again *)

Definition at_s (n : Z) : Time := mkTime (n * Second) UTC.

Definition ten_seconds : list Stage := [mkStage "10s" 50].

(** [Stop] leaves the stages and the pause flag of the finished test in
    place, and a test without managed ramping does not call [Start].  If the
    previous test was stopped while paused, the next pause sends nothing to the
    workers; if it ended normally, a pause and a resume of the next test start a
    loop over the old stages, whose first tick reports the ramp as done. *)
Theorem stale_manager :
  let running := RM_Start (at_s 0) ten_seconds NewRampingManager in
  let stopped_while_paused := RM_Stop (RM_Pause (at_s 5) running).2 in
  let ended := RM_Stop running in
  let paused := (RM_Pause (at_s 100) ended).2 in
  let resumed := (RM_Resume (at_s 110) (Ok tt) paused).2 in
  RM_Pause (at_s 100) stopped_while_paused = ([], stopped_while_paused) /\
  rm_loop ended = None /\ rm_loop resumed = Some 1%nat /\
  (ramp_tick (at_s 111) resumed).1 = RampDone.
Proof. vm_compute. auto. Qed.

(** ** Concrete inputs *)

Definition two_stages : list Stage := [mkStage "10s" 50; mkStage "1m" 50].

Lemma calculateVUs_spec_witness : calculateVUs two_stages (20 * Second) = (50, false, 1).
Proof.
  assert (Hd : forall d, d ∈ durations two_stages -> 0 <= d).
  { apply list.Forall_forall. repeat (apply list.Forall_cons; split; [vm_compute; discriminate|]).
    apply list.Forall_nil. exact I. }
  assert (Ht : forall s, s ∈ two_stages -> 0 <= stg_Target s < 2 ^ 52).
  { apply list.Forall_forall.
    repeat (apply list.Forall_cons; split; [vm_compute; split; [discriminate|reflexivity]|]).
    apply list.Forall_nil. exact I. }
  assert (E : calculateVUs two_stages (20 * Second) = (50, false, 1)) by (vm_compute; reflexivity).
  pose proof (calculateVUs_spec two_stages (20 * Second)) as H. rewrite E in H.
  destruct H as (_ & _ & H); [discriminate|exact Hd|vm_compute; reflexivity| |exact Ht|].
  - vm_compute. split; discriminate.
  - destruct (H eq_refl) as (pre & s & post & _). exact E.
Defined.

Definition constant_request : TestRequest :=
  zero_TestRequest <| tr_Executor := "constant-vus" |> <| tr_VUs := 25 |> <| tr_Duration := "2m" |>.

Lemma constant_vus_holds_witness :
  calculateVUs [mkStage "0s" 25; mkStage "2m" 25] (90 * Second) = (25, false, 1).
Proof.
  refine (proj2 (constant_vus_holds constant_request (90 * Second) _ _ _ _)).
  - reflexivity.
  - vm_compute. split; reflexivity.
  - vm_compute. split; discriminate.
  - vm_compute. split; reflexivity.
Defined.

Lemma ramp_clock_counts_unpaused_witness :
  ramp_clock (at_s 100)
    (foldl (fun rm e => rm_apply e rm) (RM_Start (at_s 0) two_stages NewRampingManager)
       [EvPause (at_s 5); EvTick (at_s 6); EvResume (at_s 60) (Err "refused"); EvResume (at_s 90) (Ok tt)]) =
  15 * Second.
Proof.
  rewrite (ramp_clock_counts_unpaused two_stages (at_s 0) (at_s 100)
    [EvPause (at_s 5); EvTick (at_s 6); EvResume (at_s 60) (Err "refused"); EvResume (at_s 90) (Ok tt)]
    NewRampingManager).
  - vm_compute. reflexivity.
  - discriminate.
  - vm_compute. repeat split; discriminate.
  - vm_compute. discriminate.
Defined.
