(* ===== verification/Orchestrator.v ===== *)
(** * The orchestrator: [controller/internal/orchestrator/orchestrator.go]
    and the pure parts of worker.go

    The state of the active run (metrics, peaks, end detection), the poll loop
    as a state machine over its events, the distribution of VUs over the
    workers, start-up with retries, and the status shown for a worker.  The
    methods hold the orchestrator's lock, so each is a function on the state.
    The k6 processes are the environment: what they answer to a request is an
    argument; [WorkerClient] has the requests and the decoding of k6's answers. *)

From S2P Require Export Prelude GoStrings GoTime GoFloat Model Aggregator.

Open Scope Z_scope.
Open Scope go_scope.

(** ** Workers *)

Record Worker := mkWorker {
  wk_Address : string;
  wk_DashboardEnabled : bool;
  wk_DashboardHost : string;
  wk_DashboardPort : Z
}.

Definition NewWorker (address : string) (dashboardEnabled : bool) (dashboardHost : string)
    (dashboardPort : Z) : Worker :=
  mkWorker address dashboardEnabled dashboardHost dashboardPort.

Definition baseURL (w : Worker) : string := "http://" +:+ wk_Address w.

Section names.
(** [net.SplitHostPort]: the host, or nothing for an error. *)
Context (SplitHostPort : string -> option string).

Definition Name (w : Worker) : string :=
  match SplitHostPort (wk_Address w) with
  | Some host => if negb (String.eqb host "") then host else wk_Address w
  | None => wk_Address w
  end.

Definition DashboardURL (w : Worker) : string :=
  if negb (wk_DashboardEnabled w) || (wk_DashboardPort w <=? 0) then ""
  else
    let host := Name w in
    let d := wk_DashboardHost w in
    let dashboardHost :=
      if String.eqb d "" || String.eqb d "0.0.0.0" || String.eqb d "::" then host else d in
    "http://" +:+ dashboardHost +:+ ":" +:+ itoa (wk_DashboardPort w).

Definition WorkerNames (workers : list Worker) : list string := map Name workers.

Definition FindWorker (workers : list Worker) (nameOrAddress : string) : option Worker :=
  first_some (fun w =>
    if String.eqb (wk_Address w) nameOrAddress || String.eqb (Name w) nameOrAddress
    then Some w else None) workers.

Definition workerDisplayStatus (status : K6Status) (testActive : bool) : string :=
  if IsRunning status && negb (k6s_Paused status) then "running"
  else if k6s_Paused status then "paused"
  else if IsFinished status then (if testActive then "done" else "online")
  else "online".

Definition buildWorkerMetricsFromWorker (worker : Worker) (status : res K6Status) (testActive : bool)
  : WorkerMetrics :=
  let wm := zero_WorkerMetrics <| wm_Name := Name worker |> <| wm_Address := wk_Address worker |>
              <| wm_Status := "unreachable" |> <| wm_DashboardEnabled := wk_DashboardEnabled worker |>
              <| wm_DashboardURL := DashboardURL worker |> in
  match status with
  | Err e => wm <| wm_Error := e |>
  | Ok st => wm <| wm_Status := workerDisplayStatus st testActive |> <| wm_VUs := k6s_VUs st |>
  end.

(** [CheckWorkers]: [statuses] are the answers of the workers, in order. *)
Definition CheckWorkers (activeTestID : string) (workers : list Worker) (statuses : list (res K6Status))
  : list WorkerMetrics :=
  zip_with (fun w st => buildWorkerMetricsFromWorker w st (negb (String.eqb activeTestID "")))
    workers statuses.
End names.

(** [Worker.IsReadyForStart]. *)
Definition worker_ready (status : res K6Status) : bool :=
  match status with Ok st => IsReadyForStart st | Err _ => false end.

(** ** State of the orchestrator *)

Inductive TestPhase :=
  | PhaseNone | PhaseScript | PhaseWorkers | PhaseRunning | PhaseCollecting | PhaseDone | PhaseError.

Record Orchestrator := mkOrchestrator {
  o_workers : list Worker;
  o_latestMetrics : option AggregatedMetrics;
  o_timeSeries : list TimePoint;
  o_testStartTime : Time;
  o_activeTestID : string;
  o_cancelPoll : option nat;           (* the poll loop [cancelPoll] stops *)
  o_polls : nat;                       (* poll loops started so far *)
  o_pollInterval : Z;
  o_expectedRunDuration : Z;
  o_phase : TestPhase;
  o_phaseMessage : string;
  o_rampingDone : bool;
  o_controllable : bool;
  o_hasManagedRamp : bool;
  o_seenRunning : bool;
  o_zeroMetricRun : Z;
  o_peakWorkerVUs : gmap string Z;
  o_maxTestDuration : Z;
  o_workerReadyTimeout : Z
}.

#[export] Instance eta_Orchestrator : Eta Orchestrator := fun o =>
  mkOrchestrator (o_workers o) (o_latestMetrics o) (o_timeSeries o) (o_testStartTime o)
    (o_activeTestID o) (o_cancelPoll o) (o_polls o) (o_pollInterval o) (o_expectedRunDuration o)
    (o_phase o) (o_phaseMessage o) (o_rampingDone o) (o_controllable o) (o_hasManagedRamp o)
    (o_seenRunning o) (o_zeroMetricRun o) (o_peakWorkerVUs o) (o_maxTestDuration o)
    (o_workerReadyTimeout o).

Definition New (addresses : list string) (pollInterval maxTestDuration : Z)
    (enabled : bool) (host : string) (port : Z) : Orchestrator := {|
  o_workers := map (fun addr => NewWorker addr enabled host port) addresses;
  o_latestMetrics := None; o_timeSeries := []; o_testStartTime := zero_time; o_activeTestID := "";
  o_cancelPoll := None; o_polls := 0; o_pollInterval := pollInterval; o_expectedRunDuration := 0;
  o_phase := PhaseNone; o_phaseMessage := ""; o_rampingDone := false; o_controllable := false;
  o_hasManagedRamp := false; o_seenRunning := false; o_zeroMetricRun := 0; o_peakWorkerVUs := ∅;
  o_maxTestDuration := if maxTestDuration <=? 0 then 2 * Hour else maxTestDuration;
  o_workerReadyTimeout := 0 |}.

Definition SetWorkerReadyTimeout (timeout : Z) (o : Orchestrator) : Orchestrator :=
  o <| o_workerReadyTimeout := if timeout <? 0 then 0 else timeout |>.

Definition SetPhase (phase : TestPhase) (message : string) (o : Orchestrator) : Orchestrator :=
  o <| o_phase := phase |> <| o_phaseMessage := message |>.

Definition SetRampingDone (o : Orchestrator) : Orchestrator := o <| o_rampingDone := true |>.

Definition clearActiveRunLocked (o : Orchestrator) : Orchestrator :=
  o <| o_cancelPoll := None |> <| o_activeTestID := "" |>.

Definition StopPolling (o : Orchestrator) : Orchestrator := clearActiveRunLocked o.

Definition resetPollingStateLocked (t : Time) (testID : string) (cancel : nat)
    (controllable hasManagedRamp : bool) (expectedRunDuration : Z) (o : Orchestrator) : Orchestrator :=
  o <| o_cancelPoll := Some cancel |> <| o_activeTestID := testID |> <| o_timeSeries := [] |>
    <| o_testStartTime := t |> <| o_latestMetrics := None |> <| o_rampingDone := false |>
    <| o_controllable := controllable |> <| o_hasManagedRamp := hasManagedRamp |>
    <| o_expectedRunDuration := expectedRunDuration |> <| o_seenRunning := false |>
    <| o_zeroMetricRun := 0 |> <| o_peakWorkerVUs := ∅ |>.

(** The new poll loop is number [o_polls]; the one before is cancelled. *)
Definition StartPolling (t : Time) (testID : string) (controllable hasManagedRamp : bool)
    (expectedRunDuration : Z) (o : Orchestrator) : Orchestrator :=
  resetPollingStateLocked t testID (o_polls o) controllable hasManagedRamp expectedRunDuration
    (o <| o_polls := S (o_polls o) |>).

(** ** Metrics of the active run *)

(** [d.Seconds()]: whole seconds and the fraction, converted separately. *)
Definition duration_seconds (d : Z) : float64 :=
  f_add (f_of_Z (Z.quot d Second)) (f_div (f_of_Z (Z.rem d Second)) (f_of_Z 1000000000)).

Definition appendTimeSeriesPointLocked (t : Time) (agg : AggregatedMetrics) (o : Orchestrator)
  : Orchestrator :=
  let elapsed := duration_seconds (sub t (o_testStartTime o)) in
  o <| o_timeSeries := o_timeSeries o ++ [{|
    tp_ElapsedSec := elapsed; tp_TotalVUs := agg_TotalVUs agg; tp_RPS := agg_RPS agg;
    tp_AvgLatency := agg_AvgLatency agg; tp_P95Latency := agg_P95Latency agg;
    tp_TotalRequests := agg_TotalRequests agg; tp_BusinessRequests := agg_BusinessRequests agg;
    tp_ErrorRate := agg_ErrorRate agg; tp_Status4xx := agg_Status4xx agg;
    tp_Status5xx := agg_Status5xx agg |}] |>.

Record pollStateSnapshot := mkPollState {
  ps_seenRunning : bool;
  ps_controllable : bool;
  ps_hasManagedRamp : bool;
  ps_zeroMetricRun : Z;
  ps_rampingDone : bool;
  ps_expectedRunDuration : Z;
  ps_totalVUs : Z
}.

(** The largest VUs seen of each worker; an unseen worker counts as zero. *)
Definition peak_step (peaks : gmap string Z) (wm : WorkerMetrics) : gmap string Z :=
  if default 0 (peaks !! wm_Address wm) <? wm_VUs wm
  then <[wm_Address wm := wm_VUs wm]> peaks else peaks.

Definition has_data (agg : AggregatedMetrics) : bool :=
  f_lt f_zero (agg_TotalRequests agg) || (0 <? agg_TotalVUs agg).

Definition updatePollingState (t : Time) (agg : AggregatedMetrics) (o : Orchestrator)
  : pollStateSnapshot * Orchestrator :=
  let o := o <| o_latestMetrics := Some agg |> in
  let o :=
    if has_data agg then
      appendTimeSeriesPointLocked t agg
        (o <| o_seenRunning := true |> <| o_zeroMetricRun := 0 |>
           <| o_peakWorkerVUs := foldl peak_step (o_peakWorkerVUs o) (agg_Workers agg) |>)
    else if o_seenRunning o then o <| o_zeroMetricRun := o_zeroMetricRun o ⊞ 1 |>
    else o in
  (mkPollState (o_seenRunning o) (o_controllable o) (o_hasManagedRamp o) (o_zeroMetricRun o)
     (o_rampingDone o) (o_expectedRunDuration o) (agg_TotalVUs agg), o).

(** The rows with their peaks, and the sum of the peaks found. *)
Definition apply_peak (peaks : gmap string Z) (wm : WorkerMetrics) : WorkerMetrics :=
  match peaks !! wm_Address wm with Some peak => wm <| wm_VUs := peak |> | None => wm end.

Definition ApplyPeakVUs (o : Orchestrator) (metrics : AggregatedMetrics) : AggregatedMetrics :=
  let peaks := o_peakWorkerVUs o in
  metrics <| agg_Workers := map (apply_peak peaks) (agg_Workers metrics) |>
          <| agg_TotalVUs :=
               foldl (fun total wm => match peaks !! wm_Address wm with
                                      | Some peak => total ⊞ peak
                                      | None => total
                                      end) 0 (agg_Workers metrics) |>.

(** ** End detection *)

(** The loop of [allWorkersEnded] over the workers' answers. *)
Fixpoint workers_ended (isControllable : bool) (statuses : list (res K6Status)) : bool :=
  match statuses with
  | [] => true
  | Err _ :: _ => false
  | Ok status :: rest =>
    if k6s_Paused status then
      if isControllable then false else workers_ended isControllable rest
    else if IsRunning status then false
    else if IsFinished status then workers_ended isControllable rest
    else false
  end.

Definition allWorkersEnded (statuses : list (res K6Status)) (o : Orchestrator) : bool :=
  if o_rampingDone o then true else workers_ended (o_controllable o) statuses.

Definition minTicksBeforeEndCheck : Z := 5.
Definition zeroTicksToEnd : Z := 3.

(** [statuses] is what the workers answer if they are asked. *)
Definition shouldCompleteTest (t : Time) (tickCount : Z) (statuses : list (res K6Status))
    (state : pollStateSnapshot) (o : Orchestrator) : bool :=
  if ps_hasManagedRamp state then
    if ps_rampingDone state then true
    else ps_seenRunning state && (ps_totalVUs state =? 0) && (2 <=? ps_zeroMetricRun state) &&
         (minTicksBeforeEndCheck <=? tickCount) && allWorkersEnded statuses o
  else if ps_controllable state then
    ps_seenRunning state && (minTicksBeforeEndCheck <=? tickCount) && allWorkersEnded statuses o
  else if negb (ps_seenRunning state) then false
  else if zeroTicksToEnd <=? ps_zeroMetricRun state then true
  else if (0 <? ps_expectedRunDuration state) &&
          ((sub t (o_testStartTime o) ⊞ o_pollInterval o) <? ps_expectedRunDuration state)
  then false
  else (minTicksBeforeEndCheck <=? tickCount) && allWorkersEnded statuses o.

(** ** The metrics a run accumulates *)

(** The polls of a run, each with its time and metrics. *)
Definition observe (polls : list (Time * AggregatedMetrics)) (o : Orchestrator) : Orchestrator :=
  foldl (fun o p => (updatePollingState p.1 p.2 o).2) o polls.

(** The VUs of a worker in the polls that carried data. *)
Definition vus_of (address : string) (polls : list (Time * AggregatedMetrics)) : list Z :=
  map wm_VUs (filter (fun wm => wm_Address wm = address)
    (concat (map (fun p => agg_Workers p.2) (filter (fun p => has_data p.2 = true) polls)))).

(** Polls without data at the end. *)
Definition idle_polls (polls : list (Time * AggregatedMetrics)) : nat :=
  length (take_while (fun p => negb (has_data p.2)) (reverse polls)).

Lemma peak_step_lookup (peaks : gmap string Z) (wm : WorkerMetrics) (address : string) :
  default 0 (peak_step peaks wm !! address) =
  if decide (wm_Address wm = address)
  then Z.max (default 0 (peaks !! address)) (wm_VUs wm) else default 0 (peaks !! address).
Proof.
  unfold peak_step. destruct (decide (wm_Address wm = address)) as [<- | Hne].
  - destruct (_ <? _) eqn:E; bool_prop; [rewrite lookup_insert_eq; simpl|]; lia.
  - destruct (_ <? _); [rewrite lookup_insert_ne by done|]; done.
Qed.

Lemma peaks_lookup (rows : list WorkerMetrics) (peaks : gmap string Z) (address : string) :
  default 0 (foldl peak_step peaks rows !! address) =
  zmax (default 0 (peaks !! address))
    (map wm_VUs (filter (fun wm => wm_Address wm = address) rows)).
Proof.
  revert peaks. induction rows as [|wm rows IH]; intros peaks; [done|].
  cbn [foldl]. rewrite IH, peak_step_lookup. rewrite filter_cons.
  destruct (decide (wm_Address wm = address)); done.
Qed.

Lemma vus_of_snoc (address : string) (polls : list (Time * AggregatedMetrics)) t agg :
  vus_of address (polls ++ [(t, agg)]) =
  vus_of address polls ++
  if has_data agg then map wm_VUs (filter (fun wm => wm_Address wm = address) (agg_Workers agg)) else [].
Proof.
  unfold vus_of. rewrite list.filter_app, map_app, concat_app, list.filter_app, map_app. f_equal.
  rewrite filter_cons, filter_nil. simpl.
  destruct (has_data agg); simpl; [rewrite app_nil_r|]; done.
Qed.

Lemma idle_polls_snoc (polls : list (Time * AggregatedMetrics)) t agg :
  idle_polls (polls ++ [(t, agg)]) = if has_data agg then 0%nat else S (idle_polls polls).
Proof.
  unfold idle_polls. rewrite reverse_app. simpl. destruct (has_data agg); done.
Qed.

Lemma zmax_app (a : Z) (l k : list Z) : zmax a (l ++ k) = zmax (zmax a l) k.
Proof. unfold zmax. apply foldl_app. Qed.

(** Some poll carried data. *)
Definition produced (polls : list (Time * AggregatedMetrics)) : bool :=
  existsb (fun p => has_data p.2) polls.

Lemma produced_snoc polls t agg : produced (polls ++ [(t, agg)]) = produced polls || has_data agg.
Proof. unfold produced. rewrite existsb_app. simpl. rewrite orb_false_r. done. Qed.

Lemma peaks_total (peaks : gmap string Z) (rows : list WorkerMetrics) (a : Z) :
  foldl (fun total wm => match peaks !! wm_Address wm with
                         | Some peak => total ⊞ peak
                         | None => total
                         end) (i64 a) rows =
  i64 (a + zsum (map (fun wm => default 0 (peaks !! wm_Address wm)) rows)).
Proof.
  revert a. induction rows as [|wm rows IH]; intros a; simpl; [f_equal; lia|].
  destruct (peaks !! wm_Address wm); simpl; rewrite ?i64_add_l, IH; f_equal; lia.
Qed.

(** What the state holds of a run after these polls: the metrics of the last
    one, whether one carried data, the empty ones since then, a point of the
    time series for each poll with data, and the peak of each worker. *)
Record accumulated (polls : list (Time * AggregatedMetrics)) (o : Orchestrator) : Prop := {
  acc_latest : o_latestMetrics o = snd <$> last polls;
  acc_seen : o_seenRunning o = produced polls;
  acc_idle : o_zeroMetricRun o = (if produced polls then i64 (Z.of_nat (idle_polls polls)) else 0);
  acc_series : map (fun p => (tp_TotalVUs p, tp_TotalRequests p)) (o_timeSeries o) =
    map (fun p => (agg_TotalVUs p.2, agg_TotalRequests p.2)) (filter (fun p => has_data p.2 = true) polls);
  acc_peaks : forall address, default 0 (o_peakWorkerVUs o !! address) = zmax 0 (vus_of address polls)
}.

Lemma accumulated_start t testID controllable hasManagedRamp expected o :
  accumulated [] (StartPolling t testID controllable hasManagedRamp expected o).
Proof. by constructor. Qed.

Lemma accumulated_poll polls t agg o :
  accumulated polls o -> accumulated (polls ++ [(t, agg)]) (updatePollingState t agg o).2.
Proof.
  intros [_ Hs Hz Ht Hp].
  constructor; [|..|intros address]; unfold updatePollingState;
    rewrite ?last_snoc, ?produced_snoc, ?idle_polls_snoc, ?list.filter_app, ?map_app, <- ?Ht, ?filter_cons, ?filter_nil;
    cbn [snd]; destruct (has_data agg) eqn:Ed; simpl.
  - done.
  - by destruct (o_seenRunning o).
  - by rewrite orb_true_r.
  - rewrite orb_false_r. by destruct (o_seenRunning o) eqn:Es; simpl; rewrite <- Hs.
  - by rewrite orb_true_r.
  - rewrite orb_false_r. destruct (o_seenRunning o) eqn:Es; simpl; rewrite <- Hs in *; [|done].
    rewrite Hz, i64_add_l. f_equal. lia.
  - by rewrite map_app.
  - rewrite app_nil_r. by destruct (o_seenRunning o).
  - by rewrite peaks_lookup, vus_of_snoc, Ed, zmax_app, Hp.
  - rewrite vus_of_snoc, Ed, app_nil_r. by destruct (o_seenRunning o); apply Hp.
Qed.

Lemma accumulated_observe polls o rest :
  accumulated polls o -> accumulated (polls ++ rest) (observe rest o).
Proof.
  revert polls o. induction rest as [|[t agg] rest IH]; intros polls o H; [by rewrite app_nil_r|].
  unfold observe. cbn [foldl fst snd]. replace (polls ++ (t, agg) :: rest) with ((polls ++ [(t, agg)]) ++ rest) by by rewrite <- app_assoc.
  apply IH, accumulated_poll, H.
Qed.

(** ** The poll loop *)

Definition neverStartedTimeout : Z := 150.

(** What wakes the loop: its context, the safety timer, or the ticker, with the
    time, the metrics fetched and the answers to a status request. *)
Inductive poll_event :=
  | PollCancelled
  | PollDeadline
  | PollTick (t : Time) (metrics : list (res (gmap string K6Metric))) (statuses : list (res K6Status)).

(** [fetchAllMetrics]: [answers] are the metrics or the errors of the workers. *)
Definition fetchAllMetrics (answers : list (res (gmap string K6Metric))) (o : Orchestrator)
  : list WorkerResult :=
  zip_with (fun w ans => match ans with
                         | Ok metrics => mkWorkerResult (wk_Address w) metrics None
                         | Err e => mkWorkerResult (wk_Address w) ∅ (Some e)
                         end) (o_workers o) answers.

(** Why the loop reports the completion. *)
Inductive completion_reason := ByDeadline | ByEndDetection | NeverStarted.

(** The loop goes on, or returns; [Some reason] when it calls [onComplete]. *)
Inductive poll_result := Polling (tickCount : Z) | Returned (completed : option completion_reason).

Section polling.
Context {order : MapOrder}.

(** A tick once the metrics are aggregated. *)
Definition poll_tick (t : Time) (tickCount : Z) (agg : AggregatedMetrics)
    (statuses : list (res K6Status)) (o : Orchestrator) : poll_result * Orchestrator :=
  let '(state, o) := updatePollingState t agg o in
  if shouldCompleteTest t tickCount statuses state o then (Returned (Some ByEndDetection), o)
  else if negb (ps_seenRunning state) && (neverStartedTimeout <=? tickCount)
  then (Returned (Some NeverStarted), o)
  else (Polling tickCount, o).

Definition poll_step (ev : poll_event) (tickCount : Z) (o : Orchestrator) : poll_result * Orchestrator :=
  match ev with
  | PollCancelled => (Returned None, o)
  | PollDeadline => (Returned (Some ByDeadline), o)
  | PollTick t metrics statuses =>
    poll_tick t (tickCount ⊞ 1) (Aggregate (fetchAllMetrics metrics o)) statuses o
  end.

Definition FetchFinalMetrics (metrics : list (res (gmap string K6Metric))) (o : Orchestrator)
  : AggregatedMetrics := Aggregate (fetchAllMetrics metrics o).

(** ** The orchestrator and its poll loops

    Every [StartPolling] starts a goroutine; [runs_loops] holds those that have
    not returned, with the test they were started for and their tick count, and
    [runs_completed] the completions they reported.  A cancelled loop stops at
    its next [select], which may still choose a tick that is ready as well. *)
Record runs := mkRuns {
  runs_o : Orchestrator;
  runs_loops : gmap nat (string * Z);
  runs_completed : list (nat * string * completion_reason)
}.

Inductive run_event :=
  | EvStartPolling (t : Time) (testID : string) (controllable hasManagedRamp : bool) (expected : Z)
  | EvStopPolling
  | EvRampingDone
  | EvPhase (phase : TestPhase) (message : string)
  | EvPoll (loop : nat) (ev : poll_event).

Definition run_step (r : runs) (ev : run_event) : runs :=
  let o := runs_o r in
  match ev with
  | EvStartPolling t testID controllable hasManagedRamp expected =>
    mkRuns (StartPolling t testID controllable hasManagedRamp expected o)
      (<[o_polls o := (testID, 0)]> (runs_loops r)) (runs_completed r)
  | EvStopPolling => mkRuns (StopPolling o) (runs_loops r) (runs_completed r)
  | EvRampingDone => mkRuns (SetRampingDone o) (runs_loops r) (runs_completed r)
  | EvPhase phase message => mkRuns (SetPhase phase message o) (runs_loops r) (runs_completed r)
  | EvPoll n pev =>
    match runs_loops r !! n with
    | None => r
    | Some (testID, tickCount) =>
      match poll_step pev tickCount o with
      | (Polling ticks, o') => mkRuns o' (<[n := (testID, ticks)]> (runs_loops r)) (runs_completed r)
      | (Returned None, o') =>
        (* the context of the loop [cancelPoll] belongs to is not cancelled *)
        if bool_decide (o_cancelPoll o = Some n) then r
        else mkRuns o' (delete n (runs_loops r)) (runs_completed r)
      | (Returned (Some why), o') =>
        mkRuns o' (delete n (runs_loops r)) (runs_completed r ++ [(n, testID, why)])
      end
    end
  end.

Definition run_init (o : Orchestrator) : runs := mkRuns o ∅ [].

(** The tests started so far, in order. *)
Definition starts (events : list run_event) : list string :=
  omap (fun ev => match ev with EvStartPolling _ testID _ _ _ => Some testID | _ => None end) events.

(** ** The invariant of the runs *)

(** The polls that entered the state since the last start, each with the loop
    that made it: a loop that has been cancelled is among them while it has not
    returned. *)
Definition polls_after (r : runs) (polls : list (nat * (Time * AggregatedMetrics))) (ev : run_event)
  : list (nat * (Time * AggregatedMetrics)) :=
  match ev with
  | EvStartPolling _ _ _ _ _ => []
  | EvPoll n (PollTick t metrics _) =>
    match runs_loops r !! n with
    | Some _ => polls ++ [(n, (t, Aggregate (fetchAllMetrics metrics (runs_o r))))]
    | None => polls
    end
  | _ => polls
  end.

Definition traced_step (s : runs * list (nat * (Time * AggregatedMetrics))) (ev : run_event) :=
  (run_step s.1 ev, polls_after s.1 s.2 ev).

Record runs_inv (started : list string) (polls : list (nat * (Time * AggregatedMetrics))) (r : runs) : Prop := {
  ri_polls : o_polls (runs_o r) = length started;
  ri_loops : forall n id ticks, runs_loops r !! n = Some (id, ticks) -> started !! n = Some id;
  ri_completed : forall n id why, (n, id, why) ∈ runs_completed r ->
    started !! n = Some id /\ runs_loops r !! n = None;
  ri_once : NoDup (map (fun c => c.1.1) (runs_completed r));
  ri_active : forall n, o_cancelPoll (runs_o r) = Some n ->
    (exists ticks, runs_loops r !! n = Some (o_activeTestID (runs_o r), ticks)) \/
    (exists why, (n, o_activeTestID (runs_o r), why) ∈ runs_completed r);
  ri_idle : o_cancelPoll (runs_o r) = None -> o_activeTestID (runs_o r) = "";
  ri_data : accumulated (map snd polls) (runs_o r);
  ri_peaks : map_Forall (fun _ peak => 0 < peak) (o_peakWorkerVUs (runs_o r))
}.

Lemma peak_step_positive (peaks : gmap string Z) (wm : WorkerMetrics) :
  map_Forall (fun _ peak => 0 < peak) peaks ->
  map_Forall (fun _ peak => 0 < peak) (peak_step peaks wm).
Proof.
  intros H. unfold peak_step. destruct (_ <? _) eqn:E; [|done]. bool_prop.
  apply map_Forall_insert_2; [|done].
  destruct (peaks !! wm_Address wm) as [p|] eqn:Ep; simpl in E; [|done].
  specialize (H _ _ Ep). simpl in H. lia.
Qed.

Lemma peaks_positive (rows : list WorkerMetrics) (peaks : gmap string Z) :
  map_Forall (fun _ peak => 0 < peak) peaks ->
  map_Forall (fun _ peak => 0 < peak) (foldl peak_step peaks rows).
Proof.
  revert peaks. induction rows as [|wm rows IH]; intros peaks H; simpl; [done|].
  apply IH, peak_step_positive, H.
Qed.

(** What a poll changes: never the identity of the run nor its options. *)
Lemma updatePollingState_frame (t : Time) (agg : AggregatedMetrics) (o : Orchestrator) :
  let o' := (updatePollingState t agg o).2 in
  o_polls o' = o_polls o /\ o_cancelPoll o' = o_cancelPoll o /\ o_activeTestID o' = o_activeTestID o /\
  o_rampingDone o' = o_rampingDone o /\ o_controllable o' = o_controllable o /\
  o_hasManagedRamp o' = o_hasManagedRamp o /\ o_expectedRunDuration o' = o_expectedRunDuration o /\
  o_testStartTime o' = o_testStartTime o /\ o_pollInterval o' = o_pollInterval o /\
  o_workers o' = o_workers o.
Proof.
  unfold updatePollingState. simpl.
  destruct (has_data agg); [done|]. destruct (o_seenRunning o); done.
Qed.

Lemma updatePollingState_peaks (t : Time) (agg : AggregatedMetrics) (o : Orchestrator) :
  map_Forall (fun _ peak => 0 < peak) (o_peakWorkerVUs o) ->
  map_Forall (fun _ peak => 0 < peak) (o_peakWorkerVUs (updatePollingState t agg o).2).
Proof.
  unfold updatePollingState. intros H. simpl. destruct (has_data agg); simpl; [by apply peaks_positive|].
  by destruct (o_seenRunning o).
Qed.

Lemma poll_tick_state t ticks agg statuses o :
  (poll_tick t ticks agg statuses o).2 = (updatePollingState t agg o).2.
Proof.
  unfold poll_tick. destruct (updatePollingState t agg o) as [st o'].
  destruct (shouldCompleteTest _ _ _ _ _); [done|]. destruct (_ && _); done.
Qed.

(** A step of a loop leaves the state alone, or is a poll. *)
Lemma poll_step_state (ev : poll_event) (ticks : Z) (o : Orchestrator) :
  (poll_step ev ticks o).2 =
  match ev with
  | PollTick t metrics _ => (updatePollingState t (Aggregate (fetchAllMetrics metrics o)) o).2
  | _ => o
  end.
Proof. destruct ev as [| |t metrics statuses]; [done..|]. apply poll_tick_state. Qed.

Lemma poll_step_frame (ev : poll_event) (ticks : Z) (o : Orchestrator) :
  let o' := (poll_step ev ticks o).2 in
  o_polls o' = o_polls o /\ o_cancelPoll o' = o_cancelPoll o /\ o_activeTestID o' = o_activeTestID o /\
  (map_Forall (fun _ peak => 0 < peak) (o_peakWorkerVUs o) -> map_Forall (fun _ peak => 0 < peak) (o_peakWorkerVUs o')).
Proof.
  cbv zeta. rewrite poll_step_state. destruct ev as [| |t metrics statuses]; [done..|].
  destruct (updatePollingState_frame t (Aggregate (fetchAllMetrics metrics o)) o) as (Hp & Hc & Ha & _).
  do 3 (split; [assumption|]). apply updatePollingState_peaks.
Qed.

(** The state after a step of a loop that is there. *)
Lemma poll_step_data r n ev id ticks polls :
  runs_loops r !! n = Some (id, ticks) -> accumulated (map snd polls) (runs_o r) ->
  accumulated (map snd (polls_after r polls (EvPoll n ev))) (poll_step ev ticks (runs_o r)).2.
Proof.
  intros Hn Hd. rewrite poll_step_state. destruct ev as [| |t metrics statuses]; [done..|].
  cbn [polls_after]. rewrite Hn, map_app. by apply accumulated_poll.
Qed.

Lemma runs_init_inv (o : Orchestrator) :
  o_polls o = 0%nat -> o_cancelPoll o = None -> o_activeTestID o = "" -> accumulated [] o ->
  o_peakWorkerVUs o = ∅ -> runs_inv [] [] (run_init o).
Proof.
  intros Hp Hc Ha Hd Hk. constructor; simpl; try done.
  - intros n id why Hin. by apply not_elem_of_nil in Hin.
  - constructor.
  - intros n Hn. congruence.
  - rewrite Hk. apply map_Forall_empty.
Qed.

Lemma StartPolling_inv started polls r t testID controllable hasManagedRamp expected :
  runs_inv started polls r ->
  runs_inv (started ++ [testID]) []
    (run_step r (EvStartPolling t testID controllable hasManagedRamp expected)).
Proof.
  intros [Hp Hl Hc Ho Ha Hi Hd Hf].
  assert (Hnew : (started ++ [testID]) !! o_polls (runs_o r) = Some testID)
    by (rewrite Hp; apply list_lookup_middle; done).
  constructor; simpl.
  - rewrite length_app. simpl. lia.
  - intros n id ticks Hn. destruct (decide (n = o_polls (runs_o r))) as [-> | Hne].
    + rewrite lookup_insert_eq in Hn. injection Hn as [= <- <-]. done.
    + rewrite lookup_insert_ne in Hn by done. apply lookup_app_l_Some. eauto.
  - intros n id why Hin. destruct (Hc n id why Hin) as [H1 H2].
    split; [apply lookup_app_l_Some; done|].
    apply lookup_lt_Some in H1. rewrite lookup_insert_ne by lia. done.
  - done.
  - intros n [= <-]. left. exists 0. apply lookup_insert_eq.
  - done.
  - apply accumulated_start.
  - apply map_Forall_empty.
Qed.

(** A running loop of the run has not reported; a reported one has returned. *)
Lemma poll_inv started polls r n ev :
  runs_inv started polls r -> runs_inv started (polls_after r polls (EvPoll n ev)) (run_step r (EvPoll n ev)).
Proof.
  intros Hinv. destruct (runs_loops r !! n) as [[id ticks]|] eqn:El.
  2: { destruct ev; simpl; by rewrite ?El. }
  pose proof (poll_step_data r n ev id ticks polls El (ri_data _ _ _ Hinv)) as Hd'.
  assert (Hcancel : (poll_step ev ticks (runs_o r)).1 = Returned None -> polls_after r polls (EvPoll n ev) = polls).
  { destruct ev as [| |t metrics statuses]; [done..|]. unfold poll_step, poll_tick.
    destruct (updatePollingState _ _ _) as [st o']. destruct (shouldCompleteTest _ _ _ _ _); [done|].
    by destruct (negb _ && _). }
  generalize dependent (polls_after r polls (EvPoll n ev)). intros polls' Hd' Hcancel.
  simpl. rewrite El.
  pose proof (poll_step_frame ev ticks (runs_o r)) as F. simpl in F.
  destruct (poll_step ev ticks (runs_o r)) as [[m|[why|]] o'] eqn:E; simpl in F;
    destruct F as (Fp & Fc & Fa & Ff); destruct Hinv as [Hp Hl Hc Ho Ha Hi Hd Hf]; cbn [fst snd] in *.
  - constructor; simpl; rewrite ?Fp, ?Fc, ?Fa; auto.
    + intros k id' ticks' Hk. destruct (decide (k = n)) as [-> | Hne].
      * rewrite lookup_insert_eq in Hk. injection Hk as [= <- <-]. eauto.
      * rewrite lookup_insert_ne in Hk by done. eauto.
    + intros k id' why Hin. destruct (Hc k id' why Hin) as [H1 H2]. split; [done|].
      destruct (decide (k = n)) as [-> | Hne]; [congruence|]. rewrite lookup_insert_ne; done.
    + intros k Hk. destruct (Ha k Hk) as [[ticks' Ht]|]; [left|by right].
      destruct (decide (k = n)) as [-> | Hne].
      * exists m. rewrite lookup_insert_eq. congruence.
      * exists ticks'. rewrite lookup_insert_ne; done.
  - constructor; simpl; rewrite ?Fp, ?Fc, ?Fa; auto.
    + intros k id' ticks' Hk. apply lookup_delete_Some in Hk as [_ Hk]. eauto.
    + intros k id' why' Hin. apply elem_of_app in Hin as [Hin | Hin].
      * destruct (Hc _ _ _ Hin) as [H1 H2]. split; [done|]. apply lookup_delete_None. auto.
      * apply list_elem_of_singleton in Hin as [= -> -> ->]. split; [eauto|].
        apply lookup_delete_eq.
    + rewrite map_app. apply NoDup_app. split; [done|]. split; [|apply NoDup_singleton].
      intros k Hk Hk'. apply list_elem_of_singleton in Hk' as ->.
      apply list_elem_of_fmap in Hk as ([[k' id'] why'] & Hk' & Hin). simpl in Hk'. subst k'.
      destruct (Hc _ _ _ Hin) as [_ H2]. congruence.
    + intros k Hk. destruct (Ha k Hk) as [[ticks' Ht]|[why' Hin]].
      * destruct (decide (k = n)) as [-> | Hne].
        -- right. exists why. apply elem_of_app. right. apply list_elem_of_singleton. congruence.
        -- left. exists ticks'. rewrite lookup_delete_ne; done.
      * right. exists why'. apply elem_of_app. by left.
  - destruct (bool_decide _) eqn:Eb; [rewrite Hcancel by done; constructor; done|]. apply bool_decide_eq_false in Eb.
    constructor; simpl; rewrite ?Fp, ?Fc, ?Fa; auto.
    + intros k id' ticks' Hk. apply lookup_delete_Some in Hk as [_ Hk]. eauto.
    + intros k id' why' Hin. destruct (Hc _ _ _ Hin) as [H1 H2]. split; [done|].
      apply lookup_delete_None. auto.
    + intros k Hk. destruct (Ha k Hk) as [[ticks' Ht]|]; [left|by right].
      exists ticks'. rewrite lookup_delete_ne; [done|]. intros ->. done.
Qed.

Lemma run_step_inv started polls r ev :
  runs_inv started polls r -> runs_inv (started ++ starts [ev]) (polls_after r polls ev) (run_step r ev).
Proof.
  intros Hinv. destruct ev as [t id c m d| | |phase msg|n pev]; [by eapply StartPolling_inv|..]; rewrite app_nil_r;
    [..|by apply poll_inv]; destruct Hinv as [Hp Hl Hc Ho Ha Hi [] Hf]; constructor; simpl; try done; by constructor.
Qed.


(** A tick of a run that has been stopped, fetched before the stop and
    processed after the next start, counts as data of the new run: it is seen
    running and has a point and a peak before its own loop has polled. *)
Definition one_vu : gmap string K6Metric :=
  {[ "vus" := mkK6Metric "gauge" "default" None {[ "value" := f_of_Z 1 ]} ∅ ]}.

Definition late_tick : list run_event :=
  [EvStartPolling zero_time "a" false false 0; EvStopPolling; EvStartPolling zero_time "b" false false 0;
   EvPoll 0 (PollTick zero_time [Ok one_vu] [])].

(** ** End detection, specified *)

(** An answer that lets the run end: the worker finished, or is paused in a run
    that a user cannot pause. *)
Definition answer_terminal (isControllable : bool) (answer : res K6Status) : Prop :=
  match answer with
  | Err _ => False
  | Ok st => if k6s_Paused st then isControllable = false
             else IsRunning st = false /\ IsFinished st = true
  end.

Lemma workers_ended_spec (isControllable : bool) (statuses : list (res K6Status)) :
  workers_ended isControllable statuses = true <-> Forall (answer_terminal isControllable) statuses.
Proof.
  induction statuses as [|[st|e] rest IH]; simpl.
  - split; intros _; [constructor|done].
  - rewrite Forall_cons. simpl.
    destruct (k6s_Paused st), isControllable, (IsRunning st), (IsFinished st); rewrite ?IH;
      intuition congruence.
  - rewrite Forall_cons. simpl. intuition congruence.
Qed.

(** When the run of state [o] may be reported complete at a tick. *)
Definition run_over (t : Time) (ticks totalVUs : Z) (statuses : list (res K6Status))
    (o : Orchestrator) : Prop :=
  let ended := o_rampingDone o = true \/ Forall (answer_terminal (o_controllable o)) statuses in
  if o_hasManagedRamp o then
    o_rampingDone o = true \/
    o_seenRunning o = true /\ totalVUs = 0 /\ 2 <= o_zeroMetricRun o /\ 5 <= ticks /\ ended
  else
    o_seenRunning o = true /\
    if o_controllable o then 5 <= ticks /\ ended
    else 3 <= o_zeroMetricRun o \/
         5 <= ticks /\ ended /\
         (0 < o_expectedRunDuration o ->
          o_expectedRunDuration o <= (sub t (o_testStartTime o) ⊞ o_pollInterval o)).

Lemma updatePollingState_snapshot (t : Time) (agg : AggregatedMetrics) (o : Orchestrator) :
  let o' := (updatePollingState t agg o).2 in
  (updatePollingState t agg o).1 =
    mkPollState (o_seenRunning o') (o_controllable o') (o_hasManagedRamp o') (o_zeroMetricRun o')
      (o_rampingDone o') (o_expectedRunDuration o') (agg_TotalVUs agg).
Proof. done. Qed.

Lemma allWorkersEnded_spec (statuses : list (res K6Status)) (o : Orchestrator) :
  allWorkersEnded statuses o = true <->
  o_rampingDone o = true \/ Forall (answer_terminal (o_controllable o)) statuses.
Proof.
  unfold allWorkersEnded. rewrite <- workers_ended_spec. destruct (o_rampingDone o); intuition congruence.
Qed.

Lemma shouldCompleteTest_spec (t : Time) (ticks totalVUs : Z) (statuses : list (res K6Status))
    (o : Orchestrator) :
  shouldCompleteTest t ticks statuses
    (mkPollState (o_seenRunning o) (o_controllable o) (o_hasManagedRamp o) (o_zeroMetricRun o)
       (o_rampingDone o) (o_expectedRunDuration o) totalVUs) o = true <->
  run_over t ticks totalVUs statuses o.
Proof.
  unfold shouldCompleteTest, run_over, minTicksBeforeEndCheck, zeroTicksToEnd. simpl.
  pose proof (allWorkersEnded_spec statuses o) as Hw.
  destruct (o_hasManagedRamp o).
  - destruct (o_rampingDone o) eqn:Er; [tauto|].
    rewrite !andb_true_iff, Z.eqb_eq, !Z.leb_le, Hw.
    assert (~ false = true) by done. tauto.
  - destruct (o_controllable o).
    + rewrite !andb_true_iff, Z.leb_le, Hw. tauto.
    + destruct (o_seenRunning o); [|split; [done|intros [[=] _]]]. simpl.
      destruct (3 <=? o_zeroMetricRun o) eqn:Ez; bool_prop; [tauto|].
      destruct (0 <? o_expectedRunDuration o) eqn:Ed; simpl; bool_prop.
      * destruct (_ <? _) eqn:El; bool_prop.
        -- split; [done|]. intros [_ [H | (_ & _ & H)]]; [lia|]. specialize (H Ed). lia.
        -- rewrite andb_true_iff, Z.leb_le, Hw. intuition lia.
      * rewrite andb_true_iff, Z.leb_le, Hw. intuition lia.
Qed.

Lemma poll_tick_spec (t : Time) (n : Z) (agg : AggregatedMetrics) (statuses : list (res K6Status))
    (o : Orchestrator) :
  let o' := (updatePollingState t agg o).2 in
  let out := (poll_tick t n agg statuses o).1 in
  (out = Returned (Some ByEndDetection) <-> run_over t n (agg_TotalVUs agg) statuses o') /\
  (out = Returned (Some NeverStarted) <->
   ~ run_over t n (agg_TotalVUs agg) statuses o' /\ o_seenRunning o' = false /\ 150 <= n) /\
  (out = Polling n <->
   ~ run_over t n (agg_TotalVUs agg) statuses o' /\ (o_seenRunning o' = true \/ n < 150)) /\
  out ≠ Returned None /\ out ≠ Returned (Some ByDeadline).
Proof.
  unfold poll_tick. pose proof (updatePollingState_snapshot t agg o) as Hs. cbv zeta in Hs.
  destruct (updatePollingState t agg o) as [st o']. cbn [fst snd] in *. subst st.
  pose proof (shouldCompleteTest_spec t n (agg_TotalVUs agg) statuses o') as Hc.
  destruct (shouldCompleteTest _ _ _ _ _); cbn [fst].
  - assert (run_over t n (agg_TotalVUs agg) statuses o') by (apply Hc; done).
    intuition congruence.
  - assert (~ run_over t n (agg_TotalVUs agg) statuses o') by (intros Hr; apply Hc in Hr; done).
    unfold neverStartedTimeout. simpl.
    destruct (o_seenRunning o'), (150 <=? n) eqn:En; bool_prop; simpl;
      intuition (try congruence; try lia).
Qed.

End polling.

Example late_tick_counts :
  let r := foldl (run_step (order := id_map_order)) (run_init (New ["w:6565"] (2 * Second) 0 false "" 0)) late_tick in
  o_activeTestID (runs_o r) = "b" /\ runs_loops r !! 1%nat = Some ("b", 0) /\ o_seenRunning (runs_o r) = true /\
  length (o_timeSeries (runs_o r)) = 1%nat /\ o_peakWorkerVUs (runs_o r) = {[ "w:6565" := 1 ]}.
Proof. vm_compute. split_and!; reflexivity. Qed.

(** ** The metrics of a run polled by its own loop *)

(** What a run accumulates over its polls, whatever the run before it left:
    the latest metrics are those of the last poll; the run counts as seen
    running once a poll carried data; the consecutive empty polls are counted
    from then on; the time series has a point for each poll with data, with its
    figures; the peak of each worker is the largest number of VUs it
    reported in a poll with data; and the total that [ApplyPeakVUs] puts into a
    result is the sum of the peaks of its workers. *)
Theorem run_history (t0 : Time) (testID : string) (controllable hasManagedRamp : bool)
    (expected : Z) (o : Orchestrator) (polls : list (Time * AggregatedMetrics)) :
  let o' := observe polls (StartPolling t0 testID controllable hasManagedRamp expected o) in
  o_latestMetrics o' = snd <$> last polls /\
  o_seenRunning o' = produced polls /\
  o_zeroMetricRun o' = (if produced polls then i64 (Z.of_nat (idle_polls polls)) else 0) /\
  map (fun p => (tp_TotalVUs p, tp_TotalRequests p)) (o_timeSeries o') =
    map (fun p => (agg_TotalVUs p.2, agg_TotalRequests p.2)) (filter (fun p => has_data p.2 = true) polls) /\
  (forall address, default 0 (o_peakWorkerVUs o' !! address) = zmax 0 (vus_of address polls)) /\
  forall metrics, agg_TotalVUs (ApplyPeakVUs o' metrics) =
    i64 (zsum (map (fun wm => zmax 0 (vus_of (wm_Address wm) polls)) (agg_Workers metrics))).
Proof.
  intros o'. destruct (accumulated_observe [] _ polls (accumulated_start t0 testID controllable hasManagedRamp expected o))
    as [H1 H2 H3 H4 H5]. split_and!; try done.
  intros metrics. unfold ApplyPeakVUs. simpl. rewrite (peaks_total _ _ 0), Z.add_0_l. do 2 f_equal.
  apply map_ext. intros wm. apply H5.
Qed.

(** A managed ramp whose stages are not done is ended when its workers finished
    and the metrics stayed empty: the comment at the poll loop says that only
    the end of the ramp ends such a run. *)
Example managed_ramp_ends_early :
  let o := (StartPolling zero_time "t" true true 0 (New ["w:6565"] (2 * Second) 0 false "" 0))
             <| o_seenRunning := true |> <| o_zeroMetricRun := 1 |> in
  let finished := mkK6Status "7" false 0 0 false false false in
  o_rampingDone o = false /\
  (poll_tick zero_time 5 zero_AggregatedMetrics [Ok finished] o).1 = Returned (Some ByEndDetection).
Proof. vm_compute. split; reflexivity. Qed.
