(* ===== verification/Startup.v ===== *)
(** * Commands to all workers: [controller/internal/orchestrator/orchestrator.go]

    Scaling, resuming, stopping and pausing every worker through an errgroup,
    waiting until the workers are ready, and the start of a run with its
    recovery attempts.  What the workers answer is the environment: an answer
    is nothing when the request was accepted, and the error otherwise; the
    error a group returns when several workers fail is the choice of
    [ErrGroup]. *)

From S2P Require Export Prelude GoStrings GoTime Model Orchestrator.

Open Scope Z_scope.
Open Scope go_scope.

(** [errgroup.Group.Wait] returns the first error of its goroutines. *)
Class ErrGroup := {
  group_error : string -> list string -> string;
  group_error_in : forall e es, group_error e es ∈ e :: es
}.

(** The group whose first member to fail is the first of the list. *)
Definition first_error : ErrGroup := {|
  group_error := fun e _ => e;
  group_error_in := fun e es => list_elem_of_here e es
|}.

(** ** Scaling *)

(** The VUs asked of each worker; a controller without workers panics (division
    by zero). *)
Definition ScaleVUs (totalVUs : Z) (o : Orchestrator) : option (list (string * Z)) :=
  let n := Z.of_nat (length (o_workers o)) in
  if n =? 0 then None
  else
    let perWorker := Z.quot totalVUs n in
    let remainder := Z.rem totalVUs n in
    Some (imap (fun i w =>
      (wk_Address w, if Z.of_nat i <? remainder then perWorker ⊞ 1 else perWorker)) (o_workers o)).

(** ** Resuming *)

Definition isBenignStartupResumeError (msg : string) : bool :=
  contains msg "doesn't support pause and resume operations after its start" ||
  contains msg "cannot pause the externally controlled executor before it has started" ||
  contains msg "test execution wasn't paused".

Section commands.
Context {group : ErrGroup}.

(** [g.Wait()] over the outcomes of the workers. *)
Definition group_wait (outcomes : list (option string)) : option string :=
  match omap id outcomes with
  | [] => None
  | e :: es => Some (group_error e es)
  end.

(** The attempts of one worker: its answers by attempt, and the attempts left. *)
Fixpoint resume_attempts (tolerateAlreadyStarted fastFailBenign : bool)
    (answers : nat -> option string) (fuel attempt : nat) (lastErr : option string) : option string :=
  match fuel with
  | O => lastErr
  | S fuel =>
    match answers attempt with
    | None => None
    | Some err =>
      if tolerateAlreadyStarted && isBenignStartupResumeError err then None
      else if fastFailBenign && isBenignStartupResumeError err then Some err
      else resume_attempts tolerateAlreadyStarted fastFailBenign answers fuel (S attempt) (Some err)
    end
  end.

Definition resumeAll (tolerateAlreadyStarted fastFailBenign : bool)
    (answers : list (nat -> option string)) : option string :=
  group_wait (map (fun a => resume_attempts tolerateAlreadyStarted fastFailBenign a 5 0 None) answers).

Definition ResumeAll (answers : list (nat -> option string)) : option string :=
  resumeAll false false answers.

Definition PauseAll (answers : list (option string)) : option string := group_wait answers.

(** [StopAll] clears the active run whatever the workers answer. *)
Definition StopAll (answers : list (option string)) (o : Orchestrator) : option string * Orchestrator :=
  (group_wait answers, clearActiveRunLocked o).

(** ** Readiness *)

Definition startupReadyTimeoutForAttempt (attempt : Z) (o : Orchestrator) : Z :=
  let attempt := if attempt <? 1 then 1 else attempt in
  if 0 <? o_workerReadyTimeout o then o_workerReadyTimeout o
  else
    let pollBudget := o_pollInterval o ⊠ (10 ⊞ ((attempt ⊟ 1) ⊠ 2)) in
    let pollBudget := if pollBudget <? 12 * Second then 12 * Second else pollBudget in
    let workerBudget := (Z.of_nat (length (o_workers o)) ⊠ 3) ⊠ Second in
    let timeout := (10 * Second ⊞ pollBudget) ⊞ workerBudget in
    let timeout := if timeout <? 25 * Second then 25 * Second else timeout in
    if 2 * Minute <? timeout then 2 * Minute else timeout.

Definition stableReadyChecks : Z := 2.

(** [WaitForAllReady] over the checks made until the context expires: a check
    is the status of each worker. *)
Fixpoint wait_ready (rounds : list (list (res K6Status))) (consecutiveReady : Z) : option string :=
  match rounds with
  | [] => Some "timed out waiting for workers to become ready for start"
  | round :: rest =>
    if forallb worker_ready round then
      let consecutiveReady := consecutiveReady ⊞ 1 in
      if stableReadyChecks <=? consecutiveReady then None else wait_ready rest consecutiveReady
    else wait_ready rest 0
  end.

Definition WaitForAllReady (rounds : list (list (res K6Status))) : option string := wait_ready rounds 0.

(** ** Starting a run *)

(** What the workers do in one recovery: their answers to the stop, and their
    statuses at each check before the timeout. *)
Record recovery := mkRecovery {
  rec_stop : list (option string);
  rec_rounds : list (list (res K6Status))
}.

Definition recoverWorkersForStart (env : recovery) (o : Orchestrator) : option string * Orchestrator :=
  match StopAll (rec_stop env) o with
  | (Some err, o') => (Some err, o')
  | (None, o') => (WaitForAllReady (rec_rounds env), o')
  end.

Definition maxRecoveryAttempts : Z := 3.

(** [resumes a] are the answers of the workers in attempt [a], [recoveries a]
    the recovery after it. *)
Fixpoint start_attempts (resumes : Z -> list (nat -> option string)) (recoveries : Z -> recovery)
    (fuel : nat) (attempt : Z) (o : Orchestrator) : option string * Orchestrator :=
  match fuel with
  | O => (None, o)
  | S fuel =>
    match resumeAll false true (resumes attempt) with
    | None => (None, o)
    | Some err =>
      if negb (isBenignStartupResumeError err) then (Some err, o)
      else if attempt =? maxRecoveryAttempts then (Some err, o)
      else
        match recoverWorkersForStart (recoveries attempt) o with
        | (Some e, o') =>
          (Some ("failed to recover workers after active-state resume race: " +:+ e), o')
        | (None, o') => start_attempts resumes recoveries fuel (attempt + 1) o'
        end
    end
  end.

Definition ResumeAllForStart (resumes : Z -> list (nat -> option string))
    (recoveries : Z -> recovery) (o : Orchestrator) : option string * Orchestrator :=
  start_attempts resumes recoveries (Z.to_nat maxRecoveryAttempts) 1 o.

(** ** Properties *)

Lemma group_wait_None (outcomes : list (option string)) :
  group_wait outcomes = None <-> Forall (fun r => r = None) outcomes.
Proof.
  unfold group_wait. induction outcomes as [|[e|] rest IH]; simpl.
  - split; intros _; [constructor|done].
  - rewrite Forall_cons. split; [done|intros [[=] _]].
  - rewrite IH, Forall_cons. intuition.
Qed.

(** The error of a group is that of one of its members. *)
Lemma group_wait_Some (outcomes : list (option string)) (e : string) :
  group_wait outcomes = Some e -> Some e ∈ outcomes.
Proof.
  unfold group_wait. destruct (omap id outcomes) as [|e0 es] eqn:E; [done|].
  intros [= <-]. pose proof (group_error_in e0 es) as Hin. rewrite <- E in Hin.
  apply list_elem_of_omap in Hin as (x & Hx & Hid). unfold id in Hid. subst x. done.
Qed.

(** The worker accepts the command in one of [n] attempts, after errors that
    are worth a retry. *)
Definition accepted (fastFailBenign : bool) (n : nat) (answers : nat -> option string) : Prop :=
  exists k, (k < n)%nat /\ answers k = None /\
    forall j, (j < k)%nat ->
      exists e, answers j = Some e /\ fastFailBenign && isBenignStartupResumeError e = false.

Lemma accepted_shift ff n answers :
  accepted ff (S n) answers <->
  answers O = None \/
  (exists e, answers O = Some e /\ ff && isBenignStartupResumeError e = false) /\
  accepted ff n (fun k => answers (S k)).
Proof.
  split.
  - intros ([|k] & Hk & Hn & Hj); [by left|]. right. split; [apply Hj; lia|].
    exists k. split_and!; [lia|done|]. intros j Hlt. apply Hj. lia.
  - intros [H0 | [H0 (k & Hk & Hn & Hj)]].
    + exists O. split_and!; [lia|done|lia].
    + exists (S k). split_and!; [lia|done|]. intros [|j] Hlt; [done|]. apply Hj. lia.
Qed.

Lemma resume_attempts_ok (ff : bool) (answers : nat -> option string) (fuel attempt : nat) lastErr :
  (fuel = O -> lastErr ≠ None) ->
  resume_attempts false ff answers fuel attempt lastErr = None <->
  accepted ff fuel (fun k => answers (attempt + k)%nat).
Proof.
  revert attempt lastErr. induction fuel as [|fuel IH]; intros attempt lastErr Hl; simpl.
  - split; [intros; by destruct (Hl eq_refl)|]. intros (k & Hk & _). lia.
  - rewrite accepted_shift, Nat.add_0_r. destruct (answers attempt) as [err|]; [|tauto].
    destruct (ff && isBenignStartupResumeError err) eqn:Eb.
    + split; [done|]. intros [[=] | [(e & [= <-] & He) _]]. congruence.
    + rewrite IH by done. unfold accepted. setoid_rewrite Nat.add_succ_r. split.
      * intros H. right. split; [exists err; done | exact H].
      * intros [[=] | [_ H]]. exact H.
Qed.

Lemma resumeAll_ok (ff : bool) (answers : list (nat -> option string)) :
  resumeAll false ff answers = None <-> Forall (accepted ff 5) answers.
Proof.
  unfold resumeAll. rewrite group_wait_None, Forall_map. apply Forall_iff. intros a.
  apply resume_attempts_ok. done.
Qed.

(** Two checks in a row found every worker ready. *)
Definition stable_ready (rounds : list (list (res K6Status))) : Prop :=
  exists pre r1 r2 post, rounds = pre ++ r1 :: r2 :: post /\
    forallb worker_ready r1 = true /\ forallb worker_ready r2 = true.

Lemma stable_ready_cons round rest :
  stable_ready (round :: rest) <->
  stable_ready rest \/ forallb worker_ready round = true /\
    exists r2 post, rest = r2 :: post /\ forallb worker_ready r2 = true.
Proof.
  split.
  - intros ([|r0 pre] & r1 & r2 & post & E & H1 & H2); injection E as [= -> ->].
    + right. eauto.
    + left. exists pre, r1, r2, post. done.
  - intros [(pre & r1 & r2 & post & -> & H) | (H1 & r2 & post & -> & H2)].
    + exists (round :: pre), r1, r2, post. done.
    + exists [], round, r2, post. done.
Qed.

Lemma wait_ready_spec (rounds : list (list (res K6Status))) :
  (wait_ready rounds 0 = None <-> stable_ready rounds) /\
  (wait_ready rounds 1 = None <-> stable_ready rounds \/
     exists r post, rounds = r :: post /\ forallb worker_ready r = true).
Proof.
  induction rounds as [|round rest [IH0 IH1]].
  - split; (split; [done|]).
    + intros (pre & r1 & r2 & post & E & _). destruct pre; done.
    + intros [(pre & r1 & r2 & post & E & _) | (r & post & [=] & _)]. destruct pre; done.
  - cbn [wait_ready]. rewrite stable_ready_cons.
    change (0 ⊞ 1) with 1. change (1 ⊞ 1) with 2. unfold stableReadyChecks.
    destruct (forallb worker_ready round) eqn:E; cbn [Z.leb Z.compare Pos.compare Pos.compare_cont].
    + split; [rewrite IH1; tauto|]. split; [|done]. intros _. right. exists round, rest. done.
    + rewrite IH0. split; [intuition congruence|]. split; [tauto|].
      intros [[H | [[=] _]] | (r & post & [= <- <-] & H)]; [done|congruence].
Qed.

(** An attempt that a recovery follows: the first error a worker gave says that
    it was already active. *)
Definition recovered (answers : list (nat -> option string)) (env : recovery) : Prop :=
  (exists e, resumeAll false true answers = Some e /\ isBenignStartupResumeError e = true) /\
  Forall (fun r => r = None) (rec_stop env) /\ stable_ready (rec_rounds env).

Lemma recoverWorkersForStart_spec (env : recovery) (o : Orchestrator) :
  (recoverWorkersForStart env o).2 = clearActiveRunLocked o /\
  ((recoverWorkersForStart env o).1 = None <->
   Forall (fun r => r = None) (rec_stop env) /\ stable_ready (rec_rounds env)).
Proof.
  unfold recoverWorkersForStart, StopAll, WaitForAllReady.
  pose proof (group_wait_None (rec_stop env)) as Hg.
  destruct (group_wait (rec_stop env)) as [e|]; cbn [fst snd].
  - split; [done|]. split; [done|]. intros [H _]. apply Hg in H. done.
  - split; [done|]. rewrite (proj1 (wait_ready_spec _)). tauto.
Qed.

Lemma start_attempts_spec resumes recoveries (fuel : nat) (attempt : Z) (o : Orchestrator) :
  (0 < fuel)%nat -> attempt + Z.of_nat fuel = maxRecoveryAttempts + 1 ->
  ((start_attempts resumes recoveries fuel attempt o).1 = None <->
   exists a, attempt <= a <= maxRecoveryAttempts /\ Forall (accepted true 5) (resumes a) /\
     forall b, attempt <= b < a -> recovered (resumes b) (recoveries b)) /\
  ((start_attempts resumes recoveries fuel attempt o).2 = o \/
   (start_attempts resumes recoveries fuel attempt o).2 = clearActiveRunLocked o).
Proof.
  revert attempt o. induction fuel as [|fuel IH]; intros attempt o Hl Hs; [lia|].
  cbn [start_attempts]. pose proof (resumeAll_ok true (resumes attempt)) as Hr.
  unfold recovered. destruct (resumeAll false true (resumes attempt)) as [err|] eqn:Er; cbn [fst snd].
  2:{ split; [|by left]. split; [|done]. intros _. exists attempt.
      split_and!; [lia|lia|apply Hr; done|lia]. }
  assert (Hno : ~ Forall (accepted true 5) (resumes attempt)) by (intros H; apply Hr in H; done).
  destruct (isBenignStartupResumeError err) eqn:Eb; cbn [negb fst snd].
  2:{ split; [|by left]. split; [done|]. intros (a & Ha & Hacc & Hb).
      destruct (decide (a = attempt)) as [-> |]; [done|].
      destruct (Hb attempt ltac:(lia)) as ((e & He & Hbe) & _). congruence. }
  destruct (attempt =? maxRecoveryAttempts) eqn:Em; bool_prop; cbn [fst snd].
  { split; [|by left]. split; [done|]. intros (a & Ha & Hacc & _).
    replace a with attempt in Hacc by lia. done. }
  pose proof (recoverWorkersForStart_spec (recoveries attempt) o) as [Hst Hrec].
  destruct (recoverWorkersForStart (recoveries attempt) o) as [[e|] o']; cbn [fst snd] in *; subst o'.
  - split; [|by right]. split; [done|]. intros (a & Ha & Hacc & Hb).
    destruct (decide (a = attempt)) as [-> |]; [done|].
    destruct (Hb attempt ltac:(lia)) as (_ & H). apply Hrec in H. done.
  - destruct (IH (attempt + 1) (clearActiveRunLocked o)) as [IH1 IH2]; [lia|lia|].
    split; [|right; destruct IH2; done]. rewrite IH1. unfold recovered. split.
    + intros (a & Ha & Hacc & Hb). exists a. split_and!; [lia|lia|done|].
      intros b Hbr. destruct (decide (b = attempt)) as [-> |]; [|apply Hb; lia].
      split; [eauto|tauto].
    + intros (a & Ha & Hacc & Hb). destruct (decide (a = attempt)) as [-> |]; [done|].
      exists a. split_and!; [lia|lia|done|]. intros b Hbr. apply Hb. lia.
Qed.

(** A run starts ([ResumeAllForStart] returns no error) exactly when, in one
    of at most three attempts, every worker accepts the resume within five
    tries and never answers that it was already active; and each attempt before
    it failed with that answer and was followed by a recovery in which every
    worker accepted the stop and two checks in a row found all of them ready
    before the timeout.  Starting leaves the orchestrator as it was, or without
    an active run when a recovery was made. *)
Theorem ResumeAllForStart_spec (resumes : Z -> list (nat -> option string))
    (recoveries : Z -> recovery) (o : Orchestrator) :
  let '(err, o') := ResumeAllForStart resumes recoveries o in
  (err = None <->
   exists a, 1 <= a <= 3 /\ Forall (accepted true 5) (resumes a) /\
     forall b, 1 <= b < a -> recovered (resumes b) (recoveries b)) /\
  (o' = o \/ o' = clearActiveRunLocked o).
Proof.
  pose proof (start_attempts_spec resumes recoveries 3 1 o ltac:(lia) eq_refl) as H.
  unfold ResumeAllForStart. change (Z.to_nat maxRecoveryAttempts) with 3%nat.
  destruct (start_attempts resumes recoveries 3 1 o) as [err o']. exact H.
Qed.
End commands.

(** The share of the worker at position [i]: one more than [p] for the first [r]. *)
Definition share (p r : Z) (k i : nat) (w : Worker) : string * Z :=
  (wk_Address w, if Z.of_nat (k + i) <? r then p + 1 else p).

Lemma shares_cons (p r : Z) (k : nat) (w : Worker) (ws : list Worker) :
  imap (share p r k) (w :: ws) = share p r k 0 w :: imap (share p r (S k)) ws.
Proof.
  rewrite imap_cons. f_equal. apply imap_ext. intros i x _. unfold share, compose.
  rewrite Nat.add_succ_r. done.
Qed.

Lemma shares_sum (p r : Z) (ws : list Worker) (k : nat) :
  zsum (map snd (imap (share p r k) ws)) =
  p * Z.of_nat (length ws) + Z.max 0 (Z.min (r - Z.of_nat k) (Z.of_nat (length ws))).
Proof.
  revert k. induction ws as [|w ws IH]; intros k; [simpl; lia|].
  rewrite shares_cons. cbn [map zsum foldr]. fold (zsum (map snd (imap (share p r (S k)) ws))).
  rewrite IH. unfold share. cbn [snd length]. rewrite Nat.add_0_r.
  destruct (_ <? _) eqn:E; bool_prop; lia.
Qed.

Lemma shares_sorted (p r : Z) (ws : list Worker) (k : nat) :
  StronglySorted (fun a b => b.2 <= a.2 <= b.2 + 1) (imap (share p r k) ws).
Proof.
  revert k. induction ws as [|w ws IH]; intros k; [constructor|].
  rewrite shares_cons. constructor; [apply IH|].
  apply Forall_lookup. intros i x Hx. rewrite list_lookup_imap in Hx.
  apply fmap_Some in Hx as (w' & _ & ->). unfold share. cbn [snd].
  destruct (Z.of_nat (k + 0) <? r) eqn:E1, (Z.of_nat (S k + i) <? r) eqn:E2; bool_prop; lia.
Qed.

(** The VUs of a scaling request are split over the workers, in their order,
    without loss: the targets sum to the requested total and two workers differ
    by at most one, the first ones taking the remainder. *)
Theorem ScaleVUs_split (totalVUs : Z) (o : Orchestrator) :
  0 <= totalVUs -> in_i64 totalVUs -> o_workers o ≠ [] ->
  exists reqs, ScaleVUs totalVUs o = Some reqs /\
    map fst reqs = map wk_Address (o_workers o) /\
    zsum (map snd reqs) = totalVUs /\
    StronglySorted (fun a b => b.2 <= a.2 <= b.2 + 1) reqs.
Proof.
  intros H0 Hi Hne. unfold ScaleVUs.
  set (n := Z.of_nat (length (o_workers o))).
  assert (Hn : 0 < n) by (unfold n; destruct (o_workers o); [done|simpl; lia]).
  pose proof (Z.quot_rem totalVUs n ltac:(lia)) as Hqr.
  pose proof (Z.rem_bound_pos totalVUs n ltac:(lia) Hn) as Hr.
  pose proof (Z.quot_pos totalVUs n ltac:(lia) Hn) as Hp.
  set (p := Z.quot totalVUs n) in *. set (r := Z.rem totalVUs n) in *. clearbody p r.
  replace (n =? 0) with false by (symmetry; apply Z.eqb_neq; lia).
  rewrite (imap_ext _ (share p r 0)); [|intros i w _; unfold share; simpl; f_equal].
  2:{ destruct (_ <? r) eqn:E; [|done]. bool_prop. apply i64_id. assert (2 * p <= n * p) by (apply Z.mul_le_mono_nonneg_r; lia). i64_lia. }
  eexists. split; [done|]. split_and!.
  - change (@map) with (@list_fmap). rewrite (fmap_imap _ fst). apply (imap_const wk_Address).
  - rewrite shares_sum. fold n. lia.
  - apply shares_sorted.
Qed.

Lemma ScaleVUs_split_witness :
  let o := New ["a:1"; "b:1"; "c:1"] Second 0 false "" 0 in
  0 <= 11 /\ ScaleVUs 11 o = Some [("a:1", 4); ("b:1", 4); ("c:1", 3)] /\
  exists reqs, ScaleVUs 11 o = Some reqs /\ zsum (map snd reqs) = 11.
Proof.
  split; [lia|]. split; [vm_compute; reflexivity|].
  destruct (ScaleVUs_split 11 (New ["a:1"; "b:1"; "c:1"] Second 0 false "" 0)) as (reqs & H1 & _ & H2 & _).
  - lia.
  - unfold in_i64, i64_min, i64_max. lia.
  - done.
  - exists reqs. auto.
Defined.

(** The time a recovered worker is given: the fixed timeout if there is one,
    and otherwise between 25 seconds and 2 minutes, whatever the number of
    workers, the attempt and the poll interval (overflow included). *)
Theorem startup_timeout_bounds (attempt : Z) (o : Orchestrator) :
  let timeout := startupReadyTimeoutForAttempt attempt o in
  (0 < o_workerReadyTimeout o -> timeout = o_workerReadyTimeout o) /\
  (o_workerReadyTimeout o <= 0 -> 25 * Second <= timeout <= 2 * Minute).
Proof.
  unfold startupReadyTimeoutForAttempt, Minute, Second. cbv zeta.
  destruct (0 <? o_workerReadyTimeout o) eqn:E; bool_prop; [split; [done|lia]|].
  split; [lia|]. intros _. repeat (destruct (_ <? _) eqn:?; bool_prop); lia.
Qed.
