(* ===== verification/Requests.v ===== *)
(** * Validation of requests: [controller/internal/handler/test.go],
    auth_secret.go and secrets/crypto.go

    The handlers check and normalise a request in place before they use it; a
    function that changes its argument returns the new value.  An [option]
    around a result is a possible panic (see Payload.v). *)

From S2P Require Export Prelude GoStrings GoTime GoFloat Json Url Model Payload Duration.

Open Scope Z_scope.
Open Scope go_scope.

Definition zero_AuthInput : AuthInput := mkAuthInput false "" "" "" "" "" 0 false false.
Definition zero_AuthConfig : AuthConfig := mkAuthConfig false "" "" "" "" 0 "" false "".

(** The token URL is an absolute http or https URL with a host. *)
Definition token_url_ok (raw : string) : bool :=
  match Url.Parse raw with
  | None => false
  | Some u =>
    IsAbs u && (String.eqb (url_Scheme u) "http" || String.eqb (url_Scheme u) "https") &&
    negb (blank (url_Host u))
  end.

Definition normalizeAuthInput (auth : AuthInput) : res AuthInput :=
  let auth := auth <| ai_Mode := trim_space (ai_Mode auth) |>
                   <| ai_TokenURL := trim_space (ai_TokenURL auth) |>
                   <| ai_ClientID := trim_space (ai_ClientID auth) |>
                   <| ai_ClientAuthMethod := trim_space (ai_ClientAuthMethod auth) |> in
  if negb (ai_Enabled auth) then Ok zero_AuthInput
  else
    let auth := if String.eqb (ai_Mode auth) "" then auth <| ai_Mode := "oauth_client_credentials" |>
                else auth in
    if negb (String.eqb (ai_Mode auth) "oauth_client_credentials")
    then Err "auth_mode must be oauth_client_credentials"
    else if String.eqb (ai_TokenURL auth) ""
    then Err "auth_token_url is required when auth_enabled is true"
    else if negb (token_url_ok (ai_TokenURL auth))
    then Err "auth_token_url must be an absolute http or https URL"
    else if String.eqb (ai_ClientID auth) ""
    then Err "auth_client_id is required when auth_enabled is true"
    else
      let auth := if String.eqb (ai_ClientAuthMethod auth) "" then auth <| ai_ClientAuthMethod := "basic" |>
                  else auth in
      if negb (String.eqb (ai_ClientAuthMethod auth) "basic") &&
         negb (String.eqb (ai_ClientAuthMethod auth) "body")
      then Err "auth_client_auth_method must be basic or body"
      else Ok (if ai_RefreshSkewSeconds auth <=? 0 then auth <| ai_RefreshSkewSeconds := 30 |> else auth).

Definition authConfigFromRuntimeInput (input : AuthInput) : AuthConfig :=
  if negb (ai_Enabled input) then zero_AuthConfig
  else
    let cfg := mkAuthConfig true (ai_Mode input) (ai_TokenURL input) (ai_ClientID input)
                 (ai_ClientAuthMethod input) (ai_RefreshSkewSeconds input) "" false "" in
    if negb (String.eqb (ai_ClientSecret input) "")
    then cfg <| ac_SecretSource := "runtime_only" |> <| ac_SecretConfigured := true |>
    else cfg.

Definition authConfigFromStoredInput (input : AuthInput) (existing : option AuthConfig) : AuthConfig :=
  if negb (ai_Enabled input) then zero_AuthConfig
  else
    let cfg := mkAuthConfig true (ai_Mode input) (ai_TokenURL input) (ai_ClientID input)
                 (ai_ClientAuthMethod input) (ai_RefreshSkewSeconds input) "" false "" in
    let cfg := match existing with
               | Some e => cfg <| ac_ClientSecretEncrypted := ac_ClientSecretEncrypted e |>
                               <| ac_SecretSource := ac_SecretSource e |>
                               <| ac_SecretConfigured := ac_SecretConfigured e |>
               | None => cfg
               end in
    let cfg := if ai_ClearSecret input
               then cfg <| ac_ClientSecretEncrypted := "" |> <| ac_SecretSource := "" |>
                        <| ac_SecretConfigured := false |>
               else cfg in
    if negb (String.eqb (ac_ClientSecretEncrypted cfg) "")
    then (if String.eqb (ac_SecretSource cfg) "" then cfg <| ac_SecretSource := "persisted_encrypted" |>
          else cfg) <| ac_SecretConfigured := true |>
    else cfg.

(** ** Stored secrets *)

(** AES-GCM with a random nonce is the environment: the text an encryption
    yields, or its error, is a parameter of the service. *)
Record secrets_Service := mkSecrets { seal : string -> res string }.

Definition Encrypt (s : secrets_Service) (plain : string) : res string :=
  if String.eqb plain "" then Ok "" else seal s plain.

Definition buildStoredAuthConfig (input : AuthInput) (existing : option AuthConfig)
    (secretSvc : option secrets_Service) (requireStoredSecret : bool) : res AuthConfig :=
  let cfg := authConfigFromStoredInput input existing in
  if negb (ac_Enabled cfg) then Ok cfg
  else
    match secretSvc with
    | None => Err "secret encryption service is not configured"
    | Some svc =>
      let secretValue := trim_space (ai_ClientSecret input) in
      let clear (cfg : AuthConfig) := cfg <| ac_ClientSecretEncrypted := "" |>
                     <| ac_SecretConfigured := false |> <| ac_SecretSource := "" |> in
      let cfg := if ai_ClearSecret input then clear cfg else cfg in
      let encrypted :=
        if negb (String.eqb secretValue "") then
          match Encrypt svc secretValue with
          | Err e => Err ("encrypt auth secret: " +:+ e)
          | Ok enc => Ok (cfg <| ac_ClientSecretEncrypted := enc |> <| ac_SecretConfigured := true |>
                              <| ac_SecretSource := "persisted_encrypted" |>)
          end
        else Ok cfg in
      match encrypted with
      | Err e => Err e
      | Ok cfg =>
        let shouldPersist := requireStoredSecret || ai_PersistSecret input in
        let cfg := if negb shouldPersist && String.eqb secretValue "" &&
                      match existing with None => true | Some _ => false end
                   then clear cfg else cfg in
        if requireStoredSecret && String.eqb (ac_ClientSecretEncrypted cfg) ""
        then Err "auth_client_secret is required when auth is enabled"
        else if ai_PersistSecret input && String.eqb (ac_ClientSecretEncrypted cfg) ""
        then Err "auth_client_secret is required when auth_persist_secret is true"
        else Ok cfg
      end
    end.

(** ** Payload fields *)

(** The fields [normalizePayloadFields] may change. *)
Record payload_fields := mkPayloadFields {
  pf_method : string; pf_contentType : string; pf_payloadJSON : string
}.

Section payloads.
Context `{JsonErrors}.

(** A request with these payload fields only. *)
Definition payload_request (method contentType payloadJSON : string) (targetKiB : Z) : TestRequest :=
  mkTestRequest "" "" "" [] 0 "" 0 "" 0 0 None "" "" method contentType payloadJSON targetKiB zero_AuthInput.

Definition normalizePayloadFields (hasScript : bool) (f : payload_fields) (targetKiB : Z)
  : option (res (payload_fields * option BuilderPayloadArtifacts)) :=
  if targetKiB <? 0 then Some (Err "payload_target_kib must be greater than or equal to 0")
  else
    let trimmedPayload := trim_space (pf_payloadJSON f) in
    if hasScript then
      if HasPayloadConfiguration (pf_method f) (pf_contentType f) trimmedPayload targetKiB
      then Some (Err "payload settings are only supported for builder-mode tests")
      else Some (Ok (mkPayloadFields (pf_method f) (pf_contentType f) trimmedPayload, None))
    else
      let normalizedMethod := NormalizeHTTPMethod (pf_method f) in
      let normalizedContentType := NormalizeContentType (pf_contentType f) in
      match BuildBuilderPayloadArtifacts
              (payload_request normalizedMethod normalizedContentType trimmedPayload targetKiB) with
      | None => None
      | Some (Err e) => Some (Err e)
      | Some (Ok artifacts) =>
        Some (Ok (mkPayloadFields normalizedMethod normalizedContentType trimmedPayload, Some artifacts))
      end.

Definition normalizeTestRequestPayload (req : TestRequest)
  : option (res (TestRequest * option BuilderPayloadArtifacts)) :=
  match normalizePayloadFields (negb (String.eqb (tr_ScriptContent req) ""))
          (mkPayloadFields (tr_HTTPMethod req) (tr_ContentType req) (tr_PayloadJSON req))
          (tr_PayloadTargetKiB req) with
  | None => None
  | Some (Err e) => Some (Err e)
  | Some (Ok (f, artifacts)) =>
    Some (Ok (req <| tr_HTTPMethod := pf_method f |> <| tr_ContentType := pf_contentType f |>
                  <| tr_PayloadJSON := pf_payloadJSON f |>, artifacts))
  end.

Definition normalizeScheduleRequestPayload (req : CreateScheduleRequest)
  : option (res CreateScheduleRequest) :=
  match normalizeAuthInput (csr_Auth req) with
  | Err e => Some (Err e)
  | Ok auth =>
    match normalizePayloadFields (negb (String.eqb (csr_ScriptContent req) ""))
            (mkPayloadFields (csr_HTTPMethod req) (csr_ContentType req) (csr_PayloadJSON req))
            (csr_PayloadTargetKiB req) with
    | None => None
    | Some (Err e) => Some (Err e)
    | Some (Ok (f, _)) =>
      Some (Ok (req <| csr_Auth := auth |> <| csr_HTTPMethod := pf_method f |>
                    <| csr_ContentType := pf_contentType f |> <| csr_PayloadJSON := pf_payloadJSON f |>))
    end
  end.

Definition validateExecutionRequest (req : TestRequest) : option (res TestRequest) :=
  let hasScript := negb (String.eqb (tr_ScriptContent req) "") in
  let hasBuilder := negb (String.eqb (tr_URL req) "") in
  if negb hasScript && negb hasBuilder
  then Some (Err "provide either script_content or url (builder)")
  else
    match normalizeAuthInput (tr_Auth req) with
    | Err e => Some (Err e)
    | Ok auth =>
      let req := req <| tr_Auth := auth |> in
      if ai_Enabled auth && blank (ai_ClientSecret auth)
      then Some (Err "auth_client_secret is required when auth_enabled is true")
      else
        match normalizeTestRequestPayload req with
        | None => None
        | Some (Err e) => Some (Err e)
        | Some (Ok (req, _)) => Some (Ok req)
        end
    end.

Definition validateStartRequest (req : TestRequest) : option (res TestRequest) :=
  if String.eqb (tr_ProjectName req) "" then Some (Err "project_name is required")
  else validateExecutionRequest req.
End payloads.

(** ** What is accepted *)

(** No authentication, or a complete configuration. *)
Definition auth_ok (auth : AuthInput) : Prop :=
  auth = zero_AuthInput \/
  (ai_Enabled auth = true /\ ai_Mode auth = "oauth_client_credentials" /\
   token_url_ok (ai_TokenURL auth) = true /\ ai_ClientID auth <> "" /\
   (ai_ClientAuthMethod auth = "basic" \/ ai_ClientAuthMethod auth = "body") /\
   0 < ai_RefreshSkewSeconds auth).

(** One case per test of the function. *)
Ltac split_ifs :=
  repeat match goal with
  | |- context [if negb ?b then _ else _] => destruct b eqn:?; cbn [negb]
  | |- context [if ?b then _ else _] => destruct b eqn:?
  end.

Lemma normalizeAuthInput_ok (auth auth' : AuthInput) :
  normalizeAuthInput auth = Ok auth' ->
  auth_ok auth' /\ trim_space (ai_TokenURL auth') = ai_TokenURL auth' /\
  trim_space (ai_ClientID auth') = ai_ClientID auth'.
Proof.
  unfold normalizeAuthInput, auth_ok. destruct auth as [en mode url client secret meth skew persist clr].
  simpl. split_ifs; simpl; try done.
  all: intros [= <-]; simpl; rewrite ?trim_space_idem; split_and!; try done.
  all: first [by left | right]; simpl in *;
    try match goal with E : negb _ && negb _ = false |- _ => apply andb_false_iff in E as [E | E] end;
    bool_prop; split_and!; auto; lia.
Qed.

Lemma normalizeAuthInput_fixed (auth : AuthInput) :
  auth_ok auth -> trim_space (ai_TokenURL auth) = ai_TokenURL auth ->
  trim_space (ai_ClientID auth) = ai_ClientID auth -> normalizeAuthInput auth = Ok auth.
Proof.
  intros [-> | (He & Hm & Hu & Hc & Ha & Hs)] Tu Tc; [done|].
  destruct auth as [en mode url client secret meth skew persist clr]. simpl in *. subst en mode.
  unfold normalizeAuthInput. simpl. rewrite Tu, Tc, Hu. simpl.
  assert (url <> "") as Hne%String.eqb_neq by (intros ->; done). rewrite Hne.
  apply String.eqb_neq in Hc. rewrite Hc. simpl.
  destruct Ha as [-> | ->]; simpl; rewrite (proj2 (Z.leb_gt skew 0) Hs); done.
Qed.

Lemma ok_pair_inj {A B : Type} (a a' : A) (b b' : B) :
  Some (@Ok (A * B) (a, b)) = Some (Ok (a', b')) -> a = a' /\ b = b'.
Proof. by intros [= -> ->]. Qed.

Lemma content_type_given (contentType : string) : NormalizeContentType contentType <> "".
Proof. unfold NormalizeContentType. by destruct (String.eqb_spec (trim_space contentType) ""). Qed.

Section accepted.
Context `{JsonErrors}.

Lemma BuildBuilder_normal (method contentType payload : string) (target : Z) :
  BuildBuilderPayloadArtifacts (payload_request (NormalizeHTTPMethod (NormalizeHTTPMethod method))
    (NormalizeContentType (NormalizeContentType contentType)) (trim_space (trim_space payload)) target) =
  BuildBuilderPayloadArtifacts (payload_request (NormalizeHTTPMethod method)
    (NormalizeContentType contentType) (trim_space payload) target).
Proof. by rewrite NormalizeHTTPMethod_idem, NormalizeContentType_idem, trim_space_idem. Qed.

Lemma normalizePayloadFields_idem hasScript f f' target arts :
  normalizePayloadFields hasScript f target = Some (Ok (f', arts)) ->
  normalizePayloadFields hasScript f' target = Some (Ok (f', arts)).
Proof.
  unfold normalizePayloadFields. destruct (target <? 0); [discriminate|]. destruct hasScript.
  - destruct (HasPayloadConfiguration _ _ _ _) eqn:E; [discriminate|]. intros [<- <-]%ok_pair_inj. cbn [pf_method pf_contentType pf_payloadJSON].
    by rewrite trim_space_idem, E.
  - destruct (BuildBuilderPayloadArtifacts _) as [[a|]|] eqn:E; [|discriminate|discriminate]. intros [<- <-]%ok_pair_inj. cbn [pf_method pf_contentType pf_payloadJSON].
    by rewrite BuildBuilder_normal, E, NormalizeHTTPMethod_idem, NormalizeContentType_idem, trim_space_idem.
Qed.

(** What the payload fields of an accepted request are. *)
Definition payload_ok (hasScript : bool) (f : payload_fields) (target : Z) : Prop :=
  0 <= target /\
  if hasScript then pf_payloadJSON f = "" /\ target = 0
  else
    pf_method f ∈ ["GET"; "POST"; "PUT"; "PATCH"; "DELETE"] /\ pf_contentType f <> "" /\
    (pf_method f = "GET" -> pf_payloadJSON f = "" /\ payloadTargetBytes target <= 0) /\
    (pf_payloadJSON f <> "" -> unmarshal_any (pf_payloadJSON f) <> None).

Lemma normalizePayloadFields_script f f' target arts :
  normalizePayloadFields true f target = Some (Ok (f', arts)) -> payload_ok true f' target.
Proof.
  unfold normalizePayloadFields, payload_ok. destruct (target <? 0) eqn:Et; [discriminate|].
  apply Z.ltb_ge in Et.
  destruct (HasPayloadConfiguration _ _ _ _) eqn:E; [discriminate|]. intros [<- <-]%ok_pair_inj. split; [lia|]. cbn [pf_method pf_contentType pf_payloadJSON].
  unfold HasPayloadConfiguration, blank in E. rewrite trim_space_idem in E.
  destruct (negb _ || _) eqn:Ep; [discriminate|]. apply orb_false_iff in Ep as [Ep1 Ep2].
  apply negb_false_iff, String.eqb_eq in Ep1. apply Z.ltb_ge in Ep2. split; [done|lia].
Qed.

Lemma allowed_methods (m : string) :
  one_of_strings m ["POST"; "PUT"; "PATCH"; "DELETE"] = true -> m <> "GET".
Proof. intros Hm ->. done. Qed.

(** The artifacts exist only for a known method, and a body only for a method
    that has one. *)
Lemma BuildBuilder_accepts (req : TestRequest) (a : BuilderPayloadArtifacts) :
  BuildBuilderPayloadArtifacts req = Some (Ok a) ->
  let m := NormalizeHTTPMethod (tr_HTTPMethod req) in
  let payload := trim_space (tr_PayloadJSON req) in
  one_of_strings m ["GET"; "POST"; "PUT"; "PATCH"; "DELETE"] = true /\
  (m = "GET" -> payload = "" /\ payloadTargetBytes (tr_PayloadTargetKiB req) <= 0) /\
  (payload <> "" -> unmarshal_any payload <> None).
Proof.
  unfold BuildBuilderPayloadArtifacts. cbv zeta.
  unfold validateBuilderHTTPMethod, MethodAllowsBody. rewrite !NormalizeHTTPMethod_idem.
  generalize (NormalizeHTTPMethod (tr_HTTPMethod req)) as m. generalize (trim_space (tr_PayloadJSON req)) as payload.
  generalize (payloadTargetBytes (tr_PayloadTargetKiB req)) as bytes. intros bytes payload m.
  destruct (one_of_strings m ["GET"; _; _; _; _]); [|discriminate].
  destruct (one_of_strings m ["POST"; _; _; _]) eqn:Hb; cbn [negb].
  - apply allowed_methods in Hb. destruct (String.eqb_spec payload "") as [->|Hp]; cbn [andb].
    + intros _. done.
    + destruct (unmarshal_any payload) as [parsed|] eqn:Eu; [|discriminate]. intros _. split_and!; done.
  - destruct (String.eqb_spec payload "") as [->|Hp]; cbn [negb orb]; [|discriminate].
    destruct (0 <? bytes) eqn:Eb; [discriminate|]. apply Z.ltb_ge in Eb. intros _. split_and!; done.
Qed.

Lemma normalizePayloadFields_builder f f' target arts :
  normalizePayloadFields false f target = Some (Ok (f', arts)) -> payload_ok false f' target.
Proof.
  unfold normalizePayloadFields, payload_ok. destruct (target <? 0) eqn:Et; [discriminate|].
  apply Z.ltb_ge in Et.
  destruct (BuildBuilderPayloadArtifacts _) as [[a|]|] eqn:E; [|discriminate|discriminate].
  intros [<- <-]%ok_pair_inj. split; [lia|].
  apply BuildBuilder_accepts in E. cbn [payload_request tr_HTTPMethod tr_PayloadJSON tr_PayloadTargetKiB] in E.
  rewrite NormalizeHTTPMethod_idem, trim_space_idem in E. destruct E as (E1 & E2 & E3).
  cbn [pf_method pf_contentType pf_payloadJSON]. split_and!; [|apply content_type_given|exact E2|exact E3].
  unfold one_of_strings in E1. apply existsb_exists in E1 as (y & Hin & Hy). apply String.eqb_eq in Hy as ->.
  by apply list_elem_of_In.
Qed.

(** ** Requests to start a test *)

(** What a request to execute a test is after it was accepted. *)
Record accepted_request (req : TestRequest) : Prop := {
  acc_runnable : tr_ScriptContent req <> "" \/ tr_URL req <> "";
  acc_auth : auth_ok (tr_Auth req);
  acc_secret : ai_Enabled (tr_Auth req) = true -> blank (ai_ClientSecret (tr_Auth req)) = false;
  acc_payload : payload_ok (negb (String.eqb (tr_ScriptContent req) ""))
    (mkPayloadFields (tr_HTTPMethod req) (tr_ContentType req) (tr_PayloadJSON req)) (tr_PayloadTargetKiB req)
}.

Lemma normalizeTestRequestPayload_fixed (req req' : TestRequest) arts :
  normalizeTestRequestPayload req = Some (Ok (req', arts)) ->
  normalizeTestRequestPayload req' = Some (Ok (req', arts)) /\
  payload_ok (negb (String.eqb (tr_ScriptContent req') ""))
    (mkPayloadFields (tr_HTTPMethod req') (tr_ContentType req') (tr_PayloadJSON req')) (tr_PayloadTargetKiB req') /\
  tr_ScriptContent req' = tr_ScriptContent req /\ tr_URL req' = tr_URL req /\ tr_Auth req' = tr_Auth req /\
  tr_ProjectName req' = tr_ProjectName req.
Proof.
  unfold normalizeTestRequestPayload.
  destruct (normalizePayloadFields _ _ _) as [[[[m ct pl] ar]|]|] eqn:E; [|discriminate|discriminate].
  intros [<- <-]%ok_pair_inj. destruct req. cbn in E |- *.
  pose proof (normalizePayloadFields_idem _ _ _ _ _ E) as ->. split_and!; try reflexivity.
  revert E. destruct (negb _); [apply normalizePayloadFields_script|apply normalizePayloadFields_builder].
Qed.

(** A request that is accepted for execution has something to run, complete
    authentication with its secret or none, and payload settings that fit it: none
    with a script, else a known method, a content type, no body for a GET, and a
    payload that is JSON.  Accepted requests are normal: to check one again, as
    happens when a stored schedule comes up for execution, accepts and returns
    it unchanged. *)
Theorem validateExecutionRequest_spec (req req' : TestRequest) :
  validateExecutionRequest req = Some (Ok req') ->
  accepted_request req' /\ validateExecutionRequest req' = Some (Ok req').
Proof.
  unfold validateExecutionRequest.
  destruct (negb _ && negb _) eqn:Er; [discriminate|].
  destruct (normalizeAuthInput (tr_Auth req)) as [auth|] eqn:Ea; [|discriminate].
  apply normalizeAuthInput_ok in Ea as (A1 & A2 & A3).
  set (req1 := req <| tr_Auth := auth |>).
  destruct (ai_Enabled auth && blank (ai_ClientSecret auth)) eqn:Es; [discriminate|].
  destruct (normalizeTestRequestPayload req1) as [[[r arts]|]|] eqn:Ep; [|discriminate|discriminate].
  intros Hr. assert (r = req') as -> by congruence. clear Hr.
  apply normalizeTestRequestPayload_fixed in Ep as (P1 & P2 & P3 & P4 & P5 & _).
  change (tr_ScriptContent req1) with (tr_ScriptContent req) in P3.
  change (tr_URL req1) with (tr_URL req) in P4. change (tr_Auth req1) with auth in P5.
  split.
  - split; [|by rewrite P5| |exact P2].
    + rewrite P3, P4. apply andb_false_iff in Er.
      destruct Er as [Er | Er]; apply negb_false_iff, negb_true_iff, String.eqb_neq in Er; auto.
    + rewrite P5. intros He. rewrite He in Es. exact Es.
  - rewrite P3, P4, Er, P5, (normalizeAuthInput_fixed auth A1 A2 A3), Es.
    replace (req' <| tr_Auth := auth |>) with req' by (rewrite <- P5; by destruct req'). by rewrite P1.
Qed.
End accepted.

Lemma validateExecutionRequest_spec_witness :
  let req := (payload_request " post " "" " {} " 0) <| tr_URL := "http://target" |> in
  let req' := (payload_request "POST" "application/json" "{}" 0) <| tr_URL := "http://target" |> in
  @validateExecutionRequest (fun _ => "") req = Some (Ok req') /\ accepted_request req'.
Proof.
  split; [vm_compute; reflexivity|].
  refine (proj1 (@validateExecutionRequest_spec (fun _ => "")
    ((payload_request " post " "" " {} " 0) <| tr_URL := "http://target" |>) _ _)).
  vm_compute. reflexivity.
Defined.
