(* ===== verification/Results.v ===== *)
(** * The result of a test

    What the controller stores of a completed test: the structs of
    [controller/internal/model/model.go] for results, and the functions of
    [handler/test.go], [handler/auth_summary_metadata.go] and
    [handler/result.go] that fill in the metadata. *)

From S2P Require Export Prelude GoStrings GoTime GoFloat Json Url Model Payload Summary.
From S2P Require Export Requests Orchestrator.

Open Scope Z_scope.
Open Scope go_scope.

(** ** Data *)

Record MetricQualityFlag := mkFlag {
  mq_Key : string; mq_Status : string; mq_Source : string; mq_Scope : string;
  mq_ApproximationReason : string
}.

Record MetricCounter := mkCounter { mc_Count : float64; mc_Rate : float64 }.

Record CheckMetrics := mkChecks {
  ck_Passes : float64; ck_Fails : float64; ck_PassRate : float64; ck_FailRate : float64
}.

Record HTTPMetricsBlock := mkHTTP {
  hm_Requests : float64; hm_RPS : float64; hm_Successes : float64; hm_Failures : float64;
  hm_SuccessRate : float64; hm_ErrorRate : float64; hm_Status2xx : float64; hm_Status4xx : float64;
  hm_Status5xx : float64; hm_OtherFailures : float64; hm_NetworkErrors : float64;
  hm_DataReceivedBytes : float64; hm_DataSentBytes : float64
}.

Definition zero_HTTP : HTTPMetricsBlock :=
  mkHTTP f_zero f_zero f_zero f_zero f_zero f_zero f_zero f_zero f_zero f_zero f_zero f_zero f_zero.

#[export] Instance eta_HTTPMetricsBlock : Eta HTTPMetricsBlock := fun h =>
  mkHTTP (hm_Requests h) (hm_RPS h) (hm_Successes h) (hm_Failures h) (hm_SuccessRate h) (hm_ErrorRate h)
    (hm_Status2xx h) (hm_Status4xx h) (hm_Status5xx h) (hm_OtherFailures h) (hm_NetworkErrors h)
    (hm_DataReceivedBytes h) (hm_DataSentBytes h).

Record LatencyMetricBlock := mkLatencyBlock {
  lm_Metric : string; lm_Scope : string; lm_AvgMs : float64; lm_MedMs : float64; lm_P90Ms : float64;
  lm_P95Ms : float64; lm_P99Ms : float64; lm_MinMs : float64; lm_MaxMs : float64
}.

Record BreakdownMetricBlock := mkBreakdownBlock {
  bm_AvgMs : float64; bm_P95Ms : float64; bm_P99Ms : float64; bm_MaxMs : float64
}.

Record LatencyBreakdownBlock := mkLatencyBreakdown {
  lb_Blocked : BreakdownMetricBlock; lb_Waiting : BreakdownMetricBlock;
  lb_Sending : BreakdownMetricBlock; lb_Receiving : BreakdownMetricBlock;
  lb_Connecting : BreakdownMetricBlock; lb_TLSHandshaking : BreakdownMetricBlock
}.

Record WorkerMetricsV2 := mkWorkerV2 {
  wv_Address : string; wv_Status : string; wv_Error : string; wv_Requests : float64;
  wv_BusinessRequests : float64; wv_AuxiliaryRequests : float64; wv_AvgLatencyMs : float64;
  wv_P95LatencyMs : float64; wv_P99LatencyMs : float64; wv_ErrorRate : float64; wv_ActiveDurationS : float64
}.

Record MetricsV2 := mkMetricsV2 {
  v2_HTTPTotal : HTTPMetricsBlock;
  v2_HTTPBusiness : HTTPMetricsBlock;
  v2_HTTPAuxiliary : HTTPMetricsBlock;
  v2_Iterations : MetricCounter;
  v2_Checks : CheckMetrics;
  v2_PrimaryLatency : LatencyMetricBlock;
  v2_LatencyBreakdown : option LatencyBreakdownBlock;
  v2_Workers : list WorkerMetricsV2;
  v2_Thresholds : list ThresholdResult;
  v2_QualityFlags : list MetricQualityFlag
}.

#[export] Instance eta_MetricsV2 : Eta MetricsV2 := fun m =>
  mkMetricsV2 (v2_HTTPTotal m) (v2_HTTPBusiness m) (v2_HTTPAuxiliary m) (v2_Iterations m) (v2_Checks m)
    (v2_PrimaryLatency m) (v2_LatencyBreakdown m) (v2_Workers m) (v2_Thresholds m) (v2_QualityFlags m).

(** A nil slice and an empty one differ in [reflect.DeepEqual]; nothing is the
    nil slice. *)
Record ArtifactCollectionMetadata := mkCollection {
  ac_Status : string;
  ac_ExpectedWorkerCount : Z;
  ac_ReceivedWorkerSummaryCount : Z;
  ac_MissingWorkers : option (list string)
}.

#[export] Instance collection_eq_dec : EqDecision ArtifactCollectionMetadata.
Proof. solve_decision. Defined.

Record PayloadMetadata := mkPayloadMeta {
  pm_HTTPMethod : string; pm_ContentType : string; pm_TargetBytes : Z; pm_TargetKiB : float64;
  pm_TargetKB : float64; pm_ActualBytes : Z; pm_ActualKiB : float64; pm_ActualKB : float64
}.

#[export] Instance eta_PayloadMetadata : Eta PayloadMetadata := fun p =>
  mkPayloadMeta (pm_HTTPMethod p) (pm_ContentType p) (pm_TargetBytes p) (pm_TargetKiB p) (pm_TargetKB p)
    (pm_ActualBytes p) (pm_ActualKiB p) (pm_ActualKB p).

Record AuthMetadata := mkAuthMeta {
  amd_Mode : string; amd_TokenURL : string; amd_ClientAuthMethod : string; amd_RefreshSkewSeconds : Z;
  amd_SecretSource : string; amd_MetricsStatus : string; amd_MetricsMessage : string;
  amd_Metrics : option AuthRuntimeMetrics
}.

#[export] Instance eta_AuthMetadata : Eta AuthMetadata := fun a =>
  mkAuthMeta (amd_Mode a) (amd_TokenURL a) (amd_ClientAuthMethod a) (amd_RefreshSkewSeconds a)
    (amd_SecretSource a) (amd_MetricsStatus a) (amd_MetricsMessage a) (amd_Metrics a).

Record TestMetadata := mkTestMeta {
  md_StartedAt : Time;
  md_EndedAt : Time;
  md_DurationS : float64;
  md_WorkerCount : Z;
  md_ArtifactCollection : option ArtifactCollectionMetadata;
  md_Stages : list Stage;
  md_ScriptURL : string;
  md_Payload : option PayloadMetadata;
  md_Auth : option AuthMetadata
}.

#[export] Instance eta_TestMetadata : Eta TestMetadata := fun m =>
  mkTestMeta (md_StartedAt m) (md_EndedAt m) (md_DurationS m) (md_WorkerCount m) (md_ArtifactCollection m)
    (md_Stages m) (md_ScriptURL m) (md_Payload m) (md_Auth m).

Definition zero_TestMetadata : TestMetadata :=
  mkTestMeta zero_time zero_time f_zero 0 None [] "" None None.

Record TestResult := mkTestResult {
  res_ID : string;
  res_ProjectName : string;
  res_URL : string;
  res_Status : string;
  res_Metrics : option AggregatedMetrics;
  res_MetricsV2 : option MetricsV2;
  res_TimeSeries : list TimePoint;
  res_Metadata : option TestMetadata;
  res_Warnings : list ConflictWarning;
  res_SummaryContent : string;
  res_AuthSummaryContent : string;
  res_CreatedAt : Time;
  res_Username : string
}.

#[export] Instance eta_TestResult : Eta TestResult := fun r =>
  mkTestResult (res_ID r) (res_ProjectName r) (res_URL r) (res_Status r) (res_Metrics r) (res_MetricsV2 r)
    (res_TimeSeries r) (res_Metadata r) (res_Warnings r) (res_SummaryContent r) (res_AuthSummaryContent r)
    (res_CreatedAt r) (res_Username r).

(** ** Authentication in the metadata *)

(** What is left of a URL that does not parse. *)
Definition strip_malformed (trimmed : string) : string :=
  let trimmed := (cut (chr 63) (cut (chr 35) trimmed).1).1 in
  match String.index 0 "://" trimmed with
  | Some schemeIdx =>
    let prefix := String.substring 0 (schemeIdx + 3) trimmed in
    let rest := String.substring (schemeIdx + 3) (String.length trimmed) trimmed in
    match split_at_last (chr 64) rest with
    | Some (_, host) => prefix +:+ host
    | None => trimmed
    end
  | None => trimmed
  end.

Definition normalizeAuthTokenURL (raw : string) : string :=
  let trimmed := trim_space raw in
  if String.eqb trimmed "" then ""
  else match Url.Parse trimmed with
       | Some parsed => stripped_String parsed
       | None => strip_malformed trimmed
       end.

Definition newAuthMetadata (authCfg : AuthConfig) : option AuthMetadata :=
  if negb (ac_Enabled authCfg) then None
  else Some (mkAuthMeta (ac_Mode authCfg) (normalizeAuthTokenURL (ac_TokenURL authCfg))
               (ac_ClientAuthMethod authCfg) (ac_RefreshSkewSeconds authCfg) (ac_SecretSource authCfg) "" "" None).

Definition auth_configured (auth : AuthMetadata) : bool :=
  negb (String.eqb (amd_Mode auth) "") || negb (String.eqb (amd_TokenURL auth) "") ||
  negb (String.eqb (amd_ClientAuthMethod auth) "") || negb (String.eqb (amd_SecretSource auth) "") ||
  (0 <? amd_RefreshSkewSeconds auth).

Definition hasConfiguredAuth (metadata : option TestMetadata) : bool :=
  match m ← metadata; md_Auth m with Some auth => auth_configured auth | None => false end.

Definition apply_auth_summary (authSummary : AuthSummaryData) (auth : AuthMetadata) : AuthMetadata :=
  auth <| amd_Mode := first_given (amd_Mode auth) (au_Mode authSummary) |>
       <| amd_TokenURL := first_given (amd_TokenURL auth) (normalizeAuthTokenURL (au_TokenURL authSummary)) |>
       <| amd_ClientAuthMethod := first_given (amd_ClientAuthMethod auth) (au_ClientAuthMethod authSummary) |>
       <| amd_RefreshSkewSeconds := if amd_RefreshSkewSeconds auth =? 0 then au_RefreshSkewSeconds authSummary
                                    else amd_RefreshSkewSeconds auth |>
       <| amd_MetricsStatus := first_given (amd_MetricsStatus auth)
            (if negb (String.eqb (au_Status authSummary) "") then au_Status authSummary else "complete") |>
       <| amd_MetricsMessage := first_given (amd_MetricsMessage auth) (au_Message authSummary) |>
       <| amd_Metrics := Some (au_Metrics authSummary) |>.

Definition applyAuthSummaryToMetadata (metadata : TestMetadata) (authSummary : option AuthSummaryData)
  : TestMetadata :=
  match authSummary with
  | Some summary =>
    if hasConfiguredAuth (Some metadata)
    then metadata <| md_Auth := apply_auth_summary summary <$> md_Auth metadata |> else metadata
  | None => metadata
  end.

Definition hydrateAuthMetadataFromRawSummary (metadata : option TestMetadata) (rawAuthSummary : string)
  : option TestMetadata :=
  if blank rawAuthSummary || negb (hasConfiguredAuth metadata) then metadata
  else match ParseRawAuthSummaryContent rawAuthSummary with
       | Err _ => metadata
       | Ok authSummary => (fun m => applyAuthSummaryToMetadata m (Some authSummary)) <$> metadata
       end.

Definition markAuthMetricsUnavailable (metadata : TestMetadata) : TestMetadata :=
  match md_Auth metadata with
  | Some auth =>
    match amd_Metrics auth with
    | Some _ => metadata
    | None =>
      metadata <| md_Auth := Some
        (auth <| amd_MetricsStatus := first_given (amd_MetricsStatus auth) "unavailable" |>
              <| amd_MetricsMessage := first_given (amd_MetricsMessage auth)
                   "Authentication was configured for this run, but no auth summary artifact was produced." |>) |>
    end
  | None => metadata
  end.

(** ** Payload in the metadata *)

Definition newPayloadMetadata (payload : option BuilderPayloadArtifacts) : option PayloadMetadata :=
  (fun p => mkPayloadMeta (pa_HTTPMethod p) (pa_ContentType p) (pa_TargetBytes p) (pa_TargetKiB p)
              (pa_TargetKB p) (pa_ActualBytes p) (pa_ActualKiB p) (pa_ActualKB p)) <$> payload.

Definition refresh_payload (payloadContent : string) (p : PayloadMetadata) : PayloadMetadata :=
  if String.eqb payloadContent "" then
    if pm_TargetBytes p =? 0
    then p <| pm_ActualBytes := 0 |> <| pm_ActualKiB := f_zero |> <| pm_ActualKB := f_zero |> else p
  else
    let actualBytes := str_len payloadContent in
    p <| pm_ActualBytes := actualBytes |> <| pm_ActualKiB := f_div (f_of_Z actualBytes) (f_of_Z 1024) |>
      <| pm_ActualKB := f_div (f_of_Z actualBytes) (f_of_Z 1000) |>.

Definition refreshPayloadMetadata (metadata : TestMetadata) (payloadContent : string) : TestMetadata :=
  metadata <| md_Payload := refresh_payload payloadContent <$> md_Payload metadata |>.

(** ** Collected artifacts *)

Definition newTestMetadata (startTime endTime : Time) (workerNames : list string) : TestMetadata :=
  let missingWorkers := List.filter (fun name => negb (blank name)) workerNames in
  let n := Z.of_nat (length workerNames) in
  zero_TestMetadata <| md_StartedAt := startTime |> <| md_EndedAt := endTime |>
    <| md_DurationS := duration_seconds (sub endTime startTime) |> <| md_WorkerCount := n |>
    <| md_ArtifactCollection := Some (mkCollection "missing" n 0 (Some missingWorkers)) |>.

Definition artifactCollectionReason (collection : ArtifactCollectionMetadata) : string :=
  let expected := ac_ExpectedWorkerCount collection in
  if String.eqb (ac_Status collection) "complete"
  then "Received worker summaries for all " +:+ itoa expected +:+ " expected workers."
  else if String.eqb (ac_Status collection) "partial" then
    let reason := "Received " +:+ itoa (ac_ReceivedWorkerSummaryCount collection) +:+ " of " +:+
                  itoa expected +:+ " expected worker summaries." in
    match default [] (ac_MissingWorkers collection) with
    | [] => reason
    | missing => reason +:+ " Missing workers: " +:+ GoStrings.join ", " missing +:+ "."
    end
  else if String.eqb (ac_Status collection) "missing" then
    if 0 <? expected
    then "No worker summary artifacts were collected for " +:+ itoa expected +:+ " expected workers."
    else "No worker summary artifacts were collected before result persistence."
  else "".

Definition classifyArtifactCollection (expectedWorkers : list string) (merged : option MergedSummaryMetrics)
  : ArtifactCollectionMetadata :=
  let workers := match merged with Some m => ms_Workers m | None => [] end in
  let receivedCount := Z.of_nat (length workers) in
  let receivedNames := List.filter (fun name => negb (String.eqb name ""))
                         (map (fun w => trim_space (ws_Name w)) workers) in
  let expectedCount :=
    match expectedWorkers, merged with
    | [], Some m => ms_RawWorkerCount m
    | _, _ => Z.of_nat (length expectedWorkers)
    end in
  let missingWorkers :=
    List.filter (fun worker => negb (String.eqb worker "") && negb (bool_decide (worker ∈ receivedNames)))
      (map trim_space expectedWorkers) in
  let status :=
    if (expectedCount =? 0) && (0 <? receivedCount) then "complete"
    else if receivedCount <=? 0 then "missing"
    else if (0 <? expectedCount) && (expectedCount <=? receivedCount) &&
            match missingWorkers with [] => true | _ => false end then "complete"
    else "partial" in
  mkCollection status expectedCount receivedCount (Some missingWorkers).

(** ** Latencies of a stored result *)

Definition clampLatencyValue (v : float64) : float64 :=
  if is_nan v || is_inf v || f_lt v f_zero then f_zero else v.

Definition normalizeResultMetrics (m : AggregatedMetrics) : AggregatedMetrics :=
  m <| agg_AvgLatency := clampLatencyValue (agg_AvgLatency m) |>
    <| agg_MedLatency := clampLatencyValue (agg_MedLatency m) |>
    <| agg_P90Latency := clampLatencyValue (agg_P90Latency m) |>
    <| agg_P95Latency := clampLatencyValue (agg_P95Latency m) |>
    <| agg_P99Latency := clampLatencyValue (agg_P99Latency m) |>
    <| agg_MinLatency := clampLatencyValue (agg_MinLatency m) |>
    <| agg_MaxLatency := clampLatencyValue (agg_MaxLatency m) |>
    <| agg_Workers := map (fun w => w <| wm_AvgLatency := clampLatencyValue (wm_AvgLatency w) |>) (agg_Workers m) |>.
