(* ===== verification/MetricsV2.v ===== *)
(** * The metrics of a result: [controller/internal/handler/metrics_v2.go]

    The second format of the metrics is computed from three sources: the last
    live aggregate ("legacy"), the text of the workers' summaries and the
    metadata of the run.  Each part of the answer carries a quality flag that
    says which source it came from. *)

From S2P Require Export Prelude GoStrings GoFloat Model Summary Results.

Open Scope Z_scope.
Open Scope go_scope.

(** ** Rates *)

Definition safeRate (successes total : float64) : float64 * float64 :=
  if f_le total f_zero then (f_zero, f_zero)
  else
    let successRate := f_div successes total in
    (successRate, f_sub f_one successRate).

Definition rateFromDuration (count : float64) (metadata : option TestMetadata) : float64 :=
  match metadata with
  | Some m => if f_le (md_DurationS m) f_zero then f_zero else f_div count (md_DurationS m)
  | None => f_zero
  end.

(** [math.Max(x, 0)]. *)
Definition math_Max0 (x : float64) : float64 :=
  if is_nan x then x else if f_lt f_zero x then x else f_zero.

(** ** Quality flags *)

Definition metricQuality (key status source scope reason : string) : MetricQualityFlag :=
  mkFlag key status source scope reason.

Fixpoint upsertMetricQuality (flags : list MetricQualityFlag) (flag : MetricQualityFlag)
  : list MetricQualityFlag :=
  match flags with
  | [] => [flag]
  | f :: flags' =>
    if String.eqb (mq_Key f) (mq_Key flag) then flag :: flags' else f :: upsertMetricQuality flags' flag
  end.

(** ** Latency blocks *)

Definition sanitizedLatencyBlock (metric scope : string) (stats : SummaryLatencyStats) : LatencyMetricBlock :=
  mkLatencyBlock metric scope (clampLatencyValue (sl_Avg stats)) (clampLatencyValue (sl_Med stats))
    (clampLatencyValue (sl_P90 stats)) (clampLatencyValue (sl_P95 stats)) (clampLatencyValue (sl_P99 stats))
    (clampLatencyValue (sl_Min stats)) (clampLatencyValue (sl_Max stats)).

Definition sanitizedLegacyLatencyBlock (metric scope : string) (metrics : option AggregatedMetrics)
  : LatencyMetricBlock :=
  match metrics with
  | None => mkLatencyBlock metric scope f_zero f_zero f_zero f_zero f_zero f_zero f_zero
  | Some m =>
    mkLatencyBlock metric scope (clampLatencyValue (agg_AvgLatency m)) (clampLatencyValue (agg_MedLatency m))
      (clampLatencyValue (agg_P90Latency m)) (clampLatencyValue (agg_P95Latency m))
      (clampLatencyValue (agg_P99Latency m)) (clampLatencyValue (agg_MinLatency m))
      (clampLatencyValue (agg_MaxLatency m))
  end.

Definition sanitizedBreakdownMetric (stats : SummaryLatencyStats) : BreakdownMetricBlock :=
  mkBreakdownBlock (clampLatencyValue (sl_Avg stats)) (clampLatencyValue (sl_P95 stats))
    (clampLatencyValue (sl_P99 stats)) (clampLatencyValue (sl_Max stats)).

(** ** Parts *)

Definition buildCheckMetrics (summary : option MergedSummaryMetrics) : CheckMetrics :=
  let none := mkChecks f_zero f_zero f_zero f_zero in
  match summary with
  | None => none
  | Some s =>
    let total := f_add (ms_ChecksPasses s) (ms_ChecksFails s) in
    if f_le total f_zero then none
    else mkChecks (ms_ChecksPasses s) (ms_ChecksFails s) (f_div (ms_ChecksPasses s) total)
           (f_div (ms_ChecksFails s) total)
  end.

Definition selectWorkerAuxiliaryRequests (worker : WorkerSummaryMetrics) : float64 :=
  let derived := max0 (f_sub (ws_Requests worker) (ws_BusinessRequests worker)) in
  if f_lt f_zero derived then derived else max0 (ws_AuthRequests worker).

Definition selectWorkerLatency (worker : WorkerSummaryMetrics) (key : string) : float64 :=
  let source := if f_le (ws_BusinessRequests worker) f_zero then ws_Latency worker
                else ws_BusinessLatency worker in
  if String.eqb key "avg" then sl_Avg source
  else if String.eqb key "p95" then sl_P95 source
  else if String.eqb key "p99" then sl_P99 source
  else sl_Avg source.

Definition worker_v2 (legacy : option WorkerMetrics) (worker : WorkerSummaryMetrics) : WorkerMetricsV2 :=
  let '(address, status, errMsg) :=
    match legacy with
    | Some l =>
      (if negb (String.eqb (wm_Address l) "") then wm_Address l else ws_Name worker,
       if negb (String.eqb (wm_Status l) "") then wm_Status l else "ok", wm_Error l)
    | None => (ws_Name worker, "ok", "")
    end in
  mkWorkerV2 address status errMsg (ws_Requests worker) (ws_BusinessRequests worker)
    (selectWorkerAuxiliaryRequests worker)
    (clampLatencyValue (selectWorkerLatency worker "avg"))
    (clampLatencyValue (selectWorkerLatency worker "p95"))
    (clampLatencyValue (selectWorkerLatency worker "p99"))
    (math_Max0 (ws_ErrorRate worker)) (f_div (ws_DurationMs worker) (f_of_Z 1000)).

Definition buildWorkerMetricsV2 (summary : option MergedSummaryMetrics) (legacy : option AggregatedMetrics)
  : list WorkerMetricsV2 :=
  match summary with
  | None => []
  | Some s => imap (fun idx worker => worker_v2 (l ← legacy; agg_Workers l !! idx) worker) (ms_Workers s)
  end.

Definition authHTTPMetrics (metadata : option TestMetadata) : HTTPMetricsBlock * bool :=
  match m ← metadata; a ← md_Auth m; amd_Metrics a with
  | None => (zero_HTTP, false)
  | Some auth =>
    let requests := ar_TokenRequestsTotal auth in
    let '(successRate, errorRate) := safeRate (ar_TokenSuccessTotal auth) requests in
    (zero_HTTP <| hm_Requests := requests |> <| hm_Successes := ar_TokenSuccessTotal auth |>
       <| hm_Failures := ar_TokenFailureTotal auth |> <| hm_SuccessRate := successRate |>
       <| hm_ErrorRate := errorRate |>,
     f_lt f_zero requests || f_lt f_zero (ar_TokenFailureTotal auth))
  end.

Definition derivedAuxiliaryHTTPMetrics (total business : HTTPMetricsBlock) (metadata : option TestMetadata)
  : HTTPMetricsBlock * bool :=
  let requests := max0 (f_sub (hm_Requests total) (hm_Requests business)) in
  let successes := max0 (f_sub (hm_Successes total) (hm_Successes business)) in
  let failures := max0 (f_sub (hm_Failures total) (hm_Failures business)) in
  let status4xx := max0 (f_sub (hm_Status4xx total) (hm_Status4xx business)) in
  let status5xx := max0 (f_sub (hm_Status5xx total) (hm_Status5xx business)) in
  if f_le requests f_zero && f_le successes f_zero && f_le failures f_zero then (zero_HTTP, false)
  else
    let '(successRate, errorRate) := safeRate successes requests in
    (zero_HTTP <| hm_Requests := requests |> <| hm_RPS := rateFromDuration requests metadata |>
       <| hm_Successes := successes |> <| hm_Failures := failures |> <| hm_SuccessRate := successRate |>
       <| hm_ErrorRate := errorRate |> <| hm_Status4xx := status4xx |> <| hm_Status5xx := status5xx |>
       <| hm_OtherFailures := max0 (f_sub (f_sub failures status4xx) status5xx) |>, true).

(** ** The result and its quality flags, part by part *)

Definition zero_latency_block : LatencyMetricBlock :=
  mkLatencyBlock "" "" f_zero f_zero f_zero f_zero f_zero f_zero f_zero.

Definition zero_MetricsV2 : MetricsV2 :=
  mkMetricsV2 zero_HTTP zero_HTTP zero_HTTP (mkCounter f_zero f_zero)
    (mkChecks f_zero f_zero f_zero f_zero) zero_latency_block None [] [] [].

Definition flagged : Type := MetricsV2 * list MetricQualityFlag.

(** The last live aggregate. *)
Definition legacy_part (legacy : option AggregatedMetrics) (metadata : option TestMetadata) (s : flagged)
  : flagged :=
  match legacy with
  | None => s
  | Some l =>
    let '(result, quality) := s in
    (result
      <| v2_HTTPTotal := mkHTTP (agg_TotalRequests l) (agg_RPS l) (agg_HTTPSuccesses l) (agg_HTTPFailures l)
           (agg_SuccessRate l) (agg_ErrorRate l) f_zero (agg_Status4xx l) (agg_Status5xx l)
           (max0 (f_sub (f_sub (agg_HTTPFailures l) (agg_Status4xx l)) (agg_Status5xx l))) f_zero
           (agg_DataReceived l) (agg_DataSent l) |>
      <| v2_Iterations := mkCounter (agg_Iterations l) (rateFromDuration (agg_Iterations l) metadata) |>
      <| v2_PrimaryLatency := sanitizedLegacyLatencyBlock "http_req_duration" "http_total" legacy |>
      <| v2_Thresholds := v2_Thresholds result ++ agg_Thresholds l |>,
     upsertMetricQuality quality (metricQuality "http_total" "legacy" "legacy_result_metrics" "global"
       "Final total HTTP metrics currently fall back to the stored live snapshot because no parsed summary total has been applied yet."))
  end.

(** The summaries of the workers: the requests of the test itself. *)
Definition business_part (ms : MergedSummaryMetrics) (metadata : option TestMetadata) (s : flagged) : flagged :=
  if negb (f_lt f_zero (ms_BusinessRequests ms)) then s
  else
    let '(result, quality) := s in
    let '(successRate, errorRate) := safeRate (ms_BusinessSuccesses ms) (ms_BusinessRequests ms) in
    let result := result
      <| v2_HTTPBusiness := mkHTTP (ms_BusinessRequests ms) (rateFromDuration (ms_BusinessRequests ms) metadata)
           (ms_BusinessSuccesses ms) (ms_BusinessFailures ms) successRate errorRate
           (ms_BusinessStatus2xx ms) (ms_BusinessStatus4xx ms) (ms_BusinessStatus5xx ms)
           (max0 (f_sub (f_sub (f_sub (ms_BusinessFailures ms) (ms_BusinessStatus4xx ms))
                    (ms_BusinessStatus5xx ms)) (ms_BusinessTransportFailures ms)))
           (ms_BusinessTransportFailures ms) f_zero f_zero |>
      <| v2_PrimaryLatency := sanitizedLatencyBlock "business_http_duration_ms" "http_business"
           (ms_BusinessLatency ms) |> in
    let quality := upsertMetricQuality quality
      (metricQuality "http_business" "exact" "summary_custom_business_counters" "global" "") in
    let quality := upsertMetricQuality quality
      (metricQuality "latency_primary" "approximate" "summary_weighted_worker_percentiles" "global"
         "Global percentiles are reconstructed from per-worker handleSummary trend values.") in
    match ms_BusinessBreakdown ms with
    | None => (result, quality)
    | Some b =>
      (result <| v2_LatencyBreakdown := Some (mkLatencyBreakdown
           (sanitizedBreakdownMetric (sb_Blocked b)) (sanitizedBreakdownMetric (sb_Waiting b))
           (sanitizedBreakdownMetric (sb_Sending b)) (sanitizedBreakdownMetric (sb_Receiving b))
           (sanitizedBreakdownMetric (sb_Connecting b)) (sanitizedBreakdownMetric (sb_TLSHandshaking b))) |>,
       upsertMetricQuality quality
         (metricQuality "latency_breakdown" "approximate" "summary_weighted_worker_percentiles" "global"
            "Latency breakdown percentiles are reconstructed from per-worker trend summaries."))
    end.

(** The summaries of the workers. *)
Definition summaries_part (mergedSummary : option MergedSummaryMetrics) (legacy : option AggregatedMetrics)
    (metadata : option TestMetadata) (s : flagged) : flagged :=
  match mergedSummary with
  | None => s
  | Some ms =>
    let '(result, quality) := s in
    let '(totalSuccessRate, totalErrorRate) := safeRate (ms_TotalSuccesses ms) (ms_TotalRequests ms) in
    let result := result
      <| v2_HTTPTotal := mkHTTP (ms_TotalRequests ms) (rateFromDuration (ms_TotalRequests ms) metadata)
           (ms_TotalSuccesses ms) (ms_TotalFailures ms) totalSuccessRate totalErrorRate f_zero
           (ms_TotalStatus4xx ms) (ms_TotalStatus5xx ms)
           (max0 (f_sub (f_sub (ms_TotalFailures ms) (ms_TotalStatus4xx ms)) (ms_TotalStatus5xx ms))) f_zero
           (hm_DataReceivedBytes (v2_HTTPTotal result)) (hm_DataSentBytes (v2_HTTPTotal result)) |>
      <| v2_Iterations := mkCounter (ms_Iterations ms) (rateFromDuration (ms_Iterations ms) metadata) |>
      <| v2_Checks := buildCheckMetrics (Some ms) |>
      <| v2_Workers := buildWorkerMetricsV2 (Some ms) legacy |>
      <| v2_Thresholds := match v2_Thresholds result with [] => ms_Thresholds ms | ts => ts end |> in
    let quality := upsertMetricQuality quality
      (metricQuality "http_total" "exact" "summary_http_reqs" "global" "") in
    business_part ms metadata (result, quality)
  end.

(** Requests that are not of the test itself. *)
Definition auxiliary_part (mergedSummary : option MergedSummaryMetrics) (metadata : option TestMetadata)
    (s : flagged) : flagged :=
  let '(result, quality) := s in
  if match mergedSummary with Some ms => ms_HasBusinessMetrics ms | None => false end then
    let '(auxMetrics, hasAux) :=
      derivedAuxiliaryHTTPMetrics (v2_HTTPTotal result) (v2_HTTPBusiness result) metadata in
    if hasAux then
      (result <| v2_HTTPAuxiliary := auxMetrics |>,
       upsertMetricQuality quality
         (metricQuality "http_auxiliary" "exact" "summary_total_minus_business" "global" ""))
    else s
  else
    let '(auxMetrics, hasAux) := authHTTPMetrics metadata in
    if hasAux then
      (result <| v2_HTTPAuxiliary := auxMetrics |>,
       upsertMetricQuality quality
         (metricQuality "http_auxiliary" "approximate" "auth_summary_logical_token_requests" "global"
            "Auxiliary HTTP traffic falls back to logical token acquisition attempts because exact non-business HTTP totals could not be derived."))
    else s.

(** What is left of the total without the auxiliary requests. *)
Definition total_minus_auxiliary (total aux : HTTPMetricsBlock) (metadata : option TestMetadata)
  : HTTPMetricsBlock :=
  let requests := max0 (f_sub (hm_Requests total) (hm_Requests aux)) in
  let successes := max0 (f_sub (hm_Successes total) (hm_Successes aux)) in
  let failures := max0 (f_sub (hm_Failures total) (hm_Failures aux)) in
  let status4xx := max0 (f_sub (hm_Status4xx total) (hm_Status4xx aux)) in
  let status5xx := max0 (f_sub (hm_Status5xx total) (hm_Status5xx aux)) in
  let '(successRate, errorRate) := safeRate successes requests in
  zero_HTTP <| hm_Requests := requests |> <| hm_RPS := rateFromDuration requests metadata |>
    <| hm_Successes := successes |> <| hm_Failures := failures |> <| hm_SuccessRate := successRate |>
    <| hm_ErrorRate := errorRate |> <| hm_Status4xx := status4xx |> <| hm_Status5xx := status5xx |>
    <| hm_OtherFailures := max0 (f_sub (f_sub failures status4xx) status5xx) |>.

(** Without requests counted as the test's own, these are approximated. *)
Definition business_fallback (legacy : option AggregatedMetrics) (metadata : option TestMetadata) (s : flagged)
  : flagged :=
  let '(result, quality) := s in
  if f_eq (hm_Requests (v2_HTTPBusiness result)) f_zero && bool_decide (is_Some legacy) then
    let sourceTotal := v2_HTTPTotal result in
    if f_lt f_zero (hm_Requests (v2_HTTPAuxiliary result)) && f_lt f_zero (hm_Requests sourceTotal) then
      (result <| v2_HTTPBusiness := total_minus_auxiliary sourceTotal (v2_HTTPAuxiliary result) metadata |>,
       upsertMetricQuality quality
         (metricQuality "http_business" "approximate" "total_minus_auth" "global"
            "Business traffic was approximated by subtracting auth token requests from total HTTP requests."))
    else
      (result <| v2_HTTPBusiness := v2_HTTPTotal result |>,
       upsertMetricQuality
         (upsertMetricQuality quality
            (metricQuality "http_business" "legacy" "legacy_total_http" "global"
               "Run has no business-specific counters; total HTTP traffic is used as a legacy fallback."))
         (metricQuality "latency_primary" "approximate" "legacy_total_http" "global"
            "Primary latency falls back to total HTTP duration because no business latency metric was captured."))
  else s.

Definition latency_fallback (legacy : option AggregatedMetrics) (s : flagged) : flagged :=
  let '(result, quality) := s in
  if String.eqb (lm_Metric (v2_PrimaryLatency result)) ""
  then (result <| v2_PrimaryLatency :=
          sanitizedLegacyLatencyBlock "http_req_duration" "http_total" legacy |>, quality)
  else s.

Definition workers_part (legacy : option AggregatedMetrics) (s : flagged) : flagged :=
  let '(result, quality) := s in
  match v2_Workers result, legacy with
  | [], Some l =>
    (result <| v2_Workers :=
       map (fun w => mkWorkerV2 (wm_Address w) (wm_Status w) (wm_Error w) (wm_Requests w) f_zero f_zero
              (clampLatencyValue (wm_AvgLatency w)) f_zero f_zero f_zero f_zero) (agg_Workers l) |>,
     upsertMetricQuality quality
       (metricQuality "workers" "legacy" "legacy_worker_snapshot" "per_worker"
          "Worker drilldown falls back to the coarse live aggregate because no parsed worker summary is available."))
  | _ :: _, _ =>
    (result, upsertMetricQuality quality
       (metricQuality "workers" "approximate" "summary_worker_metrics" "per_worker"
          "Per-worker latency percentiles are taken from worker summaries; global worker timing windows remain controller-based."))
  | [], None => s
  end.

Definition checks_part (mergedSummary : option MergedSummaryMetrics) (s : flagged) : flagged :=
  match mergedSummary with
  | Some _ => s
  | None =>
    let '(result, quality) := s in
    (result <| v2_Checks := mkChecks f_zero f_zero f_zero f_zero |>,
     upsertMetricQuality quality
       (metricQuality "checks" "unavailable" "summary_content" "global"
          "No parsed handleSummary artifact was available for check aggregation."))
  end.

Definition artifacts_part (metadata : option TestMetadata) (s : flagged) : flagged :=
  match m ← metadata; md_ArtifactCollection m with
  | None => s
  | Some collection =>
    let '(result, quality) := s in
    let flagStatus :=
      if String.eqb (ac_Status collection) "partial" then "partial"
      else if String.eqb (ac_Status collection) "missing" then "unavailable" else "exact" in
    (result, upsertMetricQuality quality
       (metricQuality "worker_artifacts" flagStatus "summary_artifact_collection" "per_worker"
          (artifactCollectionReason collection)))
  end.

Section build.
Context `{MapOrder}.

(** The summaries in the stored text; a text that does not parse gives a flag. *)
Definition parsed_summary (rawSummary : string) (quality : list MetricQualityFlag)
  : option MergedSummaryMetrics * list MetricQualityFlag :=
  if String.eqb rawSummary "" then (None, quality)
  else match ParseRawSummaryContent rawSummary with
       | Ok parsed => (Some parsed, quality)
       | Err e => (None, quality ++ [metricQuality "summary_artifact" "unavailable" "summary_content" "global" e])
       end.

Definition buildMetricsV2 (legacy : option AggregatedMetrics) (rawSummary : string)
    (metadata : option TestMetadata) : option MetricsV2 :=
  if negb (bool_decide (is_Some legacy)) && String.eqb rawSummary "" && negb (bool_decide (is_Some metadata)) then None
  else
    let '(result, quality) := legacy_part legacy metadata (zero_MetricsV2, []) in
    let '(mergedSummary, quality) := parsed_summary rawSummary quality in
    let s := summaries_part mergedSummary legacy metadata (result, quality) in
    let s := auxiliary_part mergedSummary metadata s in
    let s := business_fallback legacy metadata s in
    let s := latency_fallback legacy s in
    let s := workers_part legacy s in
    let s := checks_part mergedSummary s in
    let '(result, quality) := artifacts_part metadata s in
    Some (result <| v2_QualityFlags := quality |>).
End build.

(** ** Every flag once, every latency a number *)

Lemma upsert_keys (flags : list MetricQualityFlag) (flag : MetricQualityFlag) :
  NoDup (map mq_Key flags) ->
  NoDup (map mq_Key (upsertMetricQuality flags flag)) /\
  (forall k, In k (map mq_Key (upsertMetricQuality flags flag)) ->
     k = mq_Key flag \/ In k (map mq_Key flags)).
Proof.
  induction flags as [|f flags IH]; simpl; intros Hn.
  - split; [constructor; [apply not_elem_of_nil|constructor]|naive_solver].
  - apply NoDup_cons in Hn as [Hf Hn]. destruct (IH Hn) as [IH1 IH2].
    destruct (String.eqb_spec (mq_Key f) (mq_Key flag)) as [E|E]; simpl; rewrite NoDup_cons.
    + rewrite <- E. split; [done|]. naive_solver.
    + rewrite !list_elem_of_In in *. split; [|naive_solver].
      split; [|done]. intros Hin. apply IH2 in Hin as [Hin|Hin]; [done|by apply Hf].
Qed.

Definition sane (x : float64) : Prop := is_nan x = false /\ is_inf x = false /\ f_lt x f_zero = false.

Definition latency_sane (b : LatencyMetricBlock) : Prop :=
  Forall sane [lm_AvgMs b; lm_MedMs b; lm_P90Ms b; lm_P95Ms b; lm_P99Ms b; lm_MinMs b; lm_MaxMs b].

Definition worker_sane (w : WorkerMetricsV2) : Prop :=
  Forall sane [wv_AvgLatencyMs w; wv_P95LatencyMs w; wv_P99LatencyMs w].

Definition block_sane (b : BreakdownMetricBlock) : Prop :=
  Forall sane [bm_AvgMs b; bm_P95Ms b; bm_P99Ms b; bm_MaxMs b].

Definition breakdown_sane (b : LatencyBreakdownBlock) : Prop :=
  Forall block_sane [lb_Blocked b; lb_Waiting b; lb_Sending b; lb_Receiving b; lb_Connecting b;
                     lb_TLSHandshaking b].

Definition flagged_wf (s : flagged) : Prop :=
  NoDup (map mq_Key s.2) /\ latency_sane (v2_PrimaryLatency s.1) /\ Forall worker_sane (v2_Workers s.1) /\
  (forall b, v2_LatencyBreakdown s.1 = Some b -> breakdown_sane b).

Lemma sane_zero : sane f_zero.
Proof. done. Qed.

Lemma clamp_sane (v : float64) : sane (clampLatencyValue v).
Proof.
  unfold clampLatencyValue. destruct (is_nan v || is_inf v || f_lt v f_zero) eqn:E; [apply sane_zero|].
  apply orb_false_iff in E as [E ?]. apply orb_false_iff in E as [? ?]. done.
Qed.

#[local] Hint Resolve sane_zero clamp_sane Forall_nil Forall_cons : core.

Lemma summary_block_sane (metric scope : string) (stats : SummaryLatencyStats) :
  latency_sane (sanitizedLatencyBlock metric scope stats).
Proof. repeat constructor; apply clamp_sane. Qed.

Lemma legacy_block_sane (metric scope : string) (m : option AggregatedMetrics) :
  latency_sane (sanitizedLegacyLatencyBlock metric scope m).
Proof. destruct m; repeat constructor; apply clamp_sane. Qed.

Lemma breakdown_block_sane (stats : SummaryLatencyStats) : block_sane (sanitizedBreakdownMetric stats).
Proof. repeat constructor; apply clamp_sane. Qed.

Lemma worker_v2_sane (legacy : option WorkerMetrics) (worker : WorkerSummaryMetrics) :
  worker_sane (worker_v2 legacy worker).
Proof. unfold worker_v2. destruct legacy; repeat constructor; apply clamp_sane. Qed.

Lemma workers_v2_sane (summary : option MergedSummaryMetrics) (legacy : option AggregatedMetrics) :
  Forall worker_sane (buildWorkerMetricsV2 summary legacy).
Proof.
  destruct summary; [|done]. apply Forall_lookup. intros i w. unfold buildWorkerMetricsV2.
  rewrite list_lookup_imap. destruct (ms_Workers m !! i); simpl; [|done]. intros [= <-].
  apply worker_v2_sane.
Qed.

Lemma upsert_nodup (flags : list MetricQualityFlag) (flag : MetricQualityFlag) :
  NoDup (map mq_Key flags) -> NoDup (map mq_Key (upsertMetricQuality flags flag)).
Proof. apply upsert_keys. Qed.

Arguments buildWorkerMetricsV2 : simpl never.
Arguments buildCheckMetrics : simpl never.

Create HintDb metrics.
#[export] Hint Resolve upsert_nodup summary_block_sane legacy_block_sane breakdown_block_sane
  workers_v2_sane clamp_sane sane_zero : metrics.
#[export] Hint Extern 2 (latency_sane _) => solve [repeat constructor; apply clamp_sane] : metrics.

(** The tactic splits a part at its tests and leaves the four claims on the new pair. *)
Ltac part_wf :=
  match goal with |- flagged_wf ?s -> _ => destruct s as [result quality] end;
  intros (Hk & Hl & Hw & Hb); simpl in Hk, Hl, Hw, Hb.
Ltac wf_done := split_and!; simpl; auto with metrics.

Lemma legacy_part_wf (legacy : option AggregatedMetrics) (metadata : option TestMetadata) (s : flagged) :
  flagged_wf s -> flagged_wf (legacy_part legacy metadata s).
Proof. part_wf. destruct legacy; [|done]. wf_done. Qed.

Lemma business_part_wf (ms : MergedSummaryMetrics) (metadata : option TestMetadata) (s : flagged) :
  flagged_wf s -> flagged_wf (business_part ms metadata s).
Proof.
  part_wf. unfold business_part. destruct (negb _); [done|]. destruct (safeRate _ _) as [sr er].
  destruct (ms_BusinessBreakdown ms) as [b|]; wf_done.
  intros ? [= <-]. repeat constructor; apply clamp_sane.
Qed.

Lemma summaries_part_wf (mergedSummary : option MergedSummaryMetrics) (legacy : option AggregatedMetrics)
    (metadata : option TestMetadata) (s : flagged) :
  flagged_wf s -> flagged_wf (summaries_part mergedSummary legacy metadata s).
Proof.
  part_wf. destruct mergedSummary as [ms|]; [|done]. unfold summaries_part.
  destruct (safeRate _ _) as [sr er]. apply business_part_wf. wf_done.
Qed.

Lemma auxiliary_part_wf (mergedSummary : option MergedSummaryMetrics) (metadata : option TestMetadata)
    (s : flagged) :
  flagged_wf s -> flagged_wf (auxiliary_part mergedSummary metadata s).
Proof.
  part_wf. unfold auxiliary_part. destruct (match mergedSummary with Some _ => _ | None => _ end).
  - destruct (derivedAuxiliaryHTTPMetrics _ _ _) as [aux []]; wf_done.
  - destruct (authHTTPMetrics _) as [aux []]; wf_done.
Qed.

Lemma business_fallback_wf (legacy : option AggregatedMetrics) (metadata : option TestMetadata) (s : flagged) :
  flagged_wf s -> flagged_wf (business_fallback legacy metadata s).
Proof.
  part_wf. unfold business_fallback. destruct (f_eq _ _ && _); [|done].
  destruct (f_lt _ _ && f_lt _ _); wf_done.
Qed.

Lemma latency_fallback_wf (legacy : option AggregatedMetrics) (s : flagged) :
  flagged_wf s -> flagged_wf (latency_fallback legacy s).
Proof. part_wf. unfold latency_fallback. destruct (String.eqb _ _); [|done]. wf_done. Qed.

Lemma workers_part_wf (legacy : option AggregatedMetrics) (s : flagged) :
  flagged_wf s -> flagged_wf (workers_part legacy s).
Proof.
  part_wf. unfold workers_part. destruct (v2_Workers result) as [|w ws] eqn:E.
  - destruct legacy as [l|]; [|wf_done; by rewrite E]. wf_done.
    apply Forall_lookup. intros i w H. rewrite list_lookup_fmap in H.
    destruct (agg_Workers l !! i); simplify_eq/=. unfold worker_sane.
    rewrite !Forall_cons, Forall_nil. split_and!; simpl; auto with metrics.
  - wf_done. by rewrite E.
Qed.

Lemma checks_part_wf (mergedSummary : option MergedSummaryMetrics) (s : flagged) :
  flagged_wf s -> flagged_wf (checks_part mergedSummary s).
Proof. part_wf. destruct mergedSummary; [done|]. wf_done. Qed.

Lemma artifacts_part_wf (metadata : option TestMetadata) (s : flagged) :
  flagged_wf s -> flagged_wf (artifacts_part metadata s).
Proof. part_wf. unfold artifacts_part. destruct (metadata ≫= _); [|done]. wf_done. Qed.

Section sources.
Context `{MapOrder}.

Lemma parsed_summary_wf (rawSummary : string) (result : MetricsV2) (quality : list MetricQualityFlag) :
  flagged_wf (result, quality) -> ~ In "summary_artifact" (map mq_Key quality) ->
  flagged_wf (result, (parsed_summary rawSummary quality).2).
Proof.
  intros (Hk & Hl & Hw & Hb) Hn. unfold parsed_summary.
  destruct (String.eqb rawSummary ""); [done|]. destruct (ParseRawSummaryContent rawSummary); [done|].
  split_and!; [|done..]. simpl in *. rewrite map_app, NoDup_app. split_and!; [done| |repeat constructor; set_solver].
  intros k Hin Hk'. simpl in Hk'. apply list_elem_of_singleton in Hk' as ->.
  apply Hn. by rewrite <- list_elem_of_In.
Qed.

(** The metrics of a result are computed for every input but the empty one;
    each of their quality flags occurs once, and each latency they show is a
    finite number that is not negative, whatever the summaries contain. *)
Theorem buildMetricsV2_wf (legacy : option AggregatedMetrics) (rawSummary : string)
    (metadata : option TestMetadata) :
  match buildMetricsV2 legacy rawSummary metadata with
  | None => legacy = None /\ rawSummary = "" /\ metadata = None
  | Some m =>
    NoDup (map mq_Key (v2_QualityFlags m)) /\ latency_sane (v2_PrimaryLatency m) /\
    Forall worker_sane (v2_Workers m) /\
    (forall b, v2_LatencyBreakdown m = Some b -> breakdown_sane b)
  end.
Proof.
  unfold buildMetricsV2. destruct (_ && _ && _) eqn:E.
  { bool_prop. destruct legacy, metadata; naive_solver. }
  assert (H0 : flagged_wf (zero_MetricsV2, [])).
  { split_and!; [constructor| |constructor|done]. repeat constructor. }
  apply (legacy_part_wf legacy metadata) in H0.
  assert (Hn : ~ In "summary_artifact" (map mq_Key (legacy_part legacy metadata (zero_MetricsV2, [])).2)).
  { destruct legacy; simpl; [by intros [|]|tauto]. }
  destruct (legacy_part legacy metadata _) as [result quality].
  pose proof (parsed_summary_wf rawSummary result quality H0 Hn) as H1.
  destruct (parsed_summary rawSummary quality) as [ms q]. cbv zeta.
  apply (summaries_part_wf ms legacy metadata), (auxiliary_part_wf ms metadata),
    (business_fallback_wf legacy metadata), (latency_fallback_wf legacy), (workers_part_wf legacy),
    (checks_part_wf ms), (artifacts_part_wf metadata) in H1.
  destruct (artifacts_part metadata _) as [r q']. exact H1.
Qed.

(** ** Where the numbers come from *)

Definition flag_status (m : MetricsV2) (key : string) : option string :=
  mq_Status <$> List.find (fun f => String.eqb (mq_Key f) key) (v2_QualityFlags m).

(** The merged summary the text holds. *)
Definition summary_of (rawSummary : string) : option MergedSummaryMetrics :=
  (parsed_summary rawSummary []).1.

Lemma f_lt_not_zero (x : float64) : f_lt f_zero x = true -> f_eq x f_zero = false.
Proof. by destruct x as [[]|[]| |[] ?]. Qed.

Lemma parsed_summary_cases (rawSummary : string) (quality : list MetricQualityFlag) :
  parsed_summary rawSummary quality = (summary_of rawSummary, quality) \/
  (summary_of rawSummary = None /\ exists e, parsed_summary rawSummary quality =
     (None, quality ++ [metricQuality "summary_artifact" "unavailable" "summary_content" "global" e])).
Proof.
  unfold summary_of, parsed_summary. destruct (String.eqb rawSummary ""); [by left|].
  destruct (ParseRawSummaryContent rawSummary); [by left|]. right. eauto.
Qed.

Definition from_summary (m : MetricsV2) (s : MergedSummaryMetrics) : Prop :=
  flag_status m "http_total" = Some "exact" /\ hm_Requests (v2_HTTPTotal m) = ms_TotalRequests s /\
  hm_Failures (v2_HTTPTotal m) = ms_TotalFailures s /\ mc_Count (v2_Iterations m) = ms_Iterations s /\
  v2_Checks m = buildCheckMetrics (Some s) /\ flag_status m "checks" = None.

Definition business_from_summary (m : MetricsV2) (s : MergedSummaryMetrics) : Prop :=
  flag_status m "http_business" = Some "exact" /\ flag_status m "latency_primary" = Some "approximate" /\
  hm_Requests (v2_HTTPBusiness m) = ms_BusinessRequests s /\
  hm_Failures (v2_HTTPBusiness m) = ms_BusinessFailures s /\
  lm_Metric (v2_PrimaryLatency m) = "business_http_duration_ms" /\
  lm_AvgMs (v2_PrimaryLatency m) = clampLatencyValue (sl_Avg (ms_BusinessLatency s)).

Definition business_estimated (m : MetricsV2) : Prop :=
  flag_status m "http_business" <> Some "exact" /\ lm_Metric (v2_PrimaryLatency m) = "http_req_duration".

(** The status of a flag while the result is built. *)
Definition status (s : flagged) (key : string) : option string :=
  mq_Status <$> List.find (fun f => String.eqb (mq_Key f) key) s.2.

Lemma status_upsert (r : MetricsV2) (q : list MetricQualityFlag) (f : MetricQualityFlag) (key : string) :
  status (r, upsertMetricQuality q f) key =
  if String.eqb (mq_Key f) key then Some (mq_Status f) else status (r, q) key.
Proof.
  unfold status; simpl. induction q as [|g q IH]; simpl.
  - by destruct (String.eqb (mq_Key f) key).
  - destruct (String.eqb_spec (mq_Key g) (mq_Key f)) as [E|E]; simpl.
    + rewrite E. by destruct (String.eqb (mq_Key f) key).
    + destruct (String.eqb_spec (mq_Key g) key) as [E'|E']; [|exact IH]. subst key.
      destruct (String.eqb_spec (mq_Key f) (mq_Key g)); [by congruence|done].
Qed.

(** A part that writes neither these numbers nor flags other than [k0]. *)
Definition frame (k0 : string) (s s' : flagged) : Prop :=
  v2_HTTPTotal s'.1 = v2_HTTPTotal s.1 /\ v2_HTTPBusiness s'.1 = v2_HTTPBusiness s.1 /\
  v2_Iterations s'.1 = v2_Iterations s.1 /\ v2_Checks s'.1 = v2_Checks s.1 /\
  v2_PrimaryLatency s'.1 = v2_PrimaryLatency s.1 /\
  forall k, k <> k0 -> status s' k = status s k.

Lemma frame_refl (k0 : string) (s : flagged) : frame k0 s s.
Proof. done. Qed.

Ltac frame_upsert :=
  split_and!; [done..|];
  let k := fresh "k" in let Hk := fresh "Hk" in intros k Hk; rewrite !status_upsert; cbn [mq_Key metricQuality];
  repeat match goal with |- context [String.eqb ?a k] =>
    destruct (String.eqb_spec a k); [by subst|] end; done.

Lemma auxiliary_frame (ms : option MergedSummaryMetrics) (metadata : option TestMetadata) (s : flagged) :
  frame "http_auxiliary" s (auxiliary_part ms metadata s).
Proof.
  destruct s as [r q]. unfold auxiliary_part. destruct (match ms with Some _ => _ | None => _ end).
  - destruct (derivedAuxiliaryHTTPMetrics _ _ _) as [aux []]; [|apply frame_refl]. frame_upsert.
  - destruct (authHTTPMetrics _) as [aux []]; [|apply frame_refl]. frame_upsert.
Qed.

Lemma workers_frame (legacy : option AggregatedMetrics) (s : flagged) :
  frame "workers" s (workers_part legacy s).
Proof.
  destruct s as [r q]. unfold workers_part. destruct (v2_Workers r), legacy;
    try apply frame_refl; frame_upsert.
Qed.

Lemma artifacts_frame (metadata : option TestMetadata) (s : flagged) :
  frame "worker_artifacts" s (artifacts_part metadata s).
Proof.
  destruct s as [r q]. unfold artifacts_part. destruct (metadata ≫= _); [|apply frame_refl]. frame_upsert.
Qed.

Lemma checks_frame (ms : option MergedSummaryMetrics) (s : flagged) (k : string) :
  v2_HTTPTotal (checks_part ms s).1 = v2_HTTPTotal s.1 /\
  v2_PrimaryLatency (checks_part ms s).1 = v2_PrimaryLatency s.1 /\
  status (checks_part ms s) k =
    if bool_decide (is_Some ms) then status s k
    else if String.eqb "checks" k then Some "unavailable" else status s k.
Proof.
  destruct s as [r q], ms; simpl; [done|]. by rewrite status_upsert.
Qed.

Lemma business_fallback_keeps (legacy : option AggregatedMetrics) (metadata : option TestMetadata)
    (s : flagged) :
  v2_HTTPTotal (business_fallback legacy metadata s).1 = v2_HTTPTotal s.1 /\
  v2_Iterations (business_fallback legacy metadata s).1 = v2_Iterations s.1 /\
  v2_Checks (business_fallback legacy metadata s).1 = v2_Checks s.1 /\
  v2_PrimaryLatency (business_fallback legacy metadata s).1 = v2_PrimaryLatency s.1 /\
  (status s "http_business" <> Some "exact" ->
   status (business_fallback legacy metadata s) "http_business" <> Some "exact") /\
  (f_eq (hm_Requests (v2_HTTPBusiness s.1)) f_zero = false -> business_fallback legacy metadata s = s) /\
  (forall k, k <> "http_business" -> k <> "latency_primary" ->
     status (business_fallback legacy metadata s) k = status s k).
Proof.
  destruct s as [r q]. unfold business_fallback. cbn [fst].
  destruct (f_eq _ _) eqn:E; cbn [andb]; [|done].
  destruct (bool_decide _); [|done]. destruct (f_lt _ _ && f_lt _ _); split_and!; try done;
    rewrite ?status_upsert; try done; intros k Hk Hk'; rewrite !status_upsert; cbn [mq_Key metricQuality];
    repeat match goal with |- context [String.eqb ?a k] =>
      destruct (String.eqb_spec a k); [by subst|] end; done.
Qed.

Lemma latency_fallback_keeps (legacy : option AggregatedMetrics) (s : flagged) (k : string) :
  v2_HTTPTotal (latency_fallback legacy s).1 = v2_HTTPTotal s.1 /\
  v2_HTTPBusiness (latency_fallback legacy s).1 = v2_HTTPBusiness s.1 /\
  v2_Iterations (latency_fallback legacy s).1 = v2_Iterations s.1 /\
  v2_Checks (latency_fallback legacy s).1 = v2_Checks s.1 /\
  lm_Metric (v2_PrimaryLatency (latency_fallback legacy s).1) =
    first_given (lm_Metric (v2_PrimaryLatency s.1)) "http_req_duration" /\
  (lm_Metric (v2_PrimaryLatency s.1) <> "" ->
     v2_PrimaryLatency (latency_fallback legacy s).1 = v2_PrimaryLatency s.1) /\
  status (latency_fallback legacy s) k = status s k.
Proof.
  destruct s as [r q]. unfold latency_fallback, first_given. cbn [fst].
  destruct (String.eqb_spec (lm_Metric (v2_PrimaryLatency r)) "") as [E|E]; [|done].
  split_and!; try done. by destruct legacy.
Qed.

(** The state after the two sources were read. *)
Definition front (legacy : option AggregatedMetrics) (rawSummary : string) (metadata : option TestMetadata)
  : flagged :=
  let '(result, quality) := legacy_part legacy metadata (zero_MetricsV2, []) in
  let '(ms, quality) := parsed_summary rawSummary quality in
  summaries_part ms legacy metadata (result, quality).

Definition no_business (s : flagged) : Prop :=
  status s "http_business" = None /\
  first_given (lm_Metric (v2_PrimaryLatency s.1)) "http_req_duration" = "http_req_duration".

Definition business_read (s : flagged) (ms : MergedSummaryMetrics) : Prop :=
  status s "http_business" = Some "exact" /\ status s "latency_primary" = Some "approximate" /\
  hm_Requests (v2_HTTPBusiness s.1) = ms_BusinessRequests ms /\
  hm_Failures (v2_HTTPBusiness s.1) = ms_BusinessFailures ms /\
  lm_Metric (v2_PrimaryLatency s.1) = "business_http_duration_ms" /\
  lm_AvgMs (v2_PrimaryLatency s.1) = clampLatencyValue (sl_Avg (ms_BusinessLatency ms)).

Definition summary_read (s : flagged) (ms : MergedSummaryMetrics) : Prop :=
  status s "http_total" = Some "exact" /\ hm_Requests (v2_HTTPTotal s.1) = ms_TotalRequests ms /\
  hm_Failures (v2_HTTPTotal s.1) = ms_TotalFailures ms /\ mc_Count (v2_Iterations s.1) = ms_Iterations ms /\
  v2_Checks s.1 = buildCheckMetrics (Some ms) /\ status s "checks" = None.

Lemma business_part_read (ms : MergedSummaryMetrics) (metadata : option TestMetadata) (s : flagged) :
  summary_read s ms -> no_business s ->
  let s' := business_part ms metadata s in
  summary_read s' ms /\ if f_lt f_zero (ms_BusinessRequests ms) then business_read s' ms else no_business s'.
Proof.
  destruct s as [r q]. intros (H1 & H2 & H3 & H4 & H5 & H6) Hn. unfold business_part.
  destruct (f_lt f_zero (ms_BusinessRequests ms)) eqn:E; cbn [negb]; [|by split].
  destruct (safeRate _ _) as [sr er].
  destruct (ms_BusinessBreakdown ms); cbv zeta; (split; split_and!; rewrite ?status_upsert; done).
Qed.

Lemma legacy_front (legacy : option AggregatedMetrics) (metadata : option TestMetadata) :
  let s := legacy_part legacy metadata (zero_MetricsV2, []) in
  no_business s /\ status s "http_total" <> Some "exact" /\ status s "checks" = None.
Proof. destruct legacy; done. Qed.

Lemma front_spec (legacy : option AggregatedMetrics) (rawSummary : string) (metadata : option TestMetadata) :
  let s := front legacy rawSummary metadata in
  match summary_of rawSummary with
  | Some ms =>
    summary_read s ms /\ if f_lt f_zero (ms_BusinessRequests ms) then business_read s ms else no_business s
  | None => no_business s /\ status s "http_total" <> Some "exact"
  end.
Proof.
  unfold front. destruct (legacy_front legacy metadata) as (Hn & Ht & Hc).
  destruct (legacy_part legacy metadata _) as [r q].
  destruct (parsed_summary_cases rawSummary q) as [-> | (-> & e & ->)].
  - destruct (summary_of rawSummary) as [ms|]; [|done]. unfold summaries_part.
    destruct (safeRate _ _) as [sr er]. apply business_part_read.
    + unfold summary_read. cbv zeta. rewrite !status_upsert. split_and!; done.
    + unfold no_business in *. cbv zeta. rewrite !status_upsert. done.
  - unfold no_business, status in *. simpl in *. split.
    + destruct Hn as [Hn Hl]. split; [|done].
      revert Hn. clear. induction q as [|f q IH]; simpl; [done|]. destruct (String.eqb (mq_Key f) _); [done|exact IH].
    + revert Ht. clear. induction q as [|f q IH]; simpl; [done|].
      destruct (String.eqb (mq_Key f) _); [done|exact IH].
Qed.

(** The parts after the sources were read. *)
Definition back (ms : option MergedSummaryMetrics) (legacy : option AggregatedMetrics)
    (metadata : option TestMetadata) (s : flagged) : flagged :=
  artifacts_part metadata (checks_part ms (workers_part legacy (latency_fallback legacy
    (business_fallback legacy metadata (auxiliary_part ms metadata s))))).

Definition back_keeps (ms : option MergedSummaryMetrics) (s s' : flagged) : Prop :=
  v2_HTTPTotal s'.1 = v2_HTTPTotal s.1 /\
  (is_Some ms -> v2_Iterations s'.1 = v2_Iterations s.1 /\ v2_Checks s'.1 = v2_Checks s.1 /\
     status s' "checks" = status s "checks") /\
  (ms = None -> status s' "checks" = Some "unavailable") /\
  status s' "http_total" = status s "http_total" /\
  lm_Metric (v2_PrimaryLatency s'.1) = first_given (lm_Metric (v2_PrimaryLatency s.1)) "http_req_duration" /\
  (lm_Metric (v2_PrimaryLatency s.1) <> "" -> v2_PrimaryLatency s'.1 = v2_PrimaryLatency s.1) /\
  (status s "http_business" <> Some "exact" -> status s' "http_business" <> Some "exact") /\
  (is_Some ms -> f_eq (hm_Requests (v2_HTTPBusiness s.1)) f_zero = false ->
     v2_HTTPBusiness s'.1 = v2_HTTPBusiness s.1 /\
     status s' "http_business" = status s "http_business" /\
     status s' "latency_primary" = status s "latency_primary").

Lemma back_spec (ms : option MergedSummaryMetrics) (legacy : option AggregatedMetrics)
    (metadata : option TestMetadata) (s0 : flagged) : back_keeps ms s0 (back ms legacy metadata s0).
Proof.
  unfold back. destruct (auxiliary_frame ms metadata s0) as (Ha1 & Ha2 & Ha3 & Ha4 & Ha5 & Ha6).
  set (s1 := auxiliary_part ms metadata s0) in *. clearbody s1.
  destruct (business_fallback_keeps legacy metadata s1) as (Hb1 & Hb2 & Hb3 & Hb4 & Hb5 & Hb6 & Hb7).
  set (s2 := business_fallback legacy metadata s1) in *. clearbody s2.
  pose proof (latency_fallback_keeps legacy s2) as Hl.
  set (s3 := latency_fallback legacy s2) in *. clearbody s3.
  destruct (Hl "") as (Hl1 & Hl2 & Hl3 & Hl4 & Hl5 & Hl6 & _).
  destruct (workers_frame legacy s3) as (Hw1 & Hw2 & Hw3 & Hw4 & Hw5 & Hw6).
  set (s4 := workers_part legacy s3) in *. clearbody s4.
  pose proof (checks_frame ms s4) as Hc.
  assert (Hid : is_Some ms -> checks_part ms s4 = s4) by by intros [? ->].
  set (s5 := checks_part ms s4) in *. clearbody s5. destruct (Hc "checks") as (Hc1 & Hc2 & Hck).
  destruct (artifacts_frame metadata s5) as (Hz1 & Hz2 & Hz3 & Hz4 & Hz5 & Hz6).
  set (s6 := artifacts_part metadata s5) in *. clearbody s6.
  assert (St : forall k, k <> "worker_artifacts" -> k <> "workers" -> k <> "checks" ->
            status s6 k = status s2 k).
  { intros k H1 H2 H3. destruct (Hc k) as (_ & _ & E). destruct (Hl k) as (_ & _ & _ & _ & _ & _ & E').
    rewrite Hz6, E by done. destruct (String.eqb_spec "checks" k); [by subst|].
    rewrite Hw6, E' by done. by destruct (bool_decide _). }
  split_and!; [congruence| | | | | | |].
  - intros Hs. specialize (Hid Hs). subst s5. destruct (Hl "checks") as (_ & _ & _ & _ & _ & _ & E).
    split_and!; [congruence..|]. rewrite Hz6, Hw6, E, Hb7, Ha6; done.
  - intros ->. by rewrite Hz6, Hck.
  - rewrite St, Hb7, Ha6; done.
  - congruence.
  - intros Hne. rewrite Hz5, Hc2, Hw5, Hl6, Hb4, Ha5; congruence.
  - rewrite St by done. intros Hne. apply Hb5. by rewrite Ha6.
  - intros Hs Hf. specialize (Hid Hs). subst s5. assert (s2 = s1) as -> by (apply Hb6; congruence).
    split_and!; [congruence| |]; rewrite St, Ha6; done.
Qed.

(** Numbers flagged "exact" come from the summaries of the workers, and from
    nowhere else: the totals, iterations and checks when the text of the
    summaries parses, and the requests of the test itself when they were counted.
    Otherwise the checks are flagged as unavailable and the primary latency is
    the one of all requests. *)
Theorem buildMetricsV2_sources (legacy : option AggregatedMetrics) (rawSummary : string)
    (metadata : option TestMetadata) (m : MetricsV2) :
  buildMetricsV2 legacy rawSummary metadata = Some m ->
  match summary_of rawSummary with
  | Some s =>
    from_summary m s /\
    (if f_lt f_zero (ms_BusinessRequests s) then business_from_summary m s else business_estimated m)
  | None =>
    flag_status m "checks" = Some "unavailable" /\ flag_status m "http_total" <> Some "exact" /\
    business_estimated m
  end.
Proof.
  pose proof (front_spec legacy rawSummary metadata) as Hf. unfold buildMetricsV2.
  destruct (_ && _ && _); [done|]. unfold front in Hf.
  destruct (legacy_part legacy metadata _) as [r0 q0].
  destruct (parsed_summary rawSummary q0) as [ms q1] eqn:Ep.
  assert (Em : ms = summary_of rawSummary).
  { destruct (parsed_summary_cases rawSummary q0) as [E|(-> & e & E)]; rewrite E in Ep; by simplify_eq. }
  cbv zeta in *. revert Hf. rewrite <- Em. clear Em Ep.
  generalize (summaries_part ms legacy metadata (r0, q1)). intros s0 Hf.
  pose proof (back_spec ms legacy metadata s0) as Hb. unfold back in Hb. revert Hb.
  generalize (artifacts_part metadata (checks_part ms (workers_part legacy (latency_fallback legacy
    (business_fallback legacy metadata (auxiliary_part ms metadata s0)))))).
  intros [r q] (B1 & B2 & B3 & B4 & B5 & B6 & B7 & B8) [= <-]. 
  assert (St : forall k, flag_status (r <| v2_QualityFlags := q |>) k = status (r, q) k) by done.
  unfold from_summary, business_from_summary, business_estimated. rewrite !St. clear St.
  destruct ms as [s|].
  - destruct Hf as [Hs Hf]. destruct Hs as (F1 & F2 & F3 & F4 & F5 & F6).
    destruct (B2 ltac:(done)) as (B21 & B22 & B23). split; [split_and!; simpl in *; congruence|].
    destruct (f_lt f_zero (ms_BusinessRequests s)) eqn:Eb.
    + destruct Hf as (G1 & G2 & G3 & G4 & G5 & G6). rewrite G5 in B6. specialize (B6 ltac:(done)).
      destruct (B8 ltac:(done)) as (B81 & B82 & B83); [rewrite G3; by apply f_lt_not_zero|].
      split_and!; simpl in *; congruence.
    + destruct Hf as (G1 & G2). split; simpl in *; [|congruence]. apply B7. congruence.
  - destruct Hf as ((G1 & G2) & G3). split_and!; [by apply B3|simpl in *; congruence| |simpl in *; congruence].
    apply B7. congruence.
Qed.
End sources.

(** ** A run with one summary *)

Definition one_summary : string := quoted
  "{'metrics':{'http_reqs':{'values':{'count':10}},'business_http_requests_total':{'values':{'count':8}},'business_http_failure_total':{'values':{'count':1}},'business_http_duration_ms':{'values':{'avg':5,'p(95)':9}}}}".

Definition one_text : string := summary_part "worker1" one_summary.

#[local] Instance witness_map_order : MapOrder := id_map_order.

Lemma buildMetricsV2_sources_witness :
  (summary_of one_text ≫= fun s => Some (f_lt f_zero (ms_BusinessRequests s))) = Some true /\
  exists m, buildMetricsV2 None one_text None = Some m /\
    hm_Requests (v2_HTTPBusiness m) = f_of_Z 8 /\ hm_Requests (v2_HTTPAuxiliary m) = f_of_Z 2 /\
    flag_status m "http_business" = Some "exact".
Proof.
  split; [vm_compute; reflexivity|].
  destruct (buildMetricsV2 None one_text None) as [m|] eqn:E; [|vm_compute in E; discriminate].
  exists m. split; [reflexivity|].
  pose proof (buildMetricsV2_sources None one_text None m E) as Hs.
  destruct (summary_of one_text) as [s|] eqn:Es; [|vm_compute in Es; discriminate].
  assert (f_lt f_zero (ms_BusinessRequests s) = true) as Hb
    by (vm_compute in Es; injection Es as <-; reflexivity).
  rewrite Hb in Hs. destruct Hs as [_ (H1 & _ & H2 & _)].
  repeat split; [|vm_compute in E; injection E as <-; reflexivity|exact H1].
  rewrite H2. vm_compute in Es. injection Es as <-. reflexivity.
Defined.
