(* ===== verification/K6Config.v ===== *)
(** * The k6 options of a test: [controller/internal/scriptgen/scriptgen.go]

    The options JSON of a builder test, the processing of an options file
    before a run (environment, executor, scenarios the controller drives,
    division of rates), the conflict warnings and the environment file.  A JSON
    object is a list of members; Go's map has the last value of each key, and a
    loop over it runs in the order of [MapOrder].  A computation that can panic
    returns an [option]. *)

From S2P Require Export Prelude GoStrings GoFloat Json JsonOut Model Payload Duration.

Open Scope Z_scope.
Open Scope go_scope.

(** ** Executors *)

Definition ExecutorType : Type := string.
Definition ExecutorExternallyControlled : ExecutorType := "externally-controlled".
Definition ExecutorConstantVUs : ExecutorType := "constant-vus".
Definition ExecutorRampingVUs : ExecutorType := "ramping-vus".
Definition ExecutorConstantArrivalRate : ExecutorType := "constant-arrival-rate".
Definition ExecutorRampingArrivalRate : ExecutorType := "ramping-arrival-rate".

Definition IsControllable (e : ExecutorType) : bool :=
  one_of_strings e [ExecutorExternallyControlled; ExecutorConstantVUs; ExecutorRampingVUs].

Definition DetectExecutorFromScript (content : string) : ExecutorType :=
  default ExecutorConstantVUs
    (first_some (fun e => if contains content e then Some e else None)
       [ExecutorExternallyControlled; ExecutorConstantArrivalRate; ExecutorRampingArrivalRate;
        ExecutorRampingVUs; ExecutorConstantVUs]).

(** The error of an uploaded script, if any. *)
Definition ValidateUpload (content : string) : option string :=
  if blank content then Some "script is empty"
  else if 1048576 <? str_len content then Some "script exceeds 1 MB size limit"
  else if negb (contains content "export default function") &&
          negb (contains content "export function setup")
  then Some "script must contain 'export default function'"
  else None.

(** ** JSON values *)

Definition jint (z : Z) : json := JNum (itoa z).
Definition jfloat (x : float64) : json := JNum (marshal_float x).

(** [json.MarshalIndent(v, "", "  ")], at a depth. *)
Definition line_at (depth : nat) : string := String (chr 10) (String.concat "" (repeat "  " depth)).

Definition indent_list (op cl : string) (depth : nat) (l : list string) : string :=
  match l with
  | [] => op +:+ cl
  | _ => op +:+ line_at (S depth) +:+ String.concat ("," +:+ line_at (S depth)) l +:+ line_at depth +:+ cl
  end.

Definition indent_member (p : string * string) : string := marshal_string p.1 +:+ ": " +:+ p.2.

Fixpoint marshal_indent (depth : nat) (j : json) : string :=
  match j with
  | JArr l => indent_list "[" "]" depth (map (marshal_indent (S depth)) l)
  | JObj l =>
    indent_list "{" "}" depth
      (map indent_member (sort_keys (dedupe (map (fun kv => (kv.1, marshal_indent (S depth) kv.2)) l))))
  | _ => marshal j
  end.

(** ** Formatting of values *)

(** [%v] of a [float64]: the shortest digits, in scientific form when the
    exponent is below -4 or at least 6. *)
Definition exponent_2digits (z : Z) : string :=
  (if z <? 0 then "-" else "+") +:+ (if Z.abs z <? 10 then "0" else "") +:+ itoa (Z.abs z).

Definition format_g (x : float64) (m : positive) (e : Z) : string :=
  let num := Zpos m * 2 ^ Z.max 0 e in
  let den := 2 ^ Z.max 0 (- e) in
  let '(mant, ex) := shortest x num den in
  let digits := itoa mant in
  let k := str_len digits + ex in
  if (k - 1 <? -4) || (6 <=? k - 1) then
    match digits with
    | String d rest =>
      String d (if String.eqb rest "" then "" else "." +:+ rest) +:+ "e" +:+ exponent_2digits (k - 1)
    | EmptyString => ""
    end
  else place_point digits k.

Definition format_float (x : float64) : string :=
  match x with
  | S754_zero s => if s then "-0" else "0"
  | S754_infinity s => if s then "-Inf" else "+Inf"
  | S754_nan => "NaN"
  | S754_finite s m e => (if s then "-" else "") +:+ format_g (S754_finite false m e) m e
  end.

(** [fmt.Sprintf("%v", value)]. *)
Fixpoint sprint (j : json) : string :=
  match j with
  | JNull => "<nil>"
  | JBool b => if b then "true" else "false"
  | JNum lit => match num_float lit with Some x => format_float x | None => "" end
  | JStr s => s
  | JArr l => "[" +:+ String.concat " " (map sprint l) +:+ "]"
  | JObj l =>
    "map[" +:+ String.concat " " (map (fun p => p.1 +:+ ":" +:+ p.2)
                (sort_keys (dedupe (map (fun kv => (kv.1, sprint kv.2)) l)))) +:+ "]"
  end.

Definition printed (s : string) : option string := sprint <$> unmarshal_any (quoted s).

Example sprint_ex :
  printed "{'b':[8080,1000000,1234567.5,0.5,0.00001,'x'],'a':null}" =
  Some "map[a:<nil> b:[8080 1e+06 1.2345675e+06 0.5 1e-05 x]]".
Proof. vm_compute. reflexivity. Qed.

(** [%q]: exact for ASCII and for printable characters outside of it. *)
Definition quote_byte (c : Ascii.ascii) : string :=
  let b := byte_of c in
  if (b =? 34) || (b =? 92) then backslash +:+ String c ""
  else if b =? 7 then backslash +:+ "a" else if b =? 8 then backslash +:+ "b"
  else if b =? 9 then backslash +:+ "t" else if b =? 10 then backslash +:+ "n"
  else if b =? 11 then backslash +:+ "v" else if b =? 12 then backslash +:+ "f"
  else if b =? 13 then backslash +:+ "r"
  else if (b <? 32) || (b =? 127)
  then backslash +:+ "x" +:+ String (hex_digit (b / 16)) (String (hex_digit (b mod 16)) "")
  else String c "".

Fixpoint quote_go (s : string) : string :=
  match s with EmptyString => "" | String c s => quote_byte c +:+ quote_go s end.

Definition quoted_q (s : string) : string := quote +:+ quote_go s +:+ quote.

(** ** The options of a builder test *)

(** The buffer the controller adds to the duration of a run, once it is set. *)
Definition SetCompletionBufferSeconds (seconds : Z) : Z := if seconds <? 0 then 0 else seconds.

Definition normalizeAuthMode (mode : string) : string :=
  let trimmed := trim_space mode in if String.eqb trimmed "" then "oauth_client_credentials" else trimmed.

Definition normalizeAuthClientMethod (method : string) : string :=
  let trimmed := trim_space method in if String.eqb trimmed "" then "basic" else trimmed.

Definition normalizeAuthRefreshSkew (skew : Z) : Z := if skew <=? 0 then 30 else skew.

Definition format_bool (b : bool) : string := if b then "true" else "false".

(** The environment a builder script reads. *)
Definition buildBuilderEnvContract (req : TestRequest) : gmap string string :=
  let auth := tr_Auth req in
  let env : gmap string string :=
    {[ "HTTP_METHOD" := NormalizeHTTPMethod (tr_HTTPMethod req);
       "CONTENT_TYPE" := NormalizeContentType (tr_ContentType req);
       "PAYLOAD_SOURCE_JSON" := trim_space (tr_PayloadJSON req);
       "PAYLOAD_TARGET_BYTES" := itoa (payloadTargetBytes (tr_PayloadTargetKiB req));
       "K6_WEB_DASHBOARD" := "false";
       "AUTH_ENABLED" := format_bool (ai_Enabled auth) ]} in
  let env := if blank (tr_URL req) then env else <["TARGET_URL" := trim_space (tr_URL req)]> env in
  if negb (ai_Enabled auth) then env
  else
    <["AUTH_MODE" := normalizeAuthMode (ai_Mode auth)]>
    (<["AUTH_TOKEN_URL" := trim_space (ai_TokenURL auth)]>
    (<["AUTH_CLIENT_ID" := trim_space (ai_ClientID auth)]>
    (<["AUTH_CLIENT_SECRET" := trim_space (ai_ClientSecret auth)]>
    (<["AUTH_CLIENT_AUTH_METHOD" := normalizeAuthClientMethod (ai_ClientAuthMethod auth)]>
    (<["AUTH_REFRESH_SKEW_SECONDS" := itoa (normalizeAuthRefreshSkew (ai_RefreshSkewSeconds auth))]>
    (<["AUTH_RETRY_LIMIT" := "1"]>
    (<["AUTH_RETRYABLE_STATUS_CODES" := "408,429,502,503,504"]>
    (<["AUTH_MAX_JITTER_MS" := "5000"]>
    (<["AUTH_TOKEN_TIMEOUT" := "10s"]> env))))))))).

Definition applyBuilderConfigDefaults (config : list (string * json)) : list (string * json) :=
  match jget "discardResponseBodies" config with
  | Some _ => config
  | None => jset "discardResponseBodies" (JBool true) config
  end.

(** The entries of [env] the block does not have yet. *)
Definition add_env (envBlock : list (string * json)) (env : list (string * string)) : list (string * json) :=
  foldl (fun block kv => if has_key kv.1 block then block else jset kv.1 (JStr kv.2) block) envBlock env.

Section config.
Context `{JsonErrors}.

(** The options the text stands for; [Some None] is the nil map that [null]
    leaves in the variable. *)
Definition parse_options (content : string) : res (option (list (string * json))) :=
  match unmarshal_any content with
  | Some (JObj l) => Ok (Some l)
  | Some JNull => Ok None
  | _ => Err (json_error content)
  end.

(** Nothing is the panic of an assignment to a nil map. *)
Definition mergeEnvIntoConfigContent (content : string) (env : gmap string string) : option (res string) :=
  match (if blank content then Ok (Some []) else parse_options content) with
  | Err e => Some (Err ("parse config: " +:+ e))
  | Ok None => None
  | Ok (Some config) =>
    let config := applyBuilderConfigDefaults config in
    let existing :=
      match jget "env" config with
      | None | Some JNull => Some []
      | Some (JObj l) => Some (map (fun kv => (kv.1, JStr (sprint kv.2))) (jentries l))
      | Some _ => None
      end in
    Some
      match existing with
      | None => Err (quote +:+ "env" +:+ quote +:+ " must be a JSON object with string values")
      | Some envBlock =>
        let envBlock := add_env envBlock (map_to_list env) in
        let config := match envBlock with [] => config | _ => jset "env" (JObj envBlock) config end in
        Ok (marshal (JObj config))
      end
  end.

Definition filterBuilderStages (stages : list Stage) : list json :=
  omap (fun s => if blank (stg_Duration s) then None
                 else Some (JObj [("duration", JStr (stg_Duration s)); ("target", jint (stg_Target s))])) stages.

Definition builder_scenario (req : TestRequest) (executor : string) : list (string * json) :=
  ("executor", JStr executor) ::
  (if String.eqb executor "constant-vus" then
     [("vus", jint (tr_VUs req)); ("duration", JStr (tr_Duration req))]
   else if String.eqb executor "ramping-vus" then
     [("startVUs", jint 0); ("stages", JArr (filterBuilderStages (tr_Stages req)))]
   else if String.eqb executor "constant-arrival-rate" then
     [("rate", jint (tr_Rate req)); ("timeUnit", JStr (tr_TimeUnit req)); ("duration", JStr (tr_Duration req));
      ("preAllocatedVUs", jint (tr_PreAllocatedVUs req)); ("maxVUs", jint (tr_MaxVUs req))]
   else if String.eqb executor "ramping-arrival-rate" then
     [("startRate", jint (tr_Rate req)); ("timeUnit", JStr (tr_TimeUnit req));
      ("preAllocatedVUs", jint (tr_PreAllocatedVUs req)); ("maxVUs", jint (tr_MaxVUs req));
      ("stages", JArr (filterBuilderStages (tr_Stages req)))]
   else []).

Definition BuildBuilderConfig (req : TestRequest) : option (res string) :=
  let executor := if String.eqb (tr_Executor req) "" then "ramping-vus" else tr_Executor req in
  let config := JObj
    [("scenarios", JObj [("default", JObj (builder_scenario req executor))]);
     ("discardResponseBodies", JBool true);
     ("thresholds", JObj [("http_req_duration", JArr [JStr "p(95)<500"; JStr "p(99)<1000"]);
                          ("errors", JArr [JStr "rate<0.01"]);
                          ("success_rate", JArr [JStr "rate>0.99"])])] in
  mergeEnvIntoConfigContent (marshal config) (buildBuilderEnvContract req).

Definition EnrichBuilderConfig (content : string) (req : TestRequest) : option (res string) :=
  mergeEnvIntoConfigContent content (buildBuilderEnvContract req).
End config.

(** ** The script of a builder test

    The numbers that go into a generated script; the text itself is
    [render_script] of [ScriptTexts], here the parameter [render]. *)

Definition divideAcrossWorkers (total workers : Z) : Z :=
  if workers <=? 1 then total else Z.max (Z.quot (total ⊞ workers ⊟ 1) workers) 1.

Record builderTemplateData := mkTemplateData {
  bt_URL : string; bt_StartVUs : Z; bt_MaxVUs : Z; bt_TotalDuration : string; bt_VUs : Z;
  bt_Duration : string; bt_Rate : Z; bt_TimeUnit : string; bt_PreAllocatedVUs : Z;
  bt_Stages : list Stage; bt_Sleep : float64; bt_HTTPMethod : string; bt_ContentType : string;
  bt_PayloadSourceJSON : string; bt_PayloadTargetBytes : Z; bt_AuthEnabled : bool; bt_AuthMode : string;
  bt_AuthTokenURL : string; bt_AuthClientID : string; bt_AuthClientAuthMethod : string;
  bt_AuthRefreshSkewSeconds : Z
}.

#[export] Instance eta_builderTemplateData : Eta builderTemplateData := fun b =>
  mkTemplateData (bt_URL b) (bt_StartVUs b) (bt_MaxVUs b) (bt_TotalDuration b) (bt_VUs b) (bt_Duration b)
    (bt_Rate b) (bt_TimeUnit b) (bt_PreAllocatedVUs b) (bt_Stages b) (bt_Sleep b) (bt_HTTPMethod b)
    (bt_ContentType b) (bt_PayloadSourceJSON b) (bt_PayloadTargetBytes b) (bt_AuthEnabled b) (bt_AuthMode b)
    (bt_AuthTokenURL b) (bt_AuthClientID b) (bt_AuthClientAuthMethod b) (bt_AuthRefreshSkewSeconds b).

Definition sleepVal (req : TestRequest) : float64 :=
  match tr_SleepSeconds req with
  | Some s => s
  | None =>
    if one_of_strings (tr_Executor req) [ExecutorConstantArrivalRate; ExecutorRampingArrivalRate]
    then f_zero else f_of_decimal false 5 (-1)
  end.

Definition newBuilderTemplateData (req : TestRequest) : builderTemplateData :=
  let auth := tr_Auth req in
  mkTemplateData (tr_URL req) 0 0 "" 0 "" 0 "" 0 [] (sleepVal req) (NormalizeHTTPMethod (tr_HTTPMethod req))
    (NormalizeContentType (tr_ContentType req)) (trim_space (tr_PayloadJSON req))
    (payloadTargetBytes (tr_PayloadTargetKiB req)) (ai_Enabled auth) (ai_Mode auth) (ai_TokenURL auth)
    (ai_ClientID auth) (ai_ClientAuthMethod auth) (ai_RefreshSkewSeconds auth).

Inductive script_template := externallyControlledTemplate | constantArrivalRateTemplate | rampingArrivalRateTemplate.

Record BuilderResult := mkBuilderResult { br_Script : string; br_ExecutorType : ExecutorType }.

Definition seconds_text (z : Z) : string := itoa z +:+ "s".

(** The largest of the targets, at least zero. *)
Definition max_target (stages : list Stage) : Z :=
  foldl (fun m s => if m <? stg_Target s then stg_Target s else m) 0 stages.

Definition total_duration (stages : list Stage) : Z :=
  foldl (fun d s => d ⊞ parseDuration (stg_Duration s)) 0 stages.

(** The headroom of an arrival-rate scenario. *)
Definition arrival_max_vus (maxVUs preAlloc workerCount : Z) : Z :=
  if maxVUs <? preAlloc then preAlloc ⊠ 2
  else
    let m := divideAcrossWorkers maxVUs workerCount in
    if m <? preAlloc then preAlloc ⊠ 2 else m.

Section scripts.
Context (completionBufferSeconds : Z) (render : script_template -> builderTemplateData -> string).

Definition generateRampingVUs (req : TestRequest) (workerCount : Z) : BuilderResult :=
  let maxVUs := Z.max (max_target (tr_Stages req)) 1 in
  let perWorkerMaxVUs := Z.quot (maxVUs ⊞ workerCount ⊟ 1) workerCount in
  let totalDuration := total_duration (tr_Stages req) ⊞ completionBufferSeconds in
  mkBuilderResult
    (render externallyControlledTemplate
       ((newBuilderTemplateData req) <| bt_StartVUs := 0 |> <| bt_MaxVUs := perWorkerMaxVUs |>
          <| bt_TotalDuration := seconds_text totalDuration |>))
    ExecutorExternallyControlled.

Definition generateConstantVUs (req : TestRequest) (workerCount : Z) : BuilderResult :=
  let perWorkerVUs := divideAcrossWorkers (Z.max (tr_VUs req) 1) workerCount in
  let d := parseDuration (tr_Duration req) in
  let totalDuration := (if d <? 1 then 60 else d) ⊞ completionBufferSeconds in
  mkBuilderResult
    (render externallyControlledTemplate
       ((newBuilderTemplateData req) <| bt_StartVUs := perWorkerVUs |> <| bt_MaxVUs := perWorkerVUs |>
          <| bt_TotalDuration := seconds_text totalDuration |>))
    ExecutorConstantVUs.

Definition generateConstantArrivalRate (req : TestRequest) (workerCount : Z) : BuilderResult :=
  let rate := divideAcrossWorkers (Z.max (tr_Rate req) 1) workerCount in
  let preAlloc := if tr_PreAllocatedVUs req <? 1 then rate
                  else divideAcrossWorkers (tr_PreAllocatedVUs req) workerCount in
  mkBuilderResult
    (render constantArrivalRateTemplate
       ((newBuilderTemplateData req) <| bt_Rate := rate |>
          <| bt_TimeUnit := if String.eqb (tr_TimeUnit req) "" then "1s" else tr_TimeUnit req |>
          <| bt_Duration := if String.eqb (tr_Duration req) "" then "1m" else tr_Duration req |>
          <| bt_PreAllocatedVUs := preAlloc |>
          <| bt_MaxVUs := arrival_max_vus (tr_MaxVUs req) preAlloc workerCount |>))
    ExecutorConstantArrivalRate.

Definition generateRampingArrivalRate (req : TestRequest) (workerCount : Z) : BuilderResult :=
  let maxTarget := max_target (tr_Stages req) in
  let preAlloc := if tr_PreAllocatedVUs req <? 1 then Z.max (divideAcrossWorkers maxTarget workerCount) 1
                  else divideAcrossWorkers (tr_PreAllocatedVUs req) workerCount in
  mkBuilderResult
    (render rampingArrivalRateTemplate
       ((newBuilderTemplateData req)
          <| bt_TimeUnit := if String.eqb (tr_TimeUnit req) "" then "1s" else tr_TimeUnit req |>
          <| bt_PreAllocatedVUs := preAlloc |>
          <| bt_MaxVUs := arrival_max_vus (tr_MaxVUs req) preAlloc workerCount |>
          <| bt_Stages := map (fun s => mkStage (stg_Duration s) (divideAcrossWorkers (stg_Target s) workerCount))
               (tr_Stages req) |>))
    ExecutorRampingArrivalRate.

Definition GenerateFromBuilder (req : TestRequest) (workerCount : Z) : res BuilderResult :=
  let workerCount := if workerCount <? 1 then 1 else workerCount in
  let executor := if String.eqb (tr_Executor req) "" then "ramping-vus" else tr_Executor req in
  if String.eqb executor "constant-vus" then Ok (generateConstantVUs req workerCount)
  else if String.eqb executor "ramping-vus" then Ok (generateRampingVUs req workerCount)
  else if String.eqb executor "constant-arrival-rate" then Ok (generateConstantArrivalRate req workerCount)
  else if String.eqb executor "ramping-arrival-rate" then Ok (generateRampingArrivalRate req workerCount)
  else Err ("unsupported executor: " +:+ executor).
End scripts.

(** ** Processing an options file before a run *)

Record ProcessedConfig := mkProcessed {
  pc_OptionsJSON : string;
  pc_EnvVars : gmap string string;
  pc_ExecutorType : ExecutorType;
  pc_Stages : list Stage
}.

Definition knownKeys : list string :=
  ["scenarios"; "stages"; "vus"; "duration"; "iterations"; "thresholds"; "noConnectionReuse"; "userAgent";
   "hosts"; "insecureSkipTLSVerify"; "throw"; "batch"; "batchPerHost"; "rps"; "httpDebug";
   "noVUConnectionReuse"; "maxRedirects"; "discardResponseBodies"; "setupTimeout"; "teardownTimeout"; "ext";
   "tags"; "systemTags"; "summaryTrendStats"; "summaryTimeUnit"; "dns"; "tlsCipherSuites"; "tlsVersion";
   "tlsAuth"; "blacklistIPs"; "blockHostnames"; "noUsageReport"; "cloud"; "minIterationDuration";
   "gracefulRampDown"; "gracefulStop"; "executor"; "env"].

(** [scMap["executor"].(string)], empty when it is something else. *)
Definition scenario_executor (scMap : list (string * json)) : string :=
  default "" (as_string (jget "executor" scMap)).

(** The stages of a scenario, as the loops read them. *)
Definition config_stage (stageRaw : json) : option Stage :=
  stageMap ← as_object (Some stageRaw);
  Some (mkStage (default "" (as_string (jget "duration" stageMap)))
          (match as_float (jget "target" stageMap) with Some t => f_to_int t | None => 0 end)).

(** An integer member, below [lo] replaced by a default. *)
Definition int_member (key : string) (lo dflt : Z) (scMap : list (string * json)) : Z :=
  let v := match as_float (jget key scMap) with Some x => f_to_int x | None => 0 end in
  if v <? lo then dflt else v.

Definition controlled (maxVUs durationSec : Z) : json :=
  JObj [("executor", JStr "externally-controlled"); ("vus", jint 0); ("maxVUs", jint maxVUs);
        ("duration", JStr (seconds_text durationSec))].

(** A Go map whose values are replaced one by one. *)
Definition map_entries (f : json -> json) (l : list (string * json)) : list (string * json) :=
  map (fun kv => (kv.1, f kv.2)) (jentries l).

(** [divideIntVal]. *)
Definition divideIntVal (key : string) (workers : Z) (m : list (string * json)) : list (string * json) :=
  match as_float (jget key m) with
  | None => m
  | Some v =>
    if f_le v f_zero then m
    else
      let divided := f_ceil (f_div v (f_of_Z workers)) in
      jset key (jfloat (if f_lt divided f_one then f_one else divided)) m
  end.

Definition divide_stage (workers : Z) (stageRaw : json) : json :=
  match stageRaw with JObj m => JObj (divideIntVal "target" workers m) | j => j end.

(** The body of the loop of [divideForWorkers]. *)
Definition divide_scenario (workers : Z) (sc : json) : json :=
  match sc with
  | JObj scMap =>
    let executor := scenario_executor scMap in
    let pool m := divideIntVal "maxVUs" workers (divideIntVal "preAllocatedVUs" workers m) in
    if String.eqb executor "constant-arrival-rate" then JObj (pool (divideIntVal "rate" workers scMap))
    else if String.eqb executor "ramping-arrival-rate" then
      let scMap := pool (divideIntVal "startRate" workers scMap) in
      match as_array (jget "stages" scMap) with
      | Some stages => JObj (jset "stages" (JArr (map (divide_stage workers) stages)) scMap)
      | None => JObj scMap
      end
    else sc
  | j => j
  end.

Definition divideForWorkers (scenarioMap : list (string * json)) (workerCount : Z) : list (string * json) :=
  map_entries (divide_scenario workerCount) scenarioMap.

Section process.
Context `{MapOrder} `{JsonErrors} (completionBufferSeconds : Z).

Definition DetectExecutorFromConfig (parsed : list (string * json)) : ExecutorType :=
  match jget "scenarios" parsed with
  | None =>
    match jget "stages" parsed with Some _ => ExecutorRampingVUs | None => ExecutorConstantVUs end
  | Some scenarios =>
    match as_object (Some scenarios) with
    | None => ExecutorConstantVUs
    | Some scenarioMap =>
      default ExecutorConstantVUs
        (first_some (fun kv =>
           scMap ← as_object (Some kv.2);
           let executor := scenario_executor scMap in
           if one_of_strings executor
                [ExecutorExternallyControlled; ExecutorConstantVUs; ExecutorRampingVUs;
                 ExecutorConstantArrivalRate; ExecutorRampingArrivalRate]
           then Some executor else None) (range_over (jentries scenarioMap)))
    end
  end.

(** One scenario the controller takes over: its stages and what replaces it. *)
Definition transform_scenario (sc : json) : option (list Stage * json) :=
  scMap ← as_object (Some sc);
  let executor := scenario_executor scMap in
  let dur := default "" (as_string (jget "duration" scMap)) in
  if String.eqb executor "ramping-vus" then
    stagesSlice ← as_array (jget "stages" scMap);
    let stages := omap config_stage stagesSlice in
    Some (stages, controlled (Z.max (max_target stages) 1) (total_duration stages ⊞ completionBufferSeconds))
  else if String.eqb executor "constant-vus" then
    let vus := int_member "vus" 1 1 scMap in
    let durationSec := parseDuration dur in
    let durationSec := (if durationSec <? 1 then 60 else durationSec) ⊞ completionBufferSeconds in
    Some ([mkStage "0s" vus; mkStage dur vus], controlled vus durationSec)
  else if String.eqb executor "externally-controlled" then
    let maxVUs := int_member "maxVUs" 1 50 scMap in
    let durationSec := parseDuration dur in
    let durationSec := if durationSec <? 1 then 120 else durationSec in
    Some ([mkStage "0s" maxVUs; mkStage (seconds_text durationSec) maxVUs],
          JObj (jset "vus" (jint 0) (jset "maxVUs" (jint maxVUs)
                 (jset "duration" (JStr (seconds_text (durationSec ⊞ completionBufferSeconds))) scMap))))
  else None.

(** The stages of all scenarios, in the order of the loop, and the map. *)
Definition transformVUScenarios (scenarioMap : list (string * json)) : list Stage * list (string * json) :=
  foldl (fun acc kv =>
    match transform_scenario kv.2 with
    | Some (stages, sc) => (acc.1 ++ stages, jset kv.1 sc acc.2)
    | None => acc
    end) ([], scenarioMap) (range_over (jentries scenarioMap)).

(** The [env] block as variables. *)
Definition env_vars (parsed : list (string * json)) : option (gmap string string) :=
  match jget "env" parsed with
  | None => Some ∅
  | Some (JObj l) => Some (list_to_map (map (fun kv => (kv.1, sprint kv.2)) (jentries l)))
  | Some _ => None
  end.

(** [f] on the scenarios, when they are an object. *)
Definition on_scenarios (f : list (string * json) -> list (string * json)) (parsed : list (string * json))
  : list (string * json) :=
  match as_object (jget "scenarios" parsed) with
  | Some scenarioMap => jset "scenarios" (JObj (f scenarioMap)) parsed
  | None => parsed
  end.

Definition ValidateAndProcessConfig (content : string) (workerCount : Z) : res ProcessedConfig :=
  if blank content then Err "config is empty"
  else if 1048576 <? str_len content then Err "config exceeds 1 MB size limit"
  else
    match parse_options content with
    | Err e => Err ("invalid JSON: " +:+ e)
    | Ok options =>
      let parsed := default [] options in
      match env_vars parsed with
      | None => Err (quote +:+ "env" +:+ quote +:+ " must be a JSON object with string values")
      | Some envVars =>
        match first_some (fun kv => if one_of_strings kv.1 knownKeys then None else Some kv.1)
                (range_over (jentries parsed)) with
        | Some key => Err ("unknown k6 option key: " +:+ quoted_q key)
        | None =>
          let detectedExecutor := DetectExecutorFromConfig parsed in
          let transform :=
            IsControllable detectedExecutor && negb (String.eqb detectedExecutor ExecutorExternallyControlled) in
          let stages :=
            if transform then (transformVUScenarios (default [] (as_object (jget "scenarios" parsed)))).1
            else [] in
          let parsed := if transform then on_scenarios (fun m => (transformVUScenarios m).2) parsed else parsed in
          let parsed := if 1 <? workerCount then on_scenarios (fun m => divideForWorkers m workerCount) parsed
                        else parsed in
          let text := match options with Some _ => marshal_indent 0 (JObj parsed) | None => "null" end in
          Ok (mkProcessed text envVars detectedExecutor stages)
        end
      end
    end.

(** ** The runtime of a native scenario *)

Definition scenarioDurationSeconds (scMap : list (string * json)) : Z :=
  if one_of_strings (scenario_executor scMap) ["ramping-vus"; "ramping-arrival-rate"] then
    match as_array (jget "stages" scMap) with
    | Some stages => total_duration (omap config_stage stages)
    | None => 0
    end
  else parseDuration (default "" (as_string (jget "duration" scMap))).

Definition EstimateConfiguredExecutionDuration (content : string) : Z :=
  if blank content then 0
  else
    match unmarshal_map content with
    | None => 0
    | Some parsed =>
      let maxSeconds :=
        match as_object (jget "scenarios" parsed) with
        | Some scenarios =>
          foldl (fun m kv => match as_object (Some kv.2) with
                             | Some scMap => let s := scenarioDurationSeconds scMap in if m <? s then s else m
                             | None => m
                             end) 0 (range_over (jentries scenarios))
        | None => 0
        end in
      let maxSeconds :=
        if maxSeconds =? 0 then
          match as_array (jget "stages" parsed) with
          | Some stages => total_duration (omap config_stage stages)
          | None => match as_string (jget "duration" parsed) with
                    | Some dur => parseDuration dur
                    | None => maxSeconds
                    end
          end
        else maxSeconds in
      if maxSeconds <=? 0 then 0 else maxSeconds ⊠ Second
    end.
End process.

(** ** Regular expressions on scripts *)

(** [\s+] followed by what [p] accepts. *)
Fixpoint spaces_then (p : string -> bool) (s : string) : bool :=
  match s with
  | String c s' => re_space c && (p s' || spaces_then p s')
  | EmptyString => false
  end.

(** Some position from which [p] accepts. *)
Fixpoint somewhere (p : string -> bool) (s : string) : bool :=
  p s || match s with String _ s' => somewhere p s' | EmptyString => false end.

(** The text that follows a literal. *)
Definition after_literal (lit : string) (p : string -> bool) (s : string) : bool :=
  match strip_prefix lit s with Some rest => p rest | None => false end.

(** [export\s+(function|const|let|var)\s+NAME]. *)
Definition exports (name : string) (script : string) : bool :=
  somewhere (after_literal "export" (spaces_then (fun s =>
    existsb (fun kw => after_literal kw (spaces_then (String.prefix name)) s)
      ["function"; "const"; "let"; "var"]))) script.

(** ** Warnings about a script and its options *)

Definition redundancy (key : string) : ConflictWarning :=
  mkConflictWarning "redundancy"
    ("'" +:+ key +:+ "' is defined in both the script options and the config file. The config file takes precedence.").

Definition redundantKeys : list string :=
  ["stages"; "vus"; "duration"; "thresholds"; "iterations"; "scenarios"].

Definition redundancy_warnings (scriptContent : string) (config : list (string * json)) : list ConflictWarning :=
  let has_options :=
    existsb (contains scriptContent) ["export const options"; "export let options"; "export var options"] in
  if negb has_options then []
  else
    match omap (fun key => if bool_decide (is_Some (jget key config)) && contains scriptContent key
                           then Some (redundancy key) else None) redundantKeys with
    | [] =>
      if existsb (fun key => bool_decide (is_Some (jget key config))) redundantKeys
      then [mkConflictWarning "redundancy"
              "The script contains an 'export options' block. Config file values will override matching script options."]
      else []
    | ws => ws
    end.

Definition entry_point_warning (scriptContent : string) (kv : string * json) : option ConflictWarning :=
  scMap ← as_object (Some kv.2);
  exec ← as_string (jget "exec" scMap);
  if String.eqb exec "default" || exports exec scriptContent || contains scriptContent ("export function " +:+ exec)
  then None
  else Some (mkConflictWarning "entry_point"
    ("Scenario '" +:+ kv.1 +:+ "' references exec function '" +:+ exec +:+ "' which is not exported in the script.")).

Definition builtins : list string :=
  ["http_req_duration"; "http_req_failed"; "http_req_waiting"; "http_req_connecting";
   "http_req_tls_handshaking"; "http_req_sending"; "http_req_receiving"; "http_req_blocked"; "http_reqs";
   "vus"; "vus_max"; "iterations"; "iteration_duration"; "data_received"; "data_sent"; "checks";
   "group_duration"; "status_4xx"; "status_5xx"; "errors"; "success_rate"].

Definition metric_warning (scriptContent : string) (kv : string * json) : option ConflictWarning :=
  let baseName := match split_on (chr 123) kv.1 with b :: _ => b | [] => "" end in
  if one_of_strings baseName builtins || contains scriptContent baseName then None
  else Some (mkConflictWarning "metric_consistency"
    ("Threshold references metric '" +:+ baseName +:+ "' which does not appear in the script.")).

Section conflicts.
Context `{MapOrder}.

Definition CheckConflicts (scriptContent configContent : string) : list ConflictWarning :=
  match unmarshal_map configContent with
  | None => []
  | Some config =>
    redundancy_warnings scriptContent config ++
    match as_object (jget "scenarios" config) with
    | Some m => omap (entry_point_warning scriptContent) (range_over (jentries m))
    | None => []
    end ++
    match as_object (jget "thresholds" config) with
    | Some m => omap (metric_warning scriptContent) (range_over (jentries m))
    | None => []
    end
  end.
End conflicts.

(** ** Removing the options block of a generated script *)

(** [;\s*?\n] after the closing brace: the text behind it. *)
Fixpoint blank_to_newline (s : string) : option string :=
  match s with
  | EmptyString => None
  | String c s' => if byte_of c =? 10 then Some s' else if re_space c then blank_to_newline s' else None
  end.

(** [.*?^\};\s*?\n]: the text behind the first line that closes the block. *)
Fixpoint close_block (at_line_start : bool) (s : string) : option string :=
  match (if at_line_start then rest ← strip_prefix "};" s; blank_to_newline rest else None) with
  | Some rest => Some rest
  | None => match s with
            | EmptyString => None
            | String c s' => close_block (byte_of c =? 10) s'
            end
  end.

(** [\s*] followed by [p]. *)
Fixpoint spaces_star (p : string -> option string) (s : string) : option string :=
  match p s with
  | Some r => Some r
  | None => match s with
            | String c s' => if re_space c then spaces_star p s' else None
            | EmptyString => None
            end
  end.

(** [\s+] followed by [p]. *)
Definition spaces_plus (p : string -> option string) (s : string) : option string :=
  match s with String c s' => if re_space c then spaces_star p s' else None | EmptyString => None end.

Definition literal (lit : string) (p : string -> option string) (s : string) : option string :=
  rest ← strip_prefix lit s; p rest.

(** The text behind an options block that starts here. *)
Definition options_block (s : string) : option string :=
  literal "export" (spaces_plus (fun s =>
    first_some (fun kw => literal kw (spaces_plus (literal "options" (spaces_star (literal "="
      (spaces_star (literal "{" (close_block false)))))))  s) ["const"; "let"; "var"])) s.

(** [ReplaceAllString(script, "")]; the fuel is the length of the text. *)
Fixpoint strip_options (fuel : nat) (at_line_start : bool) (s : string) : string :=
  match fuel with
  | O => s
  | S fuel =>
    match (if at_line_start then options_block s else None) with
    | Some rest => strip_options fuel true rest
    | None => match s with
              | EmptyString => EmptyString
              | String c s' => String c (strip_options fuel (byte_of c =? 10) s')
              end
    end
  end.

Definition StripScriptOptions (script : string) : string := strip_options (S (String.length script)) true script.

(** ** The environment file of the workers *)

Definition base64_digit (z : Z) : Ascii.ascii :=
  if z <? 26 then chr (65 + z) else if z <? 52 then chr (71 + z) else if z <? 62 then chr (z - 4)
  else if z =? 62 then chr 43 else chr 47.

(** [base64.StdEncoding.EncodeToString]. *)
Fixpoint base64 (s : string) : string :=
  match s with
  | EmptyString => ""
  | String a s1 =>
    let x := byte_of a in
    match s1 with
    | EmptyString => String (base64_digit (x / 4)) (String (base64_digit (x mod 4 * 16)) "==")
    | String b s2 =>
      let y := byte_of b in
      match s2 with
      | EmptyString =>
        String (base64_digit (x / 4)) (String (base64_digit (x mod 4 * 16 + y / 16))
          (String (base64_digit (y mod 16 * 4)) "="))
      | String c s3 =>
        let z := byte_of c in
        String (base64_digit (x / 4)) (String (base64_digit (x mod 4 * 16 + y / 16))
          (String (base64_digit (y mod 16 * 4 + z / 64)) (String (base64_digit (z mod 64)) (base64 s3))))
      end
    end
  end.

Example base64_ex : base64 "light work." = "bGlnaHQgd29yay4=" /\ base64 "~~?" = "fn4/".
Proof. split; reflexivity. Qed.

Definition single_quote : Ascii.ascii := chr 39.

(** [strings.ReplaceAll(value, "'", "'\\''")]. *)
Fixpoint escape_quotes (s : string) : string :=
  match s with
  | EmptyString => ""
  | String c s' =>
    if byte_of c =? 39
    then String single_quote (backslash +:+ String single_quote (String single_quote (escape_quotes s')))
    else String c (escape_quotes s')
  end.

Definition env_assignment (key value : string) : string :=
  key +:+ "=" +:+ String single_quote (escape_quotes value +:+ String single_quote "").

(** The two lines of a variable. *)
Definition env_lines (kv : string * string) : string :=
  let '(key, value) :=
    if String.eqb kv.1 "PAYLOAD_SOURCE_JSON" && negb (blank kv.2)
    then ("PAYLOAD_SOURCE_JSON_B64", base64 kv.2) else kv in
  "export " +:+ env_assignment key value +:+ String (chr 10)
    ("K6_ENV_FLAGS=" +:+ quote +:+ "$K6_ENV_FLAGS -e " +:+ env_assignment key value +:+ quote +:+ String (chr 10) "").

(** What [WriteEnvFile] writes; nothing when it removes the file. *)
Definition env_file `{MapOrder} (envVars : gmap string string) : option string :=
  match map_to_list envVars with
  | [] => None
  | l => Some (String.concat "" (map env_lines (range_over l)))
  end.
