(* ===== verification/K6ConfigSpec.v ===== *)
(** * What a generated script asks of each worker

    The division of a builder test over the workers, on every executor. *)

From S2P Require Import Prelude GoStrings GoFloat Json Model Payload Duration K6Config.

Open Scope Z_scope.
Open Scope go_scope.

(** Numbers far from the limits of 64 bits. *)
Definition moderate (z : Z) : Prop := 0 <= z <= 2 ^ 31.

(** Each of [workers] workers takes [share]: together they reach the total and
    one less each would not. *)
Definition share_of (total workers share : Z) : Prop :=
  total <= share * workers /\ (share - 1) * workers < Z.max total 1.

Lemma divideAcrossWorkers_share (total workers : Z) :
  moderate total -> 1 <= workers <= 2 ^ 31 ->
  share_of total workers (divideAcrossWorkers total workers) /\
  moderate (divideAcrossWorkers total workers) /\
  (1 <= total \/ 1 < workers -> 1 <= divideAcrossWorkers total workers).
Proof.
  unfold moderate, share_of, divideAcrossWorkers. intros Ht Hw. destruct (Z.leb_spec workers 1).
  { assert (workers = 1) as -> by lia. lia. }
  rewrite (i64_id (total + workers)), i64_id by i64_lia.
  rewrite Z.quot_div_nonneg by lia. Z.div_mod_to_equations. nia.
Qed.

(** The largest target. *)
Lemma max_target_zmax (stages : list Stage) : max_target stages = zmax 0 (map stg_Target stages).
Proof.
  unfold max_target, zmax. generalize 0. induction stages as [|s l IH]; intros z; [done|]. cbn. rewrite IH. f_equal.
  destruct (Z.ltb_spec z (stg_Target s)); lia.
Qed.

Lemma max_target_moderate (stages : list Stage) :
  Forall (fun s => moderate (stg_Target s)) stages -> moderate (max_target stages).
Proof.
  intros Hs. rewrite max_target_zmax. unfold moderate in *.
  destruct (zmax_cases (map stg_Target stages) 0) as [->|Hin]; [lia|].
  apply list_elem_of_fmap in Hin as (s & -> & Hin). rewrite Forall_forall in Hs. by apply Hs.
Qed.

(** The headroom of an arrival-rate scenario is at least what is allocated. *)
Lemma arrival_max_vus_ge (maxVUs preAlloc workers : Z) :
  moderate preAlloc -> preAlloc <= arrival_max_vus maxVUs preAlloc workers.
Proof.
  unfold moderate, arrival_max_vus. intros Hp.
  assert (Hd : preAlloc ⊠ 2 = preAlloc * 2) by (rewrite i64_id; [done|i64_lia]).
  destruct (maxVUs <? preAlloc); [lia|]. cbv zeta. destruct (Z.ltb_spec (divideAcrossWorkers maxVUs workers) preAlloc); lia.
Qed.

Definition moderate_request (req : TestRequest) : Prop :=
  moderate (tr_VUs req) /\ moderate (tr_Rate req) /\ moderate (tr_PreAllocatedVUs req) /\
  Forall (fun s => moderate (stg_Target s)) (tr_Stages req).

(** The stages of a worker. *)
Definition stage_share (workers : Z) (s s' : Stage) : Prop :=
  stg_Duration s' = stg_Duration s /\ share_of (stg_Target s) workers (stg_Target s') /\
  (1 < workers -> 1 <= stg_Target s').

(** What a template is filled with. *)
Definition filled (req : TestRequest) (workers : Z) (executor : string) (template : script_template)
    (data : builderTemplateData) : Prop :=
  match template with
  | externallyControlledTemplate =>
    let total := if String.eqb executor "constant-vus" then tr_VUs req else max_target (tr_Stages req) in
    share_of (Z.max total 1) workers (bt_MaxVUs data) /\
    bt_StartVUs data = (if String.eqb executor "constant-vus" then bt_MaxVUs data else 0)
  | constantArrivalRateTemplate =>
    share_of (Z.max (tr_Rate req) 1) workers (bt_Rate data) /\
    1 <= bt_PreAllocatedVUs data <= bt_MaxVUs data /\ bt_TimeUnit data <> "" /\ bt_Duration data <> ""
  | rampingArrivalRateTemplate =>
    Forall2 (stage_share workers) (tr_Stages req) (bt_Stages data) /\
    1 <= bt_PreAllocatedVUs data <= bt_MaxVUs data /\ bt_TimeUnit data <> ""
  end.

Definition template_of (executor : string) : script_template :=
  if String.eqb executor "constant-arrival-rate" then constantArrivalRateTemplate
  else if String.eqb executor "ramping-arrival-rate" then rampingArrivalRateTemplate
  else externallyControlledTemplate.

Section scripts.
Context (completionBufferSeconds : Z) (render : script_template -> builderTemplateData -> string).
Context (req : TestRequest) (workers : Z) (Hreq : moderate_request req) (Hw : 1 <= workers <= 2 ^ 31).

Definition renders (executor : string) (r : BuilderResult) : Prop :=
  exists data, br_Script r = render (template_of executor) data /\
    filled req workers executor (template_of executor) data.

Lemma max_1_moderate (z : Z) : moderate z -> moderate (Z.max z 1).
Proof. unfold moderate. lia. Qed.

Lemma constant_vus_renders : renders "constant-vus" (generateConstantVUs completionBufferSeconds render req workers).
Proof.
  eexists. split; [reflexivity|]. cbn. split; [|done].
  apply divideAcrossWorkers_share; [|done]. apply max_1_moderate, Hreq.
Qed.

Lemma ramping_vus_renders : renders "ramping-vus" (generateRampingVUs completionBufferSeconds render req workers).
Proof.
  eexists. split; [reflexivity|]. cbn. split; [|done].
  destruct Hreq as (_ & _ & _ & Hs). pose proof (max_target_moderate _ Hs) as Hm. unfold moderate, share_of in *.
  rewrite (i64_id (_ + workers)), i64_id by i64_lia. rewrite Z.quot_div_nonneg by lia. Z.div_mod_to_equations. nia.
Qed.

Lemma share_positive (total : Z) : moderate total -> 1 <= total -> 1 <= divideAcrossWorkers total workers /\
  moderate (divideAcrossWorkers total workers).
Proof. intros Ht H1. destruct (divideAcrossWorkers_share total workers Ht Hw) as (_ & Hm & Hp). auto. Qed.

Lemma constant_rate_renders : renders "constant-arrival-rate" (generateConstantArrivalRate render req workers).
Proof.
  destruct Hreq as (_ & Hr & Hp & _). pose proof (max_1_moderate _ Hr) as Hr1.
  eexists. split; [reflexivity|]. cbn. split; [|split].
  - by apply divideAcrossWorkers_share.
  - assert (Hpre : 1 <= (if tr_PreAllocatedVUs req <? 1 then divideAcrossWorkers (Z.max (tr_Rate req) 1) workers
                         else divideAcrossWorkers (tr_PreAllocatedVUs req) workers) /\
                   moderate (if tr_PreAllocatedVUs req <? 1 then divideAcrossWorkers (Z.max (tr_Rate req) 1) workers
                             else divideAcrossWorkers (tr_PreAllocatedVUs req) workers)).
    { destruct (Z.ltb_spec (tr_PreAllocatedVUs req) 1); apply share_positive; auto with lia; lia. }
    destruct Hpre as [H1 Hm]. split; [done|]. by apply arrival_max_vus_ge.
  - split; [destruct (String.eqb_spec (tr_TimeUnit req) "")|destruct (String.eqb_spec (tr_Duration req) "")]; done.
Qed.

Lemma ramping_rate_renders : renders "ramping-arrival-rate" (generateRampingArrivalRate render req workers).
Proof.
  destruct Hreq as (_ & _ & Hp & Hs). pose proof (max_target_moderate _ Hs) as Hmax.
  eexists. split; [reflexivity|]. cbn. split; [|split].
  - apply Forall2_fmap_r. apply Forall_Forall2_diag. eapply Forall_impl; [exact Hs|]. intros s Ht. cbn.
    destruct (divideAcrossWorkers_share (stg_Target s) workers Ht Hw) as (Hsh & _ & Hpos).
    split_and!; [done|done|]. intros ?. cbn. auto.
  - assert (Hpre : 1 <= (if tr_PreAllocatedVUs req <? 1 then Z.max (divideAcrossWorkers (max_target (tr_Stages req)) workers) 1
                         else divideAcrossWorkers (tr_PreAllocatedVUs req) workers) /\
                   moderate (if tr_PreAllocatedVUs req <? 1 then Z.max (divideAcrossWorkers (max_target (tr_Stages req)) workers) 1
                         else divideAcrossWorkers (tr_PreAllocatedVUs req) workers)).
    { destruct (Z.ltb_spec (tr_PreAllocatedVUs req) 1); [|by apply share_positive].
      split; [lia|]. by apply max_1_moderate, divideAcrossWorkers_share. }
    destruct Hpre as [H1 Hm]. split; [done|]. by apply arrival_max_vus_ge.
  - by destruct (String.eqb_spec (tr_TimeUnit req) "").
Qed.
End scripts.

Definition known_executor (req : TestRequest) : string :=
  if String.eqb (tr_Executor req) "" then "ramping-vus" else tr_Executor req.

(** C35: a builder test becomes the script of its executor's template, and fails
    exactly for an unknown executor.  The numbers a worker gets are the total
    divided by the number of workers and rounded up, so the workers together
    are asked for the total at least and for less than one more each; what an
    arrival rate allocates is positive and within its maximum.  With several
    workers a target of zero becomes a target of one.  The numbers of the
    request are so small that nothing overflows ([moderate_request]). *)
Theorem GenerateFromBuilder_spec completionBufferSeconds render (req : TestRequest) (workers : Z) :
  moderate_request req -> workers <= 2 ^ 31 ->
  match GenerateFromBuilder completionBufferSeconds render req workers with
  | Ok r => renders render req (Z.max workers 1) (known_executor req) r
  | Err e => known_executor req ∉ ["constant-vus"; "ramping-vus"; "constant-arrival-rate"; "ramping-arrival-rate"]
  end.
Proof.
  intros Hreq Hw. unfold GenerateFromBuilder. fold (known_executor req).
  assert (Hn : (if workers <? 1 then 1 else workers) = Z.max workers 1) by (destruct (Z.ltb_spec workers 1); lia).
  rewrite Hn. clear Hn. assert (Hw1 : 1 <= Z.max workers 1 <= 2 ^ 31) by lia.
  destruct (String.eqb_spec (known_executor req) "constant-vus") as [->|H1]; [by apply constant_vus_renders|].
  destruct (String.eqb_spec (known_executor req) "ramping-vus") as [->|H2]; [by apply ramping_vus_renders|].
  destruct (String.eqb_spec (known_executor req) "constant-arrival-rate") as [->|H3]; [by apply constant_rate_renders|].
  destruct (String.eqb_spec (known_executor req) "ramping-arrival-rate") as [->|H4]; [by apply ramping_rate_renders|].
  rewrite !not_elem_of_cons. split_and!; [done..|apply not_elem_of_nil].
Qed.

(** Three workers share 100 requests per second. *)
Definition hundred_per_second : TestRequest :=
  zero_TestRequest <| tr_Executor := "constant-arrival-rate" |> <| tr_Rate := 100 |>
    <| tr_Stages := [mkStage "1m" 10; mkStage "30s" 0] |>.

Lemma GenerateFromBuilder_spec_witness :
  moderate_request hundred_per_second /\
  renders (fun _ data => itoa (bt_Rate data)) hundred_per_second 3 "constant-arrival-rate"
    (mkBuilderResult "34" "constant-arrival-rate").
Proof.
  assert (Hm : moderate_request hundred_per_second).
  { unfold moderate_request, moderate. cbn. split_and!; try lia. repeat constructor; cbn; lia. }
  split; [exact Hm|].
  pose proof (GenerateFromBuilder_spec 30 (fun _ data => itoa (bt_Rate data)) hundred_per_second 3 Hm ltac:(lia)) as Hr.
  vm_compute in Hr. vm_compute. exact Hr.
Defined.

(** A ramp down to nothing ends at one request per second for each of three workers. *)
Example ramp_down_ex :
  br_Script (generateRampingArrivalRate (fun _ data => String.concat " " (map (fun s => itoa (stg_Target s)) (bt_Stages data)))
    hundred_per_second 3) = "4 1".
Proof. vm_compute. reflexivity. Qed.
