(* ===== verification/EnvFileSpec.v ===== *)
(** * The environment file as the worker's shell reads it

    The worker sources the file that [WriteEnvFile] writes.  Here is a reader
    for the part of the POSIX shell the file is made of (assignments, quotes,
    backslashes, expansion of variables in double quotes), which gives up on
    anything else, and the claim that a file read by it gives the variables
    back.  Base64, in which one variable is passed, has its decoder. *)

From S2P Require Import Prelude GoStrings Json JsonOut K6Config.

Open Scope Z_scope.
Open Scope go_scope.

(** ** Base64 *)

Definition base64_value (c : Ascii.ascii) : Z :=
  let b := byte_of c in
  if (65 <=? b) && (b <=? 90) then b - 65 else if (97 <=? b) && (b <=? 122) then b - 71
  else if (48 <=? b) && (b <=? 57) then b + 4 else if b =? 43 then 62 else 63.

Fixpoint unbase64 (s : string) : string :=
  match s with
  | String a (String b (String c (String d s'))) =>
    let x := base64_value a in let y := base64_value b in
    let z := base64_value c in let u := base64_value d in
    String (chr (x * 4 + y / 16))
      (if byte_of c =? 61 then ""
       else String (chr (y mod 16 * 16 + z / 4))
              (if byte_of d =? 61 then "" else String (chr (z mod 4 * 64 + u)) (unbase64 s')))
  | _ => ""
  end.

Lemma byte_of_range (c : Ascii.ascii) : 0 <= byte_of c < 256.
Proof. unfold byte_of. pose proof (Ascii.N_ascii_bounded c). lia. Qed.

Lemma chr_byte_of (c : Ascii.ascii) : chr (byte_of c) = c.
Proof. unfold chr, byte_of. rewrite N2Z.id. apply Ascii.ascii_N_embedding. Qed.

Lemma byte_of_chr (z : Z) : 0 <= z < 256 -> byte_of (chr z) = z.
Proof. intros Hz. unfold chr, byte_of. rewrite Ascii.N_ascii_embedding; lia. Qed.

(** Every digit has its value and is none of the characters that mean
    something else: the padding sign, the quotes, the dollar sign. *)
Lemma base64_digit_value (z : Z) :
  0 <= z < 64 ->
  base64_value (base64_digit z) = z /\
  exists b, byte_of (base64_digit z) = b /\ (65 <= b <= 90 \/ 97 <= b <= 122 \/ 48 <= b <= 57 \/ b = 43 \/ b = 47).
Proof.
  intros Hz. unfold base64_value, base64_digit.
  destruct (Z.ltb_spec z 26); [|destruct (Z.ltb_spec z 52); [|destruct (Z.ltb_spec z 62); [|destruct (Z.eqb_spec z 62)]]];
    rewrite ?byte_of_chr by lia; (split; [|eexists; split; [reflexivity|lia]]);
    repeat match goal with
    | |- context [?a <=? ?b] => destruct (Z.leb_spec a b)
    | |- context [?a =? ?b] => destruct (Z.eqb_spec a b)
    end; cbn [andb]; lia.
Qed.

Lemma base64_digit_sign (z : Z) : 0 <= z < 64 -> (byte_of (base64_digit z) =? 61) = false.
Proof. intros Hz. destruct (base64_digit_value z Hz) as [_ (b & -> & Hb)]. apply Z.eqb_neq. lia. Qed.

Lemma base64_value_digit (z : Z) : 0 <= z < 64 -> base64_value (base64_digit z) = z.
Proof. apply base64_digit_value. Qed.

Lemma chr_of (c : Ascii.ascii) (z : Z) : z = byte_of c -> chr z = c.
Proof. intros ->. apply chr_byte_of. Qed.

Lemma unbase64_base64 (s : string) : unbase64 (base64 s) = s.
Proof.
  remember (String.length s) as n eqn:En. revert s En.
  induction n as [n IH] using lt_wf_ind. intros s ->.
  destruct s as [|a [|b [|c s]]]; cbn [base64 unbase64]; [done|..];
    pose proof (byte_of_range a); try pose proof (byte_of_range b); try pose proof (byte_of_range c);
    rewrite ?base64_value_digit, ?base64_digit_sign by (Z.div_mod_to_equations; lia);
    try match goal with |- context [if ?b then _ else _] => change b with true; cbv iota end.
  - f_equal. apply chr_of. Z.div_mod_to_equations; lia.
  - do 2 (f_equal; try (apply chr_of; Z.div_mod_to_equations; lia)).
  - do 3 (f_equal; try (apply chr_of; Z.div_mod_to_equations; lia)). apply (IH (String.length s)); [cbn; lia|done].
Qed.

(** ** Reading assignments *)

Inductive quoting := Plain | Escaped | Single | Double | DoubleEscaped | Expanding (name : string).

Definition name_char (c : Ascii.ascii) : bool :=
  let b := byte_of c in
  (65 <=? b) && (b <=? 90) || (97 <=? b) && (b <=? 122) || (48 <=? b) && (b <=? 57) || (b =? 95).

Definition in_double (c : Ascii.ascii) : option (quoting * string) :=
  let b := byte_of c in
  if b =? 34 then Some (Plain, "")
  else if b =? 92 then Some (DoubleEscaped, "")
  else if b =? 36 then Some (Expanding "", "")
  else if b =? 96 then None
  else Some (Double, String c "").

(** What a character adds to a word and how the next one is read; [None] is
    what this reader does not cover, commands in particular. *)
Definition sh_step (vars : gmap string string) (q : quoting) (c : Ascii.ascii) : option (quoting * string) :=
  let b := byte_of c in
  match q with
  | Plain =>
    if b =? 39 then Some (Single, "") else if b =? 34 then Some (Double, "")
    else if b =? 92 then Some (Escaped, "")
    else if name_char c then Some (Plain, String c "") else None
  | Escaped => if b =? 10 then None else Some (Plain, String c "")
  | Single => if b =? 39 then Some (Plain, "") else Some (Single, String c "")
  | Double => in_double c
  | DoubleEscaped =>
    if b =? 10 then None
    else Some (Double, if (b =? 36) || (b =? 96) || (b =? 34) || (b =? 92) then String c "" else backslash +:+ String c "")
  | Expanding name =>
    if name_char c then Some (Expanding (name +:+ String c ""), "")
    else if String.eqb name "" then None
    else '(q', out) ← in_double c; Some (q', default "" (vars !! name) +:+ out)
  end.

Definition is_plain (q : quoting) : bool := match q with Plain => true | _ => false end.

(** The rest of a word up to the end of its line, and what follows the line. *)
Fixpoint sh_word (vars : gmap string string) (q : quoting) (s : string) : option (string * string) :=
  match s with
  | EmptyString => None
  | String c s' =>
    if is_plain q && (byte_of c =? 10) then Some ("", s')
    else '(q', out) ← sh_step vars q c;
         '(word, rest) ← sh_word vars q' s';
         Some (out +:+ word, rest)
  end.

Fixpoint span_name (s : string) : string * string :=
  match s with
  | EmptyString => ("", "")
  | String c s' => if name_char c then let '(name, rest) := span_name s' in (String c name, rest) else ("", s)
  end.

Fixpoint all_chars (p : Ascii.ascii -> bool) (s : string) : bool :=
  match s with EmptyString => true | String c s' => p c && all_chars p s' end.

Definition is_digit (c : Ascii.ascii) : bool := (48 <=? byte_of c) && (byte_of c <=? 57).

(** A name of a shell variable. *)
Definition shell_name (s : string) : bool :=
  match s with EmptyString => false | String c _ => negb (is_digit c) && all_chars name_char s end.

Definition sh_assignment (vars : gmap string string) (s : string) : option (string * string * string) :=
  let '(name, after) := span_name s in
  match after with
  | String c text =>
    if (byte_of c =? 61) && shell_name name
    then '(value, rest) ← sh_word vars Plain text; Some (name, value, rest) else None
  | EmptyString => None
  end.

Fixpoint drop_prefix (p s : string) : option string :=
  match p, s with
  | EmptyString, _ => Some s
  | String a p', String b s' => if Ascii.eqb a b then drop_prefix p' s' else None
  | _, _ => None
  end.

Record Shell := mkShell { sh_vars : gmap string string; sh_exported : gset string }.

Definition sh_line (s : string) (st : Shell) : option (string * Shell) :=
  match drop_prefix "export " s with
  | Some s =>
    '(name, value, rest) ← sh_assignment (sh_vars st) s;
    Some (rest, mkShell (<[name := value]> (sh_vars st)) ({[name]} ∪ sh_exported st))
  | None =>
    '(name, value, rest) ← sh_assignment (sh_vars st) s;
    Some (rest, mkShell (<[name := value]> (sh_vars st)) (sh_exported st))
  end.

Fixpoint sh_lines (fuel : nat) (s : string) (st : Shell) : option Shell :=
  match s, fuel with
  | EmptyString, _ => Some st
  | _, O => None
  | _, S n => '(rest, st) ← sh_line s st; sh_lines n rest st
  end.

(** A line takes a character at least. *)
Definition sh_source (s : string) (st : Shell) : option Shell := sh_lines (String.length s) s st.

(** ** What the file says *)

(** The variable as it is passed: the payload's source in base64. *)
Definition passed (kv : string * string) : string * string :=
  if String.eqb kv.1 "PAYLOAD_SOURCE_JSON" && negb (blank kv.2)
  then ("PAYLOAD_SOURCE_JSON_B64", base64 kv.2) else kv.

(** A value that means the same inside double quotes. *)
Definition tame (s : string) : bool :=
  all_chars (fun c => negb ((byte_of c =? 34) || (byte_of c =? 92) || (byte_of c =? 36) || (byte_of c =? 96))) s.

Definition flag_of (kv : string * string) : string := " -e " +:+ env_assignment kv.1 kv.2.

Definition flags_in (vars : gmap string string) : string := default "" (vars !! "K6_ENV_FLAGS").

(** The shell after the two lines of a variable. *)
Definition passing (st : Shell) (kv : string * string) : Shell :=
  let vars := <[kv.1 := kv.2]> (sh_vars st) in
  mkShell (<["K6_ENV_FLAGS" := flags_in vars +:+ flag_of kv]> vars) ({[kv.1]} ∪ sh_exported st).

(** ** Reading the file back *)

#[local] Abbreviation prepend x := (fun wr => (x +:+ wr.1, wr.2)).

Lemma app_nil_l_str (s : string) : "" +:+ s = s.
Proof. done. Qed.

Lemma app_cons_str (c : Ascii.ascii) (s t : string) : String c s +:+ t = String c (s +:+ t).
Proof. done. Qed.

Lemma sh_word_step vars q c s q' out :
  is_plain q && (byte_of c =? 10) = false -> sh_step vars q c = Some (q', out) ->
  sh_word vars q (String c s) = prepend out <$> sh_word vars q' s.
Proof. intros Hq Hs. cbn [sh_word]. rewrite Hq, Hs. cbn. by destruct (sh_word vars q' s) as [[w r]|]. Qed.

Lemma prepend_prepend (a b : string) (o : option (string * string)) :
  prepend a <$> (prepend b <$> o) = prepend (a +:+ b) <$> o.
Proof. destruct o as [[w r]|]; [|done]. cbn. by rewrite string_app_assoc. Qed.

Lemma prepend_nil (o : option (string * string)) : prepend "" <$> o = o.
Proof. by destruct o as [[w r]|]. Qed.

(** A value in single quotes. *)
Lemma sh_word_single vars (v t : string) :
  sh_word vars Single (escape_quotes v +:+ String single_quote t) = prepend v <$> sh_word vars Plain t.
Proof.
  induction v as [|c v IH]; cbn [escape_quotes].
  - rewrite app_nil_l_str. by erewrite sh_word_step by reflexivity.
  - destruct (Z.eqb_spec (byte_of c) 39) as [E|E].
    + assert (Hc : c = single_quote) by (apply byte_of_inj; by rewrite E). subst c.
      unfold backslash. rewrite !app_cons_str, !app_nil_l_str, ?app_cons_str.
      rewrite (sh_word_step _ _ _ _ Plain "") by reflexivity. rewrite (sh_word_step _ _ _ _ Escaped "") by reflexivity.
      rewrite (sh_word_step _ _ _ _ Plain (String single_quote "")) by reflexivity.
      rewrite (sh_word_step _ _ _ _ Single "") by reflexivity. by rewrite IH, !prepend_prepend.
    + rewrite app_cons_str, (sh_word_step _ _ _ _ Single (String c "")), IH; [|done|].
      * by rewrite prepend_prepend.
      * cbn. by rewrite (proj2 (Z.eqb_neq _ _) E).
Qed.

(** Tame text in double quotes. *)
Lemma sh_word_double vars (v t : string) :
  tame v = true -> sh_word vars Double (v +:+ t) = prepend v <$> sh_word vars Double t.
Proof.
  induction v as [|c v IH]; cbn [tame all_chars]; [by rewrite app_nil_l_str, prepend_nil|].
  intros Hv. apply andb_true_iff in Hv as [Hc Hv].
  rewrite app_cons_str, (sh_word_step _ _ _ _ Double (String c "")), IH; [by rewrite prepend_prepend|done|done|].
  cbn. unfold in_double. bool_prop. by repeat case_match; bool_prop.
Qed.

Lemma escape_quotes_app (c : Ascii.ascii) (v : string) :
  escape_quotes (String c v) = escape_quotes (String c "") +:+ escape_quotes v.
Proof. cbn [escape_quotes]. by destruct (byte_of c =? 39). Qed.

(** Escaped single quotes stay as they are there. *)
Lemma sh_word_double_escaped vars (v t : string) :
  tame v = true ->
  sh_word vars Double (escape_quotes v +:+ t) = prepend (escape_quotes v) <$> sh_word vars Double t.
Proof.
  induction v as [|c v IH]; cbn [tame all_chars]; [by rewrite app_nil_l_str, prepend_nil|].
  intros Hv. apply andb_true_iff in Hv as [Hc Hv].
  rewrite escape_quotes_app, string_app_assoc, <- prepend_prepend, <- IH by done.
  generalize (escape_quotes v +:+ t). intros u. cbn [escape_quotes]. destruct (byte_of c =? 39).
  - unfold backslash. rewrite !app_cons_str, !app_nil_l_str, ?app_cons_str, ?app_nil_l_str.
    rewrite (sh_word_step _ _ _ _ Double (String single_quote "")) by reflexivity.
    rewrite (sh_word_step _ _ _ _ DoubleEscaped "") by reflexivity.
    rewrite (sh_word_step _ _ _ _ Double (backslash +:+ String single_quote "")) by reflexivity.
    rewrite (sh_word_step _ _ _ _ Double (String single_quote "")) by reflexivity. by rewrite !prepend_prepend.
  - apply (sh_word_double _ (String c "")). cbn [tame all_chars]. by rewrite Hc.
Qed.

(** The two lines of a variable. *)
Lemma span_name_app (k t : string) (c : Ascii.ascii) :
  all_chars name_char k = true -> name_char c = false -> span_name (k +:+ String c t) = (k, String c t).
Proof.
  intros Hk Hc. induction k as [|a k IH]; cbn [all_chars] in Hk.
  - rewrite app_nil_l_str. cbn [span_name]. by rewrite Hc.
  - apply andb_true_iff in Hk as [Ha Hk]. rewrite app_cons_str. cbn [span_name]. by rewrite Ha, IH.
Qed.

Lemma drop_prefix_app (p s : string) : drop_prefix p (p +:+ s) = Some s.
Proof. induction p as [|a p IH]; [done|]. rewrite app_cons_str. cbn [drop_prefix]. by rewrite Ascii.eqb_refl. Qed.

Lemma shell_name_chars (k : string) : shell_name k = true -> all_chars name_char k = true.
Proof. destruct k; [done|]. cbn [shell_name]. intros H. by apply andb_true_iff in H as [_ ?]. Qed.

Lemma name_chars_tame (k : string) : all_chars name_char k = true -> tame k = true.
Proof.
  induction k as [|c k IH]; [done|]. unfold tame. cbn [all_chars]. intros H. apply andb_true_iff in H as [Hc H].
  apply andb_true_iff. split; [|by apply IH]. unfold name_char in Hc. apply negb_true_iff.
  destruct (Z.eqb_spec (byte_of c) 34), (Z.eqb_spec (byte_of c) 92), (Z.eqb_spec (byte_of c) 36), (Z.eqb_spec (byte_of c) 96);
    repeat match goal with E : byte_of c = _ |- _ => rewrite E in Hc end; done.
Qed.

Lemma sh_assignment_quoted vars (k v rest : string) :
  shell_name k = true ->
  sh_assignment vars (env_assignment k v +:+ String (chr 10) rest) = Some (k, v, rest).
Proof.
  intros Hk. unfold env_assignment, sh_assignment. rewrite !string_app_assoc.
  change ("=" +:+ ?t) with (String (chr 61) t). rewrite span_name_app by (auto using shell_name_chars).
  rewrite Hk. rewrite !app_cons_str, (sh_word_step _ _ _ _ Single "") by reflexivity.
  rewrite string_app_assoc, app_cons_str, app_nil_l_str, sh_word_single. change (sh_word vars Plain (String (chr 10) rest)) with (Some ("", rest)). cbn. by rewrite string_app_nil_r.
Qed.

Lemma sh_word_flags vars (t : string) :
  sh_word vars Double ("$K6_ENV_FLAGS -e " +:+ t) = prepend (flags_in vars +:+ " -e ") <$> sh_word vars Double t.
Proof.
  change ("$K6_ENV_FLAGS -e " +:+ t) with (String (chr 36) ("K6_ENV_FLAGS" +:+ String (chr 32) ("-e " +:+ t))).
  rewrite (sh_word_step _ _ _ _ (Expanding "") "") by reflexivity.
  assert (Hn : forall n a u, all_chars name_char n = true ->
            sh_word vars (Expanding a) (n +:+ u) = sh_word vars (Expanding (a +:+ n)) u).
  { induction n as [|c n IH]; intros a u Hn.
    - by rewrite string_app_nil_r.
    - apply andb_true_iff in Hn as [Hc Hn]. rewrite app_cons_str.
      rewrite (sh_word_step _ _ _ _ (Expanding (a +:+ String c "")) "") by (try done; cbn; by rewrite Hc).
      by rewrite prepend_nil, IH, string_app_assoc. }
  rewrite Hn by done. rewrite app_nil_l_str.
  rewrite (sh_word_step _ _ _ _ Double (flags_in vars +:+ " ")) by reflexivity.
  rewrite sh_word_double by done. by rewrite !prepend_prepend, app_nil_l_str, !string_app_assoc.
Qed.

Lemma sh_assignment_flags vars (k v rest : string) :
  shell_name k = true -> tame v = true ->
  sh_assignment vars ("K6_ENV_FLAGS=" +:+ quote +:+ "$K6_ENV_FLAGS -e " +:+ env_assignment k v +:+ quote +:+
                      String (chr 10) rest) =
  Some ("K6_ENV_FLAGS", flags_in vars +:+ flag_of (k, v), rest).
Proof.
  intros Hk Hv. change ("K6_ENV_FLAGS=" +:+ ?t) with ("K6_ENV_FLAGS" +:+ String (chr 61) t).
  unfold sh_assignment. rewrite span_name_app by done. cbn [byte_of].
  change ((byte_of (chr 61) =? 61) && shell_name "K6_ENV_FLAGS") with true. cbv iota.
  unfold quote at 1. rewrite app_cons_str, app_nil_l_str, (sh_word_step _ _ _ _ Double "") by reflexivity.
  rewrite prepend_nil, sh_word_flags. unfold env_assignment.
  rewrite !string_app_assoc, ?app_cons_str, ?string_app_assoc.
  rewrite sh_word_double by (apply name_chars_tame; auto using shell_name_chars).
  rewrite ?app_nil_l_str, (sh_word_step _ _ _ _ Double "=") by reflexivity.
  rewrite (sh_word_step _ _ _ _ Double (String single_quote "")) by reflexivity.
  rewrite sh_word_double_escaped by done. rewrite app_cons_str, app_nil_l_str.
  rewrite (sh_word_step _ _ _ _ Double (String single_quote "")) by reflexivity.
  unfold quote. rewrite app_cons_str, app_nil_l_str, (sh_word_step _ _ _ _ Plain "") by reflexivity.
  change (sh_word vars Plain (String (chr 10) rest)) with (Some ("", rest)).
  rewrite !prepend_prepend. cbn. unfold flag_of, env_assignment. by rewrite !string_app_assoc.
Qed.

(** The lines of a variable do what [passing] says. *)
Lemma sh_lines_entry (fuel : nat) (kv : string * string) (rest : string) (st : Shell) :
  shell_name (passed kv).1 = true -> tame (passed kv).2 = true ->
  sh_lines (S (S fuel)) (env_lines kv +:+ rest) st = sh_lines fuel rest (passing st (passed kv)).
Proof.
  assert (He : env_lines kv = let '(k, v) := passed kv in
            "export " +:+ env_assignment k v +:+ String (chr 10)
              ("K6_ENV_FLAGS=" +:+ quote +:+ "$K6_ENV_FLAGS -e " +:+ env_assignment k v +:+ quote +:+ String (chr 10) ""))
    by done.
  rewrite He. destruct (passed kv) as [k v]. cbn [fst snd]. intros Hk Hv.
  set (second := "K6_ENV_FLAGS=" +:+ quote +:+ "$K6_ENV_FLAGS -e " +:+ env_assignment k v +:+ quote +:+
                 String (chr 10) rest).
  assert (Ht : ("export " +:+ env_assignment k v +:+ String (chr 10)
                 ("K6_ENV_FLAGS=" +:+ quote +:+ "$K6_ENV_FLAGS -e " +:+ env_assignment k v +:+ quote +:+
                  String (chr 10) "")) +:+ rest =
               "export " +:+ env_assignment k v +:+ String (chr 10) second).
  { unfold second. by rewrite !string_app_assoc, (app_cons_str (chr 10)), !string_app_assoc. }
  rewrite Ht.
  assert (H1 : sh_line ("export " +:+ env_assignment k v +:+ String (chr 10) second) st =
               Some (second, mkShell (<[k := v]> (sh_vars st)) ({[k]} ∪ sh_exported st))).
  { unfold sh_line. rewrite drop_prefix_app, sh_assignment_quoted by done. done. }
  assert (H2 : sh_line second (mkShell (<[k := v]> (sh_vars st)) ({[k]} ∪ sh_exported st)) =
               Some (rest, passing st (k, v))).
  { unfold second, sh_line. change (drop_prefix "export " ("K6_ENV_FLAGS=" +:+ ?t)) with (@None string). cbv iota.
    cbn [sh_vars sh_exported].
    rewrite sh_assignment_flags by done. done. }
  change ("export " +:+ ?t) with (String (chr 101) ("xport " +:+ t)) in *. cbn [sh_lines]. rewrite H1. cbn.
  by rewrite H2.
Qed.

(** ** The whole file *)

Lemma concat_cons (x : string) (l : list string) : String.concat "" (x :: l) = x +:+ String.concat "" l.
Proof. destruct l; [by rewrite string_app_nil_r|done]. Qed.

Definition readable (kv : string * string) : Prop := shell_name (passed kv).1 = true /\ tame (passed kv).2 = true.

Lemma sh_lines_file (l : list (string * string)) (fuel : nat) (st : Shell) :
  Forall readable l ->
  sh_lines (2 * length l + fuel) (String.concat "" (map env_lines l)) st = Some (foldl passing st (map passed l)).
Proof.
  intros Hl. revert st. induction Hl as [|kv l [Hk Hv] Hl IH]; intros st; [by destruct fuel|].
  cbn [map foldl]. rewrite concat_cons. replace (2 * length (kv :: l) + fuel)%nat with (S (S (2 * length l + fuel)))%nat by (cbn; lia).
  by rewrite sh_lines_entry, IH.
Qed.

Lemma entry_length (kv : string * string) : (2 <= String.length (env_lines kv))%nat.
Proof.
  assert (He : exists t, env_lines kv = String (chr 101) (String (chr 120) t)).
  { unfold env_lines. destruct (if _ : bool then _ else kv) as [k v]. by eexists. }
  destruct He as [t ->]. cbn. lia.
Qed.

Lemma file_length (l : list (string * string)) : (2 * length l <= String.length (String.concat "" (map env_lines l)))%nat.
Proof.
  induction l as [|kv l IH]; [done|]. cbn [map]. rewrite concat_cons, string_length_app.
  pose proof (entry_length kv). cbn [length]. lia.
Qed.

(** The shell after the whole file. *)
Lemma passing_all_frame (l : list (string * string)) (st : Shell) (name : string) :
  name <> "K6_ENV_FLAGS" -> name ∉ l.*1 ->
  sh_vars (foldl passing st l) !! name = sh_vars st !! name.
Proof.
  intros Hn. revert st. induction l as [|[k v] l IH]; intros st Hl; [done|]. cbn in *. apply not_elem_of_cons in Hl as [Hk Hl].
  rewrite IH by done. cbn. by rewrite !lookup_insert_ne by congruence.
Qed.

Lemma passing_all_exported (l : list (string * string)) (st : Shell) :
  sh_exported (foldl passing st l) = list_to_set l.*1 ∪ sh_exported st.
Proof. revert st. induction l as [|[k v] l IH]; intros st; cbn; [set_solver|]. rewrite IH. cbn. set_solver. Qed.

Lemma passing_all_value (l : list (string * string)) (st : Shell) (name text : string) :
  NoDup l.*1 -> name <> "K6_ENV_FLAGS" -> (name, text) ∈ l -> sh_vars (foldl passing st l) !! name = Some text.
Proof.
  intros Hl Hn. revert st. induction l as [|[k v] l IH]; intros st Hin; [by apply not_elem_of_nil in Hin|].
  cbn in Hl. apply NoDup_cons in Hl as [Hk Hl]. apply elem_of_cons in Hin as [[= -> ->]|Hin]; cbn; [|by apply IH].
  rewrite passing_all_frame by done. cbn. by rewrite lookup_insert_ne, lookup_insert_eq.
Qed.

Lemma passing_all_flags (l : list (string * string)) (st : Shell) :
  "K6_ENV_FLAGS" ∉ l.*1 ->
  flags_in (sh_vars (foldl passing st l)) = flags_in (sh_vars st) +:+ String.concat "" (map flag_of l).
Proof.
  revert st. induction l as [|[k v] l IH]; intros st Hl; [by rewrite string_app_nil_r|].
  cbn in Hl. apply not_elem_of_cons in Hl as [Hk Hl]. cbn [foldl map]. rewrite IH, concat_cons by done.
  unfold flags_in at 1. cbn. rewrite lookup_insert_eq. cbn. unfold flags_in. rewrite lookup_insert_ne by congruence.
  by rewrite string_app_assoc.
Qed.

(** Two variables are not passed under one name. *)
Lemma passed_cases (kv : string * string) :
  passed kv = kv \/ kv.1 = "PAYLOAD_SOURCE_JSON" /\ passed kv = ("PAYLOAD_SOURCE_JSON_B64", base64 kv.2).
Proof.
  unfold passed. destruct (String.eqb_spec kv.1 "PAYLOAD_SOURCE_JSON"); [|by left].
  destruct (negb (blank kv.2)); [by right|by left].
Qed.

Lemma elem_of_passed (name : string) (l : list (string * string)) :
  name ∈ (map passed l).*1 -> name = "PAYLOAD_SOURCE_JSON_B64" \/ name ∈ l.*1.
Proof.
  intros Hin. apply list_elem_of_fmap in Hin as (kv' & -> & Hin).
  apply list_elem_of_In, in_map_iff in Hin as (kv & <- & Hin). apply list_elem_of_In in Hin.
  destruct (passed_cases kv) as [->|[_ ->]]; [right; by apply list_elem_of_fmap_2|by left].
Qed.

Lemma passed_names (l : list (string * string)) :
  NoDup l.*1 -> "PAYLOAD_SOURCE_JSON_B64" ∉ l.*1 -> NoDup (map passed l).*1.
Proof.
  induction l as [|kv l IH]; intros Hl Hb; [constructor|]. cbn in *. apply NoDup_cons in Hl as [Hk Hl].
  apply not_elem_of_cons in Hb as [Hkb Hb]. constructor; [|by apply IH].
  destruct (passed_cases kv) as [E|[E E']]; rewrite ?E, ?E'; cbn [fst].
  - intros Hin. apply elem_of_passed in Hin as [Hin|Hin]; congruence.
  - intros Hin. apply list_elem_of_fmap in Hin as (kv' & Heq & Hin).
    apply list_elem_of_In, in_map_iff in Hin as (kv0 & <- & Hin). apply list_elem_of_In in Hin.
    assert (H0 : kv0.1 ∈ l.*1) by (by apply list_elem_of_fmap_2).
    destruct (passed_cases kv0) as [F|[F _]]; [rewrite F in Heq|]; congruence.
Qed.

Section file.
Context `{MapOrder} (envVars : gmap string string).
Hypothesis Hvars : forall k v, envVars !! k = Some v ->
  readable (k, v) /\ k <> "K6_ENV_FLAGS" /\ k <> "PAYLOAD_SOURCE_JSON_B64".

Lemma entries_in (k v : string) : (k, v) ∈ range_over (map_to_list envVars) <-> envVars !! k = Some v.
Proof. by rewrite range_over_perm, elem_of_map_to_list. Qed.

Lemma entry_names (name : string) : name ∈ (range_over (map_to_list envVars)).*1 <-> is_Some (envVars !! name).
Proof.
  rewrite list_elem_of_fmap. split.
  - intros ([k v] & -> & Hin). apply entries_in in Hin. by eexists.
  - intros [v Hv]. exists (name, v). split; [done|]. by apply entries_in.
Qed.

Lemma passed_nodup : NoDup (map passed (range_over (map_to_list envVars))).*1.
Proof.
  apply passed_names; [rewrite range_over_perm; apply NoDup_fst_map_to_list|].
  rewrite entry_names. intros [v Hv]. by destruct (Hvars _ _ Hv) as (_ & _ & ?).
Qed.

Lemma file_source (content : string) (st : Shell) :
  env_file envVars = Some content ->
  sh_source content st = Some (foldl passing st (map passed (range_over (map_to_list envVars)))).
Proof.
  intros Hf. assert (Hc : content = String.concat "" (map env_lines (range_over (map_to_list envVars)))).
  { unfold env_file in Hf. destruct (map_to_list envVars); congruence. }
  subst content. unfold sh_source.
  pose proof (file_length (range_over (map_to_list envVars))) as Hn.
  rewrite (Nat.le_add_sub _ _ Hn). apply sh_lines_file.
  apply Forall_forall. intros [k v] Hin. by apply Hvars, entries_in.
Qed.

Lemma file_variable (st : Shell) (k v : string) :
  envVars !! k = Some v ->
  let st' := foldl passing st (map passed (range_over (map_to_list envVars))) in
  exists name text, sh_vars st' !! name = Some text /\ name ∈ sh_exported st' /\
    (name = k /\ text = v \/ k = "PAYLOAD_SOURCE_JSON" /\ name = "PAYLOAD_SOURCE_JSON_B64" /\ unbase64 text = v).
Proof.
  intros Hk st'. exists (passed (k, v)).1, (passed (k, v)).2.
  assert (Hin : passed (k, v) ∈ map passed (range_over (map_to_list envVars)))
    by (apply list_elem_of_In, in_map, list_elem_of_In, entries_in, Hk).
  split_and!.
  - apply passing_all_value; [apply passed_nodup| |by rewrite <- surjective_pairing].
    destruct (passed_cases (k, v)) as [->|[_ ->]]; [by destruct (Hvars _ _ Hk) as (_ & ? & _)|done].
  - unfold st'. rewrite passing_all_exported. apply elem_of_union_l, elem_of_list_to_set. by apply list_elem_of_fmap_2.
  - destruct (passed_cases (k, v)) as [->|[Ek ->]]; [by left|right]. split_and!; [done..|apply unbase64_base64].
Qed.

Lemma file_frame (st : Shell) (name : string) :
  name <> "PAYLOAD_SOURCE_JSON_B64" -> envVars !! name = None ->
  name ∉ (map passed (range_over (map_to_list envVars))).*1.
Proof.
  intros Hb Hn Hin. apply elem_of_passed in Hin as [?|Hin]; [done|]. apply entry_names in Hin as [v Hv]. congruence.
Qed.

Lemma file_flags : "K6_ENV_FLAGS" ∉ (map passed (range_over (map_to_list envVars))).*1.
Proof.
  intros Hin. apply elem_of_passed in Hin as [?|Hin]; [done|]. apply entry_names in Hin as [v Hv].
  by destruct (Hvars _ _ Hv) as (_ & ? & _).
Qed.

(** C34: a file of environment variables with shell names, whose values hold no
    double quote, backslash, dollar sign or backquote as they are passed, is
    read by the shell without running a command: every variable is exported
    with its value, the payload's source as the base64 text that decodes to it,
    every one is listed once in [K6_ENV_FLAGS], and no other variable changes.
    The names [K6_ENV_FLAGS] and [PAYLOAD_SOURCE_JSON_B64] are left to the file
    itself. *)
Theorem env_file_roundtrip (content : string) (st : Shell) :
  env_file envVars = Some content ->
  exists st', sh_source content st = Some st' /\
    (forall k v, envVars !! k = Some v ->
       exists name text, sh_vars st' !! name = Some text /\ name ∈ sh_exported st' /\
         (name = k /\ text = v \/
          k = "PAYLOAD_SOURCE_JSON" /\ name = "PAYLOAD_SOURCE_JSON_B64" /\ unbase64 text = v)) /\
    (forall name, name <> "K6_ENV_FLAGS" -> name <> "PAYLOAD_SOURCE_JSON_B64" -> envVars !! name = None ->
       sh_vars st' !! name = sh_vars st !! name) /\
    exists l, l ≡ₚ map passed (map_to_list envVars) /\
      flags_in (sh_vars st') = flags_in (sh_vars st) +:+ String.concat "" (map flag_of l).
Proof.
  intros Hf. eexists. split; [by apply file_source|]. split; [intros k v Hk; by apply file_variable|]. split.
  - intros name Hn Hb Hk. apply passing_all_frame; [done|]. by apply file_frame.
  - eexists. split; [|apply passing_all_flags, file_flags]. apply Permutation_map, range_over_perm.
Qed.
End file.

(** A value with a dollar sign in front of a parenthesis is not only read: the
    second of its lines would run a command. *)
Example command_in_value :
  sh_source (env_lines ("NAME", "$(id)")) (mkShell ∅ ∅) = None.
Proof. vm_compute. reflexivity. Qed.

Definition two_variables : gmap string string :=
  {[ "PAYLOAD_SOURCE_JSON" := "[1]"; "GREETING" := "it's" ]}.

Lemma env_file_roundtrip_witness :
  (forall k v, two_variables !! k = Some v ->
     readable (k, v) /\ k <> "K6_ENV_FLAGS" /\ k <> "PAYLOAD_SOURCE_JSON_B64") /\
  exists content st', @env_file id_map_order two_variables = Some content /\
    sh_source content (mkShell ∅ ∅) = Some st' /\ exists text, "GREETING" ∈ sh_exported st' /\
    sh_vars st' !! "GREETING" = Some text.
Proof.
  assert (Hv : forall k v, two_variables !! k = Some v ->
     readable (k, v) /\ k <> "K6_ENV_FLAGS" /\ k <> "PAYLOAD_SOURCE_JSON_B64").
  { intros k v Hk. unfold two_variables in Hk. rewrite lookup_insert_Some, lookup_singleton_Some in Hk.
    destruct Hk as [[<- <-]|[_ [<- <-]]]; (split; [split; reflexivity|split; discriminate]). }
  split; [exact Hv|].
  assert (Hf : exists content, @env_file id_map_order two_variables = Some content) by (vm_compute; by eexists).
  assert (Hg : two_variables !! "GREETING" = Some "it's") by (vm_compute; reflexivity).
  destruct Hf as [content Hf]. exists content.
  destruct (env_file_roundtrip (H := id_map_order) two_variables Hv content (mkShell ∅ ∅) Hf)
    as (st' & Hs & Hk & _).
  exists st'. split; [exact Hf|]. split; [exact Hs|].
  destruct (Hk "GREETING" "it's" Hg) as (name & text & Ht & He & Hn).
  exists text. destruct Hn as [[-> _]|[Hx _]]; [by split|discriminate].
Defined.
