(* ===== verification/LoadTests.v ===== *)
(** * The table of test runs, and the world of the test handlers

    The statements of [controller/internal/store/store.go] on [load_tests], and
    the state the handlers of tests act on: the tables, the scheduler's
    callbacks, the orchestrator with its poll loops, the ramping manager, the
    registry of uploads, the metadata of the running test and the two shared
    directories.

    A stored result is kept in its decoded form; [marshal_result] is what JSON
    does to it: numbers that JSON cannot express make it fail, and empty lists
    that are left out come back as nil.  (Texts are taken to be valid UTF-8.) *)

From S2P Require Export Prelude Programs GoStrings GoTime GoFloat Json Model Store Scheduler Completion.
From S2P Require Export Orchestrator Ramping Summary Results.

Open Scope Z_scope.
Open Scope go_scope.

(** ** Rows *)

Record LoadTest := mkLoadTest {
  lt_ID : string; lt_ProjectName : string; lt_URL : string; lt_Status : string;
  lt_ResultJSON : option TestResult;
  lt_Executor : string; lt_Stages : list Stage; lt_VUs : Z; lt_Duration : string; lt_Rate : Z;
  lt_TimeUnit : string; lt_PreAllocatedVUs : Z; lt_MaxVUs : Z; lt_SleepSeconds : option float64;
  lt_ScriptContent : string; lt_ConfigContent : string; lt_PayloadSourceJSON : string;
  lt_PayloadContent : string; lt_HTTPMethod : string; lt_ContentType : string;
  lt_AuthConfig : AuthConfig; lt_UserID : Z; lt_Username : string; lt_CreatedAt : Time
}.

#[export] Instance eta_LoadTest : Eta LoadTest := fun l =>
  mkLoadTest (lt_ID l) (lt_ProjectName l) (lt_URL l) (lt_Status l) (lt_ResultJSON l) (lt_Executor l)
    (lt_Stages l) (lt_VUs l) (lt_Duration l) (lt_Rate l) (lt_TimeUnit l) (lt_PreAllocatedVUs l)
    (lt_MaxVUs l) (lt_SleepSeconds l) (lt_ScriptContent l) (lt_ConfigContent l)
    (lt_PayloadSourceJSON l) (lt_PayloadContent l) (lt_HTTPMethod l) (lt_ContentType l)
    (lt_AuthConfig l) (lt_UserID l) (lt_Username l) (lt_CreatedAt l).

(** What a running test will add to its result. *)
Record pendingTestInfo := mkPending {
  pt_Meta : TestMetadata;
  pt_Warnings : list ConflictWarning;
  pt_Executor : string;
  pt_Controllable : bool
}.

(** ** Results in JSON *)

Definition finite (x : float64) : bool := negb (is_nan x || is_inf x).

Definition finite_worker (w : WorkerMetrics) : bool := forallb finite [wm_Requests w; wm_AvgLatency w].

Definition finite_metrics (m : AggregatedMetrics) : bool :=
  forallb finite
    [agg_TotalRequests m; agg_BusinessRequests m; agg_AvgLatency m; agg_MedLatency m; agg_P90Latency m;
     agg_P95Latency m; agg_P99Latency m; agg_MinLatency m; agg_MaxLatency m; agg_ErrorRate m;
     agg_SuccessRate m; agg_RPS m; agg_Iterations m; agg_DataReceived m; agg_DataSent m;
     agg_HTTPFailures m; agg_HTTPSuccesses m; agg_Status4xx m; agg_Status5xx m] &&
  forallb finite_worker (agg_Workers m).

Definition finite_http (h : HTTPMetricsBlock) : bool :=
  forallb finite
    [hm_Requests h; hm_RPS h; hm_Successes h; hm_Failures h; hm_SuccessRate h; hm_ErrorRate h;
     hm_Status2xx h; hm_Status4xx h; hm_Status5xx h; hm_OtherFailures h; hm_NetworkErrors h;
     hm_DataReceivedBytes h; hm_DataSentBytes h].

Definition finite_latency (l : LatencyMetricBlock) : bool :=
  forallb finite [lm_AvgMs l; lm_MedMs l; lm_P90Ms l; lm_P95Ms l; lm_P99Ms l; lm_MinMs l; lm_MaxMs l].

Definition finite_block (b : BreakdownMetricBlock) : bool :=
  forallb finite [bm_AvgMs b; bm_P95Ms b; bm_P99Ms b; bm_MaxMs b].

Definition finite_breakdown (b : LatencyBreakdownBlock) : bool :=
  forallb finite_block
    [lb_Blocked b; lb_Waiting b; lb_Sending b; lb_Receiving b; lb_Connecting b; lb_TLSHandshaking b].

Definition finite_worker_v2 (w : WorkerMetricsV2) : bool :=
  forallb finite
    [wv_Requests w; wv_BusinessRequests w; wv_AuxiliaryRequests w; wv_AvgLatencyMs w; wv_P95LatencyMs w;
     wv_P99LatencyMs w; wv_ErrorRate w; wv_ActiveDurationS w].

Definition finite_v2 (m : MetricsV2) : bool :=
  forallb finite_http [v2_HTTPTotal m; v2_HTTPBusiness m; v2_HTTPAuxiliary m] &&
  forallb finite [mc_Count (v2_Iterations m); mc_Rate (v2_Iterations m); ck_Passes (v2_Checks m);
                  ck_Fails (v2_Checks m); ck_PassRate (v2_Checks m); ck_FailRate (v2_Checks m)] &&
  finite_latency (v2_PrimaryLatency m) &&
  match v2_LatencyBreakdown m with Some b => finite_breakdown b | None => true end &&
  forallb finite_worker_v2 (v2_Workers m).

Definition finite_point (p : TimePoint) : bool :=
  forallb finite
    [tp_ElapsedSec p; tp_RPS p; tp_AvgLatency p; tp_P95Latency p; tp_TotalRequests p;
     tp_BusinessRequests p; tp_ErrorRate p; tp_Status4xx p; tp_Status5xx p].

Definition finite_auth (a : AuthRuntimeMetrics) : bool :=
  forallb finite
    [ar_TokenRequestsTotal a; ar_TokenSuccessTotal a; ar_TokenFailureTotal a; ar_TokenSuccessRate a;
     ar_TokenRequestAvgMs a; ar_TokenRequestP95Ms a; ar_TokenRequestP99Ms a; ar_TokenRequestMaxMs a;
     ar_TokenRefreshTotal a; ar_TokenReuseHitsTotal a] &&
  forallb (fun c => finite c.2) (ar_ResponseStatusCodes a).

Definition finite_metadata (m : TestMetadata) : bool :=
  finite (md_DurationS m) &&
  match md_Payload m with
  | Some p => forallb finite [pm_TargetKiB p; pm_TargetKB p; pm_ActualKiB p; pm_ActualKB p]
  | None => true
  end &&
  match a ← md_Auth m; amd_Metrics a with Some a => finite_auth a | None => true end.

Definition on_some {A} (p : A -> bool) (o : option A) : bool := match o with Some a => p a | None => true end.

(** A list tagged [omitempty] is left out when it is empty. *)
Definition omit_empty {A} (l : option (list A)) : option (list A) :=
  match l with Some [] => None | _ => l end.

Definition decoded_metadata (m : TestMetadata) : TestMetadata :=
  m <| md_ArtifactCollection :=
    (fun c => mkCollection (ac_Status c) (ac_ExpectedWorkerCount c) (ac_ReceivedWorkerSummaryCount c)
                (omit_empty (ac_MissingWorkers c))) <$> md_ArtifactCollection m |>.

(** [json.Marshal], and what [json.Unmarshal] makes of it. *)
Definition marshal_result (r : TestResult) : res TestResult :=
  if on_some finite_metrics (res_Metrics r) && on_some finite_v2 (res_MetricsV2 r) &&
     forallb finite_point (res_TimeSeries r) && on_some finite_metadata (res_Metadata r)
  then Ok (r <| res_Metadata := decoded_metadata <$> res_Metadata r |>)
  else Err "json: unsupported value".

(** ** The world of the handlers *)

Record TestWorld := mkTestWorld {
  tw_world : World;                              (* schedule tables, faults, clocks, UUIDs *)
  tw_tests : gmap string LoadTest;               (* key: column id *)
  tw_orch : Orchestrator;
  tw_loops : gmap nat (string * Z);              (* poll loops: test, ticks *)
  tw_ramp : RampingManager;
  tw_registry : Registry;
  tw_pending : gmap string pendingTestInfo;
  tw_output : directory;                         (* what the workers write *)
  tw_scripts : gmap string string;               (* what the workers read *)
  tw_io : list (option string);                  (* outcome of the next writes *)
  tw_scheduler : option (gmap string string)     (* callbacks of the scheduler, if it is set *)
}.

#[export] Instance eta_TestWorld : Eta TestWorld := fun t =>
  mkTestWorld (tw_world t) (tw_tests t) (tw_orch t) (tw_loops t) (tw_ramp t) (tw_registry t)
    (tw_pending t) (tw_output t) (tw_scripts t) (tw_io t) (tw_scheduler t).

Definition tw_now (t : TestWorld) : Time := now (tw_world t).

(** The clock moves on. *)
Definition pass_time (d : Z) (t : TestWorld) : TestWorld :=
  t <| tw_world := ((tw_world t) <| w_now := w_now (tw_world t) + d |>) |>.

(** The parts of the world a handler reads and writes. *)
Definition get_time : ST TestWorld Time := fun t => (tw_now t, t).
Definition on_orch {A} (f : Orchestrator -> A * Orchestrator) : ST TestWorld A := fun t =>
  let '(a, o) := f (tw_orch t) in (a, t <| tw_orch := o |>).
Definition set_orch (f : Orchestrator -> Orchestrator) : ST TestWorld unit := on_orch (fun o => (tt, f o)).
Definition on_store {A} (m : ST World A) : ST TestWorld A := fun t =>
  let '(a, w) := m (tw_world t) in (a, t <| tw_world := w |>).

Definition registry_snapshot (testID : string) : ST TestWorld (option Snapshot) := fun t =>
  let '(s, r) := Registry_Snapshot (tw_now t) testID (tw_registry t) in (s, t <| tw_registry := r |>).
Definition registry_remove (testID : string) : ST TestWorld unit := fun t =>
  (tt, t <| tw_registry := RemoveRun (tw_now t) (tw_now t) testID (tw_registry t) |>).

(** A statement on [load_tests], with the failures the world prescribes. *)
Definition run_tests_sql {A} (context : string) (stmt : gmap string LoadTest -> res A * gmap string LoadTest)
  : ST TestWorld (res A) := fun t =>
  let w := tw_world t in
  let '(r, db) := stmt (tw_tests t) in
  match w_faults w with
  | Some msg :: fs => (Err (context +:+ msg), t <| tw_world := (w <| w_faults := fs |>) |>)
  | None :: fs => (r, t <| tw_world := (w <| w_faults := fs |>) |> <| tw_tests := db |>)
  | [] => (r, t <| tw_tests := db |>)
  end.

(** ** Statements on [load_tests] *)

(** A row as [scanLoadTest] reads it back: the secret itself is not stored. *)
Definition stored_load_test (lt : LoadTest) : LoadTest :=
  lt <| lt_HTTPMethod := defaultHTTPMethod (lt_HTTPMethod lt) |>
     <| lt_ContentType := defaultContentType (lt_ContentType lt) |>
     <| lt_AuthConfig := (stored_auth (lt_AuthConfig lt)) <| ac_ClientSecretEncrypted := "" |> |>.

(** The new row has no result; its creation time is the server's. *)
Definition CreateLoadTest (lt : LoadTest) : ST TestWorld (res unit) := fun t =>
  run_tests_sql "create load test: " (fun tests =>
    match tests !! lt_ID lt with
    | Some _ => (Err "create load test: Duplicate entry", tests)
    | None =>
      let row := (stored_load_test lt) <| lt_ResultJSON := None |>
                   <| lt_CreatedAt := mkTime (sql_now (w_db_now (tw_world t))) UTC |> in
      (Ok tt, <[lt_ID lt := row]> tests)
    end) t.

Definition UpdateLoadTestResult (id status : string) (resultJSON : option TestResult) : ST TestWorld (res unit) :=
  run_tests_sql "update load test: " (fun tests =>
    (Ok tt, alter (fun r => r <| lt_Status := status |> <| lt_ResultJSON := resultJSON |>) id tests)).

Definition UpdateLoadTestPayloadContent (id payloadContent : string) : ST TestWorld (res unit) :=
  run_tests_sql "update load test payload: " (fun tests =>
    (Ok tt, alter (fun r => r <| lt_PayloadContent := payloadContent |>) id tests)).

Definition GetLoadTest (id : string) : ST TestWorld (res (option LoadTest)) :=
  run_tests_sql "get load test: " (fun tests => (Ok (tests !! id), tests)).

Definition ResetData : ST TestWorld (res unit) :=
  run_tests_sql "" (fun _ => (Ok tt, ∅)).

Definition stale_test (lt : LoadTest) : bool :=
  String.eqb (lt_Status lt) "running" || String.eqb (lt_Status lt) "pending".

(** The answer is the number of rows changed. *)
Definition MarkStaleRunningTests : ST TestWorld (res Z) :=
  run_tests_sql "mark stale tests: " (fun tests =>
    (Ok (Z.of_nat (length (rows_where stale_test tests))),
     (fun lt => if stale_test lt then lt <| lt_Status := "aborted" |> else lt) <$> tests)).

(** The operator LIKE with the search text between wildcards. *)
Class SqlSearch := { sql_like : string -> string -> bool }.

Definition visible `{SqlSearch} (userID : Z) (role search : string) (lt : LoadTest) : bool :=
  (String.eqb role "admin" || (lt_UserID lt =? userID)) &&
  (String.eqb search "" || sql_like search (lt_ProjectName lt) || sql_like search (lt_URL lt)).

(** The columns of the listing. *)
Definition summary_columns (lt : LoadTest) : LoadTest :=
  mkLoadTest (lt_ID lt) (lt_ProjectName lt) (lt_URL lt) (lt_Status lt) (lt_ResultJSON lt) "" [] 0 "" 0
    "" 0 0 None "" "" "" "" "" "" zero_AuthConfig (lt_UserID lt) (lt_Username lt) (lt_CreatedAt lt).

(** ORDER BY with LIMIT and OFFSET: rows created in the same second may come in
    another order for every page. *)
Class PageOrder := page_rows : Z -> Z -> RowOrder.

(** Two statements: the count, then the page, newest first. *)
Definition ListLoadTests `{SqlSearch} `{PageOrder} (userID : Z) (role : string) (limit offset : Z)
    (search : string) : ST TestWorld (res (list LoadTest * Z)) :=
  let rows tests := rows_where (visible userID role search) tests in
  total ← run_tests_sql "count load tests: " (fun tests => (Ok (Z.of_nat (length (rows tests))), tests));
  match total with
  | Err e => mret (Err e)
  | Ok total =>
    page ← run_tests_sql "list load tests: " (fun tests =>
      (Ok (map summary_columns (take (Z.to_nat limit) (drop (Z.to_nat offset)
         (@order_by (page_rows limit offset) _ (fun lt => - unix_ns (lt_CreatedAt lt)) (rows tests))))), tests));
    mret match page with Err e => Err e | Ok l => Ok (l, total) end
  end.
