(* ===== verification/Enrichment.v ===== *)
(** * Merging uploads into a result: [controller/internal/handler/artifact_enrichment.go]

    When a result is stored, and again whenever an upload arrives after that,
    the uploads in the registry are merged into it.  A result refers to its
    metrics and metadata through pointers, and so does the code that holds the
    result: what is written through a pointer is seen by both. *)

From S2P Require Export Prelude Programs GoStrings GoFloat Json Model Completion Summary.
From S2P Require Export Results MetricsV2 LoadTests.

Open Scope Z_scope.
Open Scope go_scope.

(** [applySummaryPercentiles]. *)
Definition applySummaryPercentiles (finalMetrics : AggregatedMetrics) (percentiles : SummaryPercentiles)
  : AggregatedMetrics :=
  let m := finalMetrics <| agg_P99Latency := sp_P99 percentiles |> in
  let m := if f_lt f_zero (sp_P90 percentiles) then m <| agg_P90Latency := sp_P90 percentiles |> else m in
  if f_lt f_zero (sp_P95 percentiles) then m <| agg_P95Latency := sp_P95 percentiles |> else m.

Record summaryCollectionResult := mkCollected {
  scr_Raw : string;
  scr_Loaded : bool;
  scr_ArtifactCollection : ArtifactCollectionMetadata
}.

Definition not_collected (expectedWorkers : list string) : summaryCollectionResult :=
  mkCollected "" false (classifyArtifactCollection expectedWorkers None).

(** The address a pointer holds: nil, or that of the one struct it was set to. *)
Definition address {A} (p : option A) : option unit := (fun _ => tt) <$> p.

(** [reflect.DeepEqual] of two pointers into one result: equal addresses are
    equal, whatever is stored there. *)
Definition same_address (p q : option unit) : bool := bool_decide (p = q).

Section merge.
Context `{MapOrder}.

(** The second part of the answer is [*finalMetrics] afterwards. *)
Definition summaryCollectionFromRaw (expectedWorkers : list string) (raw : string)
    (finalMetrics : option AggregatedMetrics) : res summaryCollectionResult * option AggregatedMetrics :=
  if blank raw then (Err "empty raw summary content", finalMetrics)
  else
    match ParseRawSummaryContent raw with
    | Err e => (Err e, finalMetrics)
    | Ok mergedSummary =>
      let l := ms_TotalLatency mergedSummary in
      (Ok (mkCollected raw true (classifyArtifactCollection expectedWorkers (Some mergedSummary))),
       (fun m => applySummaryPercentiles m (mkPercentiles (sl_P90 l) (sl_P95 l) (sl_P99 l))) <$> finalMetrics)
    end.

(** The result with one field of its metadata replaced. *)
Definition with_metadata (f : TestMetadata -> TestMetadata) (result : TestResult) : TestResult :=
  result <| res_Metadata := f <$> res_Metadata result |>.

Definition merge_summary (snapshot : Snapshot) (result : TestResult) : TestResult * bool :=
  let set_collection c r := with_metadata (fun m => m <| md_ArtifactCollection := Some c |>) r in
  let old := (m ← res_Metadata result; md_ArtifactCollection m) in
  let rawSummary := BuildRawSummary snapshot ArtifactSummary in
  if negb (blank rawSummary) then
    let '(collected, metrics) :=
      summaryCollectionFromRaw (snap_ExpectedWorkers snapshot) rawSummary (res_Metrics result) in
    let result := result <| res_Metrics := metrics |> in
    match collected with
    | Err _ => (result, false)
    | Ok summaryResult =>
      let text_differs := negb (String.eqb (res_SummaryContent result) (scr_Raw summaryResult)) in
      let result := result <| res_SummaryContent := scr_Raw summaryResult |> in
      let differs := negb (bool_decide (old = Some (scr_ArtifactCollection summaryResult))) in
      (set_collection (scr_ArtifactCollection summaryResult) result, text_differs || differs)
    end
  else
    let collection := classifyArtifactCollection (snap_ExpectedWorkers snapshot) None in
    (set_collection collection result, negb (bool_decide (old = Some collection))).

(** [before] is a pointer to the struct that [refreshPayloadMetadata] writes. *)
Definition merge_payload (payloadContent : string) (result : TestResult) : TestResult * bool :=
  if String.eqb payloadContent "" then (result, false)
  else
    let before := address (m ← res_Metadata result; md_Payload m) in
    let result := with_metadata (fun m => refreshPayloadMetadata m payloadContent) result in
    (result, negb (same_address before (address (m ← res_Metadata result; md_Payload m)))).

(** [beforeAuth] is a pointer to the struct that [applyAuthSummaryToMetadata] writes. *)
Definition merge_auth (snapshot : Snapshot) (result : TestResult) : TestResult * bool :=
  let rawAuthSummary := BuildRawSummary snapshot ArtifactAuthSummary in
  if blank rawAuthSummary then (result, false)
  else
    match ParseRawAuthSummaryContent rawAuthSummary with
    | Err _ => (result, false)
    | Ok authSummary =>
      let text_differs := negb (String.eqb (res_AuthSummaryContent result) rawAuthSummary) in
      let beforeAuth := address (m ← res_Metadata result; md_Auth m) in
      let result := with_metadata (fun m => applyAuthSummaryToMetadata m (Some authSummary))
                      (result <| res_AuthSummaryContent := rawAuthSummary |>) in
      (result, text_differs ||
               negb (same_address beforeAuth (address (m ← res_Metadata result; md_Auth m))))
    end.

(** The last part of the answer tells whether anything was seen to change. *)
Definition mergeResultArtifacts (result : TestResult) (snapshot : Snapshot) (payloadFallback : string)
  : TestResult * string * bool :=
  let uploaded := trim_space (FirstArtifactContent snapshot ArtifactPayload) in
  let payloadContent := if String.eqb uploaded "" then trim_space payloadFallback else uploaded in
  let result := match res_Metadata result with
                | Some _ => result
                | None => result <| res_Metadata := Some zero_TestMetadata |>
                end in
  let '(result, changed1) := merge_summary snapshot result in
  let '(result, changed2) := merge_payload payloadContent result in
  let '(result, changed3) := merge_auth snapshot result in
  let changed := changed1 || changed2 || changed3 in
  let result :=
    if changed
    then result <| res_MetricsV2 := buildMetricsV2 (res_Metrics result) (res_SummaryContent result)
                                      (res_Metadata result) |>
    else result in
  (result, payloadContent, changed).

(** [mergeRegistryArtifactsIntoResult], once the snapshot is taken. *)
Definition mergeRegistryArtifactsIntoResult (result : TestResult) (snapshot : option Snapshot)
    (payloadFallback : string) : TestResult * string * bool :=
  match snapshot with
  | None => (result, trim_space payloadFallback, false)
  | Some s => mergeResultArtifacts result s payloadFallback
  end.

(** ** Enriching a stored result *)

(** What is written back: the new payload content, if it changed, and the result. *)
Definition enriched (lt : LoadTest) (snapshot : Snapshot) : option (option string * TestResult) :=
  if negb (String.eqb (lt_Status lt) "completed") then None
  else
    result ← lt_ResultJSON lt;
    let '(enriched, payloadContent, changed) := mergeResultArtifacts result snapshot (lt_PayloadContent lt) in
    if changed then
      Some (if negb (String.eqb payloadContent "") && negb (String.eqb payloadContent (lt_PayloadContent lt))
            then Some payloadContent else None, enriched)
    else None.

(** Reading the snapshot, reading the row and the two updates are separate
    actions. *)
Definition enrichCompletedResultFromRegistry (testID : string) : prog TestWorld (res unit) :=
  snapshot ← act (registry_snapshot testID);
  match snapshot with
  | None => mret (Ok tt)
  | Some snapshot =>
    lt ← act (GetLoadTest testID);
    match lt with
    | Err e => mret (Err e)
    | Ok None => mret (Ok tt)
    | Ok (Some lt) =>
      match enriched lt snapshot with
      | None => mret (Ok tt)
      | Some (payload, result) =>
        match marshal_result result with
        | Err e => mret (Err e)
        | Ok resultJSON =>
          saved ← match payload with
                  | Some content => act (UpdateLoadTestPayloadContent testID content)
                  | None => mret (Ok tt)
                  end;
          match saved with
          | Err e => mret (Err e)
          | Ok _ => act (UpdateLoadTestResult testID (lt_Status lt) (Some resultJSON))
          end
        end
      end
    end
  end.
End merge.
