(* ===== verification/TestHandler.v ===== *)
(** * Running a test: [controller/internal/handler/test.go], part one

    From a request to a running test: the conflict check, the files for the
    workers, the row of the run, the restart of the workers and the start of
    polling.  Every handler is a program: between two of its actions other
    handlers may run.  What the workers answer is an argument; the text of
    generated scripts is the interface [ScriptText], which [ScriptFlow]
    implements. *)

From S2P Require Export Prelude Programs GoStrings GoTime GoFloat Json Model Payload Requests Store.
From S2P Require Export Scheduler Overlap Completion Orchestrator Startup Ramping K6Config.
From S2P Require Export Summary Results MetricsV2 LoadTests Enrichment.

Open Scope Z_scope.
Open Scope go_scope.

(** The texts of scripts: the templates, and the counters and the summary
    export that are added to a script. *)
Class ScriptText := {
  render : script_template -> builderTemplateData -> string;
  InjectStatusCounters : string -> string;
  InjectSummaryExport : string -> string
}.

(** What the controller was configured with. *)
Class TestConfig := {
  internalControllerURL : string;
  completionBuffer : Z;
  SplitHostPort : string -> option string
}.

Record executionPreparation := mkPrepared {
  ep_scriptContent : string;
  ep_configContent : string;
  ep_conflictWarnings : list ConflictWarning;
  ep_configStages : list Stage;
  ep_envVars : gmap string string;
  ep_executorType : ExecutorType;
  ep_controllable : bool;
  ep_payload : option BuilderPayloadArtifacts
}.

#[export] Instance eta_executionPreparation : Eta executionPreparation := fun e =>
  mkPrepared (ep_scriptContent e) (ep_configContent e) (ep_conflictWarnings e) (ep_configStages e)
    (ep_envVars e) (ep_executorType e) (ep_controllable e) (ep_payload e).

(** ** Files for the workers *)

(** A write or a removal, with the outcome the world prescribes. *)
Definition file_op (name : string) (content : option string) : ST TestWorld (option string) := fun t =>
  let done t := t <| tw_scripts := match content with
                                   | Some c => <[name := c]> (tw_scripts t)
                                   | None => delete name (tw_scripts t)
                                   end |> in
  match tw_io t with
  | Some err :: io => (Some err, t <| tw_io := io |>)
  | None :: io => (None, done (t <| tw_io := io |>))
  | [] => (None, done t)
  end.

Definition WriteScript (content : string) : ST TestWorld (option string) :=
  file_op "current-test.js" (Some content).
Definition WriteConfig (content : string) : ST TestWorld (option string) := file_op "config.json" (Some content).
Definition RemoveConfig : ST TestWorld (option string) := file_op "config.json" None.
Definition RemoveEnvFile : ST TestWorld (option string) := file_op "k6-env.sh" None.

(** ** Metadata of the running test *)

Definition savePendingMeta (testID : string) (req : TestRequest) (warnings : list ConflictWarning)
    (executorType : ExecutorType) (controllable : bool) (payload : option BuilderPayloadArtifacts)
  : ST TestWorld unit := fun t =>
  let meta := zero_TestMetadata <| md_Stages := tr_Stages req |> <| md_ScriptURL := tr_URL req |>
                <| md_Payload := newPayloadMetadata payload |>
                <| md_Auth := newAuthMetadata (authConfigFromRuntimeInput (tr_Auth req)) |> in
  (tt, t <| tw_pending := <[testID := mkPending meta warnings executorType controllable]> (tw_pending t) |>).

Definition takePendingMeta (testID : string) : ST TestWorld (option pendingTestInfo) := fun t =>
  match tw_pending t !! testID with
  | None => (None, t)
  | Some pm => (Some pm, t <| tw_pending := delete testID (tw_pending t) |>)
  end.

(** ** Requests *)

Definition effectiveTestURL (req : TestRequest) (envVars : gmap string string) : string :=
  if negb (String.eqb (tr_URL req) "") then tr_URL req
  else
    let target := default "" (envVars !! "TARGET_URL") in
    if negb (String.eqb target "") then target else default "" (envVars !! "BASE_URL").

Definition stage_seconds (stages : list Stage) : Z :=
  foldl (fun total s => total ⊞ ParseK6Duration (stg_Duration s)) 0 stages.

(** [strings.TrimRight(s, "/")]. *)
Definition trim_right_slashes (s : string) : string :=
  string_rev ((fix drop s := match s with
                             | String c s' => if byte_of c =? 47 then drop s' else s
                             | EmptyString => s
                             end) (string_rev s)).

Section handler.
Context `{TzDatabase} `{RowOrder} `{MapOrder} `{UuidSource} `{JsonErrors} `{ErrGroup} `{ScriptText} `{TestConfig}.

Definition expectedRuntimeForExecution (req : TestRequest) (prepared : executionPreparation) : Z :=
  if ep_controllable prepared then 0
  else if negb (blank (ep_configContent prepared))
  then EstimateConfiguredExecutionDuration (ep_configContent prepared)
  else if String.eqb (ep_executorType prepared) ExecutorConstantArrivalRate then
    if blank (tr_Duration req) then Minute else ParseK6Duration (tr_Duration req) ⊠ Second
  else if String.eqb (ep_executorType prepared) ExecutorRampingArrivalRate
  then stage_seconds (tr_Stages req) ⊠ Second
  else 0.

(** A statement's error counts as no conflict; the two readings of the clock
    are one. *)
Definition checkManualStartConflict (confirm : bool) : ST TestWorld (option ScheduleConflict) :=
  if confirm then mret None
  else fun t =>
    let proposed := mkTimeSlot (tw_now t) (add (tw_now t) (2 * Hour)) in
    let '(r, t) := on_store (CheckOverlap proposed "" None) t in
    (match r with Ok c => c | Err _ => None end, t).

(** ** Preparing the execution *)

(** Script and executor: uploaded, or generated for the number of workers. *)
Definition prepare_script (req : TestRequest) (workerCount : Z) : res (string * ExecutorType) :=
  if negb (String.eqb (tr_ScriptContent req) "") then
    match ValidateUpload (tr_ScriptContent req) with
    | Some err => Err ("invalid script: " +:+ err)
    | None => Ok (tr_ScriptContent req, DetectExecutorFromScript (tr_ScriptContent req))
    end
  else
    match GenerateFromBuilder completionBuffer render req workerCount with
    | Err err => Err ("script generation failed: " +:+ err)
    | Ok r => Ok (br_Script r, br_ExecutorType r)
    end.

(** The options text; nothing is a panic. *)
Definition prepare_config (req : TestRequest) : option (res string) :=
  if String.eqb (tr_URL req) "" then Some (Ok (tr_ConfigContent req))
  else if blank (tr_ConfigContent req) then
    (fun r => match r with Err e => Err ("failed to generate builder config: " +:+ e) | ok => ok end)
      <$> BuildBuilderConfig req
  else
    (fun r => match r with Err e => Err ("failed to enrich builder config: " +:+ e) | ok => ok end)
      <$> EnrichBuilderConfig (tr_ConfigContent req) req.

Definition prepare_payload (req : TestRequest) : option (res (option BuilderPayloadArtifacts)) :=
  if String.eqb (tr_URL req) "" then Some (Ok None)
  else
    (fun r => match r with Err e => Err ("invalid builder payload: " +:+ e) | Ok p => Ok (Some p) end)
      <$> BuildBuilderPayloadArtifacts req.

(** The variables of the environment file. *)
Definition prepare_env (req : TestRequest) (env : gmap string string) : gmap string string :=
  let hasBuilder := negb (String.eqb (tr_URL req) "") in
  let env := if hasBuilder then <["TARGET_URL" := tr_URL req]> env else env in
  if hasBuilder && ai_Enabled (tr_Auth req) && negb (blank (ai_ClientSecret (tr_Auth req)))
  then <["AUTH_CLIENT_SECRET" := trim_space (ai_ClientSecret (tr_Auth req))]> env else env.

(** The pure part of [prepareExecution]: what is prepared, and the options file
    to write, if any.  The processed executor counts for uploads only. *)
Definition plan_execution (req : TestRequest) (workerCount : Z)
  : option (res (executionPreparation * option string)) :=
  let hasScript := negb (String.eqb (tr_ScriptContent req) "") in
  match prepare_script req workerCount with
  | Err e => Some (Err e)
  | Ok (scriptContent, executorType) =>
    config ← prepare_config req;
    match config with
    | Err e => Some (Err e)
    | Ok configContent =>
      let scriptContent :=
        if negb hasScript && negb (String.eqb configContent "") then StripScriptOptions scriptContent
        else scriptContent in
      payload ← prepare_payload req;
      match payload with
      | Err e => Some (Err e)
      | Ok payload =>
        let prepared := mkPrepared scriptContent "" [] [] ∅ executorType (IsControllable executorType) payload in
        if String.eqb configContent "" then
          Some (Ok (prepared <| ep_envVars := prepare_env req ∅ |>, None))
        else
          match ValidateAndProcessConfig completionBuffer configContent workerCount with
          | Err e => Some (Err ("invalid config: " +:+ e))
          | Ok processed =>
            let executor := if hasScript && negb (String.eqb (pc_ExecutorType processed) "")
                            then pc_ExecutorType processed else executorType in
            Some (Ok (prepared <| ep_configContent := configContent |>
                        <| ep_configStages := pc_Stages processed |>
                        <| ep_envVars := prepare_env req (pc_EnvVars processed) |>
                        <| ep_executorType := executor |> <| ep_controllable := IsControllable executor |>
                        <| ep_conflictWarnings := CheckConflicts scriptContent (pc_OptionsJSON processed) |>,
                      Some (pc_OptionsJSON processed)))
          end
      end
    end
  end.

(** [WriteEnvFile]: an empty environment removes the file. *)
Definition WriteEnvFile (envVars : gmap string string) : ST TestWorld (option string) :=
  file_op "k6-env.sh" (env_file envVars).

Definition worker_count (t : TestWorld) : Z := Z.of_nat (length (o_workers (tw_orch t))).

Definition prepareExecution (req : TestRequest) : prog TestWorld (option (res executionPreparation)) :=
  act (set_orch (SetPhase PhaseScript "Preparing k6 script..."));;
  workers ← act (fun t => (worker_count t, t));
  match plan_execution req workers with
  | None => mret None
  | Some (Err e) => mret (Some (Err e))
  | Some (Ok (prepared, options)) =>
    failed ← match options with
             | Some text => act (WriteConfig text)
             | None => act RemoveConfig;; mret None
             end;
    match failed with
    | Some e => mret (Some (Err ("failed to write config: " +:+ e)))
    | None =>
      failed ← (if bool_decide (ep_envVars prepared = ∅) then act RemoveEnvFile;; mret None
                else act (WriteEnvFile (ep_envVars prepared)));
      match failed with
      | Some e => mret (Some (Err ("failed to write env file: " +:+ e)))
      | None =>
        let prepared := prepared <| ep_scriptContent := InjectStatusCounters (ep_scriptContent prepared) |> in
        failed ← act (WriteScript (InjectSummaryExport (ep_scriptContent prepared)));
        mret (Some (match failed with
                    | Some e => Err ("failed to write script: " +:+ e)
                    | None => Ok prepared
                    end))
      end
    end
  end.

(** ** Starting the execution *)

Definition running_test (testID : string) (req : TestRequest) (userID : Z) (username : string)
    (prepared : executionPreparation) : LoadTest :=
  mkLoadTest testID (tr_ProjectName req) (effectiveTestURL req (ep_envVars prepared)) "running" None
    (tr_Executor req) (tr_Stages req) (tr_VUs req) (tr_Duration req) (tr_Rate req) (tr_TimeUnit req)
    (tr_PreAllocatedVUs req) (tr_MaxVUs req) (tr_SleepSeconds req) (ep_scriptContent prepared)
    (ep_configContent prepared) (tr_PayloadJSON req)
    (match ep_payload prepared with Some p => pa_Content p | None => "" end)
    (tr_HTTPMethod req) (tr_ContentType req) (authConfigFromRuntimeInput (tr_Auth req)) userID username zero_time.

Definition createRunningLoadTest (req : TestRequest) (userID : Z) (username : string)
    (prepared : executionPreparation) : prog TestWorld (res string) :=
  testID ← act (on_store new_uuid);
  created ← act (CreateLoadTest (running_test testID req userID username prepared));
  mret match created with
       | Err e => Err ("failed to create load test record: " +:+ e)
       | Ok _ => Ok testID
       end.

(** The variables that tell the workers where to upload. *)
Definition upload_env (testID uploadToken : string) (env : gmap string string) : gmap string string :=
  <["SHIVA_ARTIFACT_UPLOAD_ENABLED" := "true"]>
  (<["SHIVA_ARTIFACT_UPLOAD_URL" := trim_right_slashes internalControllerURL]>
  (<["SHIVA_ARTIFACT_UPLOAD_TOKEN" := uploadToken]>
  (<["SHIVA_ARTIFACT_TEST_ID" := testID]>
  (<["SHIVA_ARTIFACT_UPLOAD_POST_RUN_GRACE_S" := "5"]>
  (<["SHIVA_ARTIFACT_UPLOAD_SETTLE_WINDOW_S" := "2"]>
  (<["SHIVA_ARTIFACT_UPLOAD_WATCH_TIMEOUT_S" := "90"]> env)))))).

Definition worker_names (t : TestWorld) : list string := WorkerNames SplitHostPort (o_workers (tw_orch t)).

Definition register_run (testID uploadToken : string) : ST TestWorld unit := fun t =>
  (tt, t <| tw_registry :=
       RegisterRun (tw_now t) (tw_now t) testID (worker_names t) uploadToken (tw_registry t) |>).

Definition configureArtifactUploads (testID : string) (prepared : executionPreparation)
  : prog TestWorld (res unit) :=
  uploadToken ← act (on_store new_uuid);
  act (register_run testID uploadToken);;
  failed ← act (WriteEnvFile (upload_env testID uploadToken (ep_envVars prepared)));
  match failed with
  | None => mret (Ok tt)
  | Some e =>
    act (registry_remove testID);;
    mret (Err ("failed to write env file for artifact uploads: " +:+ e))
  end.

(** What the workers do during a start. *)
Record start_env := mkStartEnv {
  se_stop : list (option string);                     (* answers to the stop *)
  se_rounds : list (list (res K6Status));             (* statuses until the timeout *)
  se_resumes : Z -> list (nat -> option string);      (* answers to the attempts to resume *)
  se_recoveries : Z -> recovery;
  se_kept : gset string                               (* files that cannot be removed *)
}.

Definition stop_all (answers : list (option string)) : ST TestWorld (option string) :=
  on_orch (StopAll answers).

Definition reloadWorkersForExecution (env : start_env) : prog TestWorld (res unit) :=
  act (set_orch (SetPhase PhaseWorkers "Restarting workers to load new script..."));;
  act (stop_all (se_stop env));;
  act (set_orch (SetPhase PhaseWorkers "Waiting for k6 workers to reload..."));;
  match WaitForAllReady (se_rounds env) with
  | None => mret (Ok tt)
  | Some err =>
    act (set_orch (SetPhase PhaseError ("Workers not ready: " +:+ err)));;
    mret (Err ("workers not ready: " +:+ err))
  end.

(** [StartPolling] and the goroutine it starts. *)
Definition start_polling (testID : string) (controllable hasManagedRamp : bool) (expected : Z)
  : ST TestWorld unit := fun t =>
  (tt, t <| tw_orch := StartPolling (tw_now t) testID controllable hasManagedRamp expected (tw_orch t) |>
         <| tw_loops := <[o_polls (tw_orch t) := (testID, 0)]> (tw_loops t) |>).

Definition start_ramping (stages : list Stage) : ST TestWorld unit := fun t =>
  (tt, t <| tw_ramp := RM_Start (tw_now t) stages (tw_ramp t) |>).

Definition startPreparedExecution (env : start_env) (testID : string) (req : TestRequest)
    (prepared : executionPreparation) : prog TestWorld (res unit) :=
  act (set_orch (SetPhase PhaseRunning "Running load test..."));;
  failed ← act (on_orch (ResumeAllForStart (se_resumes env) (se_recoveries env)));
  match failed with
  | Some err =>
    act (UpdateLoadTestResult testID "error" None);;
    act (set_orch (SetPhase PhaseError "Failed to start workers"));;
    mret (Err ("failed to start workers: " +:+ err))
  | None =>
    act (savePendingMeta testID req (ep_conflictWarnings prepared) (ep_executorType prepared)
           (ep_controllable prepared) (ep_payload prepared));;
    let '(rampingStages, hasManagedRamp) :=
      if negb (String.eqb (tr_URL req) "") then resolveBuilderRamping req
      else resolveUploadRamping (ep_configStages prepared) in
    (if hasManagedRamp && (0 <? Z.of_nat (length rampingStages))
     then act (start_ramping rampingStages) else mret tt);;
    act (start_polling testID (ep_controllable prepared) hasManagedRamp
           (expectedRuntimeForExecution req prepared));;
    mret (Ok tt)
  end.

Definition clean_output (kept : gset string) : ST TestWorld unit := fun t =>
  (tt, t <| tw_output := CleanupAuthSummaries kept (CleanupPayloadArtifacts kept
              (CleanupSummaries kept (tw_output t))) |>).

Definition active_test : ST TestWorld string := fun t => (o_activeTestID (tw_orch t), t).

(** The second half of [ExecuteTest]: from the prepared files to the polls. *)
Definition launch (env : start_env) (req : TestRequest) (userID : Z) (username : string)
    (prepared : executionPreparation) : prog TestWorld (res (string * bool * list ConflictWarning)) :=
  act (clean_output (se_kept env));;
  created ← createRunningLoadTest req userID username prepared;
  match created with
  | Err e => mret (Err e)
  | Ok testID =>
    configured ← configureArtifactUploads testID prepared;
    match configured with
    | Err e => act (UpdateLoadTestResult testID "error" None);; mret (Err e)
    | Ok _ =>
      reloaded ← reloadWorkersForExecution env;
      match reloaded with
      | Err e =>
        act (registry_remove testID);;
        act (UpdateLoadTestResult testID "error" None);; mret (Err e)
      | Ok _ =>
        started ← startPreparedExecution env testID req prepared;
        match started with
        | Err e => act (registry_remove testID);; mret (Err e)
        | Ok _ => mret (Ok (testID, ep_controllable prepared, ep_conflictWarnings prepared))
        end
      end
    end
  end.

(** The answer: the test, whether it can be controlled, and the warnings;
    nothing is a panic.  The check that no test is active and the start of
    polling, which makes the test active, are far apart. *)
Definition ExecuteTest (env : start_env) (req : TestRequest) (userID : Z) (username : string)
  : prog TestWorld (option (res (string * bool * list ConflictWarning))) :=
  match validateExecutionRequest req with
  | None => mret None
  | Some (Err e) => mret (Some (Err e))
  | Some (Ok req) =>
    activeID ← act active_test;
    if negb (String.eqb activeID "") then mret (Some (Err ("a test is already running: " +:+ activeID)))
    else
      prepared ← prepareExecution req;
      match prepared with
      | None => mret None
      | Some (Err e) => mret (Some (Err e))
      | Some (Ok prepared) => r ← launch env req userID username prepared; mret (Some r)
      end
  end.
End handler.
