(* ===== verification/TestCompletion.v ===== *)
(** * Completing a test: [controller/internal/handler/test.go], part two

    The end of a run: the last metrics, the wait for the summaries of the
    workers, the stored result, and the handlers that stop, show, pause, resume
    and scale the running test or take an upload.  A wait is an action that
    moves the clock, and so are the calls to the workers and the statements of a
    completion, by times that are arguments.  The scheduler is told of the end of
    a test by one action, which runs its [OnTestComplete]. *)

From S2P Require Export Prelude Programs GoStrings GoTime GoFloat Json Model Requests Store.
From S2P Require Export Scheduler Completion Orchestrator Startup Ramping Summary Results MetricsV2 LoadTests.
From S2P Require Export Enrichment TestHandler.

Open Scope Z_scope.
Open Scope go_scope.

(** ** Deadlines *)

(** [time.Duration(x)] of a float, truncated as the processor does. *)
Definition artifactCollectionGraceWindow (metadata : option TestMetadata) : Z :=
  let minGrace := 10 * Second in
  let maxGrace := 90 * Second in
  match metadata with
  | None => minGrace
  | Some m =>
    let durationBased := f_to_int (f_mul (f_mul (md_DurationS m) (f_of_decimal false 15 (-2))) (f_of_Z Second)) in
    let workerBonus := Z.min (md_WorkerCount m) 10 ⊠ Second in
    let grace := durationBased ⊞ workerBonus in
    if grace <? minGrace then minGrace else if maxGrace <? grace then maxGrace else grace
  end.

(** The deadline of the first collection, and the final one. *)
Definition artifactCollectionDeadlines (t : Time) (window followUpReserve : Z) (reserveForFollowUp : bool)
  : Time * Time :=
  let finalDeadline := add t window in
  (if reserveForFollowUp && (0 <? followUpReserve) && (followUpReserve <? window)
   then add finalDeadline (- followUpReserve) else finalDeadline, finalDeadline).

(** ** What a completion works on *)

Record completionData := mkCompletionData {
  cd_metrics : AggregatedMetrics;
  cd_timeSeries : list TimePoint;
  cd_metadata : TestMetadata;
  cd_warnings : list ConflictWarning
}.

#[export] Instance eta_completionData : Eta completionData := fun c =>
  mkCompletionData (cd_metrics c) (cd_timeSeries c) (cd_metadata c) (cd_warnings c).

(** What the workers do during a completion: their metrics, if the run has
    none, and their answers to the stop; and the time the calls take: to ask
    for the metrics, to stop the workers, and to store the result. *)
Record end_env := mkEndEnv {
  ee_metrics : list (res (gmap string K6Metric));
  ee_stop : list (option string);
  ee_fetchTime : N;
  ee_stopTime : N;
  ee_storeTime : N
}.

Definition spend (d : N) : ST TestWorld unit := fun t => (tt, pass_time (Z.of_N d) t).

Definition buildCompletedResult (testID : string) (metricsV2 : option MetricsV2) (data : completionData)
    (rawSummary rawAuthSummary : string) : TestResult :=
  mkTestResult testID "" "" "completed" (Some (cd_metrics data)) metricsV2 (cd_timeSeries data)
    (Some (cd_metadata data)) (cd_warnings data) rawSummary rawAuthSummary zero_time "".

(** A summary collection that knows more workers than another. *)
Definition better (a b : summaryCollectionResult) : bool :=
  ac_ReceivedWorkerSummaryCount (scr_ArtifactCollection b) <?
  ac_ReceivedWorkerSummaryCount (scr_ArtifactCollection a).

Definition is_complete (c : ArtifactCollectionMetadata) : bool := String.eqb (ac_Status c) "complete".

Section completion.
Context `{TzDatabase} `{RowOrder} `{MapOrder} `{UuidSource} `{JsonErrors} `{ErrGroup} `{ScriptText} `{TestConfig}.

(** The workers are asked when the run has no metrics. *)
Definition latestCompletionMetrics (env : end_env) : prog TestWorld AggregatedMetrics :=
  latest ← act (fun t => (o_latestMetrics (tw_orch t), t));
  match latest with
  | Some m => mret m
  | None => act (spend (ee_fetchTime env));; act (fun t => (FetchFinalMetrics (ee_metrics env) (tw_orch t), t))
  end.

(** The metadata of the pending test, and its warnings. *)
Definition merge_pending (pm : option pendingTestInfo) (metadata : TestMetadata)
  : TestMetadata * list ConflictWarning :=
  match pm with
  | None => (metadata, [])
  | Some pm =>
    let meta := pt_Meta pm in
    (metadata <| md_Stages := md_Stages meta |> <| md_ScriptURL := md_ScriptURL meta |>
              <| md_Payload := md_Payload meta |> <| md_Auth := md_Auth meta |>, pt_Warnings pm)
  end.

Definition buildCompletionData (testID : string) (finalMetrics : AggregatedMetrics) (endTime : Time)
  : ST TestWorld completionData := fun t =>
  let o := tw_orch t in
  let metadata := newTestMetadata (o_testStartTime o) endTime (worker_names t) in
  let '(pm, t) := takePendingMeta testID t in
  let '(metadata, warnings) := merge_pending pm metadata in
  (mkCompletionData (ApplyPeakVUs o finalMetrics) (o_timeSeries o) metadata warnings, t).

(** ** Collecting the summaries *)

(** The uploads of the test, if they parse. *)
Definition loadUploadedSummary (testID : string) (expectedWorkers : list string) (metrics : AggregatedMetrics)
  : ST TestWorld (summaryCollectionResult * AggregatedMetrics) := fun t =>
  let '(snapshot, t) := registry_snapshot testID t in
  match snapshot with
  | None => ((not_collected expectedWorkers, metrics), t)
  | Some s =>
    match summaryCollectionFromRaw expectedWorkers (BuildRawSummary s ArtifactSummary) (Some metrics) with
    | (Ok r, m) => ((r, default metrics m), t)
    | (Err _, m) => ((not_collected expectedWorkers, default metrics m), t)
    end
  end.

(** The files of the workers; the error of a text that does not parse is logged. *)
Definition load_summary_files (expectedWorkers : list string) (metrics : AggregatedMetrics)
  : ST TestWorld (option summaryCollectionResult * AggregatedMetrics) := fun t =>
  let raw := ReadRawSummaries (tw_output t) in
  if blank raw then ((None, metrics), t)
  else match summaryCollectionFromRaw expectedWorkers raw (Some metrics) with
       | (Ok r, m) => ((Some r, default metrics m), t)
       | (Err _, m) => ((None, default metrics m), t)
       end.

Definition summaryPollDelay : Z := Second.

Definition finish_collection (expectedWorkers : list string) (best : summaryCollectionResult)
  : summaryCollectionResult :=
  if scr_Loaded best then best else not_collected expectedWorkers.

(** The attempts until the deadline.  (The context of a completion is never
    cancelled.)  An attempt looks at the uploads, then at the files. *)
Fixpoint collect_loop (fuel : nat) (testID : string) (expectedWorkers : list string) (deadline : Time)
    (best : summaryCollectionResult) (metrics : AggregatedMetrics)
  : prog TestWorld (summaryCollectionResult * AggregatedMetrics) :=
  match fuel with
  | O => mret (finish_collection expectedWorkers best, metrics)
  | S fuel =>
    uploads ← act (loadUploadedSummary testID expectedWorkers metrics);
    let '(uploaded, metrics) := uploads in
    if scr_Loaded uploaded && is_complete (scr_ArtifactCollection uploaded) then mret (uploaded, metrics)
    else
      let best := if scr_Loaded uploaded && better uploaded best then uploaded else best in
      files ← act (load_summary_files expectedWorkers metrics);
      let '(fromFiles, metrics) := files in
      let best := match fromFiles with Some r => if better r best then r else best | None => best end in
      match (r ← fromFiles; if is_complete (scr_ArtifactCollection r) then Some r else None) with
      | Some r => mret (r, metrics)
      | None =>
        t ← act get_time;
        if negb (before t deadline) then mret (finish_collection expectedWorkers best, metrics)
        else
          let waitFor := Z.min summaryPollDelay (sub deadline t) in
          act (fun t => (tt, pass_time waitFor t));;
          collect_loop fuel testID expectedWorkers deadline best metrics
      end
  end.

(** A wait takes a second, but for the last one: with a window of at most 90
    seconds there are fewer than 100 attempts. *)
Definition collect_fuel : nat := 100.

Definition loadCompletionSummary (testID : string) (expectedWorkers : list string) (deadline : Time)
    (metrics : AggregatedMetrics) : prog TestWorld (summaryCollectionResult * AggregatedMetrics) :=
  t ← act (fun t => ((tw_now t, worker_names t), t));
  let '(t, names) := t in
  let expectedWorkers := match expectedWorkers with [] => names | l => l end in
  if sub deadline t <=? 0 then mret (not_collected expectedWorkers, metrics)
  else collect_loop collect_fuel testID expectedWorkers deadline (not_collected expectedWorkers) metrics.

Definition loadCompletionPayloadArtifact (testID : string) : ST TestWorld string := fun t =>
  let '(snapshot, t) := registry_snapshot testID t in
  let content := match snapshot with Some s => FirstArtifactContent s ArtifactPayload | None => "" end in
  (if blank content then ReadPayloadArtifact (tw_output t) else content, t).

Definition loadCompletionAuthSummary (testID : string) (metadata : TestMetadata)
  : ST TestWorld (option AuthSummaryData * string) := fun t =>
  if negb (hasConfiguredAuth (Some metadata)) then ((None, ""), t)
  else
    let '(snapshot, t) := registry_snapshot testID t in
    let raw := match snapshot with Some s => BuildRawSummary s ArtifactAuthSummary | None => "" end in
    match (if blank raw then Err "" else ParseRawAuthSummaryContent raw) with
    | Ok authSummary => ((Some authSummary, raw), t)
    | Err _ =>
      match ReadAndMergeAuthSummaries "" (tw_output t) with
      | Err _ => ((None, ""), t)
      | Ok authSummary => ((Some authSummary, ReadRawAuthSummaries (tw_output t)), t)
      end
    end.

(** ** Storing the result *)

(** The metadata as it is stored. *)
Definition completed_metadata (metadata : TestMetadata) (payloadContent : string)
    (authSummary : option AuthSummaryData) : TestMetadata :=
  let m := applyAuthSummaryToMetadata (refreshPayloadMetadata metadata payloadContent) authSummary in
  match authSummary with None => markAuthMetricsUnavailable m | Some _ => m end.

(** The result, the payload content, and the uploads merged in: also when
    nothing was seen to change, since the metrics and the metadata are shared. *)
Definition completed_result (testID : string) (data : completionData) (rawSummary rawAuthSummary payloadContent : string)
    (snapshot : option Snapshot) : TestResult * string :=
  let metricsV2 := buildMetricsV2 (Some (cd_metrics data)) rawSummary (Some (cd_metadata data)) in
  let result := buildCompletedResult testID metricsV2 data rawSummary rawAuthSummary in
  let '(enriched, merged, changed) := mergeRegistryArtifactsIntoResult result snapshot payloadContent in
  (enriched, if changed then merged else payloadContent).

(** The answer holds [data] as the writes through its pointers leave it. *)
Definition persistCompletedResult (testID : string) (data : completionData)
    (rawSummary rawAuthSummary payloadContent : string) (authSummary : option AuthSummaryData)
  : prog TestWorld (res unit * completionData) :=
  let data := data <| cd_metadata := completed_metadata (cd_metadata data) payloadContent authSummary |> in
  snapshot ← act (registry_snapshot testID);
  let '(result, payloadContent) :=
    completed_result testID data rawSummary rawAuthSummary payloadContent snapshot in
  let data := data <| cd_metrics := default (cd_metrics data) (res_Metrics result) |>
                   <| cd_metadata := default (cd_metadata data) (res_Metadata result) |> in
  match marshal_result result with
  | Err e => mret (Err ("marshal result: " +:+ e), data)
  | Ok resultJSON =>
    saved ← (if String.eqb payloadContent "" then mret (Ok tt)
             else act (UpdateLoadTestPayloadContent testID payloadContent));
    match saved with
    | Err e => mret (Err ("save payload artifact: " +:+ e), data)
    | Ok _ =>
      saved ← act (UpdateLoadTestResult testID "completed" (Some resultJSON));
      mret (match saved with Err e => Err ("save result: " +:+ e) | Ok _ => Ok tt end, data)
    end
  end.

(** The scheduler, as the handlers reach it: the tables of the world and the
    callbacks of its executions. *)
Definition scheduler_of (t : TestWorld) (registered : gmap string string) : Scheduler :=
  mkScheduler (tw_world t) registered true.

(** The report to the scheduler, which writes its tables before it returns. *)
Definition notifyScheduleCompletion (testID status errMsg : string) : ST TestWorld unit := fun t =>
  match tw_scheduler t with
  | None => (tt, t)
  | Some registered =>
    let s := st_exec (OnTestComplete testID status errMsg) (scheduler_of t registered) in
    (tt, t <| tw_world := s_world s |> <| tw_scheduler := Some (callbacks s) |>)
  end.

Definition stop_ramping : ST TestWorld unit := fun t => (tt, t <| tw_ramp := RM_Stop (tw_ramp t) |>).

(** The second collection, after the workers were told to stop. *)
Definition follow_up (env : end_env) (testID : string) (expectedWorkers : list string) (deadline : Time)
    (first : summaryCollectionResult) (metrics : AggregatedMetrics)
  : prog TestWorld (summaryCollectionResult * AggregatedMetrics) :=
  act (stop_all (ee_stop env));;
  act (spend (ee_stopTime env));;
  if is_complete (scr_ArtifactCollection first) then mret (first, metrics)
  else
    t ← act get_time;
    if negb (before t deadline) then mret (first, metrics)
    else
      later ← loadCompletionSummary testID expectedWorkers deadline metrics;
      let '(followUp, metrics) := later in
      mret (if scr_Loaded followUp || better followUp first then followUp else first, metrics).

(** [onTestComplete]; the run is closed in the registry at the end. *)
Definition onTestComplete (env : end_env) (testID : string) : prog TestWorld unit :=
  act stop_ramping;;
  act (set_orch (SetPhase PhaseCollecting "Collecting final metrics and summary data..."));;
  finalMetrics ← latestCompletionMetrics env;
  endTime ← act get_time;
  data ← act (buildCompletionData testID finalMetrics endTime);
  start ← act (fun t => ((tw_now t, worker_names t), t));
  let '(collectionStart, expectedWorkers) := start in
  let '(initialDeadline, deadline) :=
    artifactCollectionDeadlines collectionStart (artifactCollectionGraceWindow (Some (cd_metadata data)))
      (5 * Second) true in
  act (set_orch StopPolling);;
  first ← loadCompletionSummary testID expectedWorkers initialDeadline (cd_metrics data);
  let '(summaryResult, metrics) := first in
  last ← follow_up env testID expectedWorkers deadline summaryResult metrics;
  let '(summaryResult, metrics) := last in
  let data := data <| cd_metrics := metrics |>
    <| cd_metadata := (cd_metadata data) <| md_ArtifactCollection := Some (scr_ArtifactCollection summaryResult) |> |> in
  payloadArtifact ← act (loadCompletionPayloadArtifact testID);
  auth ← act (loadCompletionAuthSummary testID (cd_metadata data));
  let '(authSummary, rawAuthSummary) := auth in
  _ ← persistCompletedResult testID data (scr_Raw summaryResult) rawAuthSummary payloadArtifact authSummary;
  act (spend (ee_storeTime env));;
  act (set_orch (SetPhase PhaseDone testID));;
  act (notifyScheduleCompletion testID "completed" "");;
  act (registry_remove testID).
End completion.
