(* ===== verification/TestApi.v ===== *)
(** * The handlers of the test API: [controller/internal/handler/test.go] and artifacts.go

    Starting, stopping, watching, pausing, resuming and scaling a test, and the
    upload of artifacts.  A request is given decoded; a response is the status
    code and what the body says.  A panic of a handler becomes an empty 500
    response in the router (chi's Recoverer); the scheduler calls [ExecuteTest]
    from a goroutine of its own, where nothing recovers. *)

From S2P Require Export Prelude Programs GoStrings GoTime GoFloat Json Model Requests Store.
From S2P Require Export Scheduler Overlap Completion Orchestrator Startup Ramping Summary Results MetricsV2.
From S2P Require Export LoadTests Enrichment TestHandler TestCompletion.

Open Scope Z_scope.
Open Scope go_scope.

Inductive test_body :=
  | TError (msg : string)
  | TConflict (conflict : ScheduleConflict)
  | TStarted (testID : string) (controllable : bool) (warnings : list ConflictWarning)
  | TStatus (status testID : string)
  | TScaled (testID : string) (vus : Z)
  | TLive (testID status phase message : string) (metrics : option AggregatedMetrics)
          (executor : option (string * bool))
  | TResult (result : TestResult)
  | TWorkers (workers : list WorkerMetrics) (activeTest : string)
  | TAccepted (testID workerID artifactType : string)
  | TUploaded (filename : string)
  | TEmpty.

Record test_response := mkTestResponse { tsp_code : Z; tsp_body : test_body }.

Definition test_error (msg : string) (code : Z) : test_response := mkTestResponse code (TError msg).

(** The text of a phase. *)
Definition phase_text (p : TestPhase) : string :=
  match p with
  | PhaseNone => "" | PhaseScript => "script" | PhaseWorkers => "workers" | PhaseRunning => "running"
  | PhaseCollecting => "collecting" | PhaseDone => "done" | PhaseError => "error"
  end.

(** [classifyK6Error]. *)
Definition classifyK6Error (msg action : string) : test_response :=
  if contains msg "doesn't support pause and resume" then
    test_error "Pause/Resume is only supported for the Ramp Up/Down (Builder) executor. Native k6 executors manage their own schedule." 409
  else if contains msg "externally-controlled executor needs to be configured" then
    test_error "VU scaling is only available for the Ramp Up/Down (Builder) executor." 409
  else test_error ("Failed to " +:+ action +:+ ": " +:+ msg) 502.

Definition upload_error (e : UploadError) : test_response :=
  match e with
  | ErrUnknownRun => test_error "unknown test run" 404
  | ErrUnauthorized => test_error "unauthorized artifact upload" 403
  | ErrUnknownWorker w => test_error ("unknown worker: " +:+ w) 400
  | ErrUnknownArtifact ty => test_error ("unknown artifact type: " +:+ ty) 400
  end.

Section api.
Context `{TzDatabase} `{RowOrder} `{MapOrder} `{UuidSource} `{JsonErrors} `{ErrGroup} `{ScriptText} `{TestConfig}.

(** ** Starting and stopping *)

Definition no_active_test : test_response := test_error "no test is currently running" 404.

(** [StartTest]; [body] is nothing when it cannot be decoded. *)
Definition StartTest (env : start_env) (body : option TestRequest) (confirm : bool) (userID : Z) (username : string)
  : prog TestWorld test_response :=
  match body with
  | None => mret (test_error "invalid request body" 400)
  | Some req =>
    match validateStartRequest req with
    | None => mret (mkTestResponse 500 TEmpty)
    | Some (Err e) => mret (test_error e 400)
    | Some (Ok req) =>
      activeID ← act active_test;
      if negb (String.eqb activeID "") then mret (test_error ("a test is already running: " +:+ activeID) 409)
      else
        conflict ← act (checkManualStartConflict confirm);
        match conflict with
        | Some c => mret (mkTestResponse 409 (TConflict c))
        | None =>
          r ← ExecuteTest env req userID username;
          mret match r with
               | None => mkTestResponse 500 TEmpty
               | Some (Err e) => test_error e 500
               | Some (Ok (testID, controllable, warnings)) =>
                 mkTestResponse 200 (TStarted testID controllable warnings)
               end
        end
    end
  end.

Definition StopTest (env : end_env) : prog TestWorld test_response :=
  testID ← act active_test;
  if String.eqb testID "" then mret no_active_test
  else
    act stop_ramping;;
    act (spend (ee_fetchTime env));;
    finalMetrics ← act (fun t => (FetchFinalMetrics (ee_metrics env) (tw_orch t), t));
    endTime ← act get_time;
    data ← act (buildCompletionData testID finalMetrics endTime);
    act (set_orch StopPolling);;
    act (stop_all (ee_stop env));;
    act (spend (ee_stopTime env));;
    payloadArtifact ← act (loadCompletionPayloadArtifact testID);
    auth ← act (loadCompletionAuthSummary testID (cd_metadata data));
    let '(authSummary, rawAuthSummary) := auth in
    saved ← persistCompletedResult testID data "" rawAuthSummary payloadArtifact authSummary;
    act (spend (ee_storeTime env));;
    match saved with
    | (Err _, _) => mret (test_error "internal error" 500)
    | (Ok _, data) =>
      act (registry_remove testID);;
      act (set_orch (SetPhase PhaseDone testID));;
      act (notifyScheduleCompletion testID "completed" "");;
      mret (mkTestResponse 200 (TResult (buildCompletedResult testID
              (buildMetricsV2 (Some (cd_metrics data)) "" (Some (cd_metadata data))) data "" rawAuthSummary)))
    end.

(** ** Watching *)

Definition GetLiveMetrics : ST TestWorld test_response := fun t =>
  let o := tw_orch t in
  let testID := o_activeTestID o in
  let body :=
    match o_phase o with
    | PhaseDone => TLive (o_phaseMessage o) "completed" "done" "" None None
    | PhaseCollecting => TLive testID "running" "collecting" (o_phaseMessage o) None None
    | phase =>
      if String.eqb testID "" then TLive "" "idle" "idle" "no test is currently running" None None
      else TLive testID "running" (phase_text phase) (o_phaseMessage o) (o_latestMetrics o)
             ((fun pm => (pt_Executor pm, pt_Controllable pm)) <$> tw_pending t !! testID)
    end in
  (mkTestResponse 200 body, t).

Definition GetWorkerStatus (statuses : list (res K6Status)) : ST TestWorld test_response := fun t =>
  let o := tw_orch t in
  (mkTestResponse 200 (TWorkers (CheckWorkers SplitHostPort (o_activeTestID o) (o_workers o) statuses)
                         (o_activeTestID o)), t).

(** ** Steering *)

(** An action of the ramping manager: its error, if any. *)
Definition executeRampingAction (action successStatus : string) (run : ST TestWorld (option string))
  : prog TestWorld test_response :=
  testID ← act active_test;
  if String.eqb testID "" then mret no_active_test
  else
    failed ← act run;
    mret match failed with
         | Some err => classifyK6Error err action
         | None => mkTestResponse 200 (TStatus successStatus testID)
         end.

(** [Ramping.Pause]; [answers] are those of the workers if they are asked. *)
Definition ramping_pause (answers : list (option string)) : ST TestWorld (option string) := fun t =>
  let '(sent, rm) := RM_Pause (tw_now t) (tw_ramp t) in
  (match sent with [] => None | _ => PauseAll answers end, t <| tw_ramp := rm |>).

Definition ramping_resume (answers : list (nat -> option string)) : ST TestWorld (option string) := fun t =>
  let failed := ResumeAll answers in
  let '(_, rm) := RM_Resume (tw_now t) (match failed with Some e => Err e | None => Ok tt end) (tw_ramp t) in
  (failed, t <| tw_ramp := rm |>).

Definition PauseTest (answers : list (option string)) : prog TestWorld test_response :=
  executeRampingAction "pause" "paused" (ramping_pause answers).

Definition ResumeTest (answers : list (nat -> option string)) : prog TestWorld test_response :=
  executeRampingAction "resume" "running" (ramping_resume answers).

(** [body] is nothing when it cannot be decoded; a controller without workers
    panics. *)
Definition ScaleTest (answers : list (option string)) (body : option Z) : prog TestWorld test_response :=
  testID ← act active_test;
  if String.eqb testID "" then mret no_active_test
  else
    match body with
    | None => mret (test_error "invalid request body" 400)
    | Some vus =>
      if vus <? 1 then mret (test_error "vus must be at least 1" 400)
      else
        act (fun t => (tt, t <| tw_ramp := SetManualOverride (tw_now t) vus (tw_ramp t) |>));;
        scaled ← act (fun t => (ScaleVUs vus (tw_orch t), t));
        mret match scaled with
             | None => mkTestResponse 500 TEmpty
             | Some _ =>
               match group_wait answers with
               | Some err => classifyK6Error err "scale VUs"
               | None => mkTestResponse 200 (TScaled testID vus)
               end
             end
    end.

(** ** Files *)

(** [UploadScript]: the decoded form, or the error of reading it. *)
Definition UploadScript (form : test_response + (string * string)) : ST TestWorld test_response :=
  match form with
  | inl failed => mret failed
  | inr (filename, content) =>
    match ValidateUpload content with
    | Some err => mret (test_error ("invalid script: " +:+ err) 400)
    | None =>
      failed ← WriteScript content;
      mret match failed with
           | Some _ => test_error "failed to save script" 500
           | None => mkTestResponse 200 (TUploaded filename)
           end
    end
  end.

Definition store_artifact (testID workerID token artifactType contentType content : string)
  : ST TestWorld (option UploadError) := fun t =>
  let '(e, r) := StoreArtifact (tw_now t) (tw_now t) testID workerID token artifactType contentType content
                   (tw_registry t) in
  (e, t <| tw_registry := r |>).

(** [UploadArtifact]; [body] is nothing when it is too large or cannot be read.
    The error of the enrichment is logged. *)
Definition UploadArtifact (testID workerID artifactType token contentType : string) (body : option string)
  : prog TestWorld test_response :=
  let workerID := trim_space workerID in
  let artifactType := trim_space artifactType in
  match body with
  | None => mret (test_error "invalid artifact upload body" 400)
  | Some content =>
    refused ← act (store_artifact testID workerID (trim_space token) artifactType contentType content);
    match refused with
    | Some e => mret (upload_error e)
    | None =>
      enrichCompletedResultFromRegistry testID;;
      mret (mkTestResponse 202 (TAccepted testID workerID artifactType))
    end
  end.
End api.
