(* ===== verification/ReportSpec.v ===== *)
(** * What the report of a completion changes

    [TestHandler] tells the scheduler that a test has ended by calling its
    [OnTestComplete], which writes the schedule tables before it returns.  This
    file says what such a call can change, for the claims about the handlers
    that make it. *)

From S2P Require Import Prelude GoTime Model Store Recurrence Scheduler LoadTests TestCompletion.

Open Scope Z_scope.
Open Scope go_scope.

(** A schedule is moved on, ended or paused; nothing else of it changes. *)
Definition rescheduled (st st' : ScheduledTest) : Prop :=
  st' = st <| sch_Status := sch_Status st' |> <| sch_ScheduledAt := sch_ScheduledAt st' |>
           <| sch_Paused := sch_Paused st' |>.

(** An execution is ended; it stays the execution of its schedule. *)
Definition concluded (ex ex' : ScheduleExecution) : Prop :=
  ex' = ex <| exe_Status := exe_Status ex' |> <| exe_LoadTestID := exe_LoadTestID ex' |>
           <| exe_StartedAt := exe_StartedAt ex' |> <| exe_EndedAt := exe_EndedAt ex' |>
           <| exe_ErrorMessage := exe_ErrorMessage ex' |> <| exe_ErrorDetail := exe_ErrorDetail ex' |>.

#[export] Instance rescheduled_preorder : PreOrder rescheduled.
Proof. split; [by intros []|]. unfold rescheduled. intros st1 st2 st3 -> ->. by destruct st1, st3. Qed.

#[export] Instance concluded_preorder : PreOrder concluded.
Proof. split; [by intros []|]. unfold concluded. intros ex1 ex2 ex3 -> ->. by destruct ex1, ex3. Qed.

(** No row is added or lost. *)
Definition table_step {A} (R : A -> A -> Prop) (m m' : gmap string A) : Prop :=
  forall k, option_Forall2 R (m !! k) (m' !! k).

#[export] Instance table_step_preorder {A} (R : A -> A -> Prop) `{!PreOrder R} : PreOrder (table_step R).
Proof.
  split; [by intros m k|]. intros m1 m2 m3 H1 H2 k. by etrans; [apply H1|apply H2].
Qed.

Lemma table_step_alter {A} (R : A -> A -> Prop) `{!PreOrder R} (f : A -> A) (id : string) (m : gmap string A) :
  (forall a, R a (f a)) -> table_step R m (alter f id m).
Proof.
  intros Hf k. rewrite lookup_alter. destruct (decide (id = k)) as [<-|]; [|done].
  destruct (m !! id); constructor. apply Hf.
Qed.

Record report_step (s s' : Scheduler) : Prop := mkReportStep {
  rp_schedules : table_step rescheduled (scheduled_tests (w_db (s_world s))) (scheduled_tests (w_db (s_world s')));
  rp_executions : table_step concluded (schedule_executions (w_db (s_world s))) (schedule_executions (w_db (s_world s')));
  rp_uuids : w_uuids (s_world s') = w_uuids (s_world s);
  rp_now : w_now (s_world s') = w_now (s_world s);
  rp_faults : w_faults (s_world s) = [] -> w_faults (s_world s') = [];
  rp_callbacks : callbacks s' ⊆ callbacks s
}.

#[export] Instance report_step_preorder : PreOrder report_step.
Proof.
  split; [by intros s|]. intros s1 s2 s3 [] []. constructor; try (by etrans; eauto); auto.
Qed.

Definition reports {A} (m : ST Scheduler A) : Prop := forall s, report_step s (st_exec m s).

Lemma reports_ret {A} (a : A) : reports (mret a).
Proof. intros s. reflexivity. Qed.

Lemma reports_get : reports st_get.
Proof. intros s. reflexivity. Qed.

Lemma reports_bind {A B} (m : ST Scheduler A) (f : A -> ST Scheduler B) :
  reports m -> (forall a, reports (f a)) -> reports (m ≫= f).
Proof. intros Hm Hf s. rewrite st_exec_bind. etrans; [apply Hm|apply Hf]. Qed.

Lemma reports_discard {A} (m : ST Scheduler A) : reports m -> reports (discard m).
Proof. intros Hm. apply reports_bind; [done|]. intros. apply reports_ret. Qed.

Lemma reports_sql {A} (context : string) (stmt : DB -> res A * DB) :
  (forall db, table_step rescheduled (scheduled_tests db) (scheduled_tests (stmt db).2) /\
     table_step concluded (schedule_executions db) (schedule_executions (stmt db).2)) ->
  reports (on_world (run_sql context stmt)).
Proof.
  intros Hs s. unfold st_exec. rewrite on_world_run. cbn [snd].
  destruct (run_sql_frame context stmt (s_world s)) as (Hdb & _ & Hn & Hu & _ & Hf).
  constructor; cbn; try done; destruct Hdb as [-> | ->]; try done; apply Hs.
Qed.

Lemma reports_query {A} (context : string) (q : DB -> res A) :
  reports (on_world (run_sql context (fun db => (q db, db)))).
Proof. by apply reports_sql. Qed.

Lemma reports_update_row (f : ScheduledTest -> ScheduledTest) (id : string) :
  (forall st, rescheduled st (f st)) -> reports (on_world (run_sql "" (fun db => (Ok tt, update_row f id db)))).
Proof. intros Hf. apply reports_sql. intros db. split; [apply table_step_alter; [apply _|exact Hf]|done]. Qed.

Lemma reports_UpdateExecution id status test started ended msg detail :
  reports (on_world (UpdateExecution id status test started ended msg detail)).
Proof. apply reports_sql. intros db. split; [done|]. by apply table_step_alter; [apply _|intros []]. Qed.

Create HintDb reports.
#[export] Hint Resolve reports_ret reports_get reports_query reports_UpdateExecution reports_discard : reports.
#[export] Hint Extern 1 (reports (on_world (UpdateScheduleStatus _ _))) => by apply reports_update_row; intros [] : reports.
#[export] Hint Extern 1 (reports (on_world (UpdateScheduleNextRun _ _ _))) => by apply reports_update_row; intros [] : reports.
#[export] Hint Extern 1 (reports (on_world (PauseSchedule _ _))) => by apply reports_update_row; intros [] : reports.
#[export] Hint Extern 1 (reports (on_world (GetSchedule _))) => apply reports_query : reports.
#[export] Hint Extern 1 (reports (on_world (CountConsecutiveFailures _))) => apply reports_query : reports.

Section report.
Context `{TzDatabase} `{RowOrder} `{MapOrder}.

Ltac walk_report :=
  repeat first
    [ solve [eauto 3 with reports]
    | progress intros
    | apply reports_bind
    | match goal with
      | |- reports (match ?x with _ => _ end) => destruct x
      end ].

Lemma takeNextCallback_reports : reports takeNextCallback.
Proof.
  intros s. unfold st_exec, takeNextCallback. destruct (range_over _) as [|[e sid] l]; [reflexivity|].
  constructor; cbn; [done..|]. apply delete_subseteq.
Qed.

Lemma advanceSchedule_reports (id : string) (failed : bool) : reports (advanceSchedule id failed).
Proof. unfold advanceSchedule. walk_report. Qed.

#[local] Hint Resolve takeNextCallback_reports advanceSchedule_reports : reports.

Lemma OnTestComplete_reports (testID status errMsg : string) : reports (OnTestComplete testID status errMsg).
Proof. unfold OnTestComplete, nextCompletion, applyCompletion, completeExecution. walk_report. Qed.

(** ** Reports among the actions of the handlers *)

(** What may happen to the schedule tables and the callbacks while handlers
    run: a relation that allows everything that leaves both alone. *)
Class TableSteps (D : TestWorld -> TestWorld -> Prop) := {
  ts_preorder :: PreOrder D;
  ts_same : forall t t', w_db (tw_world t') = w_db (tw_world t) -> tw_scheduler t' = tw_scheduler t ->
    (w_uuids (tw_world t) <= w_uuids (tw_world t'))%nat -> D t t'
}.

(** Nothing happens to them. *)
Definition unscheduled (t t' : TestWorld) : Prop :=
  w_db (tw_world t') = w_db (tw_world t) /\ tw_scheduler t' = tw_scheduler t.

#[export] Instance unscheduled_steps : TableSteps unscheduled.
Proof.
  split; [|by split]. split; [by split|]. intros t1 t2 t3 [K1 K2] [K3 K4]. split; congruence.
Qed.

(** Or reports: schedules are moved on and executions ended, callbacks are only
    taken, and what the scheduler relies on stays true. *)
Record reported `{UuidSource} (t t' : TestWorld) : Prop := mkReported {
  rd_schedules : table_step rescheduled (scheduled_tests (w_db (tw_world t))) (scheduled_tests (w_db (tw_world t')));
  rd_executions : table_step concluded (schedule_executions (w_db (tw_world t))) (schedule_executions (w_db (tw_world t')));
  rd_unset : tw_scheduler t = None -> w_db (tw_world t') = w_db (tw_world t) /\ tw_scheduler t' = None;
  rd_callbacks : forall registered, tw_scheduler t = Some registered ->
    exists left, tw_scheduler t' = Some left /\ left ⊆ registered /\
      (sched_inv (scheduler_of t registered) -> sched_inv (scheduler_of t' left))
}.

#[export] Instance reported_steps `{UuidSource} : TableSteps reported.
Proof.
  split; [split|].
  - intros t. constructor; [done..|]. intros cbs E. by exists cbs.
  - intros t1 t2 t3 K1 K2. constructor.
    + etrans; [apply K1|apply K2].
    + etrans; [apply K1|apply K2].
    + intros E. destruct (rd_unset _ _ K1 E) as [E1 E2]. destruct (rd_unset _ _ K2 E2) as [E3 E4]. split; congruence.
    + intros cbs E. destruct (rd_callbacks _ _ K1 cbs E) as (cbs2 & E2 & S2 & I2).
      destruct (rd_callbacks _ _ K2 cbs2 E2) as (cbs3 & E3 & S3 & I3). exists cbs3. split; [done|].
      split; [by etrans|auto].
  - intros t t' Hdb Hs Hu. constructor; rewrite ?Hdb, ?Hs; try done.
    intros cbs E. exists cbs. split; [done|]. split; [done|]. intros Hi.
    apply (sched_inv_step (scheduler_of t cbs) (tw_world t')); cbn; [by rewrite Hdb|done|exact Hi].
Qed.

(** The report itself. *)
Lemma notify_world (testID status errMsg : string) (t : TestWorld) :
  let t' := (notifyScheduleCompletion testID status errMsg t).2 in
  tw_tests t' = tw_tests t /\ w_uuids (tw_world t') = w_uuids (tw_world t) /\
  (w_faults (tw_world t) = [] -> w_faults (tw_world t') = []).
Proof.
  unfold notifyScheduleCompletion. destruct (tw_scheduler t) as [cbs|]; [|done]. cbn.
  destruct (OnTestComplete_reports testID status errMsg (scheduler_of t cbs)). done.
Qed.

Lemma notify_reported `{UuidSource} (testID status errMsg : string) (t : TestWorld) :
  reported t (notifyScheduleCompletion testID status errMsg t).2.
Proof.
  unfold notifyScheduleCompletion. destruct (tw_scheduler t) as [cbs|] eqn:E; [|reflexivity]. cbn.
  pose proof (OnTestComplete_reports testID status errMsg (scheduler_of t cbs)) as Hr.
  pose proof (OnTestComplete_inv testID status errMsg (scheduler_of t cbs)) as Hi.
  destruct (st_exec _ _) as [w' left running] eqn:Es. destruct Hr as [Hsch Hex _ _ _ Hc]. cbn in *.
  constructor; cbn; [done|done|by rewrite E|]. rewrite E. intros registered [= <-]. by exists left.
Qed.
End report.
