(* ===== verification/TestSpec.v ===== *)
(** * What the handlers of tests keep, and what a run alone achieves

    Claims about the programs of [TestHandler], [TestCompletion] and [TestApi]:
    what no interleaving of handlers can do to the tables, what [ExecuteTest]
    does on every branch, and that it is the executor the scheduler expects. *)

From S2P Require Import Prelude Programs GoStrings GoTime GoFloat Json Model Payload Requests Store.
From S2P Require Import Scheduler Overlap Completion Orchestrator Startup Ramping K6Config.
From S2P Require Import Summary Results MetricsV2 LoadTests Enrichment TestHandler TestCompletion TestApi.
From S2P Require Import ReportSpec.

Open Scope Z_scope.
Open Scope go_scope.

(** ** Tables under every interleaving *)

(** The row of one run, later: only what a run writes at its end has changed. *)
Definition same_run (r r' : LoadTest) : Prop :=
  r' = r <| lt_Status := lt_Status r' |> <| lt_ResultJSON := lt_ResultJSON r' |>
         <| lt_PayloadContent := lt_PayloadContent r' |>.

(** A result is there exactly when the run is completed. *)
Definition row_wf (r : LoadTest) : Prop :=
  lt_Status r ∈ ["running"; "completed"; "error"; "aborted"] /\
  (is_Some (lt_ResultJSON r) <-> lt_Status r = "completed").

Definition rows_wf (t : TestWorld) : Prop := map_Forall (fun _ r => row_wf r) (tw_tests t).

(** [D] says what may happen to the schedule tables. *)
Record evolves (D : TestWorld -> TestWorld -> Prop) (t t' : TestWorld) : Prop := mkEvolves {
  ev_tables : D t t';
  ev_uuids : (w_uuids (tw_world t) <= w_uuids (tw_world t'))%nat;
  ev_faults : w_faults (tw_world t) = [] -> w_faults (tw_world t') = [];
  ev_rows : forall id r, tw_tests t !! id = Some r ->
    exists r', tw_tests t' !! id = Some r' /\ same_run r r';
  ev_wf : rows_wf t -> rows_wf t'
}.

Lemma same_run_refl (r : LoadTest) : same_run r r.
Proof. by destruct r. Qed.

Lemma same_run_trans (r1 r2 r3 : LoadTest) : same_run r1 r2 -> same_run r2 r3 -> same_run r1 r3.
Proof. unfold same_run. intros -> ->. by destruct r1, r3. Qed.

#[export] Instance evolves_preorder `{!TableSteps D} : PreOrder (evolves D).
Proof.
  split.
  - intros t. constructor; [reflexivity|lia|done| |done]. intros id r E. exists r. split; [done|apply same_run_refl].
  - intros t1 t2 t3 H1 H2. constructor.
    + etrans; [apply H1|apply H2].
    + pose proof (ev_uuids _ _ _ H1). pose proof (ev_uuids _ _ _ H2). lia.
    + intros E. by apply (ev_faults _ _ _ H2), (ev_faults _ _ _ H1).
    + intros id r E. destruct (ev_rows _ _ _ H1 id r E) as (r2 & E2 & S2).
      destruct (ev_rows _ _ _ H2 id r2 E2) as (r3 & E3 & S3). exists r3. split; [done|]. by eapply same_run_trans.
    + intros Hw. by apply (ev_wf _ _ _ H2), (ev_wf _ _ _ H1).
Qed.

(** An action that leaves the tables and the world alone. *)
Lemma evolves_same `{!TableSteps D} (t t' : TestWorld) :
  tw_world t' = tw_world t -> tw_tests t' = tw_tests t -> tw_scheduler t' = tw_scheduler t -> evolves D t t'.
Proof.
  intros Hw Ht Hs. constructor; rewrite ?Hw, ?Ht; auto.
  - apply ts_same; rewrite ?Hw; done.
  - intros id r E. exists r. split; [done|apply same_run_refl].
  - unfold rows_wf. by rewrite Ht.
Qed.

(** A statement on the rows. *)
Lemma evolves_sql `{!TableSteps D} {A} (context : string) (stmt : gmap string LoadTest -> res A * gmap string LoadTest) (t : TestWorld) :
  (forall id r, tw_tests t !! id = Some r -> exists r', (stmt (tw_tests t)).2 !! id = Some r' /\ same_run r r') ->
  (rows_wf t -> map_Forall (fun _ r => row_wf r) (stmt (tw_tests t)).2) ->
  evolves D t (run_tests_sql context stmt t).2.
Proof.
  intros Hrows Hwf. unfold run_tests_sql. destruct (stmt (tw_tests t)) as [r db] eqn:E. simpl in Hrows, Hwf.
  destruct (w_faults (tw_world t)) as [|[msg|] fs] eqn:F; constructor; simpl; rewrite ?F; auto; try done;
    try by apply ts_same.
  intros id r0 E0. exists r0. split; [done|apply same_run_refl].
Qed.

Lemma evolves_update `{!TableSteps D} (f : LoadTest -> LoadTest) (context id : string) (t : TestWorld) :
  (forall r, same_run r (f r)) -> (forall r, tw_tests t !! id = Some r -> row_wf r -> row_wf (f r)) ->
  evolves D t (run_tests_sql (A := unit) context (fun tests => (Ok tt, alter f id tests)) t).2.
Proof.
  intros Hs Hf. apply evolves_sql; simpl.
  - intros id' r E. destruct (decide (id = id')) as [<-|Hne].
    + exists (f r). rewrite lookup_alter, E. rewrite decide_True by done. done.
    + exists r. rewrite lookup_alter_ne by done. split; [done|apply same_run_refl].
  - intros Hw id' r' E. apply lookup_alter_Some in E as [(<- & r & E & ->)|(_ & E)]; [|by eapply Hw].
    apply Hf; [done|by eapply Hw].
Qed.

Lemma UpdateLoadTestResult_evolves `{!TableSteps D} (id status : string) (result : option TestResult) (t : TestWorld) :
  status ∈ ["running"; "completed"; "error"; "aborted"] -> (is_Some result <-> status = "completed") ->
  evolves D t (UpdateLoadTestResult id status result t).2.
Proof. intros Hs Hr. apply evolves_update; [by intros []|]. intros r _ _. done. Qed.

Lemma UpdateLoadTestPayloadContent_evolves `{!TableSteps D} (id content : string) (t : TestWorld) :
  evolves D t (UpdateLoadTestPayloadContent id content t).2.
Proof. apply evolves_update; [by intros []|]. intros r _ Hw. exact Hw. Qed.

Lemma GetLoadTest_evolves `{!TableSteps D} (id : string) (t : TestWorld) : evolves D t (GetLoadTest id t).2.
Proof. apply evolves_sql; simpl; [|done]. intros id' r E. exists r. split; [done|apply same_run_refl]. Qed.

Lemma CreateLoadTest_evolves `{!TableSteps D} (lt : LoadTest) (t : TestWorld) :
  lt_Status lt = "running" -> evolves D t (CreateLoadTest lt t).2.
Proof.
  intros Hs. unfold CreateLoadTest. apply evolves_sql.
  - intros id r E. destruct (tw_tests t !! lt_ID lt) as [old|] eqn:Eold; simpl.
    + exists r. split; [done|apply same_run_refl].
    + exists r. rewrite lookup_insert_ne by congruence. split; [done|apply same_run_refl].
  - intros Hw. destruct (tw_tests t !! lt_ID lt) as [old|] eqn:Eold; simpl; [done|].
    apply map_Forall_insert_2; [|done]. split; simpl; rewrite Hs; [set_solver|].
    split; [by intros [? [=]]|discriminate].
Qed.

Lemma on_orch_evolves `{!TableSteps D} {A} (f : Orchestrator -> A * Orchestrator) (t : TestWorld) :
  evolves D t (on_orch f t).2.
Proof. unfold on_orch. destruct (f (tw_orch t)). by apply evolves_same. Qed.

Lemma registry_snapshot_evolves `{!TableSteps D} (id : string) (t : TestWorld) : evolves D t (registry_snapshot id t).2.
Proof. unfold registry_snapshot. destruct (Registry_Snapshot _ _ _). by apply evolves_same. Qed.

Lemma file_op_evolves `{!TableSteps D} (name : string) (content : option string) (t : TestWorld) :
  evolves D t (file_op name content t).2.
Proof. unfold file_op. destruct (tw_io t) as [|[]]; by apply evolves_same. Qed.

Lemma pass_time_evolves `{!TableSteps D} (d : Z) (t : TestWorld) : evolves D t (pass_time d t).
Proof.
  constructor; simpl; auto; [by apply ts_same|]. intros id r E. exists r. split; [done|apply same_run_refl].
Qed.

Lemma spend_evolves `{!TableSteps D} (d : N) (t : TestWorld) : evolves D t (spend d t).2.
Proof. apply pass_time_evolves. Qed.

(** Statements on the schedule tables that read. *)
Definition reading {A} (m : ST World A) : Prop := forall w,
  w_db (m w).2 = w_db w /\ w_uuids (m w).2 = w_uuids w /\ (w_faults w = [] -> w_faults (m w).2 = []).

Lemma reading_bind {A B} (m : ST World A) (f : A -> ST World B) :
  reading m -> (forall a, reading (f a)) -> reading (m ≫= f).
Proof.
  intros Hm Hf w. unfold mbind, ST_bind. specialize (Hm w). destruct (m w) as [a w'].
  destruct (Hf a w') as (E1 & E2 & E3). simpl in Hm. destruct Hm as (F1 & F2 & F3).
  split_and!; [congruence|congruence|auto].
Qed.

Lemma reading_ret {A} (a : A) : reading (mret a).
Proof. done. Qed.

Lemma reading_sql {A} (context : string) (stmt : DB -> res A * DB) :
  (forall db, (stmt db).2 = db) -> reading (run_sql context stmt).
Proof.
  intros Hs w. unfold run_sql. specialize (Hs (w_db w)). destruct (stmt (w_db w)) as [r db]. simpl in Hs. subst db.
  destruct (w_faults w) as [|[msg|] fs] eqn:F; simpl; rewrite ?F; split_and!; done.
Qed.

Section overlap.
Context `{TzDatabase} `{RowOrder}.

Lemma CheckOverlap_reading (slot : TimeSlot) (excludeID : string) running : reading (CheckOverlap slot excludeID running).
Proof.
  unfold CheckOverlap. destruct (runningTestConflict _ _); [apply reading_ret|].
  apply reading_bind; [by apply reading_sql|]. intros [[|s l]|e]; try apply reading_ret.
  apply reading_bind; [by apply reading_sql|]. intros [rs|e]; apply reading_ret.
Qed.

Lemma checkManualStartConflict_evolves `{!TableSteps D} (confirm : bool) (t : TestWorld) :
  evolves D t (checkManualStartConflict confirm t).2.
Proof.
  unfold checkManualStartConflict. destruct confirm; [reflexivity|]. unfold on_store.
  pose proof (CheckOverlap_reading (mkTimeSlot (tw_now t) (add (tw_now t) (2 * Hour))) "" None (tw_world t))
    as (E1 & E2 & E3).
  destruct (CheckOverlap _ _ _ (tw_world t)) as [r w]. simpl in *.
  constructor; simpl; rewrite ?E2; auto; [apply ts_same; simpl; rewrite ?E2; auto|].
  intros id row E. exists row. split; [done|apply same_run_refl].
Qed.
End overlap.

Lemma new_uuid_evolves `{!TableSteps D} `{UuidSource} (t : TestWorld) : evolves D t (on_store new_uuid t).2.
Proof.
  constructor; simpl; [by apply ts_same; simpl; [..|lia]|lia|done| |done]. intros id r E. exists r. split; [done|apply same_run_refl].
Qed.

Create HintDb evolves.
#[export] Hint Resolve UpdateLoadTestPayloadContent_evolves GetLoadTest_evolves on_orch_evolves
  registry_snapshot_evolves file_op_evolves pass_time_evolves spend_evolves checkManualStartConflict_evolves
  new_uuid_evolves : evolves.

Section handlers.
Context `{TzDatabase} `{RowOrder} `{MapOrder} `{UuidSource} `{JsonErrors} `{ErrGroup} `{ScriptText} `{TestConfig}.
Context {D : TestWorld -> TestWorld -> Prop} `{!TableSteps D}.

(** One action: a lemma above, or nothing of the tables is touched. *)
Ltac evolve1 :=
  first [ by apply evolves_same
        | by eauto 2 with evolves
        | by apply file_op_evolves
        | by apply CreateLoadTest_evolves
        | apply UpdateLoadTestResult_evolves; [set_solver|split; [by intros [? [=]]|discriminate]]
        | apply UpdateLoadTestResult_evolves; [set_solver|split; [done|by eexists]] ].
Ltac evolve := follow; try evolve1.

Lemma prepareExecution_follows (req : TestRequest) : follows (evolves D) (prepareExecution req).
Proof. unfold prepareExecution. evolve. Qed.

Lemma createRunningLoadTest_follows req userID username prepared :
  follows (evolves D) (createRunningLoadTest req userID username prepared).
Proof. unfold createRunningLoadTest. evolve. Qed.

Lemma configureArtifactUploads_follows testID prepared : follows (evolves D) (configureArtifactUploads testID prepared).
Proof. unfold configureArtifactUploads. evolve. Qed.

Lemma reloadWorkersForExecution_follows env : follows (evolves D) (reloadWorkersForExecution env).
Proof. unfold reloadWorkersForExecution. evolve. Qed.

Lemma startPreparedExecution_follows env testID req prepared :
  follows (evolves D) (startPreparedExecution env testID req prepared).
Proof. unfold startPreparedExecution. evolve. Qed.

#[local] Hint Resolve prepareExecution_follows createRunningLoadTest_follows configureArtifactUploads_follows
  reloadWorkersForExecution_follows startPreparedExecution_follows : follows.

Lemma ExecuteTest_follows env req userID username : follows (evolves D) (ExecuteTest env req userID username).
Proof.
  unfold ExecuteTest. destruct (validateExecutionRequest req) as [[req'|e]|]; evolve.
Qed.

Lemma loadUploadedSummary_evolves testID expected metrics t :
  evolves D t (loadUploadedSummary testID expected metrics t).2.
Proof.
  unfold loadUploadedSummary. pose proof (registry_snapshot_evolves testID t) as Hs.
  destruct (registry_snapshot testID t) as [[s|] t']; [|done].
  by destruct (summaryCollectionFromRaw _ _ _) as [[] ?].
Qed.

Lemma load_summary_files_evolves expected metrics t : evolves D t (load_summary_files expected metrics t).2.
Proof.
  unfold load_summary_files. destruct (blank _); [done|]. by destruct (summaryCollectionFromRaw _ _ _) as [[] ?].
Qed.

Lemma loadCompletionPayloadArtifact_evolves testID t : evolves D t (loadCompletionPayloadArtifact testID t).2.
Proof.
  unfold loadCompletionPayloadArtifact. pose proof (registry_snapshot_evolves testID t) as Hs.
  by destruct (registry_snapshot testID t).
Qed.

Lemma loadCompletionAuthSummary_evolves testID metadata t :
  evolves D t (loadCompletionAuthSummary testID metadata t).2.
Proof.
  unfold loadCompletionAuthSummary. destruct (negb _); [done|].
  pose proof (registry_snapshot_evolves testID t) as Hs. destruct (registry_snapshot testID t) as [s t'].
  simpl in Hs. repeat case_match; done.
Qed.

Lemma buildCompletionData_evolves testID metrics endTime t :
  evolves D t (buildCompletionData testID metrics endTime t).2.
Proof.
  unfold buildCompletionData, takePendingMeta. destruct (tw_pending t !! testID) as [pm|]; simpl.
  - by apply evolves_same.
  - done.
Qed.

#[local] Hint Resolve loadUploadedSummary_evolves load_summary_files_evolves
  loadCompletionPayloadArtifact_evolves loadCompletionAuthSummary_evolves buildCompletionData_evolves : evolves.

Lemma collect_loop_follows fuel testID expected deadline best metrics :
  follows (evolves D) (collect_loop fuel testID expected deadline best metrics).
Proof. revert best metrics. induction fuel as [|fuel IH]; intros best metrics; cbn [collect_loop]; evolve; apply IH. Qed.

#[local] Hint Resolve collect_loop_follows : follows.

Lemma loadCompletionSummary_follows testID expected deadline metrics :
  follows (evolves D) (loadCompletionSummary testID expected deadline metrics).
Proof. unfold loadCompletionSummary. evolve. Qed.

#[local] Hint Resolve loadCompletionSummary_follows : follows.

Lemma persistCompletedResult_follows testID data rawSummary rawAuth payload auth :
  follows (evolves D) (persistCompletedResult testID data rawSummary rawAuth payload auth).
Proof. unfold persistCompletedResult. evolve. Qed.

Lemma follow_up_follows env testID expected deadline first metrics :
  follows (evolves D) (follow_up env testID expected deadline first metrics).
Proof. unfold follow_up. evolve. Qed.

#[local] Hint Resolve persistCompletedResult_follows follow_up_follows ExecuteTest_follows : follows.

Lemma latestCompletionMetrics_follows env : follows (evolves D) (latestCompletionMetrics env).
Proof. unfold latestCompletionMetrics. evolve. Qed.

Lemma StartTest_follows env body confirm userID username :
  follows (evolves D) (StartTest env body confirm userID username).
Proof. unfold StartTest. evolve. Qed.

Lemma executeRampingAction_follows action successStatus run :
  (forall t, evolves D t (run t).2) -> follows (evolves D) (executeRampingAction action successStatus run).
Proof. intros Hr. unfold executeRampingAction. evolve; auto. Qed.

Lemma ramping_pause_evolves answers t : evolves D t (ramping_pause answers t).2.
Proof. unfold ramping_pause. destruct (RM_Pause _ _). by apply evolves_same. Qed.

Lemma ramping_resume_evolves answers t : evolves D t (ramping_resume answers t).2.
Proof. unfold ramping_resume. destruct (RM_Resume _ _ _). by apply evolves_same. Qed.

Lemma ScaleTest_follows answers body : follows (evolves D) (ScaleTest answers body).
Proof. unfold ScaleTest. evolve. Qed.

Lemma store_artifact_evolves testID workerID token ty contentType content t :
  evolves D t (store_artifact testID workerID token ty contentType content t).2.
Proof. unfold store_artifact. destruct (StoreArtifact _ _ _ _ _ _ _ _ _). by apply evolves_same. Qed.

Lemma enriched_completed lt snapshot x : enriched lt snapshot = Some x -> lt_Status lt = "completed".
Proof. unfold enriched. destruct (negb _) eqn:E; [done|]. bool_prop. done. Qed.

Lemma enrich_follows testID : follows (evolves D) (enrichCompletedResultFromRegistry testID).
Proof.
  unfold enrichCompletedResultFromRegistry. apply follows_bind; [evolve|]. intros [s|]; [|evolve].
  apply follows_bind; [evolve|]. intros [[lt|]|e]; [|evolve..].
  destruct (enriched lt s) as [[payload result]|] eqn:E; [|evolve]. apply enriched_completed in E as ->. evolve.
Qed.

#[local] Hint Resolve enrich_follows : follows.

Lemma UploadArtifact_follows testID workerID ty token contentType body :
  follows (evolves D) (UploadArtifact testID workerID ty token contentType body).
Proof.
  unfold UploadArtifact. evolve. apply store_artifact_evolves.
Qed.

Lemma UploadScript_evolves form t : evolves D t (UploadScript form t).2.
Proof.
  unfold UploadScript. destruct form as [r|[name content]]; [done|]. destruct (ValidateUpload content); [done|].
  unfold mbind, ST_bind. pose proof (file_op_evolves "current-test.js" (Some content) t) as Hf.
  unfold WriteScript. by destruct (file_op _ _ t).
Qed.

(** A completion, and the handler that stops a test, report to the scheduler. *)
Lemma notify_evolves (HD : forall testID status errMsg t, D t (notifyScheduleCompletion testID status errMsg t).2)
    testID status errMsg t : evolves D t (notifyScheduleCompletion testID status errMsg t).2.
Proof.
  destruct (notify_world testID status errMsg t) as (Ht & Hu & Hf).
  constructor; rewrite ?Ht, ?Hu; [apply HD|done|done| |unfold rows_wf; by rewrite Ht].
  intros id r E. exists r. split; [done|apply same_run_refl].
Qed.

#[local] Hint Resolve latestCompletionMetrics_follows : follows.

Lemma onTestComplete_follows (HD : forall testID status errMsg t, D t (notifyScheduleCompletion testID status errMsg t).2)
    env testID : follows (evolves D) (onTestComplete env testID).
Proof. unfold onTestComplete. evolve. by apply notify_evolves. Qed.

Lemma StopTest_follows (HD : forall testID status errMsg t, D t (notifyScheduleCompletion testID status errMsg t).2)
    env : follows (evolves D) (StopTest env).
Proof. unfold StopTest. evolve; by apply notify_evolves. Qed.

(** What goes on at the same time: requests, the completions that poll loops
    start, the polls themselves, the workers' files, and time. *)
Inductive activity :=
  | Starting (env : start_env) (body : option TestRequest) (confirm : bool) (userID : Z) (username : string)
  | Scheduled (env : start_env) (req : TestRequest) (userID : Z) (username : string)
  | Stopping (env : end_env)
  | Completing (env : end_env) (testID : string)
  | Pausing (answers : list (option string))
  | Resuming (answers : list (nat -> option string))
  | Scaling (answers : list (option string)) (body : option Z)
  | Uploading (testID workerID artifactType token contentType : string) (body : option string)
  | Writing (form : test_response + (string * string))
  | Watching
  | Showing (statuses : list (res K6Status))
  | Polling (ev : poll_event) (ticks : Z)
  | Producing (files : directory)
  | Elapsing (d : Z).

Definition ignore {A} (p : prog TestWorld A) : prog TestWorld unit := _ ← p; mret tt.

Definition perform (a : activity) : prog TestWorld unit :=
  match a with
  | Starting env body confirm userID username => ignore (StartTest env body confirm userID username)
  | Scheduled env req userID username => ignore (ExecuteTest env req userID username)
  | Stopping env => ignore (StopTest env)
  | Completing env testID => onTestComplete env testID
  | Pausing answers => ignore (PauseTest answers)
  | Resuming answers => ignore (ResumeTest answers)
  | Scaling answers body => ignore (ScaleTest answers body)
  | Uploading testID workerID ty token contentType body =>
    ignore (UploadArtifact testID workerID ty token contentType body)
  | Writing form => ignore (act (UploadScript form))
  | Watching => ignore (act GetLiveMetrics)
  | Showing statuses => ignore (act (GetWorkerStatus statuses))
  | Polling ev ticks => act (set_orch (fun o => (poll_step ev ticks o).2))
  | Producing files => act (fun t => (tt, t <| tw_output := files ∪ tw_output t |>))
  | Elapsing d => act (fun t => (tt, pass_time d t))
  end.

Lemma ignore_follows {A} R (p : prog TestWorld A) : follows R p -> follows R (ignore p).
Proof. intros Hp. apply follows_bind; [done|]. intros. apply follows_mret. Qed.

(** These report to the scheduler. *)
Definition ends_tests (a : activity) : bool :=
  match a with Stopping _ | Completing _ _ => true | _ => false end.

Lemma perform_follows (a : activity) :
  ends_tests a = false \/ (forall testID status errMsg t, D t (notifyScheduleCompletion testID status errMsg t).2) ->
  follows (evolves D) (perform a).
Proof.
  intros HD. destruct a; simpl perform; try apply ignore_follows;
    auto using StartTest_follows, ExecuteTest_follows, ScaleTest_follows, UploadArtifact_follows.
  - destruct HD as [[=]|HD]. by apply StopTest_follows.
  - destruct HD as [[=]|HD]. by apply onTestComplete_follows.
  - apply executeRampingAction_follows, ramping_pause_evolves.
  - apply executeRampingAction_follows, ramping_resume_evolves.
  - apply follows_act, UploadScript_evolves.
  - apply follows_act. intros. by apply evolves_same.
  - apply follows_act. intros. by apply evolves_same.
  - apply follows_act, on_orch_evolves.
  - apply follows_act. intros. by apply evolves_same.
  - apply follows_act, pass_time_evolves.
Qed.

Lemma sched_evolves (activities : list activity) (choice : list nat) (t : TestWorld) :
  Forall (fun a => ends_tests a = false) activities \/
  (forall testID status errMsg t, D t (notifyScheduleCompletion testID status errMsg t).2) ->
  evolves D t (sched choice (map perform activities, t)).2.
Proof.
  intros HD. apply (sched_follows (evolves D)). apply Forall_fmap, Forall_forall. intros a Ha.
  apply perform_follows. destruct HD as [HD|HD]; [left|by right]. by eapply Forall_forall in HD.
Qed.
End handlers.

Section handlers.
Context `{TzDatabase} `{RowOrder} `{MapOrder} `{UuidSource} `{JsonErrors} `{ErrGroup} `{ScriptText} `{TestConfig}.

(** C9: whatever the handlers of tests, the completions of runs and the polls
    do at the same time, in any interleaving of their actions and with any
    failures, no run loses its row or what was requested for it, and a row has
    a result exactly when its run is completed.  The schedule tables change only
    by the reports of stops and completions to the scheduler (they stay as they
    are while there is neither): no schedule or execution is added or lost, of
    a schedule only status, time and pause change, an execution stays that of
    its schedule, callbacks are only taken, and the invariant the scheduler
    relies on is kept. *)
Theorem handlers_safety (activities : list activity) (choice : list nat) (t : TestWorld) :
  let t' := (sched choice (map perform activities, t)).2 in
  (forall id r, tw_tests t !! id = Some r -> exists r', tw_tests t' !! id = Some r' /\ same_run r r') /\
  (rows_wf t -> rows_wf t') /\
  reported t t' /\
  (Forall (fun a => ends_tests a = false) activities -> unscheduled t t').
Proof.
  intros t'. pose proof (sched_evolves (D := reported) activities choice t (or_intror notify_reported)) as [].
  split_and!; [done..|]. intros Ha. exact (ev_tables _ _ _ (sched_evolves (D := unscheduled) activities choice t (or_introl Ha))).
Qed.

(** ** Starting a test *)

(** The phase is shown to users and steers nothing. *)
Definition unphased (o : Orchestrator) : Orchestrator := o <| o_phase := PhaseNone |> <| o_phaseMessage := "" |>.

(** Work on the files and the phase: nothing else has changed. *)
Record preparing (t t' : TestWorld) : Prop := mkPreparing {
  pr_world : tw_world t' = tw_world t;
  pr_tests : tw_tests t' = tw_tests t;
  pr_loops : tw_loops t' = tw_loops t;
  pr_registry : tw_registry t' = tw_registry t;
  pr_pending : tw_pending t' = tw_pending t;
  pr_orch : unphased (tw_orch t') = unphased (tw_orch t)
}.

#[export] Instance preparing_preorder : PreOrder preparing.
Proof.
  split; [by intros t|]. intros t1 t2 t3 [] []. constructor; congruence.
Qed.

Lemma file_op_preparing (name : string) (content : option string) (t : TestWorld) :
  preparing t (file_op name content t).2.
Proof. unfold file_op. by destruct (tw_io t) as [|[]]. Qed.

Lemma prepareExecution_preparing (req : TestRequest) : follows preparing (prepareExecution req).
Proof.
  unfold prepareExecution. follow; try (by apply file_op_preparing); done.
Qed.

Lemma unphased_active (o o' : Orchestrator) : unphased o' = unphased o -> o_activeTestID o' = o_activeTestID o.
Proof. intros E. by apply (f_equal o_activeTestID) in E. Qed.

Lemma unphased_workers (o o' : Orchestrator) : unphased o' = unphased o -> o_workers o' = o_workers o.
Proof. intros E. by apply (f_equal o_workers) in E. Qed.

Lemma unphased_clear (o o' : Orchestrator) :
  unphased o' = unphased o -> unphased (clearActiveRunLocked o') = unphased (clearActiveRunLocked o).
Proof.
  intros E. change (clearActiveRunLocked (unphased o') = clearActiveRunLocked (unphased o)). by rewrite E.
Qed.

Lemma ResumeAllForStart_frame (resumes : Z -> list (nat -> option string)) (recoveries : Z -> recovery)
    (o : Orchestrator) :
  clearActiveRunLocked o = o -> (ResumeAllForStart resumes recoveries o).2 = o.
Proof.
  intros Hc. unfold ResumeAllForStart. generalize (Z.to_nat maxRecoveryAttempts), 1.
  intros fuel. induction fuel as [|fuel IH]; intros attempt; [done|]. cbn [start_attempts].
  destruct (resumeAll _ _ _); [|done]. destruct (negb _); [done|]. destruct (_ =? _); [done|].
  unfold recoverWorkersForStart, StopAll. rewrite Hc.
  destruct (group_wait _); [done|]. destruct (WaitForAllReady _); [done|]. apply IH.
Qed.

(** The row of a test that was just started for a request, and that of one that
    failed to start. *)
Definition started_row (testID : string) (req : TestRequest) (userID : Z) (username : string) (row : LoadTest) : Prop :=
  lt_ID row = testID /\ lt_Status row = "running" /\ lt_ResultJSON row = None /\
  lt_UserID row = userID /\ lt_Username row = username /\ lt_ProjectName row = tr_ProjectName req /\
  lt_Stages row = tr_Stages req /\ lt_Executor row = tr_Executor req.

Definition failed_row (row : LoadTest) : Prop := lt_Status row = "error" /\ lt_ResultJSON row = None.

(** One UUID is drawn. *)
Definition draw (w : World) : World := w <| w_uuids := S (w_uuids w) |>.

Lemma createRunningLoadTest_run req userID username prepared (t : TestWorld) :
  let testID := uuid (w_uuids (tw_world t)) in
  w_faults (tw_world t) = [] -> tw_tests t !! testID = None ->
  exists row t', run (createRunningLoadTest req userID username prepared) t = (Ok testID, t') /\
    started_row testID req userID username row /\ tw_tests t' = <[testID := row]> (tw_tests t) /\
    tw_world t' = draw (tw_world t) /\ tw_loops t' = tw_loops t /\ tw_registry t' = tw_registry t /\
    tw_pending t' = tw_pending t /\ tw_orch t' = tw_orch t.
Proof.
  intros testID Hf Hn.
  unfold createRunningLoadTest. rewrite run_bind, run_act. cbn [on_store new_uuid].
  rewrite run_bind, run_act. unfold CreateLoadTest, run_tests_sql. cbn. fold testID. rewrite Hf, Hn.
  eexists _, _. split; [reflexivity|]. split; [|split; [reflexivity|]]; [done|].
  split_and!; try done. unfold draw. cbn. by rewrite Hf.
Qed.

(** The run is registered with the token the workers get, or closed at once. *)
Lemma configureArtifactUploads_run testID prepared (t : TestWorld) :
  let token := uuid (w_uuids (tw_world t)) in
  let w := draw (tw_world t) in
  let registry := RegisterRun (tw_now t) (tw_now t) testID (worker_names t) token (tw_registry t) in
  let '(r, t') := run (configureArtifactUploads testID prepared) t in
  tw_world t' = w /\ tw_tests t' = tw_tests t /\ tw_loops t' = tw_loops t /\ tw_pending t' = tw_pending t /\
  tw_orch t' = tw_orch t /\
  match r with
  | Ok _ => tw_registry t' = registry /\
            exists io, t' = (file_op "k6-env.sh" (env_file (upload_env testID token (ep_envVars prepared))) io).2
  | Err _ => tw_registry t' = RemoveRun (tw_now t) (tw_now t) testID registry
  end.
Proof.
  intros token w registry. unfold configureArtifactUploads. rewrite run_bind, run_act. cbn [on_store new_uuid].
  rewrite run_bind, run_act. cbn [register_run]. rewrite run_bind, run_act. fold token.
  set (t1 := t <| tw_world := _ |> <| tw_registry := _ |>). unfold WriteEnvFile.
  pose proof (file_op_preparing "k6-env.sh" (env_file (upload_env testID token (ep_envVars prepared))) t1) as Hp.
  assert (Ho : tw_orch (file_op "k6-env.sh" (env_file (upload_env testID token (ep_envVars prepared))) t1).2 = tw_orch t1).
  { unfold file_op. by destruct (tw_io t1) as [|[]]. }
  destruct (file_op _ _ t1) as [failed t2] eqn:E. destruct Hp as [Hw Ht Hl Hr Hpe _]. cbn [snd] in *.
  destruct failed as [e|].
  - rewrite run_bind, run_act. cbn. rewrite Hw, Ht, Hl, Hpe, Ho. split_and!; try done.
    rewrite Hr. unfold tw_now. rewrite Hw. done.
  - cbn. rewrite Hw, Ht, Hl, Hpe, Ho, Hr. split_and!; try done. exists t1. by rewrite E.
Qed.

Lemma reloadWorkersForExecution_run env (t : TestWorld) :
  let '(r, t') := run (reloadWorkersForExecution env) t in
  tw_world t' = tw_world t /\ tw_tests t' = tw_tests t /\ tw_loops t' = tw_loops t /\
  tw_pending t' = tw_pending t /\ tw_registry t' = tw_registry t /\ tw_scripts t' = tw_scripts t /\
  unphased (tw_orch t') = unphased (clearActiveRunLocked (tw_orch t)) /\
  (r = Ok tt <-> WaitForAllReady (se_rounds env) = None).
Proof.
  unfold reloadWorkersForExecution. autorewrite with shiva.
  cbn [set_orch on_orch stop_all StopAll fst snd run].
  destruct (WaitForAllReady (se_rounds env)) as [e|] eqn:E; cbn; split_and!; done.
Qed.

Lemma alter_new {A} (f : A -> A) (k : string) (a : A) (m : gmap string A) :
  alter f k (<[k := a]> m) = <[k := f a]> m.
Proof.
  apply map_eq. intros i. destruct (decide (k = i)) as [<-|Hne].
  - by rewrite lookup_alter, !lookup_insert, !decide_True.
  - by rewrite lookup_alter_ne, !lookup_insert_ne.
Qed.

(** The row of a run that does not start. *)
Definition fail_row (r : LoadTest) : LoadTest := r <| lt_Status := "error" |> <| lt_ResultJSON := None |>.

Lemma give_up_run {A} (testID : string) (a : A) (t : TestWorld) :
  w_faults (tw_world t) = [] ->
  run (act (UpdateLoadTestResult testID "error" None);; mret a) t =
    (a, t <| tw_tests := alter fail_row testID (tw_tests t) |>).
Proof.
  intros Hf. rewrite run_bind, run_act. unfold UpdateLoadTestResult, run_tests_sql. rewrite Hf. done.
Qed.

(** The run is the active one, its poll loop is started, and what its result
    will need is kept. *)
Record polled (testID : string) (prepared : executionPreparation) (t t' : TestWorld) : Prop := mkPolled {
  po_tests : tw_tests t' = tw_tests t;
  po_active : o_activeTestID (tw_orch t') = testID;
  po_cancel : o_cancelPoll (tw_orch t') = Some (o_polls (tw_orch t));
  po_loops : tw_loops t' = <[o_polls (tw_orch t) := (testID, 0)]> (tw_loops t);
  po_pending : exists pm, tw_pending t' = <[testID := pm]> (tw_pending t) /\
    pt_Controllable pm = ep_controllable prepared /\ pt_Warnings pm = ep_conflictWarnings prepared
}.

(** The run has failed to start: its row says so, and nothing is polled. *)
Record given_up (testID : string) (t t' : TestWorld) : Prop := mkGivenUp {
  gu_tests : tw_tests t' = alter fail_row testID (tw_tests t);
  gu_active : o_activeTestID (tw_orch t') = "";
  gu_loops : tw_loops t' = tw_loops t;
  gu_pending : tw_pending t' = tw_pending t
}.

Lemma startPreparedExecution_run env testID req prepared (t : TestWorld) :
  w_faults (tw_world t) = [] -> clearActiveRunLocked (tw_orch t) = tw_orch t ->
  let '(r, t') := run (startPreparedExecution env testID req prepared) t in
  tw_world t' = tw_world t /\ tw_registry t' = tw_registry t /\ tw_scripts t' = tw_scripts t /\
  match r with Ok _ => polled testID prepared t t' | Err _ => given_up testID t t' end.
Proof.
  intros Hf Hc. unfold startPreparedExecution. rewrite run_bind, run_act. cbn [set_orch on_orch].
  rewrite run_bind, run_act. unfold on_orch at 1.
  set (o := tw_orch (t <| tw_orch := _ |>)).
  pose proof (ResumeAllForStart_frame (se_resumes env) (se_recoveries env) o) as Hr.
  destruct (ResumeAllForStart _ _ o) as [failed o'] eqn:E. cbn [snd] in Hr.
  rewrite Hr by (unfold o; cbn; rewrite <- Hc; done). clear Hr E o'.
  destruct failed as [err|].
  - rewrite run_bind, run_act. unfold UpdateLoadTestResult, run_tests_sql. cbn. rewrite Hf. cbn.
    split_and!; try done. constructor; try done. cbn. by rewrite <- Hc.
  - rewrite run_bind, run_act. cbn [savePendingMeta]. set (pm := mkPending _ _ _ _).
    destruct (if negb _ then _ else _) as [stages managed]. rewrite run_bind.
    destruct (managed && _); [rewrite run_act|rewrite run_ret]; cbn; (split_and!; [done..|]);
      (constructor; try done; exists pm; done).
Qed.

(** The second half of a start, from a state that the preparation of the files
    leads to. *)
Lemma launch_run env req userID username prepared (t t1 : TestWorld) :
  w_faults (tw_world t) = [] -> tw_tests t !! uuid (w_uuids (tw_world t)) = None ->
  preparing t t1 ->
  let testID := uuid (w_uuids (tw_world t)) in
  let registry := RegisterRun (tw_now t) (tw_now t) testID (worker_names t) (uuid (S (w_uuids (tw_world t))))
                    (tw_registry t) in
  let '(r, t') := run (launch env req userID username prepared) t1 in
  match r with
  | Ok (id, controllable, warnings) =>
    id = testID /\ controllable = ep_controllable prepared /\ warnings = ep_conflictWarnings prepared /\
    (exists row, tw_tests t' = <[testID := row]> (tw_tests t) /\ started_row testID req userID username row) /\
    o_activeTestID (tw_orch t') = testID /\
    (exists n, o_cancelPoll (tw_orch t') = Some n /\ tw_loops t' = <[n := (testID, 0)]> (tw_loops t)) /\
    (exists pm, tw_pending t' = <[testID := pm]> (tw_pending t) /\ pt_Controllable pm = controllable /\
       pt_Warnings pm = warnings) /\
    tw_registry t' = registry
  | Err _ =>
    (o_activeTestID (tw_orch t') = o_activeTestID (tw_orch t) \/ o_activeTestID (tw_orch t') = "") /\
    tw_loops t' = tw_loops t /\ tw_pending t' = tw_pending t /\
    exists row, tw_tests t' = <[testID := row]> (tw_tests t) /\ failed_row row /\
      tw_registry t' = RemoveRun (tw_now t) (tw_now t) testID registry
  end.
Proof.
  intros Hf Hn Hp testID registry. unfold launch. rewrite run_bind, run_act. cbn [clean_output].
  set (t2 := t1 <| tw_output := _ |>). assert (Hp2 : preparing t t2) by (destruct Hp; by constructor).
  clearbody t2. clear t1 Hp. destruct Hp2 as [Hw Ht Hl Hreg Hpend Ho].
  destruct (createRunningLoadTest_run req userID username prepared t2)
    as (row & t3 & Hc & Hrow & Ht3 & Hw3 & Hl3 & Hreg3 & Hpend3 & Ho3); [by rewrite Hw|by rewrite Ht, Hw|].
  rewrite run_bind, Hc. clear Hc. rewrite Hw in *. fold testID in Hrow, Ht3 |- *.
  rewrite run_bind. pose proof (configureArtifactUploads_run testID prepared t3) as Hconf.
  destruct (run (configureArtifactUploads testID prepared) t3) as [configured t4].
  assert (Hnames : worker_names t3 = worker_names t)
    by (unfold worker_names; by rewrite Ho3, (unphased_workers _ _ Ho)).
  assert (Hnow : forall t', tw_world t' = draw (draw (tw_world t)) -> tw_now t' = tw_now t)
    by (intros t' E; unfold tw_now, now; by rewrite E).
  apply unphased_active in Ho as Hactive.
  unfold tw_now in Hconf. rewrite Hnames, Hw3, Hreg3, Hreg in Hconf.
  change (now (draw (tw_world t))) with (tw_now t) in Hconf.
  change (w_uuids (draw (tw_world t))) with (S (w_uuids (tw_world t))) in Hconf. fold registry in Hconf.
  destruct Hconf as (Hw4 & Ht4 & Hl4 & Hpend4 & Ho4 & Hreg4).
  destruct configured as [[]|e]; cycle 1.
  { rewrite give_up_run by (by rewrite Hw4). cbn.
    rewrite Ho4, Ho3, Hl4, Hl3, Hpend4, Hpend3, Ht4, Ht3, Ht, alter_new. split_and!; [by left|done|done|].
    eexists. split; [reflexivity|done]. }
  destruct Hreg4 as [Hreg4 _].
  rewrite run_bind. pose proof (reloadWorkersForExecution_run env t4) as Hreload.
  destruct (run (reloadWorkersForExecution env) t4) as [reloaded t5].
  destruct Hreload as (Hw5 & Ht5 & Hl5 & Hpend5 & Hreg5 & _ & Ho5 & _).
  apply unphased_active in Ho5 as Hactive5. cbn in Hactive5.
  destruct reloaded as [[]|e]; cycle 1.
  { rewrite run_bind, run_act. cbn [registry_remove]. rewrite give_up_run by (cbn; by rewrite Hw5, Hw4). cbn.
    rewrite Hactive5, Hl5, Hl4, Hl3, Hpend5, Hpend4, Hpend3, Ht5, Ht4, Ht3, Ht, alter_new.
    split_and!; [by right|done|done|]. eexists. split; [reflexivity|]. split; [done|].
    rewrite Hreg5, Hreg4. by rewrite (Hnow t5) by (by rewrite Hw5, Hw4). }
  rewrite run_bind. pose proof (startPreparedExecution_run env testID req prepared t5) as Hstart.
  destruct (run (startPreparedExecution env testID req prepared) t5) as [started t6].
  destruct Hstart as (Hw6 & Hreg6 & _ & Hstart); [by rewrite Hw5, Hw4| |].
  { apply (f_equal o_cancelPoll) in Ho5. cbn in Ho5. destruct (tw_orch t5). cbn in *. by subst. }
  destruct started as [[]|e].
  - destruct Hstart as [Ht6 Ha6 Hc6 Hl6 (pm & Hp6 & Hpm)]. rewrite run_ret. split_and!; try done.
    + exists row. by rewrite Ht6, Ht5, Ht4, Ht3, Ht.
    + eexists. split; [exact Hc6|]. by rewrite Hl6, Hl5, Hl4, Hl3, Hl.
    + exists pm. by rewrite Hp6, Hpend5, Hpend4, Hpend3, Hpend.
    + by rewrite Hreg6, Hreg5, Hreg4.
  - destruct Hstart as [Ht6 Ha6 Hl6 Hp6]. rewrite run_bind, run_act. cbn.
    rewrite Ha6, Hl6, Hl5, Hl4, Hl3, Hp6, Hpend5, Hpend4, Hpend3, Ht6, Ht5, Ht4, Ht3, Ht, alter_new.
    split_and!; [by right|done|done|]. eexists. split; [reflexivity|]. split; [done|].
    rewrite Hreg6, Hreg5, Hreg4. by rewrite (Hnow t6) by (by rewrite Hw6, Hw5, Hw4).
Qed.

(** The outcome of [ExecuteTest] from [t] to [t']. *)
Definition execution_outcome (req : TestRequest) (userID : Z) (username : string) (t t' : TestWorld)
    (r : option (res (string * bool * list ConflictWarning))) : Prop :=
  let testID := uuid (w_uuids (tw_world t)) in
  let token := uuid (S (w_uuids (tw_world t))) in
  let registry := RegisterRun (tw_now t) (tw_now t) testID (worker_names t) token (tw_registry t) in
  match r with
  | Some (Ok (id, controllable, warnings)) =>
    id = testID /\ o_activeTestID (tw_orch t) = "" /\ o_activeTestID (tw_orch t') = testID /\
    (exists req' row, validateExecutionRequest req = Some (Ok req') /\
       tw_tests t' = <[testID := row]> (tw_tests t) /\ started_row testID req' userID username row) /\
    (exists n, o_cancelPoll (tw_orch t') = Some n /\ tw_loops t' = <[n := (testID, 0)]> (tw_loops t)) /\
    (exists pm, tw_pending t' = <[testID := pm]> (tw_pending t) /\ pt_Controllable pm = controllable /\
       pt_Warnings pm = warnings) /\
    tw_registry t' = registry
  | _ =>
    o_activeTestID (tw_orch t') = o_activeTestID (tw_orch t) /\ tw_loops t' = tw_loops t /\
    tw_pending t' = tw_pending t /\
    (tw_tests t' = tw_tests t /\ tw_registry t' = tw_registry t \/
     exists row, tw_tests t' = <[testID := row]> (tw_tests t) /\ failed_row row /\
       tw_registry t' = RemoveRun (tw_now t) (tw_now t) testID registry)
  end.

Lemma ExecuteTest_run env req userID username (t : TestWorld) :
  w_faults (tw_world t) = [] -> tw_tests t !! uuid (w_uuids (tw_world t)) = None ->
  let '(r, t') := run (ExecuteTest env req userID username) t in
  execution_outcome req userID username t t' r.
Proof.
  intros Hf Hfresh. unfold ExecuteTest.
  destruct (validateExecutionRequest req) as [[req'|e]|] eqn:Ev; [|by (repeat split; left)..].
  rewrite run_bind, run_act. cbn [active_test].
  destruct (String.eqb (o_activeTestID (tw_orch t)) "") eqn:Ea; cbn [negb]; [|by (repeat split; left)].
  apply String.eqb_eq in Ea. rewrite run_bind.
  pose proof (follows_run preparing (prepareExecution req') t (prepareExecution_preparing req')) as Hp.
  destruct (run (prepareExecution req') t) as [prepared t1]. cbn [snd] in Hp.
  destruct prepared as [[prepared|e]|]; [|by (destruct Hp; repeat split; auto using unphased_active)..].
  rewrite run_bind. pose proof (launch_run env req' userID username prepared t t1 Hf Hfresh Hp) as Hl. cbv zeta in Hl.
  destruct (run (launch env req' userID username prepared) t1) as [[[[id c] ws]|e] t'];
    rewrite run_ret; unfold execution_outcome; cbv zeta.
  - destruct Hl as (-> & -> & -> & (row & Hrow) & Ha & Hn & Hpm & Hreg). split_and!; try done.
    by exists req', row.
  - destruct Hl as (Ha & Hl & Hpm & Hrow). split_and!; [|done|done|by right].
    by destruct Ha as [Ha|Ha]; rewrite Ha, ?Ea.
Qed.

(** C15: [ExecuteTest], alone and with a database that answers, under an ID
    that no row has yet: when it succeeds, no test was active, one row under a
    fresh ID is running for the caller, that test is the active one, one poll
    loop is started for it, its metadata is kept and the workers may upload with
    a fresh token; when it fails (the request is invalid, a test is active, a
    file cannot be written, or the workers refuse), the active test and the poll
    loops are those from before, and either no row was made or the one row made
    says so and its uploads are closed. *)
Theorem ExecuteTest_spec env req userID username (t : TestWorld) :
  w_faults (tw_world t) = [] -> tw_tests t !! uuid (w_uuids (tw_world t)) = None ->
  let '(r, t') := run (ExecuteTest env req userID username) t in
  execution_outcome req userID username t t' r.
Proof. apply ExecuteTest_run. Qed.

(** ** The executor of the scheduler *)

(** [ExecuteTest] as the scheduler calls it, in a controller whose other parts
    are as in [t0]: the answer is the ID or the error.  (A panic ends the
    program; it is an error here.) *)
Definition handler_execute (t0 : TestWorld) (env : start_env) (req : TestRequest) (userID : Z) (username : string)
  : ST World (res string) := fun w =>
  let '(r, t) := run (ExecuteTest env req userID username) (t0 <| tw_world := w |>) in
  (match r with Some (Ok (id, _, _)) => Ok id | Some (Err e) => Err e | None => Err "panic" end,
   (tw_world t) <| w_active := o_activeTestID (tw_orch t) |>).

Lemma handler_frame (t0 : TestWorld) (env : start_env) (req : TestRequest) (userID : Z) (username : string) (w : World) :
  let w' := st_exec (handler_execute t0 env req userID username) w in
  w_db w' = w_db w /\ (w_uuids w <= w_uuids w')%nat /\ (w_faults w = [] -> w_faults w' = []).
Proof.
  unfold handler_execute, st_exec.
  pose proof (follows_run (evolves unscheduled) (ExecuteTest env req userID username) (t0 <| tw_world := w |>)
    (ExecuteTest_follows env req userID username)) as [[Hdb _] Hu Hf _ _].
  destruct (run _ _) as [r t]. exact (conj Hdb (conj Hu Hf)).
Qed.

(** The test handler implements what the scheduler's claims are proved against. *)
Definition handler_executor (t0 : TestWorld) (env : start_env) : TestExecutor :=
  {| Scheduler.ExecuteTest := handler_execute t0 env; ExecuteTest_frame := handler_frame t0 env |}.

(** C19: the scheduler's interface to the test handler is implemented: whatever
    the request and the state of the controller, [ExecuteTest] leaves the
    schedule tables alone, only draws new IDs and adds no failures; and when it
    runs alone with a database that answers and a fresh ID, an ID it returns is
    that of the test that is active afterwards, which none was before. *)
Theorem handler_implements_executor (t0 : TestWorld) (env : start_env) (req : TestRequest) (userID : Z)
    (username : string) (w : World) :
  tw_tests t0 !! uuid (w_uuids w) = None ->
  let '(r, w') := @Scheduler.ExecuteTest (handler_executor t0 env) req userID username w in
  w_db w' = w_db w /\ (w_uuids w <= w_uuids w')%nat /\ (w_faults w = [] -> w_faults w' = []) /\
  (w_faults w = [] -> forall id, r = Ok id -> id = uuid (w_uuids w) /\ w_active w' = id /\ id <> "" /\
     o_activeTestID (tw_orch t0) = "").
Proof.
  intros Hn. pose proof (handler_frame t0 env req userID username w) as (Hdb & Hu & Hf). unfold st_exec in *.
  cbn [Scheduler.ExecuteTest handler_executor]. destruct (handler_execute t0 env req userID username w) as [r w'] eqn:E.
  cbn [snd] in *. split_and!; [done..|]. intros Hw id ->. unfold handler_execute in E.
  pose proof (ExecuteTest_run env req userID username (t0 <| tw_world := w |>) Hw Hn) as Hrun.
  destruct (run _ _) as [[[[[id' c] ws]|e]|] t]; [|done..]. injection E as -> <-.
  destruct Hrun as (-> & Ha0 & Ha & _). split_and!; [done|exact Ha|apply uuid_nonempty|exact Ha0].
Qed.
End handlers.
