(* ===== verification/CompletionSpec.v ===== *)
(** * What the completion of a test achieves

    The window for late summaries, the end of the collection, and what
    [onTestComplete] and [StopTest] leave behind when they run alone. *)

From S2P Require Import Prelude Programs GoStrings GoTime GoFloat Json Model Requests Store Scheduler Completion.
From S2P Require Import Orchestrator Startup Ramping Summary Results MetricsV2 LoadTests Enrichment TestHandler.
From S2P Require Import TestCompletion TestApi TestSpec.
From S2P Require Import ReportSpec.

Open Scope Z_scope.
Open Scope go_scope.

(** The window for the artifacts of a run lies between 10 and 90 seconds
    whatever its duration and its workers (a duration that no int64 holds
    included); the final deadline is its end, and the first collection stops
    five seconds earlier, but not before it began. *)
Theorem collection_window_bounds (metadata : option TestMetadata) (t : Time) :
  let window := artifactCollectionGraceWindow metadata in
  let '(initial, final) := artifactCollectionDeadlines t window (5 * Second) true in
  10 * Second <= window <= 90 * Second /\
  unix_ns final = unix_ns t + window /\ unix_ns initial = unix_ns final - 5 * Second /\
  unix_ns t + 5 * Second <= unix_ns initial.
Proof.
  intros window.
  assert (Hw : 10 * Second <= window <= 90 * Second).
  { unfold window, artifactCollectionGraceWindow. destruct metadata as [m|]; [|unfold Second; lia].
    cbv zeta. generalize (f_to_int (f_mul (f_mul (md_DurationS m) (f_of_decimal false 15 (-2))) (f_of_Z Second))
      ⊞ (md_WorkerCount m `min` 10 ⊠ Second)). intros grace.
    repeat break_test; bool_prop; unfold Second in *; lia. }
  clearbody window. unfold artifactCollectionDeadlines.
  destruct (_ && _ && _) eqn:E.
  - cbn. unfold Second in *. lia.
  - rewrite andb_false_iff, andb_false_iff in E. rewrite !Z.ltb_ge in E. unfold Second in *.
    destruct E as [[?|?]|?]; [done|lia|lia].
Qed.

Section completion.
Context `{TzDatabase} `{RowOrder} `{MapOrder} `{UuidSource} `{JsonErrors} `{ErrGroup} `{ScriptText} `{TestConfig}.

(** Reading uploads and files: only the registry may have dropped expired runs. *)
Definition reading_uploads (t t' : TestWorld) : Prop := exists r, t' = t <| tw_registry := r |>.

Lemma reading_uploads_refl (t : TestWorld) : reading_uploads t t.
Proof. exists (tw_registry t). by destruct t. Qed.

#[local] Hint Resolve reading_uploads_refl : core.

Lemma registry_snapshot_reads (id : string) (t : TestWorld) : reading_uploads t (registry_snapshot id t).2.
Proof. unfold registry_snapshot. destruct (Registry_Snapshot _ _ _). by eexists. Qed.

Lemma loadUploadedSummary_reads testID expected metrics t :
  reading_uploads t (loadUploadedSummary testID expected metrics t).2.
Proof.
  unfold loadUploadedSummary. pose proof (registry_snapshot_reads testID t) as Hs.
  destruct (registry_snapshot testID t) as [[s|] t']; [|done].
  by destruct (summaryCollectionFromRaw _ _ _) as [[] ?].
Qed.

Lemma load_summary_files_same expected metrics t : (load_summary_files expected metrics t).2 = t.
Proof.
  unfold load_summary_files. destruct (blank _); [done|]. by destruct (summaryCollectionFromRaw _ _ _) as [[] ?].
Qed.

(** The clock may have moved as well. *)
Definition collecting (t t' : TestWorld) : Prop :=
  exists r d, 0 <= d /\ t' = (pass_time d t) <| tw_registry := r |>.

#[export] Instance collecting_preorder : PreOrder collecting.
Proof.
  split.
  - intros t. exists (tw_registry t), 0. split; [done|]. destruct t as [[]]. unfold pass_time. cbn. by rewrite Z.add_0_r.
  - intros t1 t2 t3 (r1 & d1 & H1' & ->) (r2 & d2 & H2' & ->). exists r2, (d1 + d2). split; [lia|].
    unfold pass_time. cbn. by rewrite Z.add_assoc.
Qed.

Lemma reading_collecting (t t' : TestWorld) : reading_uploads t t' -> collecting t t'.
Proof.
  intros [r ->]. exists r, 0. split; [done|]. destruct t as [[]]. unfold pass_time. cbn. by rewrite Z.add_0_r.
Qed.

Lemma pass_time_collecting (d : Z) (t : TestWorld) : 0 <= d -> collecting t (pass_time d t).
Proof. intros Hd. exists (tw_registry t), d. by destruct t. Qed.

(** The collection from some state on: it ends with all summaries, or when the
    deadline is reached, and not later. *)
Definition collected_by (deadline : Time) (t : TestWorld)
    (r : (summaryCollectionResult * AggregatedMetrics) * TestWorld) : Prop :=
  collecting t r.2 /\
  w_now (tw_world r.2) <= Z.max (w_now (tw_world t)) (unix_ns deadline) /\
  (is_complete (scr_ArtifactCollection r.1.1) = true \/ unix_ns deadline <= w_now (tw_world r.2)).

(** One attempt: it ends the collection, or a wait follows that does not pass
    the deadline. *)
Lemma collect_attempt (fuel : nat) testID expected deadline best metrics (t : TestWorld) :
  let result := run (collect_loop (S fuel) testID expected deadline best metrics) t in
  collected_by deadline t result \/
  exists best' metrics' t', collecting t t' /\
    w_now (tw_world t') = Z.min (w_now (tw_world t) + Second) (unix_ns deadline) /\
    w_now (tw_world t) < unix_ns deadline /\
    result = run (collect_loop fuel testID expected deadline best' metrics') t'.
Proof.
  cbn [collect_loop]. cbv zeta. rewrite run_bind, run_act.
  pose proof (loadUploadedSummary_reads testID expected metrics t) as Hr.
  destruct (loadUploadedSummary testID expected metrics t) as [[uploaded metrics1] t1]. cbn [snd] in Hr.
  assert (Hw : tw_world t1 = tw_world t) by (destruct Hr as [? ->]; done). apply reading_collecting in Hr.
  destruct (scr_Loaded uploaded && is_complete _) eqn:Ec.
  { left. rewrite run_ret. split; [done|]. cbn. rewrite Hw. split; [lia|]. left. bool_prop. done. }
  rewrite run_bind, run_act. pose proof (load_summary_files_same expected metrics1 t1) as Hfiles.
  destruct (load_summary_files expected metrics1 t1) as [[fromFiles metrics2] t2]. cbn in Hfiles. subst t2.
  destruct (fromFiles ≫= _) as [r|] eqn:Ef.
  { left. rewrite run_ret. split; [done|]. cbn. rewrite Hw. split; [lia|]. left.
    apply bind_Some in Ef as (r' & _ & Ef). destruct (is_complete (scr_ArtifactCollection r')) eqn:E; [|done].
    by injection Ef as <-. }
  rewrite run_bind, run_act. cbn [get_time]. destruct (before (tw_now t1) deadline) eqn:Eb; cbn [negb].
  - right. rewrite run_bind, run_act. eexists _, _, _. split; [|split; [|split; [|reflexivity]]].
    + etrans; [exact Hr|]. apply pass_time_collecting.
      unfold before, tw_now, now, sub, summaryPollDelay in *. apply Z.ltb_lt in Eb. cbn in *.
      unfold Second in *. i64_lia.
    + unfold before, tw_now, now, sub, summaryPollDelay in *. apply Z.ltb_lt in Eb. cbn in *. rewrite Hw in *.
      unfold Second in *. i64_lia.
    + unfold before, tw_now, now in Eb. apply Z.ltb_lt in Eb. cbn in Eb. by rewrite Hw in Eb.
  - left. rewrite run_ret. split; [done|]. cbn. unfold before, tw_now, now in Eb. apply Z.ltb_ge in Eb.
    cbn in Eb. rewrite Hw in *. split; [lia|by right].
Qed.

Lemma collect_loop_ends (m fuel : nat) testID expected deadline best metrics (t : TestWorld) :
  unix_ns deadline - w_now (tw_world t) <= Z.of_nat m * Second -> (m < fuel)%nat ->
  collected_by deadline t (run (collect_loop fuel testID expected deadline best metrics) t).
Proof.
  revert fuel best metrics t. induction m as [|m IH]; intros [|fuel] best metrics t Hm Hf; try lia;
    destruct (collect_attempt fuel testID expected deadline best metrics t)
      as [Hc|(best' & metrics' & t' & Hc & Hw & Hb & ->)]; try done; [unfold Second in *; lia|].
  destruct (IH fuel best' metrics' t') as (Hc' & Ht & He); [unfold Second in *; lia|lia|].
  split; [by etrans|]. split; [unfold Second in *; lia|done].
Qed.

Lemma collection_ends testID expected deadline metrics (t : TestWorld) :
  unix_ns deadline - w_now (tw_world t) <= 90 * Second ->
  collected_by deadline t (run (loadCompletionSummary testID expected deadline metrics) t).
Proof.
  intros Hd. unfold loadCompletionSummary. rewrite run_bind, run_act. cbn [fst snd].
  destruct (sub deadline (tw_now t) <=? 0) eqn:E.
  - rewrite run_ret. split; [done|]. cbn. split; [lia|]. right. unfold sub, tw_now, now in E. bool_prop.
    cbn in E. i64_lia.
  - apply (collect_loop_ends 90); [lia|unfold collect_fuel; lia].
Qed.


(** ** The rest of a completion *)

Lemma loadCompletionPayloadArtifact_reads testID t :
  reading_uploads t (loadCompletionPayloadArtifact testID t).2.
Proof.
  unfold loadCompletionPayloadArtifact. pose proof (registry_snapshot_reads testID t) as Hs.
  by destruct (registry_snapshot testID t).
Qed.

Lemma loadCompletionAuthSummary_reads testID metadata t :
  reading_uploads t (loadCompletionAuthSummary testID metadata t).2.
Proof.
  unfold loadCompletionAuthSummary. destruct (negb _); [done|].
  pose proof (registry_snapshot_reads testID t) as Hs. destruct (registry_snapshot testID t) as [s t'].
  simpl in Hs. repeat case_match; done.
Qed.

(** The workers are stopped, and what is left of the window is used. *)
Lemma follow_up_run env testID expected deadline first metrics (t : TestWorld) :
  unix_ns deadline - w_now (tw_world t) <= 90 * Second ->
  let result := run (follow_up env testID expected deadline first metrics) t in
  collecting (t <| tw_orch := clearActiveRunLocked (tw_orch t) |>) result.2 /\
  w_now (tw_world result.2) <= Z.max (w_now (tw_world t) + Z.of_N (ee_stopTime env)) (unix_ns deadline).
Proof.
  intros Hd. unfold follow_up. cbv zeta. rewrite run_bind, run_act. cbn [stop_all on_orch StopAll].
  rewrite run_bind, run_act. cbn [spend]. set (t0 := t <| tw_orch := _ |>). set (t1 := pass_time _ t0).
  assert (Hw : w_now (tw_world t1) = w_now (tw_world t) + Z.of_N (ee_stopTime env)) by done.
  assert (Hc0 : collecting t0 t1) by (apply pass_time_collecting; lia).
  destruct (is_complete _); [rewrite run_ret; cbn; split; [done|lia]|].
  rewrite run_bind, run_act. cbn [get_time]. destruct (negb (before _ _)); [rewrite run_ret; cbn; split; [done|lia]|].
  rewrite run_bind. pose proof (collection_ends testID expected deadline metrics t1) as (Hc & Ht & _); [rewrite Hw; lia|].
  destruct (run (loadCompletionSummary testID expected deadline metrics) t1) as [[followUp m] t2].
  rewrite run_ret. cbn [fst snd] in *. split; [by etrans|]. rewrite <- Hw. exact Ht.
Qed.

(** What a run that completes has stored, in the table [tests]. *)
Definition stored_completion (testID : string) (result : TestResult) (payload : string)
    (tests tests' : gmap string LoadTest) : Prop :=
  match marshal_result result with
  | Err _ => tests' = tests
  | Ok stored =>
    tests' = alter (fun r => r <| lt_Status := "completed" |> <| lt_ResultJSON := Some stored |>
                                <| lt_PayloadContent := if String.eqb payload "" then lt_PayloadContent r else payload |>)
               testID tests
  end.

Lemma persistCompletedResult_run testID data rawSummary rawAuth payloadContent auth (t : TestWorld) :
  w_faults (tw_world t) = [] ->
  let t' := (run (persistCompletedResult testID data rawSummary rawAuth payloadContent auth) t).2 in
  exists registry snapshot tests',
    t' = t <| tw_registry := registry |> <| tw_tests := tests' |> /\
    let data' := data <| cd_metadata := completed_metadata (cd_metadata data) payloadContent auth |> in
    let '(result, payload) := completed_result testID data' rawSummary rawAuth payloadContent snapshot in
    stored_completion testID result payload (tw_tests t) tests'.
Proof.
  intros Hf. unfold persistCompletedResult. cbv zeta. rewrite run_bind, run_act.
  pose proof (registry_snapshot_reads testID t) as Hs. destruct (registry_snapshot testID t) as [snapshot t1].
  cbn [snd] in Hs. destruct Hs as [registry ->]. exists registry, snapshot.
  destruct (completed_result _ _ _ _ _ _) as [result payload]. unfold stored_completion.
  destruct (marshal_result result) as [stored|e]; [|rewrite run_ret; by eexists].
  rewrite run_bind. destruct (String.eqb payload "").
  - rewrite run_ret, run_bind, run_act. unfold UpdateLoadTestResult, run_tests_sql. cbn. rewrite Hf.
    eexists. split; [reflexivity|]. by apply alter_ext.
  - rewrite run_act. unfold UpdateLoadTestPayloadContent, run_tests_sql. cbn. rewrite Hf.
    cbn. rewrite Hf. cbn. eexists. split; [reflexivity|]. rewrite alter_alter_eq. by apply alter_ext.
Qed.
(** A registry in which the run, if it is still known, is closed. *)
Definition run_closed (testID : string) (r : Registry) (t : Time) : Prop :=
  forall run, Completion.runs r !! testID = Some run -> run_closedAt run = t.

Lemma RemoveRun_closed (t : Time) (testID : string) (r : Registry) : run_closed testID (RemoveRun t t testID r) t.
Proof.
  unfold run_closed, RemoveRun. destruct (Completion.runs (cleanupExpiredLocked t r) !! testID) eqn:E; intros run Hr.
  - cbn in Hr. rewrite lookup_insert, decide_True in Hr by done. by injection Hr as <-.
  - by rewrite E in Hr.
Qed.

(** What the merging of uploads never touches. *)
Definition same_head (r r' : TestResult) : Prop :=
  res_ID r' = res_ID r /\ res_Status r' = res_Status r /\ res_TimeSeries r' = res_TimeSeries r /\
  res_Warnings r' = res_Warnings r.

Lemma merge_summary_head snapshot r : same_head r (merge_summary snapshot r).1.
Proof.
  unfold merge_summary. destruct (negb _); [|done]. by destruct (summaryCollectionFromRaw _ _ _) as [[] ?].
Qed.

Lemma merge_payload_head payload r : same_head r (merge_payload payload r).1.
Proof. unfold merge_payload. by destruct (String.eqb payload ""). Qed.

Lemma merge_auth_head snapshot r : same_head r (merge_auth snapshot r).1.
Proof. unfold merge_auth. destruct (blank _); [done|]. by destruct (ParseRawAuthSummaryContent _). Qed.

Lemma mergeResultArtifacts_head r snapshot payload : same_head r (mergeResultArtifacts r snapshot payload).1.1.
Proof.
  unfold mergeResultArtifacts. cbv zeta. set (r0 := match res_Metadata r with Some _ => r | None => _ end).
  assert (H0' : same_head r r0) by (unfold r0; by destruct (res_Metadata r)). clearbody r0.
  set (p := if String.eqb _ "" then _ else _). clearbody p.
  pose proof (merge_summary_head snapshot r0) as H1'. destruct (merge_summary snapshot r0) as [r1 c1].
  pose proof (merge_payload_head p r1) as H2'. destruct (merge_payload p r1) as [r2 c2].
  pose proof (merge_auth_head snapshot r2) as H3'. destruct (merge_auth snapshot r2) as [r3 c3].
  unfold same_head in *. cbn [fst] in *. destruct (c1 || c2 || c3); cbn; naive_solver congruence.
Qed.

(** The result of a completion tells the run, its time series and its warnings. *)
Lemma completed_result_head testID data rawSummary rawAuth payload snapshot :
  let result := (completed_result testID data rawSummary rawAuth payload snapshot).1 in
  res_ID result = testID /\ res_Status result = "completed" /\ res_TimeSeries result = cd_timeSeries data /\
  res_Warnings result = cd_warnings data.
Proof.
  unfold completed_result. cbv zeta. set (r := buildCompletedResult _ _ _ _ _).
  assert (Hr : same_head r (mergeRegistryArtifactsIntoResult r snapshot payload).1.1).
  { destruct snapshot; [apply mergeResultArtifacts_head|done]. }
  destruct (mergeRegistryArtifactsIntoResult r snapshot payload) as [[enriched merged] changed]. exact Hr.
Qed.

(** The first half of a completion: up to the stored result. *)
Lemma buildCompletionData_run testID metrics endTime (t : TestWorld) :
  let '(data, t') := buildCompletionData testID metrics endTime t in
  t' = t <| tw_pending := delete testID (tw_pending t) |> /\ cd_timeSeries data = o_timeSeries (tw_orch t) /\
  cd_warnings data = match tw_pending t !! testID with Some pm => pt_Warnings pm | None => [] end.
Proof.
  unfold buildCompletionData, takePendingMeta. destruct (tw_pending t !! testID) as [pm|] eqn:E; cbn; [done|].
  split_and!; [|done|done]. rewrite delete_id by done. by destruct t.
Qed.

Lemma cleared (o : Orchestrator) : clearActiveRunLocked (clearActiveRunLocked o) = clearActiveRunLocked o.
Proof. done. Qed.

(** The last metrics are those of the run, or those the workers are asked for. *)
Lemma latestCompletionMetrics_run env (t : TestWorld) : exists metrics d, 0 <= d <= Z.of_N (ee_fetchTime env) /\
  run (latestCompletionMetrics env) t = (metrics, pass_time d t).
Proof.
  unfold latestCompletionMetrics. rewrite run_bind, run_act. destruct (o_latestMetrics (tw_orch t)) as [m|].
  - exists m, 0. split; [lia|]. rewrite run_ret. f_equal. destruct t as [[]]. unfold pass_time. cbn. by rewrite Z.add_0_r.
  - rewrite run_bind, run_act. cbn [spend]. rewrite run_act. eexists _, _. split; [|reflexivity]. lia.
Qed.

(** The scheduler after the report that [testID] is completed, made at time [at_ns]. *)
Definition told (testID : string) (at_ns : Z) (t t' : TestWorld) : Prop :=
  match tw_scheduler t with
  | None => w_db (tw_world t') = w_db (tw_world t) /\ tw_scheduler t' = None
  | Some registered =>
    let s := st_exec (OnTestComplete testID "completed" "")
               (mkScheduler ((tw_world t) <| w_now := at_ns |>) registered true) in
    w_db (tw_world t') = w_db (s_world s) /\ tw_scheduler t' = Some (callbacks s)
  end.

Lemma notify_told (testID : string) (t t1 : TestWorld) (d : Z) :
  tw_scheduler t1 = tw_scheduler t -> tw_world t1 = tw_world (pass_time d t) ->
  exists w registered, (notifyScheduleCompletion testID "completed" "" t1).2 =
      t1 <| tw_world := w |> <| tw_scheduler := registered |> /\
    w_now w = w_now (tw_world t) + d /\ told testID (w_now w) t (notifyScheduleCompletion testID "completed" "" t1).2.
Proof.
  intros Hs Hw. unfold notifyScheduleCompletion, told. rewrite Hs. destruct (tw_scheduler t) as [cbs|] eqn:E; cbn.
  - pose proof (rp_now _ _ (OnTestComplete_reports testID "completed" "" (scheduler_of t1 cbs))) as Hn. cbn in Hn.
    eexists _, _. split; [reflexivity|]. rewrite Hn, Hw. cbn. split; [done|]. unfold scheduler_of. by rewrite Hw.
  - exists (tw_world t1), None. rewrite Hw. cbn. split_and!; try done.
    destruct t1. cbn in *. by subst.
Qed.

(** C16: [onTestComplete], alone and with a database that answers, comes to an
    end: at most 90 seconds are spent waiting for summaries, and the rest of
    the time is that of its calls (the metrics, the stop of the workers, the
    database).  Then the scheduler has been told once, at the end, that the test
    is completed; no test is active or polled, the phase names the test, its
    uploads are closed, its metadata is taken, and its row, and no other, holds
    the result with the time series of the run (unless the result holds a
    number JSON cannot express). *)
Theorem onTestComplete_spec env testID (t : TestWorld) :
  w_faults (tw_world t) = [] ->
  let t' := (run (onTestComplete env testID) t).2 in
  told testID (w_now (tw_world t')) t t' /\
  o_activeTestID (tw_orch t') = "" /\ o_cancelPoll (tw_orch t') = None /\
  o_phase (tw_orch t') = PhaseDone /\ o_phaseMessage (tw_orch t') = testID /\
  run_closed testID (tw_registry t') (tw_now t') /\ tw_pending t' = delete testID (tw_pending t) /\
  w_now (tw_world t) <= w_now (tw_world t') <=
    w_now (tw_world t) + 90 * Second + Z.of_N (ee_fetchTime env) + Z.of_N (ee_stopTime env) + Z.of_N (ee_storeTime env) /\
  exists result payload, stored_completion testID result payload (tw_tests t) (tw_tests t') /\
    res_ID result = testID /\ res_Status result = "completed" /\
    res_TimeSeries result = o_timeSeries (tw_orch t) /\
    res_Warnings result = match tw_pending t !! testID with Some pm => pt_Warnings pm | None => [] end.
Proof.
  intros Hf. unfold onTestComplete.
  rewrite run_bind, run_act. cbn [stop_ramping]. rewrite run_bind, run_act. cbn [set_orch on_orch].
  rewrite run_bind. destruct (latestCompletionMetrics_run env (t <| tw_ramp := RM_Stop (tw_ramp t) |>
    <| tw_orch := SetPhase PhaseCollecting "Collecting final metrics and summary data..." (tw_orch t) |>))
    as (metrics0 & d0 & Hd0 & Hm0).
  match type of Hm0 with run _ ?x = _ => match goal with |- context [run (latestCompletionMetrics env) ?y] => change y with x end end.
  rewrite Hm0. clear Hm0. rewrite run_bind, run_act. cbn [get_time]. set (t1 := pass_time d0 _).
  rewrite run_bind, run_act. pose proof (buildCompletionData_run testID metrics0 (tw_now t1) t1) as Hdata.
  destruct (buildCompletionData testID metrics0 (tw_now t1) t1) as [data t2]. destruct Hdata as (-> & Hts & Hws).
  rewrite run_bind, run_act. set (t2 := t1 <| tw_pending := _ |>). change (tw_now t2) with (tw_now t1).
  pose proof (collection_window_bounds (Some (cd_metadata data)) (tw_now t1)) as Hwin. cbv zeta in Hwin.
  destruct (artifactCollectionDeadlines _ _ _ _) as [initial final]. destruct Hwin as (Hw & Hfin & Hini & _).
  change (unix_ns (tw_now t1)) with (w_now (tw_world t) + d0) in *.
  rewrite run_bind, run_act. cbn [set_orch on_orch]. set (t3 := t2 <| tw_orch := _ |>). set (names := worker_names t2).
  assert (Hnow : w_now (tw_world t3) = w_now (tw_world t) + d0) by done.
  rewrite run_bind. pose proof (collection_ends testID names initial (cd_metrics data) t3) as (Hc1 & Ht1 & _); [lia|].
  destruct (run (loadCompletionSummary testID names initial (cd_metrics data)) t3) as [[summary m1] t4].
  cbn [snd] in *. destruct Hc1 as (r1 & d1 & Hd1 & ->).
  rewrite run_bind. match goal with |- context [run (follow_up env testID names final summary m1) ?t4] =>
    pose proof (follow_up_run env testID names final summary m1 t4) as Hfu end. cbv zeta in Hfu. cbn in Ht1, Hnow.
  destruct Hfu as (Hc2 & Ht2); [cbn; lia|].
  destruct (run (follow_up env testID names final summary m1) _) as [[summary2 m2] t5]. cbn [snd] in *.
  destruct Hc2 as (r2 & d2 & Hd2 & ->). cbn in Ht2.
  rewrite run_bind, run_act. match goal with |- context [loadCompletionPayloadArtifact testID ?t5] =>
    pose proof (loadCompletionPayloadArtifact_reads testID t5) as Hp; destruct (loadCompletionPayloadArtifact testID t5) as [payload t6] end.
  cbn [snd] in Hp. destruct Hp as [r3 ->].
  rewrite run_bind, run_act. match goal with |- context [loadCompletionAuthSummary testID ?m ?t6] =>
    pose proof (loadCompletionAuthSummary_reads testID m t6) as Ha; destruct (loadCompletionAuthSummary testID m t6) as [[auth rawAuth] t7] end.
  cbn [snd] in Ha. destruct Ha as [r4 ->].
  rewrite run_bind. match goal with |- context [run (persistCompletedResult testID ?d ?s rawAuth payload auth) ?t7] =>
    destruct (persistCompletedResult_run testID d s rawAuth payload auth t7) as (r5 & snapshot & tests' & Hrun & Hstored);
      [done|destruct (run (persistCompletedResult testID d s rawAuth payload auth) t7) as [saved t8]] end.
  cbn [snd] in Hrun. subst t8.
  rewrite run_bind, run_act. cbn [spend].
  rewrite run_bind, run_act. cbn [set_orch on_orch]. rewrite run_bind, run_act.
  match goal with |- context [notifyScheduleCompletion testID _ _ ?t8] =>
    destruct (notify_told testID t t8 (d0 + d1 + d2 + Z.of_N (ee_storeTime env)))
      as (w & registered & Et & Hw9 & Htold); [done| |destruct (notifyScheduleCompletion testID _ _ t8) as [[] t9]] end.
  { cbn. rewrite !Z.add_assoc. done. }
  cbn [snd] in Et, Htold. subst t9.
  rewrite run_act. cbn [registry_remove snd]. split_and!; try done.
  - apply RemoveRun_closed.
  - cbn. rewrite Hw9. lia.
  - cbn. rewrite Hw9. lia.
  - cbv zeta in Hstored. match type of Hstored with context [completed_result testID ?d ?s rawAuth payload snapshot] =>
      pose proof (completed_result_head testID d s rawAuth payload snapshot) as Hhead;
      destruct (completed_result testID d s rawAuth payload snapshot) as [result content] end.
    exists result, content. cbn in Hhead. rewrite Hts, Hws in Hhead. done.
Qed.
End completion.
