(* ===== verification/ArtifactSpec.v ===== *)
(** * Uploads and the result they are merged into

    What a collection of artifacts says of the workers, and merging the uploads
    of a run into its result a second time, in memory and after the result was
    stored and read back. *)

From S2P Require Import Prelude Programs GoStrings GoFloat Json Model Completion Summary Results MetricsV2 LoadTests.
From S2P Require Import Enrichment TestHandler TestCompletion CompletionSpec.

Open Scope Z_scope.
Open Scope go_scope.

(** ** Collections *)

(** The workers that sent a summary, by their trimmed names. *)
Definition summarised (merged : option MergedSummaryMetrics) : list string :=
  match merged with Some m => map (fun w => trim_space (ws_Name w)) (ms_Workers m) | None => [] end.

(** The expected workers without a summary. *)
Definition unheard (expectedWorkers : list string) (merged : option MergedSummaryMetrics) (w : string) : Prop :=
  w <> "" /\ (exists name, name ∈ expectedWorkers /\ trim_space name = w) /\ w ∉ summarised merged.

Lemma elem_of_lfilter {A} (p : A -> bool) (l : list A) (x : A) : x ∈ List.filter p l <-> x ∈ l /\ p x = true.
Proof. by rewrite !list_elem_of_In, filter_In. Qed.

Lemma elem_of_map {A B} (f : A -> B) (l : list A) (y : B) : y ∈ map f l <-> exists x, x ∈ l /\ f x = y.
Proof. rewrite list_elem_of_fmap. naive_solver. Qed.

(** The missing workers of a collection are the expected ones without a
    summary; it is missing when there is no summary, complete when as many
    summaries as workers were expected, or more, leave no worker out (or nobody
    was expected), and partial otherwise. *)
Theorem classifyArtifactCollection_spec (expectedWorkers : list string) (merged : option MergedSummaryMetrics) :
  let c := classifyArtifactCollection expectedWorkers merged in
  exists missing, ac_MissingWorkers c = Some missing /\
    (forall w, w ∈ missing <-> unheard expectedWorkers merged w) /\
    ac_ReceivedWorkerSummaryCount c = Z.of_nat (length (summarised merged)) /\
    ac_Status c =
      (if bool_decide (summarised merged = []) then "missing"
       else if (ac_ExpectedWorkerCount c =? 0) ||
               (0 <=? ac_ExpectedWorkerCount c) && (ac_ExpectedWorkerCount c <=? ac_ReceivedWorkerSummaryCount c) &&
               bool_decide (missing = [])
       then "complete" else "partial").
Proof.
  intros c. eexists. split; [reflexivity|]. split; [|split].
  - intros w. rewrite elem_of_lfilter, elem_of_map, andb_true_iff, !negb_true_iff, String.eqb_neq, bool_decide_eq_false.
    rewrite elem_of_lfilter, negb_true_iff, String.eqb_neq. unfold unheard.
    destruct merged as [m|]; cbn; naive_solver.
  - destruct merged; cbn; by rewrite ?length_map.
  - unfold c, classifyArtifactCollection. cbv zeta. cbn [ac_Status ac_ExpectedWorkerCount ac_ReceivedWorkerSummaryCount].
    destruct merged as [m|]; cbn [summarised].
    + destruct (ms_Workers m) as [|w ws]; cbn [map length].
      * rewrite bool_decide_true by done. rewrite andb_false_r. done.
      * rewrite bool_decide_false by done.
        set (n := match expectedWorkers with [] => _ | _ => _ end).
        set (missing := List.filter _ _). set (received := Z.of_nat _).
        assert (Hr : 0 < received) by (unfold received; cbn [length]; lia).
        replace (0 <? received) with true by (symmetry; by apply Z.ltb_lt).
        replace (received <=? 0) with false by (symmetry; by apply Z.leb_gt).
        destruct (n =? 0) eqn:En; [done|]. apply Z.eqb_neq in En. cbn [andb orb].
        replace (0 <=? n) with (0 <? n) by (destruct (Z.ltb_spec 0 n), (Z.leb_spec 0 n); lia).
        by destruct missing.
    + rewrite bool_decide_true by done. rewrite andb_false_r. done.
Qed.

(** ** Merging again *)

Section merging.
Context `{MapOrder}.

(** A part of the merge is settled in a result that it would not change. *)
Definition percentiles_of (ms : MergedSummaryMetrics) : SummaryPercentiles :=
  let l := ms_TotalLatency ms in mkPercentiles (sl_P90 l) (sl_P95 l) (sl_P99 l).

Definition summary_settled (snapshot : Snapshot) (r : TestResult) : Prop :=
  is_Some (res_Metadata r) /\
  let raw := BuildRawSummary snapshot ArtifactSummary in
  let collection m := (x ← res_Metadata r; md_ArtifactCollection x) =
                      Some (classifyArtifactCollection (snap_ExpectedWorkers snapshot) m) in
  if blank raw then collection None
  else match ParseRawSummaryContent raw with
       | Err _ => True
       | Ok ms => collection (Some ms) /\ res_SummaryContent r = raw /\
                  (fun m => applySummaryPercentiles m (percentiles_of ms)) <$> res_Metrics r = res_Metrics r
       end.

Definition payload_settled (payload : string) (r : TestResult) : Prop :=
  payload = "" \/
  refresh_payload payload <$> (m ← res_Metadata r; md_Payload m) = (m ← res_Metadata r; md_Payload m).

Definition auth_settled (snapshot : Snapshot) (r : TestResult) : Prop :=
  let raw := BuildRawSummary snapshot ArtifactAuthSummary in
  blank raw = true \/
  match ParseRawAuthSummaryContent raw with
  | Err _ => True
  | Ok s => res_AuthSummaryContent r = raw /\
            (fun m => applyAuthSummaryToMetadata m (Some s)) <$> res_Metadata r = res_Metadata r
  end.

Lemma applySummaryPercentiles_idem (m : AggregatedMetrics) (p : SummaryPercentiles) :
  applySummaryPercentiles (applySummaryPercentiles m p) p = applySummaryPercentiles m p.
Proof.
  unfold applySummaryPercentiles. destruct (f_lt f_zero (sp_P90 p)), (f_lt f_zero (sp_P95 p)); by destruct m.
Qed.

Lemma refresh_payload_idem (s : string) (p : PayloadMetadata) :
  refresh_payload s (refresh_payload s p) = refresh_payload s p.
Proof.
  unfold refresh_payload. destruct (String.eqb s ""); [|by destruct p].
  destruct (pm_TargetBytes p =? 0) eqn:E; cbn; rewrite ?E; by destruct p.
Qed.

Lemma first_given_idem (a b : string) : first_given (first_given a b) b = first_given a b.
Proof. unfold first_given. destruct (String.eqb a "") eqn:E; [by destruct (String.eqb b "")|by rewrite E]. Qed.

Lemma apply_auth_summary_idem (s : AuthSummaryData) (a : AuthMetadata) :
  apply_auth_summary s (apply_auth_summary s a) = apply_auth_summary s a.
Proof.
  unfold apply_auth_summary. cbn. rewrite !first_given_idem.
  destruct (amd_RefreshSkewSeconds a =? 0) eqn:E; [|by rewrite E].
  by destruct (au_RefreshSkewSeconds s =? 0).
Qed.

Lemma first_given_kept (a b : string) : negb (String.eqb a "") = true -> negb (String.eqb (first_given a b) "") = true.
Proof. unfold first_given. intros E. apply negb_true_iff in E. by rewrite !E. Qed.

Lemma apply_auth_configured (s : AuthSummaryData) (a : AuthMetadata) :
  auth_configured a = true -> auth_configured (apply_auth_summary s a) = true.
Proof.
  unfold auth_configured, apply_auth_summary. cbn. rewrite !orb_true_iff.
  intros [[[[E|E]|E]|E]|E]; [do 4 left|do 3 left; right|do 2 left; right|left; right|right];
    auto using first_given_kept.
  destruct (amd_RefreshSkewSeconds a =? 0) eqn:E0; [|done]. bool_prop. lia.
Qed.

Lemma applyAuthSummary_idem (m : TestMetadata) (s : AuthSummaryData) :
  applyAuthSummaryToMetadata (applyAuthSummaryToMetadata m (Some s)) (Some s) =
  applyAuthSummaryToMetadata m (Some s).
Proof.
  unfold applyAuthSummaryToMetadata, hasConfiguredAuth. cbn.
  destruct (md_Auth m) as [a|] eqn:Ea; cbn; rewrite ?Ea; [|done].
  destruct (auth_configured a) eqn:Ec; cbn; [|by rewrite Ea, Ec].
  by rewrite apply_auth_configured, apply_auth_summary_idem.
Qed.

(** A merge settles its part. *)
Lemma merge_summary_settles snapshot r :
  is_Some (res_Metadata r) -> summary_settled snapshot (merge_summary snapshot r).1.
Proof.
  intros [md Hmd]. unfold merge_summary, summary_settled, summaryCollectionFromRaw, with_metadata.
  destruct (blank (BuildRawSummary snapshot ArtifactSummary)) eqn:Eb; cbn [negb].
  { cbn. rewrite Hmd. split; [by eexists|done]. }
  destruct (ParseRawSummaryContent _) as [ms|e]; cbn; rewrite Hmd; (split; [by eexists|]); [|done].
  split_and!; [done|done|]. destruct (res_Metrics r); [|done]. cbn. by rewrite applySummaryPercentiles_idem.
Qed.

Lemma merge_payload_settles payload r : payload_settled payload (merge_payload payload r).1.
Proof.
  unfold merge_payload, payload_settled. destruct (String.eqb_spec payload ""); [by left|right]. cbn.
  destruct (res_Metadata r) as [m|]; [|done]. cbn. destruct (md_Payload m) as [p|]; [|done]. cbn.
  by rewrite refresh_payload_idem.
Qed.

Lemma merge_auth_settles snapshot r : auth_settled snapshot (merge_auth snapshot r).1.
Proof.
  unfold merge_auth, auth_settled. destruct (blank _); [by left|right].
  destruct (ParseRawAuthSummaryContent _) as [s|e]; [|done]. cbn. split; [done|].
  destruct (res_Metadata r) as [m|]; [|done]. exact (f_equal Some (applyAuthSummary_idem m s)).
Qed.

(** What is settled is not changed, and not said to be. *)
Lemma merge_summary_id snapshot r : summary_settled snapshot r -> merge_summary snapshot r = (r, false).
Proof.
  unfold merge_summary, summary_settled, summaryCollectionFromRaw, with_metadata. intros [[md Hmd] Hs].
  destruct (blank (BuildRawSummary snapshot ArtifactSummary)); cbn [negb].
  - rewrite Hs, bool_decide_true by done. cbn [negb]. rewrite Hmd in Hs. cbn in Hs.
    destruct r, md; cbn in *. by subst.
  - destruct (ParseRawSummaryContent _) as [ms|e]; [|by destruct r].
    destruct Hs as (Hc & Hraw & Hm). cbn [scr_Raw scr_ArtifactCollection]. rewrite Hc, bool_decide_true by done.
    unfold percentiles_of in Hm. rewrite Hm. cbn [res_SummaryContent negb]. rewrite Hmd in Hc. cbn in Hc.
    destruct r, md; cbn in *; subst. by rewrite String.eqb_refl.
Qed.

Lemma merge_payload_id payload r : payload_settled payload r -> merge_payload payload r = (r, false).
Proof.
  unfold merge_payload. destruct (String.eqb_spec payload "") as [->|Hne]; [done|]. intros [|Hs]; [done|].
  unfold same_address, with_metadata, refreshPayloadMetadata. destruct r; cbn in *.
  destruct res_Metadata as [m|]; [|done]. cbn in *. rewrite Hs. rewrite bool_decide_true by done. by destruct m.
Qed.

Lemma address_fmap {A} (f : A -> A) (o : option A) : address (f <$> o) = address o.
Proof. by destruct o. Qed.

Lemma merge_auth_id snapshot r : auth_settled snapshot r -> merge_auth snapshot r = (r, false).
Proof.
  unfold merge_auth, auth_settled. destruct (blank _); [done|]. intros [|Hs]; [done|].
  destruct (ParseRawAuthSummaryContent _) as [s|e]; [|done]. destruct Hs as [Hraw Hm].
  unfold same_address, with_metadata. destruct r; cbn in *. subst. rewrite String.eqb_refl, Hm.
  by rewrite bool_decide_true.
Qed.

(** The parts do not disturb each other. *)
Definition same_summary (r r' : TestResult) : Prop :=
  (is_Some (res_Metadata r) -> is_Some (res_Metadata r')) /\
  (m ← res_Metadata r'; md_ArtifactCollection m) = (m ← res_Metadata r; md_ArtifactCollection m) /\
  res_SummaryContent r' = res_SummaryContent r /\ res_Metrics r' = res_Metrics r.

Lemma summary_settled_ext snapshot r r' : same_summary r r' -> summary_settled snapshot r -> summary_settled snapshot r'.
Proof.
  intros (Hi & Hc & Hs & Hm) [Hmd Hset]. split; [by apply Hi|]. cbv zeta in *. rewrite Hc, Hs, Hm. done.
Qed.

Lemma merge_payload_same payload r : same_summary r (merge_payload payload r).1.
Proof.
  unfold merge_payload, same_summary, with_metadata. destruct (String.eqb payload ""); [done|]. cbn.
  destruct (res_Metadata r); done.
Qed.

Lemma merge_auth_same snapshot r :
  same_summary r (merge_auth snapshot r).1 /\
  (m ← res_Metadata (merge_auth snapshot r).1; md_Payload m) = (m ← res_Metadata r; md_Payload m).
Proof.
  unfold merge_auth, same_summary, with_metadata. destruct (blank _); [done|].
  destruct (ParseRawAuthSummaryContent _) as [s|e]; [|done]. cbn.
  destruct (res_Metadata r) as [m|]; [|done]. cbn. unfold applyAuthSummaryToMetadata.
  by destruct (hasConfiguredAuth (Some m)).
Qed.

(** The result after the three merges is settled in all parts. *)
Lemma merges_settled snapshot payload r :
  is_Some (res_Metadata r) ->
  let r3 := (merge_auth snapshot (merge_payload payload (merge_summary snapshot r).1).1).1 in
  summary_settled snapshot r3 /\ payload_settled payload r3 /\ auth_settled snapshot r3.
Proof.
  intros Hmd r3. unfold r3.
  pose proof (merge_auth_same snapshot (merge_payload payload (merge_summary snapshot r).1).1) as [Hs Hp].
  split_and!; [| |apply merge_auth_settles].
  - eapply summary_settled_ext; [exact Hs|]. eapply summary_settled_ext; [apply merge_payload_same|].
    by apply merge_summary_settles.
  - unfold payload_settled. rewrite Hp. apply merge_payload_settles.
Qed.

(** The first merge leaves a settled result; its metrics were built from it
    when something was seen to change. *)
Lemma mergeResultArtifacts_settles (result : TestResult) (snapshot : Snapshot) (payloadFallback : string) :
  let '(r, payload, changed) := mergeResultArtifacts result snapshot payloadFallback in
  summary_settled snapshot r /\ payload_settled payload r /\ auth_settled snapshot r /\
  (changed = true -> res_MetricsV2 r = buildMetricsV2 (res_Metrics r) (res_SummaryContent r) (res_Metadata r)) /\
  let uploaded := trim_space (FirstArtifactContent snapshot ArtifactPayload) in
  (if String.eqb uploaded "" then trim_space payload else uploaded) = payload.
Proof.
  unfold mergeResultArtifacts. cbv zeta.
  set (r0 := match res_Metadata result with Some _ => result | None => _ end).
  assert (Hmd : is_Some (res_Metadata r0)) by (unfold r0; destruct (res_Metadata result) eqn:E; [by rewrite E|by eexists]).
  clearbody r0. set (uploaded := trim_space _).
  set (payload := if String.eqb uploaded "" then trim_space payloadFallback else uploaded).
  assert (Hpay : (if String.eqb uploaded "" then trim_space payload else uploaded) = payload).
  { unfold payload. destruct (String.eqb uploaded "") eqn:E; [by rewrite trim_space_idem|done]. }
  clearbody payload. pose proof (merges_settled snapshot payload r0 Hmd) as Hset.
  destruct (merge_summary snapshot r0) as [r1 c1]. cbn [fst] in Hset.
  destruct (merge_payload payload r1) as [r2 c2]. cbn [fst] in Hset.
  destruct (merge_auth snapshot r2) as [r3 c3]. cbn [fst] in Hset.
  destruct Hset as (Hs & Hp & Ha). by destruct (c1 || c2 || c3).
Qed.

(** In memory, merging again changes nothing. *)
Lemma mergeResultArtifacts_idem (result : TestResult) (snapshot : Snapshot) (payloadFallback : string) :
  let '(result1, payload1, _) := mergeResultArtifacts result snapshot payloadFallback in
  mergeResultArtifacts result1 snapshot payload1 = (result1, payload1, false).
Proof.
  pose proof (mergeResultArtifacts_settles result snapshot payloadFallback) as Hset.
  destruct (mergeResultArtifacts result snapshot payloadFallback) as [[r payload] changed].
  destruct Hset as (Hs & Hp & Ha & _ & Hpay). unfold mergeResultArtifacts. cbv zeta in *. rewrite Hpay.
  assert (Hmd : match res_Metadata r with Some _ => r | None => r <| res_Metadata := Some zero_TestMetadata |> end = r)
    by (by destruct Hs as [[md ->] _]).
  rewrite Hmd, (merge_summary_id _ _ Hs), (merge_payload_id _ _ Hp), (merge_auth_id _ _ Ha). done.
Qed.

(** ** Merging into a result that has been stored and read back *)

Definition decoded_result (r : TestResult) : TestResult := r <| res_Metadata := decoded_metadata <$> res_Metadata r |>.

Definition decoded_collection (c : ArtifactCollectionMetadata) : ArtifactCollectionMetadata :=
  mkCollection (ac_Status c) (ac_ExpectedWorkerCount c) (ac_ReceivedWorkerSummaryCount c) (omit_empty (ac_MissingWorkers c)).

(** What the uploads of a run say of its workers; nothing when the summaries do
    not parse. *)
Definition collected (snapshot : Snapshot) : option ArtifactCollectionMetadata :=
  let raw := BuildRawSummary snapshot ArtifactSummary in
  if blank raw then Some (classifyArtifactCollection (snap_ExpectedWorkers snapshot) None)
  else match ParseRawSummaryContent raw with
       | Ok ms => Some (classifyArtifactCollection (snap_ExpectedWorkers snapshot) (Some ms))
       | Err _ => None
       end.

Lemma decoded_collection_differs (c : ArtifactCollectionMetadata) :
  bool_decide (Some (decoded_collection c) = Some c) = negb (bool_decide (ac_MissingWorkers c = Some [])).
Proof.
  destruct c as [st ex rc [[|w ws]|]]; unfold decoded_collection; cbn.
  - rewrite bool_decide_false by congruence. by rewrite bool_decide_true.
  - rewrite bool_decide_true by done. by rewrite bool_decide_false.
  - rewrite bool_decide_true by done. by rewrite bool_decide_false.
Qed.

(** The collection is replaced by itself, and seen to change when the list of
    missing workers was left out. *)
Lemma merge_summary_decoded snapshot r :
  summary_settled snapshot r ->
  merge_summary snapshot (decoded_result r) =
  match collected snapshot with
  | Some c => (r, bool_decide (ac_MissingWorkers c = Some []))
  | None => (decoded_result r, false)
  end.
Proof.
  intros [[md Hmd] Hs]. unfold merge_summary, collected, summaryCollectionFromRaw, with_metadata in *. cbv zeta in *.
  destruct r as [x1 x2 x3 x4 metrics x5 x6 metadata x7 x8 x9 x10]. cbn in Hmd. subst metadata. cbn in Hs |- *.
  destruct (blank (BuildRawSummary snapshot ArtifactSummary)) eqn:Eb; cbn [negb].
  - rewrite Hs. cbn [fmap option_fmap option_map].
    pose proof (decoded_collection_differs (classifyArtifactCollection (snap_ExpectedWorkers snapshot) None)) as Hd.
    unfold decoded_collection in Hd. rewrite Hd, negb_involutive. destruct md. cbn in Hs. by subst.
  - destruct (ParseRawSummaryContent _) as [ms|e]; [|by destruct metrics].
    destruct Hs as (Hc & Hraw & Hm). cbn in Hraw, Hm. cbn [scr_Raw scr_ArtifactCollection res_SummaryContent].
    rewrite Hc, Hraw, String.eqb_refl. cbn [fmap option_fmap option_map negb orb].
    pose proof (decoded_collection_differs (classifyArtifactCollection (snap_ExpectedWorkers snapshot) (Some ms))) as Hd.
    unfold decoded_collection in Hd. rewrite Hd, negb_involutive.
    unfold percentiles_of in Hm. rewrite Hm. destruct md. cbn in Hc. by subst.
Qed.

Lemma payload_settled_decoded payload r : payload_settled payload r -> payload_settled payload (decoded_result r).
Proof. unfold payload_settled, decoded_result. cbn. by destruct (res_Metadata r). Qed.

Lemma auth_settled_decoded snapshot r : auth_settled snapshot r -> auth_settled snapshot (decoded_result r).
Proof.
  unfold auth_settled, decoded_result. intros [?|Ha]; [by left|right]. destruct (ParseRawAuthSummaryContent _) as [s|e]; [|done].
  destruct Ha as [Hraw Hm]. split; [done|]. cbn. destruct (res_Metadata r) as [md|]; [|done]. cbn in *.
  injection Hm as Hm. f_equal. unfold applyAuthSummaryToMetadata in *.
  change (hasConfiguredAuth (Some (decoded_metadata md))) with (hasConfiguredAuth (Some md)).
  destruct (hasConfiguredAuth (Some md)); [|done]. destruct md. cbn in *. unfold decoded_metadata. cbn.
  by injection Hm as ->.
Qed.

Lemma finite_decoded (m : option TestMetadata) : on_some finite_metadata (decoded_metadata <$> m) = on_some finite_metadata m.
Proof. by destruct m. Qed.

Lemma decoded_twice (m : option TestMetadata) : decoded_metadata <$> (decoded_metadata <$> m) = decoded_metadata <$> m.
Proof.
  destruct m as [md|]; [|done]. cbn. f_equal. unfold decoded_metadata. cbn.
  by destruct (md_ArtifactCollection md) as [[? ? ? [[]|]]|].
Qed.

Lemma marshal_decoded r stored :
  marshal_result r = Ok stored -> stored = decoded_result r /\ marshal_result stored = Ok stored.
Proof.
  unfold marshal_result. destruct (_ && _ && _ && _) eqn:E; [|done]. intros [= <-]. split; [done|].
  rewrite <- finite_decoded in E. cbn [res_Metrics res_MetricsV2 res_TimeSeries res_Metadata]. rewrite E.
  unfold decoded_result. cbn [res_Metadata]. by rewrite decoded_twice.
Qed.

(** Merging the same uploads into the stored result, as it is read back, gives
    the stored result again. *)
Lemma mergeResultArtifacts_again (result stored : TestResult) (snapshot : Snapshot) (payloadFallback : string) :
  let '(result1, payload1, changed1) := mergeResultArtifacts result snapshot payloadFallback in
  changed1 = true -> marshal_result result1 = Ok stored ->
  let '(result2, payload2, changed2) := mergeResultArtifacts stored snapshot payload1 in
  marshal_result result2 = Ok stored /\ payload2 = payload1 /\
  (changed2 = true <-> exists c, collected snapshot = Some c /\ ac_MissingWorkers c = Some []).
Proof.
  pose proof (mergeResultArtifacts_settles result snapshot payloadFallback) as Hset.
  destruct (mergeResultArtifacts result snapshot payloadFallback) as [[r payload] changed].
  destruct Hset as (Hs & Hp & Ha & Hv & Hpay). intros Hc Hm. specialize (Hv Hc).
  destruct (marshal_decoded r stored Hm) as [-> Hm']. unfold mergeResultArtifacts. cbv zeta in *. rewrite Hpay.
  assert (Hmd : match res_Metadata (decoded_result r) with
                | Some _ => decoded_result r | None => (decoded_result r) <| res_Metadata := Some zero_TestMetadata |> end = decoded_result r)
    by (unfold decoded_result; by destruct Hs as [[md ->] _]).
  rewrite Hmd, (merge_summary_decoded _ _ Hs). destruct (collected snapshot) as [c|].
  - rewrite (merge_payload_id _ _ Hp), (merge_auth_id _ _ Ha), !orb_false_r. split; [|split; [done|]].
    + assert (Hr : r <| res_MetricsV2 := buildMetricsV2 (res_Metrics r) (res_SummaryContent r) (res_Metadata r) |> = r)
        by (rewrite <- Hv; by destruct r).
      rewrite Hr. by destruct (bool_decide _).
    + rewrite bool_decide_eq_true. naive_solver.
  - rewrite (merge_payload_id _ _ (payload_settled_decoded _ _ Hp)), (merge_auth_id _ _ (auth_settled_decoded _ _ Ha)).
    split; [done|]. split; [done|]. naive_solver.
Qed.

(** The payload content a merge works with; the merge depends on the stored
    content through it only. *)
Definition payload_of (snapshot : Snapshot) (payloadFallback : string) : string :=
  let uploaded := trim_space (FirstArtifactContent snapshot ArtifactPayload) in
  if String.eqb uploaded "" then trim_space payloadFallback else uploaded.

Lemma merged_payload result snapshot payloadFallback :
  (mergeResultArtifacts result snapshot payloadFallback).1.2 = payload_of snapshot payloadFallback.
Proof.
  unfold mergeResultArtifacts, payload_of. cbv zeta.
  destruct (merge_summary _ _) as [r1 c1]. destruct (merge_payload _ _) as [r2 c2]. by destruct (merge_auth _ _) as [r3 c3].
Qed.

Lemma merge_same_payload result snapshot p q :
  payload_of snapshot p = payload_of snapshot q ->
  mergeResultArtifacts result snapshot p = mergeResultArtifacts result snapshot q.
Proof. unfold payload_of, mergeResultArtifacts. cbv zeta. by intros ->. Qed.

Lemma payload_of_kept snapshot p :
  let kept := if String.eqb (payload_of snapshot p) "" then p else payload_of snapshot p in
  payload_of snapshot kept = payload_of snapshot (payload_of snapshot p).
Proof.
  unfold payload_of. destruct (String.eqb (trim_space (FirstArtifactContent snapshot ArtifactPayload)) "") eqn:E.
  - destruct (String.eqb_spec (trim_space p) "") as [Hp|Hp]; [|done]. by rewrite trim_space_idem.
  - done.
Qed.

(** C32: when late uploads have changed the row of a completed run, and the
    result could be written as JSON, the same uploads change it no more: the row
    as it is read back is either left alone or written again with the same
    payload and the same result. It is written again exactly when no worker is
    missing, because the empty list of missing workers is left out of the stored
    text and the collection read back differs from the computed one. *)
Theorem enriched_again (lt : LoadTest) (snapshot : Snapshot) (payload : option string) (result stored : TestResult) :
  enriched lt snapshot = Some (payload, result) -> marshal_result result = Ok stored ->
  let row := lt <| lt_PayloadContent := default (lt_PayloadContent lt) payload |> <| lt_ResultJSON := Some stored |> in
  let complete := exists c, collected snapshot = Some c /\ ac_MissingWorkers c = Some [] in
  match enriched row snapshot with
  | None => ~ complete
  | Some (payload', result') => complete /\ payload' = None /\ marshal_result result' = Ok stored
  end.
Proof.
  intros He Hm row complete.
  assert (Hrow : lt_Status row = lt_Status lt /\ lt_ResultJSON row = Some stored /\
                 lt_PayloadContent row = default (lt_PayloadContent lt) payload) by done.
  destruct Hrow as (Hs & Hj & Hk). clearbody row. unfold enriched in *. rewrite Hs, Hj.
  destruct (negb (String.eqb (lt_Status lt) "completed")); [done|].
  destruct (lt_ResultJSON lt) as [result0|]; [|done]. cbn [mbind option_bind] in *.
  pose proof (mergeResultArtifacts_again result0 stored snapshot (lt_PayloadContent lt)) as Hagain.
  pose proof (merged_payload result0 snapshot (lt_PayloadContent lt)) as Hp.
  pose proof (payload_of_kept snapshot (lt_PayloadContent lt)) as Hkept. cbv zeta in Hkept.
  destruct (mergeResultArtifacts result0 snapshot (lt_PayloadContent lt)) as [[r1 p1] changed]. destruct changed; [|done].
  injection He as <- <-. specialize (Hagain eq_refl Hm). cbn [fst snd] in Hp. rewrite <- Hp in Hkept.
  assert (Hkeep : lt_PayloadContent row = if String.eqb p1 "" then lt_PayloadContent lt else p1).
  { rewrite Hk. destruct (String.eqb_spec p1 ""); [done|]. by destruct (String.eqb_spec p1 (lt_PayloadContent lt)). }
  rewrite <- Hkeep in Hkept. rewrite (merge_same_payload stored snapshot _ p1 Hkept).
  destruct (mergeResultArtifacts stored snapshot p1) as [[r2 p2] changed2]. destruct Hagain as (Hr & -> & Hchanged).
  destruct changed2; [|by intros Hc; apply Hchanged in Hc]. split; [by apply Hchanged|split; [|done]].
  rewrite Hkeep. destruct (String.eqb_spec p1 ""); [done|]. cbn. by rewrite String.eqb_refl.
Qed.

(** ** What makes a stored result change *)

(** The uploads of the snapshot tell something the result does not hold. *)
Definition news (snapshot : Snapshot) (result : TestResult) : Prop :=
  let raw := BuildRawSummary snapshot ArtifactSummary in
  let rawAuth := BuildRawSummary snapshot ArtifactAuthSummary in
  let collection := (m ← res_Metadata result; md_ArtifactCollection m) in
  (if blank raw then collection <> Some (classifyArtifactCollection (snap_ExpectedWorkers snapshot) None)
   else exists ms, ParseRawSummaryContent raw = Ok ms /\
          (res_SummaryContent result <> raw \/
           collection <> Some (classifyArtifactCollection (snap_ExpectedWorkers snapshot) (Some ms)))) \/
  blank rawAuth = false /\ res_AuthSummaryContent result <> rawAuth /\
  exists s, ParseRawAuthSummaryContent rawAuth = Ok s.

Lemma merge_payload_silent payload r : (merge_payload payload r).2 = false.
Proof.
  unfold merge_payload. destruct (String.eqb payload ""); [done|]. unfold same_address, with_metadata. cbn.
  destruct (res_Metadata r) as [m|]; [|done]. cbn. by destruct (md_Payload m).
Qed.

Lemma merge_auth_changed snapshot r :
  (merge_auth snapshot r).2 = true <->
  blank (BuildRawSummary snapshot ArtifactAuthSummary) = false /\
  res_AuthSummaryContent r <> BuildRawSummary snapshot ArtifactAuthSummary /\
  exists s, ParseRawAuthSummaryContent (BuildRawSummary snapshot ArtifactAuthSummary) = Ok s.
Proof.
  unfold merge_auth. destruct (blank _); [naive_solver|]. destruct (ParseRawAuthSummaryContent _) as [s|e]; [|naive_solver].
  cbn [snd]. unfold same_address, with_metadata. cbn.
  assert (Ha : address (m ← res_Metadata r; md_Auth m) =
               address (m ← (fun m => applyAuthSummaryToMetadata m (Some s)) <$> res_Metadata r; md_Auth m)).
  { destruct (res_Metadata r) as [m|]; [|done]. cbn. unfold applyAuthSummaryToMetadata.
    destruct (hasConfiguredAuth (Some m)); [|done]. cbn. by destruct (md_Auth m). }
  rewrite bool_decide_true by exact Ha. rewrite orb_false_r, negb_true_iff, String.eqb_neq. naive_solver.
Qed.

Lemma merge_summary_changed snapshot r :
  (merge_summary snapshot r).2 = true <->
  let raw := BuildRawSummary snapshot ArtifactSummary in
  let collection := (m ← res_Metadata r; md_ArtifactCollection m) in
  if blank raw then collection <> Some (classifyArtifactCollection (snap_ExpectedWorkers snapshot) None)
  else exists ms, ParseRawSummaryContent raw = Ok ms /\
         (res_SummaryContent r <> raw \/
          collection <> Some (classifyArtifactCollection (snap_ExpectedWorkers snapshot) (Some ms))).
Proof.
  unfold merge_summary, summaryCollectionFromRaw. cbv zeta.
  destruct (blank (BuildRawSummary snapshot ArtifactSummary)); cbn [negb snd].
  { by rewrite negb_true_iff, bool_decide_eq_false. }
  destruct (ParseRawSummaryContent _) as [ms|e]; cbn [snd]; [|naive_solver].
  cbn [scr_Raw scr_ArtifactCollection res_SummaryContent].
  rewrite orb_true_iff, !negb_true_iff, bool_decide_eq_false, String.eqb_neq. naive_solver.
Qed.

Lemma merge_summary_auth snapshot r :
  res_AuthSummaryContent (merge_summary snapshot r).1 = res_AuthSummaryContent r.
Proof.
  unfold merge_summary. destruct (negb _); [|done]. by destruct (summaryCollectionFromRaw _ _ _) as [[] ?].
Qed.

Lemma merge_payload_auth payload r :
  res_AuthSummaryContent (merge_payload payload r).1 = res_AuthSummaryContent r.
Proof. unfold merge_payload. by destruct (String.eqb payload ""). Qed.

(** An upload that arrives after a run is completed changes the stored
    result exactly when the summaries or the auth summaries tell something new;
    a payload upload alone never does, since the code compares the payload's
    metadata with itself. *)
Theorem enriched_iff_news (lt : LoadTest) (snapshot : Snapshot) (result : TestResult) :
  lt_Status lt = "completed" -> lt_ResultJSON lt = Some result ->
  is_Some (enriched lt snapshot) <-> news snapshot result.
Proof.
  intros Hs Hr. unfold enriched. rewrite Hs, Hr. cbn [negb String.eqb mbind option_bind].
  unfold mergeResultArtifacts. cbv zeta.
  set (r0 := match res_Metadata result with Some _ => result | None => _ end).
  set (payload := if String.eqb _ "" then _ else _). clearbody payload.
  assert (Hnews : news snapshot result <-> news snapshot r0).
  { unfold news, r0. destruct (res_Metadata result) as [m|] eqn:E; cbn; rewrite ?E; done. }
  rewrite Hnews. clearbody r0. unfold news. cbv zeta.
  rewrite <- merge_summary_changed. pose proof (merge_payload_silent payload (merge_summary snapshot r0).1) as Hp.
  pose proof (merge_auth_changed snapshot (merge_payload payload (merge_summary snapshot r0).1).1) as Ha.
  rewrite merge_payload_auth, merge_summary_auth in Ha. rewrite <- Ha. clear Ha.
  destruct (merge_summary snapshot r0) as [r1 c1]. cbn [fst snd] in *.
  destruct (merge_payload payload r1) as [r2 c2]. cbn [fst snd] in *. subst c2.
  destruct (merge_auth snapshot r2) as [r3 c3]. cbn [snd].
  destruct c1, c3; cbn; naive_solver.
Qed.
End merging.
