(* ===== verification/LostRuns.v ===== *)
(** * Runs that nothing ends any more

    A row of a run that is stored as running while another test, or none, is
    the active one: no handler, no upload and no other completion touches it. *)

From S2P Require Import Prelude Programs GoStrings GoTime GoFloat Json Model Payload Requests Store.
From S2P Require Import Scheduler Overlap Completion Orchestrator Startup Ramping K6Config.
From S2P Require Import Summary Results MetricsV2 LoadTests Enrichment TestHandler TestCompletion TestApi.
From S2P Require Import ReportSpec TestSpec.

Open Scope Z_scope.
Open Scope go_scope.

Section lost.
Context `{TzDatabase} `{RowOrder} `{MapOrder} `{UuidSource} `{JsonErrors} `{ErrGroup} `{ScriptText} `{TestConfig}.
Context (id : string).

(** The row of [id], an ID drawn before, is running, and another test is
    active, or none. *)
Definition lost (t : TestWorld) : Prop :=
  lt_Status <$> tw_tests t !! id = Some "running" /\ o_activeTestID (tw_orch t) <> id /\ drawn (tw_world t) id.

(** What does not touch the rows, the active test and the IDs drawn. *)
Lemma lost_same (t t' : TestWorld) :
  tw_tests t' = tw_tests t -> o_activeTestID (tw_orch t') = o_activeTestID (tw_orch t) ->
  (w_uuids (tw_world t) <= w_uuids (tw_world t'))%nat -> lost t -> lost t'.
Proof.
  intros Ht Ho Hu (L1 & L2 & L3). split_and!; rewrite ?Ht, ?Ho; [done|done|]. by eapply drawn_mono.
Qed.

Lemma lost_sql {A} (context : string) (stmt : gmap string LoadTest -> res A * gmap string LoadTest) (t : TestWorld) :
  (forall tests, (stmt tests).2 !! id = tests !! id) -> lost t -> lost (run_tests_sql context stmt t).2.
Proof.
  intros Hs (L1 & L2 & L3). specialize (Hs (tw_tests t)). unfold run_tests_sql.
  destruct (stmt (tw_tests t)) as [r db]. cbn in Hs.
  destruct (w_faults (tw_world t)) as [|[msg|] fs]; split_and!; cbn; by rewrite ?Hs.
Qed.

Lemma lost_update (f : LoadTest -> LoadTest) (context other : string) (t : TestWorld) :
  other <> id -> lost t -> lost (run_tests_sql (A := unit) context (fun tests => (Ok tt, alter f other tests)) t).2.
Proof. intros Hne. apply lost_sql. intros tests. cbn. by rewrite lookup_alter_ne. Qed.

Lemma lost_result (other status : string) (result : option TestResult) (t : TestWorld) :
  other <> id -> lost t -> lost (UpdateLoadTestResult other status result t).2.
Proof. apply lost_update. Qed.

Lemma lost_payload (other content : string) (t : TestWorld) :
  other <> id -> lost t -> lost (UpdateLoadTestPayloadContent other content t).2.
Proof. apply lost_update. Qed.

Lemma lost_create (lt : LoadTest) (t : TestWorld) : lt_ID lt <> id -> lost t -> lost (CreateLoadTest lt t).2.
Proof.
  intros Hne. unfold CreateLoadTest. apply lost_sql. intros tests.
  destruct (tests !! lt_ID lt); cbn; [done|]. by rewrite lookup_insert_ne.
Qed.

Lemma lost_get (other : string) (t : TestWorld) : lost t -> lost (GetLoadTest other t).2.
Proof. by apply lost_sql. Qed.

(** A new ID is another one. *)
Lemma lost_new_uuid (t : TestWorld) :
  lost t -> lost (on_store new_uuid t).2 /\ (on_store new_uuid t).1 <> id.
Proof.
  intros L. split; [apply (lost_same t); [done|done|cbn; lia|done]|]. destruct L as (_ & _ & n & -> & Hn). cbn.
  intros E. apply uuid_inj in E. lia.
Qed.

Lemma lost_orch {A} (f : Orchestrator -> A * Orchestrator) (t : TestWorld) :
  (forall o, o_activeTestID (f o).2 = o_activeTestID o \/ o_activeTestID (f o).2 = "") ->
  lost t -> id <> "" -> lost (on_orch f t).2.
Proof.
  intros Hf (L1 & L2 & L3) Hne. unfold on_orch. specialize (Hf (tw_orch t)). destruct (f (tw_orch t)) as [a o].
  split_and!; [done| |done]. cbn in *. destruct Hf as [-> | ->]; congruence.
Qed.

Lemma lost_not_empty (t : TestWorld) : lost t -> id <> "".
Proof. intros (_ & _ & n & -> & _). apply uuid_nonempty. Qed.

Lemma lost_file_op (name : string) (content : option string) (t : TestWorld) :
  lost t -> lost (file_op name content t).2.
Proof. unfold file_op. destruct (tw_io t) as [|[]]; by apply lost_same. Qed.

Lemma lost_snapshot (other : string) (t : TestWorld) : lost t -> lost (registry_snapshot other t).2.
Proof. unfold registry_snapshot. destruct (Registry_Snapshot _ _ _). by apply lost_same. Qed.

Lemma lost_notify (testID status errMsg : string) (t : TestWorld) :
  lost t -> lost (notifyScheduleCompletion testID status errMsg t).2.
Proof.
  destruct (notify_world testID status errMsg t) as (Ht & Hu & _). apply lost_same; [done| |by rewrite Hu].
  unfold notifyScheduleCompletion. by destruct (tw_scheduler t).
Qed.

Lemma lost_conflict (confirm : bool) (t : TestWorld) : lost t -> lost (checkManualStartConflict confirm t).2.
Proof.
  unfold checkManualStartConflict. destruct confirm; [done|]. unfold on_store.
  pose proof (CheckOverlap_reading (mkTimeSlot (tw_now t) (add (tw_now t) (2 * Hour))) "" None (tw_world t))
    as (E1 & E2 & E3).
  destruct (CheckOverlap _ _ _ (tw_world t)) as [r w]. cbn in *. apply lost_same; cbn; [done|done|lia].
Qed.

(** A start may give up the active run. *)
Lemma ResumeAllForStart_active resumes recoveries (o : Orchestrator) :
  (ResumeAllForStart resumes recoveries o).2 = o \/ (ResumeAllForStart resumes recoveries o).2 = clearActiveRunLocked o.
Proof.
  unfold ResumeAllForStart. generalize (Z.to_nat maxRecoveryAttempts), 1. intros fuel attempt. revert attempt o.
  induction fuel as [|fuel IH]; intros attempt o; [by left|]. cbn [start_attempts].
  destruct (resumeAll _ _ _); [|by left]. destruct (negb _); [by left|]. destruct (_ =? _); [by left|].
  unfold recoverWorkersForStart, StopAll. destruct (group_wait _); [by right|]. destruct (WaitForAllReady _); [by right|].
  right. by destruct (IH (attempt + 1) (clearActiveRunLocked o)) as [-> | ->].
Qed.

(** One action. *)
Ltac lost1 :=
  unfold keeps;
  lazymatch goal with
  | |- _ -> lost (UpdateLoadTestResult _ _ _ _).2 => by apply lost_result
  | |- _ -> lost (UpdateLoadTestPayloadContent _ _ _).2 => by apply lost_payload
  | |- _ -> lost (GetLoadTest _ _).2 => by apply lost_get
  | |- _ -> lost (registry_snapshot _ _).2 => by apply lost_snapshot
  | |- _ -> lost (notifyScheduleCompletion _ _ _ _).2 => by apply lost_notify
  | |- _ -> lost (checkManualStartConflict _ _).2 => by apply lost_conflict
  | |- _ -> lost (on_store new_uuid _).2 => by intros L; apply lost_new_uuid
  | |- _ -> lost (buildCompletionData _ _ _ _).2 => fail
  | |- _ -> lost (loadCompletionPayloadArtifact _ _).2 => fail
  | |- _ -> lost (loadCompletionAuthSummary _ _ _).2 => fail
  | |- _ -> lost (set_orch _ _).2 => by intros L; refine (lost_orch _ _ _ L (lost_not_empty _ L)); intros; auto
  | |- _ -> lost (on_orch _ _).2 => by intros L; refine (lost_orch _ _ _ L (lost_not_empty _ L)); intros; auto
  | |- _ -> lost (stop_all _ _).2 => by intros L; refine (lost_orch _ _ _ L (lost_not_empty _ L)); intros; auto
  | _ => first [by apply lost_file_op | by apply lost_same]
  end.
Ltac lose := follow; try lost1.

Lemma prepareExecution_loses req : follows (keeps lost) (prepareExecution req).
Proof. unfold prepareExecution. lose. Qed.

Lemma configureArtifactUploads_loses testID prepared : follows (keeps lost) (configureArtifactUploads testID prepared).
Proof. unfold configureArtifactUploads. lose. Qed.

Lemma reloadWorkersForExecution_loses env : follows (keeps lost) (reloadWorkersForExecution env).
Proof. unfold reloadWorkersForExecution. lose. Qed.

Lemma startPreparedExecution_loses env testID req prepared :
  testID <> id -> follows (keeps lost) (startPreparedExecution env testID req prepared).
Proof.
  intros Hne. unfold startPreparedExecution. lose.
  - intros L. refine (lost_orch _ _ _ L (lost_not_empty _ L)). intros o.
    destruct (ResumeAllForStart_active (se_resumes env) (se_recoveries env) o) as [-> | ->]; auto.
  - intros (L1 & _ & L3). split_and!; [done|cbn; congruence|done].
Qed.

#[local] Hint Resolve prepareExecution_loses configureArtifactUploads_loses reloadWorkersForExecution_loses
  startPreparedExecution_loses : follows.

(** The start of a test, which draws its ID. *)
Lemma launch_loses env req userID username prepared :
  secures lost (fun _ => True) (launch env req userID username prepared).
Proof.
  unfold launch. eapply secures_bind; [by apply follows_secures; lose|intros _ _].
  eapply (secures_bind _ (fun r => forall other, r = Ok other -> other <> id)).
  - unfold createRunningLoadTest. eapply (secures_bind _ (fun other => other <> id)); [apply secures_act, lost_new_uuid|].
    intros other Hne.
    eapply (secures_bind _ (fun _ => True)); [apply follows_secures; lose; intros L; by apply lost_create|].
    intros [u|e] _; apply secures_mret; intros ? [=]; congruence.
  - intros [other|e] Hne; [|by apply secures_mret]. specialize (Hne other eq_refl). apply follows_secures. lose.
Qed.

Lemma ExecuteTest_loses env req userID username : secures lost (fun _ => True) (ExecuteTest env req userID username).
Proof.
  unfold ExecuteTest. destruct (validateExecutionRequest req) as [[req'|e]|]; [|by apply secures_mret..].
  eapply secures_bind; [by apply follows_secures; lose|intros active _]. destruct (negb _); [by apply secures_mret|].
  eapply secures_bind; [by apply follows_secures; lose|intros [[prepared|e]|] _; [|by apply secures_mret..]].
  eapply secures_bind; [apply launch_loses|intros r _]. by apply secures_mret.
Qed.

Lemma StartTest_loses env body confirm userID username :
  secures lost (fun _ => True) (StartTest env body confirm userID username).
Proof.
  unfold StartTest. destruct body as [req|]; [|by apply secures_mret].
  destruct (validateStartRequest req) as [[req'|e]|]; [|by apply secures_mret..].
  eapply secures_bind; [by apply follows_secures; lose|intros active _]. destruct (negb _); [by apply secures_mret|].
  eapply secures_bind; [by apply follows_secures; lose|intros [c|] _; [by apply secures_mret|]].
  eapply secures_bind; [apply ExecuteTest_loses|intros r _]. by apply secures_mret.
Qed.

Lemma collect_loop_loses fuel testID expected deadline best metrics :
  follows (keeps lost) (collect_loop fuel testID expected deadline best metrics).
Proof.
  revert best metrics. induction fuel as [|fuel IH]; intros best metrics; cbn [collect_loop]; lose; try apply IH.
  - unfold loadUploadedSummary. pose proof (lost_snapshot testID s) as Hs.
    destruct (registry_snapshot testID s) as [[sn|] t']; [|done]. by destruct (summaryCollectionFromRaw _ _ _) as [[] ?].
  - unfold load_summary_files. destruct (blank _); [done|]. by destruct (summaryCollectionFromRaw _ _ _) as [[] ?].
Qed.

#[local] Hint Resolve collect_loop_loses : follows.

Lemma loadCompletionSummary_loses testID expected deadline metrics :
  follows (keeps lost) (loadCompletionSummary testID expected deadline metrics).
Proof. unfold loadCompletionSummary. lose. Qed.

Lemma persistCompletedResult_loses testID data rawSummary rawAuth payload auth :
  testID <> id -> follows (keeps lost) (persistCompletedResult testID data rawSummary rawAuth payload auth).
Proof. intros Hne. unfold persistCompletedResult. lose. Qed.

Lemma lost_completion_data testID metrics endTime (t : TestWorld) :
  lost t -> lost (buildCompletionData testID metrics endTime t).2.
Proof. unfold buildCompletionData, takePendingMeta. destruct (tw_pending t !! testID); by apply lost_same. Qed.

Lemma lost_payload_artifact testID (t : TestWorld) : lost t -> lost (loadCompletionPayloadArtifact testID t).2.
Proof.
  unfold loadCompletionPayloadArtifact. pose proof (lost_snapshot testID t) as Hs. by destruct (registry_snapshot testID t).
Qed.

Lemma lost_auth_summary testID metadata (t : TestWorld) : lost t -> lost (loadCompletionAuthSummary testID metadata t).2.
Proof.
  unfold loadCompletionAuthSummary. destruct (negb _); [done|]. pose proof (lost_snapshot testID t) as Hs.
  destruct (registry_snapshot testID t) as [s t']. simpl in Hs. repeat case_match; done.
Qed.

#[local] Hint Resolve loadCompletionSummary_loses persistCompletedResult_loses : follows.
Ltac lose_end := lose; try (intros L; first [by apply lost_completion_data | by apply lost_payload_artifact | by apply lost_auth_summary]).

Lemma onTestComplete_loses env testID : testID <> id -> follows (keeps lost) (onTestComplete env testID).
Proof. intros Hne. unfold onTestComplete, latestCompletionMetrics, follow_up. lose_end. Qed.

(** The handler stops the active test, which is another one. *)
Lemma StopTest_loses env : secures lost (fun _ => True) (StopTest env).
Proof.
  unfold StopTest. eapply (secures_bind _ (fun other => other <> id)).
  - apply secures_act. intros t L. split; [done|]. apply L.
  - intros other Hne. apply follows_secures. lose_end.
Qed.

(** An upload is merged into the row of a completed run only. *)
Lemma enrich_loses other : secures lost (fun _ => True) (enrichCompletedResultFromRegistry other).
Proof.
  unfold enrichCompletedResultFromRegistry.
  eapply secures_bind; [by apply follows_secures; lose|intros [snapshot|] _; [|by apply secures_mret]].
  eapply (secures_bind _ (fun r => forall lt, r = Ok (Some lt) -> lt_Status lt = "completed" -> other <> id)).
  - apply secures_act. intros t L. split; [by apply lost_get|]. intros lt E Hc ->. destruct L as (L1 & _ & _).
    unfold GetLoadTest, run_tests_sql in E. destruct (w_faults (tw_world t)) as [|[msg|] fs]; cbn in E; simplify_eq;
      destruct (tw_tests t !! id) as [row|]; cbn in *; simplify_eq; congruence.
  - intros [[lt|]|e] Hne; [|by apply secures_mret..]. destruct (enriched lt snapshot) as [[payload result]|] eqn:E;
      [|by apply secures_mret]. apply enriched_completed in E. specialize (Hne lt eq_refl E). apply follows_secures. lose.
Qed.

(** Whoever starts, stops, completes, steers or uploads what: the row stays
    running, unless the run itself is reported complete. *)
Definition completes (a : activity) (testID : string) : Prop :=
  match a with Completing _ other => other = testID | _ => False end.

Lemma perform_loses (a : activity) : ~ completes a id -> secures lost (fun _ => True) (perform a).
Proof.
  intros Hne. destruct a; simpl perform; unfold ignore;
    try (apply (secures_bind _ (fun _ => True)); [|intros; by apply secures_mret]);
    auto using StartTest_loses, ExecuteTest_loses, StopTest_loses.
  - by apply follows_secures, onTestComplete_loses.
  - apply follows_secures. unfold PauseTest, executeRampingAction, ramping_pause. lose.
    destruct (RM_Pause _ _). unfold keeps. by apply lost_same.
  - apply follows_secures. unfold ResumeTest, executeRampingAction, ramping_resume. lose.
    destruct (RM_Resume _ _ _). unfold keeps. by apply lost_same.
  - apply follows_secures. unfold ScaleTest. lose.
  - unfold UploadArtifact. destruct body as [content|]; [|by apply secures_mret].
    eapply secures_bind; [apply follows_secures; lose|].
    + unfold store_artifact. destruct (StoreArtifact _ _ _ _ _ _ _ _ _). unfold keeps. by apply lost_same.
    + intros [e|] _; [by apply secures_mret|]. eapply secures_bind; [apply enrich_loses|]. intros. by apply secures_mret.
  - apply follows_secures, follows_act. intros t. unfold keeps, UploadScript.
    destruct form as [r|[name content]]; [done|]. destruct (ValidateUpload content); [done|].
    unfold mbind, ST_bind. pose proof (lost_file_op "current-test.js" (Some content) t) as Hf.
    unfold WriteScript. by destruct (file_op _ _ t).
  - apply follows_secures. unfold GetLiveMetrics. lose.
  - apply follows_secures. unfold GetWorkerStatus. lose.
  - apply follows_secures, follows_act. intros t L. refine (lost_orch _ _ _ L (lost_not_empty _ L)). intros o. left.
    destruct (poll_step_frame ev ticks o) as (_ & _ & Ha & _). exact Ha.
  - apply follows_secures. lose.
  - apply follows_secures. lose.
Qed.

Lemma lost_for_good (activities : list activity) (choice : list nat) (t : TestWorld) :
  Forall (fun a => ~ completes a id) activities -> lost t -> lost (sched choice (map perform activities, t)).2.
Proof.
  intros Ha. apply sched_secures, Forall_fmap. eapply Forall_impl; [exact Ha|]. intros a. apply perform_loses.
Qed.
End lost.
