(* ===== verification/TestRuns.v ===== *)
(** * Concrete runs of the test handlers

    A controller with two workers, used as witness of the claims about the
    handlers and to show what some interleavings lead to. *)

From S2P Require Import Prelude Programs GoStrings GoTime GoFloat Json Model Payload Requests Store Recurrence.
From S2P Require Import Scheduler SchedulerSpec Overlap Completion Orchestrator Startup Ramping K6Config.
From S2P Require Import Summary Results MetricsV2 LoadTests Enrichment TestHandler TestCompletion TestApi.
From S2P Require Import TestSpec CompletionSpec ArtifactSpec LostRuns.

Open Scope Z_scope.
Open Scope go_scope.

#[local] Instance zone : TzDatabase := one_zone.
#[local] Instance rows : RowOrder := merge_row_order.
#[local] Instance maps : MapOrder := id_map_order.
#[local] Instance uuids : UuidSource := test_uuids.
#[local] Instance errors : JsonErrors := fun _ => "syntax error".
#[local] Instance group : ErrGroup := first_error.

#[local] Instance texts : ScriptText := {|
  render := fun _ _ => "export default function () {}";
  InjectStatusCounters := id;
  InjectSummaryExport := id
|}.

#[local] Instance settings : TestConfig := {|
  internalControllerURL := "http://controller:8080/";
  completionBuffer := 30;
  SplitHostPort := fun _ => None
|}.

Definition idle_world : TestWorld := {|
  tw_world := mkWorld (mkDB ∅ ∅) [] 0 0 0 "";
  tw_tests := ∅;
  tw_orch := New ["worker1"; "worker2"] (2 * Second) 0 false "" 5665;
  tw_loops := ∅; tw_ramp := NewRampingManager; tw_registry := NewRegistry; tw_pending := ∅;
  tw_output := ∅; tw_scripts := ∅; tw_io := []; tw_scheduler := Some ∅
|}.

(** Paused before its start. *)
Definition ready_status : res K6Status := Ok (mkK6Status "3" true 0 0 false false false).

(** Workers that obey. *)
Definition obedient : start_env := {|
  se_stop := [None; None]; se_rounds := [[ready_status; ready_status]; [ready_status; ready_status]];
  se_resumes := fun _ => [fun _ => None; fun _ => None];
  se_recoveries := fun _ => mkRecovery [] []; se_kept := ∅
|}.

Definition silent : end_env := mkEndEnv [] [None; None] 0 0 0.

Definition script_test (project : string) : TestRequest :=
  zero_TestRequest <| tr_ProjectName := project |> <| tr_ScriptContent := "export default function () {}" |>.

(** Status of the runs, the active one, and the poll loop that is not cancelled. *)
Definition overview (t : TestWorld) : list (string * string) * string * option nat :=
  (map (fun kv => (kv.1, lt_Status kv.2)) (map_to_list (tw_tests t)), o_activeTestID (tw_orch t), o_cancelPoll (tw_orch t)).

Definition one_test : TestWorld := (run (ExecuteTest obedient (script_test "a") 1 "ann") idle_world).2.

Example one_test_ex : overview one_test = ([("u0", "running")], "u0", Some 0%nat).
Proof. vm_compute. reflexivity. Qed.

Lemma ExecuteTest_spec_witness :
  w_faults (tw_world idle_world) = [] /\ tw_tests idle_world !! uuid (w_uuids (tw_world idle_world)) = None /\
  let '(r, t') := run (ExecuteTest obedient (script_test "a") 1 "ann") idle_world in
  execution_outcome (script_test "a") 1 "ann" idle_world t' r.
Proof.
  split; [reflexivity|]. split; [reflexivity|].
  apply (ExecuteTest_spec obedient (script_test "a") 1 "ann" idle_world); reflexivity.
Defined.

Lemma onTestComplete_spec_witness :
  w_faults (tw_world one_test) = [] /\
  let t' := (run (onTestComplete silent "u0") one_test).2 in
  told "u0" (w_now (tw_world t')) one_test t' /\ o_activeTestID (tw_orch t') = "" /\
  run_closed "u0" (tw_registry t') (tw_now t').
Proof.
  split; [vm_compute; reflexivity|].
  destruct (onTestComplete_spec silent "u0" one_test) as (H1 & H2 & _ & _ & _ & H6 & _); [vm_compute; reflexivity|].
  split; [exact H1|]. split; [exact H2|exact H6].
Defined.


(** ** Interleavings *)

Definition interleave (choice : list (nat * nat)) (activities : list activity) (t : TestWorld) : TestWorld :=
  (sched (choice ≫= fun c => repeat c.1 c.2) (map perform activities, t)).2.

(** Two requests that both find no active test. *)
Definition two_starts : TestWorld :=
  interleave [(0, 3); (1, 60); (0, 60)]%nat
    [Starting obedient (Some (script_test "a")) true 1 "ann"; Starting obedient (Some (script_test "b")) true 2 "bob"]
    idle_world.

(** A request while the completion of the run before it waits for summaries. *)
Definition start_while_collecting : TestWorld :=
  interleave [(0, 11); (1, 60); (0, 500)]%nat
    [Completing silent "u0"; Starting obedient (Some (script_test "b")) true 2 "bob"] one_test.

(** [lost], as a computation: the [n]-th ID drawn. *)
Lemma lost_by (n : nat) (other : string) (t : TestWorld) :
  lt_Status <$> tw_tests t !! uuid n = Some "running" -> o_activeTestID (tw_orch t) = other ->
  other <> uuid n -> (n <? w_uuids (tw_world t))%nat = true -> lost (uuid n) t.
Proof.
  intros Hs Ha Hne Hn. split_and!; [done|by rewrite Ha|]. exists n. split; [done|]. by apply Nat.ltb_lt.
Qed.

(** C40: the check that no test is active does not exclude a second run: of two
    requests at the same time both are started and only the second is active,
    and a run started while the one before it is being completed is stopped by
    that completion.  A run that is stored as running and is not the active
    test stays so whatever starts, stops, completions, uploads and polls follow,
    in any interleaving and with any failures, unless the run itself is reported
    complete (which its cancelled poll loop does no more once it has returned). *)
Theorem starts_race :
  lost "u0" two_starts /\ o_activeTestID (tw_orch two_starts) = "u2" /\
  lost "u2" start_while_collecting /\ o_activeTestID (tw_orch start_while_collecting) = "" /\
  forall id t activities choice, lost id t -> Forall (fun a => ~ completes a id) activities ->
    let t' := (sched choice (map perform activities, t)).2 in
    lt_Status <$> tw_tests t' !! id = Some "running" /\ o_activeTestID (tw_orch t') <> id.
Proof.
  split_and!.
  - apply (lost_by 0 "u2"); [vm_compute; reflexivity..|vm_compute; discriminate|vm_compute; reflexivity].
  - vm_compute. reflexivity.
  - apply (lost_by 2 ""); [vm_compute; reflexivity..|vm_compute; discriminate|vm_compute; reflexivity].
  - vm_compute. reflexivity.
  - intros id t activities choice Hl Ha. by destruct (lost_for_good id activities choice t Ha Hl) as (L1 & L2 & _).
Qed.

(** ** A pause the workers refuse *)

Section pause.
Context `{TzDatabase} `{RowOrder} `{MapOrder} `{UuidSource} `{JsonErrors} `{ErrGroup} `{ScriptText} `{TestConfig}.

Lemma PauseTest_run (answers : list (option string)) (t : TestWorld) :
  o_activeTestID (tw_orch t) <> "" ->
  run (PauseTest answers) t =
    let '(failed, t') := ramping_pause answers t in
    (match failed with
     | Some err => classifyK6Error err "pause"
     | None => mkTestResponse 200 (TStatus "paused" (o_activeTestID (tw_orch t)))
     end, t').
Proof.
  intros Ha. unfold PauseTest, executeRampingAction. rewrite run_bind, run_act. cbn [active_test].
  destruct (String.eqb_spec (o_activeTestID (tw_orch t)) "") as [?|_]; [done|]. by rewrite run_bind, run_act.
Qed.

Lemma ramping_pause_paused (answers : list (option string)) (t : TestWorld) :
  rm_paused (tw_ramp t) = true -> ramping_pause answers t = (None, t).
Proof. intros Hp. unfold ramping_pause, RM_Pause. rewrite Hp. by destruct t. Qed.

(** When the workers refuse a pause, the ramp counts as paused all the same:
    the next pause sends nothing and answers that the test is paused. *)
Theorem failed_pause_sticks (answers answers' : list (option string)) (err : string) (t : TestWorld) :
  o_activeTestID (tw_orch t) <> "" -> rm_paused (tw_ramp t) = false -> PauseAll answers = Some err ->
  let '(r, t1) := run (PauseTest answers) t in
  r = classifyK6Error err "pause" /\
  run (PauseTest answers') t1 = (mkTestResponse 200 (TStatus "paused" (o_activeTestID (tw_orch t))), t1).
Proof.
  intros Ha Hp Herr. rewrite PauseTest_run by done. unfold ramping_pause, RM_Pause. rewrite Hp, Herr.
  split; [done|]. rewrite PauseTest_run by done. rewrite ramping_pause_paused; [done|].
  by destruct (rm_stages (tw_ramp t)).
Qed.
End pause.

Lemma failed_pause_sticks_witness :
  (o_activeTestID (tw_orch one_test) <> "" /\ rm_paused (tw_ramp one_test) = false) /\
  (run (PauseTest []) (run (PauseTest [Some "refused"; None]) one_test).2).1 =
    mkTestResponse 200 (TStatus "paused" "u0").
Proof.
  split; [split; [vm_compute; discriminate|vm_compute; reflexivity]|].
  pose proof (failed_pause_sticks [Some "refused"; None] [] "refused" one_test) as Hf.
  destruct (run (PauseTest [Some "refused"; None]) one_test) as [r t1].
  destruct Hf as [_ Hf]; [vm_compute; discriminate|vm_compute; reflexivity|reflexivity|].
  cbn [snd]. rewrite Hf. vm_compute. reflexivity.
Defined.

(** ** Uploads after the end *)

(** A completed run without artifacts so far, and the uploads of its run: one
    summary, of its only worker. *)
Definition bare_result : TestResult :=
  mkTestResult "u0" "a" "" "completed" None None [] None [] "" "" (mkTime 0 UTC) "ann".

Definition completed_test : LoadTest :=
  mkLoadTest "u0" "a" "" "completed" (Some bare_result) "" [] 0 "" 0 "" 0 0 None "" "" "" "" "" "" zero_AuthConfig
    1 "ann" (mkTime 0 UTC).

Definition late_summary : Snapshot :=
  mkSnapshot "u0" ["worker1"] "u1"
    {[ ArtifactSummary := {[ "worker1" := mkArtifact "worker1" "{}" "application/json" (mkTime 0 UTC) ]} ]}
    (mkTime 0 UTC).

Lemma enriched_iff_news_witness :
  is_Some (enriched completed_test late_summary) /\ news late_summary bare_result.
Proof.
  assert (He : is_Some (enriched completed_test late_summary)) by (vm_compute; by eexists).
  split; [exact He|].
  apply (enriched_iff_news completed_test late_summary bare_result); [reflexivity|reflexivity|exact He].
Defined.

(** The upload of the only worker is stored; sent again it makes the row be
    written once more, as it is. *)
Definition late_result : TestResult :=
  match enriched completed_test late_summary with Some (_, r) => r | None => bare_result end.

Definition late_stored : TestResult := match marshal_result late_result with Ok s => s | Err _ => bare_result end.

Lemma enriched_again_witness :
  enriched completed_test late_summary = Some (None, late_result) /\ marshal_result late_result = Ok late_stored /\
  let row := completed_test <| lt_PayloadContent := default (lt_PayloadContent completed_test) None |>
                            <| lt_ResultJSON := Some late_stored |> in
  let complete := exists c, collected late_summary = Some c /\ ac_MissingWorkers c = Some [] in
  match enriched row late_summary with
  | None => ~ complete
  | Some (payload', result') => complete /\ payload' = None /\ marshal_result result' = Ok late_stored
  end.
Proof.
  assert (He : enriched completed_test late_summary = Some (None, late_result)) by (vm_compute; reflexivity).
  assert (Hm : marshal_result late_result = Ok late_stored) by (vm_compute; reflexivity).
  split; [exact He|split; [exact Hm|]].
  apply (enriched_again completed_test late_summary None late_result late_stored He Hm).
Defined.

Example late_upload_written_twice :
  enriched (completed_test <| lt_ResultJSON := Some late_stored |>) late_summary <> None.
Proof. vm_compute. discriminate. Qed.

(** The executor starts the test, and its claim applies to that start. *)
Example handler_execute_ex :
  (handler_execute idle_world obedient (script_test "a") 1 "ann" (tw_world idle_world)).1 = Ok "u0".
Proof. vm_compute. reflexivity. Qed.

Lemma handler_implements_executor_witness :
  tw_tests idle_world !! uuid (w_uuids (tw_world idle_world)) = None /\
  let '(r, w') := @Scheduler.ExecuteTest (handler_executor idle_world obedient) (script_test "a") 1 "ann"
                    (tw_world idle_world) in
  w_db w' = w_db (tw_world idle_world) /\ (w_uuids (tw_world idle_world) <= w_uuids w')%nat /\
  (w_faults (tw_world idle_world) = [] -> w_faults w' = []) /\
  (w_faults (tw_world idle_world) = [] -> forall id, r = Ok id ->
     id = uuid (w_uuids (tw_world idle_world)) /\ w_active w' = id /\ id <> "" /\
     o_activeTestID (tw_orch idle_world) = "").
Proof.
  split; [reflexivity|].
  apply (handler_implements_executor idle_world obedient (script_test "a") 1 "ann" (tw_world idle_world)). reflexivity.
Defined.
