(* ===== verification/ScheduleHandler.v ===== *)
(** * The schedule API: [controller/internal/handler/schedule.go]

    Each handler is a step on the world (tables, clocks, active test) that
    yields a response: the status code and what the body says.  The request is
    given decoded: URL parameters, query values, the user of the token, and the
    body, which is nothing when it cannot be decoded.  A panic in a handler is
    turned into an empty 500 response by the router. *)

From S2P Require Export Prelude GoStrings GoTime TimeParse Model Store Recurrence Duration Overlap.
From S2P Require Export Scheduler Requests.

Open Scope Z_scope.
Open Scope go_scope.

(** ** Requests and responses *)

Inductive response_body :=
  | BError (msg : string)
  | BConflict (conflict : ScheduleConflict)
  | BSchedule (st : ScheduledTest)
  | BSchedules (l : list ScheduledTest)
  | BStatus (status scope : string)
  | BEvents (events : list CalendarEvent)
  | BConflictCheck (conflict : option ScheduleConflict)
  | BExecutions (l : list ScheduleExecution)
  | BEmpty.

Record response := mkResponse { rsp_code : Z; rsp_body : response_body }.

Definition httpError (msg : string) (code : Z) : response := mkResponse code (BError msg).
Definition panicked : response := mkResponse 500 BEmpty.

(** The user of the request's token. *)
Record caller := mkCaller { c_UserID : Z; c_Username : string; c_Role : string }.

Record validatedScheduleCreate := mkValidated {
  vsc_scheduledAt : Time;
  vsc_timezone : string;
  vsc_recType : string;
  vsc_recEnd : option Time;
  vsc_durationS : Z
}.

Inductive scheduleDeleteScope := deleteScopeSingle | deleteScopeFuture.

Definition scope_name (scope : scheduleDeleteScope) : string :=
  match scope with deleteScopeSingle => "single" | deleteScopeFuture => "future" end.

(** ** Occurrences *)

Definition normalizeOccurrence (t : Time) : Time := truncate (to_utc t) Second.

Definition sameOccurrence (a b : Time) : bool :=
  time_equal (normalizeOccurrence a) (normalizeOccurrence b).

Definition hasPastOccurrence (t_now candidate : Time) : bool :=
  before (normalizeOccurrence candidate) (normalizeOccurrence (add (to_utc t_now) (- (1 * Minute)))).

Definition skippedOccurrenceExists (values : list Time) (candidate : Time) : bool :=
  existsb (fun value => sameOccurrence value candidate) values.

Definition appendSkippedOccurrence (values : list Time) (candidate : Time) : list Time :=
  if skippedOccurrenceExists values candidate then values else values ++ [normalizeOccurrence candidate].

Definition filterSkippedOccurrencesBefore (values : list Time) (cutoff : Time) : list Time :=
  map normalizeOccurrence
    (List.filter (fun value => before (normalizeOccurrence value) (normalizeOccurrence cutoff)) values).

Definition parseRecurrenceEnd (value : option string) : res (option Time) :=
  match value with
  | None => Ok None
  | Some v =>
    if String.eqb v "" then Ok None
    else match parse_rfc3339 v with Some t => Ok (Some t) | None => Err "parsing time" end
  end.

(** The scope, and whether the query named it; no scope for an unknown name. *)
Definition parseDeleteScope (scope : string) (recurring : bool) : option scheduleDeleteScope * bool :=
  if String.eqb scope "single" then (Some deleteScopeSingle, true)
  else if String.eqb scope "future" then (Some deleteScopeFuture, true)
  else if String.eqb scope "" then
    ((if recurring then Some deleteScopeFuture else Some deleteScopeSingle), false)
  else (None, false).

Definition parseDeleteOccurrence (occurrence : string) (fallback : Time) : option Time :=
  let raw := trim_space occurrence in
  if String.eqb raw "" then Some (normalizeOccurrence fallback)
  else normalizeOccurrence <$> parse_rfc3339 raw.

Section handlers.
Context `{TzDatabase} `{RowOrder} `{MapOrder} `{UuidSource} `{JsonErrors}
        (secretSvc : option secrets_Service).

(** [activeRunningTest]; [start] is [GetTestStartTime] of the active test. *)
Definition activeRunningTest (start : Time) (w : World) : option RunningTestInfo :=
  if String.eqb (w_active w) "" then None else Some (mkRunningTestInfo (w_active w) start 0).

Definition canManage (c : caller) (s : ScheduledTest) : bool :=
  String.eqb (c_Role c) "admin" || (sch_UserID s =? c_UserID c).

(** The schedule the caller may manage, or the error response. *)
Definition managedSchedule (c : caller) (id : string) : ST World (ScheduledTest + response) :=
  found ← GetSchedule id;
  mret match found with
       | Err _ | Ok None => inr (httpError "schedule not found" 404)
       | Ok (Some existing) =>
         if negb (canManage c existing) then inr (httpError "forbidden" 403) else inl existing
       end.

(** ** Validation of a new schedule *)

Definition validRecurrences : list string := ["once"; "hourly"; "daily"; "weekly"; "monthly"].

(** The value, or the message and the status; nothing when it panics. *)
Definition validateCreateRequest (t_now : Time) (req : CreateScheduleRequest)
  : option ((CreateScheduleRequest * validatedScheduleCreate) + string) :=
  if String.eqb (csr_Name req) "" then Some (inr "name is required")
  else if String.eqb (csr_ProjectName req) "" then Some (inr "project_name is required")
  else if String.eqb (csr_ScheduledAt req) "" then Some (inr "scheduled_at is required")
  else if String.eqb (csr_ScriptContent req) "" && String.eqb (csr_URL req) ""
  then Some (inr "provide either script_content or url (builder)")
  else
    match normalizeScheduleRequestPayload req with
    | None => None
    | Some (Err e) => Some (inr e)
    | Some (Ok req) =>
      Some
        (if ai_Enabled (csr_Auth req) && blank (ai_ClientSecret (csr_Auth req))
         then inr "auth_client_secret is required when auth is enabled for schedules"
         else
           match parse_rfc3339 (csr_ScheduledAt req) with
           | None => inr "scheduled_at must be RFC3339 format (e.g. 2026-03-15T02:00:00Z)"
           | Some scheduledAt =>
             if before scheduledAt (add t_now (- (1 * Minute)))
             then inr "scheduled_at must be in the future"
             else
               let tz := if String.eqb (csr_Timezone req) "" then "UTC" else csr_Timezone req in
               match load_location tz with
               | None => inr ("invalid timezone: " +:+ tz)
               | Some _ =>
                 let recType :=
                   if String.eqb (csr_RecurrenceType req) "" then "once" else csr_RecurrenceType req in
                 if negb (one_of_strings recType validRecurrences)
                 then inr "recurrence_type must be one of: once, hourly, daily, weekly, monthly"
                 else
                   match EstimateDurationSeconds req with
                   | Err e => inr e
                   | Ok durationS =>
                     match parseRecurrenceEnd (csr_RecurrenceEnd req) with
                     | Err _ => inr "recurrence_end must be RFC3339 format"
                     | Ok recEnd => inl (req, mkValidated scheduledAt tz recType recEnd durationS)
                     end
                   end
               end
           end)
    end.

Definition checkScheduleOverlap (start : Time) (scheduledAt : Time) (durationS : Z) (excludeID : string)
  : ST World (res (option ScheduleConflict)) :=
  w ← st_get;
  CheckOverlap (mkTimeSlot scheduledAt (add scheduledAt (seconds durationS))) excludeID
    (activeRunningTest start w).

(** ** Create *)

(** The schedule a validated request describes. *)
Definition new_schedule (id : string) (c : caller) (req : CreateScheduleRequest)
    (v : validatedScheduleCreate) (authCfg : AuthConfig) : ScheduledTest := {|
  sch_ID := id; sch_Name := csr_Name req; sch_ProjectName := csr_ProjectName req;
  sch_URL := csr_URL req; sch_Mode := csr_Mode req; sch_Executor := csr_Executor req;
  sch_Stages := default [] (csr_Stages req); sch_VUs := csr_VUs req;
  sch_Duration := csr_Duration req; sch_Rate := csr_Rate req; sch_TimeUnit := csr_TimeUnit req;
  sch_PreAllocatedVUs := csr_PreAllocatedVUs req; sch_MaxVUs := csr_MaxVUs req;
  sch_SleepSeconds := csr_SleepSeconds req; sch_ScriptContent := csr_ScriptContent req;
  sch_ConfigContent := csr_ConfigContent req; sch_HTTPMethod := csr_HTTPMethod req;
  sch_ContentType := csr_ContentType req; sch_PayloadJSON := csr_PayloadJSON req;
  sch_PayloadTargetKiB := csr_PayloadTargetKiB req; sch_AuthConfig := authCfg;
  sch_ScheduledAt := vsc_scheduledAt v; sch_EstimatedDurationS := vsc_durationS v;
  sch_Timezone := vsc_timezone v; sch_RecurrenceType := vsc_recType v;
  sch_RecurrenceRule := csr_RecurrenceRule req; sch_RecurrenceEnd := vsc_recEnd v;
  sch_SkippedOccurrences := []; sch_Status := "scheduled"; sch_Paused := false;
  sch_UserID := c_UserID c; sch_Username := c_Username c; sch_CreatedAt := zero_time;
  sch_UpdatedAt := zero_time |}.

Definition Create (c : caller) (start : Time) (body : option CreateScheduleRequest) : ST World response :=
  match body with
  | None => mret (httpError "invalid request body" 400)
  | Some req =>
    w ← st_get;
    match validateCreateRequest (now w) req with
    | None => mret panicked
    | Some (inr msg) => mret (httpError msg 400)
    | Some (inl (req, v)) =>
      checked ← checkScheduleOverlap start (vsc_scheduledAt v) (vsc_durationS v) "";
      match checked with
      | Err _ => mret (httpError "internal error during conflict check" 500)
      | Ok (Some conflict) => mret (mkResponse 409 (BConflict conflict))
      | Ok None =>
        id ← new_uuid;
        match buildStoredAuthConfig (csr_Auth req) None secretSvc (ai_Enabled (csr_Auth req)) with
        | Err e => mret (httpError e 400)
        | Ok authCfg =>
          let st := new_schedule id c req v authCfg in
          created ← CreateSchedule st;
          mret match created with
               | Err _ => httpError "failed to create schedule" 500
               | Ok _ => mkResponse 201 (BSchedule st)
               end
        end
      end
    end
  end.

(** ** Reading *)

Definition List : ST World response :=
  schedules ← ListSchedules;
  mret match schedules with
       | Err _ => httpError "failed to list schedules" 500
       | Ok l => mkResponse 200 (BSchedules l)
       end.

Definition Get (id : string) : ST World response :=
  st ← GetSchedule id;
  mret match st with
       | Err _ => httpError "internal error" 500
       | Ok None => httpError "schedule not found" 404
       | Ok (Some st) => mkResponse 200 (BSchedule st)
       end.

Definition ListExecutions (id : string) : ST World response :=
  execs ← Store.ListExecutions id;
  mret match execs with
       | Err _ => httpError "failed to list executions" 500
       | Ok l => mkResponse 200 (BExecutions l)
       end.

(** ** Update *)

(** A field of the request that is not empty replaces that of the schedule. *)
Definition overwrite (new old : string) : string := if negb (String.eqb new "") then new else old.

Definition applyScheduleUpdates (existing : ScheduledTest) (req : CreateScheduleRequest)
  : option ScheduledTest :=
  let st := existing
    <| sch_Name := overwrite (csr_Name req) (sch_Name existing) |>
    <| sch_ProjectName := overwrite (csr_ProjectName req) (sch_ProjectName existing) |>
    <| sch_URL := overwrite (csr_URL req) (sch_URL existing) |>
    <| sch_Mode := overwrite (csr_Mode req) (sch_Mode existing) |>
    <| sch_Executor := overwrite (csr_Executor req) (sch_Executor existing) |>
    <| sch_Stages := default (sch_Stages existing) (csr_Stages req) |>
    <| sch_ScriptContent := overwrite (csr_ScriptContent req) (sch_ScriptContent existing) |>
    <| sch_ConfigContent := overwrite (csr_ConfigContent req) (sch_ConfigContent existing) |>
    <| sch_HTTPMethod := overwrite (csr_HTTPMethod req) (sch_HTTPMethod existing) |>
    <| sch_ContentType := overwrite (csr_ContentType req) (sch_ContentType existing) |>
    <| sch_PayloadJSON := overwrite (csr_PayloadJSON req) (sch_PayloadJSON existing) |>
    <| sch_PayloadTargetKiB := if 0 <? csr_PayloadTargetKiB req then csr_PayloadTargetKiB req
                               else sch_PayloadTargetKiB existing |> in
  let at_ := if negb (String.eqb (csr_ScheduledAt req) "") then parse_rfc3339 (csr_ScheduledAt req)
             else Some (sch_ScheduledAt existing) in
  match at_ with
  | None => None
  | Some t =>
    let st := st <| sch_ScheduledAt := t |>
                 <| sch_RecurrenceType := overwrite (csr_RecurrenceType req) (sch_RecurrenceType existing) |>
                 <| sch_Timezone := overwrite (csr_Timezone req) (sch_Timezone existing) |> in
    let st := match EstimateDurationSeconds req with
              | Ok durationS => if 0 <? durationS then st <| sch_EstimatedDurationS := durationS |> else st
              | Err _ => st
              end in
    Some (st <| sch_Status := "scheduled" |>)
  end.

(** The candidate and a conflict, or the error response. *)
Definition prepareUpdatedSchedule (start : Time) (existing : ScheduledTest) (req : CreateScheduleRequest)
  : ST World ((ScheduledTest * option ScheduleConflict) + response) :=
  match applyScheduleUpdates existing req with
  | None => mret (inr (httpError "invalid scheduled_at" 400))
  | Some candidate =>
    match buildStoredAuthConfig (csr_Auth req) (Some (sch_AuthConfig existing)) secretSvc
            (ai_Enabled (csr_Auth req)) with
    | Err e => mret (inr (httpError e 400))
    | Ok authCfg =>
      let candidate := candidate <| sch_AuthConfig := authCfg |> in
      checked ← checkScheduleOverlap start (sch_ScheduledAt candidate) (sch_EstimatedDurationS candidate)
                  (sch_ID candidate);
      mret match checked with
           | Err _ => inr (httpError "internal error during conflict check" 500)
           | Ok conflict => inl (candidate, conflict)
           end
    end
  end.

Definition Update (c : caller) (start : Time) (id : string) (body : option CreateScheduleRequest)
  : ST World response :=
  managed ← managedSchedule c id;
  match managed with
  | inr r => mret r
  | inl existing =>
    if String.eqb (sch_Status existing) "running"
    then mret (httpError "cannot modify a running schedule" 409)
    else
      match body with
      | None => mret (httpError "invalid request body" 400)
      | Some req =>
        match normalizeScheduleRequestPayload req with
        | None => mret panicked
        | Some (Err e) => mret (httpError e 400)
        | Some (Ok req) =>
          if ai_Enabled (csr_Auth req) && blank (ai_ClientSecret (csr_Auth req)) &&
             negb (ac_SecretConfigured (sch_AuthConfig existing))
          then mret (httpError "auth_client_secret is required when auth is enabled for schedules" 400)
          else
            prepared ← prepareUpdatedSchedule start existing req;
            match prepared with
            | inr r => mret r
            | inl (_, Some conflict) => mret (mkResponse 409 (BConflict conflict))
            | inl (candidate, None) =>
              updated ← UpdateSchedule candidate;
              mret match updated with
                   | Err _ => httpError "failed to update schedule" 500
                   | Ok _ => mkResponse 200 (BSchedule candidate)
                   end
            end
        end
      end
  end.

(** ** Delete *)

Definition delete_and_report (id : string) (scope : scheduleDeleteScope) : ST World response :=
  deleted ← DeleteSchedule id;
  mret match deleted with
       | Err _ => httpError "failed to delete schedule" 500
       | Ok _ => mkResponse 200 (BStatus "deleted" (scope_name scope))
       end.

Definition update_and_report (st : ScheduledTest) (scope : scheduleDeleteScope) : ST World response :=
  updated ← UpdateSchedule st;
  mret match updated with
       | Err _ => httpError "failed to update schedule" 500
       | Ok _ => mkResponse 200 (BStatus "updated" (scope_name scope))
       end.

(** One occurrence of a recurring schedule. *)
Definition delete_single (id : string) (existing : ScheduledTest) (occurrence : Time) (execCount : Z)
  : ST World response :=
  let st := existing <| sch_SkippedOccurrences :=
                          appendSkippedOccurrence (sch_SkippedOccurrences existing) occurrence |> in
  if sameOccurrence (sch_ScheduledAt st) occurrence then
    match NextIncludedOccurrence (sch_ScheduledAt st) (sch_RecurrenceType st) (sch_Timezone st)
            (sch_RecurrenceEnd st) (sch_SkippedOccurrences st) with
    | Err _ => mret (httpError "failed to advance recurring schedule" 500)
    | Ok nextAt =>
      if is_zero nextAt then
        if execCount =? 0 then delete_and_report id deleteScopeSingle
        else update_and_report (st <| sch_RecurrenceEnd := Some (add occurrence (- (1 * Second))) |>
                                   <| sch_Status := "completed" |>) deleteScopeSingle
      else update_and_report (st <| sch_ScheduledAt := nextAt |> <| sch_Status := "scheduled" |>)
             deleteScopeSingle
    end
  else update_and_report st deleteScopeSingle.

(** An occurrence and all after it. *)
Definition delete_future (id : string) (existing : ScheduledTest) (occurrence : Time) (execCount : Z)
  : ST World response :=
  let st := existing
    <| sch_RecurrenceEnd := Some (add occurrence (- (1 * Second))) |>
    <| sch_SkippedOccurrences :=
         filterSkippedOccurrencesBefore (sch_SkippedOccurrences existing) occurrence |> in
  if negb (before (sch_ScheduledAt st) occurrence) then
    if execCount =? 0 then delete_and_report id deleteScopeFuture
    else update_and_report (st <| sch_Status := "completed" |>) deleteScopeFuture
  else update_and_report st deleteScopeFuture.

Definition Delete (c : caller) (id scopeParam occurrenceParam : string) : ST World response :=
  managed ← managedSchedule c id;
  match managed with
  | inr r => mret r
  | inl existing =>
    let recurring := negb (String.eqb (sch_RecurrenceType existing) "once") in
    match parseDeleteScope scopeParam recurring with
    | (None, _) => mret (httpError "invalid delete scope" 400)
    | (Some scope, validScope) =>
      if negb (String.eqb scopeParam "") && negb validScope
      then mret (httpError "invalid delete scope" 400)
      else
        match parseDeleteOccurrence occurrenceParam (sch_ScheduledAt existing) with
        | None => mret (httpError "occurrence must be RFC3339 format" 400)
        | Some occurrence =>
          w ← st_get;
          if hasPastOccurrence (now w) occurrence
          then mret (httpError "past schedule occurrences are preserved and cannot be deleted" 409)
          else if String.eqb (sch_Status existing) "running"
          then mret (httpError "cannot delete a running schedule" 409)
          else
            counted ← CountScheduleExecutions id;
            match counted with
            | Err _ => mret (httpError "failed to inspect schedule history" 500)
            | Ok execCount =>
              if negb recurring then delete_and_report id deleteScopeSingle
              else
                match scope with
                | deleteScopeSingle => delete_single id existing occurrence execCount
                | deleteScopeFuture => delete_future id existing occurrence execCount
                end
            end
        end
    end
  end.

(** ** Pause, resume, run now *)

Definition set_paused (c : caller) (id : string) (paused : bool) : ST World response :=
  managed ← managedSchedule c id;
  match managed with
  | inr r => mret r
  | inl _ =>
    done ← PauseSchedule id paused;
    mret match done with
         | Err _ => httpError (if paused then "failed to pause schedule" else "failed to resume schedule") 500
         | Ok _ => mkResponse 200 (BStatus (if paused then "paused" else "resumed") "")
         end
  end.

Definition Pause (c : caller) (id : string) : ST World response := set_paused c id true.
Definition Resume (c : caller) (id : string) : ST World response := set_paused c id false.

Definition RunNow (c : caller) (id : string) : ST World response :=
  managed ← managedSchedule c id;
  match managed with
  | inr r => mret r
  | inl existing =>
    w ← st_get;
    if negb (String.eqb (w_active w) "")
    then mret (httpError ("a test is already running: " +:+ w_active w) 409)
    else
      updated ← UpdateSchedule (existing <| sch_ScheduledAt := add (now w) (- (1 * Second)) |>
                                         <| sch_Status := "scheduled" |> <| sch_Paused := false |>);
      mret match updated with
           | Err _ => httpError "failed to trigger schedule" 500
           | Ok _ => mkResponse 200 (BStatus "triggered" "")
           end
  end.

(** ** Calendar and conflict check *)

Definition calendar_event (s : ScheduledTest) (slot : TimeSlot) : CalendarEvent := {|
  cev_ID := sch_ID s; cev_Name := sch_Name s; cev_ProjectName := sch_ProjectName s;
  cev_Start := format_rfc3339 (slot_Start slot); cev_End := format_rfc3339 (slot_End slot);
  cev_OccurrenceStart := format_rfc3339 (slot_Start slot); cev_Status := sch_Status s;
  cev_RecurrenceType := sch_RecurrenceType s; cev_Username := sch_Username s;
  cev_UserID := sch_UserID s |}.

Definition schedule_events (from to_ : Time) (s : ScheduledTest) : list CalendarEvent :=
  if String.eqb (sch_Status s) "cancelled" then []
  else map (calendar_event s)
         (ExpandOccurrences (sch_ScheduledAt s) (sch_EstimatedDurationS s) (sch_RecurrenceType s)
            (sch_Timezone s) (sch_RecurrenceEnd s) (sch_SkippedOccurrences s) from to_).

Definition Calendar (fromStr toStr : string) : ST World response :=
  w ← st_get;
  let from := default (truncate (now w) (24 * Hour)) (parse_rfc3339 fromStr) in
  let to_ := default (add from (7 * 24 * Hour)) (parse_rfc3339 toStr) in
  schedules ← ListSchedules;
  mret match schedules with
       | Err _ => httpError "internal error" 500
       | Ok l => mkResponse 200 (BEvents (flat_map (schedule_events from to_) l))
       end.

(** The decoded body: start, duration and the schedule to leave out. *)
Definition CheckConflict (start : Time) (body : option (string * Z * string)) : ST World response :=
  match body with
  | None => mret (httpError "invalid request" 400)
  | Some (startStr, durationS, excludeID) =>
    match parse_rfc3339 startStr with
    | None => mret (httpError "start must be RFC3339" 400)
    | Some t =>
      checked ← checkScheduleOverlap start t durationS excludeID;
      mret match checked with
           | Err _ => httpError "conflict check failed" 500
           | Ok conflict => mkResponse 200 (BConflictCheck conflict)
           end
    end
  end.
End handlers.
