(* ===== verification/ResultApi.v ===== *)
(** * The result pages: [controller/internal/handler/result.go]

    The listing of the stored runs and the page of one run.  A row's result is
    read with the metrics computed anew; what is shown of it is a record with
    one field per key of the JSON object, absent where the code leaves the key
    out.  A request is given decoded: the caller and the query values. *)

From S2P Require Export Prelude Programs GoStrings GoTime GoFloat Json Model Store Summary Results MetricsV2.
From S2P Require Export LoadTests ScheduleHandler.
From S2P Require Import TestRuns.

Open Scope Z_scope.
Open Scope go_scope.

(** ** Query values *)

(** [strconv.Atoi] when the error is ignored: zero for a syntax error, the
    nearest value when the number does not fit; the digits after an overflow
    are not looked at. *)
Fixpoint scan_uint (acc : Z) (s : string) : option Z :=
  match s with
  | EmptyString => Some acc
  | String c s' =>
    match digit_val c with
    | None => None
    | Some d => if 2 ^ 64 - 1 <? 10 * acc + d then Some (2 ^ 64 - 1) else scan_uint (10 * acc + d) s'
    end
  end.

Definition atoi_value (s : string) : Z :=
  match s with
  | EmptyString => 0
  | String c s' =>
    let neg := byte_of c =? 45 in
    match (if neg || (byte_of c =? 43) then s' else s) with
    | EmptyString => 0
    | digits =>
      match scan_uint 0 digits with
      | None => 0
      | Some n => if neg then Z.max (- n) i64_min else Z.min n i64_max
      end
    end
  end.

Example atoi_value_ex :
  map atoi_value ["25"; "-3"; "+7"; "x"; "12x"; ""; "99999999999999999999x"; "-99999999999999999999"]
  = [25; -3; 7; 0; 0; 0; i64_max; i64_min].
Proof. vm_compute. reflexivity. Qed.

(** The values of the query, empty when they are not given. *)
Record result_query := mkQuery { q_limit : string; q_offset : string; q_search : string; q_q : string }.

Definition parseResultListParams (r : result_query) : Z * Z * string :=
  let limit := atoi_value (q_limit r) in
  let limit := if (limit <=? 0) || (100 <? limit) then 20 else limit in
  let offset := atoi_value (q_offset r) in
  let offset := if offset <? 0 then 0 else offset in
  let search := if String.eqb (q_search r) "" then q_q r else q_search r in
  (limit, offset, search).

Definition canViewResult (role : string) (userID : Z) (lt : LoadTest) : bool :=
  String.eqb role "admin" || (lt_UserID lt =? userID).

(** ** What is shown *)

Record resultListItem := mkListItem {
  rli_ID : string; rli_ProjectName : string; rli_URL : string; rli_Status : string; rli_UserID : Z;
  rli_Username : string; rli_CreatedAt : Time; rli_ErrorRate : option float64; rli_TotalRequests : option float64;
  rli_AvgLatency : option float64; rli_P95Latency : option float64; rli_DurationS : option float64;
  rli_TotalVUs : option Z; rli_RunBy : string * Z
}.

#[export] Instance eta_resultListItem : Eta resultListItem := fun i =>
  mkListItem (rli_ID i) (rli_ProjectName i) (rli_URL i) (rli_Status i) (rli_UserID i) (rli_Username i)
    (rli_CreatedAt i) (rli_ErrorRate i) (rli_TotalRequests i) (rli_AvgLatency i) (rli_P95Latency i)
    (rli_DurationS i) (rli_TotalVUs i) (rli_RunBy i).

Record result_response := mkResultResponse {
  rr_ID : string; rr_ProjectName : string; rr_URL : string; rr_Status : string; rr_UserID : Z;
  rr_Username : string; rr_CreatedAt : Time; rr_RunBy : string * Z;
  rr_Metrics : option AggregatedMetrics; rr_MetricsV2 : option MetricsV2;
  rr_TimeSeries : option (list TimePoint); rr_Metadata : option TestMetadata;
  rr_Warnings : option (list ConflictWarning); rr_SummaryContent : option string;
  rr_AuthSummaryContent : option string; rr_ScriptContent : option string; rr_ConfigContent : option string;
  rr_PayloadSourceJSON : option string; rr_PayloadContent : option string; rr_HTTPMethod : option string;
  rr_ContentType : option string; rr_Executor : option string; rr_Stages : option (list Stage);
  rr_VUs : option Z; rr_Duration : option string; rr_Rate : option Z; rr_TimeUnit : option string;
  rr_PreAllocatedVUs : option Z; rr_MaxVUs : option Z; rr_SleepSeconds : option float64
}.

(** A key that is set unless the value is empty, or not positive. *)
Definition unless_empty (s : string) : option string := if String.eqb s "" then None else Some s.
Definition if_positive (z : Z) : option Z := if 0 <? z then Some z else None.
Definition unless_nil {A} (l : list A) : option (list A) := match l with [] => None | _ => Some l end.

Definition hasResultExecutionData (lt : LoadTest) : bool :=
  match lt_Stages lt with [] => false | _ => true end || (0 <? lt_VUs lt) || negb (String.eqb (lt_Duration lt) "") ||
  (0 <? lt_Rate lt) || (0 <? lt_PreAllocatedVUs lt) || (0 <? lt_MaxVUs lt).

Section pages.
Context `{MapOrder}.

(** The stored result as both pages read it: authentication metadata
    completed, the second format computed, latencies made sane. *)
Definition opened_result (tr : TestResult) : TestResult :=
  let metadata := hydrateAuthMetadataFromRawSummary (res_Metadata tr) (res_AuthSummaryContent tr) in
  let v2 := buildMetricsV2 (res_Metrics tr) (res_SummaryContent tr) metadata in
  tr <| res_Metadata := metadata |> <| res_MetricsV2 := v2 |>
     <| res_Metrics := normalizeResultMetrics <$> res_Metrics tr |>.

Definition buildResultListItem (lt : LoadTest) : resultListItem :=
  let item := mkListItem (lt_ID lt) (lt_ProjectName lt) (lt_URL lt) (lt_Status lt) (lt_UserID lt)
                (lt_Username lt) (lt_CreatedAt lt) None None None None None None (lt_Username lt, lt_UserID lt) in
  match lt_ResultJSON lt with
  | None => item
  | Some stored =>
    let tr := opened_result stored in
    let item :=
      match res_Metrics tr, res_MetricsV2 tr with
      | Some m, _ =>
        item <| rli_ErrorRate := Some (agg_ErrorRate m) |> <| rli_TotalRequests := Some (agg_TotalRequests m) |>
             <| rli_AvgLatency := Some (agg_AvgLatency m) |> <| rli_P95Latency := Some (agg_P95Latency m) |>
             <| rli_TotalVUs := Some (agg_TotalVUs m) |>
      | None, Some v =>
        item <| rli_ErrorRate := Some (hm_ErrorRate (v2_HTTPBusiness v)) |>
             <| rli_TotalRequests := Some (hm_Requests (v2_HTTPTotal v)) |>
             <| rli_AvgLatency := Some (lm_AvgMs (v2_PrimaryLatency v)) |>
             <| rli_P95Latency := Some (lm_P95Ms (v2_PrimaryLatency v)) |>
      | None, None => item
      end in
    match res_Metadata tr with
    | Some m => item <| rli_DurationS := Some (md_DurationS m) |>
    | None => item
    end
  end.

Definition buildResultResponse (lt : LoadTest) : result_response :=
  let tr := opened_result <$> lt_ResultJSON lt in
  let exec {A} (o : option A) : option A := if hasResultExecutionData lt then o else None in
  mkResultResponse (lt_ID lt) (lt_ProjectName lt) (lt_URL lt) (lt_Status lt) (lt_UserID lt) (lt_Username lt)
    (lt_CreatedAt lt) (lt_Username lt, lt_UserID lt)
    (tr ≫= res_Metrics) (tr ≫= res_MetricsV2) (tr ≫= (fun r => unless_nil (res_TimeSeries r)))
    (tr ≫= res_Metadata) (tr ≫= (fun r => unless_nil (res_Warnings r)))
    (tr ≫= (fun r => unless_empty (res_SummaryContent r))) (tr ≫= (fun r => unless_empty (res_AuthSummaryContent r)))
    (unless_empty (lt_ScriptContent lt)) (unless_empty (lt_ConfigContent lt))
    (unless_empty (lt_PayloadSourceJSON lt)) (unless_empty (lt_PayloadContent lt))
    (unless_empty (lt_HTTPMethod lt)) (unless_empty (lt_ContentType lt))
    (exec (unless_empty (lt_Executor lt))) (exec (unless_nil (lt_Stages lt))) (exec (if_positive (lt_VUs lt)))
    (exec (unless_empty (lt_Duration lt))) (exec (if_positive (lt_Rate lt))) (exec (unless_empty (lt_TimeUnit lt)))
    (exec (if_positive (lt_PreAllocatedVUs lt))) (exec (if_positive (lt_MaxVUs lt))) (exec (lt_SleepSeconds lt)).

(** ** The handlers *)

Inductive result_body :=
  | RError (msg : string)
  | RList (results : list resultListItem) (total : Z)
  | RResult (result : result_response)
  | RMessage (message : string).

Record result_reply := mkReply { rep_code : Z; rep_body : result_body }.

Definition result_error (msg : string) (code : Z) : result_reply := mkReply code (RError msg).

Context `{SqlSearch} `{PageOrder}.

Definition ListResults (c : caller) (r : result_query) : ST TestWorld result_reply :=
  let '(limit, offset, search) := parseResultListParams r in
  found ← ListLoadTests (c_UserID c) (c_Role c) limit offset search;
  mret match found with
       | Err _ => result_error "internal error" 500
       | Ok (results, total) => mkReply 200 (RList (map buildResultListItem results) total)
       end.

Definition GetResult (c : caller) (id : string) : ST TestWorld result_reply :=
  if String.eqb id "" then mret (result_error "missing id" 400)
  else
    found ← GetLoadTest id;
    mret match found with
         | Err _ => result_error "internal error" 500
         | Ok None => result_error "not found" 404
         | Ok (Some lt) =>
           if negb (canViewResult (c_Role c) (c_UserID c) lt) then result_error "not found" 404
           else mkReply 200 (RResult (buildResultResponse lt))
         end.

(** Behind [RequireAdmin] in the router. *)
Definition ResetData : ST TestWorld result_reply :=
  done ← LoadTests.ResetData;
  mret match done with
       | Err _ => result_error "internal error" 500
       | Ok _ => mkReply 200 (RMessage "all test data deleted")
       end.
End pages.

(** ** What a caller sees *)

Section seen.
Context `{MapOrder} `{SqlSearch} `{PageOrder}.

Lemma run_tests_sql_ok {A} ctx (stmt : gmap string LoadTest -> res A * gmap string LoadTest) (t : TestWorld) r db :
  w_faults (tw_world t) = [] -> stmt (tw_tests t) = (r, db) -> run_tests_sql ctx stmt t = (r, t <| tw_tests := db |>).
Proof. intros Hf Hs. unfold run_tests_sql. by rewrite Hs, Hf. Qed.

(** A statement that reads: an answer or the error, and the table as it was. *)
Lemma run_tests_sql_reads {A} ctx (f : gmap string LoadTest -> A) (t : TestWorld) :
  let '(r, t') := run_tests_sql ctx (fun tests => (Ok (f tests), tests)) t in
  tw_tests t' = tw_tests t /\ (r = Ok (f (tw_tests t)) \/ exists e, r = Err e).
Proof. unfold run_tests_sql. destruct (w_faults (tw_world t)) as [|[msg|] fs]; cbn; eauto. Qed.

(** The rows a caller may list, newest first, as the statement for a page
    orders them. *)
Definition listing (limit offset : Z) (c : caller) (search : string) (t : TestWorld) : list LoadTest :=
  @order_by (page_rows limit offset) _ (fun lt => - unix_ns (lt_CreatedAt lt))
    (rows_where (LoadTests.visible (c_UserID c) (c_Role c) search) (tw_tests t)).

Lemma item_columns (lt : LoadTest) : buildResultListItem (summary_columns lt) = buildResultListItem lt.
Proof. by destruct lt. Qed.

Definition page (limit offset : Z) (l : list LoadTest) : list LoadTest := take (Z.to_nat limit) (drop (Z.to_nat offset) l).

Lemma same_tests (t : TestWorld) : t <| tw_tests := tw_tests t |> = t.
Proof. by destruct t. Qed.

Lemma ListResults_run (c : caller) (r : result_query) (limit offset : Z) (search : string) (t : TestWorld) :
  w_faults (tw_world t) = [] -> parseResultListParams r = (limit, offset, search) ->
  ListResults c r t =
    (mkReply 200 (RList (map buildResultListItem (page limit offset (listing limit offset c search t)))
                        (Z.of_nat (length (rows_where (LoadTests.visible (c_UserID c) (c_Role c) search) (tw_tests t))))), t).
Proof.
  intros Hf Hp. unfold ListResults, ListLoadTests. rewrite Hp. cbv zeta.
  unfold mbind, ST_bind, mret, ST_ret.
  do 2 (erewrite run_tests_sql_ok by (exact Hf || reflexivity); rewrite same_tests).
  by rewrite map_map, (map_ext _ _ item_columns).
Qed.

Lemma listing_visible (limit offset : Z) (c : caller) (search : string) (t : TestWorld) (lt : LoadTest) :
  lt ∈ listing limit offset c search t <-> lt ∈ rows_where (LoadTests.visible (c_UserID c) (c_Role c) search) (tw_tests t).
Proof. unfold listing. by rewrite order_by_perm. Qed.

(** Pages of one size, one after the other, are the list. *)
Lemma pages_append {A} (n m : nat) (l : list A) :
  (length l <= m * n)%nat -> mjoin (map (fun i => take n (drop (i * n) l)) (seq 0 m)) = l.
Proof.
  revert l. induction m as [|m IH]; intros l Hl; [destruct l; [done|cbn in Hl; lia]|].
  cbn [seq map mjoin list_join]. rewrite <- seq_shift, map_map. cbn [Nat.mul]. rewrite drop_0.
  transitivity (take n l ++ drop n l); [|apply take_drop]. f_equal.
  rewrite <- (IH (drop n l)) by (rewrite length_drop; cbn in Hl; lia).
  f_equal. apply map_ext. intros i. by rewrite drop_drop.
Qed.

Lemma map_mjoin {A B} (f : A -> B) (l : list (list A)) : map f (mjoin l) = mjoin (map (map f) l).
Proof. induction l as [|x l IH]; [done|]. change (mjoin (x :: l)) with (x ++ mjoin l). by rewrite map_app, IH. Qed.

Lemma Sorted_weaken {A} (R S : A -> A -> Prop) (l : list A) :
  (forall x y, R x y -> S x y) -> Sorted R l -> Sorted S l.
Proof.
  intros Hrs. induction 1 as [|x l _ IH Hd]; constructor; [done|]. destruct Hd; constructor. by apply Hrs.
Qed.

Definition items (r : result_reply) : list resultListItem :=
  match rep_body r with RList l _ => l | _ => [] end.

Lemma parsed_limits (r : result_query) (limit offset : Z) (search : string) :
  parseResultListParams r = (limit, offset, search) -> 1 <= limit <= 100 /\ 0 <= offset.
Proof.
  unfold parseResultListParams. intros [= <- <- _].
  destruct (Z.leb_spec (atoi_value (q_limit r)) 0); [cbn|destruct (Z.ltb_spec 100 (atoi_value (q_limit r))); cbn];
    (split; [lia|]); destruct (Z.ltb_spec (atoi_value (q_offset r)) 0); lia.
Qed.

Lemma listing_newest (limit offset : Z) (c : caller) (search : string) (t : TestWorld) :
  Sorted (fun x y => unix_ns (lt_CreatedAt y) <= unix_ns (lt_CreatedAt x)) (listing limit offset c search t).
Proof. unfold listing. eapply Sorted_weaken; [|apply order_by_sorted]. cbn. lia. Qed.

(** Rows created at different times have one order only. *)
Lemma listing_strict (limit offset : Z) (c : caller) (search : string) (t : TestWorld) :
  NoDup (map (fun lt => unix_ns (lt_CreatedAt lt)) (rows_where (LoadTests.visible (c_UserID c) (c_Role c) search) (tw_tests t))) ->
  Sorted (fun x y => unix_ns (lt_CreatedAt y) < unix_ns (lt_CreatedAt x)) (listing limit offset c search t).
Proof.
  intros Hd. assert (Hd' : NoDup (map (fun lt => unix_ns (lt_CreatedAt lt)) (listing limit offset c search t))).
  { unfold listing. by rewrite order_by_perm. }
  pose proof (listing_newest limit offset c search t) as Hs. revert Hd' Hs. generalize (listing limit offset c search t).
  clear. intros l. induction l as [|x l IH]; intros Hd Hs; [constructor|]. apply NoDup_cons in Hd as [Hx Hd].
  inversion Hs as [|? ? Hs' Hr]; subst. constructor; [by apply IH|]. destruct Hr as [|y l Hxy]; constructor.
  assert (unix_ns (lt_CreatedAt x) <> unix_ns (lt_CreatedAt y)); [|lia]. intros E. apply Hx. rewrite E. by left.
Qed.

Lemma listing_unique (limit offset limit' offset' : Z) (c : caller) (search : string) (t : TestWorld) :
  NoDup (map (fun lt => unix_ns (lt_CreatedAt lt)) (rows_where (LoadTests.visible (c_UserID c) (c_Role c) search) (tw_tests t))) ->
  listing limit offset c search t = listing limit' offset' c search t.
Proof.
  intros Hd. apply (StronglySorted_unique_strong (fun x y => unix_ns (lt_CreatedAt y) < unix_ns (lt_CreatedAt x))).
  - intros x y _ _. lia.
  - apply Sorted_StronglySorted; [intros x y z; lia|by apply listing_strict].
  - apply Sorted_StronglySorted; [intros x y z; lia|by apply listing_strict].
  - unfold listing. by rewrite !order_by_perm.
Qed.

(** C29: with a database that answers, a page of a listing, in whatever size
    the query asks for within its bounds, is a part of the rows the caller may
    see that match the search, newest first, and reports their number; it
    changes nothing.  When no two of these rows were created in the same second,
    consecutive pages, put together, give each row once, in one order; rows of
    the same second may come in another order on every page, so that one can be
    on two pages and another on none. *)
Theorem ListResults_pages (c : caller) (search : string) (t : TestWorld) :
  w_faults (tw_world t) = [] ->
  let rows := rows_where (LoadTests.visible (c_UserID c) (c_Role c) search) (tw_tests t) in
  (forall r limit offset, parseResultListParams r = (limit, offset, search) ->
     1 <= limit <= 100 /\
     exists all, all ≡ₚ rows /\ Sorted (fun x y => unix_ns (lt_CreatedAt y) <= unix_ns (lt_CreatedAt x)) all /\
       ListResults c r t =
         (mkReply 200 (RList (map buildResultListItem (page limit offset all)) (Z.of_nat (length rows))), t)) /\
  (NoDup (map (fun lt => unix_ns (lt_CreatedAt lt)) rows) ->
   exists all, all ≡ₚ rows /\ Sorted (fun x y => unix_ns (lt_CreatedAt y) < unix_ns (lt_CreatedAt x)) all /\
     forall (q : nat -> result_query) (n m : nat),
       (forall i, (i < m)%nat -> parseResultListParams (q i) = (Z.of_nat n, Z.of_nat (i * n), search)) -> (length rows <= m * n)%nat ->
       mjoin (map (fun i => items (ListResults c (q i) t).1) (seq 0 m)) = map buildResultListItem all).
Proof.
  intros Hf rows. split.
  - intros r limit offset Hr. split; [by destruct (parsed_limits _ _ _ _ Hr)|]. exists (listing limit offset c search t).
    split; [apply order_by_perm|]. split; [apply listing_newest|]. by apply ListResults_run.
  - intros Hd. exists (listing 0 0 c search t). split; [apply order_by_perm|]. split; [by apply listing_strict|].
    intros q n m Hq Hm. rewrite <- (pages_append n m (listing 0 0 c search t)) by (unfold listing; by rewrite order_by_perm).
    rewrite map_mjoin, map_map. f_equal. apply map_ext_in. intros i [_ Hi]%in_seq.
    rewrite (ListResults_run c (q i) _ _ search t Hf (Hq i ltac:(lia))). unfold items, page. cbn [fst rep_body].
    by rewrite !Nat2Z.id, (listing_unique _ _ 0 0).
Qed.

(** ** Privacy *)

Lemma page_elem (limit offset : Z) (l : list LoadTest) (lt : LoadTest) : lt ∈ page limit offset l -> lt ∈ l.
Proof.
  unfold page. intros Hin. apply list_elem_of_lookup in Hin as [i Hi]. apply lookup_take_Some in Hi as [Hi _].
  rewrite lookup_drop in Hi. by eapply list_elem_of_lookup_2.
Qed.

(** Both statements of a listing, whatever the database does. *)
Lemma ListLoadTests_reads (c : caller) (limit offset : Z) (search : string) (t : TestWorld) :
  let '(r, t') := ListLoadTests (c_UserID c) (c_Role c) limit offset search t in
  tw_tests t' = tw_tests t /\
  ((exists e, r = Err e) \/
   r = Ok (map summary_columns (page limit offset (listing limit offset c search t)),
           Z.of_nat (length (rows_where (LoadTests.visible (c_UserID c) (c_Role c) search) (tw_tests t))))).
Proof.
  unfold ListLoadTests, mbind, ST_bind, mret, ST_ret.
  pose proof (run_tests_sql_reads "count load tests: "
    (fun tests => Z.of_nat (length (rows_where (LoadTests.visible (c_UserID c) (c_Role c) search) tests))) t) as Hcount.
  destruct (run_tests_sql _ _ t) as [r1 t1]. destruct Hcount as [Ht [->|[e ->]]]; [|eauto].
  pose proof (run_tests_sql_reads "list load tests: "
    (fun tests => map summary_columns (page limit offset
       (@order_by (page_rows limit offset) _ (fun lt => - unix_ns (lt_CreatedAt lt)) (rows_where (LoadTests.visible (c_UserID c) (c_Role c) search) tests)))) t1) as Hpage.
  unfold page in Hpage at 1. destruct (run_tests_sql _ _ t1) as [r2 t2]. rewrite Ht in Hpage.
  destruct Hpage as [Ht2 [->|[e ->]]]; eauto.
Qed.

Lemma item_user (lt : LoadTest) : rli_UserID (buildResultListItem lt) = lt_UserID lt.
Proof.
  unfold buildResultListItem. destruct (lt_ResultJSON lt) as [tr|]; [|done]. cbv zeta.
  generalize (opened_result tr). intros o. by destruct (res_Metrics o), (res_MetricsV2 o), (res_Metadata o).
Qed.

(** The world in which the others never ran a test. *)
Definition own_rows (c : caller) (t : TestWorld) : TestWorld :=
  t <| tw_tests := filter (fun kv => lt_UserID kv.2 = c_UserID c) (tw_tests t) |>.

Lemma own_lookup (c : caller) (id : string) (t : TestWorld) :
  c_Role c <> "admin" ->
  match tw_tests (own_rows c t) !! id with
  | Some lt => tw_tests t !! id = Some lt /\ canViewResult (c_Role c) (c_UserID c) lt = true
  | None => forall lt, tw_tests t !! id = Some lt -> canViewResult (c_Role c) (c_UserID c) lt = false
  end.
Proof.
  intros Hc. unfold own_rows, canViewResult. cbn. apply String.eqb_neq in Hc. rewrite Hc. cbn.
  destruct (filter _ _ !! id) as [lt|] eqn:E.
  - apply map_lookup_filter_Some in E as [E Hu]. split; [done|]. by apply Z.eqb_eq.
  - intros lt Hlt. apply map_lookup_filter_None in E as [E|E]; [congruence|]. apply Z.eqb_neq. intros Hu. by apply (E lt).
Qed.

Lemma visible_own (c : caller) (search : string) (tests : gmap string LoadTest) (lt : LoadTest) :
  c_Role c <> "admin" -> lt ∈ rows_where (LoadTests.visible (c_UserID c) (c_Role c) search) tests ->
  lt_UserID lt = c_UserID c.
Proof.
  intros Hc Hin. unfold rows_where in Hin. apply list_elem_of_In, filter_In in Hin as [_ Hv].
  unfold LoadTests.visible in Hv. apply String.eqb_neq in Hc. rewrite Hc in Hv. bool_prop. lia.
Qed.

Lemma visible_count (c : caller) (search : string) (t : TestWorld) :
  c_Role c <> "admin" ->
  (length (rows_where (LoadTests.visible (c_UserID c) (c_Role c) search) (tw_tests t)) <= size (tw_tests (own_rows c t)))%nat.
Proof.
  intros Hc. rewrite <- length_map_to_list. set (p := LoadTests.visible _ _ _).
  assert (Hl : forall l : list (string * LoadTest),
            length (List.filter p l.*2) = length (List.filter (fun kv => p kv.2) l)).
  { induction l as [|kv l IH]; [done|]. cbn. destruct (p kv.2); cbn; by rewrite IH. }
  unfold rows_where. rewrite Hl. apply submseteq_length, NoDup_submseteq.
  - apply NoDup_ListNoDup, List.NoDup_filter, NoDup_ListNoDup, NoDup_map_to_list.
  - intros [id lt] Hin. apply list_elem_of_In, filter_In in Hin as [Hin Hp]. apply list_elem_of_In in Hin.
    apply elem_of_map_to_list in Hin. apply elem_of_map_to_list. unfold own_rows. cbn. apply map_lookup_filter_Some.
    split; [done|]. unfold p, LoadTests.visible in Hp. apply String.eqb_neq in Hc. rewrite Hc in Hp. cbn in *. bool_prop. lia.
Qed.

(** C7: of the runs of others a caller who is no administrator learns nothing:
    the page of a run is the same as if the others had none (so a run that is
    not the caller's is reported as one that does not exist), and a listing
    shows and counts rows of the caller only; neither changes a row, whatever
    the database does. *)
Theorem results_private (c : caller) (id : string) (r : result_query) (t : TestWorld) :
  c_Role c <> "admin" ->
  (GetResult c id t).1 = (GetResult c id (own_rows c t)).1 /\
  tw_tests (GetResult c id t).2 = tw_tests t /\ tw_tests (ListResults c r t).2 = tw_tests t /\
  forall l total, rep_body (ListResults c r t).1 = RList l total ->
    Forall (fun i => rli_UserID i = c_UserID c) l /\ total <= Z.of_nat (size (tw_tests (own_rows c t))).
Proof.
  intros Hc. split; [|split; [|split]].
  - unfold GetResult. destruct (String.eqb id ""); [done|]. unfold GetLoadTest, mbind, ST_bind, mret, ST_ret, run_tests_sql.
    pose proof (own_lookup c id t Hc) as Hl. change (tw_world (own_rows c t)) with (tw_world t).
    destruct (w_faults (tw_world t)) as [|[msg|] fs]; [|done|]; cbn [fst];
      (destruct (tw_tests (own_rows c t) !! id) as [lt|];
       [destruct Hl as [-> ->]; done|destruct (tw_tests t !! id) as [lt|]; [by rewrite (Hl lt eq_refl)|done]]).
  - unfold GetResult. destruct (String.eqb id ""); [done|]. unfold GetLoadTest, mbind, ST_bind, mret, ST_ret.
    pose proof (run_tests_sql_reads "get load test: " (fun tests => tests !! id) t) as Hr.
    destruct (run_tests_sql _ _ t) as [r' t']. apply Hr.
  - unfold ListResults. destruct (parseResultListParams r) as [[limit offset] search].
    pose proof (ListLoadTests_reads c limit offset search t) as Hr. unfold mbind, ST_bind, mret, ST_ret.
    destruct (ListLoadTests _ _ _ _ _ t) as [r' t']. apply Hr.
  - unfold ListResults. destruct (parseResultListParams r) as [[limit offset] search].
    pose proof (ListLoadTests_reads c limit offset search t) as Hr. unfold mbind, ST_bind, mret, ST_ret.
    destruct (ListLoadTests _ _ _ _ _ t) as [r' t']. destruct Hr as [_ [[e ->]| ->]]; [done|].
    intros l total [= <- <-]. split; [|pose proof (visible_count c search t Hc); lia].
    apply Forall_forall. intros i Hin. rewrite !list_elem_of_In, map_map, in_map_iff in Hin.
    destruct Hin as (lt & <- & Hin). rewrite item_columns, item_user.
    apply (visible_own c search (tw_tests t)); [done|]. rewrite <- listing_visible.
    apply list_elem_of_In in Hin. by eapply page_elem.
Qed.
End seen.

(** ** A listing of one run *)

#[local] Instance search_text : SqlSearch := {| sql_like := fun search text => contains text search |}.

Definition ann : caller := mkCaller 1 "ann" "user".
Definition bob : caller := mkCaller 2 "bob" "user".

(** Every page in the order of one merge sort. *)
#[local] Instance merge_pages : PageOrder := fun _ _ => merge_row_order.

(** Two runs, a minute apart. *)
Definition two_rows (first second : Time) : TestWorld :=
  one_test <| tw_tests := {[ "u0" := completed_test <| lt_ID := "u0" |> <| lt_CreatedAt := first |>;
                             "u9" := completed_test <| lt_ID := "u9" |> <| lt_CreatedAt := second |> ]} |>.

Definition minute_apart : TestWorld := two_rows (mkTime 0 UTC) (mkTime Minute UTC).

(** Pages of one row. *)
Definition row_page (i : nat) : result_query := mkQuery "1" (itoa (Z.of_nat i)) "" "".

Definition pages_seen (orders : PageOrder) (t : TestWorld) : list string :=
  map rli_ID (mjoin (map (fun i => items (@ListResults id_map_order search_text orders ann (row_page i) t).1) (seq 0 2))).

Lemma ListResults_pages_witness :
  w_faults (tw_world minute_apart) = [] /\
  exists all, Sorted (fun x y => unix_ns (lt_CreatedAt y) < unix_ns (lt_CreatedAt x)) all /\
    pages_seen merge_pages minute_apart = map rli_ID (map (@buildResultListItem id_map_order) all).
Proof.
  assert (Hf : w_faults (tw_world minute_apart) = []) by (vm_compute; reflexivity). split; [exact Hf|].
  destruct (@ListResults_pages id_map_order search_text merge_pages ann "" minute_apart Hf) as [_ Hpages].
  destruct Hpages as (all & _ & Hs & Hq).
  { apply (bool_decide_unpack _). vm_compute. reflexivity. }
  exists all. split; [exact Hs|]. unfold pages_seen. f_equal. apply (Hq row_page 1%nat 2%nat).
  - intros [|[|i]] Hi; [vm_compute; reflexivity..|lia].
  - apply (bool_decide_unpack _). vm_compute. reflexivity.
Defined.

(** Rows of the same second in the other order on every page but the first. *)
Definition reverse_row_order : RowOrder.
Proof.
  refine {| order_by := fun A key l => merge_order key (reverse l) |}.
  - intros A key l. by rewrite merge_order_perm, reverse_Permutation.
  - intros A key l. apply merge_order_sorted.
Defined.

Definition changing_pages : PageOrder := fun _ offset => if offset =? 0 then merge_row_order else reverse_row_order.

(** Then one run is on both pages and the other on none. *)
Example ties_repeat :
  pages_seen changing_pages minute_apart = ["u9"; "u0"] /\
  pages_seen changing_pages (two_rows (mkTime 0 UTC) (mkTime 0 UTC)) = ["u9"; "u9"].
Proof. vm_compute. split; reflexivity. Qed.

Lemma results_private_witness :
  c_Role bob <> "admin" /\
  (@GetResult id_map_order bob "u0" one_test).1 = result_error "not found" 404.
Proof.
  assert (Hb : c_Role bob <> "admin") by (cbn; discriminate). split; [exact Hb|].
  destruct (@results_private id_map_order search_text merge_pages bob "u0" (mkQuery "" "" "" "") one_test Hb)
    as [-> _].
  vm_compute. reflexivity.
Defined.
