(* ===== verification/Templates.v ===== *)
(** * Saved tests: [controller/internal/handler/template.go]

    Templates of tests, private ones and the system templates everybody may
    use: the statements of [controller/internal/store/store.go] on
    [test_templates], the handlers, and the routes only an administrator has.
    Requests are given decoded; for the import, whose body may have three
    shapes, what decoding it into each of them yields. *)

From S2P Require Export Prelude GoStrings GoTime Json Model Store Requests ScheduleHandler.

Open Scope Z_scope.
Open Scope go_scope.

(** ** Data *)

Record TestTemplate := mkTemplate {
  tt_ID : string; tt_Name : string; tt_Description : string; tt_Mode : string; tt_URL : string;
  tt_Stages : list Stage; tt_ScriptContent : string; tt_ConfigContent : string; tt_HTTPMethod : string;
  tt_ContentType : string; tt_PayloadJSON : string; tt_PayloadTargetKiB : Z; tt_AuthConfig : AuthConfig;
  tt_Executor : string; tt_System : bool; tt_UserID : Z; tt_Username : string;
  tt_CreatedAt : Time; tt_UpdatedAt : Time
}.

#[export] Instance eta_TestTemplate : Eta TestTemplate := fun t =>
  mkTemplate (tt_ID t) (tt_Name t) (tt_Description t) (tt_Mode t) (tt_URL t) (tt_Stages t) (tt_ScriptContent t)
    (tt_ConfigContent t) (tt_HTTPMethod t) (tt_ContentType t) (tt_PayloadJSON t) (tt_PayloadTargetKiB t)
    (tt_AuthConfig t) (tt_Executor t) (tt_System t) (tt_UserID t) (tt_Username t) (tt_CreatedAt t) (tt_UpdatedAt t).

Record TestTemplateRequest := mkTemplateRequest {
  ttr_Name : string; ttr_Description : string; ttr_Mode : string; ttr_URL : string; ttr_Stages : list Stage;
  ttr_ScriptContent : string; ttr_ConfigContent : string; ttr_HTTPMethod : string; ttr_ContentType : string;
  ttr_PayloadJSON : string; ttr_PayloadTargetKiB : Z; ttr_Auth : AuthInput
}.

#[export] Instance eta_TestTemplateRequest : Eta TestTemplateRequest := fun r =>
  mkTemplateRequest (ttr_Name r) (ttr_Description r) (ttr_Mode r) (ttr_URL r) (ttr_Stages r) (ttr_ScriptContent r)
    (ttr_ConfigContent r) (ttr_HTTPMethod r) (ttr_ContentType r) (ttr_PayloadJSON r) (ttr_PayloadTargetKiB r)
    (ttr_Auth r).

Record systemTemplateExportEnvelope := mkEnvelope {
  env_Version : Z; env_ExportedAt : Time; env_Template : option TestTemplateRequest;
  env_Templates : list TestTemplateRequest
}.

(** ** The table *)

Record TemplateWorld := mkTemplateWorld {
  tpw_world : World;                       (* faults, clocks, UUIDs *)
  tpw_rows : gmap string TestTemplate      (* key: column id *)
}.

#[export] Instance eta_TemplateWorld : Eta TemplateWorld := fun t => mkTemplateWorld (tpw_world t) (tpw_rows t).

Definition run_template_sql {A} (context : string)
    (stmt : gmap string TestTemplate -> res A * gmap string TestTemplate) : ST TemplateWorld (res A) := fun t =>
  let w := tpw_world t in
  let '(r, rows) := stmt (tpw_rows t) in
  match w_faults w with
  | Some msg :: fs => (Err (context +:+ msg), t <| tpw_world := (w <| w_faults := fs |>) |>)
  | None :: fs => (r, t <| tpw_world := (w <| w_faults := fs |>) |> <| tpw_rows := rows |>)
  | [] => (r, t <| tpw_rows := rows |>)
  end.

Definition template_now (t : TemplateWorld) : Time := mkTime (sql_now (w_db_now (tpw_world t))) UTC.

(** The columns as they are written and read back by [scanTemplate]. *)
Definition stored_template (t : TestTemplate) : TestTemplate :=
  t <| tt_HTTPMethod := defaultHTTPMethod (tt_HTTPMethod t) |>
    <| tt_ContentType := defaultContentType (tt_ContentType t) |>
    <| tt_AuthConfig := stored_auth (tt_AuthConfig t) |> <| tt_Executor := "" |>.

Definition CreateTemplate (t : TestTemplate) : ST TemplateWorld (res unit) := fun w =>
  run_template_sql "create template: " (fun rows =>
    match rows !! tt_ID t with
    | Some _ => (Err "create template: Duplicate entry", rows)
    | None =>
      (Ok tt, <[tt_ID t := stored_template t <| tt_CreatedAt := template_now w |>
                             <| tt_UpdatedAt := template_now w |>]> rows)
    end) w.

Definition GetTemplate (id : string) : ST TemplateWorld (res (option TestTemplate)) :=
  run_template_sql "get template: " (fun rows => (Ok (rows !! id), rows)).

(** The columns other than the times. *)
Definition columns (t : TestTemplate) :=
  (tt_Name t, tt_Description t, tt_Mode t, tt_URL t, map (fun s => (stg_Duration s, stg_Target s)) (tt_Stages t),
   tt_ScriptContent t, tt_ConfigContent t, tt_HTTPMethod t, tt_ContentType t, tt_PayloadJSON t,
   tt_PayloadTargetKiB t,
   let a := tt_AuthConfig t in
   (ac_Enabled a, ac_Mode a, ac_TokenURL a, ac_ClientID a, ac_ClientAuthMethod a, ac_RefreshSkewSeconds a,
    ac_SecretSource a, ac_SecretConfigured a, ac_ClientSecretEncrypted a),
   tt_System t).

(** ON UPDATE CURRENT_TIMESTAMP: an update that changes a column changes the time. *)
Definition touched (at_ : Time) (f : TestTemplate -> TestTemplate) (t : TestTemplate) : TestTemplate :=
  if bool_decide (columns (f t) = columns t) then f t else (f t) <| tt_UpdatedAt := at_ |>.

(** Mode, owner and system flag are not among the columns. *)
Definition UpdateTemplate (t : TestTemplate) : ST TemplateWorld (res unit) := fun w =>
  run_template_sql "update template: " (fun rows =>
    (Ok tt, alter (touched (template_now w) (fun row =>
       stored_template t <| tt_ID := tt_ID row |> <| tt_Mode := tt_Mode row |> <| tt_System := tt_System row |>
         <| tt_UserID := tt_UserID row |> <| tt_Username := tt_Username row |>
         <| tt_CreatedAt := tt_CreatedAt row |> <| tt_UpdatedAt := tt_UpdatedAt row |>)) (tt_ID t) rows)) w.

Definition DeleteTemplate (id : string) : ST TemplateWorld (res unit) :=
  run_template_sql "delete template: " (fun rows => (Ok tt, delete id rows)).

Definition SetTemplateSystem (id : string) (system : bool) : ST TemplateWorld (res unit) := fun w =>
  run_template_sql "set template system: " (fun rows =>
    (Ok tt, alter (touched (template_now w) (fun row => row <| tt_System := system |>)) id rows)) w.

(** ORDER BY updated_at DESC; with is_system DESC before it, the system
    templates come first. *)
Definition by_recency `{RowOrder} (l : list TestTemplate) : list TestTemplate :=
  order_by (fun t => - unix_ns (tt_UpdatedAt t)) l.

Definition ListTemplates `{RowOrder} (userID : Z) (role : string) : ST TemplateWorld (res (list TestTemplate)) :=
  run_template_sql "list templates: " (fun rows =>
    let l := by_recency (rows_where (fun t => String.eqb role "admin" || tt_System t || (tt_UserID t =? userID)) rows) in
    (Ok (List.filter tt_System l ++ List.filter (fun t => negb (tt_System t)) l), rows)).

Definition ListSystemTemplates `{RowOrder} : ST TemplateWorld (res (list TestTemplate)) :=
  run_template_sql "list system templates: " (fun rows => (Ok (by_recency (rows_where tt_System rows)), rows)).

(** ** Requests *)

(** [strings.ToLower], for a comparison with ASCII text: ASCII letters, and the
    two other letters whose lower case is ASCII (U+0130 and U+212A). *)
Fixpoint to_lower (s : string) : string :=
  match s with
  | EmptyString => ""
  | String a s1 =>
    match s1 with
    | String b s2 =>
      if (byte_of a =? 196) && (byte_of b =? 176) then String (chr 105) (to_lower s2)
      else
        match s2 with
        | String c s3 =>
          if (byte_of a =? 226) && (byte_of b =? 132) && (byte_of c =? 170) then String (chr 107) (to_lower s3)
          else String (lower a) (to_lower s1)
        | EmptyString => String (lower a) (to_lower s1)
        end
    | EmptyString => String (lower a) ""
    end
  end.

Definition canViewTemplate (role : string) (userID : Z) (t : TestTemplate) : bool :=
  String.eqb role "admin" || tt_System t || (tt_UserID t =? userID).

Definition canManageTemplate (role : string) (userID : Z) (t : TestTemplate) : bool :=
  if String.eqb role "admin" then true else if tt_System t then false else tt_UserID t =? userID.

Definition templateRequestHasBuilderSignals (req : TestTemplateRequest) : bool :=
  negb (blank (ttr_URL req)) || match ttr_Stages req with [] => false | _ => true end ||
  negb (blank (ttr_HTTPMethod req)) || negb (blank (ttr_ContentType req)) || negb (blank (ttr_PayloadJSON req)) ||
  (0 <? ttr_PayloadTargetKiB req) || ai_Enabled (ttr_Auth req).

Definition inferTemplateMode (req : TestTemplateRequest) : string :=
  let mode := to_lower (trim_space (ttr_Mode req)) in
  let hasBuilderSignals := templateRequestHasBuilderSignals req in
  let hasScript := negb (blank (ttr_ScriptContent req)) in
  if String.eqb mode "builder" then "builder"
  else if String.eqb mode "upload" then (if hasBuilderSignals then "builder" else "upload")
  else if hasBuilderSignals then "builder" else if hasScript then "upload" else "builder".

Section requests.
Context `{JsonErrors}.

Definition normalizeTemplateRequestPayload (req : TestTemplateRequest) : option (res TestTemplateRequest) :=
  match normalizeAuthInput (ttr_Auth req) with
  | Err e => Some (Err e)
  | Ok auth =>
    let mode := to_lower (trim_space (ttr_Mode req)) in
    let hasScript := negb (String.eqb (ttr_ScriptContent req) "") && negb (String.eqb mode "builder") in
    match normalizePayloadFields hasScript
            (mkPayloadFields (ttr_HTTPMethod req) (ttr_ContentType req) (ttr_PayloadJSON req))
            (ttr_PayloadTargetKiB req) with
    | None => None
    | Some (Err e) => Some (Err e)
    | Some (Ok (f, _)) =>
      Some (Ok (req <| ttr_Auth := auth |> <| ttr_HTTPMethod := pf_method f |>
                    <| ttr_ContentType := pf_contentType f |> <| ttr_PayloadJSON := pf_payloadJSON f |>))
    end
  end.

(** The normalised request, or the message. *)
Definition validateTemplateRequest (req : TestTemplateRequest) : option (res TestTemplateRequest) :=
  if String.eqb (ttr_Name req) "" then Some (Err "name is required")
  else normalizeTemplateRequestPayload (req <| ttr_Mode := inferTemplateMode req |>).
End requests.

Definition newTemplateFromRequest (id : string) (req : TestTemplateRequest) (c : caller) : TestTemplate :=
  mkTemplate id (ttr_Name req) (ttr_Description req) (inferTemplateMode req) (ttr_URL req) (ttr_Stages req)
    (ttr_ScriptContent req) (ttr_ConfigContent req) (ttr_HTTPMethod req) (ttr_ContentType req)
    (ttr_PayloadJSON req) (ttr_PayloadTargetKiB req) (authConfigFromStoredInput (ttr_Auth req) None)
    "" false (c_UserID c) (c_Username c) zero_time zero_time.

(** The encryption service in both directions. *)
Record secret_box := mkBox { box_service : secrets_Service; box_open : string -> res string }.

Definition Decrypt (s : secret_box) (enc : string) : res string :=
  if String.eqb enc "" then Ok "" else box_open s enc.

(** The request a template is exported as; an error has a status code. *)
Definition exportableTemplateRequest (box : option secret_box) (t : TestTemplate)
  : TestTemplateRequest + (string * Z) :=
  let a := tt_AuthConfig t in
  let authInput := mkAuthInput (ac_Enabled a) (ac_Mode a) (ac_TokenURL a) (ac_ClientID a) "" (ac_ClientAuthMethod a)
                     (ac_RefreshSkewSeconds a) (ac_SecretConfigured a) false in
  let exported auth := mkTemplateRequest (tt_Name t) (tt_Description t) (tt_Mode t) (tt_URL t) (tt_Stages t)
                         (tt_ScriptContent t) (tt_ConfigContent t) (tt_HTTPMethod t) (tt_ContentType t)
                         (tt_PayloadJSON t) (tt_PayloadTargetKiB t) auth in
  if ac_SecretConfigured a && negb (String.eqb (ac_ClientSecretEncrypted a) "") then
    match box with
    | None => inr ("template auth secret export is unavailable because encryption is not configured", 409)
    | Some box =>
      match Decrypt box (ac_ClientSecretEncrypted a) with
      | Err _ => inr ("failed to decrypt template auth secret for export", 500)
      | Ok secret => inl (exported (authInput <| ai_ClientSecret := secret |>))
      end
    end
  else inl (exported authInput).

(** The body of an import, decoded into each of its shapes. *)
Record import_payload := mkImport {
  imp_envelope : option systemTemplateExportEnvelope;
  imp_single : option TestTemplateRequest;
  imp_many : option (list TestTemplateRequest)
}.

Definition parseSystemTemplateImportPayload (body : import_payload) : option (list TestTemplateRequest) :=
  let many := match imp_many body with Some (r :: l) => Some (r :: l) | _ => None end in
  let single := match imp_single body with
                | Some r => if negb (blank (ttr_Name r)) then Some [r] else many
                | None => many
                end in
  match imp_envelope body with
  | Some e =>
    match env_Template e, env_Templates e with
    | Some r, _ => Some [r]
    | None, r :: l => Some (r :: l)
    | None, [] => single
    end
  | None => single
  end.

(** ** The handlers *)

Inductive template_body :=
  | PError (msg : string)
  | PTemplates (l : list TestTemplate)
  | PTemplate (t : TestTemplate)
  | PStatus (status : string)
  | PExport (e : systemTemplateExportEnvelope)
  | PEmpty.

Record template_response := mkTemplateResponse { tpr_code : Z; tpr_body : template_body }.

Definition template_error (msg : string) (code : Z) : template_response := mkTemplateResponse code (PError msg).
Definition template_panic : template_response := mkTemplateResponse 500 PEmpty.

Section handlers.
Context `{RowOrder} `{UuidSource} `{JsonErrors} (secretSvc : option secret_box).

Definition in_world {A} (m : ST World A) : ST TemplateWorld A := fun t =>
  let '(a, w) := m (tpw_world t) in (a, t <| tpw_world := w |>).

Definition template_time : ST TemplateWorld Time := fun t => (now (tpw_world t), t).

Definition managedTemplate (c : caller) (id : string) : ST TemplateWorld (TestTemplate + template_response) :=
  found ← GetTemplate id;
  mret match found with
       | Err _ => inr (template_error "internal error" 500)
       | Ok None => inr (template_error "template not found" 404)
       | Ok (Some existing) =>
         if negb (canManageTemplate (c_Role c) (c_UserID c) existing) then inr (template_error "forbidden" 403)
         else inl existing
       end.

Definition List (c : caller) : ST TemplateWorld template_response :=
  found ← ListTemplates (c_UserID c) (c_Role c);
  mret match found with
       | Err _ => template_error "internal error" 500
       | Ok l => mkTemplateResponse 200 (PTemplates l)
       end.

Definition Get (c : caller) (id : string) : ST TemplateWorld template_response :=
  found ← GetTemplate id;
  mret match found with
       | Err _ => template_error "internal error" 500
       | Ok None => template_error "template not found" 404
       | Ok (Some t) =>
         if negb (canViewTemplate (c_Role c) (c_UserID c) t) then template_error "forbidden" 403
         else mkTemplateResponse 200 (PTemplate t)
       end.

(** A new row for a validated request. *)
Definition store_new (failed : string) (system : bool) (c : caller) (req : TestTemplateRequest)
  : ST TemplateWorld (TestTemplate + template_response) :=
  id ← in_world new_uuid;
  let t := (newTemplateFromRequest id req c) <| tt_System := system |> in
  match buildStoredAuthConfig (ttr_Auth req) None (box_service <$> secretSvc) false with
  | Err e => mret (inr (template_error e 400))
  | Ok authCfg =>
    let t := t <| tt_AuthConfig := authCfg |> in
    created ← CreateTemplate t;
    mret match created with
         | Err _ => inr (template_error failed 500)
         | Ok _ => inl t
         end
  end.

Definition Create (c : caller) (body : option TestTemplateRequest) : ST TemplateWorld template_response :=
  match body with
  | None => mret (template_error "invalid request body" 400)
  | Some req =>
    match validateTemplateRequest req with
    | None => mret template_panic
    | Some (Err msg) => mret (template_error msg 400)
    | Some (Ok req) =>
      stored ← store_new "failed to create template" false c req;
      mret match stored with inr r => r | inl t => mkTemplateResponse 201 (PTemplate t) end
    end
  end.

(** The fields of the request in the template; the mode stays. *)
Definition updated_template (existing : TestTemplate) (req : TestTemplateRequest) : TestTemplate :=
  existing <| tt_Name := ttr_Name req |> <| tt_Description := ttr_Description req |> <| tt_URL := ttr_URL req |>
    <| tt_Stages := ttr_Stages req |> <| tt_ScriptContent := ttr_ScriptContent req |>
    <| tt_ConfigContent := ttr_ConfigContent req |> <| tt_HTTPMethod := ttr_HTTPMethod req |>
    <| tt_ContentType := ttr_ContentType req |> <| tt_PayloadJSON := ttr_PayloadJSON req |>
    <| tt_PayloadTargetKiB := ttr_PayloadTargetKiB req |>.

Definition Update (c : caller) (id : string) (body : option TestTemplateRequest) : ST TemplateWorld template_response :=
  managed ← managedTemplate c id;
  match managed with
  | inr r => mret r
  | inl existing =>
    match body with
    | None => mret (template_error "invalid request body" 400)
    | Some req =>
      match validateTemplateRequest req with
      | None => mret template_panic
      | Some (Err msg) => mret (template_error msg 400)
      | Some (Ok req) =>
        match buildStoredAuthConfig (ttr_Auth req) (Some (tt_AuthConfig existing)) (box_service <$> secretSvc) false with
        | Err e => mret (template_error e 400)
        | Ok authCfg =>
          let t := (updated_template existing req) <| tt_AuthConfig := authCfg |> in
          updated ← UpdateTemplate t;
          mret match updated with
               | Err _ => template_error "failed to update template" 500
               | Ok _ => mkTemplateResponse 200 (PTemplate t)
               end
        end
      end
    end
  end.

Definition Delete (c : caller) (id : string) : ST TemplateWorld template_response :=
  managed ← managedTemplate c id;
  match managed with
  | inr r => mret r
  | inl _ =>
    deleted ← DeleteTemplate id;
    mret match deleted with
         | Err _ => template_error "failed to delete template" 500
         | Ok _ => mkTemplateResponse 200 (PStatus "deleted")
         end
  end.

(** [PromoteToSystem] and [DemoteFromSystem]. *)
Definition set_system (system : bool) (failed id : string) : ST TemplateWorld template_response :=
  found ← GetTemplate id;
  match found with
  | Err _ => mret (template_error "internal error" 500)
  | Ok None => mret (template_error "template not found" 404)
  | Ok (Some existing) =>
    changed ← SetTemplateSystem id system;
    mret match changed with
         | Err _ => template_error failed 500
         | Ok _ => mkTemplateResponse 200 (PTemplate (existing <| tt_System := system |>))
         end
  end.

Definition PromoteToSystem : string -> ST TemplateWorld template_response := set_system true "failed to promote template".
Definition DemoteFromSystem : string -> ST TemplateWorld template_response := set_system false "failed to demote template".

Definition Export (id : string) : ST TemplateWorld template_response :=
  found ← GetTemplate id;
  t_now ← template_time;
  mret match found with
       | Err _ => template_error "internal error" 500
       | Ok None => template_error "template not found" 404
       | Ok (Some existing) =>
         if negb (tt_System existing) then template_error "only system templates can be exported here" 400
         else match exportableTemplateRequest secretSvc existing with
              | inr (msg, code) => template_error msg code
              | inl req => mkTemplateResponse 200 (PExport (mkEnvelope 1 t_now (Some req) []))
              end
       end.

Fixpoint export_all (l : list TestTemplate) : list TestTemplateRequest + (string * Z) :=
  match l with
  | [] => inl []
  | t :: l =>
    match exportableTemplateRequest secretSvc t with
    | inr e => inr e
    | inl req => match export_all l with inr e => inr e | inl reqs => inl (req :: reqs) end
    end
  end.

Definition ExportSystemTemplates : ST TemplateWorld template_response :=
  found ← ListSystemTemplates;
  t_now ← template_time;
  mret match found with
       | Err _ => template_error "internal error" 500
       | Ok l =>
         match export_all l with
         | inr (msg, code) => template_error msg code
         | inl reqs => mkTemplateResponse 200 (PExport (mkEnvelope 1 t_now None reqs))
         end
       end.

(** One after the other: what was stored before a failure stays. *)
Fixpoint import_loop (c : caller) (reqs : list TestTemplateRequest) (imported : list TestTemplate)
  : ST TemplateWorld template_response :=
  match reqs with
  | [] => mret (mkTemplateResponse 201 (PTemplates imported))
  | req :: reqs =>
    match validateTemplateRequest req with
    | None => mret template_panic
    | Some (Err msg) => mret (template_error msg 400)
    | Some (Ok req) =>
      let auth := ttr_Auth req in
      let req := if ai_Enabled auth && negb (blank (ai_ClientSecret auth))
                 then req <| ttr_Auth := auth <| ai_PersistSecret := true |> |> else req in
      stored ← store_new "failed to import system template" true c req;
      match stored with
      | inr r => mret r
      | inl t => import_loop c reqs (imported ++ [t])
      end
    end
  end.

Definition ImportSystemTemplates (c : caller) (body : option import_payload) : ST TemplateWorld template_response :=
  match body with
  | None => mret (template_error "failed to read request body" 400)
  | Some body =>
    match parseSystemTemplateImportPayload body with
    | None => mret (template_error "invalid system template import payload" 400)
    | Some reqs => import_loop c reqs []
    end
  end.

(** ** The routes *)

Definition RequireAdmin {A} (c : caller) (forbidden : A) (next : ST TemplateWorld A) : ST TemplateWorld A :=
  if negb (String.eqb (c_Role c) "admin") then mret forbidden else next.

Inductive template_route :=
  | RList
  | RCreate (body : option TestTemplateRequest)
  | RGet (id : string)
  | RUpdate (id : string) (body : option TestTemplateRequest)
  | RDelete (id : string)
  | RExportAll
  | RImport (body : option import_payload)
  | RPromote (id : string)
  | RDemote (id : string)
  | RExport (id : string).

Definition serve_template (c : caller) (r : template_route) : ST TemplateWorld template_response :=
  let admin := RequireAdmin c (template_error "admin access required" 403) in
  match r with
  | RList => List c
  | RCreate body => Create c body
  | RGet id => Get c id
  | RUpdate id body => Update c id body
  | RDelete id => Delete c id
  | RExportAll => admin ExportSystemTemplates
  | RImport body => admin (ImportSystemTemplates c body)
  | RPromote id => admin (PromoteToSystem id)
  | RDemote id => admin (DemoteFromSystem id)
  | RExport id => admin (Export id)
  end.
End handlers.
