(* ===== verification/TemplateSpec.v ===== *)
(** * What the template API keeps

    Who may change which template, the shape every stored template has, and
    what becomes of a system template that is exported and imported again. *)

From S2P Require Import Prelude GoStrings GoTime Json Payload Model Store Requests ScheduleHandler Templates.

Open Scope Z_scope.
Open Scope go_scope.

(** ** Access *)

(** What a request of a caller may do to the table: new rows are the caller's,
    and system templates only for administrators; a row goes or changes only if
    the caller may manage it, and then keeps mode, owner and creation time, and
    its system flag unless an administrator changes it. *)
Record allowed (c : caller) (rows rows' : gmap string TestTemplate) : Prop := mkAllowed {
  al_new : forall id t, rows !! id = None -> rows' !! id = Some t ->
    tt_UserID t = c_UserID c /\ tt_Username t = c_Username c /\ (tt_System t = true -> c_Role c = "admin");
  al_gone : forall id t, rows !! id = Some t -> rows' !! id = None ->
    canManageTemplate (c_Role c) (c_UserID c) t = true;
  al_kept : forall id t t', rows !! id = Some t -> rows' !! id = Some t' -> t' = t \/
    canManageTemplate (c_Role c) (c_UserID c) t = true /\ tt_Mode t' = tt_Mode t /\ tt_UserID t' = tt_UserID t /\
    tt_Username t' = tt_Username t /\ tt_CreatedAt t' = tt_CreatedAt t /\
    (tt_System t' = tt_System t \/ c_Role c = "admin")
}.

Lemma allowed_refl (c : caller) (rows : gmap string TestTemplate) : allowed c rows rows.
Proof. split; intros; simplify_eq; auto. Qed.

Lemma allowed_insert (c : caller) (rows : gmap string TestTemplate) (id : string) (t : TestTemplate) :
  rows !! id = None -> tt_UserID t = c_UserID c -> tt_Username t = c_Username c ->
  (tt_System t = true -> c_Role c = "admin") -> allowed c rows (<[id := t]> rows).
Proof.
  intros Hn Hu Hname Hs. split.
  - intros id' t' H1 H2. apply lookup_insert_Some in H2 as [[<- <-]|[_ H2]]; [done|congruence].
  - intros id' t' H1 H2. apply lookup_insert_None in H2 as [H2 _]. congruence.
  - intros id' t1 t2 H1 H2. apply lookup_insert_Some in H2 as [[<- <-]|[_ H2]]; [congruence|left; congruence].
Qed.

Lemma template_allowed_delete (c : caller) (rows : gmap string TestTemplate) (id : string) (t : TestTemplate) :
  rows !! id = Some t -> canManageTemplate (c_Role c) (c_UserID c) t = true -> allowed c rows (delete id rows).
Proof.
  intros Ht Hm. split.
  - intros id' t' H1 H2. apply lookup_delete_Some in H2 as [_ H2]. congruence.
  - intros id' t' H1 H2. apply lookup_delete_None in H2 as [<-|H2]; congruence.
  - intros id' t1 t2 H1 H2. apply lookup_delete_Some in H2 as [_ H2]. left. congruence.
Qed.

(** An update of a row the caller may manage. *)
Lemma allowed_alter (c : caller) (rows : gmap string TestTemplate) (id : string) (t : TestTemplate)
    (f : TestTemplate -> TestTemplate) :
  rows !! id = Some t -> canManageTemplate (c_Role c) (c_UserID c) t = true ->
  tt_Mode (f t) = tt_Mode t -> tt_UserID (f t) = tt_UserID t -> tt_Username (f t) = tt_Username t ->
  tt_CreatedAt (f t) = tt_CreatedAt t -> (tt_System (f t) = tt_System t \/ c_Role c = "admin") ->
  allowed c rows (alter f id rows).
Proof.
  intros Ht Hm H1 H2 H3 H4 H5. split.
  - intros id' t' Hn Hs. destruct (decide (id' = id)) as [->|Hne]; [congruence|]. rewrite lookup_alter_ne in Hs by done. congruence.
  - intros id' t' Hs Hn. destruct (decide (id' = id)) as [->|Hne]; [rewrite lookup_alter_eq, Ht in Hn; done|].
    rewrite lookup_alter_ne in Hn by done. congruence.
  - intros id' t1 t2 Hs Hs'. destruct (decide (id' = id)) as [->|Hne].
    + rewrite lookup_alter_eq, Hs in Hs'. cbn in Hs'. simplify_eq. right. split_and!; done.
    + rewrite lookup_alter_ne in Hs' by done. left. congruence.
Qed.

Section routes.
Context `{RowOrder} `{UuidSource} `{JsonErrors} (secretSvc : option secret_box).

(** A statement: it fails without an effect, or does what it says. *)
Lemma run_template_sql_cases {A} ctx (stmt : gmap string TestTemplate -> res A * gmap string TestTemplate) (t : TemplateWorld) :
  let '(r, t') := run_template_sql ctx stmt t in
  (exists e, r = Err e /\ tpw_rows t' = tpw_rows t) \/ (r, tpw_rows t') = stmt (tpw_rows t).
Proof.
  unfold run_template_sql. destruct (stmt (tpw_rows t)) as [r rows] eqn:E.
  destruct (w_faults (tpw_world t)) as [|[msg|] fs]; cbn; eauto.
Qed.

Lemma GetTemplate_cases (id : string) (t : TemplateWorld) :
  let '(r, t') := GetTemplate id t in
  tpw_rows t' = tpw_rows t /\ (r = Ok (tpw_rows t !! id) \/ exists e, r = Err e).
Proof.
  unfold GetTemplate. pose proof (run_template_sql_cases "get template: " (fun rows => (Ok (rows !! id), rows)) t) as Hc.
  destruct (run_template_sql _ _ t) as [r t']. destruct Hc as [(e & -> & ->)|[= -> ->]]; eauto.
Qed.

(** Rows are stored under their IDs. *)
Definition keyed (rows : gmap string TestTemplate) : Prop := forall id t, rows !! id = Some t -> tt_ID t = id.

(** What a handler leaves: a change the caller may make, and none when the
    answer is an error, unless [partial] says that it may. *)
Definition guarded (partial : bool) (c : caller) (m : ST TemplateWorld template_response) : Prop :=
  forall t, keyed (tpw_rows t) ->
    let '(r, t') := m t in
    keyed (tpw_rows t') /\ allowed c (tpw_rows t) (tpw_rows t') /\
    (partial = false -> 400 <= tpr_code r -> tpw_rows t' = tpw_rows t).

(** A step that only looks leaves nothing. *)
Lemma guarded_same partial c (m : ST TemplateWorld template_response) :
  (forall t, tpw_rows (m t).2 = tpw_rows t) -> guarded partial c m.
Proof.
  intros Hm t Hk. specialize (Hm t). destruct (m t) as [r t']. cbn in Hm. rewrite Hm.
  split_and!; [done|apply allowed_refl|done].
Qed.

Lemma guarded_ret partial c r : guarded partial c (mret r).
Proof. by apply guarded_same. Qed.

Lemma keyed_insert rows id t : keyed rows -> tt_ID t = id -> keyed (<[id := t]> rows).
Proof. intros Hk Ht id' t' Hl. apply lookup_insert_Some in Hl as [[<- <-]|[_ Hl]]; auto. Qed.

Lemma keyed_delete rows id : keyed rows -> keyed (delete id rows).
Proof. intros Hk id' t' Hl. apply lookup_delete_Some in Hl as [_ Hl]. auto. Qed.

Lemma keyed_alter rows id f : keyed rows -> (forall t, tt_ID (f t) = tt_ID t) -> keyed (alter f id rows).
Proof.
  intros Hk Hf id' t' Hl. destruct (decide (id' = id)) as [->|Hne].
  - rewrite lookup_alter_eq in Hl. destruct (rows !! id) as [t|] eqn:E; [|done]. cbn in Hl. simplify_eq. rewrite Hf. auto.
  - rewrite lookup_alter_ne in Hl by done. auto.
Qed.

Lemma List_guarded c : guarded false c (List c).
Proof.
  apply guarded_same. intros t. unfold List, ListTemplates, mbind, ST_bind, mret, ST_ret.
  match goal with |- context [run_template_sql ?ctx ?stmt t] => pose proof (run_template_sql_cases ctx stmt t) as Hc;
    destruct (run_template_sql ctx stmt t) as [r t'] end.
  cbn. destruct Hc as [(e & -> & ->)|[= -> ->]]; done.
Qed.

Lemma Get_guarded c id : guarded false c (Get c id).
Proof.
  apply guarded_same. intros t. unfold Get, mbind, ST_bind, mret, ST_ret. pose proof (GetTemplate_cases id t) as Hc.
  destruct (GetTemplate id t) as [r t']. apply Hc.
Qed.

Lemma Export_guarded c id : guarded false c (Export secretSvc id).
Proof.
  apply guarded_same. intros t. unfold Export, mbind, ST_bind, mret, ST_ret. pose proof (GetTemplate_cases id t) as Hc.
  destruct (GetTemplate id t) as [r t']. apply Hc.
Qed.

Lemma ExportSystem_guarded c : guarded false c (ExportSystemTemplates secretSvc).
Proof.
  apply guarded_same. intros t. unfold ExportSystemTemplates, ListSystemTemplates, mbind, ST_bind, mret, ST_ret.
  match goal with |- context [run_template_sql ?ctx ?stmt t] => pose proof (run_template_sql_cases ctx stmt t) as Hc;
    destruct (run_template_sql ctx stmt t) as [r t'] end.
  cbn. destruct Hc as [(e & -> & ->)|[= -> ->]]; done.
Qed.

(** The template the caller may manage. *)
Lemma managed_cases c id (t : TemplateWorld) :
  let '(m, t') := managedTemplate c id t in
  tpw_rows t' = tpw_rows t /\
  match m with
  | inl e => tpw_rows t !! id = Some e /\ canManageTemplate (c_Role c) (c_UserID c) e = true
  | inr r => 400 <= tpr_code r
  end.
Proof.
  unfold managedTemplate, mbind, ST_bind, mret, ST_ret. pose proof (GetTemplate_cases id t) as Hc.
  destruct (GetTemplate id t) as [r t']. destruct Hc as [Hr [->|[e ->]]]; [|by split].
  destruct (tpw_rows t !! id) as [e|]; [|by split].
  destruct (canManageTemplate _ _ e) eqn:Em; by split.
Qed.

Lemma Delete_guarded c id : guarded false c (Delete c id).
Proof.
  intros t Hk. unfold Delete, mbind, ST_bind, mret, ST_ret. pose proof (managed_cases c id t) as Hm.
  destruct (managedTemplate c id t) as [[e|r] t1]; destruct Hm as [Hr Hm];
    [|rewrite Hr; split_and!; [done|apply allowed_refl|done]].
  destruct Hm as [He Hm]. unfold DeleteTemplate.
  pose proof (run_template_sql_cases "delete template: " (fun rows => (Ok tt, delete id rows)) t1) as Hc.
  destruct (run_template_sql _ _ t1) as [r t2].
  destruct Hc as [(x & -> & ->)|[= -> ->]]; rewrite Hr; split_and!; try done.
  - apply allowed_refl.
  - by apply keyed_delete.
  - by eapply template_allowed_delete.
Qed.

Lemma touched_frame at_ f t :
  tt_ID (touched at_ f t) = tt_ID (f t) /\ tt_Mode (touched at_ f t) = tt_Mode (f t) /\
  tt_UserID (touched at_ f t) = tt_UserID (f t) /\ tt_Username (touched at_ f t) = tt_Username (f t) /\
  tt_CreatedAt (touched at_ f t) = tt_CreatedAt (f t) /\ tt_System (touched at_ f t) = tt_System (f t).
Proof. unfold touched. by destruct (bool_decide _). Qed.

(** A statement that changes the row of a template the caller may manage. *)
Lemma alter_guarded c id e (f : TestTemplate -> TestTemplate) (t : TemplateWorld) :
  keyed (tpw_rows t) -> tpw_rows t !! id = Some e -> canManageTemplate (c_Role c) (c_UserID c) e = true ->
  (forall row, tt_ID (f row) = tt_ID row /\ tt_Mode (f row) = tt_Mode row /\ tt_UserID (f row) = tt_UserID row /\
     tt_Username (f row) = tt_Username row /\ tt_CreatedAt (f row) = tt_CreatedAt row /\
     (tt_System (f row) = tt_System row \/ c_Role c = "admin")) ->
  forall at_, keyed (alter (touched at_ f) id (tpw_rows t)) /\ allowed c (tpw_rows t) (alter (touched at_ f) id (tpw_rows t)).
Proof.
  intros Hk He Hm Hf at_. split.
  - apply keyed_alter; [done|]. intros row. rewrite (proj1 (touched_frame at_ f row)). apply Hf.
  - destruct (touched_frame at_ f e) as (_ & T1 & T2 & T3 & T4 & T5). destruct (Hf e) as (_ & F1 & F2 & F3 & F4 & F5).
    eapply allowed_alter; rewrite ?T1, ?T2, ?T3, ?T4, ?T5; eauto.
Qed.

Lemma Update_guarded c id body : guarded false c (Update secretSvc c id body).
Proof.
  intros t Hk. unfold Update, mbind, ST_bind, mret, ST_ret. pose proof (managed_cases c id t) as Hm.
  destruct (managedTemplate c id t) as [[e|r] t1]; destruct Hm as [Hr Hm];
    [|rewrite Hr; split_and!; [done|apply allowed_refl|done]].
  assert (Hsame : forall r : template_response, keyed (tpw_rows t1) /\ allowed c (tpw_rows t) (tpw_rows t1) /\
            (false = false -> 400 <= tpr_code r -> tpw_rows t1 = tpw_rows t))
    by (intros r; rewrite Hr; split_and!; [done|apply allowed_refl|done]).
  destruct body as [req|]; [|apply Hsame].
  destruct (validateTemplateRequest req) as [[req'|msg]|]; [|apply Hsame..].
  destruct (buildStoredAuthConfig _ _ _ _) as [cfg|msg]; [|apply Hsame].
  destruct Hm as [He Hm].
  unfold UpdateTemplate.
  match goal with |- context [run_template_sql ?ctx ?stmt t1] => pose proof (run_template_sql_cases ctx stmt t1) as Hc;
    destruct (run_template_sql ctx stmt t1) as [r t2] end.
  cbn. destruct Hc as [(x & -> & ->)|[= -> ->]]; [apply (Hsame (template_error "failed to update template" 500))|].
  rewrite Hr, (Hk id e He). match goal with |- context [touched ?a ?f] => destruct (fun Hf => alter_guarded c id e f t Hk He Hm Hf a) end.
  { intros row. cbn. split_and!; auto. }
  split_and!; [done|done|]. cbn. lia.
Qed.

Lemma set_system_guarded c system failed id : c_Role c = "admin" -> guarded false c (set_system system failed id).
Proof.
  intros Hc t Hk. unfold set_system, mbind, ST_bind, mret, ST_ret. pose proof (GetTemplate_cases id t) as Hg.
  destruct (GetTemplate id t) as [r t1]. destruct Hg as [Hr Hg].
  assert (Hsame : forall r : template_response, keyed (tpw_rows t1) /\ allowed c (tpw_rows t) (tpw_rows t1) /\
            (false = false -> 400 <= tpr_code r -> tpw_rows t1 = tpw_rows t))
    by (intros r'; rewrite Hr; split_and!; [done|apply allowed_refl|done]).
  destruct Hg as [->|[e ->]]; [|apply Hsame]. destruct (tpw_rows t !! id) as [e|] eqn:He; [|apply Hsame].
  unfold SetTemplateSystem.
  match goal with |- context [run_template_sql ?ctx ?stmt t1] => pose proof (run_template_sql_cases ctx stmt t1) as Hs;
    destruct (run_template_sql ctx stmt t1) as [r t2] end.
  cbn. destruct Hs as [(x & -> & ->)|[= -> ->]]; [apply (Hsame (template_error failed 500))|].
  assert (Hm : canManageTemplate (c_Role c) (c_UserID c) e = true) by (by unfold canManageTemplate; rewrite Hc).
  rewrite Hr. match goal with |- context [touched ?a ?f] => destruct (fun Hf => alter_guarded c id e f t Hk He Hm Hf a) end.
  { intros row. cbn. split_and!; auto. }
  split_and!; [done|done|]. cbn. lia.
Qed.

(** A new row for the caller, or an error and none. *)
Lemma store_new_cases failed system c req (t : TemplateWorld) :
  let '(r, t') := store_new secretSvc failed system c req t in
  (exists id row, r = inl row /\ tt_ID row = id /\ tpw_rows t !! id = None /\
     tpw_rows t' = <[id := stored_template row <| tt_CreatedAt := template_now t |> <| tt_UpdatedAt := template_now t |>]>
                     (tpw_rows t) /\
     exists cfg, buildStoredAuthConfig (ttr_Auth req) None (box_service <$> secretSvc) false = Ok cfg /\
       row = (newTemplateFromRequest id req c) <| tt_System := system |> <| tt_AuthConfig := cfg |>) \/
  (exists e, r = inr e /\ 400 <= tpr_code e /\ tpw_rows t' = tpw_rows t).
Proof.
  unfold store_new, mbind, ST_bind, mret, ST_ret, in_world, new_uuid.
  destruct (buildStoredAuthConfig _ _ _ _) as [cfg|msg]; [|right; by eexists].
  unfold CreateTemplate. cbn [tt_ID].
  match goal with |- context [run_template_sql ?ctx ?stmt ?t1] => pose proof (run_template_sql_cases ctx stmt t1) as Hs;
    destruct (run_template_sql ctx stmt t1) as [r t2] end.
  cbn in Hs. destruct Hs as [(x & -> & Hr)|Hs]; [right; by eexists|].
  destruct (tpw_rows t !! _) as [dup|] eqn:Ed; injection Hs as -> Hr; [right; by eexists|].
  left. do 2 eexists. split_and!; [reflexivity|reflexivity|exact Ed|exact Hr|]. by exists cfg.
Qed.
Lemma store_new_guarded failed system c req (t : TemplateWorld) :
  (system = true -> c_Role c = "admin") -> keyed (tpw_rows t) ->
  let '(r, t') := store_new secretSvc failed system c req t in
  keyed (tpw_rows t') /\ allowed c (tpw_rows t) (tpw_rows t') /\
  match r with
  | inl row => tt_UserID row = c_UserID c /\ (forall id x, tpw_rows t !! id = Some x -> tpw_rows t' !! id = Some x)
  | inr e => 400 <= tpr_code e /\ tpw_rows t' = tpw_rows t
  end.
Proof.
  intros Hs Hk. pose proof (store_new_cases failed system c req t) as Hc.
  destruct (store_new _ _ _ _ _ t) as [r t'].
  destruct Hc as [(id & row & -> & Hid & Hn & -> & cfg & _ & Hrow)|(e & -> & He & ->)];
    [|split_and!; [done|apply allowed_refl|done|done]].
  split_and!.
  - by apply keyed_insert.
  - subst row. by apply allowed_insert.
  - by subst row.
  - intros id' x Hx. rewrite lookup_insert_ne by congruence. done.
Qed.

Lemma Create_guarded c body : guarded false c (Create secretSvc c body).
Proof.
  intros t Hk. unfold Create. destruct body as [req|]; [|by apply guarded_ret].
  destruct (validateTemplateRequest req) as [[req'|msg]|]; [|by apply guarded_ret..].
  unfold mbind, ST_bind, mret, ST_ret.
  pose proof (store_new_guarded "failed to create template" false c req' t ltac:(done) Hk) as Hc.
  destruct (store_new _ _ _ _ _ t) as [[row|e] t']; destruct Hc as (Hk' & Ha & Hr); split_and!; try done.
  by destruct Hr.
Qed.

(** Insertions of the caller's rows compose. *)
Lemma allowed_trans_insert c rows rows1 rows2 :
  allowed c rows rows1 -> allowed c rows1 rows2 ->
  (forall id x, rows !! id = Some x -> rows1 !! id = Some x) ->
  (forall id x, rows1 !! id = Some x -> rows2 !! id = Some x) -> allowed c rows rows2.
Proof.
  intros A1 A2 K1 K2. split.
  - intros id t Hn Hs. destruct (rows1 !! id) as [x|] eqn:E.
    + apply K2 in E as E2. assert (t = x) as -> by congruence. by apply (al_new _ _ _ A1 id).
    + by apply (al_new _ _ _ A2 id).
  - intros id t Hs Hn. apply K1, K2 in Hs. congruence.
  - intros id t t' Hs Hs'. apply K1, K2 in Hs. left. congruence.
Qed.

Lemma import_loop_guarded c reqs imported (t : TemplateWorld) :
  c_Role c = "admin" -> keyed (tpw_rows t) ->
  let '(r, t') := import_loop secretSvc c reqs imported t in
  keyed (tpw_rows t') /\ allowed c (tpw_rows t) (tpw_rows t') /\
  (forall id x, tpw_rows t !! id = Some x -> tpw_rows t' !! id = Some x).
Proof.
  intros Hc. revert t imported. induction reqs as [|req reqs IH]; intros t imported Hk; cbn [import_loop];
    [split_and!; auto using allowed_refl|].
  destruct (validateTemplateRequest req) as [[req'|msg]|]; [|split_and!; auto using allowed_refl..].
  cbv zeta. match goal with |- context [store_new _ _ true c ?q] => generalize q end. intros req2.
  unfold mbind, ST_bind. pose proof (store_new_guarded "failed to import system template" true c req2 t (fun _ => Hc) Hk) as Hs.
  destruct (store_new _ _ _ _ _ t) as [[row|e] t1]; destruct Hs as (Hk1 & Ha1 & Hr1).
  - specialize (IH t1 (imported ++ [row]) Hk1). destruct (import_loop _ _ _ _ t1) as [r t2].
    destruct IH as (Hk2 & Ha2 & Hr2), Hr1 as [_ Hr1].
    split_and!; [done| |intros id x Hx; by apply Hr2, Hr1]. by eapply allowed_trans_insert.
  - unfold mret, ST_ret. destruct Hr1 as [_ Hr1]. rewrite Hr1 in *. split_and!; auto.
Qed.

Lemma Import_guarded c body : c_Role c = "admin" -> guarded true c (ImportSystemTemplates secretSvc c body).
Proof.
  intros Hc t Hk. unfold ImportSystemTemplates.
  destruct body as [body|]; [|split_and!; [done|apply allowed_refl|done]].
  destruct (parseSystemTemplateImportPayload body) as [reqs|]; [|split_and!; [done|apply allowed_refl|done]].
  pose proof (import_loop_guarded c reqs [] t Hc Hk) as Hi.
  destruct (import_loop _ _ _ _ t) as [r t']. destruct Hi as (? & ? & _). by split_and!.
Qed.

Lemma admin_guarded partial c (m : ST TemplateWorld template_response) :
  (c_Role c = "admin" -> guarded partial c m) ->
  guarded partial c (RequireAdmin c (template_error "admin access required" 403) m).
Proof.
  intros Hm. unfold RequireAdmin. destruct (String.eqb_spec (c_Role c) "admin") as [E|E]; cbn [negb]; [by apply Hm|].
  by apply guarded_ret.
Qed.

Definition is_import (r : template_route) : bool := match r with RImport _ => true | _ => false end.

Lemma serve_guarded c r : guarded (is_import r) c (serve_template secretSvc c r).
Proof.
  destruct r; cbn [is_import serve_template];
    try (apply admin_guarded; intros Ha);
    auto using List_guarded, Create_guarded, Get_guarded, Update_guarded, Delete_guarded, Export_guarded,
      ExportSystem_guarded, Import_guarded; by apply set_system_guarded.
Qed.

(** ** What is shown *)

Definition shown (r : template_response) : list TestTemplate :=
  match tpr_body r with PTemplates l => l | PTemplate t => [t] | _ => [] end.

Definition viewable (c : caller) (t : TestTemplate) : Prop := canViewTemplate (c_Role c) (c_UserID c) t = true.

Lemma own_viewable c t : tt_UserID t = c_UserID c -> viewable c t.
Proof. intros Hu. unfold viewable, canViewTemplate. rewrite Hu, Z.eqb_refl. by rewrite orb_true_r. Qed.

Lemma managed_viewable c t : canManageTemplate (c_Role c) (c_UserID c) t = true -> viewable c t.
Proof.
  unfold viewable, canManageTemplate, canViewTemplate. destruct (String.eqb (c_Role c) "admin"); [done|].
  by destruct (tt_System t).
Qed.

Lemma List_shows c t : Forall (viewable c) (shown (List c t).1).
Proof.
  unfold List, ListTemplates, mbind, ST_bind, mret, ST_ret.
  match goal with |- context [run_template_sql ?ctx ?stmt t] => pose proof (run_template_sql_cases ctx stmt t) as Hc;
    destruct (run_template_sql ctx stmt t) as [r t'] end.
  cbn. destruct Hc as [(e & -> & _)|[= -> _]]; [constructor|]. cbn. apply Forall_forall. intros x Hx.
  assert (Hin : x ∈ by_recency (rows_where (fun t => String.eqb (c_Role c) "admin" || tt_System t || (tt_UserID t =? c_UserID c)) (tpw_rows t))).
  { apply elem_of_app in Hx as [Hx|Hx]; apply list_elem_of_In, filter_In in Hx as [Hx _]; by apply list_elem_of_In. }
  unfold by_recency in Hin. rewrite order_by_perm in Hin. unfold rows_where in Hin.
  by apply list_elem_of_In, filter_In in Hin as [_ Hin].
Qed.

Lemma Get_shows c id t : Forall (viewable c) (shown (Get c id t).1).
Proof.
  unfold Get, mbind, ST_bind, mret, ST_ret. pose proof (GetTemplate_cases id t) as Hc.
  destruct (GetTemplate id t) as [r t']. destruct Hc as [_ [->|[e ->]]]; [|constructor].
  destruct (tpw_rows t !! id) as [x|]; [|constructor]. cbn. destruct (canViewTemplate _ _ x) eqn:E; cbn; auto.
Qed.

Lemma store_new_shows failed system c req t :
  match (store_new secretSvc failed system c req t).1 with inl row => viewable c row | inr r => shown r = [] end.
Proof.
  unfold store_new, mbind, ST_bind, mret, ST_ret, in_world. destruct (new_uuid (tpw_world t)) as [id w].
  destruct (buildStoredAuthConfig _ _ _ _) as [cfg|msg]; [|done].
  destruct (CreateTemplate _ _) as [[[]|e] t']; [|done]. by apply own_viewable.
Qed.

Lemma Create_shows c body t : Forall (viewable c) (shown (Create secretSvc c body t).1).
Proof.
  unfold Create. destruct body as [req|]; [|constructor].
  destruct (validateTemplateRequest req) as [[req'|msg]|]; [|constructor..].
  unfold mbind, ST_bind, mret, ST_ret. pose proof (store_new_shows "failed to create template" false c req' t) as Hs.
  destruct (store_new _ _ _ _ _ t) as [[row|e] t']; cbn in *; [auto|by rewrite Hs].
Qed.

Lemma Update_shows c id body t : Forall (viewable c) (shown (Update secretSvc c id body t).1).
Proof.
  unfold Update, mbind, ST_bind, mret, ST_ret. pose proof (managed_cases c id t) as Hm.
  unfold managedTemplate, mbind, ST_bind, mret, ST_ret in *.
  destruct (GetTemplate id t) as [[[e|]|msg] t1]; [|constructor..].
  destruct (canManageTemplate (c_Role c) (c_UserID c) e) eqn:Em; cbn [negb] in *; [|constructor].
  destruct body as [req|]; [|constructor].
  destruct (validateTemplateRequest req) as [[req'|msg]|]; [|constructor..].
  destruct (buildStoredAuthConfig _ _ _ _) as [cfg|msg]; [|constructor].
  destruct (UpdateTemplate _ _) as [[[]|msg] t2]; [|constructor]. cbn. repeat constructor. apply managed_viewable in Em. exact Em.
Qed.

Lemma Delete_shows c id t : shown (Delete c id t).1 = [].
Proof.
  unfold Delete, managedTemplate, mbind, ST_bind, mret, ST_ret.
  destruct (GetTemplate id t) as [[[e|]|msg] t1]; [|done..].
  destruct (canManageTemplate (c_Role c) (c_UserID c) e); cbn [negb]; [|done].
  by destruct (DeleteTemplate id t1) as [[[]|msg] t2].
Qed.

(** Administrators see everything. *)
Lemma admin_viewable c t : c_Role c = "admin" -> viewable c t.
Proof. intros Hc. unfold viewable, canViewTemplate. by rewrite Hc. Qed.

Lemma serve_shows c r t : Forall (viewable c) (shown (serve_template secretSvc c r t).1).
Proof.
  destruct (String.eqb_spec (c_Role c) "admin") as [Hc|Hc].
  { apply Forall_true. intros x. by apply admin_viewable. }
  apply String.eqb_neq in Hc.
  destruct r; cbn [serve_template]; unfold RequireAdmin; rewrite ?Hc; cbn [negb mret ST_ret fst];
    auto using List_shows, Get_shows, Create_shows, Update_shows; try constructor.
  by rewrite Delete_shows.
Qed.

(** C4: whatever a caller asks of the template API and whatever the database
    does: only templates the caller may see are shown; new rows are the
    caller's; a row is deleted or changed only by its owner or an administrator,
    system templates by administrators only, and its owner, mode and creation
    time never change; only administrators make, promote or demote system
    templates; and an error changes nothing, except that an import keeps the
    templates it stored before it failed. *)
Theorem templates_safety (c : caller) (r : template_route) (t : TemplateWorld) :
  keyed (tpw_rows t) ->
  let '(rsp, t') := serve_template secretSvc c r t in
  keyed (tpw_rows t') /\ allowed c (tpw_rows t) (tpw_rows t') /\ Forall (viewable c) (shown rsp) /\
  (is_import r = false -> 400 <= tpr_code rsp -> tpw_rows t' = tpw_rows t).
Proof.
  intros Hk. pose proof (serve_guarded c r t Hk) as Hg. pose proof (serve_shows c r t) as Hs.
  destruct (serve_template secretSvc c r t) as [rsp t']. destruct Hg as (? & ? & ?). by split_and!.
Qed.
End routes.
