(* ===== verification/TemplateExport.v ===== *)
(** * Stored templates are well formed, and survive an export

    Every row of the template table has a name, a known mode, normal payload
    settings and authentication that is complete or absent, with a secret that
    can be read back; and a system template that is exported and imported again
    is the same, except that it is then a builder template. *)

From S2P Require Import Prelude GoStrings GoTime Json Payload Model Store Scheduler SchedulerSpec Requests ScheduleHandler Templates TemplateSpec.

Open Scope Z_scope.
Open Scope go_scope.

(** ** Authentication *)

(** The input a stored configuration stands for. *)
Definition input_of (secret : string) (cfg : AuthConfig) : AuthInput :=
  mkAuthInput (ac_Enabled cfg) (ac_Mode cfg) (ac_TokenURL cfg) (ac_ClientID cfg) secret (ac_ClientAuthMethod cfg)
    (ac_RefreshSkewSeconds cfg) (ac_SecretConfigured cfg) false.

Definition input_normal (auth : AuthInput) : Prop :=
  auth_ok auth /\ trim_space (ai_TokenURL auth) = ai_TokenURL auth /\ trim_space (ai_ClientID auth) = ai_ClientID auth.

Section box.
Context (box : secret_box).

(** The secret of a configuration: none, or a text that opens. *)
Definition secret_row (cfg : AuthConfig) : Prop :=
  ac_SecretConfigured cfg = false /\ ac_ClientSecretEncrypted cfg = "" /\ ac_SecretSource cfg = "" \/
  ac_SecretConfigured cfg = true /\ ac_SecretSource cfg = "persisted_encrypted" /\ ac_ClientSecretEncrypted cfg <> "" /\
  exists secret, blank secret = false /\ trim_space secret = secret /\
    box_open box (ac_ClientSecretEncrypted cfg) = Ok secret.

Definition auth_row (cfg : AuthConfig) : Prop :=
  cfg = stored_auth zero_AuthConfig \/
  ac_Enabled cfg = true /\ input_normal (input_of "" cfg) /\ secret_row cfg.

(** What encryption with a random nonce promises. *)
Context (seal_open : forall s enc, seal (box_service box) s = Ok enc -> enc <> "" /\ box_open box enc = Ok s).

Lemma stored_secret_row (cfg : AuthConfig) : secret_row cfg -> secret_row (stored_auth cfg).
Proof.
  unfold secret_row, stored_auth, authConfigured. cbn.
  intros [(-> & -> & ->)|(-> & -> & H & Hs)]; [left|right]; auto.
Qed.

(** Encryption of a secret that is not blank. *)
Lemma Encrypt_opens (s enc : string) :
  trim_space s <> "" -> Encrypt (box_service box) (trim_space s) = Ok enc ->
  enc <> "" /\ exists secret, blank secret = false /\ trim_space secret = secret /\ box_open box enc = Ok secret.
Proof.
  intros Hs. unfold Encrypt. destruct (String.eqb_spec (trim_space s) ""); [done|]. intros He.
  destruct (seal_open _ _ He) as [Hne Ho]. split; [done|]. exists (trim_space s). unfold blank.
  rewrite trim_space_idem. split_and!; [by apply String.eqb_neq|done|done].
Qed.
(** The configuration has what the input says, apart from the secret. *)
Definition follows_input (cfg : AuthConfig) (input : AuthInput) : Prop :=
  ac_Enabled cfg = ai_Enabled input /\ ac_Mode cfg = ai_Mode input /\ ac_TokenURL cfg = ai_TokenURL input /\
  ac_ClientID cfg = ai_ClientID input /\ ac_ClientAuthMethod cfg = ai_ClientAuthMethod input /\
  ac_RefreshSkewSeconds cfg = ai_RefreshSkewSeconds input.

Lemma from_stored_row (input : AuthInput) (existing : option AuthConfig) :
  ai_Enabled input = true -> (forall e, existing = Some e -> auth_row e) ->
  follows_input (authConfigFromStoredInput input existing) input /\
  secret_row (authConfigFromStoredInput input existing).
Proof.
  intros He Hx. unfold authConfigFromStoredInput. rewrite He. cbn [negb].
  assert (Hs : match existing with
               | Some e => secret_row e
               | None => True
               end).
  { destruct existing as [e|]; [|done]. destruct (Hx e eq_refl) as [->|(_ & _ & Hs)]; [by left|exact Hs]. }
  destruct existing as [e|]; cbn.
  - destruct (ai_ClearSecret input); cbn; [by (split; [|left])|].
    destruct Hs as [(Hc & Hn & Hsrc)|(Hc & Hsrc & Hn & secret)].
    + rewrite Hn. cbn. rewrite Hc, Hsrc, ?Hn. by (split; [|left]).
    + apply String.eqb_neq in Hn as Hn'. rewrite Hn', Hsrc. cbn. rewrite ?He. split; [done|right]. eauto.
  - destruct (ai_ClearSecret input); cbn; by (split; [|left]).
Qed.

Lemma stored_follows (cfg : AuthConfig) (input : AuthInput) :
  ai_Enabled input = true -> input_normal input -> follows_input cfg input -> secret_row cfg ->
  auth_row (stored_auth cfg).
Proof.
  intros He ([->|(_ & Hm & Hu & Hc & Ha & Hsk)] & Tu & Tc) (F1 & F2 & F3 & F4 & F5 & F6) Hs; [done|].
  right. unfold input_normal, auth_ok, input_of. cbn.
  unfold defaultAuthClientAuthMethod, defaultAuthRefreshSkewSeconds. rewrite F1, F2, F3, F4, F5, F6.
  rewrite (proj2 (Z.leb_gt _ 0) Hsk).
  assert (Hne : String.eqb (ai_ClientAuthMethod input) "" = false) by (destruct Ha as [-> | ->]; done).
  rewrite Hne. split_and!; [done|right; split_and!; done|done|done|]. by apply stored_secret_row.
Qed.

Lemma build_row (input : AuthInput) (existing : option AuthConfig) (svc : option secrets_Service) (cfg : AuthConfig) :
  input_normal input -> (forall s, svc = Some s -> s = box_service box) -> (forall e, existing = Some e -> auth_row e) ->
  buildStoredAuthConfig input existing svc false = Ok cfg -> auth_row (stored_auth cfg).
Proof.
  intros Hi Hsvc Hx. unfold buildStoredAuthConfig.
  destruct (ai_Enabled input) eqn:He; [|unfold authConfigFromStoredInput; rewrite He; cbn; intros [= <-]; by left].
  destruct (from_stored_row input existing He Hx) as [Hf Hs].
  set (cfg0 := authConfigFromStoredInput input existing) in *. clearbody cfg0.
  rewrite (proj1 Hf), He. cbn [negb]. destruct svc as [s|]; [|discriminate]. rewrite (Hsvc s eq_refl). cbv zeta. cbn [orb].
  set (clear := fun cfg : AuthConfig => cfg <| ac_ClientSecretEncrypted := "" |> <| ac_SecretConfigured := false |>
                                            <| ac_SecretSource := "" |>).
  assert (Hclear : forall cfg, follows_input cfg input -> follows_input (clear cfg) input /\ secret_row (clear cfg))
    by (intros c Hc; split; [exact Hc|by left]).
  match goal with |- context [if ai_ClearSecret input then ?a else cfg0] =>
    assert (Hc1 : follows_input (if ai_ClearSecret input then a else cfg0) input /\
                  secret_row (if ai_ClearSecret input then a else cfg0))
      by (destruct (ai_ClearSecret input); [by apply Hclear|done]);
    generalize dependent (if ai_ClearSecret input then a else cfg0) end.
  intros cfg1 [Hf1 Hs1].
  match goal with |- context [match ?e with Ok c => _ | Err m => Err m end] =>
    assert (Henc : forall c, e = Ok c -> follows_input c input /\ secret_row c) end.
  { intros c. destruct (String.eqb_spec (trim_space (ai_ClientSecret input)) "") as [E|E]; cbn [negb]; [by intros [= <-]|].
    destruct (Encrypt _ _) as [enc|m] eqn:Ee; [|discriminate]. intros [= <-].
    destruct (Encrypt_opens _ _ E Ee) as [Hne Hsec]. split; [exact Hf1|]. right. cbn. auto. }
  destruct (if negb _ then _ else _) as [cfg2|m]; [|discriminate]. destruct (Henc cfg2 eq_refl) as [Hf2 Hs2]. clear Henc.
  intros Hok. assert (Hcfg : cfg = cfg2 \/ cfg = clear cfg2).
  { revert Hok. cbn [andb]. repeat break_test; intros [= <-]; auto. }
  assert (Hcfg3 : follows_input cfg input /\ secret_row cfg) by (destruct Hcfg as [-> | ->]; [done|by apply Hclear]).
  destruct Hcfg3 as [Hf3 Hs3]. by apply (stored_follows cfg input).
Qed.
End box.

(** ** Payload settings *)

(** Settings a builder test accepts, and only tidies the method and the content type of. *)
Definition builder_normal `{JsonErrors} (method contentType payload : string) (target : Z) : Prop :=
  exists arts, normalizePayloadFields false (mkPayloadFields method contentType payload) target =
    Some (Ok (mkPayloadFields (NormalizeHTTPMethod method) (NormalizeContentType contentType) payload, arts)).

Section payload.
Context `{JsonErrors}.

Lemma NormalizeHTTPMethod_given (method : string) : NormalizeHTTPMethod method <> "".
Proof. unfold NormalizeHTTPMethod. by destruct (String.eqb_spec (to_upper (trim_space method)) ""). Qed.

Lemma default_method (m : string) : NormalizeHTTPMethod (defaultHTTPMethod m) = NormalizeHTTPMethod m.
Proof. unfold defaultHTTPMethod. by destruct (String.eqb_spec m "") as [->|]. Qed.

Lemma default_content (ct : string) : NormalizeContentType (defaultContentType ct) = NormalizeContentType ct.
Proof. unfold defaultContentType. by destruct (String.eqb_spec ct "") as [->|]. Qed.

(** The settings of a row: what was accepted for a request is normal, with a
    script too, once the defaults of the table are in. *)
Lemma stored_builder_normal hasScript f f' target arts :
  normalizePayloadFields hasScript f target = Some (Ok (f', arts)) ->
  builder_normal (defaultHTTPMethod (pf_method f')) (defaultContentType (pf_contentType f')) (pf_payloadJSON f') target.
Proof.
  intros Hn. unfold builder_normal. rewrite default_method, default_content. destruct hasScript.
  - pose proof (normalizePayloadFields_script _ _ _ _ Hn) as [_ [Hp ->]]. unfold normalizePayloadFields in *.
    destruct (0 <? 0) eqn:E0; [discriminate|]. clear E0.
    destruct (HasPayloadConfiguration _ _ _ _) eqn:Ec; [discriminate|]. injection Hn as <- <-. cbn in *. rewrite Hp in *.
    unfold HasPayloadConfiguration in Ec. cbn in Ec.
    destruct (String.eqb_spec (NormalizeHTTPMethod (pf_method f)) DefaultHTTPMethod) as [Em|]; [|discriminate].
    cbn in Ec. apply negb_false_iff, String.eqb_eq in Ec.
    rewrite default_method, default_content, Em, Ec. eexists. vm_compute. reflexivity.
  - exists arts. pose proof (normalizePayloadFields_idem _ _ _ _ _ Hn) as Hi.
    assert (Hf : f' = mkPayloadFields (NormalizeHTTPMethod (pf_method f)) (NormalizeContentType (pf_contentType f))
                        (trim_space (pf_payloadJSON f))).
    { unfold normalizePayloadFields in Hn. destruct (target <? 0); [discriminate|].
      destruct (BuildBuilderPayloadArtifacts _) as [[a|]|]; [|discriminate..]. by injection Hn as <- _. }
    subst f'. cbn [pf_method pf_contentType pf_payloadJSON] in *.
    unfold defaultHTTPMethod, defaultContentType.
    rewrite (proj2 (String.eqb_neq _ _) (NormalizeHTTPMethod_given _)), (proj2 (String.eqb_neq _ _) (content_type_given _)).
    by rewrite Hi, NormalizeHTTPMethod_idem, NormalizeContentType_idem.
Qed.

Lemma inferred_mode (req : TestTemplateRequest) : inferTemplateMode req = "builder" \/ inferTemplateMode req = "upload".
Proof. unfold inferTemplateMode. repeat break_test; auto. Qed.

(** A request that passed. *)
Definition validated (req : TestTemplateRequest) : Prop :=
  ttr_Name req <> "" /\ input_normal (ttr_Auth req) /\
  builder_normal (defaultHTTPMethod (ttr_HTTPMethod req)) (defaultContentType (ttr_ContentType req))
    (ttr_PayloadJSON req) (ttr_PayloadTargetKiB req).

Lemma validateTemplateRequest_ok (req req' : TestTemplateRequest) :
  validateTemplateRequest req = Some (Ok req') -> validated req'.
Proof.
  unfold validateTemplateRequest, normalizeTemplateRequestPayload, validated.
  destruct (String.eqb_spec (ttr_Name req) "") as [|Hn]; [discriminate|]. cbn.
  destruct (normalizeAuthInput (ttr_Auth req)) as [auth|] eqn:Ea; [|discriminate].
  destruct (normalizePayloadFields _ _ _) as [[[f arts]|]|] eqn:Ef; [|discriminate..].
  intros [= <-]. cbn. split_and!; [done|exact (normalizeAuthInput_ok _ _ Ea)|]. by eapply stored_builder_normal.
Qed.
End payload.

(** ** Well-formed rows *)

Record template_wf `{JsonErrors} (box : secret_box) (t : TestTemplate) : Prop := mkTemplateWf {
  wf_name : tt_Name t <> "";
  wf_mode : tt_Mode t = "builder" \/ tt_Mode t = "upload";
  wf_payload : builder_normal (tt_HTTPMethod t) (tt_ContentType t) (tt_PayloadJSON t) (tt_PayloadTargetKiB t);
  wf_auth : auth_row box (tt_AuthConfig t)
}.

Definition table_wf `{JsonErrors} (box : secret_box) (rows : gmap string TestTemplate) : Prop :=
  keyed rows /\ forall id t, rows !! id = Some t -> template_wf box t.

Section wf.
Context `{RowOrder} `{UuidSource} `{JsonErrors} (box : secret_box) (secretSvc : option secret_box).
Context (seal_open : forall s enc, seal (box_service box) s = Ok enc -> enc <> "" /\ box_open box enc = Ok s).
Context (Hsvc : forall b, secretSvc = Some b -> b = box).

Definition keeps_wf (m : ST TemplateWorld template_response) : Prop :=
  forall t, table_wf box (tpw_rows t) -> table_wf box (tpw_rows (m t).2).

Lemma service_of_box (s : secrets_Service) : box_service <$> secretSvc = Some s -> s = box_service box.
Proof. destruct secretSvc as [b|] eqn:E; [|done]. cbn. intros [= <-]. by rewrite (Hsvc b eq_refl). Qed.

Lemma auth_of_row (input : AuthInput) existing cfg :
  input_normal input -> (forall e, existing = Some e -> auth_row box e) ->
  buildStoredAuthConfig input existing (box_service <$> secretSvc) false = Ok cfg -> auth_row box (stored_auth cfg).
Proof. intros Hi He. by apply (build_row box seal_open input existing _ cfg Hi service_of_box He). Qed.

Lemma table_wf_insert rows id t : table_wf box rows -> tt_ID t = id -> template_wf box t -> table_wf box (<[id := t]> rows).
Proof.
  intros [Hk Hw] Hid Ht. split; [by apply keyed_insert|]. intros id' t' Hl.
  apply lookup_insert_Some in Hl as [[<- <-]|[_ Hl]]; eauto.
Qed.

Lemma store_new_wf failed system c req t :
  validated req -> table_wf box (tpw_rows t) -> table_wf box (tpw_rows (store_new secretSvc failed system c req t).2).
Proof.
  intros (Hn & Hi & Hp) Hw. pose proof (store_new_cases secretSvc failed system c req t) as Hc.
  destruct (store_new _ _ _ _ _ t) as [r t'].
  destruct Hc as [(id & row & _ & Hid & _ & Hrows & cfg & Hcfg & ->)|(e & _ & _ & Hrows)]; cbn [snd]; rewrite Hrows; [|done].
  apply table_wf_insert; [done|done|]. split; cbn; [done|apply inferred_mode|done|].
  by apply (auth_of_row (ttr_Auth req) None cfg).
Qed.
Lemma keeps_same (m : ST TemplateWorld template_response) : (forall t, tpw_rows (m t).2 = tpw_rows t) -> keeps_wf m.
Proof. intros Hm t Hw. by rewrite Hm. Qed.

(** A handler whose answer of an error changes nothing, or that only looks. *)
Lemma Create_wf c body : keeps_wf (Create secretSvc c body).
Proof.
  intros t Hw. unfold Create. destruct body as [req|]; [|done].
  destruct (validateTemplateRequest req) as [[req'|msg]|] eqn:Ev; [|done..].
  apply validateTemplateRequest_ok in Ev. unfold mbind, ST_bind, mret, ST_ret.
  pose proof (store_new_wf "failed to create template" false c req' t Ev Hw) as Hs.
  by destruct (store_new _ _ _ _ _ t) as [[row|e] t'].
Qed.

Lemma validated_persist req :
  validated req -> validated (req <| ttr_Auth := (ttr_Auth req) <| ai_PersistSecret := true |> |>) \/
                   ai_Enabled (ttr_Auth req) = false.
Proof.
  intros (Hn & (Ha & Tu & Tc) & Hp). destruct Ha as [Ha|Ha]; [right; by rewrite Ha|left].
  split_and!; [done| |done]. split_and!; [by right|done|done].
Qed.

Lemma import_loop_wf c reqs imported : keeps_wf (import_loop secretSvc c reqs imported).
Proof.
  revert imported. induction reqs as [|req reqs IH]; intros imported t Hw; cbn [import_loop]; [done|].
  destruct (validateTemplateRequest req) as [[req'|msg]|] eqn:Ev; [|done..]. cbv zeta.
  apply validateTemplateRequest_ok in Ev.
  match goal with |- context [store_new _ _ true c ?q] => assert (Hq : validated q) end.
  { destruct (validated_persist req' Ev) as [Hp| ->]; [|exact Ev]. by destruct (_ && _). }
  match goal with |- context [store_new _ _ true c ?q] => generalize dependent q end. intros req2 Hq.
  unfold mbind, ST_bind. pose proof (store_new_wf "failed to import system template" true c req2 t Hq Hw) as Hs.
  destruct (store_new _ _ _ _ _ t) as [[row|e] t']; [by apply IH|done].
Qed.

Lemma table_wf_alter rows id f :
  table_wf box rows ->
  (forall t, rows !! id = Some t -> tt_ID (f t) = tt_ID t /\ template_wf box (f t)) -> table_wf box (alter f id rows).
Proof.
  intros [Hk Hw] Hf. destruct (rows !! id) as [t|] eqn:E.
  - assert (Ha : alter f id rows = <[id := f t]> rows).
    { apply map_eq. intros i. destruct (decide (i = id)) as [->|Hne].
      - by rewrite lookup_alter_eq, lookup_insert_eq, E.
      - by rewrite lookup_alter_ne, lookup_insert_ne. }
    destruct (Hf t eq_refl) as [Hid Ht]. rewrite Ha. apply table_wf_insert; [done|rewrite Hid; by apply Hk|done].
  - assert (Ha : alter f id rows = rows).
    { apply map_eq. intros i. destruct (decide (i = id)) as [->|Hne]; [by rewrite lookup_alter_eq, E|by rewrite lookup_alter_ne]. }
    by rewrite Ha.
Qed.

Lemma touched_wf at_ f t : template_wf box (f t) -> template_wf box (touched at_ f t).
Proof. unfold touched. destruct (bool_decide _); [done|]. intros [Hn Hm Hp Ha]. by split. Qed.

(** A statement and its effect on well-formed rows. *)
Lemma statement_wf {A} ctx (stmt : gmap string TestTemplate -> res A * gmap string TestTemplate) t :
  table_wf box (tpw_rows t) -> (table_wf box (tpw_rows t) -> table_wf box (stmt (tpw_rows t)).2) ->
  table_wf box (tpw_rows (run_template_sql ctx stmt t).2).
Proof.
  intros Hw Hs. pose proof (run_template_sql_cases ctx stmt t) as Hc. destruct (run_template_sql ctx stmt t) as [r t'].
  destruct Hc as [(e & _ & Hr)|Hc]; cbn; [by rewrite Hr|]. specialize (Hs Hw). by rewrite <- Hc in Hs.
Qed.

Lemma Update_wf c id body : keeps_wf (Update secretSvc c id body).
Proof.
  intros t Hw. unfold Update, mbind, ST_bind, mret, ST_ret. pose proof (managed_cases c id t) as Hm.
  destruct (managedTemplate c id t) as [[e|r] t1]; destruct Hm as [Hr Hm]; cbn [snd]; [|by rewrite Hr].
  rewrite <- Hr in Hw, Hm. destruct Hm as [He _].
  destruct body as [req|]; [|done]. destruct (validateTemplateRequest req) as [[req'|msg]|] eqn:Ev; [|done..].
  apply validateTemplateRequest_ok in Ev as (Hn & Hi & Hp).
  destruct (buildStoredAuthConfig _ _ _ _) as [cfg|msg] eqn:Eb; [|done].
  apply auth_of_row in Eb; [|done|intros x [= <-]; apply (proj2 Hw id e He)].
  match goal with |- context [UpdateTemplate ?u t1] =>
    assert (Hs : table_wf box (tpw_rows (UpdateTemplate u t1).2)); [|by destruct (UpdateTemplate u t1)] end.
  unfold UpdateTemplate. apply statement_wf; [done|]. intros _. apply table_wf_alter; [done|]. intros row Hrow. split.
  - by rewrite (proj1 (touched_frame _ _ _)).
  - apply touched_wf. split; cbn; [done|by apply (proj2 Hw _ _ Hrow)|done|done].
Qed.

Lemma set_system_wf system failed id : keeps_wf (set_system system failed id).
Proof.
  intros t Hw. unfold set_system, mbind, ST_bind, mret, ST_ret. pose proof (GetTemplate_cases id t) as Hg.
  destruct (GetTemplate id t) as [r t1]. destruct Hg as [Hr _]. rewrite <- Hr in Hw.
  destruct r as [[e|]|msg]; [|done..].
  assert (Hs : table_wf box (tpw_rows (SetTemplateSystem id system t1).2)); [|by destruct (SetTemplateSystem id system t1)].
  unfold SetTemplateSystem. apply statement_wf; [done|]. intros _. apply table_wf_alter; [done|]. intros row Hrow. split.
  - by rewrite (proj1 (touched_frame _ _ _)).
  - apply touched_wf. destruct (proj2 Hw _ _ Hrow) as [Hn Hm Hp Ha]. by split.
Qed.

Lemma Delete_wf c id : keeps_wf (Delete c id).
Proof.
  intros t Hw. unfold Delete, mbind, ST_bind, mret, ST_ret. pose proof (managed_cases c id t) as Hm.
  destruct (managedTemplate c id t) as [[e|r] t1]; destruct Hm as [Hr _]; cbn [snd]; [|by rewrite Hr].
  rewrite <- Hr in Hw. assert (Hs : table_wf box (tpw_rows (DeleteTemplate id t1).2)); [|by destruct (DeleteTemplate id t1)].
  unfold DeleteTemplate. apply statement_wf; [done|]. intros [Hk Hx].
  split; [by apply keyed_delete|]. intros id' x Hl. cbn in Hl. apply lookup_delete_Some in Hl as [_ Hl]. eauto.
Qed.

(** The rows of handlers that only look. *)
Lemma looking (m : ST TemplateWorld template_response) c r :
  m = serve_template secretSvc c r ->
  match r with RList | RGet _ | RExportAll | RExport _ => True | _ => False end -> keeps_wf m.
Proof.
  intros -> Hr. apply keeps_same. intros t. destruct r; try done; cbn [serve_template]; unfold RequireAdmin;
    try (destruct (negb _); [done|]).
  - unfold List, ListTemplates, mbind, ST_bind, mret, ST_ret.
    match goal with |- context [run_template_sql ?ctx ?stmt t] => pose proof (run_template_sql_cases ctx stmt t) as Hc;
      destruct (run_template_sql ctx stmt t) as [r t'] end.
    cbn. by destruct Hc as [(e & _ & ->)|[= _ ->]].
  - unfold Get, mbind, ST_bind, mret, ST_ret. pose proof (GetTemplate_cases id t) as Hc.
    by destruct (GetTemplate id t) as [r t'], Hc.
  - unfold ExportSystemTemplates, ListSystemTemplates, mbind, ST_bind, mret, ST_ret.
    match goal with |- context [run_template_sql ?ctx ?stmt t] => pose proof (run_template_sql_cases ctx stmt t) as Hc;
      destruct (run_template_sql ctx stmt t) as [r t'] end.
    cbn. by destruct Hc as [(e & _ & ->)|[= _ ->]].
  - unfold Export, mbind, ST_bind, mret, ST_ret. pose proof (GetTemplate_cases id t) as Hc.
    by destruct (GetTemplate id t) as [r t'], Hc.
Qed.

Lemma serve_wf c r : keeps_wf (serve_template secretSvc c r).
Proof.
  destruct r; try (by eapply looking; [reflexivity|]);
    intros t Hw; cbn [serve_template]; unfold RequireAdmin; try (destruct (negb _); [done|]);
    [by apply Create_wf|by apply Update_wf|by apply Delete_wf| |by apply set_system_wf..].
  unfold ImportSystemTemplates. destruct body as [body|]; [|done].
  destruct (parseSystemTemplateImportPayload body) as [reqs|]; [|done]. by apply import_loop_wf.
Qed.

(** C28: every template the API stores has a name, a known mode, payload settings
    a builder test accepts, and no authentication or a complete one, whose
    secret is absent or can be decrypted: whatever is asked, the table keeps
    this shape. *)
Theorem templates_wf (c : caller) (r : template_route) (t : TemplateWorld) :
  table_wf box (tpw_rows t) -> table_wf box (tpw_rows (serve_template secretSvc c r t).2).
Proof. apply serve_wf. Qed.
End wf.

(** ** Export and import *)

Section roundtrip.
Context `{RowOrder} `{UuidSource} `{JsonErrors} (box : secret_box).
Context (seal_open : forall s enc, seal (box_service box) s = Ok enc -> enc <> "" /\ box_open box enc = Ok s).
Context (seal_total : forall s, exists enc, seal (box_service box) s = Ok enc).

(** The same configuration; the secret is encrypted anew. *)
Definition same_auth (a a' : AuthConfig) : Prop :=
  a' <| ac_ClientSecretEncrypted := "" |> = a <| ac_ClientSecretEncrypted := "" |> /\
  (ac_ClientSecretEncrypted a = "" /\ ac_ClientSecretEncrypted a' = "" \/
   ac_ClientSecretEncrypted a' <> "" /\
   box_open box (ac_ClientSecretEncrypted a') = box_open box (ac_ClientSecretEncrypted a)).

Definition same_template (t t' : TestTemplate) : Prop :=
  tt_Name t' = tt_Name t /\ tt_Description t' = tt_Description t /\ tt_URL t' = tt_URL t /\
  tt_Stages t' = tt_Stages t /\ tt_ScriptContent t' = tt_ScriptContent t /\ tt_ConfigContent t' = tt_ConfigContent t /\
  tt_HTTPMethod t' = NormalizeHTTPMethod (tt_HTTPMethod t) /\
  tt_ContentType t' = NormalizeContentType (tt_ContentType t) /\ tt_PayloadJSON t' = tt_PayloadJSON t /\
  tt_PayloadTargetKiB t' = tt_PayloadTargetKiB t /\ same_auth (tt_AuthConfig t) (tt_AuthConfig t').

(** What the import makes of an input. *)
Definition persisted (auth : AuthInput) : AuthInput :=
  if ai_Enabled auth && negb (blank (ai_ClientSecret auth)) then auth <| ai_PersistSecret := true |> else auth.

Definition reimports (auth : AuthInput) (a : AuthConfig) : Prop :=
  exists auth' cfg, normalizeAuthInput auth = Ok auth' /\
    buildStoredAuthConfig (persisted auth') None (Some (box_service box)) false = Ok cfg /\
    same_auth a (stored_auth cfg).

Lemma reimports_disabled : reimports (input_of "" (stored_auth zero_AuthConfig)) (stored_auth zero_AuthConfig).
Proof. exists zero_AuthInput, zero_AuthConfig. split_and!; [reflexivity|reflexivity|]. split; [reflexivity|by left]. Qed.

Lemma input_normal_secret secret cfg : ac_Enabled cfg = true -> input_normal (input_of "" cfg) -> input_normal (input_of secret cfg).
Proof.
  intros He (Ha & Tu & Tc). split; [|done]. destruct Ha as [Ha|Ha]; [|by right].
  unfold input_of in Ha. rewrite He in Ha. discriminate.
Qed.

Lemma normal_fixed auth : input_normal auth -> normalizeAuthInput auth = Ok auth.
Proof. intros (Ha & Tu & Tc). by apply normalizeAuthInput_fixed. Qed.

Lemma stored_fields cfg :
  ac_Enabled cfg = true -> input_normal (input_of "" cfg) ->
  String.eqb (ac_ClientAuthMethod cfg) "" = false /\ (ac_RefreshSkewSeconds cfg <=? 0) = false.
Proof.
  intros He ([Ha|(_ & _ & _ & _ & Hm & Hs)] & _); [unfold input_of in Ha; rewrite He in Ha; discriminate|].
  cbn in *. split; [by destruct Hm as [-> | ->]|by apply Z.leb_gt].
Qed.

Lemma reimports_without cfg :
  ac_Enabled cfg = true -> input_normal (input_of "" cfg) -> ac_SecretConfigured cfg = false ->
  ac_ClientSecretEncrypted cfg = "" -> ac_SecretSource cfg = "" -> reimports (input_of "" cfg) cfg.
Proof.
  intros He Hi Hc Hn Hs. destruct (stored_fields cfg He Hi) as [Hm Hk].
  assert (Hf : normalizeAuthInput (input_of "" cfg) = Ok (input_of "" cfg)) by by apply normal_fixed.
  destruct cfg as [en mode url cid meth skew source configured enc]. cbn in *. subst.
  do 2 eexists. split; [exact Hf|]. split; [reflexivity|].
  split; [|left; split; reflexivity]. unfold stored_auth, defaultAuthClientAuthMethod, defaultAuthRefreshSkewSeconds.
  cbn. by rewrite Hm, Hk.
Qed.

Lemma persisted_same auth : ai_PersistSecret auth = true -> persisted auth = auth.
Proof. intros Hp. unfold persisted. destruct (_ && _); [|done]. destruct auth. cbn in *. by subst. Qed.

Lemma reimports_secret cfg secret :
  ac_Enabled cfg = true -> input_normal (input_of "" cfg) -> ac_SecretConfigured cfg = true ->
  ac_SecretSource cfg = "persisted_encrypted" -> blank secret = false -> trim_space secret = secret ->
  box_open box (ac_ClientSecretEncrypted cfg) = Ok secret -> reimports (input_of secret cfg) cfg.
Proof.
  intros He Hi Hc Hs Hb Ht Ho. destruct (stored_fields cfg He Hi) as [Hm Hk].
  destruct (seal_total secret) as [enc Henc]. destruct (seal_open _ _ Henc) as [Hne Hopen].
  assert (Hs' : String.eqb secret "" = false) by (unfold blank in Hb; by rewrite Ht in Hb).
  assert (Hf : normalizeAuthInput (input_of secret cfg) = Ok (input_of secret cfg))
    by by apply normal_fixed, input_normal_secret.
  destruct cfg as [en mode url cid meth skew source configured enc0]. cbn in *. subst.
  do 2 eexists. split; [exact Hf|]. split.
  - rewrite persisted_same by done. unfold buildStoredAuthConfig, Encrypt. cbn [input_of ai_ClientSecret].
    rewrite Ht. cbn. rewrite Hs'. cbn. rewrite Henc. cbn. rewrite (proj2 (String.eqb_neq _ _) Hne). reflexivity.
  - split; [|right; cbn; split; [done|by rewrite Hopen, Ho]].
    unfold stored_auth, defaultAuthClientAuthMethod, defaultAuthRefreshSkewSeconds. cbn. by rewrite Hm, Hk.
Qed.

(** A template as a request. *)
Definition request_of (t : TestTemplate) (auth : AuthInput) : TestTemplateRequest :=
  mkTemplateRequest (tt_Name t) (tt_Description t) (tt_Mode t) (tt_URL t) (tt_Stages t) (tt_ScriptContent t)
    (tt_ConfigContent t) (tt_HTTPMethod t) (tt_ContentType t) (tt_PayloadJSON t) (tt_PayloadTargetKiB t) auth.

Lemma exportable_ok (t : TestTemplate) :
  template_wf box t ->
  exists auth, exportableTemplateRequest (Some box) t = inl (request_of t auth) /\ reimports auth (tt_AuthConfig t).
Proof.
  intros [_ _ _ Ha]. unfold exportableTemplateRequest. cbv zeta.
  destruct Ha as [-> |(He & Hi & [(Hc & Hn & Hs)|(Hc & Hs & Hn & secret & Hb & Ht & Ho)])].
  - eexists. split; [reflexivity|apply reimports_disabled].
  - rewrite Hc. cbn [andb]. eexists. split; [reflexivity|].
    replace false with (ac_SecretConfigured (tt_AuthConfig t)) at 1 by done. by apply reimports_without.
  - apply String.eqb_neq in Hn as Hn'. rewrite Hc, Hn'. cbn [andb negb]. unfold Decrypt. rewrite Hn', Ho.
    eexists. split; [reflexivity|].
    rewrite <- Hc at 1.
    by apply reimports_secret.
Qed.

(** The request after the import has checked it. *)
Definition imported_request (t : TestTemplate) (auth : AuthInput) : TestTemplateRequest :=
  (request_of t auth) <| ttr_Mode := "builder" |> <| ttr_HTTPMethod := NormalizeHTTPMethod (tt_HTTPMethod t) |>
    <| ttr_ContentType := NormalizeContentType (tt_ContentType t) |>.

Lemma validate_exported (t : TestTemplate) (auth auth' : AuthInput) :
  template_wf box t -> blank (tt_HTTPMethod t) = false -> normalizeAuthInput auth = Ok auth' ->
  validateTemplateRequest (request_of t auth) = Some (Ok (imported_request t auth')).
Proof.
  intros [Hn _ [arts Hp] _] Hb Ha. unfold validateTemplateRequest. cbn [request_of ttr_Name].
  apply String.eqb_neq in Hn. rewrite Hn.
  assert (Hm : inferTemplateMode (request_of t auth) = "builder").
  { unfold inferTemplateMode, templateRequestHasBuilderSignals. cbn [request_of ttr_URL ttr_Stages ttr_HTTPMethod].
    rewrite Hb. cbn [negb]. rewrite orb_true_r. cbn [orb]. by repeat break_test. }
  rewrite Hm. unfold normalizeTemplateRequestPayload. set (r := (request_of t auth) <| ttr_Mode := "builder" |>).
  change (ttr_Auth r) with auth. rewrite Ha.
  change (ttr_Mode r) with "builder". change (to_lower (trim_space "builder")) with "builder".
  cbv zeta. rewrite String.eqb_refl. cbn [negb]. rewrite andb_false_r.
  change (ttr_HTTPMethod r) with (tt_HTTPMethod t). change (ttr_ContentType r) with (tt_ContentType t).
  change (ttr_PayloadJSON r) with (tt_PayloadJSON t). change (ttr_PayloadTargetKiB r) with (tt_PayloadTargetKiB t).
  by rewrite Hp.
Qed.

Lemma same_as_imported (t : TestTemplate) (auth : AuthInput) id c cfg :
  same_auth (tt_AuthConfig t) (stored_auth cfg) ->
  same_template t (stored_template ((newTemplateFromRequest id ((imported_request t auth)) c)
                     <| tt_System := true |> <| tt_AuthConfig := cfg |>)).
Proof.
  intros Hs. unfold same_template. cbn. unfold defaultHTTPMethod, defaultContentType.
  rewrite (proj2 (String.eqb_neq _ _) (NormalizeHTTPMethod_given _)), (proj2 (String.eqb_neq _ _) (content_type_given _)).
  split_and!; try done; apply Hs.
Qed.

Lemma persisted_request (req : TestTemplateRequest) :
  (if ai_Enabled (ttr_Auth req) && negb (blank (ai_ClientSecret (ttr_Auth req)))
   then req <| ttr_Auth := (ttr_Auth req) <| ai_PersistSecret := true |> |> else req) =
  req <| ttr_Auth := persisted (ttr_Auth req) |>.
Proof. unfold persisted. destruct (_ && _); [done|]. by destruct req. Qed.

(** The import of one request. *)
Lemma import_one c req req' cfg (w : TemplateWorld) :
  w_faults (tpw_world w) = [] -> tpw_rows w !! uuid (w_uuids (tpw_world w)) = None ->
  validateTemplateRequest req = Some (Ok req') ->
  buildStoredAuthConfig (persisted (ttr_Auth req')) None (Some (box_service box)) false = Ok cfg ->
  let id := uuid (w_uuids (tpw_world w)) in
  let row := (newTemplateFromRequest id (req' <| ttr_Auth := persisted (ttr_Auth req') |>) c)
               <| tt_System := true |> <| tt_AuthConfig := cfg |> in
  let '(rsp, w') := import_loop (Some box) c [req] [] w in
  tpr_code rsp = 201 /\ exists t', tpw_rows w' = <[id := t']> (tpw_rows w) /\
    t' = stored_template row <| tt_CreatedAt := template_now w |> <| tt_UpdatedAt := template_now w |>.
Proof.
  intros Hf Hn Hv Hb id row. cbn [import_loop]. rewrite Hv. cbv zeta. rewrite persisted_request.
  unfold store_new, mbind, ST_bind, mret, ST_ret, in_world, new_uuid. fold id. cbn [fmap option_fmap option_map ttr_Auth].
  set (q := req' <| ttr_Auth := persisted (ttr_Auth req') |>).
  change (ttr_Auth q) with (persisted (ttr_Auth req')). rewrite Hb.
  unfold CreateTemplate, run_template_sql. cbn [tt_ID tpw_rows tpw_world w_faults newTemplateFromRequest].
  fold id in Hn. cbn. rewrite Hn, Hf. cbn. split; [done|]. eexists. split; reflexivity.
Qed.

(** The export of one row. *)
Lemma export_one id t auth (w : TemplateWorld) :
  w_faults (tpw_world w) = [] -> tpw_rows w !! id = Some t -> tt_System t = true ->
  exportableTemplateRequest (Some box) t = inl (request_of t auth) ->
  Export (Some box) id w =
    (mkTemplateResponse 200 (PExport (mkEnvelope 1 (now (tpw_world w)) (Some (request_of t auth)) [])), w).
Proof.
  intros Hf Ht Hs He. destruct w as [world rows]. cbn in *.
  unfold Export, GetTemplate, run_template_sql, template_time, mbind, ST_bind, mret, ST_ret. cbv beta.
  cbn. rewrite Hf, Ht. cbn. by rewrite Hs, He.
Qed.

(** C25: a system template that an administrator exports and imports again, with
    a database that answers, becomes a new system template of that administrator
    with the same content and the same authentication, secret included; only its
    mode is "builder", whatever it was, because the HTTP method that every row
    has counts as a setting of a builder test. *)
Theorem export_import_roundtrip (c : caller) (id : string) (t : TestTemplate) (w : TemplateWorld) :
  c_Role c = "admin" -> w_faults (tpw_world w) = [] -> table_wf box (tpw_rows w) ->
  tpw_rows w !! id = Some t -> tt_System t = true -> blank (tt_HTTPMethod t) = false ->
  tpw_rows w !! uuid (w_uuids (tpw_world w)) = None ->
  exists req, serve_template (Some box) c (RExport id) w =
    (mkTemplateResponse 200 (PExport (mkEnvelope 1 (now (tpw_world w)) (Some req) [])), w) /\
  forall single many,
    let '(rsp, w') := serve_template (Some box) c
      (RImport (Some (mkImport (Some (mkEnvelope 1 (now (tpw_world w)) (Some req) [])) single many))) w in
    tpr_code rsp = 201 /\ exists t', tpw_rows w' = <[uuid (w_uuids (tpw_world w)) := t']> (tpw_rows w) /\
      same_template t t' /\ tt_Mode t' = "builder" /\ tt_System t' = true /\ tt_UserID t' = c_UserID c.
Proof.
  intros Hc Hf Hw Ht Hs Hb Hn. destruct (exportable_ok t (proj2 Hw id t Ht)) as (auth & He & auth' & cfg & Ha & Hcfg & Hsame).
  exists (request_of t auth). split.
  - cbn [serve_template]. unfold RequireAdmin. rewrite Hc, String.eqb_refl. cbn [negb].
    by apply export_one.
  - intros single many. cbn [serve_template]. unfold RequireAdmin. rewrite Hc, String.eqb_refl. cbn [negb].
    unfold ImportSystemTemplates, parseSystemTemplateImportPayload. cbn [imp_envelope env_Template].
    pose proof (import_one c (request_of t auth) (imported_request t auth') cfg w Hf Hn
      (validate_exported t auth auth' (proj2 Hw id t Ht) Hb Ha) Hcfg) as Hi. cbv zeta in Hi.
    destruct (import_loop _ _ _ _ w) as [rsp w']. destruct Hi as [Hcode (t' & Hrows & Ht')].
    split; [done|]. exists t'. split; [done|]. subst t'.
    pose proof (same_as_imported t (persisted auth') (uuid (w_uuids (tpw_world w))) c cfg Hsame) as Hst.
    split_and!; try done; exact Hst.
Qed.
End roundtrip.

(** ** Concrete runs *)

Definition silent_errors : JsonErrors := fun _ => "".

(** An encryption that only marks the text. *)
Definition marking_box : secret_box :=
  mkBox (mkSecrets (fun s => Ok ("*" +:+ s)))
    (fun enc => match enc with String _ s => Ok s | _ => Err "message authentication failed" end).

Lemma marking_open s enc : seal (box_service marking_box) s = Ok enc -> enc <> "" /\ box_open marking_box enc = Ok s.
Proof. cbn. intros [= <-]. done. Qed.

Lemma marking_total s : exists enc, seal (box_service marking_box) s = Ok enc.
Proof. by eexists. Qed.

(** A system template with a secret, which the administrator 1 owns. *)
Definition login_template : TestTemplate :=
  mkTemplate "t1" "login" "" "upload" "https://sut/login" [mkStage "30s" 5] "" "" "GET" "application/json" "" 0
    (mkAuthConfig true "oauth_client_credentials" "https://sut/token" "cid" "basic" 30 "persisted_encrypted" true
       "*hidden") "" true 1 "root" zero_time zero_time.

Definition login_world : TemplateWorld :=
  mkTemplateWorld (mkWorld (mkDB ∅ ∅) [] 0 0 0 "") {[ "t1" := login_template ]}.

Lemma login_rows id t : tpw_rows login_world !! id = Some t -> "t1" = id /\ login_template = t.
Proof. apply lookup_singleton_Some. Qed.

Lemma login_keyed : keyed (tpw_rows login_world).
Proof. by intros id t [<- <-]%login_rows. Qed.

Lemma login_wf : @template_wf silent_errors marking_box login_template.
Proof.
  constructor; [done|by right| |].
  - eexists. vm_compute. reflexivity.
  - right. split; [done|]. split.
    + split; [right; by split_and!; [..|left|]|done].
    + right. split_and!; [done..|]. by exists "hidden".
Qed.

Lemma login_table : @table_wf silent_errors marking_box (tpw_rows login_world).
Proof.
  split; [apply login_keyed|]. intros id t [<- <-]%login_rows. apply login_wf.
Qed.

Notation serve_login c r :=
  (@serve_template merge_row_order test_uuids silent_errors (Some marking_box) c r login_world).

Definition root : caller := mkCaller 1 "root" "admin".
Definition guest : caller := mkCaller 2 "guest" "user".

Lemma templates_safety_witness :
  keyed (tpw_rows login_world) /\
  tpr_code (serve_login guest (RDelete "t1")).1 = 403 /\
  tpw_rows (serve_login guest (RDelete "t1")).2 = tpw_rows login_world.
Proof.
  split; [exact login_keyed|].
  assert (Hc : tpr_code (serve_login guest (RDelete "t1")).1 = 403) by (vm_compute; reflexivity).
  split; [exact Hc|].
  pose proof (@templates_safety merge_row_order test_uuids silent_errors (Some marking_box) guest (RDelete "t1")
    login_world login_keyed) as Hs.
  destruct (serve_login guest (RDelete "t1")) as [rsp t']. destruct Hs as (_ & _ & _ & Hs).
  cbn [fst snd] in *. apply Hs; [reflexivity|]. rewrite Hc. discriminate.
Defined.

Lemma templates_wf_witness :
  @table_wf silent_errors marking_box (tpw_rows login_world) /\
  @table_wf silent_errors marking_box (tpw_rows (serve_login root (RDelete "t1")).2).
Proof.
  split; [exact login_table|].
  apply (@templates_wf merge_row_order test_uuids silent_errors marking_box (Some marking_box) marking_open).
  - intros b Hb. injection Hb as <-. reflexivity.
  - exact login_table.
Defined.

(** The template comes back under a new ID, in builder mode. *)
Lemma export_import_roundtrip_witness :
  exists req, tpr_body (serve_login root (RExport "t1")).1 = PExport (mkEnvelope 1 (now (tpw_world login_world)) (Some req) []) /\
    let '(rsp, w') := serve_login root
      (RImport (Some (mkImport (Some (mkEnvelope 1 (now (tpw_world login_world)) (Some req) [])) None None))) in
    tpr_code rsp = 201 /\ exists t', tpw_rows w' !! "u0" = Some t' /\
      same_template marking_box login_template t' /\ tt_Mode login_template = "upload" /\ tt_Mode t' = "builder".
Proof.
  assert (Hn : tpw_rows login_world !! "u0" = None) by (vm_compute; reflexivity).
  destruct (@export_import_roundtrip merge_row_order test_uuids silent_errors marking_box marking_open marking_total
    root "t1" login_template login_world eq_refl eq_refl login_table eq_refl eq_refl eq_refl Hn) as (req & He & Hi).
  exists req. split; [by rewrite He|]. specialize (Hi None None).
  revert Hi. match goal with |- match ?x with _ => _ end -> _ => destruct x as [rsp w'] end.
  intros (Hc & t' & Hw & Hs & Hm & _).
  split; [exact Hc|]. exists t'. split; [|by split_and!].
  rewrite Hw. apply lookup_insert_eq.
Defined.
