(* ===== verification/Sha256.v ===== *)
(** * SHA-256, HMAC and hexadecimal text

    The controller stores only the SHA-256 digest of a password reset token
    ([controller/internal/handler/auth.go]), and the target service signs its
    tokens with HMAC-SHA-256 ([dummy-service/main.go]).  Both are functions of
    Go's standard library; they are defined here after FIPS 180-4 and RFC 2104,
    on bytes as integers, and checked on the vectors of these documents. *)

From S2P Require Export Prelude GoStrings.
From S2P Require Import Json.

Open Scope Z_scope.
Open Scope go_scope.

(** ** Bytes of a text *)

Fixpoint string_bytes (s : string) : list Z :=
  match s with EmptyString => [] | String c s => byte_of c :: string_bytes s end.

Fixpoint bytes_string (l : list Z) : string :=
  match l with [] => "" | b :: l => String (chr b) (bytes_string l) end.

Definition is_byte (b : Z) : Prop := 0 <= b < 256.

(** ** 32-bit words *)

Definition w32 (z : Z) : Z := z mod 2 ^ 32.
Definition rotr (x n : Z) : Z := Z.lor (Z.shiftr x n) (w32 (Z.shiftl x (32 - n))).

Definition big_sigma0 (x : Z) : Z := Z.lxor (rotr x 2) (Z.lxor (rotr x 13) (rotr x 22)).
Definition big_sigma1 (x : Z) : Z := Z.lxor (rotr x 6) (Z.lxor (rotr x 11) (rotr x 25)).
Definition small_sigma0 (x : Z) : Z := Z.lxor (rotr x 7) (Z.lxor (rotr x 18) (Z.shiftr x 3)).
Definition small_sigma1 (x : Z) : Z := Z.lxor (rotr x 17) (Z.lxor (rotr x 19) (Z.shiftr x 10)).
Definition choose (x y z : Z) : Z := Z.lxor (Z.land x y) (Z.land (2 ^ 32 - 1 - x) z).
Definition majority (x y z : Z) : Z := Z.lxor (Z.land x y) (Z.lxor (Z.land x z) (Z.land y z)).

(** The constants of FIPS 180-4: the first 32 bits of the fractional parts of the
    cube roots and of the square roots of the first primes. *)
Fixpoint divides_none (fuel : nat) (d n : Z) : bool :=
  match fuel with
  | O => true
  | S fuel => (n <? d * d) || (negb (n mod d =? 0) && divides_none fuel (d + 1) n)
  end.

Definition primes (count : nat) : list Z := take count (List.filter (divides_none 20 2) (seqZ 2 310)).

(** The largest number below [2 ^ bits] whose [k]-th power is at most [n]. *)
Fixpoint root_below (bits : nat) (k n root : Z) : Z :=
  match bits with
  | O => root
  | S bits => let r := root + 2 ^ Z.of_nat bits in root_below bits k n (if r ^ k <=? n then r else root)
  end.

Definition root_fraction (k p : Z) : Z := w32 (root_below 40 k (p * 2 ^ (32 * k)) 0).

Definition round_constants : list Z := Eval vm_compute in map (root_fraction 3) (primes 64).

Record digest := mkDigest { ha : Z; hb : Z; hc : Z; hd : Z; he : Z; hf : Z; hg : Z; hh : Z }.

Definition initial_hash : digest := Eval vm_compute in
  match map (root_fraction 2) (primes 8) with
  | [a; b; c; d; e; f; g; h] => mkDigest a b c d e f g h
  | _ => mkDigest 0 0 0 0 0 0 0 0
  end.

Example constants_ex : head round_constants = Some 1116352408 /\ ha initial_hash = 1779033703 /\ hh initial_hash = 1541459225.
Proof. vm_compute. split_and!; reflexivity. Qed.

(** ** Blocks *)

(** [n] bytes of [z], the most significant first. *)
Fixpoint big_endian (n : nat) (z : Z) : list Z :=
  match n with O => [] | S m => (z / 256 ^ Z.of_nat m) mod 256 :: big_endian m z end.

Fixpoint words (l : list Z) : list Z :=
  match l with
  | a :: b :: c :: d :: l => (((a * 256 + b) * 256 + c) * 256 + d) :: words l
  | _ => []
  end.

Definition padding (n : Z) : list Z :=
  128 :: replicate (Z.to_nat ((55 - n) mod 64)) 0 ++ big_endian 8 (8 * n).

(** The blocks of 64 bytes; [fuel] is at least their number. *)
Fixpoint blocks (fuel : nat) (l : list Z) : list (list Z) :=
  match fuel, l with
  | _, [] => []
  | O, _ => []
  | S fuel, _ => take 64 l :: blocks fuel (drop 64 l)
  end.

(** The message schedule; [ws] holds the words so far, the last one first. *)
Definition next_word (ws : list Z) : Z :=
  let w n := nth (n - 1)%nat ws 0 in
  w32 (small_sigma1 (w 2%nat) + w 7%nat + small_sigma0 (w 15%nat) + w 16%nat).

Definition message_schedule (block : list Z) : list Z :=
  rev (Nat.iter 48 (fun ws => next_word ws :: ws) (rev (words block))).

Definition compress_round (d : digest) (kw : Z * Z) : digest :=
  let t1 := hh d + big_sigma1 (he d) + choose (he d) (hf d) (hg d) + kw.1 + kw.2 in
  let t2 := big_sigma0 (ha d) + majority (ha d) (hb d) (hc d) in
  mkDigest (w32 (t1 + t2)) (ha d) (hb d) (hc d) (w32 (hd d + t1)) (he d) (hf d) (hg d).

Definition compress (d : digest) (block : list Z) : digest :=
  let d' := foldl compress_round d (combine round_constants (message_schedule block)) in
  mkDigest (w32 (ha d + ha d')) (w32 (hb d + hb d')) (w32 (hc d + hc d')) (w32 (hd d + hd d'))
    (w32 (he d + he d')) (w32 (hf d + hf d')) (w32 (hg d + hg d')) (w32 (hh d + hh d')).

Definition digest_bytes (d : digest) : list Z :=
  concat (map (big_endian 4) [ha d; hb d; hc d; hd d; he d; hf d; hg d; hh d]).

(** [sha256.Sum256]. *)
Definition sha256 (l : list Z) : list Z :=
  let m := l ++ padding (Z.of_nat (length l)) in
  digest_bytes (foldl compress initial_hash (blocks (length m) m)).

(** ** HMAC *)

Definition hmac_key (key : list Z) : list Z :=
  let k := if Z.of_nat (length key) <=? 64 then key else sha256 key in
  k ++ replicate (64 - length k) 0.

Definition hmac_sha256 (key msg : list Z) : list Z :=
  let k := hmac_key key in
  sha256 (map (Z.lxor 0x5c) k ++ sha256 (map (Z.lxor 0x36) k ++ msg)).

(** ** Hexadecimal text *)

Definition hex_char (n : Z) : Ascii.ascii := chr (if n <? 10 then 48 + n else 87 + n).

(** [hex.EncodeToString]. *)
Fixpoint hex (l : list Z) : string :=
  match l with
  | [] => ""
  | b :: l => String (hex_char (b / 16)) (String (hex_char (b mod 16)) (hex l))
  end.

Example sha256_empty :
  hex (sha256 []) = "e3b0c44298fc1c149afbf4c8996fb92427ae41e4649b934ca495991b7852b855".
Proof. vm_compute. reflexivity. Qed.

Example sha256_abc :
  hex (sha256 (string_bytes "abc")) = "ba7816bf8f01cfea414140de5dae2223b00361a396177a9cb410ff61f20015ad".
Proof. vm_compute. reflexivity. Qed.

Example sha256_two_blocks :
  hex (sha256 (string_bytes "abcdbcdecdefdefgefghfghighijhijkijkljklmklmnlmnomnopnopq")) =
  "248d6a61d20638b8e5c026930c3e6039a33ce45964ff2167f6ecedd419db06c1".
Proof. vm_compute. reflexivity. Qed.

Example hmac_jefe :
  hex (hmac_sha256 (string_bytes "Jefe") (string_bytes "what do ya want for nothing?")) =
  "5bdcc146bf60754e6a042426089575c75a003f089d2739839dec58b964ec3843".
Proof. vm_compute. reflexivity. Qed.

(** ** Their sizes *)

Lemma big_endian_length (n : nat) (z : Z) : length (big_endian n z) = n.
Proof. induction n as [|n IH]; simpl; [done|]. by rewrite IH. Qed.

Lemma big_endian_bytes (n : nat) (z : Z) : Forall is_byte (big_endian n z).
Proof. induction n as [|n IH]; simpl; constructor; [unfold is_byte; Z.div_mod_to_equations; lia|done]. Qed.

Lemma digest_bytes_length (d : digest) : length (digest_bytes d) = 32%nat.
Proof. unfold digest_bytes. cbn [map concat]. by rewrite !length_app, !big_endian_length. Qed.

Lemma sha256_length (l : list Z) : length (sha256 l) = 32%nat.
Proof. apply digest_bytes_length. Qed.

Lemma sha256_bytes (l : list Z) : Forall is_byte (sha256 l).
Proof. unfold sha256, digest_bytes. cbn [map concat]. rewrite !Forall_app. split_and!; (apply big_endian_bytes || done). Qed.

Lemma hex_length (l : list Z) : String.length (hex l) = (2 * length l)%nat.
Proof. induction l as [|b l IH]; cbn [hex String.length length]; [done|]. rewrite IH. lia. Qed.

Lemma string_bytes_range (s : string) : Forall is_byte (string_bytes s).
Proof.
  induction s as [|c s IH]; cbn [string_bytes]; constructor; [|done].
  unfold is_byte, byte_of. pose proof (Ascii.N_ascii_bounded c). lia.
Qed.

(** A text of hexadecimal digits determines the bytes. *)
Lemma hex_char_inj (m n : Z) : 0 <= m < 16 -> 0 <= n < 16 -> hex_char m = hex_char n -> m = n.
Proof.
  intros Hm Hn H. apply (f_equal byte_of) in H. unfold hex_char in H.
  destruct (Z.ltb_spec m 10), (Z.ltb_spec n 10); rewrite !byte_chr in H by lia; lia.
Qed.

Lemma hex_inj (l k : list Z) : Forall is_byte l -> Forall is_byte k -> hex l = hex k -> l = k.
Proof.
  unfold is_byte. intros Hl. revert k. induction Hl as [|b l Hb _ IH]; intros k Hk H; inversion Hk as [|b' k' Hb' Hk']; subst; [done..|].
  cbn [hex] in H. injection H as H1 H2 H3. rewrite (IH k' Hk' H3).
  apply hex_char_inj in H1, H2; [|Z.div_mod_to_equations; lia..].
  f_equal. Z.div_mod_to_equations; lia.
Qed.
