(* ===== verification/JsonText.v ===== *)
(** * JSON texts read back

    A text that [json.Marshal] wrote is read back by [json.Unmarshal]: strings
    of valid UTF-8 with all their escapes, integers, and objects of such
    members. *)

From stdpp Require Import pretty.
From S2P Require Export Prelude GoStrings Json JsonOut.
From S2P Require Import EnvFileSpec.

Open Scope Z_scope.
Open Scope go_scope.

(** ** Valid UTF-8 *)

Inductive utf8 : string -> Prop :=
  | utf8_nil : utf8 ""
  | utf8_1 a s : byte_of a < 128 -> utf8 s -> utf8 (String a s)
  | utf8_2 a b s : seq2 a b = true -> utf8 s -> utf8 (String a (String b s))
  | utf8_3 a b c s : seq3 a b c = true -> utf8 s -> utf8 (String a (String b (String c s)))
  | utf8_4 a b c d s : seq4 a b c d = true -> utf8 s -> utf8 (String a (String b (String c (String d s)))).

#[export] Hint Constructors utf8 : shiva.

(** A text of ASCII bytes. *)
Definition plain_text (s : string) : Prop := Forall (fun c => byte_of c < 128) (String.list_ascii_of_string s).

Lemma utf8_plain s : plain_text s -> utf8 s.
Proof. unfold plain_text. induction s as [|c s IH]; cbn; intros H; inversion H; subst; constructor; auto. Qed.

Lemma between_spec lo hi c : between lo hi c = true <-> lo <= byte_of c <= hi.
Proof. unfold between. rewrite andb_true_iff, !Z.leb_le. done. Qed.

Lemma is_cont_spec c : is_cont c = true <-> 128 <= byte_of c <= 191.
Proof. apply between_spec. Qed.

Lemma seq2_spec a b : seq2 a b = true -> 194 <= byte_of a <= 223 /\ 128 <= byte_of b <= 191.
Proof. unfold seq2. rewrite andb_true_iff, between_spec, is_cont_spec. done. Qed.

Lemma seq3_spec a b c : seq3 a b c = true ->
  224 <= byte_of a <= 239 /\ 128 <= byte_of b <= 191 /\ 128 <= byte_of c <= 191.
Proof.
  unfold seq3. rewrite !andb_true_iff, !orb_true_iff, !andb_true_iff, !orb_true_iff, !between_spec, !is_cont_spec. lia.
Qed.

Lemma seq4_spec a b c d : seq4 a b c d = true ->
  240 <= byte_of a <= 244 /\ 128 <= byte_of b <= 191 /\ 128 <= byte_of c <= 191 /\ 128 <= byte_of d <= 191.
Proof.
  unfold seq4. rewrite !andb_true_iff, !orb_true_iff, !andb_true_iff, !between_spec, !is_cont_spec. lia.
Qed.

Lemma seq2_not a b : byte_of a < 194 \/ 223 < byte_of a -> seq2 a b = false.
Proof. intros H. apply not_true_iff_false. intros E%seq2_spec. lia. Qed.

Lemma seq3_not a b c : byte_of a < 224 \/ 239 < byte_of a -> seq3 a b c = false.
Proof. intros H. apply not_true_iff_false. intros E%seq3_spec. lia. Qed.

(** ** Strings *)

(** The units of a scanned string stand for the bytes of [s]. *)
Definition denotes (us : list sunit) (s : string) : Prop :=
  forall tl, decode_units (us ++ tl) = String.list_ascii_of_string s ++ decode_units tl.

(** Scanning [text] in a string appends [us]. *)
Definition scans (text : string) (us : list sunit) : Prop :=
  forall k acc stack rest, scan (MStr k acc) stack (text +:+ rest) = scan (MStr k (acc ++ us)) stack rest.

Lemma denotes_nil : denotes [] "".
Proof. done. Qed.

Lemma denotes_app us vs s t : denotes us s -> denotes vs t -> denotes (us ++ vs) (s +:+ t).
Proof.
  intros Hs Ht tl. by rewrite <- app_assoc, Hs, Ht, list_ascii_app, app_assoc.
Qed.

Lemma scans_app x us y vs : scans x us -> scans y vs -> scans (x +:+ y) (us ++ vs).
Proof. intros Hx Hy k acc stack rest. by rewrite string_app_assoc, Hx, Hy, app_assoc. Qed.

Lemma denotes_string us s : denotes us s -> unit_string us = s.
Proof.
  intros H. unfold unit_string. specialize (H []). cbn [decode_units] in H. rewrite !app_nil_r in H. rewrite H.
  apply String.string_of_list_ascii_of_string.
Qed.

Lemma scan_cons m stack c s : scan m stack (String c s) = '(m', stack') ← scan_step m stack c; scan m' stack' s.
Proof. done. Qed.

Lemma scan_one m stack c s m' stack' : scan_step m stack c = Some (m', stack') -> scan m stack (String c s) = scan m' stack' s.
Proof. intros H. by rewrite scan_cons, H. Qed.

Lemma scan_backslash k acc stack s : scan (MStr k acc) stack (String (chr 92) s) = scan (MEscape k acc) stack s.
Proof. done. Qed.

(** A byte that stands for itself. *)
Lemma scans_byte a : (byte_of a =? 34) = false -> (byte_of a =? 92) = false -> (byte_of a <? 32) = false ->
  scans (String a "") [UByte a].
Proof.
  intros H1 H2 H3 k acc stack rest.
  change (scan (MStr k acc) stack (String a rest) = scan (MStr k (acc ++ [UByte a])) stack rest).
  apply scan_one. unfold scan_step. cbv zeta. by rewrite H1, H2, H3.
Qed.

Lemma scans_high a : 128 <= byte_of a -> scans (String a "") [UByte a].
Proof. intros H. apply scans_byte; [by apply Z.eqb_neq; lia..|apply Z.ltb_ge; lia]. Qed.

(** The escapes of one letter. *)
Lemma scans_letter c v : byte_of c <> 117 -> escape_val c = Some v -> scans (backslash +:+ String c "") [UByte (chr v)].
Proof.
  intros Hu Hv k acc stack rest. change (scan (MStr k acc) stack (String (chr 92) (String c rest)) = scan (MStr k (acc ++ [UByte (chr v)])) stack rest).
  rewrite scan_backslash. apply scan_one. unfold scan_step. cbv zeta.
  rewrite (proj2 (Z.eqb_neq _ _)) by done. by rewrite Hv.
Qed.

Lemma hex_digit_val z : 0 <= z < 16 -> hex_val (hex_digit z) = Some z.
Proof.
  intros Hz. unfold hex_val, hex_digit. destruct (Z.ltb_spec z 10); rewrite byte_chr by lia.
  - rewrite (proj2 (Z.leb_le _ _)), (proj2 (Z.leb_le _ _)) by lia. cbn. f_equal. lia.
  - rewrite (proj2 (Z.leb_gt _ 57)) by lia. rewrite andb_false_r.
    rewrite (proj2 (Z.leb_le 97 _)), (proj2 (Z.leb_le _ 102)) by lia. cbn. f_equal. lia.
Qed.

(** The escapes of four hexadecimal digits. *)
Lemma scans_hex a b c d w x y z :
  hex_val a = Some w -> hex_val b = Some x -> hex_val c = Some y -> hex_val d = Some z ->
  scans (backslash +:+ "u" +:+ String a (String b (String c (String d "")))) [UHex (16 * (16 * (16 * w + x) + y) + z)].
Proof.
  intros Ha Hb Hc Hd k acc stack rest.
  change (scan (MStr k acc) stack (String (chr 92) (String (chr 117) (String a (String b (String c (String d rest))))))
          = scan (MStr k (acc ++ [UHex (16 * (16 * (16 * w + x) + y) + z)])) stack rest).
  rewrite scan_backslash. rewrite (scan_one _ _ _ _ (MHex k acc 3 0) stack) by done.
  rewrite (scan_one _ _ _ _ (MHex k acc 2 w) stack) by (unfold scan_step; by rewrite Ha).
  rewrite (scan_one _ _ _ _ (MHex k acc 1 (16 * w + x)) stack) by (unfold scan_step; by rewrite Hb).
  rewrite (scan_one _ _ _ _ (MHex k acc 0 (16 * (16 * w + x) + y)) stack) by (unfold scan_step; by rewrite Hc).
  apply scan_one. unfold scan_step. by rewrite Hd.
Qed.

Lemma denotes_hex u s : is_high u || is_low u = false -> utf8_encode u = String.list_ascii_of_string s -> denotes [UHex u] s.
Proof. intros Hs He tl. cbn [app decode_units]. by rewrite Hs, He. Qed.

Lemma denotes_byte a : byte_of a < 128 -> denotes [UByte a] (String a "").
Proof. intros H tl. cbn [app decode_units]. by rewrite (proj2 (Z.ltb_lt _ _)). Qed.

(** A byte below 128 and its escape. *)
Lemma escape_byte_scans a : byte_of a < 128 -> exists us, scans (escape_byte a) us /\ denotes us (String a "").
Proof.
  intros Ha. assert (Hr : 0 <= byte_of a) by apply byte_of_range.
  assert (Hc : forall z, byte_of a = z -> a = chr z) by (intros z <-; by rewrite chr_byte_of).
  unfold escape_byte.
  destruct ((byte_of a =? 34) || (byte_of a =? 92)) eqn:E1.
  { assert (byte_of a = 34 \/ byte_of a = 92) by (by rewrite orb_true_iff, !Z.eqb_eq in E1). exists [UByte (chr (byte_of a))]. split; [|rewrite chr_byte_of; by apply denotes_byte].
    apply scans_letter; [lia|]. unfold escape_val. cbv zeta. by rewrite E1. }
  apply orb_false_iff in E1 as [E1 E2].
  destruct (byte_of a =? 10) eqn:E10; [bool_prop|destruct (byte_of a =? 13) eqn:E13; [bool_prop|
    destruct (byte_of a =? 9) eqn:E9; [bool_prop|]]].
  1-3: eexists [UByte a]; split; [rewrite (Hc _ ltac:(eassumption)); by eapply scans_letter|by apply denotes_byte].
  destruct ((byte_of a <? 32) || (byte_of a =? 60) || (byte_of a =? 62) || (byte_of a =? 38)) eqn:E3.
  - exists [UHex (16 * (16 * (16 * 0 + 0) + byte_of a / 16) + byte_of a mod 16)]. split.
    + apply (scans_hex _ _ _ _ 0 0); [reflexivity..| |]; apply hex_digit_val; Z.div_mod_to_equations; lia.
    + assert (Hv : 16 * (16 * (16 * 0 + 0) + byte_of a / 16) + byte_of a mod 16 = byte_of a) by (Z.div_mod_to_equations; lia).
      rewrite Hv. apply denotes_hex.
      * unfold is_high, is_low. apply orb_false_iff. split; apply andb_false_iff; left; apply Z.leb_gt; lia.
      * unfold utf8_encode. rewrite (proj2 (Z.ltb_lt _ _)) by done. cbn. by rewrite chr_byte_of.
  - bool_prop. exists [UByte a]. split; [|by apply denotes_byte]. apply scans_byte; [by apply Z.eqb_neq..|by apply Z.ltb_ge].
Qed.

Lemma line_separator_scans a b c e :
  line_separator a b c = Some e -> exists us, scans e us /\ denotes us (String a (String b (String c ""))).
Proof.
  unfold line_separator. intros H.
  assert (Hc : forall x z, byte_of x = z -> x = chr z) by (intros x z <-; by rewrite chr_byte_of).
  destruct ((byte_of a =? 226) && (byte_of b =? 128)) eqn:E; [|done]. bool_prop.
  rewrite (Hc a 226), (Hc b 128) by done.
  destruct (byte_of c =? 168) eqn:E8; [|destruct (byte_of c =? 169) eqn:E9; [|done]]; bool_prop; simplify_eq.
  - rewrite (Hc c 168) by done. eexists. split; [by apply (scans_hex _ _ _ _ 2 0 2 8)|]. by apply denotes_hex.
  - rewrite (Hc c 169) by done. eexists. split; [by apply (scans_hex _ _ _ _ 2 0 2 9)|]. by apply denotes_hex.
Qed.

(** Every string of valid UTF-8 is read back. *)
Lemma escape_scans s : utf8 s -> exists us, scans (escape s) us /\ denotes us s.
Proof.
  assert (Hcons : forall x us t s', scans x us -> denotes us t -> (exists vs, scans (escape s') vs /\ denotes vs s') ->
    exists vs, scans (x +:+ escape s') vs /\ denotes vs (t +:+ s')).
  { intros x us t s' H1 H2 (vs & H3 & H4). exists (us ++ vs). split; [by apply scans_app|by apply denotes_app]. }
  induction 1 as [|a s Ha _ IH|a b s Hab _ IH|a b c s Habc _ IH|a b c d s Habcd _ IH].
  - exists []. split; [|done]. intros k acc stack rest. by rewrite app_nil_r.
  - rewrite escape_step, (proj2 (Z.ltb_lt _ _)) by done.
    destruct (escape_byte_scans a Ha) as (us & H1 & H2). exact (Hcons _ us (String a "") s H1 H2 IH).
  - pose proof (seq2_spec _ _ Hab). rewrite escape_step, (proj2 (Z.ltb_ge _ _)), Hab by lia.
    apply (Hcons (String a (String b "")) [UByte a; UByte b] (String a (String b ""))); [| |done].
    + by apply (scans_app (String a "") [UByte a] (String b "") [UByte b]); apply scans_high; lia.
    + intros tl. cbn [app decode_units]. by rewrite (proj2 (Z.ltb_ge _ _)), Hab by lia.
  - pose proof (seq3_spec _ _ _ Habc). rewrite escape_step, (proj2 (Z.ltb_ge _ _)), seq2_not, Habc by lia.
    destruct (line_separator a b c) as [e|] eqn:E.
    { destruct (line_separator_scans _ _ _ _ E) as (us & H1 & H2). exact (Hcons e us _ s H1 H2 IH). }
    apply (Hcons (String a (String b (String c ""))) [UByte a; UByte b; UByte c] (String a (String b (String c "")))); [| |done].
    + apply (scans_app (String a "") [UByte a] (String b (String c "")) [UByte b; UByte c]); [apply scans_high; lia|].
      by apply (scans_app (String b "") [UByte b] (String c "") [UByte c]); apply scans_high; lia.
    + intros tl. cbn [app decode_units]. by rewrite (proj2 (Z.ltb_ge _ _)), seq2_not, Habc by lia.
  - pose proof (seq4_spec _ _ _ _ Habcd).
    rewrite escape_step, (proj2 (Z.ltb_ge _ _)), seq2_not, seq3_not, Habcd by lia.
    apply (Hcons (String a (String b (String c (String d "")))) [UByte a; UByte b; UByte c; UByte d]
             (String a (String b (String c (String d ""))))); [| |done].
    + apply (scans_app (String a (String b "")) [UByte a; UByte b] (String c (String d "")) [UByte c; UByte d]).
      * by apply (scans_app (String a "") [UByte a] (String b "") [UByte b]); apply scans_high; lia.
      * by apply (scans_app (String c "") [UByte c] (String d "") [UByte d]); apply scans_high; lia.
    + intros tl. cbn [app decode_units]. by rewrite (proj2 (Z.ltb_ge _ _)), seq2_not, seq3_not, Habcd by lia.
Qed.

(** ** Integers *)

Lemma digit_char (d : N) : (d < 10)%N -> byte_of (pretty_N_char d) = 48 + Z.of_N d.
Proof.
  intros Hd. assert (d = 0 \/ d = 1 \/ d = 2 \/ d = 3 \/ d = 4 \/ d = 5 \/ d = 6 \/ d = 7 \/ d = 8 \/ d = 9)%N
    as H by lia.
  repeat (destruct H as [->|H]; [reflexivity|]). subst. reflexivity.
Qed.

(** A number without a leading zero, before [s]. *)
Lemma pretty_go_shape (x : N) (s : string) :
  (0 < x)%N -> exists c t, pretty_N_go x s = String c (t +:+ s) /\ 49 <= byte_of c <= 57 /\
    Forall (fun c => Json.is_digit c = true) (String.list_ascii_of_string t).
Proof.
  revert s. induction (N.lt_wf_0 x) as [x _ IH]; intros s Hx. rewrite pretty_N_go_step by done.
  assert (Hm : (x mod 10 < 10)%N) by (by apply N.mod_lt). pose proof (digit_char _ Hm) as Hd.
  destruct (N.eq_dec (x / 10)%N 0%N) as [E|E].
  - rewrite E. exists (pretty_N_char (x mod 10)), "". split; [done|]. split; [|by constructor].
    apply N.div_small_iff in E; [|done]. rewrite (N.mod_small x 10) in Hd |- * by done. lia.
  - destruct (IH (x / 10)%N ltac:(by apply N.div_lt) (String (pretty_N_char (x mod 10)) s) (proj1 (N.neq_0_lt_0 _) E)) as (c & t & -> & Hc & Ht).
    exists c, (t +:+ String (pretty_N_char (x mod 10)) ""). split; [by rewrite string_app_assoc|]. split; [done|].
    rewrite list_ascii_app. apply Forall_app. split; [done|]. repeat constructor.
    apply between_spec. clear -Hm Hd. revert Hm Hd. generalize (x mod 10)%N. lia.
Qed.

(** What a scanner does with the text of a value in front of a comma or a brace. *)
Definition reads (text : string) (v : json) : Prop := forall c stack rest, byte_of c = 44 \/ byte_of c = 125 ->
  scan MValue stack (text +:+ String c rest) = '(m, stack') ← after_value v c stack; scan m stack' rest.

Lemma scan_digits t acc stack c rest :
  Forall (fun c => Json.is_digit c = true) (String.list_ascii_of_string t) -> byte_of c = 44 \/ byte_of c = 125 ->
  scan (MNum acc NInt) stack (t +:+ String c rest) = '(m, stack') ← after_value (JNum (acc +:+ t)) c stack; scan m stack' rest.
Proof.
  intros Ht Hc. revert acc. induction t as [|d t IH]; intros acc.
  - change ("" +:+ String c rest) with (String c rest). rewrite string_app_nil_r, scan_cons.
    assert (Hs : scan_step (MNum acc NInt) stack c = after_value (JNum acc) c stack); [|by rewrite Hs].
    unfold scan_step, num_step, Json.is_digit, between. cbv zeta. by destruct Hc as [-> | ->].
  - cbn in Ht. inversion Ht as [|? ? Hd Ht']; subst.
    change (String d t +:+ String c rest) with (String d (t +:+ String c rest)).
    rewrite (scan_one _ _ _ _ (MNum (acc +:+ String d "") NInt) stack); [|unfold scan_step, num_step; by rewrite Hd].
    rewrite IH by done. by rewrite string_app_assoc.
Qed.

Lemma reads_int n : 0 <= n -> reads (itoa n) (JNum (itoa n)).
Proof.
  intros Hn c stack rest Hc. unfold itoa. destruct n as [|p|p]; [| |lia].
  - change (pretty 0 +:+ String c rest) with (String (chr 48) (String c rest)).
    rewrite (scan_one _ _ _ _ (MNum "0" NZero) stack), scan_cons by done.
    assert (Hs : scan_step (MNum "0" NZero) stack c = after_value (JNum "0") c stack); [|by rewrite Hs].
    unfold scan_step, num_step. cbv zeta. by destruct Hc as [-> | ->].
  - change (pretty (Zpos p)) with (pretty_N_go (Npos p) "").
    destruct (pretty_go_shape (Npos p) "" ltac:(lia)) as (d & t & -> & Hd & Ht). rewrite string_app_nil_r.
    change (String d t +:+ String c rest) with (String d (t +:+ String c rest)).
    rewrite (scan_one _ _ _ _ (MNum (String d "") NInt) stack).
    + rewrite scan_digits by done. done.
    + unfold scan_step, start_value, is_ws, Json.is_digit, between. cbv zeta.
      rewrite !(proj2 (Z.eqb_neq (byte_of d) _)) by lia. cbn [orb].
      rewrite (proj2 (Z.leb_le 48 _)), (proj2 (Z.leb_le _ 57)) by lia. done.
Qed.

(** ** Strings and objects *)

Lemma scan_string k s stack rest : utf8 s ->
  scan (MStr k []) stack (escape s +:+ quote +:+ rest) = scan (if k then MColon s else MDone (JStr s)) stack rest.
Proof.
  intros Hs. destruct (escape_scans s Hs) as (us & H1 & H2). rewrite H1.
  change (quote +:+ rest) with (String (chr 34) rest). apply scan_one.
  change (Some (end_string k ([] ++ us), stack) = Some (if k then MColon s else MDone (JStr s), stack)).
  unfold end_string. cbn [app]. by rewrite (denotes_string us s H2).
Qed.

Lemma reads_string s : utf8 s -> reads (marshal_string s) (JStr s).
Proof.
  intros Hs c stack rest Hc. unfold marshal_string. rewrite !string_app_assoc.
  change (quote +:+ (escape s +:+ (quote +:+ String c rest))) with (String (chr 34) (escape s +:+ (quote +:+ String c rest))).
  rewrite (scan_one _ _ _ _ (MStr false []) stack), scan_string, scan_cons by done. reflexivity.
Qed.

(** An object with its members in the order of a struct. *)
Definition struct_text (l : list (string * string)) : string := "{" +:+ comma_list (map marshal_member l) +:+ "}".

Lemma scan_member k text v members key m stack c rest : m = MKey \/ m = MFirstKey -> utf8 k -> reads text v ->
  byte_of c = 44 \/ byte_of c = 125 ->
  scan m (FObj members key :: stack) (marshal_member (k, text) +:+ String c rest) =
  scan (if byte_of c =? 44 then MKey else MDone (JObj (members ++ [(k, v)])))
    (if byte_of c =? 44 then FObj (members ++ [(k, v)]) "" :: stack else stack) rest.
Proof.
  intros Hm Hk Hr Hc. unfold marshal_member, marshal_string. cbn [fst snd]. rewrite !string_app_assoc.
  change (quote +:+ (escape k +:+ (quote +:+ (":" +:+ (text +:+ String c rest)))))
    with (String (chr 34) (escape k +:+ (quote +:+ String (chr 58) (text +:+ String c rest)))).
  rewrite (scan_one _ _ _ _ (MStr true []) (FObj members key :: stack)) by (by destruct Hm as [-> | ->]).
  rewrite scan_string by done. rewrite (scan_one _ _ _ _ MValue (FObj members k :: stack)) by done.
  rewrite Hr by done. unfold after_value, is_ws. cbv zeta. by destruct Hc as [-> | ->].
Qed.

Lemma scan_members l m members key stack : m = MKey \/ m = MFirstKey -> l <> [] ->
  Forall (fun f : string * string * json => utf8 f.1.1 /\ reads f.1.2 f.2) l ->
  scan m (FObj members key :: stack) (comma_list (map marshal_member l.*1) +:+ "}") =
  Some (MDone (JObj (members ++ map (fun f => (f.1.1, f.2)) l)), stack).
Proof.
  revert m members key. induction l as [|[[k text] v] l IH]; intros m members key Hm Hne Hl; [done|].
  inversion Hl as [|? ? [Hk Hr] Hl']; subst. cbn [fst snd] in *. destruct l as [|f l].
  - cbn [fmap list_fmap map comma_list String.concat fst]. change (list_fmap _ _ fst []) with (@nil (string * string)).
    cbn [map String.concat]. rewrite (scan_member k text v) by auto. reflexivity.
  - assert (E : comma_list (map marshal_member (((k, text, v) :: f :: l).*1)) +:+ "}" =
      marshal_member (k, text) +:+ String (chr 44) (comma_list (map marshal_member ((f :: l).*1)) +:+ "}")).
    { cbn [fmap list_fmap map fst]. unfold comma_list. cbn [String.concat]. by rewrite string_app_assoc. }
    rewrite E, (scan_member k text v) by auto. cbn [Z.eqb Pos.eqb]. rewrite byte_chr by lia. cbn [Z.eqb Pos.eqb].
    rewrite IH by auto. by rewrite <- app_assoc.
Qed.

(** An object is read back member by member. *)
Lemma parse_struct l : Forall (fun f : string * string * json => utf8 f.1.1 /\ reads f.1.2 f.2) l ->
  parse_json (struct_text l.*1) = Some (JObj (map (fun f => (f.1.1, f.2)) l)).
Proof.
  intros Hl. unfold parse_json, struct_text. destruct l as [|f l]; [reflexivity|].
  change ("{" +:+ (comma_list (map marshal_member (f :: l).*1) +:+ "}"))
    with (String (chr 123) (comma_list (map marshal_member (f :: l).*1) +:+ "}")).
  rewrite (scan_one _ _ _ _ MFirstKey [FObj [] ""]) by done. rewrite scan_members by auto. reflexivity.
Qed.
