(* ===== verification/ScriptTexts.v ===== *)
(** * The texts of generated scripts

    The JavaScript in [controller/internal/scriptgen/scriptgen.go]: the constant
    parts of the templates, the rendering of a template with its data, the
    counters and the summary export that are added to a script, and the default
    script. What the JavaScript of a builder test does is modelled in
    [ScriptPayload] and [ScriptAuth]. *)

From S2P Require Export Prelude GoStrings GoFloat Json JsonOut Model Payload K6Config.

Open Scope Z_scope.
Open Scope go_scope.

(** ** Names of the environment variables *)

Definition K6WebDashboardEnvVar : string := "K6_WEB_DASHBOARD".
Definition AuthClientSecretEnvVar : string := "AUTH_CLIENT_SECRET".
Definition AuthEnabledEnvVar : string := "AUTH_ENABLED".
Definition AuthModeEnvVar : string := "AUTH_MODE".
Definition AuthTokenURLEnvVar : string := "AUTH_TOKEN_URL".
Definition AuthClientIDEnvVar : string := "AUTH_CLIENT_ID".
Definition AuthClientAuthMethodEnvVar : string := "AUTH_CLIENT_AUTH_METHOD".
Definition AuthRefreshSkewEnvVar : string := "AUTH_REFRESH_SKEW_SECONDS".
Definition AuthRetryLimitEnvVar : string := "AUTH_RETRY_LIMIT".
Definition AuthRetryableStatusCodesEnvVar : string := "AUTH_RETRYABLE_STATUS_CODES".
Definition AuthMaxJitterMsEnvVar : string := "AUTH_MAX_JITTER_MS".
Definition AuthTokenTimeoutEnvVar : string := "AUTH_TOKEN_TIMEOUT".
Definition HTTPMethodEnvVar : string := "HTTP_METHOD".
Definition ContentTypeEnvVar : string := "CONTENT_TYPE".
Definition PayloadSourceJSONEnvVar : string := "PAYLOAD_SOURCE_JSON".
Definition PayloadSourceJSONB64EnvVar : string := "PAYLOAD_SOURCE_JSON_B64".
Definition PayloadTargetBytesEnvVar : string := "PAYLOAD_TARGET_BYTES".
Definition TargetURLEnvVar : string := "TARGET_URL".

(** ** Parts of the templates *)

Definition request_settings_text : string := "
function envString(name, fallback) {
  const value = __ENV[name];
  return value === undefined || value === null ? fallback : String(value);
}

function envNumber(name, fallback) {
  const parsed = Number(envString(name, ''));
  return Number.isFinite(parsed) ? parsed : fallback;
}

function envBool(name, fallback) {
  const raw = envString(name, fallback ? 'true' : 'false').trim().toLowerCase();
  return raw === '1' || raw === 'true' || raw === 'yes' || raw === 'on';
}

function decodePayloadSourceJSON(rawValue, encodedValue) {
  if (encodedValue) {
    try {
      return encoding.b64decode(encodedValue, 'std', 's');
    } catch (error) {
      throw new Error('failed to decode payload JSON from base64 env: ' + String(error));
    }
  }
  return rawValue;
}

const BASE_URL = envString('" +:+ TargetURLEnvVar +:+ "', '');
const HTTP_METHOD = envString('" +:+ HTTPMethodEnvVar +:+ "', '" +:+ DefaultHTTPMethod +:+ "').toUpperCase();
const CONTENT_TYPE = envString('" +:+ ContentTypeEnvVar +:+ "', '" +:+ DefaultContentType +:+ "');
const PAYLOAD_SOURCE_JSON = decodePayloadSourceJSON(
  envString('" +:+ PayloadSourceJSONEnvVar +:+ "', ''),
  envString('" +:+ PayloadSourceJSONB64EnvVar +:+ "', ''),
);
const PAYLOAD_TARGET_BYTES = Math.max(0, envNumber('" +:+ PayloadTargetBytesEnvVar +:+ "', 0));
const PAYLOAD_PADDING_KEY = '_shiva_padding';
const AUTH_ENABLED = envBool('" +:+ AuthEnabledEnvVar +:+ "', false);
const AUTH_MODE = envString('" +:+ AuthModeEnvVar +:+ "', 'oauth_client_credentials');
const AUTH_TOKEN_URL = envString('" +:+ AuthTokenURLEnvVar +:+ "', '');
const AUTH_CLIENT_ID = envString('" +:+ AuthClientIDEnvVar +:+ "', '');
const AUTH_CLIENT_AUTH_METHOD = envString('" +:+ AuthClientAuthMethodEnvVar +:+ "', 'basic');
const AUTH_REFRESH_SKEW_SECONDS = Math.max(1, envNumber('" +:+ AuthRefreshSkewEnvVar +:+ "', 30));
const AUTH_CLIENT_SECRET = envString('" +:+ AuthClientSecretEnvVar +:+ "', '');
const AUTH_RETRY_LIMIT = Math.max(0, envNumber('" +:+ AuthRetryLimitEnvVar +:+ "', 1));
const AUTH_RETRYABLE_STATUS_CODES = envString('" +:+ AuthRetryableStatusCodesEnvVar +:+ "', '408,429,502,503,504');
const AUTH_MAX_JITTER_MS = Math.max(0, envNumber('" +:+ AuthMaxJitterMsEnvVar +:+ "', 5000));
const AUTH_TOKEN_TIMEOUT = envString('" +:+ AuthTokenTimeoutEnvVar +:+ "', '10s');

".

Definition request_payload_text : string := "function utf8ByteLength(value) {
  return unescape(encodeURIComponent(value)).length;
}

function canonicalizePayloadValue(value) {
  if (Array.isArray(value)) {
    return value.map(canonicalizePayloadValue);
  }
  if (value && typeof value === 'object') {
    const canonical = {};
    for (const key of Object.keys(value).sort()) {
      canonical[key] = canonicalizePayloadValue(value[key]);
    }
    return canonical;
  }
  return value;
}

function serializePayload(value) {
  return JSON.stringify(canonicalizePayloadValue(value));
}

function prepareRequestPayload() {
  if (HTTP_METHOD === 'GET') {
    return {
      sourceJSON: PAYLOAD_SOURCE_JSON || '',
      content: '',
      targetBytes: PAYLOAD_TARGET_BYTES,
      actualBytes: 0,
    };
  }

  const hasExplicitPayload = PAYLOAD_SOURCE_JSON !== '';
  if (!hasExplicitPayload && PAYLOAD_TARGET_BYTES === 0) {
    return {
      sourceJSON: '',
      content: '',
      targetBytes: 0,
      actualBytes: 0,
    };
  }

  const parsed = hasExplicitPayload ? JSON.parse(PAYLOAD_SOURCE_JSON) : {};
  let content = serializePayload(parsed);
  let actualBytes = utf8ByteLength(content);

  if (PAYLOAD_TARGET_BYTES === 0) {
    return {
      sourceJSON: PAYLOAD_SOURCE_JSON || '',
      content,
      targetBytes: 0,
      actualBytes,
    };
  }

  if (!parsed || Array.isArray(parsed) || typeof parsed !== 'object') {
    if (actualBytes !== PAYLOAD_TARGET_BYTES) {
      throw new Error('payload_target_kib requires an object payload unless the serialized JSON already matches the exact target size');
    }
    return {
      sourceJSON: PAYLOAD_SOURCE_JSON || '',
      content,
      targetBytes: PAYLOAD_TARGET_BYTES,
      actualBytes,
    };
  }

  if (actualBytes > PAYLOAD_TARGET_BYTES) {
    throw new Error('payload_target_kib is smaller than the minimum serialized JSON payload size');
  }

  const payload = canonicalizePayloadValue(parsed);
  if (Object.prototype.hasOwnProperty.call(payload, PAYLOAD_PADDING_KEY) && typeof payload[PAYLOAD_PADDING_KEY] !== 'string') {
    throw new Error('reserved payload padding field must be a string when present');
  }

  if (actualBytes < PAYLOAD_TARGET_BYTES) {
    const basePadding = typeof payload[PAYLOAD_PADDING_KEY] === 'string' ? payload[PAYLOAD_PADDING_KEY] : '';
    payload[PAYLOAD_PADDING_KEY] = basePadding + 'x'.repeat(PAYLOAD_TARGET_BYTES - actualBytes);
    content = serializePayload(payload);
    actualBytes = utf8ByteLength(content);
  }

  let guard = 0;
  while (actualBytes !== PAYLOAD_TARGET_BYTES && guard < 8) {
    const diff = PAYLOAD_TARGET_BYTES - actualBytes;
    const currentPadding = typeof payload[PAYLOAD_PADDING_KEY] === 'string' ? payload[PAYLOAD_PADDING_KEY] : '';
    if (diff > 0) {
      payload[PAYLOAD_PADDING_KEY] = currentPadding + 'x'.repeat(diff);
    } else {
      payload[PAYLOAD_PADDING_KEY] = currentPadding.slice(0, currentPadding.length + diff);
    }
    content = serializePayload(payload);
    actualBytes = utf8ByteLength(content);
    guard++;
  }

  if (actualBytes !== PAYLOAD_TARGET_BYTES) {
    throw new Error('failed to size JSON payload to the exact target byte length');
  }

  return {
    sourceJSON: PAYLOAD_SOURCE_JSON || '',
    content,
    targetBytes: PAYLOAD_TARGET_BYTES,
    actualBytes,
  };
}

const PREPARED_REQUEST_PAYLOAD = prepareRequestPayload();
const REQUEST_BODY = PREPARED_REQUEST_PAYLOAD.content || null;
const REQUEST_PAYLOAD_ARTIFACT = REQUEST_BODY || '';

".

Definition auth_state_text : string := "const AUTH_STATE = {
  initialized: false,
  accessToken: '',
  tokenType: 'Bearer',
  expiresAtEpochMs: 0,
  refreshAtEpochMs: 0,
  jitterMs: 0,
  tokenRequestCount: 0,
  tokenSuccessCount: 0,
  tokenFailureCount: 0,
  tokenRefreshCount: 0,
  tokenReuseHitCount: 0,
  responseStatusCounts: {},
  lastAuthSuccess: false,
  lastAuthError: '',
  abortTriggered: false,
  abortCause: '',
  abortReason: '',
  abortHTTPStatusCode: 0,
  abortRetryable: false,
};

function ensureAuthStateInitialized() {
  if (!AUTH_STATE.initialized) {
    const vuId = Number((exec.vu && exec.vu.idInTest) || 0);
    const jitterBuckets = Math.max(1, Math.floor(AUTH_MAX_JITTER_MS / 1000) + 1);
    AUTH_STATE.jitterMs = Math.min((vuId % jitterBuckets) * 1000, AUTH_MAX_JITTER_MS);
    AUTH_STATE.initialized = true;
  }
  return AUTH_STATE;
}

function effectiveRefreshSkewMs(expiresInSeconds) {
  const configuredSkewMs = Math.max(0, Number(AUTH_REFRESH_SKEW_SECONDS) || 0) * 1000;
  const expiresInMs = Math.max(0, Number(expiresInSeconds) || 0) * 1000;
  return Math.min(configuredSkewMs, Math.max(5000, Math.floor(expiresInMs * 0.2)));
}

function refreshLeadMs(expiresInSeconds, jitterMs) {
  const expiresInMs = Math.max(0, Number(expiresInSeconds) || 0) * 1000;
  const desiredLeadMs = effectiveRefreshSkewMs(expiresInSeconds) + jitterMs;
  const maxLeadMs = Math.max(0, expiresInMs - 1000);
  return Math.min(desiredLeadMs, maxLeadMs);
}

function parseRetryableStatusCodes(raw) {
  return String(raw || '')
    .split(',')
    .map((value) => Number(String(value).trim()))
    .filter((value) => Number.isInteger(value) && value >= 100 && value <= 599);
}

const AUTH_RETRYABLE_STATUS_CODE_LIST = parseRetryableStatusCodes(AUTH_RETRYABLE_STATUS_CODES);

function recordAuthResponseStatus(statusCode) {
  const numeric = Number(statusCode || 0);
  if (!Number.isInteger(numeric) || numeric < 100 || numeric > 599) {
    return;
  }
  const state = ensureAuthStateInitialized();
  const key = String(numeric);
  const existing = Number(state.responseStatusCounts[key] || 0);
  state.responseStatusCounts[key] = existing + 1;
}

function authResponseStatusEntries(state) {
  if (!state || !state.responseStatusCounts) {
    return [];
  }
  return Object.keys(state.responseStatusCounts)
    .map((key) => Number(key))
    .filter((code) => Number.isInteger(code) && code >= 100 && code <= 599)
    .sort((a, b) => a - b)
    .map((code) => ({
      code,
      count: Number(state.responseStatusCounts[String(code)] || 0),
    }))
    .filter((entry) => entry.count > 0);
}

".

Definition auth_retry_text : string := "function isRetryableTokenStatus(status) {
  const numeric = Number(status || 0);
  if (!Number.isInteger(numeric) || numeric < 100 || numeric > 599) {
    return false;
  }
  return AUTH_RETRYABLE_STATUS_CODE_LIST.indexOf(numeric) !== -1;
}

function shouldRetryTokenRequest(res) {
  if (!res || res.error) {
    return true;
  }
  return isRetryableTokenStatus(res.status);
}

function tokenRetryBackoffSeconds() {
  const state = ensureAuthStateInitialized();
  return 0.25 + Math.min(state.jitterMs / 1000, 5) * 0.05;
}

function retryDelaySeconds(res) {
  if (res && res.status === 429 && res.headers) {
    const retryAfter = res.headers['Retry-After'] || res.headers['retry-after'];
    const raw = Array.isArray(retryAfter) ? retryAfter[0] : retryAfter;
    const parsed = Number(raw);
    if (Number.isFinite(parsed) && parsed > 0) {
      return parsed;
    }
  }
  return tokenRetryBackoffSeconds();
}

function buildTokenRequest() {
  const headers = {
    'Accept': 'application/json',
    'Content-Type': 'application/x-www-form-urlencoded',
  };

  let body = 'grant_type=client_credentials';
  if (AUTH_CLIENT_AUTH_METHOD === 'basic') {
    headers['Authorization'] = 'Basic ' + encoding.b64encode(AUTH_CLIENT_ID + ':' + AUTH_CLIENT_SECRET);
  } else {
    body += '&client_id=' + encodeURIComponent(AUTH_CLIENT_ID);
    body += '&client_secret=' + encodeURIComponent(AUTH_CLIENT_SECRET);
  }

  return { body, params: { headers, timeout: AUTH_TOKEN_TIMEOUT, responseType: 'text' } };
}

function markAuthAbort(cause, reason, statusCode, retryable) {
  const state = ensureAuthStateInitialized();
  state.abortTriggered = true;
  state.abortCause = cause || '';
  state.abortReason = reason || '';
  state.abortHTTPStatusCode = Number.isInteger(Number(statusCode)) ? Number(statusCode) : 0;
  state.abortRetryable = Boolean(retryable);
  state.lastAuthSuccess = false;
  state.lastAuthError = state.abortReason || reason || '';
}

function abortAuthRun(cause, reason, statusCode, retryable) {
  markAuthAbort(cause, reason, statusCode, retryable);
  const tags = {
    cause: String(cause || ''),
    retryable: retryable ? 'true' : 'false',
  };
  const numericStatusCode = Number(statusCode || 0);
  if (Number.isInteger(numericStatusCode) && numericStatusCode > 0) {
    tags.status_code = String(numericStatusCode);
  }
  authAbortEvents.add(1, tags);
  authAbortTriggered.add(1);
  const causeKey = Object.prototype.hasOwnProperty.call(authAbortCauseCounters, String(cause || ''))
    ? String(cause || '')
    : 'unknown';
  authAbortCauseCounters[causeKey].add(1);
  const abortStatusCounter = authAbortStatusCounters[numericStatusCode];
  if (abortStatusCounter) {
    abortStatusCounter.add(1);
  }
  if (retryable) {
    authAbortRetryableTrue.add(1);
  } else {
    authAbortRetryableFalse.add(1);
  }
  exec.test.abort('Authentication aborted test run: ' + String(reason || 'token request failed'));
}

function tokenFailureDetails(res, fallbackError) {
  if (res && !res.error) {
    return {
      cause: 'http_status',
      reason: 'token endpoint returned HTTP ' + String(res.status),
      statusCode: Number(res.status || 0),
      retryable: isRetryableTokenStatus(res.status),
    };
  }
  if (res && res.error) {
    const message = String(res.error || fallbackError || 'token request failed');
    const lower = message.toLowerCase();
    return {
      cause: lower.indexOf('timeout') !== -1 ? 'timeout' : 'network_error',
      reason: message,
      statusCode: 0,
      retryable: true,
    };
  }
  return {
    cause: 'network_error',
    reason: String(fallbackError || 'token request failed without response'),
    statusCode: 0,
    retryable: true,
  };
}

".

Definition auth_request_text : string := "function requestAccessToken(isRefresh) {
  const state = ensureAuthStateInitialized();

  if (!AUTH_CLIENT_SECRET) {
    state.tokenFailureCount += 1;
    state.lastAuthSuccess = false;
    state.lastAuthError = 'auth client secret is missing';
    authTokenFailure.add(1);
    abortAuthRun('config_error', state.lastAuthError, 0, false);
    throw new Error(state.lastAuthError);
  }
  if (!AUTH_TOKEN_URL) {
    state.tokenFailureCount += 1;
    state.lastAuthSuccess = false;
    state.lastAuthError = 'auth token url is missing';
    authTokenFailure.add(1);
    abortAuthRun('config_error', state.lastAuthError, 0, false);
    throw new Error(state.lastAuthError);
  }

  const tokenRequest = buildTokenRequest();
  let attempts = 0;
  let lastError = 'token request failed';
  let lastFailure = { cause: 'unknown', reason: lastError, statusCode: 0, retryable: false };

  while (attempts <= AUTH_RETRY_LIMIT) {
    attempts += 1;
    state.tokenRequestCount += 1;
    authTokenRequests.add(1);

    const startedAt = Date.now();
    const res = http.post(AUTH_TOKEN_URL, tokenRequest.body, tokenRequest.params);
    authTokenRequestDuration.add(Date.now() - startedAt);
    if (res && !res.error) {
      recordAuthResponseStatus(res.status);
      authTokenResponses.add(1, { status_code: String(res.status) });
      const responseStatusCounter = authResponseStatusCounters[Number(res.status || 0)];
      if (responseStatusCounter) {
        responseStatusCounter.add(1);
      }
    }

    if (res && !res.error && res.status >= 200 && res.status < 300) {
      let payload;
      try {
        payload = JSON.parse(res.body || '{}');
      } catch (err) {
        lastError = 'token endpoint returned invalid JSON';
        lastFailure = { cause: 'invalid_response', reason: lastError, statusCode: Number(res.status || 0), retryable: false };
        break;
      }

      const accessToken = typeof payload.access_token === 'string' ? payload.access_token : '';
      const tokenType = typeof payload.token_type === 'string' ? payload.token_type : 'Bearer';
      const expiresIn = Number(payload.expires_in || 0);
      if (!accessToken || expiresIn <= 0) {
        lastError = 'token endpoint response is missing access_token or expires_in';
        lastFailure = { cause: 'invalid_response', reason: lastError, statusCode: Number(res.status || 0), retryable: false };
        break;
      }

      const nowMs = Date.now();
      state.accessToken = accessToken;
      state.tokenType = tokenType;
      state.expiresAtEpochMs = nowMs + expiresIn * 1000;
      state.refreshAtEpochMs = state.expiresAtEpochMs - refreshLeadMs(expiresIn, state.jitterMs);
      state.lastAuthSuccess = true;
      state.lastAuthError = '';
      state.tokenSuccessCount += 1;
      authTokenSuccess.add(1);
      if (isRefresh) {
        state.tokenRefreshCount += 1;
        authTokenRefresh.add(1);
      }
      return state.tokenType + ' ' + state.accessToken;
    }

    lastFailure = tokenFailureDetails(res, lastError);
    lastError = lastFailure.reason;

    if (attempts <= AUTH_RETRY_LIMIT && shouldRetryTokenRequest(res)) {
      sleep(retryDelaySeconds(res));
      continue;
    }
    break;
  }

  state.tokenFailureCount += 1;
  state.lastAuthSuccess = false;
  state.lastAuthError = lastError;
  authTokenFailure.add(1);
  abortAuthRun(lastFailure.cause, lastFailure.reason, lastFailure.statusCode, lastFailure.retryable);
  throw new Error(lastError);
}

".

Definition auth_header_text : string := "function ensureAuthorizationHeader() {
  if (!AUTH_ENABLED) {
    return '';
  }

  const state = ensureAuthStateInitialized();
  const nowMs = Date.now();
  if (state.accessToken && nowMs < state.refreshAtEpochMs) {
    state.tokenReuseHitCount += 1;
    authTokenReuseHits.add(1);
    return state.tokenType + ' ' + state.accessToken;
  }

  return requestAccessToken(Boolean(state.accessToken));
}

function buildRequestParams(authHeader) {
  const headers = {};
  if (REQUEST_BODY) {
    headers['Content-Type'] = CONTENT_TYPE;
  }
  if (authHeader) {
    headers['Authorization'] = authHeader;
  }
  return Object.keys(headers).length > 0 ? { headers } : undefined;
}
".

Definition builderMetricDeclarations : string := "
const errorRate = new Rate('errors');
const successRate = new Rate('success_rate');
const status4xx = new Counter('status_4xx');
const status5xx = new Counter('status_5xx');
const authTokenRequests = new Counter('auth_token_requests_total');
const authTokenSuccess = new Counter('auth_token_success_total');
const authTokenFailure = new Counter('auth_token_failure_total');
const authTokenResponses = new Counter('auth_token_responses_total');
const authAbortEvents = new Counter('auth_abort_events_total');
const authAbortTriggered = new Counter('auth_abort_triggered_total');
const authAbortRetryableTrue = new Counter('auth_abort_retryable_true_total');
const authAbortRetryableFalse = new Counter('auth_abort_retryable_false_total');
const authAbortCauseCounters = {
  http_status: new Counter('auth_abort_cause_http_status_total'),
  timeout: new Counter('auth_abort_cause_timeout_total'),
  network_error: new Counter('auth_abort_cause_network_error_total'),
  config_error: new Counter('auth_abort_cause_config_error_total'),
  invalid_response: new Counter('auth_abort_cause_invalid_response_total'),
  unknown: new Counter('auth_abort_cause_unknown_total'),
};
const authResponseStatusCounters = {};
const authAbortStatusCounters = {};
for (let code = 100; code <= 599; code += 1) {
  authResponseStatusCounters[code] = new Counter('auth_token_response_status_' + String(code) + '_total');
  authAbortStatusCounters[code] = new Counter('auth_abort_status_' + String(code) + '_total');
}
const authTokenRefresh = new Counter('auth_token_refresh_total');
const authTokenReuseHits = new Counter('auth_token_reuse_hits_total');
const authTokenRequestDuration = new Trend('auth_token_request_duration_ms', true);
const businessHttpRequests = new Counter('business_http_requests_total');
const businessHttpSuccess = new Counter('business_http_success_total');
const businessHttpFailure = new Counter('business_http_failure_total');
const businessStatus2xx = new Counter('business_status_2xx');
const businessStatus4xx = new Counter('business_status_4xx');
const businessStatus5xx = new Counter('business_status_5xx');
const businessTransportFailures = new Counter('business_transport_failures_total');
const businessHttpDuration = new Trend('business_http_duration_ms', true);
const businessHttpBlocked = new Trend('business_http_blocked_ms', true);
const businessHttpWaiting = new Trend('business_http_waiting_ms', true);
const businessHttpSending = new Trend('business_http_sending_ms', true);
const businessHttpReceiving = new Trend('business_http_receiving_ms', true);
const businessHttpConnecting = new Trend('business_http_connecting_ms', true);
const businessHttpTLSHandshaking = new Trend('business_http_tls_handshaking_ms', true);
".

Definition builderRequestSharedTemplate : string :=
  request_settings_text +:+ request_payload_text +:+ auth_state_text +:+ auth_retry_text +:+ auth_request_text +:+
  auth_header_text.

(** [{{ .Sleep }}] is printed with [%v]; the line stands only for a positive
    think time. *)
Definition sleep_line (indent : string) (sleep : float64) : string :=
  if f_lt f_zero sleep then indent +:+ "sleep(" +:+ format_float sleep +:+ ");
" else "".

Definition without_token_text : string := "
export default function () {
  let requestParams;
  try {
    requestParams = buildRequestParams(ensureAuthorizationHeader());
  } catch (err) {
    errorRate.add(true);
    successRate.add(false);
".

Definition without_answer_text : string := "    return;
  }

  const res = http.request(HTTP_METHOD, BASE_URL, REQUEST_BODY, requestParams);
  businessHttpRequests.add(1);

  if (!res || res.error) {
    errorRate.add(true);
    successRate.add(false);
    businessHttpFailure.add(1);
    businessTransportFailures.add(1);
".

Definition answered_text : string := "    return;
  }

  if (res.timings) {
    businessHttpDuration.add(Number(res.timings.duration || 0));
    businessHttpBlocked.add(Number(res.timings.blocked || 0));
    businessHttpWaiting.add(Number(res.timings.waiting || 0));
    businessHttpSending.add(Number(res.timings.sending || 0));
    businessHttpReceiving.add(Number(res.timings.receiving || 0));
    businessHttpConnecting.add(Number(res.timings.connecting || 0));
    businessHttpTLSHandshaking.add(Number(res.timings.tls_handshaking || 0));
  }

  const passed = check(res, {
    'status is 2xx': (r) => r.status >= 200 && r.status < 300,
  });

  errorRate.add(!passed);
  successRate.add(passed);
  if (passed) {
    businessHttpSuccess.add(1);
    businessStatus2xx.add(1);
  } else {
    businessHttpFailure.add(1);
  }
  if (res.status >= 400 && res.status < 500) status4xx.add(1);
  if (res.status >= 500) status5xx.add(1);
  if (res.status >= 400 && res.status < 500) businessStatus4xx.add(1);
  if (res.status >= 500) businessStatus5xx.add(1);
".

Definition builderRequestExecutionTemplate (sleep : float64) : string :=
  without_token_text +:+ sleep_line "    " sleep +:+ without_answer_text +:+ sleep_line "    " sleep +:+ answered_text +:+
  (if f_lt f_zero sleep then "
" else "") +:+ sleep_line "  " sleep +:+ "}
".

Definition script_imports : string := "import http from 'k6/http';
import { check, sleep } from 'k6';
import exec from 'k6/execution';
import encoding from 'k6/encoding';
import { Rate, Counter, Trend } from 'k6/metrics';
".

Definition options_open : string := "
export const options = {".

Definition thresholds_text : string := "  discardResponseBodies: true,
  thresholds: {
    http_req_duration: ['p(95)<1500'],
    errors: ['rate<0.1'],
    success_rate: ['rate>0.95'],
  },
".

Section options.
Context (d : builderTemplateData).

Definition controlled_scenario : string := "    controller_managed: {
      executor: 'externally-controlled',
      vus: " +:+ itoa (bt_StartVUs d) +:+ ",
      maxVUs: " +:+ itoa (bt_MaxVUs d) +:+ ",
      duration: '" +:+ bt_TotalDuration d +:+ "',
    },
  },
".

Definition constant_rate_scenario : string := "    fixed_throughput: {
      executor: 'constant-arrival-rate',
      rate: " +:+ itoa (bt_Rate d) +:+ ",
      timeUnit: '" +:+ bt_TimeUnit d +:+ "',
      duration: '" +:+ bt_Duration d +:+ "',
      preAllocatedVUs: " +:+ itoa (bt_PreAllocatedVUs d) +:+ ",
      maxVUs: " +:+ itoa (bt_MaxVUs d) +:+ ",
    },
  },
".

Definition stage_line (s : Stage) : string := "
        { duration: '" +:+ stg_Duration s +:+ "', target: " +:+ itoa (stg_Target s) +:+ " },".

Definition ramping_rate_scenario : string :=
  "    ramping_throughput: {
      executor: 'ramping-arrival-rate',
      startRate: 0,
      timeUnit: '" +:+ bt_TimeUnit d +:+ "',
      preAllocatedVUs: " +:+ itoa (bt_PreAllocatedVUs d) +:+ ",
      maxVUs: " +:+ itoa (bt_MaxVUs d) +:+ ",
      stages: [" +:+ String.concat "" (map stage_line (bt_Stages d)) +:+ "
      ],
    },
  },
".

(** The scenario and the options block of a template. *)
Definition template_scenario (t : script_template) : string :=
  match t with
  | externallyControlledTemplate => controlled_scenario
  | constantArrivalRateTemplate => constant_rate_scenario
  | rampingArrivalRateTemplate => ramping_rate_scenario
  end.

Definition template_options (t : script_template) : string :=
  options_open +:+ "
  scenarios: {
" +:+ template_scenario t +:+ thresholds_text +:+ "};".

(** [tmpl.Execute]. *)
Definition render_script (t : script_template) : string :=
  script_imports +:+ builderMetricDeclarations +:+ template_options t +:+ builderRequestSharedTemplate +:+
  builderRequestExecutionTemplate (bt_Sleep d).
End options.

(** ** What is added to a script *)

Definition upload_text : string := "

// --- Auto-injected by controller: export summary with real percentiles ---
function shivaUploadArtifact(artifactType, content, contentType) {
  const enabled = String(__ENV.SHIVA_ARTIFACT_UPLOAD_ENABLED || '').toLowerCase();
  if (!(enabled === 'true' || enabled === '1')) {
    return;
  }
  if (!content) {
    return;
  }

  const workerId = String(__ENV.WORKER_ID || 'unknown');
  const testId = String(__ENV.SHIVA_ARTIFACT_TEST_ID || '');
  const uploadToken = String(__ENV.SHIVA_ARTIFACT_UPLOAD_TOKEN || '');
  const baseUrl = String(__ENV.SHIVA_ARTIFACT_UPLOAD_URL || '');
  if (!workerId || !testId || !uploadToken || !baseUrl) {
    return;
  }

  const uploadUrl =
    String(baseUrl).replace(/\/+$/, '') +
    '/api/internal/runs/' +
    encodeURIComponent(testId) +
    '/workers/' +
    encodeURIComponent(workerId) +
    '/' +
    encodeURIComponent(artifactType);

  try {
    http.post(uploadUrl, content, {
      headers: {
        'Content-Type': contentType || 'application/json',
        'X-Shiva-Artifact-Token': uploadToken,
      },
      timeout: '10s',
    });
  } catch (error) {
    // Best effort only: the controller still has the shared-volume fallback.
  }
}

".

Definition summary_metrics_text : string := "export function handleSummary(data) {
  const wid = __ENV.WORKER_ID || 'unknown';
  const summaryContent = JSON.stringify(data);
  const artifacts = {
    ['/output/summary-' + wid + '.json']: summaryContent,
  };
  shivaUploadArtifact('summary', summaryContent, 'application/json');
  const payloadArtifact = typeof REQUEST_PAYLOAD_ARTIFACT !== 'undefined' ? REQUEST_PAYLOAD_ARTIFACT : '';
  if (payloadArtifact) {
    artifacts['/output/payload-' + wid + '.json'] = payloadArtifact;
    shivaUploadArtifact('payload', payloadArtifact, 'application/json');
  }
  if (typeof AUTH_ENABLED !== 'undefined' && AUTH_ENABLED) {
    const allMetrics = data && data.metrics ? data.metrics : {};
    const metricValues = (name) =>
      allMetrics[name] &&
      allMetrics[name].values
        ? allMetrics[name].values
        : {};
    const taggedMetricKeys = (name) =>
      Object.keys(allMetrics).filter((key) => key === name || key.indexOf(name + '{') === 0);
    const metricKeyTags = (metricKey) => {
      const start = metricKey.indexOf('{');
      const end = metricKey.lastIndexOf('}');
      if (start === -1 || end <= start + 1) {
        return {};
      }
      const tags = {};
      for (const part of metricKey.slice(start + 1, end).split(',')) {
        let separator = part.indexOf(':');
        if (separator <= 0) {
          separator = part.indexOf('=');
        }
        if (separator <= 0) {
          continue;
        }
        const key = part.slice(0, separator).trim();
        let value = part.slice(separator + 1).trim();
        if (
          (value.startsWith('" +:+ quote +:+ "') && value.endsWith('" +:+ quote +:+ "')) ||
          (value.startsWith(" +:+ quote +:+ "'" +:+ quote +:+ ") && value.endsWith(" +:+ quote +:+ "'" +:+ quote +:+ "))
        ) {
          value = value.slice(1, -1);
        }
        if (key) {
          tags[key] = value;
        }
      }
      return tags;
    };
    const taggedMetricCount = (metricKey) =>
      Number(allMetrics[metricKey] && allMetrics[metricKey].values ? allMetrics[metricKey].values.count || 0 : 0);
    const authRuntimeState = () =>
      typeof AUTH_STATE !== 'undefined' && AUTH_STATE
        ? AUTH_STATE
        : null;
    const counterMetricCount = (name) => Number(metricValues(name).count || 0);
    const authStatusCodeEntriesFromCounterPrefix = (prefix) => {
      const entries = [];
      for (let code = 100; code <= 599; code += 1) {
        const count = counterMetricCount(prefix + String(code) + '_total');
        if (count > 0) {
          entries.push({ code, count });
        }
      }
      return entries;
    };
".

Definition summary_status_text : string := "    const authResponseStatusEntriesFromSummary = () => {
      const counts = {};
      for (const metricKey of taggedMetricKeys('auth_token_responses_total')) {
        const tags = metricKeyTags(metricKey);
        const statusCode = Number(tags.status_code || 0);
        const count = taggedMetricCount(metricKey);
        if (!Number.isInteger(statusCode) || statusCode < 100 || statusCode > 599 || count <= 0) {
          continue;
        }
        const key = String(statusCode);
        counts[key] = Number(counts[key] || 0) + count;
      }
      return Object.keys(counts)
        .map((key) => Number(key))
        .sort((a, b) => a - b)
        .map((code) => ({ code, count: counts[String(code)] }));
    };
    const authResponseStatusEntriesFromCounters = () => authStatusCodeEntriesFromCounterPrefix('auth_token_response_status_');
    const authResponseStatusEntriesFromRuntime = () => {
      const state = authRuntimeState();
      return authResponseStatusEntries(state);
    };
    const authAbortCauseFromCounters = () => {
      const causeKeys = ['http_status', 'timeout', 'network_error', 'config_error', 'invalid_response', 'unknown'];
      let selected = '';
      let selectedCount = 0;
      for (const causeKey of causeKeys) {
        const count = counterMetricCount('auth_abort_cause_' + causeKey + '_total');
        if (count > selectedCount) {
          selected = causeKey;
          selectedCount = count;
        }
      }
      return selected;
    };
".

Definition summary_abort_tags_text : string := "    const authAbortSummaryFromMetrics = () => {
      let selected = null;
      for (const metricKey of taggedMetricKeys('auth_abort_events_total')) {
        const count = taggedMetricCount(metricKey);
        if (count <= 0) {
          continue;
        }
        const tags = metricKeyTags(metricKey);
        const statusCode = Number(tags.status_code || 0);
        const candidate = {
          count,
          cause: tags.cause || '',
          retryable: String(tags.retryable || '').toLowerCase() === 'true',
          statusCode: Number.isInteger(statusCode) && statusCode > 0 ? statusCode : 0,
        };
        if (!selected || candidate.count > selected.count) {
          selected = candidate;
        }
      }
      if (!selected) {
        return {
          triggered: false,
          cause: '',
          reason: '',
          statusCode: 0,
          retryable: false,
        };
      }
      let reason = 'Authentication aborted the test run.';
      if (selected.cause === 'http_status' && selected.statusCode > 0) {
        reason = 'token endpoint returned HTTP ' + String(selected.statusCode);
      } else if (selected.cause === 'timeout') {
        reason = 'token request timed out';
      } else if (selected.cause === 'network_error') {
        reason = 'token request failed';
      } else if (selected.cause === 'config_error') {
        reason = 'authentication configuration is incomplete';
      } else if (selected.cause === 'invalid_response') {
        reason = 'token endpoint returned invalid JSON';
      }
      return {
        triggered: true,
        cause: selected.cause,
        reason,
        statusCode: selected.statusCode,
        retryable: selected.retryable,
      };
    };
".

Definition summary_abort_counters_text : string := "    const authAbortSummaryFromCounters = () => {
      const triggered = counterMetricCount('auth_abort_triggered_total') > 0 || counterMetricCount('auth_abort_events_total') > 0;
      if (!triggered) {
        return {
          triggered: false,
          cause: '',
          reason: '',
          statusCode: 0,
          retryable: false,
        };
      }
      const statusEntries = authStatusCodeEntriesFromCounterPrefix('auth_abort_status_');
      const statusCode = statusEntries.length > 0 ? statusEntries[0].code : 0;
      const cause = authAbortCauseFromCounters();
      const retryable = counterMetricCount('auth_abort_retryable_true_total') > 0
        ? true
        : counterMetricCount('auth_abort_retryable_false_total') > 0
          ? false
          : false;
      let reason = 'Authentication aborted the test run.';
      if (cause === 'http_status' && statusCode > 0) {
        reason = 'token endpoint returned HTTP ' + String(statusCode);
      } else if (cause === 'timeout') {
        reason = 'token request timed out';
      } else if (cause === 'network_error') {
        reason = 'token request failed';
      } else if (cause === 'config_error') {
        reason = 'authentication configuration is incomplete';
      } else if (cause === 'invalid_response') {
        reason = 'token endpoint returned invalid JSON';
      }
      return {
        triggered: true,
        cause,
        reason,
        statusCode,
        retryable,
      };
    };
    const authAbortSummaryFromRuntime = () => {
      const state = authRuntimeState();
      if (!state || !state.abortTriggered) {
        return {
          triggered: false,
          cause: '',
          reason: '',
          statusCode: 0,
          retryable: false,
        };
      }
      return {
        triggered: true,
        cause: String(state.abortCause || ''),
        reason: String(state.abortReason || 'Authentication aborted the test run.'),
        statusCode: Number.isInteger(Number(state.abortHTTPStatusCode)) ? Number(state.abortHTTPStatusCode) : 0,
        retryable: Boolean(state.abortRetryable),
      };
    };
".

Definition summary_result_text : string := "    const tokenDurationMetric =
      metricValues('auth_token_request_duration_ms');
    const tokenRequestsTotal = Number(metricValues('auth_token_requests_total').count || 0);
    const tokenSuccessTotal = Number(metricValues('auth_token_success_total').count || 0);
    const tokenFailureTotal = Number(metricValues('auth_token_failure_total').count || 0);
    const tokenSuccessRate = tokenRequestsTotal > 0 ? tokenSuccessTotal / tokenRequestsTotal : 0;
    const tokenRefreshTotal = Number(metricValues('auth_token_refresh_total').count || 0);
    const tokenReuseHitsTotal = Number(metricValues('auth_token_reuse_hits_total').count || 0);
    const responseStatusCodesFromCounters = authResponseStatusEntriesFromCounters();
    const responseStatusCodesFromSummary = authResponseStatusEntriesFromSummary();
    const responseStatusCodesFromRuntime = authResponseStatusEntriesFromRuntime();
    const responseStatusCodes = responseStatusCodesFromCounters.length > 0
      ? responseStatusCodesFromCounters
      : responseStatusCodesFromSummary.length > 0
        ? responseStatusCodesFromSummary
        : responseStatusCodesFromRuntime;
    const abortSummaryFromCounters = authAbortSummaryFromCounters();
    const abortSummaryFromMetrics = authAbortSummaryFromMetrics();
    const abortSummaryFromRuntime = authAbortSummaryFromRuntime();
    const abortSummary = abortSummaryFromCounters.triggered
      ? abortSummaryFromCounters
      : abortSummaryFromMetrics.triggered
        ? {
            triggered: true,
            cause: abortSummaryFromMetrics.cause || abortSummaryFromRuntime.cause,
            reason:
              abortSummaryFromMetrics.cause || abortSummaryFromMetrics.statusCode > 0
                ? abortSummaryFromMetrics.reason
                : (abortSummaryFromRuntime.reason || abortSummaryFromMetrics.reason),
            statusCode: abortSummaryFromMetrics.statusCode > 0
              ? abortSummaryFromMetrics.statusCode
              : abortSummaryFromRuntime.statusCode,
            retryable: abortSummaryFromMetrics.retryable || abortSummaryFromRuntime.retryable,
          }
        : abortSummaryFromRuntime;

    const authSummaryContent = JSON.stringify({
      status: abortSummary.triggered ? 'aborted' : 'complete',
      message: abortSummary.triggered
        ? abortSummary.reason
        : (tokenRequestsTotal === 0 ? 'Authentication was enabled but no token request was required during this run.' : ''),
      mode: typeof AUTH_MODE !== 'undefined' ? AUTH_MODE : '',
      token_url: typeof AUTH_TOKEN_URL !== 'undefined' ? AUTH_TOKEN_URL : '',
      client_auth_method: typeof AUTH_CLIENT_AUTH_METHOD !== 'undefined' ? AUTH_CLIENT_AUTH_METHOD : '',
      refresh_skew_seconds: typeof AUTH_REFRESH_SKEW_SECONDS !== 'undefined' ? Number(AUTH_REFRESH_SKEW_SECONDS || 0) : 0,
      metrics: {
        token_requests_total: tokenRequestsTotal,
        token_success_total: tokenSuccessTotal,
        token_failure_total: tokenFailureTotal,
        token_success_rate: tokenSuccessRate,
        token_request_avg_ms: Number(tokenDurationMetric.avg || 0),
        token_request_p95_ms: Number(tokenDurationMetric['p(95)'] || 0),
        token_request_p99_ms: Number(tokenDurationMetric['p(99)'] || 0),
        token_request_max_ms: Number(tokenDurationMetric.max || 0),
        token_refresh_total: tokenRefreshTotal,
        token_reuse_hits_total: tokenReuseHitsTotal,
        response_status_codes: responseStatusCodes,
        abort_triggered: abortSummary.triggered,
        abort_cause: abortSummary.cause,
        abort_reason: abortSummary.reason,
        abort_http_status_codes: abortSummary.statusCode > 0
          ? [abortSummary.statusCode]
          : [],
        abort_retryable: abortSummary.retryable,
      },
    });
    artifacts['/output/auth-summary-' + wid + '.json'] = authSummaryContent;
    shivaUploadArtifact('auth-summary', authSummaryContent, 'application/json');
  }
  return artifacts;
}
".

Definition summary_export_text : string :=
  upload_text +:+ summary_metrics_text +:+ summary_status_text +:+ summary_abort_tags_text +:+
  summary_abort_counters_text +:+ summary_result_text.

Definition defaultScript : string := "import http from 'k6/http';
import { check, sleep } from 'k6';
import { Rate, Counter } from 'k6/metrics';

const errorRate = new Rate('errors');
const successRate = new Rate('success_rate');
const status4xx = new Counter('status_4xx');
const status5xx = new Counter('status_5xx');

export const options = {
  scenarios: {
    controller_managed: {
      executor: 'externally-controlled',
      vus: 5,
      maxVUs: 20,
      duration: '3m',
    },
  },
  thresholds: {
    http_req_duration: ['p(95)<1500'],
    errors: ['rate<0.1'],
    success_rate: ['rate>0.95'],
  },
};

const BASE_URL = __ENV.TARGET_URL || 'http://target-lb:8090';

export default function () {
  const res = http.get(BASE_URL);

  if (!res || res.error) {
    errorRate.add(true);
    successRate.add(false);
    sleep(0.5);
    return;
  }

  const passed = check(res, {
    'status is 2xx': (r) => r.status >= 200 && r.status < 300,
  });

  errorRate.add(!passed);
  successRate.add(passed);
  if (res.status >= 400 && res.status < 500) status4xx.add(1);
  if (res.status >= 500) status5xx.add(1);

  sleep(0.5);
}
".
