(* ===== verification/ScriptInject.v ===== *)
(** * What the controller adds to a script

    [InjectStatusCounters] and [InjectSummaryExport] of
    [controller/internal/scriptgen/scriptgen.go] with the matchers of their
    regular expressions, [EnsureDefault], and what becomes of a generated
    script on its way to the workers. *)

From stdpp Require Import pretty.
From S2P Require Export ScriptTexts.
From S2P Require Import Duration EnvFileSpec JsonText.

Open Scope Z_scope.
Open Scope go_scope.

(** ** Regular expressions *)

(** The text before the first closing brace, and what follows it. *)
Fixpoint up_to_brace (s : string) : option (string * string) :=
  match s with
  | EmptyString => None
  | String c s' =>
    if byte_of c =? 125 then Some ("", s') else '(x, rest) ← up_to_brace s'; Some (String c x, rest)
  end.

(** [\s*]: the space, and what follows it. *)
Fixpoint skip_space (s : string) : string * string :=
  match s with
  | String c s' => if re_space c then let '(x, rest) := skip_space s' in (String c x, rest) else ("", s)
  | EmptyString => ("", "")
  end.

Definition metrics_module : string := "'k6/metrics'".

(** An import of names from the module of metrics at the front of a text: the
    three groups of the expression (up to the opening brace, the names, from the
    closing brace), and what follows. *)
Definition metrics_import (s : string) : option (string * string * string * string) :=
  rest ← Duration.strip_prefix "import" s;
  let '(sp1, rest) := skip_space rest in
  rest ← Duration.strip_prefix "{" rest;
  '(names, rest) ← up_to_brace rest;
  let '(sp2, rest) := skip_space rest in
  rest ← Duration.strip_prefix "from" rest;
  let '(sp3, rest) := skip_space rest in
  rest ← Duration.strip_prefix metrics_module rest;
  Some ("import" +:+ sp1 +:+ "{", names, "}" +:+ sp2 +:+ "from" +:+ sp3 +:+ metrics_module, rest).

(** The names of an import with the counter added. *)
Definition with_counter (names : string) : string :=
  let existing := trim_space names in
  let existing := if negb (String.eqb existing "") && negb (has_suffix existing ",") then existing +:+ "," else existing in
  " " +:+ existing +:+ " Counter ".

(** [ReplaceAllStringFunc]; the fuel is the length of the text. *)
Fixpoint replace_imports (fuel : nat) (s : string) : string :=
  match fuel with
  | O => s
  | S fuel =>
    match metrics_import s with
    | Some (head, names, tail, rest) => head +:+ with_counter names +:+ tail +:+ replace_imports fuel rest
    | None => match s with
              | EmptyString => EmptyString
              | String c s' => String c (replace_imports fuel s')
              end
    end
  end.

(** [['"]k6/http['"]] after the space behind [from]. *)
Definition http_module (s : string) : bool :=
  match s with
  | String c s' => re_quote c && after_literal "k6/http" (fun s =>
      match s with String c _ => re_quote c | EmptyString => false end) s'
  | EmptyString => false
  end.

Definition word_char (c : Ascii.ascii) : bool :=
  let b := byte_of c in between 48 57 c || between 65 90 c || between 97 122 c || (b =? 95).

(** [.*from\s+] and the module, on one line up to [from]. *)
Fixpoint later_from (s : string) : bool :=
  if after_literal "from" (spaces_then http_module) s then true
  else match s with String c s' => if byte_of c =? 10 then false else later_from s' | EmptyString => false end.

(** [\s*import\s+http\b.*from\s+['"]k6/http['"]], at this position. *)
Fixpoint http_import_here (s : string) : bool :=
  if after_literal "import" (spaces_then (after_literal "http" (fun s =>
    if match s with String c _ => word_char c | EmptyString => false end then false else later_from s))) s then true
  else match s with String c s' => if re_space c then http_import_here s' else false | EmptyString => false end.

(** At the start of some line. *)
Fixpoint http_imported (at_line_start : bool) (s : string) : bool :=
  if (if at_line_start then http_import_here s else false) then true
  else match s with String c s' => http_imported (byte_of c =? 10) s' | EmptyString => false end.

(** ** The counters *)

Definition counterDefs : string := "
const status4xx = new Counter('status_4xx');
const status5xx = new Counter('status_5xx');
".

(** A line after the last one that [p] accepts; [None] without one. *)
Fixpoint insert_after_last {A} (p : A -> bool) (x : A) (l : list A) : option (list A) :=
  match l with
  | [] => None
  | y :: l =>
    match insert_after_last p x l with
    | Some l' => Some (y :: l')
    | None => if p y then Some (y :: x :: l) else None
    end
  end.

Definition import_line (line : string) : bool := has_prefix (trim_space line) "import ".

Definition line_break : Ascii.ascii := chr 10.

Definition add_counters (content : string) : string :=
  match insert_after_last import_line counterDefs (split_on line_break content) with
  | Some lines => GoStrings.join (String line_break "") lines
  | None => counterDefs +:+ content
  end.

Definition import_counter (content : string) : string :=
  if contains content "from 'k6/metrics'" && negb (contains content "Counter")
  then replace_imports (S (String.length content)) content
  else if negb (contains content "from 'k6/metrics'")
  then "import { Counter } from 'k6/metrics';
" +:+ content
  else content.

Definition InjectStatusCounters (content : string) : string :=
  if contains content "status_4xx" || contains content "status_5xx" then content
  else add_counters (import_counter content).

(** ** The summary export *)

Definition InjectSummaryExport (content : string) : string :=
  if contains content "handleSummary" then content
  else
    (if http_imported true content then content else "import http from 'k6/http';
" +:+ content) +:+ summary_export_text.

(** The texts of the scripts as the controller makes them. *)
Definition EnsureDefault (exists_already : bool) (scripts : gmap string string) : gmap string string :=
  if exists_already then scripts else <["current-test.js" := defaultScript]> scripts.

(** ** Examples *)

Definition own_script : string := "import http from 'k6/http';
import { check } from 'k6';
import { Trend, } from 'k6/metrics';
export default function () { http.get('http://x'); }
".

Example counters_ex : InjectStatusCounters own_script = "import http from 'k6/http';
import { check } from 'k6';
import { Trend, Counter } from 'k6/metrics';

const status4xx = new Counter('status_4xx');
const status5xx = new Counter('status_5xx');

export default function () { http.get('http://x'); }
" /\
  InjectStatusCounters "x" = "import { Counter } from 'k6/metrics';

const status4xx = new Counter('status_4xx');
const status5xx = new Counter('status_5xx');

x".
Proof. vm_compute. split; reflexivity. Qed.

Example http_import_ex :
  map (http_imported true) ["import http from 'k6/http'"; " import http, { x } from 'k6/http'"; "// import http from 'k6/http'";
    "import https from 'k6/http'"; "x
   import http
     from 'k6/http'"; "x
   import http from
     'k6/http'"] = [true; true; false; false; false; true].
Proof. vm_compute. reflexivity. Qed.

(** ** Searching in texts with constant parts *)

Lemma contains_cons c s sub : contains (String c s) sub = String.prefix sub (String c s) || contains s sub.
Proof.
  unfold contains. destruct sub as [|d sub]; [reflexivity|]. cbn [String.index].
  destruct (String.prefix (String d sub) (String c s)); [reflexivity|]. cbn [orb].
  by destruct (String.index 0 (String d sub) s).
Qed.

Lemma prefix_longer p s t : String.prefix p s = true -> String.prefix p (s +:+ t) = true.
Proof.
  revert s. induction p as [|a p IH]; intros [|b s]; try done.
  { intros _. destruct t; done. }
  change (String b s +:+ t) with (String b (s +:+ t)).
  cbn [String.prefix]. destruct (Ascii.ascii_dec a b); [apply IH|done].
Qed.

Lemma contains_app_l s t sub : contains s sub = true -> contains (s +:+ t) sub = true.
Proof.
  induction s as [|c s IH].
  - destruct sub; [|done]. intros _. destruct t; done.
  - change (String c s +:+ t) with (String c (s +:+ t)). rewrite !contains_cons, !orb_true_iff.
    intros [Hp|Hc]; [left; by apply (prefix_longer _ (String c s))|auto].
Qed.

Lemma contains_app_r s t sub : contains t sub = true -> contains (s +:+ t) sub = true.
Proof.
  intros Ht. induction s as [|c s IH]; [done|]. change (String c s +:+ t) with (String c (s +:+ t)).
  by rewrite contains_cons, IH, orb_true_r.
Qed.

(** Every character of a text. *)
Fixpoint every (p : Ascii.ascii -> bool) (s : string) : bool :=
  match s with String c s => p c && every p s | EmptyString => true end.

Lemma every_app p s t : every p (s +:+ t) = every p s && every p t.
Proof. induction s as [|c s IH]; [done|]. change (String c s +:+ t) with (String c (s +:+ t)). cbn. by rewrite IH, andb_assoc. Qed.

Lemma every_impl (p q : Ascii.ascii -> bool) s : (forall c, p c = true -> q c = true) -> every p s = true -> every q s = true.
Proof. intros Hpq. induction s as [|c s IH]; [done|]. cbn. rewrite !andb_true_iff. intros [? ?]. auto. Qed.

Lemma contains_free d sub m t : every (fun c => negb (Ascii.eqb c d)) m = true ->
  contains (m +:+ t) (String d sub) = contains t (String d sub).
Proof.
  induction m as [|c m IH]; [done|]. cbn [every]. intros [Hc Hm]%andb_prop. change (String c m +:+ t) with (String c (m +:+ t)).
  rewrite contains_cons, IH by done. cbn [String.prefix]. apply negb_true_iff, Ascii.eqb_neq in Hc.
  destruct (Ascii.ascii_dec d c); [congruence|done].
Qed.

(** Two texts differ before the shorter one ends. *)
Fixpoint clash (p s : string) : bool :=
  match p, s with
  | String a p, String b s => negb (Ascii.eqb a b) || clash p s
  | _, _ => false
  end.

Lemma clash_prefix p s t : clash p s = true -> String.prefix p (s +:+ t) = false.
Proof.
  revert s. induction p as [|a p IH]; intros [|b s]; try done. change (String b s +:+ t) with (String b (s +:+ t)).
  cbn. destruct (Ascii.eqb_spec a b) as [->|]; cbn [negb orb].
  - destruct (Ascii.ascii_dec b b); [apply IH|done].
  - by destruct (Ascii.ascii_dec a b).
Qed.

Lemma clash_strip p s t : clash p s = true -> Duration.strip_prefix p (s +:+ t) = None.
Proof.
  revert s. induction p as [|a p IH]; intros [|b s]; try done. change (String b s +:+ t) with (String b (s +:+ t)).
  cbn. destruct (Ascii.eqb a b); [apply IH|done].
Qed.

(** No occurrence begins in a text, whatever follows it. *)
Fixpoint absent (sub s : string) : bool :=
  match s with String c s' => clash sub s && absent sub s' | EmptyString => true end.

Lemma contains_absent sub s t : absent sub s = true -> contains (s +:+ t) sub = contains t sub.
Proof.
  induction s as [|c s IH]; [done|]. cbn [absent]. intros [Hc Hs]%andb_prop. change (String c s +:+ t) with (String c (s +:+ t)).
  rewrite contains_cons, IH by done. apply (clash_prefix _ _ t) in Hc. change (String c s +:+ t) with (String c (s +:+ t)) in Hc.
  by rewrite Hc.
Qed.

(** ** Removing the options of a generated script *)

(** Whether the next character begins a line. *)
Fixpoint line_flag (b : bool) (s : string) : bool :=
  match s with String c s => line_flag (byte_of c =? 10) s | EmptyString => b end.

(** [p] at no start of a line in a text. *)
Fixpoint quiet (p : string) (b : bool) (s : string) : bool :=
  match s with String c s' => (negb b || clash p s) && quiet p (byte_of c =? 10) s' | EmptyString => true end.

Definition no_break (s : string) : bool := every (fun c => negb (byte_of c =? 10)) s.

Lemma no_break_flag s : no_break s = true -> line_flag false s = false.
Proof. unfold no_break. induction s as [|c s IH]; [done|]. cbn. intros [Hc Hs]%andb_prop. apply negb_true_iff in Hc. by rewrite Hc, IH. Qed.

Lemma no_break_quiet p s : no_break s = true -> quiet p false s = true.
Proof. unfold no_break. induction s as [|c s IH]; [done|]. cbn. intros [Hc Hs]%andb_prop. apply negb_true_iff in Hc. by rewrite Hc, IH. Qed.

Lemma line_flag_app b s t : line_flag b (s +:+ t) = line_flag (line_flag b s) t.
Proof. revert b. induction s as [|c s IH]; intros b; [done|]. change (String c s +:+ t) with (String c (s +:+ t)). cbn. apply IH. Qed.

Lemma clash_app p s t : clash p s = true -> clash p (s +:+ t) = true.
Proof.
  revert s. induction p as [|a p IH]; intros [|b s]; try done. change (String b s +:+ t) with (String b (s +:+ t)).
  cbn. rewrite !orb_true_iff. intros [?|?]; auto.
Qed.

Lemma quiet_app p b s t : quiet p b s = true -> quiet p (line_flag b s) t = true -> quiet p b (s +:+ t) = true.
Proof.
  revert b. induction s as [|c s IH]; intros b; [done|]. cbn [quiet line_flag]. intros [Hc Hs]%andb_prop Ht.
  change (String c s +:+ t) with (String c (s +:+ t)). cbn [quiet]. rewrite IH, andb_true_r by done.
  apply orb_true_iff in Hc as [->|Hc]; [done|]. apply (clash_app _ _ t) in Hc.
  change (String c s +:+ t) with (String c (s +:+ t)) in Hc. by rewrite Hc, orb_true_r.
Qed.

(** The result of [strip_options], with enough fuel. *)
Definition strips (b : bool) (s r : string) : Prop := forall fuel, (String.length s <= fuel)%nat -> strip_options fuel b s = r.

Lemma strips_nil b : strips b "" "".
Proof. intros [|fuel] _; [done|]. cbn. by destruct b. Qed.

Lemma strips_quiet b s t r : quiet "export" b s = true -> strips (line_flag b s) t r -> strips b (s +:+ t) (s +:+ r).
Proof.
  revert b. induction s as [|c s IH]; intros b; [done|]. cbn [quiet line_flag]. intros [Hc Hs]%andb_prop Ht.
  intros [|fuel] Hf; [by apply Nat.nle_succ_0 in Hf|].
  change (String c s +:+ t) with (String c (s +:+ t)) in *. change (String c s +:+ r) with (String c (s +:+ r)).
  assert (Hn : (if b then options_block (String c (s +:+ t)) else None) = None).
  { destruct b; [|done]. cbn [negb orb] in Hc. unfold options_block, literal.
    change (String c (s +:+ t)) with (String c s +:+ t). by rewrite clash_strip. }
  cbn [strip_options]. rewrite Hn. f_equal. apply IH; [done|done|]. apply le_S_n, Hf.
Qed.

Lemma strips_block s rest r : options_block s = Some rest -> (String.length rest < String.length s)%nat ->
  strips true rest r -> strips true s r.
Proof. intros Hb Hl Hr [|fuel] Hf; [lia|]. cbn [strip_options]. rewrite Hb. apply Hr. lia. Qed.

(** A line that exports something else. *)
Lemma strips_default t r : strips false ("xport default function" +:+ t) r ->
  strips true ("export default function" +:+ t) (String (chr 101) r).
Proof.
  intros Ht [|fuel] Hf; [by apply Nat.nle_succ_0 in Hf|]. change ("export default function" +:+ t) with (String (chr 101) ("xport default function" +:+ t)) in *.
  cbn [strip_options].
  assert (Hn : options_block (String (chr 101) ("xport default function" +:+ t)) = None) by reflexivity.
  rewrite Hn. f_equal. change (byte_of (chr 101) =? 10) with false. apply Ht, le_S_n, Hf.
Qed.

(** The end of the block. *)
Lemma close_quiet b s t : quiet "};" b s = true -> close_block b (s +:+ t) = close_block (line_flag b s) t.
Proof.
  revert b. induction s as [|c s IH]; intros b; [done|]. cbn [quiet line_flag]. intros [Hc Hs]%andb_prop.
  rewrite <- IH by done. change (String c s +:+ t) with (String c (s +:+ t)). cbn [close_block].
  assert (Hn : (if b then rest ← Duration.strip_prefix "};" (String c (s +:+ t)); blank_to_newline rest else None) = None).
  { destruct b; [|done]. cbn [negb orb] in Hc. change (String c (s +:+ t)) with (String c s +:+ t). by rewrite clash_strip. }
  by rewrite Hn.
Qed.

(** ** Printed numbers *)

Definition number_char (c : Ascii.ascii) : bool := between 43 57 c || (byte_of c =? 101).

Lemma number_pretty (x : N) (s : string) : every number_char s = true -> every number_char (pretty_N_go x s) = true.
Proof.
  revert s. induction (N.lt_wf_0 x) as [x _ IH]; intros s Hs.
  assert (x = 0 \/ 0 < x)%N as [->|Hx] by lia; [done|].
  rewrite pretty_N_go_step by done. apply IH; [by apply N.div_lt|]. cbn [every]. rewrite Hs, andb_true_r.
  assert (Hm : (x mod 10 < 10)%N) by (by apply N.mod_lt). pose proof (digit_char _ Hm) as Hd. unfold number_char.
  apply orb_true_iff. left. apply between_spec. revert Hm Hd. generalize (x mod 10)%N. lia.
Qed.

Lemma number_itoa z : every number_char (itoa z) = true.
Proof.
  unfold itoa. destruct z as [|p|p]; [done|..].
  - change (pretty (Zpos p)) with (pretty_N_go (Npos p) ""). by apply number_pretty.
  - change (pretty (Zneg p)) with ("-" +:+ pretty_N_go (Npos p) ""). by rewrite every_app, number_pretty.
Qed.

Lemma number_zeros n : every number_char (zeros n) = true.
Proof. induction n as [|n IH]; [done|]. cbn [zeros every]. by rewrite IH. Qed.

Lemma every_substring p n m s : every p s = true -> every p (String.substring n m s) = true.
Proof.
  revert n m. induction s as [|c s IH]; intros n m; [by destruct n, m|]. cbn [every]. intros [Hc Hs]%andb_prop.
  destruct n as [|n]; [destruct m as [|m]|]; cbn [String.substring every]; [done|by rewrite Hc, IH|by apply IH].
Qed.

Lemma number_float x : every number_char (format_float (S754_finite false x.1 x.2)) = true.
Proof.
  unfold format_float, format_g. destruct (shortest _ _ _) as [mant ex]. cbn [String.append].
  pose proof (number_itoa mant) as Hm. cbv zeta.
  destruct (_ || _).
  - destruct (itoa mant) as [|d rest]; [done|]. cbn [every] in Hm. apply andb_prop in Hm as [Hd Hr].
    change (String d (if String.eqb rest "" then "" else "." +:+ rest)) with (String d "" +:+ (if String.eqb rest "" then "" else "." +:+ rest)).
    rewrite !every_app. cbn [every]. rewrite Hd. unfold exponent_2digits. rewrite !every_app, number_itoa.
    destruct (String.eqb rest ""); [|rewrite every_app, Hr]; repeat case_match; done.
  - unfold place_point. repeat case_match; rewrite ?every_app, ?every_substring, ?number_zeros, ?Hm by done; done.
Qed.

Lemma number_sleep x : f_lt f_zero x = true -> every number_char (format_float x) = true \/ format_float x = "+Inf".
Proof.
  destruct x as [s|s| |s m e]; try (by destruct s); [destruct s; [done|by right]|done|].
  destruct s; [done|]. intros _. left. apply (number_float (m, e)).
Qed.

(** ** Generated scripts *)

(** A text without [p] at the start of a line, from one state of the line to
    another. *)
Definition passes (p : string) (b : bool) (s : string) (b' : bool) : Prop := quiet p b s = true /\ line_flag b s = b'.

Lemma passes_app p b s b1 t b2 : passes p b s b1 -> passes p b1 t b2 -> passes p b (s +:+ t) b2.
Proof. intros [Q1 F1] [Q2 F2]. split; [apply quiet_app; [done|by rewrite F1]|by rewrite line_flag_app, F1]. Qed.

Lemma passes_plain p s : no_break s = true -> passes p false s false.
Proof. intros Hs. split; [by apply no_break_quiet|by apply no_break_flag]. Qed.

Lemma plain_itoa_line z : no_break (itoa z) = true.
Proof.
  eapply every_impl; [|apply number_itoa]. intros c Hc. apply negb_true_iff, Z.eqb_neq. unfold number_char in Hc.
  apply orb_true_iff in Hc as [Hc%between_spec|Hc%Z.eqb_eq]; lia.
Qed.

(** The texts of the data stand on one line. *)
Definition one_line (d : builderTemplateData) : Prop :=
  no_break (bt_TotalDuration d) = true /\ no_break (bt_TimeUnit d) = true /\ no_break (bt_Duration d) = true /\
  Forall (fun s => no_break (stg_Duration s) = true) (bt_Stages d).

Ltac pass_constant := split; [vm_compute; reflexivity|vm_compute; reflexivity].
Ltac pass_texts :=
  repeat match goal with
  | |- passes _ _ (_ +:+ _) _ => eapply passes_app
  | |- passes _ _ (itoa _) _ => apply passes_plain, plain_itoa_line
  | H : no_break ?s = true |- passes _ _ ?s _ => apply (passes_plain _ _ H)
  end.

Lemma stage_lines_pass l : Forall (fun s => no_break (stg_Duration s) = true) l ->
  passes "};" false (String.concat "" (map stage_line l)) false.
Proof.
  intros Hl. assert (Hone : forall s, no_break (stg_Duration s) = true -> passes "};" false (stage_line s) false).
  { intros s Hs. unfold stage_line. pass_texts; pass_constant. }
  induction Hl as [|s l Hs Hl IH]; [by split|]. cbn [map]. destruct l as [|s' l].
  - cbn [map String.concat]. by apply Hone.
  - change (String.concat "" (stage_line s :: map stage_line (s' :: l))) with
      (stage_line s +:+ "" +:+ String.concat "" (map stage_line (s' :: l))). eapply passes_app; [by apply Hone|exact IH].
Qed.

Lemma scenario_passes d t : one_line d -> passes "};" true (template_scenario d t) true.
Proof.
  intros (H1 & H2 & H3 & H4). pose proof (stage_lines_pass _ H4) as Hs.
  destruct t; cbn [template_scenario]; unfold controlled_scenario, constant_rate_scenario, ramping_rate_scenario; pass_texts;
    try exact Hs; pass_constant.
Qed.

(** What [StripScriptOptions] leaves of a generated script. *)
Definition request_functions : string :=
  String.substring 1 (String.length builderRequestSharedTemplate) builderRequestSharedTemplate.

Definition stripped_script (sleep : float64) : string :=
  script_imports +:+ builderMetricDeclarations +:+ "
" +:+ request_functions +:+ builderRequestExecutionTemplate sleep.

Lemma request_functions_eq : builderRequestSharedTemplate = "
" +:+ request_functions.
Proof. vm_compute. reflexivity. Qed.

Lemma options_opened z : options_block ("export const options = {" +:+ z) = close_block false z.
Proof. lazy -[close_block]. destruct (close_block false z); reflexivity. Qed.

Lemma options_block_generated d t rest : one_line d ->
  options_block ("export const options = {" +:+ "
  scenarios: {
" +:+ template_scenario d t +:+ thresholds_text +:+ "};" +:+ "
" +:+ rest) = Some rest.
Proof.
  intros Hd. set (body := "
  scenarios: {
" +:+ template_scenario d t +:+ thresholds_text).
  assert (Hb : passes "};" false body true).
  { unfold body. eapply passes_app; [pass_constant|]. eapply passes_app; [by apply scenario_passes|pass_constant]. }
  assert (E : "export const options = {" +:+ "
  scenarios: {
" +:+ template_scenario d t +:+ thresholds_text +:+ "};" +:+ "
" +:+ rest = "export const options = {" +:+ (body +:+ "};
" +:+ rest)).
  { unfold body. rewrite !string_app_assoc. reflexivity. }
  rewrite E, options_opened. destruct Hb as [Hq Hf]. rewrite close_quiet by done. rewrite Hf. reflexivity.
Qed.

Definition quiet_number (c : Ascii.ascii) : bool := negb (byte_of c =? 10) && negb (Ascii.eqb c (chr 104)).

Lemma sleep_text x : f_lt f_zero x = true -> every quiet_number (format_float x) = true.
Proof.
  intros [Hn| ->]%number_sleep; [|done]. eapply every_impl; [|exact Hn]. intros c Hc. unfold quiet_number.
  unfold number_char in Hc. apply andb_true_iff. rewrite !negb_true_iff, Z.eqb_neq. split.
  - apply orb_true_iff in Hc as [Hc%between_spec|Hc%Z.eqb_eq]; lia.
  - apply Ascii.eqb_neq. intros ->. discriminate.
Qed.

Lemma sleep_break x : f_lt f_zero x = true -> no_break (format_float x) = true.
Proof. intros Hx%sleep_text. eapply every_impl; [|exact Hx]. by intros c [? _]%andb_prop. Qed.

Lemma sleep_line_passes indent x : no_break indent = true -> passes "export" true (indent +:+ "sleep(") false ->
  passes "export" true (sleep_line indent x) true.
Proof.
  intros Hi Hp. unfold sleep_line. destruct (f_lt f_zero x) eqn:Hx; [|by split].
  rewrite <- string_app_assoc. eapply passes_app; [exact Hp|].
  eapply passes_app; [by apply passes_plain, sleep_break|pass_constant].
Qed.

(** The function of a virtual user behind its first words. *)
Definition after_default : string := Eval vm_compute in String.substring 24 (String.length without_token_text) without_token_text.

Lemma default_function : without_token_text = "
" +:+ "export default function" +:+ after_default.
Proof. vm_compute. reflexivity. Qed.

Lemma strips_pass b s b' t r : passes "export" b s b' -> strips b' t r -> strips b (s +:+ t) (s +:+ r).
Proof. intros [Hq Hf] Ht. apply strips_quiet; [done|]. by rewrite Hf. Qed.

Lemma imports_pass : passes "export" true script_imports true.
Proof. pass_constant. Qed.

Lemma metrics_pass : passes "export" true builderMetricDeclarations true.
Proof. pass_constant. Qed.

Lemma functions_pass : passes "export" true request_functions true.
Proof. pass_constant. Qed.

Lemma after_default_passes : passes "export" false after_default true.
Proof. pass_constant. Qed.

Lemma without_answer_passes : passes "export" true without_answer_text true.
Proof. pass_constant. Qed.

Lemma answered_passes : passes "export" true answered_text true.
Proof. pass_constant. Qed.

#[local] Opaque script_imports builderMetricDeclarations request_functions after_default without_answer_text answered_text
  thresholds_text without_token_text.

(** What stands behind the first words of the function. *)
Definition function_rest (sleep : float64) : string :=
  after_default +:+ sleep_line "    " sleep +:+ without_answer_text +:+ sleep_line "    " sleep +:+ answered_text +:+
  (if f_lt f_zero sleep then "
" else "") +:+ sleep_line "  " sleep +:+ "}
".

Lemma execution_eq sleep : builderRequestExecutionTemplate sleep = "
" +:+ "export default function" +:+ function_rest sleep.
Proof. unfold builderRequestExecutionTemplate, function_rest. by rewrite default_function, !string_app_assoc. Qed.

Lemma function_rest_passes sleep : exists b, passes "export" false (function_rest sleep) b.
Proof.
  assert (H4 : passes "export" true (sleep_line "    " sleep) true) by (apply sleep_line_passes; [done|pass_constant]).
  assert (H2 : passes "export" true (sleep_line "  " sleep) true) by (apply sleep_line_passes; [done|pass_constant]).
  eexists. unfold function_rest. do 5 (eapply passes_app; [first [exact H4|apply after_default_passes|apply without_answer_passes|apply answered_passes]|]).
  eapply (passes_app _ _ _ true); [destruct (f_lt f_zero sleep); pass_constant|].
  eapply passes_app; [exact H2|pass_constant].
Qed.

Lemma execution_strips sleep : strips true (builderRequestExecutionTemplate sleep) (builderRequestExecutionTemplate sleep).
Proof.
  rewrite execution_eq. eapply strips_pass; [pass_constant|].
  apply (strips_default (function_rest sleep) ("xport default function" +:+ function_rest sleep)).
  eapply strips_pass; [pass_constant|]. destruct (function_rest_passes sleep) as [b Hb].
  rewrite <- (string_app_nil_r (function_rest sleep)). eapply strips_pass; [exact Hb|apply strips_nil].
Qed.

Lemma strip_generated d t : one_line d -> StripScriptOptions (render_script d t) = stripped_script (bt_Sleep d).
Proof.
  intros Hd. assert (Hs : strips true (render_script d t) (stripped_script (bt_Sleep d))).
  2: { apply Hs. lia. }
  unfold render_script, stripped_script, template_options. rewrite request_functions_eq.
  change options_open with ("
" +:+ "export const options = {"). rewrite !string_app_assoc.
  eapply strips_pass; [apply imports_pass|]. eapply strips_pass; [apply metrics_pass|].
  eapply strips_pass; [pass_constant|].
  eapply strips_block; [by apply options_block_generated| |].
  - rewrite !string_length_app. cbn [String.length]. lia.
  - eapply strips_pass; [apply functions_pass|apply execution_strips].
Qed.

(** ** What is injected into a generated script *)

Lemma counters_generated sleep : InjectStatusCounters (stripped_script sleep) = stripped_script sleep.
Proof.
  unfold InjectStatusCounters.
  assert (Hc : contains (stripped_script sleep) "status_4xx" = true) by
    (apply contains_app_r, contains_app_l; vm_compute; reflexivity).
  by rewrite Hc.
Qed.

Lemma http_imported_generated t : http_imported true (script_imports +:+ t) = true.
Proof.
  assert (Hh : http_import_here (script_imports +:+ t) = true) by (lazy; reflexivity).
  destruct (script_imports +:+ t) as [|c s]; [done|]. cbn [http_imported]. by rewrite Hh.
Qed.

Lemma sleep_line_free indent x : every (fun c => negb (Ascii.eqb c (chr 104))) indent = true ->
  every (fun c => negb (Ascii.eqb c (chr 104))) (sleep_line indent x) = true.
Proof.
  intros Hi. unfold sleep_line. destruct (f_lt f_zero x) eqn:Hx; [|done]. rewrite !every_app, Hi.
  assert (Hf : every (fun c => negb (Ascii.eqb c (chr 104))) (format_float x) = true).
  { eapply every_impl; [|by apply sleep_text]. by intros c [_ ?]%andb_prop. }
  by rewrite Hf.
Qed.

Lemma absent_texts :
  forallb (absent "handleSummary") [script_imports; builderMetricDeclarations; "
"; request_functions; without_token_text; without_answer_text; answered_text] = true.
Proof. vm_compute. reflexivity. Qed.

Lemma no_summary_handler sleep : contains (stripped_script sleep) "handleSummary" = false.
Proof.
  assert (Ha : forall s t, In s [script_imports; builderMetricDeclarations; "
"; request_functions; without_token_text; without_answer_text; answered_text] ->
    contains (s +:+ t) "handleSummary" = contains t "handleSummary").
  { intros s t Hs. apply contains_absent. pose proof absent_texts as Hall. rewrite forallb_forall in Hall. by apply Hall. }
  assert (Hl : forall indent t, every (fun c => negb (Ascii.eqb c (chr 104))) indent = true ->
    contains (sleep_line indent sleep +:+ t) "handleSummary" = contains t "handleSummary").
  { intros indent t Hi. by apply contains_free, sleep_line_free. }
  unfold stripped_script. rewrite (Ha script_imports), (Ha builderMetricDeclarations), (Ha "
"), (Ha request_functions) by (cbn [In]; tauto).
  unfold builderRequestExecutionTemplate. rewrite (Ha without_token_text) by (cbn [In]; tauto). rewrite Hl by done.
  rewrite (Ha without_answer_text) by (cbn [In]; tauto). rewrite Hl by done.
  rewrite (Ha answered_text) by (cbn [In]; tauto).
  assert (Hend : contains (sleep_line "  " sleep +:+ "}
") "handleSummary" = false) by (rewrite Hl by done; reflexivity).
  destruct (f_lt f_zero sleep); [|exact Hend]. rewrite (Ha "
") by (cbn [In]; tauto). exact Hend.
Qed.

Lemma summary_generated sleep :
  InjectSummaryExport (stripped_script sleep) = stripped_script sleep +:+ summary_export_text.
Proof.
  unfold InjectSummaryExport. rewrite no_summary_handler. unfold stripped_script at 1. by rewrite http_imported_generated.
Qed.

(** ** Adding something twice *)

Lemma contains_join sep x l sub : In x l -> contains x sub = true -> contains (GoStrings.join sep l) sub = true.
Proof.
  intros Hin Hx. induction l as [|y l IH]; [done|]. destruct l as [|z l].
  - destruct Hin as [->|[]]. exact Hx.
  - change (GoStrings.join sep (y :: z :: l)) with (y +:+ sep +:+ GoStrings.join sep (z :: l)).
    destruct Hin as [->|Hin]; [by apply contains_app_l|]. by apply contains_app_r, contains_app_r, IH.
Qed.

Lemma insert_after_last_In {A} (p : A -> bool) x l l' : insert_after_last p x l = Some l' -> In x l'.
Proof.
  revert l'. induction l as [|y l IH]; intros l'; [done|]. cbn [insert_after_last].
  destruct (insert_after_last p x l) as [k|].
  - intros [= <-]. right. by apply IH.
  - destruct (p y); [|done]. intros [= <-]. right. by left.
Qed.

Lemma add_counters_found content : contains (add_counters content) "status_4xx" = true.
Proof.
  assert (Hc : contains counterDefs "status_4xx" = true) by (vm_compute; reflexivity).
  unfold add_counters. destruct (insert_after_last _ _ _) as [lines|] eqn:E.
  - eapply contains_join; [by eapply insert_after_last_In|exact Hc].
  - by apply contains_app_l.
Qed.

(** Whatever the script, a second injection changes nothing: a template or a
    schedule may keep a script that has been prepared before. *)
Theorem injection_idem (content : string) :
  InjectStatusCounters (InjectStatusCounters content) = InjectStatusCounters content /\
  InjectSummaryExport (InjectSummaryExport content) = InjectSummaryExport content /\
  InjectStatusCounters (InjectSummaryExport (InjectStatusCounters content)) = InjectSummaryExport (InjectStatusCounters content).
Proof.
  assert (Hs : forall c, contains (InjectStatusCounters c) "status_4xx" || contains (InjectStatusCounters c) "status_5xx" = true).
  { intros c. unfold InjectStatusCounters. destruct (contains c "status_4xx" || contains c "status_5xx") eqn:E; [done|].
    by rewrite add_counters_found. }
  assert (He : forall c, contains (InjectSummaryExport c) "handleSummary" = true).
  { intros c. unfold InjectSummaryExport. destruct (contains c "handleSummary") eqn:E; [done|].
    apply contains_app_r. vm_compute. reflexivity. }
  assert (Hk : forall c sub, contains c sub = true -> contains (InjectSummaryExport c) sub = true).
  { intros c sub Hc. unfold InjectSummaryExport. destruct (contains c "handleSummary"); [done|].
    apply contains_app_l. destruct (http_imported true c); [done|by apply contains_app_r]. }
  split; [|split].
  - unfold InjectStatusCounters at 1. by rewrite Hs.
  - unfold InjectSummaryExport at 1. by rewrite He.
  - unfold InjectStatusCounters at 1. pose proof (Hs content) as H1. apply orb_prop in H1 as [H1|H1];
      rewrite (Hk _ _ H1), ?orb_true_r; done.
Qed.

(** Where the injection breaks a script: names imported over several lines, when
    that import is the last, and an import of the counter in double quotes. *)
Example broken_imports :
  InjectStatusCounters "import {
  check,
} from 'k6';
import { Rate, Counter } from 'k6/metrics';
import {
  sleep,
} from 'k6';
" = "import {
  check,
} from 'k6';
import { Rate, Counter } from 'k6/metrics';
import {

const status4xx = new Counter('status_4xx');
const status5xx = new Counter('status_5xx');

  sleep,
} from 'k6';
" /\
  InjectStatusCounters (quoted "import { Counter } from 'k6/metrics';") = "import { Counter } from 'k6/metrics';
" +:+ quoted "import { Counter } from 'k6/metrics';
" +:+ counterDefs.
Proof. vm_compute. split; reflexivity. Qed.
