(* ===== verification/ScriptFlow.v ===== *)
(** * The script a builder test sends to the workers

    The texts of [ScriptTexts] and [ScriptInject] as the instance the test
    handler is used with, and the file its preparation leaves for the workers:
    nothing of the request stands in it but the think time. *)

From S2P Require Import Prelude Programs GoStrings GoTime GoFloat Json JsonOut Model Payload Requests Store Recurrence.
From S2P Require Import Scheduler Overlap Completion Orchestrator Startup Ramping K6Config.
From S2P Require Import Summary Results MetricsV2 LoadTests Enrichment TestHandler.
From S2P Require Import ScriptTexts ScriptInject.

Open Scope Z_scope.
Open Scope go_scope.

#[export] Instance controller_texts : ScriptText := {|
  render := fun t d => render_script d t;
  TestHandler.InjectStatusCounters := ScriptInject.InjectStatusCounters;
  TestHandler.InjectSummaryExport := ScriptInject.InjectSummaryExport
|}.

(** The durations and the time unit of a request stand on one line. *)
Definition one_line_request (req : TestRequest) : Prop :=
  no_break (tr_TimeUnit req) = true /\ no_break (tr_Duration req) = true /\
  Forall (fun s => no_break (stg_Duration s) = true) (tr_Stages req).

Definition builder_script (req : TestRequest) : string := stripped_script (sleepVal req) +:+ summary_export_text.

Lemma generated_stripped cb req workers r : one_line_request req ->
  GenerateFromBuilder cb render req workers = Ok r ->
  StripScriptOptions (br_Script r) = stripped_script (sleepVal req).
Proof.
  intros (Hu & Hd & Hs). unfold GenerateFromBuilder.
  assert (Htotal : forall z, no_break (seconds_text z) = true).
  { intros z. unfold seconds_text, no_break. rewrite every_app. by rewrite (plain_itoa_line z : every _ _ = true). }
  assert (Hu' : no_break (if String.eqb (tr_TimeUnit req) "" then "1s" else tr_TimeUnit req) = true) by
    (by destruct (String.eqb (tr_TimeUnit req) "")).
  assert (Hd' : no_break (if String.eqb (tr_Duration req) "" then "1m" else tr_Duration req) = true) by
    (by destruct (String.eqb (tr_Duration req) "")).
  set (n := if workers <? 1 then 1 else workers). set (e := if String.eqb (tr_Executor req) "" then _ else _).
  destruct (String.eqb e "constant-vus"), (String.eqb e "ramping-vus"), (String.eqb e "constant-arrival-rate"),
    (String.eqb e "ramping-arrival-rate"); try done; intros [= <-];
    unfold generateConstantVUs, generateRampingVUs, generateConstantArrivalRate, generateRampingArrivalRate; cbv zeta;
    cbn [br_Script]; unfold render, controller_texts; (rewrite strip_generated; [reflexivity|]);
    (split; [|split; [|split]]); first [exact Hu'|exact Hd'|apply Htotal|exact Hs|reflexivity|by apply Forall_map|by constructor].
Qed.

(** The options of a builder test are never the empty text. *)
Lemma merged_config_nonempty `{JsonErrors} content env s : mergeEnvIntoConfigContent content env = Some (Ok s) -> s <> "".
Proof.
  unfold mergeEnvIntoConfigContent. repeat case_match; try done; intros [= <-]; discriminate.
Qed.

(** A write that succeeds is in the directory. *)
Lemma written_file name content w w' : file_op name (Some content) w = (None, w') -> tw_scripts w' !! name = Some content.
Proof.
  unfold file_op. destruct (tw_io w) as [|[e|] io]; intros [= <-]; cbn; by rewrite lookup_insert_eq.
Qed.

Section written.
Context `{TestConfig} `{JsonErrors} `{MapOrder}.

Lemma prepare_config_nonempty req s : tr_URL req <> "" -> prepare_config req = Some (Ok s) -> s <> "".
Proof.
  intros Hu. unfold prepare_config. rewrite (proj2 (String.eqb_neq _ _) Hu).
  unfold BuildBuilderConfig, EnrichBuilderConfig. destruct (blank (tr_ConfigContent req)); intros Hs;
    apply fmap_Some in Hs as ([s'|e] & Hm & [=]); subst; by eapply merged_config_nonempty.
Qed.

Lemma planned_script req workers prepared options : one_line_request req -> tr_ScriptContent req = "" -> tr_URL req <> "" ->
  plan_execution req workers = Some (Ok (prepared, options)) -> ep_scriptContent prepared = stripped_script (sleepVal req).
Proof.
  intros Hl Hs Hu. unfold plan_execution, prepare_script. rewrite Hs. cbn [String.eqb negb].
  destruct (GenerateFromBuilder _ _ _ _) as [r|e] eqn:Eg; [|done].
  destruct (prepare_config req) as [[config|e]|] eqn:Ec; [|done..]. cbn [mbind option_bind].
  pose proof (prepare_config_nonempty _ _ Hu Ec) as Hne. rewrite (proj2 (String.eqb_neq _ _) Hne). cbn [negb andb].
  rewrite (generated_stripped _ _ _ _ Hl Eg).
  destruct (prepare_payload req) as [[payload|e]|]; [|done..]. cbn [mbind option_bind].
  destruct (ValidateAndProcessConfig _ _ _); [|done]. by intros [= <- _].
Qed.

(** C12: what the workers are given to run for a builder test is one fixed text but
    for the think time, when the request's time unit and durations have no line
    break (with one, [hostile_time_unit] puts text of the request into the
    script): URL, headers, payload, credentials, rates and durations
    reach them through the options and the environment only, and no options
    block is left in the script. *)
Theorem builder_script_written req w prepared w' :
  one_line_request req -> tr_ScriptContent req = "" -> tr_URL req <> "" ->
  run (prepareExecution req) w = (Some (Ok prepared), w') ->
  tw_scripts w' !! "current-test.js" = Some (builder_script req) /\
  ep_scriptContent prepared = stripped_script (sleepVal req).
Proof.
  intros Hl Hs Hu. unfold prepareExecution. rewrite run_bind, run_act. destruct (set_orch _ w) as [[] w1].
  rewrite run_bind, run_act. destruct (plan_execution req (worker_count w1)) as [[[planned options]|e]|] eqn:Ep;
    [|by rewrite run_ret..].
  pose proof (planned_script _ _ _ _ Hl Hs Hu Ep) as Hp. rewrite run_bind.
  destruct (run _ w1) as [[e|] w2]; [by rewrite run_ret|]. rewrite run_bind.
  destruct (run _ w2) as [[e|] w3]; [by rewrite run_ret|]. cbv zeta. rewrite run_bind, run_act.
  destruct (WriteScript _ w3) as [[e|] w4] eqn:Ew; rewrite run_ret; [done|]. intros [= <- <-].
  apply written_file in Ew. unfold TestHandler.InjectStatusCounters, TestHandler.InjectSummaryExport, controller_texts in Ew |- *.
  cbn [ep_scriptContent] in Ew |- *. rewrite Hp, counters_generated in *. split; [|done].
  assert (E : forall s, ep_scriptContent (planned <| ep_scriptContent := s |>) = s) by done.
  rewrite E, summary_generated in Ew. exact Ew.
Qed.
End written.

(** ** A builder test *)

#[local] Instance one_config : TestConfig := {|
  internalControllerURL := "http://controller:8080"; completionBuffer := 30; TestHandler.SplitHostPort := fun _ => None
|}.
#[local] Instance some_error : JsonErrors := fun _ => "syntax error".
#[local] Instance maps : MapOrder := id_map_order.

Definition builder_request : TestRequest :=
  zero_TestRequest <| tr_ProjectName := "shop" |> <| tr_URL := "http://shop/" |> <| tr_Executor := "constant-arrival-rate" |>
    <| tr_Rate := 50 |> <| tr_TimeUnit := "1s" |> <| tr_Duration := "5m" |> <| tr_PreAllocatedVUs := 10 |> <| tr_MaxVUs := 40 |>
    <| tr_HTTPMethod := "POST" |> <| tr_PayloadJSON := quoted "{'q':'</script>'}" |>.

Definition two_workers : TestWorld := {|
  tw_world := mkWorld (mkDB ∅ ∅) [] 0 0 0 "";
  tw_tests := ∅;
  tw_orch := New ["worker1"; "worker2"] (2 * Second) 0 false "" 5665;
  tw_loops := ∅; tw_ramp := NewRampingManager; tw_registry := NewRegistry; tw_pending := ∅;
  tw_output := ∅; tw_scripts := ∅; tw_io := []; tw_scheduler := Some ∅
|}.

Definition succeeded {A B} (p : option (res A) * B) : bool := match p.1 with Some (Ok _) => true | _ => false end.

Lemma succeeded_ok {A B} (p : option (res A) * B) : succeeded p = true -> exists a, p = (Some (Ok a), p.2).
Proof. destruct p as [[[a|e]|] b]; [|done..]. by exists a. Qed.

Lemma prepared_ok : succeeded (run (prepareExecution builder_request) two_workers) = true.
Proof. vm_compute. reflexivity. Qed.

Lemma builder_script_written_witness :
  tw_scripts (run (prepareExecution builder_request) two_workers).2 !! "current-test.js" = Some (builder_script builder_request).
Proof.
  destruct (succeeded_ok _ prepared_ok) as [prepared E].
  assert (Hl : one_line_request builder_request) by (split; [reflexivity|]; split; [reflexivity|]; apply Forall_nil; exact I).
  assert (Hu : tr_URL builder_request <> "") by discriminate.
  exact (proj1 (builder_script_written builder_request two_workers prepared _ Hl eq_refl Hu E)).
Defined.

(** Without the hypothesis the text of the request gets into the script: the
    templates do not escape a time unit, and a line that closes the block leaves
    what follows it behind. *)
Definition hostile_unit : string := "1s',
};
evil();
({ a: {
//".

Example hostile_time_unit :
  match GenerateFromBuilder 30 render (builder_request <| tr_TimeUnit := hostile_unit |>) 2 with
  | Ok r => contains (StripScriptOptions (br_Script r)) "
evil();
"
  | Err _ => false
  end = true.
Proof. vm_compute. reflexivity. Qed.
