(* ===== verification/ScriptPayload.v ===== *)
(** * The request body as the generated script makes it

    The script a builder test runs on the workers prepares its body itself:
    [prepareRequestPayload] in the JavaScript of
    [controller/internal/scriptgen/scriptgen.go], a second implementation of
    what [BuildBuilderPayloadArtifacts] computes for the stored result.  This
    file has the JavaScript, and the theorem that both agree on the payloads
    both languages write alike.

    A JavaScript value that came out of [JSON.parse] is a [json]; the members
    of an object stand in the order in which they were created.  Escapes of
    unpaired surrogates, which Go replaces and JavaScript keeps, are read as Go
    reads them, and the slice that takes filler away counts bytes. *)

From S2P Require Export Prelude GoStrings GoFloat Json JsonOut Model Payload K6Config.
From S2P Require Import EnvFileSpec ScriptInject.

Open Scope Z_scope.
Open Scope go_scope.

(** ** Objects *)

(** [o[k] = v] keeps the place of a member that is there. *)
Fixpoint js_set {A} (k : string) (v : A) (o : list (string * A)) : list (string * A) :=
  match o with
  | [] => [(k, v)]
  | (k', w) :: o => if String.eqb k' k then (k', v) :: o else (k', w) :: js_set k v o
  end.

Definition js_object {A} (l : list (string * A)) : list (string * A) :=
  foldl (fun o kv => js_set kv.1 kv.2 o) [] l.

(** Keys that are array indices come first, in the order of their numbers. *)
Definition array_index (k : string) : option Z :=
  match parse_int k with
  | Some n => if (0 <=? n) && (n <? 4294967295) && String.eqb (itoa n) k then Some n else None
  | None => None
  end.

Definition is_index {A} (p : string * A) : bool := match array_index p.1 with Some _ => true | None => false end.

Definition index_le {A} (p q : string * A) : Prop := default 0 (array_index p.1) <= default 0 (array_index q.1).
#[export] Instance index_le_dec {A} : RelDecision (@index_le A).
Proof. intros p q. unfold index_le. apply _. Defined.

(** The members in the order of [Object.keys]. *)
Definition own_members {A} (o : list (string * A)) : list (string * A) :=
  merge_sort index_le (List.filter is_index o) ++ List.filter (fun p => negb (is_index p)) o.

(** ** Order of texts *)

(** The UTF-16 code units of a text. *)
Fixpoint code_units (s : string) : list Z :=
  match s with
  | EmptyString => []
  | String a s1 =>
    let x := byte_of a in
    if x <? 128 then x :: code_units s1 else
    match s1 with
    | String b s2 =>
      let y := byte_of b - 128 in
      if seq2 a b then ((x - 192) * 64 + y) :: code_units s2 else
      match s2 with
      | String c s3 =>
        let z := byte_of c - 128 in
        if seq3 a b c then ((x - 224) * 4096 + y * 64 + z) :: code_units s3 else
        match s3 with
        | String d s4 =>
          if seq4 a b c d then
            let r := (x - 240) * 262144 + y * 4096 + z * 64 + (byte_of d - 128) - 65536 in
            (55296 + r / 1024) :: (56320 + r mod 1024) :: code_units s4
          else 65533 :: code_units s1
        | EmptyString => 65533 :: code_units s1
        end
      | EmptyString => 65533 :: code_units s1
      end
    | EmptyString => 65533 :: code_units s1
    end
  end.

Fixpoint units_leb (l k : list Z) : bool :=
  match l, k with
  | [], _ => true
  | _ :: _, [] => false
  | x :: l, y :: k => (x <? y) || ((x =? y) && units_leb l k)
  end.

(** The order of [sort] without a comparison. *)
Definition js_key_le {A} (p q : string * A) : Prop := units_leb (code_units p.1) (code_units q.1) = true.
#[export] Instance js_key_le_dec {A} : RelDecision (@js_key_le A).
Proof. intros p q. unfold js_key_le. apply _. Defined.

(** ** [JSON] *)

(** [JSON.parse] fills objects member by member; a key that comes again keeps
    its place and gets the later value. *)
Fixpoint js_value (j : json) : json :=
  match j with
  | JArr l => JArr (map js_value l)
  | JObj l => JObj (js_object (map (fun kv => (kv.1, js_value kv.2)) l))
  | _ => j
  end.

Definition JSON_parse (s : string) : option json := js_value <$> parse_json s.

Definition js_escape_byte (c : Ascii.ascii) : string :=
  let b := byte_of c in
  if (b =? 34) || (b =? 92) then backslash +:+ String c ""
  else if b =? 8 then backslash +:+ "b"
  else if b =? 9 then backslash +:+ "t"
  else if b =? 10 then backslash +:+ "n"
  else if b =? 12 then backslash +:+ "f"
  else if b =? 13 then backslash +:+ "r"
  else if b <? 32 then backslash +:+ "u00" +:+ String (hex_digit (b / 16)) (String (hex_digit (b mod 16)) "")
  else String c "".

Fixpoint js_escape (s : string) : string :=
  match s with
  | EmptyString => ""
  | String a s => js_escape_byte a +:+ js_escape s
  end.

Definition js_string (s : string) : string := quote +:+ js_escape s +:+ quote.

(** Both zeros are ["0"], the infinities (a literal out of range) ["null"]; the
    other numbers are written as Go writes them, which follows the rules of
    JavaScript. *)
Definition js_number (lit : string) : string :=
  match num_float lit with
  | Some (S754_zero _) => "0"
  | Some x => marshal_float x
  | None => "null"
  end.

Definition js_member (p : string * string) : string := js_string p.1 +:+ ":" +:+ p.2.

Fixpoint JSON_stringify (v : json) : string :=
  match v with
  | JNull => "null"
  | JBool b => if b then "true" else "false"
  | JNum lit => js_number lit
  | JStr s => js_string s
  | JArr l => "[" +:+ comma_list (map JSON_stringify l) +:+ "]"
  | JObj o => "{" +:+ comma_list (map js_member (own_members (map (fun kv => (kv.1, JSON_stringify kv.2)) o))) +:+ "}"
  end.

(** ** The functions of the script *)

Fixpoint canonicalizePayloadValue (v : json) : json :=
  match v with
  | JArr l => JArr (map canonicalizePayloadValue l)
  | JObj o =>
    JObj (js_object (merge_sort js_key_le (own_members (map (fun kv => (kv.1, canonicalizePayloadValue kv.2)) o))))
  | _ => v
  end.

Definition serializePayload (v : json) : string := JSON_stringify (canonicalizePayloadValue v).

Definition js_members (v : json) : option (list (string * json)) :=
  match v with JObj o => Some o | _ => None end.

Definition js_set_padding (s : string) (o : list (string * json)) : list (string * json) :=
  js_set payloadPaddingField (JStr s) o.

(** [s.slice(0, e)]: a negative end counts from the end of the text. *)
Definition js_slice (s : string) (e : Z) : string :=
  String.substring 0 (Z.to_nat (if e <? 0 then str_len s + e else e)) s.

Fixpoint js_size_loop (guard : nat) (payload : list (string * json)) (content : string) (target : Z) : res string :=
  let actualBytes := str_len content in
  if actualBytes =? target then Ok content
  else
    match guard with
    | O => Err "failed to size JSON payload to the exact target byte length"
    | S guard =>
      let diff := target - actualBytes in
      let currentPadding := padding_of payload in
      let payload :=
        if 0 <? diff then js_set_padding (currentPadding +:+ xs (Z.to_nat diff)) payload
        else js_set_padding (js_slice currentPadding (str_len currentPadding + diff)) payload in
      js_size_loop guard payload (serializePayload (JObj payload)) target
    end.

(** The text of a value that has to have [target] bytes. *)
Definition js_sized (parsed : json) (target : Z) : res string :=
  let content := serializePayload parsed in
  let actualBytes := str_len content in
  if target =? 0 then Ok content
  else
    match parsed with
    | JObj _ =>
      if target <? actualBytes then Err too_small
      else
        let payload := default [] (js_members (canonicalizePayloadValue parsed)) in
        match jget payloadPaddingField payload with
        | Some (JNull | JBool _ | JNum _ | JArr _ | JObj _) =>
          Err "reserved payload padding field must be a string when present"
        | _ =>
          if actualBytes <? target then
            let payload := js_set_padding (padding_of payload +:+ xs (Z.to_nat (target - actualBytes))) payload in
            js_size_loop 8 payload (serializePayload (JObj payload)) target
          else js_size_loop 8 payload content target
        end
    | _ =>
      if negb (actualBytes =? target)
      then Err "payload_target_kib requires an object payload unless the serialized JSON already matches the exact target size"
      else Ok content
    end.

Record PreparedPayload := mkPrepared {
  pp_sourceJSON : string;
  pp_content : string;
  pp_targetBytes : Z;
  pp_actualBytes : Z
}.

(** An error ends the script before its first request. *)
Definition prepareRequestPayload (HTTP_METHOD PAYLOAD_SOURCE_JSON : string) (PAYLOAD_TARGET_BYTES : Z) : res PreparedPayload :=
  if String.eqb HTTP_METHOD "GET" then Ok (mkPrepared PAYLOAD_SOURCE_JSON "" PAYLOAD_TARGET_BYTES 0)
  else
    let hasExplicitPayload := negb (String.eqb PAYLOAD_SOURCE_JSON "") in
    if negb hasExplicitPayload && (PAYLOAD_TARGET_BYTES =? 0) then Ok (mkPrepared "" "" 0 0)
    else
      match (if hasExplicitPayload then JSON_parse PAYLOAD_SOURCE_JSON else Some (JObj [])) with
      | None => Err "SyntaxError"
      | Some parsed =>
        match js_sized parsed PAYLOAD_TARGET_BYTES with
        | Err e => Err e
        | Ok content => Ok (mkPrepared PAYLOAD_SOURCE_JSON content PAYLOAD_TARGET_BYTES (str_len content))
        end
      end.

(** ** The settings of the script *)

(** [__ENV] on a worker: the variables of the environment file. *)
Definition worker_env (envVars : gmap string string) : gmap string string :=
  list_to_map (map passed (map_to_list envVars)).

Definition envString (env : gmap string string) (name fallback : string) : string := default fallback (env !! name).

(** Characters a number in JavaScript can have. *)
Definition numeric_char (c : Ascii.ascii) : bool :=
  between 48 57 c || existsb (Z.eqb (byte_of c)) [43; 45; 46] || between 65 70 c || between 97 102 c ||
  existsb (Z.eqb (byte_of c)) [73; 110; 105; 116; 121; 88; 120; 79; 111].

Fixpoint all_numeric (s : string) : bool :=
  match s with EmptyString => true | String c s => numeric_char c && all_numeric s end.

(** The integers up to this one are numbers of JavaScript. *)
Definition max_exact : Z := 9007199254740992.

(** [Number] of a text: 0 when it is blank, an integer, or not a number (the
    inner [None]).  Of fractions, powers, other bases and integers that are
    rounded, which the controller does not write, nothing is said (the outer
    [None]). *)
Definition js_Number (s : string) : option (option Z) :=
  let s := trim_space s in
  if String.eqb s "" then Some (Some 0)
  else match parse_int s with
       | Some n => if Z.abs n <=? max_exact then Some (Some n) else None
       | None => if all_numeric s then None else Some None
       end.

(** The fallback is for a text that is no number; a variable that is not set is
    the number of an empty text. *)
Definition envNumber (env : gmap string string) (name : string) (fallback : Z) : option Z :=
  parsed ← js_Number (envString env name "");
  Some (default fallback parsed).

Definition decodePayloadSourceJSON (rawValue encodedValue : string) : string :=
  if String.eqb encodedValue "" then rawValue else unbase64 encodedValue.

Definition script_payload (env : gmap string string) : option (res PreparedPayload) :=
  n ← envNumber env "PAYLOAD_TARGET_BYTES" 0;
  Some (prepareRequestPayload (to_upper (envString env "HTTP_METHOD" "GET"))
    (decodePayloadSourceJSON (envString env "PAYLOAD_SOURCE_JSON" "") (envString env "PAYLOAD_SOURCE_JSON_B64" ""))
    (Z.max 0 n)).

(** ** Payloads both languages write alike *)

(** Characters that both encoders escape the same way: Go also escapes the
    HTML characters and the two line separators, and writes backspace and form
    feed as numbers. *)
Definition alike_byte (c : Ascii.ascii) : bool :=
  let b := byte_of c in negb ((b =? 8) || (b =? 12) || (b =? 38) || (b =? 60) || (b =? 62)).

Fixpoint portable_text (s : string) : bool :=
  match s with
  | EmptyString => true
  | String a s1 =>
    if byte_of a <? 128 then alike_byte a && portable_text s1 else
    match s1 with
    | String b s2 =>
      if seq2 a b then portable_text s2 else
      match s2 with
      | String c s3 =>
        if seq3 a b c then
          match line_separator a b c with Some _ => false | None => portable_text s3 end
        else match s3 with String d s4 => seq4 a b c d && portable_text s4 | EmptyString => false end
      | EmptyString => false
      end
    | EmptyString => false
    end
  end.

Fixpoint ascii_text (s : string) : bool :=
  match s with EmptyString => true | String c s => (byte_of c <? 128) && ascii_text s end.

(** Keys: ASCII, no array index, not the accessor of the prototype. *)
Definition portable_key (k : string) : bool :=
  ascii_text k && portable_text k && negb (is_index (k, tt)) && negb (String.eqb k "__proto__").

(** Numbers in range; a negative zero loses its sign in JavaScript. *)
Definition portable_number (lit : string) : bool :=
  match num_float lit with Some (S754_zero true) | None => false | Some _ => true end.

Fixpoint portable (j : json) : bool :=
  match j with
  | JNull | JBool _ => true
  | JNum lit => portable_number lit
  | JStr s => portable_text s
  | JArr l => forallb portable l
  | JObj l => forallb (fun kv => portable_key kv.1 && portable kv.2) l
  end.

(** The reserved member, if there is one, is a text. *)
Definition padding_text (j : json) : bool :=
  match j with
  | JObj l => match jget payloadPaddingField l with Some (JStr _) | None => true | Some _ => false end
  | _ => true
  end.

(** ** Texts and numbers *)

Lemma js_escape_high a s : (byte_of a <? 128) = false -> js_escape (String a s) = String a (js_escape s).
Proof.
  intros Ha. bool_prop. cbn [js_escape]. unfold js_escape_byte.
  rewrite !(proj2 (Z.eqb_neq _ _)) by lia. cbn [orb]. by rewrite (proj2 (Z.ltb_ge _ _)) by lia.
Qed.

Lemma cont_high c : is_cont c = true -> (byte_of c <? 128) = false.
Proof. unfold is_cont, between. intros H. bool_prop. apply Z.ltb_ge. lia. Qed.

Lemma seq2_high a b : seq2 a b = true -> (byte_of b <? 128) = false.
Proof. unfold seq2. intros H. bool_prop. by apply cont_high. Qed.

Lemma between_high lo hi c : 128 <= lo -> between lo hi c = true -> (byte_of c <? 128) = false.
Proof. unfold between. intros Hlo H. bool_prop. apply Z.ltb_ge. lia. Qed.

Lemma seq3_high a b c : seq3 a b c = true -> (byte_of b <? 128) = false /\ (byte_of c <? 128) = false.
Proof.
  unfold seq3. intros H. apply andb_true_iff in H as [H Hc]. split; [|by apply cont_high].
  repeat (apply orb_true_iff in H as [H|H]); apply andb_true_iff in H as [_ H];
    first [by apply cont_high|exact (between_high 160 191 _ ltac:(lia) H)|exact (between_high 144 191 _ ltac:(lia) H)
      |exact (between_high 128 159 _ ltac:(lia) H)|exact (between_high 128 143 _ ltac:(lia) H)].
Qed.

Lemma seq4_high a b c d : seq4 a b c d = true ->
  (byte_of b <? 128) = false /\ (byte_of c <? 128) = false /\ (byte_of d <? 128) = false.
Proof.
  unfold seq4. intros H. apply andb_true_iff in H as [H Hd]. apply andb_true_iff in H as [H Hc].
  split; [|split; by apply cont_high]. 
  repeat (apply orb_true_iff in H as [H|H]); apply andb_true_iff in H as [_ H];
    first [by apply cont_high|exact (between_high 160 191 _ ltac:(lia) H)|exact (between_high 144 191 _ ltac:(lia) H)
      |exact (between_high 128 159 _ ltac:(lia) H)|exact (between_high 128 143 _ ltac:(lia) H)].
Qed.

Lemma alike_escape a : alike_byte a = true -> js_escape_byte a = escape_byte a.
Proof.
  unfold alike_byte, js_escape_byte, escape_byte. intros H. apply negb_true_iff in H.
  repeat (apply orb_false_iff in H as [H ?]).
  repeat match goal with E : (_ =? _) = false |- _ => rewrite !E; clear E end.
  destruct (byte_of a =? 34), (byte_of a =? 92); try done. cbn [orb].
  destruct (Z.eqb_spec (byte_of a) 9) as [->|_]; [done|].
  destruct (byte_of a =? 10), (byte_of a =? 13); try done. by rewrite !orb_false_r.
Qed.

Lemma portable_escape s : portable_text s = true -> js_escape s = escape s.
Proof.
  induction s as [s IH] using string_len_ind. destruct s as [|a s1]; [done|]. rewrite escape_step. cbn [portable_text].
  destruct (byte_of a <? 128) eqn:Ea.
  { intros H. bool_prop. cbn [js_escape]. rewrite alike_escape by done. f_equal. apply IH; [cbn; lia|done]. }
  rewrite js_escape_high by done. destruct s1 as [|b s2]; [done|].
  destruct (seq2 a b) eqn:E2.
  { intros H. rewrite js_escape_high by (by eapply seq2_high). do 2 f_equal. apply IH; [cbn; lia|done]. }
  destruct s2 as [|c s3]; [done|]. destruct (seq3 a b c) eqn:E3.
  { apply seq3_high in E3 as [Hb Hc]. destruct (line_separator a b c); [done|]. intros H.
    rewrite !js_escape_high by done. do 3 f_equal. apply IH; [cbn; lia|done]. }
  destruct s3 as [|d s4]; [done|]. destruct (seq4 a b c d) eqn:E4; [|done].
  apply seq4_high in E4 as (Hb & Hc & Hd). cbn [andb]. intros H. rewrite !js_escape_high by done.
  do 4 f_equal. apply IH; [cbn; lia|done].
Qed.

Lemma portable_string s : portable_text s = true -> js_string s = marshal_string s.
Proof. intros H. unfold js_string, marshal_string. by rewrite portable_escape. Qed.

Lemma portable_number_text lit : portable_number lit = true -> js_number lit = marshal (JNum lit).
Proof.
  unfold portable_number, js_number. cbn [marshal]. by destruct (num_float lit) as [[[|]|[|]| |]|].
Qed.

Lemma portable_xs s n : portable_text s = true -> portable_text (s +:+ xs n) = true.
Proof.
  assert (Hx : forall n, portable_text (xs n) = true) by (clear; induction n as [|n IH]; [done|exact IH]).
  induction s as [s IH] using string_len_ind. destruct s as [|a s1]; [intros _; apply Hx|].
  change (String a s1 +:+ xs n) with (String a (s1 +:+ xs n)). cbn [portable_text].
  destruct (byte_of a <? 128) eqn:Ea.
  { intros H. bool_prop. apply andb_true_iff. split; [done|]. apply IH; [cbn; lia|done]. }
  destruct s1 as [|b s2]; [done|]. change (String b s2 +:+ xs n) with (String b (s2 +:+ xs n)). cbn beta iota.
  destruct (seq2 a b); [intros H; apply IH; [cbn; lia|done]|].
  destruct s2 as [|c s3]; [done|]. change (String c s3 +:+ xs n) with (String c (s3 +:+ xs n)). cbn beta iota.
  destruct (seq3 a b c); [destruct (line_separator a b c); [done|]; intros H; apply IH; [cbn; lia|done]|].
  destruct s3 as [|d s4]; [done|]. change (String d s4 +:+ xs n) with (String d (s4 +:+ xs n)). cbn beta iota.
  intros H. bool_prop. apply andb_true_iff. split; [done|]. apply IH; [cbn; lia|done].
Qed.

(** ** Members in order *)

#[export] Instance key_le_trans {A} : Transitive (@key_le A).
Proof. intros p q r. unfold key_le. apply transitivity. Qed.

#[export] Instance key_le_total {A} : Total (@key_le A).
Proof. intros p q. unfold key_le. apply total, _. Qed.

Lemma units_leb_total l k : units_leb l k = true \/ units_leb k l = true.
Proof.
  revert k. induction l as [|x l IH]; intros [|y k]; cbn; auto.
  destruct (IH k) as [H|H]; rewrite H; destruct (Z.lt_trichotomy x y) as [L|[L|L]];
    rewrite ?(proj2 (Z.ltb_lt _ _) L), ?L, ?Z.eqb_refl, ?orb_true_r; auto.
Qed.

#[export] Instance js_key_le_total {A} : Total (@js_key_le A).
Proof. intros p q. apply units_leb_total. Qed.

Lemma units_leb_ascii s t : ascii_text s = true -> ascii_text t = true ->
  units_leb (code_units s) (code_units t) = string_leb s t.
Proof.
  revert t. induction s as [|a s IH]; intros [|b t]; cbn [ascii_text code_units]; intros Hs Ht;
    [done| | |]; repeat match goal with H : _ && _ = true |- _ => apply andb_true_iff in H as [? ?] end.
  - by destruct (_ <? 128).
  - match goal with H : (byte_of a <? 128) = true |- _ => rewrite H end. done.
  - repeat match goal with H : (byte_of _ <? 128) = true |- _ => rewrite H; clear H end.
    cbn [units_leb string_leb]. by rewrite IH.
Qed.

(** Members with distinct keys have one sorted order. *)
Lemma sorted_members {A} (l k : list (string * A)) :
  NoDup l.*1 -> Sorted key_le l -> Sorted key_le k -> l ≡ₚ k -> l = k.
Proof.
  intros Hn Hl Hk Hp. apply (Sorted_unique_strong key_le); [|done..].
  intros p q Hin Hin' Hpq Hqp. assert (E : p.1 = q.1) by by apply (anti_symm string_le).
  rewrite <- Hp in Hin'. destruct p as [x v], q as [y w]. cbn in E. subst y. f_equal.
  clear -Hn Hin Hin'. induction l as [|[z u] l IH]; [by apply elem_of_nil in Hin|].
  cbn in Hn. apply NoDup_cons in Hn as [Hz Hn]. apply elem_of_cons in Hin as [Hin|Hin], Hin' as [Hin'|Hin'].
  - congruence.
  - injection Hin as -> _. destruct Hz. by apply (list_elem_of_fmap_2 fst) in Hin'.
  - injection Hin' as -> _. destruct Hz. by apply (list_elem_of_fmap_2 fst) in Hin.
  - auto.
Qed.

Lemma Sorted_mono {A} (R S : A -> A -> Prop) l :
  (forall x y, x ∈ l -> y ∈ l -> R x y -> S x y) -> Sorted R l -> Sorted S l.
Proof.
  intros HRS. induction 1 as [|x l Hl IH Hx]; constructor.
  - apply IH. intros y z Hy Hz. apply HRS; by constructor.
  - destruct Hx as [|y l Hxy]; constructor. apply HRS; [left|right; left|done].
Qed.

Definition portable_keys {A} (l : list (string * A)) : Prop := Forall (fun p => portable_key p.1 = true) l.

Lemma portable_keys_perm {A} (l k : list (string * A)) : l ≡ₚ k -> portable_keys l -> portable_keys k.
Proof. unfold portable_keys. by intros ->. Qed.

Lemma portable_keys_map {A B} (f : A -> B) (l : list (string * A)) :
  portable_keys l -> portable_keys (map (fun kv => (kv.1, f kv.2)) l).
Proof. unfold portable_keys. rewrite Forall_map. done. Qed.

Lemma portable_key_parts k : portable_key k = true ->
  ascii_text k = true /\ portable_text k = true /\ is_index (k, tt) = false /\ k <> "__proto__".
Proof. unfold portable_key. intros H. bool_prop. done. Qed.

Lemma own_portable {A} (l : list (string * A)) : portable_keys l -> own_members l = l.
Proof.
  unfold own_members. intros H.
  assert (Hi : Forall (fun p => is_index p = false) l).
  { eapply Forall_impl; [exact H|]. intros [k v] Hk. apply portable_key_parts in Hk. exact (proj1 (proj2 (proj2 Hk))). }
  clear H. assert (E1 : List.filter is_index l = []) by (induction Hi as [|p l E _ IH]; cbn; [|rewrite E]; done).
  assert (E2 : List.filter (fun p => negb (is_index p)) l = l)
    by (clear E1; induction Hi as [|p l E _ IH]; cbn; [done|rewrite E; cbn; by rewrite IH]).
  by rewrite E1, E2.
Qed.

Lemma sort_portable {A} (l k : list (string * A)) : NoDup l.*1 -> portable_keys l -> l ≡ₚ k ->
  merge_sort js_key_le l = sort_keys k.
Proof.
  intros Hn Hk Hp. assert (Hs : merge_sort js_key_le l ≡ₚ l) by apply merge_sort_Permutation.
  apply sorted_members.
  - by rewrite Hs.
  - apply (Sorted_mono js_key_le); [|apply (Sorted_merge_sort _)].
    intros p q Hin Hin'. rewrite Hs in Hin, Hin'. unfold js_key_le, key_le, string_le.
    pose proof (proj1 (Forall_forall _ _) Hk) as Hk'.
    rewrite units_leb_ascii; [done|by apply portable_key_parts, Hk'..].
  - apply (Sorted_merge_sort _).
  - unfold sort_keys. by rewrite Hs, merge_sort_Permutation.
Qed.

Lemma sort_keys_perm {A} (l k : list (string * A)) : NoDup l.*1 -> l ≡ₚ k -> sort_keys l = sort_keys k.
Proof.
  intros Hn Hp. unfold sort_keys. apply sorted_members; rewrite ?merge_sort_Permutation; [|apply (Sorted_merge_sort _)..|]; done.
Qed.

(** *** Objects *)

Lemma js_set_keys {A} k (v : A) o : (js_set k v o).*1 ≡ₚ if has_key k o then o.*1 else k :: o.*1.
Proof.
  induction o as [|[k' w] o IH]; [done|]. cbn. destruct (String.eqb k' k) eqn:E; cbn.
  - bool_prop. by subst.
  - rewrite IH. destruct (has_key k o); [done|]. apply Permutation_swap.
Qed.

Lemma has_key_elem {A} k (o : list (string * A)) : has_key k o = true <-> k ∈ o.*1.
Proof.
  induction o as [|[k' w] o IH]; cbn; [split; [done|by intros ?%elem_of_nil]|].
  rewrite orb_true_iff, IH, elem_of_cons, String.eqb_eq. naive_solver.
Qed.

Lemma has_key_not {A} k (o : list (string * A)) : has_key k o = false <-> k ∉ o.*1.
Proof. rewrite <- has_key_elem. by destruct (has_key k o). Qed.

Lemma js_set_nodup {A} k (v : A) o : NoDup o.*1 -> NoDup (js_set k v o).*1.
Proof.
  intros H. rewrite js_set_keys. destruct (has_key k o) eqn:E; [done|]. apply NoDup_cons. split; [|done].
  by apply has_key_not.
Qed.

Lemma js_set_new {A} k (v : A) o : has_key k o = false -> js_set k v o = o ++ [(k, v)].
Proof. induction o as [|[k' w] o IH]; cbn; [done|]. intros H. apply orb_false_iff in H as [-> H]. by rewrite IH. Qed.

Lemma filter_absent {A} k (o : list (string * A)) : has_key k o = false -> List.filter (other_key k) o = o.
Proof.
  induction o as [|[k' w] o IH]; [done|]. intros H. cbn in H. apply orb_false_iff in H as [H1 H2].
  by rewrite filter_other_cons, H1, IH.
Qed.

Lemma js_set_filter {A} k (v : A) o : NoDup o.*1 -> js_set k v o ≡ₚ List.filter (other_key k) o ++ [(k, v)].
Proof.
  induction o as [|[k' w] o IH]; [done|]. cbn. intros Hn. apply NoDup_cons in Hn as [Hk Hn].
  change (other_key k (k', w)) with (negb (String.eqb k' k)).
  destruct (String.eqb k' k) eqn:E; cbn.
  - bool_prop. subst. rewrite filter_absent by by apply has_key_not. apply Permutation_cons_append.
  - by rewrite IH.
Qed.

Lemma js_object_snoc {A} (l : list (string * A)) kv : js_object (l ++ [kv]) = js_set kv.1 kv.2 (js_object l).
Proof. unfold js_object. by rewrite foldl_app. Qed.

Lemma js_object_nodup {A} (l : list (string * A)) : NoDup (js_object l).*1.
Proof. induction l as [|kv l IH] using rev_ind; [constructor|]. rewrite js_object_snoc. by apply js_set_nodup. Qed.

Lemma dedupe_last {A} k (v : A) l : dedupe (l ++ [(k, v)]) = List.filter (other_key k) (dedupe l) ++ [(k, v)].
Proof.
  induction l as [|[k' w] l IH]; [done|]. cbn. rewrite IH.
  assert (E : has_key k' (l ++ [(k, v)]) = has_key k' l || String.eqb k k').
  { clear. induction l as [|[k0 u] l IH]; cbn; [by rewrite orb_false_r|]. by rewrite IH, orb_assoc. }
  rewrite E. destruct (has_key k' l); [done|]. cbn. change (other_key k (k', w)) with (negb (String.eqb k' k)).
  rewrite String.eqb_sym. by destruct (String.eqb k' k).
Qed.

Lemma js_object_dedupe {A} (l : list (string * A)) : js_object l ≡ₚ dedupe l.
Proof.
  induction l as [|[k v] l IH] using rev_ind; [done|].
  rewrite js_object_snoc, dedupe_last, js_set_filter by apply js_object_nodup. cbn. apply Permutation_app_tail.
  by apply filter_perm.
Qed.

Lemma dedupe_nodup {A} (l : list (string * A)) : NoDup (dedupe l).*1.
Proof. rewrite <- js_object_dedupe. apply js_object_nodup. Qed.

Lemma dedupe_incl {A} (l : list (string * A)) p : p ∈ dedupe l -> p ∈ l.
Proof.
  induction l as [|[k v] l IH]; cbn; [done|]. destruct (has_key k l); [right; auto|].
  intros [->|Hp]%elem_of_cons; [left|right; auto].
Qed.

Lemma js_object_distinct {A} (l : list (string * A)) : NoDup l.*1 -> js_object l = l.
Proof.
  induction l as [|[k v] l IH] using rev_ind; [done|]. rewrite fmap_app, js_object_snoc. cbn.
  intros (Hl & Hk & _)%NoDup_app. rewrite IH by done. apply js_set_new, has_key_not.
  intros H. apply (Hk k H). by left.
Qed.

(** ** The serialised values *)

(** Induction on values: what holds of the items and members holds of the whole. *)
Lemma json_values_ind (P : json -> Prop) :
  P JNull -> (forall b, P (JBool b)) -> (forall lit, P (JNum lit)) -> (forall s, P (JStr s)) ->
  (forall l, Forall P l -> P (JArr l)) -> (forall l, Forall (fun kv => P kv.2) l -> P (JObj l)) -> forall j, P j.
Proof.
  intros Hn Hb Hi Hs Ha Ho. fix IH 1. intros [|b|lit|s|l|l]; [done|apply Hb|apply Hi|apply Hs|apply Ha|apply Ho].
  - induction l as [|j l IHl]; constructor; [apply IH|exact IHl].
  - induction l as [|[k j] l IHl]; constructor; [apply IH|exact IHl].
Qed.

Definition texts_of (f : json -> string) (o : list (string * json)) : list (string * string) :=
  map (fun kv => (kv.1, f kv.2)) o.

Lemma texts_keys f o : (texts_of f o).*1 = o.*1.
Proof. unfold texts_of. rewrite <- list_fmap_compose. by apply list_fmap_ext. Qed.

#[export] Instance texts_of_proper f : Proper ((≡ₚ) ==> (≡ₚ)) (texts_of f).
Proof. intros o o' H. unfold texts_of. by rewrite H. Qed.

Lemma canonical_members o : NoDup o.*1 -> portable_keys o ->
  canonicalizePayloadValue (JObj o) = JObj (sort_keys (map (fun kv => (kv.1, canonicalizePayloadValue kv.2)) o)).
Proof.
  intros Hn Hk. cbn [canonicalizePayloadValue]. set (o' := map _ o).
  assert (Hn' : NoDup o'.*1) by (unfold o'; rewrite <- list_fmap_compose; by erewrite list_fmap_ext).
  assert (Hk' : portable_keys o') by by apply portable_keys_map.
  rewrite own_portable, (sort_portable o' o') by done. rewrite js_object_distinct; [done|].
  unfold sort_keys. by rewrite merge_sort_Permutation.
Qed.

Lemma object_text o : NoDup o.*1 -> portable_keys o ->
  serializePayload (JObj o) = "{" +:+ comma_list (map marshal_member (sort_keys (texts_of serializePayload o))) +:+ "}".
Proof.
  intros Hn Hk. unfold serializePayload at 1. rewrite canonical_members by done. cbn [JSON_stringify].
  set (o' := map _ o). set (T := map _ (sort_keys o')).
  assert (Hp : T ≡ₚ texts_of serializePayload o).
  { unfold T, sort_keys. rewrite merge_sort_Permutation. unfold o', texts_of. by rewrite map_map. }
  assert (HkT : portable_keys T) by by apply (portable_keys_perm _ _ (symmetry Hp)), portable_keys_map.
  rewrite own_portable by done. do 3 f_equal.
  assert (E : T = sort_keys (texts_of serializePayload o)).
  { apply sorted_members.
    - rewrite Hp, texts_keys. done.
    - unfold T. apply (Sorted_fmap (fun kv => (kv.1, JSON_stringify kv.2)) key_le key_le); [done|apply (Sorted_merge_sort _)].
    - apply (Sorted_merge_sort _).
    - rewrite Hp. unfold sort_keys. by rewrite merge_sort_Permutation. }
  rewrite <- E. apply map_ext_in. intros [k t] Hin. unfold js_member, marshal_member.
  rewrite portable_string; [done|]. apply list_elem_of_In in Hin.
  by apply (portable_key_parts k), (proj1 (Forall_forall _ _) HkT (k, t)).
Qed.

Lemma object_agrees o l : NoDup o.*1 -> portable_keys o ->
  texts_of serializePayload o ≡ₚ dedupe (texts_of marshal l) -> serializePayload (JObj o) = marshal (JObj l).
Proof.
  intros Hn Hk Hp. rewrite object_text by done. cbn [marshal]. unfold marshal_object.
  rewrite (sort_keys_perm (texts_of serializePayload o) (dedupe (texts_of marshal l))); [done| |done].
  by rewrite texts_keys.
Qed.

Lemma forallb_members {A} (f : A -> bool) l : forallb f l = true -> Forall (fun x => f x = true) l.
Proof. intros H. apply Forall_forall. intros x Hx. apply list_elem_of_In in Hx. by apply (proj1 (forallb_forall f l) H). Qed.

(** What the script writes is what Go writes. *)
Lemma canonical_agrees j : portable j = true -> serializePayload (js_value j) = marshal j.
Proof.
  induction j as [|b|lit|s|l IH|l IH] using json_values_ind; intros Hj; try done.
  - by apply portable_number_text.
  - by apply portable_string.
  - cbn [portable] in Hj. apply forallb_members in Hj.
    change (serializePayload (js_value (JArr l))) with ("[" +:+ comma_list (map JSON_stringify (map canonicalizePayloadValue (map js_value l))) +:+ "]").
    cbn [marshal]. rewrite !map_map. do 3 f_equal. apply map_ext_in. intros j Hin. apply list_elem_of_In in Hin.
    rewrite Forall_forall in IH, Hj. apply IH; [done|]. by apply Hj.
  - cbn [portable] in Hj. apply forallb_members in Hj. cbn [js_value].
    set (l' := map _ l). assert (Hk : portable_keys l').
    { apply portable_keys_map. eapply Forall_impl; [exact Hj|]. intros [k v] H. by apply andb_true_iff in H as [? _]. }
    apply object_agrees.
    + apply js_object_nodup.
    + pose proof (js_object_dedupe l') as Hd. apply (portable_keys_perm _ _ (symmetry Hd)).
      unfold portable_keys. apply Forall_forall. intros p Hp. apply (proj1 (Forall_forall _ _) Hk).
      by apply dedupe_incl.
    + rewrite (js_object_dedupe l'). unfold texts_of. rewrite (dedupe_map (fun kv => (kv.1, marshal kv.2))) by done.
      unfold l'. rewrite (dedupe_map (fun kv => (kv.1, js_value kv.2))) by done. rewrite map_map.
      match goal with |- ?x ≡ₚ ?y => enough (x = y) as -> by done end. apply map_ext_in. intros [k v] Hin. cbn. f_equal. apply list_elem_of_In in Hin.
      pose proof (dedupe_incl _ _ Hin) as Hin'.
      rewrite Forall_forall in IH, Hj. apply (IH _ Hin'). specialize (Hj _ Hin'). by apply andb_true_iff in Hj as [_ ?].
Qed.

(** ** The padded object *)

Lemma jget_elem k v o : NoDup o.*1 -> jget k o = Some v <-> (k, v) ∈ o.
Proof.
  induction o as [|[k' w] o IH]; cbn; intros Hn; [split; [done|by intros ?%elem_of_nil]|].
  apply NoDup_cons in Hn as [Hk Hn]. pose proof (jget_has_key k o) as Hh. rewrite elem_of_cons, <- IH by done.
  destruct (jget k o) as [u|] eqn:E.
  - split; [auto|]. intros [[= -> ->]|[= ->]]; [|done]. destruct Hk. by apply has_key_elem.
  - destruct (String.eqb_spec k' k) as [->|]; [|naive_solver]. split; [intros [= ->]; by left|].
    by intros [[= ->]|[=]].
Qed.

Lemma jget_perm k o o' : NoDup o.*1 -> o ≡ₚ o' -> jget k o = jget k o'.
Proof.
  intros Hn Hp. assert (Hn' : NoDup o'.*1) by by rewrite <- Hp.
  apply option_eq. intros v. rewrite !jget_elem by done. by rewrite Hp.
Qed.

Lemma jget_map f k o : jget k (map (fun kv => (kv.1, f kv.2)) o) = f <$> jget k o.
Proof.
  induction o as [|[k' v] o IH]; [done|]. cbn. rewrite IH. destruct (jget k o); [done|]. cbn. by destruct (String.eqb k' k).
Qed.

Lemma jget_dedupe k l : jget k (dedupe l) = jget k l.
Proof.
  induction l as [|[k' v] l IH]; [done|]. cbn. pose proof (jget_has_key k' l) as Hh.
  destruct (has_key k' l); cbn; rewrite IH; destruct (jget k l) eqn:E; try done.
  destruct (String.eqb_spec k' k) as [->|]; [by rewrite E in Hh|done].
Qed.

(** The members of an object as the script has them, and their canonical form. *)
Definition js_members_of (l : list (string * json)) : list (string * json) :=
  js_object (map (fun kv => (kv.1, js_value kv.2)) l).

Definition canonical_form (l : list (string * json)) : list (string * json) :=
  sort_keys (map (fun kv => (kv.1, canonicalizePayloadValue kv.2)) (js_members_of l)).

Lemma keys_map {A B} (f : A -> B) (o : list (string * A)) : (map (fun kv => (kv.1, f kv.2)) o).*1 = o.*1.
Proof. rewrite <- list_fmap_compose. by apply list_fmap_ext. Qed.

Lemma canonical_form_nodup l : NoDup (canonical_form l).*1.
Proof. unfold canonical_form, sort_keys. rewrite merge_sort_Permutation, keys_map. apply js_object_nodup. Qed.

Lemma js_members_of_perm l : js_members_of l ≡ₚ map (fun kv => (kv.1, js_value kv.2)) (dedupe l).
Proof. unfold js_members_of. by rewrite js_object_dedupe, (dedupe_map (fun kv => (kv.1, js_value kv.2))). Qed.

Lemma canonical_form_perm l :
  canonical_form l ≡ₚ map (fun kv => (kv.1, canonicalizePayloadValue (js_value kv.2))) (dedupe l).
Proof. unfold canonical_form, sort_keys. by rewrite merge_sort_Permutation, js_members_of_perm, map_map. Qed.

Lemma portable_members l : portable (JObj l) = true ->
  portable_keys (dedupe l) /\ Forall (fun kv => portable kv.2 = true) (dedupe l).
Proof.
  intros H. apply forallb_members in H. split; apply Forall_forall; intros p Hp%dedupe_incl;
    pose proof (proj1 (Forall_forall _ _) H p Hp) as Hb; by apply andb_true_iff in Hb as [? ?].
Qed.

Lemma canonical_form_keys l : portable (JObj l) = true -> portable_keys (canonical_form l).
Proof.
  intros H. apply (portable_keys_perm _ _ (symmetry (canonical_form_perm l))).
  by apply (portable_keys_map (fun v => canonicalizePayloadValue (js_value v))), portable_members.
Qed.

Lemma canonical_form_spec l : portable (JObj l) = true -> canonicalizePayloadValue (js_value (JObj l)) = JObj (canonical_form l).
Proof.
  intros H. cbn [js_value]. apply canonical_members; [apply js_object_nodup|].
  apply (portable_keys_perm _ _ (symmetry (js_members_of_perm l))). by apply portable_keys_map, portable_members.
Qed.

Lemma canonical_idem j : portable j = true ->
  canonicalizePayloadValue (canonicalizePayloadValue (js_value j)) = canonicalizePayloadValue (js_value j).
Proof.
  induction j as [|b|lit|s|l IH|l IH] using json_values_ind; intros Hj; try done.
  - apply forallb_members in Hj. cbn. f_equal. rewrite !map_map. apply map_ext_in. intros j Hin%list_elem_of_In.
    rewrite Forall_forall in IH, Hj. auto.
  - rewrite canonical_form_spec, canonical_members by first [done|apply canonical_form_nodup|by apply canonical_form_keys].
    f_equal. apply sort_keys_perm; [rewrite keys_map; apply canonical_form_nodup|].
    rewrite canonical_form_perm, js_members_of_perm, !map_map.
    match goal with |- ?x ≡ₚ ?y => enough (x = y) as -> by done end. apply map_ext_in. intros [k v] Hin%list_elem_of_In. cbn. f_equal.
    destruct (portable_members l Hj) as [_ Hv]. rewrite Forall_forall in IH, Hv.
    apply (IH (k, v)); [by apply dedupe_incl|]. by apply (Hv (k, v)).
Qed.

Lemma members_agree l : portable (JObj l) = true ->
  texts_of serializePayload (canonical_form l) ≡ₚ texts_of marshal (dedupe l).
Proof.
  intros H. rewrite canonical_form_perm. unfold texts_of. rewrite map_map.
  match goal with |- ?x ≡ₚ ?y => enough (x = y) as -> by done end. apply map_ext_in. intros [k v] Hin%list_elem_of_In. cbn. f_equal.
  destruct (portable_members l H) as [_ Hv]. pose proof (proj1 (Forall_forall _ _) Hv (k, v) Hin) as Hp. cbn in Hp.
  unfold serializePayload. rewrite canonical_idem by done. by apply canonical_agrees.
Qed.

Lemma texts_filter f k o : texts_of f (List.filter (other_key k) o) = List.filter (other_key k) (texts_of f o).
Proof.
  induction o as [|[k' v] o IH]; [done|]. unfold texts_of in *. cbn [map].
  rewrite !filter_other_cons. cbn [fst]. destruct (String.eqb k' k); [exact IH|]. cbn [map fst snd]. by rewrite IH.
Qed.

Lemma portable_keys_filter {A} (p : string * A -> bool) l : portable_keys l -> portable_keys (List.filter p l).
Proof. induction 1 as [|x l Hx _ IH]; cbn; [constructor|]. destruct (p x); [by constructor|done]. Qed.

Lemma padded_agrees l s : portable (JObj l) = true -> portable_text s = true ->
  serializePayload (JObj (js_set_padding s (canonical_form l))) = marshal (JObj (set_padding s l)).
Proof.
  intros H Hs. pose proof (canonical_form_nodup l) as Hn. pose proof (js_set_filter payloadPaddingField (JStr s) _ Hn) as Hp.
  apply object_agrees; [by apply js_set_nodup| |].
  - apply (portable_keys_perm _ _ (symmetry Hp)). apply Forall_app. split; [|by repeat constructor].
    by apply portable_keys_filter, canonical_form_keys.
  - unfold js_set_padding. rewrite Hp. unfold set_padding, texts_of. rewrite (dedupe_map (fun kv => (kv.1, marshal kv.2))) by done.
    rewrite dedupe_jset, !map_app. cbn [map fst snd]. change (serializePayload (JStr s)) with (js_string s).
    rewrite portable_string by done. apply Permutation_app_tail.
    fold (texts_of serializePayload (List.filter (other_key payloadPaddingField) (canonical_form l))).
    fold (texts_of marshal (List.filter (other_key payloadPaddingField) (dedupe l))).
    rewrite !texts_filter. by apply filter_perm, members_agree.
Qed.

Lemma canonical_padding l k :
  jget k (canonical_form l) = (fun v => canonicalizePayloadValue (js_value v)) <$> jget k l.
Proof.
  rewrite (jget_perm k _ _ (canonical_form_nodup l) (canonical_form_perm l)).
  by rewrite (jget_map (fun v => canonicalizePayloadValue (js_value v))), jget_dedupe.
Qed.

Lemma js_padding_of_set s o : NoDup o.*1 -> padding_of (js_set_padding s o) = s.
Proof.
  intros Hn. unfold padding_of.
  assert (E : jget payloadPaddingField (js_set_padding s o) = Some (JStr s)).
  { apply jget_elem; [by apply js_set_nodup|]. unfold js_set_padding. rewrite js_set_filter by done.
    apply elem_of_app. right. by left. }
  by rewrite E.
Qed.

Lemma js_set_padding_set s s' o : js_set_padding s (js_set_padding s' o) = js_set_padding s o.
Proof.
  unfold js_set_padding. induction o as [|[k v] o IH]; cbn; [done|].
  destruct (String.eqb k payloadPaddingField) eqn:E; cbn; rewrite E; [done|]. by rewrite IH.
Qed.

(** ** The size *)

(** Both loops see the same texts, as long as the padding is portable. *)
Lemma js_size_loop_done guard o content target : str_len content = target -> js_size_loop guard o content target = Ok content.
Proof. intros H. destruct guard; cbn; by rewrite (proj2 (Z.eqb_eq _ _)). Qed.

Lemma js_slice_xs n e : e <= Z.of_nat n -> exists m, (m <= n)%nat /\ js_slice (xs n) e = xs m /\ (0 <= e -> Z.of_nat m = e).
Proof.
  intros He. unfold js_slice. rewrite xs_len. destruct (e <? 0) eqn:E; bool_prop.
  - exists (Z.to_nat (Z.of_nat n + e)). rewrite substring_xs by lia. split_and!; [lia|done|lia].
  - exists (Z.to_nat e). rewrite substring_xs by lia. split_and!; [lia|done|lia].
Qed.

(** A round of the loop on a body that is too large. *)
Lemma js_size_loop_shrink guard o content target : target < str_len content ->
  let cut := js_set_padding (js_slice (padding_of o) (str_len (padding_of o) + (target - str_len content))) o in
  js_size_loop (S guard) o content target = js_size_loop guard cut (serializePayload (JObj cut)) target.
Proof. intros H cut. cbn [js_size_loop]. by rewrite (proj2 (Z.eqb_neq _ _)), (proj2 (Z.ltb_ge 0 _)) by lia. Qed.

Section padded.
Context (l : list (string * json)) (Hl : portable (JObj l) = true).

#[local] Abbreviation padded s := (js_set_padding s (canonical_form l)).

Lemma padded_len s n : portable_text s = true ->
  str_len (serializePayload (JObj (padded (s +:+ xs n)))) = object_len (set_padding s l) + Z.of_nat n.
Proof. intros Hs. rewrite padded_agrees by (done || by apply portable_xs). apply set_padding_len. Qed.

Lemma js_padding s : padding_of (padded s) = s.
Proof. apply js_padding_of_set, canonical_form_nodup. Qed.

(** Filler can not make up for an object that is too large already. *)
Lemma js_size_loop_never guard n target : target < object_len (set_padding "" l) ->
  exists e, js_size_loop guard (padded (xs n)) (serializePayload (JObj (padded (xs n)))) target = Err e.
Proof.
  intros Ht. revert n. induction guard as [|guard IH]; intros n;
    pose proof (padded_len "" n eq_refl) as Hlen; change ("" +:+ xs n) with (xs n) in Hlen.
  { cbn [js_size_loop]. rewrite (proj2 (Z.eqb_neq _ _)) by lia. by eexists. }
  rewrite js_size_loop_shrink by lia. cbv zeta. rewrite js_padding, xs_len, js_set_padding_set.
  destruct (js_slice_xs n (Z.of_nat n + (target - str_len (serializePayload (JObj (padded (xs n))))))) as (m & _ & -> & _); [lia|].
  apply IH.
Qed.

(** An object without the member: one round takes off what the member cost. *)
Lemma js_size_loop_new n : jget payloadPaddingField l = None -> (0 < n)%nat ->
  let o := Z.to_nat (padding_overhead l) in
  let result := js_size_loop 8 (padded (xs n)) (serializePayload (JObj (padded (xs n)))) (object_len l + Z.of_nat n) in
  if (n <? o)%nat then exists e, result = Err e else result = Ok (marshal (JObj (set_padding (xs (n - o)) l))).
Proof.
  intros Hk Hn o result. pose proof (padding_overhead_spec l ltac:(rewrite Hk; discriminate)) as Ho.
  assert (Hp : padding_of l = "") by (unfold padding_of; by rewrite Hk). rewrite Hp in Ho.
  assert (0 < padding_overhead l) by (unfold padding_overhead; rewrite Hk; destruct (decide _); lia).
  destruct (n <? o)%nat eqn:E; [apply Nat.ltb_lt in E|apply Nat.ltb_ge in E].
  - apply js_size_loop_never. lia.
  - unfold result. pose proof (padded_len "" n eq_refl) as Hlen. change ("" +:+ xs n) with (xs n) in Hlen.
    rewrite js_size_loop_shrink by lia. cbv zeta. rewrite js_padding, xs_len, js_set_padding_set, Hlen.
    destruct (js_slice_xs n (Z.of_nat n + (object_len l + Z.of_nat n - (object_len (set_padding "" l) + Z.of_nat n))))
      as (m & _ & -> & Hm); [lia|].
    assert (m = (n - o)%nat) as -> by lia. rewrite padded_agrees by (done || apply (portable_xs ""); done).
    apply js_size_loop_done. change (object_len (set_padding ("" +:+ xs (n - o)) l) = object_len l + Z.of_nat n).
    rewrite set_padding_len. lia.
Qed.
End padded.

Lemma object_len_pos l : 0 < object_len l.
Proof.
  unfold object_len. cbn [marshal]. unfold marshal_object. rewrite str_len_app. change (str_len "{") with 1.
  pose proof (str_len_nonneg (comma_list (map marshal_member (sort_keys (dedupe (map (fun kv => (kv.1, marshal kv.2)) l)))) +:+ "}")). lia.
Qed.

Lemma padding_portable l : portable (JObj l) = true -> portable_text (padding_of l) = true.
Proof.
  intros H. unfold padding_of. destruct (jget payloadPaddingField l) as [v|] eqn:E; [|done].
  destruct v as [| | |s| |]; try done. destruct (portable_members l H) as [_ Hv].
  assert (Hin : (payloadPaddingField, JStr s) ∈ dedupe l).
  { apply jget_elem; [apply dedupe_nodup|]. by rewrite jget_dedupe. }
  exact (proj1 (Forall_forall _ _) Hv _ Hin).
Qed.

Lemma js_sized_object l target : portable (JObj l) = true -> padding_text (JObj l) = true -> object_len l < target ->
  match sizeObjectPayload l target with
  | Some (Ok content) => js_sized (js_value (JObj l)) target = Ok content
  | _ => exists e, js_sized (js_value (JObj l)) target = Err e
  end.
Proof.
  intros Hl Hp Hlt. set (n := Z.to_nat (target - object_len l)).
  assert (Ht : target = object_len l + Z.of_nat n) by (unfold n; lia). pose proof (object_len_pos l) as Hpos.
  unfold sizeObjectPayload, js_sized. rewrite canonical_agrees by done.
  rewrite canonical_form_spec by done. change (default [] (js_members (JObj (canonical_form l)))) with (canonical_form l).
  rewrite (proj2 (Z.eqb_neq target 0)) by lia. cbn [js_value]. fold (object_len l).
  rewrite !(proj2 (Z.eqb_neq (object_len l) target)), !(proj2 (Z.ltb_ge target (object_len l))),
    !(proj2 (Z.ltb_lt (object_len l) target)) by lia.
  assert (Hpad : padding_of (canonical_form l) = padding_of l).
  { unfold padding_of. rewrite canonical_padding. cbn [padding_text] in Hp. by destruct (jget payloadPaddingField l) as [[]|]. }
  rewrite canonical_padding, Hpad. fold n. cbn [padding_text] in Hp.
  destruct (jget payloadPaddingField l) as [[| | |s| |]|] eqn:Ek; try done;
    cbn [fmap option_fmap option_map js_value canonicalizePayloadValue].
  - assert (Hs : portable_text (padding_of l) = true) by by apply padding_portable.
    destruct (pad_existing l n) as [H1 H2]; [unfold padding_overhead; by rewrite Ek|rewrite Ek; naive_solver|].
    rewrite <- Ht in H1, H2. rewrite H1. rewrite padded_agrees by (done || by apply portable_xs). by apply js_size_loop_done.
  - assert (Hn : (0 < n)%nat) by lia. assert (E : padding_of l = "") by (unfold padding_of; by rewrite Ek).
    rewrite E. change ("" +:+ xs n) with (xs n). destruct (pad_new l n Ek Hn) as [H1 _].
    pose proof (js_size_loop_new l Hl n Ek Hn) as H2. cbv zeta in H1, H2. rewrite <- Ht in H1, H2. rewrite H1.
    by destruct (n <? _)%nat.
Qed.

(** Go and the script size a payload alike; where Go fails or panics, the script fails. *)
Lemma js_sized_agrees parsed target : portable parsed = true -> padding_text parsed = true ->
  match buildExactPayloadContent parsed target with
  | Some (Ok content) => js_sized (js_value parsed) target = Ok content
  | _ => exists e, js_sized (js_value parsed) target = Err e
  end.
Proof.
  intros Hj Hp. pose proof (canonical_agrees parsed Hj) as Ha. unfold buildExactPayloadContent.
  destruct (target =? 0) eqn:E0; [unfold js_sized; by rewrite E0, Ha|].
  destruct (str_len (marshal parsed) =? target) eqn:E1, parsed as [|b|lit|s|l|l];
    try (unfold js_sized; rewrite E0, Ha; cbn [js_value]; rewrite E1; cbn [negb];
         first [done|destruct (_ <? _); by eexists]).
  - unfold js_sized. rewrite E0, Ha. cbn [js_value]. bool_prop.
    rewrite (proj2 (Z.ltb_ge target _)), (proj2 (Z.ltb_ge _ target)) by lia.
    change (JObj (js_object _)) with (js_value (JObj l)). rewrite canonical_form_spec by done.
    change (default [] (js_members (JObj (canonical_form l)))) with (canonical_form l). rewrite canonical_padding. cbn [padding_text] in Hp.
    destruct (jget payloadPaddingField l) as [[| | |s| |]|]; try done; by apply js_size_loop_done.
  - destruct (target <? str_len (marshal (JObj l))) eqn:E2.
    + unfold js_sized. rewrite E0, Ha. cbn [js_value]. rewrite E2. by eexists.
    + bool_prop. apply js_sized_object; [done..|]. unfold object_len. lia.
Qed.

(** ** From the request to the body *)

Lemma envString_some env name v fallback : env !! name = Some v -> envString env name fallback = v.
Proof. unfold envString. by intros ->. Qed.

Section environment.
Context (envVars : gmap string string) (Hfree : envVars !! "PAYLOAD_SOURCE_JSON_B64" = None).

Lemma worker_env_lookup name v : worker_env envVars !! name = Some v <-> (name, v) ∈ map passed (map_to_list envVars).
Proof.
  symmetry. apply elem_of_list_to_map. apply passed_names; [apply NoDup_fst_map_to_list|].
  intros ([k w] & Hk & Hin)%list_elem_of_fmap. cbn in Hk. subst k. apply elem_of_map_to_list in Hin. by rewrite Hfree in Hin.
Qed.

Lemma worker_env_kept name v : name <> "PAYLOAD_SOURCE_JSON" -> envVars !! name = Some v -> worker_env envVars !! name = Some v.
Proof.
  intros Hn Hv. apply worker_env_lookup, list_elem_of_fmap. exists (name, v). split; [|by apply elem_of_map_to_list].
  unfold passed. cbn [fst]. by rewrite (proj2 (String.eqb_neq _ _) Hn).
Qed.

(** The source arrives, in one variable or the other. *)
Lemma worker_source s : envVars !! "PAYLOAD_SOURCE_JSON" = Some s ->
  decodePayloadSourceJSON (envString (worker_env envVars) "PAYLOAD_SOURCE_JSON" "")
    (envString (worker_env envVars) "PAYLOAD_SOURCE_JSON_B64" "") = s.
Proof.
  intros Hs. assert (Hin : passed ("PAYLOAD_SOURCE_JSON", s) ∈ map passed (map_to_list envVars))
    by by apply list_elem_of_fmap_2, elem_of_map_to_list.
  unfold passed in Hin at 1. cbn [fst snd String.eqb Ascii.eqb Bool.eqb andb] in Hin.
  destruct (blank s) eqn:Eb; cbn [negb] in Hin; apply worker_env_lookup in Hin.
  - rewrite (envString_some _ _ _ _ Hin). unfold envString.
    assert (worker_env envVars !! "PAYLOAD_SOURCE_JSON_B64" = None) as ->; [|done].
    apply eq_None_not_Some. intros [v Hv]. apply worker_env_lookup, list_elem_of_fmap in Hv as ([k w] & E & Hkw).
    apply elem_of_map_to_list in Hkw. unfold passed in E. cbn [fst snd] in E.
    destruct (String.eqb_spec k "PAYLOAD_SOURCE_JSON") as [->|]; cbn [andb] in E.
    + rewrite Hs in Hkw. injection Hkw as <-. rewrite Eb in E. discriminate.
    + injection E as <- <-. by rewrite Hfree in Hkw.
  - rewrite (envString_some _ _ _ _ Hin). unfold decodePayloadSourceJSON.
    destruct (String.eqb_spec (base64 s) "") as [E|_]; [|apply unbase64_base64].
    apply (f_equal unbase64) in E. rewrite unbase64_base64 in E. cbn in E. subst s. done.
Qed.
End environment.

Lemma every_visible p s : (forall c, p c = true -> visible c = true) -> every p s = true -> all_visible s.
Proof.
  intros Hp. unfold all_visible. induction s as [|c s IH]; intros Hs; [constructor|].
  cbn [every] in Hs. apply andb_prop in Hs as [Hc Hs]. constructor; auto.
Qed.

Lemma itoa_visible n : all_visible (itoa n).
Proof.
  eapply every_visible; [|apply number_itoa]. intros c Hc. unfold number_char, between, visible in *. lia.
Qed.

Lemma js_Number_itoa n : 0 <= n <= max_exact -> js_Number (itoa n) = Some (Some n).
Proof.
  intros Hn. unfold js_Number. rewrite trim_all_visible by apply itoa_visible.
  pose proof (parse_int_itoa n ltac:(lia)) as H. rewrite H, (proj2 (Z.leb_le _ _)) by lia.
  destruct (String.eqb_spec (itoa n) "") as [E|_]; [by rewrite E in H|done].
Qed.

Lemma portable_numbers j : portable j = true -> numbers_ok j = true.
Proof.
  induction j as [|b|lit|s|l IH|l IH] using json_values_ind; intros Hj; try done.
  - cbn in *. unfold portable_number in Hj. by destruct (num_float lit).
  - apply forallb_members in Hj. apply forallb_forall. intros j Hin%list_elem_of_In. rewrite Forall_forall in IH, Hj. auto.
  - apply forallb_members in Hj. apply forallb_forall. intros kv Hin%list_elem_of_In. rewrite Forall_forall in IH, Hj.
    apply IH; [done|]. specialize (Hj kv Hin). by apply andb_true_iff in Hj as [_ ?].
Qed.

(** The environment of a builder request, as far as the body depends on it. *)
Lemma contract_lookup req :
  let env := buildBuilderEnvContract req in
  env !! "HTTP_METHOD" = Some (NormalizeHTTPMethod (tr_HTTPMethod req)) /\
  env !! "PAYLOAD_SOURCE_JSON" = Some (trim_space (tr_PayloadJSON req)) /\
  env !! "PAYLOAD_TARGET_BYTES" = Some (itoa (payloadTargetBytes (tr_PayloadTargetKiB req))) /\
  env !! "PAYLOAD_SOURCE_JSON_B64" = None.
Proof. cbv zeta. unfold buildBuilderEnvContract. destruct (blank _), (negb _); split_and!; by simplify_map_eq. Qed.

Lemma script_payload_contract req : 0 <= payloadTargetBytes (tr_PayloadTargetKiB req) <= max_exact ->
  script_payload (worker_env (buildBuilderEnvContract req)) =
  Some (prepareRequestPayload (NormalizeHTTPMethod (tr_HTTPMethod req)) (trim_space (tr_PayloadJSON req))
    (payloadTargetBytes (tr_PayloadTargetKiB req))).
Proof.
  intros Ht. destruct (contract_lookup req) as (Hm & Hs & Hb & Hf). unfold script_payload, envNumber.
  rewrite (envString_some _ _ _ _ (worker_env_kept _ Hf "PAYLOAD_TARGET_BYTES" _ ltac:(done) Hb)).
  rewrite (envString_some _ _ _ _ (worker_env_kept _ Hf "HTTP_METHOD" _ ltac:(done) Hm)).
  rewrite (worker_source _ Hf _ Hs), js_Number_itoa by done. cbn [mbind option_bind from_option id]. rewrite Z.max_r by apply Ht. do 2 f_equal.
  unfold NormalizeHTTPMethod. destruct (String.eqb _ ""); [done|]. apply to_upper_idem.
Qed.

(** The methods. *)
Lemma allowed_method m : MethodAllowsBody m = true -> validateBuilderHTTPMethod m = None.
Proof.
  unfold MethodAllowsBody, validateBuilderHTTPMethod, one_of_strings. cbn [existsb]. intros H. by rewrite H, orb_true_r.
Qed.

Lemma body_not_get m : MethodAllowsBody m = true -> NormalizeHTTPMethod m = m -> String.eqb m "GET" = false.
Proof. unfold MethodAllowsBody. intros H E. rewrite E in H. by destruct (String.eqb_spec m "GET") as [->|]. Qed.

Lemma bodyless_get m : validateBuilderHTTPMethod m = None -> MethodAllowsBody m = false -> NormalizeHTTPMethod m = m ->
  String.eqb m "GET" = true.
Proof.
  unfold MethodAllowsBody, validateBuilderHTTPMethod, one_of_strings. intros H1 H2 E. rewrite E in *.
  cbn [existsb] in *. rewrite H2, orb_false_r in H1. by destruct (String.eqb m "GET").
Qed.

Section sent.
Context `{JsonErrors}.

(** The two ends, when the source is read. *)
Lemma sent_sized parsed a target : portable parsed = true -> padding_text parsed = true -> pa_TargetBytes a = target ->
  let sent := match js_sized (js_value parsed) target with
              | Err e => Err e
              | Ok content => Ok (mkPrepared (pa_SourceJSON a) content target (str_len content))
              end in
  match (match buildExactPayloadContent parsed target with
         | None => None
         | Some (Err e) => Some (Err e)
         | Some (Ok content) =>
           let actual := str_len content in
           Some (Ok (a <| pa_Content := content |> <| pa_ActualBytes := actual |>
                       <| pa_ActualKiB := kibFromBytes actual |> <| pa_ActualKB := kbFromBytes actual |>))
         end) with
  | Some (Ok a) => Some sent = Some (Ok (mkPrepared (pa_SourceJSON a) (pa_Content a) (pa_TargetBytes a) (pa_ActualBytes a)))
  | _ => true = true -> exists e, Some sent = Some (Err e)
  end.
Proof.
  intros Hj Hp Ht sent. pose proof (js_sized_agrees parsed target Hj Hp) as Ha. unfold sent.
  destruct (buildExactPayloadContent parsed target) as [[c|e]|]; [rewrite Ha; cbn; by rewrite <- Ht|..];
    intros _; destruct Ha as [e' ->]; by eexists.
Qed.

(** C10: what the result of a test reports as its payload is what the workers send:
    the script's own preparation, run on the variables the environment file
    passes, gives source, content and sizes of the artifacts; and where the
    artifacts are refused, or their computation panics, and the method has a
    body, the script throws before its first request (without a body it prepares
    an empty one).  This holds for payloads of characters, keys and numbers that
    both languages write alike, whose reserved member is a text, and target sizes
    up to 2^53 bytes, which JavaScript holds exactly. *)
Theorem payload_as_reported req :
  (forall j, parse_json (trim_space (tr_PayloadJSON req)) = Some j -> portable j = true /\ padding_text j = true) ->
  0 <= payloadTargetBytes (tr_PayloadTargetKiB req) <= max_exact ->
  let sent := script_payload (worker_env (buildBuilderEnvContract req)) in
  match BuildBuilderPayloadArtifacts req with
  | Some (Ok a) => sent = Some (Ok (mkPrepared (pa_SourceJSON a) (pa_Content a) (pa_TargetBytes a) (pa_ActualBytes a)))
  | _ => MethodAllowsBody (tr_HTTPMethod req) = true -> exists e, sent = Some (Err e)
  end.
Proof.
  intros Hp Ht sent. unfold sent. rewrite script_payload_contract by done. unfold BuildBuilderPayloadArtifacts.
  set (method := NormalizeHTTPMethod (tr_HTTPMethod req)). set (src := trim_space _) in *. set (target := payloadTargetBytes _) in *.
  assert (Hm : MethodAllowsBody method = MethodAllowsBody (tr_HTTPMethod req))
    by (unfold MethodAllowsBody, method; by rewrite NormalizeHTTPMethod_idem).
  destruct (MethodAllowsBody method) eqn:Eb; rewrite <- Hm; cbn [negb].
  - rewrite (allowed_method method Eb). assert (Eg : String.eqb method "GET" = false) by (apply body_not_get; [done|apply NormalizeHTTPMethod_idem]).
    unfold prepareRequestPayload. rewrite Eg.
    destruct (String.eqb src "") eqn:Es; cbn [negb andb].
    + destruct (target =? 0) eqn:E0; [apply String.eqb_eq in Es; apply Z.eqb_eq in E0; cbn [pa_SourceJSON pa_Content pa_TargetBytes pa_ActualBytes]; by rewrite Es, E0|].
      apply String.eqb_eq in Es. rewrite Es.
      exact (sent_sized (JObj []) (mkPayload "" "" method _ target _ _ 0 f_zero f_zero) target eq_refl eq_refl eq_refl).
    + unfold JSON_parse, unmarshal_any. destruct (parse_json src) as [j|]; [|intros _; by eexists].
      destruct (Hp j eq_refl) as [Hj Hj']. cbn [mbind option_bind fmap option_fmap option_map]. rewrite portable_numbers by done.
      exact (sent_sized j (mkPayload src "" method _ target _ _ 0 f_zero f_zero) target Hj Hj' eq_refl).
  - destruct (validateBuilderHTTPMethod method) eqn:Ev; [done|].
    destruct (negb (String.eqb src "") || (0 <? target)) eqn:E; [done|]. apply orb_false_iff in E as [E1 E2].
    apply negb_false_iff, String.eqb_eq in E1. apply Z.ltb_ge in E2. rewrite E1. assert (target = 0) as -> by lia.
    unfold prepareRequestPayload. by rewrite (bodyless_get method Ev Eb (NormalizeHTTPMethod_idem _)).
Qed.
End sent.

(** ** A padded request *)

#[local] Instance some_error : JsonErrors := fun _ => "syntax error".

Definition padded_request : TestRequest :=
  zero_TestRequest <| tr_HTTPMethod := " post " |> <| tr_PayloadTargetKiB := 1 |>
    <| tr_PayloadJSON := quoted " {'user':{'name':'Ann','roles':['x','y']},'amount':12.50,'note':'two\nlines','user':{'id':7}} " |>.

Definition accepted {A} (r : option (res A)) : bool := match r with Some (Ok _) => true | _ => false end.

Lemma payload_as_reported_witness :
  match BuildBuilderPayloadArtifacts padded_request with
  | Some (Ok a) =>
    script_payload (worker_env (buildBuilderEnvContract padded_request)) =
      Some (Ok (mkPrepared (pa_SourceJSON a) (pa_Content a) 1024 1024))
  | _ => False
  end.
Proof.
  assert (Hp : forall j, parse_json (trim_space (tr_PayloadJSON padded_request)) = Some j ->
    portable j = true /\ padding_text j = true) by (intros j E; vm_compute in E; injection E as <-; split; vm_compute; reflexivity).
  assert (Ht : 0 <= payloadTargetBytes (tr_PayloadTargetKiB padded_request) <= max_exact) by (split; vm_compute; discriminate).
  pose proof (payload_as_reported padded_request Hp Ht) as H. cbv zeta in H.
  assert (Hs : match BuildBuilderPayloadArtifacts padded_request with
    | Some (Ok a) => (pa_TargetBytes a =? 1024) && (pa_ActualBytes a =? 1024) | _ => false end = true) by (vm_compute; reflexivity).
  destruct (BuildBuilderPayloadArtifacts padded_request) as [[a|e]|]; [|discriminate Hs..].
  apply andb_true_iff in Hs as [Ht' Ha]. apply Z.eqb_eq in Ht', Ha. rewrite Ht', Ha in H. exact H.
Defined.

(** ** Payloads the two write differently *)

Definition post (payload : string) : TestRequest := zero_TestRequest <| tr_HTTPMethod := "POST" |> <| tr_PayloadJSON := payload |>.

Definition has_some {A} (o : option A) : bool := match o with Some _ => true | None => false end.

(** The content a result reports and the content that is sent. *)
Definition reported_and_sent (req : TestRequest) : option string * option string :=
  (match BuildBuilderPayloadArtifacts req with Some (Ok a) => Some (pa_Content a) | _ => None end,
   match script_payload (worker_env (buildBuilderEnvContract req)) with Some (Ok p) => Some (pp_content p) | _ => None end).

(** HTML characters are escaped in the report only. *)
Example html_characters :
  reported_and_sent (post (quoted "{'q':'a<b'}")) = (Some (quoted "{'q':'a\u003cb'}"), Some (quoted "{'q':'a<b'}")).
Proof. vm_compute. reflexivity. Qed.

(** Keys that are numbers come in another order, and a negative zero loses its sign. *)
Example number_keys :
  reported_and_sent (post (quoted "{'10':-0,'9':1}")) = (Some (quoted "{'10':-0,'9':1}"), Some (quoted "{'9':1,'10':0}")).
Proof. vm_compute. reflexivity. Qed.

(** An object that has the size already and a number in the reserved member is
    accepted by the server and refused by every worker. *)
Example reserved_number :
  let r := (post (quoted "{'_shiva_padding':5,'a':'" +:+ xs 997 +:+ quoted "'}")) <| tr_PayloadTargetKiB := 1 |> in
  (has_some (reported_and_sent r).1, has_some (reported_and_sent r).2) = (true, false).
Proof. vm_compute. reflexivity. Qed.

(** The fallbacks of [envNumber] are never used for a variable that is not set. *)
Example unset_is_zero name fallback : envNumber ∅ name fallback = Some 0.
Proof. unfold envNumber, envString. by rewrite lookup_empty. Qed.
