(* ===== verification/ScriptAuth.v ===== *)
(** * Tokens and iterations of the generated script

    What one virtual user of a builder test does: the OAuth part of the
    JavaScript in [controller/internal/scriptgen/scriptgen.go] (settings, cache
    of the token, retries, aborting the run) and the default function, with the
    metrics they count.  The summaries the controller merges are made of these
    metrics.

    The answers of the token endpoint and of the target are arguments, the body
    of a token already decoded; times are whole milliseconds, and numbers in
    the settings are integers.  [exec.test.abort] either interrupts the script,
    as k6 does, or returns. *)

From S2P Require Export Prelude GoStrings Json Model Payload K6Config ScriptPayload.
From S2P Require Import Templates.

Open Scope Z_scope.
Open Scope go_scope.

(** ** Settings *)

Definition envBool (env : gmap string string) (name : string) (fallback : bool) : bool :=
  let raw := to_lower (trim_space (envString env name (if fallback then "true" else "false"))) in
  one_of_strings raw ["1"; "true"; "yes"; "on"].

Definition status_code (value : Z) : bool := (100 <=? value) && (value <=? 599).

(** Codes written as integers. *)
Definition parseRetryableStatusCodes (raw : string) : list Z :=
  List.filter status_code (omap (fun value => mjoin (js_Number (trim_space value))) (split_on (chr 44) raw)).

Record AuthSettings := mkAuthSettings {
  AUTH_ENABLED : bool;
  AUTH_TOKEN_URL : string;
  AUTH_CLIENT_SECRET : string;
  AUTH_REFRESH_SKEW_SECONDS : Z;
  AUTH_RETRY_LIMIT : Z;
  AUTH_RETRYABLE_STATUS_CODE_LIST : list Z;
  AUTH_MAX_JITTER_MS : Z
}.

Definition script_settings (env : gmap string string) : option AuthSettings :=
  skew ← envNumber env "AUTH_REFRESH_SKEW_SECONDS" 30;
  limit ← envNumber env "AUTH_RETRY_LIMIT" 1;
  jitter ← envNumber env "AUTH_MAX_JITTER_MS" 5000;
  Some (mkAuthSettings (envBool env "AUTH_ENABLED" false) (envString env "AUTH_TOKEN_URL" "")
    (envString env "AUTH_CLIENT_SECRET" "") (Z.max 1 skew) (Z.max 0 limit)
    (parseRetryableStatusCodes (envString env "AUTH_RETRYABLE_STATUS_CODES" "408,429,502,503,504")) (Z.max 0 jitter)).

(** ** State and metrics *)

(** [AUTH_STATE]; a time that is not a number is nothing. *)
Record AuthState := mkAuthState {
  st_initialized : bool;
  st_accessToken : string;
  st_tokenType : string;
  st_expiresAtEpochMs : option Z;
  st_refreshAtEpochMs : option Z;
  st_jitterMs : Z;
  st_tokenRequestCount : Z;
  st_tokenSuccessCount : Z;
  st_tokenFailureCount : Z;
  st_tokenRefreshCount : Z;
  st_tokenReuseHitCount : Z;
  st_responseStatusCounts : gmap Z Z;
  st_lastAuthSuccess : bool;
  st_lastAuthError : string;
  st_abortTriggered : bool;
  st_abortCause : string;
  st_abortReason : string;
  st_abortHTTPStatusCode : Z;
  st_abortRetryable : bool
}.

#[export] Instance eta_AuthState : Eta AuthState := fun s =>
  mkAuthState (st_initialized s) (st_accessToken s) (st_tokenType s) (st_expiresAtEpochMs s) (st_refreshAtEpochMs s)
    (st_jitterMs s) (st_tokenRequestCount s) (st_tokenSuccessCount s) (st_tokenFailureCount s) (st_tokenRefreshCount s)
    (st_tokenReuseHitCount s) (st_responseStatusCounts s) (st_lastAuthSuccess s) (st_lastAuthError s) (st_abortTriggered s)
    (st_abortCause s) (st_abortReason s) (st_abortHTTPStatusCode s) (st_abortRetryable s).

Definition AUTH_STATE : AuthState :=
  mkAuthState false "" "Bearer" (Some 0) (Some 0) 0 0 0 0 0 0 ∅ false "" false "" "" 0 false.

(** What the virtual user has added to the counters and rates. *)
Record ScriptMetrics := mkMetrics {
  sm_errors_true : Z; sm_errors_false : Z;
  sm_success_true : Z; sm_success_false : Z;
  sm_status4xx : Z; sm_status5xx : Z;
  sm_authTokenRequests : Z; sm_authTokenSuccess : Z; sm_authTokenFailure : Z; sm_authTokenResponses : Z;
  sm_authAbortEvents : Z; sm_authAbortTriggered : Z; sm_authAbortRetryableTrue : Z; sm_authAbortRetryableFalse : Z;
  sm_authAbortCauses : gmap string Z;
  sm_authResponseStatus : gmap Z Z; sm_authAbortStatus : gmap Z Z;
  sm_authTokenRefresh : Z; sm_authTokenReuseHits : Z; sm_authTokenRequestDuration : list Z;
  sm_businessHttpRequests : Z; sm_businessHttpSuccess : Z; sm_businessHttpFailure : Z;
  sm_businessStatus2xx : Z; sm_businessStatus4xx : Z; sm_businessStatus5xx : Z; sm_businessTransportFailures : Z
}.

#[export] Instance eta_ScriptMetrics : Eta ScriptMetrics := fun m =>
  mkMetrics (sm_errors_true m) (sm_errors_false m) (sm_success_true m) (sm_success_false m) (sm_status4xx m) (sm_status5xx m)
    (sm_authTokenRequests m) (sm_authTokenSuccess m) (sm_authTokenFailure m) (sm_authTokenResponses m) (sm_authAbortEvents m)
    (sm_authAbortTriggered m) (sm_authAbortRetryableTrue m) (sm_authAbortRetryableFalse m) (sm_authAbortCauses m)
    (sm_authResponseStatus m) (sm_authAbortStatus m) (sm_authTokenRefresh m) (sm_authTokenReuseHits m)
    (sm_authTokenRequestDuration m) (sm_businessHttpRequests m) (sm_businessHttpSuccess m) (sm_businessHttpFailure m)
    (sm_businessStatus2xx m) (sm_businessStatus4xx m) (sm_businessStatus5xx m) (sm_businessTransportFailures m).

Definition no_metrics : ScriptMetrics := mkMetrics 0 0 0 0 0 0 0 0 0 0 0 0 0 0 ∅ ∅ ∅ 0 0 [] 0 0 0 0 0 0 0.

Record VirtualUser := mkVU { vu_auth : AuthState; vu_metrics : ScriptMetrics }.
#[export] Instance eta_VirtualUser : Eta VirtualUser := fun v => mkVU (vu_auth v) (vu_metrics v).

Definition new_vu : VirtualUser := mkVU AUTH_STATE no_metrics.

Definition auth_do (f : AuthState -> AuthState) (v : VirtualUser) : VirtualUser := v <| vu_auth := f (vu_auth v) |>.
Definition count (f : ScriptMetrics -> ScriptMetrics) (v : VirtualUser) : VirtualUser := v <| vu_metrics := f (vu_metrics v) |>.

Definition bump {K} `{Countable K} (k : K) (m : gmap K Z) : gmap K Z := <[k := default 0 (m !! k) + 1]> m.

(** ** What the endpoints answer *)

Inductive expiry := ExpiresMs (ms : Z) | ExpiryNaN.

(** The body of a token response: no JSON, [null], or the fields that are read
    (of the token and its type only texts). *)
Inductive token_body :=
  | BadJSON
  | NullBody
  | TokenBody (access_token : option string) (token_type : option string) (expires_in : expiry).

Record Answer := mkAnswer {
  an_status : Z;
  an_error : string;
  an_body : token_body;
  an_retry_after : option Z   (* a positive number of seconds in the header *)
}.

(** One request for a token: how long it took, what came back (or nothing), and
    the clock afterwards. *)
Record Exchange := mkExchange { ex_duration : Z; ex_answer : option Answer; ex_now : Z }.

(** ** The token *)

Inductive outcome :=
  | Header (h : string)
  | Thrown (e : string)
  | Stopped (reason : string).

Section script.
Context (cfg : AuthSettings) (abort_interrupts : bool) (vuId : Z).

Definition initialized (s : AuthState) : AuthState :=
  if st_initialized s then s
  else
    let jitterBuckets := Z.max 1 (AUTH_MAX_JITTER_MS cfg / 1000 + 1) in
    s <| st_jitterMs := Z.min (vuId mod jitterBuckets * 1000) (AUTH_MAX_JITTER_MS cfg) |> <| st_initialized := true |>.

Definition ensureAuthStateInitialized (v : VirtualUser) : VirtualUser := auth_do initialized v.

Definition effectiveRefreshSkewMs (expiresInMs : Z) : Z :=
  Z.min (AUTH_REFRESH_SKEW_SECONDS cfg * 1000) (Z.max 5000 (expiresInMs / 5)).

Definition refreshLeadMs (expiresInMs jitterMs : Z) : Z :=
  Z.min (effectiveRefreshSkewMs expiresInMs + jitterMs) (Z.max 0 (expiresInMs - 1000)).

Definition isRetryableTokenStatus (status : Z) : bool :=
  status_code status && existsb (Z.eqb status) (AUTH_RETRYABLE_STATUS_CODE_LIST cfg).

(** [res && !res.error]. *)
Definition answered (res : option Answer) : option Answer :=
  match res with Some a => if String.eqb (an_error a) "" then Some a else None | None => None end.

Definition shouldRetryTokenRequest (res : option Answer) : bool :=
  match answered res with Some a => isRetryableTokenStatus (an_status a) | None => true end.

(** In microseconds. *)
Definition tokenRetryBackoff (s : AuthState) : Z := 250000 + Z.min (st_jitterMs s) 5000 * 50.

Definition retryDelay (s : AuthState) (res : option Answer) : Z :=
  match res with
  | Some a =>
    if an_status a =? 429 then match an_retry_after a with Some seconds => seconds * 1000000 | None => tokenRetryBackoff s end
    else tokenRetryBackoff s
  | None => tokenRetryBackoff s
  end.

Record failure := mkFailure { fl_cause : string; fl_reason : string; fl_statusCode : Z; fl_retryable : bool }.

Definition markAuthAbort (f : failure) (s : AuthState) : AuthState :=
  s <| st_abortTriggered := true |> <| st_abortCause := fl_cause f |> <| st_abortReason := fl_reason f |>
    <| st_abortHTTPStatusCode := fl_statusCode f |> <| st_abortRetryable := fl_retryable f |>
    <| st_lastAuthSuccess := false |> <| st_lastAuthError := fl_reason f |>.

Definition abort_causes : list string :=
  ["http_status"; "timeout"; "network_error"; "config_error"; "invalid_response"; "unknown"].

Definition count_abort (f : failure) (m : ScriptMetrics) : ScriptMetrics :=
  let m := m <| sm_authAbortEvents := sm_authAbortEvents m + 1 |> <| sm_authAbortTriggered := sm_authAbortTriggered m + 1 |> in
  let causeKey := if one_of_strings (fl_cause f) abort_causes then fl_cause f else "unknown" in
  let m := m <| sm_authAbortCauses := bump causeKey (sm_authAbortCauses m) |> in
  let m := if status_code (fl_statusCode f) then m <| sm_authAbortStatus := bump (fl_statusCode f) (sm_authAbortStatus m) |> else m in
  if fl_retryable f then m <| sm_authAbortRetryableTrue := sm_authAbortRetryableTrue m + 1 |>
  else m <| sm_authAbortRetryableFalse := sm_authAbortRetryableFalse m + 1 |>.

(** The end of [requestAccessToken] without a token: [exec.test.abort], then the exception. *)
Definition token_failed (f : failure) (v : VirtualUser) : outcome * VirtualUser :=
  let v := auth_do (fun s => s <| st_tokenFailureCount := st_tokenFailureCount s + 1 |> <| st_lastAuthSuccess := false |>
                               <| st_lastAuthError := fl_reason f |>) v in
  let v := count (fun m => m <| sm_authTokenFailure := sm_authTokenFailure m + 1 |>) v in
  let v := count (count_abort f) (auth_do (markAuthAbort f) v) in
  (if abort_interrupts then Stopped ("Authentication aborted test run: " +:+ fl_reason f) else Thrown (fl_reason f), v).

Definition tokenFailureDetails (res : option Answer) (fallbackError : string) : failure :=
  match res with
  | Some a =>
    if String.eqb (an_error a) ""
    then mkFailure "http_status" ("token endpoint returned HTTP " +:+ itoa (an_status a)) (an_status a) (isRetryableTokenStatus (an_status a))
    else mkFailure (if contains (to_lower (an_error a)) "timeout" then "timeout" else "network_error") (an_error a) 0 true
  | None => mkFailure "network_error" fallbackError 0 true
  end.

(** The counting of one exchange. *)
Definition recordAuthResponseStatus (status : Z) (s : AuthState) : AuthState :=
  if status_code status then s <| st_responseStatusCounts := bump status (st_responseStatusCounts s) |> else s.

Definition count_exchange (ex : Exchange) (v : VirtualUser) : VirtualUser :=
  let v := auth_do (fun s => s <| st_tokenRequestCount := st_tokenRequestCount s + 1 |>) v in
  let v := count (fun m => m <| sm_authTokenRequests := sm_authTokenRequests m + 1 |>
                             <| sm_authTokenRequestDuration := sm_authTokenRequestDuration m ++ [ex_duration ex] |>) v in
  match answered (ex_answer ex) with
  | Some a =>
    let v := auth_do (recordAuthResponseStatus (an_status a)) v in
    count (fun m =>
      let m := m <| sm_authTokenResponses := sm_authTokenResponses m + 1 |> in
      if status_code (an_status a) then m <| sm_authResponseStatus := bump (an_status a) (sm_authResponseStatus m) |> else m) v
  | None => v
  end.

(** A token that is accepted. *)
Definition store_token (token type : string) (expires_in : expiry) (now : Z) (isRefresh : bool) (v : VirtualUser) : VirtualUser :=
  let v := auth_do (fun s =>
    s <| st_accessToken := token |> <| st_tokenType := type |>
      <| st_expiresAtEpochMs := match expires_in with ExpiresMs ms => Some (now + ms) | ExpiryNaN => None end |>
      <| st_refreshAtEpochMs := match expires_in with ExpiresMs ms => Some (now + ms - refreshLeadMs ms (st_jitterMs s)) | ExpiryNaN => None end |>
      <| st_lastAuthSuccess := true |> <| st_lastAuthError := "" |>
      <| st_tokenSuccessCount := st_tokenSuccessCount s + 1 |>) v in
  let v := count (fun m => m <| sm_authTokenSuccess := sm_authTokenSuccess m + 1 |>) v in
  if isRefresh then
    count (fun m => m <| sm_authTokenRefresh := sm_authTokenRefresh m + 1 |>)
      (auth_do (fun s => s <| st_tokenRefreshCount := st_tokenRefreshCount s + 1 |>) v)
  else v.

Definition not_positive (e : expiry) : bool := match e with ExpiresMs ms => ms <=? 0 | ExpiryNaN => false end.

Definition invalid_response (reason : string) (status : Z) : failure := mkFailure "invalid_response" reason status false.

Definition authorization (s : AuthState) : string := st_tokenType s +:+ " " +:+ st_accessToken s.

(** A response with a status from 200 to 299. *)
Definition read_token (a : Answer) (now : Z) (isRefresh : bool) (v : VirtualUser) : outcome * VirtualUser :=
  match an_body a with
  | BadJSON => token_failed (invalid_response "token endpoint returned invalid JSON" (an_status a)) v
  | NullBody => (Thrown "TypeError", v)
  | TokenBody access token_type expires_in =>
    let accessToken := default "" access in
    if String.eqb accessToken "" || not_positive expires_in
    then token_failed (invalid_response "token endpoint response is missing access_token or expires_in" (an_status a)) v
    else
      let v := store_token accessToken (default "Bearer" token_type) expires_in now isRefresh v in
      (Header (authorization (vu_auth v)), v)
  end.

(** The loop, with [rounds] attempts left and the exchanges to come. *)
Fixpoint request_loop (rounds : nat) (exchanges : nat -> Exchange) (isRefresh : bool) (last : failure) (v : VirtualUser)
  : outcome * VirtualUser :=
  match rounds with
  | O => token_failed last v
  | S rounds =>
    let ex := exchanges O in
    let v := count_exchange ex v in
    let ok := match answered (ex_answer ex) with
              | Some a => if (200 <=? an_status a) && (an_status a <? 300) then Some a else None
              | None => None
              end in
    match ok with
    | Some a => read_token a (ex_now ex) isRefresh v
    | None =>
      let last := tokenFailureDetails (ex_answer ex) (fl_reason last) in
      if (0 <? rounds)%nat && shouldRetryTokenRequest (ex_answer ex)
      then request_loop rounds (fun i => exchanges (S i)) isRefresh last v
      else token_failed last v
    end
  end.

Definition config_error (reason : string) : failure := mkFailure "config_error" reason 0 false.

Definition requestAccessToken (exchanges : nat -> Exchange) (isRefresh : bool) (v : VirtualUser) : outcome * VirtualUser :=
  if String.eqb (AUTH_CLIENT_SECRET cfg) "" then token_failed (config_error "auth client secret is missing") v
  else if String.eqb (AUTH_TOKEN_URL cfg) "" then token_failed (config_error "auth token url is missing") v
  else request_loop (S (Z.to_nat (AUTH_RETRY_LIMIT cfg))) exchanges isRefresh
         (mkFailure "unknown" "token request failed" 0 false) v.

(** [nowMs < state.refreshAtEpochMs]. *)
Definition before_refresh (now : Z) (s : AuthState) : bool :=
  match st_refreshAtEpochMs s with Some t => now <? t | None => false end.

Definition ensureAuthorizationHeader (now : Z) (exchanges : nat -> Exchange) (v : VirtualUser) : outcome * VirtualUser :=
  if negb (AUTH_ENABLED cfg) then (Header "", v)
  else
    let v := ensureAuthStateInitialized v in
    if negb (String.eqb (st_accessToken (vu_auth v)) "") && before_refresh now (vu_auth v) then
      (Header (authorization (vu_auth v)),
       count (fun m => m <| sm_authTokenReuseHits := sm_authTokenReuseHits m + 1 |>)
         (auth_do (fun s => s <| st_tokenReuseHitCount := st_tokenReuseHitCount s + 1 |>) v))
    else requestAccessToken exchanges (negb (String.eqb (st_accessToken (vu_auth v)) "")) v.

(** ** An iteration *)

Definition add_rates (passed : bool) (m : ScriptMetrics) : ScriptMetrics :=
  if passed then m <| sm_errors_false := sm_errors_false m + 1 |> <| sm_success_true := sm_success_true m + 1 |>
  else m <| sm_errors_true := sm_errors_true m + 1 |> <| sm_success_false := sm_success_false m + 1 |>.

(** The response of the target: its status, or no response. *)
Definition count_response (res : option Z) (m : ScriptMetrics) : ScriptMetrics :=
  let m := m <| sm_businessHttpRequests := sm_businessHttpRequests m + 1 |> in
  match res with
  | None =>
    add_rates false (m <| sm_businessHttpFailure := sm_businessHttpFailure m + 1 |>
                       <| sm_businessTransportFailures := sm_businessTransportFailures m + 1 |>)
  | Some status =>
    let passed := (200 <=? status) && (status <? 300) in
    let m := add_rates passed m in
    let m := if passed then m <| sm_businessHttpSuccess := sm_businessHttpSuccess m + 1 |>
                              <| sm_businessStatus2xx := sm_businessStatus2xx m + 1 |>
             else m <| sm_businessHttpFailure := sm_businessHttpFailure m + 1 |> in
    let m := if (400 <=? status) && (status <? 500)
             then m <| sm_status4xx := sm_status4xx m + 1 |> <| sm_businessStatus4xx := sm_businessStatus4xx m + 1 |> else m in
    if 500 <=? status then m <| sm_status5xx := sm_status5xx m + 1 |> <| sm_businessStatus5xx := sm_businessStatus5xx m + 1 |> else m
  end.

(** The default function at time [now]; the header it sends, if it sends. *)
Definition iteration (now : Z) (exchanges : nat -> Exchange) (res : option Z) (v : VirtualUser) : option string * VirtualUser :=
  match ensureAuthorizationHeader now exchanges v with
  | (Header h, v) => (Some h, count (count_response res) v)
  | (Thrown _, v) => (None, count (add_rates false) v)
  | (Stopped _, v) => (None, v)
  end.

(** A virtual user does one iteration after the other, with whatever the
    endpoints answer. *)
Inductive vu_step : VirtualUser -> VirtualUser -> Prop :=
  | step_iteration now exchanges res v : vu_step v (iteration now exchanges res v).2.
End script.

(** ** The settings the controller passes *)

Lemma contract_settings req : ai_Enabled (tr_Auth req) = true -> 0 < ai_RefreshSkewSeconds (tr_Auth req) <= max_exact ->
  script_settings (worker_env (buildBuilderEnvContract req)) =
  Some (mkAuthSettings true (trim_space (ai_TokenURL (tr_Auth req))) (trim_space (ai_ClientSecret (tr_Auth req)))
    (ai_RefreshSkewSeconds (tr_Auth req)) 1 [408; 429; 502; 503; 504] 5000).
Proof.
  intros He Hs. destruct (contract_lookup req) as (_ & _ & _ & Hf).
  assert (Hk : forall name v fallback, name <> "PAYLOAD_SOURCE_JSON" -> buildBuilderEnvContract req !! name = Some v ->
    envString (worker_env (buildBuilderEnvContract req)) name fallback = v)
    by (intros name v fallback Hn Hv; by apply envString_some, worker_env_kept).
  assert (Hc : forall name v, name <> "PAYLOAD_SOURCE_JSON" -> buildBuilderEnvContract req !! name = Some v ->
    forall fallback, envString (worker_env (buildBuilderEnvContract req)) name fallback = v) by auto.
  unfold script_settings, envNumber, envBool.
  rewrite (Hc "AUTH_REFRESH_SKEW_SECONDS" (itoa (ai_RefreshSkewSeconds (tr_Auth req)))); [|done|].
  2: { unfold buildBuilderEnvContract, normalizeAuthRefreshSkew. rewrite He, (proj2 (Z.leb_gt _ _)) by lia.
       destruct (blank _); by simplify_map_eq. }
  rewrite js_Number_itoa by lia.
  rewrite (Hc "AUTH_RETRY_LIMIT" "1"), (Hc "AUTH_MAX_JITTER_MS" "5000"), (Hc "AUTH_ENABLED" "true"),
    (Hc "AUTH_TOKEN_URL" (trim_space (ai_TokenURL (tr_Auth req)))),
    (Hc "AUTH_CLIENT_SECRET" (trim_space (ai_ClientSecret (tr_Auth req)))),
    (Hc "AUTH_RETRYABLE_STATUS_CODES" "408,429,502,503,504");
    try done; try (unfold buildBuilderEnvContract; rewrite He; destruct (blank _); by simplify_map_eq).
  cbn [mbind option_bind from_option id]. rewrite Z.max_r by lia. reflexivity.
Qed.

(** ** What stays true of a virtual user *)

Definition settings_ok (cfg : AuthSettings) : Prop :=
  1 <= AUTH_REFRESH_SKEW_SECONDS cfg /\ 0 <= AUTH_RETRY_LIMIT cfg /\ 0 <= AUTH_MAX_JITTER_MS cfg.

Lemma script_settings_ok env cfg : script_settings env = Some cfg -> settings_ok cfg.
Proof.
  unfold script_settings. intros H. repeat (apply bind_Some in H as (? & _ & H)). injection H as <-.
  unfold settings_ok. cbn. lia.
Qed.

(** The state and the metrics count the same, every failed request for a token
    aborts, every token after the first is a refresh, and the time of the
    refresh is not after the end of the token. *)
Record token_ok (cfg : AuthSettings) (s : AuthState) (m : ScriptMetrics) : Prop := {
  ok_requests : st_tokenRequestCount s = sm_authTokenRequests m;
  ok_success : st_tokenSuccessCount s = sm_authTokenSuccess m;
  ok_failure : st_tokenFailureCount s = sm_authTokenFailure m;
  ok_refresh : st_tokenRefreshCount s = sm_authTokenRefresh m;
  ok_reuse : st_tokenReuseHitCount s = sm_authTokenReuseHits m;
  ok_responses : st_responseStatusCounts s = sm_authResponseStatus m;
  ok_durations : Z.of_nat (length (sm_authTokenRequestDuration m)) = sm_authTokenRequests m;
  ok_answers : 0 <= sm_authTokenSuccess m <= sm_authTokenResponses m /\ sm_authTokenResponses m <= sm_authTokenRequests m;
  ok_aborts : 0 <= sm_authTokenFailure m /\ sm_authAbortEvents m = sm_authTokenFailure m /\
    sm_authAbortTriggered m = sm_authTokenFailure m /\
    sm_authAbortRetryableTrue m + sm_authAbortRetryableFalse m = sm_authTokenFailure m;
  ok_aborted : st_abortTriggered s = (0 <? sm_authTokenFailure m);
  ok_held : String.eqb (st_accessToken s) "" = (sm_authTokenSuccess m =? 0);
  ok_refreshes : sm_authTokenRefresh m = Z.max 0 (sm_authTokenSuccess m - 1);
  ok_jitter : 0 <= st_jitterMs s <= AUTH_MAX_JITTER_MS cfg;
  ok_times : match st_expiresAtEpochMs s, st_refreshAtEpochMs s with
             | Some e, Some r => e - AUTH_REFRESH_SKEW_SECONDS cfg * 1000 - AUTH_MAX_JITTER_MS cfg <= r <= e
             | None, None => True
             | _, _ => False
             end
}.

(** Every iteration that ends counts once in each rate; requests to the target
    are successes or failures. *)
Record business_ok (m : ScriptMetrics) : Prop := {
  ok_rates : sm_errors_true m = sm_success_false m /\ sm_errors_false m = sm_success_true m;
  ok_passed : sm_success_true m = sm_businessHttpSuccess m /\ sm_businessStatus2xx m = sm_businessHttpSuccess m;
  ok_sum : sm_businessHttpRequests m = sm_businessHttpSuccess m + sm_businessHttpFailure m;
  ok_failed : 0 <= sm_businessStatus4xx m /\ 0 <= sm_businessStatus5xx m /\ 0 <= sm_businessTransportFailures m /\
    sm_businessStatus4xx m + sm_businessStatus5xx m + sm_businessTransportFailures m <= sm_businessHttpFailure m /\
    sm_businessHttpFailure m <= sm_errors_true m;
  ok_status : sm_status4xx m = sm_businessStatus4xx m /\ sm_status5xx m = sm_businessStatus5xx m
}.

Record vu_ok (cfg : AuthSettings) (v : VirtualUser) : Prop := {
  vu_token : token_ok cfg (vu_auth v) (vu_metrics v);
  vu_business : business_ok (vu_metrics v)
}.

Section invariants.
Context (cfg : AuthSettings) (abort_interrupts : bool) (vuId : Z) (Hcfg : settings_ok cfg).

Lemma new_vu_ok : vu_ok cfg new_vu.
Proof. destruct Hcfg as (? & ? & ?). split; split; cbn; try done; try lia. Qed.

(** What the steps of a request for a token leave alone. *)
Definition same_business (m m' : ScriptMetrics) : Prop :=
  sm_errors_true m' = sm_errors_true m /\ sm_errors_false m' = sm_errors_false m /\
  sm_success_true m' = sm_success_true m /\ sm_success_false m' = sm_success_false m /\
  sm_status4xx m' = sm_status4xx m /\ sm_status5xx m' = sm_status5xx m /\
  sm_businessHttpRequests m' = sm_businessHttpRequests m /\ sm_businessHttpSuccess m' = sm_businessHttpSuccess m /\
  sm_businessHttpFailure m' = sm_businessHttpFailure m /\ sm_businessStatus2xx m' = sm_businessStatus2xx m /\
  sm_businessStatus4xx m' = sm_businessStatus4xx m /\ sm_businessStatus5xx m' = sm_businessStatus5xx m /\
  sm_businessTransportFailures m' = sm_businessTransportFailures m.

Lemma same_business_ok m m' : same_business m m' -> business_ok m -> business_ok m'.
Proof. unfold same_business. intros H [? ? ? ? ?]. destruct_and?. split; lia. Qed.

Lemma vu_ok_same v v' : same_business (vu_metrics v) (vu_metrics v') -> token_ok cfg (vu_auth v') (vu_metrics v') ->
  vu_ok cfg v -> vu_ok cfg v'.
Proof. intros Hb Ht [_ H]. split; [done|by eapply same_business_ok]. Qed.

Lemma initialized_ok v : vu_ok cfg v -> vu_ok cfg (ensureAuthStateInitialized cfg vuId v).
Proof.
  intros H. pose proof H as [[] _]. apply (vu_ok_same v); [done| |exact H].
  unfold ensureAuthStateInitialized, initialized, auth_do. cbn. destruct Hcfg as (? & ? & ?).
  destruct (st_initialized (vu_auth v)); [by destruct H as [? _]|]. split; cbn; try done.
  pose proof (Z.mod_pos_bound vuId (Z.max 1 (AUTH_MAX_JITTER_MS cfg / 1000 + 1)) ltac:(lia)). lia.
Qed.

Lemma count_abort_counts f m :
  let m' := count_abort f m in
  same_business m m' /\ sm_authTokenRequests m' = sm_authTokenRequests m /\ sm_authTokenSuccess m' = sm_authTokenSuccess m /\
  sm_authTokenFailure m' = sm_authTokenFailure m /\ sm_authTokenRefresh m' = sm_authTokenRefresh m /\
  sm_authTokenReuseHits m' = sm_authTokenReuseHits m /\ sm_authResponseStatus m' = sm_authResponseStatus m /\
  sm_authTokenRequestDuration m' = sm_authTokenRequestDuration m /\ sm_authTokenResponses m' = sm_authTokenResponses m /\
  sm_authAbortEvents m' = sm_authAbortEvents m + 1 /\ sm_authAbortTriggered m' = sm_authAbortTriggered m + 1 /\
  sm_authAbortRetryableTrue m' + sm_authAbortRetryableFalse m' = sm_authAbortRetryableTrue m + sm_authAbortRetryableFalse m + 1.
Proof. unfold count_abort. destruct (status_code _), (fl_retryable f); cbn; unfold same_business; cbn; split_and!; lia || done. Qed.

Lemma token_failed_ok f v : vu_ok cfg v -> vu_ok cfg (token_failed abort_interrupts f v).2.
Proof.
  intros H. pose proof H as [[] _]. unfold token_failed. cbn [snd].
  set (v' := count (fun m => m <| sm_authTokenFailure := sm_authTokenFailure m + 1 |>) _).
  pose proof (count_abort_counts f (vu_metrics v')) as (Hb & Hc). destruct_and! Hc.
  apply (vu_ok_same v); [exact Hb| |exact H]. cbn in *.
  split; cbn; try congruence; lia.
Qed.

Lemma count_exchange_ok ex v : vu_ok cfg v ->
  let v' := count_exchange ex v in
  vu_ok cfg v' /\ st_accessToken (vu_auth v') = st_accessToken (vu_auth v) /\
  sm_authTokenRequests (vu_metrics v') = sm_authTokenRequests (vu_metrics v) + 1 /\
  (is_Some (answered (ex_answer ex)) -> sm_authTokenSuccess (vu_metrics v') < sm_authTokenResponses (vu_metrics v')).
Proof.
  intros H. pose proof H as [[] _]. unfold count_exchange. cbv zeta.
  destruct (answered (ex_answer ex)) as [a|]; [unfold recordAuthResponseStatus; destruct (status_code (an_status a)) eqn:Es|];
    (split; [apply (vu_ok_same v); [|split|exact H]|]); cbn; rewrite ?Es; cbn; rewrite ?length_app; cbn;
    try done; try congruence; try lia; split_and!; try done; try lia.
Qed.

Lemma refreshLeadMs_bounds ms jitter : 0 < ms -> 0 <= jitter <= AUTH_MAX_JITTER_MS cfg ->
  0 <= refreshLeadMs cfg ms jitter <= AUTH_REFRESH_SKEW_SECONDS cfg * 1000 + AUTH_MAX_JITTER_MS cfg.
Proof. unfold refreshLeadMs, effectiveRefreshSkewMs. destruct Hcfg as (? & ? & ?). lia. Qed.

Lemma store_token_ok token type expires now v : token <> "" -> not_positive expires = false -> vu_ok cfg v ->
  sm_authTokenSuccess (vu_metrics v) < sm_authTokenResponses (vu_metrics v) ->
  vu_ok cfg (store_token cfg token type expires now (negb (String.eqb (st_accessToken (vu_auth v)) "")) v).
Proof.
  intros Ht He H Hlt. pose proof H as [[] _]. unfold store_token. apply String.eqb_neq in Ht.
  assert (Htimes : match (match expires with ExpiresMs ms => Some (now + ms) | ExpiryNaN => None end),
      (match expires with ExpiresMs ms => Some (now + ms - refreshLeadMs cfg ms (st_jitterMs (vu_auth v))) | ExpiryNaN => None end) with
    | Some e, Some r => e - AUTH_REFRESH_SKEW_SECONDS cfg * 1000 - AUTH_MAX_JITTER_MS cfg <= r <= e
    | None, None => True | _, _ => False end).
  { destruct expires as [ms|]; [|done]. cbn in He. apply Z.leb_gt in He.
    pose proof (refreshLeadMs_bounds ms (st_jitterMs (vu_auth v)) He ok_jitter0). lia. }
  destruct (String.eqb (st_accessToken (vu_auth v)) "") eqn:E; cbn [negb];
    (apply (vu_ok_same v); [done|split|exact H]); cbn; rewrite ?Ht; try done; try congruence; try lia.
Qed.

Lemma read_token_ok a now v : vu_ok cfg v -> sm_authTokenSuccess (vu_metrics v) < sm_authTokenResponses (vu_metrics v) ->
  vu_ok cfg (read_token cfg abort_interrupts a now (negb (String.eqb (st_accessToken (vu_auth v)) "")) v).2.
Proof.
  intros H Hlt. unfold read_token. destruct (an_body a) as [| |access type expires]; [by apply token_failed_ok|done|].
  cbv zeta. destruct (String.eqb (default "" access) "" || not_positive expires) eqn:E; [by apply token_failed_ok|].
  apply orb_false_iff in E as [Et He]. apply String.eqb_neq in Et. by apply store_token_ok.
Qed.

Lemma request_loop_ok rounds exchanges isRefresh last v : vu_ok cfg v ->
  isRefresh = negb (String.eqb (st_accessToken (vu_auth v)) "") ->
  vu_ok cfg (request_loop cfg abort_interrupts rounds exchanges isRefresh last v).2.
Proof.
  revert exchanges last v. induction rounds as [|rounds IH]; intros exchanges last v H Hr; cbn [request_loop];
    [by apply token_failed_ok|].
  destruct (count_exchange_ok (exchanges O) v H) as (Hv & Htok & _ & Hlt). cbv zeta.
  set (v' := count_exchange (exchanges O) v) in *.
  destruct (answered (ex_answer (exchanges O))) as [a|] eqn:Ea.
  - destruct ((200 <=? an_status a) && (an_status a <? 300)).
    + subst isRefresh. rewrite <- Htok. apply read_token_ok; [done|]. by apply Hlt.
    + destruct (_ && _); [apply IH; by rewrite ?Htok|by apply token_failed_ok].
  - destruct (_ && _); [apply IH; by rewrite ?Htok|by apply token_failed_ok].
Qed.

Lemma authorization_ok now exchanges v : vu_ok cfg v ->
  vu_ok cfg (ensureAuthorizationHeader cfg abort_interrupts vuId now exchanges v).2.
Proof.
  intros H. unfold ensureAuthorizationHeader. destruct (negb (AUTH_ENABLED cfg)); [done|].
  pose proof (initialized_ok v H) as Hi. cbv zeta. revert Hi. generalize (ensureAuthStateInitialized cfg vuId v). intros v' Hi.
  destruct (negb _ && before_refresh now _).
  - pose proof Hi as [[] _]. apply (vu_ok_same v'); [done|split|exact Hi]; cbn; try done; try congruence; lia.
  - unfold requestAccessToken. destruct (String.eqb (AUTH_CLIENT_SECRET cfg) ""); [by apply token_failed_ok|].
    destruct (String.eqb (AUTH_TOKEN_URL cfg) ""); [by apply token_failed_ok|]. by apply request_loop_ok.
Qed.

Lemma count_response_ok res m : business_ok m -> business_ok (count_response res m).
Proof.
  intros []. destruct_and?. unfold count_response. destruct res as [status|]; [|split; cbn; lia].
  destruct (Z.leb_spec 200 status), (Z.ltb_spec status 300); cbn [andb];
    destruct (Z.leb_spec 400 status), (Z.ltb_spec status 500); cbn [andb]; destruct (Z.leb_spec 500 status);
    try lia; split; cbn; lia.
Qed.

Lemma count_response_token res s m : token_ok cfg s m -> token_ok cfg s (count_response res m).
Proof.
  intros []. unfold count_response. destruct res as [status|]; [|by split].
  by destruct ((200 <=? status) && (status <? 300)), ((400 <=? status) && (status <? 500)), (500 <=? status); split.
Qed.

Lemma iteration_ok now exchanges res v : vu_ok cfg v ->
  vu_ok cfg (iteration cfg abort_interrupts vuId now exchanges res v).2.
Proof.
  intros H. pose proof (authorization_ok now exchanges v H) as Ha. unfold iteration.
  destruct (ensureAuthorizationHeader _ _ _ _ _ _) as [[h|e|r] v']; [| |done]; destruct Ha as [Ht Hb]; cbn [snd] in *.
  - split; [by apply count_response_token|by apply count_response_ok].
  - split; cbn; [by destruct Ht; split|]. destruct Hb. destruct_and?. split; cbn; lia.
Qed.

(** C11: over any number of iterations, whatever the two endpoints answer and
    whether aborting interrupts the script or not, the script's state and its
    metrics count the same tokens, every failed request for a token that is
    counted as one aborts the run (a body that is null ends the iteration before
    it is counted, see [null_token]), the tokens after the first are refreshes, the refresh is due no
    later than the token ends, every iteration that ends counts once in each
    rate, and the requests to the target are its successes and failures. *)
Theorem script_invariant v : rtc (vu_step cfg abort_interrupts vuId) new_vu v -> vu_ok cfg v.
Proof.
  revert v. apply (rtc_ind_r (vu_ok cfg) new_vu); [apply new_vu_ok|].
  intros w w' _ [now exchanges res ?] Hw. by apply iteration_ok.
Qed.

(** ** Tokens that are used *)

Lemma request_loop_bound rounds exchanges isRefresh last v :
  let v' := (request_loop cfg abort_interrupts rounds exchanges isRefresh last v).2 in
  sm_authTokenRequests (vu_metrics v) <= sm_authTokenRequests (vu_metrics v') <= sm_authTokenRequests (vu_metrics v) + Z.of_nat rounds.
Proof.
  assert (Hf : forall f w, sm_authTokenRequests (vu_metrics (token_failed abort_interrupts f w).2) = sm_authTokenRequests (vu_metrics w)).
  { intros f w. unfold token_failed. cbn. unfold count_abort. by destruct (status_code _), (fl_retryable f). }
  cbv zeta. revert exchanges last v. induction rounds as [|rounds IH]; intros exchanges last v; cbn [request_loop].
  { rewrite Hf. lia. }
  assert (Hc : sm_authTokenRequests (vu_metrics (count_exchange (exchanges O) v)) = sm_authTokenRequests (vu_metrics v) + 1).
  { unfold count_exchange. destruct (answered _) as [a|]; cbn; [|done]. by destruct (status_code (an_status a)). }
  set (w := count_exchange (exchanges O) v) in *. cbv zeta.
  assert (Hfail : forall f, sm_authTokenRequests (vu_metrics v) <= sm_authTokenRequests (vu_metrics (token_failed abort_interrupts f w).2)
    <= sm_authTokenRequests (vu_metrics v) + Z.of_nat (S rounds)) by (intros f; rewrite Hf; lia).
  assert (Hread : forall a, sm_authTokenRequests (vu_metrics v) <=
      sm_authTokenRequests (vu_metrics (read_token cfg abort_interrupts a (ex_now (exchanges O)) isRefresh w).2)
    <= sm_authTokenRequests (vu_metrics v) + Z.of_nat (S rounds)).
  { intros a. unfold read_token. destruct (an_body a) as [| |x y z]; [apply Hfail|cbn; lia|].
    cbv zeta. destruct (_ || _); [apply Hfail|]. unfold store_token. destruct isRefresh; cbn; lia. }
  destruct (answered (ex_answer (exchanges O))) as [a|]; [destruct ((200 <=? an_status a) && (an_status a <? 300)); [apply Hread|]|];
    (destruct (_ && _); [|apply Hfail]);
    match goal with |- context [request_loop _ _ _ ?x _ ?l w] => specialize (IH x l w) end; lia.
Qed.

(** A header that comes out of the loop is the token just obtained. *)
Lemma request_loop_header rounds exchanges isRefresh last v h :
  (request_loop cfg abort_interrupts rounds exchanges isRefresh last v).1 = Header h ->
  let v' := (request_loop cfg abort_interrupts rounds exchanges isRefresh last v).2 in
  h = authorization (vu_auth v') /\ st_accessToken (vu_auth v') <> "" /\
  sm_authTokenRequests (vu_metrics v) < sm_authTokenRequests (vu_metrics v').
Proof.
  assert (Hf : forall f w, (token_failed abort_interrupts f w).1 = Header h -> False)
    by (intros f w; unfold token_failed; cbn; by destruct abort_interrupts).
  cbv zeta. revert exchanges last v. induction rounds as [|rounds IH]; intros exchanges last v; cbn [request_loop];
    [by intros ?%Hf|].
  assert (Hc : sm_authTokenRequests (vu_metrics (count_exchange (exchanges O) v)) = sm_authTokenRequests (vu_metrics v) + 1).
  { unfold count_exchange. destruct (answered _) as [a|]; cbn; [|done]. by destruct (status_code (an_status a)). }
  set (w := count_exchange (exchanges O) v) in *. cbv zeta.
  destruct (answered (ex_answer (exchanges O))) as [a|]; [destruct ((200 <=? an_status a) && (an_status a <? 300))|].
  2, 3: destruct (_ && _); [|by intros ?%Hf]; intros Hh; destruct (IH _ _ _ Hh) as (? & ? & ?); split_and!; [done..|lia].
  unfold read_token. destruct (an_body a) as [| |x y z]; [by intros ?%Hf|done|]. cbv zeta.
  destruct (_ || _) eqn:E; [by intros ?%Hf|]. apply orb_false_iff in E as [E _]. apply String.eqb_neq in E.
  cbn [fst snd]. intros [= <-]. unfold store_token. destruct isRefresh; cbn; split_and!; done || lia.
Qed.

Lemma request_token_spec exchanges isRefresh v :
  let '(out, v') := requestAccessToken cfg abort_interrupts exchanges isRefresh v in
  let requests := sm_authTokenRequests (vu_metrics v') - sm_authTokenRequests (vu_metrics v) in
  0 <= requests <= AUTH_RETRY_LIMIT cfg + 1 /\
  forall h, out = Header h -> h = authorization (vu_auth v') /\ st_accessToken (vu_auth v') <> "" /\ 0 < requests.
Proof.
  destruct Hcfg as (_ & Hlim & _).
  assert (Hf : forall f, let '(out, v') := token_failed abort_interrupts f v in
    let requests := sm_authTokenRequests (vu_metrics v') - sm_authTokenRequests (vu_metrics v) in
    0 <= requests <= AUTH_RETRY_LIMIT cfg + 1 /\
    forall h, out = Header h -> h = authorization (vu_auth v') /\ st_accessToken (vu_auth v') <> "" /\ 0 < requests).
  { intros f. unfold token_failed. cbn. unfold count_abort. split; [|by destruct abort_interrupts].
    destruct (status_code _), (fl_retryable f); cbn; lia. }
  unfold requestAccessToken. destruct (String.eqb _ ""); [apply Hf|]. destruct (String.eqb _ ""); [apply Hf|].
  set (last := mkFailure _ _ _ _). set (rounds := S _).
  pose proof (request_loop_bound rounds exchanges isRefresh last v) as Hb.
  pose proof (fun h => request_loop_header rounds exchanges isRefresh last v h) as Hh. cbv zeta in Hb, Hh.
  destruct (request_loop _ _ rounds _ _ _ _) as [out v']. cbn [fst snd] in *. unfold rounds in Hb. split; [lia|].
  intros h E. destruct (Hh h E) as (? & ? & ?). split_and!; [done..|lia].
Qed.

(** C36: the header of a request is the token the user holds.  It takes one
    request for a token and the retries the settings allow at most to get it,
    and none while the token is not due for a refresh; so a token that is used
    again has not expired. *)
Theorem token_use now exchanges v : vu_ok cfg v ->
  let '(out, v') := ensureAuthorizationHeader cfg abort_interrupts vuId now exchanges v in
  let requests := sm_authTokenRequests (vu_metrics v') - sm_authTokenRequests (vu_metrics v) in
  0 <= requests <= AUTH_RETRY_LIMIT cfg + 1 /\
  (AUTH_ENABLED cfg = true -> forall h, out = Header h ->
    h = authorization (vu_auth v') /\ st_accessToken (vu_auth v') <> "" /\
    (requests = 0 -> exists e, st_expiresAtEpochMs (vu_auth v') = Some e /\ now < e)) /\
  (st_accessToken (vu_auth v) <> "" -> before_refresh now (vu_auth v) = true -> requests = 0).
Proof.
  intros H. unfold ensureAuthorizationHeader. destruct Hcfg as (_ & Hlim & _).
  destruct (AUTH_ENABLED cfg) eqn:Een; cbn [negb]; [|by split_and!; lia || done].
  pose proof (initialized_ok v H) as Hi. cbv zeta.
  assert (Hs : st_accessToken (vu_auth (ensureAuthStateInitialized cfg vuId v)) = st_accessToken (vu_auth v) /\
    before_refresh now (vu_auth (ensureAuthStateInitialized cfg vuId v)) = before_refresh now (vu_auth v) /\
    vu_metrics (ensureAuthStateInitialized cfg vuId v) = vu_metrics v).
  { unfold ensureAuthStateInitialized, initialized, auth_do. cbn. by destruct (st_initialized (vu_auth v)). }
  destruct Hs as (Htok & Href & Hmet). rewrite <- Hmet, <- Htok, <- Href. revert Hi. clear Htok Href Hmet.
  generalize (ensureAuthStateInitialized cfg vuId v). clear v H. intros v Hi.
  destruct (String.eqb_spec (st_accessToken (vu_auth v)) "") as [Et|Et]; cbn [negb andb].
  2: destruct (before_refresh now (vu_auth v)) eqn:Eb.
  2: { cbn. split_and!; [lia..| |lia]. intros _ h [= <-]. split_and!; [done..|]. intros _.
       unfold before_refresh in Eb. destruct Hi as [[] _]. destruct (st_refreshAtEpochMs (vu_auth v)) as [r|]; [|done].
       destruct (st_expiresAtEpochMs (vu_auth v)) as [e|]; [|done]. apply Z.ltb_lt in Eb. exists e. split; [done|lia]. }
  all: pose proof (request_token_spec exchanges (negb (String.eqb (st_accessToken (vu_auth v)) "")) v) as Hr;
    rewrite ?Et in Hr; rewrite ?(proj2 (String.eqb_neq _ _) Et) in Hr; cbn [negb String.eqb] in Hr;
    destruct (requestAccessToken _ _ _ _ _) as [out v']; destruct Hr as [Hr Hh]; split_and!; try lia; try done.
  all: intros _ h E; destruct (Hh h E) as (? & ? & ?); split_and!; [done..|lia].
Qed.
End invariants.

(** ** A run *)

Definition shop_settings : AuthSettings :=
  mkAuthSettings true "http://idp/token" "s3cret" 30 1 [408; 429; 502; 503; 504] 5000.

Definition good_token (token : string) (expires_in : expiry) : Answer :=
  mkAnswer 200 "" (TokenBody (Some token) None expires_in) None.

Definition exchange (a : option Answer) : Exchange := mkExchange 12 a 1000.

(** The first attempt is refused for now, the second gives a token for a minute. *)
Definition flaky_endpoint (i : nat) : Exchange :=
  match i with O => exchange (Some (mkAnswer 503 "" BadJSON None)) | S _ => exchange (Some (good_token "abc" (ExpiresMs 60000))) end.

Definition script_run (cfg : AuthSettings) (abort_interrupts : bool) (vuId : Z)
    (inputs : list (Z * (nat -> Exchange) * option Z)) : VirtualUser :=
  foldl (fun v i => (iteration cfg abort_interrupts vuId i.1.1 i.1.2 i.2 v).2) new_vu inputs.

Lemma shop_settings_ok : settings_ok shop_settings.
Proof. unfold settings_ok. cbn. lia. Qed.

Definition two_iterations : VirtualUser :=
  script_run shop_settings true 3 [(1000, flaky_endpoint, Some 200); (2000, flaky_endpoint, Some 503)].

Example two_iterations_counts :
  let m := vu_metrics two_iterations in
  [sm_authTokenRequests m; sm_authTokenSuccess m; sm_authTokenReuseHits m; sm_businessHttpRequests m; sm_businessStatus5xx m] = [2; 1; 1; 2; 1].
Proof. vm_compute. reflexivity. Qed.

Lemma script_run_reachable cfg abort_interrupts vuId inputs :
  rtc (vu_step cfg abort_interrupts vuId) new_vu (script_run cfg abort_interrupts vuId inputs).
Proof.
  unfold script_run. induction inputs as [|i inputs IH] using rev_ind; [apply rtc_refl|].
  rewrite foldl_app. eapply rtc_r; [exact IH|]. apply step_iteration.
Qed.

Lemma script_invariant_witness : vu_ok shop_settings two_iterations.
Proof. exact (script_invariant shop_settings true 3 shop_settings_ok _ (script_run_reachable shop_settings true 3 _)). Defined.

Lemma two_iterations_ok : vu_ok shop_settings two_iterations.
Proof. repeat apply (iteration_ok _ _ _ shop_settings_ok). apply new_vu_ok, shop_settings_ok. Qed.

Lemma token_use_witness :
  exists e, st_expiresAtEpochMs (vu_auth (ensureAuthorizationHeader shop_settings true 3 3000 flaky_endpoint two_iterations).2) = Some e /\ 3000 < e.
Proof.
  pose proof (token_use shop_settings true 3 shop_settings_ok 3000 flaky_endpoint two_iterations two_iterations_ok) as H.
  assert (Eh : (ensureAuthorizationHeader shop_settings true 3 3000 flaky_endpoint two_iterations).1 = Header "Bearer abc")
    by (vm_compute; reflexivity).
  assert (Er : sm_authTokenRequests (vu_metrics (ensureAuthorizationHeader shop_settings true 3 3000 flaky_endpoint two_iterations).2) -
    sm_authTokenRequests (vu_metrics two_iterations) = 0) by (vm_compute; reflexivity).
  destruct (ensureAuthorizationHeader shop_settings true 3 3000 flaky_endpoint two_iterations) as [out v'].
  destruct H as (_ & H & _). exact (proj2 (proj2 (H eq_refl "Bearer abc" Eh)) Er).
Defined.

(** A lifetime that is not a number is accepted, and the token is requested
    again for every iteration. *)
Example unreadable_lifetime :
  let v := script_run shop_settings true 3 (repeat (1000, fun _ => exchange (Some (good_token "abc" ExpiryNaN)), Some 200) 5) in
  sm_authTokenRequests (vu_metrics v) = 5.
Proof. vm_compute. reflexivity. Qed.

(** A response [null] throws before the failure is counted, and the run is not
    aborted. *)
Example null_token :
  let v := script_run shop_settings true 3 [(1000, fun _ => exchange (Some (mkAnswer 200 "" NullBody None)), Some 200)] in
  let m := vu_metrics v in
  (sm_authTokenRequests m, sm_authTokenFailure m, sm_authAbortTriggered m, sm_errors_true m) = (1, 0, 0, 1).
Proof. vm_compute. reflexivity. Qed.
