(* ===== verification/Base64.v ===== *)
(** * Base64

    [encoding/base64] as the code uses it: [StdEncoding] for stored secrets and
    for Basic credentials, [RawURLEncoding] for tokens.  An encoding is its
    alphabet and whether it pads; what decoding relies on is a class, and the
    round trip is proved against it. *)

From S2P Require Import Prelude GoStrings Json JsonOut K6Config EnvFileSpec.

Open Scope Z_scope.
Open Scope go_scope.

Record base64_encoding := mkBase64 {
  b64_digit : Z -> Ascii.ascii;
  b64_value : Ascii.ascii -> option Z;
  b64_padded : bool
}.

Definition std_value (c : Ascii.ascii) : option Z :=
  let b := byte_of c in
  if between 65 90 c then Some (b - 65) else if between 97 122 c then Some (b - 71)
  else if between 48 57 c then Some (b + 4) else if b =? 43 then Some 62 else if b =? 47 then Some 63 else None.

Definition url_digit (z : Z) : Ascii.ascii :=
  if z =? 62 then chr 45 else if z =? 63 then chr 95 else base64_digit z.

Definition url_value (c : Ascii.ascii) : option Z :=
  let b := byte_of c in
  if b =? 45 then Some 62 else if b =? 95 then Some 63
  else if (b =? 43) || (b =? 47) then None else std_value c.

Definition StdEncoding : base64_encoding := mkBase64 base64_digit std_value true.
Definition RawURLEncoding : base64_encoding := mkBase64 url_digit url_value false.

Section encoding.
Context (enc : base64_encoding).

Definition padding_text (s : string) : string := if b64_padded enc then s else "".

(** [EncodeToString]. *)
Fixpoint EncodeToString (s : string) : string :=
  match s with
  | EmptyString => ""
  | String a s1 =>
    let x := byte_of a in
    match s1 with
    | EmptyString => String (b64_digit enc (x / 4)) (String (b64_digit enc (x mod 4 * 16)) (padding_text "=="))
    | String b s2 =>
      let y := byte_of b in
      let two rest := String (b64_digit enc (x / 4)) (String (b64_digit enc (x mod 4 * 16 + y / 16)) rest) in
      match s2 with
      | EmptyString => two (String (b64_digit enc (y mod 16 * 4)) (padding_text "="))
      | String c s3 =>
        let z := byte_of c in
        two (String (b64_digit enc (y mod 16 * 4 + z / 64)) (String (b64_digit enc (z mod 64)) (EncodeToString s3)))
      end
    end
  end.

(** The decoder skips line breaks wherever they stand. *)
Fixpoint skip_breaks (s : string) : string :=
  match s with
  | EmptyString => ""
  | String c s' => if (byte_of c =? 10) || (byte_of c =? 13) then skip_breaks s' else String c (skip_breaks s')
  end.

Definition byte1 (x y : Z) : Ascii.ascii := chr (x * 4 + y / 16).
Definition byte2 (y z : Z) : Ascii.ascii := chr (y mod 16 * 16 + z / 4).
Definition byte3 (z u : Z) : Ascii.ascii := chr (z mod 4 * 64 + u).

Definition is_pad (c : Ascii.ascii) : bool := b64_padded enc && (byte_of c =? 61).

(** The last one or two bytes; the unused bits are not looked at. *)
Definition decode2 (a b : Ascii.ascii) : option string :=
  x ← b64_value enc a; y ← b64_value enc b; Some (String (byte1 x y) "").
Definition decode3 (a b c : Ascii.ascii) : option string :=
  x ← b64_value enc a; y ← b64_value enc b; z ← b64_value enc c; Some (String (byte1 x y) (String (byte2 y z) "")).

(** Four characters at a time; padding and a short last group end the text. *)
Fixpoint decode_quanta (s : string) : option string :=
  match s with
  | EmptyString => Some ""
  | String a (String b EmptyString) => if b64_padded enc then None else decode2 a b
  | String a (String b (String c EmptyString)) => if b64_padded enc then None else decode3 a b c
  | String a (String b (String c (String d s'))) =>
    if is_pad c then (if (byte_of d =? 61) && String.eqb s' "" then decode2 a b else None)
    else if is_pad d then (if String.eqb s' "" then decode3 a b c else None)
    else x ← b64_value enc a; y ← b64_value enc b; z ← b64_value enc c; u ← b64_value enc d;
         rest ← decode_quanta s';
         Some (String (byte1 x y) (String (byte2 y z) (String (byte3 z u) rest)))
  | String _ EmptyString => None
  end.

(** [DecodeString]. *)
Definition DecodeString (s : string) : option string := decode_quanta (skip_breaks s).

(** What the round trip needs of an alphabet: digits are read back and are
    letters, figures or one of the four other signs. *)
Class Alphabet := {
  value_digit z : 0 <= z < 64 -> b64_value enc (b64_digit enc z) = Some z;
  digit_sign z : 0 <= z < 64 -> let b := byte_of (b64_digit enc z) in
    65 <= b <= 90 \/ 97 <= b <= 122 \/ 48 <= b <= 57 \/ b = 43 \/ b = 47 \/ b = 45 \/ b = 95
}.

Context `{Alphabet}.

(** The characters of an encoded text. *)
Definition b64_text (s : string) : Prop :=
  Forall (fun c => let b := byte_of c in
    65 <= b <= 90 \/ 97 <= b <= 122 \/ 48 <= b <= 57 \/ b = 43 \/ b = 47 \/ b = 45 \/ b = 95 \/ b = 61) (String.list_ascii_of_string s).

Lemma digit_b64 z : 0 <= z < 64 -> let b := byte_of (b64_digit enc z) in
  65 <= b <= 90 \/ 97 <= b <= 122 \/ 48 <= b <= 57 \/ b = 43 \/ b = 47 \/ b = 45 \/ b = 95 \/ b = 61.
Proof. intros Hz. pose proof (digit_sign z Hz). cbv zeta in *. lia. Qed.

Lemma encode_ind (P : string -> Prop) :
  P "" -> (forall a, P (String a "")) -> (forall a b, P (String a (String b ""))) ->
  (forall a b c s, P s -> P (String a (String b (String c s)))) -> forall s, P s.
Proof.
  intros P0 P1 P2 P3 s. remember (String.length s) as n eqn:En. revert s En.
  induction n as [n IH] using lt_wf_ind. intros s ->. destruct s as [|a [|b [|c s]]]; auto.
  apply P3, (IH (String.length s)); [cbn; lia|done].
Qed.

Ltac digits_range :=
  repeat match goal with c : Ascii.ascii |- _ => lazymatch goal with
    | _ : 0 <= byte_of c < 256 |- _ => fail | _ => pose proof (byte_of_range c) end end;
  Z.div_mod_to_equations; lia.

Lemma encode_text s : b64_text (EncodeToString s).
Proof.
  unfold b64_text.
  induction s as [|a|a b|a b c s IH] using encode_ind; cbn [EncodeToString String.list_ascii_of_string];
    [constructor|..|do 4 (constructor; [apply digit_b64; digits_range|]); exact IH].
  - do 2 (constructor; [apply digit_b64; digits_range|]). unfold padding_text.
    destruct (b64_padded enc); cbn; repeat constructor; cbv; lia.
  - do 3 (constructor; [apply digit_b64; digits_range|]). unfold padding_text.
    destruct (b64_padded enc); cbn; repeat constructor; cbv; lia.
Qed.

Lemma skip_breaks_text s : b64_text s -> skip_breaks s = s.
Proof.
  unfold b64_text. induction s as [|c s IH]; cbn [skip_breaks String.list_ascii_of_string]; [done|]. intros Hs.
  inversion Hs as [|? ? Hc Hs']; subst. cbv zeta in Hc.
  destruct (Z.eqb_spec (byte_of c) 10); [lia|]. destruct (Z.eqb_spec (byte_of c) 13); [lia|]. cbn. by rewrite IH.
Qed.

Lemma is_pad_digit z : 0 <= z < 64 -> is_pad (b64_digit enc z) = false.
Proof.
  intros Hz. pose proof (digit_sign z Hz) as Hd. unfold is_pad. cbv zeta in Hd.
  destruct (Z.eqb_spec (byte_of (b64_digit enc z)) 61); [lia|]. apply andb_false_r.
Qed.

Lemma byte1_of a y : 0 <= y < 16 -> byte1 (byte_of a / 4) (byte_of a mod 4 * 16 + y) = a.
Proof. intros Hy. apply chr_of. digits_range. Qed.
Lemma byte2_of x a z : 0 <= x < 4 -> 0 <= z < 4 -> byte2 (x * 16 + byte_of a / 16) (byte_of a mod 16 * 4 + z) = a.
Proof. intros Hx Hz. apply chr_of. digits_range. Qed.
Lemma byte3_of x a : 0 <= x < 16 -> byte3 (x * 4 + byte_of a / 64) (byte_of a mod 64) = a.
Proof. intros Hx. apply chr_of. digits_range. Qed.

Lemma decode2_of a : decode2 (b64_digit enc (byte_of a / 4)) (b64_digit enc (byte_of a mod 4 * 16)) = Some (String a "").
Proof.
  unfold decode2. rewrite !value_digit by digits_range. cbn [mbind option_bind].
  pose proof (byte1_of a 0) as E. rewrite Z.add_0_r in E. by rewrite E by lia.
Qed.

Lemma decode3_of a b : decode3 (b64_digit enc (byte_of a / 4)) (b64_digit enc (byte_of a mod 4 * 16 + byte_of b / 16))
  (b64_digit enc (byte_of b mod 16 * 4)) = Some (String a (String b "")).
Proof.
  unfold decode3. rewrite !value_digit by digits_range. cbn [mbind option_bind]. rewrite byte1_of by digits_range.
  pose proof (byte2_of (byte_of a mod 4) b 0) as E. rewrite Z.add_0_r in E. by rewrite E by digits_range.
Qed.

Lemma decode_quanta_encode s : decode_quanta (EncodeToString s) = Some s.
Proof.
  induction s as [|a|a b|a b c s IH] using encode_ind; cbn [EncodeToString]; [done|..].
  - unfold padding_text. destruct (b64_padded enc) eqn:Ep; cbn [decode_quanta]; rewrite ?Ep; [|apply decode2_of].
    unfold is_pad. rewrite Ep. change (byte_of _ =? 61) with true. cbn [andb String.eqb]. apply decode2_of.
  - unfold padding_text. destruct (b64_padded enc) eqn:Ep; cbn [decode_quanta]; rewrite ?Ep; [|apply decode3_of].
    rewrite is_pad_digit by digits_range. unfold is_pad. rewrite Ep. change (byte_of _ =? 61) with true.
    cbn [andb String.eqb]. apply decode3_of.
  - cbn [decode_quanta]. rewrite !is_pad_digit by digits_range. rewrite !value_digit, IH by digits_range.
    cbn [mbind option_bind]. by rewrite byte1_of, byte2_of, byte3_of by digits_range.
Qed.

(** What was encoded is decoded. *)
Lemma decode_encode s : DecodeString (EncodeToString s) = Some s.
Proof. unfold DecodeString. rewrite skip_breaks_text by apply encode_text. apply decode_quanta_encode. Qed.

(** A nonempty text has a nonempty encoding. *)
Lemma encode_nonempty s : s <> "" -> EncodeToString s <> "".
Proof. intros Hs E. apply Hs. pose proof (decode_encode s) as D. rewrite E in D. by injection D. Qed.
End encoding.

(** ** The two alphabets *)

Definition each_digit (p : Z -> bool) : bool := forallb p (seqZ 0 64).

Lemma each_digit_spec (p : Z -> bool) : each_digit p = true -> forall z, 0 <= z < 64 -> p z = true.
Proof. intros Hp z Hz. unfold each_digit in Hp. rewrite forallb_forall in Hp. apply Hp, list_elem_of_In, elem_of_seqZ. lia. Qed.

Definition digit_ok (enc : base64_encoding) (z : Z) : bool :=
  let b := byte_of (b64_digit enc z) in
  bool_decide (b64_value enc (b64_digit enc z) = Some z) &&
  bool_decide (65 <= b <= 90 \/ 97 <= b <= 122 \/ 48 <= b <= 57 \/ b = 43 \/ b = 47 \/ b = 45 \/ b = 95).

Lemma alphabet_ok (enc : base64_encoding) : each_digit (digit_ok enc) = true -> Alphabet enc.
Proof.
  intros Ha. split; intros z Hz; apply (each_digit_spec _ Ha) in Hz; unfold digit_ok in Hz; cbv zeta in *;
    apply andb_prop in Hz as [H1 H2]; [by apply bool_decide_eq_true in H1|by apply bool_decide_eq_true in H2].
Qed.

#[export] Instance std_alphabet : Alphabet StdEncoding.
Proof. apply alphabet_ok. vm_compute. reflexivity. Qed.

#[export] Instance url_alphabet : Alphabet RawURLEncoding.
Proof. apply alphabet_ok. vm_compute. reflexivity. Qed.

(** The encoder of the environment file is the standard one. *)
Lemma base64_std s : EncodeToString StdEncoding s = base64 s.
Proof.
  induction s as [|a|a b|a b c s IH] using encode_ind; [reflexivity..|].
  cbn [EncodeToString base64 b64_digit StdEncoding]. by rewrite IH.
Qed.

Example decode_std_ex :
  DecodeString StdEncoding "bGlnaHQgd29yaw==" = Some "light work" /\
  DecodeString StdEncoding "bGlnaHQgd29yaw=" = None /\ DecodeString StdEncoding "bGlnaHQgd29yaw===" = None /\
  DecodeString StdEncoding "bGl=aHQg" = None /\ DecodeString StdEncoding "b-_n" = None.
Proof. repeat split. Qed.

Example decode_url_ex :
  DecodeString RawURLEncoding "fn4_" = Some "~~?" /\ DecodeString RawURLEncoding "bGlnaHQgd29yaw" = Some "light work" /\
  DecodeString RawURLEncoding "bGlnaHQgd29yaw==" = None /\ DecodeString RawURLEncoding "fn4/" = None.
Proof. repeat split. Qed.
