(* ===== verification/AesGcm.v ===== *)
(** * AES-256 in Galois/Counter Mode

    What [crypto/aes] and [crypto/cipher] compute for the stored secrets, from
    FIPS 197 and NIST SP 800-38D: keys of 32 bytes, nonces of 12 bytes, tags of
    16 bytes, no additional data.  Blocks are lists of bytes, elements of
    GF(2^128) are numbers.  The theorem of the file is that what was sealed
    opens again. *)

From S2P Require Import Prelude Sha256.

Open Scope Z_scope.
Open Scope go_scope.

Definition xor_bytes (l k : list Z) : list Z := zip_with Z.lxor l k.

(** ** The block cipher *)

Definition sbox : list Z :=
  [99; 124; 119; 123; 242; 107; 111; 197; 48; 1; 103; 43; 254; 215; 171; 118; 202; 130; 201; 125; 250; 89; 71; 240; 173; 212; 162; 175; 156; 164; 114; 192;
   183; 253; 147; 38; 54; 63; 247; 204; 52; 165; 229; 241; 113; 216; 49; 21; 4; 199; 35; 195; 24; 150; 5; 154; 7; 18; 128; 226; 235; 39; 178; 117;
   9; 131; 44; 26; 27; 110; 90; 160; 82; 59; 214; 179; 41; 227; 47; 132; 83; 209; 0; 237; 32; 252; 177; 91; 106; 203; 190; 57; 74; 76; 88; 207;
   208; 239; 170; 251; 67; 77; 51; 133; 69; 249; 2; 127; 80; 60; 159; 168; 81; 163; 64; 143; 146; 157; 56; 245; 188; 182; 218; 33; 16; 255; 243; 210;
   205; 12; 19; 236; 95; 151; 68; 23; 196; 167; 126; 61; 100; 93; 25; 115; 96; 129; 79; 220; 34; 42; 144; 136; 70; 238; 184; 20; 222; 94; 11; 219;
   224; 50; 58; 10; 73; 6; 36; 92; 194; 211; 172; 98; 145; 149; 228; 121; 231; 200; 55; 109; 141; 213; 78; 169; 108; 86; 244; 234; 101; 122; 174; 8;
   186; 120; 37; 46; 28; 166; 180; 198; 232; 221; 116; 31; 75; 189; 139; 138; 112; 62; 181; 102; 72; 3; 246; 14; 97; 53; 87; 185; 134; 193; 29; 158;
   225; 248; 152; 17; 105; 217; 142; 148; 155; 30; 135; 233; 206; 85; 40; 223; 140; 161; 137; 13; 191; 230; 66; 104; 65; 153; 45; 15; 176; 84; 187; 22].

Definition sub_byte (b : Z) : Z := nth (Z.to_nat b) sbox 0.

(** Multiplication by x in GF(2^8). *)
Definition xtime (b : Z) : Z := if b <? 128 then 2 * b else Z.lxor (2 * b - 256) 27.

(** The state is 16 bytes, column by column. *)
Definition shift_rows (s : list Z) : list Z :=
  map (fun i => nth i s 0) [0; 5; 10; 15; 4; 9; 14; 3; 8; 13; 2; 7; 12; 1; 6; 11]%nat.

Fixpoint mix_columns (s : list Z) : list Z :=
  match s with
  | a :: b :: c :: d :: s' =>
    let t := Z.lxor a (Z.lxor b (Z.lxor c d)) in
    Z.lxor a (Z.lxor t (xtime (Z.lxor a b))) :: Z.lxor b (Z.lxor t (xtime (Z.lxor b c))) ::
    Z.lxor c (Z.lxor t (xtime (Z.lxor c d))) :: Z.lxor d (Z.lxor t (xtime (Z.lxor d a))) :: mix_columns s'
  | _ => []
  end.

(** Key expansion: [ws] holds the words made so far, the latest first; [i] is
    the number of the next one. *)
Definition mixed_word (i : nat) (rcon : Z) (w : list Z) : list Z :=
  if Nat.eqb (i mod 8) 0
  then match map sub_byte w with a :: b :: c :: d :: _ => [Z.lxor b rcon; c; d; a] | _ => [] end
  else if Nat.eqb (i mod 8) 4 then map sub_byte w else w.

Definition next_key_word (i : nat) (rcon : Z) (ws : list (list Z)) : list Z :=
  xor_bytes (nth 7 ws []) (mixed_word i rcon (nth 0 ws [])).

Fixpoint expand_key (n i : nat) (rcon : Z) (ws : list (list Z)) : list (list Z) :=
  match n with
  | O => rev ws
  | S n => expand_key n (S i) (if Nat.eqb (i mod 8) 0 then xtime rcon else rcon) (next_key_word i rcon ws :: ws)
  end.

Fixpoint chunks (fuel n : nat) (l : list Z) : list (list Z) :=
  match fuel, l with
  | S fuel, _ :: _ => take n l :: chunks fuel n (drop n l)
  | _, _ => []
  end.

(** The 15 round keys. *)
Definition round_keys (key : list Z) : list (list Z) :=
  chunks 15 16 (concat (expand_key 52 8 1 (rev (chunks 8 4 key)))).

Fixpoint aes_rounds (ks : list (list Z)) (s : list Z) : list Z :=
  match ks with
  | [] => s
  | [k] => xor_bytes (shift_rows (map sub_byte s)) k
  | k :: ks' => aes_rounds ks' (xor_bytes (mix_columns (shift_rows (map sub_byte s))) k)
  end.

(** [cipher.Block.Encrypt] of [aes.NewCipher(key)]. *)
Definition aes_encrypt (ks : list (list Z)) (block : list Z) : list Z :=
  match ks with
  | k :: ks' => aes_rounds ks' (xor_bytes block k)
  | [] => []
  end.

(** ** Counter mode *)

Definition nonce_size : nat := 12.
Definition tag_size : nat := 16.

(** The block of the counter [ctr]. *)
Definition counter_block (nonce : list Z) (ctr : Z) : list Z := nonce ++ big_endian 4 (w32 ctr).

Fixpoint key_stream (n : nat) (ks : list (list Z)) (nonce : list Z) (ctr : Z) : list Z :=
  match n with
  | O => []
  | S n => aes_encrypt ks (counter_block nonce ctr) ++ key_stream n ks nonce (ctr + 1)
  end.

(** Encryption and decryption are the same exclusive or; the message starts at
    counter 2. *)
Definition ctr_crypt (ks : list (list Z)) (nonce msg : list Z) : list Z :=
  xor_bytes msg (key_stream (S (length msg / 16)) ks nonce 2).

(** ** The tag *)

Definition block_number (l : list Z) : Z := foldl (fun z b => z * 256 + b) 0 l.

(** Multiplication in GF(2^128), the first bit of a block being its highest. *)
Fixpoint gf_mul (n : nat) (x v acc : Z) : Z :=
  match n with
  | O => acc
  | S n =>
    gf_mul n x (if Z.odd v then Z.lxor (Z.shiftr v 1) (Z.shiftl 225 120) else Z.shiftr v 1)
      (if Z.testbit x (Z.of_nat n) then Z.lxor acc v else acc)
  end.

Definition pad16 (l : list Z) : list Z := l ++ repeat 0 ((16 - length l mod 16) mod 16)%nat.

Definition ghash (h : Z) (l : list Z) : Z :=
  foldl (fun y block => gf_mul 128 (Z.lxor y (block_number block)) h 0) 0 (chunks (length l) 16 l).

Definition gcm_tag (ks : list (list Z)) (nonce ciphertext : list Z) : list Z :=
  let h := block_number (aes_encrypt ks (repeat 0 16)) in
  let lengths := repeat 0 8 ++ big_endian 8 (8 * Z.of_nat (length ciphertext)) in
  xor_bytes (aes_encrypt ks (counter_block nonce 1)) (big_endian 16 (ghash h (pad16 ciphertext ++ lengths))).

(** ** Sealing and opening *)

(** The longest message; [Seal] panics above it. *)
Definition gcm_limit : Z := (2 ^ 32 - 2) * 16.

(** [gcm.Seal(nil, nonce, plain, nil)]. *)
Definition gcm_seal (key nonce plain : list Z) : list Z :=
  let ks := round_keys key in
  let c := ctr_crypt ks nonce plain in
  c ++ gcm_tag ks nonce c.

(** [gcm.Open(nil, nonce, ciphertext, nil)]. *)
Definition gcm_open (key nonce ciphertext : list Z) : option (list Z) :=
  let ks := round_keys key in
  let n := (length ciphertext - tag_size)%nat in
  if (length ciphertext <? tag_size)%nat then None
  else if (Z.of_nat (length ciphertext) >? gcm_limit + 16) then None
  else if decide (drop n ciphertext = gcm_tag ks nonce (take n ciphertext))
       then Some (ctr_crypt ks nonce (take n ciphertext)) else None.

(** The published vectors: the block of FIPS 197, appendix C.3, and the cases
    13 and 14 of the GCM specification. *)
Example aes_256_vector :
  aes_encrypt (round_keys (seqZ 0 32)) (map (fun i => 17 * i) (seqZ 0 16)) =
  big_endian 16 0x8ea2b7ca516745bfeafc49904b496089.
Proof. vm_compute. reflexivity. Qed.

Example gcm_vector_13 : gcm_seal (repeat 0 32) (repeat 0 12) [] = big_endian 16 0x530f8afbc74536b9a963b4f1c4cb738b.
Proof. vm_compute. reflexivity. Qed.

Example gcm_vector_14 :
  gcm_seal (repeat 0 32) (repeat 0 12) (repeat 0 16) =
  big_endian 16 0xcea7403d4d606b6e074ec5d3baf39d18 ++ big_endian 16 0xd0d1c8a799996bf0265b98b5d48ab919.
Proof. vm_compute. reflexivity. Qed.

(** ** Sizes *)

Lemma xor_bytes_length l k : length (xor_bytes l k) = (length l `min` length k)%nat.
Proof. apply length_zip_with. Qed.

Lemma lxor_byte a b : is_byte a -> is_byte b -> is_byte (Z.lxor a b).
Proof.
  unfold is_byte. intros Ha Hb. assert (0 <= Z.lxor a b) by (apply Z.lxor_nonneg; lia). split; [done|].
  change 256 with (2 ^ 8). apply (Z.bounded_iff_bits_nonneg 8); [lia..|]. intros l Hl. rewrite Z.lxor_spec.
  assert (Ea : Z.testbit a l = false) by (apply (Z.bounded_iff_bits_nonneg 8 a); lia).
  assert (Eb : Z.testbit b l = false) by (apply (Z.bounded_iff_bits_nonneg 8 b); lia). by rewrite Ea, Eb.
Qed.

Lemma xor_bytes_bytes l k : Forall is_byte l -> Forall is_byte k -> Forall is_byte (xor_bytes l k).
Proof.
  intros Hl. revert k. induction Hl as [|a l Ha _ IH]; intros k Hk; [constructor|].
  destruct Hk as [|b k Hb Hk]; [constructor|]. cbn. constructor; [by apply lxor_byte|by apply IH].
Qed.

Lemma sub_byte_byte b : is_byte (sub_byte b).
Proof.
  unfold sub_byte. assert (Hs : Forall is_byte sbox).
  { apply Forall_forall. intros x Hx. unfold is_byte.
    assert (forallb (fun x => (0 <=? x) && (x <? 256)) sbox = true) as Hf by (vm_compute; reflexivity).
    rewrite forallb_forall in Hf. apply list_elem_of_In, Hf in Hx. lia. }
  destruct (nth_in_or_default (Z.to_nat b) sbox 0) as [Hin|E]; [|rewrite E; unfold is_byte; lia].
  rewrite Forall_forall in Hs. by apply Hs, list_elem_of_In.
Qed.

Lemma sub_bytes_bytes l : Forall is_byte (map sub_byte l).
Proof. apply Forall_forall. intros x (y & -> & _)%list_elem_of_fmap. apply sub_byte_byte. Qed.

Lemma nth_byte l i : Forall is_byte l -> is_byte (nth i l 0).
Proof.
  intros Hl. destruct (nth_in_or_default i l 0) as [Hin| ->]; [|unfold is_byte; lia].
  rewrite Forall_forall in Hl. by apply Hl, list_elem_of_In.
Qed.

Lemma shift_rows_bytes l : Forall is_byte l -> Forall is_byte (shift_rows l).
Proof. intros Hl. unfold shift_rows. apply Forall_forall. intros x (i & -> & _)%list_elem_of_fmap. by apply nth_byte. Qed.

(** A word of the key schedule. *)
Definition key_word (w : list Z) : Prop := length w = 4%nat /\ Forall is_byte w.

Lemma xtime_byte b : is_byte b -> is_byte (xtime b).
Proof.
  unfold xtime. intros Hb. destruct (Z.ltb_spec b 128); [unfold is_byte in *; lia|].
  apply lxor_byte; unfold is_byte in *; lia.
Qed.

Lemma mixed_word_ok i rcon w : is_byte rcon -> key_word w -> key_word (mixed_word i rcon w).
Proof.
  intros Hr [Hl Hb]. destruct w as [|a [|b [|c [|d [|]]]]]; try discriminate. unfold mixed_word.
  destruct (Nat.eqb (i mod 8) 0); [|destruct (Nat.eqb (i mod 8) 4)]; [| |by split]; cbn [map];
    (split; [done|]); auto 8 using Forall_cons_2, Forall_nil_2, sub_byte_byte, lxor_byte.
Qed.

Lemma next_key_word_ok i rcon ws : is_byte rcon -> Forall key_word ws -> (8 <= length ws)%nat ->
  key_word (next_key_word i rcon ws).
Proof.
  intros Hr Hws Hn. rewrite Forall_forall in Hws.
  assert (Hnth : forall j, (j < 8)%nat -> key_word (nth j ws [])).
  { intros j Hj. apply Hws, list_elem_of_In, nth_In. lia. }
  destruct (Hnth 7%nat) as [Ha1 Ha2]; [lia|]. unfold next_key_word.
  destruct (mixed_word_ok i rcon (nth 0 ws []) Hr) as [Ht1 Ht2]; [apply Hnth; lia|].
  split; [rewrite xor_bytes_length; lia|by apply xor_bytes_bytes].
Qed.

Lemma expand_key_ok n i rcon ws : is_byte rcon -> Forall key_word ws -> (8 <= length ws)%nat ->
  Forall key_word (expand_key n i rcon ws) /\ length (expand_key n i rcon ws) = (n + length ws)%nat.
Proof.
  revert i rcon ws. induction n as [|n IH]; intros i rcon ws Hr Hws Hn; cbn [expand_key].
  - split; [by apply Forall_rev|by rewrite length_rev].
  - destruct (IH (S i) (if Nat.eqb (i mod 8) 0 then xtime rcon else rcon) (next_key_word i rcon ws :: ws)) as [IH1 IH2].
    + destruct (Nat.eqb _ _); [by apply xtime_byte|done].
    + constructor; [by apply next_key_word_ok|done].
    + cbn [length]. lia.
    + split; [done|]. rewrite IH2. cbn [length]. lia.
Qed.

Lemma chunks_ok n m l : Forall is_byte l -> length l = (n * m)%nat -> (0 < m)%nat ->
  Forall (fun c => length c = m /\ Forall is_byte c) (chunks n m l) /\ length (chunks n m l) = n.
Proof.
  revert l. induction n as [|n IH]; intros l Hl Hlen Hm; cbn [chunks]; [by split; [constructor|]|].
  destruct l as [|x l]; [cbn in Hlen; lia|]. assert (Hd : length (drop m (x :: l)) = (n * m)%nat) by (rewrite length_drop; lia).
  destruct (IH (drop m (x :: l))) as [IH1 IH2]; [by apply Forall_drop|done|done|].
  split; [|cbn [length]; by rewrite IH2]. constructor; [|done].
  split; [rewrite length_take; lia|by apply Forall_take].
Qed.

Lemma concat_words ws : Forall key_word ws -> Forall is_byte (concat ws) /\ length (concat ws) = (length ws * 4)%nat.
Proof.
  induction 1 as [|w ws [Hl Hb] _ [IH1 IH2]]; cbn [concat length]; [done|].
  split; [by apply Forall_app|]. rewrite length_app. lia.
Qed.

Definition block_ok (b : list Z) : Prop := length b = 16%nat /\ Forall is_byte b.

Lemma round_keys_ok key : Forall is_byte key -> length key = 32%nat ->
  Forall block_ok (round_keys key) /\ length (round_keys key) = 15%nat.
Proof.
  intros Hk Hl. unfold round_keys. destruct (chunks_ok 8 4 key) as [Hc1 Hc2]; [done|lia..|].
  destruct (expand_key_ok 52 8 1 (rev (chunks 8 4 key))) as [He1 He2].
  - unfold is_byte. lia.
  - by apply Forall_rev.
  - rewrite length_rev. lia.
  - destruct (concat_words _ He1) as [Hb Hn]. apply chunks_ok; [done| |lia]. rewrite Hn, He2, length_rev. lia.
Qed.

Lemma aes_rounds_ok ks s : Forall block_ok ks -> ks <> [] -> block_ok (aes_rounds ks s).
Proof.
  intros Hks. revert s. induction Hks as [|k ks [Hl Hb] Hks IH]; intros s Hne; [done|].
  cbn [aes_rounds]. destruct ks as [|k' ks]; [|by apply IH].
  split; [by rewrite xor_bytes_length, Hl|]. apply xor_bytes_bytes; [|done]. apply shift_rows_bytes, sub_bytes_bytes.
Qed.

Section keyed.
Context (key : list Z) (Hkey : Forall is_byte key) (Hlen : length key = 32%nat).

Lemma aes_block s : block_ok (aes_encrypt (round_keys key) s).
Proof.
  destruct (round_keys_ok key Hkey Hlen) as [Hr Hn]. unfold aes_encrypt.
  destruct (round_keys key) as [|k [|k' ks]]; [discriminate..|]. inversion Hr; subst. by apply aes_rounds_ok.
Qed.

Lemma key_stream_S n ks nonce ctr :
  key_stream (S n) ks nonce ctr = aes_encrypt ks (counter_block nonce ctr) ++ key_stream n ks nonce (ctr + 1).
Proof. reflexivity. Qed.

#[local] Opaque aes_encrypt round_keys key_stream ghash.

Lemma key_stream_length n nonce ctr : length (key_stream n (round_keys key) nonce ctr) = (n * 16)%nat.
Proof.
  revert ctr. induction n as [|n IH]; intros ctr; [reflexivity|]. rewrite key_stream_S, length_app, IH.
  by rewrite (proj1 (aes_block (counter_block nonce ctr))).
Qed.

Lemma key_stream_bytes n nonce ctr : Forall is_byte (key_stream n (round_keys key) nonce ctr).
Proof.
  revert ctr. induction n as [|n IH]; intros ctr; [constructor|]. rewrite key_stream_S.
  apply Forall_app. split; [apply (aes_block (counter_block nonce ctr))|apply IH].
Qed.

Lemma enough_blocks (n : nat) : (n <= S (n / 16) * 16)%nat.
Proof. pose proof (Nat.div_mod_eq n 16). pose proof (Nat.mod_upper_bound n 16). lia. Qed.

Lemma ctr_crypt_length nonce msg : length (ctr_crypt (round_keys key) nonce msg) = length msg.
Proof. unfold ctr_crypt. rewrite xor_bytes_length, key_stream_length. apply Nat.min_l, enough_blocks. Qed.

Lemma ctr_crypt_bytes nonce msg : Forall is_byte msg -> Forall is_byte (ctr_crypt (round_keys key) nonce msg).
Proof. intros Hm. apply xor_bytes_bytes; [done|apply key_stream_bytes]. Qed.

Lemma xor_twice l k : (length l <= length k)%nat -> xor_bytes (xor_bytes l k) k = l.
Proof.
  revert k. induction l as [|a l IH]; intros [|b k] Hl; cbn in *; try done; [lia|].
  rewrite Z.lxor_assoc, Z.lxor_nilpotent, Z.lxor_0_r. f_equal. apply IH. lia.
Qed.

(** Decryption undoes encryption. *)
Lemma ctr_crypt_twice nonce msg : ctr_crypt (round_keys key) nonce (ctr_crypt (round_keys key) nonce msg) = msg.
Proof.
  unfold ctr_crypt at 1. rewrite ctr_crypt_length. apply xor_twice. rewrite key_stream_length.
  apply enough_blocks.
Qed.

Lemma gcm_tag_ok nonce c : block_ok (gcm_tag (round_keys key) nonce c).
Proof.
  unfold gcm_tag. pose proof (aes_block (counter_block nonce 1)) as [Hl Hb].
  split; [by rewrite xor_bytes_length, Hl, big_endian_length|apply xor_bytes_bytes; [done|apply big_endian_bytes]].
Qed.

Lemma gcm_seal_bytes nonce plain : Forall is_byte plain -> Forall is_byte (gcm_seal key nonce plain).
Proof. intros Hp. apply Forall_app. split; [by apply ctr_crypt_bytes|apply gcm_tag_ok]. Qed.

Lemma gcm_seal_length nonce plain : length (gcm_seal key nonce plain) = (length plain + 16)%nat.
Proof. unfold gcm_seal. rewrite length_app, ctr_crypt_length, (proj1 (gcm_tag_ok _ _)). lia. Qed.

Lemma gcm_open_seal nonce plain : Z.of_nat (length plain) <= gcm_limit ->
  gcm_open key nonce (gcm_seal key nonce plain) = Some plain.
Proof.
  intros Hp. unfold gcm_open. rewrite gcm_seal_length. unfold tag_size.
  destruct (Nat.ltb_spec (length plain + 16) 16); [lia|].
  rewrite Z.gtb_ltb. destruct (Z.ltb_spec (gcm_limit + 16) (Z.of_nat (length plain + 16))); [lia|].
  replace (length plain + 16 - 16)%nat with (length (ctr_crypt (round_keys key) nonce plain)) by (rewrite ctr_crypt_length; lia).
  unfold gcm_seal. rewrite drop_app_length, take_app_length. rewrite decide_True by done. by rewrite ctr_crypt_twice.
Qed.
End keyed.
