(* ===== verification/Secrets.v ===== *)
(** * Stored secrets

    [secrets.Service] (internal/secrets/crypto.go): a key made of the master
    key, encryption under a random nonce into a base64 text, and decryption.
    What the other components assume of a secret box is proved of this one. *)

From S2P Require Import Prelude GoStrings Json JsonOut EnvFileSpec Requests Templates Sha256 Base64 AesGcm.

Open Scope Z_scope.
Open Scope go_scope.

(** ** The service *)

Definition NewService (masterKey : string) : res (list Z) :=
  if String.eqb masterKey "" then Err "master key is required" else Ok (sha256 (string_bytes masterKey)).

(** The encryption of a text that is not empty.  [aes.NewCipher] and
    [cipher.NewGCM] cannot fail for a key of 32 bytes; [drawn] is what
    [rand.Reader] yields; the panic of [Seal] on a text of 64 GiB is an error
    here. *)
Definition seal_text (key : list Z) (drawn : res (list Z)) (plain : string) : res string :=
  match drawn with
  | Err e => Err ("nonce: " +:+ e)
  | Ok nonce =>
    if gcm_limit <? str_len plain then Err "panic: crypto/cipher: message too large for GCM"
    else Ok (EncodeToString StdEncoding (bytes_string (nonce ++ gcm_seal key nonce (string_bytes plain))))
  end.

Definition open_text (key : list Z) (enc : string) : res string :=
  match DecodeString StdEncoding enc with
  | None => Err "decode secret"
  | Some raw =>
    let raw := string_bytes raw in
    if (length raw <? nonce_size)%nat then Err "encrypted secret is too short"
    else match gcm_open key (take nonce_size raw) (drop nonce_size raw) with
         | None => Err "decrypt secret"
         | Some plain => Ok (bytes_string plain)
         end
  end.

(** The service as the handlers use it, for one draw of the random source:
    [Encrypt] and [Decrypt] are those of the request checks and the templates,
    which treat the empty text themselves. *)
Definition service_box (key : list Z) (drawn : res (list Z)) : secret_box :=
  mkBox (mkSecrets (seal_text key drawn)) (open_text key).

(** ** Texts and bytes *)

Lemma bytes_string_bytes s : bytes_string (string_bytes s) = s.
Proof. induction s as [|c s IH]; cbn [string_bytes bytes_string]; [done|]. by rewrite chr_byte_of, IH. Qed.

Lemma string_bytes_string l : Forall is_byte l -> string_bytes (bytes_string l) = l.
Proof.
  induction 1 as [|b l Hb _ IH]; cbn [bytes_string string_bytes]; [done|]. unfold is_byte in Hb.
  by rewrite byte_of_chr, IH by lia.
Qed.

Lemma string_bytes_length s : Z.of_nat (length (string_bytes s)) = str_len s.
Proof. unfold str_len. f_equal. induction s as [|c s IH]; cbn; congruence. Qed.

(** ** The round trip *)

Section service.
Context (masterKey : string) (key : list Z) (Hkey : NewService masterKey = Ok key).

Lemma key_ok : Forall is_byte key /\ length key = 32%nat.
Proof.
  unfold NewService in Hkey. destruct (String.eqb masterKey ""); [done|]. injection Hkey as <-.
  split; [apply sha256_bytes|apply sha256_length].
Qed.

(** A draw of the random source. *)
Definition drawn_ok (drawn : res (list Z)) : Prop :=
  match drawn with Ok nonce => Forall is_byte nonce /\ length nonce = nonce_size | Err _ => True end.

(** What the box seals it opens: the law the export of templates is proved
    from. *)
Lemma box_lawful drawn s enc : drawn_ok drawn ->
  Requests.seal (box_service (service_box key drawn)) s = Ok enc -> enc <> "" /\ box_open (service_box key drawn) enc = Ok s.
Proof.
  destruct key_ok as [Hb Hl]. cbn [service_box box_service box_open Requests.seal]. unfold seal_text.
  destruct drawn as [nonce|e]; [|done]. intros [Hn Hln]. destruct (Z.ltb_spec gcm_limit (str_len s)) as [|Hs]; [done|].
  intros [= <-].
  assert (Hbytes : Forall is_byte (nonce ++ gcm_seal key nonce (string_bytes s))).
  { apply Forall_app. split; [done|]. apply gcm_seal_bytes; [done..|apply string_bytes_range]. }
  split; [apply encode_nonempty; [apply _|by destruct nonce]|].
  unfold open_text. rewrite (decode_encode StdEncoding), (string_bytes_string _ Hbytes).
  destruct (Nat.ltb_spec (length (nonce ++ gcm_seal key nonce (string_bytes s))) nonce_size) as [Hlt|_].
  { rewrite length_app in Hlt. lia. }
  rewrite take_app_length', drop_app_length' by done.
  rewrite gcm_open_seal by (rewrite ?string_bytes_length; done). by rewrite bytes_string_bytes.
Qed.

(** C26: [Decrypt] undoes [Encrypt], under the same master key and whatever is
    drawn later. *)
Theorem decrypt_encrypt drawn later plain enc : drawn_ok drawn ->
  Encrypt (box_service (service_box key drawn)) plain = Ok enc -> Decrypt (service_box key later) enc = Ok plain.
Proof.
  intros Hd. unfold Encrypt, Decrypt. destruct (String.eqb_spec plain "") as [->|_]; [by intros [= <-]|].
  intros He. destruct (box_lawful _ _ _ Hd He) as [Hne Ho].
  by rewrite (proj2 (String.eqb_neq _ _) Hne).
Qed.

(** A text that is too short, or not base64, is refused and not read past its
    end. *)
Lemma open_text_short s : (String.length s < nonce_size)%nat ->
  open_text key (EncodeToString StdEncoding s) = Err "encrypted secret is too short".
Proof.
  intros Hs. unfold open_text. rewrite (decode_encode StdEncoding).
  assert (length (string_bytes s) = String.length s) as -> by (pose proof (string_bytes_length s) as E; unfold str_len in E; lia).
  by rewrite (proj2 (Nat.ltb_lt _ _) Hs).
Qed.
End service.

(** ** A secret and its text *)

Definition master_key : list Z := sha256 (string_bytes "master").

Lemma decrypt_encrypt_witness :
  exists enc, Encrypt (box_service (service_box master_key (Ok (seqZ 1 12)))) "geheim" = Ok enc /\
    Decrypt (service_box master_key (Err "no entropy")) enc = Ok "geheim".
Proof.
  eexists. split; [vm_compute; reflexivity|].
  apply (decrypt_encrypt "master" master_key eq_refl (Ok (seqZ 1 12)) (Err "no entropy") "geheim").
  - split; [|reflexivity]. apply Forall_forall. intros x Hx%elem_of_seqZ. unfold is_byte. lia.
  - vm_compute. reflexivity.
Defined.

(** A text that was changed is refused. *)
Example tampered_refused :
  Decrypt (service_box master_key (Err "")) (EncodeToString StdEncoding (bytes_string (seqZ 1 12 ++ repeat 0 20))) = Err "decrypt secret" /\
  Decrypt (service_box master_key (Err "")) "not base64" = Err "decode secret".
Proof. vm_compute. split; reflexivity. Qed.
