(* ===== verification/Environment.v ===== *)
(** * Environment variables and the texts read from them

    [os.Getenv] as a function, and the parts of [strconv] and [net/url] that
    read settings and query values: [ParseBool], [ParseFloat] with its
    hexadecimal and special forms, [ParseQuery] with its escapes. *)

From S2P Require Export Prelude GoStrings GoFloat Json JsonOut.
From S2P Require Import K6Config.
From Stdlib Require Import SpecFloat.

Open Scope Z_scope.
Open Scope go_scope.

(** ** The environment *)

Definition environment : Type := gmap string string.

(** [os.Getenv]: the empty text when the variable is not set. *)
Definition Getenv (env : environment) (key : string) : string := default "" (env !! key).

(** ** [strconv.ParseBool] *)

Definition parse_bool (s : string) : option bool :=
  if existsb (String.eqb s) ["1"; "t"; "T"; "TRUE"; "true"; "True"] then Some true
  else if existsb (String.eqb s) ["0"; "f"; "F"; "FALSE"; "false"; "False"] then Some false
  else None.

(** ** [strconv.ParseFloat] *)

Fixpoint lower_ascii (s : string) : string :=
  match s with EmptyString => "" | String c s => String (lower c) (lower_ascii s) end.

Fixpoint has_underscore (s : string) : bool :=
  match s with EmptyString => false | String c s => (byte_of c =? 95) || has_underscore s end.

Fixpoint drop_underscores (s : string) : string :=
  match s with
  | EmptyString => ""
  | String c s => if byte_of c =? 95 then drop_underscores s else String c (drop_underscores s)
  end.

Definition split_sign (s : string) : bool * string :=
  match s with
  | String c s' => if byte_of c =? 45 then (true, s') else if byte_of c =? 43 then (false, s') else (false, s)
  | EmptyString => (false, "")
  end.

(** What stood before: a digit, an underscore, something else. *)
Inductive seen := SawDigit | SawUnderscore | SawOther.

Fixpoint underscores_between (hex : bool) (saw : seen) (s : string) : bool :=
  match s with
  | EmptyString => match saw with SawUnderscore => false | _ => true end
  | String c s' =>
    if is_digit c || (hex && between 97 102 (lower c)) then underscores_between hex SawDigit s'
    else if byte_of c =? 95
         then match saw with SawDigit => underscores_between hex SawUnderscore s' | _ => false end
         else match saw with SawUnderscore => false | _ => underscores_between hex SawOther s' end
  end.

(** [underscoreOK]: underscores stand between digits, or between the prefix of
    the base and a digit. *)
Definition underscore_ok (s : string) : bool :=
  let s := (split_sign s).2 in
  match s with
  | String z (String x s') =>
    if (byte_of z =? 48) && existsb (Z.eqb (byte_of (lower x))) [98; 111; 120]
    then underscores_between (byte_of (lower x) =? 120) SawDigit s'
    else underscores_between false SawOther s
  | _ => underscores_between false SawOther s
  end.

(** The digits of a mantissa: its value, the digits behind the point, whether
    there was a digit, and the rest. *)
Fixpoint mantissa (base : Z) (s : string) (mant frac : Z) (dot digits : bool) : Z * Z * bool * string :=
  match s with
  | EmptyString => (mant, frac, digits, "")
  | String c s' =>
    if (byte_of c =? 46) && negb dot then mantissa base s' mant frac true digits
    else match (if base =? 16 then hex_val c else digit_val c) with
         | Some d => mantissa base s' (base * mant + d) (if dot then frac + 1 else frac) dot true
         | None => (mant, frac, digits, s)
         end
  end.

(** The digits of an exponent; it stops growing at five figures. *)
Fixpoint exponent_digits (s : string) (e : Z) : option Z :=
  match s with
  | EmptyString => Some e
  | String c s' => d ← digit_val c; exponent_digits s' (if e <? 10000 then 10 * e + d else e)
  end.

Definition exponent (s : string) : option Z :=
  let '(neg, ds) := split_sign s in
  match ds with
  | EmptyString => None
  | _ => (fun e => if neg : bool then - e else e) <$> exponent_digits ds 0
  end.

(** The exponent that follows the letter [letter], which may be absent. *)
Definition exponent_after (letter : Z) (required : bool) (s : string) : option Z :=
  match s with
  | EmptyString => if required then None else Some 0
  | String c s' => if byte_of (lower c) =? letter then exponent s' else None
  end.

Definition finite_or_none (x : float64) : option float64 := if is_inf x then None else Some x.

Definition read_decimal (neg : bool) (s : string) : option float64 :=
  let '(mant, frac, digits, rest) := mantissa 10 s 0 0 false false in
  if negb digits then None
  else e ← exponent_after 101 false rest; finite_or_none (f_of_decimal neg mant (e - frac)).

Definition read_hex (neg : bool) (s : string) : option float64 :=
  let '(mant, frac, digits, rest) := mantissa 16 s 0 0 false false in
  if negb digits then None
  else e ← exponent_after 112 true rest;
       finite_or_none (binary_normalize prec emax (if neg then - mant else mant) (e - 4 * frac) neg).

(** [None] for every error: a malformed text, or a number out of range. *)
Definition parse_float (s : string) : option float64 :=
  if has_underscore s && negb (underscore_ok s) then None
  else
    let '(neg, body) := split_sign (drop_underscores s) in
    let low := lower_ascii body in
    if String.eqb low "inf" || String.eqb low "infinity" then Some (S754_infinity neg)
    else if String.eqb (lower_ascii s) "nan" then Some S754_nan
    else match body with
         | String z (String x (String _ _ as digits)) =>
           if (byte_of z =? 48) && (byte_of (lower x) =? 120) then read_hex neg digits else read_decimal neg body
         | _ => read_decimal neg body
         end.

Example parse_float_ex :
  map parse_float ["0.5"; "1e3"; ".5"; "5."; "."; ""; "+1"; "-0"; "1_0"; "1__0"; "0x1p-2"; "0x_8p0"; "0x1"; "1e400"; "-inf"; "NaN"; "-nan"; "1e"; "x"]
  = let half := f_div (f_of_Z 1) (f_of_Z 2) in
    [Some half; Some (f_of_Z 1000); Some half; Some (f_of_Z 5); None; None; Some (f_of_Z 1); Some (S754_zero true);
     Some (f_of_Z 10); None; Some (f_div (f_of_Z 1) (f_of_Z 4)); Some (f_of_Z 8); None; None;
     Some (S754_infinity true); Some S754_nan; None; None; None].
Proof. vm_compute. reflexivity. Qed.

(** ** Query texts *)

(** [url.QueryUnescape]. *)
Fixpoint query_unescape (s : string) : option string :=
  match s with
  | EmptyString => Some ""
  | String c s1 =>
    if byte_of c =? 37 then
      match s1 with
      | String h1 (String h2 s3) =>
        match hex_val h1, hex_val h2 with
        | Some a, Some b => String (chr (16 * a + b)) <$> query_unescape s3
        | _, _ => None
        end
      | _ => None
      end
    else String (if byte_of c =? 43 then chr 32 else c) <$> query_unescape s1
  end.

(** The malformed escape an error names. *)
Fixpoint bad_escape (s : string) : string :=
  match s with
  | EmptyString => ""
  | String c s1 =>
    if byte_of c =? 37 then
      match s1 with
      | String h1 (String h2 s3) =>
        match hex_val h1, hex_val h2 with
        | Some _, Some _ => bad_escape s3
        | _, _ => String c (String h1 (String h2 ""))
        end
      | _ => s
      end
    else bad_escape s1
  end.

Definition escape_error (s : string) : string := "invalid URL escape " +:+ quoted_q (bad_escape s).

Definition semicolon_error : string := "invalid semicolon separator in query".

(** One part of a query: nothing, a value, or an error. *)
Definition query_part (part : string) : option (res (string * string)) :=
  if contains part ";" then Some (Err semicolon_error)
  else if String.eqb part "" then None
  else
    let '(key, value) := match split_first (chr 61) part with Some p => p | None => (part, "") end in
    match query_unescape key with
    | None => Some (Err (escape_error key))
    | Some k => match query_unescape value with
                | None => Some (Err (escape_error value))
                | Some v => Some (Ok (k, v))
                end
    end.

(** The values read and the error: that of a semicolon if there is one, else the
    first.  What is malformed is left out. *)
Fixpoint query_parts (l : list string) : list (string * string) * option string :=
  match l with
  | [] => ([], None)
  | part :: l =>
    let '(vs, e) := query_parts l in
    match query_part part with
    | None => (vs, e)
    | Some (Ok kv) => (kv :: vs, e)
    | Some (Err msg) => (vs, Some (if bool_decide (e = Some semicolon_error) then semicolon_error else msg))
    end
  end.

(** [url.ParseQuery]. *)
Definition ParseQuery (raw : string) : list (string * string) * option string := query_parts (split_on (chr 38) raw).

(** [Values.Get]: the first value of the key. *)
Fixpoint values_get (key : string) (l : list (string * string)) : string :=
  match l with
  | [] => ""
  | (k, v) :: l => if String.eqb k key then v else values_get key l
  end.

Example ParseQuery_ex :
  ParseQuery "a=1&b=x+y%21&&a=2&c;d=3&e=%zz&f" =
  ([("a", "1"); ("b", "x y!"); ("a", "2"); ("f", "")], Some "invalid semicolon separator in query") /\
  (ParseQuery "e=%zz&e=%").2 = Some ("invalid URL escape " +:+ quoted "'%zz'").
Proof. vm_compute. split; reflexivity. Qed.
