(* ===== verification/Dummy.v ===== *)
(** * The target service: settings, requests, decisions

    [dummy-service/main.go] up to its handlers: the settings read from the
    environment, the request as the handlers see it, and what a request decides
    by its query: whether it fails, with which status and after which delay.
    The handlers are in DummyServe. *)

From S2P Require Export Prelude Programs GoStrings GoTime GoFloat Json JsonOut Environment.
From S2P Require Import Templates.

Open Scope Z_scope.
Open Scope go_scope.

(** ** Settings *)

Record Config := mkConfig {
  Port : string;
  RequireAuth : bool;
  StrictRoutes : bool;
  DefaultStatusCode : Z;
  DefaultErrorRate : float64;
  MinLatency : Z;
  MaxLatency : Z;
  SSEInterval : Z;
  ReadHeaderTimeout : Z;
  LogEveryNRequests : Z;
  EnableRequestLogging : bool;
  AuthClientID : string;
  AuthClientSecret : string;
  AuthJWTSecret : string;
  AuthIssuer : string;
  AuthTokenTTL : Z;
  AuthTokenDelay : Z;
  AuthTokenForceStatus : Z
}.

Definition clamp (v min max : float64) : float64 :=
  if f_lt v min then min else if f_lt max v then max else v.

Section env.
Context (env : environment).

Definition getEnv (key fallback : string) : string :=
  let v := trim_space (Getenv env key) in
  if String.eqb v "" then fallback else v.

(** The three readers that convert: the fallback for an empty text and for one
    that cannot be read. *)
Definition getEnvAs {A} (parse : string -> option A) (key : string) (fallback : A) : A :=
  let raw := trim_space (Getenv env key) in
  if String.eqb raw "" then fallback else default fallback (parse raw).

Definition getEnvBool : string -> bool -> bool := getEnvAs parse_bool.
Definition getEnvInt : string -> Z -> Z := getEnvAs atoi.
Definition getEnvFloat : string -> float64 -> float64 := getEnvAs parse_float.

Definition loadConfig : Config :=
  let port := getEnv "PORT" "8090" in
  let requireAuth := getEnvBool "REQUIRE_AUTH" false in
  let strictRoutes := getEnvBool "STRICT_ROUTES" false in
  let defaultStatus := getEnvInt "DEFAULT_STATUS_CODE" 200 in
  let defaultErrorRate := clamp (getEnvFloat "DEFAULT_ERROR_RATE" f_zero) f_zero f_one in
  let minLatencyMs := getEnvInt "MIN_LATENCY_MS" 0 in
  let maxLatencyMs := getEnvInt "MAX_LATENCY_MS" 0 in
  let maxLatencyMs := if maxLatencyMs <? minLatencyMs then minLatencyMs else maxLatencyMs in
  let sseIntervalMs := getEnvInt "SSE_INTERVAL_MS" 1000 in
  let sseIntervalMs := if sseIntervalMs <? 1 then 1000 else sseIntervalMs in
  let readHeaderTimeoutMs := getEnvInt "READ_HEADER_TIMEOUT_MS" 5000 in
  let readHeaderTimeoutMs := if readHeaderTimeoutMs <? 1 then 5000 else readHeaderTimeoutMs in
  let authTokenTTLSeconds := getEnvInt "AUTH_TOKEN_EXPIRES_SECONDS" 300 in
  let authTokenTTLSeconds := if authTokenTTLSeconds <? 5 then 5 else authTokenTTLSeconds in
  let authTokenDelayMs := getEnvInt "AUTH_TOKEN_DELAY_MS" 0 in
  let authTokenDelayMs := if authTokenDelayMs <? 0 then 0 else authTokenDelayMs in
  let logEveryNRequests := getEnvInt "LOG_EVERY_N_REQUESTS" 1000 in
  let logEveryNRequests := if logEveryNRequests <? 1 then 1000 else logEveryNRequests in
  {| Port := port;
     RequireAuth := requireAuth;
     StrictRoutes := strictRoutes;
     DefaultStatusCode := defaultStatus;
     DefaultErrorRate := defaultErrorRate;
     MinLatency := minLatencyMs ⊠ Millisecond;
     MaxLatency := maxLatencyMs ⊠ Millisecond;
     SSEInterval := sseIntervalMs ⊠ Millisecond;
     ReadHeaderTimeout := readHeaderTimeoutMs ⊠ Millisecond;
     LogEveryNRequests := logEveryNRequests;
     EnableRequestLogging := getEnvBool "ENABLE_REQUEST_LOGGING" false;
     AuthClientID := getEnv "AUTH_CLIENT_ID" "dummy-client";
     AuthClientSecret := getEnv "AUTH_CLIENT_SECRET" "dummy-secret";
     AuthJWTSecret := getEnv "AUTH_JWT_SECRET" "dummy-jwt-secret";
     AuthIssuer := getEnv "AUTH_ISSUER" "dummy-service";
     AuthTokenTTL := authTokenTTLSeconds ⊠ Second;
     AuthTokenDelay := authTokenDelayMs ⊠ Millisecond;
     AuthTokenForceStatus := getEnvInt "AUTH_TOKEN_FORCE_STATUS_CODE" 0 |}.
End env.

(** ** Requests *)

(** A body: its bytes, and the error that ends it early. *)
Record body := mkBody { b_text : string; b_error : option string }.

(** A request: the segments of its path as they are written in it, with their
    escapes, the raw query, the header
    Authorization (empty when absent), what [mime.ParseMediaType] makes of the
    content type, the pattern the mux matched it to (empty before it did), and
    what happens while it is served: when the ticks of a stream come before the
    client goes away, and after which time the client of a request that hangs
    goes away. *)
Record request := mkRequest {
  rq_Method : string;
  rq_segments : list string;
  rq_RawQuery : string;
  rq_Authorization : string;
  rq_media : string * option string;
  rq_Body : option body;
  rq_Pattern : string;
  rq_ticks : list Time;
  rq_gone : option Z
}.

#[export] Instance eta_request : Eta request := fun r =>
  mkRequest (rq_Method r) (rq_segments r) (rq_RawQuery r) (rq_Authorization r) (rq_media r) (rq_Body r) (rq_Pattern r)
    (rq_ticks r) (rq_gone r).

(** The segments of the path without their escapes. *)
Definition decoded_segments (segments : list string) : list string :=
  map (fun s => default s (unescape EncodeOther s)) segments.

Definition url_path (r : request) : string := "/" +:+ GoStrings.join "/" (decoded_segments (rq_segments r)).

(** [r.URL.Query().Get(key)]. *)
Definition query_get (r : request) (key : string) : string := values_get key (ParseQuery (rq_RawQuery r)).1.

(** A query value that is read as a number: [None] when it is empty or not a
    number that passes. *)
Definition query_int (r : request) (key : string) (ok : Z -> bool) : option Z :=
  let raw := query_get r key in
  if String.eqb raw "" then None else n ← atoi raw; if ok n then Some n else None.

(** ** What a request decides *)

Section config.
Context (cfg : Config).

Definition effectiveStatusCode (r : request) (fallback : Z) : Z :=
  match query_int r "status" (fun code => (100 <=? code) && (code <=? 999)) with
  | Some code => code
  | None =>
    if (100 <=? DefaultStatusCode cfg) && (DefaultStatusCode cfg <=? 999) then DefaultStatusCode cfg else fallback
  end.

Definition effectiveDelay (r : request) : Z :=
  match query_int r "delay_ms" (fun ms => 0 <=? ms) with
  | Some ms => ms ⊠ Millisecond
  | None =>
    let min := match query_int r "min_delay_ms" (fun ms => 0 <=? ms) with
               | Some ms => ms ⊠ Millisecond | None => MinLatency cfg end in
    let max := match query_int r "max_delay_ms" (fun ms => 0 <=? ms) with
               | Some ms => ms ⊠ Millisecond | None => MaxLatency cfg end in
    let max := if max <? min then min else max in
    if min =? max then min else min ⊞ Z.quot (max ⊟ min) 2
  end.

(** The hash of a text, modulo 2^64. *)
Fixpoint probability_sum (input : string) (sum : Z) : Z :=
  match input with
  | EmptyString => sum
  | String c s => probability_sum s (u64 (u64 (sum * 131) + byte_of c))
  end.

Definition deterministicProbability (input : string) : float64 :=
  f_div (f_of_Z (probability_sum input 0 mod 10000)) (f_of_Z 10000).

(** The flag [fail]: [None] when it is not given or says neither. *)
Definition fail_flag (r : request) : option bool :=
  let raw := query_get r "fail" in
  if String.eqb raw "" then None
  else
    let flag := to_lower (trim_space raw) in
    if existsb (String.eqb flag) ["1"; "true"; "yes"; "y"; "on"] then Some true
    else if existsb (String.eqb flag) ["0"; "false"; "no"; "n"; "off"] then Some false
    else None.

Definition effective_error_rate (r : request) : float64 :=
  let raw := query_get r "error_rate" in
  if String.eqb raw "" then DefaultErrorRate cfg
  else match parse_float raw with
       | Some v => clamp v f_zero f_one
       | None => DefaultErrorRate cfg
       end.

Definition shouldFail (r : request) : bool :=
  match fail_flag r with
  | Some b => b
  | None =>
    let errorRate := effective_error_rate r in
    if f_le errorRate f_zero then false
    else if f_le f_one errorRate then true
    else f_lt (deterministicProbability (rq_Method r +:+ "|" +:+ url_path r +:+ "|" +:+ rq_RawQuery r)) errorRate
  end.

(** Zero: no failure is forced. *)
Definition effectiveTokenFailureStatus (r : request) : Z :=
  let server_error code := (500 <=? code) && (code <=? 599) in
  match query_int r "status" server_error with
  | Some code => code
  | None =>
    if negb (String.eqb (query_get r "fail") "") && shouldFail r then effectiveStatusCode r 503
    else if server_error (AuthTokenForceStatus cfg) then AuthTokenForceStatus cfg
    else 0
  end.

Definition getSSEInterval (r : request) : Z :=
  match query_int r "sse_interval_ms" (fun ms => 0 <? ms) with
  | Some ms => ms ⊠ Millisecond
  | None => SSEInterval cfg
  end.
End config.

Definition routeLabel (r : request) : string :=
  if String.eqb (rq_Pattern r) "" then "unmatched" else rq_Pattern r.

(** [math.Mod(float64(seq*37), 100) + 0.37]; the remainder of a float that is
    an integer is exact. *)
Definition deterministicValue (seq : Z) : float64 :=
  f_add (f_of_Z (Z.rem (f_to_int (f_of_Z (seq ⊠ 37))) 100)) (f_div (f_of_Z 37) (f_of_Z 100)).

(** ** Bodies *)

Definition maxCatchAllBodyBytes : Z := Z.shiftl 16 20.

(** The bytes read and the error: at most one byte more than the limit is
    read, so an error behind it is not met. *)
Definition consumeRequestBody (r : request) (maxBytes : Z) : Z * option string :=
  match rq_Body r with
  | None => (0, None)
  | Some b =>
    let readBytes := Z.min (str_len (b_text b)) (maxBytes + 1) in
    match (if maxBytes <? str_len (b_text b) then None else b_error b) with
    | Some e => (readBytes, Some ("failed to read request body: " +:+ e))
    | None =>
      if maxBytes <? readBytes
      then (readBytes, Some ("request body exceeds " +:+ itoa maxBytes +:+ " bytes"))
      else (readBytes, None)
    end
  end.

(** [r.ParseForm]: the values of the body before those of the query, and the
    first error. *)
Definition post_form (r : request) : list (string * string) * option string :=
  match rq_Body r with
  | None => ([], None)
  | Some b =>
    let '(media, err) := rq_media r in
    let first (e : option string) := match err with Some _ => err | None => e end in
    if String.eqb media "application/x-www-form-urlencoded" then
      if Z.shiftl 10 20 <? str_len (b_text b) then ([], Some "http: POST too large")
      else match b_error b with
           | Some e => ([], first (Some e))
           | None => let '(vs, e) := ParseQuery (b_text b) in (vs, first e)
           end
    else ([], err)
  end.

Definition ParseForm (r : request) : list (string * string) * option string :=
  let '(post, err) := if existsb (String.eqb (rq_Method r)) ["POST"; "PUT"; "PATCH"] then post_form r else ([], None) in
  let '(query, qerr) := ParseQuery (rq_RawQuery r) in
  (post ++ query, match err with Some _ => err | None => qerr end).

(** ** Client credentials *)

Definition bearer_prefix : string := "Bearer ".
Definition basic_prefix : string := "Basic ".
