(* ===== verification/DummyToken.v ===== *)
(** * The target service: tokens and credentials

    The part of [dummy-service/main.go] that issues and checks JSON Web Tokens
    (HS256 over unpadded base64url), reads client credentials from a token
    request, and the claim that an issued token is read back until it expires. *)

From stdpp Require Import pretty.
From S2P Require Export Dummy.
From S2P Require Import Duration EnvFileSpec Sha256 Secrets Base64 JsonText.

Open Scope Z_scope.
Open Scope go_scope.

(** ** Tokens *)

Record dummyJWTClaims := mkClaims { Iss : string; Sub : string; Aud : string; Iat : Z; Nbf : Z; Exp : Z }.

Definition zero_claims : dummyJWTClaims := mkClaims "" "" "" 0 0 0.

(** The members of the claims, the audience left out when it is empty: text and
    value. *)
Definition claims_members (c : dummyJWTClaims) : list (string * string * json) :=
  [("iss", marshal_string (Iss c), JStr (Iss c)); ("sub", marshal_string (Sub c), JStr (Sub c))] ++
  (if String.eqb (Aud c) "" then [] else [("aud", marshal_string (Aud c), JStr (Aud c))]) ++
  [("iat", itoa (Iat c), JNum (itoa (Iat c))); ("nbf", itoa (Nbf c), JNum (itoa (Nbf c)));
   ("exp", itoa (Exp c), JNum (itoa (Exp c)))].

Definition marshal_claims (c : dummyJWTClaims) : string := struct_text (claims_members c).*1.

(** [json.Unmarshal] into the claims, field by field. *)
Definition unmarshal_claims (s : string) : option dummyJWTClaims :=
  match parse_json s with
  | Some JNull => Some zero_claims
  | Some (JObj l) =>
    iss ← decode_field decode_string "iss" "" l;
    sub ← decode_field decode_string "sub" "" l;
    aud ← decode_field decode_string "aud" "" l;
    iat ← decode_field decode_int "iat" 0 l;
    nbf ← decode_field decode_int "nbf" 0 l;
    exp ← decode_field decode_int "exp" 0 l;
    Some (mkClaims iss sub aud iat nbf exp)
  | _ => None
  end.

Definition jwt_header : string := marshal_object [("alg", marshal_string "HS256"); ("typ", marshal_string "JWT")].

Definition dot : string := ".".

Section config.
Context (cfg : Config).

Definition signJWT (signingInput : string) : string :=
  EncodeToString RawURLEncoding (bytes_string (hmac_sha256 (string_bytes (AuthJWTSecret cfg)) (string_bytes signingInput))).

Definition issued_claims (subject : string) (now : Time) : dummyJWTClaims :=
  mkClaims (AuthIssuer cfg) subject "" (unix_sec now) (unix_sec now) (unix_sec (add now (AuthTokenTTL cfg))).

(** The encoders of a map of strings and of this struct do not fail. *)
Definition issueDummyJWT (subject : string) (now : Time) : string * Time :=
  let expiresAt := add now (AuthTokenTTL cfg) in
  let headerPart := EncodeToString RawURLEncoding jwt_header in
  let claimsPart := EncodeToString RawURLEncoding (marshal_claims (issued_claims subject now)) in
  let signingInput := headerPart +:+ dot +:+ claimsPart in
  (signingInput +:+ dot +:+ signJWT signingInput, expiresAt).

Definition parseAndValidateDummyJWT (token : string) (now : Time) : res dummyJWTClaims :=
  match split_on (chr 46) token with
  | [header; claims; signature] =>
    if negb (String.eqb signature (signJWT (header +:+ dot +:+ claims))) then Err "invalid Bearer token signature"
    else match DecodeString RawURLEncoding claims with
         | None => Err "invalid Bearer token payload"
         | Some payloadJSON =>
           match unmarshal_claims payloadJSON with
           | None => Err "invalid Bearer token claims"
           | Some c =>
             if Exp c =? 0 then Err "Bearer token missing exp"
             else if Exp c <=? unix_sec now then Err "Bearer token expired"
             else if (0 <? Nbf c) && (unix_sec now <? Nbf c) then Err "Bearer token not valid yet"
             else Ok c
           end
         end
  | _ => Err "invalid Bearer token"
  end.

(** [validateBearerToken]: the label of the failure that is counted, and the
    error. *)
Definition bearer_failure (header : string) (now : Time) : option (string * string) :=
  if String.eqb header "" then Some ("missing_header", "missing Authorization header")
  else match Duration.strip_prefix bearer_prefix header with
       | None => Some ("invalid_scheme", "Authorization header must use Bearer token")
       | Some rest =>
         let token := trim_space rest in
         if String.eqb token "" then Some ("empty_token", "Bearer token is empty")
         else match parseAndValidateDummyJWT token now with
              | Err e => Some ("invalid_token", e)
              | Ok claims =>
                if String.eqb (Iss claims) (AuthIssuer cfg) then None
                else Some ("invalid_issuer", "invalid token issuer")
              end
       end.
End config.

(** ** Client credentials *)

(** The pair of a Basic header; [None] without one. *)
Definition extractBasicAuthCredentials (header : string) : res (option (string * string)) :=
  if blank header then Ok None
  else match Duration.strip_prefix basic_prefix header with
       | None => Ok None
       | Some rest =>
         let raw := trim_space rest in
         if String.eqb raw "" then Err "Basic authorization header is empty"
         else match DecodeString StdEncoding raw with
              | None => Err "Basic authorization header is not valid base64"
              | Some decoded =>
                match split_first (chr 58) decoded with
                | None => Err "Basic authorization header must contain client_id:client_secret"
                | Some (id, secret) => Ok (Some (trim_space id, trim_space secret))
                end
              end
       end.

(** A value of the form, or of the query when it is blank. *)
Definition form_or_query (r : request) (form : list (string * string)) (key : string) : string :=
  let v := trim_space (values_get key form) in
  if String.eqb v "" then trim_space (query_get r key) else v.

(** Client, secret and grant type. *)
Definition extractTokenRequestCredentials (r : request) : res (string * string * string) :=
  match extractBasicAuthCredentials (rq_Authorization r) with
  | Err e => Err e
  | Ok basic =>
    match ParseForm r with
    | (_, Some e) => Err ("failed to parse token request: " +:+ e)
    | (form, None) =>
      let grantType := form_or_query r form "grant_type" in
      let grantType := if String.eqb grantType "" then "client_credentials" else grantType in
      let '(clientID, clientSecret) :=
        match basic with
        | Some given => given
        | None => (form_or_query r form "client_id", form_or_query r form "client_secret")
        end in
      if String.eqb clientID "" || String.eqb clientSecret "" then Err "client_id and client_secret are required"
      else Ok (clientID, clientSecret, grantType)
    end
  end.

Definition default_config : Config := loadConfig ∅.

Example issue_ex :
  (issueDummyJWT default_config "dummy-client" (mkTime (1700000000 * Second) UTC)).1 =
  "eyJhbGciOiJIUzI1NiIsInR5cCI6IkpXVCJ9." +:+
  "eyJpc3MiOiJkdW1teS1zZXJ2aWNlIiwic3ViIjoiZHVtbXktY2xpZW50IiwiaWF0IjoxNzAwMDAwMDAwLCJuYmYiOjE3MDAwMDAwMDAsImV4cCI6MTcwMDAwMDMwMH0." +:+
  "SUb8XA9MKWQ5LlwcbXiZzvZmhvPGkHTR8hea1W20MlM".
Proof. vm_compute. reflexivity. Qed.

(** ** Tokens are texts without blanks and dots inside their parts *)

Lemma b64_visible s : b64_text s -> all_visible s.
Proof.
  unfold b64_text, all_visible. intros Hs. eapply Forall_impl; [exact Hs|]. intros c Hc. cbv beta zeta in Hc. unfold visible.
  apply andb_true_intro. split; apply Z.leb_le; lia.
Qed.

Lemma b64_dotless (a : string) : b64_text a -> lacks (chr 46) a.
Proof.
  unfold b64_text, lacks. intros Ha. eapply Forall_impl; [exact Ha|]. intros c Hc ->. cbv beta zeta in Hc.
  rewrite byte_chr in Hc by lia. lia.
Qed.

Lemma split_on_part (a b : string) : b64_text a -> split_on (chr 46) (a +:+ dot +:+ b) = a :: split_on (chr 46) b.
Proof. intros Ha. by apply split_on_lacks, b64_dotless. Qed.

(** ** The round trip of the claims *)

Definition claims_ok (c : dummyJWTClaims) : Prop :=
  utf8 (Iss c) /\ utf8 (Sub c) /\ utf8 (Aud c) /\ 0 <= Iat c <= i64_max /\ 0 <= Nbf c <= i64_max /\ 0 <= Exp c <= i64_max.

Lemma claims_read c : claims_ok c ->
  Forall (fun f : string * string * json => utf8 f.1.1 /\ reads f.1.2 f.2) (claims_members c).
Proof.
  intros (Hi & Hs & Ha & Ht & Hn & He). unfold claims_members.
  assert (Hname : forall name, forallb (fun c => byte_of c <? 128) (String.list_ascii_of_string name) = true -> utf8 name).
  { intros name Hf. apply utf8_plain. unfold plain_text. apply Forall_forall. intros x Hx.
    rewrite forallb_forall in Hf. apply Z.ltb_lt, Hf, list_elem_of_In, Hx. }
  repeat apply Forall_app_2; try (destruct (String.eqb _ _)); repeat (apply Forall_cons_2 || apply Forall_nil_2); cbn [fst snd];
    (split; [by apply Hname|]); auto using reads_string; apply reads_int; lia.
Qed.

Lemma unmarshal_marshal c : claims_ok c -> unmarshal_claims (marshal_claims c) = Some c.
Proof.
  intros Hc. unfold unmarshal_claims, marshal_claims. rewrite (parse_struct _ (claims_read c Hc)).
  destruct Hc as (_ & _ & _ & Ht & Hn & He). destruct c as [iss sub aud iat nbf exp]. cbn [Iss Sub Aud Iat Nbf Exp] in *.
  unfold claims_members. cbn [Iss Sub Aud Iat Nbf Exp].
  destruct (String.eqb_spec aud "") as [->|]; cbn -[itoa atoi]; rewrite !atoi_itoa by lia; reflexivity.
Qed.

(** ** Issued tokens *)

Section issued.
Context (cfg : Config) (subject : string) (now : Time).

Definition token_claims : dummyJWTClaims := issued_claims cfg subject now.

(** What the encoder needs: valid UTF-8, and times that fit. *)
Context (Hclaims : claims_ok token_claims).

Lemma signJWT_text input : b64_text (signJWT cfg input).
Proof. apply encode_text, _. Qed.

Lemma token_parts :
  let header := EncodeToString RawURLEncoding jwt_header in
  let claims := EncodeToString RawURLEncoding (marshal_claims token_claims) in
  split_on (chr 46) (issueDummyJWT cfg subject now).1 = [header; claims; signJWT cfg (header +:+ dot +:+ claims)].
Proof.
  cbv zeta. unfold issueDummyJWT. cbn [fst]. rewrite !string_app_assoc, !split_on_part by apply encode_text, _.
  by rewrite split_on_alone by apply b64_dotless, signJWT_text.
Qed.

Lemma token_visible : all_visible (issueDummyJWT cfg subject now).1.
Proof.
  assert (Hdot : all_visible dot) by (repeat constructor).
  unfold issueDummyJWT. cbn [fst]. repeat apply all_visible_app; try done; apply b64_visible, encode_text, _.
Qed.

(** An issued token gives its claims back from the second it was issued in to
    the second it expires in, and is refused before and after. *)
Lemma parse_issued t :
  parseAndValidateDummyJWT cfg (issueDummyJWT cfg subject now).1 t =
    if Exp token_claims =? 0 then Err "Bearer token missing exp"
    else if Exp token_claims <=? unix_sec t then Err "Bearer token expired"
    else if (0 <? unix_sec now) && (unix_sec t <? unix_sec now) then Err "Bearer token not valid yet"
    else Ok token_claims.
Proof.
  unfold parseAndValidateDummyJWT. rewrite token_parts. rewrite String.eqb_refl. cbn [negb].
  rewrite (Base64.decode_encode RawURLEncoding), unmarshal_marshal by done. reflexivity.
Qed.

Lemma token_nonempty : (issueDummyJWT cfg subject now).1 <> "".
Proof. unfold issueDummyJWT. cbn [fst]. discriminate. Qed.

(** In the header Authorization. *)
Lemma bearer_issued t :
  bearer_failure cfg (bearer_prefix +:+ (issueDummyJWT cfg subject now).1) t =
    match parseAndValidateDummyJWT cfg (issueDummyJWT cfg subject now).1 t with
    | Err e => Some ("invalid_token", e)
    | Ok _ => None
    end.
Proof.
  unfold bearer_failure. change (String.eqb (bearer_prefix +:+ (issueDummyJWT cfg subject now).1) "") with false. cbv iota.
  change (Duration.strip_prefix bearer_prefix (bearer_prefix +:+ (issueDummyJWT cfg subject now).1))
    with (Some (issueDummyJWT cfg subject now).1). cbv iota beta zeta.
  rewrite trim_all_visible by apply token_visible.
  rewrite (proj2 (String.eqb_neq _ _) token_nonempty), parse_issued.
  repeat case_match; try done. simplify_eq. cbn [token_claims issued_claims Iss] in *. by rewrite String.eqb_refl in *.
Qed.
End issued.
