(* ===== verification/DummyServe.v ===== *)
(** * The target service: handlers, middleware, routes

    The handlers of [dummy-service/main.go] as programs over the counters they
    share, the middleware that counts every request but those of the health
    check, and the table of routes.  A handler yields the response it writes;
    the calls on the Prometheus client are listed in the order they are made.
    The mux is that of Go 1.23: it redirects paths that are not clean.  Log lines
    are left out. *)

From S2P Require Export Dummy DummyToken.
From S2P Require Import Templates K6Config.

Open Scope Z_scope.
Open Scope go_scope.

(** ** State *)

Inductive metric :=
  | HttpRequests (method route : string)
  | HttpResponses (method route status : string)
  | HttpDuration (method route : string) (ns : Z)
  | HttpActive (change : Z)
  | SSEActive (change : Z)
  | SSEEvents
  | TokenRequests (result : string)
  | TokenDuration (ns : Z)
  | ValidationFailures (reason : string).

Record DummyWorld := mkDummyWorld {
  requestsStarted : Z;
  requestsCompleted : Z;
  activeRequests : Z;
  activeSSE : Z;
  userIDCounter : Z;
  orderIDCounter : Z;
  startTime : Time;
  dw_now : Time;
  dw_metrics : list metric
}.

#[export] Instance eta_DummyWorld : Eta DummyWorld := fun w =>
  mkDummyWorld (requestsStarted w) (requestsCompleted w) (activeRequests w) (activeSSE w) (userIDCounter w)
    (orderIDCounter w) (startTime w) (dw_now w) (dw_metrics w).

(** What [main] sets before it serves. *)
Definition dummy_init (start : Time) : DummyWorld := mkDummyWorld 0 0 0 0 1000 1000 start start [].

Notation dummy := (prog DummyWorld).

Definition now : dummy Time := act (fun w => (dw_now w, w)).
Definition sleep (d : Z) : dummy unit :=
  act (st_modify (fun w => if 0 <? d then w <| dw_now := add (dw_now w) d |> else w)).
Definition emit (l : list metric) : dummy unit := act (st_modify (fun w => w <| dw_metrics := dw_metrics w ++ l |>)).

(** [counter.Add(d)] of an atomic 64-bit integer. *)
Definition add_started (d : Z) : dummy Z :=
  act (fun w => let n := requestsStarted w ⊞ d in (n, w <| requestsStarted := n |>)).
Definition add_completed (d : Z) : dummy Z :=
  act (fun w => let n := requestsCompleted w ⊞ d in (n, w <| requestsCompleted := n |>)).
Definition add_active (d : Z) : dummy Z :=
  act (fun w => let n := activeRequests w ⊞ d in (n, w <| activeRequests := n |>)).
Definition add_sse (d : Z) : dummy Z :=
  act (fun w => let n := activeSSE w ⊞ d in (n, w <| activeSSE := n |>)).
Definition next_user : dummy Z := act (fun w => let n := userIDCounter w ⊞ 1 in (n, w <| userIDCounter := n |>)).
Definition next_order : dummy Z := act (fun w => let n := orderIDCounter w ⊞ 1 in (n, w <| orderIDCounter := n |>)).

(** ** Responses *)

Inductive dummy_body :=
  | BNone
  | BHtml (text : string)
  | BJson (j : json)
  | BStats (started completed active sse : Z) (uptime : float64)
  | BStream (events : list string).

(** The status given to [WriteHeader], if it was called; header fields; body. *)
Record response := mkResponse { rs_code : option Z; rs_headers : list (string * string); rs_body : dummy_body }.

Definition writeJSON (status : Z) (members : list (string * json)) : response :=
  mkResponse (Some status) [("Content-Type", "application/json")] (BJson (JObj members)).

Definition with_location (location : string) (r : response) : response :=
  mkResponse (rs_code r) (("Location", location) :: rs_headers r) (rs_body r).

Definition json_error (msg : string) : list (string * json) := [("error", JStr msg)].
Definition json_oauth (error description : string) : list (string * json) :=
  [("error", JStr error); ("error_description", JStr description)].
Definition json_int (n : Z) : json := JNum (itoa n).

(** The status the recorder of the middleware keeps. *)
Definition recorded_status (r : response) : Z := default 200 (rs_code r).

(** The status the client sees: [net/http] sends an informational status ahead
    and answers with 200 when the body is written. *)
Definition wire_status (r : response) : Z :=
  match rs_code r with
  | None => 200
  | Some code => if (100 <=? code) && (code <=? 199) && negb (code =? 101) then 200 else code
  end.

(** The writer a handler gets: that of [net/http], which can flush, or the
    recorder, whose method set is that of [http.ResponseWriter] and [Unwrap]. *)
Inductive writer := ServerWriter | Recorder.

Definition is_flusher (w : writer) : bool := match w with ServerWriter => true | Recorder => false end.

(** [Duration.Seconds()]. *)
Definition duration_seconds (d : Z) : float64 :=
  f_add (f_of_Z (Z.quot d Second)) (f_div (f_of_Z (Z.rem d Second)) (f_of_Z 1000000000)).

Section config.
Context (cfg : Config).

(** ** Common steps *)

Definition validateBearerToken (header : string) : dummy (option string) :=
  t ← now;
  match bearer_failure cfg header t with
  | Some (reason, msg) => _ ← emit [ValidationFailures reason]; mret (Some msg)
  | None => mret None
  end.

Definition maybeRequireAuth (r : request) : dummy (option string) :=
  if negb (RequireAuth cfg) then mret None else validateBearerToken (rq_Authorization r).

Definition delayIfNeeded (r : request) : dummy unit := sleep (effectiveDelay cfg r).

Definition delayTokenIfNeeded (r : request) : dummy unit :=
  if negb (String.eqb (query_get r "delay_ms") "") then delayIfNeeded r
  else if 0 <? AuthTokenDelay cfg then sleep (AuthTokenDelay cfg)
  else delayIfNeeded r.

Definition json_request (status message : string) (r : request) : list (string * json) :=
  [("status", JStr status); ("method", JStr (rq_Method r)); ("path", JStr (url_path r)); ("message", JStr message)].

(** [respondIfFailureInjected]: the response it writes. *)
Definition injected_failure (r : request) : option response :=
  if shouldFail cfg r
  then Some (writeJSON (effectiveStatusCode cfg r 503) (json_request "error" "simulated failure" r)) else None.

(** The status of a body that could not be consumed. *)
Definition body_status (msg : string) : Z := if contains msg "exceeds" then 413 else 400.

(** The steps the REST handlers begin with. *)
Definition with_auth (r : request) (k : dummy response) : dummy response :=
  denied ← maybeRequireAuth r;
  match denied with Some msg => mret (writeJSON 401 (json_error msg)) | None => k end.

Definition unless_failed (r : request) (k : dummy response) : dummy response :=
  match injected_failure r with
  | Some rsp => mret rsp
  | None => _ ← delayIfNeeded r; k
  end.

Definition guarded (r : request) (k : dummy response) : dummy response := with_auth r (unless_failed r k).

(** A body that must be read, then the rest. *)
Definition with_body (r : request) (k : Z -> dummy response) : dummy response :=
  match consumeRequestBody r maxCatchAllBodyBytes with
  | (_, Some msg) => mret (writeJSON (body_status msg) (json_error msg))
  | (n, None) => k n
  end.

(** ** Tokens *)

(** The label that is counted, and the response. *)
Definition token_answer (r : request) : dummy (string * response) :=
  let status := effectiveTokenFailureStatus cfg r in
  if 0 <? status then
    mret ("forced_failure", writeJSON status (json_oauth "server_error" "dummy token endpoint forced failure"))
  else
    match extractTokenRequestCredentials r with
    | Err e => mret ("invalid_request", writeJSON 400 (json_oauth "invalid_request" e))
    | Ok (clientID, clientSecret, grantType) =>
      if negb (String.eqb grantType "client_credentials") then
        mret ("unsupported_grant_type", writeJSON 400 (json_oauth "unsupported_grant_type" "grant_type must be client_credentials"))
      else if negb (String.eqb clientID (AuthClientID cfg)) || negb (String.eqb clientSecret (AuthClientSecret cfg)) then
        mret ("invalid_client", writeJSON 401 (json_oauth "invalid_client" "client credentials are invalid"))
      else
        t ← now;
        let '(token, expiresAt) := issueDummyJWT cfg clientID (to_utc t) in
        t' ← now;
        mret ("success", writeJSON (effectiveStatusCode cfg r 200)
                [("access_token", JStr token); ("token_type", JStr "Bearer");
                 ("expires_in", json_int (f_to_int (duration_seconds (sub expiresAt t'))))])
    end.

Definition handleToken (r : request) : dummy response :=
  start ← now;
  _ ← delayTokenIfNeeded r;
  '(result, rsp) ← token_answer r;
  finish ← now;
  _ ← emit [TokenRequests result; TokenDuration (sub finish start)];
  mret rsp.

(** [handleIntentionalTimeout]: 45 seconds, or until the client goes away;
    nothing is written. *)
Definition handleIntentionalTimeout (r : request) : dummy response :=
  let d := match rq_gone r with Some d => Z.min d (45 * Second) | None => 45 * Second end in
  _ ← sleep d;
  mret (mkResponse None [] BNone).

(** A scenario of a path: a status code, if it is one. *)
Definition scenario_of (s : string) : string := trim_space (to_lower s).

Definition scenario_code (scenario : string) : option Z :=
  code ← atoi scenario; if (code <? 100) || (599 <? code) then None else Some code.

Definition redirect_to (location : string) (code : Z) (rsp : response) : response :=
  if (300 <=? code) && (code <? 400) then with_location location rsp else rsp.

Definition handleTokenScenario (r : request) (segment : string) : dummy response :=
  let scenario := scenario_of segment in
  if String.eqb scenario "timeout" then handleIntentionalTimeout r
  else
    match scenario_code scenario with
    | None => mret (writeJSON 400 (json_oauth "invalid_scenario" "scenario must be an HTTP status code or timeout"))
    | Some code =>
      mret (redirect_to "/api/auth/token" code
              (writeJSON code (json_oauth "dummy_auth_scenario" ("forced dummy auth response " +:+ itoa code) ++
                               [("scenario", JStr scenario)])))
    end.

Definition handleHTTPScenario (r : request) (segment : string) : dummy response :=
  with_auth r (
    let scenario := scenario_of segment in
    if String.eqb scenario "timeout" then handleIntentionalTimeout r
    else
      match scenario_code scenario with
      | None =>
        mret (writeJSON 400 [("status", JStr "error"); ("message", JStr "scenario must be an HTTP status code or timeout");
                             ("path", JStr (url_path r))])
      | Some code =>
        mret (redirect_to "/api/products" code
                (writeJSON code [("status", JStr "scenario"); ("code", json_int code); ("method", JStr (rq_Method r));
                                 ("path", JStr (url_path r)); ("scenario", JStr scenario);
                                 ("message", JStr ("forced dummy response " +:+ itoa code))]))
      end).

(** ** Health, statistics, events *)

Definition handleHealth : dummy response := mret (writeJSON 200 [("status", JStr "healthy")]).

(** The five reads are separate. *)
Definition handleStats : dummy response :=
  started ← act (fun w => (requestsStarted w, w));
  completed ← act (fun w => (requestsCompleted w, w));
  active ← act (fun w => (activeRequests w, w));
  sse ← act (fun w => (activeSSE w, w));
  uptime ← act (fun w => (sub (dw_now w) (startTime w), w));
  mret (mkResponse (Some 200) [("Content-Type", "application/json")]
          (BStats started completed active sse (duration_seconds uptime))).

(** [%.2f] of a float between 0 and 2^53: the nearest number of hundredths. *)
Definition fixed2 (x : float64) : string :=
  match x with
  | S754_finite false m e =>
    let num := if 0 <=? e then 100 * Zpos m * 2 ^ e else 100 * Zpos m in
    let den := if 0 <=? e then 1 else 2 ^ (- e) in
    let q := num / den in
    let r := num mod den in
    let n := if (den <? 2 * r) || ((2 * r =? den) && Z.odd q) then q + 1 else q in
    itoa (n / 100) +:+ "." +:+ pad2 (n mod 100)
  | _ => "0.00"
  end.

Definition newline : string := String (chr 10) "".

Definition sse_event (seq : Z) (t : Time) : string :=
  "id: " +:+ itoa seq +:+ newline +:+ "event: tick" +:+ newline +:+
  "data: " +:+ quoted ("{'seq':" +:+ itoa seq +:+ ",'ts':'" +:+ format_rfc3339 (to_utc t) +:+ "','value':" +:+
                       fixed2 (deterministicValue seq) +:+ "}") +:+ newline +:+ newline.

Definition sse_ready : string :=
  "retry: 3000" +:+ newline +:+ "event: ready" +:+ newline +:+ "data: " +:+ quoted "{'status':'connected'}" +:+ newline +:+ newline.

(** One event per tick, until the client goes away. *)
Fixpoint sse_loop (seq : Z) (ticks : list Time) : dummy (list string) :=
  match ticks with
  | [] => mret []
  | t :: ticks =>
    _ ← emit [SSEEvents];
    rest ← sse_loop (seq + 1) ticks;
    mret (sse_event (seq + 1) t :: rest)
  end.

Definition handleSSE (w : writer) (r : request) : dummy response :=
  with_auth r (
    if negb (is_flusher w) then mret (writeJSON 500 (json_error "streaming not supported"))
    else if shouldFail cfg r then mret (writeJSON (effectiveStatusCode cfg r 503) (json_error "simulated SSE failure"))
    else
      _ ← delayIfNeeded r;
      _ ← add_sse 1;
      _ ← emit [SSEActive 1; SSEEvents];
      events ← sse_loop 0 (rq_ticks r);
      _ ← add_sse (-1);
      _ ← emit [SSEActive (-1)];
      mret (mkResponse None [("Content-Type", "text/event-stream"); ("Cache-Control", "no-cache");
                             ("Connection", "keep-alive"); ("X-Accel-Buffering", "no")]
              (BStream (sse_ready :: events)))).

(** ** The REST resources *)

Definition json_user (id : Z) (name email : string) : json :=
  JObj [("id", json_int id); ("name", JStr name); ("email", JStr email)].

Definition handleGetUsers (r : request) : dummy response :=
  guarded r (mret (writeJSON (effectiveStatusCode cfg r 200)
    [("users", JArr [json_user 1 "Alice" "alice@example.com"; json_user 2 "Bob" "bob@example.com";
                     json_user 3 "Charlie" "charlie@example.com"]); ("total", json_int 3)])).

Definition handleGetUserByID (r : request) (id : string) : dummy response :=
  guarded r (mret (writeJSON (effectiveStatusCode cfg r 200)
    [("id", JStr id); ("name", JStr ("User-" +:+ id)); ("email", JStr ("user" +:+ id +:+ "@example.com"))])).

Definition handleCreateUser (r : request) : dummy response :=
  guarded r (with_body r (fun n =>
    id ← next_user;
    mret (writeJSON (effectiveStatusCode cfg r 201)
            [("id", json_int id); ("status", JStr "created"); ("request_body_bytes", json_int n)]))).

Definition handleUpdateUser (r : request) (id : string) : dummy response :=
  guarded r (with_body r (fun n =>
    mret (writeJSON (effectiveStatusCode cfg r 200)
            [("id", JStr id); ("status", JStr "updated"); ("request_body_bytes", json_int n)]))).

Definition handleDeleteUser (r : request) : dummy response :=
  guarded r (mret (writeJSON (effectiveStatusCode cfg r 200) [("status", JStr "deleted")])).

Definition json_product (id : Z) (name price : string) : json :=
  JObj [("id", json_int id); ("name", JStr name); ("price", JNum price)].

Definition handleGetProducts (r : request) : dummy response :=
  guarded r (mret (writeJSON (effectiveStatusCode cfg r 200)
    [("products", JArr [json_product 1 "Widget" "9.99"; json_product 2 "Gadget" "24.99"; json_product 3 "Doohickey" "14.5"]);
     ("total", json_int 3)])).

Definition json_order (id user_id : Z) (total status : string) : json :=
  JObj [("id", json_int id); ("user_id", json_int user_id); ("total", JNum total); ("status", JStr status)].

Definition handleGetOrders (r : request) : dummy response :=
  guarded r (mret (writeJSON (effectiveStatusCode cfg r 200)
    [("orders", JArr [json_order 1001 1 "34.98" "shipped"; json_order 1002 2 "9.99" "pending"]); ("total", json_int 2)])).

Definition handleCreateOrder (r : request) : dummy response :=
  guarded r (with_body r (fun n =>
    id ← next_order;
    mret (writeJSON (effectiveStatusCode cfg r 201)
            [("id", json_int id); ("status", JStr "created"); ("request_body_bytes", json_int n)]))).

Definition handleCatchAllOK (r : request) : dummy response :=
  unless_failed r (
    match consumeRequestBody r maxCatchAllBodyBytes with
    | (_, Some msg) => mret (writeJSON (body_status msg) (json_request "error" msg r))
    | (n, None) =>
      mret (writeJSON (effectiveStatusCode cfg r 200)
              (json_request "ok" "dummy response" r ++ [("request_body_bytes", json_int n)]))
    end).

Definition handleNotFound (r : request) : dummy response :=
  unless_failed r (mret (writeJSON (effectiveStatusCode cfg r 404) (json_request "error" "route not found" r))).

(** ** Routes *)

(** The page of the Prometheus client. *)
Context (promhttp : DummyWorld -> response).

Inductive segment_pattern := Lit (text : string) | Wild (name : string).

(** A pattern of the mux: a method (empty for any), a path, and the handler,
    which is given the segment the wildcard stands for. *)
Record route := mkRoute {
  rt_method : string;
  rt_path : list segment_pattern;
  rt_handler : string -> request -> dummy response
}.

(** The routes [main] registers, in its order. *)
Definition dummy_routes (w : writer) : list route :=
  let api name := [Lit "api"; Lit name] in
  let scenario := [Lit "test"; Lit "http"; Wild "scenario"] in
  [ mkRoute "GET" [Lit "health"] (fun _ _ => handleHealth);
    mkRoute "GET" [Lit "metrics"] (fun _ _ => act (fun w => (promhttp w, w)));
    mkRoute "GET" [Lit "api"; Lit "auth"; Lit "token"] (fun _ => handleToken);
    mkRoute "POST" [Lit "api"; Lit "auth"; Lit "token"] (fun _ => handleToken);
    mkRoute "" [Lit "api"; Lit "auth"; Lit "token"; Wild "scenario"] (fun s r => handleTokenScenario r s);
    mkRoute "GET" (api "stats") (fun _ _ => handleStats);
    mkRoute "GET" (api "events") (fun _ => handleSSE w);
    mkRoute "GET" (api "users") (fun _ => handleGetUsers);
    mkRoute "GET" (api "users" ++ [Wild "id"]) (fun id r => handleGetUserByID r id);
    mkRoute "POST" (api "users") (fun _ => handleCreateUser);
    mkRoute "PUT" (api "users" ++ [Wild "id"]) (fun id r => handleUpdateUser r id);
    mkRoute "DELETE" (api "users" ++ [Wild "id"]) (fun _ => handleDeleteUser);
    mkRoute "GET" (api "products") (fun _ => handleGetProducts);
    mkRoute "GET" (api "orders") (fun _ => handleGetOrders);
    mkRoute "POST" (api "orders") (fun _ => handleCreateOrder);
    mkRoute "GET" scenario (fun s r => handleHTTPScenario r s);
    mkRoute "POST" scenario (fun s r => handleHTTPScenario r s);
    mkRoute "PUT" scenario (fun s r => handleHTTPScenario r s);
    mkRoute "PATCH" scenario (fun s r => handleHTTPScenario r s);
    mkRoute "DELETE" scenario (fun s r => handleHTTPScenario r s) ].

(** The method GET of a pattern matches HEAD too. *)
Definition method_matches (pattern method : string) : bool :=
  String.eqb pattern "" || String.eqb pattern method || (String.eqb pattern "GET" && String.eqb method "HEAD").

(** The value of the wildcard, empty without one; a wildcard stands for a
    segment that is not empty. *)
Fixpoint match_path (ps : list segment_pattern) (segments : list string) : option string :=
  match ps, segments with
  | [], [] => Some ""
  | Lit p :: ps, s :: segments => if String.eqb p s then match_path ps segments else None
  | Wild _ :: ps, s :: segments => if String.eqb s "" then None else _ ← match_path ps segments; Some s
  | _, _ => None
  end.

Definition segment_text (p : segment_pattern) : string :=
  match p with Lit p => p | Wild name => "{" +:+ name +:+ "}" end.

Definition pattern_text (rt : route) : string :=
  (if String.eqb (rt_method rt) "" then "" else rt_method rt +:+ " ") +:+ "/" +:+
  GoStrings.join "/" (map segment_text (rt_path rt)).

(** No two patterns match the same request, so the first that does is the most
    specific one; what none matches goes to the root. *)
Definition mux_match (w : writer) (r : request) (segments : list string) : string * (request -> dummy response) :=
  match first_some (fun rt =>
          value ← match_path (rt_path rt) (decoded_segments segments);
          if method_matches (rt_method rt) (rq_Method r) then Some (pattern_text rt, rt_handler rt value) else None)
          (dummy_routes w) with
  | Some found => found
  | None => ("/", if StrictRoutes cfg then handleNotFound else handleCatchAllOK)
  end.

(** [cleanPath] of [net/http], on the segments of a path: no empty ones, no dots,
    and a slash at the end where there was one. *)
Definition clean_segment (acc : list string) (segment : string) : list string :=
  if String.eqb segment "" || String.eqb segment "." then acc
  else if String.eqb segment ".." then tl acc else segment :: acc.

Definition clean_segments (segments : list string) : list string :=
  match rev (foldl clean_segment [] segments) with
  | [] => match segments with [] => [] | _ => [""] end
  | clean => if String.eqb (List.last segments "") "" then clean ++ [""] else clean
  end.

(** [htmlEscape] of [net/http]. *)
Fixpoint html_escape (s : string) : string :=
  match s with
  | EmptyString => ""
  | String c s' =>
    (if byte_of c =? 38 then "&amp;" else if byte_of c =? 60 then "&lt;" else if byte_of c =? 62 then "&gt;"
     else if byte_of c =? 34 then "&#34;" else if byte_of c =? 39 then "&#39;" else String c "") +:+ html_escape s'
  end.

(** [RedirectHandler] to a clean path, which is escaped once more, with status
    301. *)
Definition redirect_clean (r : request) (path : string) : response :=
  let query := if String.eqb (rq_RawQuery r) "" then "" else "?" +:+ rq_RawQuery r in
  let location := escape_url path_char path +:+ query in
  let quoted := String (chr 34) (html_escape location +:+ String (chr 34) "") in
  let html := [("Content-Type", "text/html; charset=utf-8")] in
  mkResponse (Some 301)
    (("Location", location) :: if String.eqb (rq_Method r) "GET" || String.eqb (rq_Method r) "HEAD" then html else [])
    (if String.eqb (rq_Method r) "GET"
     then BHtml ("<a href=" +:+ quoted +:+ ">Moved Permanently</a>." +:+ newline +:+ newline) else BNone).

(** The mux redirects a path that is not clean, but for CONNECT; it sets the
    pattern of the request and calls the handler. *)
Definition mux (w : writer) (r : request) : dummy response :=
  let clean := if String.eqb (rq_Method r) "CONNECT" then rq_segments r else clean_segments (rq_segments r) in
  let '(pattern, handler) := mux_match w r clean in
  if bool_decide (clean = rq_segments r) then handler (r <| rq_Pattern := pattern |>)
  else mret (redirect_clean r ("/" +:+ GoStrings.join "/" clean)).

(** ** The middleware *)

Definition requestMiddleware (next : writer -> request -> dummy response) (r : request) : dummy response :=
  if String.eqb (url_path r) "/health" then next ServerWriter r
  else
    let route := routeLabel r in
    let method := rq_Method r in
    _ ← add_started 1;
    _ ← add_active 1;
    _ ← emit [HttpActive 1; HttpRequests method route];
    start ← now;
    rsp ← next Recorder r;
    finish ← now;
    _ ← add_active (-1);
    _ ← add_completed 1;
    _ ← emit [HttpActive (-1); HttpResponses method route (itoa (recorded_status rsp));
              HttpDuration method route (sub finish start)];
    mret rsp.

(** A request as it arrives: no pattern yet. *)
Definition serve (r : request) : dummy response := requestMiddleware mux (r <| rq_Pattern := "" |>).
End config.
