(* ===== verification/DummySpec.v ===== *)
(** * The target service: what holds of every request

    Over any number of requests whose actions interleave: the counters balance,
    only statuses [net/http] accepts are written, no event stream is ever
    opened and every request is counted under the same label.  And the token a
    client is given admits it until the token expires. *)

From stdpp Require Import pretty.
From S2P Require Import Duration EnvFileSpec Sha256 Base64 JsonText Secrets Templates.
From S2P Require Export DummyServe.

Open Scope Z_scope.
Open Scope go_scope.

(** ** Statuses *)

Definition writable (code : Z) : Prop := 100 <= code <= 999.

Lemma query_int_ok r key ok n : query_int r key ok = Some n -> ok n = true.
Proof.
  unfold query_int. destruct (String.eqb _ _); [done|]. destruct (atoi _) as [m|]; [|done].
  cbn [mbind option_bind]. destruct (ok m) eqn:E; [|done]. by intros [= <-].
Qed.

Section config.
Context (cfg : Config) (promhttp : DummyWorld -> response).

Lemma effectiveStatusCode_writable r fallback : writable fallback -> writable (effectiveStatusCode cfg r fallback).
Proof.
  intros Hf. unfold effectiveStatusCode, writable in *. destruct (query_int r "status" _) as [code|] eqn:E.
  - apply query_int_ok in E. lia.
  - destruct (_ && _) eqn:E2; lia.
Qed.

Lemma token_failure_writable r : effectiveTokenFailureStatus cfg r = 0 \/ writable (effectiveTokenFailureStatus cfg r).
Proof.
  unfold effectiveTokenFailureStatus. destruct (query_int r "status" _) as [code|] eqn:E.
  - apply query_int_ok in E. unfold writable. right. lia.
  - destruct (_ && shouldFail cfg r); [right; by apply effectiveStatusCode_writable|].
    destruct (_ && _) eqn:E2; [right; unfold writable; lia|by left].
Qed.

(** ** Answers *)

(** A response whose status can be written and that is no stream. *)
Definition plain_response (rsp : response) : Prop :=
  match rs_code rsp with Some code => writable code | None => True end /\
  match rs_body rsp with BStream _ => False | _ => True end.

Lemma writeJSON_plain status members : writable status -> plain_response (writeJSON status members).
Proof. intros Hs. by split. Qed.

Lemma status_plain r fallback members : writable fallback -> plain_response (writeJSON (effectiveStatusCode cfg r fallback) members).
Proof. intros Hf. by apply writeJSON_plain, effectiveStatusCode_writable. Qed.

Lemma yields_mret_plain rsp : plain_response rsp -> yields plain_response (mret rsp : dummy response).
Proof. apply yields_mret. Qed.

Lemma guarded_plain r k : yields plain_response k -> yields plain_response (guarded cfg r k).
Proof.
  intros Hk. unfold guarded, with_auth, unless_failed, injected_failure. apply yields_then. intros [msg|].
  - apply yields_mret, writeJSON_plain. unfold writable. lia.
  - destruct (shouldFail cfg r); [|by apply yields_then].
    apply yields_mret, status_plain. unfold writable. lia.
Qed.

Lemma unless_failed_plain r k : yields plain_response k -> yields plain_response (unless_failed cfg r k).
Proof.
  intros Hk. unfold unless_failed, injected_failure. destruct (shouldFail cfg r); [|by apply yields_then].
  apply yields_mret, status_plain. unfold writable. lia.
Qed.

Lemma body_status_writable msg : writable (body_status msg).
Proof. unfold body_status, writable. destruct (contains msg "exceeds"); lia. Qed.

Lemma with_body_plain r k : (forall n, yields plain_response (k n)) -> yields plain_response (with_body r k).
Proof.
  intros Hk. unfold with_body. destruct (consumeRequestBody _ _) as [n [msg|]]; [|apply Hk].
  apply yields_mret, writeJSON_plain, body_status_writable.
Qed.

Lemma timeout_plain r : yields plain_response (handleIntentionalTimeout r).
Proof. unfold handleIntentionalTimeout. apply yields_then. intros _. by apply yields_mret. Qed.

Lemma scenario_code_writable s code : scenario_code s = Some code -> writable code.
Proof.
  unfold scenario_code, writable. destruct (atoi s) as [n|]; [|done]. cbn [mbind option_bind].
  destruct (_ || _) eqn:E; [done|]. intros [= <-]. lia.
Qed.

Lemma redirect_plain location code rsp : plain_response rsp -> plain_response (redirect_to location code rsp).
Proof. unfold redirect_to, with_location. by destruct (_ && _). Qed.

Lemma redirect_clean_plain r path : plain_response (redirect_clean r path).
Proof. split; cbn; [unfold writable; lia|]. by destruct (String.eqb _ _). Qed.

Lemma token_plain r : yields plain_response (handleToken cfg r).
Proof.
  unfold handleToken. apply yields_then. intros start. apply yields_then. intros _.
  apply (yields_bind (fun p : string * response => plain_response p.2)).
  - unfold token_answer. pose proof (token_failure_writable r) as Hs.
    destruct (Z.ltb_spec 0 (effectiveTokenFailureStatus cfg r)) as [Hlt|_].
    { apply yields_mret, writeJSON_plain. destruct Hs as [Hs|Hs]; [lia|done]. }
    destruct (extractTokenRequestCredentials r) as [[[id secret] grant]|e].
    + repeat case_match; try (apply yields_mret, writeJSON_plain; unfold writable; lia).
      apply yields_then. intros t. destruct (issueDummyJWT _ _ _) as [token expiresAt]. apply yields_then. intros t'.
      apply yields_mret, status_plain. unfold writable. lia.
    + apply yields_mret, writeJSON_plain. unfold writable. lia.
  - intros [result rsp] Hrsp. cbn [snd] in Hrsp. do 2 (apply yields_then; intros ?). by apply yields_mret.
Qed.

Lemma http_scenario_plain r s : yields plain_response (handleHTTPScenario cfg r s).
Proof.
  unfold handleHTTPScenario, with_auth. apply yields_then. intros [msg|].
  - apply yields_mret, writeJSON_plain. unfold writable. lia.
  - cbv zeta. destruct (String.eqb _ _); [apply timeout_plain|]. destruct (scenario_code _) as [code|] eqn:E.
    + apply yields_mret, redirect_plain, writeJSON_plain. by eapply scenario_code_writable.
    + apply yields_mret, writeJSON_plain. unfold writable. lia.
Qed.

Lemma token_scenario_plain r s : yields plain_response (handleTokenScenario r s).
Proof.
  unfold handleTokenScenario. cbv zeta. destruct (String.eqb _ _); [apply timeout_plain|].
  destruct (scenario_code _) as [code|] eqn:E.
  - apply yields_mret, redirect_plain, writeJSON_plain. by eapply scenario_code_writable.
  - apply yields_mret, writeJSON_plain. unfold writable. lia.
Qed.

(** Behind the recorder the stream is refused. *)
Lemma sse_plain r : yields plain_response (handleSSE cfg Recorder r).
Proof.
  unfold handleSSE, with_auth. apply yields_then. intros [msg|]; cbn [is_flusher negb];
    apply yields_mret, writeJSON_plain; unfold writable; lia.
Qed.
Lemma mux_rule (Q : dummy response -> Prop) w r :
  Forall (fun rt => forall v q, match_path (rt_path rt) (decoded_segments (rq_segments r)) = Some v -> Q (rt_handler rt v q))
    (dummy_routes cfg promhttp w) ->
  (forall q, Q (handleNotFound cfg q)) -> (forall q, Q (handleCatchAllOK cfg q)) ->
  (forall path, Q (mret (redirect_clean r path) : dummy response)) -> Q (mux cfg promhttp w r).
Proof.
  intros Hr Hn Hc Hredirect. unfold mux. cbv zeta.
  destruct (mux_match cfg promhttp w r _) as [pattern handler] eqn:Em.
  case_bool_decide as Hc'; [|apply Hredirect]. rewrite Hc' in Em. unfold mux_match in Em.
  destruct (first_some _ _) as [found|] eqn:E; simplify_eq; [|destruct (StrictRoutes cfg); [apply Hn|apply Hc]].
  apply first_some_Some in E as (rt & Hin & E). rewrite Forall_forall in Hr. specialize (Hr rt Hin).
  destruct (match_path _ _) as [v|] eqn:Ev; [|done]. cbn [mbind option_bind] in E.
  destruct (method_matches _ _); [|done]. simplify_eq. by apply Hr.
Qed.

Context (prom_plain : forall w, plain_response (promhttp w)).

Lemma create_plain r (next : dummy Z) members :
  yields plain_response (guarded cfg r (with_body r (fun n => id ← next; mret (writeJSON (effectiveStatusCode cfg r 201) (members n id))))).
Proof.
  apply guarded_plain, with_body_plain. intros n. apply yields_then. intros id.
  apply yields_mret, status_plain. unfold writable. lia.
Qed.

Lemma get_plain r members : yields plain_response (guarded cfg r (mret (writeJSON (effectiveStatusCode cfg r 200) members))).
Proof. apply guarded_plain, yields_mret, status_plain. unfold writable. lia. Qed.

Lemma update_plain r members :
  yields plain_response (guarded cfg r (with_body r (fun n => mret (writeJSON (effectiveStatusCode cfg r 200) (members n))))).
Proof. apply guarded_plain, with_body_plain. intros n. apply yields_mret, status_plain. unfold writable. lia. Qed.

Lemma root_plain r : yields plain_response (handleNotFound cfg r) /\ yields plain_response (handleCatchAllOK cfg r).
Proof.
  split; unfold handleNotFound, handleCatchAllOK; apply unless_failed_plain.
  - apply yields_mret, status_plain. unfold writable. lia.
  - destruct (consumeRequestBody _ _) as [n [msg|]]; apply yields_mret.
    + apply writeJSON_plain, body_status_writable.
    + apply status_plain. unfold writable. lia.
Qed.

Lemma stats_plain : yields plain_response handleStats.
Proof. unfold handleStats. do 5 (apply yields_then; intros ?). apply yields_mret. split; cbn; [unfold writable; lia|done]. Qed.

Lemma prom_page_plain : yields plain_response (act (fun w => (promhttp w, w)) : dummy response).
Proof. apply yields_act. intros w. apply yields_ret, prom_plain. Qed.

(** Every route that is not the stream, and the stream behind the recorder. *)
Lemma mux_plain w r : w = Recorder \/ decoded_segments (rq_segments r) <> ["api"; "events"] -> yields plain_response (mux cfg promhttp w r).
Proof.
  intros Hw. apply mux_rule; [|intros q; apply root_plain..|intros path; apply yields_mret, redirect_clean_plain].
  unfold dummy_routes.
  repeat (apply Forall_cons_2; [intros v q Hm; cbn [rt_handler]|]); [..|apply Forall_nil_2];
    first [ apply get_plain | apply create_plain | apply update_plain | apply token_plain | apply token_scenario_plain
          | apply http_scenario_plain | apply stats_plain | apply prom_page_plain | idtac ].
  - apply yields_mret, writeJSON_plain. unfold writable. lia.
  - destruct Hw as [->|Hs]; [apply sse_plain|]. exfalso. apply Hs. cbn [rt_path match_path] in Hm.
    destruct (decoded_segments (rq_segments r)) as [|a [|b [|c l]]]; cbn [match_path] in Hm; [done|by case_match|..];
      (destruct (String.eqb_spec "api" a); [|done]); (destruct (String.eqb_spec "events" b); [|done]); by subst.
Qed.

(** Whatever is requested, the answer has a status that can be written and is
    no event stream: the recorder of the middleware has no method to flush, so
    [handleSSE] always refuses. *)
Lemma serve_plain r : yields plain_response (serve cfg promhttp r).
Proof.
  unfold serve, requestMiddleware. destruct (String.eqb_spec (url_path (r <| rq_Pattern := "" |>)) "/health") as [Hh|_].
  - apply mux_plain. right. intros Hs. cbn in Hs. unfold url_path in Hh. cbn in Hh. rewrite Hs in Hh. discriminate.
  - do 4 (apply yields_then; intros ?). eapply yields_bind; [by apply mux_plain; left|]. intros rsp Hrsp.
    do 4 (apply yields_then; intros ?). by apply yields_mret.
Qed.
End config.

(** ** Counters *)

(** What a handler does to the state: the counters of the middleware stay, and
    so do the metrics it made. *)
Definition handler_metric (m : metric) : Prop :=
  match m with HttpRequests _ _ | HttpResponses _ _ _ | HttpDuration _ _ _ | HttpActive _ => False | _ => True end.

Record handler_step (w w' : DummyWorld) : Prop := mkHandlerStep {
  hs_started : requestsStarted w' = requestsStarted w;
  hs_completed : requestsCompleted w' = requestsCompleted w;
  hs_active : activeRequests w' = activeRequests w;
  hs_metrics : exists extra, dw_metrics w' = dw_metrics w ++ extra /\ Forall handler_metric extra
}.

Lemma handler_step_same w w' : requestsStarted w' = requestsStarted w -> requestsCompleted w' = requestsCompleted w ->
  activeRequests w' = activeRequests w -> dw_metrics w' = dw_metrics w -> handler_step w w'.
Proof. intros E1 E2 E3 E4. split; [done..|]. exists []. by rewrite app_nil_r. Qed.

Lemma follows_now : follows handler_step now.
Proof. apply follows_act. intros w. by apply handler_step_same. Qed.

Lemma follows_sleep d : follows handler_step (sleep d).
Proof. apply follows_act. intros w. cbn. destruct (0 <? d); by apply handler_step_same. Qed.

Lemma follows_emit l : Forall handler_metric l -> follows handler_step (emit l).
Proof. intros Hl. apply follows_act. intros w. split; [done..|]. by exists l. Qed.

Lemma follows_sse d : follows handler_step (add_sse d).
Proof. apply follows_act. intros w. by apply handler_step_same. Qed.

Lemma follows_ids : follows handler_step next_user /\ follows handler_step next_order.
Proof. split; apply follows_act; intros w; by apply handler_step_same. Qed.

Lemma follows_read {A} (f : DummyWorld -> A) : follows handler_step (act (fun w => (f w, w)) : dummy A).
Proof. apply follows_act. intros w. by apply handler_step_same. Qed.

Section counters.
Context (cfg : Config) (promhttp : DummyWorld -> response).

(** Walks through a handler; the actions are the lemmas above. *)
Ltac walk :=
  repeat first
    [ apply follows_mret | apply follows_now | apply follows_sleep | apply follows_sse | apply follows_ids | apply follows_read
    | apply follows_emit; repeat constructor
    | apply follows_bind; [|intros ?]
    | match goal with |- follows _ (match ?x with _ => _ end) => destruct x end ].

Lemma follows_guarded r k : follows handler_step k -> follows handler_step (guarded cfg r k).
Proof.
  intros Hk. unfold guarded, with_auth, unless_failed, maybeRequireAuth, validateBearerToken, delayIfNeeded. walk; exact Hk.
Qed.

Lemma follows_auth r k : follows handler_step k -> follows handler_step (with_auth cfg r k).
Proof. intros Hk. unfold with_auth, maybeRequireAuth, validateBearerToken. walk; exact Hk. Qed.

Lemma follows_unless_failed r k : follows handler_step k -> follows handler_step (unless_failed cfg r k).
Proof. intros Hk. unfold unless_failed, delayIfNeeded. walk; exact Hk. Qed.

Lemma follows_body r k : (forall n, follows handler_step (k n)) -> follows handler_step (with_body r k).
Proof. intros Hk. unfold with_body. walk. apply Hk. Qed.

Lemma follows_loop seq ticks : follows handler_step (sse_loop seq ticks).
Proof.
  revert seq. induction ticks as [|t ticks IH]; intros seq; cbn [sse_loop]; [apply follows_mret|].
  apply follows_bind; [apply follows_emit; by repeat constructor|]. intros _.
  apply follows_bind; [apply IH|]. intros rest. apply follows_mret.
Qed.

Lemma follows_token r : follows handler_step (handleToken cfg r).
Proof. unfold handleToken, token_answer, delayTokenIfNeeded, delayIfNeeded. walk. Qed.

Lemma follows_streams w r : follows handler_step (handleSSE cfg w r).
Proof.
  unfold handleSSE. apply follows_auth. unfold delayIfNeeded.
  repeat first [apply follows_loop | progress walk].
Qed.

Lemma follows_scenarios r s : follows handler_step (handleTokenScenario r s) /\ follows handler_step (handleHTTPScenario cfg r s).
Proof.
  split; [|apply follows_auth]; unfold handleTokenScenario, handleIntentionalTimeout; cbv zeta; walk.
Qed.

Lemma follows_root r : follows handler_step (handleNotFound cfg r) /\ follows handler_step (handleCatchAllOK cfg r).
Proof. split; apply follows_unless_failed; walk. Qed.

Lemma follows_mux w r : follows handler_step (mux cfg promhttp w r).
Proof.
  apply mux_rule; [|intros q; apply follows_root..|intros path; apply follows_mret]. unfold dummy_routes.
  repeat (apply Forall_cons_2; [intros v q _; cbn [rt_handler]|]); [..|apply Forall_nil_2];
    first [ apply follows_token | apply follows_scenarios | apply follows_streams
          | apply follows_guarded; (walk || (apply follows_body; intros n; walk)); fail
          | apply follows_guarded, follows_body; intros n; walk; fail
          | unfold handleHealth, handleStats; walk ].
Qed.
End counters.

Lemma follows_impl {S A} (R R' : S -> S -> Prop) (p : prog S A) :
  (forall s s', R s s' -> R' s s') -> follows R p -> follows R' p.
Proof. intros HR. induction 1; constructor; auto. Qed.

(** Whether the middleware counts a request. *)
Definition counted (r : request) : bool := negb (String.eqb (url_path r) "/health").

Definition number_counted (reqs : list request) : Z := Z.of_nat (length (List.filter counted reqs)).

Section balance.
Context (cfg : Config) (promhttp : DummyWorld -> response).

Definition request_thread (r : request) : prog DummyWorld unit := _ ← serve cfg promhttp r; mret tt.

(** A quantity the handlers leave alone and each step of the middleware changes
    by a known amount. *)
Lemma serve_nets (m : DummyWorld -> Z) (started active done_ : Z) r :
  (forall w w', handler_step w w' -> m w' = m w) ->
  nets m started (add_started 1) -> nets m active (add_active 1) ->
  nets m (- active) (add_active (-1)) -> nets m done_ (add_completed 1) ->
  (forall l, nets m 0 (emit l)) ->
  nets m (if counted r then started + done_ else 0) (request_thread r).
Proof.
  intros Hm Hs Ha Ha' Hd He. unfold request_thread.
  assert (Hmux : forall w q, nets m 0 (mux cfg promhttp w q)).
  { intros w q. apply nets_untouched. eapply follows_impl; [|apply follows_mux]. exact Hm. }
  assert (Hnow : nets m 0 now).
  { apply nets_untouched. eapply follows_impl; [exact Hm|apply follows_now]. }
  match goal with |- nets m ?d _ => replace d with (d + 0) by lia end.
  apply nets_bind; [|intros; apply nets_mret]. unfold serve, requestMiddleware, counted.
  change (url_path (r <| rq_Pattern := "" |>)) with (url_path r).
  destruct (String.eqb (url_path r) "/health"); cbn [negb]; [apply Hmux|].
  replace (started + done_) with (started + (active + (0 + (0 + (0 + (0 + (- active + (done_ + (0 + 0))))))))) by lia.
  repeat (apply nets_bind; [|intros ?]); try done; auto using nets_mret.
Qed.

Lemma nets_threads (m : DummyWorld -> Z) (d : Z) reqs :
  (forall r, nets m (if counted r then d else 0) (request_thread r)) ->
  exists ds, Forall2 (nets m) ds (map request_thread reqs) /\ zsum ds = d * number_counted reqs.
Proof.
  intros Hr. exists (map (fun r => if counted r then d else 0) reqs). split.
  - induction reqs as [|r reqs IH]; constructor; [apply Hr|exact IH].
  - unfold number_counted. induction reqs as [|r reqs IH]; cbn [map zsum foldr List.filter length]; [lia|].
    fold (zsum (map (fun r => if counted r then d else 0) reqs)). rewrite IH. destruct (counted r); cbn [length]; lia.
Qed.

(** Ended: nothing of the request is left to do. *)
Definition ended (p : prog DummyWorld unit) : Prop := exists a, p = Ret a.

(** One action on a counter. *)
Ltac one_step := apply nets_one; intros ?; cbn; rewrite ?i64_idemp; f_equal; lia.

(** C20: however the actions of any requests interleave: once all have ended, the
    requests started and those completed have grown by the number of requests
    that are counted, as 64-bit integers, and the active ones are as many as
    before. *)
Theorem counters_balance reqs choice w :
  let '(ts, w') := sched choice (map request_thread reqs, w) in
  Forall ended ts ->
  i64 (requestsStarted w') = (requestsStarted w ⊞ number_counted reqs) /\
  i64 (requestsCompleted w') = (requestsCompleted w ⊞ number_counted reqs) /\
  i64 (activeRequests w') = i64 (activeRequests w).
Proof.
  destruct (sched choice (map request_thread reqs, w)) as [ts w'] eqn:E. intros He.
  assert (Hend : forall (m : DummyWorld -> Z) d, (forall r, nets m (if counted r then d else 0) (request_thread r)) ->
    i64 (m w') = i64 (m w + d * number_counted reqs)).
  { intros m d Hr. destruct (nets_threads m d reqs Hr) as (ds & Hds & <-).
    pose proof (sched_nets_end m choice (map request_thread reqs : threads DummyWorld) ds w Hds) as Hn.
    change (sched choice (map request_thread reqs : threads DummyWorld, w) = (ts, w')) in E. rewrite E in Hn. by apply Hn. }
  split_and!.
  - rewrite (Hend requestsStarted 1); [f_equal; lia|]. intros r.
    apply (serve_nets requestsStarted 1 0 0); [by intros ? ? []|one_step..|]. intros l. one_step.
  - rewrite (Hend requestsCompleted 1); [f_equal; lia|]. intros r.
    apply (serve_nets requestsCompleted 0 0 1); [by intros ? ? []|one_step..|]. intros l. one_step.
  - rewrite (Hend activeRequests 0); [f_equal; lia|]. intros r.
    apply (serve_nets activeRequests 0 1 0); [by intros ? ? []|one_step..|]. intros l. one_step.
Qed.

(** ** Labels *)

Definition unlabelled (m : metric) : Prop :=
  match m with
  | HttpRequests _ route | HttpResponses _ route _ | HttpDuration _ route _ => route = "unmatched"
  | _ => True
  end.

Definition metrics_unlabelled (w : DummyWorld) : Prop := Forall unlabelled (dw_metrics w).

Lemma serve_unlabelled r : follows (keeps metrics_unlabelled) (request_thread r).
Proof.
  assert (Hk : forall A (p : dummy A), follows handler_step p -> follows (keeps metrics_unlabelled) p).
  { intros A p. apply follows_impl. intros w1 w2 [_ _ _ (extra & E & Hx)] H1. unfold metrics_unlabelled. rewrite E.
    apply Forall_app. split; [exact H1|]. eapply Forall_impl; [exact Hx|]. by intros []. }
  assert (He : forall l, Forall unlabelled l -> follows (keeps metrics_unlabelled) (emit l)).
  { intros l Hl. apply follows_act. intros w1 H1. by apply Forall_app. }
  assert (Hc : forall m : ST DummyWorld Z, (forall w, dw_metrics (m w).2 = dw_metrics w) -> follows (keeps metrics_unlabelled) (act m)).
  { intros m Hm. apply follows_act. intros w1 H1. unfold metrics_unlabelled. by rewrite Hm. }
  unfold request_thread, serve, requestMiddleware. apply follows_bind; [|intros; apply follows_mret].
  destruct (String.eqb _ _); [apply Hk, follows_mux|]. change (routeLabel (r <| rq_Pattern := "" |>)) with "unmatched".
  repeat (apply follows_bind; [|intros ?]); try apply follows_mret;
    first [ apply Hk, follows_mux | apply Hk, follows_now | apply He; by repeat constructor | by apply Hc ].
Qed.

(** In every interleaving every request is answered with a status [net/http]
    can write and never with an event stream, and all requests are counted
    under the label "unmatched": the label is taken before the mux has matched
    the request. *)
Theorem service_outcome reqs choice w :
  (forall w, plain_response (promhttp w)) -> metrics_unlabelled w ->
  metrics_unlabelled (sched choice (map request_thread reqs, w)).2 /\
  Forall (fun r => yields plain_response (serve cfg promhttp r)) reqs.
Proof.
  intros Hp Hw. split.
  - apply (sched_follows (keeps metrics_unlabelled)); [|done]. apply Forall_forall.
    intros p (r & -> & _)%list_elem_of_fmap. apply serve_unlabelled.
  - apply Forall_forall. intros r _. by apply serve_plain.
Qed.
End balance.
