(* ===== verification/DummyFlow.v ===== *)
(** * The target service: a client that signs in, and runs

    The credentials a client sends are read as they were sent; the token it is
    given admits it until it expires; and concrete requests, among them those
    that show where the service answers with another status than it means to. *)

From stdpp Require Import pretty.
From S2P Require Import Duration EnvFileSpec Sha256 Base64 JsonText Secrets Templates.
From S2P Require Export DummySpec.

Open Scope Z_scope.
Open Scope go_scope.

(** ** Basic credentials *)

Lemma first_visible c s : visible c = true -> lead_space (String c s) = false /\ lead_space_rev (String c s) = false.
Proof.
  intros Hc. destruct (visible_not_space _ Hc) as (E1 & E2 & E3).
  destruct s as [|b [|d s]]; cbn [lead_space lead_space_rev]; rewrite E1; [done|..]; rewrite (proj1 (E2 _)), (proj2 (E2 _)); [done|].
  by rewrite (proj1 (E3 _ _)), (proj2 (E3 _ _)).
Qed.

Lemma header_not_blank prefix c s : starts_with visible prefix = true -> all_visible (String c s) ->
  blank (prefix +:+ String c s) = false.
Proof.
  intros Hp Hv. unfold blank. rewrite trim_space_fixed.
  - destruct prefix; [done|reflexivity].
  - destruct prefix as [|a prefix]; [done|]. by apply first_visible.
  - rewrite string_rev_app. assert (Hr : all_visible (string_rev (String c s))).
    { unfold all_visible, string_rev in *. by rewrite String.list_ascii_of_string_of_list_ascii, Forall_reverse. }
    destruct (string_rev (String c s)) as [|d t] eqn:E.
    + apply (f_equal string_rev) in E. by rewrite string_rev_involutive in E.
    + unfold all_visible in Hr. cbn in Hr. inversion Hr; subst. by apply first_visible.
Qed.

Definition basic_header (id secret : string) : string :=
  basic_prefix +:+ EncodeToString StdEncoding (id +:+ String (chr 58) secret).

Lemma basic_read id secret : lacks (chr 58) id ->
  extractBasicAuthCredentials (basic_header id secret) = Ok (Some (trim_space id, trim_space secret)).
Proof.
  intros Hid. unfold extractBasicAuthCredentials, basic_header.
  set (enc := EncodeToString StdEncoding (id +:+ String (chr 58) secret)).
  assert (Hv : all_visible enc) by apply b64_visible, encode_text, _.
  assert (Hne : enc <> "") by (apply encode_nonempty; [apply _|by destruct id]).
  destruct enc as [|c s] eqn:E; [done|]. rewrite header_not_blank by done.
  change (Duration.strip_prefix basic_prefix (basic_prefix +:+ String c s)) with (Some (String c s)). cbv iota beta zeta.
  rewrite trim_all_visible by done. cbn [String.eqb]. rewrite <- E. unfold enc.
  rewrite (Base64.decode_encode StdEncoding), split_first_lacks by done. reflexivity.
Qed.

(** ** The token a client is given *)

Section flow.
Context (cfg : Config).

(** The client of the settings: what [loadConfig] leaves (trimmed, not empty),
    and an identifier that fits the Basic scheme. *)
Record client_ok : Prop := mkClientOk {
  cl_id : trim_space (AuthClientID cfg) = AuthClientID cfg /\ AuthClientID cfg <> "";
  cl_secret : trim_space (AuthClientSecret cfg) = AuthClientSecret cfg /\ AuthClientSecret cfg <> "";
  cl_colon : lacks (chr 58) (AuthClientID cfg)
}.

(** A token request of this client that no query makes fail. *)
Record token_request (r : request) : Prop := mkTokenRequest {
  tr_header : rq_Authorization r = basic_header (AuthClientID cfg) (AuthClientSecret cfg);
  tr_form : exists form, ParseForm r = (form, None) /\
    (form_or_query r form "grant_type" = "" \/ form_or_query r form "grant_type" = "client_credentials");
  tr_succeeds : effectiveTokenFailureStatus cfg r = 0
}.

Lemma credentials_read r : client_ok -> token_request r ->
  extractTokenRequestCredentials r = Ok (AuthClientID cfg, AuthClientSecret cfg, "client_credentials").
Proof.
  intros [[Hi Hi'] [Hs Hs'] Hc] [Hh (form & Hf & Hg) _]. unfold extractTokenRequestCredentials.
  rewrite Hh, basic_read, Hi, Hs, Hf by done. cbv zeta. rewrite (proj2 (String.eqb_neq _ _) Hi'), (proj2 (String.eqb_neq _ _) Hs').
  by destruct Hg as [-> | ->].
Qed.

(** The time the token is issued at: the request's delay has passed. *)
Definition issue_time (r : request) (w : DummyWorld) : Time := dw_now (run (delayTokenIfNeeded cfg r) w).2.

Lemma issue_utc subject t : (issueDummyJWT cfg subject (to_utc t)).1 = (issueDummyJWT cfg subject t).1.
Proof. unfold issueDummyJWT, issued_claims, to_utc, in_loc, unix_sec, add. reflexivity. Qed.

(** With its credentials a client is given a token, and with the token it is
    admitted from the second the token was issued in until the second it
    expires in, to every resource, and not later. *)
Theorem token_admits r w :
  client_ok -> token_request r -> claims_ok (issued_claims cfg (AuthClientID cfg) (issue_time r w)) ->
  0 <= unix_sec (issue_time r w) -> Second <= AuthTokenTTL cfg -> RequireAuth cfg = true ->
  let expires := unix_sec (add (issue_time r w) (AuthTokenTTL cfg)) in
  exists token rest,
    (run (handleToken cfg r) w).1 =
      writeJSON (effectiveStatusCode cfg r 200) (("access_token", JStr token) :: ("token_type", JStr "Bearer") :: rest) /\
    forall r' w', rq_Authorization r' = bearer_prefix +:+ token ->
      (run (maybeRequireAuth cfg r') w').1 =
        if expires <=? unix_sec (dw_now w') then Some "Bearer token expired"
        else if (0 <? unix_sec (issue_time r w)) && (unix_sec (dw_now w') <? unix_sec (issue_time r w))
             then Some "Bearer token not valid yet" else None.
Proof.
  intros Hc Hr Hok Hn Httl Ha expires. pose proof (credentials_read r Hc Hr) as Hx. destruct Hr as [_ _ Hs].
  set (w0 := (run (delayTokenIfNeeded cfg r) w).2).
  assert (E : run (delayTokenIfNeeded cfg r) w = (tt, w0)) by (unfold w0; by destruct (run _ w) as [[] ?]).
  exists (issueDummyJWT cfg (AuthClientID cfg) (issue_time r w)).1. eexists. split.
  - unfold handleToken. rewrite run_bind. unfold now at 1. rewrite run_act. rewrite run_bind, E, run_bind.
    unfold token_answer. rewrite Hs, Hx, !String.eqb_refl. cbn [negb orb Z.ltb Z.compare]. unfold now.
    rewrite run_bind, run_act. rewrite (surjective_pairing (issueDummyJWT cfg (AuthClientID cfg) (to_utc (dw_now w0)))), issue_utc.
    unfold issue_time. fold w0. reflexivity.
  - intros r' w' Hr'. unfold maybeRequireAuth, validateBearerToken. rewrite Ha, Hr'. cbn [negb].
    rewrite run_bind. unfold now. rewrite run_act. rewrite bearer_issued, parse_issued by done.
    assert (Hexp : Exp (token_claims cfg (AuthClientID cfg) (issue_time r w)) = expires) by reflexivity. rewrite !Hexp.
    assert (Hpos : 0 < expires).
    { unfold expires, unix_sec, add in *. cbn [unix_ns]. unfold Second in *. Z.div_mod_to_equations. lia. }
    destruct (Z.eqb_spec expires 0); [lia|].
    destruct (expires <=? _); [reflexivity|]. by destruct (_ && _).
Qed.
End flow.

(** ** Statuses under the default settings *)

(** The default status lies between 100 and 999 unless the settings say
    otherwise, so without a status in the query it is the status of every
    response: the fallback of a failure, of a creation, of a route that does not
    exist is never used. *)
Lemma default_status_masks env r fallback :
  Getenv env "DEFAULT_STATUS_CODE" = "" -> query_get r "status" = "" ->
  effectiveStatusCode (loadConfig env) r fallback = 200.
Proof.
  intros He Hq. unfold effectiveStatusCode, query_int. rewrite Hq. cbn [String.eqb].
  assert (DefaultStatusCode (loadConfig env) = 200) as ->; [|reflexivity].
  unfold loadConfig. cbn [DefaultStatusCode]. unfold getEnvInt, getEnvAs. by rewrite He.
Qed.

(** A simulated failure is answered with 200, that of the token endpoint and
    that of every resource. *)
Theorem simulated_failure_succeeds env r w :
  Getenv env "DEFAULT_STATUS_CODE" = "" -> query_get r "status" = "" -> fail_flag r = Some true ->
  rs_code (run (handleToken (loadConfig env) r) w).1 = Some 200 /\
  forall k, rs_code (run (unless_failed (loadConfig env) r k) w).1 = Some 200.
Proof.
  intros He Hq Hf. assert (Hs : shouldFail (loadConfig env) r = true) by (unfold shouldFail; by rewrite Hf). split.
  - assert (Ht : effectiveTokenFailureStatus (loadConfig env) r = 200).
    { unfold effectiveTokenFailureStatus, query_int. rewrite Hq. cbn [String.eqb].
      assert (String.eqb (query_get r "fail") "" = false) as ->.
      { unfold fail_flag in Hf. by destruct (String.eqb _ _). }
      rewrite Hs. cbn [negb andb]. by apply default_status_masks. }
    unfold handleToken. rewrite run_bind. unfold now at 1. rewrite run_act, run_bind.
    destruct (run (delayTokenIfNeeded _ r) w) as [[] w0]. unfold token_answer. rewrite Ht. reflexivity.
  - intros k. unfold unless_failed, injected_failure. rewrite Hs, default_status_masks by done. reflexivity.
Qed.

(** ** Runs *)

Definition plain_page (w : DummyWorld) : response := mkResponse (Some 200) [] BNone.

Definition start : Time := mkTime (1700000000 * Second) UTC.
Definition fresh : DummyWorld := dummy_init start.

Definition asking (method : string) (segments : list string) (query : string) : request :=
  mkRequest method segments query "" ("application/octet-stream", None) (Some (mkBody "" None)) "" [] None.

Definition answer (cfg : Config) (r : request) : response := (run (serve cfg plain_page r) fresh).1.

(** Where the status is another than the code means to answer: a simulated
    failure, a creation, an unknown route under strict routes, a failed token
    request, and an informational status. *)
Example statuses :
  let strict := loadConfig {["STRICT_ROUTES" := "true"]} in
  map (fun r => wire_status (answer default_config r))
    [ asking "GET" ["api"; "products"] "fail=1"; asking "POST" ["api"; "users"] "";
      asking "GET" ["api"; "auth"; "token"] "fail=yes"; asking "GET" ["test"; "http"; "102"] "";
      asking "GET" ["test"; "http"; "503"] ""; asking "GET" ["api"; "events"] "" ] = [200; 200; 200; 200; 503; 500] /\
  wire_status (answer strict (asking "GET" ["nothing"] "")) = 200 /\
  recorded_status (answer default_config (asking "GET" ["test"; "http"; "102"] "")) = 102 /\
  rs_body (answer default_config (asking "GET" ["api"; "events"] "")) = BJson (JObj [("error", JStr "streaming not supported")]).
Proof. vm_compute. split_and!; reflexivity. Qed.

(** Paths that are not clean are redirected, and counted all the same; an escaped
    dot is no dot, and a path is escaped once more on the way. *)
Example redirects :
  let location r := (fun f => f.2) <$> find (fun f => String.eqb f.1 "Location") (rs_headers (answer default_config r)) in
  map location
    [ asking "GET" [""; "api"; "users"] ""; asking "GET" ["api"; "."; "x"; ".."; "users"; ""] "a=1";
      asking "POST" ["a%20b"; ".."; "c%20d"; "."] ""; asking "GET" ["api"; "users"] ""; asking "GET" ["%2e%2e"] "" ] =
  [Some "/api/users"; Some "/api/users/?a=1"; Some "/c%2520d"; None; None] /\
  (answer default_config (asking "GET" [""; "api"; "users"] "")) =
    mkResponse (Some 301) [("Location", "/api/users"); ("Content-Type", "text/html; charset=utf-8")]
      (BHtml (quoted "<a href='/api/users'>Moved Permanently</a>." +:+ newline +:+ newline)) /\
  i64 (requestsCompleted (run (serve default_config plain_page (asking "GET" [""; "api"; "users"] "")) fresh).2) = 1.
Proof. vm_compute. split_and!; reflexivity. Qed.

(** A stream whose writer could flush. *)
Example stream_ex :
  let r := (asking "GET" ["api"; "events"] "") <| rq_ticks := [add start Second; add start (2 * Second)] |> in
  rs_body (run (handleSSE default_config ServerWriter r) fresh).1 =
  BStream ["retry: 3000" +:+ newline +:+ "event: ready" +:+ newline +:+ quoted "data: {'status':'connected'}" +:+ newline +:+ newline;
    "id: 1" +:+ newline +:+ "event: tick" +:+ newline +:+ quoted "data: {'seq':1,'ts':'2023-11-14T22:13:21Z','value':37.37}" +:+ newline +:+ newline;
    "id: 2" +:+ newline +:+ "event: tick" +:+ newline +:+ quoted "data: {'seq':2,'ts':'2023-11-14T22:13:22Z','value':74.37}" +:+ newline +:+ newline].
Proof. vm_compute. reflexivity. Qed.

(** Delays: a fixed one, the middle of a range, and a number that overflows. *)
Example delays :
  map (fun q => effectiveDelay default_config (asking "GET" [] q))
    ["delay_ms=25"; "min_delay_ms=10&max_delay_ms=20"; "delay_ms=-1"; "max_delay_ms=7"; "delay_ms=9223372036854775807"]
  = [25 * Millisecond; 15 * Millisecond; 0; 3500000; -1000000].
Proof. vm_compute. reflexivity. Qed.

Example probabilities :
  deterministicProbability "GET|/api/products|" = f_div (f_of_Z 9366) (f_of_Z 10000) /\
  map (fun q => shouldFail default_config (asking "GET" ["api"; "products"] q))
    ["error_rate=1"; "error_rate=0.5"; "error_rate=NaN"; "error_rate=2"; "fail=off&error_rate=1"; "fail=maybe"]
  = [true; true; false; true; false; false].
Proof. vm_compute. split; reflexivity. Qed.

(** ** Witnesses *)

Definition two_requests : list request := [asking "POST" ["api"; "users"] ""; asking "GET" ["health"] ""].

Definition both_served : list nat := repeat 0%nat 40 ++ repeat 1%nat 40.

Lemma counters_balance_witness :
  let '(ts, w') := sched both_served (map (request_thread default_config plain_page) two_requests, fresh) in
  Forall ended ts /\ i64 (requestsStarted w') = 1.
Proof.
  pose proof (counters_balance default_config plain_page two_requests both_served fresh) as H.
  destruct (sched both_served (map (request_thread default_config plain_page) two_requests, fresh)) as [ts w'] eqn:E.
  assert (He : Forall ended ts).
  { apply (f_equal fst) in E. cbn [fst] in E. rewrite <- E. vm_compute.
    repeat (apply Forall_cons_2; [by exists tt|]). apply Forall_nil_2. }
  split; [exact He|]. destruct (H He) as [-> _]. vm_compute. reflexivity.
Defined.

Lemma service_outcome_witness :
  metrics_unlabelled fresh /\
  Forall (fun r => yields plain_response (serve default_config plain_page r)) two_requests.
Proof.
  assert (H0 : metrics_unlabelled fresh) by constructor. split; [exact H0|].
  refine (proj2 (service_outcome default_config plain_page two_requests both_served fresh _ H0)).
  intros w. split; cbn; [unfold writable; lia|done].
Defined.

Lemma simulated_failure_succeeds_witness :
  fail_flag (asking "GET" ["api"; "products"] "fail=1") = Some true /\
  rs_code (run (handleToken (loadConfig ∅) (asking "GET" ["api"; "products"] "fail=1")) fresh).1 = Some 200.
Proof.
  split; [vm_compute; reflexivity|].
  apply (simulated_failure_succeeds ∅ (asking "GET" ["api"; "products"] "fail=1") fresh); vm_compute; reflexivity.
Defined.

Definition closed_config : Config := loadConfig {["REQUIRE_AUTH" := "true"]}.

Definition sign_in : request :=
  (asking "POST" ["api"; "auth"; "token"] "") <| rq_Authorization := basic_header "dummy-client" "dummy-secret" |>.

Lemma plain_utf8 (s : string) : forallb (fun c => byte_of c <? 128) (String.list_ascii_of_string s) = true -> utf8 s.
Proof.
  intros Hf. apply utf8_plain. unfold plain_text. apply Forall_forall. intros c Hc.
  rewrite forallb_forall in Hf. apply Z.ltb_lt, Hf, list_elem_of_In, Hc.
Qed.

Lemma closed_client : client_ok closed_config.
Proof.
  split; [vm_compute; split; [reflexivity|discriminate]..|].
  assert (AuthClientID closed_config = "dummy-client") as -> by (vm_compute; reflexivity).
  unfold lacks. repeat constructor; discriminate.
Qed.

Lemma sign_in_ok : token_request closed_config sign_in.
Proof.
  split; [vm_compute; reflexivity| |vm_compute; reflexivity]. exists []. split; [vm_compute; reflexivity|].
  left. vm_compute. reflexivity.
Qed.

Lemma token_admits_witness :
  exists token, forall r' w', rq_Authorization r' = bearer_prefix +:+ token -> dw_now w' = add start (299 * Second) ->
    (run (maybeRequireAuth closed_config r') w').1 = None.
Proof.
  assert (Hi : issue_time closed_config sign_in fresh = start) by (vm_compute; reflexivity).
  assert (Ht : AuthTokenTTL closed_config = 300 * Second) by (vm_compute; reflexivity).
  destruct (token_admits closed_config sign_in fresh closed_client sign_in_ok) as (token & rest & _ & Ha).
  - rewrite Hi. unfold claims_ok, issued_claims. rewrite Ht.
    assert (AuthIssuer closed_config = "dummy-service") as -> by (vm_compute; reflexivity).
    assert (AuthClientID closed_config = "dummy-client") as -> by (vm_compute; reflexivity).
    split_and!; try (apply plain_utf8; reflexivity); vm_compute; done.
  - rewrite Hi. vm_compute. done.
  - rewrite Ht. vm_compute. done.
  - vm_compute. reflexivity.
  - exists token. intros r' w' Hr Hw. rewrite (Ha r' w' Hr), Hi, Ht, Hw. vm_compute. reflexivity.
Defined.
