(* ===== verification/ScriptToken.v ===== *)
(** * The request for a token, and who reads it

    The headers and the body with which the script of a builder test asks for a
    token ([buildTokenRequest] in
    [controller/internal/scriptgen/scriptgen.go]), and the theorem that the
    target service finds the credentials in them. *)

From S2P Require Export Prelude GoStrings Json JsonOut.
From S2P Require Import ScriptPayload ScriptAuth JsonText Base64 Environment Dummy DummyToken DummyServe DummyFlow.

Open Scope Z_scope.
Open Scope go_scope.

(** ** The request *)

(** Letters, digits and [-_.!~*'()]. *)
Definition uri_mark (c : Ascii.ascii) : bool :=
  let b := byte_of c in
  between 48 57 c || between 65 90 c || between 97 122 c || existsb (Z.eqb b) [45; 95; 46; 33; 126; 42; 39; 40; 41].

Definition upper_hex (z : Z) : Ascii.ascii := if z <? 10 then chr (48 + z) else chr (55 + z).

(** On the bytes of the text. *)
Fixpoint encodeURIComponent (s : string) : string :=
  match s with
  | EmptyString => ""
  | String c s =>
    if uri_mark c then String c (encodeURIComponent s)
    else String (chr 37) (String (upper_hex (byte_of c / 16)) (String (upper_hex (byte_of c mod 16)) (encodeURIComponent s)))
  end.

Record TokenRequest := mkTokenRequestOf { tq_headers : list (string * string); tq_body : string }.

Definition buildTokenRequest (AUTH_CLIENT_AUTH_METHOD AUTH_CLIENT_ID AUTH_CLIENT_SECRET : string) : TokenRequest :=
  let headers := [("Accept", "application/json"); ("Content-Type", "application/x-www-form-urlencoded")] in
  let body := "grant_type=client_credentials" in
  if String.eqb AUTH_CLIENT_AUTH_METHOD "basic" then
    mkTokenRequestOf (headers ++ [("Authorization", "Basic " +:+ EncodeToString StdEncoding (AUTH_CLIENT_ID +:+ ":" +:+ AUTH_CLIENT_SECRET))]) body
  else
    mkTokenRequestOf headers
      (body +:+ "&client_id=" +:+ encodeURIComponent AUTH_CLIENT_ID +:+ "&client_secret=" +:+ encodeURIComponent AUTH_CLIENT_SECRET).

(** The headers of a request to the target; none when there is nothing to say. *)
Definition buildRequestParams (REQUEST_BODY CONTENT_TYPE authHeader : string) : option (list (string * string)) :=
  let headers :=
    (if String.eqb REQUEST_BODY "" then [] else [("Content-Type", CONTENT_TYPE)]) ++
    (if String.eqb authHeader "" then [] else [("Authorization", authHeader)]) in
  match headers with [] => None | _ => Some headers end.

Definition header_of (headers : list (string * string)) (name : string) : string := values_get name headers.

(** A request as it arrives: a post with the headers and the body. *)
Definition arrives (q : TokenRequest) (r : request) : Prop :=
  rq_Method r = "POST" /\ rq_Authorization r = header_of (tq_headers q) "Authorization" /\
  rq_media r = (header_of (tq_headers q) "Content-Type", None) /\ rq_RawQuery r = "" /\
  exists b, rq_Body r = Some b /\ b_text b = tq_body q /\ b_error b = None.

(** ** Escapes *)

Lemma upper_hex_val z : 0 <= z < 16 -> hex_val (upper_hex z) = Some z.
Proof.
  intros Hz. unfold upper_hex, hex_val. destruct (Z.ltb_spec z 10); rewrite byte_chr by lia.
  - destruct (Z.leb_spec 48 (48 + z)), (Z.leb_spec (48 + z) 57); try lia. cbn [andb]. f_equal. lia.
  - destruct (Z.leb_spec (55 + z) 57); [lia|]. rewrite andb_false_r.
    destruct (Z.leb_spec 97 (55 + z)); [lia|]. cbn [andb].
    destruct (Z.leb_spec 65 (55 + z)), (Z.leb_spec (55 + z) 70); try lia. cbn [andb]. f_equal. lia.
Qed.

Lemma uri_mark_bytes c : uri_mark c = true -> byte_of c <> 37 /\ byte_of c <> 38 /\ byte_of c <> 43 /\ byte_of c <> 59 /\ byte_of c <> 61.
Proof.
  unfold uri_mark, between. cbn [existsb]. rewrite !orb_true_iff, !andb_true_iff, !Z.leb_le, !Z.eqb_eq. lia.
Qed.

(** What was escaped is read back. *)
Lemma query_unescape_encode s : query_unescape (encodeURIComponent s) = Some s.
Proof.
  induction s as [|c s IH]; [done|]. cbn [encodeURIComponent]. destruct (uri_mark c) eqn:E.
  - apply uri_mark_bytes in E as (H1 & _ & H2 & _). cbn [query_unescape].
    rewrite (proj2 (Z.eqb_neq _ 37)), (proj2 (Z.eqb_neq _ 43)), IH by done. done.
  - cbn [query_unescape]. change (byte_of (chr 37) =? 37) with true. cbn iota.
    pose proof (EnvFileSpec.byte_of_range c). rewrite !upper_hex_val by (Z.div_mod_to_equations; lia).
    rewrite IH. cbn. do 2 f_equal. rewrite <- (EnvFileSpec.chr_byte_of c) at 3. f_equal. Z.div_mod_to_equations. lia.
Qed.

Lemma encoded_lacks c s : uri_mark c = false -> c <> chr 37 -> (forall z, 0 <= z < 16 -> upper_hex z <> c) ->
  lacks c (encodeURIComponent s).
Proof.
  intros Hm Hp Hh. induction s as [|d s IH]; [constructor|]. cbn [encodeURIComponent].
  pose proof (EnvFileSpec.byte_of_range d). destruct (uri_mark d) eqn:E.
  - apply lacks_cons. split; [|done]. intros ->. congruence.
  - rewrite !lacks_cons. split_and!; [congruence|apply Hh|apply Hh|done]; Z.div_mod_to_equations; lia.
Qed.

Lemma upper_hex_byte z : 0 <= z < 16 -> 48 <= byte_of (upper_hex z) <= 57 \/ 65 <= byte_of (upper_hex z) <= 70.
Proof. intros Hz. unfold upper_hex. destruct (Z.ltb_spec z 10); rewrite byte_chr by lia; lia. Qed.

(** The bytes a form is split at do not stand in an escaped value. *)
Lemma encoded_separators s : lacks (chr 38) (encodeURIComponent s) /\ lacks (chr 59) (encodeURIComponent s).
Proof.
  split; (apply encoded_lacks; [reflexivity|discriminate|]); intros z Hz E; pose proof (upper_hex_byte z Hz) as H;
    rewrite E, byte_chr in H by lia; lia.
Qed.

Lemma query_part_encoded key value : lacks (chr 61) key -> lacks (chr 59) key -> query_unescape key = Some key ->
  query_part (key +:+ String (chr 61) (encodeURIComponent value)) = Some (Ok (key, value)).
Proof.
  intros He Hs Hk. unfold query_part.
  change ";" with (String (chr 59) ""). rewrite contains_lacks.
  2: { apply lacks_app. split; [done|]. apply lacks_cons. split; [discriminate|apply encoded_separators]. }
  assert (Hne : String.eqb (key +:+ String (chr 61) (encodeURIComponent value)) "" = false) by by destruct key.
  by rewrite Hne, split_first_lacks, Hk, query_unescape_encode by done.
Qed.

(** The form of a request that carries its credentials in the body. *)
Lemma form_read id secret :
  ParseQuery ("grant_type=client_credentials" +:+ "&client_id=" +:+ encodeURIComponent id +:+ "&client_secret=" +:+ encodeURIComponent secret) =
  ([("grant_type", "client_credentials"); ("client_id", id); ("client_secret", secret)], None).
Proof.
  unfold ParseQuery.
  assert (Hl : forall key s, lacks (chr 38) key -> lacks (chr 38) (key +:+ encodeURIComponent s))
    by (intros key s Hk; apply lacks_app; split; [done|apply encoded_separators]).
  change ("grant_type=client_credentials" +:+ "&client_id=" +:+ encodeURIComponent id +:+ "&client_secret=" +:+ encodeURIComponent secret)
    with ("grant_type=client_credentials" +:+ String (chr 38) ("client_id=" +:+ encodeURIComponent id +:+ String (chr 38) ("client_secret=" +:+ encodeURIComponent secret))).
  rewrite split_on_lacks by (unfold lacks; repeat constructor; discriminate).
  rewrite <- (string_app_assoc "client_id="), split_on_lacks by (apply Hl; unfold lacks; repeat constructor; discriminate).
  rewrite split_on_alone by (apply Hl; unfold lacks; repeat constructor; discriminate).
  cbn [query_parts].
  change ("client_secret=" +:+ encodeURIComponent secret) with ("client_secret" +:+ String (chr 61) (encodeURIComponent secret)).
  change ("client_id=" +:+ encodeURIComponent id) with ("client_id" +:+ String (chr 61) (encodeURIComponent id)).
  rewrite !query_part_encoded by (reflexivity || (unfold lacks; repeat constructor; discriminate)). reflexivity.
Qed.

(** C37: the target service reads from a script's request for a token the client
    and the secret of the script's settings, whether they are sent in the
    header or in the form, when neither is empty or has space around it, the
    body is at most 1 MiB, and an identifier that is sent in the header has no
    colon; any other characters they may have. *)
Theorem credentials_arrive method id secret r :
  arrives (buildTokenRequest method id secret) r ->
  trim_space id = id -> id <> "" -> trim_space secret = secret -> secret <> "" ->
  (method = "basic" -> lacks (chr 58) id) ->
  str_len (tq_body (buildTokenRequest method id secret)) <= Z.shiftl 10 20 ->
  extractTokenRequestCredentials r = Ok (id, secret, "client_credentials").
Proof.
  intros (Hm & Ha & Ht & Hq & b & Hb & Htext & Herr) Hi Hi' Hs Hs' Hcolon Hlen. unfold extractTokenRequestCredentials.
  assert (Hform : forall form, ParseQuery (tq_body (buildTokenRequest method id secret)) = (form, None) -> ParseForm r = (form, None)).
  { intros form E. unfold ParseForm, post_form. rewrite Hm, Hb, Ht, Hq, Htext, Herr. cbn [existsb String.eqb Ascii.eqb Bool.eqb orb].
    assert (Hc : header_of (tq_headers (buildTokenRequest method id secret)) "Content-Type" = "application/x-www-form-urlencoded")
      by (unfold buildTokenRequest; by destruct (String.eqb method "basic")).
    rewrite Hc. cbn [String.eqb Ascii.eqb Bool.eqb]. rewrite (proj2 (Z.ltb_ge _ _) Hlen), E.
    change (ParseQuery "") with (@nil (string * string), @None string). cbv iota beta. by rewrite app_nil_r. }
  rewrite Ha. unfold buildTokenRequest in *. destruct (String.eqb_spec method "basic") as [->|Hne]; cbn [tq_headers tq_body] in *.
  - rewrite (Hform [("grant_type", "client_credentials")]) by reflexivity.
    change (header_of _ "Authorization") with (basic_header id secret). rewrite basic_read, Hi, Hs by auto.
    change (form_or_query r [("grant_type", "client_credentials")] "grant_type") with "client_credentials". cbv zeta.
    rewrite !(proj2 (String.eqb_neq id "") Hi'), !(proj2 (String.eqb_neq secret "") Hs'). reflexivity.
  - rewrite (Hform _ (form_read id secret)). unfold form_or_query, query_get. rewrite Hq.
    change (extractBasicAuthCredentials (header_of _ "Authorization")) with (@Ok (option (string * string)) None).
    cbn [values_get String.eqb Ascii.eqb Bool.eqb]. rewrite Hi, Hs. change (trim_space "client_credentials") with "client_credentials". cbv zeta.
    rewrite !(proj2 (String.eqb_neq id "") Hi'), !(proj2 (String.eqb_neq secret "") Hs'). reflexivity.
Qed.

(** ** A request in the form *)

Definition form_request : request :=
  (asking "POST" ["api"; "auth"; "token"] "")
    <| rq_media := ("application/x-www-form-urlencoded", None) |>
    <| rq_Body := Some (mkBody (tq_body (buildTokenRequest "post" "shop & co" "p%s=;ss+")) None) |>.

Lemma credentials_arrive_witness :
  extractTokenRequestCredentials form_request = Ok ("shop & co", "p%s=;ss+", "client_credentials").
Proof.
  apply (credentials_arrive "post" "shop & co" "p%s=;ss+"); [|reflexivity|discriminate|reflexivity|discriminate|discriminate|].
  - split_and!; try (vm_compute; reflexivity). eexists. split_and!; [reflexivity|reflexivity|reflexivity].
  - vm_compute. discriminate.
Defined.
