(* ===== verification/WorkerClient.v ===== *)
(** * The client of a worker: worker.go

    The requests the controller sends to the REST API of k6 and what it makes
    of the answers: the status, a patch of it, and the metrics in either of two
    formats.  The exchange itself is the environment: how it failed, or the
    status code and the text received.  The texts of the decoder's errors are
    left out of the errors. *)

From S2P Require Export Prelude GoStrings Json JsonOut Model Orchestrator.
From S2P Require Import JsonText.

Open Scope Z_scope.
Open Scope go_scope.

(** ** Exchanges *)

(** What [http.NewRequest] and [client.Do] yield: no request, no response, or
    a response. *)
Inductive exchange :=
  | NoRequest (error : string)
  | NoResponse (error : string)
  | Response (code : Z) (text : string).

(** What [encoding/json] says of a text it cannot decode into a type. *)
Class DecodeErrors := decode_error : string -> string -> string.

(** ** Decoding *)

(** [json.NewDecoder(r).Decode]: the first value of the text; what follows it
    is not looked at. *)
Fixpoint scan_first (m : mode) (stack : list frame) (s : string) : option json :=
  match s with
  | EmptyString => match m, stack with
                   | MDone v, [] => Some v
                   | _, _ => None
                   end
  | String c s' =>
    match m, stack with
    | MDone v, [] => Some v
    | _, _ => '(m', stack') ← scan_step m stack c; scan_first m' stack' s'
    end
  end.

Definition parse_first (s : string) : option json := scan_first MValue [] s.

(** A struct: [null] leaves it as it is, another value than an object is an
    error. *)
Definition decode_struct {A} (fields : A -> list (string * json) -> option A) (a : A) (j : json) : option A :=
  match j with JNull => Some a | JObj l => fields a l | _ => None end.

Definition decode_opt_bool (_ : option bool) (j : json) : option (option bool) :=
  match j with JNull => Some None | JBool b => Some (Some b) | _ => None end.

(** A [map[string]float64]; a [null] among the values is zero. *)
Fixpoint decode_entries (m : gmap string float64) (l : list (string * json)) : option (gmap string float64) :=
  match l with
  | [] => Some m
  | (k, v) :: l => x ← decode_float f_zero v; decode_entries (<[k := x]> m) l
  end.

Definition decode_float_map (m : gmap string float64) (j : json) : option (gmap string float64) :=
  match j with JNull => Some ∅ | JObj l => decode_entries m l | _ => None end.

(** A [json.RawMessage]: the value as text, up to white space and escapes. *)
Fixpoint raw_text (j : json) : string :=
  match j with
  | JNull => "null"
  | JBool b => if b then "true" else "false"
  | JNum lit => lit
  | JStr s => marshal_string s
  | JArr l => "[" +:+ comma_list (map raw_text l) +:+ "]"
  | JObj l => "{" +:+ comma_list (map (fun kv => marshal_member (kv.1, raw_text kv.2)) l) +:+ "}"
  end.

Definition decode_raw (_ : string) (j : json) : option string := Some (raw_text j).

Definition zero_K6Status : K6Status := mkK6Status "" false 0 0 false false false.

Definition decode_K6Status (a : K6Status) (l : list (string * json)) : option K6Status :=
  status ← decode_field decode_raw "status" (k6s_Status a) l;
  paused ← decode_field decode_bool "paused" (k6s_Paused a) l;
  vus ← decode_field decode_int "vus" (k6s_VUs a) l;
  vusMax ← decode_field decode_int "vus-max" (k6s_VUsMax a) l;
  stopped ← decode_field decode_bool "stopped" (k6s_Stopped a) l;
  running ← decode_field decode_bool "running" (k6s_Running a) l;
  tainted ← decode_field decode_bool "tainted" (k6s_Tainted a) l;
  Some (mkK6Status status paused vus vusMax stopped running tainted).

Definition zero_K6Metric : K6Metric := mkK6Metric "" "" None ∅ ∅.

Definition decode_K6Metric (a : K6Metric) (l : list (string * json)) : option K6Metric :=
  type ← decode_field decode_string "type" (k6m_Type a) l;
  contents ← decode_field decode_string "contains" (k6m_Contains a) l;
  tainted ← decode_field decode_opt_bool "tainted" (k6m_Tainted a) l;
  sample ← decode_field decode_float_map "sample" (k6m_Sample a) l;
  values ← decode_field decode_float_map "values" (k6m_Values a) l;
  Some (mkK6Metric type contents tainted sample values).

(** [k6StatusData]: type, id and attributes; [k6StatusEnvelope]: the data. *)
Definition decode_status_data (a : string * string * K6Status) (l : list (string * json)) : option (string * string * K6Status) :=
  let '(type, id, st) := a in
  type ← decode_field decode_string "type" type l;
  id ← decode_field decode_string "id" id l;
  st ← decode_field (decode_struct decode_K6Status) "attributes" st l;
  Some (type, id, st).

Definition decode_status_envelope (text : string) : option K6Status :=
  j ← parse_first text;
  data ← decode_struct (fun a l => decode_field (decode_struct decode_status_data) "data" a l) ("", "", zero_K6Status) j;
  Some data.2.

(** ** Requests *)

Section worker.
Context `{DecodeErrors} (w : Worker).

Definition worker_error (what detail : string) : string := "worker " +:+ wk_Address w +:+ what +:+ detail.

Definition GetStatus (ex : exchange) : res K6Status :=
  match ex with
  | NoRequest e => Err e
  | NoResponse e => Err (worker_error ": " e)
  | Response _ text =>
    match decode_status_envelope text with
    | Some st => Ok st
    | None => Err (worker_error " decode: " (decode_error "k6StatusEnvelope" text))
    end
  end.

(** The body of a patch: the fields that are given. *)
Definition patch_fields (patch : K6StatusPatch) : list (string * string) :=
  let bool_text (b : bool) := if b then "true" else "false" in
  let field {A} (name : string) (text : A -> string) (x : option A) :=
    match x with Some v => [(name, text v)] | None => [] end in
  field "paused" bool_text (k6p_Paused patch) ++ field "stopped" bool_text (k6p_Stopped patch) ++
  field "vus" itoa (k6p_VUs patch) ++ field "vus-max" itoa (k6p_VUsMax patch).

Definition patch_body (patch : K6StatusPatch) : string :=
  struct_text [("data", struct_text [("type", marshal_string "status"); ("id", marshal_string "default");
                                     ("attributes", struct_text (patch_fields patch))])].

Definition PatchStatus (ex : exchange) : res K6Status :=
  match ex with
  | NoRequest e => Err e
  | NoResponse e => Err (worker_error " patch: " e)
  | Response code text =>
    if 400 <=? code then Err (worker_error (" patch status " +:+ itoa code +:+ ": ") text)
    else match decode_status_envelope text with
         | Some st => Ok st
         | None => Err (worker_error " decode: " (decode_error "k6StatusEnvelope" text))
         end
  end.

(** ** Metrics *)

Definition decode_item (a : string * K6Metric) (l : list (string * json)) : option (string * K6Metric) :=
  let '(id, m) := a in
  _ ← decode_field decode_string "type" "" l;
  id ← decode_field decode_string "id" id l;
  m ← decode_field (decode_struct decode_K6Metric) "attributes" m l;
  Some (id, m).

(** A slice of items; one that does not decode is an error for all. *)
Fixpoint decode_items (l : list json) : option (list (string * K6Metric)) :=
  match l with
  | [] => Some []
  | j :: l => item ← decode_struct decode_item ("", zero_K6Metric) j; items ← decode_items l; Some (item :: items)
  end.

Definition array_format (data : option json) : option (gmap string K6Metric) :=
  match data with
  | Some JNull => Some ∅
  | Some (JArr l) =>
    items ← decode_items l;
    Some (foldl (fun m (item : string * K6Metric) => <[item.1 := item.2]> m) ∅ items)
  | _ => None
  end.

(** A [map[string]K6Metric]; [None] is the nil map. *)
Fixpoint decode_metric_entries (m : gmap string K6Metric) (l : list (string * json)) : option (gmap string K6Metric) :=
  match l with
  | [] => Some m
  | (k, v) :: l => x ← decode_struct decode_K6Metric zero_K6Metric v; decode_metric_entries (<[k := x]> m) l
  end.

Definition decode_metric_map (m : option (gmap string K6Metric)) (j : json) : option (option (gmap string K6Metric)) :=
  match j with
  | JNull => Some None
  | JObj l => Some <$> decode_metric_entries (default ∅ m) l
  | _ => None
  end.

Definition map_format (data : option json) : option (gmap string K6Metric) :=
  match data with
  | Some (JObj l) => m ← decode_field decode_metric_map "metrics" None l; m
  | _ => None
  end.

(** The member [data] of the answer, as it stands. *)
Definition outer_data (text : string) : option (option json) :=
  j ← parse_first text;
  match j with
  | JNull => Some None
  | JObj l => decode_field (fun _ v => Some (Some v)) "data" None l
  | _ => None
  end.

Definition GetMetrics (ex : exchange) : res (gmap string K6Metric) :=
  match ex with
  | NoRequest e => Err e
  | NoResponse e => Err (worker_error " metrics: " e)
  | Response code text =>
    if 400 <=? code then Err (worker_error (" metrics status " +:+ itoa code +:+ ": ") text)
    else
      match outer_data text with
      | None => Err (worker_error " decode metrics outer: " (decode_error "outerWrapper" text))
      | Some data =>
        match array_format data with
        | Some m => Ok m
        | None => Ok (default ∅ (map_format data))
        end
      end
  end.

(** [IsReachable] and [IsReadyForStart]: with a timeout of five seconds. *)
Definition IsReachable (ex : exchange) : bool := is_ok (GetStatus ex).
Definition worker_IsReadyForStart (ex : exchange) : bool := worker_ready (GetStatus ex).
End worker.

(** ** What is known of an answer *)

(** The last item with an id. *)
Fixpoint last_item (id : string) (items : list (string * K6Metric)) : option K6Metric :=
  match items with
  | [] => None
  | (k, m) :: items =>
    match last_item id items with
    | Some m' => Some m'
    | None => if String.eqb k id then Some m else None
    end
  end.

Lemma foldl_items items (m : gmap string K6Metric) id :
  foldl (fun m (item : string * K6Metric) => <[item.1 := item.2]> m) m items !! id =
  match last_item id items with Some x => Some x | None => m !! id end.
Proof.
  revert m. induction items as [|[k x] items IH]; intros m; cbn [foldl last_item fst snd]; [done|].
  rewrite IH. destruct (last_item id items) as [y|]; [done|].
  destruct (String.eqb_spec k id) as [->|Hne]; [by rewrite lookup_insert_eq|by rewrite lookup_insert_ne].
Qed.

(** The metrics of an answer, by the form of its data: a list of items gives
    each id its last item; an object gives its member [metrics]; and everything
    else, a list with one malformed item included, gives no metric at all and
    no error. *)
Theorem GetMetrics_spec `{DecodeErrors} w code text data : code < 400 -> outer_data text = Some data ->
  exists m, GetMetrics w (Response code text) = Ok m /\
    match data with
    | Some (JArr l) => match decode_items l with
                       | Some items => forall id, m !! id = last_item id items
                       | None => m = ∅
                       end
    | Some (JObj l) => match decode_field decode_metric_map "metrics" None l with
                       | Some (Some ms) => m = ms
                       | _ => m = ∅
                       end
    | _ => m = ∅
    end.
Proof.
  intros Hc Hd. unfold GetMetrics. destruct (Z.leb_spec 400 code); [lia|]. rewrite Hd.
  destruct data as [[| | | |l|l]|]; cbn [array_format map_format]; try (eexists; split; [reflexivity|done]).
  - destruct (decode_items l) as [items|]; cbn [mbind option_bind]; eexists; (split; [reflexivity|]); [|done].
    intros id. rewrite foldl_items, lookup_empty. by destruct (last_item id items).
  - destruct (decode_field _ _ _ l) as [[ms|]|]; cbn [mbind option_bind]; eexists; (split; [reflexivity|done]).
Qed.

(** ** Answers *)

#[export] Instance one_decode_error : DecodeErrors := fun _ _ => "invalid character '<' looking for beginning of value".

Definition worker1 : Worker := mkWorker "worker1:6565" false "" 0.

Example status_ex :
  GetStatus worker1 (Response 200 (quoted "{'data':{'type':'status','id':'default','attributes':{'status':7,'paused':false,'vus':3,'vus-max':5,'stopped':true,'running':false,'tainted':false}}} trailing"))
  = Ok (mkK6Status "7" false 3 5 true false false) /\
  GetStatus worker1 (Response 200 "<html>") = Err "worker worker1:6565 decode: invalid character '<' looking for beginning of value" /\
  GetStatus worker1 (NoResponse "timeout") = Err "worker worker1:6565: timeout".
Proof. vm_compute. split_and!; reflexivity. Qed.

(** [GetStatus] does not look at the status code: an error of the worker's REST
    API is the zero status, with which the worker is reachable and idle. *)
Example status_of_an_error :
  let ex := Response 500 (quoted "{'errors':[{'status':'500','title':'internal error'}]}") in
  GetStatus worker1 ex = Ok zero_K6Status /\ IsReachable worker1 ex = true /\
  workerDisplayStatus zero_K6Status true = "online" /\
  PatchStatus worker1 ex = Err ("worker worker1:6565 patch status 500: " +:+ quoted "{'errors':[{'status':'500','title':'internal error'}]}").
Proof. vm_compute. split_and!; reflexivity. Qed.

Example patch_ex :
  patch_body (mkK6StatusPatch (Some false) None (Some 10) (Some 20)) =
  quoted "{'data':{'type':'status','id':'default','attributes':{'paused':false,'vus':10,'vus-max':20}}}".
Proof. vm_compute. reflexivity. Qed.

Definition metrics_answer : string := quoted
  "{'data':[{'type':'metrics','id':'vus','attributes':{'type':'gauge','contains':'default','tainted':null,'sample':{'value':3}}}]}".

Lemma GetMetrics_spec_witness :
  exists m, GetMetrics worker1 (Response 200 metrics_answer) = Ok m /\
    m !! "vus" = Some (mkK6Metric "gauge" "default" None {["value" := f_of_Z 3]} ∅).
Proof.
  destruct (GetMetrics_spec worker1 200 metrics_answer
    (Some (JArr [JObj [("type", JStr "metrics"); ("id", JStr "vus");
       ("attributes", JObj [("type", JStr "gauge"); ("contains", JStr "default"); ("tainted", JNull); ("sample", JObj [("value", JNum "3")])])]])))
    as (m & Hm & Hl); [lia|vm_compute; reflexivity|].
  exists m. split; [exact Hm|]. cbn -[last_item] in Hl.
  match type of Hl with match ?d with _ => _ end => let r := eval vm_compute in d in assert (E : d = r) by (vm_compute; reflexivity); rewrite E in Hl end.
  rewrite Hl. vm_compute. reflexivity.
Defined.

(** One sample that is no number loses the metrics of the worker. *)
Example malformed_item :
  GetMetrics worker1 (Response 200 (quoted
    "{'data':[{'id':'vus','attributes':{'sample':{'value':3}}},{'id':'x','attributes':{'sample':{'value':'n/a'}}}]}")) = Ok ∅ /\
  GetMetrics worker1 (Response 200 (quoted "{'data':{'metrics':{'vus':{'type':'gauge','values':{'value':3}}}}}")) =
  Ok {["vus" := mkK6Metric "gauge" "" None ∅ {["value" := f_of_Z 3]}]}.
Proof. vm_compute. split; reflexivity. Qed.
