(* ===== verification/Dashboard.v ===== *)
(** * The live dashboards of the workers: dashboard.go

    Which dashboards an administrator can open, what the proxy does with a
    request for one (refuse with a page, redirect, forward), when it ends an
    event stream, and the page itself with its escaped message.  What the
    orchestrator reports at each of its reads and what the worker answers are
    arguments; forwarding is [httputil]'s, of which the rewritten request is
    modelled. *)

From S2P Require Export Prelude GoStrings Json JsonOut Model Orchestrator WorkerClient.
From S2P Require Import Url TestApi K6Config RawSummary EnvFileSpec.

Open Scope Z_scope.
Open Scope go_scope.

(** ** Status of a dashboard *)

Record WorkerDashboardStatus := mkDashboardStatus {
  ds_Name : string;
  ds_Address : string;
  ds_WorkerStatus : string;
  ds_Phase : string;
  ds_DashboardEnabled : bool;
  ds_DashboardURL : string;
  ds_Availability : string;
  ds_Message : string;
  ds_ActiveTestID : string
}.

(** The status that is shown for a worker while a test is active. *)
Definition display_status (status activeTestID : string) (phase : TestPhase) : string :=
  if negb (String.eqb activeTestID "") && negb (String.eqb status "unreachable") then
    match phase with
    | PhaseScript | PhaseWorkers => "preparing"
    | PhaseRunning => "running"
    | PhaseCollecting => "collecting"
    | _ => status
    end
  else status.

Definition buildWorkerDashboardStatus (worker : WorkerMetrics) (activeTestID : string) (phase : TestPhase) : WorkerDashboardStatus :=
  let '(availability, message) :=
    if negb (wm_DashboardEnabled worker)
    then ("disabled", "k6 internal dashboards are disabled in the current runtime configuration")
    else if String.eqb (wm_Status worker) "unreachable"
    then ("worker_unreachable",
          if negb (String.eqb (wm_Error worker) "") then wm_Error worker else "worker is currently unreachable")
    else if String.eqb activeTestID ""
    then ("not_running", "no active test run is present, so the live k6 dashboard is not expected to be available")
    else ("available", "live dashboard available while the active k6 run is alive") in
  mkDashboardStatus (wm_Name worker) (wm_Address worker) (display_status (wm_Status worker) activeTestID phase)
    (phase_text phase) (wm_DashboardEnabled worker) (wm_DashboardURL worker) availability message activeTestID.

(** [ListDashboards]: the dashboards, the active test and the phase. *)
Definition ListDashboards (workers : list WorkerMetrics) (activeTestID : string) (phase : TestPhase)
  : list WorkerDashboardStatus * string * string :=
  (map (fun w => buildWorkerDashboardStatus w activeTestID phase) workers, activeTestID, phase_text phase).

Definition shouldKeepDashboardStreamOpen (activeTestID : string) (phase : TestPhase) : bool :=
  if String.eqb activeTestID "" then false
  else match phase with PhaseCollecting | PhaseDone | PhaseError => false | _ => true end.

Definition workerDashboardRuntimeStatus (status : option K6Status) (testActive : bool) : string :=
  match status with
  | None => "unreachable"
  | Some s =>
    if IsRunning s && negb (k6s_Paused s) then "running"
    else if k6s_Paused s then "paused"
    else if IsFinished s then (if testActive then "done" else "online")
    else "online"
  end.

(** ** Paths *)

Definition drop_slash (s : string) : string :=
  match s with String c s' => if byte_of c =? 47 then s' else s | EmptyString => "" end.

Definition joinProxyPath (basePath subPath : string) : string :=
  let root s := String.eqb s "" || String.eqb s "/" in
  if root basePath then subPath
  else if root subPath then basePath
  else if has_suffix basePath "/" && has_prefix subPath "/" then basePath +:+ drop_slash subPath
  else if has_suffix basePath "/" || has_prefix subPath "/" then basePath +:+ subPath
  else basePath +:+ "/" +:+ subPath.

(** ** The proxy *)

(** A request: the worker of the path, the two forms of the rest of the path,
    the path itself and the raw query. *)
Record proxy_request := mkProxyRequest {
  pr_worker : string;
  pr_star : string;
  pr_proxyPath : string;
  pr_Path : string;
  pr_RawQuery : string
}.

Inductive proxy_reply :=
  | Unavailable (code : Z) (message : string)
  | RedirectTo (location : string)
  | Forward (host path query : string) (stream : bool).

(** Whether a request is for events, whose stream the controller ends. *)
Definition is_event_stream (proxyPath : string) : bool := has_suffix proxyPath "/events" || String.eqb proxyPath "/events".

(** The path a request is forwarded to, before it is joined to the base. *)
Definition normal_path (p : string) : string :=
  if String.eqb p "" then "/" else if negb (has_prefix p "/") then "/" +:+ p else p.

Section proxy.
Context `{DecodeErrors} (SplitHostPort : string -> option string).

(** What the handler makes of the worker's answer. *)
Definition proxy_metrics (worker : Worker) (answer : exchange) (testActive : bool) : WorkerMetrics :=
  let wm := zero_WorkerMetrics <| wm_Name := Name SplitHostPort worker |> <| wm_Address := wk_Address worker |>
              <| wm_DashboardEnabled := wk_DashboardEnabled worker |>
              <| wm_DashboardURL := DashboardURL SplitHostPort worker |> <| wm_Status := "unreachable" |> in
  match GetStatus worker answer with
  | Err e => wm <| wm_Error := e |>
  | Ok st => wm <| wm_Status := workerDashboardRuntimeStatus (Some st) testActive |> <| wm_VUs := k6s_VUs st |>
  end.

(** [ProxyDashboard]; the active test is read twice, before and after the
    phase. *)
Definition ProxyDashboard (workers : list Worker) (answer : Worker -> exchange) (activeBefore : string) (phase : TestPhase)
    (activeAfter : string) (r : proxy_request) : proxy_reply :=
  if String.eqb (pr_worker r) "" then Unavailable 400 "dashboard request is missing the worker name"
  else
    match FindWorker SplitHostPort workers (pr_worker r) with
    | None => Unavailable 404 ("worker " +:+ quoted_q (pr_worker r) +:+ " is not configured")
    | Some worker =>
      let wm := proxy_metrics worker (answer worker) (negb (String.eqb activeBefore "")) in
      let status := buildWorkerDashboardStatus wm activeAfter phase in
      if negb (String.eqb (ds_Availability status) "available") then Unavailable 503 (ds_Message status)
      else
        match Parse (DashboardURL SplitHostPort worker) with
        | None => Unavailable 502 "dashboard target URL is invalid"
        | Some target =>
          let proxyPath := if String.eqb (pr_star r) "" then pr_proxyPath r else pr_star r in
          if String.eqb proxyPath "ui" && negb (has_suffix (pr_Path r) "/")
          then RedirectTo (pr_Path r +:+ "/" +:+ (if String.eqb (pr_RawQuery r) "" then "" else "?" +:+ pr_RawQuery r))
          else
            let proxyPath := normal_path proxyPath in
            let basePath := default "" (unescape EncodeOther (url_PathText target)) in
            Forward (url_Host target) (joinProxyPath basePath proxyPath) (pr_RawQuery r) (is_event_stream proxyPath)
        end
    end.
End proxy.

(** The loop that ends a stream: what the orchestrator reports at each second;
    the number of seconds the stream stays open. *)
Fixpoint stream_seconds (checks : list (string * TestPhase)) : nat :=
  match checks with
  | [] => 0
  | (active, phase) :: checks => if shouldKeepDashboardStreamOpen active phase then S (stream_seconds checks) else 1
  end.

(** ** The page of a dashboard that is not available *)

(** [html.EscapeString]. *)
Definition escape_char (c : Ascii.ascii) : string :=
  let b := byte_of c in
  if b =? 38 then "&amp;" else if b =? 39 then "&#39;" else if b =? 60 then "&lt;"
  else if b =? 62 then "&gt;" else if b =? 34 then "&#34;" else String c "".

Fixpoint EscapeString (s : string) : string :=
  match s with EmptyString => "" | String c s => escape_char c +:+ EscapeString s end.

Definition page_head : string := quoted "<!doctype html>
<html lang='en'>
  <head>
    <meta charset='utf-8'>
    <title>Worker Dashboard Unavailable</title>
    <style>
      body { font-family: system-ui, sans-serif; background: #120912; color: #f7eef5; padding: 32px; }
      .panel { max-width: 720px; margin: 0 auto; background: #201320; border: 1px solid #4b2a42; border-radius: 16px; padding: 24px; }
      h1 { margin-top: 0; color: #ff4da6; }
      p { line-height: 1.5; color: #e8d8e6; }
      code { background: #2b1830; padding: 2px 6px; border-radius: 6px; }
    </style>
  </head>
  <body>
    <div class='panel'>
      <h1>Worker Dashboard Unavailable</h1>
      <p>".

Definition page_tail : string := "</p>
      <p>This view is live-only and is expected to disappear when there is no active k6 run on the selected worker.</p>
    </div>
  </body>
</html>".

Definition writeDashboardUnavailableHTML (message : string) : string := page_head +:+ EscapeString message +:+ page_tail.

(** ** What a dashboard's status says *)

Lemma availability_spec worker activeTestID phase :
  let s := buildWorkerDashboardStatus worker activeTestID phase in
  (ds_Availability s = "available" <->
     wm_DashboardEnabled worker = true /\ wm_Status worker <> "unreachable" /\ activeTestID <> "") /\
  ds_Availability s ∈ ["available"; "disabled"; "worker_unreachable"; "not_running"] /\
  (wm_Status worker = "unreachable" -> ds_WorkerStatus s = "unreachable").
Proof.
  cbv zeta. unfold buildWorkerDashboardStatus, display_status.
  destruct (wm_DashboardEnabled worker), (String.eqb_spec (wm_Status worker) "unreachable") as [Hu|Hu],
    (String.eqb_spec activeTestID "") as [Ha|Ha]; cbn;
    (split_and!; [split; [intros E; try discriminate E; by repeat split|intros (H1 & H2 & H3); by try discriminate H1]
                 |rewrite !elem_of_cons; tauto|intros E; try done]); destruct phase; done.
Qed.

(** ** What is forwarded *)

Section proxy.
Context `{DecodeErrors} (SplitHostPort : string -> option string).

Lemma find_worker_In workers name worker : FindWorker SplitHostPort workers name = Some worker ->
  worker ∈ workers /\ (wk_Address worker = name \/ Name SplitHostPort worker = name).
Proof.
  intros Hf. unfold FindWorker in Hf. apply first_some_Some in Hf as (w & Hin & Hw).
  destruct (_ || _) eqn:E; [|done]. simplify_eq. split; [done|]. apply orb_prop in E as [E|E]; apply String.eqb_eq in E; auto.
Qed.

Lemma normal_path_slash p : has_prefix (normal_path p) "/" = true.
Proof.
  unfold normal_path. destruct (String.eqb p ""); [done|]. destruct (has_prefix p "/") eqn:E; cbn [negb]; [done|].
  by destruct p.
Qed.

(** C27: a request is forwarded only to the dashboard of a configured worker that
    answered, with dashboards enabled and a test active, under a path from the
    root; a redirect leads to the directory of the page that was asked for. *)
Theorem proxy_safety workers answer activeBefore phase activeAfter r :
  match ProxyDashboard SplitHostPort workers answer activeBefore phase activeAfter r with
  | Unavailable code _ => code ∈ [400; 404; 502; 503]
  | RedirectTo location => has_prefix location (pr_Path r +:+ "/") = true /\ has_suffix (pr_Path r) "/" = false
  | Forward host path query stream =>
    exists worker target, worker ∈ workers /\ (wk_Address worker = pr_worker r \/ Name SplitHostPort worker = pr_worker r) /\
      (exists st, GetStatus worker (answer worker) = Ok st) /\ wk_DashboardEnabled worker = true /\ activeAfter <> "" /\
      Parse (DashboardURL SplitHostPort worker) = Some target /\ host = url_Host target /\ query = pr_RawQuery r /\
      (url_PathText target = "" -> has_prefix path "/" = true /\ stream = is_event_stream path)
  end.
Proof.
  unfold ProxyDashboard. destruct (String.eqb (pr_worker r) ""); [cbn; rewrite !elem_of_cons; tauto|].
  destruct (FindWorker _ _ _) as [worker|] eqn:Ef; [|rewrite !elem_of_cons; tauto].
  apply find_worker_In in Ef as [Hin Hname]. cbv zeta.
  set (wm := proxy_metrics _ _ _ _). destruct (availability_spec wm activeAfter phase) as [Hav _]. cbv zeta in Hav.
  destruct (String.eqb_spec (ds_Availability (buildWorkerDashboardStatus wm activeAfter phase)) "available") as [Ha|];
    cbn [negb]; [|rewrite !elem_of_cons; tauto].
  apply Hav in Ha as (He & Hs & Hact).
  destruct (Parse _) as [target|] eqn:Ep; [|rewrite !elem_of_cons; tauto].
  set (p := if String.eqb (pr_star r) "" then _ else _).
  destruct (String.eqb p "ui" && negb (has_suffix (pr_Path r) "/")) eqn:Eui.
  - apply andb_prop in Eui as [_ Eui%negb_true_iff]. split; [|done].
    unfold has_prefix. rewrite <- string_app_assoc. apply RawSummary.prefix_app.
  - exists worker, target. split_and!; try done.
    + unfold wm, proxy_metrics in Hs. destruct (GetStatus worker (answer worker)) as [st|e]; [by exists st|done].
    + unfold wm, proxy_metrics in He. by destruct (GetStatus worker (answer worker)).
    + intros Ht. rewrite Ht. cbn [unescape default]. unfold joinProxyPath. cbn [String.eqb orb].
      split; [apply normal_path_slash|done].
Qed.
End proxy.

(** ** The page *)

(** How a browser reads a text with the references [EscapeString] makes. *)
Fixpoint html_text (fuel : nat) (s : string) : string :=
  match fuel with
  | O => ""
  | S fuel =>
    match s with
    | EmptyString => ""
    | String c s' =>
      match first_some (fun r : string * Z => rest ← drop_prefix r.1 s; Some (chr r.2, rest))
              [("&amp;", 38); ("&#39;", 39); ("&lt;", 60); ("&gt;", 62); ("&#34;", 34)] with
      | Some (d, rest) => String d (html_text fuel rest)
      | None => String c (html_text fuel s')
      end
    end
  end.

(** No markup: none of the characters a tag or the end of an attribute needs. *)
Definition no_markup (s : string) : Prop :=
  Forall (fun c => byte_of c <> 60 /\ byte_of c <> 62 /\ byte_of c <> 34 /\ byte_of c <> 39) (String.list_ascii_of_string s).

Lemma escape_char_cases c :
  (byte_of c = 38 /\ escape_char c = "&amp;") \/ (byte_of c = 39 /\ escape_char c = "&#39;") \/
  (byte_of c = 60 /\ escape_char c = "&lt;") \/ (byte_of c = 62 /\ escape_char c = "&gt;") \/
  (byte_of c = 34 /\ escape_char c = "&#34;") \/
  (byte_of c <> 38 /\ byte_of c <> 39 /\ byte_of c <> 60 /\ byte_of c <> 62 /\ byte_of c <> 34 /\ escape_char c = String c "").
Proof. unfold escape_char. cbv zeta. repeat (case_match; [rewrite Z.eqb_eq in *; tauto|rewrite Z.eqb_neq in *]). tauto. Qed.

(** The message of the page holds no markup, whatever it says, and is read as it
    was written. *)
Lemma escaped_message s fuel : (String.length s < fuel)%nat ->
  no_markup (EscapeString s) /\ html_text fuel (EscapeString s) = s.
Proof.
  unfold no_markup. revert fuel. induction s as [|c s IH]; intros fuel Hf; [split; [constructor|by destruct fuel]|].
  cbn [String.length] in Hf. destruct fuel as [|fuel]; [lia|]. destruct (IH fuel) as [IH1 IH2]; [lia|].
  cbn [EscapeString]. rewrite list_ascii_app.
  destruct (escape_char_cases c) as [[Hc E]|[[Hc E]|[[Hc E]|[[Hc E]|[[Hc E]|(H1 & H2 & H3 & H4 & H5 & E)]]]]]; rewrite E;
    try (split; [apply Forall_app; split; [repeat (apply Forall_cons_2; [vm_compute; split_and!; discriminate|]); apply Forall_nil_2|exact IH1]|];
         rewrite <- (chr_byte_of c), Hc;
         match goal with |- _ = String (chr ?z) _ =>
           transitivity (String (chr z) (html_text fuel (EscapeString s))); [reflexivity|by rewrite IH2] end).
  split; [apply Forall_app; split; [by repeat constructor|exact IH1]|].
  change (String c "" +:+ EscapeString s) with (String c (EscapeString s)). cbn [html_text].
  assert (Hn : first_some (fun r : string * Z => rest ← drop_prefix r.1 (String c (EscapeString s)); Some (chr r.2, rest))
              [("&amp;", 38); ("&#39;", 39); ("&lt;", 60); ("&gt;", 62); ("&#34;", 34)] = None).
  { apply first_some_None. intros r Hr. rewrite !elem_of_cons, elem_of_nil in Hr.
    assert (drop_prefix r.1 (String c (EscapeString s)) = None) as ->; [|done].
    destruct Hr as [->|[->|[->|[->|[->|[]]]]]]; cbn [fst drop_prefix];
      (match goal with |- (if Ascii.eqb ?a c then _ else _) = None => destruct (Ascii.eqb_spec a c) as [<-|] end; [exfalso; by apply H1|done]). }
  by rewrite Hn, IH2.
Qed.

(** ** Runs *)

Example joinProxyPath_ex :
  [joinProxyPath "" "/"; joinProxyPath "" "/assets/app.js"; joinProxyPath "/dashboard/" "/assets/app.js";
   joinProxyPath "/dashboard" "/assets/app.js"; joinProxyPath "/dashboard" "x"; joinProxyPath "/dashboard" "/"] =
  ["/"; "/assets/app.js"; "/dashboard/assets/app.js"; "/dashboard/assets/app.js"; "/dashboard/x"; "/dashboard"].
Proof. vm_compute. reflexivity. Qed.

Definition before_colon (s : string) : option string := fst <$> split_first (chr 58) s.

Definition running_worker : Worker := mkWorker "worker1:6565" true "0.0.0.0" 5665.
Definition running_answer (w : Worker) : exchange := Response 200 (quoted "{'data':{'attributes':{'status':4,'paused':false,'vus':3}}}").

Definition proxied (active : string) (phase : TestPhase) (star path : string) : proxy_reply :=
  ProxyDashboard before_colon [running_worker] running_answer active phase active
    (mkProxyRequest "worker1" star "" path "a=1").

Example proxy_ex :
  proxied "t1" PhaseRunning "ui" "/api/admin/workers/worker1/dashboard/ui" =
    RedirectTo "/api/admin/workers/worker1/dashboard/ui/?a=1" /\
  proxied "t1" PhaseRunning "ui/" "/api/admin/workers/worker1/dashboard/ui/" = Forward "worker1:5665" "/ui/" "a=1" false /\
  proxied "t1" PhaseRunning "events" "/api/admin/workers/worker1/dashboard/events" = Forward "worker1:5665" "/events" "a=1" true /\
  proxied "" PhaseDone "ui/" "/x" =
    Unavailable 503 "no active test run is present, so the live k6 dashboard is not expected to be available" /\
  stream_seconds [("t1", PhaseRunning); ("t1", PhaseRunning); ("t1", PhaseCollecting); ("", PhaseDone)] = 3%nat.
Proof. vm_compute. split_and!; reflexivity. Qed.

Example page_ex : contains (writeDashboardUnavailableHTML "<script>alert('x')</script>") "<p>&lt;script&gt;alert(&#39;x&#39;)&lt;/script&gt;</p>" = true.
Proof. vm_compute. reflexivity. Qed.
