(* ===== verification/Settings.v ===== *)
(** * Settings and wiring: config.go, cors.go, scripts.go, health.go, main.go

    The settings of the controller read from the environment with the list of
    workers, what the server starts with, the headers that let browsers of
    other origins in, the scripts the workers download, and the health check. *)

From S2P Require Export Prelude GoStrings GoTime Json Model Orchestrator Environment.
From S2P Require Import Templates Url RawSummary.

Open Scope Z_scope.
Open Scope go_scope.

(** ** Settings *)

Record Config := mkConfig {
  Port : Z;
  DBUser : string;
  DBPassword : string;
  DBHost : string;
  DBPort : Z;
  DBName : string;
  JWTSecret : string;
  APIKey : string;
  AdminKey : string;
  InitialAdminUsername : string;
  InitialAdminEmail : string;
  InitialAdminPassword : string;
  Workers : list string;
  WorkerDiscovery : string;
  CORSOrigins : list string;
  MetricsPollIntervalMS : Z;
  MaxTestDurationMin : Z;
  K6CompletionBufferSec : Z;
  K6WorkerReadyTimeoutSec : Z;
  K6DashboardEnabled : bool;
  K6DashboardHost : string;
  K6DashboardPort : Z;
  PublicAppURL : string;
  PasswordResetTokenTTLMin : Z;
  SMTPHost : string;
  SMTPPort : Z;
  SMTPUser : string;
  SMTPPassword : string;
  SMTPFromEmail : string;
  SMTPFromName : string;
  EncryptionKey : string;
  ScriptsDir : string;
  OutputDir : string;
  InternalControllerURL : string
}.

(** [strings.Split(s, ",")] without blank parts, each trimmed. *)
Definition splitAndTrim (s : string) : list string :=
  List.filter (fun p => negb (String.eqb p "")) (map trim_space (split_on (chr 44) s)).

Definition default_secret : string := "change-me-in-production".
Definition DiscoveryExplicit : string := "explicit".
Definition DiscoveryStatefulSet : string := "statefulset".

Section env.
Context (env : environment).

Definition envStr (key fallback : string) : string :=
  let v := Getenv env key in if negb (String.eqb v "") then v else fallback.

Definition envInt (key : string) (fallback : Z) : Z :=
  let v := Getenv env key in if negb (String.eqb v "") then default fallback (atoi v) else fallback.

Definition envBool (key : string) (fallback : bool) : bool :=
  let v := Getenv env key in
  if negb (String.eqb v "") then
    let flag := to_lower (trim_space v) in
    if existsb (String.eqb flag) ["1"; "true"; "yes"; "on"] then true
    else if existsb (String.eqb flag) ["0"; "false"; "no"; "off"] then false
    else fallback
  else fallback.

(** The name of a pod of the StatefulSet, with the port. *)
Definition pod_address (stsName serviceName namespace domain : string) (port : Z) (i : Z) : string :=
  stsName +:+ "-" +:+ itoa i +:+ "." +:+ serviceName +:+ "." +:+ namespace +:+ ".svc." +:+ domain +:+ ":" +:+ itoa port.

Definition resolveWorkers : list string * string :=
  let explicit := Getenv env "K6_WORKERS" in
  let addrs := if negb (String.eqb explicit "") then splitAndTrim explicit else [] in
  match addrs with
  | _ :: _ => (addrs, DiscoveryExplicit)
  | [] =>
    let stsName := envStr "K6_WORKER_STATEFULSET" "" in
    let replicas := envInt "K6_WORKER_REPLICAS" 0 in
    if negb (String.eqb stsName "") && (0 <? replicas) then
      let port := envInt "K6_WORKER_PORT" 6565 in
      let namespace := envStr "K6_WORKER_NAMESPACE" "default" in
      let domain := envStr "K6_WORKER_CLUSTER_DOMAIN" "cluster.local" in
      let serviceName := envStr "K6_WORKER_SERVICE" stsName in
      (map (pod_address stsName serviceName namespace domain port) (seqZ 0 replicas), DiscoveryStatefulSet)
    else ([], "")
  end.

Definition settings : Config :=
  let '(workers, discovery) := resolveWorkers in
  {| Port := envInt "PORT" 8080;
     DBUser := envStr "DB_USER" "k6user";
     DBPassword := envStr "DB_PASSWORD" "k6pass";
     DBHost := envStr "DB_HOST" "mysql";
     DBPort := envInt "DB_PORT" 3306;
     DBName := envStr "DB_NAME" "shiva";
     JWTSecret := envStr "JWT_SECRET" default_secret;
     APIKey := envStr "API_KEY" "";
     AdminKey := envStr "ADMIN_KEY" "";
     InitialAdminUsername := envStr "INITIAL_ADMIN_USERNAME" "admin";
     InitialAdminEmail := envStr "INITIAL_ADMIN_EMAIL" "admin@example.com";
     InitialAdminPassword := envStr "INITIAL_ADMIN_PASSWORD" "changeme";
     Workers := workers;
     WorkerDiscovery := discovery;
     CORSOrigins := split_on (chr 44) (envStr "CORS_ORIGINS" "http://localhost:3000");
     MetricsPollIntervalMS := envInt "METRICS_POLL_INTERVAL_MS" 2000;
     MaxTestDurationMin := envInt "MAX_TEST_DURATION_MIN" 120;
     K6CompletionBufferSec := envInt "K6_COMPLETION_BUFFER_SEC" 30;
     K6WorkerReadyTimeoutSec := envInt "K6_WORKER_READY_TIMEOUT_SEC" 0;
     K6DashboardEnabled := envBool "K6_DASHBOARD_ENABLED" false;
     K6DashboardHost := envStr "K6_DASHBOARD_HOST" "0.0.0.0";
     K6DashboardPort := envInt "K6_DASHBOARD_PORT" 5665;
     PublicAppURL := envStr "PUBLIC_APP_URL" "http://localhost:3000";
     PasswordResetTokenTTLMin := envInt "PASSWORD_RESET_TOKEN_TTL_MIN" 30;
     SMTPHost := envStr "SMTP_HOST" "";
     SMTPPort := envInt "SMTP_PORT" 587;
     SMTPUser := envStr "SMTP_USER" "";
     SMTPPassword := envStr "SMTP_PASSWORD" "";
     SMTPFromEmail := envStr "SMTP_FROM_EMAIL" "noreply@example.com";
     SMTPFromName := envStr "SMTP_FROM_NAME" "Shiva";
     EncryptionKey := envStr "APP_ENCRYPTION_KEY" (envStr "JWT_SECRET" default_secret);
     ScriptsDir := envStr "SCRIPTS_DIR" "/scripts";
     OutputDir := envStr "OUTPUT_DIR" "/output";
     InternalControllerURL := envStr "INTERNAL_CONTROLLER_URL" "http://controller:8080" |}.

(** [Load]: the settings, and the error that comes with them. *)
Definition Load : Config * option string :=
  let c := settings in
  (c, match Workers c with
      | [] => Some "no workers configured: set K6_WORKERS or K6_WORKER_STATEFULSET + K6_WORKER_REPLICAS"
      | _ => if String.eqb (JWTSecret c) default_secret then Some "JWT_SECRET must be set in production" else None
      end).
End env.

Definition DSN (c : Config) : string :=
  DBUser c +:+ ":" +:+ DBPassword c +:+ "@tcp(" +:+ DBHost c +:+ ":" +:+ itoa (DBPort c) +:+ ")/" +:+ DBName c +:+
  "?parseTime=true&charset=utf8mb4".

(** ** Start of the server *)

(** What the steps of [run] before the server yield: opening the database,
    waiting for it, the migration, and the initial administrator. *)
Record start_results := mkStart {
  sr_open : option string;
  sr_ready : option string;
  sr_migrate : option string;
  sr_hash : option string;
  sr_admin : option string
}.

(** The options of the orchestrator and of the sign-in handlers. *)
Record server_options := mkServer {
  so_workers : list Worker;
  so_pollInterval : Z;
  so_maxTestDuration : Z;
  so_readyTimeout : option Z;
  so_jwtSecret : string;
  so_apiKey : string;
  so_encryptionKey : string;
  so_corsOrigins : list string;
  so_resetTTL : Z
}.

(** [run] up to the point where the server listens: an error of [Load] is only
    logged, those of the steps end the program, in their order. *)
Definition run_server (env : environment) (steps : start_results) : res server_options :=
  let cfg := (Load env).1 in
  match first_some (fun s : string * option string => e ← s.2; Some (s.1 +:+ ": " +:+ e))
          [("open db", sr_open steps); ("db not ready", sr_ready steps); ("migration", sr_migrate steps);
           ("hash admin password", sr_hash steps); ("ensure admin", sr_admin steps)] with
  | Some e => Err e
  | None =>
    Ok {| so_workers := map (fun a => NewWorker a (K6DashboardEnabled cfg) (K6DashboardHost cfg) (K6DashboardPort cfg)) (Workers cfg);
          so_pollInterval := MetricsPollIntervalMS cfg ⊠ Millisecond;
          so_maxTestDuration := MaxTestDurationMin cfg ⊠ Minute;
          so_readyTimeout := if 0 <? K6WorkerReadyTimeoutSec cfg then Some (K6WorkerReadyTimeoutSec cfg ⊠ Second) else None;
          so_jwtSecret := JWTSecret cfg;
          so_apiKey := APIKey cfg;
          so_encryptionKey := EncryptionKey cfg;
          so_corsOrigins := CORSOrigins cfg;
          so_resetTTL := PasswordResetTokenTTLMin cfg ⊠ Minute |}
  end.

(** ** Other origins *)

Definition cors_allowed (origins : list string) (origin : string) : bool :=
  existsb (fun o => String.eqb (trim_space o) origin) origins.

(** [CORS]: the headers it sets, and whether the request goes on to the
    handler or is answered with 204. *)
Definition CORS (origins : list string) (method origin : string) : list (string * string) * bool :=
  ((if cors_allowed origins origin || cors_allowed origins "*" then [("Access-Control-Allow-Origin", origin)] else []) ++
   [("Access-Control-Allow-Methods", "GET, POST, PUT, PATCH, DELETE, OPTIONS");
    ("Access-Control-Allow-Headers", "Content-Type, Authorization, X-API-Key");
    ("Access-Control-Allow-Credentials", "true");
    ("Access-Control-Max-Age", "3600")],
   negb (String.eqb method "OPTIONS")).

(** ** Health *)

Definition Health (activeTestID : string) (SplitHostPort : string -> option string) (workers : list Worker)
    (statuses : list (res K6Status)) : string * list WorkerMetrics :=
  ("ok", CheckWorkers SplitHostPort activeTestID workers statuses).

(** ** Properties *)

Lemma envInt_default env key fallback : Getenv env key = "" -> envInt env key fallback = fallback.
Proof. intros Hk. unfold envInt. by rewrite Hk. Qed.

Lemma envStr_default env key fallback : Getenv env key = "" -> envStr env key fallback = fallback.
Proof. intros Hk. unfold envStr. by rewrite Hk. Qed.

Lemma splitAndTrim_clean (s : string) : Forall (fun w => w <> "" /\ trim_space w = w) (splitAndTrim s).
Proof.
  unfold splitAndTrim. apply List.Forall_forall. intros w Hw. apply filter_In in Hw as [Hw Hne].
  apply in_map_iff in Hw as (p & <- & _). split.
  - intros He. rewrite He in Hne. discriminate.
  - apply trim_space_idem.
Qed.

Lemma pod_address_inj sts service ns domain port i j :
  pod_address sts service ns domain port i = pod_address sts service ns domain port j -> i = j.
Proof.
  unfold pod_address. intros He. apply append_inj_head, append_inj_head in He.
  apply append_inj_tail in He. by apply itoa_inj.
Qed.

Lemma pod_addresses_distinct sts service ns domain port n :
  NoDup (map (pod_address sts service ns domain port) (seqZ 0 n)).
Proof.
  rewrite NoDup_ListNoDup. apply List.NoDup_map_NoDup_ForallPairs; [|apply NoDup_ListNoDup, NoDup_seqZ].
  intros i j _ _. apply pod_address_inj.
Qed.

(** The list of workers: an explicit list with at least one address is taken
    whatever else is set; otherwise a StatefulSet with a positive number of
    replicas gives that many different addresses, its pods in order; without
    either there is none. Every address of an explicit list is trimmed and not
    blank. *)
Theorem resolveWorkers_spec (env : environment) :
  let explicit := splitAndTrim (Getenv env "K6_WORKERS") in
  let sts := envStr env "K6_WORKER_STATEFULSET" "" in
  let replicas := envInt env "K6_WORKER_REPLICAS" 0 in
  Forall (fun w => w <> "" /\ trim_space w = w) explicit /\
  match resolveWorkers env with
  | (ws, mode) =>
    (explicit <> [] -> ws = explicit /\ mode = DiscoveryExplicit) /\
    (explicit = [] -> sts <> "" -> 0 < replicas ->
       mode = DiscoveryStatefulSet /\ Z.of_nat (length ws) = replicas /\ NoDup ws /\
       (forall i w, ws !! i = Some w ->
          w = pod_address sts (envStr env "K6_WORKER_SERVICE" sts) (envStr env "K6_WORKER_NAMESPACE" "default")
                (envStr env "K6_WORKER_CLUSTER_DOMAIN" "cluster.local") (envInt env "K6_WORKER_PORT" 6565) (Z.of_nat i))) /\
    (explicit = [] -> sts = "" \/ replicas <= 0 -> ws = [] /\ mode = "")
  end.
Proof.
  cbv zeta. split; [apply splitAndTrim_clean|].
  unfold resolveWorkers.
  set (sts := envStr env "K6_WORKER_STATEFULSET" ""). set (n := envInt env "K6_WORKER_REPLICAS" 0).
  assert (Haddrs : (if negb (String.eqb (Getenv env "K6_WORKERS") "") then splitAndTrim (Getenv env "K6_WORKERS") else []) =
                   splitAndTrim (Getenv env "K6_WORKERS")).
  { destruct (String.eqb_spec (Getenv env "K6_WORKERS") "") as [->|]; reflexivity. }
  rewrite Haddrs. destruct (splitAndTrim (Getenv env "K6_WORKERS")) as [|w ws]; [|by split_and!].
  destruct (String.eqb_spec sts "") as [Hs|Hs]; cbn [negb andb].
  { split_and!; try done. }
  destruct (Z.ltb_spec 0 n) as [Hn|Hn].
  - split; [done|]. split; [intros _ _ _|intros _ [?|?]; [done|lia]].
    split_and!; [done|rewrite map_length, length_seqZ; lia|apply pod_addresses_distinct|].
    intros i w Hw. apply list_lookup_fmap_Some in Hw as (k & -> & Hk). apply lookup_seqZ in Hk as [-> _].
    by rewrite Z.add_0_l.
  - split_and!; try done. intros _ _ ?. lia.
Qed.

(** [Load] reports an error exactly for a list without workers or for the
    default secret. *)
Lemma Load_error (env : environment) :
  (Load env).2 = None <-> Workers (settings env) <> [] /\ JWTSecret (settings env) <> default_secret.
Proof.
  unfold Load. cbn [snd]. destruct (Workers (settings env)) eqn:Ew; [naive_solver|].
  destruct (String.eqb_spec (JWTSecret (settings env)) default_secret); naive_solver.
Qed.
