(* ===== verification/ScriptFiles.v ===== *)
(** * The scripts the workers download: scripts.go

    The three files that are served, the path they are opened under, with
    [filepath.Clean], [Join] and [Rel], and the reply.  The theorem is that the
    check of the path never refuses one of the three names, whatever the
    directory of the scripts is called, and that what is opened is that file of
    that directory. *)

From S2P Require Export Prelude GoStrings Json.

Open Scope Z_scope.
Open Scope go_scope.

(** ** [path/filepath] *)

(** One element of a path, on the elements so far, the last first. *)
Definition clean_step (rooted : bool) (acc : list string) (seg : string) : list string :=
  if String.eqb seg "" || String.eqb seg "." then acc
  else if String.eqb seg ".." then
    match acc with
    | x :: acc' => if String.eqb x ".." then seg :: acc else acc'
    | [] => if rooted then [] else [seg]
    end
  else seg :: acc.

Definition slash : Ascii.ascii := chr 47.

(** Whether a path is rooted, and its clean elements. *)
Definition clean_parts (path : string) : bool * list string :=
  let rooted := has_prefix path "/" in
  (rooted, rev (foldl (clean_step rooted) [] (split_on slash path))).

Definition path_of (parts : bool * list string) : string :=
  match parts with
  | (false, []) => "."
  | (rooted, segs) => (if rooted then "/" else "") +:+ GoStrings.join "/" segs
  end.

Definition Clean (path : string) : string := path_of (clean_parts path).

(** [Join] of a directory that is not empty. *)
Definition Join (dir name : string) : string := Clean (dir +:+ "/" +:+ name).

Fixpoint drop_common (base targ : list string) : list string * list string :=
  match base, targ with
  | b :: base', t :: targ' => if String.eqb b t then drop_common base' targ' else (base, targ)
  | _, _ => (base, targ)
  end.

Definition Rel (basepath targpath : string) : option string :=
  let '(broot, base) := clean_parts basepath in
  let '(troot, targ) := clean_parts targpath in
  if String.eqb (Clean targpath) (Clean basepath) then Some "."
  else if negb (Bool.eqb broot troot) then None
  else match drop_common base targ with
       | (".." :: _, _) => None
       | (up, down) => Some (GoStrings.join "/" (map (fun _ => "..") up ++ down))
       end.

(** ** The handler *)

Definition allowedScriptFiles : list (string * string) :=
  [("current-test.js", "application/javascript"); ("config.json", "application/json"); ("k6-env.sh", "text/x-shellscript")].

(** What opening a file yields. *)
Inductive opened := Opened (content : string) | NotExist | OpenError.

Inductive script_reply :=
  | ScriptError (msg : string) (code : Z)
  | ScriptFile (contentType content : string).

Definition content_type (filename : string) : option string :=
  snd <$> find (fun f : string * string => String.eqb f.1 filename) allowedScriptFiles.

Definition script_path (scriptsDir filename : string) : string := Clean (Join (Clean scriptsDir) filename).

(** [..] or a path that begins with it. *)
Definition outside (rel : string) : bool := String.eqb rel ".." || has_prefix rel "../".

Definition ServeScript (scriptsDir : string) (open : string -> opened) (filename : string) : script_reply :=
  match content_type filename with
  | None => ScriptError "not found" 404
  | Some contentType =>
    let cleanDir := Clean scriptsDir in
    let cleanPath := script_path scriptsDir filename in
    match Rel cleanDir cleanPath with
    | None => ScriptError "internal error" 500
    | Some rel =>
      if outside rel then ScriptError "forbidden" 403
      else match open cleanPath with
           | NotExist => ScriptError "not found" 404
           | OpenError => ScriptError "internal error" 500
           | Opened content => ScriptFile contentType content
           end
    end
  end.

(** ** Clean paths *)

Definition no_slash : string -> Prop := lacks slash.

(** An element a clean path can have. *)
Definition element (s : string) : Prop := s <> "" /\ s <> "." /\ no_slash s.

Lemma split_on_slashless s : Forall no_slash (split_on slash s).
Proof.
  induction s as [|c s IH]; cbn [split_on]; [by repeat constructor|].
  destruct (Ascii.eqb_spec c slash) as [->|Hc]; [by constructor; [constructor|]|].
  destruct (split_on slash s) as [|w ws]; [by repeat constructor|]. inversion IH; subst.
  constructor; [|done]. by constructor.
Qed.

(** Elements that cleaning leaves as they are, the last first. *)
Definition normal (rooted : bool) (acc : list string) : Prop :=
  foldl (clean_step rooted) [] (rev acc) = acc /\ Forall element acc.

Lemma clean_step_push rooted acc seg : seg <> "" -> seg <> "." -> seg <> ".." -> clean_step rooted acc seg = seg :: acc.
Proof. intros H1 H2 H3. unfold clean_step. by rewrite !(proj2 (String.eqb_neq _ _)) by done. Qed.

Lemma normal_step rooted acc seg : normal rooted acc -> no_slash seg -> normal rooted (clean_step rooted acc seg).
Proof.
  intros [Hf He] Hs. unfold clean_step. destruct (String.eqb_spec seg "") as [->|H1]; [done|].
  destruct (String.eqb_spec seg ".") as [->|H2]; [done|]. cbn [orb].
  assert (Hpush : clean_step rooted acc seg = seg :: acc -> normal rooted (seg :: acc)).
  { intros E. split; [|by constructor]. cbn [rev]. by rewrite foldl_app, Hf. }
  destruct (String.eqb_spec seg "..") as [->|H3]; [|by apply Hpush, clean_step_push].
  destruct acc as [|x acc].
  - destruct rooted; [done|]. by apply Hpush.
  - destruct (String.eqb_spec x "..") as [->|Hx]; [by apply Hpush|].
    inversion He as [|? ? (Hx1 & Hx2 & _) He']; subst. cbn [rev] in Hf. rewrite foldl_app in Hf. cbn [foldl] in Hf.
    rewrite clean_step_push in Hf by done. injection Hf as Hf. by split.
Qed.

Lemma normal_fold rooted segs acc : normal rooted acc -> Forall no_slash segs ->
  normal rooted (foldl (clean_step rooted) acc segs).
Proof. intros Ha Hs. revert acc Ha. induction Hs as [|s segs Hs _ IH]; intros acc Ha; [done|]. by apply IH, normal_step. Qed.

(** ** Texts of paths *)

Lemma split_segments segs : segs <> [] -> Forall no_slash segs -> split_on slash (GoStrings.join "/" segs) = segs.
Proof.
  intros Hne Hs. induction Hs as [|s segs Hs Hss IH]; [done|]. clear Hne. unfold GoStrings.join in *.
  destruct segs as [|s' segs].
  - cbn [String.concat]. by apply split_on_alone.
  - change (String.concat "/" (s :: s' :: segs)) with (s +:+ String slash (String.concat "/" (s' :: segs))).
    by rewrite split_on_lacks, IH.
Qed.

(** What cleaning yields: elements in normal form, none with a slash. *)
Lemma clean_parts_normal path : normal (clean_parts path).1 (rev (clean_parts path).2).
Proof.
  unfold clean_parts. cbn [fst snd]. rewrite rev_involutive. apply normal_fold; [|apply split_on_slashless].
  split; [done|constructor].
Qed.

Lemma has_prefix_slash t : has_prefix (String slash t) "/" = true.
Proof. unfold has_prefix. cbn. by destruct t. Qed.

Lemma has_prefix_other c t : c <> slash -> has_prefix (String c t) "/" = false.
Proof.
  intros Hc. unfold has_prefix. cbn [String.prefix].
  match goal with |- context [Ascii.ascii_dec ?a c] => destruct (Ascii.ascii_dec a c) as [<-|]; [by destruct Hc|done] end.
Qed.

Lemma split_rooted l : l <> [] -> Forall no_slash l -> split_on slash ("/" +:+ GoStrings.join "/" l) = "" :: l.
Proof.
  intros Hne Hl. change ("/" +:+ GoStrings.join "/" l) with (String slash (GoStrings.join "/" l)). cbn [split_on].
  by rewrite Ascii.eqb_refl, split_segments.
Qed.

(** A path written from its elements, the first of which is one of a clean
    path. *)
Lemma parts_text rooted s l : element s -> Forall no_slash l ->
  clean_parts ((if rooted : bool then "/" else "") +:+ GoStrings.join "/" (s :: l)) =
  (rooted, rev (foldl (clean_step rooted) [] (s :: l))).
Proof.
  intros (H1 & _ & H3) Hl. assert (Hall : Forall no_slash (s :: l)) by by constructor.
  unfold clean_parts. destruct rooted.
  - rewrite split_rooted by done. change ("/" +:+ GoStrings.join "/" (s :: l)) with (String slash (GoStrings.join "/" (s :: l))).
    rewrite has_prefix_slash. reflexivity.
  - change ("" +:+ GoStrings.join "/" (s :: l)) with (GoStrings.join "/" (s :: l)). rewrite split_segments by done.
    assert (has_prefix (GoStrings.join "/" (s :: l)) "/" = false) as ->; [|done].
    destruct s as [|c s]; [done|]. unfold no_slash in H3. cbn [String.list_ascii_of_string] in H3.
    inversion H3 as [|? ? Hc _]; subst. assert (exists t, GoStrings.join "/" (String c s :: l) = String c t) as [t ->].
    { unfold GoStrings.join. destruct l; eexists; reflexivity. }
    by apply has_prefix_other.
Qed.

Lemma normal_elements rooted segs : normal rooted (rev segs) -> Forall element segs /\ foldl (clean_step rooted) [] segs = rev segs.
Proof. intros [Hf He]. rewrite rev_involutive in Hf. apply Forall_rev in He. by rewrite rev_involutive in He. Qed.

Lemma element_slashless l : Forall element l -> Forall no_slash l.
Proof. intros Hl. eapply Forall_impl; [exact Hl|]. by intros x (_ & _ & Hx). Qed.

(** A clean path stays as it is. *)
Lemma parts_of_clean rooted segs : normal rooted (rev segs) -> segs <> [] -> clean_parts (path_of (rooted, segs)) = (rooted, segs).
Proof.
  intros Hn Hne. destruct (normal_elements _ _ Hn) as [He Hf]. destruct segs as [|s segs]; [done|]. inversion He; subst.
  assert (path_of (rooted, s :: segs) = (if rooted then "/" else "") +:+ GoStrings.join "/" (s :: segs)) as -> by by destruct rooted.
  rewrite parts_text by (done || by apply element_slashless). by rewrite Hf, rev_involutive.
Qed.

Lemma join_app l more : l <> [] -> more <> [] ->
  GoStrings.join "/" l +:+ "/" +:+ GoStrings.join "/" more = GoStrings.join "/" (l ++ more).
Proof.
  unfold GoStrings.join. destruct l as [|s l]; [done|]. intros _ Hne. revert s. induction l as [|t l IH]; intros s.
  - destruct more; [done|]. reflexivity.
  - change (String.concat "/" (s :: t :: l)) with (s +:+ "/" +:+ String.concat "/" (t :: l)).
    change (String.concat "/" ((s :: t :: l) ++ more)) with (s +:+ "/" +:+ String.concat "/" ((t :: l) ++ more)).
    by rewrite <- IH, !string_app_assoc.
Qed.

(** A name behind a clean path. *)
Lemma parts_of_join rooted segs name : normal rooted (rev segs) -> element name ->
  clean_parts (path_of (rooted, segs) +:+ "/" +:+ name) = (rooted, rev (clean_step rooted (rev segs) name)).
Proof.
  intros Hn Hname. destruct (normal_elements _ _ Hn) as [He Hf]. pose proof Hname as (_ & _ & Hs).
  destruct segs as [|s segs].
  - assert (Hsplit : split_on slash name = [name]) by (apply (split_segments [name]); [done|by constructor]).
    unfold clean_parts, path_of. destruct rooted.
    + change (("/" +:+ GoStrings.join "/" []) +:+ "/" +:+ name) with (String slash (String slash name)).
      rewrite has_prefix_slash. cbn [split_on]. rewrite Ascii.eqb_refl, Hsplit. reflexivity.
    + change ("." +:+ "/" +:+ name) with (String (chr 46) (String slash name)). cbn [split_on].
      rewrite Ascii.eqb_refl, Hsplit. reflexivity.
  - inversion He as [|? ? Hes Hess]; subst.
    assert (path_of (rooted, s :: segs) = (if rooted then "/" else "") +:+ GoStrings.join "/" (s :: segs)) as -> by by destruct rooted.
    rewrite string_app_assoc. pose proof (join_app (s :: segs) [name]) as Hj.
    change (GoStrings.join "/" [name]) with name in Hj. rewrite Hj by done.
    change ((s :: segs) ++ [name]) with (s :: (segs ++ [name])). rewrite parts_text; [|done|].
    + change (s :: (segs ++ [name])) with ((s :: segs) ++ [name]). rewrite foldl_app, Hf. reflexivity.
    + apply Forall_app. split; [by apply element_slashless|by constructor].
Qed.

(** ** What is served *)

Definition file_name (f : string) : Prop := element f /\ f <> "..".

Lemma allowed_file_name f : is_Some (content_type f) -> file_name f.
Proof.
  unfold content_type. intros [ct Hct]. apply fmap_Some in Hct as ([name ct'] & Hf & _). apply find_some in Hf as [Hin Hf].
  cbn [fst] in Hf. apply String.eqb_eq in Hf as <-. unfold allowedScriptFiles in Hin. cbn [In] in Hin.
  assert (Hok : forall s, forallb (fun c => negb (Ascii.eqb c slash)) (String.list_ascii_of_string s) = true -> no_slash s).
  { intros s Hs. apply Forall_forall. intros c Hc. rewrite forallb_forall in Hs. apply list_elem_of_In, Hs in Hc.
    apply negb_true_iff, Ascii.eqb_neq in Hc. exact Hc. }
  destruct Hin as [E|[E|[E|[]]]]; injection E as <- <-; (split; [split_and!; [done..|by apply Hok]|done]).
Qed.

Lemma drop_common_app l r : drop_common l (l ++ r) = ([], r).
Proof. induction l as [|s l IH]; [by destruct r|]. cbn [drop_common app]. by rewrite String.eqb_refl. Qed.

Lemma path_of_inj rooted segs f : path_of (rooted, segs ++ [f]) = path_of (rooted, segs) ->
  normal rooted (rev (segs ++ [f])) -> normal rooted (rev segs) -> False.
Proof.
  intros E H1 H2. pose proof (parts_of_clean _ _ H1) as P1. rewrite E in P1.
  assert (segs ++ [f] <> []) as Hne by by destruct segs. specialize (P1 Hne). destruct segs as [|s segs].
  - destruct rooted; cbn in P1; discriminate.
  - rewrite (parts_of_clean _ _ H2) in P1 by done. injection P1 as P1. apply (f_equal length) in P1.
    cbn [length app] in P1. rewrite length_app in P1. cbn [length] in P1. lia.
Qed.

(** A request for one of the three names opens that file of the directory of
    the scripts, whatever the directory is called, and the reply is that of the
    file; the check of the path refuses nothing.  Every other name is not
    found. *)
Theorem ServeScript_spec scriptsDir open filename :
  let '(rooted, segs) := clean_parts scriptsDir in
  ServeScript scriptsDir open filename =
    match content_type filename with
    | None => ScriptError "not found" 404
    | Some contentType =>
      match open (path_of (rooted, segs ++ [filename])) with
      | NotExist => ScriptError "not found" 404
      | OpenError => ScriptError "internal error" 500
      | Opened content => ScriptFile contentType content
      end
    end.
Proof.
  pose proof (clean_parts_normal scriptsDir) as Hn. destruct (clean_parts scriptsDir) as [rooted segs] eqn:Ep.
  cbn [fst snd] in Hn. unfold ServeScript. destruct (content_type filename) as [ct|] eqn:Ec; [|done].
  destruct (allowed_file_name filename) as [Hel Hdd]; [by rewrite Ec|]. pose proof Hel as (Hne & Hnd & Hns).
  assert (Hclean : Clean scriptsDir = path_of (rooted, segs)) by (unfold Clean; by rewrite Ep).
  assert (Hpush : clean_step rooted (rev segs) filename = rev (segs ++ [filename])).
  { rewrite clean_step_push by done. by rewrite rev_unit. }
  assert (Hn' : normal rooted (rev (segs ++ [filename]))) by (rewrite <- Hpush; by apply normal_step).
  assert (Hjoin : Join (path_of (rooted, segs)) filename = path_of (rooted, segs ++ [filename])).
  { unfold Join, Clean. by rewrite parts_of_join, Hpush, rev_involutive. }
  assert (Htarg : clean_parts (path_of (rooted, segs ++ [filename])) = (rooted, segs ++ [filename])).
  { apply parts_of_clean; [done|by destruct segs]. }
  assert (Hpath : script_path scriptsDir filename = path_of (rooted, segs ++ [filename])).
  { unfold script_path. rewrite Hclean, Hjoin. unfold Clean. by rewrite Htarg. }
  rewrite Hpath, Hclean.
  assert (Hbase : clean_parts (path_of (rooted, segs)) = (rooted, segs)).
  { destruct segs as [|s segs]; [by destruct rooted|by apply parts_of_clean]. }
  assert (Hrel : Rel (path_of (rooted, segs)) (path_of (rooted, segs ++ [filename])) = Some filename).
  { unfold Rel, Clean. rewrite Hbase, Htarg.
    destruct (String.eqb_spec (path_of (rooted, segs ++ [filename])) (path_of (rooted, segs))) as [E|_].
    - exfalso. by eapply path_of_inj.
    - rewrite Bool.eqb_reflx, drop_common_app. reflexivity. }
  rewrite Hrel. assert (outside filename = false) as ->; [|done].
  unfold outside. rewrite (proj2 (String.eqb_neq _ _) Hdd). cbn [orb].
  unfold content_type in Ec. apply fmap_Some in Ec as ([name ct'] & Hf & _). apply find_some in Hf as [Hin Hf].
  cbn [fst] in Hf. apply String.eqb_eq in Hf as <-. unfold allowedScriptFiles in Hin. cbn [In] in Hin.
  destruct Hin as [E|[E|[E|[]]]]; by injection E as <- <-.
Qed.

Example serve_ex :
  map (fun d => script_path d "config.json") ["/scripts"; "scripts/"; "."; "/"; ""; "../a/./b/.."; "/.."] =
  ["/scripts/config.json"; "scripts/config.json"; "config.json"; "/config.json"; "config.json"; "../a/config.json"; "/config.json"] /\
  ServeScript "/scripts" (fun _ => Opened "x") "../etc/passwd" = ScriptError "not found" 404 /\
  Rel "/a/b" "/a/c/d" = Some "../c/d" /\ Rel "/a" "b" = None /\ Rel "../a" "b" = None /\ Rel "a" "a/" = Some ".".
Proof. vm_compute. split_and!; reflexivity. Qed.
