(* ===== verification/Users.v ===== *)
(** * Users and reset tokens in the database

    The statements of [controller/internal/store/store.go] on [users] and
    [password_reset_tokens], with the numbers the administration shows per
    user.  A transaction that does not commit leaves its tables as they were.

    What a text column compares equal to is the server's collation, a parameter
    (names that differ in case or accents are the same to utf8mb4_0900_ai_ci);
    token hashes are hexadecimal text, which no collation confuses with other
    such text, so they compare as texts. *)

From S2P Require Export Prelude Programs GoStrings GoTime Json Model Store LoadTests Templates.

Open Scope Z_scope.
Open Scope go_scope.

(** ** Data *)

Record User := mkUser {
  u_ID : Z; u_Username : string; u_Email : string; u_HashedPassword : string; u_Role : string;
  u_MustChangePassword : bool; u_CreatedAt : Time; u_UpdatedAt : Time
}.

#[export] Instance eta_User : Eta User := fun u =>
  mkUser (u_ID u) (u_Username u) (u_Email u) (u_HashedPassword u) (u_Role u) (u_MustChangePassword u)
    (u_CreatedAt u) (u_UpdatedAt u).

Record PasswordResetToken := mkToken {
  tk_ID : Z; tk_UserID : Z; tk_TokenHash : string; tk_ExpiresAt : Time; tk_UsedAt : option Time; tk_CreatedAt : Time
}.

#[export] Instance eta_PasswordResetToken : Eta PasswordResetToken := fun t =>
  mkToken (tk_ID t) (tk_UserID t) (tk_TokenHash t) (tk_ExpiresAt t) (tk_UsedAt t) (tk_CreatedAt t).

Record AdminUserMetrics := mkUserMetrics {
  um_TotalTests : Z; um_CompletedTests : Z; um_FailedTests : Z; um_TotalSchedules : Z; um_ActiveSchedules : Z;
  um_TotalTemplates : Z; um_LastTestAt : option Time
}.

Definition zero_UserMetrics : AdminUserMetrics := mkUserMetrics 0 0 0 0 0 0 None.

(** A row of the listing of users. *)
Record AdminUserRow := mkUserRow { ur_User : User; ur_Metrics : AdminUserMetrics }.

Record AccountWorld := mkAccountWorld {
  aw_world : World;                             (* schedules, faults, clocks *)
  aw_users : gmap Z User;                       (* key: column id *)
  aw_next_user : Z;                             (* AUTO_INCREMENT of users *)
  aw_tokens : gmap Z PasswordResetToken;        (* key: column id *)
  aw_next_token : Z;
  aw_tests : gmap string LoadTest;
  aw_templates : gmap string TestTemplate;
  aw_drawn : nat;                               (* random numbers drawn so far *)
  aw_smtp : list (option string);               (* outcome of the next mails: the error, if any *)
  aw_sent : list (string * string);             (* recipients and texts of the mails *)
  aw_logged : list (Z * string)                 (* reset links in the log: user, link *)
}.

#[export] Instance eta_AccountWorld : Eta AccountWorld := fun w =>
  mkAccountWorld (aw_world w) (aw_users w) (aw_next_user w) (aw_tokens w) (aw_next_token w) (aw_tests w)
    (aw_templates w) (aw_drawn w) (aw_smtp w) (aw_sent w) (aw_logged w).

Class Collation := {
  collate : string -> string -> bool;
  collate_refl : forall s, collate s s = true;
  collate_sym : forall s t, collate s t = collate t s
}.

(** ** Statements *)

(** The rows of a table with numeric keys. *)
Definition records {A} (table : gmap Z A) : list A := (map_to_list table).*2.

Definition account_now (w : AccountWorld) : Time := now (aw_world w).
Definition account_sql_now (w : AccountWorld) : Time := mkTime (sql_now (w_db_now (aw_world w))) UTC.

(** A DATETIME column holds whole seconds; MySQL rounds. *)
Definition datetime (t : Time) : Time := mkTime ((unix_ns t + 500000000) / Second * Second) UTC.

(** A statement fails when the world says so, and then has no effect. *)
Definition run_account_sql {A} (context : string) (stmt : AccountWorld -> res A * AccountWorld)
  : ST AccountWorld (res A) := fun w =>
  match w_faults (aw_world w) with
  | Some msg :: fs => (Err (context +:+ msg), w <| aw_world := (aw_world w) <| w_faults := fs |> |>)
  | None :: fs => stmt (w <| aw_world := (aw_world w) <| w_faults := fs |> |>)
  | [] => stmt w
  end.

(** What the body of a transaction ends with: an error, a result without a
    commit, a result to be committed. *)
Inductive tx_end (A : Type) : Type :=
  | TxErr (msg : string)
  | TxRollback (a : A)
  | TxCommit (a : A).
Arguments TxErr {A} msg.
Arguments TxRollback {A} a.
Arguments TxCommit {A} a.

(** The tables as they were; counters of AUTO_INCREMENT are not taken back. *)
Definition rollback (before after : AccountWorld) : AccountWorld :=
  after <| aw_users := aw_users before |> <| aw_tokens := aw_tokens before |>.

Definition begin_tx (context : string) : ST AccountWorld (res unit) := run_account_sql context (fun w => (Ok tt, w)).

Definition end_tx {A} (commit_context : string) (before : AccountWorld) (e : tx_end A) : ST AccountWorld (res A) := fun w =>
  match e with
  | TxErr msg => (Err msg, rollback before w)
  | TxRollback a => (Ok a, rollback before w)
  | TxCommit a =>
    match run_account_sql commit_context (fun w => (Ok tt, w)) w with
    | (Err msg, w') => (Err msg, rollback before w')
    | (Ok _, w') => (Ok a, w')
    end
  end.

Section statements.
Context `{Collation} `{RowOrder}.

(** The unique keys on username and email. *)
Definition duplicate_user (u : User) (users : gmap Z User) : bool :=
  existsb (fun v => collate (u_Username v) (u_Username u) || collate (u_Email v) (u_Email u)) (records users).

Definition CreateUser (u : User) : ST AccountWorld (res User) :=
  run_account_sql "create user: " (fun w =>
    let id := aw_next_user w in
    let w := w <| aw_next_user := id + 1 |> in
    if duplicate_user u (aw_users w) then (Err "create user: Duplicate entry", w)
    else (Ok (u <| u_ID := id |>),
          w <| aw_users := <[id := u <| u_ID := id |> <| u_CreatedAt := account_sql_now w |>
                                     <| u_UpdatedAt := account_sql_now w |>]> (aw_users w) |>)).

(** A row of the query, in whatever order the server reads them. *)
Definition first_user (p : User -> bool) (w : AccountWorld) : option User :=
  head (order_by (fun _ => 0) (List.filter p (records (aw_users w)))).

Definition GetUserByUsername (username : string) : ST AccountWorld (res (option User)) :=
  run_account_sql "get user by username: " (fun w =>
    (Ok (first_user (fun u => collate (u_Username u) username) w), w)).

Definition GetUserByIdentifier (identifier : string) : ST AccountWorld (res (option User)) :=
  run_account_sql "get user by identifier: " (fun w =>
    (Ok (first_user (fun u => collate (u_Username u) identifier || collate (u_Email u) identifier) w), w)).

Definition GetUserByID (id : Z) : ST AccountWorld (res (option User)) :=
  run_account_sql "get user by id: " (fun w => (Ok (aw_users w !! id), w)).

(** ON UPDATE CURRENT_TIMESTAMP: the time moves when the row changes. *)
Definition set_password (hashed : string) (must_change : bool) (at_ : Time) (u : User) : User :=
  if String.eqb (u_HashedPassword u) hashed && Bool.eqb (u_MustChangePassword u) must_change then u
  else u <| u_HashedPassword := hashed |> <| u_MustChangePassword := must_change |> <| u_UpdatedAt := at_ |>.

Definition store_password (hashed : string) (must_change : bool) (id : Z) (w : AccountWorld) : AccountWorld :=
  w <| aw_users := alter (set_password hashed must_change (account_sql_now w)) id (aw_users w) |>.

Definition UpdatePassword (userID : Z) (hashedPassword : string) : ST AccountWorld (res unit) :=
  run_account_sql "update password: " (fun w => (Ok tt, store_password hashedPassword false userID w)).

Definition AdminResetPassword (userID : Z) (hashedPassword : string) : ST AccountWorld (res unit) :=
  run_account_sql "admin reset password: " (fun w => (Ok tt, store_password hashedPassword true userID w)).

(** ** Reset tokens *)

Definition unused (t : PasswordResetToken) : bool := match tk_UsedAt t with None => true | Some _ => false end.

Definition clear_unused (userID : Z) (tokens : gmap Z PasswordResetToken) : gmap Z PasswordResetToken :=
  filter (fun kv : Z * PasswordResetToken => negb ((tk_UserID kv.2 =? userID) && unused kv.2) = true) tokens.

Definition has_hash (hash : string) (tokens : gmap Z PasswordResetToken) : bool :=
  existsb (fun t => String.eqb (tk_TokenHash t) hash) (records tokens).

(** The foreign key and the unique key of the table. *)
Definition insert_token (token : PasswordResetToken) (w : AccountWorld) : res Z * AccountWorld :=
  let id := aw_next_token w in
  let w := w <| aw_next_token := id + 1 |> in
  match aw_users w !! tk_UserID token with
  | None => (Err "create password reset token: Cannot add or update a child row", w)
  | Some _ =>
    if has_hash (tk_TokenHash token) (aw_tokens w) then (Err "create password reset token: Duplicate entry", w)
    else (Ok id, w <| aw_tokens :=
            <[id := token <| tk_ID := id |> <| tk_ExpiresAt := datetime (tk_ExpiresAt token) |> <| tk_UsedAt := None |>
                          <| tk_CreatedAt := account_sql_now w |>]> (aw_tokens w) |>)
  end.

Definition token_body (token : PasswordResetToken) : ST AccountWorld (tx_end PasswordResetToken) :=
  cleared ← run_account_sql "clear existing password reset tokens: " (fun w =>
    (Ok tt, w <| aw_tokens := clear_unused (tk_UserID token) (aw_tokens w) |>));
  match cleared with
  | Err msg => mret (TxErr msg)
  | Ok _ =>
    inserted ← run_account_sql "create password reset token: " (insert_token token);
    mret match inserted with Err msg => TxErr msg | Ok id => TxCommit (token <| tk_ID := id |>) end
  end.

Definition CreatePasswordResetToken (token : PasswordResetToken) : ST AccountWorld (res PasswordResetToken) :=
  begun ← begin_tx "begin password reset token tx: ";
  match begun with
  | Err msg => mret (Err msg)
  | Ok _ =>
    before ← st_get;
    e ← token_body token;
    end_tx "commit password reset token tx: " before e
  end.

Definition token_of (hash : string) (tokens : gmap Z PasswordResetToken) : option PasswordResetToken :=
  head (List.filter (fun t => String.eqb (tk_TokenHash t) hash) (records tokens)).

Definition mark_used (hash : string) (at_ : Time) (tokens : gmap Z PasswordResetToken) : gmap Z PasswordResetToken :=
  (fun t => if String.eqb (tk_TokenHash t) hash then t <| tk_UsedAt := Some (datetime at_) |> else t) <$> tokens.

(** The first part of a reset: the token that [SELECT] finds, if it still opens
    the account of its user. *)
Definition load_reset_token (tokenHash : string) : ST AccountWorld (res (option Z)) :=
  begun ← begin_tx "begin password reset tx: ";
  match begun with
  | Err msg => mret (Err msg)
  | Ok _ =>
    run_account_sql "load password reset token: " (fun w =>
      (Ok match token_of tokenHash (aw_tokens w) with
          | None => None
          | Some t => if negb (unused t) || after (account_now w) (tk_ExpiresAt t) then None else Some (tk_UserID t)
          end, w))
  end.

(** The second part: the first UPDATE locks the row of the user until the
    transaction ends, so that two resets of one user run it one after the
    other; neither reads the token again. *)
Definition apply_reset (tokenHash hashedPassword : string) (userID : Z) : ST AccountWorld (res (option User)) :=
  before ← st_get;
  updated ← run_account_sql "update password from reset token: " (fun w =>
    (Ok tt, store_password hashedPassword false userID w));
  match updated with
  | Err msg => end_tx "" before (TxErr msg)
  | Ok _ =>
    marked ← run_account_sql "mark password reset token used: " (fun w =>
      (Ok tt, w <| aw_tokens := mark_used tokenHash (account_now w) (aw_tokens w) |>));
    match marked with
    | Err msg => end_tx "" before (TxErr msg)
    | Ok _ =>
      found ← run_account_sql "load updated user after password reset: " (fun w =>
        (match aw_users w !! userID with
         | None => Err "load updated user after password reset: sql: no rows in result set"
         | Some u => Ok u
         end, w));
      end_tx "commit password reset tx: " before match found with Err msg => TxErr msg | Ok u => TxCommit (Some u) end
    end
  end.

(** Two actions, between which another request may act. *)
Definition ResetPasswordWithToken (tokenHash hashedPassword : string) : prog AccountWorld (res (option User)) :=
  loaded ← act (load_reset_token tokenHash);
  match loaded with
  | Err msg => mret (Err msg)
  | Ok None => mret (Ok None)
  | Ok (Some userID) => act (apply_reset tokenHash hashedPassword userID)
  end.

(** ** Numbers *)

Definition count {A} (p : A -> bool) (l : list A) : Z := Z.of_nat (length (List.filter p l)).

Definition latest (l : list Time) : option Time :=
  foldr (fun t m => match m with None => Some t | Some u => Some (if before u t then t else u) end) None l.

Definition user_metrics (w : AccountWorld) (id : Z) : AdminUserMetrics :=
  let tests := rows_where (fun t => lt_UserID t =? id) (aw_tests w) in
  let schedules := rows_where (fun s => sch_UserID s =? id) (scheduled_tests (w_db (aw_world w))) in
  let has_status l s := existsb (String.eqb s) l in
  mkUserMetrics (count (fun _ => true) tests) (count (fun t => has_status ["completed"] (lt_Status t)) tests)
    (count (fun t => has_status ["failed"; "aborted"; "stopped"] (lt_Status t)) tests)
    (count (fun _ => true) schedules)
    (count (fun s => has_status ["scheduled"; "running"] (sch_Status s) && negb (sch_Paused s)) schedules)
    (count (fun _ => true) (rows_where (fun t => tt_UserID t =? id) (aw_templates w)))
    (latest (map lt_CreatedAt tests)).

Definition GetUserMetricsByID (userID : Z) : ST AccountWorld (res AdminUserMetrics) :=
  run_account_sql "get user metrics by id: " (fun w =>
    (Ok match aw_users w !! userID with Some _ => user_metrics w userID | None => zero_UserMetrics end, w)).

Definition ListUsers : ST AccountWorld (res (list AdminUserRow)) :=
  run_account_sql "list users: " (fun w =>
    (Ok (map (fun u => mkUserRow (u <| u_HashedPassword := "" |>) (user_metrics w (u_ID u)))
           (order_by (fun u => - unix_ns (u_CreatedAt u)) (records (aw_users w)))), w)).

Definition UserCount : ST AccountWorld (res Z) :=
  run_account_sql "" (fun w => (Ok (Z.of_nat (size (aw_users w))), w)).

(** The initial administrator, when there is nobody else. *)
Definition EnsureAdmin (username email hashedPassword : string) : ST AccountWorld (res unit) :=
  counted ← UserCount;
  match counted with
  | Err msg => mret (Err msg)
  | Ok count =>
    if 0 <? count then mret (Ok tt)
    else
      created ← CreateUser (mkUser 0 username email hashedPassword "admin" false zero_time zero_time);
      mret match created with Err msg => Err msg | Ok _ => Ok tt end
  end.
End statements.
