(* ===== verification/Accounts.v ===== *)
(** * Sign-in, passwords and user administration

    [controller/internal/handler/auth.go] and the middleware of
    [controller/internal/middleware/auth.go]: every handler from a decoded body
    to a status and a body, and the routes with the checks in front of them.
    The password hash (bcrypt) and the signed tokens (golang-jwt) are other
    people's code and parameters; digests of reset tokens are SHA-256.

    Responses never hold a password hash: the field is left out of JSON
    ([json:"-"]), so the body of a user is [public] of it. *)

From S2P Require Export Prelude Programs GoStrings GoTime Json Store Sha256 Users.
From S2P Require Import ScheduleHandler.

Open Scope Z_scope.
Open Scope go_scope.

(** ** Other people's code *)

Class Bcrypt := {
  GenerateFromPassword : nat -> string -> res string;       (* the number selects the salt *)
  CompareHashAndPassword : string -> string -> bool;
  bcrypt_compares : forall salt password hash,
    GenerateFromPassword salt password = Ok hash -> CompareHashAndPassword hash password = true
}.

(** Signing with HS256, and parsing with a key function that accepts the HMAC
    methods only, at a time in ns. *)
Class JwtLibrary := {
  SignedString : string -> list (string * json) -> res string;
  ParseHMAC : string -> string -> Z -> option (list (string * json))
}.

(** [crypto/rand]: the bytes and numbers it gives, by how many were drawn. *)
Class Entropy := {
  rand_read : nat -> nat -> res (list Z);
  rand_int : nat -> Z -> res Z;
  rand_read_bytes : forall k n l, rand_read k n = Ok l -> length l = n /\ Forall is_byte l;
  rand_int_range : forall k max v, rand_int k max = Ok v -> 0 <= v < max
}.

(** ** Requests and responses *)

Record CreateUserRequest := mkCreateUser { cu_Username : string; cu_Email : string; cu_Password : string; cu_Role : string }.

(** A user as JSON shows it. *)
Record public_user := mkPublic {
  pu_ID : Z; pu_Username : string; pu_Email : string; pu_Role : string; pu_MustChangePassword : bool;
  pu_CreatedAt : Time; pu_UpdatedAt : Time
}.

Definition public (u : User) : public_user :=
  mkPublic (u_ID u) (u_Username u) (u_Email u) (u_Role u) (u_MustChangePassword u) (u_CreatedAt u) (u_UpdatedAt u).

Inductive account_body :=
  | AError (msg : string)
  | AMessage (msg : string)
  | ALogin (token : string) (user : public_user)
  | AUsers (users : list (public_user * AdminUserMetrics))
  | AProfile (user : public_user) (metrics : AdminUserMetrics)
  | AUser (user : public_user)
  | AUpdated (msg : string) (user : public_user)
  | AReset (msg temporary : string) (user : public_user).

Record account_response := mkAccountResponse { acr_code : Z; acr_body : account_body }.

Definition account_error (msg : string) (code : Z) : account_response := mkAccountResponse code (AError msg).
Definition internal_error : account_response := account_error "internal error" 500.

Record AuthHandler := mkAuthHandler {
  ah_jwtSecret : string;
  ah_publicAppURL : string;
  ah_passwordResetTokenTTL : Z;
  ah_smtpHost : string; ah_smtpPort : Z; ah_smtpUser : string; ah_smtpPassword : string;
  ah_smtpFromEmail : string; ah_smtpFromName : string
}.

#[export] Instance eta_AuthHandler : Eta AuthHandler := fun h =>
  mkAuthHandler (ah_jwtSecret h) (ah_publicAppURL h) (ah_passwordResetTokenTTL h) (ah_smtpHost h) (ah_smtpPort h)
    (ah_smtpUser h) (ah_smtpPassword h) (ah_smtpFromEmail h) (ah_smtpFromName h).

(** [strings.TrimRight(s, "/")]. *)
Fixpoint trim_slashes (s : string) : string :=
  match s with
  | EmptyString => ""
  | String c s' =>
    match trim_slashes s' with
    | EmptyString => if byte_of c =? 47 then "" else String c ""
    | t => String c t
    end
  end.

(** [NewAuthHandler] on the options as they are given. *)
Definition NewAuthHandler (opts : AuthHandler) : AuthHandler :=
  opts <| ah_publicAppURL := trim_slashes (ah_publicAppURL opts) |>.

(** ** Texts of the mail *)

Definition day_names : list string := ["Thu"; "Fri"; "Sat"; "Sun"; "Mon"; "Tue"; "Wed"].
Definition month_names : list string :=
  ["Jan"; "Feb"; "Mar"; "Apr"; "May"; "Jun"; "Jul"; "Aug"; "Sep"; "Oct"; "Nov"; "Dec"].

(** [t.Format(time.RFC1123)] for a time in UTC. *)
Definition format_rfc1123 (t : Time) : string :=
  let '(y, m, d) := date_of t in
  let '(hh, mm, ss) := clock_of t in
  nth (Z.to_nat (local_sec t / 86400 mod 7)) day_names "" +:+ ", " +:+ pad2 d +:+ " " +:+
  nth (Z.to_nat (m - 1)) month_names "" +:+ " " +:+ pad4 y +:+ " " +:+ pad2 hh +:+ ":" +:+ pad2 mm +:+ ":" +:+
  pad2 ss +:+ " UTC".

Definition crlf : string := String (chr 13) (String (chr 10) "").

Definition formatEmailAddress (name email : string) : string :=
  let trimmedName := trim_space name in
  if String.eqb trimmedName "" then email else trimmedName +:+ " <" +:+ email +:+ ">".

Definition reset_mail (h : AuthHandler) (fromAddress : string) (user : User) (resetURL : string) (expiresAt : Time) : string :=
  GoStrings.join crlf ["From: " +:+ formatEmailAddress (ah_smtpFromName h) fromAddress; "To: " +:+ u_Email user;
             "Subject: Password reset request"; "MIME-Version: 1.0"; "Content-Type: text/plain; charset=UTF-8"] +:+
  crlf +:+ crlf +:+
  "Hello " +:+ u_Username user +:+ "," +:+ crlf +:+ crlf +:+ "Use the following link to reset your password:" +:+ crlf +:+
  resetURL +:+ crlf +:+ crlf +:+ "The link expires at " +:+ format_rfc1123 expiresAt +:+ "." +:+ crlf +:+
  "If you did not request this change, you can ignore this email." +:+ crlf.

Definition buildPasswordResetURL (h : AuthHandler) (token : string) : string :=
  let baseURL := if String.eqb (ah_publicAppURL h) "" then "http://localhost:3000" else ah_publicAppURL h in
  trim_slashes baseURL +:+ "/reset-password?token=" +:+ token.

Definition effectivePasswordResetTTL (h : AuthHandler) : Z :=
  if ah_passwordResetTokenTTL h <=? 0 then 30 * Minute else ah_passwordResetTokenTTL h.

(** [smtp.SendMail]. *)
Definition send_mail (to text : string) : ST AccountWorld (res unit) := fun w =>
  match aw_smtp w with
  | Some msg :: l => (Err msg, w <| aw_smtp := l |>)
  | l => (Ok tt, w <| aw_smtp := tail l |> <| aw_sent := aw_sent w ++ [(to, text)] |>)
  end.

Definition sendPasswordResetEmail (h : AuthHandler) (user : User) (resetURL : string) (expiresAt : Time)
  : ST AccountWorld (res unit) :=
  let fromAddress := trim_space (ah_smtpFromEmail h) in
  if String.eqb fromAddress "" then mret (Err "smtp from email is required")
  else send_mail (u_Email user) (reset_mail h fromAddress user resetURL expiresAt).

Definition deliverPasswordReset (h : AuthHandler) (user : User) (resetURL : string) (expiresAt : Time)
  : ST AccountWorld (res unit) :=
  if blank (ah_smtpHost h)
  then st_modify (fun w => w <| aw_logged := aw_logged w ++ [(u_ID user, resetURL)] |>);; mret (Ok tt)
  else sendPasswordResetEmail h user resetURL expiresAt.

(** ** Secrets *)

Definition tempPasswordAlphabet : string := "ABCDEFGHJKLMNPQRSTUVWXYZabcdefghijkmnopqrstuvwxyz23456789".

Definition hashResetToken (token : string) : string := hex (sha256 (string_bytes token)).

Section handlers.
Context `{Collation} `{RowOrder} `{Bcrypt} `{JwtLibrary} `{Entropy} (h : AuthHandler).

Definition draw {A} (f : nat -> res A) : ST AccountWorld (res A) := fun w =>
  (f (aw_drawn w), w <| aw_drawn := S (aw_drawn w) |>).

Definition generateResetToken : ST AccountWorld (res (string * string)) :=
  raw ← draw (fun k => rand_read k 32);
  mret match raw with
       | Err e => Err e
       | Ok raw => Ok (hex raw, hashResetToken (hex raw))
       end.

Fixpoint draw_chars (n : nat) : ST AccountWorld (res string) :=
  match n with
  | O => mret (Ok "")
  | S n =>
    drawn ← draw (fun k => rand_int k (Z.of_nat (String.length tempPasswordAlphabet)));
    match drawn with
    | Err e => mret (Err e)
    | Ok v =>
      rest ← draw_chars n;
      mret match rest, String.get (Z.to_nat v) tempPasswordAlphabet with
           | Ok s, Some c => Ok (String c s)
           | Ok _, None => Err "index out of range"
           | Err e, _ => Err e
           end
    end
  end.

Definition generateTemporaryPassword (length : Z) : ST AccountWorld (res string) :=
  if length <=? 0 then mret (Err "invalid temp password length") else draw_chars (Z.to_nat length).

Definition HashPassword (password : string) : ST AccountWorld (res string) :=
  draw (fun k => GenerateFromPassword k password).

Definition login_claims (user : User) (t : Time) : list (string * json) :=
  [("sub", JStr (itoa (u_ID user))); ("username", JStr (u_Username user)); ("role", JStr (u_Role user));
   ("exp", JNum (itoa (unix_sec (add t (24 * Hour))))); ("iat", JNum (itoa (unix_sec t)))].

Definition generateToken (user : User) (w : AccountWorld) : res string :=
  SignedString (ah_jwtSecret h) (login_claims user (account_now w)).

(** ** Handlers

    A handler is a program: between two of its statements other requests may
    act.  A transaction is one action, unless its first statement only reads. *)

Definition Login (body : option (string * string)) : prog AccountWorld account_response :=
  match body with
  | None => mret (account_error "invalid request body" 400)
  | Some (username, password) =>
    found ← act (GetUserByUsername username);
    match found with
    | Err _ => mret internal_error
    | Ok None => mret (account_error "invalid credentials" 401)
    | Ok (Some user) =>
      if negb (CompareHashAndPassword (u_HashedPassword user) password)
      then mret (account_error "invalid credentials" 401)
      else
        w ← act st_get;
        mret match generateToken user w with
             | Err _ => internal_error
             | Ok token => mkAccountResponse 200 (ALogin token (public user))
             end
    end
  end.

Definition ListUsers : prog AccountWorld account_response :=
  listed ← act Users.ListUsers;
  mret match listed with
       | Err _ => internal_error
       | Ok rows => mkAccountResponse 200 (AUsers (map (fun r => (public (ur_User r), ur_Metrics r)) rows))
       end.

Definition GetProfileSummary (userID : Z) : prog AccountWorld account_response :=
  found ← act (GetUserByID userID);
  match found with
  | Err _ => mret internal_error
  | Ok None => mret (account_error "user not found" 404)
  | Ok (Some user) =>
    metrics ← act (GetUserMetricsByID userID);
    mret match metrics with
         | Err _ => internal_error
         | Ok metrics => mkAccountResponse 200 (AProfile (public user) metrics)
         end
  end.

Definition CreateUser (body : option CreateUserRequest) : prog AccountWorld account_response :=
  match body with
  | None => mret (account_error "invalid request body" 400)
  | Some req =>
    if String.eqb (cu_Username req) "" || String.eqb (cu_Email req) "" || String.eqb (cu_Password req) ""
    then mret (account_error "username, email and password are required" 400)
    else
      let role := if String.eqb (cu_Role req) "" then "user" else cu_Role req in
      hashed ← act (HashPassword (cu_Password req));
      match hashed with
      | Err _ => mret internal_error
      | Ok hashed =>
        created ← act (Users.CreateUser (mkUser 0 (cu_Username req) (cu_Email req) hashed role false zero_time zero_time));
        mret match created with
             | Err e => account_error ("could not create user: " +:+ e) 409
             | Ok user => mkAccountResponse 201 (AUser (public user))
             end
      end
  end.

Definition UpdatePassword (userID : Z) (body : option (string * string)) : prog AccountWorld account_response :=
  match body with
  | None => mret (account_error "invalid request body" 400)
  | Some (oldPassword, newPassword) =>
    found ← act (GetUserByID userID);
    match found with
    | Err _ | Ok None => mret (account_error "user not found" 404)
    | Ok (Some user) =>
      if negb (CompareHashAndPassword (u_HashedPassword user) oldPassword)
      then mret (account_error "current password is incorrect" 401)
      else
        hashed ← act (HashPassword newPassword);
        match hashed with
        | Err _ => mret internal_error
        | Ok hashed =>
          updated ← act (Users.UpdatePassword userID hashed);
          mret match updated with
               | Err _ => internal_error
               | Ok _ => mkAccountResponse 200
                           (AUpdated "password updated" (public (user <| u_MustChangePassword := false |>)))
               end
        end
    end
  end.

Definition forgot_message : account_response :=
  mkAccountResponse 200 (AMessage "If an account matches that identifier, a password reset link has been sent.").

(** The token, its row and its delivery. *)
Definition issue_reset (user : User) : prog AccountWorld account_response :=
  tokens ← act generateResetToken;
  match tokens with
  | Err _ => mret internal_error
  | Ok (rawToken, tokenHash) =>
    w ← act st_get;
    let expiresAt := add (to_utc (account_now w)) (effectivePasswordResetTTL h) in
    created ← act (CreatePasswordResetToken (mkToken 0 (u_ID user) tokenHash expiresAt None zero_time));
    match created with
    | Err _ => mret internal_error
    | Ok _ =>
      delivered ← act (deliverPasswordReset h user (buildPasswordResetURL h rawToken) expiresAt);
      mret match delivered with Err _ => internal_error | Ok _ => forgot_message end
    end
  end.

Definition ForgotPassword (body : option string) : prog AccountWorld account_response :=
  match body with
  | None => mret (account_error "invalid request body" 400)
  | Some identifier =>
    let identifier := trim_space identifier in
    if String.eqb identifier "" then mret forgot_message
    else
      found ← act (GetUserByIdentifier identifier);
      match found with
      | Err _ => mret internal_error
      | Ok None => mret forgot_message
      | Ok (Some user) => issue_reset user
      end
  end.

Definition reset_answer (done : res (option User)) : account_response :=
  match done with
  | Err _ => internal_error
  | Ok None => account_error "invalid or expired reset token" 400
  | Ok (Some _) => mkAccountResponse 200 (AMessage "password reset successful")
  end.

Definition CompletePasswordReset (body : option (string * string)) : prog AccountWorld account_response :=
  match body with
  | None => mret (account_error "invalid request body" 400)
  | Some (token, newPassword) =>
    if blank token || blank newPassword then mret (account_error "token and new password are required" 400)
    else
      hashed ← act (HashPassword newPassword);
      match hashed with
      | Err _ => mret internal_error
      | Ok hashed =>
        done ← ResetPasswordWithToken (hashResetToken token) hashed;
        mret (reset_answer done)
      end
  end.

Definition ResetUserPassword (id : string) : prog AccountWorld account_response :=
  match atoi id with
  | None => mret (account_error "invalid user id" 400)
  | Some userID =>
    if userID <=? 0 then mret (account_error "invalid user id" 400)
    else
      found ← act (GetUserByID userID);
      match found with
      | Err _ => mret internal_error
      | Ok None => mret (account_error "user not found" 404)
      | Ok (Some user) =>
        temp ← act (generateTemporaryPassword 14);
        match temp with
        | Err _ => mret internal_error
        | Ok tempPassword =>
          hashed ← act (HashPassword tempPassword);
          match hashed with
          | Err _ => mret internal_error
          | Ok hashed =>
            updated ← act (AdminResetPassword userID hashed);
            mret match updated with
                 | Err _ => internal_error
                 | Ok _ => mkAccountResponse 200
                             (AReset "password reset" tempPassword (public (user <| u_MustChangePassword := true |>)))
                 end
          end
        end
      end
  end.

(** ** The middleware *)

Definition claim (claims : list (string * json)) (key : string) : string :=
  match as_string (jget key claims) with Some s => s | None => "" end.

(** [strconv.ParseInt] with its error ignored: a number that does not fit gives
    the nearest that does, anything else zero. *)
Definition parse_int_ignoring (s : string) : Z :=
  match parse_int s with
  | Some z => Z.max i64_min (Z.min i64_max z)
  | None => 0
  end.

Definition JWTAuth (secret : string) (authHeader : string) (t : Time) : caller + account_response :=
  if String.eqb authHeader "" then inr (account_error "missing authorization header" 401)
  else
    match split_first (chr 32) authHeader with
    | None => inr (account_error "invalid authorization format" 401)
    | Some (scheme, token) =>
      if negb (String.eqb (Templates.to_lower scheme) "bearer")
      then inr (account_error "invalid authorization format" 401)
      else
        match ParseHMAC secret token (unix_ns t) with
        | None => inr (account_error "invalid token" 401)
        | Some claims =>
          inl (mkCaller (parse_int_ignoring (claim claims "sub")) (claim claims "username") (claim claims "role"))
        end
    end.

Definition APIKeyAuth (apiKey key : string) : option account_response :=
  if String.eqb apiKey "" then None
  else if negb (String.eqb key apiKey) then Some (account_error "invalid api key" 403) else None.

(** ** The routes *)

Record http_request := mkHttp { hr_authorization : string; hr_api_key : string }.

Inductive account_route :=
  | ALoginRoute (body : option (string * string))
  | AForgot (body : option string)
  | AComplete (body : option (string * string))
  | AProfileRoute
  | AUpdatePassword (body : option (string * string))
  | AListUsers
  | ACreateUser (body : option CreateUserRequest)
  | AResetUser (id : string).

(** The checks of the protected group. *)
Definition signed_in (apiKey : string) (r : http_request) (w : AccountWorld) : caller + account_response :=
  match JWTAuth (ah_jwtSecret h) (hr_authorization r) (account_now w) with
  | inr e => inr e
  | inl c => match APIKeyAuth apiKey (hr_api_key r) with Some e => inr e | None => inl c end
  end.

Definition require_admin (c : caller) (next : prog AccountWorld account_response) : prog AccountWorld account_response :=
  if negb (String.eqb (c_Role c) "admin") then mret (account_error "admin access required" 403) else next.

Definition protected (apiKey : string) (r : http_request) (next : caller -> prog AccountWorld account_response)
  : prog AccountWorld account_response :=
  w ← act st_get;
  match signed_in apiKey r w with
  | inr e => mret e
  | inl c => next c
  end.

Definition serve_account (apiKey : string) (r : http_request) (route : account_route) : prog AccountWorld account_response :=
  match route with
  | ALoginRoute body => Login body
  | AForgot body => ForgotPassword body
  | AComplete body => CompletePasswordReset body
  | AProfileRoute => protected apiKey r (fun c => GetProfileSummary (c_UserID c))
  | AUpdatePassword body => protected apiKey r (fun c => UpdatePassword (c_UserID c) body)
  | AListUsers => protected apiKey r (fun c => require_admin c ListUsers)
  | ACreateUser body => protected apiKey r (fun c => require_admin c (CreateUser body))
  | AResetUser id => protected apiKey r (fun c => require_admin c (ResetUserPassword id))
  end.
End handlers.
