(* ===== verification/AccountsSpec.v ===== *)
(** * What the account API keeps

    Who may change a password and what a request may do to the users, whatever
    the database answers; the shape of the two tables, which every interleaving
    of requests keeps; and how often a reset token opens an account. *)

From S2P Require Import Prelude Programs GoStrings GoTime Json JsonText Store Sha256 Users ScheduleHandler Accounts.

Open Scope Z_scope.
Open Scope go_scope.

(** ** Statements and programs *)

(** Nothing but faults, random numbers and mail has changed. *)
Record same (w w' : AccountWorld) : Prop := mkSame {
  same_users : aw_users w' = aw_users w;
  same_tokens : aw_tokens w' = aw_tokens w;
  same_next_user : aw_next_user w' = aw_next_user w;
  same_next_token : aw_next_token w' = aw_next_token w;
  same_now : account_now w' = account_now w
}.

#[export] Instance same_preorder : PreOrder same.
Proof.
  split; [by intros w; split|]. intros w1 w2 w3 [? ? ? ? ?] [? ? ? ? ?]. split; by etrans.
Qed.

(** What holds of the result and the state when the program runs alone. *)
Definition ends {A} (p : prog AccountWorld A) (w : AccountWorld) (Q : A -> AccountWorld -> Prop) : Prop :=
  let '(a, w') := run p w in Q a w'.

Lemma ends_ret {A} (a : A) w (Q : A -> AccountWorld -> Prop) : Q a w -> ends (mret a) w Q.
Proof. done. Qed.

Lemma ends_bind {A B} (p : prog AccountWorld A) (g : A -> prog AccountWorld B) w Q :
  ends p w (fun a w' => ends (g a) w' Q) -> ends (p ≫= g) w Q.
Proof. unfold ends. rewrite run_bind. by destruct (run p w). Qed.

(** The same for a computation that nothing interrupts. *)
Definition wp {A} (m : ST AccountWorld A) (w : AccountWorld) (Q : A -> AccountWorld -> Prop) : Prop := Q (m w).1 (m w).2.

Lemma wp_ret {A} (a : A) w (Q : A -> AccountWorld -> Prop) : Q a w -> wp (mret a) w Q.
Proof. done. Qed.

Lemma wp_bind {A B} (m : ST AccountWorld A) (g : A -> ST AccountWorld B) w Q :
  wp m w (fun a w' => wp (g a) w' Q) -> wp (m ≫= g) w Q.
Proof. unfold wp, mbind, ST_bind. by destruct (m w). Qed.

Lemma wp_get w (Q : AccountWorld -> AccountWorld -> Prop) : Q w w -> wp st_get w Q.
Proof. done. Qed.

Lemma ends_act {A} (m : ST AccountWorld A) w (Q : A -> AccountWorld -> Prop) : wp m w Q -> ends (act m) w Q.
Proof. unfold ends, wp. rewrite run_act. by destruct (m w). Qed.

Lemma ends_impl {A} (p : prog AccountWorld A) w (Q Q' : A -> AccountWorld -> Prop) :
  ends p w Q -> (forall a w', Q a w' -> Q' a w') -> ends p w Q'.
Proof. unfold ends. destruct (run p w). auto. Qed.

(** A statement: it fails, or it has its effect. *)
Lemma wp_sql {A} ctx (stmt : AccountWorld -> res A * AccountWorld) w (Q : res A -> AccountWorld -> Prop) :
  (forall msg w1, same w w1 -> Q (Err msg) w1) ->
  (forall w1, same w w1 -> Q (stmt w1).1 (stmt w1).2) -> wp (run_account_sql ctx stmt) w Q.
Proof.
  intros He Hs. unfold wp, run_account_sql.
  destruct (w_faults (aw_world w)) as [|[msg|] fs]; [apply Hs|apply He|apply Hs]; by split.
Qed.

(** A query. *)
Lemma wp_query {A} ctx (f : AccountWorld -> A) w Q :
  (forall r w1, same w w1 -> (forall a, r = Ok a -> a = f w1) -> Q r w1) ->
  wp (run_account_sql ctx (fun w => (Ok (f w), w))) w Q.
Proof. intros HQ. apply wp_sql; intros; apply HQ; try done. intros a [= <-]. done. Qed.

Lemma wp_draw {A} (f : nat -> res A) w Q : (forall w1, same w w1 -> Q (f (aw_drawn w)) w1) -> wp (draw f) w Q.
Proof. intros HQ. apply HQ. by split. Qed.

(** ** Changes of the users *)

Definition identity (u : User) := (u_ID u, u_Username u, u_Email u, u_Role u, u_CreatedAt u).
Definition credentials (u : User) := (u_HashedPassword u, u_MustChangePassword u).

(** Users stay, with their names and roles; credentials change for the users of
    [own] only; users are added only if [create]. *)
Record changes (own : Z -> Prop) (create : Prop) (w w' : AccountWorld) : Prop := mkChanges {
  ch_kept : forall id u, aw_users w !! id = Some u -> exists u', aw_users w' !! id = Some u' /\
    identity u' = identity u /\ (credentials u' = credentials u \/ own id);
  ch_new : forall id u, aw_users w' !! id = Some u -> aw_users w !! id = None -> create
}.

Lemma changes_none own create w w' : aw_users w' = aw_users w -> changes own create w w'.
Proof. intros E. split; rewrite E; [intros id u Hu; exists u; auto|congruence]. Qed.

Lemma changes_same own create w w' : same w w' -> changes own create w w'.
Proof. intros Hs. by apply changes_none, same_users. Qed.

Lemma set_password_identity hashed must at_ u : identity (set_password hashed must at_ u) = identity u.
Proof. unfold set_password. by destruct (_ && _). Qed.

Lemma set_password_credentials hashed must at_ u : credentials (set_password hashed must at_ u) = (hashed, must).
Proof.
  unfold set_password, credentials. destruct (_ && _) eqn:E; [|done].
  apply andb_true_iff in E as [E1%String.eqb_eq E2%Bool.eqb_prop]. by rewrite E1, E2.
Qed.

Lemma changes_password (own : Z -> Prop) create w w' id hashed must at_ :
  own id -> aw_users w' = alter (set_password hashed must at_) id (aw_users w) -> changes own create w w'.
Proof.
  intros Ho E. split; rewrite E.
  - intros id' u Hu. destruct (decide (id' = id)) as [->|Hne].
    + eexists. rewrite lookup_alter_eq, Hu. cbn. split; [done|]. split; [apply set_password_identity|by right].
    + exists u. rewrite lookup_alter_ne by done. auto.
  - intros id' u Hu Hn. destruct (decide (id' = id)) as [->|Hne].
    + rewrite lookup_alter_eq, Hn in Hu. done.
    + rewrite lookup_alter_ne in Hu by done. congruence.
Qed.

Lemma changes_insert own (create : Prop) w w' id u :
  create -> aw_users w !! id = None -> aw_users w' = <[id := u]> (aw_users w) -> changes own create w w'.
Proof.
  intros Hc Hn E. split; rewrite E; [|done]. intros id' u' Hu. exists u'. split; [|auto].
  rewrite lookup_insert_ne; [done|]. congruence.
Qed.

(** ** The tables *)

Section wf.
Context `{Collation}.

Definition clash (u v : User) : bool :=
  collate (u_Username v) (u_Username u) || collate (u_Email v) (u_Email u).

Record accounts_wf (w : AccountWorld) : Prop := mkAccountsWf {
  wf_ids : forall id u, aw_users w !! id = Some u -> u_ID u = id /\ id < aw_next_user w;
  wf_names : forall id u id' u', aw_users w !! id = Some u -> aw_users w !! id' = Some u' -> id <> id' -> clash u u' = false;
  wf_token_ids : forall id t, aw_tokens w !! id = Some t -> tk_ID t = id /\ id < aw_next_token w;
  wf_owner : forall id t, aw_tokens w !! id = Some t -> is_Some (aw_users w !! tk_UserID t);
  wf_hashes : forall id t id' t', aw_tokens w !! id = Some t -> aw_tokens w !! id' = Some t' ->
    tk_TokenHash t = tk_TokenHash t' -> id = id';
  wf_one_unused : forall id t id' t', aw_tokens w !! id = Some t -> aw_tokens w !! id' = Some t' ->
    unused t = true -> unused t' = true -> tk_UserID t = tk_UserID t' -> id = id'
}.

Lemma wf_same w w' : same w w' -> accounts_wf w -> accounts_wf w'.
Proof. intros [E1 E2 E3 E4 _] [? ? ? ? ? ?]. split; rewrite ?E1, ?E2, ?E3, ?E4; done. Qed.

Lemma users_fresh w : accounts_wf w -> aw_users w !! aw_next_user w = None.
Proof. intros Hw. destruct (_ !! _) as [u|] eqn:E; [|done]. apply (wf_ids _ Hw) in E. lia. Qed.

Lemma tokens_fresh w : accounts_wf w -> aw_tokens w !! aw_next_token w = None.
Proof. intros Hw. destruct (_ !! _) as [t|] eqn:E; [|done]. apply (wf_token_ids _ Hw) in E. lia. Qed.

Lemma elem_of_records {A} (m : gmap Z A) (a : A) : a ∈ records m <-> exists id, m !! id = Some a.
Proof.
  unfold records. rewrite list_elem_of_fmap. split.
  - intros ([id a'] & -> & Hin%elem_of_map_to_list). by exists id.
  - intros [id Hl]. exists (id, a). split; [done|]. by apply elem_of_map_to_list.
Qed.

Lemma existsb_records {A} (m : gmap Z A) (p : A -> bool) id a : existsb p (records m) = false -> m !! id = Some a -> p a = false.
Proof.
  intros Hp Hl. destruct (p a) eqn:E; [|done].
  assert (Hx : existsb p (records m) = true); [|congruence].
  apply existsb_exists. exists a. split; [|done]. apply list_elem_of_In, elem_of_records. eauto.
Qed.

(** A row of a changed password is a row that differs in nothing the other
    tables know. *)
Lemma wf_password hashed must id w : accounts_wf w -> accounts_wf (store_password hashed must id w).
Proof.
  intros Hw. unfold store_password. set (f := set_password hashed must (account_sql_now w)).
  assert (Hl : forall id' u', alter f id (aw_users w) !! id' = Some u' ->
    exists u, aw_users w !! id' = Some u /\ identity u' = identity u).
  { intros id' u' Hu. destruct (decide (id' = id)) as [->|Hne].
    - rewrite lookup_alter_eq in Hu. destruct (aw_users w !! id) as [u|]; [|done]. cbn in Hu. simplify_eq.
      exists u. split; [done|apply set_password_identity].
    - rewrite lookup_alter_ne in Hu by done. eauto. }
  destruct Hw as [H1 H2 H3 H4 H5 H6]. split; cbn; try done.
  - intros id' u' (u & Hu & E)%Hl. injection E as -> _ _ _ _. by apply H1.
  - intros id1 u1 id2 u2 (v1 & Hv1 & E1)%Hl (v2 & Hv2 & E2)%Hl Hne. specialize (H2 _ _ _ _ Hv1 Hv2 Hne).
    unfold identity in *. injection E1 as _ E11 E12 _ _. injection E2 as _ E21 E22 _ _. unfold clash in *. congruence.
  - intros id' t Ht. destruct (decide (tk_UserID t = id)) as [E|Hne].
    + rewrite E, lookup_alter_eq. apply fmap_is_Some. rewrite <- E. eauto.
    + rewrite lookup_alter_ne by done. eauto.
Qed.

(** Fewer tokens. *)
Lemma wf_fewer_tokens w tokens :
  accounts_wf w -> tokens ⊆ aw_tokens w -> accounts_wf (w <| aw_tokens := tokens |>).
Proof.
  intros [H1 H2 H3 H4 H5 H6] Hs. assert (Hl : forall id t, tokens !! id = Some t -> aw_tokens w !! id = Some t)
    by (intros; by eapply lookup_weaken). split; cbn; eauto.
Qed.

Lemma clear_unused_subseteq userID tokens : clear_unused userID tokens ⊆ tokens.
Proof. apply map_filter_subseteq. Qed.

Lemma lookup_clear_unused userID tokens id t :
  clear_unused userID tokens !! id = Some t <->
  tokens !! id = Some t /\ (tk_UserID t =? userID) && unused t = false.
Proof. unfold clear_unused. rewrite map_lookup_filter_Some. cbn. by rewrite negb_true_iff. Qed.

(** A new token, when its user has no unused one. *)
Lemma wf_insert_token w token :
  accounts_wf w -> (forall id t, aw_tokens w !! id = Some t -> tk_UserID t = tk_UserID token -> unused t = false) ->
  accounts_wf (insert_token token w).2.
Proof.
  intros Hw Hu. pose proof (tokens_fresh w Hw) as Hfresh. unfold insert_token.
  destruct Hw as [H1 H2 H3 H4 H5 H6].
  assert (Hbase : accounts_wf (w <| aw_next_token := aw_next_token w + 1 |>)).
  { split; cbn; try done. intros id t Ht. specialize (H3 _ _ Ht). lia. }
  cbv zeta. change (aw_users (w <| aw_next_token := aw_next_token w + 1 |>)) with (aw_users w).
  change (aw_tokens (w <| aw_next_token := aw_next_token w + 1 |>)) with (aw_tokens w).
  destruct (aw_users w !! tk_UserID token) as [u|] eqn:Eu; [|exact Hbase].
  destruct (has_hash (tk_TokenHash token) _) eqn:Eh; [exact Hbase|].
  assert (Hh : forall id t, aw_tokens w !! id = Some t -> tk_TokenHash t <> tk_TokenHash token).
  { intros id t Ht E. unfold has_hash in Eh. pose proof (existsb_records _ _ _ _ Eh Ht) as Hx. cbn in Hx.
    by rewrite E, String.eqb_refl in Hx. }
  split; cbn; try done.
  - intros id t [[<- <-]|[_ Ht]]%lookup_insert_Some; cbn; [lia|]. specialize (H3 _ _ Ht). lia.
  - intros id t [[<- <-]|[_ Ht]]%lookup_insert_Some; cbn; [by rewrite Eu|eauto].
  - intros id t id' t' [[<- <-]|[_ Ht]]%lookup_insert_Some [[<- <-]|[_ Ht']]%lookup_insert_Some; cbn; intros E; [done| | |eauto].
    + by destruct (Hh _ _ Ht').
    + by destruct (Hh _ _ Ht).
  - intros id t id' t' [[<- <-]|[_ Ht]]%lookup_insert_Some [[<- <-]|[_ Ht']]%lookup_insert_Some; cbn; intros U U' E; [done| | |eauto].
    + rewrite (Hu _ _ Ht') in U'; done.
    + rewrite (Hu _ _ Ht) in U; done.
Qed.

Lemma wf_mark_used hash at_ w : accounts_wf w -> accounts_wf (w <| aw_tokens := mark_used hash at_ (aw_tokens w) |>).
Proof.
  intros [H1 H2 H3 H4 H5 H6].
  assert (Hl : forall id t, mark_used hash at_ (aw_tokens w) !! id = Some t -> exists t0, aw_tokens w !! id = Some t0 /\
    tk_ID t = tk_ID t0 /\ tk_UserID t = tk_UserID t0 /\ tk_TokenHash t = tk_TokenHash t0 /\ (unused t = true -> unused t0 = true)).
  { intros id t (t0 & <- & Ht0)%lookup_fmap_Some. exists t0. by destruct (String.eqb _ _). }
  split; cbn; try done.
  - intros id t (t0 & Ht & -> & _)%Hl. by apply H3.
  - intros id t (t0 & Ht & _ & -> & _)%Hl. by apply (H4 id).
  - intros id t id' t' (t0 & Ht & _ & _ & -> & _)%Hl (t1 & Ht1 & _ & _ & -> & _)%Hl. by apply H5.
  - intros id t id' t' (t0 & Ht & _ & -> & _ & Hu)%Hl (t1 & Ht1 & _ & -> & _ & Hu1)%Hl U U'. apply H6; auto.
Qed.

Lemma wf_rollback w w' :
  accounts_wf w -> aw_next_user w <= aw_next_user w' -> aw_next_token w <= aw_next_token w' -> accounts_wf (rollback w w').
Proof.
  intros [H1 H2 H3 H4 H5 H6] Hu Ht. split; cbn; try done; intros id x Hx.
  - specialize (H1 _ _ Hx). lia.
  - specialize (H3 _ _ Hx). lia.
Qed.

Lemma wf_insert_user w u :
  accounts_wf w -> duplicate_user u (aw_users w) = false ->
  accounts_wf (w <| aw_next_user := aw_next_user w + 1 |>
                 <| aw_users := <[aw_next_user w := u <| u_ID := aw_next_user w |> <| u_CreatedAt := account_sql_now w |>
                                                      <| u_UpdatedAt := account_sql_now w |>]> (aw_users w) |>).
Proof.
  intros Hw Hd. pose proof (users_fresh w Hw) as Hfresh. destruct Hw as [H1 H2 H3 H4 H5 H6].
  assert (Hc : forall id v, aw_users w !! id = Some v -> collate (u_Username v) (u_Username u) || collate (u_Email v) (u_Email u) = false).
  { intros id v Hv. unfold duplicate_user in Hd. exact (existsb_records _ _ _ _ Hd Hv). }
  split; cbn; try done.
  - intros id v [[<- <-]|[_ Hv]]%lookup_insert_Some; cbn; [lia|]. specialize (H1 _ _ Hv). lia.
  - intros id v id' v' [[<- <-]|[_ Hv]]%lookup_insert_Some [[<- <-]|[_ Hv']]%lookup_insert_Some Hne; unfold clash; cbn; [done| | |by eapply H2].
    + apply Hc in Hv'. done.
    + apply Hc in Hv. by rewrite (collate_sym (u_Username u)), (collate_sym (u_Email u)).
  - intros id t Ht. destruct (H4 _ _ Ht) as [v Hv]. destruct (decide (tk_UserID t = aw_next_user w)) as [E|Hne]; [rewrite E in Hv; congruence|].
    rewrite lookup_insert_ne by done. eauto.
Qed.
End wf.

(** ** Transactions *)

Section transactions.
Context `{Collation} `{RowOrder}.

(** What remains of a transaction without a commit. *)
Record undone (w w' : AccountWorld) : Prop := mkUndone {
  un_users : aw_users w' = aw_users w;
  un_tokens : aw_tokens w' = aw_tokens w;
  un_next_user : aw_next_user w <= aw_next_user w';
  un_next_token : aw_next_token w <= aw_next_token w'
}.

Lemma undone_same w w' : same w w' -> undone w w'.
Proof. intros [? ? ? ? _]. split; try done; lia. Qed.

Lemma wf_undone w w' : undone w w' -> accounts_wf w -> accounts_wf w'.
Proof.
  intros [E1 E2 H1 H2] Hw. apply (wf_rollback w w') in Hw; [|done..].
  destruct Hw. split; rewrite ?E1, ?E2; cbn in *; done.
Qed.

Lemma wp_end_tx {A} ctx before (e : tx_end A) w (Q : res A -> AccountWorld -> Prop) :
  (forall r w', aw_users w' = aw_users before -> aw_tokens w' = aw_tokens before -> aw_next_user w' = aw_next_user w ->
     aw_next_token w' = aw_next_token w -> (forall a, r = Ok a -> e = TxRollback a) -> Q r w') ->
  (forall a w', e = TxCommit a -> same w w' -> Q (Ok a) w') -> wp (end_tx ctx before e) w Q.
Proof.
  intros Hu Hc. unfold wp, end_tx. destruct e as [msg|a|a].
  - apply Hu; done.
  - apply Hu; try done. by intros ? [= <-].
  - pose proof (wp_sql ctx (fun w => (Ok tt, w)) w (fun r w' =>
      match r with Err _ => same w w' | Ok _ => same w w' end)) as Hs. unfold wp in Hs.
    destruct (run_account_sql _ _ w) as [[u|msg] w'] eqn:E; cbn in Hs |- *.
    + apply Hc; [done|]. apply Hs; auto.
    + assert (Hw : same w w') by (apply Hs; auto). destruct Hw. apply Hu; try done.
Qed.

Lemma insert_token_keeps token w :
  let '(r, w') := insert_token token w in
  aw_users w' = aw_users w /\ aw_next_user w' = aw_next_user w /\ aw_next_token w' = aw_next_token w + 1 /\
  account_now w' = account_now w.
Proof.
  unfold insert_token. cbv zeta. destruct (aw_users _ !! tk_UserID token); [|done].
  by destruct (has_hash _ _).
Qed.

(** The insertion of a token: all or nothing. *)
Lemma wp_create_token token w Q :
  (forall msg w', undone w w' -> Q (Err msg) w') ->
  (forall id w1 w2 w', same (w <| aw_tokens := clear_unused (tk_UserID token) (aw_tokens w) |>) w1 ->
     insert_token token w1 = (Ok id, w2) -> same w2 w' -> Q (Ok (token <| tk_ID := id |>)) w') ->
  wp (CreatePasswordResetToken token) w Q.
Proof.
  intros He Ho. unfold CreatePasswordResetToken, begin_tx. apply wp_bind, wp_sql; [intros msg w1 S1|intros w1 S1].
  { apply wp_ret, He. by apply undone_same. }
  cbn [fst snd]. apply wp_bind, wp_get, wp_bind. unfold token_body.
  assert (Hfail : forall e w2, (forall a, e <> TxRollback a) -> (forall a, e <> TxCommit a) ->
    aw_next_user w1 <= aw_next_user w2 -> aw_next_token w1 <= aw_next_token w2 ->
    wp (end_tx "commit password reset token tx: " w1 e) w2 Q).
  { intros e w2 Hr Hc Hu Ht. apply wp_end_tx; [|intros a w' E; by destruct (Hc a)].
    intros [a|msg] w' E1 E2 E3 E4 Hr'; [by destruct (Hr a); apply Hr'|]. apply He. destruct S1. split; congruence || lia. }
  apply wp_bind, wp_sql; [intros msg w2 S2|intros w2 S2].
  { apply wp_ret, Hfail; [done..| |]; destruct S2; lia. }
  cbn [fst snd]. set (w3 := w2 <| aw_tokens := _ |>).
  apply wp_bind, wp_sql; [intros msg w4 S4|intros w4 S4].
  { apply wp_ret, Hfail; [done..| |]; destruct S2, S4; cbn in *; lia. }
  pose proof (insert_token_keeps token w4) as Hk. destruct (insert_token token w4) as [[id|msg] w5] eqn:Ei;
    cbn [fst snd]; destruct Hk as (K1 & K2 & K3 & K4); apply wp_ret.
  - apply wp_end_tx.
    + intros r w' E1 E2 E3 E4 Hr. destruct r as [a|msg]; [by specialize (Hr a eq_refl)|].
      apply He. destruct S1, S2, S4. split; cbn in *; congruence || lia.
    + intros a w' [= <-] S5. apply (Ho id w4 w5 w'); [|done..].
      etrans; [|exact S4]. subst w3. destruct S1, S2. split; unfold account_now in *; cbn in *; congruence.
  - apply Hfail; [done..| |]; destruct S2, S4; cbn in *; lia.
Qed.

Lemma wf_create_token token w : accounts_wf w -> wp (CreatePasswordResetToken token) w (fun _ w' => accounts_wf w').
Proof.
  intros Hw. apply wp_create_token; [intros msg w' Hu; by eapply wf_undone|].
  intros id w1 w2 w' S1 Hi S2. apply (wf_same w2); [done|].
  change w2 with (Ok id, w2).2. rewrite <- Hi. apply wf_insert_token.
  - eapply wf_same; [exact S1|]. apply wf_fewer_tokens; [done|apply clear_unused_subseteq].
  - intros k t Ht Hk. destruct S1 as [_ E _ _ _]. rewrite E in Ht. cbn in Ht.
    apply lookup_clear_unused in Ht as [_ Hu]. rewrite Hk, Z.eqb_refl in Hu. done.
Qed.

(** The update of the password with the token: all or nothing. *)
Lemma wp_apply_reset hash hashed userID w Q :
  (forall msg w', undone w w' -> Q (Err msg) w') ->
  (forall w1 u w', same w w1 -> aw_users (store_password hashed false userID w1) !! userID = Some u ->
     same ((store_password hashed false userID w1) <| aw_tokens := mark_used hash (account_now w) (aw_tokens w) |>) w' ->
     Q (Ok (Some u)) w') ->
  wp (apply_reset hash hashed userID) w Q.
Proof.
  intros He Ho. unfold apply_reset. apply wp_bind, wp_get, wp_bind.
  assert (Hfail : forall ctx msg w1, aw_next_user w <= aw_next_user w1 -> aw_next_token w <= aw_next_token w1 ->
    wp (end_tx ctx w (TxErr msg)) w1 Q).
  { intros ctx msg w1 Hu Ht. apply wp_end_tx; [|done]. intros [a|e] w' E1 E2 E3 E4 Hr; [by specialize (Hr a eq_refl)|].
    apply He. split; congruence || lia. }
  apply wp_sql; [intros msg w1 S1|intros w1 S1]; cbn [fst snd]; [apply Hfail; destruct S1; lia|].
  apply wp_bind, wp_sql; [intros msg w2 S2|intros w2 S2]; cbn [fst snd]; [apply Hfail; destruct S1, S2; cbn in *; lia|].
  set (w3 := w2 <| aw_tokens := _ |>).
  apply wp_bind, wp_sql; [intros msg w4 S4|intros w4 S4]; cbn [fst snd]; [apply Hfail; destruct S1, S2, S4; cbn in *; lia|].
  destruct (aw_users w4 !! userID) as [u|] eqn:Eu; [|apply Hfail; subst w3; destruct S1, S2, S4; cbn in *; lia].
  apply wp_end_tx.
  - intros [a|msg] w' E1 E2 E3 E4 Hr; [by specialize (Hr a eq_refl)|]. apply He. subst w3. destruct S1, S2, S4. split; cbn in *; congruence || lia.
  - intros a w' [= <-] S5. apply (Ho w1); [done| |].
    + destruct S2, S4. cbn in *. congruence.
    + etrans; [|exact S5]. etrans; [|exact S4]. subst w3. destruct S1, S2. split; unfold account_now in *; cbn in *; congruence.
Qed.

Lemma wf_apply_reset hash hashed userID w : accounts_wf w -> wp (apply_reset hash hashed userID) w (fun _ w' => accounts_wf w').
Proof.
  intros Hw. apply wp_apply_reset; [intros msg w' Hu; by eapply wf_undone|].
  intros w1 u w' S1 _ S2. apply (wf_same _ _ S2).
  assert (E : mark_used hash (account_now w) (aw_tokens w) = mark_used hash (account_now w) (aw_tokens (store_password hashed false userID w1)))
    by (f_equal; symmetry; exact (same_tokens _ _ S1)).
  rewrite E. apply wf_mark_used, wf_password. by apply (wf_same w).
Qed.
End transactions.

(** ** Requests at the same time *)

Section requests.
Context `{Collation} `{RowOrder} `{Bcrypt} `{JwtLibrary} `{Entropy} (h : AuthHandler).

(** What the effects of the statements keep, every request keeps. *)
Record stable (P : AccountWorld -> Prop) : Prop := mkStable {
  st_undone : forall w w', undone w w' -> P w -> P w';
  st_password : forall hashed must id w, P w -> P (store_password hashed must id w);
  st_user : forall u w, P w -> wp (Users.CreateUser u) w (fun _ w' => P w');
  st_token : forall token w, P w -> wp (CreatePasswordResetToken token) w (fun _ w' => P w');
  st_reset : forall hash hashed id w, P w -> wp (apply_reset hash hashed id) w (fun _ w' => P w')
}.

Context (P : AccountWorld -> Prop) (HP : stable P).

Lemma st_same w w' : same w w' -> P w -> P w'.
Proof. intros Hs. by apply (st_undone _ HP), undone_same. Qed.

Lemma kept {A} (m : ST AccountWorld A) w : (P w -> wp m w (fun _ w' => P w')) -> keeps P w (m w).2.
Proof. intros Hm Hw. exact (Hm Hw). Qed.

Lemma kept_same {A} (m : ST AccountWorld A) w : wp m w (fun _ w' => same w w') -> keeps P w (m w).2.
Proof. intros Hm. apply kept. intros Hw. eapply st_same; [apply Hm|done]. Qed.

Lemma kept_query {A} ctx (f : AccountWorld -> A) w : keeps P w (run_account_sql ctx (fun w => (Ok (f w), w)) w).2.
Proof. apply kept_same. by apply wp_query. Qed.

Lemma kept_get w : keeps P w (st_get w).2.
Proof. by apply kept_same. Qed.

Lemma kept_draw {A} (f : nat -> res A) w : keeps P w (draw f w).2.
Proof. apply kept_same. by apply wp_draw. Qed.

Lemma kept_store ctx hashed must id w :
  keeps P w (run_account_sql ctx (fun w => (Ok tt, store_password hashed must id w)) w).2.
Proof.
  apply kept. intros Hw. apply wp_sql; [intros msg w1 S; by eapply st_same|].
  intros w1 S. apply (st_password _ HP). by eapply st_same.
Qed.

Lemma draw_chars_same n w : wp (draw_chars n) w (fun _ w' => same w w').
Proof.
  revert w. induction n as [|n IH]; intros w; [done|]. cbn [draw_chars]. apply wp_bind, wp_draw. intros w1 S1.
  destruct (rand_int _ _) as [v|e]; [|by apply wp_ret]. apply wp_bind. specialize (IH w1). unfold wp in *.
  etrans; [exact S1|exact IH].
Qed.

Lemma generateTemporaryPassword_same n w : wp (generateTemporaryPassword n) w (fun _ w' => same w w').
Proof. unfold generateTemporaryPassword. destruct (n <=? 0); [done|]. apply draw_chars_same. Qed.

Lemma generateResetToken_same w : wp generateResetToken w (fun _ w' => same w w').
Proof. unfold generateResetToken. apply wp_bind, wp_draw. intros w1 S1. by apply wp_ret. Qed.

Lemma deliver_same user url t w : wp (deliverPasswordReset h user url t) w (fun _ w' => same w w').
Proof.
  unfold deliverPasswordReset, sendPasswordResetEmail, send_mail, wp.
  destruct (blank _); [done|]. destruct (String.eqb _ _); [done|]. by destruct (aw_smtp w) as [|[msg|] l].
Qed.

Lemma load_reset_same hash w : wp (load_reset_token hash) w (fun _ w' => same w w').
Proof.
  unfold load_reset_token, begin_tx. apply wp_bind, wp_sql; [intros msg w1 S1; by apply wp_ret|intros w1 S1].
  cbn [fst snd]. apply wp_query. intros r w2 S2 _. by etrans.
Qed.

Lemma serve_keeps apiKey r route : follows (keeps P) (serve_account h apiKey r route).
Proof.
  destruct route; cbn [serve_account]; unfold protected, require_admin, Login, ForgotPassword, CompletePasswordReset,
    GetProfileSummary, UpdatePassword, ListUsers, CreateUser, ResetUserPassword, issue_reset, ResetPasswordWithToken,
    HashPassword, GetUserByUsername, GetUserByIdentifier, GetUserByID, GetUserMetricsByID, Users.ListUsers,
    Users.UpdatePassword, AdminResetPassword; follow;
    first
      [ apply kept_query | apply kept_get | apply kept_draw | apply kept_store
      | apply kept_same; first [apply generateResetToken_same | apply deliver_same | apply load_reset_same
                               | apply generateTemporaryPassword_same]
      | apply kept; intros; by apply HP ].
Qed.
End requests.

Section invariants.
Context `{Collation} `{RowOrder} `{Bcrypt} `{JwtLibrary} `{Entropy} (h : AuthHandler).

Lemma wf_create_user u w : accounts_wf w -> wp (Users.CreateUser u) w (fun _ w' => accounts_wf w').
Proof.
  intros Hw. apply wp_sql; [intros msg w1 S; by eapply wf_same|]. intros w1 S. apply (wf_same _ _ S) in Hw.
  cbv zeta. change (aw_users (w1 <| aw_next_user := aw_next_user w1 + 1 |>)) with (aw_users w1).
  destruct (duplicate_user u (aw_users w1)) eqn:E; cbn [fst snd]; [|exact (wf_insert_user w1 u Hw E)].
  eapply wf_undone; [|exact Hw]. split; cbn; done || lia.
Qed.

Lemma stable_wf : stable accounts_wf.
Proof.
  split; [apply wf_undone|intros; by apply wf_password|apply wf_create_user|apply wf_create_token|intros; by apply wf_apply_reset].
Qed.

(** A token that has been used. *)
Definition spent (hash : string) (w : AccountWorld) : Prop :=
  exists id t, aw_tokens w !! id = Some t /\ tk_TokenHash t = hash /\ unused t = false.

Lemma spent_tokens hash w w' : aw_tokens w' = aw_tokens w -> spent hash w -> spent hash w'.
Proof. intros E (id & t & Ht & Hs). exists id, t. by rewrite E. Qed.

Lemma spent_create_token hash token w :
  accounts_wf w -> spent hash w -> wp (CreatePasswordResetToken token) w (fun _ w' => spent hash w').
Proof.
  intros Hw (id & t & Ht & Hh & Hu). apply wp_create_token.
  - intros msg w' [_ E _ _]. exists id, t. by rewrite E.
  - intros id' w1 w2 w' S1 Hi S2. exists id, t. split; [|done].
    destruct S1 as [_ E1 _ E2 _], S2 as [_ E3 _ _ _]. cbn in E1, E2. rewrite E3.
    assert (Hne : id <> aw_next_token w1) by (apply (wf_token_ids _ Hw) in Ht; lia).
    unfold insert_token in Hi. cbv zeta in Hi. destruct (aw_users _ !! _); [|done]. destruct (has_hash _ _); [done|].
    injection Hi as <- <-. cbn. rewrite lookup_insert_ne by done. rewrite E1. apply lookup_clear_unused. split; [done|].
    by rewrite Hu, andb_false_r.
Qed.

Lemma spent_reset hash hash' hashed id w : spent hash w -> wp (apply_reset hash' hashed id) w (fun _ w' => spent hash w').
Proof.
  intros (k & t & Ht & Hh & Hu). apply wp_apply_reset.
  - intros msg w' [_ E _ _]. exists k, t. by rewrite E.
  - intros w1 u w' S1 _ [_ E _ _ _]. cbn in E. exists k. eexists. split; [rewrite E; unfold mark_used; by rewrite lookup_fmap, Ht|].
    by destruct (String.eqb _ _).
Qed.

Lemma spent_create_user hash u w : spent hash w -> wp (Users.CreateUser u) w (fun _ w' => spent hash w').
Proof.
  intros Hs. apply wp_sql; [intros msg w1 [_ E _ _ _]|intros w1 [_ E _ _ _]]; [by apply (spent_tokens _ w)|].
  cbv zeta. by destruct (duplicate_user _ _); apply (spent_tokens _ w).
Qed.

Lemma stable_spent hash : stable (fun w => accounts_wf w /\ spent hash w).
Proof.
  split.
  - intros w w' Hu [Hw Hs]. split; [by eapply wf_undone|]. by apply (spent_tokens _ w), Hs; destruct Hu.
  - intros hashed must id w [Hw Hs]. split; [by apply wf_password|done].
  - intros u w [Hw Hs]. split; [by apply wf_create_user|by apply spent_create_user].
  - intros token w [Hw Hs]. split; [by apply wf_create_token|by apply spent_create_token].
  - intros hash' hashed id w [Hw Hs]. split; [by apply wf_apply_reset|by apply spent_reset].
Qed.

(** The requests as threads, which nobody waits for. *)
Definition request_thread (apiKey : string) (q : http_request * account_route) : prog AccountWorld unit :=
  _ ← serve_account h apiKey q.1 q.2; mret tt.

Lemma requests_keep (P : AccountWorld -> Prop) apiKey reqs : stable P -> Forall (follows (keeps P)) (map (request_thread apiKey) reqs).
Proof.
  intros HP. apply Forall_forall. intros p (q & -> & _)%list_elem_of_fmap.
  apply follows_bind; [by apply serve_keeps|]. intros. apply follows_mret.
Qed.

(** C6: however the requests of any number of clients interleave and whatever the
    database, the mail server and the random numbers do: users keep distinct
    names and addresses, every token belongs to a user, no two tokens have the
    same digest, and a user has at most one token that has not been used. *)
Theorem accounts_invariant apiKey reqs choice w :
  accounts_wf w -> accounts_wf (sched choice (map (request_thread apiKey) reqs, w)).2.
Proof. intros Hw. apply (sched_follows (keeps accounts_wf)); [|done]. apply requests_keep, stable_wf. Qed.

(** What a reset does, alone. *)
Definition reset_done (hash hashed : string) (w : AccountWorld) (r : res (option User)) (w' : AccountWorld) : Prop :=
  match r with
  | Ok (Some u) => exists t at_,
      token_of hash (aw_tokens w) = Some t /\ unused t = true /\ after (account_now w) (tk_ExpiresAt t) = false /\
      aw_users w' = alter (set_password hashed false at_) (tk_UserID t) (aw_users w) /\
      aw_users w' !! tk_UserID t = Some u /\ aw_tokens w' = mark_used hash (account_now w) (aw_tokens w)
  | _ => aw_users w' = aw_users w /\ aw_tokens w' = aw_tokens w
  end.

Lemma load_reset_spec hash w : wp (load_reset_token hash) w (fun r w' => same w w' /\
  forall id, r = Ok (Some id) -> exists t, token_of hash (aw_tokens w) = Some t /\ unused t = true /\
    after (account_now w) (tk_ExpiresAt t) = false /\ tk_UserID t = id).
Proof.
  unfold load_reset_token, begin_tx. apply wp_bind, wp_sql; [intros msg w1 S1; by apply wp_ret|intros w1 S1].
  cbn [fst snd]. apply wp_query. intros r w2 S2 Hr. assert (S : same w w2) by by etrans. split; [done|].
  intros id ->. specialize (Hr _ eq_refl). destruct S as [_ E1 _ _ E2]. rewrite E1, E2 in Hr.
  destruct (token_of hash (aw_tokens w)) as [t|]; [|done]. destruct (unused t) eqn:Eu; [|done].
  destruct (after _ _) eqn:Ea; [done|]. cbn in Hr. simplify_eq. by exists t.
Qed.

Lemma reset_spec hash hashed w : ends (ResetPasswordWithToken hash hashed) w (reset_done hash hashed w).
Proof.
  unfold ResetPasswordWithToken. apply ends_bind, ends_act. pose proof (load_reset_spec hash w) as Hl. unfold wp in *.
  destruct (load_reset_token hash w) as [r w1]. cbn [fst snd] in *. destruct Hl as [S Hl].
  destruct r as [[id|]|msg]; [|apply ends_ret; destruct S; by split..].
  destruct (Hl id eq_refl) as (t & Ht & Hu & Ha & <-). apply ends_act, wp_apply_reset.
  - intros msg w' [E1 E2 _ _]. destruct S. cbn. split; congruence.
  - intros w2 u w' S2 Hlu S3. exists t, (account_sql_now w2). split_and!; [done..| | |].
    + rewrite (same_users _ _ S3). cbn. by rewrite (same_users _ _ S2), (same_users _ _ S).
    + rewrite (same_users _ _ S3). exact Hlu.
    + rewrite (same_tokens _ _ S3). cbn. by rewrite (same_tokens _ _ S), (same_now _ _ S).
Qed.

Lemma token_of_Some hash tokens t : token_of hash tokens = Some t -> tk_TokenHash t = hash /\ exists id, tokens !! id = Some t.
Proof.
  unfold token_of. intros [Hin%list_elem_of_In Hh]%head_Some_elem_of%list_elem_of_In%filter_In.
  split; [by apply String.eqb_eq|by apply elem_of_records].
Qed.

(** A successful reset spends its token. *)
Lemma reset_spends hash hashed w r w' u :
  reset_done hash hashed w r w' -> r = Ok (Some u) -> spent hash w'.
Proof.
  intros Hd ->. destruct Hd as (t & at_ & Ht & _ & _ & _ & _ & E). apply token_of_Some in Ht as [Hh [id Hid]].
  exists id. eexists. rewrite E. unfold mark_used. split; [by rewrite lookup_fmap, Hid|].
  by rewrite Hh, String.eqb_refl.
Qed.

(** A spent token opens nothing. *)
Lemma spent_refused hash hashed w r w' :
  accounts_wf w -> spent hash w -> reset_done hash hashed w r w' -> (forall u, r <> Ok (Some u)) /\ aw_users w' = aw_users w.
Proof.
  intros Hw (id & t & Ht & Hh & Hu) Hd. destruct r as [[u|]|msg]; [exfalso|by destruct Hd..].
  destruct Hd as (t' & _ & Ht' & Hu' & _). apply token_of_Some in Ht' as [Hh' [id' Hid]].
  assert (id' = id) as -> by (eapply (wf_hashes _ Hw); [exact Hid|exact Ht|congruence]). congruence.
Qed.

(** The request of a reset. *)
Lemma complete_spec token password w :
  ends (CompletePasswordReset (Some (token, password))) w (fun rsp w' =>
    acr_code rsp <> 200 /\ aw_users w' = aw_users w /\ aw_tokens w' = aw_tokens w \/
    exists hashed w1 r, same w w1 /\ HashPassword password w = (Ok hashed, w1) /\ rsp = reset_answer r /\
      reset_done (hashResetToken token) hashed w r w').
Proof.
  unfold CompletePasswordReset. destruct (_ || _); [apply ends_ret; left; split_and!; done|].
  apply ends_bind, ends_act. assert (S : wp (HashPassword password) w (fun _ w' => same w w')) by (by apply wp_draw).
  unfold wp in *. destruct (HashPassword password w) as [[hashed|msg] w1] eqn:E; cbn [fst snd] in *.
  - apply ends_bind. eapply ends_impl; [apply reset_spec|]. intros r w' Hd. apply ends_ret. right.
    exists hashed, w1, r. split_and!; [done..|]. destruct S as [E1 E2 _ _ E5].
    unfold reset_done in *. by rewrite E1, E2, E5 in Hd.
  - apply ends_ret. left. split_and!; [done|by apply same_users|by apply same_tokens].
Qed.

Lemma reset_answer_ok r : acr_code (reset_answer r) = 200 -> exists u, r = Ok (Some u).
Proof. destruct r as [[u|]|msg]; cbn; intros E; [by exists u|discriminate..]. Qed.

(** C13: after a reset that ran alone and was answered with success, no reset with
    the same token that starts later and runs alone succeeds or changes a user,
    whatever requests started after the first one came in between, in whatever
    order their actions ran.  (A second reset that is in flight while the first
    one succeeds is another matter: see [reset_token_twice].) *)
Theorem reset_token_once apiKey token password password' q reqs choice w :
  accounts_wf w ->
  let '(rsp, w') := run (serve_account h apiKey q (AComplete (Some (token, password)))) w in
  acr_code rsp = 200 ->
  let w2 := (sched choice (map (request_thread apiKey) reqs, w')).2 in
  let '(rsp2, w3) := run (serve_account h apiKey q (AComplete (Some (token, password')))) w2 in
  acr_code rsp2 <> 200 /\ aw_users w3 = aw_users w2.
Proof.
  intros Hw. cbn [serve_account]. pose proof (complete_spec token password w) as Hc. unfold ends in Hc.
  pose proof (follows_run _ (serve_account h apiKey q (AComplete (Some (token, password)))) w
    (serve_keeps h accounts_wf stable_wf apiKey q _) Hw) as Hw'.
  cbn [serve_account] in Hw'. destruct (run (CompletePasswordReset _) w) as [rsp w']. cbn [snd] in Hw'. intros Hcode.
  destruct Hc as [(Hne & _)|(hashed & w1 & r & _ & _ & -> & Hd)]; [done|].
  destruct (reset_answer_ok r Hcode) as [u Hr]. pose proof (reset_spends _ _ _ _ _ _ Hd Hr) as Hs.
  set (w2 := (sched choice _).2).
  assert (Hboth : accounts_wf w2 /\ spent (hashResetToken token) w2).
  { apply (sched_follows (keeps (fun w => accounts_wf w /\ spent (hashResetToken token) w))); [|done].
    apply requests_keep, stable_spent. }
  destruct Hboth as [Hw2 Hs2]. pose proof (complete_spec token password' w2) as Hc. unfold ends in Hc.
  destruct (run _ w2) as [rsp2 w3]. destruct Hc as [(Hne & Hu & _)|(hashed2 & w4 & r2 & _ & _ & -> & Hd2)]; [done|].
  destruct (spent_refused _ _ _ _ _ Hw2 Hs2 Hd2) as [Hr2 Hu2]. split; [|done].
  intros Hc2. destruct (reset_answer_ok r2 Hc2) as [u2 ->]. by destruct (Hr2 u2).
Qed.
End invariants.

(** ** Who may do what *)

Section safety.
Context `{Collation} `{RowOrder} `{Bcrypt} `{JwtLibrary} `{Entropy} (h : AuthHandler).

(** Whose password a request may set. *)
Definition entitled (apiKey : string) (q : http_request) (route : account_route) (w : AccountWorld) (id : Z) : Prop :=
  match route with
  | AUpdatePassword (Some (oldPassword, _)) => exists c u,
      signed_in h apiKey q w = inl c /\ c_UserID c = id /\ aw_users w !! id = Some u /\
      CompareHashAndPassword (u_HashedPassword u) oldPassword = true
  | AResetUser s => exists c, signed_in h apiKey q w = inl c /\ c_Role c = "admin" /\ atoi s = Some id
  | AComplete (Some (token, _)) => exists t,
      token_of (hashResetToken token) (aw_tokens w) = Some t /\ unused t = true /\
      after (account_now w) (tk_ExpiresAt t) = false /\ tk_UserID t = id
  | _ => False
  end.

Definition may_create (apiKey : string) (q : http_request) (route : account_route) (w : AccountWorld) : Prop :=
  match route with
  | ACreateUser _ => exists c, signed_in h apiKey q w = inl c /\ c_Role c = "admin"
  | _ => False
  end.

Definition outcome (own : Z -> Prop) (create : Prop) (w : AccountWorld) (rsp : account_response) (w' : AccountWorld) : Prop :=
  changes own create w w' /\ (400 <= acr_code rsp -> aw_users w' = aw_users w).

Lemma outcome_none own create w rsp w' : aw_users w' = aw_users w -> outcome own create w rsp w'.
Proof. intros E. split; [by apply changes_none|done]. Qed.

Lemma outcome_same own create w rsp w' : same w w' -> outcome own create w rsp w'.
Proof. intros S. by apply outcome_none, same_users. Qed.

(** Requests that leave the users alone. *)
Definition same_user_table (w w' : AccountWorld) : Prop := aw_users w' = aw_users w.

#[local] Instance same_user_table_preorder : PreOrder same_user_table.
Proof. unfold same_user_table. split; [done|]. intros w1 w2 w3 E1 E2. congruence. Qed.

Lemma silent_same {A} (m : ST AccountWorld A) w : wp m w (fun _ w' => same w w') -> same_user_table w (m w).2.
Proof. intros S. by apply same_users. Qed.

Lemma silent_query {A} ctx (f : AccountWorld -> A) w : same_user_table w (run_account_sql ctx (fun w => (Ok (f w), w)) w).2.
Proof. apply silent_same. by apply wp_query. Qed.

Lemma silent_token token w : same_user_table w (CreatePasswordResetToken token w).2.
Proof.
  change (wp (CreatePasswordResetToken token) w (fun _ w' => same_user_table w w')). apply wp_create_token.
  - intros msg w' [E _ _ _]. done.
  - intros id w1 w2 w' S1 Hi S2. pose proof (insert_token_keeps token w1) as Hk. rewrite Hi in Hk. destruct Hk as [E _].
    unfold same_user_table. rewrite (same_users _ _ S2), E. exact (same_users _ _ S1).
Qed.

Ltac silent :=
  follow; first
    [ apply silent_query | done | apply silent_token
    | apply silent_same; first [apply generateResetToken_same | apply deliver_same] ].

Lemma Login_silent body : follows same_user_table (Login h body).
Proof. unfold Login, GetUserByUsername. silent. Qed.

Lemma ForgotPassword_silent body : follows same_user_table (ForgotPassword h body).
Proof. unfold ForgotPassword, GetUserByIdentifier, issue_reset. silent. Qed.

Lemma ListUsers_silent : follows same_user_table ListUsers.
Proof. unfold ListUsers, Users.ListUsers. silent. Qed.

Lemma GetProfileSummary_silent id : follows same_user_table (GetProfileSummary id).
Proof. unfold GetProfileSummary, GetUserByID, GetUserMetricsByID. silent. Qed.

Lemma silent_outcome own create p w : follows same_user_table p -> ends p w (outcome own create w).
Proof.
  intros Hp. pose proof (follows_run same_user_table p w Hp) as Hr. unfold ends. destruct (run p w) as [rsp w'].
  by apply outcome_none.
Qed.

(** A new hash for a user of [own]. *)
Lemma store_outcome (own : Z -> Prop) create w w1 hashed must id ctx k :
  same_user_table w w1 -> own id ->
  (forall r, 400 <= acr_code (k r) -> exists msg, r = Err msg) ->
  ends (r ← act (run_account_sql ctx (fun w => (Ok tt, store_password hashed must id w))); mret (k r)) w1 (outcome own create w).
Proof.
  intros E Ho Hk. apply ends_bind, ends_act, wp_sql; [intros msg w2 S2|intros w2 S2]; apply ends_ret.
  - apply outcome_none. rewrite (same_users _ _ S2). exact E.
  - split.
    + eapply changes_password; [exact Ho|]. cbn. by rewrite (same_users _ _ S2), E.
    + intros [msg ?]%Hk. discriminate.
Qed.

Lemma UpdatePassword_outcome (own : Z -> Prop) create w id old new :
  (forall u, aw_users w !! id = Some u -> CompareHashAndPassword (u_HashedPassword u) old = true -> own id) ->
  ends (UpdatePassword id (Some (old, new))) w (outcome own create w).
Proof.
  intros Ho. unfold UpdatePassword, GetUserByID. apply ends_bind, ends_act, wp_query. intros r w1 S1 Hr.
  assert (Hsame : forall rsp, ends (mret rsp) w1 (outcome own create w)) by (intros rsp; by apply ends_ret, outcome_same).
  destruct r as [[u|]|msg]; [|done..]. specialize (Hr _ eq_refl). rewrite (same_users _ _ S1) in Hr.
  destruct (CompareHashAndPassword _ _) eqn:Ec; cbn [negb]; [|done].
  apply ends_bind, ends_act, wp_draw. intros w2 S2. assert (E2 : same_user_table w w2) by (unfold same_user_table; destruct S1, S2; congruence).
  destruct (GenerateFromPassword _ _) as [hashed|msg]; [|by apply ends_ret, outcome_none].
  apply store_outcome; [done|by eapply Ho|]. intros [[]|msg]; cbn; [lia|eauto].
Qed.

Lemma ResetUserPassword_outcome (own : Z -> Prop) create w s :
  (forall id, atoi s = Some id -> own id) -> ends (ResetUserPassword s) w (outcome own create w).
Proof.
  intros Ho. unfold ResetUserPassword. destruct (atoi s) as [id|] eqn:Es; [|by apply ends_ret, outcome_none].
  destruct (id <=? 0); [by apply ends_ret, outcome_none|]. apply ends_bind, ends_act, wp_query. intros r w1 S1 _.
  destruct r as [[u|]|msg]; [|by apply ends_ret, outcome_same..].
  apply ends_bind, ends_act. pose proof (generateTemporaryPassword_same 14 w1) as S2. unfold wp in S2 |- *.
  destruct (generateTemporaryPassword 14 w1) as [temp w2]. cbn [fst snd] in *.
  assert (S12 : same w w2) by by etrans. destruct temp as [temp|msg]; [|by apply ends_ret, outcome_same].
  apply ends_bind, ends_act, wp_draw. intros w3 S3. assert (S13 : same w w3) by by etrans.
  destruct (GenerateFromPassword _ _) as [hashed|msg]; [|by apply ends_ret, outcome_same].
  apply store_outcome; [by apply same_users|auto|]. intros [[]|msg]; cbn; [lia|eauto].
Qed.

Lemma CreateUser_outcome own (create : Prop) w body :
  accounts_wf w -> create -> ends (CreateUser body) w (outcome own create w).
Proof.
  intros Hw Hc. unfold CreateUser. destruct body as [req|]; [|by apply ends_ret, outcome_none].
  destruct (_ || _); [by apply ends_ret, outcome_none|]. apply ends_bind, ends_act, wp_draw. intros w1 S1.
  destruct (GenerateFromPassword _ _) as [hashed|msg]; [|by apply ends_ret, outcome_same].
  apply ends_bind, ends_act, wp_sql; [intros msg w2 S2; apply ends_ret, outcome_same; by etrans|].
  intros w2 S2. assert (S : same w w2) by by etrans. cbv zeta. apply ends_ret.
  destruct (duplicate_user _ _); [by apply outcome_none, S|]. split; [|cbn; lia].
  eapply changes_insert; [done| |cbn; by rewrite (same_users _ _ S)].
  rewrite (same_next_user _ _ S). by apply users_fresh.
Qed.

Lemma CompletePasswordReset_outcome (own : Z -> Prop) create w token new :
  (forall t, token_of (hashResetToken token) (aw_tokens w) = Some t -> unused t = true ->
     after (account_now w) (tk_ExpiresAt t) = false -> own (tk_UserID t)) ->
  ends (CompletePasswordReset (Some (token, new))) w (outcome own create w).
Proof.
  intros Ho. eapply ends_impl; [apply complete_spec|]. intros rsp w' [(_ & E & _)|(hashed & w1 & r & _ & _ & -> & Hd)].
  { by apply outcome_none. }
  destruct r as [[u|]|msg]; [|by apply outcome_none, Hd..].
  destruct Hd as (t & at_ & Ht & Hu & Ha & E & _). split; [|cbn; lia].
  eapply changes_password; [by apply Ho|exact E].
Qed.

Lemma protected_outcome own create apiKey q next w :
  (forall c, signed_in h apiKey q w = inl c -> ends (next c) w (outcome own create w)) ->
  ends (protected h apiKey q next) w (outcome own create w).
Proof.
  intros Hn. unfold protected. apply ends_bind, ends_act, wp_get.
  destruct (signed_in h apiKey q w) as [c|e] eqn:E; [by apply Hn|by apply ends_ret, outcome_none].
Qed.

Lemma require_admin_outcome own create c next w :
  (c_Role c = "admin" -> ends next w (outcome own create w)) -> ends (require_admin c next) w (outcome own create w).
Proof.
  intros Hn. unfold require_admin. destruct (String.eqb_spec (c_Role c) "admin"); [by apply Hn|by apply ends_ret, outcome_none].
Qed.

(** C5: whatever one request asks, when it runs alone, and whatever the database,
    the mail server and the random numbers do: users stay, with their names, addresses and roles; a
    password changes only for a signed-in user who knows it, at the request of
    an administrator, or with an unused token of that user that has not
    expired; only administrators add users; and an answer that reports an
    error leaves the users as they were. *)
Theorem accounts_safety apiKey q route w :
  accounts_wf w ->
  let '(rsp, w') := run (serve_account h apiKey q route) w in
  changes (entitled apiKey q route w) (may_create apiKey q route w) w w' /\
  (400 <= acr_code rsp -> aw_users w' = aw_users w).
Proof.
  intros Hw.
  change (ends (serve_account h apiKey q route) w (outcome (entitled apiKey q route w) (may_create apiKey q route w) w)).
  destruct route as [body|body|body| |body| |body|id]; cbn [serve_account].
  - apply silent_outcome, Login_silent.
  - apply silent_outcome, ForgotPassword_silent.
  - destruct body as [[token new]|]; [|by apply ends_ret, outcome_none].
    apply CompletePasswordReset_outcome. intros t Ht Hu Ha. by exists t.
  - apply protected_outcome. intros c _. apply silent_outcome, GetProfileSummary_silent.
  - apply protected_outcome. intros c Hc. destruct body as [[old new]|]; [|by apply ends_ret, outcome_none].
    apply UpdatePassword_outcome. intros u Hu Hcmp. by exists c, u.
  - apply protected_outcome. intros c _. apply require_admin_outcome. intros _. apply silent_outcome, ListUsers_silent.
  - apply protected_outcome. intros c Hc. apply require_admin_outcome. intros Ha. apply CreateUser_outcome; [done|by exists c].
  - apply protected_outcome. intros c Hc. apply require_admin_outcome. intros Ha. apply ResetUserPassword_outcome. intros n Hn. by exists c.
Qed.
End safety.
