(* ===== verification/AccountsFlow.v ===== *)
(** * Signing in and getting back in

    The whole way of a forgotten password: the mail, the link in it, the new
    password, the sign-in and the token that the middleware accepts; what two
    uses of one link at the same time do; and concrete runs. *)

From stdpp Require Import pretty.
From S2P Require Import Prelude Programs GoStrings GoTime Json JsonText Store Sha256 Users ScheduleHandler Accounts AccountsSpec.

Open Scope Z_scope.
Open Scope go_scope.

(** ** A database that answers *)

Lemma sql_ok {A} ctx (stmt : AccountWorld -> res A * AccountWorld) w :
  w_faults (aw_world w) = [] -> run_account_sql ctx stmt w = stmt w.
Proof. intros Hf. unfold run_account_sql. by rewrite Hf. Qed.

Section answers.
Context `{Collation} `{RowOrder}.

Lemma head_order_by {A} (key : A -> Z) (l : list A) x :
  x ∈ l -> (forall y, y ∈ l -> y = x) -> head (order_by key l) = Some x.
Proof.
  intros Hx Hu. pose proof (order_by_perm key l) as Hp. destruct (order_by key l) as [|y l'] eqn:E.
  - apply Permutation_nil_l in Hp. subst l. by apply not_elem_of_nil in Hx.
  - cbn. f_equal. apply Hu. rewrite <- Hp. left.
Qed.

(** The only user that a query finds. *)
Lemma first_user_unique p w id u :
  aw_users w !! id = Some u -> p u = true ->
  (forall id' u', aw_users w !! id' = Some u' -> p u' = true -> id' = id) -> first_user p w = Some u.
Proof.
  intros Hu Hp Hother. unfold first_user. apply head_order_by.
  - apply list_elem_of_In, filter_In. split; [|done]. apply list_elem_of_In, elem_of_records. eauto.
  - intros y [Hin Hy]%list_elem_of_In%filter_In. apply list_elem_of_In, elem_of_records in Hin as [id' Hid'].
    rewrite (Hother _ _ Hid' Hy) in Hid'. congruence.
Qed.

Lemma by_username w id u : accounts_wf w -> aw_users w !! id = Some u ->
  first_user (fun v => collate (u_Username v) (u_Username u)) w = Some u.
Proof.
  intros Hw Hu. apply (first_user_unique _ _ id); [done|apply collate_refl|]. intros id' u' Hu' Hc.
  destruct (decide (id = id')) as [|Hne]; [done|]. pose proof (wf_names _ Hw _ _ _ _ Hu Hu' Hne) as Hcl.
  unfold clash in Hcl. by rewrite Hc in Hcl.
Qed.

Lemma token_of_lookup w id t : accounts_wf w -> aw_tokens w !! id = Some t -> token_of (tk_TokenHash t) (aw_tokens w) = Some t.
Proof.
  intros Hw Ht. destruct (token_of (tk_TokenHash t) (aw_tokens w)) as [t'|] eqn:E.
  - apply token_of_Some in E as [Hh [id' Hid']]. rewrite (wf_hashes _ Hw _ _ _ _ Hid' Ht Hh) in Hid'. congruence.
  - exfalso. unfold token_of in E. apply head_None in E.
    assert (Hin : In t []); [|done]. rewrite <- E. apply filter_In. split; [|apply String.eqb_refl].
    apply list_elem_of_In, elem_of_records. eauto.
Qed.

(** The row a request for a link leaves. *)
Definition token_row (w : AccountWorld) (token : PasswordResetToken) : PasswordResetToken :=
  token <| tk_ID := aw_next_token w |> <| tk_ExpiresAt := datetime (tk_ExpiresAt token) |> <| tk_UsedAt := None |>
        <| tk_CreatedAt := account_sql_now w |>.

Definition with_token (w : AccountWorld) (token : PasswordResetToken) : AccountWorld :=
  w <| aw_tokens := <[aw_next_token w := token_row w token]> (clear_unused (tk_UserID token) (aw_tokens w)) |>
    <| aw_next_token := aw_next_token w + 1 |>.

Lemma create_token_ok token w :
  w_faults (aw_world w) = [] -> is_Some (aw_users w !! tk_UserID token) ->
  has_hash (tk_TokenHash token) (clear_unused (tk_UserID token) (aw_tokens w)) = false ->
  CreatePasswordResetToken token w = (Ok (token <| tk_ID := aw_next_token w |>), with_token w token).
Proof.
  intros Hf [u Hu] Hh. unfold CreatePasswordResetToken, begin_tx, token_body, mbind, ST_bind, mret, ST_ret.
  rewrite sql_ok by done. cbn [st_get]. rewrite sql_ok by done. rewrite sql_ok by done.
  unfold insert_token. cbv zeta. cbn. rewrite Hu, Hh. cbn. rewrite sql_ok by done. reflexivity.
Qed.

(** A reset with a token that works. *)
Lemma reset_ok hash hashed w t u :
  w_faults (aw_world w) = [] -> token_of hash (aw_tokens w) = Some t -> unused t = true ->
  after (account_now w) (tk_ExpiresAt t) = false -> aw_users w !! tk_UserID t = Some u ->
  run (ResetPasswordWithToken hash hashed) w =
    (Ok (Some (set_password hashed false (account_sql_now w) u)),
     (store_password hashed false (tk_UserID t) w) <| aw_tokens := mark_used hash (account_now w) (aw_tokens w) |>).
Proof.
  intros Hf Ht Hu Ha Hl. unfold ResetPasswordWithToken. rewrite run_bind, run_act.
  unfold load_reset_token, begin_tx, mbind, ST_bind. rewrite sql_ok by done. rewrite sql_ok by done.
  rewrite Ht, Hu, Ha. cbn [negb orb]. rewrite run_act. unfold apply_reset, mbind, ST_bind, st_get.
  rewrite sql_ok by done. rewrite sql_ok by done. rewrite sql_ok by done.
  assert (E : alter (set_password hashed false (account_sql_now w)) (tk_UserID t) (aw_users w) !! tk_UserID t =
    Some (set_password hashed false (account_sql_now w) u)) by (by rewrite lookup_alter_eq, Hl).
  cbn. rewrite E. cbn. rewrite sql_ok by done. reflexivity.
Qed.
End answers.

(** ** A link in a mail is not blank *)

Lemma string_snoc_app s t c : s +:+ (t +:+ String c "") = (s +:+ t) +:+ String c "".
Proof. by rewrite string_app_assoc. Qed.

Lemma hex_app l k : hex (l ++ k) = hex l +:+ hex k.
Proof. induction l as [|b l IH]; [done|]. cbn [app hex]. rewrite IH. done. Qed.

Lemma hex_char_visible z : 0 <= z < 16 -> visible (hex_char z) = true.
Proof.
  intros Hz. unfold visible, hex_char. destruct (Z.ltb_spec z 10); rewrite byte_chr by lia;
    apply andb_true_iff; rewrite !Z.leb_le; lia.
Qed.

Lemma hex_not_blank l : l <> [] -> Forall is_byte l -> blank (hex l) = false.
Proof.
  intros Hne Hl. unfold blank. apply String.eqb_neq.
  destruct l as [|b k _] using rev_ind; [done|]. apply Forall_app in Hl as [Hk Hb]. inversion Hb as [|? ? Hb' _]; subst.
  unfold is_byte in Hb'.
  assert (E : hex (k ++ [b]) = (hex k +:+ String (hex_char (b / 16)) "") +:+ String (hex_char (b mod 16)) "").
  { rewrite hex_app. cbn [hex]. by rewrite string_app_assoc. }
  rewrite E, trim_space_visible.
  - destruct (hex k); discriminate.
  - rewrite <- E. destruct k as [|x k']; cbn [app hex].
    + apply hex_char_visible. Z.div_mod_to_equations; lia.
    + inversion Hk as [|? ? Hx _]; subst. unfold is_byte in Hx. apply hex_char_visible. Z.div_mod_to_equations; lia.
  - apply hex_char_visible. Z.div_mod_to_equations; lia.
Qed.

(** ** From the forgotten password to the sign-in *)

Section flow.
Context `{Collation} `{RowOrder} `{Bcrypt} `{JwtLibrary} `{Entropy} (h : AuthHandler).

(** The clock goes on and nothing else happens. *)
Definition wait (d : Z) (w : AccountWorld) : AccountWorld :=
  w <| aw_world := (aw_world w) <| w_now := w_now (aw_world w) + d |> |>.

Lemma wf_wait d w : accounts_wf w -> accounts_wf (wait d w).
Proof. intros [? ? ? ? ? ?]. by split. Qed.

Definition reset_link (raw : list Z) : string := buildPasswordResetURL h (hex raw).

Definition expiry (w : AccountWorld) : Time := add (to_utc (account_now w)) (effectivePasswordResetTTL h).

(** The state in which the mail has been sent. *)
Definition mailed (w : AccountWorld) (u : User) (raw : list Z) : AccountWorld :=
  (with_token (w <| aw_drawn := S (aw_drawn w) |>) (mkToken 0 (u_ID u) (hashResetToken (hex raw)) (expiry w) None zero_time))
    <| aw_sent := aw_sent w ++ [(u_Email u, reset_mail h (trim_space (ah_smtpFromEmail h)) u (reset_link raw) (expiry w))] |>.

Lemma generateResetToken_ok w raw : rand_read (aw_drawn w) 32 = Ok raw ->
  generateResetToken w = (Ok (hex raw, hashResetToken (hex raw)), w <| aw_drawn := S (aw_drawn w) |>).
Proof. intros Hr. unfold generateResetToken, draw, mbind, ST_bind, mret, ST_ret. by rewrite Hr. Qed.

Lemma ForgotPassword_ok identifier u raw w :
  w_faults (aw_world w) = [] -> aw_smtp w = [] -> blank (ah_smtpHost h) = false -> blank (ah_smtpFromEmail h) = false ->
  blank identifier = false ->
  first_user (fun v => collate (u_Username v) (trim_space identifier) || collate (u_Email v) (trim_space identifier)) w = Some u ->
  is_Some (aw_users w !! u_ID u) -> rand_read (aw_drawn w) 32 = Ok raw ->
  has_hash (hashResetToken (hex raw)) (clear_unused (u_ID u) (aw_tokens w)) = false ->
  run (ForgotPassword h (Some identifier)) w = (forgot_message, mailed w u raw).
Proof.
  intros Hf Hm Hhost Hfrom Hb Hu Hex Hr Hh. unfold ForgotPassword. cbv zeta. unfold blank in Hb. rewrite Hb.
  rewrite run_bind, run_act. unfold GetUserByIdentifier. rewrite sql_ok by done. rewrite Hu. cbv beta iota.
  unfold issue_reset. rewrite run_bind, run_act. rewrite (generateResetToken_ok w raw Hr).
  cbv beta iota. rewrite run_bind, run_act. cbn [st_get]. cbv zeta beta iota.
  rewrite run_bind, run_act, create_token_ok by done. cbv beta iota.
  rewrite run_bind, run_act. unfold deliverPasswordReset. rewrite Hhost. unfold sendPasswordResetEmail.
  cbv zeta. unfold blank in Hfrom. rewrite Hfrom. unfold send_mail, mailed. cbn. by rewrite Hm.
Qed.

Lemma datetime_late t d : d + Second <= effectivePasswordResetTTL h ->
  after (mkTime (unix_ns t + d) UTC) (datetime (add (to_utc t) (effectivePasswordResetTTL h))) = false.
Proof.
  intros Hd. unfold after, datetime, add, to_utc, in_loc, Second in *. cbn. apply Z.ltb_ge. Z.div_mod_to_equations. lia.
Qed.

Lemma mailed_wf w u raw :
  accounts_wf w -> aw_users w !! u_ID u = Some u ->
  has_hash (hashResetToken (hex raw)) (clear_unused (u_ID u) (aw_tokens w)) = false -> accounts_wf (mailed w u raw).
Proof.
  intros Hw Hu Hh. pose proof (wf_create_token (mkToken 0 (u_ID u) (hashResetToken (hex raw)) (expiry w) None zero_time)
    (w <| aw_world := (aw_world w) <| w_faults := [] |> |> <| aw_drawn := S (aw_drawn w) |>)) as Hc.
  unfold wp in Hc. rewrite create_token_ok in Hc by done. cbn [snd] in Hc.
  assert (Hs : accounts_wf (w <| aw_world := (aw_world w) <| w_faults := [] |> |> <| aw_drawn := S (aw_drawn w) |>))
    by (by apply (wf_same w)).
  specialize (Hc Hs). refine (wf_same _ _ _ Hc). by split.
Qed.

(** The new password, with a token that works. *)
Lemma complete_ok token password w t u :
  accounts_wf w -> w_faults (aw_world w) = [] -> blank token = false -> blank password = false ->
  (forall salt, is_ok (GenerateFromPassword salt password) = true) ->
  token_of (hashResetToken token) (aw_tokens w) = Some t -> unused t = true ->
  after (account_now w) (tk_ExpiresAt t) = false -> aw_users w !! tk_UserID t = Some u ->
  exists hashed at_ w', let u' := set_password hashed false at_ u in
    run (CompletePasswordReset (Some (token, password))) w = (reset_answer (Ok (Some u')), w') /\
    accounts_wf w' /\ w_faults (aw_world w') = [] /\ aw_users w' !! tk_UserID t = Some u' /\
    CompareHashAndPassword hashed password = true.
Proof.
  intros Hw Hf Hb Hp Hgen Ht Hu Ha Hl.
  assert (Hg : exists hashed, GenerateFromPassword (aw_drawn w) password = Ok hashed).
  { specialize (Hgen (aw_drawn w)). destruct (GenerateFromPassword _ _) as [hashed|msg]; [by exists hashed|done]. }
  destruct Hg as [hashed Hg]. exists hashed, (account_sql_now w). eexists. cbv zeta.
  assert (Hw1 : accounts_wf (w <| aw_drawn := S (aw_drawn w) |>)) by (by apply (wf_same w)).
  split; [|split].
  - unfold CompletePasswordReset. rewrite Hb, Hp. cbn [orb]. rewrite run_bind, run_act. unfold HashPassword, draw. rewrite Hg.
    cbv beta iota. rewrite run_bind, (reset_ok _ _ _ t u) by done. reflexivity.
  - refine (wf_same _ _ _ (wf_mark_used (hashResetToken token) (account_now w) _ (wf_password hashed false (tk_UserID t) _ Hw1))).
    by split.
  - split_and!; [done| |by eapply bcrypt_compares]. cbn. by rewrite lookup_alter_eq, Hl.
Qed.

(** The sign-in with a password that matches. *)
Lemma Login_ok id u password w :
  accounts_wf w -> w_faults (aw_world w) = [] -> aw_users w !! id = Some u ->
  CompareHashAndPassword (u_HashedPassword u) password = true ->
  (forall claims, is_ok (SignedString (ah_jwtSecret h) claims) = true) ->
  exists token, generateToken h u w = Ok token /\
    run (Login h (Some (u_Username u, password))) w = (mkAccountResponse 200 (ALogin token (public u)), w).
Proof.
  intros Hw Hf Hu Hc Hs. unfold Login, GetUserByUsername. rewrite run_bind, run_act, sql_ok by done.
  rewrite (by_username w id u Hw Hu). cbv beta iota. rewrite Hc. cbn [negb]. rewrite run_bind, run_act. cbn [st_get].
  unfold generateToken in *. specialize (Hs (login_claims u (account_now w))).
  destruct (SignedString _ _) as [token|msg]; [|done]. exists token. split; [done|reflexivity].
Qed.

Lemma has_hash_clear hash id tokens : has_hash hash tokens = false -> has_hash hash (clear_unused id tokens) = false.
Proof.
  intros Hh. unfold has_hash in *. apply not_true_iff_false. intros [t [Hin E]]%existsb_exists.
  apply list_elem_of_In, elem_of_records in Hin as [k Hk]. apply lookup_clear_unused in Hk as [Hk _].
  pose proof (existsb_records _ _ _ _ Hh Hk) as Hf. cbn in Hf. congruence.
Qed.

Lemma first_user_row p w u : accounts_wf w -> first_user p w = Some u -> aw_users w !! u_ID u = Some u.
Proof.
  intros Hw Hu. unfold first_user in Hu. apply head_Some_elem_of in Hu. rewrite order_by_perm in Hu.
  apply list_elem_of_In, filter_In in Hu as [Hin _]. apply list_elem_of_In, elem_of_records in Hin as [id Hid].
  by rewrite (proj1 (wf_ids _ Hw _ _ Hid)).
Qed.

(** C18: with a database, a mail server and random numbers that answer: a request
    for a link mails one to the user; the link sets a new password until it
    expires; and with the new password the user signs in. *)
Theorem reset_then_login identifier u raw password w :
  accounts_wf w -> w_faults (aw_world w) = [] -> aw_smtp w = [] ->
  blank (ah_smtpHost h) = false -> blank (ah_smtpFromEmail h) = false -> blank identifier = false ->
  first_user (fun v => collate (u_Username v) (trim_space identifier) || collate (u_Email v) (trim_space identifier)) w = Some u ->
  rand_read (aw_drawn w) 32 = Ok raw -> has_hash (hashResetToken (hex raw)) (aw_tokens w) = false ->
  blank password = false -> (forall salt, is_ok (GenerateFromPassword salt password) = true) ->
  (forall claims, is_ok (SignedString (ah_jwtSecret h) claims) = true) ->
  let '(rsp, w1) := run (ForgotPassword h (Some identifier)) w in
  rsp = forgot_message /\
  aw_sent w1 = aw_sent w ++ [(u_Email u, reset_mail h (trim_space (ah_smtpFromEmail h)) u (reset_link raw) (expiry w))] /\
  forall d, d + Second <= effectivePasswordResetTTL h ->
    let '(rsp2, w2) := run (CompletePasswordReset (Some (hex raw, password))) (wait d w1) in
    acr_code rsp2 = 200 /\
    exists token u', run (Login h (Some (u_Username u, password))) w2 = (mkAccountResponse 200 (ALogin token (public u')), w2) /\
      identity u' = identity u /\ u_MustChangePassword u' = false.
Proof.
  intros Hw Hf Hm Hhost Hfrom Hb Hu Hr Hh Hp Hgen Hsign.
  pose proof (has_hash_clear _ (u_ID u) _ Hh) as Hcl. pose proof (first_user_row _ _ _ Hw Hu) as Hlu.
  rewrite (ForgotPassword_ok identifier u raw w) by eauto. split; [done|]. split; [done|]. intros d Hd.
  pose proof (mailed_wf w u raw Hw Hlu Hcl) as Hw1. destruct (rand_read_bytes _ _ _ Hr) as [Hlen Hbytes].
  assert (Hraw : blank (hex raw) = false) by (apply hex_not_blank; [intros ->; discriminate|done]).
  set (t := token_row w (mkToken 0 (u_ID u) (hashResetToken (hex raw)) (expiry w) None zero_time)).
  assert (Ht : token_of (hashResetToken (hex raw)) (aw_tokens (wait d (mailed w u raw))) = Some t).
  { apply (token_of_lookup _ (aw_next_token w) t); [by apply wf_wait|]. apply lookup_insert_eq. }
  destruct (complete_ok (hex raw) password (wait d (mailed w u raw)) t u) as (hashed & at_ & w' & Hrun & Hw' & Hf' & Hu' & Hc);
    try done; [by apply wf_wait|by apply datetime_late|].
  rewrite Hrun. split; [done|].
  destruct (Login_ok (u_ID u) (set_password hashed false at_ u) password w' Hw' Hf' Hu') as (token & _ & Hl); [|done|].
  { pose proof (set_password_credentials hashed false at_ u) as E. unfold credentials in E. injection E as -> _. done. }
  exists token, (set_password hashed false at_ u). pose proof (set_password_identity hashed false at_ u) as Ei.
  pose proof (set_password_credentials hashed false at_ u) as Ec. unfold credentials, identity in Ei, Ec.
  injection Ec as _ Ec. assert (En : u_Username (set_password hashed false at_ u) = u_Username u) by congruence.
  rewrite En in Hl. by split_and!.
Qed.
End flow.

(** ** The token of a sign-in *)

(** Claims that are texts and natural numbers. *)
Definition claims_ok (claims : list (string * json)) : Prop :=
  Forall (fun kv => utf8 kv.1 /\
    match kv.2 with JStr s => utf8 s | JNum lit => exists n, 0 <= n /\ lit = itoa n | _ => False end) claims.

(** What the library documents: a token verifies, with the key it was signed
    with, until the second of its claim "exp". *)
Definition jwt_verifies `{JwtLibrary} : Prop := forall secret claims token exp t,
  SignedString secret claims = Ok token -> claims_ok claims -> jget "exp" claims = Some (JNum (itoa exp)) ->
  t < exp * Second ->
  exists c, ParseHMAC secret token t = Some c /\ forall k, as_string (jget k c) = as_string (jget k claims).

Definition jwt_expires `{JwtLibrary} : Prop := forall secret claims token exp t,
  SignedString secret claims = Ok token -> claims_ok claims -> jget "exp" claims = Some (JNum (itoa exp)) ->
  exp * Second <= t -> ParseHMAC secret token t = None.

(** The texts of the columns and the range of the key. *)
Definition columns_ok (w : AccountWorld) : Prop := forall id u, aw_users w !! id = Some u ->
  0 <= u_ID u <= i64_max /\ utf8 (u_Username u) /\ utf8 (u_Role u).

Section tokens.
Context `{Collation} `{RowOrder} `{Bcrypt} `{JwtLibrary} (h : AuthHandler).

Lemma plain_itoa n : 0 <= n -> plain_text (itoa n).
Proof.
  intros Hn. unfold itoa. destruct n as [|p|p]; [repeat constructor| |lia].
  change (pretty (Zpos p)) with (pretty_N_go (Npos p) "").
  destruct (pretty_go_shape (Npos p) "" ltac:(lia)) as (d & t & -> & Hd & Ht). rewrite string_app_nil_r.
  constructor; [lia|]. eapply Forall_impl; [exact Ht|]. intros c Hc%between_spec. lia.
Qed.

Lemma login_claims_ok u t :
  0 <= u_ID u -> utf8 (u_Username u) -> utf8 (u_Role u) -> 0 <= unix_ns t -> claims_ok (login_claims u t).
Proof.
  intros Hi Hn Hr Ht. assert (Hs : forall d, 0 <= d -> 0 <= (unix_ns t + d) / Second) by (intros; apply Z.div_pos; unfold Second; lia).
  unfold claims_ok, login_claims. repeat (apply Forall_cons; split); [..|by apply Forall_nil]; cbn [fst snd];
    (split; [by apply utf8_plain; repeat constructor|]); [by apply utf8_plain, plain_itoa|done|done| |].
  - eexists. split; [|reflexivity]. apply Hs. unfold Hour, Minute, Second. lia.
  - eexists. split; [|reflexivity]. specialize (Hs 0). rewrite Z.add_0_r in Hs. by apply Hs.
Qed.

Lemma Login_token body w :
  ends (Login h body) w (fun rsp _ => forall token pu, rsp = mkAccountResponse 200 (ALogin token pu) ->
    exists id u, aw_users w !! id = Some u /\ pu = public u /\
      SignedString (ah_jwtSecret h) (login_claims u (account_now w)) = Ok token).
Proof.
  unfold Login, GetUserByUsername. destruct body as [[username password]|]; [|by apply ends_ret].
  apply ends_bind, ends_act, wp_query. intros r w1 S1 Hr. destruct r as [[u|]|msg]; [|by apply ends_ret..].
  specialize (Hr _ eq_refl). destruct (CompareHashAndPassword _ _); cbn [negb]; [|by apply ends_ret].
  apply ends_bind, ends_act, wp_get, ends_ret. intros token pu. unfold generateToken.
  destruct (SignedString _ _) as [tok|msg] eqn:E; [|done]. intros [= -> <-]. rewrite (same_now _ _ S1) in E.
  unfold first_user in Hr. symmetry in Hr. apply head_Some_elem_of in Hr. rewrite order_by_perm in Hr.
  apply list_elem_of_In, filter_In in Hr as [Hin _]. apply list_elem_of_In, elem_of_records in Hin as [id Hid].
  rewrite (same_users _ _ S1) in Hid. eauto.
Qed.

(** A token signed with a secret is accepted by those who check it with the
    same secret, as the user in its claims, for 24 hours. *)
Lemma signed_accepted secret u t0 token t :
  jwt_verifies -> jwt_expires -> 0 <= u_ID u <= i64_max -> utf8 (u_Username u) -> utf8 (u_Role u) -> 0 <= unix_ns t0 ->
  SignedString secret (login_claims u t0) = Ok token ->
  JWTAuth secret ("Bearer " +:+ token) t =
    if unix_ns t <? (unix_sec t0 + 86400) * Second
    then inl (mkCaller (u_ID u) (u_Username u) (u_Role u))
    else inr (account_error "invalid token" 401).
Proof.
  intros Hv Hx Hid Hname Hrole Hn Hs. pose proof (login_claims_ok u t0 (proj1 Hid) Hname Hrole Hn) as Hok.
  assert (Hexp : jget "exp" (login_claims u t0) = Some (JNum (itoa (unix_sec t0 + 86400)))).
  { cbn. do 3 f_equal. unfold unix_sec, add. cbn [unix_ns]. unfold Hour, Minute, Second. Z.div_mod_to_equations. lia. }
  unfold JWTAuth. change (String.eqb ("Bearer " +:+ token) "") with false. cbv iota.
  change (split_first (chr 32) ("Bearer " +:+ token)) with (Some ("Bearer", token)). cbv iota beta.
  change (String.eqb (Templates.to_lower "Bearer") "bearer") with true. cbn [negb].
  destruct (Z.ltb_spec (unix_ns t) ((unix_sec t0 + 86400) * Second)) as [Hlt|Hge].
  - destruct (Hv _ _ _ _ (unix_ns t) Hs Hok Hexp Hlt) as (c & -> & Hk). unfold claim. rewrite !Hk. cbn.
    unfold parse_int_ignoring. rewrite parse_int_itoa by lia. f_equal. f_equal. i64_lia.
  - by rewrite (Hx _ _ _ _ (unix_ns t) Hs Hok Hexp Hge).
Qed.

(** C23: the token of a sign-in is accepted for 24 hours, counted in whole seconds,
    as the user who signed in with the role of that moment, and then refused. *)
Theorem login_accepted body w token pu t :
  jwt_verifies -> jwt_expires -> columns_ok w -> 0 <= unix_ns (account_now w) ->
  (run (Login h body) w).1 = mkAccountResponse 200 (ALogin token pu) ->
  JWTAuth (ah_jwtSecret h) ("Bearer " +:+ token) t =
    if unix_ns t <? (unix_sec (account_now w) + 86400) * Second
    then inl (mkCaller (pu_ID pu) (pu_Username pu) (pu_Role pu))
    else inr (account_error "invalid token" 401).
Proof.
  intros Hv Hx Hc Hn Hrun. pose proof (Login_token body w) as Hl. unfold ends in Hl.
  destruct (run (Login h body) w) as [rsp w']. cbn [fst] in Hrun. destruct (Hl _ _ Hrun) as (id & u & Hu & -> & Hs).
  destruct (Hc _ _ Hu) as (Hid & Hname & Hrole).
  destruct u. by apply signed_accepted.
Qed.
End tokens.
