(* ===== verification/AccountsRuns.v ===== *)
(** * Accounts: a library to run them on, and concrete runs

    A collation, a password hash, tokens and random numbers that are simple
    enough to compute with; the passwords an administrator hands out; the first
    administrator; and one link used twice at the same time. *)

From S2P Require Import Prelude Programs GoStrings GoTime Json JsonText Store Sha256 Users ScheduleHandler Accounts AccountsSpec AccountsFlow.

Open Scope Z_scope.
Open Scope go_scope.

(** ** Temporary passwords *)

Section passwords.
Context `{Entropy}.

Lemma get_in_alphabet n c : String.get n tempPasswordAlphabet = Some c -> in_string c tempPasswordAlphabet = true.
Proof.
  intros Hg. unfold in_string. apply negb_true_iff, not_true_iff_false. intros Ha. revert n Hg.
  generalize dependent tempPasswordAlphabet. intros s. induction s as [|d s IH]; intros Ha n Hg; [done|].
  cbn in Ha. apply andb_true_iff in Ha as [Hd Hs]. destruct n as [|n]; cbn in Hg.
  - injection Hg as ->. by rewrite Ascii.eqb_refl in Hd.
  - by apply (IH Hs n).
Qed.

Lemma draw_chars_spec n w : forall s w', draw_chars n w = (Ok s, w') ->
  String.length s = n /\ all_bytes (fun c => in_string c tempPasswordAlphabet) s = true.
Proof.
  revert w. induction n as [|n IH]; intros w s w' E; cbn [draw_chars] in E.
  - unfold mret, ST_ret in E. by simplify_eq.
  - unfold mbind, ST_bind in E. unfold draw in E. destruct (rand_int _ _) as [v|msg]; [|done].
    destruct (draw_chars n _) as [r w2] eqn:Er. destruct r as [t|msg]; [|done].
    destruct (String.get (Z.to_nat v) tempPasswordAlphabet) as [c|] eqn:Eg; [|done].
    unfold mret, ST_ret in E. simplify_eq. destruct (IH _ _ _ Er) as [Hl Ha]. cbn [String.length all_bytes].
    rewrite Hl, Ha, (get_in_alphabet _ _ Eg). done.
Qed.

(** A temporary password has the length asked for, and only letters and digits
    that cannot be mistaken for each other: no zero, one, capital I and O or
    small l. *)
Lemma temporary_password n w s w' :
  generateTemporaryPassword n w = (Ok s, w') ->
  0 < n /\ Z.of_nat (String.length s) = n /\ all_bytes (fun c => in_string c tempPasswordAlphabet) s = true /\
  all_bytes (fun c => negb (in_string c "01IOl")) tempPasswordAlphabet = true.
Proof.
  unfold generateTemporaryPassword. destruct (Z.leb_spec n 0) as [|Hn]; [done|]. intros E.
  destruct (draw_chars_spec _ _ _ _ E) as [Hl Ha]. split_and!; [done|lia|done|reflexivity].
Qed.
End passwords.

(** ** The first administrator *)

Lemma EnsureAdmin_spec `{Collation} `{RowOrder} username email hashed w :
  wp (EnsureAdmin username email hashed) w (fun r w' => r = Ok tt ->
    if bool_decide (aw_users w = ∅)
    then exists u, aw_users w' = {[ aw_next_user w := u ]} /\ u_Role u = "admin" /\ u_HashedPassword u = hashed
    else aw_users w' = aw_users w).
Proof.
  unfold EnsureAdmin, UserCount. apply wp_bind, wp_query. intros r w1 S1 Hr.
  destruct r as [n|msg]; [specialize (Hr n eq_refl)|by apply wp_ret]. rewrite (same_users _ _ S1) in Hr.
  case_bool_decide as E.
  - rewrite E, map_size_empty in Hr. subst n. cbn [Z.of_nat Z.ltb Z.compare].
    apply wp_bind, wp_sql; [intros msg w2 S2; by apply wp_ret|intros w2 S2].
    cbv zeta. change (aw_users (w2 <| aw_next_user := aw_next_user w2 + 1 |>)) with (aw_users w2).
    rewrite (same_users _ _ S2), (same_users _ _ S1), E. apply wp_ret. intros _.
    rewrite <- (same_next_user _ _ S1), <- (same_next_user _ _ S2). eexists. split; [by rewrite insert_empty|done].
  - assert (Hn : 0 <? n = true).
    { apply Z.ltb_lt. subst n. apply map_size_non_empty_iff in E. lia. }
    rewrite Hn. apply wp_ret. intros _. by apply same_users.
Qed.

(** ** A library *)

Definition exact_collation : Collation.
Proof. refine {| collate := String.eqb |}; [apply String.eqb_refl|apply String.eqb_sym]. Defined.

Definition plain_bcrypt : Bcrypt.
Proof.
  refine {| GenerateFromPassword := fun _ p => if Nat.leb (String.length p) 72 then Ok ("$" +:+ p) else Err "password too long";
            CompareHashAndPassword := fun hash p => String.eqb hash ("$" +:+ p) |}.
  intros salt p hash. destruct (Nat.leb _ _); [|done]. intros [= <-]. apply String.eqb_refl.
Defined.

Definition counting_entropy : Entropy.
Proof.
  refine {| rand_read := fun k n => Ok (replicate n (Z.of_nat k mod 256));
            rand_int := fun k max => if 0 <? max then Ok (Z.of_nat k mod max) else Err "crypto/rand: argument to Int is <= 0" |}.
  - intros k n l [= <-]. split; [apply length_replicate|]. apply Forall_replicate. unfold is_byte. Z.div_mod_to_equations; lia.
  - intros k max v. destruct (Z.ltb_spec 0 max); [|done]. intros [= <-]. by apply Z.mod_pos_bound.
Defined.

(** Tokens that anybody could write: the claims in JSON. *)
Definition member_text (kv : string * json) : string * string :=
  (kv.1, match kv.2 with JStr s => marshal_string s | JNum lit => lit | _ => "null" end).

Definition claims_in (t : Z) (token : string) : option (list (string * json)) :=
  match parse_json token with
  | Some (JObj c) =>
    match jget "exp" c with
    | Some (JNum lit) => match parse_int lit with Some e => if t <? e * Second then Some c else None | None => None end
    | _ => None
    end
  | _ => None
  end.

Definition plain_jwt : JwtLibrary := {|
  SignedString := fun _ claims => Ok (struct_text (map member_text claims));
  ParseHMAC := fun _ token t => claims_in t token
|}.

Lemma parse_claims claims : claims_ok claims -> parse_json (struct_text (map member_text claims)) = Some (JObj claims).
Proof.
  intros Hc. assert (E : map member_text claims = (map (fun kv => (member_text kv, kv.2)) claims).*1).
  { rewrite <- list_fmap_compose. done. }
  rewrite E, parse_struct.
  - f_equal. f_equal. rewrite map_map. rewrite <- (map_id claims) at 2. apply map_ext. by intros [k v].
  - apply Forall_map. eapply Forall_impl; [exact Hc|]. intros [k v] [Hk Hv]. split; [done|]. cbn in Hv |- *.
    destruct v as [|b|lit|s|l|l]; try done; [|by apply reads_string]. destruct Hv as (n & Hn & ->). by apply reads_int.
Qed.

Lemma jget_ok claims k v : claims_ok claims -> jget k claims = Some v ->
  match v with JStr s => utf8 s | JNum lit => exists n, 0 <= n /\ lit = itoa n | _ => False end.
Proof.
  induction 1 as [|[k' v'] l [_ Hv] _ IH]; [done|]. cbn [jget]. destruct (jget k l) as [w|]; [by intros [= <-]; apply IH|].
  destruct (String.eqb k' k); [by intros [= <-]|done].
Qed.

Lemma claims_in_ok claims exp t : claims_ok claims -> jget "exp" claims = Some (JNum (itoa exp)) ->
  claims_in t (struct_text (map member_text claims)) = if t <? exp * Second then Some claims else None.
Proof.
  intros Hc He. unfold claims_in. rewrite parse_claims, He by done.
  destruct (jget_ok _ _ _ Hc He) as (n & Hn & E). rewrite E, parse_int_itoa by done. by apply itoa_inj in E as ->.
Qed.

Lemma plain_jwt_verifies : @jwt_verifies plain_jwt.
Proof.
  intros secret claims token exp t [= <-] Hc He Ht. exists claims. split; [|done]. cbn.
  rewrite (claims_in_ok _ exp) by done. by rewrite (proj2 (Z.ltb_lt _ _)).
Qed.

Lemma plain_jwt_expires : @jwt_expires plain_jwt.
Proof.
  intros secret claims token exp t [= <-] Hc He Ht. cbn. rewrite (claims_in_ok _ exp) by done.
  by rewrite (proj2 (Z.ltb_ge _ _)).
Qed.

(** ** One user with a link *)

Definition ada : User := mkUser 1 "ada" "ada@example.org" "$old" "admin" false zero_time zero_time.

Definition link_row : PasswordResetToken :=
  mkToken 1 1 (hashResetToken "link") (mkTime (1800 * Second) UTC) None zero_time.

Definition linked_world : AccountWorld :=
  mkAccountWorld (mkWorld (mkDB ∅ ∅) [] 0 0 0 "") {[ 1 := ada ]} 2 {[ 1 := link_row ]} 2 ∅ ∅ 0 [] [] [].

Definition fresh_world : AccountWorld := linked_world <| aw_tokens := ∅ |>.

Lemma ada_row id u : aw_users linked_world !! id = Some u -> 1 = id /\ ada = u.
Proof. apply lookup_singleton_Some. Qed.

Lemma link_rows id t : aw_tokens linked_world !! id = Some t -> 1 = id /\ link_row = t.
Proof. apply lookup_singleton_Some. Qed.

Lemma linked_wf : @accounts_wf exact_collation linked_world.
Proof.
  split.
  - intros id u [<- <-]%ada_row. split; [reflexivity|]. cbn. lia.
  - intros id u id' u' [<- _]%ada_row [<- _]%ada_row Hne. done.
  - intros id t [<- <-]%link_rows. split; [reflexivity|]. cbn. lia.
  - intros id t [<- <-]%link_rows. exists ada. apply lookup_singleton_eq.
  - intros id t id' t' [<- _]%link_rows [<- _]%link_rows _. done.
  - intros id t id' t' [<- _]%link_rows [<- _]%link_rows _ _ _. done.
Qed.

Lemma fresh_wf : @accounts_wf exact_collation fresh_world.
Proof. apply wf_fewer_tokens; [apply linked_wf|apply map_empty_subseteq]. Qed.

Definition mail_handler : AuthHandler :=
  NewAuthHandler (mkAuthHandler "key" "https://shiva.example/" 0 "smtp.example" 587 "" "" "noreply@example.com" "Shiva").

Notation account_thread := (@request_thread exact_collation merge_row_order plain_bcrypt plain_jwt counting_entropy mail_handler "").
Notation serve_ada := (@serve_account exact_collation merge_row_order plain_bcrypt plain_jwt counting_entropy mail_handler "").

Definition nobody : http_request := mkHttp "" "".

Definition stored_hash (id : Z) (w : AccountWorld) : string :=
  match aw_users w !! id with Some u => u_HashedPassword u | None => "" end.

Definition token_used (id : Z) (w : AccountWorld) : bool :=
  match aw_tokens w !! id with Some t => negb (unused t) | None => false end.

(** Two requests with the same link at the same time: both read the token
    before either uses it.  The first is answered with success and its password
    is stored; then the second, with the token already used, replaces it. *)
Theorem reset_token_twice :
  exists reqs first rest,
    let middle := sched first (map account_thread reqs, linked_world) in
    let final := sched rest middle in
    map snd reqs = [AComplete (Some ("link", "mine")); AComplete (Some ("link", "theirs"))] /\
    token_used 1 middle.2 = true /\ stored_hash 1 middle.2 = "$mine" /\ middle.1 !! 0%nat = Some (mret tt) /\
    stored_hash 1 final.2 = "$theirs".
Proof.
  exists [(nobody, AComplete (Some ("link", "mine"))); (nobody, AComplete (Some ("link", "theirs")))],
    [0; 0; 1; 1; 0]%nat, [1]%nat.
  vm_compute. split_and!; reflexivity.
Qed.

(** ** Witnesses *)

Lemma accounts_invariant_witness :
  @accounts_wf exact_collation linked_world /\
  @accounts_wf exact_collation
    (sched [0; 0; 1; 1; 0; 1]%nat
       (map account_thread [(nobody, AComplete (Some ("link", "mine"))); (nobody, AForgot (Some "ada"))], linked_world)).2.
Proof.
  split; [exact linked_wf|].
  exact (@accounts_invariant exact_collation merge_row_order plain_bcrypt plain_jwt counting_entropy mail_handler ""
    [(nobody, AComplete (Some ("link", "mine"))); (nobody, AForgot (Some "ada"))] [0; 0; 1; 1; 0; 1]%nat linked_world linked_wf).
Defined.

Lemma accounts_safety_witness :
  @accounts_wf exact_collation linked_world /\
  aw_users (run (serve_ada nobody (AComplete (Some ("guess", "mine")))) linked_world).2 = aw_users linked_world.
Proof.
  split; [exact linked_wf|].
  pose proof (@accounts_safety exact_collation merge_row_order plain_bcrypt plain_jwt counting_entropy mail_handler ""
    nobody (AComplete (Some ("guess", "mine"))) linked_world linked_wf) as Hs.
  assert (Hc : acr_code (run (serve_ada nobody (AComplete (Some ("guess", "mine")))) linked_world).1 = 400)
    by (vm_compute; reflexivity).
  destruct (run _ linked_world) as [rsp w']. cbn [fst snd] in *. apply Hs. rewrite Hc. discriminate.
Defined.

Lemma reset_token_once_witness :
  @accounts_wf exact_collation linked_world /\
  acr_code (run (serve_ada nobody (AComplete (Some ("link", "mine")))) linked_world).1 = 200 /\
  acr_code (run (serve_ada nobody (AComplete (Some ("link", "theirs"))))
    (run (serve_ada nobody (AComplete (Some ("link", "mine")))) linked_world).2).1 <> 200.
Proof.
  split; [exact linked_wf|].
  assert (Hc : acr_code (run (serve_ada nobody (AComplete (Some ("link", "mine")))) linked_world).1 = 200)
    by (vm_compute; reflexivity).
  split; [exact Hc|].
  pose proof (@reset_token_once exact_collation merge_row_order plain_bcrypt plain_jwt counting_entropy mail_handler ""
    "link" "mine" "theirs" nobody [] [] linked_world linked_wf) as Hs.
  destruct (run (serve_ada nobody (AComplete (Some ("link", "mine")))) linked_world) as [rsp w']. cbn [fst snd] in *.
  specialize (Hs Hc). cbv zeta in Hs. change (sched [] (map account_thread [], w')).2 with w' in Hs.
  destruct (run _ w') as [rsp2 w3]. apply Hs.
Defined.

Notation ada_signs_in password :=
  (run (@Login exact_collation merge_row_order plain_bcrypt plain_jwt mail_handler (Some ("ada", password))) fresh_world).

Definition ada_token : string := struct_text (map member_text (login_claims ada (account_now fresh_world))).

Lemma fresh_columns : columns_ok fresh_world.
Proof.
  intros id u Hu. change (aw_users fresh_world) with (aw_users linked_world) in Hu. apply ada_row in Hu as [<- <-].
  split; [cbn; i64_lia|]. split; apply utf8_plain; repeat constructor.
Qed.

(** An administrator signs in; a day later the token is refused. *)
Lemma login_accepted_witness :
  @jwt_verifies plain_jwt /\ @jwt_expires plain_jwt /\ columns_ok fresh_world /\
  (ada_signs_in "old").1 = mkAccountResponse 200 (ALogin ada_token (public ada)) /\
  @JWTAuth plain_jwt "key" ("Bearer " +:+ ada_token) (mkTime (86399 * Second) UTC) = inl (mkCaller 1 "ada" "admin") /\
  @JWTAuth plain_jwt "key" ("Bearer " +:+ ada_token) (mkTime (86400 * Second) UTC) = inr (account_error "invalid token" 401).
Proof.
  assert (Hl : (ada_signs_in "old").1 = mkAccountResponse 200 (ALogin ada_token (public ada))) by (vm_compute; reflexivity).
  pose proof (fun t => @login_accepted exact_collation merge_row_order plain_bcrypt plain_jwt mail_handler
    (Some ("ada", "old")) fresh_world ada_token (public ada) t plain_jwt_verifies plain_jwt_expires fresh_columns
    ltac:(cbn; lia) Hl) as Ha.
  split; [exact plain_jwt_verifies|]. split; [exact plain_jwt_expires|]. split; [exact fresh_columns|]. split; [exact Hl|].
  split; [exact (Ha (mkTime (86399 * Second) UTC))|exact (Ha (mkTime (86400 * Second) UTC))].
Defined.

Notation ada_forgets := (run (@ForgotPassword exact_collation merge_row_order counting_entropy mail_handler (Some " ada "))).
Notation completes token password :=
  (run (@CompletePasswordReset plain_bcrypt (Some (token, password)))).

(** The link that is mailed sets a password with which ada signs in. *)
Lemma reset_then_login_witness :
  @accounts_wf exact_collation fresh_world /\
  length (aw_sent (ada_forgets fresh_world).2) = 1%nat /\
  acr_code (completes (hex (replicate 32 0)) "new" (wait (1799 * Second) (ada_forgets fresh_world).2)).1 = 200.
Proof.
  split; [exact fresh_wf|].
  pose proof (@reset_then_login exact_collation merge_row_order plain_bcrypt plain_jwt counting_entropy mail_handler
    " ada " ada (replicate 32 0) "new" fresh_world fresh_wf eq_refl eq_refl eq_refl eq_refl eq_refl) as Hr.
  specialize (Hr ltac:(vm_compute; reflexivity) ltac:(vm_compute; reflexivity) ltac:(vm_compute; reflexivity)
    ltac:(vm_compute; reflexivity) ltac:(intros; vm_compute; reflexivity) ltac:(intros; reflexivity)).
  destruct (ada_forgets fresh_world) as [rsp w1]. cbn [fst snd]. destruct Hr as (_ & Hsent & Hd).
  split; [rewrite Hsent; reflexivity|]. specialize (Hd (1799 * Second) ltac:(vm_compute; discriminate)).
  destruct (completes _ _ _) as [rsp2 w2]. exact (proj1 Hd).
Defined.
