(* ===== verification/ScheduleApi.v ===== *)
(** * Correctness of the schedule API

    What a request may change: nothing when it is refused, nothing of a
    schedule the caller may not manage, and one schedule at most otherwise;
    then the effect of each handler on the row it changes. *)

From S2P Require Export ScheduleHandler.

Open Scope Z_scope.
Open Scope go_scope.

(** ** Requests *)

Inductive api_request :=
  | ReqCreate (body : option CreateScheduleRequest)
  | ReqList
  | ReqGet (id : string)
  | ReqUpdate (id : string) (body : option CreateScheduleRequest)
  | ReqDelete (id scope occurrence : string)
  | ReqPause (id : string)
  | ReqResume (id : string)
  | ReqRunNow (id : string)
  | ReqCalendar (from to_ : string)
  | ReqCheckConflict (body : option (string * Z * string))
  | ReqExecutions (id : string).

(** The schedule a request is about. *)
Definition target (req : api_request) : option string :=
  match req with
  | ReqUpdate id _ | ReqDelete id _ _ | ReqPause id | ReqResume id | ReqRunNow id => Some id
  | _ => None
  end.

(** ** What a response allows *)

(** [db'] differs from [db] at most in the schedule [id] and its executions. *)
Definition same_but (id : string) (db db' : DB) : Prop :=
  (forall k, k <> id -> scheduled_tests db' !! k = scheduled_tests db !! k) /\
  (forall k ex, exe_ScheduleID ex <> id ->
     schedule_executions db' !! k = Some ex <-> schedule_executions db !! k = Some ex).

Definition is_error (r : response) : Prop := 400 <= rsp_code r.

(** A step from [db] that ends in [db'] with response [r]: a refused request
    changes nothing; one that succeeds adds a schedule of the caller's, or
    changes one schedule that the caller may manage, whose owner stays. *)
Definition allowed (c : caller) (db db' : DB) (r : response) : Prop :=
  db' = db \/
  ~ is_error r /\
  ((exists id st, scheduled_tests db !! id = None /\ db' = db <| scheduled_tests := <[id := st]> (scheduled_tests db) |> /\
      sch_ID st = id /\ sch_UserID st = c_UserID c) \/
   (exists id st, scheduled_tests db !! id = Some st /\ canManage c st = true /\ same_but id db db' /\
      forall st', scheduled_tests db' !! id = Some st' ->
        sch_ID st' = id /\ sch_UserID st' = sch_UserID st)).

(** A status code that is an error, or is not. *)
Ltac by_code := first [done | congruence | intros; unfold is_error, httpError; simpl; lia].

Section api.
Context `{TzDatabase} `{RowOrder} `{MapOrder} `{UuidSource} `{JsonErrors}
        (secretSvc : option secrets_Service) (c : caller) (start : Time).

Definition serve (req : api_request) : ST World response :=
  match req with
  | ReqCreate body => Create secretSvc c start body
  | ReqList => List
  | ReqGet id => Get id
  | ReqUpdate id body => Update secretSvc c start id body
  | ReqDelete id scope occurrence => Delete c id scope occurrence
  | ReqPause id => Pause c id
  | ReqResume id => Resume c id
  | ReqRunNow id => RunNow c id
  | ReqCalendar from to_ => Calendar from to_
  | ReqCheckConflict body => CheckConflict start body
  | ReqExecutions id => ListExecutions id
  end.

(** What a handler ensures from the tables [db] on, of its response and of the
    tables it leaves. *)
Definition post (Q : response -> DB -> Prop) (db : DB) (m : ST World response) : Prop :=
  forall w, w_db w = db -> Q (m w).1 (w_db (m w).2).

Definition api_at (db : DB) (m : ST World response) : Prop := post (fun r db' => allowed c db db' r) db m.

Definition reads {A} (m : ST World A) : Prop := forall w, w_db (m w).2 = w_db w.

Lemma post_ret Q (db : DB) (r : response) : Q r db -> post Q db (mret r).
Proof. intros HQ w <-. exact HQ. Qed.

Lemma post_bind {A} Q (db : DB) (m : ST World A) (f : A -> ST World response) :
  reads m -> (forall a, (exists w, w_db w = db /\ (m w).1 = a) -> post Q db (f a)) -> post Q db (m ≫= f).
Proof.
  intros Hm Hf w Hw. unfold mbind, ST_bind. pose proof (Hm w) as Hr.
  destruct (m w) as [a w'] eqn:E. simpl in Hr. apply Hf; [|congruence].
  exists w. rewrite E. done.
Qed.

(** A statement that sets the tables to [g db], reported afterwards. *)
Lemma post_write Q (db : DB) (context : string) (g : DB -> DB) (f : res unit -> response) :
  (forall e, Q (f (Err e)) db) -> Q (f (Ok tt)) (g db) ->
  post Q db (r ← run_sql context (fun db => (Ok tt, g db)); mret (f r)).
Proof.
  intros He Hok w Hw. unfold mbind, ST_bind, run_sql, mret, ST_ret.
  destruct (w_faults w) as [|[msg|] fs]; simpl; rewrite Hw; [exact Hok|apply He|exact Hok].
Qed.

Lemma api_ret (db : DB) (r : response) : api_at db (mret r).
Proof. apply post_ret. by left. Qed.

Lemma api_bind {A} (db : DB) (m : ST World A) (f : A -> ST World response) :
  reads m -> (forall a, (exists w, w_db w = db /\ (m w).1 = a) -> api_at db (f a)) -> api_at db (m ≫= f).
Proof. apply post_bind. Qed.

Lemma reads_sql {A} (context : string) (stmt : DB -> res A * DB) :
  (forall db, (stmt db).2 = db) -> reads (run_sql context stmt).
Proof.
  intros Hs w. destruct (run_sql_frame context stmt w) as [[E | E] _]; unfold st_exec in E; rewrite E; done.
Qed.

Lemma reads_bind {A B} (m : ST World A) (f : A -> ST World B) :
  reads m -> (forall a, reads (f a)) -> reads (m ≫= f).
Proof.
  intros Hm Hf w. unfold mbind, ST_bind. specialize (Hm w). destruct (m w) as [a w'].
  rewrite Hf. exact Hm.
Qed.

Lemma reads_ret {A} (a : A) : reads (mret a).
Proof. intros w. done. Qed.

Lemma reads_get : reads (st_get (S := World)).
Proof. intros w. done. Qed.

Lemma reads_uuid : reads new_uuid.
Proof. intros w. done. Qed.

Lemma GetSchedule_reads id : reads (GetSchedule id).
Proof. apply reads_sql. done. Qed.

Lemma ListSchedules_reads : reads ListSchedules.
Proof. apply reads_sql. done. Qed.

Lemma overlap_reads t d id : reads (checkScheduleOverlap start t d id).
Proof.
  unfold checkScheduleOverlap, CheckOverlap. apply reads_bind; [apply reads_get|]. intros w.
  destruct (runningTestConflict _ _); [apply reads_ret|].
  apply reads_bind; [by apply reads_sql|]. intros [[|s l]|e]; [|apply reads_ret|apply reads_ret].
  apply reads_bind; [by apply reads_sql|]. intros [rs|e]; apply reads_ret.
Qed.

Lemma managed_reads id : reads (managedSchedule c id).
Proof. apply reads_bind; [apply GetSchedule_reads|]. intros a. apply reads_ret. Qed.

(** A managed schedule is a row the caller may manage. *)
Lemma managed_found (id : string) (db : DB) (st : ScheduledTest) :
  (exists w, w_db w = db /\ (managedSchedule c id w).1 = inl st) ->
  scheduled_tests db !! id = Some st /\ canManage c st = true.
Proof.
  intros (w & <- & E). revert E. unfold managedSchedule, mbind, ST_bind, GetSchedule, run_sql.
  assert (Hgo : forall r : res (option ScheduledTest), (exists e, r = Err e) \/ r = Ok (scheduled_tests (w_db w) !! id) ->
    match r with
    | Err _ | Ok None => inr (httpError "schedule not found" 404)
    | Ok (Some existing) => if negb (canManage c existing) then inr (httpError "forbidden" 403) else inl existing
    end = inl st -> scheduled_tests (w_db w) !! id = Some st /\ canManage c st = true).
  { intros r [[e ->] | ->]; [done|]. destruct (scheduled_tests (w_db w) !! id) as [x|]; [|done].
    destruct (canManage c x) eqn:Ec; simpl; [|done]. intros [= ->]. done. }
  destruct (w_faults w) as [|[msg|] fs]; simpl; intros E.
  - exact (Hgo (Ok _) (or_intror eq_refl) E).
  - discriminate E.
  - exact (Hgo (Ok _) (or_intror eq_refl) E).
Qed.

Lemma api_write (db : DB) (context : string) (g : DB -> DB) (f : res unit -> response) :
  (forall e, is_error (f (Err e))) -> allowed c db (g db) (f (Ok tt)) ->
  api_at db (r ← run_sql context (fun db => (Ok tt, g db)); mret (f r)).
Proof. intros He Hok. apply post_write; [by left|exact Hok]. Qed.

(** An update of a row the caller manages keeps its owner. *)
Lemma allowed_update (db : DB) (id : string) (st : ScheduledTest) (f : ScheduledTest -> ScheduledTest) r :
  scheduled_tests db !! id = Some st -> canManage c st = true -> ~ is_error r ->
  sch_ID (f st) = id -> sch_UserID (f st) = sch_UserID st ->
  allowed c db (update_row f id db) r.
Proof.
  intros Hst Hc Hr Hid Hu. right. split; [done|]. right. exists id, st. split_and!; try done.
  - split; simpl; [|done]. intros k Hk. apply lookup_alter_ne. done.
  - intros st'. simpl. rewrite lookup_alter_eq, Hst. intros [= <-]. done.
Qed.

Lemma allowed_delete (db : DB) (id : string) (st : ScheduledTest) r :
  scheduled_tests db !! id = Some st -> canManage c st = true -> ~ is_error r ->
  allowed c db (mkDB (delete id (scheduled_tests db))
                  (filter (fun kv => exe_ScheduleID kv.2 <> id) (schedule_executions db))) r.
Proof.
  intros Hst Hc Hr. right. split; [done|]. right. exists id, st. split_and!; try done.
  - split; simpl.
    + intros k Hk. apply lookup_delete_ne. done.
    + intros k ex Hk. rewrite map_lookup_filter_Some. simpl. tauto.
  - intros st'. simpl. rewrite lookup_delete_eq. done.
Qed.

(** ** Each handler *)

Definition keys_ok (db : DB) : Prop := forall k st, scheduled_tests db !! k = Some st -> sch_ID st = k.

Lemma post_managed Q (db : DB) (id : string) (f : ScheduledTest -> ST World response) :
  (forall msg code, 400 <= code -> Q (httpError msg code) db) ->
  (forall st, scheduled_tests db !! id = Some st -> canManage c st = true -> post Q db (f st)) ->
  post Q db (managed ← managedSchedule c id; match managed with inr r => mret r | inl st => f st end).
Proof.
  intros He Hf. apply post_bind; [apply managed_reads|]. intros [st|r] Ha.
  - apply managed_found in Ha as [Hst Hc]. apply Hf; done.
  - destruct Ha as (w & _ & Ha). apply post_ret. revert Ha.
    unfold managedSchedule, mbind, ST_bind. destruct (GetSchedule id w) as [[[x|]|e] w']; simpl.
    + destruct (negb (canManage c x)); [|done]. intros [= <-]. apply He. lia.
    + intros [= <-]. apply He. lia.
    + intros [= <-]. apply He. lia.
Qed.

Lemma api_managed (db : DB) (id : string) (f : ScheduledTest -> ST World response) :
  (forall st, scheduled_tests db !! id = Some st -> canManage c st = true -> api_at db (f st)) ->
  api_at db (managed ← managedSchedule c id; match managed with inr r => mret r | inl st => f st end).
Proof. apply post_managed. by left. Qed.

(** The row an update of [st] writes. *)
Definition written (st row : ScheduledTest) : ScheduledTest :=
  stored_schedule st <| sch_UserID := sch_UserID row |> <| sch_Username := sch_Username row |>
    <| sch_CreatedAt := sch_CreatedAt row |> <| sch_UpdatedAt := sch_UpdatedAt row |>.

Lemma api_update (db : DB) (id : string) (old st : ScheduledTest) (f : res unit -> response) :
  scheduled_tests db !! id = Some old -> canManage c old = true -> sch_ID st = id ->
  (forall e, is_error (f (Err e))) -> ~ is_error (f (Ok tt)) ->
  api_at db (r ← UpdateSchedule st; mret (f r)).
Proof.
  intros Ho Hc Hid He Hok. unfold UpdateSchedule. rewrite Hid.
  apply (api_write db "" (update_row (written st) id) f He).
  apply (allowed_update db id old); by_code.
Qed.

Lemma api_delete (db : DB) (id : string) (old : ScheduledTest) scope :
  scheduled_tests db !! id = Some old -> canManage c old = true -> api_at db (delete_and_report id scope).
Proof.
  intros Ho Hc. unfold delete_and_report, DeleteSchedule.
  apply (api_write db "" _ (fun r => match r with
    | Err _ => httpError "failed to delete schedule" 500
    | Ok _ => mkResponse 200 (BStatus "deleted" (scope_name scope)) end)); [by_code|].
  apply (allowed_delete db id old); by_code.
Qed.

Lemma api_update_report (db : DB) (id : string) (old st : ScheduledTest) scope :
  scheduled_tests db !! id = Some old -> canManage c old = true -> sch_ID st = id ->
  api_at db (update_and_report st scope).
Proof.
  intros Ho Hc Hid.
  apply (api_update db id old st (fun r => match r with
    | Err _ => httpError "failed to update schedule" 500
    | Ok _ => mkResponse 200 (BStatus "updated" (scope_name scope)) end)); by_code.
Qed.

Lemma Delete_api (db : DB) id scope occ : keys_ok db -> api_at db (Delete c id scope occ).
Proof.
  intros Hk. apply api_managed. intros st Hst Hc. pose proof (Hk _ _ Hst) as Hid.
  destruct (parseDeleteScope _ _) as [[sc|] valid]; [|apply api_ret].
  destruct (_ && _); [apply api_ret|].
  destruct (parseDeleteOccurrence _ _) as [o|]; [|apply api_ret].
  apply api_bind; [apply reads_get|]. intros w _.
  destruct (hasPastOccurrence _ _); [apply api_ret|].
  destruct (String.eqb _ _); [apply api_ret|].
  apply api_bind; [by apply reads_sql|]. intros [n|e] _; [|apply api_ret].
  destruct (negb _); [by apply (api_delete db id st)|].
  destruct sc.
  - unfold delete_single. destruct (sameOccurrence _ _); [|by apply (api_update_report db id st)].
    destruct (NextIncludedOccurrence _ _ _ _ _) as [t|e]; [|apply api_ret].
    destruct (is_zero t); [|by apply (api_update_report db id st)].
    destruct (_ =? _); [by apply (api_delete db id st)|by apply (api_update_report db id st)].
  - unfold delete_future. destruct (negb _); [|by apply (api_update_report db id st)].
    destruct (_ =? _); [by apply (api_delete db id st)|by apply (api_update_report db id st)].
Qed.

Lemma applyScheduleUpdates_keeps (st st' : ScheduledTest) (req : CreateScheduleRequest) :
  applyScheduleUpdates st req = Some st' -> sch_ID st' = sch_ID st.
Proof.
  unfold applyScheduleUpdates. destruct (if negb _ then _ else _) as [t|]; [|done].
  intros [= <-]. simpl. destruct (EstimateDurationSeconds req) as [d|e]; [destruct (0 <? d)|]; done.
Qed.

Lemma prepare_reads existing req : reads (prepareUpdatedSchedule secretSvc start existing req).
Proof.
  unfold prepareUpdatedSchedule. destruct (applyScheduleUpdates _ _); [|apply reads_ret].
  destruct (buildStoredAuthConfig _ _ _ _); [|apply reads_ret].
  apply reads_bind; [apply overlap_reads|]. intros x. apply reads_ret.
Qed.

Lemma prepare_id existing req w st x :
  (prepareUpdatedSchedule secretSvc start existing req w).1 = inl (st, x) -> sch_ID st = sch_ID existing.
Proof.
  unfold prepareUpdatedSchedule. destruct (applyScheduleUpdates _ _) as [a|] eqn:E; [|done].
  apply applyScheduleUpdates_keeps in E.
  destruct (buildStoredAuthConfig _ _ _ _); [|done].
  unfold mbind, ST_bind. destruct (checkScheduleOverlap _ _ _ _ w) as [[cf|e] w']; [|done].
  intros [= <- _]. exact E.
Qed.

Lemma Update_api (db : DB) id body : keys_ok db -> api_at db (Update secretSvc c start id body).
Proof.
  intros Hk. apply api_managed. intros st Hst Hc. pose proof (Hk _ _ Hst) as Hid.
  destruct (String.eqb _ _); [apply api_ret|].
  destruct body as [req|]; [|apply api_ret].
  destruct (normalizeScheduleRequestPayload req) as [[req'|e]|]; [|apply api_ret|apply api_ret].
  destruct (_ && _); [apply api_ret|].
  apply api_bind; [apply prepare_reads|]. intros [[cand [cf|]]|r] Ha; try apply api_ret.
  destruct Ha as (w & _ & Ha). apply prepare_id in Ha.
  apply (api_update db id st cand (fun r => match r with
    | Err _ => httpError "failed to update schedule" 500
    | Ok _ => mkResponse 200 (BSchedule cand) end)); by_code.
Qed.

Lemma RunNow_api (db : DB) id : keys_ok db -> api_at db (RunNow c id).
Proof.
  intros Hk. apply api_managed. intros st Hst Hc. pose proof (Hk _ _ Hst) as Hid.
  apply api_bind; [apply reads_get|]. intros w _.
  destruct (negb _); [apply api_ret|].
  apply (api_update db id st _ (fun r => match r with
    | Err _ => httpError "failed to trigger schedule" 500
    | Ok _ => mkResponse 200 (BStatus "triggered" "") end)); by_code.
Qed.

Lemma set_paused_api (db : DB) id paused : keys_ok db -> api_at db (set_paused c id paused).
Proof.
  intros Hk. apply api_managed. intros st Hst Hc. pose proof (Hk _ _ Hst) as Hid.
  apply (api_write db "" (update_row (fun r => r <| sch_Paused := paused |>) id) (fun r => match r with
    | Err _ => httpError (if paused then "failed to pause schedule" else "failed to resume schedule") 500
    | Ok _ => mkResponse 200 (BStatus (if paused then "paused" else "resumed") "") end)); [by_code|].
  apply (allowed_update db id st); by_code.
Qed.

Lemma CreateSchedule_api (db : DB) (st : ScheduledTest) (f : res unit -> response) :
  sch_UserID st = c_UserID c -> (forall e, is_error (f (Err e))) -> ~ is_error (f (Ok tt)) ->
  api_at db (r ← CreateSchedule st; mret (f r)).
Proof.
  intros Hu He Hok w Hw. unfold mbind, ST_bind, CreateSchedule, run_sql, mret, ST_ret. rewrite Hw.
  assert (Hnew : scheduled_tests db !! sch_ID st = None -> forall row,
    row = (stored_schedule st) <| sch_CreatedAt := mkTime (sql_now (w_db_now w)) UTC |>
            <| sch_UpdatedAt := mkTime (sql_now (w_db_now w)) UTC |> ->
    allowed c db (db <| scheduled_tests := <[sch_ID st := row]> (scheduled_tests db) |>) (f (Ok tt))).
  { intros E row ->. right. split; [done|]. left. eexists (sch_ID st), _. split_and!; done. }
  destruct (scheduled_tests db !! sch_ID st) eqn:E;
    destruct (w_faults w) as [|[msg|] fs]; simpl; rewrite ?Hw; try (by left);
    apply Hnew; done.
Qed.

Lemma Create_api (db : DB) body : api_at db (Create secretSvc c start body).
Proof.
  unfold Create. destruct body as [req|]; [|apply api_ret].
  apply api_bind; [apply reads_get|]. intros w _.
  destruct (validateCreateRequest (now w) req) as [[[req' v]|msg]|]; [|apply api_ret|apply api_ret].
  apply api_bind; [apply overlap_reads|]. intros [[cf|]|e] _; [apply api_ret| |apply api_ret].
  apply api_bind; [apply reads_uuid|]. intros id _.
  destruct (buildStoredAuthConfig _ _ _ _) as [a|e]; [|apply api_ret].
  apply (CreateSchedule_api db _ (fun r => match r with
    | Err _ => httpError "failed to create schedule" 500
    | Ok _ => mkResponse 201 (BSchedule (new_schedule id c req' v a)) end)); by_code.
Qed.

Lemma serve_allowed (req : api_request) (db : DB) : keys_ok db -> api_at db (serve req).
Proof.
  intros Hk. destruct req; simpl.
  - apply Create_api.
  - apply api_bind; [apply ListSchedules_reads|]. intros a _. apply api_ret.
  - apply api_bind; [apply GetSchedule_reads|]. intros a _. apply api_ret.
  - by apply Update_api.
  - by apply Delete_api.
  - by apply set_paused_api.
  - by apply set_paused_api.
  - by apply RunNow_api.
  - apply api_bind; [apply reads_get|]. intros w _.
    apply api_bind; [apply ListSchedules_reads|]. intros a _. apply api_ret.
  - unfold CheckConflict. destruct body as [[[s d] x]|]; [|apply api_ret].
    destruct (parse_rfc3339 s); [|apply api_ret].
    apply api_bind; [apply overlap_reads|]. intros a _. apply api_ret.
  - apply api_bind; [by apply reads_sql|]. intros a _. apply api_ret.
Qed.

(** C3: Whatever request the schedule API serves, in whatever state of the
    tables and with whatever failures of the database: a response with an error
    status has changed nothing; a schedule that existed and that the caller (not
    being an admin) does not own is untouched, with its executions; no schedule
    changes its owner, and a new one belongs to the caller. *)
Theorem api_safety (req : api_request) (w : World) :
  keys_ok (w_db w) ->
  let '(r, w') := serve req w in
  (is_error r -> w_db w' = w_db w) /\
  (forall id st, scheduled_tests (w_db w) !! id = Some st -> canManage c st = false ->
     scheduled_tests (w_db w') !! id = Some st /\
     forall k ex, exe_ScheduleID ex = id ->
       schedule_executions (w_db w') !! k = Some ex <-> schedule_executions (w_db w) !! k = Some ex) /\
  (forall id st', scheduled_tests (w_db w') !! id = Some st' ->
     match scheduled_tests (w_db w) !! id with
     | Some st => sch_UserID st' = sch_UserID st
     | None => sch_UserID st' = c_UserID c
     end) /\
  keys_ok (w_db w').
Proof.
  intros Hk. pose proof (serve_allowed req (w_db w) Hk w eq_refl) as Ha.
  destruct (serve req w) as [r w']. simpl in Ha.
  destruct Ha as [-> | [Hr [(id & st & Hn & E & Hid & Hu) | (id & st & Hst & Hc & [S1 S2] & Ho)]]].
  - split_and!; auto. intros id st' ->. done.
  - rewrite E. split_and!; [done| | |].
    + intros k x Hx _. simpl. rewrite lookup_insert_ne by congruence. done.
    + intros k x. simpl. rewrite lookup_insert. case_decide as D; [|by intros ->].
      subst k. intros [= <-]. rewrite Hn. exact Hu.
    + intros k x. simpl. rewrite lookup_insert. case_decide as D; [|apply Hk]. intros [= <-]. congruence.
  - split_and!; [done| | |].
    + intros k x Hx Hm. assert (k <> id) by congruence. split; [rewrite S1; done|].
      intros j ex Hex. apply S2. congruence.
    + intros k x Hx. destruct (decide (k = id)) as [-> | Hne].
      * rewrite Hst. apply Ho, Hx.
      * rewrite S1 in Hx by done. rewrite Hx. done.
    + intros k x Hx. destruct (decide (k = id)) as [-> | Hne]; [apply Ho, Hx|].
      rewrite S1 in Hx by done. apply Hk, Hx.
Qed.
End api.
