(* ===== verification/ApiEffects.v ===== *)
(** * What the schedule API does to a row

    The rows [Create] makes, the occurrences [Delete] takes out, and three
    behaviours of the handlers that differ from what their callers expect. *)

From S2P Require Export ScheduleApi SchedulerSpec.

Open Scope Z_scope.
Open Scope go_scope.

(** ** Skipped occurrences *)

Lemma normalize_idem (t : Time) : unix_ns (normalizeOccurrence (normalizeOccurrence t)) = unix_ns (normalizeOccurrence t).
Proof.
  unfold normalizeOccurrence, truncate, to_utc, in_loc. simpl.
  set (r := (unix_ns t - zero_ns) mod Second).
  assert (E : (unix_ns t - r - zero_ns) mod Second = 0).
  { unfold r. replace (unix_ns t - (unix_ns t - zero_ns) mod Second - zero_ns)
      with (Second * ((unix_ns t - zero_ns) / Second)).
    - rewrite Z.mul_comm. apply Z.mod_mul. done.
    - pose proof (Z.div_mod (unix_ns t - zero_ns) Second ltac:(done)). lia. }
  rewrite E. lia.
Qed.

(** The list that marks an occurrence as skipped skips it, what was skipped
    before, and nothing else. *)
Lemma skipped_append (x o : Time) (l : list Time) :
  isSkippedOccurrence x (appendSkippedOccurrence l o) = isSkippedOccurrence x l || sameOccurrence o x.
Proof.
  unfold appendSkippedOccurrence, isSkippedOccurrence, skippedOccurrenceExists, sameOccurrence, time_equal.
  change normalizeOccurrenceTime with normalizeOccurrence.
  destruct (existsb _ l) eqn:E.
  - destruct (unix_ns (normalizeOccurrence o) =? unix_ns (normalizeOccurrence x)) eqn:Eo;
      [|by rewrite orb_false_r].
    bool_prop. rewrite orb_true_r, <- Eo. exact E.
  - rewrite existsb_app. cbn [existsb]. rewrite normalize_idem, orb_false_r. done.
Qed.

Lemma next_included_not_skipped `{TzDatabase} (n : nat) (base t : Time) r tz e skipped :
  next_included_loop n base r tz e skipped = Ok t -> is_zero t = false -> isSkippedOccurrence t skipped = false.
Proof.
  revert base. induction n as [|n IH]; intros base; simpl; [done|].
  destruct (NextOccurrence base r tz e) as [next|err]; [|done].
  destruct (is_zero next) eqn:Ez; [intros [= <-]; congruence|].
  destruct (isSkippedOccurrence next skipped) eqn:Es; simpl; [apply IH|].
  intros [= <-] _. exact Es.
Qed.

Lemma sameOccurrence_sym (a b : Time) : sameOccurrence a b = sameOccurrence b a.
Proof. unfold sameOccurrence, time_equal. apply Z.eqb_sym. Qed.

Section effects.
Context `{TzDatabase} `{RowOrder} `{MapOrder} `{UuidSource} `{JsonErrors}
        (secretSvc : option secrets_Service) (c : caller) (start : Time).

(** ** Delete *)

(** What a successful deletion of the occurrence [o] of schedule [st] leaves. *)
Definition single_deleted (id : string) (st : ScheduledTest) (o : Time) (db db' : DB) : Prop :=
  schedule_executions db' = schedule_executions db /\
  match scheduled_tests db' !! id with
  | None =>
    sameOccurrence (sch_ScheduledAt st) o = true /\
    forall k ex, schedule_executions db !! k = Some ex -> exe_ScheduleID ex <> id
  | Some st' =>
    (forall x, isSkippedOccurrence x (sch_SkippedOccurrences st') =
               isSkippedOccurrence x (sch_SkippedOccurrences st) || sameOccurrence o x) /\
    (sch_Status st' = "completed" \/ sameOccurrence (sch_ScheduledAt st') o = false)
  end.

(** A post-condition that only speaks of successful responses. *)
Definition on_success (P : DB -> Prop) (r : response) (db' : DB) : Prop := rsp_code r = 200 -> P db'.

Lemma success_error P msg code db : 400 <= code -> on_success P (httpError msg code) db.
Proof. intros Hc. unfold on_success. simpl. lia. Qed.

Lemma post_update_report (P : DB -> Prop) (db : DB) (st : ScheduledTest) scope :
  P (update_row (written st) (sch_ID st) db) -> post (on_success P) db (update_and_report st scope).
Proof.
  intros HP. apply (post_write (on_success P) db "" (update_row (written st) (sch_ID st))
    (fun r => match r with
    | Err _ => httpError "failed to update schedule" 500
    | Ok _ => mkResponse 200 (BStatus "updated" (scope_name scope)) end)).
  - intros e. apply success_error. lia.
  - intros _. exact HP.
Qed.

Lemma post_delete_report (P : DB -> Prop) (db : DB) (id : string) scope :
  P (mkDB (delete id (scheduled_tests db))
       (filter (fun kv => exe_ScheduleID kv.2 <> id) (schedule_executions db))) ->
  post (on_success P) db (delete_and_report id scope).
Proof.
  intros HP. unfold delete_and_report, DeleteSchedule.
  apply (post_write (on_success P) db "" _
    (fun r => match r with
    | Err _ => httpError "failed to delete schedule" 500
    | Ok _ => mkResponse 200 (BStatus "deleted" (scope_name scope)) end)).
  - intros e. apply success_error. lia.
  - intros _. exact HP.
Qed.

Lemma counted_none (id : string) (db : DB) (w : World) (n : Z) :
  w_db w = db -> (CountScheduleExecutions id w).1 = Ok n -> n = 0 ->
  forall k ex, schedule_executions db !! k = Some ex -> exe_ScheduleID ex <> id.
Proof.
  intros <- Hn -> k ex Hk Hid.
  assert (E : length (rows_where (of_schedule id) (schedule_executions (w_db w))) = 0%nat).
  { revert Hn. unfold CountScheduleExecutions, run_sql.
    destruct (w_faults w) as [|[msg|] fs]; simpl; try discriminate; intros [= E]; lia. }
  assert (Hin : ex ∈ rows_where (of_schedule id) (schedule_executions (w_db w))).
  { apply elem_of_rows. split; [|eauto]. unfold of_schedule. by rewrite Hid, String.eqb_refl. }
  destruct (rows_where _ _); [by apply not_elem_of_nil in Hin|done].
Qed.

Lemma delete_single_spec (db : DB) (id : string) (st : ScheduledTest) (o : Time) (n : Z) :
  scheduled_tests db !! id = Some st -> sch_ID st = id ->
  (n = 0 -> forall k ex, schedule_executions db !! k = Some ex -> exe_ScheduleID ex <> id) ->
  post (on_success (single_deleted id st o db)) db (delete_single id st o n).
Proof.
  intros Hst Hid Hn. unfold delete_single. set (skip := appendSkippedOccurrence _ o).
  assert (Hup : forall st1, sch_ID st1 = id -> sch_SkippedOccurrences st1 = skip ->
    (sch_Status st1 = "completed" \/ sameOccurrence (sch_ScheduledAt st1) o = false) ->
    single_deleted id st o db (update_row (written st1) (sch_ID st1) db)).
  { intros st1 -> Hsk Hs. unfold single_deleted. simpl. rewrite lookup_alter_eq, Hst. simpl.
    split_and!; [done| |exact Hs]. intros x. rewrite Hsk. apply skipped_append. }
  destruct (sameOccurrence _ o) eqn:Es; simpl in Es.
  - destruct (NextIncludedOccurrence _ _ _ _ _) as [t|e] eqn:En.
    + simpl in En. destruct (is_zero t) eqn:Ez.
      * destruct (n =? 0) eqn:E0; bool_prop.
        -- apply post_delete_report. unfold single_deleted. simpl. rewrite lookup_delete_eq.
           specialize (Hn E0). split; [|split; [exact Es|exact Hn]].
           apply map_filter_id. intros k ex Hk. exact (Hn k ex Hk).
        -- apply post_update_report, Hup; auto.
      * apply post_update_report, Hup; auto. right. simpl.
        pose proof (next_included_not_skipped _ _ _ _ _ _ _ En Ez) as Hsk.
        unfold skip in Hsk. rewrite skipped_append in Hsk. apply orb_false_iff in Hsk as [_ Hsk].
        rewrite sameOccurrence_sym. exact Hsk.
    + apply post_ret, success_error. lia.
  - apply post_update_report, Hup; auto.
Qed.

(** Deleting one occurrence of a recurring schedule, whatever fails on the
    way: when the response is a success, the occurrence is skipped from now on,
    what was skipped before still is and nothing else; the next run is not that
    occurrence; no execution is lost; and the schedule itself is gone only when
    it has never run, and the occurrence was its next one. *)
Theorem Delete_single_spec (w : World) (id occurrence : string) (st : ScheduledTest) (o : Time) :
  scheduled_tests (w_db w) !! id = Some st -> sch_ID st = id -> sch_RecurrenceType st <> "once" ->
  parseDeleteOccurrence occurrence (sch_ScheduledAt st) = Some o ->
  let '(r, w') := ScheduleHandler.Delete c id "single" occurrence w in
  rsp_code r = 200 -> single_deleted id st o (w_db w) (w_db w').
Proof.
  intros Hst Hid Hrec Ho. remember (w_db w) as db eqn:Edb. symmetry in Edb.
  assert (Hpost : post (on_success (single_deleted id st o db)) db (ScheduleHandler.Delete c id "single" occurrence)).
  2:{ specialize (Hpost w Edb). destruct (ScheduleHandler.Delete c id "single" occurrence w). exact Hpost. }
  apply post_managed; [intros msg code Hc; by apply success_error|].
  intros st1 Hst1 _. assert (st1 = st) as -> by congruence.
  assert (Hr : negb (String.eqb (sch_RecurrenceType st) "once") = true).
  { apply negb_true_iff, String.eqb_neq. exact Hrec. }
  rewrite Hr. cbn [parseDeleteScope String.eqb Ascii.eqb Bool.eqb]. simpl parseDeleteScope. cbv iota beta.
  simpl andb. cbv iota. rewrite Ho.
  apply post_bind; [apply reads_get|]. intros w1 _.
  destruct (hasPastOccurrence _ _); [apply post_ret, success_error; lia|].
  destruct (String.eqb _ "running"); [apply post_ret, success_error; lia|].
  apply post_bind; [by apply reads_sql|]. intros [n|e] Hn; [|apply post_ret, success_error; lia].
  simpl negb. cbv iota. apply delete_single_spec; [done|done|].
  destruct Hn as (w2 & Hw2 & Hn). intros ->. exact (counted_none id db w2 0 Hw2 Hn eq_refl).
Qed.

(** ** Create *)

(** What the request handler promises of a row it has made for a request. *)
Record new_row_ok (t_now : Time) (req : CreateScheduleRequest) (st : ScheduledTest) : Prop := {
  row_named : sch_Name st = csr_Name req /\ sch_ProjectName st = csr_ProjectName req /\
    sch_Name st <> "" /\ sch_ProjectName st <> "";
  row_runnable : sch_ScriptContent st = csr_ScriptContent req /\ sch_URL st = csr_URL req /\
    (sch_ScriptContent st <> "" \/ sch_URL st <> "");
  row_waiting : sch_Status st = "scheduled" /\ sch_Paused st = false /\ sch_SkippedOccurrences st = [];
  row_time : parse_rfc3339 (csr_ScheduledAt req) = Some (sch_ScheduledAt st) /\
    unix_ns t_now - 60 * Second <= unix_ns (sch_ScheduledAt st);
  row_zone : load_location (sch_Timezone st) <> None;
  row_recurrence : sch_RecurrenceType st ∈ validRecurrences;
  row_owner : sch_UserID st = c_UserID c /\ sch_Username st = c_Username c;
  row_auth :
    if ai_Enabled (csr_Auth req) then
      exists svc, secretSvc = Some svc /\ trim_space (ai_ClientSecret (csr_Auth req)) <> "" /\
        Encrypt svc (trim_space (ai_ClientSecret (csr_Auth req))) = Ok (ac_ClientSecretEncrypted (sch_AuthConfig st)) /\
        ac_Enabled (sch_AuthConfig st) = true /\ ac_ClientSecretEncrypted (sch_AuthConfig st) <> ""
    else ac_Enabled (sch_AuthConfig st) = false /\ ac_ClientSecretEncrypted (sch_AuthConfig st) = ""
}.

Lemma one_of_strings_elem (x : string) (l : list string) : one_of_strings x l = true -> x ∈ l.
Proof.
  unfold one_of_strings. intros E. apply existsb_exists in E as (y & Hin & Hy).
  bool_prop. subst. by apply list_elem_of_In.
Qed.

Lemma normalizeAuthInput_secret (auth auth' : AuthInput) :
  normalizeAuthInput auth = Ok auth' ->
  ai_Enabled auth' = ai_Enabled auth /\ (ai_Enabled auth = true -> ai_ClientSecret auth' = ai_ClientSecret auth).
Proof.
  unfold normalizeAuthInput. cbn. destruct (ai_Enabled auth) eqn:Ee; cbn; [|by intros [= <-]].
  repeat (case_match; try done); intros [= <-]; by cbn.
Qed.

Lemma normalizePayload_keeps (req req' : CreateScheduleRequest) :
  normalizeScheduleRequestPayload req = Some (Ok req') ->
  csr_Name req' = csr_Name req /\ csr_ProjectName req' = csr_ProjectName req /\
  csr_ScriptContent req' = csr_ScriptContent req /\ csr_URL req' = csr_URL req /\
  csr_ScheduledAt req' = csr_ScheduledAt req /\ ai_Enabled (csr_Auth req') = ai_Enabled (csr_Auth req) /\
  (ai_Enabled (csr_Auth req) = true -> ai_ClientSecret (csr_Auth req') = ai_ClientSecret (csr_Auth req)).
Proof.
  unfold normalizeScheduleRequestPayload.
  destruct (normalizeAuthInput _) as [auth|] eqn:Ea; [|done]. apply normalizeAuthInput_secret in Ea as [Ha Hs].
  destruct (normalizePayloadFields _ _ _) as [[[f a]|]|]; [|done|done].
  intros [= <-]. done.
Qed.

(** Of a request that passes, the fields a row is made of. *)
Record checked_request (t_now : Time) (req req' : CreateScheduleRequest) (v : validatedScheduleCreate) : Prop := {
  cr_named : csr_Name req <> "" /\ csr_ProjectName req <> "" /\ (csr_ScriptContent req <> "" \/ csr_URL req <> "");
  cr_same : csr_Name req' = csr_Name req /\ csr_ProjectName req' = csr_ProjectName req /\
    csr_ScriptContent req' = csr_ScriptContent req /\ csr_URL req' = csr_URL req;
  cr_time : parse_rfc3339 (csr_ScheduledAt req) = Some (vsc_scheduledAt v) /\
    unix_ns t_now - 60 * Second <= unix_ns (vsc_scheduledAt v);
  cr_zone : load_location (vsc_timezone v) <> None;
  cr_recurrence : vsc_recType v ∈ validRecurrences;
  cr_normal : normalizeScheduleRequestPayload req = Some (Ok req');
  cr_duration : EstimateDurationSeconds req' = Ok (vsc_durationS v);
  cr_enabled : ai_Enabled (csr_Auth req') = ai_Enabled (csr_Auth req);
  cr_secret : ai_Enabled (csr_Auth req) = true -> ai_ClientSecret (csr_Auth req') = ai_ClientSecret (csr_Auth req) /\
    trim_space (ai_ClientSecret (csr_Auth req)) <> ""
}.

Lemma validateCreateRequest_ok (t_now : Time) (req req' : CreateScheduleRequest) (v : validatedScheduleCreate) :
  validateCreateRequest t_now req = Some (inl (req', v)) -> checked_request t_now req req' v.
Proof.
  unfold validateCreateRequest.
  destruct (String.eqb (csr_Name req) "") eqn:En; [done|].
  destruct (String.eqb (csr_ProjectName req) "") eqn:Ep; [done|].
  destruct (String.eqb (csr_ScheduledAt req) ""); [done|].
  destruct (String.eqb (csr_ScriptContent req) "" && String.eqb (csr_URL req) "") eqn:Es; [done|].
  destruct (normalizeScheduleRequestPayload req) as [[r|]|] eqn:Er; [|done|done].
  destruct (normalizePayload_keeps _ _ Er) as (K1 & K2 & K3 & K4 & K5 & K6 & K7).
  destruct (ai_Enabled (csr_Auth r) && blank (ai_ClientSecret (csr_Auth r))) eqn:Eb; [done|].
  rewrite K5. destruct (parse_rfc3339 (csr_ScheduledAt req)) as [t|] eqn:Et; [|done].
  destruct (before t _) eqn:El; [done|].
  destruct (load_location _) eqn:Ez; [|done].
  destruct (negb _) eqn:Erec; [done|].
  destruct (EstimateDurationSeconds r) as [d|] eqn:Ed; [|done].
  destruct (parseRecurrenceEnd _); [|done].
  intros [= <- <-]. apply String.eqb_neq in En, Ep.
  unfold before, add in El. simpl in El. apply Z.ltb_ge in El. constructor; simpl; try done.
  - split_and!; [done..|]. destruct (decide (csr_ScriptContent req = "")) as [E|E]; [right|by left].
    intros Eu. rewrite E, Eu in Es. done.
  - by rewrite Ez.
  - by apply one_of_strings_elem, negb_false_iff.
  - intros Ha. rewrite K6, Ha, (K7 Ha) in Eb. split; [by apply K7|]. unfold blank in Eb. cbn in Eb. by apply String.eqb_neq.
Qed.

(** A configuration that must keep its secret has it, encrypted. *)
Lemma stored_secret (input : AuthInput) (cfg : AuthConfig) :
  buildStoredAuthConfig input None secretSvc (ai_Enabled input) = Ok cfg ->
  if ai_Enabled input then
    ac_Enabled cfg = true /\
    (trim_space (ai_ClientSecret input) <> "" -> exists svc, secretSvc = Some svc /\
       Encrypt svc (trim_space (ai_ClientSecret input)) = Ok (ac_ClientSecretEncrypted cfg) /\
       ac_ClientSecretEncrypted cfg <> "")
  else cfg = zero_AuthConfig.
Proof.
  unfold buildStoredAuthConfig, authConfigFromStoredInput.
  destruct (ai_Enabled input); cbn [negb]; [|by intros [= <-]].
  set (cfg0 := if negb (String.eqb _ "") then _ else _).
  assert (Hc : ac_Enabled cfg0 = true) by (unfold cfg0; by destruct (ai_ClearSecret input)). clearbody cfg0.
  rewrite Hc. cbn [negb]. destruct secretSvc as [svc|]; [|done]. cbv zeta.
  set (cfg1 := if ai_ClearSecret input then _ else cfg0).
  assert (Hc1 : ac_Enabled cfg1 = true) by (unfold cfg1; by destruct (ai_ClearSecret input)). clearbody cfg1.
  cbn [orb negb andb].
  destruct (String.eqb_spec (trim_space (ai_ClientSecret input)) "") as [E|E]; cbn [negb andb].
  - destruct (String.eqb _ ""); [done|]. destruct (_ && _); [done|]. intros [= <-]. done.
  - destruct (Encrypt svc _) as [enc|e] eqn:Eenc; [|done]. cbn. destruct (String.eqb_spec enc "") as [|Hne]; [done|].
    rewrite andb_false_r. intros [= <-]. cbn. split; [done|]. intros _. by exists svc.
Qed.

(** A schedule made from a checked request is in order. *)
Lemma new_schedule_ok (t_now : Time) (id : string) (req req' : CreateScheduleRequest) v cfg at_ :
  checked_request t_now req req' v ->
  buildStoredAuthConfig (csr_Auth req') None secretSvc (ai_Enabled (csr_Auth req')) = Ok cfg ->
  new_row_ok t_now req ((stored_schedule (new_schedule id c req' v cfg)) <| sch_CreatedAt := at_ |>
                         <| sch_UpdatedAt := at_ |>).
Proof.
  intros [(V1 & V2 & V3) (S1 & S2 & S3 & S4) V5 V6 V7 _ V8 V9 V10] Hc. apply stored_secret in Hc. rewrite V9 in Hc.
  split; simpl; rewrite ?S1, ?S2, ?S3, ?S4; auto.
  destruct (ai_Enabled (csr_Auth req)); [|by rewrite Hc].
  destruct (V10 eq_refl) as [Es Hne]. rewrite Es in Hc. destruct Hc as [Hen Hsec].
  destruct (Hsec Hne) as (svc & Hsvc & Henc & Hn). exists svc. unfold stored_auth. rewrite Hen. done.
Qed.

Lemma CreateSchedule_ok (st : ScheduledTest) (w : World) :
  (CreateSchedule st w).1 = Ok tt ->
  exists row, row = (stored_schedule st) <| sch_CreatedAt := mkTime (sql_now (w_db_now w)) UTC |>
                      <| sch_UpdatedAt := mkTime (sql_now (w_db_now w)) UTC |> /\
    scheduled_tests (w_db w) !! sch_ID st = None /\
    w_db (CreateSchedule st w).2 =
      (w_db w) <| scheduled_tests := <[sch_ID st := row]> (scheduled_tests (w_db w)) |>.
Proof.
  unfold CreateSchedule, run_sql.
  destruct (w_faults w) as [|[msg|] fs]; [|done|];
    destruct (scheduled_tests (w_db w) !! sch_ID st); simpl; try done; eauto.
Qed.

(** C21: A creation that succeeds adds one row under a fresh ID and changes
    nothing else.  The row has the name, the project and the script or the
    target of the request; it waits to be run at the requested time, which is
    not more than a minute past; its time zone can be loaded and its recurrence
    is known; it belongs to the caller; and when the request enables
    authentication, the text stored as its secret is what the encryption service
    makes of the requested secret.  No conflict was found for its slot, whose
    length is the estimate for the normalised request. *)
Theorem Create_valid (w : World) (body : option CreateScheduleRequest) :
  let '(r, w') := Create secretSvc c start body w in
  rsp_code r = 201 ->
  exists row req req', body = Some req /\ scheduled_tests (w_db w) !! sch_ID row = None /\
    w_db w' = (w_db w) <| scheduled_tests := <[sch_ID row := row]> (scheduled_tests (w_db w)) |> /\
    new_row_ok (now w) req row /\
    normalizeScheduleRequestPayload req = Some (Ok req') /\ EstimateDurationSeconds req' = Ok (sch_EstimatedDurationS row) /\
    (checkScheduleOverlap start (sch_ScheduledAt row) (sch_EstimatedDurationS row) "" w).1 = Ok None.
Proof.
  unfold Create. destruct body as [req|]; [|done].
  unfold mbind, ST_bind, st_get.
  destruct (validateCreateRequest (now w) req) as [[[req' v]|msg]|] eqn:Ev; [|done|done].
  pose proof (overlap_reads start (vsc_scheduledAt v) (vsc_durationS v) "" w) as Hr.
  destruct (checkScheduleOverlap _ _ _ _ w) as [[[cf|]|e] w1] eqn:Eo; [done| |done]. simpl in Hr.
  unfold new_uuid. set (id := uuid _). set (w2 := w1 <| w_uuids := _ |>).
  destruct (buildStoredAuthConfig _ _ _ _) as [cfg|e] eqn:Ea; [|done].
  pose proof (CreateSchedule_ok (new_schedule id c req' v cfg) w2) as Hs.
  destruct (CreateSchedule _ w2) as [[[]|e] w3]; [|done]. intros _.
  destruct (Hs eq_refl) as (row & Erow & Hn & Hw). cbn [snd] in Hw.
  change (w_db w2) with (w_db w1) in Hn, Hw. rewrite Hr in Hn, Hw.
  apply validateCreateRequest_ok in Ev.
  exists row, req, req'. rewrite Erow in *. split_and!; [done|exact Hn|exact Hw| | | |].
  - exact (new_schedule_ok _ _ _ _ _ _ _ Ev Ea).
  - apply Ev.
  - apply Ev.
  - simpl. rewrite Eo. done.
Qed.
End effects.

(** ** Concrete requests *)

Definition test_errors : JsonErrors := fun _ => "".
Definition test_service : secrets_Service := mkSecrets (fun plain => Ok ("enc:" +:+ plain)).
Definition alice : caller := mkCaller 7 "alice" "user".

(** The world at [saturday], with one schedule. *)
Definition world_with (st : ScheduledTest) : World := {|
  w_db := mkDB {[ sch_ID st := st ]} ∅; w_faults := []; w_db_now := unix_ns saturday;
  w_now := unix_ns saturday; w_uuids := 0; w_active := "" |}.

Definition test_serve (req : api_request) (w : World) : response * World :=
  @serve one_zone merge_row_order id_map_order test_uuids test_errors (Some test_service) alice
    zero_time req w.

(** Status code of a request, and what it leaves of the schedule [id]. *)
Definition outcome {A} (id : string) (view : ScheduledTest -> A) (req : api_request) (w : World)
  : Z * option A :=
  let '(r, w') := test_serve req w in
  (rsp_code r, view <$> scheduled_tests (w_db w') !! id).

(** A daily schedule of Alice's, of a POST with a payload and a token. *)
Definition posting : ScheduledTest :=
  a_daily_schedule <| sch_UserID := 7 |> <| sch_URL := "http://target" |> <| sch_HTTPMethod := "POST" |>
    <| sch_ContentType := "text/plain" |> <| sch_PayloadJSON := "{}" |>
    <| sch_ScheduledAt := add saturday (2 * Hour) |>
    <| sch_AuthConfig := mkAuthConfig true "oauth_client_credentials" "http://idp/token" "id" "basic" 30
                           "persisted_encrypted" true "enc:secret" |>.

Definition renaming : CreateScheduleRequest := zero_CreateScheduleRequest <| csr_Name := "renamed" |>.

(** An update overwrites the fields the request gives and keeps the others,
    as a request that only renames a schedule shows for its URL and its time.
    Yet the defaults are filled in before the fields are compared, so the same
    request turns the POST of a text into a GET of JSON, and removes the
    authentication with its stored secret. *)
Theorem update_resets_fields :
  outcome "d" (fun st => (sch_Name st, sch_URL st, sch_ScheduledAt st)) (ReqUpdate "d" (Some renaming))
    (world_with posting) = (200, Some ("renamed", "http://target", sch_ScheduledAt posting)) /\
  outcome "d" (fun st => (sch_HTTPMethod st, sch_ContentType st, sch_PayloadJSON st))
    (ReqUpdate "d" (Some renaming)) (world_with posting) = (200, Some ("GET", "application/json", "{}")) /\
  outcome "d" (fun st => (ac_Enabled (sch_AuthConfig st), ac_ClientSecretEncrypted (sch_AuthConfig st)))
    (ReqUpdate "d" (Some renaming)) (world_with posting) = (200, Some (false, "")).
Proof. vm_compute. auto. Qed.

(** The schedule above, until Monday 30 March. *)
Definition until_monday : ScheduledTest :=
  posting <| sch_RecurrenceEnd := Some (mkTime (1774908000 * Second) UTC) |>.

(** Deleting an occurrence with all that follow sets the end of the
    recurrence one second before it, also when the series ended earlier: asked
    to delete what follows 15 April of a series that ends on 30 March, the
    handler prolongs the series to that day. *)
Theorem delete_future_extends :
  outcome "d" (fun st => option_map format_rfc3339 (sch_RecurrenceEnd st)) (ReqGet "d") (world_with until_monday)
    = (200, Some (Some "2026-03-30T22:00:00Z")) /\
  outcome "d" (fun st => option_map format_rfc3339 (sch_RecurrenceEnd st))
    (ReqDelete "d" "future" "2026-04-15T12:00:00Z") (world_with until_monday)
    = (200, Some (Some "2026-04-15T11:59:59Z")).
Proof. vm_compute. auto. Qed.

(** Running a recurring schedule now replaces the time of its series: the
    occurrence after the daily run of 13:00 (in Berlin) is 13:00 of the next
    day, and after a manual run at 11:00 it is one second to 11:00. *)
Theorem run_now_moves_series :
  let next st := @NextOccurrence one_zone (sch_ScheduledAt st) (sch_RecurrenceType st) (sch_Timezone st) None in
  outcome "d" next (ReqGet "d") (world_with posting)
    = (200, Some (Ok (mkTime (unix_ns saturday + 25 * Hour) UTC))) /\
  outcome "d" next (ReqRunNow "d") (world_with posting)
    = (200, Some (Ok (mkTime (unix_ns saturday + 23 * Hour - Second) UTC))).
Proof. vm_compute. auto. Qed.

Lemma Delete_single_spec_witness :
  single_deleted "d" posting (sch_ScheduledAt posting) (w_db (world_with posting))
    (w_db (@ScheduleHandler.Delete one_zone alice "d" "single" "" (world_with posting)).2).
Proof.
  pose proof (@Delete_single_spec one_zone alice (world_with posting) "d" "" posting
    (sch_ScheduledAt posting) eq_refl eq_refl ltac:(discriminate) eq_refl) as Hd.
  assert (Hr : rsp_code (@ScheduleHandler.Delete one_zone alice "d" "single" "" (world_with posting)).1 = 200)
    by (vm_compute; reflexivity).
  revert Hd Hr. destruct (ScheduleHandler.Delete _ _ _ _ _) as [r w']. intros Hd Hr. exact (Hd Hr).
Defined.

(** A request for a new daily schedule with authentication. *)
Definition creating : CreateScheduleRequest :=
  zero_CreateScheduleRequest <| csr_Name := "nightly" |> <| csr_ProjectName := "shop" |>
    <| csr_URL := "http://target" |> <| csr_ScheduledAt := "2026-03-29T02:00:00+02:00" |>
    <| csr_Timezone := "Europe/Berlin" |> <| csr_RecurrenceType := "daily" |>
    <| csr_EstimatedDurationS := 600 |>
    <| csr_Auth := mkAuthInput true "" "https://idp/token" "id" " secret " "" 0 false false |>.

Notation test_create := (@Create one_zone merge_row_order id_map_order test_uuids test_errors
  (Some test_service) alice zero_time (Some creating)).

Lemma Create_valid_witness :
  exists row, scheduled_tests (w_db (test_create (world_with posting)).2) !! sch_ID row = Some row /\
    @new_row_ok one_zone (Some test_service) alice (now (world_with posting)) creating row /\
    ac_ClientSecretEncrypted (sch_AuthConfig row) = "enc:secret".
Proof.
  pose proof (@Create_valid one_zone merge_row_order id_map_order test_uuids test_errors (Some test_service)
    alice zero_time (world_with posting) (Some creating)) as Hc.
  assert (Hr : rsp_code (test_create (world_with posting)).1 = 201) by (vm_compute; reflexivity).
  revert Hc Hr. destruct (test_create (world_with posting)) as [r w']. intros Hc Hr.
  destruct (Hc Hr) as (row & req & req' & [= <-] & _ & Hw & Hok & _). exists row.
  split; [cbn [snd]; rewrite Hw; apply lookup_insert_eq|]. split; [exact Hok|].
  destruct (row_auth _ _ _ _ _ Hok) as (svc & [= <-] & _ & He & _). injection He as He. exact (eq_sym He).
Defined.

Lemma posting_keys : keys_ok (w_db (world_with posting)).
Proof. intros k st. simpl. rewrite lookup_singleton_Some. by intros [<- <-]. Qed.

(** Another user asks for the schedule to be deleted. *)
Lemma api_safety_witness :
  scheduled_tests (w_db (@serve one_zone merge_row_order id_map_order test_uuids test_errors
    (Some test_service) (mkCaller 8 "bob" "user") zero_time (ReqDelete "d" "future" "")
    (world_with posting)).2) !! "d" = Some posting.
Proof.
  pose proof (@api_safety one_zone merge_row_order id_map_order test_uuids test_errors (Some test_service)
    (mkCaller 8 "bob" "user") zero_time (ReqDelete "d" "future" "") (world_with posting) posting_keys) as Hs.
  revert Hs. destruct (serve _ _ _ _ _) as [r w']. intros (_ & Hs & _).
  exact (proj1 (Hs "d" posting eq_refl eq_refl)).
Defined.
