(* ===== verification/Router.v ===== *)
(** * The routes of the controller

    [NewRouter] of [controller/internal/server/server.go]: every route with the
    middleware in front of it, and what a request goes through before its
    handler runs: the headers for other origins, the match of a route, the
    token, the API key and the role. The matching itself is chi's and a
    parameter: it finds registered routes only. The handlers are those of the
    other files, here any programs over the world of accounts. *)

From S2P Require Import Dummy DummyToken Sha256 Base64.
From S2P Require Import Prelude Programs GoStrings GoTime Json JsonText Environment Store Users Accounts AccountsSpec AccountsFlow AccountsRuns Settings Orchestrator.

Open Scope Z_scope.
Open Scope go_scope.

(** ** The table *)

Inductive endpoint :=
  | EHealth | ELogin | EForgotPassword | ECompletePasswordReset | EServeScript | EUploadArtifact
  | EStartTest | EStopTest | EPauseTest | EResumeTest | EScaleTest | EGetLiveMetrics | EGetWorkerStatus | EUploadScript
  | EListResults | EGetResult
  | ETemplateList | ETemplateCreate | ETemplateGet | ETemplateUpdate | ETemplateDelete
  | EScheduleCreate | EScheduleList | EScheduleCalendar | EScheduleCheckConflict | EScheduleGet | EScheduleUpdate
  | EScheduleDelete | ESchedulePause | EScheduleResume | EScheduleRunNow | EListExecutions
  | EGetProfileSummary | EUpdatePassword
  | EListUsers | ECreateUser | EResetUserPassword | EResetData | EExportSystemTemplates | EImportSystemTemplates
  | EPromoteToSystem | EDemoteFromSystem | EExportTemplate | EListDashboards | EProxyDashboard.

Inductive access := Public | Protected | AdminOnly.

Record route := mkRoute { rt_method : string; rt_pattern : string; rt_access : access; rt_endpoint : endpoint }.

Definition public_routes : list route :=
  [mkRoute "GET" "/api/health" Public EHealth;
   mkRoute "POST" "/api/auth/login" Public ELogin;
   mkRoute "POST" "/api/auth/forgot-password" Public EForgotPassword;
   mkRoute "POST" "/api/auth/reset-password" Public ECompletePasswordReset;
   mkRoute "GET" "/api/internal/scripts/{filename}" Public EServeScript;
   mkRoute "POST" "/api/internal/runs/{testID}/workers/{workerID}/{artifactType}" Public EUploadArtifact].

Definition protected_routes : list route :=
  [mkRoute "POST" "/api/run" Protected EStartTest;
   mkRoute "POST" "/api/stop" Protected EStopTest;
   mkRoute "POST" "/api/pause" Protected EPauseTest;
   mkRoute "POST" "/api/resume" Protected EResumeTest;
   mkRoute "POST" "/api/scale" Protected EScaleTest;
   mkRoute "GET" "/api/metrics/live" Protected EGetLiveMetrics;
   mkRoute "GET" "/api/workers/status" Protected EGetWorkerStatus;
   mkRoute "POST" "/api/scripts/upload" Protected EUploadScript;
   mkRoute "GET" "/api/result/list" Protected EListResults;
   mkRoute "GET" "/api/result/{id}" Protected EGetResult;
   mkRoute "GET" "/api/templates" Protected ETemplateList;
   mkRoute "POST" "/api/templates" Protected ETemplateCreate;
   mkRoute "GET" "/api/templates/{id}" Protected ETemplateGet;
   mkRoute "PUT" "/api/templates/{id}" Protected ETemplateUpdate;
   mkRoute "DELETE" "/api/templates/{id}" Protected ETemplateDelete;
   mkRoute "POST" "/api/schedules" Protected EScheduleCreate;
   mkRoute "GET" "/api/schedules" Protected EScheduleList;
   mkRoute "GET" "/api/schedules/calendar" Protected EScheduleCalendar;
   mkRoute "POST" "/api/schedules/check-conflict" Protected EScheduleCheckConflict;
   mkRoute "GET" "/api/schedules/{id}" Protected EScheduleGet;
   mkRoute "PUT" "/api/schedules/{id}" Protected EScheduleUpdate;
   mkRoute "DELETE" "/api/schedules/{id}" Protected EScheduleDelete;
   mkRoute "POST" "/api/schedules/{id}/pause" Protected ESchedulePause;
   mkRoute "POST" "/api/schedules/{id}/resume" Protected EScheduleResume;
   mkRoute "POST" "/api/schedules/{id}/run-now" Protected EScheduleRunNow;
   mkRoute "GET" "/api/schedules/{id}/executions" Protected EListExecutions;
   mkRoute "GET" "/api/profile" Protected EGetProfileSummary;
   mkRoute "PUT" "/api/profile/password" Protected EUpdatePassword].

Definition admin_routes : list route :=
  [mkRoute "GET" "/api/auth/users" AdminOnly EListUsers;
   mkRoute "POST" "/api/auth/users" AdminOnly ECreateUser;
   mkRoute "POST" "/api/auth/users/{id}/reset-password" AdminOnly EResetUserPassword;
   mkRoute "POST" "/api/resetdata" AdminOnly EResetData;
   mkRoute "GET" "/api/admin/templates/system/export" AdminOnly EExportSystemTemplates;
   mkRoute "POST" "/api/admin/templates/system/import" AdminOnly EImportSystemTemplates;
   mkRoute "POST" "/api/admin/templates/{id}/system" AdminOnly EPromoteToSystem;
   mkRoute "DELETE" "/api/admin/templates/{id}/system" AdminOnly EDemoteFromSystem;
   mkRoute "GET" "/api/admin/templates/{id}/export" AdminOnly EExportTemplate;
   mkRoute "GET" "/api/admin/workers/dashboards" AdminOnly EListDashboards;
   mkRoute "GET" "/api/admin/workers/{worker}/dashboard" AdminOnly EProxyDashboard;
   mkRoute "GET" "/api/admin/workers/{worker}/dashboard/{proxyPath}" AdminOnly EProxyDashboard;
   mkRoute "GET" "/api/admin/workers/{worker}/dashboard/*" AdminOnly EProxyDashboard].

Definition NewRouter : list route := public_routes ++ protected_routes ++ admin_routes.

(** ** A request *)

(** What a request gets: the response of a handler, the refusal of a
    middleware, the empty 204 of a preflight, or chi's answer without a route
    (404, or 405 for a path that has other methods). *)
Inductive answer (R : Type) :=
  | Handled (r : R)
  | Refused (e : account_response)
  | NoContent
  | NoRoute.
Arguments Handled {R} _.
Arguments Refused {R} _.
Arguments NoContent {R}.
Arguments NoRoute {R}.

(** chi's match of a method and a path against the registered routes. *)
Class Mux := {
  find_route : list route -> string -> string -> option route;
  find_registered : forall rs m p r, find_route rs m p = Some r -> In r rs /\ rt_method r = m
}.

Record request := mkRequest { rq_method : string; rq_path : string; rq_origin : string; rq_http : http_request }.

Section serve.
Context `{JwtLibrary} `{Mux} {R : Type} (h : AuthHandler) (apiKey : string) (origins : list string).
Context (handlers : endpoint -> option caller -> prog AccountWorld R).

(** The middleware of a group: the caller it puts in the context, or the
    refusal. [RequireAdmin] comes after the two checks of the outer group. *)
Definition let_in (a : access) (rq : http_request) (w : AccountWorld) : option caller + account_response :=
  match a with
  | Public => inl None
  | Protected => match signed_in h apiKey rq w with inl c => inl (Some c) | inr e => inr e end
  | AdminOnly =>
    match signed_in h apiKey rq w with
    | inl c => if negb (String.eqb (c_Role c) "admin") then inr (account_error "admin access required" 403) else inl (Some c)
    | inr e => inr e
    end
  end.

Definition serve_route (r : route) (rq : http_request) : prog AccountWorld (answer R) :=
  w ← act st_get;
  match let_in (rt_access r) rq w with
  | inr e => mret (Refused e)
  | inl c => rsp ← handlers (rt_endpoint r) c; mret (Handled rsp)
  end.

Definition serve_request (rq : request) : prog AccountWorld (list (string * string) * answer R) :=
  let '(headers, goes_on) := CORS origins (rq_method rq) (rq_origin rq) in
  a ← (if goes_on then
         match find_route NewRouter (rq_method rq) (rq_path rq) with
         | Some r => serve_route r (rq_http rq)
         | None => mret NoRoute
         end
       else mret NoContent);
  mret (headers, a).
End serve.

(** ** What the table promises *)

(** The endpoints that need no sign-in, and those for administrators. *)
Definition open_endpoints : list endpoint :=
  [EHealth; ELogin; EForgotPassword; ECompletePasswordReset; EServeScript; EUploadArtifact].

Definition admin_endpoints : list endpoint :=
  [EListUsers; ECreateUser; EResetUserPassword; EResetData; EExportSystemTemplates; EImportSystemTemplates;
   EPromoteToSystem; EDemoteFromSystem; EExportTemplate; EListDashboards; EProxyDashboard].

#[export] Instance endpoint_eq_dec : EqDecision endpoint.
Proof. solve_decision. Defined.

Definition expected_access (e : endpoint) : access :=
  if decide (e ∈ open_endpoints) then Public else if decide (e ∈ admin_endpoints) then AdminOnly else Protected.

#[export] Instance access_eq_dec : EqDecision access.
Proof. solve_decision. Defined.

Lemma table_access r : In r NewRouter -> rt_access r = expected_access (rt_endpoint r).
Proof.
  assert (Hall : forallb (fun r => bool_decide (rt_access r = expected_access (rt_endpoint r))) NewRouter = true) by (vm_compute; reflexivity).
  intros Hr. rewrite forallb_forall in Hall. by apply Hall, bool_decide_eq_true in Hr.
Qed.

(** No method and pattern is registered twice: the later one would replace the
    earlier. *)
Lemma routes_distinct : NoDup (map (fun r => (rt_method r, rt_pattern r)) NewRouter).
Proof. apply (bool_decide_unpack _). vm_compute. exact I. Qed.

Section promises.
Context `{JwtLibrary} `{Mux} {R : Type} (h : AuthHandler) (apiKey : string) (origins : list string).
Context (handlers : endpoint -> option caller -> prog AccountWorld R).

Lemma admit_spec a rq w c : let_in h apiKey a rq w = inl c ->
  (a = Public /\ c = None) \/
  (a <> Public /\ exists who, c = Some who /\ signed_in h apiKey rq w = inl who /\ (a = AdminOnly -> c_Role who = "admin")).
Proof.
  unfold let_in. destruct a; [intros [= <-]; by left|..]; intros Ha; right; (split; [done|]);
    destruct (signed_in h apiKey rq w) as [who|e]; try done.
  - simplify_eq. by exists who.
  - destruct (String.eqb_spec (c_Role who) "admin"); cbn in Ha; simplify_eq. by exists who.
Qed.

Lemma admit_table e rq w c : let_in h apiKey (expected_access e) rq w = inl c ->
  (e ∈ open_endpoints -> c = None) /\
  (e ∉ open_endpoints -> exists who, c = Some who /\ signed_in h apiKey rq w = inl who /\
     (e ∈ admin_endpoints -> c_Role who = "admin")).
Proof.
  intros Ha%admit_spec. unfold expected_access in Ha.
  destruct (decide (e ∈ open_endpoints)) as [Ho|Ho]; [|destruct (decide (e ∈ admin_endpoints)) as [Hd|Hd]];
    destruct Ha as [[Ha Hc]|(Ha & who & -> & Hs & Hadm)]; try done.
  - split; [done|]. intros _. exists who. split_and!; try done. intros _. by apply Hadm.
  - split; [done|]. intros _. by exists who.
Qed.

Lemma refused_code a rq w e : let_in h apiKey a rq w = inr e -> acr_code e = 401 \/ acr_code e = 403.
Proof.
  assert (Hs : forall e, signed_in h apiKey rq w = inr e -> acr_code e = 401 \/ acr_code e = 403).
  { intros e'. unfold signed_in, JWTAuth, APIKeyAuth. repeat case_match; intros; simplify_eq; cbn; auto. }
  unfold let_in. repeat case_match; intros; simplify_eq; cbn; eauto.
Qed.

Lemma allowed_origin method origin o :
  In ("Access-Control-Allow-Origin", o) (CORS origins method origin).1 ->
  o = origin /\ exists configured, In configured origins /\ (trim_space configured = o \/ trim_space configured = "*").
Proof.
  unfold CORS. cbn [fst]. intros [Hin|Hin]%in_app_iff; [|cbn in Hin; naive_solver].
  destruct (cors_allowed origins origin || cors_allowed origins "*") eqn:Ha; [|done].
  destruct Hin as [[= <-]|[]]. split; [done|].
  apply orb_true_iff in Ha as [Ha|Ha]; apply existsb_exists in Ha as (c & Hc & Hq%String.eqb_eq); eauto.
Qed.

(** C8: whatever the handlers do, a request reaches one only as the table allows:
    without a caller for the six open endpoints, otherwise with the caller that a
    valid token (and the API key, if one is set) names, an administrator for the
    eleven endpoints of administrators. Every other request is answered without
    any handler and without any effect; a preflight never reaches one. A browser
    of another origin is let in by name only when that origin or the star is
    configured. *)
Theorem router_guard (rq : request) (w : AccountWorld) :
  let '((headers, a), w') := run (serve_request h apiKey origins handlers rq) w in
  (forall o, In ("Access-Control-Allow-Origin", o) headers ->
     o = rq_origin rq /\ exists configured, In configured origins /\ (trim_space configured = o \/ trim_space configured = "*")) /\
  match a with
  | Handled rsp => rq_method rq <> "OPTIONS" /\ exists e caller,
      run (handlers e caller) w = (rsp, w') /\
      (e ∈ open_endpoints -> caller = None) /\
      (e ∉ open_endpoints -> exists who, caller = Some who /\ signed_in h apiKey (rq_http rq) w = inl who /\
         (e ∈ admin_endpoints -> c_Role who = "admin"))
  | Refused e => w' = w /\ (acr_code e = 401 \/ acr_code e = 403)
  | NoContent => w' = w /\ rq_method rq = "OPTIONS"
  | NoRoute => w' = w
  end.
Proof.
  unfold serve_request. pose proof (allowed_origin (rq_method rq) (rq_origin rq)) as Ho.
  destruct (CORS origins (rq_method rq) (rq_origin rq)) as [headers goes_on] eqn:Ec. cbn [fst] in Ho.
  injection Ec as _ <-. destruct (String.eqb_spec (rq_method rq) "OPTIONS") as [Hm|Hm]; cbn [negb].
  { by rewrite run_bind, !run_ret. }
  destruct (find_route NewRouter (rq_method rq) (rq_path rq)) as [r|] eqn:Ef; [|by rewrite run_bind, !run_ret].
  apply find_registered in Ef as [Hr _]. apply table_access in Hr.
  unfold serve_route. rewrite !run_bind, run_act. cbn [st_get].
  destruct (let_in h apiKey (rt_access r) (rq_http rq) w) as [c|e] eqn:Ea.
  - rewrite run_bind. destruct (run (handlers (rt_endpoint r) c) w) as [rsp w'] eqn:Eh. rewrite !run_ret.
    split; [done|]. split; [done|]. exists (rt_endpoint r), c. split; [done|].
    rewrite Hr in Ea. by apply admit_table.
  - rewrite !run_ret. split; [done|]. split; [done|]. by eapply refused_code.
Qed.
End promises.

(** ** A server without a secret *)

(** [run] only logs that the secret is missing, so the server starts with the
    one in the source. *)
Lemma starts_without_secret env steps so :
  run_server env steps = Ok so -> Getenv env "JWT_SECRET" = "" -> so_jwtSecret so = default_secret.
Proof.
  unfold run_server. intros Hrun Hk. destruct (first_some _ _); simplify_eq. cbn [so_jwtSecret].
  unfold Load, settings. destruct (resolveWorkers env). cbn [fst JWTSecret]. by apply envStr_default.
Qed.

(** C14: a server started without JWT_SECRET runs, although [Load] reports an
    error, and lets anybody in as administrator: a token that somebody without an
    account signs with the secret printed in the source passes the middleware
    with the id, the name and the role they chose. *)
Theorem default_secret_forged `{JwtLibrary} env steps so id name t0 token t :
  jwt_verifies -> jwt_expires -> run_server env steps = Ok so -> Getenv env "JWT_SECRET" = "" ->
  0 <= id <= i64_max -> utf8 name -> 0 <= unix_ns t0 -> unix_ns t < (unix_sec t0 + 86400) * Second ->
  SignedString "change-me-in-production"
    (login_claims (mkUser id name "" "" "admin" false zero_time zero_time) t0) = Ok token ->
  (Load env).2 <> None /\ JWTAuth (so_jwtSecret so) ("Bearer " +:+ token) t = inl (mkCaller id name "admin").
Proof.
  intros Hv Hx Hrun Hk Hid Hname Hn Ht Hs. split.
  - intros [_ []]%Load_error. unfold settings. destruct (resolveWorkers env). cbn [JWTSecret]. by apply envStr_default.
  - rewrite (starts_without_secret _ _ _ Hrun Hk).
    assert (Hadm : utf8 "admin") by (apply utf8_plain; repeat constructor).
    rewrite (signed_accepted default_secret (mkUser id name "" "" "admin" false zero_time zero_time) t0 token t Hv Hx Hid Hname Hadm Hn Hs).
    by rewrite (proj2 (Z.ltb_lt _ _) Ht).
Qed.

(** ** Tokens with a signature *)

(** HS256 over a header and the claims in JSON: an instance of the library in
    which a token signed with another secret is refused. *)
Definition hs256_sign (secret input : string) : string :=
  EncodeToString RawURLEncoding (bytes_string (hmac_sha256 (string_bytes secret) (string_bytes input))).

Definition hs256_parse (secret token : string) (t : Z) : option (list (string * json)) :=
  match split_on (chr 46) token with
  | [header; claims; signature] =>
    if String.eqb signature (hs256_sign secret (header +:+ dot +:+ claims))
    then payload ← DecodeString RawURLEncoding claims; claims_in t payload
    else None
  | _ => None
  end.

Definition hs256_token (secret : string) (claims : list (string * json)) : string :=
  let input := EncodeToString RawURLEncoding jwt_header +:+ dot +:+
               EncodeToString RawURLEncoding (struct_text (map member_text claims)) in
  input +:+ dot +:+ hs256_sign secret input.

Definition hs256 : JwtLibrary := {|
  SignedString := fun secret claims => Ok (hs256_token secret claims);
  ParseHMAC := hs256_parse
|}.

Lemma Ok_inj {A} (x y : A) : Ok x = Ok y -> y = x.
Proof. by intros [=]. Qed.

Lemma hs256_parses secret claims exp token t : @SignedString hs256 secret claims = Ok token ->
  AccountsFlow.claims_ok claims -> jget "exp" claims = Some (JNum (itoa exp)) ->
  hs256_parse secret token t = if t <? exp * Second then Some claims else None.
Proof.
  intros Hs Hc He. assert (token = hs256_token secret claims) as -> by (by apply Ok_inj in Hs).
  unfold hs256_parse, hs256_token. cbv zeta.
  rewrite !string_app_assoc, !split_on_part by apply encode_text, _.
  rewrite split_on_alone by apply b64_dotless, encode_text, _. rewrite String.eqb_refl.
  rewrite (Base64.decode_encode RawURLEncoding). by apply claims_in_ok.
Qed.

Lemma hs256_verifies : @jwt_verifies hs256.
Proof.
  intros secret claims token exp t Hs Hc He Ht. exists claims. split; [|done]. cbn.
  rewrite (hs256_parses _ _ _ _ _ Hs Hc He). by rewrite (proj2 (Z.ltb_lt _ _)).
Qed.

Lemma hs256_expires : @jwt_expires hs256.
Proof.
  intros secret claims token exp t Hs Hc He Ht. cbn. rewrite (hs256_parses _ _ _ _ _ Hs Hc He).
  by rewrite (proj2 (Z.ltb_ge _ _)).
Qed.

(** An environment that names one worker and leaves the secret out; every step
    of the start succeeds. *)
Definition bare_environment : environment := {[ "K6_WORKERS" := "worker-1:6565" ]}.
Definition good_start : start_results := mkStart None None None None None.
Definition intruder : User := mkUser 7 "mallory" "" "" "admin" false zero_time zero_time.

Definition signed_by (secret : string) : string := hs256_token secret (login_claims intruder (mkTime 0 UTC)).

(** The forged token opens the server without a secret, and not one that has its own. *)
Lemma default_secret_forged_witness :
  (exists so, run_server bare_environment good_start = Ok so /\
     (@JWTAuth hs256 (so_jwtSecret so) ("Bearer " +:+ signed_by default_secret) (mkTime Second UTC)) =
       inl (mkCaller 7 "mallory" "admin")) /\
  @JWTAuth hs256 "another" ("Bearer " +:+ signed_by default_secret) (mkTime Second UTC) =
    inr (account_error "invalid token" 401).
Proof.
  split; [|vm_compute; reflexivity].
  assert (Hrun : exists so, run_server bare_environment good_start = Ok so) by (eexists; vm_compute; reflexivity).
  destruct Hrun as [so Hrun]. exists so. split; [exact Hrun|].
  refine (proj2 (@default_secret_forged hs256 bare_environment good_start so 7 "mallory" (mkTime 0 UTC)
    (signed_by default_secret) (mkTime Second UTC) hs256_verifies hs256_expires Hrun eq_refl _ _ _ _ eq_refl)).
  - i64_lia.
  - apply utf8_plain. repeat constructor.
  - cbn. lia.
  - reflexivity.
Defined.

(** ** A matcher, and one request to an endpoint of administrators *)

Definition parameter (segment : string) : bool := match segment with String c _ => Ascii.eqb c (chr 123) | EmptyString => false end.

Fixpoint fits (pattern path : list string) : bool :=
  match pattern, path with
  | [], [] => true
  | [p], _ :: _ => String.eqb p "*" || ((String.eqb p (hd "" path) || parameter p) && (length path =? 1)%nat)
  | p :: pattern, s :: path => (String.eqb p s || parameter p) && fits pattern path
  | _, _ => false
  end.

#[local] Instance first_fit : Mux.
Proof.
  refine {| find_route := fun rs m p =>
    List.find (fun r => String.eqb (rt_method r) m && fits (split_on (chr 47) (rt_pattern r)) (split_on (chr 47) p)) rs |}.
  intros rs m p r [Hin Hf]%find_some. apply andb_true_iff in Hf as [Hm%String.eqb_eq _]. done.
Defined.

Definition reset_request (token : string) : request :=
  mkRequest "POST" "/api/resetdata" "https://shiva.example.org" (mkHttp token "").

Notation asks token :=
  (run (@serve_request hs256 first_fit _ mail_handler "" ["https://shiva.example.org"] (fun e c => mret (e, c))
     (reset_request token)) fresh_world).

Definition token_with_role (role : string) : string :=
  "Bearer " +:+ hs256_token (ah_jwtSecret mail_handler) (login_claims (ada <| u_Role := role |>) (account_now fresh_world)).

(** Without a token, as a user and as an administrator. *)
Example reset_data_access :
  (asks "").1.2 = Refused (account_error "missing authorization header" 401) /\
  (asks (token_with_role "user")).1.2 = Refused (account_error "admin access required" 403) /\
  (asks (token_with_role "admin")).1.2 = Handled (EResetData, Some (mkCaller 1 "ada" "admin")).
Proof. split_and!; vm_compute; reflexivity. Qed.

Lemma router_guard_witness :
  exists who, @signed_in hs256 mail_handler "" (rq_http (reset_request (token_with_role "admin"))) fresh_world = inl who /\
    c_Role who = "admin".
Proof.
  pose proof (@router_guard hs256 first_fit _ mail_handler "" ["https://shiva.example.org"] (fun e c => mret (e, c))
    (reset_request (token_with_role "admin")) fresh_world) as Hg.
  assert (Hr : asks (token_with_role "admin") =
    (((CORS ["https://shiva.example.org"] "POST" "https://shiva.example.org").1,
      Handled (EResetData, Some (mkCaller 1 "ada" "admin"))), fresh_world)) by (vm_compute; reflexivity).
  rewrite Hr in Hg. destruct Hg as [_ (_ & e & c & He & _ & Hc)].
  injection He as -> ->. destruct Hc as (who & _ & Hs & Hadm); [by apply (bool_decide_unpack _); vm_compute|].
  exists who. split; [exact Hs|]. apply Hadm. by apply (bool_decide_unpack _); vm_compute.
Defined.
